(* ===== verification/_CoqProject ===== *)
-Q . S2P
Prelude.v
CMonad.v
NftlTypes.v
NftlAlloc.v
NftlLog.v
NftlDl.v
NftlMtl.v
NftlTables.v
MtdDev.v
NftlState.v
MtdSim.v
NandLaws.v
ChipLaws.v
NftlFlash.v
NftlFlashSpec.v
NftlGarbage.v
NftlTold.v
NftlInv.v
NftlGarbageSpec.v
NftlMap.v
NftlMapSpec.v
NftlMapUpdate.v
NftlMapContract.v
NftlData.v
NftlDataSpec.v
NftlDataMerge.v
NftlDataShrink.v
NftlDataWrite.v
NftlDataContract.v
NftlMount.v
NftlCore.v
NftlCoreSpec.v
NftlMountSpec.v
NftlPersist.v
NftlRemount.v
NftlRemountSpec.v
NftlCycle.v
NftlResources.v
NftlHistory.v
NftlDevice.v
NftlLimits.v
DevIO.v
MagusClock.v
MagusClockSpec.v
MagusCpufreq.v
MagusCpufreqSpec.v
MagusGpio.v
MagusGpioSpec.v
MagusRtc.v
MagusRtcSpec.v
MagusRtcProbe.v
MagusDma.v
MagusDmaSpec.v
MagusGpt.v
MagusGptSpec.v
MagusIntc.v
MagusIntcSpec.v
MagusSdhc.v
MagusSdhcQuiet.v
MagusSdhcSpec.v
MagusSslsd.v
MagusSslsdSpec.v
MagusSslsdStack.v
MagusSslsdProbe.v
