(* ===== verification/Prelude.v ===== *)
(** * The NAND flash translation layer and the drivers of the SSD1935 platform

    A model of [src/BSP/oss/nftl/nftlmount.c] (the translation layer, called
    NFTL) and [src/BSP/oss/nftl/nftlcore.c] (its block device), and of the
    drivers of the SoC (called Magus): clocks, CPU frequency scaling, pins, DMA,
    timer and interrupt controller of [arch/arm/mach-magus] and the real time
    clock of [drivers/rtc/ssl] in [src/linux-2.6.24-ssl], and the SD host
    controller and its card driver in [src/BSP/oss/sdhc]; with the theorems that
    make them correct.

    ** The program

    A raw NAND chip is programmed a page at a time, a page once per erase, and
    erased a block at a time.  NFTL presents it as an array of logical pages
    that can be written in any order.  A logical block (LBA) has a _data block_
    that holds its pages in order, and possibly a _log block_ that takes the
    pages written since.  Where the data blocks are is kept in the _mapping
    table_, which itself lives in flash: in MapTab blocks, and in MTLog blocks
    for the table pages updated since; one table page is cached in RAM.  Blocks
    that have been superseded are listed in RAM and on the pages of the
    GarbageTab block until enough of them are erased together.  The spare area
    of every page says what it is, and [NFTL_mount] rebuilds the tables in RAM
    from it.  On top, [nftlcore.c] serves 512-byte-sector requests through one
    write-back page cache and one read page cache.

    The drivers read and write registers: [clock.c] sets the dividers behind
    one PLL, [cpufreq.c] picks the PLL output and the divider for a CPU clock,
    [gpio.c] and [ssl_gpio.c] give pins a function, [dma.c] hands out and
    programs the channels of the DMA controller, [rtc.c] and [ssl_rtc.c] keep
    the time, the alarm and the periodic interrupt, [gpt.c] is the timer behind
    the system tick of [time.c] and behind delays, [intc.c] and [irq.c] are the
    interrupt controller and the chained interrupts of the pins.  [sdhc.c]
    starts commands of an SD card and finishes them from its interrupt, and
    [ssl_sd.c] serves with it the requests of the kernel's MMC core, a scatter
    list entry at a time.  They share no state with NFTL; among them [cpufreq.c]
    uses [clock.c], [irq.c] and [time.c] use [gpio.c], [ssl_sd.c] uses [sdhc.c].

    ** The files

    Foundations.
    - [Prelude] (this file): machine integers, arrays, arithmetic automation.
    - [CMonad]: the state-and-fault monad the code is written in, its loops,
      and [wp], total-correctness weakest preconditions.  [Done a s] is a
      normal return; [Crash] is an access outside an array, an unchecked
      [NULL], or exhausted fuel; a run that crashes satisfies no [wp].
    - [MtdDev]: the driver and [kmalloc] as a class [World] (code outside the
      repository's NFTL), and [mtd_read], [mtd_write], [mtd_erase] over it.
      [NandLaws] states the documented behaviour of a NAND chip behind that
      interface; [MtdSim] is a concrete chip and [ChipLaws] shows that it obeys
      the laws, so that the hypotheses of every theorem can be met.

    Components, each with the functions of the source of the same names.
    - [NftlTypes]: constants, block types, the layout of the spare area.
    - [NftlAlloc]: [blockstatus], [free_blkcnt], [lastfree] (lines 281-300,
      1145-1396).
    - [NftlDl]: [dl_blocktab] and [dl_transtab], the index of the log blocks
      (lines 1970-2128); [NftlMtl]: [mt_pbas], [mtl_blocktab], [mtl_transtab]
      (lines 1556-1744); [NftlLog]: the shape both have, as a list of groups.
    - [NftlState]: the globals of the module in one record, and the lenses
      [onA], [onD], [onM], [onG], [onC], [onF] with which each component runs
      on its own part.
    - [NftlFlash]: copying pages and recovering from failures of programming
      (lines 845-1056).
    - [NftlGarbage]: the garbage list (lines 1058-1141, 1413-1554).
    - [NftlMap]: the mapping table in flash (lines 1746-1968, 2130-2236).
    - [NftlData]: logical pages (lines 2238-2837): merging a log block,
      reading, writing, and the loops that keep the log small.
    - [NftlMount]: [NFTL_mount] (lines 2839-3292).
    - [NftlCore]: [nftlcore.c].  It reaches the layer below through the class
      [PageStore]; [nftl_store] is the instance the driver is linked with.

    Specifications.
    - [NftlInv]: the invariant.  A ghost state gives every physical block one
      owner (free, mapping table, either log, data, garbage list, garbage
      table); the tables in RAM name only blocks they own, pages not used
      yet are erased, and the flash tells the tables: the spare areas of every
      block say what [NFTL_mount] must read there ([NftlTold], block by block).  [NftlMapSpec.mt_inv] adds that the table in flash is a
      map from logical to physical blocks, [NftlDataSpec.ftl] the DataLog; and
      [NftlDataSpec.logical] is the abstract disk: a partial function from
      logical pages to contents.
    - [NftlFlashSpec], [NftlGarbageSpec], [NftlMapSpec], [NftlMapUpdate],
      [NftlDataSpec], [NftlDataMerge], [NftlDataShrink], [NftlDataWrite]: what
      each operation does to the invariant and to the abstract disk.
    - [NftlMapContract] and [NftlDataContract]: the contracts the layers above
      use; [NftlCoreSpec]: the block device against [PageStoreLaws], the contract
      of a page layer for the pages that fit it.
    - [NftlTables]: the search and the four updates of the DataLog table against
      references on lists; [NftlLimits]: examples of a chip on which that table
      overflows, and of one whose free blocks run out beside garbage.
    - [NftlMountSpec]: mounting an erased chip.  [NftlPersist]: the states
      between operations ([settled]); [NftlRemount] rebuilds one log block,
      [NftlRemountSpec] the whole state; [NftlCycle] joins them with writes to
      a power cycle.
    - [NftlResources] counts the blocks of a settled state; [NftlHistory] runs
      whole histories of writes, reads and power failures against the disk
      they should leave.
    - [NftlDevice]: the layer keeps [PageStoreLaws] for the pages such a history
      may write, and the device on top of it is run from its requests to the
      flash.

    The drivers, each with a file for the code and one for its theorems.
    - [DevIO]: [io_rd32] and [io_wr32] over a class [Bus] (the hardware);
      [Registers], what a driver relies on: a plain register reads as last
      written but for its volatile bits, and the others do not change; the
      waits for a bit to clear; a concrete bus that obeys the laws.
    - [MagusClock], [MagusClockSpec]: [clock.c].
    - [MagusCpufreq], [MagusCpufreqSpec]: [cpufreq.c], over [MagusClock].
    - [MagusGpio], [MagusGpioSpec]: [gpio.c] and [ssl_gpio.c].
    - [MagusRtc], [MagusRtcSpec]: [rtc.c] and [ssl_rtc.c].
    - [MagusRtcProbe]: [sslrtc_probe] and [sslrtc_remove], and the resources
      they hold ([Ledger]).
    - [MagusDma], [MagusDmaSpec]: [dma.c]; the callback of a client is the
      class [DmaClient].
    - [MagusGpt], [MagusGptSpec]: [gpt.c] and the system timer of [time.c].
    - [MagusIntc], [MagusIntcSpec]: [intc.c] and [irq.c]; what the kernel does
      with an interrupt is the class [IrqCore].
    - [MagusSdhc]: [sdhc.c], with the commands and data of its client on a heap
      of their own, as both sides hold pointers to them, and the callback of the
      client as the class [SdClient].  [MagusSdhcQuiet]: what its operations
      leave alone, and how a command is taken; [MagusSdhcSpec]: how commands are
      answered, to any client that keeps the terms of the class [Client], and
      the encodings.
    - [MagusSslsd]: [ssl_sd.c], whose [sslsd_evt] is a client of [MagusSdhc],
      with [mmc_start_request] and [mmc_request_done] of [drivers/mmc/core/core.c],
      which calls the driver again for a request that failed; the rest of the MMC
      core is the class [MmcCore].  [MagusSslsdSpec]: what becomes of a request;
      [MagusSslsdStack]: the driver is a [Client], and the two drivers run
      together; [MagusSslsdProbe]: probing, removal and power attribute, with the
      functions of [drivers/mmc/core/host.c] and [core.c] that register a host,
      and the resources held ([SdLedger]).

    ** What the theorems show

    - The disk: a write succeeds, the page reads back and every other written
      page keeps its contents, through merges, conversions of log blocks and
      reclamation ([write_logicpage_correct], [write_read_logicpage],
      [read_logicpage_correct], [merge_dlblk_preserves], [write_all_correct]);
      the shrinking loops end ([shrink_ends]).
    - Power: an erased chip mounts to an empty disk ([mount_erased]); whatever
      operations came before, a power failure between two of them and a mount
      give the same disk and the same owners of all blocks back
      ([remount_preserves]); mount, a few writes, power loss, mount also leave
      the pages never written at 0xFF ([power_cycle]).
    - Histories: any number of writes, reads and power failures between
      operations succeed and leave the disk that was written, provided the
      history keeps clear of the defects below ([history_correct]).
    - The mapping table refines a map ([lba_to_pba_correct],
      [update_mt_correct], [update_mt_lookup], [merge_mtlblk_preserves]).
    - Failures of programming: the retry loops return and lose nothing,
      whatever fails ([write_error_recovers], [copyback_error_recovers]).
    - The tables in RAM: what is inserted, appended, updated or deleted is
      what the searches find; the search and the update agree with references
      ([find_lpa_equiv], [update_dl_ram_refines]).
    - The allocator and the garbage list: counters agree with the table, a
      block handed out was free, retired blocks return to the free table.
    - The block device implements the pages overlaid with its write cache, over
      any page layer that keeps its contract ([writesect_correct],
      [readsect_correct], [flush_correct]); linked with NFTL, sectors and pages
      written in any order are read back ([device_correct]); the geometry covers
      the disk.
    - Defects of the code, as theorems: a write that is lost
      ([convert_loses_write]), a stale read cache ([readsect_stale]), a miscounted
      allocator ([set_block_bad_miscounts], [get_free_block_bad_lastfree]); and as
      examples: a table that overflows ([dl_table_overflows]), free blocks that run
      out while garbage waits ([garbage_not_reclaimed]).
    - The clocks: a request becomes the slowest clock of the divider that is not
      below it and no other clock changes ([set_clk_closest],
      [set_hclk_correct], [set_system_clk_closest]), but a request above the
      parent becomes the slowest of all ([set_clk_above_parent]); every row of
      the frequency table is reached exactly ([compute_pllr_exact],
      [set_target_exact]).
    - The pins: configuring a mask is configuring its pins one by one
      ([cfg_pins_correct]), function codes mean what they say
      ([gpio_fn_correct], [direction_output_correct]), and the bitmap of the
      pins in use is one bit per pin ([gpio_request_correct]).
    - The clock chip, whose counters advance: a time that is read is that of a
      moment of the reading, unless midnight falls into it ([gettime_moments]); setting the time never reports a failure
      ([set_time_never_fails]); the alarm round trip ([rtc_alarm_roundtrip]), the
      periodic interrupt ([pie_off_correct]).
    - DMA: channels are given out once and given back, and the parameters are
      checked ([dma_request_correct], [dma_request_free], [fifoparm_correct]).
    - The timer: the rate of the system tick ([sys_start_correct]), the count of
      the users of the profiling timer ([profile_users]), and the delay, which
      waits, and never returns when the counter has to wrap ([udelay_waits]).
    - Interrupts: every pin whose status is set is handled once, in order
      ([gpio_isr_correct]); the answer of the controller's initialisation
      ([intc_init_correct]), right except at the time limit.
    - SD: every command the controller driver took is answered once, whatever
      the controller reports ([commands_answered]); the settings of clock and
      time-out ([sdhc_div_correct], [sdhc_tout_correct]), the long response
      ([long_response_words]), and a write by the processor that is started as
      DMA ([pio_write_mode]).  A request of the MMC core is answered once, however
      often it is tried again; an attempt carries blocks in order and each once,
      and the answer has no error exactly when the last carried all
      ([request_correct]).  The two drivers and the core together return from every
      interrupt and time-out, answer the request once, and ask for no transfer
      outside its list, whatever the registers read ([answered_once]).
    - Probing and removal: what is held after each outcome ([probe_resources],
      [sd_probe_resources]).

    ** Modelling choices and bounds

    - The configuration is the one the source sets: MAGUS_LINUX defined,
      BIT_STATUS undefined.  Unsigned C objects are [Z] with the conversions
      [u8], [u16], [u32] where the compiler inserts them; array accesses are
      checked and fault outside the array; uninitialised automatic storage is
      whatever [wd_stack] says; the result of [kmalloc] may be [NULL], and
      using an unchecked [NULL] is a fault.
    - Fuel: the retry loops of write errors have RETRY_FUEL = 4097 rounds, one
      more than there are blocks, since every round marks a block bad; the
      loops that shrink the table have one round per log block and one more,
      since every round removes one; a page loop of the mount has one round
      more than a block has pages, since every round counts a page.  The
      theorems are total: they exclude exhausted fuel.
    - Theorems about the layer assume a chip in working order ([nd_good],
      [nd_wgood]) unless they are about failures; the recovery theorems assume
      nothing of the kind.
    - [nand_geo] and [mountable] bound the geometry: pages of at most 4096
      bytes, at most 128 pages in a block, fewer than 4096 blocks (the length of
      [blockstatus]), spare areas of 5 to 256 bytes, and a nonzero page size, by
      which the code divides.
    - Writes are given [reserve]: enough free blocks for the merges they may
      trigger.  [power_cycle] is for writes that trigger no merge.  A history
      needs good blocks for the mapping table twice over, one for each logical
      block written, and OVERHEAD = 170 more: 32 log blocks besides data
      blocks, fewer than 128 of garbage with its table, and the reserve.
    - Power fails between operations: a failure inside one, which may leave a
      page half programmed or a block half erased, is not covered.
    - The drivers' unbounded waits ([poll_clear], for a bit the hardware clears)
      have fuel as a parameter, and their theorems the hypothesis that the
      hardware clears the bit within it; bounded waits are as bounded as in the
      source.  Interrupt locks and spin locks are not modelled: an operation
      runs alone.  ISR_FUEL = 32 rounds cover the 32 pins of a port.  The wait
      of [sdhc_dmawait] ends when the DMA address stands still for 200 rounds:
      its theorems take the address to move forward within [0..lim], and fuel
      for 202 rounds for each place.
    - A request of the MMC core is for a memory card; [report] says of a
      transfer how many of its blocks were carried and with what result.  The
      theorem needs, for each attempt, one report for every block and one retry
      each, and one more; the recursion of [mmc_request_done] has as much fuel as
      the request has retries left.  The checks ([BUG_ON]) and the LED of the core
      are left out.
    - [PageStoreLaws] promises nothing of a page that does not fit, because NFTL
      does not ([convert_loses_write]); for NFTL a page fits when [write_ok] says so
      of the pages written before it.  The write cache hands other pages to NFTL
      than those of the request: [requests_writes] follows them.
    - [NandLaws] takes the spare area to read back in full; the driver stores as
      many bytes of it as its layout leaves free of check sums, which is enough for
      the ones the layer uses (the first five).
    - The clients of [commands_answered] submit one command at a time, also
      from their callback.  [request_correct] takes each transfer from the
      controller's report on, [answered_once] from the controller's registers;
      it bounds no number of interrupts, as the controller may report none.

    ** Not modelled

    The printing functions and [mtd_verify_clear] (no caller);
    the registration with the kernel's block layer; [nftlmount_app.c] and
    [nftlcore_app.c], copies for another partition; the vendored kernel,
    boot loaders, applications and libraries of the repository; the probing of
    the pins, DMA, timer and frequency drivers, which only registers them; and
    the drivers (display, SPI, touch, sound) whose effect is the hardware's.

    ** What could come next

    A power failure inside an operation: the order in which an operation
    programs and erases is in the definitions, but the laws of the chip say
    nothing of a torn page.  A power failure while the block device holds a page
    in its write cache, and reads between the writes of [device_correct], where
    [readsect_stale] says what goes wrong. *)

From Stdlib Require Import ZArith Lia Bool.
From stdpp Require Import base numbers list.

#[global] Open Scope Z_scope.

Declare Scope c_scope.
Delimit Scope c_scope with C.

(** ** Machine integers

    A C object of unsigned type is a [Z] in range; the conversions below are
    the ones the compiler inserts at an assignment. *)

Definition u8 (x : Z) : Z := x mod 2 ^ 8.
Definition u16 (x : Z) : Z := x mod 2 ^ 16.
Definition u32 (x : Z) : Z := x mod 2 ^ 32.
Definition s32 (x : Z) : Z := (x + 2 ^ 31) mod 2 ^ 32 - 2 ^ 31.
(** C truth value of a comparison. *)
Definition truth (x : Z) : bool := negb (x =? 0).

Definition in_u8 (x : Z) : Prop := 0 <= x < 2 ^ 8.
Definition in_u16 (x : Z) : Prop := 0 <= x < 2 ^ 16.
Definition in_u32 (x : Z) : Prop := 0 <= x < 2 ^ 32.

Create HintDb cint.

Lemma u8_range x : in_u8 (u8 x).
Proof. apply Z.mod_pos_bound; lia. Qed.
Lemma u16_range x : in_u16 (u16 x).
Proof. apply Z.mod_pos_bound; lia. Qed.
Lemma u32_range x : in_u32 (u32 x).
Proof. apply Z.mod_pos_bound; lia. Qed.
Lemma u8_id x : in_u8 x -> u8 x = x.
Proof. apply Z.mod_small. Qed.
Lemma u16_id x : in_u16 x -> u16 x = x.
Proof. apply Z.mod_small. Qed.
Lemma u32_id x : in_u32 x -> u32 x = x.
Proof. apply Z.mod_small. Qed.

#[export] Hint Resolve u8_range u16_range u32_range : cint.

(** [cint_lia] solves linear goals that mention the wrap-around conversions
    applied to values known to be in range. *)
Ltac cint_norm :=
  unfold in_u8, in_u16, in_u32 in *;
  repeat match goal with
  | |- context [u8 ?x] => rewrite (u8_id x) by (unfold in_u8; lia)
  | |- context [u16 ?x] => rewrite (u16_id x) by (unfold in_u16; lia)
  | |- context [u32 ?x] => rewrite (u32_id x) by (unfold in_u32; lia)
  | H : context [u8 ?x] |- _ => rewrite (u8_id x) in H by (unfold in_u8; lia)
  | H : context [u16 ?x] |- _ => rewrite (u16_id x) in H by (unfold in_u16; lia)
  | H : context [u32 ?x] |- _ => rewrite (u32_id x) in H by (unfold in_u32; lia)
  end.
Ltac cint_lia := cint_norm; lia.

(** Boolean comparisons of [Z] to propositions, in the context and the goal. *)
Ltac zbool :=
  repeat match goal with
  | H : (_ && _) = true |- _ => apply andb_true_iff in H; destruct H
  | H : (_ || _) = false |- _ => apply orb_false_iff in H; destruct H
  | H : negb _ = true |- _ => apply negb_true_iff in H
  | H : negb _ = false |- _ => apply negb_false_iff in H
  | H : (_ =? _) = true |- _ => apply Z.eqb_eq in H
  | H : (_ =? _) = false |- _ => apply Z.eqb_neq in H
  | H : (_ <? _) = true |- _ => apply Z.ltb_lt in H
  | H : (_ <? _) = false |- _ => apply Z.ltb_ge in H
  | H : (_ <=? _) = true |- _ => apply Z.leb_le in H
  | H : (_ <=? _) = false |- _ => apply Z.leb_gt in H
  | H : (_ >? _) = true |- _ => rewrite Z.gtb_ltb in H
  | H : (_ >? _) = false |- _ => rewrite Z.gtb_ltb in H
  | H : (_ >=? _) = true |- _ => rewrite Z.geb_leb in H
  | H : (_ >=? _) = false |- _ => rewrite Z.geb_leb in H
  end.

(** Linear goals with [/] and [mod] by constants. *)
Ltac zdiv_lia := Z.to_euclidean_division_equations; lia.

(** ** C arrays

    An array is the list of its elements; an access outside the array is
    undefined behaviour in C and yields [None] here. *)

Section Arrays.
Context {A : Type}.
Implicit Types (l : list A) (i : Z) (x : A).

Definition arr_len l : Z := Z.of_nat (length l).

Definition arr_get l i : option A :=
  if (0 <=? i) then l !! Z.to_nat i else None.

Definition arr_set l i x : option (list A) :=
  if (0 <=? i) && (i <? arr_len l) then Some (<[Z.to_nat i := x]> l) else None.

Lemma arr_get_nat l (n : nat) : arr_get l (Z.of_nat n) = l !! n.
Proof.
  unfold arr_get. destruct (0 <=? Z.of_nat n) eqn:E; zbool; [|lia].
  by rewrite Nat2Z.id.
Qed.

Lemma arr_get_Some l i x :
  arr_get l i = Some x -> 0 <= i < arr_len l.
Proof.
  unfold arr_get, arr_len. destruct (0 <=? i) eqn:E; [|done]. zbool.
  intros H%lookup_lt_Some. lia.
Qed.

Lemma arr_get_split l i x : arr_get l i = Some x ->
  exists l1 l2, l = l1 ++ x :: l2 /\ i = arr_len l1 /\ Z.to_nat i = length l1.
Proof.
  intros H. pose proof (arr_get_Some _ _ _ H) as Hi. unfold arr_get in H. destruct (0 <=? i); [|done].
  exists (take (Z.to_nat i) l), (drop (S (Z.to_nat i)) l). pose proof (lookup_lt_Some _ _ _ H).
  split; [by rewrite take_drop_middle|]. unfold arr_len in *. rewrite length_take. lia.
Qed.

Lemma arr_get_in l i : 0 <= i < arr_len l -> exists x, arr_get l i = Some x.
Proof.
  unfold arr_get, arr_len. intros H. destruct (0 <=? i) eqn:E; zbool; [|lia].
  apply lookup_lt_is_Some. lia.
Qed.

Lemma arr_get_out l i : ~ 0 <= i < arr_len l -> arr_get l i = None.
Proof.
  unfold arr_get, arr_len. intros H. destruct (0 <=? i) eqn:E; zbool; [|done].
  apply lookup_ge_None. lia.
Qed.

Lemma arr_set_in l i x :
  0 <= i < arr_len l -> arr_set l i x = Some (<[Z.to_nat i := x]> l).
Proof.
  intros H. unfold arr_set.
  destruct ((0 <=? i) && (i <? arr_len l)) eqn:E; [done|].
  apply andb_false_iff in E as [E|E]; zbool; lia.
Qed.

Lemma arr_set_Some l i x l' :
  arr_set l i x = Some l' -> 0 <= i < arr_len l /\ l' = <[Z.to_nat i := x]> l.
Proof.
  unfold arr_set. destruct (_ && _) eqn:E; [|done]. intros [= <-]. zbool. done.
Qed.

Lemma arr_set_len l i x l' : arr_set l i x = Some l' -> arr_len l' = arr_len l.
Proof.
  intros [_ ->]%arr_set_Some. unfold arr_len. by rewrite length_insert.
Qed.

Lemma arr_get_set l i j x l' :
  arr_set l i x = Some l' ->
  arr_get l' j = if j =? i then Some x else arr_get l j.
Proof.
  intros [Hi ->]%arr_set_Some. unfold arr_get, arr_len in *.
  destruct (j =? i) eqn:E; zbool.
  - subst j. destruct (0 <=? i) eqn:E; zbool; [|lia].
    apply list_lookup_insert_eq. lia.
  - destruct (0 <=? j) eqn:Ej; zbool; [|done].
    apply list_lookup_insert_ne. lia.
Qed.

(** The loop [for (i = hi; i > k; i--) a[i] = a[i-1];] *)
Fixpoint arr_move_down_n (n : nat) l i : option (list A) :=
  match n with
  | O => Some l
  | S n' => x ← arr_get l (i - 1); l' ← arr_set l i x; arr_move_down_n n' l' (i - 1)
  end.
Definition arr_move_down l k hi := arr_move_down_n (Z.to_nat (hi - k)) l hi.

(** The loop [for (i = k; i < n; i++) a[i] = a[i+d];] *)
Fixpoint arr_move_up_n (m : nat) l i d : option (list A) :=
  match m with
  | O => Some l
  | S m' => x ← arr_get l (i + d); l' ← arr_set l i x; arr_move_up_n m' l' (i + 1) d
  end.
Definition arr_move_up l k n d := arr_move_up_n (Z.to_nat (n - k)) l k d.
End Arrays.

Create HintDb carr.
#[export] Hint Resolve arr_set_len arr_set_in arr_get_in : carr.

(** Splitting an [if] on integer comparisons and closing the arithmetic cases. *)
Ltac if_lia :=
  repeat match goal with |- context [if ?e then _ else _] => destruct e eqn:?; zbool end;
  subst; try done; try lia;
  repeat match goal with H : (_ && _) = false |- _ => apply andb_false_iff in H as [H|H]; zbool end;
  try done; try lia; try (f_equal; lia).

Section MoveLoops.
Context {A : Type}.
Implicit Types (l a b junk : list A) (i k : Z) (x : A).

Lemma arr_len_app l1 l2 : arr_len (l1 ++ l2 : list A) = arr_len l1 + arr_len l2.
Proof. unfold arr_len. rewrite length_app. lia. Qed.
Lemma arr_len_cons x l : arr_len (x :: l) = 1 + arr_len l.
Proof. unfold arr_len. simpl. lia. Qed.
Lemma arr_len_nonneg l : 0 <= arr_len l.
Proof. unfold arr_len. lia. Qed.

Lemma arr_get_app l1 l2 i :
  arr_get (l1 ++ l2 : list A) i =
    if i <? arr_len l1 then arr_get l1 i else arr_get l2 (i - arr_len l1).
Proof.
  unfold arr_get, arr_len. destruct (0 <=? i) eqn:E; zbool.
  - destruct (i <? Z.of_nat (length l1)) eqn:E1; zbool.
    + apply lookup_app_l. lia.
    + destruct (0 <=? i - Z.of_nat (length l1)) eqn:E2; zbool; [|lia].
      rewrite lookup_app_r by lia. f_equal. lia.
  - destruct (i <? Z.of_nat (length l1)) eqn:E1; zbool; [done|lia].
Qed.

Lemma arr_get_cons x l i :
  arr_get (x :: l) i = if i =? 0 then Some x else arr_get l (i - 1).
Proof.
  unfold arr_get. destruct (i =? 0) eqn:E0; zbool; [by subst|].
  destruct (0 <=? i) eqn:E1, (0 <=? i - 1) eqn:E2; zbool; try lia; [|done].
  replace (Z.to_nat i) with (S (Z.to_nat (i - 1))) by lia. done.
Qed.

(** Arrays are equal when they agree at every index. *)
Lemma arr_ext l1 l2 : (forall i, arr_get l1 i = arr_get l2 i) -> l1 = l2.
Proof. intros H. apply list_eq. intros n. by rewrite <- !arr_get_nat. Qed.

Lemma arr_move_down_n_spec n l i :
  Z.of_nat n <= i -> i < arr_len l ->
  exists l', arr_move_down_n n l i = Some l' /\ arr_len l' = arr_len l /\
    forall j, arr_get l' j =
      if (i - Z.of_nat n <? j) && (j <=? i) then arr_get l (j - 1) else arr_get l j.
Proof.
  revert l i. induction n as [|n IH]; intros l i Hn Hi; simpl.
  - exists l. split_and!; [done..|]. intros j.
    destruct (_ && _) eqn:E; [zbool; lia|done].
  - destruct (arr_get_in l (i - 1)) as [x Hx]; [lia|]. rewrite Hx. simpl.
    rewrite arr_set_in by lia. simpl.
    set (l1 := <[Z.to_nat i := x]> l).
    assert (Hs : arr_set l i x = Some l1) by (apply arr_set_in; lia).
    pose proof (arr_set_len _ _ _ _ Hs) as Hl1.
    destruct (IH l1 (i - 1)) as (l' & -> & Hl' & Hj); [lia|lia|].
    exists l'. split_and!; [done|congruence|]. intros j. rewrite Hj.
    rewrite !(arr_get_set l i _ x l1 Hs).
    if_lia.
Qed.

Lemma arr_move_down_spec l k hi :
  0 <= k <= hi -> hi < arr_len l ->
  exists l', arr_move_down l k hi = Some l' /\ arr_len l' = arr_len l /\
    forall j, arr_get l' j =
      if (k <? j) && (j <=? hi) then arr_get l (j - 1) else arr_get l j.
Proof.
  intros Hk Hhi. unfold arr_move_down.
  destruct (arr_move_down_n_spec (Z.to_nat (hi - k)) l hi) as (l' & ? & ? & Hj); [lia..|].
  exists l'. split_and!; [done..|]. intros j. rewrite Hj.
  by replace (hi - Z.of_nat (Z.to_nat (hi - k))) with k by lia.
Qed.

Lemma arr_move_up_n_spec m l i d :
  0 <= i -> 0 <= d -> (m = 0%nat \/ i + Z.of_nat m + d <= arr_len l) ->
  exists l', arr_move_up_n m l i d = Some l' /\ arr_len l' = arr_len l /\
    forall j, arr_get l' j =
      if (i <=? j) && (j <? i + Z.of_nat m) then arr_get l (j + d) else arr_get l j.
Proof.
  revert l i. induction m as [|m IH]; intros l i Hi Hd Hm; simpl.
  - exists l. split_and!; [done..|]. intros j.
    destruct (_ && _) eqn:E; [zbool; lia|done].
  - destruct (arr_get_in l (i + d)) as [x Hx]; [lia|]. rewrite Hx. simpl.
    rewrite arr_set_in by lia. simpl.
    set (l1 := <[Z.to_nat i := x]> l).
    assert (Hs : arr_set l i x = Some l1) by (apply arr_set_in; lia).
    pose proof (arr_set_len _ _ _ _ Hs) as Hl1.
    destruct (IH l1 (i + 1)) as (l' & -> & Hl' & Hj); [lia..|].
    exists l'. split_and!; [done|congruence|]. intros j. rewrite Hj.
    rewrite !(arr_get_set l i _ x l1 Hs).
    if_lia.
Qed.

Lemma arr_move_up_spec l k n d :
  0 <= k -> 0 <= d -> (n <= k \/ n + d <= arr_len l) ->
  exists l', arr_move_up l k n d = Some l' /\ arr_len l' = arr_len l /\
    forall j, arr_get l' j =
      if (k <=? j) && (j <? n) then arr_get l (j + d) else arr_get l j.
Proof.
  intros Hk Hd Hn. unfold arr_move_up.
  destruct (arr_move_up_n_spec (Z.to_nat (n - k)) l k d) as (l' & ? & ? & Hj); [lia..|].
  exists l'. split_and!; [done..|]. intros j. rewrite Hj.
  if_lia.
Qed.

Lemma arr_set_mid l1 l2 x y : arr_set (l1 ++ y :: l2) (arr_len l1) x = Some (l1 ++ x :: l2).
Proof.
  rewrite arr_set_in.
  - f_equal. unfold arr_len. rewrite Nat2Z.id. by rewrite insert_app_r_alt, Nat.sub_diag by done.
  - rewrite arr_len_app, arr_len_cons. pose proof (arr_len_nonneg l1).
    pose proof (arr_len_nonneg l2). lia.
Qed.

(** Opening a slot at the end of a prefix [a] and storing [x] in it. *)
Lemma arr_insert_slot a b x y junk :
  exists l', arr_move_down (a ++ b ++ x :: junk) (arr_len a) (arr_len a + arr_len b) = Some l' /\
    arr_set l' (arr_len a) y = Some (a ++ y :: b ++ junk).
Proof.
  pose proof (arr_len_nonneg a). pose proof (arr_len_nonneg b). pose proof (arr_len_nonneg junk).
  destruct (arr_move_down_spec (a ++ b ++ x :: junk) (arr_len a) (arr_len a + arr_len b))
    as (l' & Hl' & Hlen & Hj); [lia|rewrite !arr_len_app, arr_len_cons; lia|].
  exists l'. split; [done|].
  rewrite !arr_len_app, arr_len_cons in Hlen.
  destruct (arr_set l' (arr_len a) y) as [l2|] eqn:Hs;
    [|rewrite arr_set_in in Hs by lia; done].
  f_equal. apply arr_ext. intros i. rewrite (arr_get_set _ _ _ _ _ Hs), Hj.
  rewrite !arr_get_app, !arr_get_cons, !arr_get_app.
  if_lia.
Qed.

(** Closing the slots of a deleted segment [del]. *)
Lemma arr_delete_seg a del b junk :
  exists l' junk', arr_move_up (a ++ del ++ b ++ junk) (arr_len a) (arr_len a + arr_len b) (arr_len del)
      = Some l' /\ l' = a ++ b ++ junk' /\ arr_len junk' = arr_len del + arr_len junk.
Proof.
  pose proof (arr_len_nonneg a). pose proof (arr_len_nonneg b). pose proof (arr_len_nonneg del).
  pose proof (arr_len_nonneg junk).
  destruct (arr_move_up_spec (a ++ del ++ b ++ junk) (arr_len a) (arr_len a + arr_len b) (arr_len del))
    as (l' & Hl' & Hlen & Hj); [lia..|right; rewrite !arr_len_app; lia|].
  exists l', (drop (length (a ++ b)) l'). rewrite !arr_len_app in Hlen. split_and!; [done| |].
  - rewrite app_assoc. rewrite <- (take_drop (length (a ++ b)) l') at 1. f_equal.
    apply list_eq. intros n.
    destruct (decide (n < length (a ++ b))%nat) as [Hn|Hn].
    + rewrite lookup_take_lt by done. rewrite <- !arr_get_nat, Hj.
      rewrite !arr_get_app. rewrite length_app in Hn.
      unfold arr_len in *.
      if_lia.
    + rewrite lookup_take_ge, lookup_ge_None_2 by lia. done.
  - unfold arr_len in *. rewrite length_drop, length_app. lia.
Qed.
End MoveLoops.

(** ** Search and sum loops over arrays *)
Section Loops.
Context {A : Type}.
Implicit Types (l : list A) (i : Z).

(** [for (i = lo; i < hi; i++) if (p(a[i])) break;] answers the final [i]. *)
Fixpoint arr_find_n (p : A -> bool) (n : nat) l i : option Z :=
  match n with
  | O => Some i
  | S n' => x ← arr_get l i; if p x then Some i else arr_find_n p n' l (i + 1)
  end.
Definition arr_find (p : A -> bool) l lo hi := arr_find_n p (Z.to_nat (hi - lo)) l lo.

(** [for (i = 0; i < n; i++) acc += f(a[i]);] with the accumulator's width. *)
Fixpoint arr_sum_n (w : Z -> Z) (f : A -> Z) (n : nat) l i (acc : Z) : option Z :=
  match n with
  | O => Some acc
  | S n' => x ← arr_get l i; arr_sum_n w f n' l (i + 1) (w (acc + f x))
  end.
Definition arr_sum (w : Z -> Z) (f : A -> Z) l n := arr_sum_n w f (Z.to_nat n) l 0 0.

Lemma arr_find_n_spec p n l i :
  0 <= i -> i + Z.of_nat n <= arr_len l ->
  exists k, arr_find_n p n l i = Some k /\ i <= k <= i + Z.of_nat n /\
    (forall j x, i <= j < k -> arr_get l j = Some x -> p x = false) /\
    (k < i + Z.of_nat n -> exists x, arr_get l k = Some x /\ p x = true).
Proof.
  revert i. induction n as [|n IH]; intros i Hi Hn; simpl.
  - exists i. split_and!; [done|lia|lia|intros; lia|lia].
  - destruct (arr_get_in l i) as [x Hx]; [lia|]. rewrite Hx. simpl.
    destruct (p x) eqn:Hp.
    + exists i. split_and!; [done|lia|lia|intros; lia|]. intros _. by exists x.
    + destruct (IH (i + 1)) as (k & Hk & Hr & Hno & Hyes); [lia..|].
      exists k. split_and!; [done|lia|lia| |intros; apply Hyes; lia].
      intros j y Hj Hy. destruct (decide (j = i)) as [->|]; [congruence|].
      apply (Hno j y); [lia|done].
Qed.

Lemma arr_find_spec p l lo hi :
  0 <= lo <= hi -> hi <= arr_len l ->
  exists k, arr_find p l lo hi = Some k /\ lo <= k <= hi /\
    (forall j x, lo <= j < k -> arr_get l j = Some x -> p x = false) /\
    (k < hi -> exists x, arr_get l k = Some x /\ p x = true).
Proof.
  intros Hlo Hhi. unfold arr_find.
  destruct (arr_find_n_spec p (Z.to_nat (hi - lo)) l lo) as (k & ? & ? & ? & Hy); [lia..|].
  exists k. split_and!; [done|lia|lia|done|]. intros. apply Hy. lia.
Qed.

Lemma arr_sum_n_app w f l1 l2 i acc :
  arr_sum_n w f (length l1) (l1 ++ l2) 0 acc = Some (foldl (fun c x => w (c + f x)) acc l1).
Proof.
  clear i. enough (forall pre acc, arr_sum_n w f (length l1) (pre ++ l1 ++ l2) (arr_len pre) acc
    = Some (foldl (fun c x => w (c + f x)) acc l1)) as H by exact (H [] acc).
  induction l1 as [|x l1 IH]; intros pre c; [done|]. cbn [length arr_sum_n foldl].
  rewrite arr_get_app. destruct (_ <? _) eqn:E; zbool; [lia|].
  rewrite Z.sub_diag. cbn [arr_get app Z.leb Z.compare Z.to_nat lookup list_lookup mbind option_bind].
  replace (pre ++ x :: l1 ++ l2) with ((pre ++ [x]) ++ l1 ++ l2) by by rewrite <- app_assoc.
  rewrite <- (IH (pre ++ [x])). cbn [Z.to_nat lookup list_lookup mbind option_bind].
  f_equal. rewrite arr_len_app. done.
Qed.

Lemma arr_sum_app w f l1 l2 :
  arr_sum w f (l1 ++ l2) (arr_len l1) = Some (foldl (fun c x => w (c + f x)) 0 l1).
Proof.
  unfold arr_sum, arr_len. rewrite Nat2Z.id. by apply (arr_sum_n_app w f l1 l2 0).
Qed.

Lemma arr_find_hit p pre l1 x l2 post :
  Forall (fun y => p y = false) l1 -> p x = true ->
  arr_find p (pre ++ (l1 ++ x :: l2) ++ post) (arr_len pre) (arr_len pre + arr_len (l1 ++ x :: l2))
    = Some (arr_len pre + arr_len l1).
Proof.
  intros Hl1 Hx. pose proof (arr_len_nonneg pre). pose proof (arr_len_nonneg l1).
  pose proof (arr_len_nonneg l2). pose proof (arr_len_nonneg post).
  assert (Hg : forall j y, arr_len pre <= j < arr_len pre + arr_len l1 ->
            arr_get (pre ++ (l1 ++ x :: l2) ++ post) j = Some y -> p y = false).
  { intros j y Hj. rewrite !arr_get_app, !arr_len_app, arr_len_cons. if_lia.
    intros Hy. unfold arr_get in Hy. destruct (0 <=? _); [|done].
    eapply Forall_lookup_1 in Hl1; eauto. }
  assert (Hgx : arr_get (pre ++ (l1 ++ x :: l2) ++ post) (arr_len pre + arr_len l1) = Some x).
  { rewrite !arr_get_app, !arr_len_app, arr_len_cons.
    destruct (_ <? _) eqn:E1; zbool; [lia|]. destruct (_ <? _) eqn:E2; zbool; [|lia].
    destruct (_ <? arr_len l1) eqn:E3; zbool; [lia|].
    by replace (arr_len pre + arr_len l1 - arr_len pre - arr_len l1) with 0 by lia. }
  assert (Hlen : arr_len (l1 ++ x :: l2) = arr_len l1 + (1 + arr_len l2))
    by by rewrite arr_len_app, arr_len_cons.
  destruct (arr_find_spec p (pre ++ (l1 ++ x :: l2) ++ post) (arr_len pre)
             (arr_len pre + arr_len (l1 ++ x :: l2))) as (k & -> & Hk & Hno & Hyes);
    [lia|rewrite !arr_len_app in *; lia|].
  f_equal. destruct (Z.lt_trichotomy k (arr_len pre + arr_len l1)) as [Hlt|[->|Hgt]]; [|done|].
  - destruct Hyes as (y & Hy & Hpy); [lia|]. rewrite (Hg k y) in Hpy by (done || lia). done.
  - rewrite (Hno (arr_len pre + arr_len l1) x) in Hx by (done || lia). done.
Qed.

Lemma arr_find_miss p pre l post :
  Forall (fun y => p y = false) l ->
  arr_find p (pre ++ l ++ post) (arr_len pre) (arr_len pre + arr_len l) = Some (arr_len pre + arr_len l).
Proof.
  intros Hl. pose proof (arr_len_nonneg pre). pose proof (arr_len_nonneg l).
  pose proof (arr_len_nonneg post).
  destruct (arr_find_spec p (pre ++ l ++ post) (arr_len pre) (arr_len pre + arr_len l))
    as (k & -> & Hk & _ & Hyes); [lia|rewrite !arr_len_app; lia|].
  f_equal. destruct (decide (k = arr_len pre + arr_len l)) as [|Hne]; [done|].
  destruct Hyes as (y & Hy & Hpy); [lia|].
  rewrite !arr_get_app in Hy. destruct (_ <? _) eqn:E1 in Hy; zbool; [lia|].
  destruct (_ <? arr_len l) eqn:E2 in Hy; zbool; [|lia].
  unfold arr_get in Hy. destruct (0 <=? _); [|done].
  eapply Forall_lookup_1 in Hl; eauto. cbn in Hl. congruence.
Qed.
End Loops.
