(* ===== verification/CMonad.v ===== *)
(** * The machine monad

    Sequential C over a state [S]: a computation either finishes with a value
    and a new state or hits a fault (an access outside an array, a division by
    zero, or a bounded loop that used all of its fuel).  [wp] is its weakest
    precondition for total correctness: a computation that faults satisfies
    no [wp]. *)

From Stdlib Require Import ZArith Lia.
From stdpp Require Import base numbers list.
From S2P Require Import Prelude.

Inductive fault := OutOfBounds | DivByZero | OutOfFuel.

Inductive outcome (S A : Type) :=
| Done (a : A) (s : S)
| Crash (f : fault).
Arguments Done {S A} _ _.
Arguments Crash {S A} _.

Definition M (S A : Type) : Type := S -> outcome S A.

Section Monad.
Context {S : Type}.

Definition ret {A} (a : A) : M S A := fun s => Done a s.
Definition bind {A B} (m : M S A) (k : A -> M S B) : M S B :=
  fun s => match m s with Done a s' => k a s' | Crash f => Crash f end.
Definition crash {A} (f : fault) : M S A := fun _ => Crash f.
Definition gets {A} (f : S -> A) : M S A := fun s => Done (f s) s.
Definition modify (f : S -> S) : M S unit := fun s => Done tt (f s).
Definition assert_some {A} (f : fault) (o : option A) : M S A :=
  match o with Some a => ret a | None => crash f end.
End Monad.

Notation "'let!' x := m 'in' k" := (bind m (fun x => k))
  (at level 10, x pattern, m at level 100, k at level 200) : c_scope.
Notation "m ;; k" := (bind m (fun _ => k))
  (at level 100, k at level 200, right associativity) : c_scope.
#[global] Open Scope c_scope.

(** ** Loops

    A loop body answers [None] to go on and [Some r] to leave the loop (a
    [break] or a [return] of the enclosing function). *)
Fixpoint forM {S R} (n : nat) (i : Z) (body : Z -> M S (option R)) : M S (option R) :=
  match n with
  | O => ret None
  | Datatypes.S n' =>
      let! r := body i in
      match r with Some v => ret (Some v) | None => forM n' (i + 1) body end
  end.

(** [for (i = lo; i < hi; i++) body] *)
Definition for_range {S R} (lo hi : Z) (body : Z -> M S (option R)) : M S (option R) :=
  forM (Z.to_nat (hi - lo)) lo body.

(** The same with loop-carried local variables [l : L]: the body answers the
    new locals [inl l'] or leaves with [inr r]. *)
Fixpoint forL {S L R} (n : nat) (i : Z) (l : L) (body : Z -> L -> M S (L + R)) : M S (L + R) :=
  match n with
  | O => ret (inl l)
  | Datatypes.S n' =>
      let! r := body i l in
      match r with inr v => ret (inr v) | inl l' => forL n' (i + 1) l' body end
  end.
Definition for_local {S L R} (lo hi : Z) (l : L) (body : Z -> L -> M S (L + R)) : M S (L + R) :=
  forL (Z.to_nat (hi - lo)) lo l body.

(** [while (cond) body] with loop-carried locals. *)
Fixpoint while_local {S L R} (fuel : nat) (cond : L -> bool) (l : L) (body : L -> M S (L + R))
    : M S (L + R) :=
  if cond l then
    match fuel with
    | O => crash OutOfFuel
    | Datatypes.S f =>
        let! r := body l in
        match r with inr v => ret (inr v) | inl l' => while_local f cond l' body end
    end
  else ret (inl l).

(** [again: body] where the body answers [None] for [goto again]. *)
Fixpoint retry {S R} (fuel : nat) (body : M S (option R)) : M S R :=
  match fuel with
  | O => crash OutOfFuel
  | Datatypes.S f =>
      let! r := body in
      match r with Some v => ret v | None => retry f body end
  end.

(** Running a computation on a component of a larger state. *)
Definition zoom {S T A} (get : S -> T) (set : T -> S -> S) (m : M T A) : M S A :=
  fun s => match m (get s) with Done a t => Done a (set t s) | Crash f => Crash f end.

(** ** Weakest preconditions *)

Definition wp {S A} (m : M S A) (Q : A -> S -> Prop) (s : S) : Prop :=
  match m s with Done a s' => Q a s' | Crash _ => False end.

Section WP.
Context {S : Type}.
Implicit Types s : S.

Lemma wp_ret {A} (a : A) Q s : wp (ret a) Q s <-> Q a s.
Proof. done. Qed.
Lemma wp_bind {A B} (m : M S A) (k : A -> M S B) Q s :
  wp (bind m k) Q s <-> wp m (fun a s' => wp (k a) Q s') s.
Proof. unfold wp, bind. by destruct (m s). Qed.
Lemma wp_gets {A} (f : S -> A) Q s : wp (gets f) Q s <-> Q (f s) s.
Proof. done. Qed.
Lemma wp_modify f Q s : wp (modify f) Q s <-> Q tt (f s).
Proof. done. Qed.
Lemma wp_crash {A} f (Q : A -> S -> Prop) s : wp (crash f) Q s <-> False.
Proof. done. Qed.
Lemma wp_assert_some {A} f (o : option A) Q s :
  wp (assert_some f o) Q s <-> exists a, o = Some a /\ Q a s.
Proof. destruct o; unfold wp; simpl; naive_solver. Qed.
Lemma wp_mono {A} (m : M S A) (P Q : A -> S -> Prop) s :
  wp m P s -> (forall a s', P a s' -> Q a s') -> wp m Q s.
Proof. unfold wp. destruct (m s); auto. Qed.
Lemma wp_run {A} (m : M S A) Q s :
  wp m Q s <-> exists a s', m s = Done a s' /\ Q a s'.
Proof. unfold wp. destruct (m s); naive_solver. Qed.
Lemma wp_and {A} (m : M S A) (P Q : A -> S -> Prop) s :
  wp m P s -> wp m Q s -> wp m (fun a s' => P a s' /\ Q a s') s.
Proof. unfold wp. destruct (m s); auto. Qed.

(** Loop rule: [I i] holds before iteration [i]. *)
Lemma wp_forM {R} (I : Z -> S -> Prop) (n : nat) lo body (Q : option R -> S -> Prop) s :
  I lo s ->
  (forall i s, lo <= i < lo + Z.of_nat n -> I i s ->
     wp (body i) (fun r s' => match r with None => I (i + 1) s' | Some v => Q (Some v) s' end) s) ->
  (forall s, I (lo + Z.of_nat n) s -> Q None s) ->
  wp (forM n lo body) Q s.
Proof.
  revert lo s. induction n as [|n IH]; intros lo s HI Hb Hq; simpl.
  - apply wp_ret, Hq. by rewrite Z.add_0_r.
  - apply wp_bind. eapply wp_mono; [apply Hb; [lia|done]|].
    intros [v|] s' H; [done|]. apply IH; [done| |].
    + intros i s'' Hi. apply Hb. lia.
    + intros s'' H'. apply Hq. by replace (lo + Z.of_nat (Datatypes.S n)) with (lo + 1 + Z.of_nat n) by lia.
Qed.

Lemma wp_for_range {R} (I : Z -> S -> Prop) lo hi body (Q : option R -> S -> Prop) s :
  lo <= hi -> I lo s ->
  (forall i s, lo <= i < hi -> I i s ->
     wp (body i) (fun r s' => match r with None => I (i + 1) s' | Some v => Q (Some v) s' end) s) ->
  (forall s, I hi s -> Q None s) ->
  wp (for_range lo hi body) Q s.
Proof.
  intros Hle HI Hb Hq. unfold for_range. eapply (wp_forM I); [done| |].
  - intros i s' Hi. apply Hb. lia.
  - intros s' H. apply Hq. by replace hi with (lo + Z.of_nat (Z.to_nat (hi - lo))) by lia.
Qed.

Lemma wp_forL {L R} (I : Z -> L -> S -> Prop) (n : nat) lo l0 body (Q : L + R -> S -> Prop) s :
  I lo l0 s ->
  (forall i l s, lo <= i < lo + Z.of_nat n -> I i l s ->
     wp (body i l) (fun r s' => match r with inl l' => I (i + 1) l' s' | inr v => Q (inr v) s' end) s) ->
  (forall l s, I (lo + Z.of_nat n) l s -> Q (inl l) s) ->
  wp (forL n lo l0 body) Q s.
Proof.
  revert lo l0 s. induction n as [|n IH]; intros lo l0 s HI Hb Hq; simpl.
  - apply wp_ret, Hq. by rewrite Z.add_0_r.
  - apply wp_bind. eapply wp_mono; [apply Hb; [lia|done]|].
    intros [l|v] s' H; [|done]. apply IH; [done| |].
    + intros i l' s'' Hi. apply Hb. lia.
    + intros l' s'' H'. apply Hq. by replace (lo + Z.of_nat (Datatypes.S n)) with (lo + 1 + Z.of_nat n) by lia.
Qed.

Lemma wp_for_local {L R} (I : Z -> L -> S -> Prop) lo hi l0 body (Q : L + R -> S -> Prop) s :
  lo <= hi -> I lo l0 s ->
  (forall i l s, lo <= i < hi -> I i l s ->
     wp (body i l) (fun r s' => match r with inl l' => I (i + 1) l' s' | inr v => Q (inr v) s' end) s) ->
  (forall l s, I hi l s -> Q (inl l) s) ->
  wp (for_local lo hi l0 body) Q s.
Proof.
  intros Hle HI Hb Hq. unfold for_local. eapply (wp_forL I); [done| |].
  - intros i l s' Hi. apply Hb. lia.
  - intros l s' H. apply Hq. by replace hi with (lo + Z.of_nat (Z.to_nat (hi - lo))) by lia.
Qed.

(** [retry] terminates when every [goto] strictly decreases a measure that
    starts below the fuel. *)
Lemma wp_retry {R} (I : S -> Prop) (meas : S -> nat) fuel (body : M S (option R)) Q s :
  I s -> (meas s < fuel)%nat ->
  (forall s, I s -> wp body (fun r s' =>
     match r with Some v => Q v s' | None => I s' /\ (meas s' < meas s)%nat end) s) ->
  wp (retry fuel body) Q s.
Proof.
  revert s. induction fuel as [|fuel IH]; intros s HI Hm Hb; [lia|]. simpl.
  apply wp_bind. eapply wp_mono; [by apply Hb|].
  intros [v|] s' H; [done|]. destruct H. apply IH; [done|lia|done].
Qed.

Lemma wp_zoom {T A} (get : S -> T) set (m : M T A) Q s :
  wp (zoom get set m) Q s <-> wp m (fun a t => Q a (set t s)) (get s).
Proof. unfold wp, zoom. by destruct (m (get s)). Qed.
End WP.

(** ** Loops that only search *)
Section Search.
Context {S R : Type}.

(** Iterations that neither leave the loop nor change the state are skipped. *)
Lemma forM_skip (body : Z -> M S (option R)) s (k m : nat) lo :
  (forall i, lo <= i < lo + Z.of_nat k -> body i s = Done None s) ->
  forM (k + m) lo body s = forM m (lo + Z.of_nat k) body s.
Proof.
  revert lo. induction k as [|k IH]; intros lo H; [by rewrite Z.add_0_r|].
  cbn [Nat.add forM]. unfold bind. rewrite H by lia. rewrite IH; [f_equal; lia|].
  intros i Hi. apply H. lia.
Qed.

Lemma for_range_miss (body : Z -> M S (option R)) s lo hi :
  (forall i, lo <= i < hi -> body i s = Done None s) ->
  for_range lo hi body s = Done None s.
Proof.
  intros H. unfold for_range. rewrite <- (Nat.add_0_r (Z.to_nat (hi - lo))), forM_skip; [done|].
  intros i Hi. apply H. lia.
Qed.

Lemma for_range_hit (body : Z -> M S (option R)) s s' lo k hi r :
  (forall i, lo <= i < k -> body i s = Done None s) -> lo <= k < hi ->
  body k s = Done (Some r) s' ->
  for_range lo hi body s = Done (Some r) s'.
Proof.
  intros Hm Hk Hb. unfold for_range.
  replace (Z.to_nat (hi - lo)) with (Z.to_nat (k - lo) + Datatypes.S (Z.to_nat (hi - k - 1)))%nat by lia.
  rewrite forM_skip by (intros i Hi; apply Hm; lia). cbn [forM]. unfold bind.
  replace (lo + Z.of_nat (Z.to_nat (k - lo))) with k by lia. by rewrite Hb.
Qed.
End Search.

(** ** Loops that only compute *)
Section Compute.
Context {S : Type}.

(** A loop over the entries of a list that folds them into its local. *)
Lemma forL_fold {L R E} (body : Z -> L -> M S (L + R)) (step : L -> E -> L) s es : forall i l,
  (forall j e l, arr_get es j = Some e -> body (i + j) l s = Done (inl (step l e)) s) ->
  forL (length es) i l body s = Done (inl (foldl step l es)) s.
Proof.
  induction es as [|e es IH]; intros i l H; cbn [length forL foldl]; [done|].
  unfold bind. pose proof (H 0 e l eq_refl) as H0. rewrite Z.add_0_r in H0. rewrite H0.
  apply IH. intros j e' l' Hj. replace (i + 1 + j) with (i + (j + 1)) by lia. apply H.
  pose proof (arr_get_Some _ _ _ Hj). rewrite arr_get_cons. destruct (j + 1 =? 0) eqn:E'; zbool; [lia|].
  by rewrite Z.add_simpl_r.
Qed.

(** Filling an array: [for (i = 0; i < n; i++) a[i] = F(i);] *)
Lemma fill_array_run {R} (f : Z -> M S Z) (F : Z -> Z) s n l0 :
  (forall i, 0 <= i < n -> f i s = Done (F i) s) -> n <= arr_len l0 ->
  exists l, for_local 0 n l0 (fun i l =>
      let! v := f i in
      let! l := assert_some OutOfBounds (arr_set l i v) in
      ret (inl l : list Z + R)) s = Done (inl l) s /\
    arr_len l = arr_len l0 /\ forall i, 0 <= i < n -> arr_get l i = Some (F i).
Proof.
  intros Hf Hn. enough (wp (for_local 0 n l0 (fun i l =>
      let! v := f i in
      let! l := assert_some OutOfBounds (arr_set l i v) in
      ret (inl l : list Z + R)))
    (fun r s' => s' = s /\ exists l, r = inl l /\ arr_len l = arr_len l0 /\
      forall i, 0 <= i < n -> arr_get l i = Some (F i)) s) as H.
  { apply wp_run in H as (r & s' & H & -> & l & -> & H1 & H2). by exists l. }
  destruct (decide (0 <= n)) as [Hpos|Hneg].
  - apply (wp_for_local (fun i l s' => s' = s /\ arr_len l = arr_len l0 /\
      forall j, 0 <= j < i -> arr_get l j = Some (F j))); [done|split_and!; [done|done|lia]| |].
    + intros i l s' Hi (-> & Hl & Hj). apply wp_bind. unfold wp at 1. rewrite Hf by done.
      apply wp_bind, wp_assert_some. destruct (arr_set l i (F i)) as [l'|] eqn:E;
        [|by rewrite arr_set_in in E by lia].
      exists l'. split; [done|]. apply wp_ret. split_and!; [done|by rewrite (arr_set_len _ _ _ _ E)|].
      intros j Hj'. rewrite (arr_get_set _ _ _ _ _ E). destruct (j =? i) eqn:Ej; zbool; [by subst|].
      apply Hj. lia.
    + intros l s' (-> & Hl & Hj). split; [done|]. by exists l.
  - unfold for_local. replace (Z.to_nat (n - 0)) with 0%nat by lia. apply wp_ret. split; [done|].
    exists l0. split_and!; [done|done|lia].
Qed.
End Compute.

(** ** Partial correctness

    What holds of the result when there is one; enough for invariants that
    every step keeps whatever its arguments. *)
Definition wlp {S A} (m : M S A) (Q : A -> S -> Prop) (s : S) : Prop :=
  match m s with Done a s' => Q a s' | Crash _ => True end.

Section WLP.
Context {S : Type}.
Implicit Types (s : S).

Lemma wlp_ret {A} (a : A) (Q : A -> S -> Prop) s : Q a s -> wlp (ret a) Q s.
Proof. done. Qed.
Lemma wlp_bind {A B} (m : M S A) (k : A -> M S B) Q s :
  wlp m (fun a s' => wlp (k a) Q s') s -> wlp (bind m k) Q s.
Proof. unfold wlp, bind. by destruct (m s). Qed.
Lemma wlp_gets {A} (f : S -> A) (Q : A -> S -> Prop) s : Q (f s) s -> wlp (gets f) Q s.
Proof. done. Qed.
Lemma wlp_modify f (Q : unit -> S -> Prop) s : Q tt (f s) -> wlp (modify f) Q s.
Proof. done. Qed.
Lemma wlp_assert_some {A} f (o : option A) (Q : A -> S -> Prop) s :
  (forall a, o = Some a -> Q a s) -> wlp (assert_some f o) Q s.
Proof. destruct o; intros H; [by apply H|done]. Qed.
Lemma wlp_mono {A} (m : M S A) (P Q : A -> S -> Prop) s :
  wlp m P s -> (forall a s', P a s' -> Q a s') -> wlp m Q s.
Proof. unfold wlp. destruct (m s); auto. Qed.

(** A loop whose body keeps [I]. *)
Lemma wlp_for_range {R} (I : S -> Prop) lo hi (body : Z -> M S (option R)) s :
  I s -> (forall i s, I s -> wlp (body i) (fun _ s' => I s') s) ->
  wlp (for_range lo hi body) (fun _ s' => I s') s.
Proof.
  intros Hs Hb. unfold for_range. generalize (Z.to_nat (hi - lo)) as n. intros n.
  revert lo s Hs. induction n as [|n IH]; intros lo s Hs; cbn [forM]; [by apply wlp_ret|].
  apply wlp_bind. eapply wlp_mono; [by apply Hb|]. intros [v|] s' Hs'; [by apply wlp_ret|by apply IH].
Qed.
End WLP.

Ltac wlp_steps :=
  repeat lazymatch goal with
  | |- wlp (bind _ _) _ _ => apply wlp_bind
  | |- wlp (ret _) _ _ => apply wlp_ret
  | |- wlp (gets _) _ _ => apply wlp_gets
  | |- wlp (modify _) _ _ => apply wlp_modify
  | |- wlp (assert_some _ _) _ _ => apply wlp_assert_some; intros ? ?
  | |- wlp (if ?e then _ else _) _ _ => destruct e
  end; cbn beta.

Create HintDb wp.
#[export] Hint Rewrite @wp_ret @wp_bind @wp_gets @wp_modify @wp_crash @wp_zoom : wp.

(** Symbolic execution of the straight-line part of a computation. *)
Ltac wp_simpl := autorewrite with wp; cbn beta iota.
Ltac wp_case :=
  match goal with
  | |- wp (match ?e with _ => _ end) _ _ => let E := fresh "E" in destruct e eqn:E
  | |- wp (if ?e then _ else _) _ _ => let E := fresh "E" in destruct e eqn:E
  end.

(** Following, in [H], the branch a computation took. *)
Ltac run_case H :=
  match type of H with context [match ?e with _ => _ end] =>
    lazymatch e with context [match _ with _ => _ end] => fail
    | _ => let E := fresh "E" in destruct e eqn:E; cbn in H; try discriminate H end end.
