(* ===== verification/NftlTypes.v ===== *)
(** * NFTL: geometry, constants and the spare-area layout

    Constants and types of [BSP/oss/nftl/nftlmount.c] lines 67-235.  The
    spare area of a page is the packed C struct [block_info]: one type byte
    followed by a union, so the fields below alias one another exactly as in
    the source ([lpa], [mtspare], [mtlofs] and [gtinfo] all start at byte 1). *)

From Stdlib Require Import ZArith Lia.
From stdpp Require Import base numbers list.
From S2P Require Import Prelude CMonad.

(** What the code reads of [struct mtd_info]. *)
Record mtd_info := MkMtd { mtd_size : Z; erasesize : Z; writesize : Z; oobsize : Z }.

Section Geometry.
Context (g : mtd_info).
Definition nb_blocks : Z := mtd_size g / erasesize g.
(** The globals [nr_pgsinblk] (uint8_t) and [nr_blks] (uint16_t), assigned
    once at the start of [NFTL_mount]. *)
Definition nr_pgsinblk : Z := u8 (erasesize g / writesize g).
Definition nr_blks : Z := u16 nb_blocks.
End Geometry.

Definition MAX_BLOCKS : Z := 16384.
Definition MAX_PAGES_IN_BLOCK : Z := 128.
Definition MINI_FREE_BLOCK : Z := 20.
Definition MT_MAX_BLOCKS : Z := 6.
Definition MTL_MAX_BLOCKS : Z := MT_MAX_BLOCKS.
Definition MTL_MAX_PAGES : Z := MTL_MAX_BLOCKS * MAX_PAGES_IN_BLOCK.
Definition DL_MAX_BLOCKS : Z := 128.
Definition DL_MAX_BLOCKS_DIV4 : Z := 32.
Definition DL_MAX_BLOCKS_DIV8 : Z := 16.
Definition DL_MAX_PAGES : Z := 4096.
Definition DL_MAX_PAGES_DIV4 : Z := 1024.
Definition DL_MAX_PAGES_DIV8 : Z := 512.
Definition GT_MAX_BLOCKS : Z := 1.
Definition GARBAGE_MAX_CNT : Z := 256.
Definition GARBAGE_MAX_CNT_DIV2 : Z := 128.
Definition ECC_ERR_LIMIT : Z := 2.
(** Number of entries of the array [blockstatus]. *)
Definition BLOCKSTATUS_LEN : Z := 4096.
Definition FIND_OK : Z := 0.
Definition FIND_FAIL : Z := 1.
Definition EIO : Z := 5.

(** The [operation] argument of the table updates. *)
Definition APPEND_OPERATION : Z := 0.
Definition INSERT_OPERATION : Z := 1.
Definition DEL_OPERATION : Z := 2.
Definition UPDATE_OPERATION : Z := 3.

(** ** enum block_state *)
Inductive block_state :=
| FREE_BLOCK | DATA_BLOCK | DATA_LOG_BLOCK | MAP_TAB_BLOCK
| MT_LOG_BLOCK | GARBAGE_TAB_BLOCK | BBT_BLOCK | BadBlock.

#[export] Instance block_state_eq_dec : EqDecision block_state.
Proof. solve_decision. Defined.

Definition block_state_code (b : block_state) : Z :=
  match b with
  | FREE_BLOCK => 0xff | DATA_BLOCK => 0xfe | DATA_LOG_BLOCK => 0xfd
  | MAP_TAB_BLOCK => 0xfc | MT_LOG_BLOCK => 0xfb | GARBAGE_TAB_BLOCK => 0xfa
  | BBT_BLOCK => 0xf9 | BadBlock => 0xaa
  end.

Lemma block_state_code_inj b1 b2 : block_state_code b1 = block_state_code b2 -> b1 = b2.
Proof. by destruct b1, b2. Qed.

(** ** The spare area: bytes of a packed [block_info] *)
Notation spare := (list Z).

Section Spare.
Implicit Type sp : list Z.
Definition byte_at sp (i : nat) : Z := default 0 (sp !! i).

Definition si_blocktype sp : Z := byte_at sp 0.
Definition si_lpa sp : Z :=
  byte_at sp 1 + byte_at sp 2 * 2 ^ 8 + byte_at sp 3 * 2 ^ 16 + byte_at sp 4 * 2 ^ 24.
Definition si_tabindx sp : Z := byte_at sp 1.      (* mtspare, mtlofs, gtinfo *)
Definition si_lastfree sp : Z := byte_at sp 2 + byte_at sp 3 * 2 ^ 8.
Definition si_pageofs sp : Z := byte_at sp 2 + byte_at sp 3 * 2 ^ 8.
Definition si_thiscount sp : Z := byte_at sp 2.

Definition set_blocktype (b : Z) sp : spare := <[0%nat := u8 b]> sp.
Definition set_lpa (v : Z) sp : spare :=
  <[1%nat := u8 v]> (<[2%nat := u8 (Z.shiftr v 8)]>
    (<[3%nat := u8 (Z.shiftr v 16)]> (<[4%nat := u8 (Z.shiftr v 24)]> sp))).
Definition set_tabindx (v : Z) sp : spare := <[1%nat := u8 v]> sp.
Definition set_half (v : Z) sp : spare :=
  <[2%nat := u8 v]> (<[3%nat := u8 (Z.shiftr v 8)]> sp).
Definition set_lastfree := set_half.
Definition set_pageofs := set_half.
Definition set_thiscount (v : Z) sp : spare := <[2%nat := u8 v]> sp.

(** A spare area long enough to hold the header of the struct. *)
Definition spare_ok sp : Prop := (5 <= length sp)%nat.

Lemma byte_at_insert sp i j v :
  (i < length sp)%nat -> byte_at (<[i := v]> sp) j = if decide (i = j) then v else byte_at sp j.
Proof.
  intros Hi. unfold byte_at. case_decide.
  - subst. by rewrite (list_lookup_insert_eq sp).
  - by rewrite (list_lookup_insert_ne sp).
Qed.

Lemma le_bytes_u16 v : u8 v + u8 (Z.shiftr v 8) * 2 ^ 8 = u16 v.
Proof.
  unfold u8, u16. rewrite Z.shiftr_div_pow2 by lia.
  change (2 ^ 8) with 256. change (2 ^ 16) with 65536. zdiv_lia.
Qed.
Lemma le_bytes_u32 v :
  u8 v + u8 (Z.shiftr v 8) * 2 ^ 8 + u8 (Z.shiftr v 16) * 2 ^ 16 + u8 (Z.shiftr v 24) * 2 ^ 24
  = u32 v.
Proof.
  unfold u8, u32. rewrite !Z.shiftr_div_pow2 by lia.
  change (2 ^ 8) with 256. change (2 ^ 16) with 65536. change (2 ^ 24) with 16777216.
  change (2 ^ 32) with 4294967296. zdiv_lia.
Qed.

Ltac spare_field :=
  unfold spare_ok, si_blocktype, si_lpa, si_tabindx, si_lastfree, si_pageofs, si_thiscount,
    set_blocktype, set_lpa, set_tabindx, set_lastfree, set_pageofs, set_half, set_thiscount;
  intros; repeat rewrite byte_at_insert by (rewrite ?length_insert; lia); simpl decide;
  repeat case_decide; try done.

(** Each field reads back what was stored, at its width. *)
Lemma si_blocktype_set b sp : spare_ok sp -> si_blocktype (set_blocktype b sp) = u8 b.
Proof. spare_field. Qed.
Lemma si_lpa_set v sp : spare_ok sp -> si_lpa (set_lpa v sp) = u32 v.
Proof. spare_field. apply le_bytes_u32. Qed.
Lemma si_tabindx_set v sp : spare_ok sp -> si_tabindx (set_tabindx v sp) = u8 v.
Proof. spare_field. Qed.
Lemma si_lastfree_set v sp : spare_ok sp -> si_lastfree (set_lastfree v sp) = u16 v.
Proof. spare_field. apply le_bytes_u16. Qed.
Lemma si_pageofs_set v sp : spare_ok sp -> si_pageofs (set_pageofs v sp) = u16 v.
Proof. spare_field. apply le_bytes_u16. Qed.
Lemma si_thiscount_set v sp : spare_ok sp -> si_thiscount (set_thiscount v sp) = u8 v.
Proof. spare_field. Qed.

(** Fields that do not overlap are independent. *)
Lemma si_blocktype_set_lpa v sp : spare_ok sp -> si_blocktype (set_lpa v sp) = si_blocktype sp.
Proof. spare_field. Qed.
Lemma si_lpa_set_blocktype b sp : spare_ok sp -> si_lpa (set_blocktype b sp) = si_lpa sp.
Proof. spare_field. Qed.
Lemma si_tabindx_set_half v sp : spare_ok sp -> si_tabindx (set_half v sp) = si_tabindx sp.
Proof. spare_field. Qed.
Lemma si_tabindx_set_blocktype v sp : spare_ok sp -> si_tabindx (set_blocktype v sp) = si_tabindx sp.
Proof. spare_field. Qed.
Lemma si_pageofs_set_tabindx v sp : spare_ok sp -> si_pageofs (set_tabindx v sp) = si_pageofs sp.
Proof. spare_field. Qed.
Lemma si_pageofs_set_blocktype v sp : spare_ok sp -> si_pageofs (set_blocktype v sp) = si_pageofs sp.
Proof. spare_field. Qed.
Lemma si_blocktype_set_tabindx v sp : spare_ok sp -> si_blocktype (set_tabindx v sp) = si_blocktype sp.
Proof. spare_field. Qed.
Lemma si_blocktype_set_half v sp : spare_ok sp -> si_blocktype (set_half v sp) = si_blocktype sp.
Proof. spare_field. Qed.
Lemma si_blocktype_set_thiscount v sp : spare_ok sp -> si_blocktype (set_thiscount v sp) = si_blocktype sp.
Proof. spare_field. Qed.
Lemma si_tabindx_set_thiscount v sp : spare_ok sp -> si_tabindx (set_thiscount v sp) = si_tabindx sp.
Proof. spare_field. Qed.
Lemma si_thiscount_set_tabindx v sp : spare_ok sp -> si_thiscount (set_tabindx v sp) = si_thiscount sp.
Proof. spare_field. Qed.

Lemma set_blocktype_ok b sp : spare_ok sp -> spare_ok (set_blocktype b sp).
Proof. unfold spare_ok, set_blocktype. by rewrite length_insert. Qed.
Lemma set_thiscount_ok v sp : spare_ok sp -> spare_ok (set_thiscount v sp).
Proof. unfold spare_ok, set_thiscount. by rewrite length_insert. Qed.
Lemma set_lpa_ok v sp : spare_ok sp -> spare_ok (set_lpa v sp).
Proof. unfold spare_ok, set_lpa. by rewrite !length_insert. Qed.
Lemma set_tabindx_ok v sp : spare_ok sp -> spare_ok (set_tabindx v sp).
Proof. unfold spare_ok, set_tabindx. by rewrite length_insert. Qed.
Lemma set_half_ok v sp : spare_ok sp -> spare_ok (set_half v sp).
Proof. unfold spare_ok, set_half. by rewrite !length_insert. Qed.

(** The [mtspare] and [mtlofs] views of the union are the same bytes: a page
    copied from an MTLog block to a MapTab block shows its page offset as
    the saved allocation pointer. *)
Lemma lastfree_is_pageofs sp : si_lastfree sp = si_pageofs sp.
Proof. done. Qed.

(** The header is in the first five bytes. *)
Lemma byte_at_take sp n k : (k < n)%nat -> byte_at (take n sp) k = byte_at sp k.
Proof. intros H. unfold byte_at. by rewrite lookup_take_lt. Qed.
Lemma si_take n sp : (5 <= n)%nat ->
  si_blocktype (take n sp) = si_blocktype sp /\ si_lpa (take n sp) = si_lpa sp /\
  si_tabindx (take n sp) = si_tabindx sp /\ si_lastfree (take n sp) = si_lastfree sp.
Proof.
  intros H. unfold si_blocktype, si_lpa, si_tabindx, si_lastfree. by rewrite !byte_at_take by lia.
Qed.
Lemma si_thiscount_take n sp : (5 <= n)%nat -> si_thiscount (take n sp) = si_thiscount sp.
Proof. intros H. unfold si_thiscount. by rewrite byte_at_take by lia. Qed.
End Spare.

Create HintDb spare.
#[export] Hint Resolve set_blocktype_ok set_lpa_ok set_tabindx_ok set_half_ok set_thiscount_ok : spare.
