(* ===== verification/NftlAlloc.v ===== *)
(** * NFTL: the block allocator

    The globals [blockstatus], [free_blkcnt] and [lastfree] of
    [BSP/oss/nftl/nftlmount.c] with the functions that read and write them
    (the build has BIT_STATUS undefined: one byte per block). *)

From Stdlib Require Import ZArith Lia.
From stdpp Require Import base numbers list sets.
From S2P Require Import Prelude CMonad NftlTypes.

Record alloc := MkAlloc { blockstatus : list Z; free_blkcnt : Z; lastfree : Z }.

Definition with_blockstatus v a := MkAlloc v (free_blkcnt a) (lastfree a).
Definition with_free_blkcnt v a := MkAlloc (blockstatus a) v (lastfree a).
Definition with_lastfree v a := MkAlloc (blockstatus a) (free_blkcnt a) v.

Section Operations.
Context (g : mtd_info).

Definition read_status (block : Z) : M alloc Z :=
  let! a := gets id in assert_some OutOfBounds (arr_get (blockstatus a) block).
Definition write_status (block v : Z) : M alloc unit :=
  let! a := gets id in
  let! st := assert_some OutOfBounds (arr_set (blockstatus a) block v) in
  modify (with_blockstatus st).

Definition nftl_is_block_free (block : Z) : M alloc Z :=
  if block >? nr_blks g then ret (-1)
  else
    let! v := read_status block in
    if truth v then ret 1 else ret 0.

Definition nftl_set_block_free (block : Z) : M alloc Z :=
  if block >? nr_blks g then ret (-1)
  else
    let! f := nftl_is_block_free block in
    if truth f then ret 0
    else
      write_status block 0xff ;;
      modify (fun a => with_free_blkcnt (u16 (free_blkcnt a + 1)) a) ;;
      ret 0.

Definition nftl_set_block_nofree (block : Z) : M alloc Z :=
  if block >? nr_blks g then ret (-1)
  else
    write_status block 0 ;;
    modify (fun a => with_free_blkcnt (u16 (free_blkcnt a - 1)) a) ;;
    modify (with_lastfree block) ;;
    ret 0.

Definition nftl_set_block_bad (block : Z) : M alloc Z :=
  if block >? nr_blks g then ret (-1)
  else
    write_status block 0 ;;
    modify (fun a => with_free_blkcnt (u16 (free_blkcnt a - 1)) a) ;;
    ret 0.

(** One iteration of the scan of [nftl_get_free_block]. *)
Definition get_free_step (_ nextfree : Z) : M alloc (Z + Z) :=
  let! v := read_status nextfree in
  if truth v then
    nftl_set_block_nofree nextfree ;; ret (inr nextfree)
  else
    let nextfree := u16 (nextfree + 1) in
    ret (inl (if nextfree >? nr_blks g then 0 else nextfree)).

(** The counter [i] of the source is a uint16_t compared with the int
    [2*nr_blks]; it cannot wrap before [blockstatus] is left, see
    [BLOCKSTATUS_LEN]. *)
Definition nftl_get_free_block : M alloc Z :=
  let! a := gets id in
  if free_blkcnt a =? 0 then ret 0xFFFF
  else
    let nextfree0 := if lastfree a >? nr_blks g then 0 else lastfree a in
    let! r := for_local (lastfree a) (2 * nr_blks g) nextfree0 get_free_step in
    match r with inr b => ret b | inl _ => ret 0xFFFF end.
End Operations.

(** ** Well-formedness *)

(** Number of blocks marked free. *)
Definition free_count (st : list Z) : nat := length (filter (fun v => v <> 0) st).

Definition block_free (a : alloc) (b : Z) : Prop :=
  exists v, arr_get (blockstatus a) b = Some v /\ v <> 0.

#[export] Instance block_free_dec a b : Decision (block_free a b).
Proof.
  unfold block_free. destruct (arr_get (blockstatus a) b) as [v|].
  - destruct (decide (v = 0)) as [->|H]; [right|left]; naive_solver.
  - right. naive_solver.
Defined.

(** The table covers the chip and only real blocks are marked free. *)
Record table_ok (g : mtd_info) (a : alloc) : Prop := {
  tab_len : arr_len (blockstatus a) = BLOCKSTATUS_LEN;
  tab_blks : 0 < nr_blks g < BLOCKSTATUS_LEN;
  tab_beyond : forall b, block_free a b -> b < nr_blks g
}.

(** The counter agrees with the table. *)
Definition count_ok (a : alloc) : Prop := free_blkcnt a = Z.of_nat (free_count (blockstatus a)).

Record alloc_ok (g : mtd_info) (a : alloc) : Prop := {
  al_table : table_ok g a;
  al_count : count_ok a;
  al_last : 0 <= lastfree a < nr_blks g
}.

(** ** The table operations *)

Lemma free_count_insert (st : list Z) (n : nat) (v w : Z) :
  st !! n = Some v ->
  (free_count (<[n := w]> st) + (if decide (v = 0%Z) then 0 else 1) =
   free_count st + (if decide (w = 0%Z) then 0 else 1))%nat.
Proof.
  unfold free_count. revert n. induction st as [|x st IH]; intros [|n] H; simplify_eq/=.
  - rewrite !filter_cons. repeat case_decide; simpl; try done; lia.
  - specialize (IH n H). rewrite !filter_cons. repeat case_decide; simpl; try done; lia.
Qed.

Lemma free_count_le st : (free_count st <= length st)%nat.
Proof. unfold free_count. apply length_filter. Qed.

Lemma free_count_pos st :
  (0 < free_count st)%nat <-> exists (n : nat) v, st !! n = Some v /\ v <> 0.
Proof.
  unfold free_count. induction st as [|x st IH]; simpl.
  - split; [lia|]. intros (n & v & H & _). by rewrite lookup_nil in H.
  - rewrite filter_cons. case_decide as Hx; simpl.
    + split; [|lia]. intros _. by exists 0%nat, x.
    + rewrite IH. split; intros (n & v & H & Hv).
      * by exists (S n), v.
      * destruct n as [|n]; simplify_eq/=. by exists n, v.
Qed.

Section Specs.
Context (g : mtd_info).
Implicit Types (a : alloc) (b : Z).

Definition set_status a b v : alloc :=
  with_blockstatus (<[Z.to_nat b := v]> (blockstatus a)) a.

Lemma block_free_set_status a b v b' :
  0 <= b < arr_len (blockstatus a) ->
  block_free (set_status a b v) b' <-> (if decide (b' = b) then v <> 0 else block_free a b').
Proof.
  intros Hb. unfold block_free, set_status. simpl.
  assert (Hs : arr_set (blockstatus a) b v = Some (<[Z.to_nat b := v]> (blockstatus a)))
    by by apply arr_set_in.
  rewrite (arr_get_set _ _ _ _ _ Hs). case_decide as E.
  - subst. rewrite Z.eqb_refl. naive_solver.
  - destruct (b' =? b) eqn:E'; zbool; [done|]. done.
Qed.

Lemma block_free_range a b : table_ok g a -> block_free a b -> 0 <= b < nr_blks g.
Proof.
  intros Hok Hb. split; [|by apply (tab_beyond g a)].
  destruct Hb as (v & H%arr_get_Some & _). lia.
Qed.

Lemma set_status_table_ok a b v :
  table_ok g a -> 0 <= b <= nr_blks g -> (v = 0 \/ b < nr_blks g) ->
  table_ok g (set_status a b v).
Proof.
  intros [Hl Hn Hb] Hr Hv. split; simpl.
  - unfold arr_len in *. by rewrite length_insert.
  - done.
  - intros b'. rewrite block_free_set_status by (rewrite Hl; lia).
    case_decide; [subst; lia|auto].
Qed.

Lemma free_count_set_status a b v :
  0 <= b < arr_len (blockstatus a) ->
  Z.of_nat (free_count (blockstatus (set_status a b v))) =
    Z.of_nat (free_count (blockstatus a))
    - (if decide (block_free a b) then 1 else 0) + (if decide (v = 0) then 0 else 1).
Proof.
  intros Hb. destruct (arr_get_in _ _ Hb) as [w Hw]. simpl.
  assert (Hl : blockstatus a !! Z.to_nat b = Some w).
  { unfold arr_get in Hw. by destruct (0 <=? b). }
  pose proof (free_count_insert _ _ _ v Hl) as H.
  destruct (decide (block_free a b)) as [Hf|Hf].
  - destruct Hf as (w' & Hw' & Hne). rewrite Hw in Hw'. simplify_eq.
    repeat case_decide; try done; lia.
  - assert (w = 0) as -> by (destruct (decide (w = 0)); [done|exfalso; apply Hf; by exists w]).
    repeat case_decide; try done; lia.
Qed.

Lemma read_status_run a b v :
  arr_get (blockstatus a) b = Some v -> read_status b a = Done v a.
Proof. intros H. unfold read_status, bind, gets, id. rewrite H. done. Qed.

Lemma write_status_run a b v :
  0 <= b < arr_len (blockstatus a) -> write_status b v a = Done tt (set_status a b v).
Proof.
  intros H. unfold write_status, bind, gets, id. rewrite arr_set_in by done. done.
Qed.

Lemma nftl_is_block_free_run a b :
  table_ok g a -> 0 <= b <= nr_blks g ->
  nftl_is_block_free g b a = Done (if decide (block_free a b) then 1 else 0) a.
Proof.
  intros Hok Hb. unfold nftl_is_block_free.
  destruct (b >? nr_blks g) eqn:E; zbool; [lia|].
  pose proof (tab_len _ _ Hok). pose proof (tab_blks _ _ Hok).
  destruct (arr_get_in (blockstatus a) b) as [v Hv]; [lia|].
  unfold bind. rewrite (read_status_run a b v Hv). unfold truth.
  destruct (v =? 0) eqn:Ev; zbool; simpl; case_decide as Hd; try done.
  - subst. destruct Hd as (w & Hw & ?). naive_solver.
  - exfalso. apply Hd. by exists v.
Qed.

Lemma nftl_set_block_nofree_run a b :
  table_ok g a -> 0 <= b <= nr_blks g ->
  nftl_set_block_nofree g b a =
    Done 0 (with_lastfree b (with_free_blkcnt (u16 (free_blkcnt a - 1)) (set_status a b 0))).
Proof.
  intros Hok Hb. unfold nftl_set_block_nofree.
  destruct (b >? nr_blks g) eqn:E; zbool; [lia|].
  pose proof (tab_len _ _ Hok). pose proof (tab_blks _ _ Hok).
  unfold bind. by rewrite write_status_run by lia.
Qed.

Lemma nftl_set_block_bad_run a b :
  table_ok g a -> 0 <= b <= nr_blks g ->
  nftl_set_block_bad g b a =
    Done 0 (with_free_blkcnt (u16 (free_blkcnt a - 1)) (set_status a b 0)).
Proof.
  intros Hok Hb. unfold nftl_set_block_bad.
  destruct (b >? nr_blks g) eqn:E; zbool; [lia|].
  pose proof (tab_len _ _ Hok). pose proof (tab_blks _ _ Hok).
  unfold bind. by rewrite write_status_run by lia.
Qed.

Lemma nftl_set_block_free_run a b :
  table_ok g a -> 0 <= b <= nr_blks g ->
  nftl_set_block_free g b a =
    if decide (block_free a b) then Done 0 a
    else Done 0 (with_free_blkcnt (u16 (free_blkcnt a + 1)) (set_status a b 0xff)).
Proof.
  intros Hok Hb. unfold nftl_set_block_free.
  destruct (b >? nr_blks g) eqn:E; zbool; [lia|].
  pose proof (tab_len _ _ Hok). pose proof (tab_blks _ _ Hok).
  unfold bind. rewrite nftl_is_block_free_run by done.
  case_decide; simpl; [done|]. by rewrite write_status_run by lia.
Qed.
End Specs.

(** ** The allocator *)

(** The first free block of a list of candidates. *)
Fixpoint first_free (a : alloc) (l : list Z) : option Z :=
  match l with
  | [] => None
  | b :: l => if decide (block_free a b) then Some b else first_free a l
  end.

(** The blocks in the order of a cyclic scan that starts at [p]. *)
Definition scan_order (n p : Z) : list Z := seqZ p (n - p) ++ seqZ 0 p.

(** The allocator's state after handing out [b]. *)
Definition take_block (b : Z) (a : alloc) : alloc :=
  with_lastfree b (with_free_blkcnt (u16 (free_blkcnt a - 1)) (set_status a b 0)).

Lemma first_free_app a l1 l2 :
  first_free a (l1 ++ l2) = match first_free a l1 with Some b => Some b | None => first_free a l2 end.
Proof. induction l1 as [|b l1 IH]; simpl; [done|]. by case_decide. Qed.

Lemma first_free_Some a l b : first_free a l = Some b -> b ∈ l /\ block_free a b.
Proof.
  induction l as [|c l IH]; simpl; [done|]. case_decide; intros; simplify_eq.
  - split; [left|done].
  - destruct IH; [done|]. split; [by right|done].
Qed.

Lemma first_free_None a l : first_free a l = None <-> forall b, b ∈ l -> ~ block_free a b.
Proof.
  induction l as [|c l IH]; simpl; [set_solver|]. case_decide; [set_solver|].
  rewrite IH. set_solver.
Qed.

Lemma first_free_subset a l1 l2 :
  (forall b, b ∈ l2 -> b ∈ l1) -> first_free a l1 = None -> first_free a l2 = None.
Proof. rewrite !first_free_None. auto. Qed.

Lemma elem_of_scan_order n p b : 0 <= p <= n -> b ∈ scan_order n p <-> 0 <= b < n.
Proof. intros Hp. unfold scan_order. rewrite elem_of_app, !elem_of_seqZ. lia. Qed.

Section Walk.
Context (n : Z).
(** One step of the index of the source's scan, which also visits [n]. *)
Definition step (p : Z) : Z := if u16 (p + 1) >? n then 0 else u16 (p + 1).
Fixpoint walk (m : nat) (p : Z) : list Z :=
  match m with O => [] | S m => p :: walk m (step p) end.

Hypothesis Hn : 0 < n < 2 ^ 15.

Lemma step_lt p : 0 <= p < n -> step p = p + 1.
Proof. intros Hp. unfold step. rewrite u16_id by (unfold in_u16; lia). if_lia. Qed.
Lemma step_end : step n = 0.
Proof. unfold step. rewrite u16_id by (unfold in_u16; lia). if_lia. Qed.
Lemma step_range p : 0 <= p <= n -> 0 <= step p <= n.
Proof.
  intros Hp. destruct (decide (p = n)) as [->|]; [rewrite step_end; lia|].
  rewrite step_lt by lia. lia.
Qed.

Lemma walk_seqZ m p : 0 <= p -> p + Z.of_nat m <= n + 1 -> walk m p = seqZ p (Z.of_nat m).
Proof.
  revert p. induction m as [|m IH]; intros p Hp Hm; [done|].
  cbn [walk]. rewrite (seqZ_cons p) by lia. f_equal.
  destruct (decide (p = n)) as [->|Hne].
  - assert (m = 0%nat) as -> by lia. by rewrite seqZ_nil by lia.
  - rewrite step_lt by lia. rewrite IH by lia. f_equal; lia.
Qed.

Lemma walk_app m1 m2 p : walk (m1 + m2) p = walk m1 p ++ walk m2 (Nat.iter m1 step p).
Proof.
  revert p. induction m1 as [|m1 IH]; intros p; [done|]. cbn [walk Nat.add app].
  rewrite IH, Nat.iter_succ_r. done.
Qed.

Lemma iter_step_lt (m : nat) p : 0 <= p -> p + Z.of_nat m <= n -> Nat.iter m step p = p + Z.of_nat m.
Proof.
  revert p. induction m as [|m IH]; intros p Hp Hm; [simpl; lia|].
  rewrite Nat.iter_succ_r, step_lt by lia. rewrite IH; lia.
Qed.

(** The whole scan: from [p] to the end, index [n], then from 0 again. *)
Lemma walk_full p :
  0 <= p < n ->
  walk (Z.to_nat (2 * n - p)) p = seqZ p (n - p) ++ [n] ++ seqZ 0 (n - 1).
Proof.
  intros Hp.
  replace (Z.to_nat (2 * n - p)) with (Z.to_nat (n - p) + (1 + Z.to_nat (n - 1)))%nat by lia.
  rewrite walk_app, iter_step_lt, walk_seqZ by lia. rewrite Z2Nat.id by lia. f_equal.
  replace (p + (n - p)) with n by lia. cbn [walk Nat.add app]. f_equal.
  rewrite step_end, walk_seqZ by lia. f_equal; lia.
Qed.
End Walk.

Section GetFree.
Context (g : mtd_info).
Implicit Type a : alloc.
Notation n := (nr_blks g).

Lemma scan_loop (m : nat) i p a :
  table_ok g a -> 0 <= p <= n ->
  exists q, forL m i p (get_free_step g) a
    = match first_free a (walk n m p) with
      | Some b => Done (inr b) (take_block b a)
      | None => Done (inl q) a
      end.
Proof.
  intros Hok. pose proof (tab_len _ _ Hok). pose proof (tab_blks _ _ Hok) as Hn.
  assert (n < 2 ^ 15) by (unfold BLOCKSTATUS_LEN in *; lia).
  revert i p. induction m as [|m IH]; intros i p Hp; [by exists p|].
  destruct (arr_get_in (blockstatus a) p) as [v Hv]; [lia|].
  cbn [forL walk first_free].
  destruct (IH (i + 1) (step n p)) as [q Hq]; [apply step_range; lia|]. exists q.
  unfold bind at 1, get_free_step, bind at 1. rewrite (read_status_run a p v Hv). unfold truth.
  destruct (v =? 0) eqn:Ev; zbool; cbn [negb].
  - case_decide as Hd; [destruct Hd; naive_solver|]. exact Hq.
  - case_decide as Hd; [|exfalso; apply Hd; by exists v].
    unfold bind. by rewrite nftl_set_block_nofree_run.
Qed.

(** What [nftl_get_free_block] returns and how it changes the state. *)
Lemma nftl_get_free_block_run a :
  table_ok g a -> 0 <= lastfree a < n ->
  nftl_get_free_block g a =
    if free_blkcnt a =? 0 then Done 0xFFFF a
    else match first_free a (scan_order n (lastfree a)) with
         | Some b => Done b (take_block b a)
         | None => Done 0xFFFF a
         end.
Proof.
  intros Hok Hl. pose proof (tab_blks _ _ Hok) as Hn. unfold BLOCKSTATUS_LEN in Hn.
  unfold nftl_get_free_block. unfold bind at 1, gets, id.
  destruct (free_blkcnt a =? 0); [done|].
  destruct (lastfree a >? n) eqn:E; zbool; [lia|].
  unfold bind at 1, for_local.
  destruct (scan_loop (Z.to_nat (2 * n - lastfree a)) (lastfree a) (lastfree a) a) as [q ->];
    [done|lia|].
  rewrite walk_full by lia. rewrite !first_free_app.
  assert (Hnf : first_free a [n] = None).
  { apply first_free_None. intros b ->%list_elem_of_singleton Hf.
    pose proof (tab_beyond _ _ Hok _ Hf). lia. }
  rewrite Hnf. unfold scan_order. rewrite first_free_app.
  destruct (first_free a (seqZ (lastfree a) (n - lastfree a))) as [b|] eqn:E1; [done|].
  replace (seqZ 0 (n - 1)) with (seqZ 0 (lastfree a) ++ seqZ (lastfree a) (n - 1 - lastfree a))
    by (symmetry; rewrite <- (seqZ_app 0) by lia; f_equal; lia).
  rewrite first_free_app. destruct (first_free a (seqZ 0 (lastfree a))) as [b|]; [done|].
  erewrite (first_free_subset a _ (seqZ (lastfree a) _)); [done| |exact E1].
  intros b. rewrite !elem_of_seqZ. lia.
Qed.
End GetFree.

(** ** Properties *)
Section Properties.
Context (g : mtd_info).
Implicit Type a : alloc.
Notation n := (nr_blks g).

Lemma count_ok_set_status a b v c :
  table_ok g a -> 0 <= b <= n -> count_ok a ->
  c = free_blkcnt a - (if decide (block_free a b) then 1 else 0) + (if decide (v = 0) then 0 else 1) ->
  c = Z.of_nat (free_count (blockstatus (set_status a b v))).
Proof.
  intros Hok Hb Hc ->. pose proof (tab_len _ _ Hok). pose proof (tab_blks _ _ Hok).
  rewrite free_count_set_status by lia. by rewrite Hc.
Qed.

Lemma count_range a : table_ok g a -> 0 <= Z.of_nat (free_count (blockstatus a)) <= BLOCKSTATUS_LEN.
Proof.
  intros Hok. pose proof (free_count_le (blockstatus a)). pose proof (tab_len _ _ Hok) as Hl.
  unfold arr_len in Hl. lia.
Qed.

Lemma take_block_ok a b : alloc_ok g a -> block_free a b -> alloc_ok g (take_block b a).
Proof.
  intros [Ht Hc Hl] Hf. pose proof (block_free_range _ _ _ Ht Hf) as Hb.
  pose proof (count_ok_set_status a b 0 (free_blkcnt a - 1) Ht ltac:(lia) Hc) as Hc'.
  rewrite decide_True in Hc' by done. rewrite decide_True in Hc' by done.
  specialize (Hc' ltac:(lia)).
  pose proof (set_status_table_ok g a b 0 Ht ltac:(lia) ltac:(by left)) as Ht'.
  pose proof (count_range _ Ht'). unfold BLOCKSTATUS_LEN in *.
  split; [|unfold count_ok; simpl; rewrite u16_id by (unfold in_u16; lia); exact Hc'|simpl; lia].
  by destruct Ht'; split.
Qed.

Lemma free_count_zero a :
  count_ok a -> free_blkcnt a = 0 <-> forall b, ~ block_free a b.
Proof.
  intros Hc. rewrite Hc. split.
  - intros H0 b (v & Hv & Hne). enough (0 < free_count (blockstatus a))%nat by lia.
    apply free_count_pos. unfold arr_get in Hv. destruct (0 <=? b); [|done].
    by exists (Z.to_nat b), v.
  - intros Hno. destruct (free_count (blockstatus a)) eqn:E; [done|].
    destruct (proj1 (free_count_pos (blockstatus a))) as (k & v & Hk & Hv); [lia|].
    exfalso. apply (Hno (Z.of_nat k)). exists v. by rewrite arr_get_nat.
Qed.

Lemma nftl_get_free_block_ok a :
  alloc_ok g a ->
  nftl_get_free_block g a =
    match first_free a (scan_order n (lastfree a)) with
    | Some b => Done b (take_block b a)
    | None => Done 0xFFFF a
    end.
Proof.
  intros [Ht Hc Hl]. rewrite nftl_get_free_block_run by done.
  destruct (free_blkcnt a =? 0) eqn:E; [|done]. zbool.
  destruct (first_free _ _) as [b|] eqn:Ef; [|done].
  apply first_free_Some in Ef as [_ Hf]. by apply (proj1 (free_count_zero a Hc)) in Hf.
Qed.

(** C14. [nftl_get_free_block] is complete and fair: in a consistent state it
    hands out the first free block met by the cyclic scan that starts at
    [lastfree], keeps the state consistent, and answers 0xFFFF exactly when
    no block of the chip is free. *)
Theorem get_free_block_correct a :
  alloc_ok g a ->
  (exists b, first_free a (scan_order n (lastfree a)) = Some b /\ 0 <= b < n /\ block_free a b /\
     nftl_get_free_block g a = Done b (take_block b a) /\
     alloc_ok g (take_block b a) /\ ~ block_free (take_block b a) b) \/
  ((forall b, ~ block_free a b) /\ nftl_get_free_block g a = Done 0xFFFF a).
Proof.
  intros Hok. pose proof Hok as [Ht Hc Hl]. rewrite nftl_get_free_block_ok by done.
  destruct (first_free _ _) as [b|] eqn:Ef; [left|right].
  - apply first_free_Some in Ef as Hf. destruct Hf as [_ Hf].
    pose proof (block_free_range _ _ _ Ht Hf) as Hb.
    exists b. split_and!; [done|lia|lia|done|done|by apply take_block_ok|].
    change (~ block_free (set_status a b 0) b).
    pose proof (tab_len _ _ Ht). pose proof (tab_blks _ _ Ht).
    rewrite block_free_set_status by lia. rewrite decide_True by done. naive_solver.
  - split; [|done]. intros b Hf. pose proof (block_free_range _ _ _ Ht Hf).
    eapply (proj1 (first_free_None _ _) Ef); [|exact Hf]. apply elem_of_scan_order; lia.
Qed.

(** Releasing and reserving blocks keep the allocator consistent: the
    counter [free_blkcnt] stays equal to the number of blocks marked free,
    and marking an already free block is refused silently. *)
Theorem set_block_free_nofree_ok a b :
  alloc_ok g a -> 0 <= b < n ->
  (exists a', nftl_set_block_free g b a = Done 0 a' /\ alloc_ok g a' /\ block_free a' b) /\
  (block_free a b -> exists a', nftl_set_block_nofree g b a = Done 0 a' /\ alloc_ok g a' /\
     ~ block_free a' b /\ forall b', b' <> b -> block_free a' b' <-> block_free a b').
Proof.
  intros Hok Hb. pose proof Hok as [Ht Hc Hl].
  pose proof (tab_len _ _ Ht). pose proof (tab_blks _ _ Ht). split.
  - rewrite nftl_set_block_free_run by (done || lia). case_decide as Hd; [by exists a|].
    eexists. split; [done|].
    pose proof (count_ok_set_status a b 0xff (free_blkcnt a + 1) Ht ltac:(lia) Hc) as Hc'.
    rewrite decide_False in Hc' by done. rewrite decide_False in Hc' by done.
    specialize (Hc' ltac:(lia)).
    pose proof (set_status_table_ok g a b 0xff Ht ltac:(lia) ltac:(lia)) as Ht'.
    pose proof (count_range _ Ht'). unfold BLOCKSTATUS_LEN in *. split.
    + split; [by destruct Ht'; split| |done].
      unfold count_ok; simpl. rewrite u16_id by (unfold in_u16; lia). exact Hc'.
    + change (block_free (set_status a b 0xff) b).
      rewrite block_free_set_status by lia. by rewrite decide_True.
  - intros Hf. rewrite nftl_set_block_nofree_run by (done || lia). eexists. split; [done|].
    fold (take_block b a). split; [by apply take_block_ok|].
    split; [|intros b' Hne].
    + change (~ block_free (set_status a b 0) b).
      rewrite block_free_set_status by lia. rewrite decide_True by done. naive_solver.
    + change (block_free (set_status a b 0) b' <-> block_free a b').
      rewrite block_free_set_status by lia. by rewrite decide_False.
Qed.

(** [nftl_set_block_bad] on a block that is not free (the case of every
    caller: a block just allocated, or a garbage block) decrements
    [free_blkcnt] although no free block is lost, so the counter no longer
    counts the free blocks. *)
Theorem set_block_bad_miscounts a b :
  alloc_ok g a -> 0 <= b < n -> ~ block_free a b ->
  exists a', nftl_set_block_bad g b a = Done 0 a' /\
    free_count (blockstatus a') = free_count (blockstatus a) /\
    free_blkcnt a' = u16 (free_blkcnt a - 1) /\ ~ count_ok a'.
Proof.
  intros [Ht Hc Hl] Hb Hnf. pose proof (tab_len _ _ Ht). pose proof (tab_blks _ _ Ht).
  rewrite nftl_set_block_bad_run by (done || lia). eexists. split; [done|].
  assert (Hs : free_count (blockstatus (set_status a b 0)) = free_count (blockstatus a)).
  { apply Nat2Z.inj. rewrite free_count_set_status by lia.
    rewrite decide_False by done. rewrite decide_True by done. lia. }
  split; [exact Hs|]. split; [done|].
  pose proof (count_range _ Ht). unfold BLOCKSTATUS_LEN in *.
  unfold count_ok in *. cbn [free_blkcnt with_free_blkcnt blockstatus].
  change (blockstatus (with_free_blkcnt _ _)) with (blockstatus (set_status a b 0)).
  rewrite Hs, Hc. unfold u16. intros Hbad.
  change (2 ^ 16) with 65536 in Hbad. Z.to_euclidean_division_equations; lia.
Qed.

(** When the saved [lastfree] is at least twice the number of blocks the
    scan loop does not run at all: the start index is reset to 0 but the
    loop counter is not, and 0xFFFF is answered whatever blocks are free. *)
Theorem get_free_block_bad_lastfree a :
  2 * n <= lastfree a -> nftl_get_free_block g a = Done 0xFFFF a.
Proof.
  intros Hl. unfold nftl_get_free_block, bind at 1, gets, id.
  destruct (free_blkcnt a =? 0); [done|]. unfold bind, for_local.
  by replace (Z.to_nat (2 * n - lastfree a)) with 0%nat by lia.
Qed.
End Properties.

(** ** What clients of the allocator use *)

(** The table is sound, whatever the counter says: error handling lets
    [free_blkcnt] drift. *)
Record alloc_wf (g : mtd_info) (a : alloc) : Prop := {
  aw_table : table_ok g a;
  aw_last : 0 <= lastfree a < nr_blks g
}.

Section Client.
Context (g : mtd_info).
Implicit Types (a : alloc) (b c : Z).

Lemma take_block_free a b c : alloc_wf g a -> 0 <= b < nr_blks g ->
  block_free (take_block b a) c <-> c <> b /\ block_free a c.
Proof.
  intros [Ht _] Hb. change (block_free (take_block b a) c) with (block_free (set_status a b 0) c).
  pose proof (tab_len _ _ Ht). pose proof (tab_blks _ _ Ht).
  rewrite block_free_set_status by lia. case_decide; naive_solver.
Qed.

Lemma take_block_count a b : alloc_wf g a -> block_free a b ->
  (free_count (blockstatus (take_block b a)) < free_count (blockstatus a))%nat.
Proof.
  intros [Ht _] Hf. pose proof (block_free_range _ _ _ Ht Hf). pose proof (tab_len _ _ Ht).
  pose proof (tab_blks _ _ Ht).
  change (blockstatus (take_block b a)) with (blockstatus (set_status a b 0)).
  pose proof (free_count_set_status a b 0 ltac:(lia)) as H'.
  rewrite decide_True in H' by done. rewrite decide_True in H' by done. lia.
Qed.

Lemma take_block_wf a b : alloc_wf g a -> 0 <= b < nr_blks g -> alloc_wf g (take_block b a).
Proof.
  intros [Ht Hl] Hb. split; [|exact Hb].
  destruct (set_status_table_ok g a b 0 Ht ltac:(lia) ltac:(by left)) as [H1 H2 H3]. by split.
Qed.

(** The allocator answers 0xFFFF or hands out a free block. *)
Lemma get_free_wf a : alloc_wf g a ->
  nftl_get_free_block g a = Done 0xFFFF a \/
  exists b, block_free a b /\ 0 <= b < nr_blks g /\ nftl_get_free_block g a = Done b (take_block b a).
Proof.
  intros [Ht Hl]. rewrite nftl_get_free_block_run by done. destruct (free_blkcnt a =? 0); [by left|].
  destruct (first_free _ _) as [b|] eqn:E; [right|by left].
  apply first_free_Some in E as [_ Hf]. exists b. split_and!; [done| | |done];
    pose proof (block_free_range _ _ _ Ht Hf); lia.
Qed.

(** Marking a block that is in use as bad leaves the free blocks alone. *)
Lemma set_bad_wf a b : alloc_wf g a -> 0 <= b < nr_blks g -> ~ block_free a b ->
  exists a', nftl_set_block_bad g b a = Done 0 a' /\ alloc_wf g a' /\
    (forall c, block_free a' c <-> block_free a c) /\
    free_count (blockstatus a') = free_count (blockstatus a).
Proof.
  intros [Ht Hl] Hb Hnf. pose proof (tab_len _ _ Ht). pose proof (tab_blks _ _ Ht).
  rewrite nftl_set_block_bad_run by (done || lia). eexists. split; [done|].
  destruct (set_status_table_ok g a b 0 Ht ltac:(lia) ltac:(by left)) as [H1 H2 H3].
  split_and!; [by split; [split|]| |].
  - intros c. change (block_free (set_status a b 0) c <-> block_free a c).
    rewrite block_free_set_status by lia. case_decide; [subst; naive_solver|done].
  - change (free_count (blockstatus (set_status a b 0)) = free_count (blockstatus a)).
    apply Nat2Z.inj. rewrite free_count_set_status by lia.
    rewrite decide_False by done. rewrite decide_True by done. lia.
Qed.
End Client.

(** ** A concrete allocator *)

(** No block from [n] on is marked free. *)
Lemma beyond_check (st : list Z) (f l n : Z) :
  0 <= n -> forallb (fun v => v =? 0) (drop (Z.to_nat n) st) = true ->
  forall b, block_free (MkAlloc st f l) b -> b < n.
Proof.
  intros Hn H b (v & Hv & Hne). destruct (decide (b < n)) as [|Hge]; [done|]. exfalso. cbn in Hv.
  rewrite forallb_forall in H. unfold arr_get in Hv. destruct (0 <=? b) eqn:E; [|done]. zbool.
  apply Hne, Z.eqb_eq, H, list_elem_of_In, (list_elem_of_lookup_2 _ (Z.to_nat b - Z.to_nat n)%nat).
  rewrite lookup_drop. by replace (Z.to_nat n + (Z.to_nat b - Z.to_nat n))%nat with (Z.to_nat b) by lia.
Qed.

(** A chip of 64 blocks; blocks 3 to 63 are free. *)
Definition alloc_geo : mtd_info := MkMtd (64 * 128) 128 32 8.
Definition alloc_ex : alloc := MkAlloc (replicate 3 0 ++ replicate 61 0xff ++ replicate 4032 0) 61 2.

Lemma alloc_ex_ok : alloc_ok alloc_geo alloc_ex.
Proof.
  split; [split| |].
  - vm_compute. reflexivity.
  - vm_compute. intuition congruence.
  - apply beyond_check; [vm_compute; discriminate|vm_compute; reflexivity].
  - vm_compute. reflexivity.
  - vm_compute. intuition congruence.
Qed.

Lemma get_free_block_correct_witness :
  nftl_get_free_block alloc_geo alloc_ex = Done 3 (take_block 3 alloc_ex) /\
  alloc_ok alloc_geo (take_block 3 alloc_ex).
Proof.
  destruct (get_free_block_correct alloc_geo alloc_ex alloc_ex_ok)
    as [(b & Hf & _ & _ & Hg & Hok & _)|[Hno _]].
  - assert (b = 3) as -> by (vm_compute in Hf; congruence). by split.
  - exfalso. apply (Hno 3). by exists 0xff.
Defined.

Lemma set_block_free_nofree_ok_witness :
  (exists a', nftl_set_block_free alloc_geo 1 alloc_ex = Done 0 a' /\ block_free a' 1) /\
  (exists a', nftl_set_block_nofree alloc_geo 5 alloc_ex = Done 0 a' /\ ~ block_free a' 5).
Proof.
  split.
  - destruct (set_block_free_nofree_ok alloc_geo alloc_ex 1 alloc_ex_ok) as [(a' & H & _ & Hf) _];
      [vm_compute; intuition congruence|]. by exists a'.
  - destruct (set_block_free_nofree_ok alloc_geo alloc_ex 5 alloc_ex_ok) as [_ H];
      [vm_compute; intuition congruence|].
    destruct H as (a' & H & _ & Hf & _); [by exists 0xff|]. by exists a'.
Defined.

Lemma set_block_bad_miscounts_witness :
  ~ block_free alloc_ex 1 /\
  exists a', nftl_set_block_bad alloc_geo 1 alloc_ex = Done 0 a' /\ free_blkcnt a' = 60 /\ ~ count_ok a'.
Proof.
  assert (Hnf : ~ block_free alloc_ex 1).
  { intros (v & Hv & Hne). vm_compute in Hv. congruence. }
  split; [done|].
  destruct (set_block_bad_miscounts alloc_geo alloc_ex 1 alloc_ex_ok) as (a' & H1 & _ & H2 & H3);
    [vm_compute; intuition congruence|done|].
  exists a'. split; [done|]. split; [|done]. rewrite H2. reflexivity.
Defined.

Lemma get_free_block_bad_lastfree_witness :
  block_free (with_lastfree 200 alloc_ex) 3 /\
  nftl_get_free_block alloc_geo (with_lastfree 200 alloc_ex) = Done 0xFFFF (with_lastfree 200 alloc_ex).
Proof.
  split; [by exists 0xff|]. apply get_free_block_bad_lastfree. vm_compute. discriminate.
Defined.
