(* ===== verification/NftlLog.v ===== *)
(** * NFTL: the representation of a log table

    Both log tables of [nftlmount.c] (DataLog and MTLog) have one shape: an
    array of block headers, each with the number [valid] of its entries, and
    one array that holds the entries of all blocks back to back.  This file
    relates such a pair of arrays to the list of groups it stands for and
    shows what the three array manipulations (append a group, add an entry to
    a group, delete a group) do to the groups. *)

From Stdlib Require Import ZArith Lia.
From stdpp Require Import base numbers list.
From S2P Require Import Prelude.

Section LogTable.
Context {H E : Type} (valid : H -> Z).
Implicit Types (gs : list (H * list E)).

Definition ents gs : list E := concat (map snd gs).
Definition hdrs gs : list H := map fst gs.

(** Every header counts its entries. *)
Definition counted gs : Prop := Forall (fun ge => valid ge.1 = arr_len ge.2) gs.

Record log_rep (bt : list H) (bn : Z) (tt : list E) (pn : Z) gs : Prop := {
  lr_blocks : exists bj, bt = hdrs gs ++ bj;
  lr_trans : exists tj, tt = ents gs ++ tj;
  lr_blkcnt : bn = arr_len gs;
  lr_pgcnt : pn = arr_len (ents gs);
  lr_counted : counted gs
}.

Lemma ents_app gs1 gs2 : ents (gs1 ++ gs2) = ents gs1 ++ ents gs2.
Proof. unfold ents. by rewrite map_app, concat_app. Qed.
Lemma ents_cons h es gs : ents ((h, es) :: gs) = es ++ ents gs.
Proof. done. Qed.
Lemma hdrs_app gs1 gs2 : hdrs (gs1 ++ gs2) = hdrs gs1 ++ hdrs gs2.
Proof. apply map_app. Qed.
Lemma hdrs_len gs : arr_len (hdrs gs) = arr_len gs.
Proof. unfold arr_len, hdrs. by rewrite length_map. Qed.

Lemma log_rep_room bt bn tt pn gs :
  log_rep bt bn tt pn gs -> bn <= arr_len bt /\ pn <= arr_len tt.
Proof.
  intros [[bj ->] [tj ->] -> -> _]. rewrite !arr_len_app, hdrs_len.
  pose proof (arr_len_nonneg bj). pose proof (arr_len_nonneg tj). lia.
Qed.

(** The header of group [k]. *)
Lemma log_rep_hdr bt bn tt pn gs1 h es gs2 :
  log_rep bt bn tt pn (gs1 ++ (h, es) :: gs2) -> arr_get bt (arr_len gs1) = Some h.
Proof.
  intros [[bj ->] _ _ _ _]. rewrite hdrs_app, <- app_assoc, arr_get_app, hdrs_len.
  rewrite Z.sub_diag. if_lia.
Qed.

(** Entry [j] of group [k] sits at the sum of the preceding counts. *)
Lemma log_rep_ent bt bn tt pn gs1 h es gs2 j :
  log_rep bt bn tt pn (gs1 ++ (h, es) :: gs2) -> 0 <= j < arr_len es ->
  arr_get tt (arr_len (ents gs1) + j) = arr_get es j.
Proof.
  intros [_ [tj ->] _ _ _] Hj. rewrite ents_app, ents_cons, <- !app_assoc.
  rewrite arr_get_app. destruct (_ <? _) eqn:E1; zbool; [lia|].
  rewrite arr_get_app. destruct (_ <? _) eqn:E2; zbool; [f_equal; lia|lia].
Qed.

(** The source's running sum of [valid] over the first groups. *)
Lemma counted_sum gs : counted gs -> forall c,
  foldl (fun c h => c + valid h) c (hdrs gs) = c + arr_len (ents gs).
Proof.
  induction 1 as [|[h es] gs Hv _ IH]; intros c; [simpl; unfold arr_len; simpl; lia|].
  cbn [hdrs map foldl fst]. rewrite IH, ents_cons, arr_len_app. cbn in Hv. lia.
Qed.

Lemma counted_nonneg gs : counted gs -> Forall (fun h => 0 <= valid h) (hdrs gs).
Proof.
  induction 1 as [|[h es] gs Hv _ IH]; constructor; [|done]. cbn in *.
  rewrite Hv. apply arr_len_nonneg.
Qed.

Lemma foldl_wrap w hs c m :
  (forall x, 0 <= x < m -> w x = x) -> Forall (fun h => 0 <= valid h) hs -> 0 <= c ->
  foldl (fun c h => c + valid h) c hs < m ->
  foldl (fun c h => w (c + valid h)) c hs = foldl (fun c h => c + valid h) c hs.
Proof.
  intros Hw. revert c. induction hs as [|h hs IH]; intros c Hv Hc Hm; [done|].
  inversion Hv as [|? ? Hh Hv']; subst. cbn [foldl] in *.
  assert (Hle : forall hs c, Forall (fun h => 0 <= valid h) hs ->
            c <= foldl (fun c h => c + valid h) c hs).
  { clear. induction hs as [|h hs IH]; intros c Hv; [done|].
    inversion Hv; subst. cbn [foldl]. specialize (IH (c + valid h) ltac:(done)). lia. }
  pose proof (Hle hs (c + valid h) Hv'). rewrite Hw by lia. apply IH; [done|lia|done].
Qed.

Lemma log_rep_offset bt bn tt pn gs1 gs2 w m :
  log_rep bt bn tt pn (gs1 ++ gs2) -> (forall x, 0 <= x < m -> w x = x) -> pn < m ->
  arr_sum w valid bt (arr_len gs1) = Some (arr_len (ents gs1)).
Proof.
  intros [[bj ->] _ _ Hpn Hc] Hw Hm. rewrite hdrs_app, <- app_assoc, <- hdrs_len, arr_sum_app.
  apply Forall_app in Hc as [Hc _]. rewrite ents_app, arr_len_app in Hpn.
  pose proof (arr_len_nonneg (ents gs2)).
  rewrite (foldl_wrap w _ 0 m Hw); [|by apply counted_nonneg|lia|].
  - by rewrite counted_sum.
  - rewrite counted_sum by done. lia.
Qed.

Lemma counted_app gs1 gs2 : counted (gs1 ++ gs2) <-> counted gs1 /\ counted gs2.
Proof. apply Forall_app. Qed.
Lemma counted_cons h es gs : counted ((h, es) :: gs) <-> valid h = arr_len es /\ counted gs.
Proof. apply (Forall_cons_iff (fun ge : H * list E => valid ge.1 = arr_len ge.2)). Qed.

(** ** Appending a group of one entry *)
Lemma log_rep_append bt bn tt pn gs h e :
  log_rep bt bn tt pn gs -> valid h = 1 -> bn < arr_len bt -> pn < arr_len tt ->
  exists bt' tt', arr_set bt bn h = Some bt' /\ arr_set tt pn e = Some tt' /\
    arr_len bt' = arr_len bt /\ arr_len tt' = arr_len tt /\
    log_rep bt' (bn + 1) tt' (pn + 1) (gs ++ [(h, [e])]).
Proof.
  intros [[bj ->] [tj ->] -> -> Hc] Hv Hb Ht. rewrite !arr_len_app, hdrs_len in *.
  destruct bj as [|b0 bj]; [unfold arr_len in *; simpl in *; lia|].
  destruct tj as [|t0 tj]; [unfold arr_len in *; simpl in *; lia|].
  rewrite <- hdrs_len, !arr_set_mid. do 2 eexists. split_and!; [done|done| | |].
  - rewrite !arr_len_app, !arr_len_cons, hdrs_len. lia.
  - rewrite !arr_len_app, !arr_len_cons. lia.
  - split.
    + exists bj. rewrite hdrs_app. by rewrite <- app_assoc.
    + exists tj. rewrite ents_app. by rewrite <- app_assoc.
    + by rewrite hdrs_len, arr_len_app.
    + by rewrite ents_app, arr_len_app.
    + apply counted_app. split; [done|]. by repeat constructor.
Qed.

(** ** Changing a header *)
Lemma log_rep_set_hdr bt bn tt pn gs1 h h' es gs2 :
  log_rep bt bn tt pn (gs1 ++ (h, es) :: gs2) -> valid h' = valid h ->
  exists bt', arr_set bt (arr_len gs1) h' = Some bt' /\ arr_len bt' = arr_len bt /\
    log_rep bt' bn tt pn (gs1 ++ (h', es) :: gs2).
Proof.
  intros [[bj ->] Ht -> -> Hc] Hv. rewrite hdrs_app, <- app_assoc, <- hdrs_len.
  cbn [hdrs map fst app]. rewrite arr_set_mid. eexists. split_and!; [done| |].
  - by rewrite !arr_len_app, !arr_len_cons.
  - split.
    + exists bj. rewrite hdrs_app. by rewrite <- app_assoc.
    + destruct Ht as [tj ->]. exists tj. by rewrite !ents_app, !ents_cons.
    + by rewrite !arr_len_app, !arr_len_cons.
    + by rewrite !ents_app, !ents_cons.
    + apply counted_app in Hc as [? Hc]. apply counted_cons in Hc as [? ?].
      apply counted_app. split; [done|]. apply counted_cons. split; [congruence|done].
Qed.

(** ** Replacing an entry *)
Lemma log_rep_set_ent bt bn tt pn gs1 h es1 e e' es2 gs2 :
  log_rep bt bn tt pn (gs1 ++ (h, es1 ++ e :: es2) :: gs2) ->
  exists tt', arr_set tt (arr_len (ents gs1) + arr_len es1) e' = Some tt' /\
    arr_len tt' = arr_len tt /\
    log_rep bt bn tt' pn (gs1 ++ (h, es1 ++ e' :: es2) :: gs2).
Proof.
  intros [Hb [tj ->] -> -> Hc]. rewrite ents_app, ents_cons, <- !app_assoc.
  cbn [app]. rewrite app_assoc, <- arr_len_app, arr_set_mid.
  eexists. split_and!; [done| |].
  - by rewrite !arr_len_app, !arr_len_cons.
  - split.
    + destruct Hb as [bj ->]. exists bj. by rewrite !hdrs_app.
    + exists tj. rewrite ents_app, ents_cons. by rewrite <- !app_assoc.
    + by rewrite !arr_len_app, !arr_len_cons.
    + rewrite !ents_app, !ents_cons, !arr_len_app, !arr_len_cons, !arr_len_app. lia.
    + apply counted_app in Hc as [? Hc]. apply counted_cons in Hc as [Hv ?].
      apply counted_app. split; [done|]. apply counted_cons. split; [|done].
      rewrite Hv. by rewrite !arr_len_app, !arr_len_cons.
Qed.

(** ** Adding an entry at the end of a group *)
Lemma log_rep_insert bt bn tt pn gs1 h h' es e gs2 :
  log_rep bt bn tt pn (gs1 ++ (h, es) :: gs2) -> valid h' = valid h + 1 -> pn < arr_len tt ->
  exists bt' tt1 tt2,
    arr_move_down tt (arr_len (ents gs1) + arr_len es) pn = Some tt1 /\
    arr_set tt1 (arr_len (ents gs1) + arr_len es) e = Some tt2 /\
    arr_set bt (arr_len gs1) h' = Some bt' /\
    arr_len bt' = arr_len bt /\ arr_len tt2 = arr_len tt /\
    log_rep bt' bn tt2 (pn + 1) (gs1 ++ (h', es ++ [e]) :: gs2).
Proof.
  intros [[bj ->] [tj ->] -> -> Hc] Hv Hroom. rewrite arr_len_app in Hroom.
  destruct tj as [|t0 tj]; [unfold arr_len in *; simpl in *; lia|].
  rewrite ents_app, ents_cons, <- !app_assoc.
  rewrite (app_assoc (ents gs1) es), <- arr_len_app.
  destruct (arr_insert_slot (ents gs1 ++ es) (ents gs2) t0 e tj) as (tt1 & H1 & H2).
  rewrite <- !arr_len_app in H1. rewrite (app_assoc (ents gs1) es (ents gs2)), H1.
  rewrite hdrs_app, <- app_assoc, <- hdrs_len. cbn [hdrs map fst app].
  rewrite arr_set_mid. do 3 eexists. split_and!; [done|exact H2|done| | |].
  - by rewrite !arr_len_app, !arr_len_cons.
  - rewrite !arr_len_app, !arr_len_cons, !arr_len_app. lia.
  - split.
    + exists bj. rewrite hdrs_app. by rewrite <- app_assoc.
    + exists tj. rewrite ents_app, ents_cons. by rewrite <- !app_assoc.
    + by rewrite !arr_len_app, !arr_len_cons.
    + rewrite !ents_app, !ents_cons, !arr_len_app. change (arr_len [e]) with 1. lia.
    + apply counted_app in Hc as [? Hc]. apply counted_cons in Hc as [Hv' ?].
      apply counted_app. split; [done|]. apply counted_cons. split; [|done].
      rewrite Hv, Hv', arr_len_app. done.
Qed.

(** ** Deleting a group *)
Lemma log_rep_delete bt bn tt pn gs1 h es gs2 :
  log_rep bt bn tt pn (gs1 ++ (h, es) :: gs2) -> bn < arr_len bt ->
  exists bt' tt',
    arr_move_up tt (arr_len (ents gs1)) (pn - arr_len es) (arr_len es) = Some tt' /\
    arr_move_up bt (arr_len gs1) bn 1 = Some bt' /\
    arr_len bt' = arr_len bt /\ arr_len tt' = arr_len tt /\
    log_rep bt' (bn - 1) tt' (pn - arr_len es) (gs1 ++ gs2).
Proof.
  intros [[bj ->] [tj ->] -> -> Hc] Hroom. rewrite (arr_len_app (hdrs _)), hdrs_len in Hroom.
  destruct bj as [|b0 bj]; [unfold arr_len in *; simpl in *; lia|].
  rewrite ents_app, ents_cons, <- !app_assoc.
  destruct (arr_delete_seg (ents gs1) es (ents gs2) tj) as (tt' & tj' & H1 & -> & H3).
  replace (arr_len (ents gs1 ++ es ++ ents gs2) - arr_len es)
    with (arr_len (ents gs1) + arr_len (ents gs2)) by (rewrite !arr_len_app; lia).
  rewrite hdrs_app, <- app_assoc.
  destruct (arr_delete_seg (hdrs gs1) [h] (hdrs gs2 ++ [b0]) bj) as (bt' & bj' & H4 & -> & H6).
  replace (hdrs gs1 ++ hdrs ((h, es) :: gs2) ++ b0 :: bj)
    with (hdrs gs1 ++ [h] ++ (hdrs gs2 ++ [b0]) ++ bj) by (by rewrite <- !app_assoc).
  replace (arr_len (gs1 ++ (h, es) :: gs2)) with (arr_len (hdrs gs1) + arr_len (hdrs gs2 ++ [b0]))
    by (rewrite !arr_len_app, !hdrs_len, !arr_len_cons; unfold arr_len; simpl; lia).
  rewrite <- (hdrs_len gs1). do 2 eexists. split_and!; [exact H1|exact H4| | |].
  - rewrite !arr_len_app, H6, !arr_len_cons. lia.
  - rewrite !arr_len_app, H3. lia.
  - split.
    + exists (b0 :: bj'). rewrite hdrs_app. by rewrite <- !app_assoc.
    + exists tj'. rewrite ents_app. by rewrite <- !app_assoc.
    + rewrite !arr_len_app, !hdrs_len. unfold arr_len. simpl. lia.
    + by rewrite ents_app, arr_len_app.
    + apply counted_app in Hc as [? Hc]. apply counted_cons in Hc as [_ ?].
      by apply counted_app.
Qed.

(** Searching the entries of one group in the array. *)
Lemma log_rep_find_hit bt bn tt pn gs1 h es1 e es2 gs2 p :
  log_rep bt bn tt pn (gs1 ++ (h, es1 ++ e :: es2) :: gs2) ->
  Forall (fun y => p y = false) es1 -> p e = true ->
  arr_find p tt (arr_len (ents gs1)) (arr_len (ents gs1) + arr_len (es1 ++ e :: es2))
    = Some (arr_len (ents gs1) + arr_len es1).
Proof.
  intros [_ [tj ->] _ _ _] H1 H2. rewrite ents_app, ents_cons, <- !app_assoc.
  rewrite (app_assoc es1 (e :: es2)). by apply arr_find_hit.
Qed.
Lemma log_rep_find_miss bt bn tt pn gs1 h es gs2 p :
  log_rep bt bn tt pn (gs1 ++ (h, es) :: gs2) -> Forall (fun y => p y = false) es ->
  arr_find p tt (arr_len (ents gs1)) (arr_len (ents gs1) + arr_len es)
    = Some (arr_len (ents gs1) + arr_len es).
Proof.
  intros [_ [tj ->] _ _ _] H1. rewrite ents_app, ents_cons, <- !app_assoc.
  by apply arr_find_miss.
Qed.

(** ** Rebuilding the last group *)

(** A header without entries behind the last group. *)
Lemma log_rep_open bt bn tt pn gs h :
  log_rep bt bn tt pn gs -> valid h = 0 -> bn < arr_len bt ->
  exists bt', arr_set bt bn h = Some bt' /\ arr_len bt' = arr_len bt /\
    log_rep bt' (bn + 1) tt pn (gs ++ [(h, [])]).
Proof.
  intros [[bj ->] Ht -> -> Hc] Hv Hb. rewrite arr_len_app, hdrs_len in Hb.
  destruct bj as [|b0 bj]; [unfold arr_len in *; simpl in *; lia|].
  rewrite <- hdrs_len, arr_set_mid. eexists. split_and!; [done|by rewrite !arr_len_app, !arr_len_cons|].
  split.
  - exists bj. rewrite hdrs_app. by rewrite <- app_assoc.
  - rewrite ents_app. by rewrite app_nil_r.
  - by rewrite hdrs_len, arr_len_app.
  - by rewrite ents_app, app_nil_r.
  - apply counted_app. split; [done|]. by repeat constructor.
Qed.

(** One more entry for it. *)
Lemma log_rep_add_last bt bn tt pn gs h h' es e :
  log_rep bt bn tt pn (gs ++ [(h, es)]) -> valid h' = valid h + 1 -> pn < arr_len tt ->
  exists bt' tt', arr_set tt (arr_len (ents gs) + arr_len es) e = Some tt' /\
    arr_set bt (arr_len gs) h' = Some bt' /\ arr_len bt' = arr_len bt /\ arr_len tt' = arr_len tt /\
    log_rep bt' bn tt' (pn + 1) (gs ++ [(h', es ++ [e])]).
Proof.
  intros Hr Hv Hp. assert (Hpn : pn = arr_len (ents gs) + arr_len es).
  { rewrite (lr_pgcnt _ _ _ _ _ Hr), ents_app, arr_len_app, ents_cons. change (ents []) with (@nil E).
    by rewrite app_nil_r. }
  destruct (log_rep_insert bt bn tt pn gs h h' es e [] Hr Hv Hp) as (bt' & t1 & t2 & H1 & H2 & H3 & H4 & H5 & H6).
  rewrite <- Hpn in H1. unfold arr_move_down in H1. replace (Z.to_nat (pn - pn)) with 0%nat in H1 by lia.
  cbn in H1. injection H1 as ->. by exists bt', t2.
Qed.
End LogTable.
