(* ===== verification/NftlDl.v ===== *)
(** * NFTL: the DataLog table

    The globals [dl_blocktab], [dl_blkcnt], [dl_transtab], [dl_pgcnt] of
    [BSP/oss/nftl/nftlmount.c] and the functions that search and update them.
    The table is the index of the log blocks that hold recently written user
    pages: per log block its logical block, physical block and fill level, and
    for every logical page written there the last physical page used. *)

From Stdlib Require Import ZArith Lia.
From stdpp Require Import base numbers list sets.
From S2P Require Import Prelude CMonad NftlTypes NftlLog.

Record dl_blockinfo := MkDlb { dlb_lba : Z; dlb_pba : Z; dlb_used : Z; dlb_valid : Z }.
Record dl_transitem := MkDlt { dlt_ppa : Z; dlt_lpa : Z }.

Record dl_ram := MkDl {
  dl_blocktab : list dl_blockinfo;
  dl_blkcnt : Z;
  dl_transtab : list dl_transitem;
  dl_pgcnt : Z
}.

Definition dlb_set_pba v b := MkDlb (dlb_lba b) v (dlb_used b) (dlb_valid b).
Definition dlb_set_used v b := MkDlb (dlb_lba b) (dlb_pba b) v (dlb_valid b).
Definition dlb_set_valid v b := MkDlb (dlb_lba b) (dlb_pba b) (dlb_used b) v.
Definition with_dl_blocktab v d := MkDl v (dl_blkcnt d) (dl_transtab d) (dl_pgcnt d).
Definition with_dl_blkcnt v d := MkDl (dl_blocktab d) v (dl_transtab d) (dl_pgcnt d).
Definition with_dl_transtab v d := MkDl (dl_blocktab d) (dl_blkcnt d) v (dl_pgcnt d).
Definition with_dl_pgcnt v d := MkDl (dl_blocktab d) (dl_blkcnt d) (dl_transtab d) v.

Section Operations.
Context (g : mtd_info).

Definition dl_block (i : Z) : M dl_ram dl_blockinfo :=
  let! d := gets id in assert_some OutOfBounds (arr_get (dl_blocktab d) i).
Definition dl_trans (i : Z) : M dl_ram dl_transitem :=
  let! d := gets id in assert_some OutOfBounds (arr_get (dl_transtab d) i).
Definition dl_set_block (i : Z) (b : dl_blockinfo) : M dl_ram unit :=
  let! d := gets id in
  let! t := assert_some OutOfBounds (arr_set (dl_blocktab d) i b) in
  modify (with_dl_blocktab t).
Definition dl_set_trans (i : Z) (e : dl_transitem) : M dl_ram unit :=
  let! d := gets id in
  let! t := assert_some OutOfBounds (arr_set (dl_transtab d) i e) in
  modify (with_dl_transtab t).

(** The loop over the entries of one block, and over the blocks. *)
Definition find_lpa_entry (pba targetlpa pageofs j : Z) : M dl_ram (option (Z * Z)) :=
  let! t := dl_trans (pageofs + j) in
  if dlt_lpa t =? targetlpa then ret (Some (pba, u8 (dlt_ppa t))) else ret None.
Definition find_lpa_block (lba targetlpa i pageofs : Z) : M dl_ram (Z + Z * Z) :=
  let! b := dl_block i in
  if dlb_lba b =? lba then
    let! found := for_range 0 (dlb_valid b) (find_lpa_entry (dlb_pba b) targetlpa pageofs) in
    match found with
    | Some r => ret (inr r)
    | None => ret (inl pageofs)
    end
  else ret (inl (u16 (pageofs + dlb_valid b))).

(** [Some (retblk, retpg)] for FIND_OK, [None] for FIND_FAIL (the out
    parameters are then left alone). *)
Definition nftl_find_lpa_in_dl (targetlpa : Z) : M dl_ram (option (Z * Z)) :=
  let! d := gets id in
  let lba := u16 (targetlpa / nr_pgsinblk g) in
  let! r := for_local 0 (dl_blkcnt d) 0 (find_lpa_block lba targetlpa) in
  match r with inr x => ret (Some x) | inl _ => ret None end.

Definition nftl_find_lba_in_dl (lba : Z) : M dl_ram (option Z) :=
  let! d := gets id in
  for_range 0 (dl_blkcnt d) (fun i =>
    let! b := dl_block i in
    if negb (dl_blkcnt d =? 0) && (dlb_lba b =? lba) then ret (Some i) else ret None).

(** The four cases of [nftl_update_dl_ram]. *)
Definition dl_append (lpa pba : Z) : M dl_ram Z :=
  let lba := u16 (lpa / nr_pgsinblk g) in
  let! d := gets id in
  dl_set_block (dl_blkcnt d) (MkDlb lba (u16 pba) 1 1) ;;
  dl_set_trans (dl_pgcnt d) (MkDlt 0 (u32 lpa)) ;;
  modify (fun d => with_dl_blkcnt (u16 (dl_blkcnt d + 1)) d) ;;
  modify (fun d => with_dl_pgcnt (u16 (dl_pgcnt d + 1)) d) ;;
  ret 0.

Definition dl_insert (index lpa : Z) : M dl_ram Z :=
  let! d := gets id in
  let! pageofs := assert_some OutOfBounds (arr_sum u16 dlb_valid (dl_blocktab d) index) in
  let! b := dl_block index in
  let hi := pageofs + dlb_valid b in
  let! i := assert_some OutOfBounds
              (arr_find (fun t => dlt_lpa t =? lpa) (dl_transtab d) pageofs hi) in
  if negb (i =? hi) then
    (* lpa is in the table already *)
    let! t := dl_trans i in
    dl_set_trans i (MkDlt (dlb_used b) (dlt_lpa t)) ;;
    dl_set_block index (dlb_set_used (u8 (dlb_used b + 1)) b) ;;
    ret 0
  else
    let! tab := assert_some OutOfBounds (arr_move_down (dl_transtab d) hi (dl_pgcnt d)) in
    modify (with_dl_transtab tab) ;;
    let i := Z.min hi (dl_pgcnt d) in
    dl_set_trans i (MkDlt (dlb_used b) lpa) ;;
    dl_set_block index (dlb_set_valid (u8 (dlb_valid b + 1)) (dlb_set_used (u8 (dlb_used b + 1)) b)) ;;
    modify (fun d => with_dl_pgcnt (u16 (dl_pgcnt d + 1)) d) ;;
    ret 0.

Definition dl_delete (index : Z) : M dl_ram Z :=
  let! d := gets id in
  let! pageofs := assert_some OutOfBounds (arr_sum u16 dlb_valid (dl_blocktab d) index) in
  let! b := dl_block index in
  let validtmp := dlb_valid b in
  let! tab := assert_some OutOfBounds
                (arr_move_up (dl_transtab d) pageofs (dl_pgcnt d - validtmp) validtmp) in
  modify (with_dl_transtab tab) ;;
  let! bt := assert_some OutOfBounds (arr_move_up (dl_blocktab d) index (dl_blkcnt d) 1) in
  modify (with_dl_blocktab bt) ;;
  modify (fun d => with_dl_pgcnt (u16 (dl_pgcnt d - validtmp)) d) ;;
  modify (fun d => with_dl_blkcnt (u16 (dl_blkcnt d - 1)) d) ;;
  ret 0.

Definition dl_update (lpa pba : Z) : M dl_ram Z :=
  let lba := u16 (lpa / nr_pgsinblk g) in
  let! d := gets id in
  let! r := for_range 0 (dl_blkcnt d) (fun i =>
    let! b := dl_block i in
    if dlb_lba b =? lba then
      dl_set_block i (dlb_set_pba (u16 pba) b) ;; ret (Some (dlb_used b))
    else ret None) in
  match r with Some used => ret used | None => ret (-1) end.

Definition nftl_update_dl_ram (operation index lpa pba : Z) : M dl_ram Z :=
  if operation =? APPEND_OPERATION then dl_append lpa pba
  else if operation =? INSERT_OPERATION then dl_insert index lpa
  else if operation =? DEL_OPERATION then dl_delete index
  else if operation =? UPDATE_OPERATION then dl_update lpa pba
  else ret (-1).
End Operations.

(** ** The table as a map *)

Notation dl_group := (dl_blockinfo * list dl_transitem)%type.

(** Where a group keeps page [lpa]. *)
Fixpoint ent_lookup (es : list dl_transitem) (lpa : Z) : option Z :=
  match es with
  | [] => None
  | e :: es => if dlt_lpa e =? lpa then Some (dlt_ppa e) else ent_lookup es lpa
  end.

Fixpoint dl_lookup (g : mtd_info) (gs : list dl_group) (lpa : Z) : option (Z * Z) :=
  match gs with
  | [] => None
  | (h, es) :: gs =>
      if dlb_lba h =? lpa / nr_pgsinblk g
      then match ent_lookup es lpa with Some p => Some (dlb_pba h, p) | None => None end
      else dl_lookup g gs lpa
  end.

(** Recording that [lpa] was last written at page [p]. *)
Fixpoint ent_put (es : list dl_transitem) (lpa p : Z) : list dl_transitem :=
  match es with
  | [] => [MkDlt p lpa]
  | e :: es => if dlt_lpa e =? lpa then MkDlt p lpa :: es else e :: ent_put es lpa p
  end.

(** A log block is well formed: its entries are pages of its logical block, at
    most one each, at physical pages below the fill level. *)
Record group_ok (g : mtd_info) (ge : dl_group) : Prop := {
  go_lba : in_u16 (dlb_lba ge.1);
  go_pba : in_u16 (dlb_pba ge.1);
  go_valid : dlb_valid ge.1 = arr_len ge.2;
  go_used : dlb_valid ge.1 <= dlb_used ge.1 <= nr_pgsinblk g;
  go_lpas : Forall (fun e => dlt_lpa e / nr_pgsinblk g = dlb_lba ge.1 /\ in_u32 (dlt_lpa e)
                             /\ 0 <= dlt_ppa e < dlb_used ge.1) ge.2;
  go_nodup : NoDup (map dlt_lpa ge.2)
}.

Record dl_ok (g : mtd_info) (d : dl_ram) (gs : list dl_group) : Prop := {
  dk_rep : log_rep dlb_valid (dl_blocktab d) (dl_blkcnt d) (dl_transtab d) (dl_pgcnt d) gs;
  dk_blen : arr_len (dl_blocktab d) = DL_MAX_BLOCKS;
  dk_tlen : arr_len (dl_transtab d) = DL_MAX_PAGES;
  dk_geo : 0 < nr_pgsinblk g <= MAX_PAGES_IN_BLOCK;
  dk_groups : Forall (group_ok g) gs;
  dk_nodup : NoDup (map (fun ge : dl_group => dlb_lba ge.1) gs)
}.

(** ** Searching *)
Section Search.
Context (g : mtd_info).
Implicit Types (d : dl_ram) (gs : list dl_group) (es : list dl_transitem).

Lemma dl_block_run d i b : arr_get (dl_blocktab d) i = Some b -> dl_block i d = Done b d.
Proof. intros H. unfold dl_block, bind, gets, id. by rewrite H. Qed.
Lemma dl_trans_run d i e : arr_get (dl_transtab d) i = Some e -> dl_trans i d = Done e d.
Proof. intros H. unfold dl_trans, bind, gets, id. by rewrite H. Qed.

Lemma find_lpa_entries_run d es pba lpa ofs i :
  (forall j, 0 <= j < arr_len es -> arr_get (dl_transtab d) (ofs + i + j) = arr_get es j) ->
  Forall (fun e => in_u8 (dlt_ppa e)) es ->
  forM (length es) i (find_lpa_entry pba lpa ofs) d
    = Done (match ent_lookup es lpa with Some p => Some (pba, p) | None => None end) d.
Proof.
  revert i. induction es as [|e es IH]; intros i Hes Hp; [done|].
  inversion Hp as [|? ? Hpe Hpes]; subst. cbn [length forM ent_lookup].
  pose proof (arr_len_nonneg es).
  pose proof (Hes 0 ltac:(rewrite arr_len_cons; lia)) as H0. cbn in H0. rewrite Z.add_0_r in H0.
  unfold bind at 1, find_lpa_entry at 1, bind at 1. rewrite (dl_trans_run _ _ _ H0).
  destruct (dlt_lpa e =? lpa); [by rewrite u8_id|]. apply IH; [|done].
  intros j Hj. pose proof (Hes (j + 1) ltac:(rewrite arr_len_cons; lia)) as Hj'.
  rewrite arr_get_cons in Hj'. destruct (_ =? _) eqn:E; zbool; [lia|].
  rewrite Z.add_simpl_r in Hj'. rewrite <- Hj'. f_equal. lia.
Qed.

(** Blocks of other logical blocks only move the offset. *)
Lemma find_lpa_others_run d lba lpa n i ofs :
  (forall k, i <= k < i + Z.of_nat n -> exists b, arr_get (dl_blocktab d) k = Some b /\ dlb_lba b <> lba) ->
  exists q, forL n i ofs (find_lpa_block lba lpa) d = Done (inl q) d.
Proof.
  revert i ofs. induction n as [|n IH]; intros i ofs H; [by exists ofs|].
  destruct (H i ltac:(lia)) as (b & Hb & Hne). cbn [forL].
  unfold bind at 1, find_lpa_block at 1, bind at 1. rewrite (dl_block_run _ _ _ Hb).
  destruct (dlb_lba b =? lba) eqn:E; zbool; [done|]. apply IH. intros k Hk. apply H. lia.
Qed.

Lemma group_ok_ppa ge : group_ok g ge -> nr_pgsinblk g <= MAX_PAGES_IN_BLOCK ->
  Forall (fun e => in_u8 (dlt_ppa e)) ge.2.
Proof.
  intros [_ _ _ Hu Hl _] Hg. eapply Forall_impl; [exact Hl|].
  intros e (_ & _ & H). unfold in_u8, MAX_PAGES_IN_BLOCK in *. lia.
Qed.

Lemma dl_ok_pgcnt d gs : dl_ok g d gs -> 0 <= dl_pgcnt d <= DL_MAX_PAGES.
Proof.
  intros H. pose proof (log_rep_room _ _ _ _ _ _ (dk_rep _ _ _ H)).
  rewrite (dk_tlen _ _ _ H) in *. rewrite (lr_pgcnt _ _ _ _ _ _ (dk_rep _ _ _ H)) in *.
  pose proof (arr_len_nonneg (ents gs)). lia.
Qed.

Lemma find_lpa_loop_run d lpa gs2 : forall gs1,
  dl_ok g d (gs1 ++ gs2) -> in_u16 (lpa / nr_pgsinblk g) ->
  exists q, forL (length gs2) (arr_len gs1) (arr_len (ents gs1))
      (find_lpa_block (lpa / nr_pgsinblk g) lpa) d
    = Done (match dl_lookup g gs2 lpa with Some r => inr r | None => inl q end) d.
Proof.
  induction gs2 as [|[h es] gs2 IH]; intros gs1 Hok Hlba; [by eexists|].
  pose proof (dk_rep _ _ _ Hok) as Hrep. pose proof (dl_ok_pgcnt _ _ Hok) as Hpg.
  pose proof (dk_geo _ _ _ Hok) as Hgeo.
  assert (Hge : group_ok g (h, es)).
  { pose proof (dk_groups _ _ _ Hok) as Hg. apply Forall_app in Hg as [_ Hg]. by inversion Hg. }
  pose proof (go_valid _ _ Hge) as Hv. cbn in Hv.
  cbn [length forL dl_lookup]. unfold bind at 1, find_lpa_block at 1, bind at 1.
  rewrite (dl_block_run _ _ _ (log_rep_hdr _ _ _ _ _ _ _ _ _ Hrep)).
  destruct (dlb_lba h =? lpa / nr_pgsinblk g) eqn:E; zbool.
  - unfold bind at 1, for_range. rewrite Z.sub_0_r, Hv.
    unfold arr_len at 1. rewrite Nat2Z.id, find_lpa_entries_run.
    + destruct (ent_lookup es lpa) as [p|]; [by exists 0|].
      destruct (find_lpa_others_run d (lpa / nr_pgsinblk g) lpa (length gs2)
                  (arr_len gs1 + 1) (arr_len (ents gs1))) as [q Hq]; [|by exists q].
      intros k Hk. pose proof (dk_nodup _ _ _ Hok) as Hnd.
      destruct (lr_blocks _ _ _ _ _ _ Hrep) as [bj Hbt].
      destruct (arr_get_in gs2 (k - arr_len gs1 - 1)) as [[h' es'] Hg]; [unfold arr_len in *; lia|].
      exists h'. split.
      * rewrite Hbt, hdrs_app, <- app_assoc, arr_get_app, hdrs_len.
        destruct (_ <? _) eqn:E1; zbool; [lia|]. cbn [hdrs map fst app].
        rewrite arr_get_cons. destruct (_ =? _) eqn:E2; zbool; [lia|].
        rewrite arr_get_app. unfold arr_get in *. destruct (0 <=? _) eqn:E3; [|done].
        pose proof (lookup_lt_Some _ _ _ Hg).
        destruct (_ <? arr_len _) eqn:E4; zbool.
        -- by rewrite list_lookup_fmap, Hg.
        -- unfold arr_len in E4 at 1. rewrite length_map in E4. lia.
      * rewrite map_app in Hnd. apply NoDup_app in Hnd as (_ & _ & Hnd).
        cbn [map] in Hnd. apply NoDup_cons in Hnd as [Hnin _]. rewrite <- E. intros Heq.
        apply Hnin. apply list_elem_of_In, in_map_iff. exists (h', es'). split; [done|].
        apply list_elem_of_In. unfold arr_get in Hg. destruct (0 <=? _); [|done].
        by eapply list_elem_of_lookup_2.
    + intros j Hj. rewrite Z.add_0_r. by eapply log_rep_ent.
    + apply (group_ok_ppa (h, es)); [done|lia].
  - rewrite u16_id.
    + destruct (IH (gs1 ++ [(h, es)])) as [q Hq]; [by rewrite <- app_assoc|done|].
      exists q. rewrite <- Hq. rewrite ents_app, !arr_len_app, Hv.
      change (ents [(h, es)]) with (es ++ []). by rewrite app_nil_r.
    + rewrite Hv. pose proof (lr_pgcnt _ _ _ _ _ _ Hrep) as Hpc.
      rewrite ents_app, ents_cons, !arr_len_app in Hpc.
      pose proof (arr_len_nonneg (ents gs1)). pose proof (arr_len_nonneg (ents gs2)).
      pose proof (arr_len_nonneg es). unfold in_u16, DL_MAX_PAGES in *. lia.
Qed.

(** [nftl_find_lpa_in_dl] looks the page up in the map of the table. *)
Lemma nftl_find_lpa_in_dl_run d gs lpa :
  dl_ok g d gs -> in_u16 (lpa / nr_pgsinblk g) ->
  nftl_find_lpa_in_dl g lpa d = Done (dl_lookup g gs lpa) d.
Proof.
  intros Hok Hl. unfold nftl_find_lpa_in_dl, bind at 1, gets, id, for_local.
  rewrite (u16_id (lpa / _)) by done.
  rewrite (lr_blkcnt _ _ _ _ _ _ (dk_rep _ _ _ Hok)), Z.sub_0_r.
  unfold arr_len. rewrite Nat2Z.id. unfold bind.
  destruct (find_lpa_loop_run d lpa gs [] Hok Hl) as [q Hq].
  change (arr_len (ents (@nil dl_group))) with 0 in Hq.
  change (arr_len (@nil dl_group)) with 0 in Hq. rewrite Hq.
  by destruct (dl_lookup g gs lpa).
Qed.
End Search.

(** ** Updating *)
Section Entries.
Implicit Types (es : list dl_transitem) (lpa p : Z).

(** Either the page is new to the group, or its entry is replaced in place. *)
Lemma ent_split es lpa p :
  (Forall (fun e => (dlt_lpa e =? lpa) = false) es /\ ent_put es lpa p = es ++ [MkDlt p lpa]) \/
  (exists es1 e es2, es = es1 ++ e :: es2 /\ Forall (fun e => (dlt_lpa e =? lpa) = false) es1 /\
     (dlt_lpa e =? lpa) = true /\ ent_put es lpa p = es1 ++ MkDlt p lpa :: es2).
Proof.
  induction es as [|e es [[IH1 IH2]|(es1 & e' & es2 & -> & IH1 & IH2 & IH3)]]; cbn [ent_put].
  - by left.
  - destruct (dlt_lpa e =? lpa) eqn:E.
    + right. exists [], e, es. by split_and!.
    + left. split; [by constructor|]. by rewrite IH2.
  - right. destruct (dlt_lpa e =? lpa) eqn:E.
    + exists [], e, (es1 ++ e' :: es2). by split_and!.
    + exists (e :: es1), e', es2. rewrite IH3. split_and!; [done|by constructor|done|done].
Qed.

Lemma ent_lookup_put es lpa p x :
  ent_lookup (ent_put es lpa p) x = if x =? lpa then Some p else ent_lookup es x.
Proof.
  induction es as [|e es IH]; cbn [ent_put ent_lookup dlt_lpa].
  - rewrite (Z.eqb_sym lpa x). by destruct (x =? lpa).
  - destruct (dlt_lpa e =? lpa) eqn:E; cbn [ent_lookup dlt_lpa dlt_ppa]; zbool.
    + subst. rewrite (Z.eqb_sym _ x). by destruct (x =? dlt_lpa e).
    + rewrite IH. destruct (dlt_lpa e =? x) eqn:E1, (x =? lpa) eqn:E2; zbool; try done. congruence.
Qed.

Lemma ent_put_lpas es lpa p x :
  x ∈ map dlt_lpa (ent_put es lpa p) <-> x = lpa \/ x ∈ map dlt_lpa es.
Proof.
  destruct (ent_split es lpa p) as [[_ ->]|(es1 & e & es2 & -> & _ & He & ->)];
    rewrite !map_app; cbn; zbool; rewrite !elem_of_app, ?elem_of_cons; [set_solver|].
  rewrite He. set_solver.
Qed.

Lemma ent_put_nodup es lpa p : NoDup (map dlt_lpa es) -> NoDup (map dlt_lpa (ent_put es lpa p)).
Proof.
  destruct (ent_split es lpa p) as [[Hno ->]|(es1 & e & es2 & -> & _ & He & ->)];
    rewrite !map_app; cbn; zbool; [|by rewrite He].
  intros Hnd. apply NoDup_app. split_and!; [done| |apply NoDup_singleton].
  intros x Hx ->%list_elem_of_singleton. apply list_elem_of_In, in_map_iff in Hx as (e & He & Hin).
  apply list_elem_of_In in Hin. rewrite Forall_forall in Hno. specialize (Hno e Hin). cbn in Hno.
  zbool. done.
Qed.

Lemma ent_put_Forall (P : dl_transitem -> Prop) es lpa p :
  Forall P es -> P (MkDlt p lpa) -> Forall P (ent_put es lpa p).
Proof.
  intros Hes Hp. induction Hes as [|e es He Hes IH]; cbn [ent_put]; [by constructor|].
  case_match; by constructor.
Qed.

Lemma ent_put_len es lpa p :
  arr_len es <= arr_len (ent_put es lpa p) <= arr_len es + 1.
Proof.
  destruct (ent_split es lpa p) as [[_ ->]|(es1 & e & es2 & -> & _ & _ & ->)];
    unfold arr_len; rewrite !length_app; simpl; lia.
Qed.

Lemma ent_lookup_None es lpa : ent_lookup es lpa = None <-> lpa ∉ map dlt_lpa es.
Proof.
  induction es as [|e es IH]; cbn; [set_solver|].
  destruct (dlt_lpa e =? lpa) eqn:E; zbool; [set_solver|]. rewrite IH. set_solver.
Qed.
End Entries.

Section Update.
Context (g : mtd_info).
Implicit Types (d : dl_ram) (gs : list dl_group) (es : list dl_transitem).

Lemma run_dl_set_block d i b t :
  arr_set (dl_blocktab d) i b = Some t -> dl_set_block i b d = Done tt (with_dl_blocktab t d).
Proof. intros H. unfold dl_set_block, bind, gets, id. by rewrite H. Qed.
Lemma run_dl_set_trans d i e t :
  arr_set (dl_transtab d) i e = Some t -> dl_set_trans i e d = Done tt (with_dl_transtab t d).
Proof. intros H. unfold dl_set_trans, bind, gets, id. by rewrite H. Qed.

(** The group after page [lpa] was written at its fill level. *)
Definition group_write (h : dl_blockinfo) es lpa : dl_group :=
  (MkDlb (dlb_lba h) (dlb_pba h) (dlb_used h + 1) (arr_len (ent_put es lpa (dlb_used h))),
   ent_put es lpa (dlb_used h)).

Lemma group_write_ok h es lpa :
  group_ok g (h, es) -> 0 < nr_pgsinblk g -> in_u32 lpa -> lpa / nr_pgsinblk g = dlb_lba h ->
  dlb_used h < nr_pgsinblk g -> group_ok g (group_write h es lpa).
Proof.
  intros [H1 H2 H3 H4 H5 H6] Hg Hl Hlba Hu. cbn in *.
  pose proof (ent_put_len es lpa (dlb_used h)). pose proof (arr_len_nonneg es).
  split; cbn; [done|done|done|lia| |by apply ent_put_nodup].
  apply ent_put_Forall; [|cbn; split_and!; [done|done|lia|lia]].
  eapply Forall_impl; [exact H5|]. cbn. intros e (? & ? & ?). split_and!; [done|done|lia|lia].
Qed.

Lemma dl_ok_group d gs1 h es gs2 :
  dl_ok g d (gs1 ++ (h, es) :: gs2) -> group_ok g (h, es).
Proof.
  intros Hok. pose proof (dk_groups _ _ _ Hok) as H. apply Forall_app in H as [_ H]. by inversion H.
Qed.

(** Replacing one group by another of the same logical block. *)
Lemma dl_ok_replace d d' gs1 h es gs2 ge :
  dl_ok g d (gs1 ++ (h, es) :: gs2) ->
  log_rep dlb_valid (dl_blocktab d') (dl_blkcnt d') (dl_transtab d') (dl_pgcnt d') (gs1 ++ ge :: gs2) ->
  arr_len (dl_blocktab d') = arr_len (dl_blocktab d) ->
  arr_len (dl_transtab d') = arr_len (dl_transtab d) ->
  group_ok g ge -> dlb_lba ge.1 = dlb_lba h ->
  dl_ok g d' (gs1 ++ ge :: gs2).
Proof.
  intros [_ Hb Ht Hg Hgs Hnd] Hrep Hb' Ht' Hge Hl. split; [done|congruence|congruence|done| |].
  - apply Forall_app in Hgs as [? Hgs]. inversion Hgs; subst. apply Forall_app. split; [done|].
    by constructor.
  - rewrite map_app in *. cbn [map fst] in *. by rewrite Hl.
Qed.

Lemma nftl_update_dl_ram_insert d gs1 h es gs2 lpa pba :
  dl_ok g d (gs1 ++ (h, es) :: gs2) -> in_u32 lpa -> lpa / nr_pgsinblk g = dlb_lba h ->
  dlb_used h < nr_pgsinblk g -> dl_pgcnt d < DL_MAX_PAGES ->
  exists d', nftl_update_dl_ram g INSERT_OPERATION (arr_len gs1) lpa pba d = Done 0 d' /\
    dl_ok g d' (gs1 ++ group_write h es lpa :: gs2).
Proof.
  intros Hok Hl Hlba Hu Hpc. pose proof (dk_rep _ _ _ Hok) as Hrep.
  pose proof (dk_geo _ _ _ Hok) as Hgeo. unfold MAX_PAGES_IN_BLOCK in Hgeo.
  pose proof (dl_ok_group _ _ _ _ _ Hok) as Hge. pose proof (go_valid _ _ Hge) as Hv. cbn in Hv.
  pose proof (go_used _ _ Hge) as Hub. cbn in Hub. pose proof (arr_len_nonneg es).
  assert (Hu8 : u8 (dlb_used h + 1) = dlb_used h + 1) by (apply u8_id; unfold in_u8; lia).
  assert (Hgw : group_ok g (group_write h es lpa)) by (apply group_write_ok; (done || lia)).
  unfold nftl_update_dl_ram. change (INSERT_OPERATION =? APPEND_OPERATION) with false.
  change (INSERT_OPERATION =? INSERT_OPERATION) with true. unfold dl_insert.
  unfold bind at 1, gets, id.
  rewrite (log_rep_offset _ _ _ _ _ _ _ u16 (2 ^ 16) Hrep) by
    (try apply u16_id; unfold DL_MAX_PAGES in Hpc; lia).
  cbn [assert_some]. unfold bind at 1, ret at 1, bind at 1.
  rewrite (dl_block_run _ _ _ (log_rep_hdr _ _ _ _ _ _ _ _ _ Hrep)). rewrite Hv.
  unfold group_write in *.
  destruct (ent_split es lpa (dlb_used h)) as [[Hno Hput]|(es1 & e & es2 & -> & Hes1 & He & Hput)];
    rewrite Hput in *.
  - rewrite (log_rep_find_miss _ _ _ _ _ _ _ _ _ _ Hrep Hno).
    cbn [assert_some]. unfold bind at 1, ret at 1. rewrite Z.eqb_refl. cbn [negb].
    set (h' := dlb_set_valid (u8 (arr_len es + 1)) (dlb_set_used (u8 (dlb_used h + 1)) h)).
    destruct (log_rep_insert dlb_valid _ _ _ _ gs1 h h' es (MkDlt (dlb_used h) lpa) gs2 Hrep)
      as (bt' & tt1 & tt2 & H1 & H2 & H3 & H4 & H5 & H6);
      [subst h'; cbn; rewrite u8_id; [lia|unfold in_u8; lia]|by rewrite (dk_tlen _ _ _ Hok)|].
    rewrite H1. cbn [assert_some]. unfold bind at 1, ret at 1, bind at 1, modify at 1.
    assert (Hle : arr_len (ents gs1) + arr_len es <= dl_pgcnt d).
    { rewrite (lr_pgcnt _ _ _ _ _ _ Hrep), ents_app, ents_cons, !arr_len_app.
      pose proof (arr_len_nonneg (ents gs2)). lia. }
    rewrite Z.min_l by done. unfold bind at 1.
    rewrite (run_dl_set_trans (with_dl_transtab tt1 d) _ _ tt2 H2).
    unfold bind at 1.
    rewrite (run_dl_set_block (with_dl_transtab tt2 (with_dl_transtab tt1 d)) _ _ bt' H3). cbn.
    eexists. split; [done|].
    eapply (dl_ok_replace d _ _ _ _ _ _ Hok); cbn; [|done|done|done|done].
    rewrite u16_id by (unfold in_u16, DL_MAX_PAGES in *; pose proof (dl_ok_pgcnt _ _ _ Hok); lia).
    replace (MkDlb _ _ _ _) with h'; [done|]. subst h'. unfold dlb_set_valid, dlb_set_used. cbn.
    rewrite Hu8, arr_len_app. rewrite u8_id by (unfold in_u8; lia). done.
  - rewrite (log_rep_find_hit _ _ _ _ _ _ _ _ _ _ _ _ Hrep Hes1 He).
    cbn [assert_some]. unfold bind at 1, ret at 1.
    assert (Hne : (arr_len (ents gs1) + arr_len es1 =? arr_len (ents gs1) + arr_len (es1 ++ e :: es2)) = false).
    { apply Z.eqb_neq. rewrite arr_len_app, arr_len_cons. pose proof (arr_len_nonneg es2). lia. }
    rewrite Hne. cbn [negb]. unfold bind at 1.
    rewrite (dl_trans_run _ _ e).
    2:{ rewrite (log_rep_ent _ _ _ _ _ _ _ _ _ _ Hrep); [|split; [apply arr_len_nonneg|]].
        - rewrite arr_get_app, Z.ltb_irrefl, Z.sub_diag. done.
        - rewrite arr_len_app, arr_len_cons. pose proof (arr_len_nonneg es2). lia. }
    zbool. rewrite He.
    destruct (log_rep_set_ent dlb_valid _ _ _ _ gs1 h es1 e (MkDlt (dlb_used h) lpa) es2 gs2 Hrep)
      as (tt' & H1 & H2 & H3).
    unfold bind at 1. rewrite (run_dl_set_trans _ _ _ tt' H1).
    destruct (log_rep_set_hdr dlb_valid _ _ _ _ _ _ (dlb_set_used (u8 (dlb_used h + 1)) h) _ _ H3)
      as (bt' & H4 & H5 & H6); [done|].
    unfold bind at 1. rewrite (run_dl_set_block (with_dl_transtab tt' d) _ _ bt' H4).
    eexists. split; [done|].
    eapply (dl_ok_replace d _ _ _ _ _ _ Hok); cbn; [|done|done|done|done].
    replace (MkDlb _ _ _ _) with (dlb_set_used (u8 (dlb_used h + 1)) h); [done|].
    unfold dlb_set_used. rewrite Hu8, Hv. f_equal. by rewrite !arr_len_app, !arr_len_cons.
Qed.
End Update.

Section Update2.
Context (g : mtd_info).
Implicit Types (d : dl_ram) (gs : list dl_group) (es : list dl_transitem).

(** The group of a log block that holds one page. *)
Definition group_new (lpa pba : Z) : dl_group :=
  (MkDlb (lpa / nr_pgsinblk g) pba 1 1, [MkDlt 0 lpa]).

Lemma group_new_ok lpa pba :
  0 < nr_pgsinblk g -> in_u32 lpa -> in_u16 (lpa / nr_pgsinblk g) -> in_u16 pba ->
  group_ok g (group_new lpa pba).
Proof.
  intros Hg Hl Hlba Hp. unfold group_new. split; cbn; try done; [lia| |apply NoDup_singleton].
  repeat constructor; cbn; try apply Hl; lia.
Qed.

Lemma nftl_update_dl_ram_append d gs index lpa pba :
  dl_ok g d gs -> in_u32 lpa -> in_u16 (lpa / nr_pgsinblk g) -> in_u16 pba ->
  dl_blkcnt d < DL_MAX_BLOCKS -> dl_pgcnt d < DL_MAX_PAGES ->
  lpa / nr_pgsinblk g ∉ map (fun ge : dl_group => dlb_lba ge.1) gs ->
  exists d', nftl_update_dl_ram g APPEND_OPERATION index lpa pba d = Done 0 d' /\
    dl_ok g d' (gs ++ [group_new lpa pba]).
Proof.
  intros Hok Hl Hlba Hp Hb Hpc Hnew. pose proof (dk_rep _ _ _ Hok) as Hrep.
  pose proof (dl_ok_pgcnt _ _ _ Hok).
  assert (0 <= dl_blkcnt d) by (rewrite (lr_blkcnt _ _ _ _ _ _ Hrep); apply arr_len_nonneg).
  unfold nftl_update_dl_ram. change (APPEND_OPERATION =? APPEND_OPERATION) with true.
  unfold dl_append. rewrite (u16_id (lpa / _)), (u16_id pba), (u32_id lpa) by done.
  destruct (log_rep_append dlb_valid _ _ _ _ _ (MkDlb (lpa / nr_pgsinblk g) pba 1 1)
              (MkDlt 0 lpa) Hrep) as (bt' & tt' & H1 & H2 & H3 & H4 & H5);
    [done|by rewrite (dk_blen _ _ _ Hok)|by rewrite (dk_tlen _ _ _ Hok)|].
  unfold bind at 1, gets, id, bind at 1. rewrite (run_dl_set_block _ _ _ _ H1).
  unfold bind at 1. rewrite (run_dl_set_trans (with_dl_blocktab bt' d) _ _ _ H2). cbn.
  eexists. split; [done|]. destruct Hok as [_ Hbl Htl Hg Hgs Hnd].
  split; cbn; [|congruence|congruence|done| |].
  - rewrite !u16_id by (unfold in_u16, DL_MAX_BLOCKS, DL_MAX_PAGES in *; lia). exact H5.
  - apply Forall_app. split; [done|]. constructor; [apply group_new_ok; (done || lia)|done].
  - rewrite map_app. apply NoDup_app. split_and!; [done| |apply NoDup_singleton].
    cbn. intros x Hx ->%list_elem_of_singleton. done.
Qed.

Lemma nftl_update_dl_ram_delete d gs1 h es gs2 lpa pba :
  dl_ok g d (gs1 ++ (h, es) :: gs2) -> dl_blkcnt d < DL_MAX_BLOCKS ->
  exists d', nftl_update_dl_ram g DEL_OPERATION (arr_len gs1) lpa pba d = Done 0 d' /\
    dl_ok g d' (gs1 ++ gs2).
Proof.
  intros Hok Hb. pose proof (dk_rep _ _ _ Hok) as Hrep.
  pose proof (dl_ok_pgcnt _ _ _ Hok) as Hpc. pose proof (dl_ok_group _ _ _ _ _ _ Hok) as Hge.
  pose proof (go_valid _ _ Hge) as Hv. cbn in Hv.
  unfold nftl_update_dl_ram. change (DEL_OPERATION =? APPEND_OPERATION) with false.
  change (DEL_OPERATION =? INSERT_OPERATION) with false.
  change (DEL_OPERATION =? DEL_OPERATION) with true. cbn iota. unfold dl_delete.
  unfold bind at 1, gets, id.
  rewrite (log_rep_offset _ _ _ _ _ _ _ u16 (2 ^ 16) Hrep) by
    (try apply u16_id; unfold DL_MAX_PAGES in Hpc; lia).
  cbn [assert_some]. unfold bind at 1, ret at 1, bind at 1.
  rewrite (dl_block_run _ _ _ (log_rep_hdr _ _ _ _ _ _ _ _ _ Hrep)). rewrite Hv.
  destruct (log_rep_delete dlb_valid _ _ _ _ _ _ _ _ Hrep) as (bt' & tt' & H1 & H2 & H3 & H4 & H5);
    [by rewrite (dk_blen _ _ _ Hok)|].
  rewrite H1. cbn [assert_some]. unfold bind at 1, ret at 1, bind at 1, modify at 1.
  rewrite H2. cbn. eexists. split; [done|].
  pose proof (lr_pgcnt _ _ _ _ _ _ H5) as Hpn. pose proof (arr_len_nonneg (ents (gs1 ++ gs2))).
  pose proof (lr_blkcnt _ _ _ _ _ _ H5) as Hbn. pose proof (arr_len_nonneg (gs1 ++ gs2)).
  pose proof (arr_len_nonneg es).
  destruct Hok as [_ Hbl Htl Hg Hgs Hnd].
  split; cbn; [|congruence|congruence|done| |].
  - rewrite !u16_id by (unfold in_u16, DL_MAX_BLOCKS, DL_MAX_PAGES in *; lia). exact H5.
  - apply Forall_app in Hgs as [? Hgs]. inversion Hgs; subst. by apply Forall_app.
  - rewrite map_app in *. cbn [map fst] in Hnd.
    apply NoDup_app in Hnd as (? & Hx & [_ ?]%NoDup_cons). apply NoDup_app.
    split_and!; [done| |done]. intros x Hx1 Hx2. apply (Hx x Hx1). by apply list_elem_of_further.
Qed.
End Update2.

(** ** The effect of the updates on the map *)
Section Lookup.
Context (g : mtd_info).
Implicit Types (d : dl_ram) (gs : list dl_group) (es : list dl_transitem).
Notation lbas gs := (map (fun ge : dl_group => dlb_lba ge.1) gs).

Lemma dl_lookup_skip gs1 gs2 lpa :
  lpa / nr_pgsinblk g ∉ lbas gs1 -> dl_lookup g (gs1 ++ gs2) lpa = dl_lookup g gs2 lpa.
Proof.
  induction gs1 as [|[h es] gs1 IH]; cbn [map app dl_lookup fst]; [done|].
  rewrite elem_of_cons. intros H. destruct (dlb_lba h =? _) eqn:E; zbool; [naive_solver|].
  apply IH. naive_solver.
Qed.

(** Splitting the map at one group. *)
Lemma dl_lookup_mid gs1 h es gs2 lpa :
  NoDup (lbas (gs1 ++ (h, es) :: gs2)) ->
  dl_lookup g (gs1 ++ (h, es) :: gs2) lpa =
    if dlb_lba h =? lpa / nr_pgsinblk g
    then match ent_lookup es lpa with Some p => Some (dlb_pba h, p) | None => None end
    else dl_lookup g (gs1 ++ gs2) lpa.
Proof.
  intros Hnd. rewrite map_app in Hnd. cbn [map fst] in Hnd.
  apply NoDup_app in Hnd as (_ & Hx & _).
  induction gs1 as [|[h1 es1] gs1 IH]; cbn [app dl_lookup]; [done|].
  destruct (dlb_lba h1 =? lpa / nr_pgsinblk g) eqn:E1; zbool.
  - destruct (dlb_lba h =? lpa / nr_pgsinblk g) eqn:E2; zbool; [|done].
    exfalso. apply (Hx (dlb_lba h1)); cbn; [left|]. rewrite E1, <- E2. left.
  - apply IH. intros x Hx1. apply Hx. cbn. by right.
Qed.

Lemma dl_lookup_deleted gs1 h es gs2 lpa :
  NoDup (lbas (gs1 ++ (h, es) :: gs2)) -> dlb_lba h = lpa / nr_pgsinblk g ->
  dl_lookup g (gs1 ++ gs2) lpa = None.
Proof.
  intros Hnd Hh. rewrite map_app in Hnd. cbn [map fst] in Hnd.
  apply NoDup_app in Hnd as (_ & Hx & [Hy _]%NoDup_cons).
  rewrite dl_lookup_skip.
  - rewrite <- (app_nil_r gs2). rewrite dl_lookup_skip; [done|]. by rewrite <- Hh.
  - rewrite <- Hh. intros H. apply (Hx _ H). left.
Qed.

Lemma dl_lookup_last gs ge lpa :
  dlb_lba ge.1 ∉ lbas gs ->
  dl_lookup g (gs ++ [ge]) lpa =
    if dlb_lba ge.1 =? lpa / nr_pgsinblk g
    then match ent_lookup ge.2 lpa with Some p => Some (dlb_pba ge.1, p) | None => None end
    else dl_lookup g gs lpa.
Proof.
  destruct ge as [h es]. cbn. intros Hn.
  induction gs as [|[h1 es1] gs IH]; cbn [app dl_lookup map fst] in *; [done|].
  rewrite not_elem_of_cons in Hn. destruct Hn as [Hne Hn].
  destruct (dlb_lba h1 =? _) eqn:E1; zbool; [|by apply IH].
  destruct (dlb_lba h =? _) eqn:E2; zbool; congruence.
Qed.

(** The group of a logical block. *)
Definition dl_find (gs : list dl_group) (lba : Z) : option Z :=
  option_map Z.of_nat (fst <$> list_find (fun ge : dl_group => dlb_lba ge.1 = lba) gs).

Lemma dl_block_at d gs i :
  dl_ok g d gs -> 0 <= i < dl_blkcnt d ->
  exists h es, arr_get gs i = Some (h, es) /\ dl_block i d = Done h d.
Proof.
  intros Hok Hi. pose proof (dk_rep _ _ _ Hok) as Hrep.
  rewrite (lr_blkcnt _ _ _ _ _ _ Hrep) in Hi.
  destruct (arr_get_in gs i Hi) as [[h es] Hg]. exists h, es. split; [done|].
  apply dl_block_run. destruct (lr_blocks _ _ _ _ _ _ Hrep) as [bj ->].
  rewrite arr_get_app, hdrs_len. destruct (i <? arr_len gs) eqn:E; zbool; [|lia].
  unfold arr_get, hdrs in *. destruct (0 <=? i); [|done]. by rewrite list_lookup_fmap, Hg.
Qed.

Lemma nftl_find_lba_in_dl_miss d gs lba :
  dl_ok g d gs -> lba ∉ lbas gs -> nftl_find_lba_in_dl lba d = Done None d.
Proof.
  intros Hok Hn. unfold nftl_find_lba_in_dl, bind at 1, gets, id. apply for_range_miss.
  intros i Hi. destruct (dl_block_at d gs i Hok Hi) as (h & es & Hg & Hb).
  unfold bind. rewrite Hb.
  destruct (dlb_lba h =? lba) eqn:E; [|by rewrite andb_false_r]. zbool. exfalso. apply Hn.
  apply list_elem_of_In, in_map_iff. exists (h, es). split; [done|]. apply list_elem_of_In.
  unfold arr_get in Hg. destruct (0 <=? i); [|done]. by eapply list_elem_of_lookup_2.
Qed.

Lemma dl_other_lba d gs1 h es gs2 i :
  dl_ok g d (gs1 ++ (h, es) :: gs2) -> 0 <= i < arr_len gs1 ->
  exists b, dl_block i d = Done b d /\ dlb_lba b <> dlb_lba h.
Proof.
  intros Hok Hi. pose proof (dk_rep _ _ _ Hok) as Hrep.
  destruct (dl_block_at d _ i Hok) as (h' & es' & Hg & Hb).
  - rewrite (lr_blkcnt _ _ _ _ _ _ Hrep), arr_len_app. pose proof (arr_len_nonneg ((h, es) :: gs2)). lia.
  - exists h'. split; [done|]. intros Heq.
    rewrite arr_get_app in Hg. destruct (i <? arr_len gs1) eqn:E; zbool; [|lia].
    pose proof (dk_nodup _ _ _ Hok) as Hnd. rewrite map_app in Hnd.
    apply NoDup_app in Hnd as (_ & Hx & _). apply (Hx (dlb_lba h')).
    + apply list_elem_of_In, in_map_iff. exists (h', es'). split; [done|]. apply list_elem_of_In.
      unfold arr_get in Hg. destruct (0 <=? i); [|done]. by eapply list_elem_of_lookup_2.
    + cbn. rewrite Heq. left.
Qed.

Lemma dl_block_mid d gs1 h es gs2 :
  dl_ok g d (gs1 ++ (h, es) :: gs2) -> dl_block (arr_len gs1) d = Done h d.
Proof. intros Hok. apply dl_block_run. eapply log_rep_hdr, Hok. Qed.

Lemma dl_mid_range d gs1 h es gs2 :
  dl_ok g d (gs1 ++ (h, es) :: gs2) -> 0 <= arr_len gs1 < dl_blkcnt d.
Proof.
  intros Hok. rewrite (lr_blkcnt _ _ _ _ _ _ (dk_rep _ _ _ Hok)), arr_len_app, arr_len_cons.
  pose proof (arr_len_nonneg gs1). pose proof (arr_len_nonneg gs2). lia.
Qed.

Lemma nftl_find_lba_in_dl_hit d gs1 h es gs2 :
  dl_ok g d (gs1 ++ (h, es) :: gs2) ->
  nftl_find_lba_in_dl (dlb_lba h) d = Done (Some (arr_len gs1)) d.
Proof.
  intros Hok. pose proof (dl_mid_range _ _ _ _ _ Hok) as Hr.
  unfold nftl_find_lba_in_dl, bind at 1, gets, id. apply for_range_hit with (k := arr_len gs1); [|done|].
  - intros i Hi. destruct (dl_other_lba _ _ _ _ _ i Hok Hi) as (b & Hb & Hne).
    unfold bind. rewrite Hb. apply Z.eqb_neq in Hne. by rewrite Hne, andb_false_r.
  - unfold bind. rewrite (dl_block_mid _ _ _ _ _ Hok), Z.eqb_refl.
    destruct (dl_blkcnt d =? 0) eqn:E; zbool; [lia|done].
Qed.

Lemma nftl_update_dl_ram_update d gs1 h es gs2 index lpa pba :
  dl_ok g d (gs1 ++ (h, es) :: gs2) -> lpa / nr_pgsinblk g = dlb_lba h -> in_u16 pba ->
  exists d', nftl_update_dl_ram g UPDATE_OPERATION index lpa pba d = Done (dlb_used h) d' /\
    dl_ok g d' (gs1 ++ (dlb_set_pba pba h, es) :: gs2).
Proof.
  intros Hok Hl Hp. pose proof (dl_mid_range _ _ _ _ _ Hok) as Hr.
  pose proof (dl_ok_group _ _ _ _ _ _ Hok) as Hge.
  destruct (log_rep_set_hdr dlb_valid _ _ _ _ _ _ (dlb_set_pba pba h) _ _ (dk_rep _ _ _ Hok))
    as (bt' & H1 & H2 & H3); [done|].
  exists (with_dl_blocktab bt' d). split.
  - unfold nftl_update_dl_ram, dl_update. cbn. unfold bind at 1, gets, id.
    unfold bind at 1. erewrite for_range_hit with (k := arr_len gs1); [reflexivity| |done|].
    + intros i Hi. destruct (dl_other_lba _ _ _ _ _ i Hok Hi) as (b & Hb & Hne).
      unfold bind. rewrite Hb, Hl, u16_id by apply (go_lba _ _ Hge).
      apply Z.eqb_neq in Hne. by rewrite Hne.
    + unfold bind at 1. rewrite (dl_block_mid _ _ _ _ _ Hok), Hl, u16_id by apply (go_lba _ _ Hge).
      rewrite Z.eqb_refl, (u16_id pba) by done. unfold bind. by rewrite (run_dl_set_block _ _ _ _ H1).
  - eapply (dl_ok_replace g d _ _ _ _ _ _ Hok); [exact H3|done|done| |done].
    destruct Hge. by split.
Qed.
End Lookup.

(** ** Properties *)
Section Properties.
Context (g : mtd_info).
Implicit Types (d : dl_ram) (gs : list dl_group) (es : list dl_transitem).

(** C15. INSERT_OPERATION on the table entry of a log block with room: the
    update succeeds and keeps the table well formed; afterwards
    [nftl_find_lpa_in_dl] answers, for the page written, the log block and
    its old fill level, and for every other page what it answered before,
    whether the page was in the table already (replaced in place) or not
    (the entries of the following blocks are moved down). *)
Theorem dl_insert_find d gs1 h es gs2 lpa pba :
  dl_ok g d (gs1 ++ (h, es) :: gs2) -> in_u32 lpa -> lpa / nr_pgsinblk g = dlb_lba h ->
  dlb_used h < nr_pgsinblk g -> dl_pgcnt d < DL_MAX_PAGES ->
  exists d', nftl_update_dl_ram g INSERT_OPERATION (arr_len gs1) lpa pba d = Done 0 d' /\
    dl_ok g d' (gs1 ++ group_write h es lpa :: gs2) /\
    forall x, in_u16 (x / nr_pgsinblk g) ->
      nftl_find_lpa_in_dl g x d' =
        Done (if x =? lpa then Some (dlb_pba h, dlb_used h)
              else dl_lookup g (gs1 ++ (h, es) :: gs2) x) d'.
Proof.
  intros Hok Hl Hlba Hu Hpc.
  destruct (nftl_update_dl_ram_insert g d gs1 h es gs2 lpa pba) as (d' & -> & Hok'); [done..|].
  exists d'. split_and!; [done|done|]. intros x Hx.
  rewrite (nftl_find_lpa_in_dl_run g d' _ x Hok' Hx). f_equal.
  unfold group_write in *.
  rewrite !dl_lookup_mid by apply (dk_nodup _ _ _ Hok) || apply (dk_nodup _ _ _ Hok').
  cbn [dlb_lba dlb_pba]. rewrite ent_lookup_put.
  destruct (x =? lpa) eqn:E; zbool; [|done]. subst x. by rewrite Hlba, Z.eqb_refl.
Qed.

(** APPEND_OPERATION for a logical block without a log block: the new
    block enters the table with the page at physical page 0, and every
    other page is found where it was. *)
Theorem dl_append_find d gs index lpa pba :
  dl_ok g d gs -> in_u32 lpa -> in_u16 (lpa / nr_pgsinblk g) -> in_u16 pba ->
  dl_blkcnt d < DL_MAX_BLOCKS -> dl_pgcnt d < DL_MAX_PAGES ->
  nftl_find_lba_in_dl (lpa / nr_pgsinblk g) d = Done None d ->
  exists d', nftl_update_dl_ram g APPEND_OPERATION index lpa pba d = Done 0 d' /\
    dl_ok g d' (gs ++ [group_new g lpa pba]) /\
    forall x, in_u16 (x / nr_pgsinblk g) ->
      nftl_find_lpa_in_dl g x d' =
        Done (if x =? lpa then Some (pba, 0) else dl_lookup g gs x) d'.
Proof.
  intros Hok Hl Hlba Hp Hb Hpc Hmiss.
  assert (Hn : lpa / nr_pgsinblk g ∉ map (fun ge : dl_group => dlb_lba ge.1) gs).
  { intros Hin. apply list_elem_of_In, in_map_iff in Hin as ([h es] & Hh & Hin). cbn in Hh.
    apply list_elem_of_In, list_elem_of_split in Hin as (gs1 & gs2 & ->).
    rewrite <- Hh, (nftl_find_lba_in_dl_hit g _ _ _ _ _ Hok) in Hmiss. done. }
  destruct (nftl_update_dl_ram_append g d gs index lpa pba) as (d' & -> & Hok'); [done..|].
  exists d'. split_and!; [done|done|]. intros x Hx.
  rewrite (nftl_find_lpa_in_dl_run g d' _ x Hok' Hx). f_equal.
  rewrite dl_lookup_last by done. cbn [group_new dlb_lba dlb_pba fst snd ent_lookup dlt_lpa dlt_ppa].
  rewrite (Z.eqb_sym lpa x).
  destruct (x =? lpa) eqn:E; zbool; [by subst x; rewrite Z.eqb_refl|].
  destruct (lpa / _ =? _) eqn:E1; zbool; [|done]. symmetry.
  rewrite <- (app_nil_r gs), dl_lookup_skip; [done|]. by rewrite <- E1.
Qed.

(** DEL_OPERATION removes exactly one log block: its pages are no longer
    found, every other page is found where it was, and the table has one
    block less. *)
Theorem dl_delete_find d gs1 h es gs2 lpa pba :
  dl_ok g d (gs1 ++ (h, es) :: gs2) -> dl_blkcnt d < DL_MAX_BLOCKS ->
  exists d', nftl_update_dl_ram g DEL_OPERATION (arr_len gs1) lpa pba d = Done 0 d' /\
    dl_ok g d' (gs1 ++ gs2) /\ dl_blkcnt d' = dl_blkcnt d - 1 /\
    forall x, in_u16 (x / nr_pgsinblk g) ->
      nftl_find_lpa_in_dl g x d' =
        Done (if x / nr_pgsinblk g =? dlb_lba h then None
              else dl_lookup g (gs1 ++ (h, es) :: gs2) x) d'.
Proof.
  intros Hok Hb.
  destruct (nftl_update_dl_ram_delete g d gs1 h es gs2 lpa pba) as (d' & -> & Hok'); [done..|].
  exists d'. split_and!; [done|done| |].
  - rewrite (lr_blkcnt _ _ _ _ _ _ (dk_rep _ _ _ Hok)), (lr_blkcnt _ _ _ _ _ _ (dk_rep _ _ _ Hok')).
    rewrite !arr_len_app, arr_len_cons. lia.
  - intros x Hx. rewrite (nftl_find_lpa_in_dl_run g d' _ x Hok' Hx). f_equal.
    rewrite (dl_lookup_mid g gs1 h es) by apply (dk_nodup _ _ _ Hok).
    rewrite (Z.eqb_sym (dlb_lba h)). destruct (_ =? dlb_lba h) eqn:E; zbool; [|done].
    eapply dl_lookup_deleted; [apply (dk_nodup _ _ _ Hok)|done].
Qed.

(** UPDATE_OPERATION moves a log block: its pages are found at the same
    physical pages of the new block, the fill level is answered, and nothing
    else changes. *)
Theorem dl_update_find d gs1 h es gs2 index lpa pba :
  dl_ok g d (gs1 ++ (h, es) :: gs2) -> lpa / nr_pgsinblk g = dlb_lba h -> in_u16 pba ->
  exists d', nftl_update_dl_ram g UPDATE_OPERATION index lpa pba d = Done (dlb_used h) d' /\
    dl_ok g d' (gs1 ++ (dlb_set_pba pba h, es) :: gs2) /\
    forall x, in_u16 (x / nr_pgsinblk g) ->
      nftl_find_lpa_in_dl g x d' =
        Done (match dl_lookup g (gs1 ++ (h, es) :: gs2) x with
              | Some (b, p) => Some (if x / nr_pgsinblk g =? dlb_lba h then pba else b, p)
              | None => None end) d'.
Proof.
  intros Hok Hl Hp.
  destruct (nftl_update_dl_ram_update g d gs1 h es gs2 index lpa pba) as (d' & -> & Hok'); [done..|].
  exists d'. split_and!; [done|done|]. intros x Hx.
  rewrite (nftl_find_lpa_in_dl_run g d' _ x Hok' Hx). f_equal.
  rewrite !dl_lookup_mid by apply (dk_nodup _ _ _ Hok) || apply (dk_nodup _ _ _ Hok').
  cbn [dlb_set_pba dlb_lba dlb_pba]. rewrite (Z.eqb_sym (dlb_lba h)).
  destruct (_ =? dlb_lba h) eqn:E; [by destruct (ent_lookup es x)|].
  by destruct (dl_lookup g (gs1 ++ gs2) x) as [[b p]|].
Qed.
End Properties.

(** ** A concrete table *)
Definition dl_geo : mtd_info := MkMtd (64 * 128) 128 32 8.
Definition dl_gs : list dl_group :=
  [(MkDlb 0 10 3 2, [MkDlt 2 1; MkDlt 1 3]); (MkDlb 2 11 1 1, [MkDlt 0 8])].
Definition dl_ex : dl_ram :=
  MkDl (hdrs dl_gs ++ replicate 126 (MkDlb 0 0 0 0)) 2 (ents dl_gs ++ replicate 4093 (MkDlt 0 0)) 3.

Lemma dl_ex_ok : dl_ok dl_geo dl_ex dl_gs.
Proof.
  split.
  - split; [by eexists|by eexists|done|done|by repeat constructor].
  - vm_compute. reflexivity.
  - vm_compute. reflexivity.
  - vm_compute. intuition congruence.
  - repeat constructor; cbn; try (vm_compute; intuition congruence);
      try (apply (bool_decide_unpack _); vm_compute; reflexivity).
  - apply (bool_decide_unpack _). vm_compute. reflexivity.
Qed.

Lemma dl_insert_find_witness :
  exists d', nftl_update_dl_ram dl_geo INSERT_OPERATION 0 2 0 dl_ex = Done 0 d' /\
    nftl_find_lpa_in_dl dl_geo 2 d' = Done (Some (10, 3)) d' /\
    nftl_find_lpa_in_dl dl_geo 8 d' = Done (Some (11, 0)) d'.
Proof.
  destruct (dl_insert_find dl_geo dl_ex [] (MkDlb 0 10 3 2) [MkDlt 2 1; MkDlt 1 3]
              [(MkDlb 2 11 1 1, [MkDlt 0 8])] 2 0) as (d' & H1 & _ & H2);
    [exact dl_ex_ok|vm_compute; intuition congruence|done|done|done|].
  exists d'. split; [exact H1|].
  split; [rewrite H2 by (vm_compute; intuition congruence); reflexivity|].
  rewrite H2 by (vm_compute; intuition congruence). reflexivity.
Defined.

Lemma dl_append_find_witness :
  exists d', nftl_update_dl_ram dl_geo APPEND_OPERATION 0 5 12 dl_ex = Done 0 d' /\
    nftl_find_lpa_in_dl dl_geo 5 d' = Done (Some (12, 0)) d'.
Proof.
  destruct (dl_append_find dl_geo dl_ex dl_gs 0 5 12) as (d' & H1 & _ & H2);
    [exact dl_ex_ok|vm_compute; intuition congruence..|done|done|vm_compute; reflexivity|].
  exists d'. split; [exact H1|]. rewrite H2 by (vm_compute; intuition congruence). reflexivity.
Defined.

Lemma dl_delete_find_witness :
  exists d', nftl_update_dl_ram dl_geo DEL_OPERATION 0 0 0 dl_ex = Done 0 d' /\
    nftl_find_lpa_in_dl dl_geo 1 d' = Done None d' /\
    nftl_find_lpa_in_dl dl_geo 8 d' = Done (Some (11, 0)) d'.
Proof.
  destruct (dl_delete_find dl_geo dl_ex [] (MkDlb 0 10 3 2) [MkDlt 2 1; MkDlt 1 3]
              [(MkDlb 2 11 1 1, [MkDlt 0 8])] 0 0) as (d' & H1 & _ & _ & H2);
    [exact dl_ex_ok|done|].
  exists d'. split; [exact H1|].
  split; [rewrite H2 by (vm_compute; intuition congruence); reflexivity|].
  rewrite H2 by (vm_compute; intuition congruence). reflexivity.
Defined.

Lemma dl_update_find_witness :
  exists d', nftl_update_dl_ram dl_geo UPDATE_OPERATION 0 8 20 dl_ex = Done 1 d' /\
    nftl_find_lpa_in_dl dl_geo 8 d' = Done (Some (20, 0)) d'.
Proof.
  destruct (dl_update_find dl_geo dl_ex [(MkDlb 0 10 3 2, [MkDlt 2 1; MkDlt 1 3])] (MkDlb 2 11 1 1)
              [MkDlt 0 8] [] 0 8 20) as (d' & H1 & _ & H2);
    [exact dl_ex_ok|done|vm_compute; intuition congruence|].
  exists d'. split; [exact H1|]. rewrite H2 by (vm_compute; intuition congruence). reflexivity.
Defined.
