(* ===== verification/NftlMtl.v ===== *)
(** * NFTL: the mapping-table directory and the MTLog table

    The globals [mt_pbas], [mt_blkcnt], [mtl_blocktab], [mtl_blkcnt],
    [mtl_transtab], [mtl_pgcnt] of [BSP/oss/nftl/nftlmount.c] and the functions
    that search and update them.  The mapping table (logical block to physical
    block) is itself stored in flash pages: in MapTab blocks, and, for the
    pages updated since the last merge, in at most one MTLog block per MapTab
    block. *)

From Stdlib Require Import ZArith Lia.
From stdpp Require Import base numbers list sets.
From S2P Require Import Prelude CMonad NftlTypes NftlLog.

Record mtl_blockinfo := MkMtb { mtb_mtindx : Z; mtb_pba : Z; mtb_used : Z; mtb_valid : Z }.
Record mtl_transitem := MkMtt { mtt_ppa : Z; mtt_pageofs : Z }.

Record mt_ram := MkMt {
  mt_pbas : list Z;
  mt_blkcnt : Z;
  mtl_blocktab : list mtl_blockinfo;
  mtl_blkcnt : Z;
  mtl_transtab : list mtl_transitem;
  mtl_pgcnt : Z
}.

Definition mtb_set_pba v b := MkMtb (mtb_mtindx b) v (mtb_used b) (mtb_valid b).
Definition mtb_set_used v b := MkMtb (mtb_mtindx b) (mtb_pba b) v (mtb_valid b).
Definition mtb_set_valid v b := MkMtb (mtb_mtindx b) (mtb_pba b) (mtb_used b) v.
Definition with_mt_pbas v d := MkMt v (mt_blkcnt d) (mtl_blocktab d) (mtl_blkcnt d) (mtl_transtab d) (mtl_pgcnt d).
Definition with_mt_blkcnt v d := MkMt (mt_pbas d) v (mtl_blocktab d) (mtl_blkcnt d) (mtl_transtab d) (mtl_pgcnt d).
Definition with_mtl_blocktab v d := MkMt (mt_pbas d) (mt_blkcnt d) v (mtl_blkcnt d) (mtl_transtab d) (mtl_pgcnt d).
Definition with_mtl_blkcnt v d := MkMt (mt_pbas d) (mt_blkcnt d) (mtl_blocktab d) v (mtl_transtab d) (mtl_pgcnt d).
Definition with_mtl_transtab v d := MkMt (mt_pbas d) (mt_blkcnt d) (mtl_blocktab d) (mtl_blkcnt d) v (mtl_pgcnt d).
Definition with_mtl_pgcnt v d := MkMt (mt_pbas d) (mt_blkcnt d) (mtl_blocktab d) (mtl_blkcnt d) (mtl_transtab d) v.

Section Operations.
Context (g : mtd_info).

Definition mt_pba (i : Z) : M mt_ram Z :=
  let! d := gets id in assert_some OutOfBounds (arr_get (mt_pbas d) i).
Definition mt_set_pba (i v : Z) : M mt_ram unit :=
  let! d := gets id in
  let! t := assert_some OutOfBounds (arr_set (mt_pbas d) i v) in
  modify (with_mt_pbas t).
Definition mtl_block (i : Z) : M mt_ram mtl_blockinfo :=
  let! d := gets id in assert_some OutOfBounds (arr_get (mtl_blocktab d) i).
Definition mtl_trans (i : Z) : M mt_ram mtl_transitem :=
  let! d := gets id in assert_some OutOfBounds (arr_get (mtl_transtab d) i).
Definition mtl_set_block (i : Z) (b : mtl_blockinfo) : M mt_ram unit :=
  let! d := gets id in
  let! t := assert_some OutOfBounds (arr_set (mtl_blocktab d) i b) in
  modify (with_mtl_blocktab t).
Definition mtl_set_trans (i : Z) (e : mtl_transitem) : M mt_ram unit :=
  let! d := gets id in
  let! t := assert_some OutOfBounds (arr_set (mtl_transtab d) i e) in
  modify (with_mtl_transtab t).

(** The loop over the entries of one block, and over the blocks. *)
Definition find_mtpg_entry (pba mtpgofs pageofs j : Z) : M mt_ram (option (Z * Z)) :=
  let! t := mtl_trans (pageofs + j) in
  if mtt_pageofs t =? mtpgofs then ret (Some (pba, u8 (mtt_ppa t))) else ret None.
Definition find_mtpg_block (mtindex mtpgofs i pageofs : Z) : M mt_ram (Z + Z * Z) :=
  let! b := mtl_block i in
  if mtb_mtindx b =? mtindex then
    let! found := for_range 0 (mtb_valid b) (find_mtpg_entry (mtb_pba b) mtpgofs pageofs) in
    match found with
    | Some r => ret (inr r)
    | None => ret (inl pageofs)
    end
  else ret (inl (u16 (pageofs + mtb_valid b))).

(** The status and the two out parameters. *)
Definition nftl_find_mtpg_in_mtl (mtpgofs : Z) : M mt_ram (Z * (Z * Z)) :=
  let! d := gets id in
  let mtindex := u8 (mtpgofs / nr_pgsinblk g) in
  let! r := for_local 0 (mtl_blkcnt d) 0 (find_mtpg_block mtindex mtpgofs) in
  match r with inr x => ret (FIND_OK, x) | inl _ => ret (FIND_FAIL, (0xffff, 0xff)) end.

(** The argument is a uint8_t: callers with a wider page offset lose its
    high bits. *)
Definition nftl_get_physical_mt (mtpgofs : Z) : M mt_ram (Z * Z) :=
  let mtpgofs := u8 mtpgofs in
  let mtindex := u8 (mtpgofs / nr_pgsinblk g) in
  let! r := nftl_find_mtpg_in_mtl mtpgofs in
  if fst r =? FIND_OK then ret (snd r)
  else
    let! block := mt_pba mtindex in
    ret (block, u8 (mtpgofs mod nr_pgsinblk g)).

(** The status and the out parameter [*ramindex]. *)
Definition nftl_find_mtl_ram (mtindex : Z) : M mt_ram (Z * Z) :=
  let! d := gets id in
  let! r := for_range 0 (mtl_blkcnt d) (fun i =>
    let! b := mtl_block i in
    if mtb_mtindx b =? mtindex then ret (Some (u8 i)) else ret None) in
  match r with Some i => ret (FIND_OK, i) | None => ret (FIND_FAIL, mtl_blkcnt d) end.

(** The four cases of [nftl_update_mtl_ram]. *)
Definition mtl_append (mtpgofs mtlblock : Z) : M mt_ram Z :=
  let mtindex := u8 (mtpgofs / nr_pgsinblk g) in
  let! d := gets id in
  mtl_set_block (mtl_blkcnt d) (MkMtb mtindex mtlblock 1 1) ;;
  mtl_set_trans (mtl_pgcnt d) (MkMtt 0 mtpgofs) ;;
  modify (fun d => with_mtl_blkcnt (u8 (mtl_blkcnt d + 1)) d) ;;
  modify (fun d => with_mtl_pgcnt (u16 (mtl_pgcnt d + 1)) d) ;;
  ret 0.

Definition mtl_insert (index mtpgofs : Z) : M mt_ram Z :=
  let! d := gets id in
  let! offset := assert_some OutOfBounds (arr_sum u32 mtb_valid (mtl_blocktab d) index) in
  let! b := mtl_block index in
  let hi := offset + mtb_valid b in
  let! i := assert_some OutOfBounds
              (arr_find (fun t => mtt_pageofs t =? mtpgofs) (mtl_transtab d) offset hi) in
  if negb (i =? hi) then
    (* the page is in the table already *)
    let! t := mtl_trans i in
    mtl_set_trans i (MkMtt (mtb_used b) (mtt_pageofs t)) ;;
    mtl_set_block index (mtb_set_used (u8 (mtb_used b + 1)) b) ;;
    ret 0
  else
    let! tab := assert_some OutOfBounds (arr_move_down (mtl_transtab d) hi (mtl_pgcnt d)) in
    modify (with_mtl_transtab tab) ;;
    let i := Z.min hi (mtl_pgcnt d) in
    mtl_set_trans i (MkMtt (mtb_used b) mtpgofs) ;;
    mtl_set_block index (mtb_set_valid (u8 (mtb_valid b + 1)) (mtb_set_used (u8 (mtb_used b + 1)) b)) ;;
    modify (fun d => with_mtl_pgcnt (u16 (mtl_pgcnt d + 1)) d) ;;
    ret 0.

Definition mtl_delete (index : Z) : M mt_ram Z :=
  let! d := gets id in
  let! offset := assert_some OutOfBounds (arr_sum u32 mtb_valid (mtl_blocktab d) index) in
  let! b := mtl_block index in
  let tempValid := mtb_valid b in
  let! tab := assert_some OutOfBounds
                (arr_move_up (mtl_transtab d) offset (u32 (mtl_pgcnt d - tempValid)) tempValid) in
  modify (with_mtl_transtab tab) ;;
  let! bt := assert_some OutOfBounds (arr_move_up (mtl_blocktab d) index (mtl_blkcnt d) 1) in
  modify (with_mtl_blocktab bt) ;;
  modify (fun d => with_mtl_pgcnt (u16 (mtl_pgcnt d - tempValid)) d) ;;
  modify (fun d => with_mtl_blkcnt (u8 (mtl_blkcnt d - 1)) d) ;;
  ret 0.

Definition mtl_update (mtpgofs mtlblock new_mtlblock : Z) : M mt_ram Z :=
  let mtindex := u8 (mtpgofs / nr_pgsinblk g) in
  let! d := gets id in
  let! r := for_range 0 (mtl_blkcnt d) (fun i =>
    let! b := mtl_block i in
    if (mtb_mtindx b =? mtindex) && (mtb_pba b =? mtlblock) then
      mtl_set_block i (mtb_set_pba new_mtlblock b) ;; ret (Some (mtb_used b))
    else ret None) in
  match r with Some used => ret used | None => ret (-1) end.

Definition nftl_update_mtl_ram (operation index mtpgofs mtlblock new_mtlblock : Z) : M mt_ram Z :=
  if operation =? APPEND_OPERATION then mtl_append mtpgofs mtlblock
  else if operation =? INSERT_OPERATION then mtl_insert index mtpgofs
  else if operation =? DEL_OPERATION then mtl_delete index
  else if operation =? UPDATE_OPERATION then mtl_update mtpgofs mtlblock new_mtlblock
  else ret (-1).
End Operations.

(** ** The table as a map *)

Notation mt_group := (mtl_blockinfo * list mtl_transitem)%type.

(** Where a group keeps page [pgofs]. *)
Fixpoint mte_lookup (es : list mtl_transitem) (pgofs : Z) : option Z :=
  match es with
  | [] => None
  | e :: es => if mtt_pageofs e =? pgofs then Some (mtt_ppa e) else mte_lookup es pgofs
  end.

Fixpoint mt_lookup (g : mtd_info) (gs : list mt_group) (pgofs : Z) : option (Z * Z) :=
  match gs with
  | [] => None
  | (h, es) :: gs =>
      if mtb_mtindx h =? pgofs / nr_pgsinblk g
      then match mte_lookup es pgofs with Some p => Some (mtb_pba h, p) | None => None end
      else mt_lookup g gs pgofs
  end.

(** Recording that [pgofs] was last written at page [p]. *)
Fixpoint mte_put (es : list mtl_transitem) (pgofs p : Z) : list mtl_transitem :=
  match es with
  | [] => [MkMtt p pgofs]
  | e :: es => if mtt_pageofs e =? pgofs then MkMtt p pgofs :: es else e :: mte_put es pgofs p
  end.

(** A log block is well formed: its entries are pages of its mapping-table block, at
    most one each, at physical pages below the fill level. *)
Record mtg_ok (g : mtd_info) (ge : mt_group) : Prop := {
  gm_mti : in_u8 (mtb_mtindx ge.1);
  gm_pba : in_u16 (mtb_pba ge.1);
  gm_valid : mtb_valid ge.1 = arr_len ge.2;
  gm_used : mtb_valid ge.1 <= mtb_used ge.1 <= nr_pgsinblk g;
  gm_pgofss : Forall (fun e => mtt_pageofs e / nr_pgsinblk g = mtb_mtindx ge.1 /\ in_u16 (mtt_pageofs e)
                             /\ 0 <= mtt_ppa e < mtb_used ge.1) ge.2;
  gm_nodup : NoDup (map mtt_pageofs ge.2)
}.

Record mt_ok (g : mtd_info) (d : mt_ram) (gs : list mt_group) : Prop := {
  mk_rep : log_rep mtb_valid (mtl_blocktab d) (mtl_blkcnt d) (mtl_transtab d) (mtl_pgcnt d) gs;
  mk_blen : arr_len (mtl_blocktab d) = MTL_MAX_BLOCKS;
  mk_plen : arr_len (mt_pbas d) = MT_MAX_BLOCKS;
  mk_tlen : arr_len (mtl_transtab d) = MTL_MAX_PAGES;
  mk_geo : 0 < nr_pgsinblk g <= MAX_PAGES_IN_BLOCK;
  mk_groups : Forall (mtg_ok g) gs;
  mk_nodup : NoDup (map (fun ge : mt_group => mtb_mtindx ge.1) gs)
}.

(** ** Searching *)
Section Search.
Context (g : mtd_info).
Implicit Types (d : mt_ram) (gs : list mt_group) (es : list mtl_transitem).

Lemma mtl_block_run d i b : arr_get (mtl_blocktab d) i = Some b -> mtl_block i d = Done b d.
Proof. intros H. unfold mtl_block, bind, gets, id. by rewrite H. Qed.
Lemma mtl_trans_run d i e : arr_get (mtl_transtab d) i = Some e -> mtl_trans i d = Done e d.
Proof. intros H. unfold mtl_trans, bind, gets, id. by rewrite H. Qed.

Lemma find_mtpg_entries_run d es pba pgofs ofs i :
  (forall j, 0 <= j < arr_len es -> arr_get (mtl_transtab d) (ofs + i + j) = arr_get es j) ->
  Forall (fun e => in_u8 (mtt_ppa e)) es ->
  forM (length es) i (find_mtpg_entry pba pgofs ofs) d
    = Done (match mte_lookup es pgofs with Some p => Some (pba, p) | None => None end) d.
Proof.
  revert i. induction es as [|e es IH]; intros i Hes Hp; [done|].
  inversion Hp as [|? ? Hpe Hpes]; subst. cbn [length forM mte_lookup].
  pose proof (arr_len_nonneg es).
  pose proof (Hes 0 ltac:(rewrite arr_len_cons; lia)) as H0. cbn in H0. rewrite Z.add_0_r in H0.
  unfold bind at 1, find_mtpg_entry at 1, bind at 1. rewrite (mtl_trans_run _ _ _ H0).
  destruct (mtt_pageofs e =? pgofs); [by rewrite u8_id|]. apply IH; [|done].
  intros j Hj. pose proof (Hes (j + 1) ltac:(rewrite arr_len_cons; lia)) as Hj'.
  rewrite arr_get_cons in Hj'. destruct (_ =? _) eqn:E; zbool; [lia|].
  rewrite Z.add_simpl_r in Hj'. rewrite <- Hj'. f_equal. lia.
Qed.

(** Log blocks of other MapTab blocks only move the offset. *)
Lemma find_mtpg_others_run d mti pgofs n i ofs :
  (forall k, i <= k < i + Z.of_nat n -> exists b, arr_get (mtl_blocktab d) k = Some b /\ mtb_mtindx b <> mti) ->
  exists q, forL n i ofs (find_mtpg_block mti pgofs) d = Done (inl q) d.
Proof.
  revert i ofs. induction n as [|n IH]; intros i ofs H; [by exists ofs|].
  destruct (H i ltac:(lia)) as (b & Hb & Hne). cbn [forL].
  unfold bind at 1, find_mtpg_block at 1, bind at 1. rewrite (mtl_block_run _ _ _ Hb).
  destruct (mtb_mtindx b =? mti) eqn:E; zbool; [done|]. apply IH. intros k Hk. apply H. lia.
Qed.

Lemma mtg_ok_ppa ge : mtg_ok g ge -> nr_pgsinblk g <= MAX_PAGES_IN_BLOCK ->
  Forall (fun e => in_u8 (mtt_ppa e)) ge.2.
Proof.
  intros [_ _ _ Hu Hl _] Hg. eapply Forall_impl; [exact Hl|].
  intros e (_ & _ & H). unfold in_u8, MAX_PAGES_IN_BLOCK in *. lia.
Qed.

Lemma mt_ok_pgcnt d gs : mt_ok g d gs -> 0 <= mtl_pgcnt d <= MTL_MAX_PAGES.
Proof.
  intros H. pose proof (log_rep_room _ _ _ _ _ _ (mk_rep _ _ _ H)).
  rewrite (mk_tlen _ _ _ H) in *. rewrite (lr_pgcnt _ _ _ _ _ _ (mk_rep _ _ _ H)) in *.
  pose proof (arr_len_nonneg (ents gs)). lia.
Qed.

Lemma find_mtpg_loop_run d pgofs gs2 : forall gs1,
  mt_ok g d (gs1 ++ gs2) -> in_u8 (pgofs / nr_pgsinblk g) ->
  exists q, forL (length gs2) (arr_len gs1) (arr_len (ents gs1))
      (find_mtpg_block (pgofs / nr_pgsinblk g) pgofs) d
    = Done (match mt_lookup g gs2 pgofs with Some r => inr r | None => inl q end) d.
Proof.
  induction gs2 as [|[h es] gs2 IH]; intros gs1 Hok Hmti; [by eexists|].
  pose proof (mk_rep _ _ _ Hok) as Hrep. pose proof (mt_ok_pgcnt _ _ Hok) as Hpg.
  pose proof (mk_geo _ _ _ Hok) as Hgeo.
  assert (Hge : mtg_ok g (h, es)).
  { pose proof (mk_groups _ _ _ Hok) as Hg. apply Forall_app in Hg as [_ Hg]. by inversion Hg. }
  pose proof (gm_valid _ _ Hge) as Hv. cbn in Hv.
  cbn [length forL mt_lookup]. unfold bind at 1, find_mtpg_block at 1, bind at 1.
  rewrite (mtl_block_run _ _ _ (log_rep_hdr _ _ _ _ _ _ _ _ _ Hrep)).
  destruct (mtb_mtindx h =? pgofs / nr_pgsinblk g) eqn:E; zbool.
  - unfold bind at 1, for_range. rewrite Z.sub_0_r, Hv.
    unfold arr_len at 1. rewrite Nat2Z.id, find_mtpg_entries_run.
    + destruct (mte_lookup es pgofs) as [p|]; [by exists 0|].
      destruct (find_mtpg_others_run d (pgofs / nr_pgsinblk g) pgofs (length gs2)
                  (arr_len gs1 + 1) (arr_len (ents gs1))) as [q Hq]; [|by exists q].
      intros k Hk. pose proof (mk_nodup _ _ _ Hok) as Hnd.
      destruct (lr_blocks _ _ _ _ _ _ Hrep) as [bj Hbt].
      destruct (arr_get_in gs2 (k - arr_len gs1 - 1)) as [[h' es'] Hg]; [unfold arr_len in *; lia|].
      exists h'. split.
      * rewrite Hbt, hdrs_app, <- app_assoc, arr_get_app, hdrs_len.
        destruct (_ <? _) eqn:E1; zbool; [lia|]. cbn [hdrs map fst app].
        rewrite arr_get_cons. destruct (_ =? _) eqn:E2; zbool; [lia|].
        rewrite arr_get_app. unfold arr_get in *. destruct (0 <=? _) eqn:E3; [|done].
        pose proof (lookup_lt_Some _ _ _ Hg).
        destruct (_ <? arr_len _) eqn:E4; zbool.
        -- by rewrite list_lookup_fmap, Hg.
        -- unfold arr_len in E4 at 1. rewrite length_map in E4. lia.
      * rewrite map_app in Hnd. apply NoDup_app in Hnd as (_ & _ & Hnd).
        cbn [map] in Hnd. apply NoDup_cons in Hnd as [Hnin _]. rewrite <- E. intros Heq.
        apply Hnin. apply list_elem_of_In, in_map_iff. exists (h', es'). split; [done|].
        apply list_elem_of_In. unfold arr_get in Hg. destruct (0 <=? _); [|done].
        by eapply list_elem_of_lookup_2.
    + intros j Hj. rewrite Z.add_0_r. by eapply log_rep_ent.
    + apply (mtg_ok_ppa (h, es)); [done|lia].
  - rewrite u16_id.
    + destruct (IH (gs1 ++ [(h, es)])) as [q Hq]; [by rewrite <- app_assoc|done|].
      exists q. rewrite <- Hq. rewrite ents_app, !arr_len_app, Hv.
      change (ents [(h, es)]) with (es ++ []). by rewrite app_nil_r.
    + rewrite Hv. pose proof (lr_pgcnt _ _ _ _ _ _ Hrep) as Hpc.
      rewrite ents_app, ents_cons, !arr_len_app in Hpc.
      pose proof (arr_len_nonneg (ents gs1)). pose proof (arr_len_nonneg (ents gs2)).
      pose proof (arr_len_nonneg es). unfold in_u16, MTL_MAX_PAGES, MTL_MAX_BLOCKS, MT_MAX_BLOCKS, MAX_PAGES_IN_BLOCK in *. lia.
Qed.

(** [nftl_find_mtpg_in_mtl] looks the page up in the map of the table. *)
Lemma nftl_find_mtpg_in_mtl_run d gs pgofs :
  mt_ok g d gs -> in_u8 (pgofs / nr_pgsinblk g) ->
  nftl_find_mtpg_in_mtl g pgofs d =
    Done (match mt_lookup g gs pgofs with
          | Some r => (FIND_OK, r)
          | None => (FIND_FAIL, (0xffff, 0xff)) end) d.
Proof.
  intros Hok Hl. unfold nftl_find_mtpg_in_mtl, bind at 1, gets, id, for_local.
  rewrite (u8_id (pgofs / _)) by done.
  rewrite (lr_blkcnt _ _ _ _ _ _ (mk_rep _ _ _ Hok)), Z.sub_0_r.
  unfold arr_len. rewrite Nat2Z.id. unfold bind.
  destruct (find_mtpg_loop_run d pgofs gs [] Hok Hl) as [q Hq].
  change (arr_len (ents (@nil mt_group))) with 0 in Hq.
  change (arr_len (@nil mt_group)) with 0 in Hq. rewrite Hq.
  by destruct (mt_lookup g gs pgofs).
Qed.
End Search.

(** ** Updating *)
Section Entries.
Implicit Types (es : list mtl_transitem) (pgofs p : Z).

(** Either the page is new to the group, or its entry is replaced in place. *)
Lemma mte_split es pgofs p :
  (Forall (fun e => (mtt_pageofs e =? pgofs) = false) es /\ mte_put es pgofs p = es ++ [MkMtt p pgofs]) \/
  (exists es1 e es2, es = es1 ++ e :: es2 /\ Forall (fun e => (mtt_pageofs e =? pgofs) = false) es1 /\
     (mtt_pageofs e =? pgofs) = true /\ mte_put es pgofs p = es1 ++ MkMtt p pgofs :: es2).
Proof.
  induction es as [|e es [[IH1 IH2]|(es1 & e' & es2 & -> & IH1 & IH2 & IH3)]]; cbn [mte_put].
  - by left.
  - destruct (mtt_pageofs e =? pgofs) eqn:E.
    + right. exists [], e, es. by split_and!.
    + left. split; [by constructor|]. by rewrite IH2.
  - right. destruct (mtt_pageofs e =? pgofs) eqn:E.
    + exists [], e, (es1 ++ e' :: es2). by split_and!.
    + exists (e :: es1), e', es2. rewrite IH3. split_and!; [done|by constructor|done|done].
Qed.

Lemma mte_lookup_put es pgofs p x :
  mte_lookup (mte_put es pgofs p) x = if x =? pgofs then Some p else mte_lookup es x.
Proof.
  induction es as [|e es IH]; cbn [mte_put mte_lookup mtt_pageofs].
  - rewrite (Z.eqb_sym pgofs x). by destruct (x =? pgofs).
  - destruct (mtt_pageofs e =? pgofs) eqn:E; cbn [mte_lookup mtt_pageofs mtt_ppa]; zbool.
    + subst. rewrite (Z.eqb_sym _ x). by destruct (x =? mtt_pageofs e).
    + rewrite IH. destruct (mtt_pageofs e =? x) eqn:E1, (x =? pgofs) eqn:E2; zbool; try done. congruence.
Qed.

Lemma mte_put_pgofss es pgofs p x :
  x ∈ map mtt_pageofs (mte_put es pgofs p) <-> x = pgofs \/ x ∈ map mtt_pageofs es.
Proof.
  destruct (mte_split es pgofs p) as [[_ ->]|(es1 & e & es2 & -> & _ & He & ->)];
    rewrite !map_app; cbn; zbool; rewrite !elem_of_app, ?elem_of_cons; [set_solver|].
  rewrite He. set_solver.
Qed.

Lemma mte_put_nodup es pgofs p : NoDup (map mtt_pageofs es) -> NoDup (map mtt_pageofs (mte_put es pgofs p)).
Proof.
  destruct (mte_split es pgofs p) as [[Hno ->]|(es1 & e & es2 & -> & _ & He & ->)];
    rewrite !map_app; cbn; zbool; [|by rewrite He].
  intros Hnd. apply NoDup_app. split_and!; [done| |apply NoDup_singleton].
  intros x Hx ->%list_elem_of_singleton. apply list_elem_of_In, in_map_iff in Hx as (e & He & Hin).
  apply list_elem_of_In in Hin. rewrite Forall_forall in Hno. specialize (Hno e Hin). cbn in Hno.
  zbool. done.
Qed.

Lemma mte_put_Forall (P : mtl_transitem -> Prop) es pgofs p :
  Forall P es -> P (MkMtt p pgofs) -> Forall P (mte_put es pgofs p).
Proof.
  intros Hes Hp. induction Hes as [|e es He Hes IH]; cbn [mte_put]; [by constructor|].
  case_match; by constructor.
Qed.

Lemma mte_put_len es pgofs p :
  arr_len es <= arr_len (mte_put es pgofs p) <= arr_len es + 1.
Proof.
  destruct (mte_split es pgofs p) as [[_ ->]|(es1 & e & es2 & -> & _ & _ & ->)];
    unfold arr_len; rewrite !length_app; simpl; lia.
Qed.

Lemma mte_lookup_None es pgofs : mte_lookup es pgofs = None <-> pgofs ∉ map mtt_pageofs es.
Proof.
  induction es as [|e es IH]; cbn; [set_solver|].
  destruct (mtt_pageofs e =? pgofs) eqn:E; zbool; [set_solver|]. rewrite IH. set_solver.
Qed.
End Entries.

Section Update.
Context (g : mtd_info).
Implicit Types (d : mt_ram) (gs : list mt_group) (es : list mtl_transitem).

Lemma run_mtl_set_block d i b t :
  arr_set (mtl_blocktab d) i b = Some t -> mtl_set_block i b d = Done tt (with_mtl_blocktab t d).
Proof. intros H. unfold mtl_set_block, bind, gets, id. by rewrite H. Qed.
Lemma run_mtl_set_trans d i e t :
  arr_set (mtl_transtab d) i e = Some t -> mtl_set_trans i e d = Done tt (with_mtl_transtab t d).
Proof. intros H. unfold mtl_set_trans, bind, gets, id. by rewrite H. Qed.

(** The group after page [pgofs] was written at its fill level. *)
Definition mtg_write (h : mtl_blockinfo) es pgofs : mt_group :=
  (MkMtb (mtb_mtindx h) (mtb_pba h) (mtb_used h + 1) (arr_len (mte_put es pgofs (mtb_used h))),
   mte_put es pgofs (mtb_used h)).

Lemma mtg_write_ok h es pgofs :
  mtg_ok g (h, es) -> 0 < nr_pgsinblk g -> in_u16 pgofs -> pgofs / nr_pgsinblk g = mtb_mtindx h ->
  mtb_used h < nr_pgsinblk g -> mtg_ok g (mtg_write h es pgofs).
Proof.
  intros [H1 H2 H3 H4 H5 H6] Hg Hl Hmti Hu. cbn in *.
  pose proof (mte_put_len es pgofs (mtb_used h)). pose proof (arr_len_nonneg es).
  split; cbn; [done|done|done|lia| |by apply mte_put_nodup].
  apply mte_put_Forall; [|cbn; split_and!; [done|done|lia|lia]].
  eapply Forall_impl; [exact H5|]. cbn. intros e (? & ? & ?). split_and!; [done|done|lia|lia].
Qed.

Lemma mt_ok_group d gs1 h es gs2 :
  mt_ok g d (gs1 ++ (h, es) :: gs2) -> mtg_ok g (h, es).
Proof.
  intros Hok. pose proof (mk_groups _ _ _ Hok) as H. apply Forall_app in H as [_ H]. by inversion H.
Qed.

(** Replacing one group by another of the same mapping-table block. *)
Lemma mt_ok_replace d d' gs1 h es gs2 ge :
  mt_ok g d (gs1 ++ (h, es) :: gs2) ->
  log_rep mtb_valid (mtl_blocktab d') (mtl_blkcnt d') (mtl_transtab d') (mtl_pgcnt d') (gs1 ++ ge :: gs2) ->
  arr_len (mtl_blocktab d') = arr_len (mtl_blocktab d) ->
  arr_len (mtl_transtab d') = arr_len (mtl_transtab d) ->
  mt_pbas d' = mt_pbas d ->
  mtg_ok g ge -> mtb_mtindx ge.1 = mtb_mtindx h ->
  mt_ok g d' (gs1 ++ ge :: gs2).
Proof.
  intros [_ Hb Hpl Ht Hg Hgs Hnd] Hrep Hb' Ht' Hpl' Hge Hl.
  split; [done|congruence|by rewrite Hpl'|congruence|done| |].
  - apply Forall_app in Hgs as [? Hgs]. inversion Hgs; subst. apply Forall_app. split; [done|].
    by constructor.
  - rewrite map_app in *. cbn [map fst] in *. by rewrite Hl.
Qed.

Lemma nftl_update_mtl_ram_insert d gs1 h es gs2 pgofs pba new :
  mt_ok g d (gs1 ++ (h, es) :: gs2) -> in_u16 pgofs -> pgofs / nr_pgsinblk g = mtb_mtindx h ->
  mtb_used h < nr_pgsinblk g -> mtl_pgcnt d < MTL_MAX_PAGES ->
  exists d', nftl_update_mtl_ram g INSERT_OPERATION (arr_len gs1) pgofs pba new d = Done 0 d' /\
    mt_ok g d' (gs1 ++ mtg_write h es pgofs :: gs2).
Proof.
  intros Hok Hl Hmti Hu Hpc. pose proof (mk_rep _ _ _ Hok) as Hrep.
  pose proof (mk_geo _ _ _ Hok) as Hgeo. unfold MAX_PAGES_IN_BLOCK in Hgeo.
  pose proof (mt_ok_group _ _ _ _ _ Hok) as Hge. pose proof (gm_valid _ _ Hge) as Hv. cbn in Hv.
  pose proof (gm_used _ _ Hge) as Hub. cbn in Hub. pose proof (arr_len_nonneg es).
  assert (Hu8 : u8 (mtb_used h + 1) = mtb_used h + 1) by (apply u8_id; unfold in_u8; lia).
  assert (Hgw : mtg_ok g (mtg_write h es pgofs)) by (apply mtg_write_ok; (done || lia)).
  unfold nftl_update_mtl_ram. change (INSERT_OPERATION =? APPEND_OPERATION) with false.
  change (INSERT_OPERATION =? INSERT_OPERATION) with true. unfold mtl_insert.
  unfold bind at 1, gets, id.
  rewrite (log_rep_offset _ _ _ _ _ _ _ u32 (2 ^ 32) Hrep) by
    (try apply u32_id; unfold MTL_MAX_PAGES, MTL_MAX_BLOCKS, MT_MAX_BLOCKS, MAX_PAGES_IN_BLOCK in Hpc; lia).
  cbn [assert_some]. unfold bind at 1, ret at 1, bind at 1.
  rewrite (mtl_block_run _ _ _ (log_rep_hdr _ _ _ _ _ _ _ _ _ Hrep)). rewrite Hv.
  unfold mtg_write in *.
  destruct (mte_split es pgofs (mtb_used h)) as [[Hno Hput]|(es1 & e & es2 & -> & Hes1 & He & Hput)];
    rewrite Hput in *.
  - rewrite (log_rep_find_miss _ _ _ _ _ _ _ _ _ _ Hrep Hno).
    cbn [assert_some]. unfold bind at 1, ret at 1. rewrite Z.eqb_refl. cbn [negb].
    set (h' := mtb_set_valid (u8 (arr_len es + 1)) (mtb_set_used (u8 (mtb_used h + 1)) h)).
    destruct (log_rep_insert mtb_valid _ _ _ _ gs1 h h' es (MkMtt (mtb_used h) pgofs) gs2 Hrep)
      as (bt' & tt1 & tt2 & H1 & H2 & H3 & H4 & H5 & H6);
      [subst h'; cbn; rewrite u8_id; [lia|unfold in_u8; lia]|by rewrite (mk_tlen _ _ _ Hok)|].
    rewrite H1. cbn [assert_some]. unfold bind at 1, ret at 1, bind at 1, modify at 1.
    assert (Hle : arr_len (ents gs1) + arr_len es <= mtl_pgcnt d).
    { rewrite (lr_pgcnt _ _ _ _ _ _ Hrep), ents_app, ents_cons, !arr_len_app.
      pose proof (arr_len_nonneg (ents gs2)). lia. }
    rewrite Z.min_l by done. unfold bind at 1.
    rewrite (run_mtl_set_trans (with_mtl_transtab tt1 d) _ _ tt2 H2).
    unfold bind at 1.
    rewrite (run_mtl_set_block (with_mtl_transtab tt2 (with_mtl_transtab tt1 d)) _ _ bt' H3). cbn.
    eexists. split; [done|].
    eapply (mt_ok_replace d _ _ _ _ _ _ Hok); cbn; [|done|done|done|done|done].
    rewrite u16_id by (unfold in_u16, MTL_MAX_PAGES, MTL_MAX_BLOCKS, MT_MAX_BLOCKS, MAX_PAGES_IN_BLOCK in *; pose proof (mt_ok_pgcnt _ _ _ Hok); lia).
    replace (MkMtb _ _ _ _) with h'; [done|]. subst h'. unfold mtb_set_valid, mtb_set_used. cbn.
    rewrite Hu8, arr_len_app. rewrite u8_id by (unfold in_u8; lia). done.
  - rewrite (log_rep_find_hit _ _ _ _ _ _ _ _ _ _ _ _ Hrep Hes1 He).
    cbn [assert_some]. unfold bind at 1, ret at 1.
    assert (Hne : (arr_len (ents gs1) + arr_len es1 =? arr_len (ents gs1) + arr_len (es1 ++ e :: es2)) = false).
    { apply Z.eqb_neq. rewrite arr_len_app, arr_len_cons. pose proof (arr_len_nonneg es2). lia. }
    rewrite Hne. cbn [negb]. unfold bind at 1.
    rewrite (mtl_trans_run _ _ e).
    2:{ rewrite (log_rep_ent _ _ _ _ _ _ _ _ _ _ Hrep); [|split; [apply arr_len_nonneg|]].
        - rewrite arr_get_app, Z.ltb_irrefl, Z.sub_diag. done.
        - rewrite arr_len_app, arr_len_cons. pose proof (arr_len_nonneg es2). lia. }
    zbool. rewrite He.
    destruct (log_rep_set_ent mtb_valid _ _ _ _ gs1 h es1 e (MkMtt (mtb_used h) pgofs) es2 gs2 Hrep)
      as (tt' & H1 & H2 & H3).
    unfold bind at 1. rewrite (run_mtl_set_trans _ _ _ tt' H1).
    destruct (log_rep_set_hdr mtb_valid _ _ _ _ _ _ (mtb_set_used (u8 (mtb_used h + 1)) h) _ _ H3)
      as (bt' & H4 & H5 & H6); [done|].
    unfold bind at 1. rewrite (run_mtl_set_block (with_mtl_transtab tt' d) _ _ bt' H4).
    eexists. split; [done|].
    eapply (mt_ok_replace d _ _ _ _ _ _ Hok); cbn; [|done|done|done|done|done].
    replace (MkMtb _ _ _ _) with (mtb_set_used (u8 (mtb_used h + 1)) h); [done|].
    unfold mtb_set_used. rewrite Hu8, Hv. f_equal. by rewrite !arr_len_app, !arr_len_cons.
Qed.
End Update.

Section Update2.
Context (g : mtd_info).
Implicit Types (d : mt_ram) (gs : list mt_group) (es : list mtl_transitem).

(** The group of a log block that holds one page. *)
Definition mtg_new (pgofs pba : Z) : mt_group :=
  (MkMtb (pgofs / nr_pgsinblk g) pba 1 1, [MkMtt 0 pgofs]).

Lemma mtg_new_ok pgofs pba :
  0 < nr_pgsinblk g -> in_u16 pgofs -> in_u8 (pgofs / nr_pgsinblk g) -> in_u16 pba ->
  mtg_ok g (mtg_new pgofs pba).
Proof.
  intros Hg Hl Hmti Hp. unfold mtg_new. split; cbn; try done; [lia| |apply NoDup_singleton].
  repeat constructor; cbn; try apply Hl; lia.
Qed.

Lemma nftl_update_mtl_ram_append d gs index pgofs pba new :
  mt_ok g d gs -> in_u16 pgofs -> in_u8 (pgofs / nr_pgsinblk g) -> in_u16 pba ->
  mtl_blkcnt d < MTL_MAX_BLOCKS -> mtl_pgcnt d < MTL_MAX_PAGES ->
  pgofs / nr_pgsinblk g ∉ map (fun ge : mt_group => mtb_mtindx ge.1) gs ->
  exists d', nftl_update_mtl_ram g APPEND_OPERATION index pgofs pba new d = Done 0 d' /\
    mt_ok g d' (gs ++ [mtg_new pgofs pba]).
Proof.
  intros Hok Hl Hmti Hp Hb Hpc Hnew. pose proof (mk_rep _ _ _ Hok) as Hrep.
  pose proof (mt_ok_pgcnt _ _ _ Hok).
  assert (0 <= mtl_blkcnt d) by (rewrite (lr_blkcnt _ _ _ _ _ _ Hrep); apply arr_len_nonneg).
  unfold nftl_update_mtl_ram. change (APPEND_OPERATION =? APPEND_OPERATION) with true.
  unfold mtl_append. rewrite (u8_id (pgofs / _)) by done.
  destruct (log_rep_append mtb_valid _ _ _ _ _ (MkMtb (pgofs / nr_pgsinblk g) pba 1 1)
              (MkMtt 0 pgofs) Hrep) as (bt' & tt' & H1 & H2 & H3 & H4 & H5);
    [done|by rewrite (mk_blen _ _ _ Hok)|by rewrite (mk_tlen _ _ _ Hok)|].
  unfold bind at 1, gets, id, bind at 1. rewrite (run_mtl_set_block _ _ _ _ H1).
  unfold bind at 1. rewrite (run_mtl_set_trans (with_mtl_blocktab bt' d) _ _ _ H2). cbn.
  eexists. split; [done|]. destruct Hok as [_ Hbl Hpl Htl Hg Hgs Hnd].
  split; cbn; [|congruence|done|congruence|done| |].
  - unfold MTL_MAX_PAGES, MTL_MAX_BLOCKS, MT_MAX_BLOCKS, MAX_PAGES_IN_BLOCK in *.
    rewrite u16_id, u8_id by (unfold in_u8, in_u16; lia). exact H5.
  - apply Forall_app. split; [done|]. constructor; [apply mtg_new_ok; (done || lia)|done].
  - rewrite map_app. apply NoDup_app. split_and!; [done| |apply NoDup_singleton].
    cbn. intros x Hx ->%list_elem_of_singleton. done.
Qed.

Lemma nftl_update_mtl_ram_delete d gs1 h es gs2 pgofs pba new :
  mt_ok g d (gs1 ++ (h, es) :: gs2) -> mtl_blkcnt d < MTL_MAX_BLOCKS ->
  exists d', nftl_update_mtl_ram g DEL_OPERATION (arr_len gs1) pgofs pba new d = Done 0 d' /\
    mt_ok g d' (gs1 ++ gs2).
Proof.
  intros Hok Hb. pose proof (mk_rep _ _ _ Hok) as Hrep.
  pose proof (mt_ok_pgcnt _ _ _ Hok) as Hpc. pose proof (mt_ok_group _ _ _ _ _ _ Hok) as Hge.
  pose proof (gm_valid _ _ Hge) as Hv. cbn in Hv.
  unfold nftl_update_mtl_ram. change (DEL_OPERATION =? APPEND_OPERATION) with false.
  change (DEL_OPERATION =? INSERT_OPERATION) with false.
  change (DEL_OPERATION =? DEL_OPERATION) with true. cbn iota. unfold mtl_delete.
  unfold bind at 1, gets, id.
  rewrite (log_rep_offset _ _ _ _ _ _ _ u32 (2 ^ 32) Hrep) by
    (try apply u32_id; unfold MTL_MAX_PAGES, MTL_MAX_BLOCKS, MT_MAX_BLOCKS, MAX_PAGES_IN_BLOCK in Hpc; lia).
  cbn [assert_some]. unfold bind at 1, ret at 1, bind at 1.
  rewrite (mtl_block_run _ _ _ (log_rep_hdr _ _ _ _ _ _ _ _ _ Hrep)). rewrite Hv.
  destruct (log_rep_delete mtb_valid _ _ _ _ _ _ _ _ Hrep) as (bt' & tt' & H1 & H2 & H3 & H4 & H5);
    [by rewrite (mk_blen _ _ _ Hok)|].
  assert (Hhi : in_u32 (mtl_pgcnt d - arr_len es)).
  { pose proof (lr_pgcnt _ _ _ _ _ _ Hrep) as Hpn. rewrite ents_app, ents_cons, !arr_len_app in Hpn.
    pose proof (arr_len_nonneg (ents gs1)). pose proof (arr_len_nonneg (ents gs2)). pose proof (arr_len_nonneg es).
    unfold in_u32, MTL_MAX_PAGES, MTL_MAX_BLOCKS, MT_MAX_BLOCKS, MAX_PAGES_IN_BLOCK in *. lia. }
  rewrite (u32_id _ Hhi), H1. cbn [assert_some]. unfold bind at 1, ret at 1, bind at 1, modify at 1.
  rewrite H2. cbn. eexists. split; [done|].
  pose proof (lr_pgcnt _ _ _ _ _ _ H5) as Hpn. pose proof (arr_len_nonneg (ents (gs1 ++ gs2))).
  pose proof (lr_blkcnt _ _ _ _ _ _ H5) as Hbn. pose proof (arr_len_nonneg (gs1 ++ gs2)).
  pose proof (arr_len_nonneg es).
  destruct Hok as [_ Hbl Hpl Htl Hg Hgs Hnd].
  split; cbn; [|congruence|done|congruence|done| |].
  - unfold MTL_MAX_PAGES, MTL_MAX_BLOCKS, MT_MAX_BLOCKS, MAX_PAGES_IN_BLOCK in *.
    rewrite u16_id, u8_id by (unfold in_u8, in_u16; lia). exact H5.
  - apply Forall_app in Hgs as [? Hgs]. inversion Hgs; subst. by apply Forall_app.
  - rewrite map_app in *. cbn [map fst] in Hnd.
    apply NoDup_app in Hnd as (? & Hx & [_ ?]%NoDup_cons). apply NoDup_app.
    split_and!; [done| |done]. intros x Hx1 Hx2. apply (Hx x Hx1). by apply list_elem_of_further.
Qed.
End Update2.

(** ** The effect of the updates on the map *)
Section Lookup.
Context (g : mtd_info).
Implicit Types (d : mt_ram) (gs : list mt_group) (es : list mtl_transitem).
Notation mtis gs := (map (fun ge : mt_group => mtb_mtindx ge.1) gs).

Lemma mt_lookup_skip gs1 gs2 pgofs :
  pgofs / nr_pgsinblk g ∉ mtis gs1 -> mt_lookup g (gs1 ++ gs2) pgofs = mt_lookup g gs2 pgofs.
Proof.
  induction gs1 as [|[h es] gs1 IH]; cbn [map app mt_lookup fst]; [done|].
  rewrite elem_of_cons. intros H. destruct (mtb_mtindx h =? _) eqn:E; zbool; [naive_solver|].
  apply IH. naive_solver.
Qed.

(** Splitting the map at one group. *)
Lemma mt_lookup_mid gs1 h es gs2 pgofs :
  NoDup (mtis (gs1 ++ (h, es) :: gs2)) ->
  mt_lookup g (gs1 ++ (h, es) :: gs2) pgofs =
    if mtb_mtindx h =? pgofs / nr_pgsinblk g
    then match mte_lookup es pgofs with Some p => Some (mtb_pba h, p) | None => None end
    else mt_lookup g (gs1 ++ gs2) pgofs.
Proof.
  intros Hnd. rewrite map_app in Hnd. cbn [map fst] in Hnd.
  apply NoDup_app in Hnd as (_ & Hx & _).
  induction gs1 as [|[h1 es1] gs1 IH]; cbn [app mt_lookup]; [done|].
  destruct (mtb_mtindx h1 =? pgofs / nr_pgsinblk g) eqn:E1; zbool.
  - destruct (mtb_mtindx h =? pgofs / nr_pgsinblk g) eqn:E2; zbool; [|done].
    exfalso. apply (Hx (mtb_mtindx h1)); cbn; [left|]. rewrite E1, <- E2. left.
  - apply IH. intros x Hx1. apply Hx. cbn. by right.
Qed.

Lemma mt_lookup_deleted gs1 h es gs2 pgofs :
  NoDup (mtis (gs1 ++ (h, es) :: gs2)) -> mtb_mtindx h = pgofs / nr_pgsinblk g ->
  mt_lookup g (gs1 ++ gs2) pgofs = None.
Proof.
  intros Hnd Hh. rewrite map_app in Hnd. cbn [map fst] in Hnd.
  apply NoDup_app in Hnd as (_ & Hx & [Hy _]%NoDup_cons).
  rewrite mt_lookup_skip.
  - rewrite <- (app_nil_r gs2). rewrite mt_lookup_skip; [done|]. by rewrite <- Hh.
  - rewrite <- Hh. intros H. apply (Hx _ H). left.
Qed.

Lemma mt_lookup_last gs ge pgofs :
  mtb_mtindx ge.1 ∉ mtis gs ->
  mt_lookup g (gs ++ [ge]) pgofs =
    if mtb_mtindx ge.1 =? pgofs / nr_pgsinblk g
    then match mte_lookup ge.2 pgofs with Some p => Some (mtb_pba ge.1, p) | None => None end
    else mt_lookup g gs pgofs.
Proof.
  destruct ge as [h es]. cbn. intros Hn.
  induction gs as [|[h1 es1] gs IH]; cbn [app mt_lookup map fst] in *; [done|].
  rewrite not_elem_of_cons in Hn. destruct Hn as [Hne Hn].
  destruct (mtb_mtindx h1 =? _) eqn:E1; zbool; [|by apply IH].
  destruct (mtb_mtindx h =? _) eqn:E2; zbool; congruence.
Qed.

(** The group of a mapping-table block. *)
Definition mtl_find (gs : list mt_group) (mti : Z) : option Z :=
  option_map Z.of_nat (fst <$> list_find (fun ge : mt_group => mtb_mtindx ge.1 = mti) gs).

Lemma mtl_block_at d gs i :
  mt_ok g d gs -> 0 <= i < mtl_blkcnt d ->
  exists h es, arr_get gs i = Some (h, es) /\ mtl_block i d = Done h d.
Proof.
  intros Hok Hi. pose proof (mk_rep _ _ _ Hok) as Hrep.
  rewrite (lr_blkcnt _ _ _ _ _ _ Hrep) in Hi.
  destruct (arr_get_in gs i Hi) as [[h es] Hg]. exists h, es. split; [done|].
  apply mtl_block_run. destruct (lr_blocks _ _ _ _ _ _ Hrep) as [bj ->].
  rewrite arr_get_app, hdrs_len. destruct (i <? arr_len gs) eqn:E; zbool; [|lia].
  unfold arr_get, hdrs in *. destruct (0 <=? i); [|done]. by rewrite list_lookup_fmap, Hg.
Qed.

Lemma nftl_find_mti_in_mtl_miss d gs mti :
  mt_ok g d gs -> mti ∉ mtis gs -> nftl_find_mtl_ram mti d = Done (FIND_FAIL, mtl_blkcnt d) d.
Proof.
  intros Hok Hn. unfold nftl_find_mtl_ram, bind at 1, gets, id. unfold bind at 1. rewrite for_range_miss; [done|].
  intros i Hi. destruct (mtl_block_at d gs i Hok Hi) as (h & es & Hg & Hb).
  unfold bind. rewrite Hb.
  destruct (mtb_mtindx h =? mti) eqn:E; [|done]. zbool. exfalso. apply Hn.
  apply list_elem_of_In, in_map_iff. exists (h, es). split; [done|]. apply list_elem_of_In.
  unfold arr_get in Hg. destruct (0 <=? i); [|done]. by eapply list_elem_of_lookup_2.
Qed.

Lemma mtl_other_mti d gs1 h es gs2 i :
  mt_ok g d (gs1 ++ (h, es) :: gs2) -> 0 <= i < arr_len gs1 ->
  exists b, mtl_block i d = Done b d /\ mtb_mtindx b <> mtb_mtindx h.
Proof.
  intros Hok Hi. pose proof (mk_rep _ _ _ Hok) as Hrep.
  destruct (mtl_block_at d _ i Hok) as (h' & es' & Hg & Hb).
  - rewrite (lr_blkcnt _ _ _ _ _ _ Hrep), arr_len_app. pose proof (arr_len_nonneg ((h, es) :: gs2)). lia.
  - exists h'. split; [done|]. intros Heq.
    rewrite arr_get_app in Hg. destruct (i <? arr_len gs1) eqn:E; zbool; [|lia].
    pose proof (mk_nodup _ _ _ Hok) as Hnd. rewrite map_app in Hnd.
    apply NoDup_app in Hnd as (_ & Hx & _). apply (Hx (mtb_mtindx h')).
    + apply list_elem_of_In, in_map_iff. exists (h', es'). split; [done|]. apply list_elem_of_In.
      unfold arr_get in Hg. destruct (0 <=? i); [|done]. by eapply list_elem_of_lookup_2.
    + cbn. rewrite Heq. left.
Qed.

Lemma mtl_block_mid d gs1 h es gs2 :
  mt_ok g d (gs1 ++ (h, es) :: gs2) -> mtl_block (arr_len gs1) d = Done h d.
Proof. intros Hok. apply mtl_block_run. eapply log_rep_hdr, Hok. Qed.

Lemma mtl_mid_range d gs1 h es gs2 :
  mt_ok g d (gs1 ++ (h, es) :: gs2) -> 0 <= arr_len gs1 < mtl_blkcnt d.
Proof.
  intros Hok. rewrite (lr_blkcnt _ _ _ _ _ _ (mk_rep _ _ _ Hok)), arr_len_app, arr_len_cons.
  pose proof (arr_len_nonneg gs1). pose proof (arr_len_nonneg gs2). lia.
Qed.

Lemma nftl_find_mti_in_mtl_hit d gs1 h es gs2 :
  mt_ok g d (gs1 ++ (h, es) :: gs2) ->
  nftl_find_mtl_ram (mtb_mtindx h) d = Done (FIND_OK, arr_len gs1) d.
Proof.
  intros Hok. pose proof (mtl_mid_range _ _ _ _ _ Hok) as Hr.
  unfold nftl_find_mtl_ram, bind at 1, gets, id. unfold bind at 1.
  erewrite for_range_hit with (k := arr_len gs1); [reflexivity| |done|].
  - intros i Hi. destruct (mtl_other_mti _ _ _ _ _ i Hok Hi) as (b & Hb & Hne).
    unfold bind. rewrite Hb. apply Z.eqb_neq in Hne. by rewrite Hne.
  - unfold bind. rewrite (mtl_block_mid _ _ _ _ _ Hok), Z.eqb_refl, u8_id; [done|].
    pose proof (log_rep_room _ _ _ _ _ _ (mk_rep _ _ _ Hok)) as [Hr1 _].
    rewrite (mk_blen _ _ _ Hok) in Hr1.
    unfold in_u8, MTL_MAX_BLOCKS, MT_MAX_BLOCKS in *. lia.
Qed.

Lemma nftl_update_mtl_ram_update d gs1 h es gs2 index pgofs new :
  mt_ok g d (gs1 ++ (h, es) :: gs2) -> pgofs / nr_pgsinblk g = mtb_mtindx h -> in_u16 new ->
  exists d', nftl_update_mtl_ram g UPDATE_OPERATION index pgofs (mtb_pba h) new d
      = Done (mtb_used h) d' /\
    mt_ok g d' (gs1 ++ (mtb_set_pba new h, es) :: gs2).
Proof.
  intros Hok Hl Hp. pose proof (mtl_mid_range _ _ _ _ _ Hok) as Hr.
  pose proof (mt_ok_group _ _ _ _ _ _ Hok) as Hge.
  destruct (log_rep_set_hdr mtb_valid _ _ _ _ _ _ (mtb_set_pba new h) _ _ (mk_rep _ _ _ Hok))
    as (bt' & H1 & H2 & H3); [done|].
  exists (with_mtl_blocktab bt' d). split.
  - unfold nftl_update_mtl_ram, mtl_update. cbn. unfold bind at 1, gets, id.
    unfold bind at 1. erewrite for_range_hit with (k := arr_len gs1); [reflexivity| |done|].
    + intros i Hi. destruct (mtl_other_mti _ _ _ _ _ i Hok Hi) as (b & Hb & Hne).
      unfold bind. rewrite Hb, Hl, u8_id by apply (gm_mti _ _ Hge).
      apply Z.eqb_neq in Hne. by rewrite Hne.
    + unfold bind at 1. rewrite (mtl_block_mid _ _ _ _ _ Hok), Hl, u8_id by apply (gm_mti _ _ Hge).
      rewrite !Z.eqb_refl. cbn [andb]. unfold bind. by rewrite (run_mtl_set_block _ _ _ _ H1).
  - eapply (mt_ok_replace g d _ _ _ _ _ _ Hok); [exact H3|done|done|done| |done].
    destruct Hge. by split.
Qed.
End Lookup.


(** The table updates leave the directory of MapTab blocks alone. *)
Section Frame.
Context (g : mtd_info).
Definition keeps_pbas {A} (m : M mt_ram A) : Prop :=
  forall d, match m d with
            | Done _ d' => mt_pbas d' = mt_pbas d /\ mt_blkcnt d' = mt_blkcnt d
            | Crash _ => True end.

Lemma keeps_ret {A} (a : A) : keeps_pbas (ret a).
Proof. by intros d. Qed.
Lemma keeps_assert {A} f (o : option A) : keeps_pbas (assert_some f o).
Proof. intros d. by destruct o. Qed.
Lemma keeps_gets {A} (f : mt_ram -> A) : keeps_pbas (gets f).
Proof. by intros d. Qed.
Lemma keeps_modify f : (forall d, mt_pbas (f d) = mt_pbas d /\ mt_blkcnt (f d) = mt_blkcnt d) -> keeps_pbas (modify f).
Proof. intros H d. apply H. Qed.
Lemma keeps_bind {A B} (m : M mt_ram A) (k : A -> M mt_ram B) :
  keeps_pbas m -> (forall a, keeps_pbas (k a)) -> keeps_pbas (bind m k).
Proof.
  intros Hm Hk d. unfold bind. specialize (Hm d). destruct (m d) as [a d'|]; [|done].
  specialize (Hk a d'). destruct (k a d'); [|done]. destruct Hm, Hk. split; congruence.
Qed.
Lemma keeps_forM {R} n : forall i (body : Z -> M mt_ram (option R)),
  (forall j, keeps_pbas (body j)) -> keeps_pbas (forM n i body).
Proof.
  induction n as [|n IH]; intros i body H; cbn [forM]; [apply keeps_ret|].
  apply keeps_bind; [done|]. intros [v|]; [apply keeps_ret|by apply IH].
Qed.

Ltac keeps :=
  repeat match goal with
  | |- keeps_pbas (bind _ _) => apply keeps_bind; [|intros ?]
  | |- keeps_pbas (ret _) => apply keeps_ret
  | |- keeps_pbas (gets _) => apply keeps_gets
  | |- keeps_pbas (assert_some _ _) => apply keeps_assert
  | |- keeps_pbas (modify _) => by apply keeps_modify
  | |- keeps_pbas (for_range _ _ _) => apply keeps_forM; intros ?
  | |- keeps_pbas (if ?e then _ else _) => destruct e
  | |- keeps_pbas (match ?e with _ => _ end) => destruct e
  end.

Lemma nftl_update_mtl_ram_pbas operation index p blk new :
  keeps_pbas (nftl_update_mtl_ram g operation index p blk new).
Proof.
  unfold nftl_update_mtl_ram, mtl_append, mtl_insert, mtl_delete, mtl_update,
    mtl_set_block, mtl_set_trans, mtl_block, mtl_trans. keeps.
Qed.
End Frame.

(** ** Where a mapping-table page is stored *)
Section Physical.
Context (g : mtd_info).
Implicit Types (d : mt_ram) (gs : list mt_group) (es : list mtl_transitem).

(** The log's copy of page [p] of the mapping table if there is one, else
    the page of the MapTab block. *)
Definition mt_where (pbas : list Z) gs (p : Z) : option (Z * Z) :=
  match mt_lookup g gs p with
  | Some r => Some r
  | None => match arr_get pbas (p / nr_pgsinblk g) with
            | Some b => Some (b, p mod nr_pgsinblk g)
            | None => None
            end
  end.

Lemma nftl_get_physical_mt_run d gs p r :
  mt_ok g d gs -> in_u8 p -> mt_where (mt_pbas d) gs p = Some r ->
  nftl_get_physical_mt g p d = Done r d.
Proof.
  intros Hok Hp Hw. pose proof (mk_geo _ _ _ Hok) as Hg. unfold MAX_PAGES_IN_BLOCK in Hg.
  assert (Hq : in_u8 (p / nr_pgsinblk g)).
  { unfold in_u8 in *. split; [apply Z.div_pos; lia|].
    apply Z.le_lt_trans with p; [|lia]. apply Z.div_le_upper_bound; nia. }
  unfold nftl_get_physical_mt. rewrite (u8_id p) by done. rewrite (u8_id (p / _)) by done.
  unfold bind at 1. rewrite (nftl_find_mtpg_in_mtl_run g d gs p Hok Hq). unfold mt_where in Hw.
  destruct (mt_lookup g gs p) as [r'|]; cbn; [by simplify_eq|].
  unfold bind, mt_pba, gets, id, bind. destruct (arr_get (mt_pbas d) _); [|done]. cbn.
  simplify_eq. pose proof (Z.mod_pos_bound p (nr_pgsinblk g)).
  rewrite u8_id; [done|]. unfold in_u8. lia.
Qed.

(** After INSERT_OPERATION on the log block [h] of a MapTab block, the
    mapping-table page just written is at the log block's old fill level and
    every other page of the mapping table is where it was. *)
Theorem mtl_insert_physical d gs1 h es gs2 p blk new :
  mt_ok g d (gs1 ++ (h, es) :: gs2) -> in_u8 p -> p / nr_pgsinblk g = mtb_mtindx h ->
  mtb_used h < nr_pgsinblk g -> mtl_pgcnt d < MTL_MAX_PAGES ->
  exists d', nftl_update_mtl_ram g INSERT_OPERATION (arr_len gs1) p blk new d = Done 0 d' /\
    (forall x r, in_u8 x ->
      (if x =? p then Some (mtb_pba h, mtb_used h)
       else mt_where (mt_pbas d) (gs1 ++ (h, es) :: gs2) x) = Some r ->
      nftl_get_physical_mt g x d' = Done r d').
Proof.
  intros Hok Hp Hi Hu Hpc.
  destruct (nftl_update_mtl_ram_insert g d gs1 h es gs2 p blk new) as (d' & H1 & Hok');
    [done|unfold in_u8, in_u16 in *; lia|done..|].
  pose proof (nftl_update_mtl_ram_pbas g INSERT_OPERATION (arr_len gs1) p blk new d) as Hpb.
  rewrite H1 in Hpb. destruct Hpb as [Hpb _]. exists d'. split; [done|]. intros x r Hx Hr.
  eapply nftl_get_physical_mt_run; [done|done|]. rewrite Hpb. revert Hr. unfold mt_where.
  unfold mtg_write in *.
  rewrite !mt_lookup_mid by apply (mk_nodup _ _ _ Hok) || apply (mk_nodup _ _ _ Hok').
  cbn [mtb_mtindx mtb_pba]. rewrite mte_lookup_put.
  destruct (x =? p) eqn:E; zbool; [|done]. subst x. by rewrite Hi, Z.eqb_refl.
Qed.

(** DEL_OPERATION on the log block of MapTab block [mtb_mtindx h] makes
    every page of that MapTab block be read from [mt_pbas] again, and leaves
    the other pages where they were. *)
Theorem mtl_delete_physical d gs1 h es gs2 p blk new :
  mt_ok g d (gs1 ++ (h, es) :: gs2) -> mtl_blkcnt d < MTL_MAX_BLOCKS ->
  exists d', nftl_update_mtl_ram g DEL_OPERATION (arr_len gs1) p blk new d = Done 0 d' /\
    (forall x r, in_u8 x ->
      (if x / nr_pgsinblk g =? mtb_mtindx h then
         match arr_get (mt_pbas d) (x / nr_pgsinblk g) with
         | Some b => Some (b, x mod nr_pgsinblk g) | None => None end
       else mt_where (mt_pbas d) (gs1 ++ (h, es) :: gs2) x) = Some r ->
      nftl_get_physical_mt g x d' = Done r d').
Proof.
  intros Hok Hb.
  destruct (nftl_update_mtl_ram_delete g d gs1 h es gs2 p blk new) as (d' & H1 & Hok'); [done..|].
  pose proof (nftl_update_mtl_ram_pbas g DEL_OPERATION (arr_len gs1) p blk new d) as Hpb.
  rewrite H1 in Hpb. destruct Hpb as [Hpb _]. exists d'. split; [done|]. intros x r Hx Hr.
  eapply nftl_get_physical_mt_run; [done|done|]. rewrite Hpb. revert Hr. unfold mt_where.
  rewrite (mt_lookup_mid g gs1 h es gs2) by apply (mk_nodup _ _ _ Hok).
  rewrite (Z.eqb_sym (mtb_mtindx h)).
  destruct (_ =? mtb_mtindx h) eqn:E; zbool; [|done].
  by rewrite (mt_lookup_deleted g gs1 h es gs2) by (done || apply (mk_nodup _ _ _ Hok)).
Qed.
End Physical.

(** ** A concrete table *)
Definition mt_geo : mtd_info := MkMtd (64 * 128) 128 32 8.
Definition mt_gs : list mt_group := [(MkMtb 0 10 3 2, [MkMtt 2 1; MkMtt 1 3])].
Definition mt_ex : mt_ram :=
  MkMt [7; 0xffff; 0xffff; 0xffff; 0xffff; 0xffff] 1
    (hdrs mt_gs ++ replicate 5 (MkMtb 0 0 0 0)) 1 (ents mt_gs ++ replicate 766 (MkMtt 0 0)) 2.

Lemma mt_ex_ok : mt_ok mt_geo mt_ex mt_gs.
Proof.
  split.
  - split; [by eexists|by eexists|done|done|by repeat constructor].
  - vm_compute. reflexivity.
  - vm_compute. reflexivity.
  - vm_compute. reflexivity.
  - vm_compute. intuition congruence.
  - repeat constructor; cbn; try (vm_compute; intuition congruence);
      try (apply (bool_decide_unpack _); vm_compute; reflexivity).
  - apply (bool_decide_unpack _). vm_compute. reflexivity.
Qed.

Lemma mtl_insert_physical_witness :
  exists d', nftl_update_mtl_ram mt_geo INSERT_OPERATION 0 2 0 0 mt_ex = Done 0 d' /\
    nftl_get_physical_mt mt_geo 2 d' = Done (10, 3) d' /\
    nftl_get_physical_mt mt_geo 0 d' = Done (7, 0) d'.
Proof.
  destruct (mtl_insert_physical mt_geo mt_ex [] (MkMtb 0 10 3 2) [MkMtt 2 1; MkMtt 1 3] [] 2 0 0)
    as (d' & H1 & H2); [exact mt_ex_ok|vm_compute; intuition congruence|done|done|done|].
  exists d'. split; [exact H1|].
  split; apply H2; (reflexivity || (vm_compute; intuition congruence)).
Defined.

Lemma mtl_delete_physical_witness :
  exists d', nftl_update_mtl_ram mt_geo DEL_OPERATION 0 0 0 0 mt_ex = Done 0 d' /\
    nftl_get_physical_mt mt_geo 1 d' = Done (7, 1) d'.
Proof.
  destruct (mtl_delete_physical mt_geo mt_ex [] (MkMtb 0 10 3 2) [MkMtt 2 1; MkMtt 1 3] [] 0 0 0)
    as (d' & H1 & H2); [exact mt_ex_ok|done|].
  exists d'. split; [exact H1|]. apply H2; (reflexivity || (vm_compute; intuition congruence)).
Defined.
