(* ===== verification/NftlTables.v ===== *)
(** * NFTL: references for the DataLog table

    The search of the DataLog table agrees with a reference that looks for the
    page's entry and for its block separately; the updates refine those of a
    list of log blocks, each with its pages, up to the size of the arrays. *)

From Stdlib Require Import ZArith Lia.
From stdpp Require Import base numbers list sets.
From S2P Require Import Prelude CMonad NftlTypes NftlLog NftlDl.

(** ** Arrays *)
Lemma Forall_arr {A} (P : A -> Prop) (l : list A) : Forall P l <-> forall i x, arr_get l i = Some x -> P x.
Proof.
  rewrite Forall_lookup. split.
  - intros H i x. unfold arr_get. destruct (0 <=? i); [apply H|done].
  - intros H n x Hn. apply (H (Z.of_nat n)). by rewrite arr_get_nat.
Qed.

(** ** A reference for the search

    The page's entry among the used ones, then the log block of its logical
    block among the used ones: no offsets, no interleaved loops. *)
Definition dl_entry_of (d : dl_ram) (lpa : Z) : option dl_transitem :=
  List.find (fun t => dlt_lpa t =? lpa) (take (Z.to_nat (dl_pgcnt d)) (dl_transtab d)).
Definition dl_block_of (d : dl_ram) (lba : Z) : option dl_blockinfo :=
  List.find (fun b => dlb_lba b =? lba) (take (Z.to_nat (dl_blkcnt d)) (dl_blocktab d)).
Definition dl_find_ref (g : mtd_info) (d : dl_ram) (lpa : Z) : option (Z * Z) :=
  match dl_entry_of d lpa, dl_block_of d (lpa / nr_pgsinblk g) with
  | Some t, Some b => Some (dlb_pba b, dlt_ppa t)
  | _, _ => None
  end.

Section Reference.
Context (g : mtd_info).
Implicit Types (d : dl_ram) (gs : list dl_group) (es : list dl_transitem).

Lemma take_used {A} (l bad : list A) : take (Z.to_nat (arr_len l)) (l ++ bad) = l.
Proof. unfold arr_len. by rewrite Nat2Z.id, take_app_length. Qed.
Lemma find_app {A} (f : A -> bool) l1 l2 :
  List.find f (l1 ++ l2) = match List.find f l1 with Some x => Some x | None => List.find f l2 end.
Proof. induction l1 as [|x l1 IH]; [done|]. cbn. by destruct (f x). Qed.
Lemma ent_lookup_find es lpa : ent_lookup es lpa = dlt_ppa <$> List.find (fun t => dlt_lpa t =? lpa) es.
Proof. induction es as [|e es IH]; [done|]. cbn. by destruct (_ =? _). Qed.

(** A page of another logical block has no entry in a group. *)
Lemma find_foreign ge lpa : group_ok g ge -> lpa / nr_pgsinblk g <> dlb_lba ge.1 ->
  List.find (fun t => dlt_lpa t =? lpa) ge.2 = None.
Proof.
  intros Hok Hne. destruct (List.find _ _) as [t|] eqn:E; [|done].
  apply find_some in E as [Hin Heq]. zbool. pose proof (go_lpas _ _ Hok) as Hf.
  rewrite Forall_forall in Hf. destruct (Hf t) as (Hl & _); [by apply list_elem_of_In|]. congruence.
Qed.
Lemma find_foreign_all gs lpa :
  Forall (group_ok g) gs -> lpa / nr_pgsinblk g ∉ map (fun ge : dl_group => dlb_lba ge.1) gs ->
  List.find (fun t => dlt_lpa t =? lpa) (ents gs) = None.
Proof.
  induction 1 as [|ge gs Hge _ IH]; [done|]. cbn [map]. intros Hn. destruct ge as [h es].
  rewrite ents_cons, find_app, (find_foreign (h, es)); [apply IH|done|]; set_solver.
Qed.

Lemma dl_lookup_ref gs lpa :
  Forall (group_ok g) gs -> NoDup (map (fun ge : dl_group => dlb_lba ge.1) gs) ->
  dl_lookup g gs lpa =
    match List.find (fun t => dlt_lpa t =? lpa) (ents gs),
          List.find (fun b => dlb_lba b =? lpa / nr_pgsinblk g) (hdrs gs) with
    | Some t, Some b => Some (dlb_pba b, dlt_ppa t)
    | _, _ => None
    end.
Proof.
  induction 1 as [|[h es] gs Hge Hgs IH]; [done|]. cbn [map fst]. intros [Hn Hd]%NoDup_cons.
  rewrite ents_cons, find_app. cbn [dl_lookup hdrs map fst List.find].
  destruct (dlb_lba h =? lpa / nr_pgsinblk g) eqn:E; zbool.
  - rewrite find_foreign_all, ent_lookup_find by (done || by rewrite <- E).
    by destruct (List.find _ es).
  - rewrite (find_foreign (h, es)) by (done || (cbn; congruence)). by apply IH.
Qed.

(** C16. On a well-formed table, the nested loops of [nftl_find_lpa_in_dl] find
    what the reference search finds, and change nothing. *)
Theorem find_lpa_equiv d gs lpa (Hok : dl_ok g d gs) (Hl : in_u16 (lpa / nr_pgsinblk g)) :
  nftl_find_lpa_in_dl g lpa d = Done (dl_find_ref g d lpa) d.
Proof.
  rewrite (nftl_find_lpa_in_dl_run g d gs lpa Hok Hl). f_equal.
  unfold dl_find_ref, dl_entry_of, dl_block_of.
  destruct (dk_rep _ _ _ Hok) as [[bj ->] [tj ->] -> -> _]. rewrite <- (hdrs_len gs), !take_used.
  apply dl_lookup_ref; apply Hok.
Qed.
End Reference.

(** ** A reference for the updates

    The table as a list of log blocks, each with its fill level and the places
    of its pages: no offsets and no moves of array elements.  [None]: the
    arguments are none the table can take (a second log block for a logical
    block, a page of another one, a full block). *)
Definition dl_step (g : mtd_info) (operation index lpa pba : Z) (gs : list dl_group) : option (Z * list dl_group) :=
  let lba := lpa / nr_pgsinblk g in
  let at_lba ge := dlb_lba (fst ge) =? lba in
  if operation =? APPEND_OPERATION then
    if existsb at_lba gs then None else Some (0, gs ++ [group_new g lpa pba])
  else if operation =? INSERT_OPERATION then
    match arr_get gs index with
    | Some (h, es) =>
        if (dlb_lba h =? lba) && (dlb_used h <? nr_pgsinblk g)
        then Some (0, <[Z.to_nat index := group_write h es lpa]> gs) else None
    | None => None
    end
  else if operation =? DEL_OPERATION then
    match arr_get gs index with
    | Some _ => Some (0, take (Z.to_nat index) gs ++ drop (S (Z.to_nat index)) gs)
    | None => None
    end
  else if operation =? UPDATE_OPERATION then
    match list_find (fun ge : dl_group => dlb_lba ge.1 = lba) gs with
    | Some (n, (h, es)) => Some (dlb_used h, <[n := (dlb_set_pba pba h, es)]> gs)
    | None => Some (-1, gs)
    end
  else Some (-1, gs).

(** The arrays have room for the operation: another block (the deletion moves
    the entry behind the last one, too) and another page. *)
Definition dl_room (operation : Z) (d : dl_ram) : bool :=
  if operation =? APPEND_OPERATION then (dl_blkcnt d <? DL_MAX_BLOCKS) && (dl_pgcnt d <? DL_MAX_PAGES)
  else if operation =? INSERT_OPERATION then dl_pgcnt d <? DL_MAX_PAGES
  else if operation =? DEL_OPERATION then dl_blkcnt d <? DL_MAX_BLOCKS
  else true.

Section Updates.
Context (g : mtd_info).
Implicit Types (d : dl_ram) (gs : list dl_group).

(** The element behind the last one is read. *)
Lemma arr_move_up_out {A} m : forall (l : list A) i k, (0 < m)%nat -> arr_len l <= i + Z.of_nat m - 1 + k ->
  arr_move_up_n m l i k = None.
Proof.
  induction m as [|m IH]; intros l i k Hm Hl; [lia|]. cbn [arr_move_up_n].
  destruct (decide (m = 0%nat)) as [->|Hm0]; [rewrite arr_get_out by lia; done|].
  destruct (arr_get l (i + k)) as [x|]; [|done]. cbn. destruct (arr_set l i x) as [l'|] eqn:E; [|done].
  cbn. apply arr_set_len in E. apply IH; lia.
Qed.

Lemma dl_append_full d index lpa pba : arr_len (dl_blocktab d) = DL_MAX_BLOCKS -> dl_blkcnt d = DL_MAX_BLOCKS ->
  nftl_update_dl_ram g APPEND_OPERATION index lpa pba d = Crash OutOfBounds.
Proof.
  intros Hl Hb. unfold nftl_update_dl_ram, dl_append. cbn. unfold bind at 1, gets, id, bind at 1, dl_set_block, bind at 1, gets, id.
  unfold arr_set. by rewrite Hl, Hb, andb_false_r.
Qed.

Lemma dl_delete_full d gs1 h es gs2 lpa pba : dl_ok g d (gs1 ++ (h, es) :: gs2) -> dl_blkcnt d = DL_MAX_BLOCKS ->
  nftl_update_dl_ram g DEL_OPERATION (arr_len gs1) lpa pba d = Crash OutOfBounds.
Proof.
  intros Hok Hb. pose proof (dk_rep _ _ _ Hok) as Hrep. pose proof (dl_ok_pgcnt _ _ _ Hok) as Hpc.
  pose proof (dl_mid_range g _ _ _ _ _ Hok) as Hr.
  unfold nftl_update_dl_ram, dl_delete. cbn. unfold bind at 1, gets, id.
  rewrite (log_rep_offset _ _ _ _ _ _ _ u16 (2 ^ 16) Hrep) by (try apply u16_id; unfold DL_MAX_PAGES in Hpc; lia).
  cbn [assert_some]. unfold bind at 1, ret at 1, bind at 1. rewrite (dl_block_run _ _ _ (log_rep_hdr _ _ _ _ _ _ _ _ _ Hrep)).
  destruct (arr_move_up (dl_transtab d) _ _ _); [|done]. cbn [assert_some]. unfold bind at 1, ret at 1, bind at 1, modify at 1.
  unfold arr_move_up. rewrite arr_move_up_out by (rewrite ?(dk_blen _ _ _ Hok); lia). done.
Qed.

Lemma at_lba_in gs lba : existsb (fun ge : dl_group => dlb_lba (fst ge) =? lba) gs = false ->
  lba ∉ map (fun ge : dl_group => dlb_lba ge.1) gs.
Proof.
  intros H Hin. apply list_elem_of_In, in_map_iff in Hin as (ge & <- & Hin).
  apply not_true_iff_false in H. apply H, existsb_exists. exists ge. split; [done|apply Z.eqb_refl].
Qed.

Lemma dl_update_miss d gs index lpa pba : dl_ok g d gs -> in_u16 (lpa / nr_pgsinblk g) ->
  Forall (fun ge : dl_group => dlb_lba ge.1 <> lpa / nr_pgsinblk g) gs ->
  nftl_update_dl_ram g UPDATE_OPERATION index lpa pba d = Done (-1) d.
Proof.
  intros Hok Hl Hn. unfold nftl_update_dl_ram, dl_update. cbn. unfold bind at 1, gets, id, bind at 1.
  rewrite for_range_miss; [done|]. intros i Hi. destruct (dl_block_at g d gs i Hok Hi) as (h & es & Hg & Hb).
  unfold bind at 1. rewrite Hb, u16_id by done. rewrite Forall_arr in Hn. specialize (Hn _ _ Hg). cbn in Hn.
  by apply Z.eqb_neq in Hn as ->.
Qed.

(** C17. [nftl_update_dl_ram] refines the reference: on a table that stands for
    a list of log blocks, each of the four operations, with arguments the
    table can take, answers what the reference answers and leaves a table that
    stands for its result, as long as the arrays have room; it writes or reads
    behind [dl_blocktab] when that is full. *)
Theorem update_dl_ram_refines d gs operation index lpa pba e gs' :
  dl_ok g d gs -> in_u32 lpa -> in_u16 (lpa / nr_pgsinblk g) -> in_u16 pba ->
  dl_step g operation index lpa pba gs = Some (e, gs') ->
  (dl_room operation d = true ->
     exists d', nftl_update_dl_ram g operation index lpa pba d = Done e d' /\ dl_ok g d' gs') /\
  (dl_blkcnt d = DL_MAX_BLOCKS -> operation = APPEND_OPERATION \/ operation = DEL_OPERATION ->
     nftl_update_dl_ram g operation index lpa pba d = Crash OutOfBounds).
Proof.
  intros Hok Hl Hlba Hp Hs. unfold dl_step, dl_room in *.
  destruct (Z.eqb_spec operation APPEND_OPERATION) as [->|Ha].
  { destruct (existsb _ gs) eqn:Ex; [done|]. injection Hs as <- <-. split; [|intros Hb _; by apply dl_append_full; [apply Hok|]].
    intros [Hb Hpg]%andb_true_iff. zbool. apply nftl_update_dl_ram_append; (done || by apply at_lba_in). }
  destruct (Z.eqb_spec operation INSERT_OPERATION) as [->|Hi].
  { split; [|by intros _ [?|?]]. intros Hpg. zbool. destruct (arr_get gs index) as [[h es]|] eqn:Eg; [|done].
    destruct (_ && _) eqn:Ec; [|done]. apply andb_true_iff in Ec as [Hh Hu]. zbool. injection Hs as <- <-.
    destruct (arr_get_split _ _ _ Eg) as (gs1 & gs2 & -> & -> & ->). rewrite insert_app_r_alt, Nat.sub_diag by lia. cbn [insert list_insert].
    by apply nftl_update_dl_ram_insert. }
  destruct (Z.eqb_spec operation DEL_OPERATION) as [->|Hd].
  { destruct (arr_get gs index) as [[h es]|] eqn:Eg; [|done]. injection Hs as <- <-.
    destruct (arr_get_split _ _ _ Eg) as (gs1 & gs2 & -> & -> & ->).
    rewrite take_app_length, (drop_app_ge gs1 _ (S (length gs1))), Nat.sub_succ_l, Nat.sub_diag by lia. cbn [drop]. split.
    - intros Hb. zbool. by apply nftl_update_dl_ram_delete with (h := h) (es := es).
    - intros Hb _. by apply dl_delete_full with (h := h) (es := es) (gs2 := gs2). }
  split; [|by intros _ [?|?]]. intros _. destruct (Z.eqb_spec operation UPDATE_OPERATION) as [->|Hu].
  - destruct (list_find _ gs) as [[n [h es]]|] eqn:Ef.
    + injection Hs as <- <-. apply list_find_Some in Ef as (Hn & Hh & _). cbn in Hh.
      rewrite <- (take_drop_middle gs n _ Hn) in Hok |- *. rewrite insert_app_r_alt; [|rewrite length_take; lia].
      rewrite length_take, Nat.min_l, Nat.sub_diag by (pose proof (lookup_lt_Some _ _ _ Hn); lia). cbn.
      apply (nftl_update_dl_ram_update g _ _ _ _ _ index); [exact Hok|by symmetry|done].
    + injection Hs as <- <-. apply list_find_None in Ef. exists d. split; [|done]. by eapply dl_update_miss.
  - injection Hs as <- <-. exists d. split; [|done]. unfold nftl_update_dl_ram.
    by rewrite !(proj2 (Z.eqb_neq _ _)) by done.
Qed.
End Updates.

(** ** Witnesses *)

Lemma update_dl_ram_refines_witness :
  (exists d', nftl_update_dl_ram dl_geo INSERT_OPERATION 0 2 0 dl_ex = Done 0 d' /\
    dl_ok dl_geo d' [(MkDlb 0 10 4 3, [MkDlt 2 1; MkDlt 1 3; MkDlt 3 2]); (MkDlb 2 11 1 1, [MkDlt 0 8])]) /\
  (exists d', nftl_update_dl_ram dl_geo DEL_OPERATION 0 0 0 dl_ex = Done 0 d' /\ dl_ok dl_geo d' (drop 1 dl_gs)).
Proof.
  split.
  - apply (update_dl_ram_refines dl_geo dl_ex dl_gs INSERT_OPERATION 0 2 0 0);
      [exact dl_ex_ok|vm_compute; intuition congruence..|vm_compute; reflexivity|vm_compute; reflexivity].
  - apply (update_dl_ram_refines dl_geo dl_ex dl_gs DEL_OPERATION 0 0 0 0);
      [exact dl_ex_ok|vm_compute; intuition congruence..|vm_compute; reflexivity|vm_compute; reflexivity].
Defined.

Lemma find_lpa_equiv_witness :
  nftl_find_lpa_in_dl dl_geo 1 dl_ex = Done (dl_find_ref dl_geo dl_ex 1) dl_ex /\
  dl_find_ref dl_geo dl_ex 1 = Some (10, 2) /\ dl_find_ref dl_geo dl_ex 2 = None.
Proof.
  split_and!; [apply (find_lpa_equiv dl_geo dl_ex dl_gs); [exact dl_ex_ok|vm_compute; intuition congruence]
              |vm_compute; reflexivity..].
Defined.
