(* ===== verification/MtdDev.v ===== *)
(** * The MTD interface and the accesses of NFTL to it

    [BSP/oss/nftl/nftlmount.c] reaches the NAND chip through the function
    pointers of [struct mtd_info] and allocates buffers with [kmalloc]; none
    of these is code of this repository's NFTL.  The class [World] is that
    interface: its instances supply the driver's operations on a state [W] of
    their own, the allocator's answers and the unspecified contents of
    uninitialised automatic storage.  [mtd_read], [mtd_write] and [mtd_erase]
    are the wrappers of the source over it.  [NandLaws] states the documented
    behaviour of a NAND chip behind the interface; [MtdSim] is a concrete
    chip that has it. *)

From Stdlib Require Import ZArith Lia.
From stdpp Require Import base numbers list gmap.
From S2P Require Import Prelude CMonad NftlTypes.

(** What a read operation hands back: the result, [retlen] and [oobretlen],
    the bytes it stored in the data and oob buffers, and the number of bit
    errors it added to [ecc_stats.corrected]. *)
Record read_res := MkRead {
  rr_res : Z; rr_retlen : Z; rr_oobretlen : Z;
  rr_data : list Z; rr_oob : list Z; rr_corrected : Z }.
Record write_res := MkWrite { wr_res : Z; wr_retlen : Z; wr_oobretlen : Z }.

Class World (W : Type) := {
  (** [mtd->read(from, len)] *)
  wd_read : Z -> Z -> W -> read_res * W;
  (** [mtd->read_oob(from, ops)] in mode MTD_OOB_AUTO: [ops.len] when
      [ops.datbuf] is set, [ops.ooblen] *)
  wd_read_oob : Z -> option Z -> Z -> W -> read_res * W;
  (** [mtd->write_oob(to, ops)] with [ops.len] bytes of data and [ops.ooblen]
      bytes of oob *)
  wd_write_oob : Z -> list Z -> list Z -> W -> write_res * W;
  (** [mtd->erase]: whether [instr.state] ends as MTD_ERASE_FAILED *)
  wd_erase : Z -> Z -> W -> bool * W;
  wd_markbad : Z -> W -> Z * W;
  wd_isbad : Z -> W -> Z * W;
  wd_kmalloc : Z -> W -> option (list Z) * W;
  (** contents of an uninitialised automatic object of that many bytes *)
  wd_stack : Z -> W -> list Z * W
}.

Definition NAND_MAX_PAGESIZE : Z := 4096.
Definition NAND_MAX_OOBSIZE : Z := 256.
(** [sizeof(block_info)] *)
Definition BLOCK_INFO_SIZE : Z := 5 + 2 * (NAND_MAX_OOBSIZE - 5).

(** The driver's state and [mtd->ecc_stats.corrected]. *)
Record flash (W : Type) := MkFlash { fl_world : W; fl_corrected : Z }.
Arguments MkFlash {_} _ _. Arguments fl_world {_} _. Arguments fl_corrected {_} _.

(** [memset(buf, v, n)] *)
Definition memset (buf : list Z) (v n : Z) : option (list Z) :=
  if arr_len buf <? n then None else Some (replicate (Z.to_nat n) v ++ drop (Z.to_nat n) buf).

(** Storing the bytes [new] at the start of a buffer. *)
Definition blit (new old : list Z) : list Z := new ++ drop (length new) old.

(** What was stored is read back. *)
Lemma take_blit (src dst : list Z) (n : Z) :
  arr_len src = n -> take (Z.to_nat n) (blit src dst) = src.
Proof.
  intros <-. unfold blit, arr_len. rewrite Nat2Z.id. by rewrite take_app_length.
Qed.

(** What [mtd_read] returns and leaves behind: the result, [*retlen] and the
    contents of the two buffers. *)
Record mtd_result := MkRes { r_ret : Z; r_retlen : Z; r_buf : list Z; r_oob : list Z }.

Section Access.
Context {W : Type} `{World W} (g : mtd_info).

Definition world_op {A} (f : W -> A * W) : M (flash W) A :=
  let! s := gets id in
  let (a, w) := f (fl_world s) in
  modify (fun s => MkFlash w (fl_corrected s)) ;; ret a.
Definition set_corrected (c : Z) : M (flash W) unit :=
  modify (fun s => MkFlash (fl_world s) c).

Definition kmalloc (n : Z) : M (flash W) (option (list Z)) := world_op (wd_kmalloc n).
Definition stack (n : Z) : M (flash W) (list Z) := world_op (wd_stack n).
Definition block_markbad (ofs : Z) : M (flash W) Z := world_op (wd_markbad ofs).
Definition block_isbad (ofs : Z) : M (flash W) Z := world_op (wd_isbad ofs).

(** The driver accesses [n] bytes of the buffer. *)
Definition require_room (n : Z) (buf : list Z) : M (flash W) unit :=
  if arr_len buf <? n then crash OutOfBounds else ret tt.

(** [loff_t offs = block * mtd->erasesize + page * mtd->writesize], computed
    in 32 bits, and its alignment. *)
Definition page_offs (block page : Z) : Z :=
  u32 (u32 (block * erasesize g) + u32 (page * writesize g)).
Definition page_align (offs : Z) : Z := Z.land offs (u32 (Z.lnot (writesize g - 1))).

Definition mtd_read (block page : Z) (buf oob : option (list Z)) (nr_page : Z)
    : M (flash W) mtd_result :=
  let offs := page_offs block page in
  let len := u32 (writesize g * nr_page) in
  set_corrected 0 ;;
  match buf, oob with
  | None, _ =>
      require_room (oobsize g) (default [] oob) ;;
      let! r := world_op (wd_read_oob (page_align offs) None (oobsize g)) in
      set_corrected (u32 (rr_corrected r)) ;;
      ret (MkRes (rr_res r) (rr_oobretlen r) [] (blit (rr_oob r) (default [] oob)))
  | Some b, None =>
      require_room len b ;;
      let! r := world_op (wd_read offs len) in
      set_corrected (u32 (rr_corrected r)) ;;
      ret (MkRes (rr_res r) (rr_retlen r) (blit (rr_data r) b) [])
  | Some b, Some o =>
      require_room len b ;;
      require_room (oobsize g) o ;;
      let! r := world_op (wd_read_oob (page_align offs) (Some len) (oobsize g)) in
      set_corrected (u32 (rr_corrected r)) ;;
      ret (MkRes (rr_res r) (u32 (rr_retlen r + rr_oobretlen r + 2))
             (blit (rr_data r) b) (blit (rr_oob r) o))
  end.

(** The result and [*retlen].  The driver reads [ops.len] and [ops.ooblen]
    bytes of the buffers. *)
Definition mtd_write (block page : Z) (buf oob : list Z) (nr_page : Z) : M (flash W) (Z * Z) :=
  let offs := page_offs block page in
  let len := u32 (writesize g * nr_page) in
  require_room len buf ;;
  require_room (oobsize g) oob ;;
  let! r := world_op (wd_write_oob (page_align offs) (take (Z.to_nat len) buf)
                        (take (Z.to_nat (oobsize g)) oob)) in
  ret (wr_res r, u32 (wr_retlen r + wr_oobretlen r)).

Definition mtd_erase (block : Z) : M (flash W) Z :=
  let addr := u32 (block * erasesize g) in
  if addr >? u32 (nr_blks g * erasesize g) then ret (-1)
  else
    let! failed := world_op (wd_erase addr (erasesize g)) in
    if (failed : bool) then ret (-1) else ret 0.
End Access.
