(* ===== verification/NftlState.v ===== *)
(** * NFTL: the module's global state

    One record with a field per group of globals of
    [BSP/oss/nftl/nftlmount.c]; each component's operations run on their own
    part of it. *)

From Stdlib Require Import ZArith.
From stdpp Require Import base numbers list.
From S2P Require Import Prelude CMonad NftlTypes NftlAlloc NftlDl NftlMtl MtdDev.

(** [gt_pbas], [gt_pgcnt], [gar_pbas], [gar_blkcnt] *)
Record gar_ram := MkGar {
  gt_pbas : list Z; gt_pgcnt : Z; gar_pbas : list Z; gar_blkcnt : Z }.
Definition with_gt_pbas v r := MkGar v (gt_pgcnt r) (gar_pbas r) (gar_blkcnt r).
Definition with_gt_pgcnt v r := MkGar (gt_pbas r) v (gar_pbas r) (gar_blkcnt r).
Definition with_gar_pbas v r := MkGar (gt_pbas r) (gt_pgcnt r) v (gar_blkcnt r).
Definition with_gar_blkcnt v r := MkGar (gt_pbas r) (gt_pgcnt r) (gar_pbas r) v.

(** The cached mapping-table page. *)
Record mt_cache := MkCache { mt_cacheblock : Z; mt_cachepage : Z; mt_readcache : list Z }.

Record nftl (W : Type) := MkNftl {
  n_flash : flash W;
  n_alloc : alloc;
  n_gar : gar_ram;
  n_mt : mt_ram;
  n_cache : mt_cache;
  n_dl : dl_ram;
  n_maxlp : Z;            (* logparam.maxlp *)
  n_badblkcnt : Z;        (* g_badblkcnt *)
  n_storagesize : Z       (* g_storagesize *)
}.
Arguments MkNftl {_}. Arguments n_flash {_}. Arguments n_alloc {_}. Arguments n_gar {_}.
Arguments n_mt {_}. Arguments n_cache {_}. Arguments n_dl {_}. Arguments n_maxlp {_}.
Arguments n_badblkcnt {_}. Arguments n_storagesize {_}.

Section Zooms.
Context {W : Type}.
Definition with_flash (v : flash W) (s : nftl W) : nftl W :=
  MkNftl v (n_alloc s) (n_gar s) (n_mt s) (n_cache s) (n_dl s) (n_maxlp s) (n_badblkcnt s) (n_storagesize s).
Definition with_alloc (v : alloc) (s : nftl W) : nftl W :=
  MkNftl (n_flash s) v (n_gar s) (n_mt s) (n_cache s) (n_dl s) (n_maxlp s) (n_badblkcnt s) (n_storagesize s).
Definition with_gar (v : gar_ram) (s : nftl W) : nftl W :=
  MkNftl (n_flash s) (n_alloc s) v (n_mt s) (n_cache s) (n_dl s) (n_maxlp s) (n_badblkcnt s) (n_storagesize s).
Definition with_mt (v : mt_ram) (s : nftl W) : nftl W :=
  MkNftl (n_flash s) (n_alloc s) (n_gar s) v (n_cache s) (n_dl s) (n_maxlp s) (n_badblkcnt s) (n_storagesize s).
Definition with_cache (v : mt_cache) (s : nftl W) : nftl W :=
  MkNftl (n_flash s) (n_alloc s) (n_gar s) (n_mt s) v (n_dl s) (n_maxlp s) (n_badblkcnt s) (n_storagesize s).
Definition with_dl (v : dl_ram) (s : nftl W) : nftl W :=
  MkNftl (n_flash s) (n_alloc s) (n_gar s) (n_mt s) (n_cache s) v (n_maxlp s) (n_badblkcnt s) (n_storagesize s).
Definition with_maxlp (v : Z) (s : nftl W) : nftl W :=
  MkNftl (n_flash s) (n_alloc s) (n_gar s) (n_mt s) (n_cache s) (n_dl s) v (n_badblkcnt s) (n_storagesize s).
Definition with_badblkcnt (v : Z) (s : nftl W) : nftl W :=
  MkNftl (n_flash s) (n_alloc s) (n_gar s) (n_mt s) (n_cache s) (n_dl s) (n_maxlp s) v (n_storagesize s).
Definition with_storagesize (v : Z) (s : nftl W) : nftl W :=
  MkNftl (n_flash s) (n_alloc s) (n_gar s) (n_mt s) (n_cache s) (n_dl s) (n_maxlp s) (n_badblkcnt s) v.

Definition onF {A} : M (flash W) A -> M (nftl W) A := zoom n_flash with_flash.
Definition onA {A} : M alloc A -> M (nftl W) A := zoom n_alloc with_alloc.
Definition onG {A} : M gar_ram A -> M (nftl W) A := zoom n_gar with_gar.
Definition onM {A} : M mt_ram A -> M (nftl W) A := zoom n_mt with_mt.
Definition onC {A} : M mt_cache A -> M (nftl W) A := zoom n_cache with_cache.
Definition onD {A} : M dl_ram A -> M (nftl W) A := zoom n_dl with_dl.
End Zooms.
