(* ===== verification/MtdSim.v ===== *)
(** * A concrete NAND chip behind the MTD interface

    An instance of [World]: pages in a finite map, erase by block, programming
    that can only clear bits, with lists of page offsets at which programming
    or reading fails and a number of corrected bits every read reports.  It is
    the chip on which the witnesses run. *)

From Stdlib Require Import ZArith Lia.
From stdpp Require Import base numbers list gmap.
From S2P Require Import Prelude CMonad NftlTypes NftlAlloc NftlDl NftlMtl MtdDev NftlState.

Record chip := MkChip {
  ch_pages : gmap Z (list Z * list Z);   (* by byte offset; absent = erased *)
  ch_bad : list Z;                       (* offsets of blocks marked bad *)
  ch_wfail : list Z;                     (* offsets at which programming fails *)
  ch_rfail : list Z;                     (* offsets at which reading fails *)
  ch_corr : Z                            (* corrected bits of every read *)
}.
Definition with_pages v c := MkChip v (ch_bad c) (ch_wfail c) (ch_rfail c) (ch_corr c).

Definition zmem (x : Z) (l : list Z) : bool := existsb (Z.eqb x) l.

Section Chip.
Context (g : mtd_info).

Definition erased_page : list Z * list Z :=
  (replicate (Z.to_nat (writesize g)) 0xff, replicate (Z.to_nat (oobsize g)) 0xff).
Definition chip_page (c : chip) (ofs : Z) : list Z * list Z :=
  default erased_page (ch_pages c !! ofs).

Definition chip_read (data oob : bool) (ofs : Z) (c : chip) : read_res :=
  if zmem ofs (ch_rfail c) then MkRead (-5) 0 0 [] [] 0
  else
    let p := chip_page c ofs in
    MkRead 0 (if data then writesize g else 0) (if oob then oobsize g else 0)
      (if data then fst p else []) (if oob then snd p else []) (ch_corr c).

Definition chip_program (ofs : Z) (data oob : list Z) (c : chip) : chip :=
  let p := match ch_pages c !! ofs with
           | None => (data, oob)
           | Some p => (zip_with Z.land (fst p) data, zip_with Z.land (snd p) oob)
           end in
  with_pages (<[ofs := p]> (ch_pages c)) c.

#[local] Instance chip_world : World chip := {
  wd_read ofs len c := (chip_read true false ofs c, c);
  wd_read_oob ofs len n c := (chip_read (if len then true else false) true ofs c, c);
  wd_write_oob ofs data oob c :=
    if zmem ofs (ch_wfail c) then (MkWrite (-5) 0 0, c)
    else (MkWrite 0 (writesize g) (oobsize g), chip_program ofs data oob c);
  wd_erase addr len c :=
    (false, with_pages (filter (fun p => ~ (addr <= p.1 < addr + len)) (ch_pages c)) c);
  wd_markbad ofs c :=
    (0, MkChip (ch_pages c) (ofs :: ch_bad c) (ch_wfail c) (ch_rfail c) (ch_corr c));
  wd_isbad ofs c := (if zmem ofs (ch_bad c) then 1 else 0, c);
  wd_kmalloc n c := (Some (replicate (Z.to_nat n) 0xa5), c);
  wd_stack n c := (replicate (Z.to_nat n) 0x5a, c)
}.

(** The module's state when it is loaded: every global is zero except the
    cache key. *)
Definition initial (c : chip) : nftl chip :=
  MkNftl (MkFlash c 0) (MkAlloc (replicate 4096 0) 0 0)
    (MkGar (replicate (Z.to_nat GT_MAX_BLOCKS) 0) 0 (replicate (Z.to_nat GARBAGE_MAX_CNT) 0) 0)
    (MkMt (replicate (Z.to_nat MT_MAX_BLOCKS) 0) 0
       (replicate (Z.to_nat MTL_MAX_BLOCKS) (MkMtb 0 0 0 0)) 0
       (replicate (Z.to_nat MTL_MAX_PAGES) (MkMtt 0 0)) 0)
    (MkCache 0xffff 0xff (replicate (Z.to_nat NAND_MAX_PAGESIZE) 0))
    (MkDl (replicate (Z.to_nat DL_MAX_BLOCKS) (MkDlb 0 0 0 0)) 0
       (replicate (Z.to_nat DL_MAX_PAGES) (MkDlt 0 0)) 0)
    0 0 0.
End Chip.

Definition blank_chip : chip := MkChip ∅ [] [] [] 0.

(** A small chip: 64 blocks of 4 pages of 32 bytes. *)
Definition small_geo : mtd_info := MkMtd (64 * 128) 128 32 8.
