(* ===== verification/NandLaws.v ===== *)
(** * The NAND chip behind the MTD interface

    [NandLaws] states the documented behaviour of a NAND chip under the
    operations of [World]: reads hand back the page, programming an erased
    page stores it, erasing empties a block, and an operation that reports an
    error has touched nothing but its own page or block.  The predicates
    [nd_good] and [nd_wgood] add working order: reads, respectively
    programming and erasing, do not fail.  The lemmas carry these laws
    over to [mtd_read], [mtd_write] and [mtd_erase]. *)

From Stdlib Require Import ZArith Lia.
From stdpp Require Import base numbers list.
From S2P Require Import Prelude CMonad NftlTypes NftlAlloc MtdDev.

(** The chips NFTL is configured for. *)
Record nand_geo (g : mtd_info) : Prop := {
  ng_ws : exists k, 2 <= k <= 12 /\ writesize g = 2 ^ k;
  ng_es : erasesize g = nr_pgsinblk g * writesize g;
  ng_pgs : 0 < nr_pgsinblk g <= MAX_PAGES_IN_BLOCK;
  ng_blks : 0 < nr_blks g < BLOCKSTATUS_LEN;
  ng_size : nr_blks g * erasesize g < 2 ^ 32;
  ng_oob : 5 <= oobsize g <= NAND_MAX_OOBSIZE
}.

Section Addresses.
Context (g : mtd_info).

Definition on_chip (b p : Z) : Prop := 0 <= b < nr_blks g /\ 0 <= p < nr_pgsinblk g.
Definition page_addr (b p : Z) : Z := b * erasesize g + p * writesize g.

Hypothesis geo : nand_geo g.

Lemma ng_ws_range : 4 <= writesize g <= 4096.
Proof.
  destruct (ng_ws g geo) as (k & Hk & ->).
  pose proof (Z.pow_le_mono_r 2 2 k ltac:(lia) ltac:(lia)) as H1.
  pose proof (Z.pow_le_mono_r 2 k 12 ltac:(lia) ltac:(lia)) as H2. cbn in H1, H2. lia.
Qed.

Lemma page_addr_range b p : on_chip b p -> 0 <= page_addr b p < 2 ^ 32.
Proof.
  intros [Hb Hp]. pose proof (ng_es g geo) as He. pose proof (ng_size g geo) as Hs.
  pose proof ng_ws_range as Hw.
  assert (Ha : page_addr b p = (b * nr_pgsinblk g + p) * writesize g) by (unfold page_addr; rewrite He; lia).
  assert (H1 : b * nr_pgsinblk g + p + 1 <= nr_blks g * nr_pgsinblk g) by nia.
  apply (Z.mul_le_mono_nonneg_r _ _ (writesize g)) in H1; [|lia].
  rewrite Ha. rewrite He in Hs. split; [nia|lia].
Qed.

Lemma page_offs_addr b p : on_chip b p -> page_offs g b p = page_addr b p.
Proof.
  intros Hc. pose proof (page_addr_range b p Hc) as Hr. destruct Hc as [Hb Hp].
  pose proof (ng_es g geo) as He. pose proof ng_ws_range. unfold page_offs, page_addr in *.
  assert (0 <= b * erasesize g) by (apply Z.mul_nonneg_nonneg; [lia|rewrite He; nia]). assert (0 <= p * writesize g) by nia.
  rewrite (u32_id (b * _)), (u32_id (p * _)) by (unfold in_u32; lia). apply u32_id, Hr.
Qed.

Lemma page_align_addr b p : on_chip b p -> page_align g (page_addr b p) = page_addr b p.
Proof.
  intros Hc. pose proof (page_addr_range b p Hc) as Hr.
  destruct (ng_ws g geo) as (k & Hk & Hw). pose proof (ng_es g geo) as He.
  assert (Ha : page_addr b p = Z.shiftl (b * nr_pgsinblk g + p) k).
  { rewrite Z.shiftl_mul_pow2 by lia. unfold page_addr. rewrite He, Hw. lia. }
  unfold page_align. rewrite Hw.
  assert (Hm : u32 (Z.lnot (2 ^ k - 1)) = Z.shiftl (Z.ones (32 - k)) k).
  { rewrite Z.shiftl_mul_pow2, Z.ones_equiv by lia.
    assert (Hp : 2 ^ 32 = 2 ^ (32 - k) * 2 ^ k) by (rewrite <- Z.pow_add_r by lia; f_equal; lia).
    pose proof (Z.pow_pos_nonneg 2 k). pose proof (Z.pow_pos_nonneg 2 (32 - k)).
    unfold Z.lnot, u32. symmetry. apply Z.mod_unique_pos with (q := -1); nia. }
  rewrite Hm, Ha, <- Z.shiftl_land, Z.land_ones by lia. f_equal. apply Z.mod_small.
  rewrite Ha, Z.shiftl_mul_pow2 in Hr by lia.
  assert (Hp : 2 ^ 32 = 2 ^ (32 - k) * 2 ^ k) by (rewrite <- Z.pow_add_r by lia; f_equal; lia).
  pose proof (Z.pow_pos_nonneg 2 k). split; nia.
Qed.

Lemma block_addr b : 0 <= b < nr_blks g -> u32 (b * erasesize g) = b * erasesize g.
Proof.
  intros Hb.
  apply u32_id. pose proof (page_addr_range b 0) as H. pose proof (ng_pgs g geo).
  unfold page_addr, in_u32, on_chip in *. lia.
Qed.
End Addresses.

Class NandLaws (W : Type) `{World W} (g : mtd_info) := {
  nd_inv : W -> Prop;
  (** Reads and allocations succeed. *)
  nd_good : W -> Prop;
  (** Programming and erasing succeed. *)
  nd_wgood : W -> Prop;
  (** Data and spare bytes of a page. *)
  nd_page : W -> Z -> Z -> list Z * list Z;
  nd_erased : W -> Z -> Z -> Prop;

  nd_len : forall w b p, nd_inv w -> on_chip g b p ->
    arr_len (fst (nd_page w b p)) = writesize g /\ arr_len (snd (nd_page w b p)) = oobsize g;
  nd_erased_page : forall w b p, nd_inv w -> on_chip g b p -> nd_erased w b p ->
    nd_page w b p = (replicate (Z.to_nat (writesize g)) 0xff, replicate (Z.to_nat (oobsize g)) 0xff);

  nd_read : forall w b p, nd_inv w -> on_chip g b p ->
    let (r, w') := wd_read (page_addr g b p) (writesize g) w in
    nd_inv w' /\ nd_page w' = nd_page w /\ nd_erased w' = nd_erased w /\
    arr_len (rr_data r) <= writesize g /\
    (rr_res r = 0 -> rr_data r = fst (nd_page w b p) /\ rr_retlen r = writesize g) /\
    (nd_good w -> nd_good w' /\ rr_res r = 0 /\ 0 <= rr_corrected r <= ECC_ERR_LIMIT) /\
    (nd_wgood w -> nd_wgood w');
  nd_read_oob : forall w b p len, nd_inv w -> on_chip g b p ->
    len = None \/ len = Some (writesize g) ->
    let (r, w') := wd_read_oob (page_addr g b p) len (oobsize g) w in
    nd_inv w' /\ nd_page w' = nd_page w /\ nd_erased w' = nd_erased w /\
    arr_len (rr_data r) <= writesize g /\ arr_len (rr_oob r) <= oobsize g /\
    (rr_res r = 0 -> rr_oob r = snd (nd_page w b p) /\ rr_oobretlen r = oobsize g /\
       (len <> None -> rr_data r = fst (nd_page w b p) /\ rr_retlen r = writesize g)) /\
    (nd_good w -> nd_good w' /\ rr_res r = 0 /\ 0 <= rr_corrected r <= ECC_ERR_LIMIT) /\
    (nd_wgood w -> nd_wgood w');
  nd_write : forall w b p data oob, nd_inv w -> on_chip g b p ->
    arr_len data = writesize g -> arr_len oob = oobsize g ->
    let (r, w') := wd_write_oob (page_addr g b p) data oob w in
    nd_inv w' /\
    (forall b' p', on_chip g b' p' -> (b', p') <> (b, p) ->
       nd_page w' b' p' = nd_page w b' p' /\ (nd_erased w' b' p' <-> nd_erased w b' p')) /\
    (nd_erased w b p -> wr_res r = 0 ->
       nd_page w' b p = (data, oob) /\ wr_retlen r = writesize g /\ wr_oobretlen r = oobsize g) /\
    (nd_good w -> nd_good w') /\ (nd_wgood w -> nd_wgood w' /\ wr_res r = 0);
  nd_erase : forall w b, nd_inv w -> 0 <= b < nr_blks g ->
    let (failed, w') := wd_erase (b * erasesize g) (erasesize g) w in
    nd_inv w' /\
    (forall b' p', on_chip g b' p' -> b' <> b ->
       nd_page w' b' p' = nd_page w b' p' /\ (nd_erased w' b' p' <-> nd_erased w b' p')) /\
    (failed = false -> forall p, on_chip g b p -> nd_erased w' b p) /\
    (nd_good w -> nd_good w') /\ (nd_wgood w -> nd_wgood w' /\ failed = false);
  nd_markbad : forall w ofs, nd_inv w ->
    let (_, w') := wd_markbad ofs w in
    nd_inv w' /\ nd_page w' = nd_page w /\ nd_erased w' = nd_erased w /\
    (nd_good w -> nd_good w') /\ (nd_wgood w -> nd_wgood w');
  nd_isbad : forall w ofs, nd_inv w ->
    let (_, w') := wd_isbad ofs w in
    nd_inv w' /\ nd_page w' = nd_page w /\ nd_erased w' = nd_erased w /\
    (nd_good w -> nd_good w') /\ (nd_wgood w -> nd_wgood w');
  nd_kmalloc : forall w n, nd_inv w -> 0 <= n ->
    let (m, w') := wd_kmalloc n w in
    nd_inv w' /\ nd_page w' = nd_page w /\ nd_erased w' = nd_erased w /\
    (forall b, m = Some b -> arr_len b = n) /\
    (nd_good w -> nd_good w' /\ m <> None) /\ (nd_wgood w -> nd_wgood w');
  nd_stack : forall w n, nd_inv w -> 0 <= n ->
    let (b, w') := wd_stack n w in
    nd_inv w' /\ nd_page w' = nd_page w /\ nd_erased w' = nd_erased w /\ arr_len b = n /\
    (nd_good w -> nd_good w') /\ (nd_wgood w -> nd_wgood w');

  (** Which blocks the driver reports bad; only marking changes it. *)
  nd_bad : W -> Z -> bool;
  nd_bad_isbad : forall w b, nd_inv w -> 0 <= b < nr_blks g ->
    truth (fst (wd_isbad (b * erasesize g) w)) = nd_bad w b;
  nd_bad_isbad_keep : forall w ofs, nd_inv w -> nd_bad (snd (wd_isbad ofs w)) = nd_bad w;
  nd_bad_read : forall w ofs len, nd_inv w -> nd_bad (snd (wd_read ofs len w)) = nd_bad w;
  nd_bad_read_oob : forall w ofs len n, nd_inv w -> nd_bad (snd (wd_read_oob ofs len n w)) = nd_bad w;
  nd_bad_write : forall w ofs data oob, nd_inv w -> nd_bad (snd (wd_write_oob ofs data oob w)) = nd_bad w;
  nd_bad_erase : forall w ofs len, nd_inv w -> nd_bad (snd (wd_erase ofs len w)) = nd_bad w;
  nd_bad_kmalloc : forall w n, nd_inv w -> nd_bad (snd (wd_kmalloc n w)) = nd_bad w;
  nd_bad_stack : forall w n, nd_inv w -> nd_bad (snd (wd_stack n w)) = nd_bad w
}.

(** ** The wrappers of the source on such a chip *)
Section Access.
Context {W : Type} {WW : World W} (g : mtd_info) {N : NandLaws W g}.
Hypothesis geo : nand_geo g.
Implicit Types (s : flash W) (b p : Z).

(** The page contents are as before; a block may have been marked bad. *)
Record marked (w w' : W) : Prop := {
  mk_inv : nd_inv w';
  mk_page : nd_page w' = nd_page w;
  mk_erased : nd_erased w' = nd_erased w;
  mk_good : nd_good w -> nd_good w';
  mk_wgood : nd_wgood w -> nd_wgood w'
}.
(** The page contents and the bad blocks are as before. *)
Record same_pages (w w' : W) : Prop := {
  sp_inv : nd_inv w';
  sp_page : nd_page w' = nd_page w;
  sp_erased : nd_erased w' = nd_erased w;
  sp_good : nd_good w -> nd_good w';
  sp_wgood : nd_wgood w -> nd_wgood w';
  sp_bad : nd_bad w' = nd_bad w
}.

Lemma same_pages_refl w : nd_inv w -> same_pages w w.
Proof. by split. Qed.
Lemma same_pages_trans w1 w2 w3 : same_pages w1 w2 -> same_pages w2 w3 -> same_pages w1 w3.
Proof. intros [? ? ? ? ? ?] [? ? ? ? ? ?]. split; [done|congruence|congruence|auto|auto|congruence]. Qed.

(** Only page [(b, p)] may differ. *)
Record only_page (w w' : W) b p : Prop := {
  op_inv : nd_inv w';
  op_page : forall b' p', on_chip g b' p' -> (b', p') <> (b, p) -> nd_page w' b' p' = nd_page w b' p';
  op_erased : forall b' p', on_chip g b' p' -> (b', p') <> (b, p) ->
    nd_erased w' b' p' <-> nd_erased w b' p';
  op_good : nd_good w -> nd_good w';
  op_wgood : nd_wgood w -> nd_wgood w';
  op_bad : nd_bad w' = nd_bad w
}.

(** Only block [b] may differ. *)
Record only_block (w w' : W) b : Prop := {
  ob_inv : nd_inv w';
  ob_page : forall b' p', on_chip g b' p' -> b' <> b -> nd_page w' b' p' = nd_page w b' p';
  ob_erased : forall b' p', on_chip g b' p' -> b' <> b ->
    nd_erased w' b' p' <-> nd_erased w b' p';
  ob_good : nd_good w -> nd_good w';
  ob_wgood : nd_wgood w -> nd_wgood w';
  ob_bad : nd_bad w' = nd_bad w
}.

Lemma only_page_block w w' b p : only_page w w' b p -> only_block w w' b.
Proof. intros [H1 H2 H3 H4 H5 H6].
  split; [done|intros; apply H2; [done|congruence]|intros; apply H3; [done|congruence]|done|done|done]. Qed.
Lemma same_only_block w w' b : same_pages w w' -> only_block w w' b.
Proof. intros [H1 H2 H3 H4 H5 H6]. split; [done|by rewrite H2|by rewrite H3|done|done|done]. Qed.
Lemma only_block_trans w1 w2 w3 b : only_block w1 w2 b -> only_block w2 w3 b -> only_block w1 w3 b.
Proof.
  intros [? H2 H3 ? ? ?] [? H5 H6 ? ? ?]. split; [done| | |auto|auto|congruence].
  - intros b' p' Hc Hb. by rewrite H5, H2.
  - intros b' p' Hc Hb. by rewrite H6, H3.
Qed.

Lemma ws_u32 : u32 (writesize g * 1) = writesize g.
Proof. pose proof (ng_ws_range g geo). rewrite Z.mul_1_r. apply u32_id. unfold in_u32. lia. Qed.

Lemma require_room_run n buf s : n <= arr_len buf -> require_room n buf s = Done tt s.
Proof. intros H. unfold require_room. destruct (arr_len buf <? n) eqn:E; zbool; [lia|done]. Qed.

Lemma arr_len_blit new old : arr_len new <= arr_len old -> arr_len (blit new old) = arr_len old.
Proof. unfold blit, arr_len. rewrite length_app, length_drop. lia. Qed.

Lemma corrected_small c : 0 <= c <= ECC_ERR_LIMIT -> u32 c <= ECC_ERR_LIMIT.
Proof. unfold ECC_ERR_LIMIT. intros H. rewrite u32_id; [lia|unfold in_u32; lia]. Qed.

(** Reading the data of a page. *)
Lemma mtd_read_data_run b p buf s :
  nd_inv (fl_world s) -> on_chip g b p -> writesize g <= arr_len buf ->
  exists r s', mtd_read g b p (Some buf) None 1 s = Done r s' /\
    same_pages (fl_world s) (fl_world s') /\ arr_len (r_buf r) = arr_len buf /\
    (r_ret r = 0 -> r_buf r = blit (fst (nd_page (fl_world s) b p)) buf) /\
    (nd_good (fl_world s) -> r_ret r = 0 /\ fl_corrected s' <= ECC_ERR_LIMIT).
Proof.
  intros Hi Hc Hb. pose proof (nd_read (fl_world s) b p Hi Hc) as Hr.
  unfold mtd_read. rewrite page_offs_addr, ws_u32 by done.
  unfold set_corrected, bind, modify. rewrite require_room_run by done.
  unfold world_op, bind, gets, id. cbn [fl_world].
  pose proof (nd_bad_read (fl_world s) (page_addr g b p) (writesize g) Hi) as Hbad.
  destruct (wd_read _ _ _) as [r w']. destruct Hr as (Hi' & Hp & He & Hl & Hok & Hgood & Hwg).
  unfold modify, bind, ret. do 2 eexists. split; [reflexivity|]. cbn. split_and!.
  - split; [done..| |done|done]. intros Hg. apply Hgood, Hg.
  - apply arr_len_blit. lia.
  - intros E. by destruct (Hok E) as [-> _].
  - intros Hg. destruct (Hgood Hg) as (_ & ? & ?). split; [done|by apply corrected_small].
Qed.

(** Reading data and spare bytes. *)
Lemma mtd_read_both_run b p buf oob s :
  nd_inv (fl_world s) -> on_chip g b p -> writesize g <= arr_len buf -> oobsize g <= arr_len oob ->
  exists r s', mtd_read g b p (Some buf) (Some oob) 1 s = Done r s' /\
    same_pages (fl_world s) (fl_world s') /\
    arr_len (r_buf r) = arr_len buf /\ arr_len (r_oob r) = arr_len oob /\
    (r_ret r = 0 -> r_buf r = blit (fst (nd_page (fl_world s) b p)) buf /\
                    r_oob r = blit (snd (nd_page (fl_world s) b p)) oob) /\
    (nd_good (fl_world s) -> r_ret r = 0 /\ fl_corrected s' <= ECC_ERR_LIMIT).
Proof.
  intros Hi Hc Hb Ho.
  pose proof (nd_read_oob (fl_world s) b p (Some (writesize g)) Hi Hc (or_intror eq_refl)) as Hr.
  unfold mtd_read. rewrite page_offs_addr, page_align_addr, ws_u32 by done.
  unfold set_corrected, bind, modify. rewrite !require_room_run by done.
  unfold world_op, bind, gets, id. cbn [fl_world].
  pose proof (nd_bad_read_oob (fl_world s) (page_addr g b p) (Some (writesize g)) (oobsize g) Hi) as Hbad.
  destruct (wd_read_oob _ _ _ _) as [r w']. destruct Hr as (Hi' & Hp & He & Hl & Hlo & Hok & Hgood & Hwg).
  unfold modify, bind, ret. do 2 eexists. split; [reflexivity|]. cbn. split_and!.
  - split; [done..| |done|done]. intros Hg. apply Hgood, Hg.
  - apply arr_len_blit. lia.
  - apply arr_len_blit. lia.
  - intros E. destruct (Hok E) as (-> & _ & Hd). by destruct (Hd ltac:(done)) as [-> _].
  - intros Hg. destruct (Hgood Hg) as (_ & ? & ?). split; [done|by apply corrected_small].
Qed.

(** Reading the spare bytes only. *)
Lemma mtd_read_spare_run b p oob s :
  nd_inv (fl_world s) -> on_chip g b p -> oobsize g <= arr_len oob ->
  exists r s', mtd_read g b p None (Some oob) 1 s = Done r s' /\
    same_pages (fl_world s) (fl_world s') /\ arr_len (r_oob r) = arr_len oob /\
    (r_ret r = 0 -> r_oob r = blit (snd (nd_page (fl_world s) b p)) oob /\ r_retlen r = oobsize g) /\
    (nd_good (fl_world s) -> r_ret r = 0).
Proof.
  intros Hi Hc Ho.
  pose proof (nd_read_oob (fl_world s) b p None Hi Hc (or_introl eq_refl)) as Hr.
  unfold mtd_read. rewrite page_offs_addr, page_align_addr by done.
  unfold set_corrected, bind, modify. cbn [default]. rewrite require_room_run by done.
  unfold world_op, bind, gets, id. cbn [fl_world].
  pose proof (nd_bad_read_oob (fl_world s) (page_addr g b p) None (oobsize g) Hi) as Hbad.
  destruct (wd_read_oob _ _ _ _) as [r w']. destruct Hr as (Hi' & Hp & He & _ & Hlo & Hok & Hgood & Hwg).
  unfold modify, bind, ret. do 2 eexists. split; [reflexivity|]. cbn. split_and!.
  - split; [done..| |done|done]. intros Hg. apply Hgood, Hg.
  - apply arr_len_blit. lia.
  - intros E. by destruct (Hok E) as (-> & -> & _).
  - intros Hg. by destruct (Hgood Hg) as (_ & ? & _).
Qed.

Lemma arr_len_take_le (l : list Z) n : 0 <= n <= arr_len l -> arr_len (take (Z.to_nat n) l) = n.
Proof. unfold arr_len. rewrite length_take. lia. Qed.

(** Programming a page. *)
Lemma mtd_write_run b p buf oob s :
  nd_inv (fl_world s) -> on_chip g b p -> writesize g <= arr_len buf -> oobsize g <= arr_len oob ->
  exists r n s', mtd_write g b p buf oob 1 s = Done (r, n) s' /\
    only_page (fl_world s) (fl_world s') b p /\
    (nd_erased (fl_world s) b p -> r = 0 ->
       nd_page (fl_world s') b p = (take (Z.to_nat (writesize g)) buf, take (Z.to_nat (oobsize g)) oob) /\
       n = u32 (writesize g + oobsize g)) /\
    (nd_wgood (fl_world s) -> r = 0).
Proof.
  intros Hi Hc Hb Ho. pose proof (ng_ws_range g geo). pose proof (ng_oob g geo).
  pose proof (nd_write (fl_world s) b p _ _ Hi Hc (arr_len_take_le buf (writesize g) ltac:(lia))
                (arr_len_take_le oob (oobsize g) ltac:(lia))) as Hw.
  unfold mtd_write. rewrite page_offs_addr, page_align_addr, ws_u32 by done.
  unfold bind. rewrite !require_room_run by done.
  unfold world_op, bind, gets, id.
  pose proof (nd_bad_write (fl_world s) (page_addr g b p) (take (Z.to_nat (writesize g)) buf)
                (take (Z.to_nat (oobsize g)) oob) Hi) as Hbad.
  destruct (wd_write_oob _ _ _ _) as [r w'].
  destruct Hw as (Hi' & Hf & Hok & Hgood & Hwg).
  unfold modify, bind, ret. do 3 eexists. split; [reflexivity|]. cbn. split_and!.
  - split; [done|intros; by apply Hf|intros; by apply Hf|done|intros; by apply Hwg|done].
  - intros He E. by destruct (Hok He E) as (-> & -> & ->).
  - intros Hg. by apply Hwg.
Qed.

(** Erasing a block. *)
Lemma mtd_erase_run b s :
  nd_inv (fl_world s) -> 0 <= b < nr_blks g ->
  exists e s', mtd_erase g b s = Done e s' /\ only_block (fl_world s) (fl_world s') b /\
    (e = 0 \/ e = -1) /\
    (e = 0 -> forall p, on_chip g b p -> nd_erased (fl_world s') b p) /\
    (nd_wgood (fl_world s) -> e = 0).
Proof.
  intros Hi Hb. pose proof (nd_erase (fl_world s) b Hi Hb) as He.
  pose proof (ng_size g geo). pose proof (ng_es g geo). pose proof (ng_ws_range g geo).
  pose proof (ng_pgs g geo). assert (Hes : 0 < erasesize g) by nia.
  unfold mtd_erase. rewrite block_addr by done.
  rewrite (u32_id (nr_blks g * _)) by (unfold in_u32; nia).
  destruct (b * erasesize g >? nr_blks g * erasesize g) eqn:E; zbool; [nia|].
  unfold world_op, bind, gets, id.
  pose proof (nd_bad_erase (fl_world s) (b * erasesize g) (erasesize g) Hi) as Hbad.
  destruct (wd_erase _ _ _) as [failed w'].
  destruct He as (Hi' & Hf & Hok & Hgood & Hwg). unfold modify, bind, ret.
  destruct failed; do 2 eexists; (split; [reflexivity|]); cbn; split_and!.
  - split; [done|intros; by apply Hf|intros; by apply Hf|done|intros; by apply Hwg|done].
  - by right.
  - done.
  - intros Hg. by destruct (Hwg Hg).
  - split; [done|intros; by apply Hf|intros; by apply Hf|done|intros; by apply Hwg|done].
  - by left.
  - intros _. by apply Hok.
  - done.
Qed.

(** The operations that leave the pages alone. *)
Lemma kmalloc_run n s : nd_inv (fl_world s) -> 0 <= n ->
  exists m s', kmalloc n s = Done m s' /\ same_pages (fl_world s) (fl_world s') /\
    fl_corrected s' = fl_corrected s /\ (forall l, m = Some l -> arr_len l = n) /\
    (nd_good (fl_world s) -> m <> None).
Proof.
  intros Hi Hn. pose proof (nd_kmalloc (fl_world s) n Hi Hn) as Hk.
  unfold kmalloc, world_op, bind, gets, id. pose proof (nd_bad_kmalloc (fl_world s) n Hi) as Hbad.
  destruct (wd_kmalloc _ _) as [m w'].
  destruct Hk as (? & ? & ? & ? & Hg & Hwg). do 2 eexists. split; [reflexivity|]. cbn.
  split_and!; [split; [done..| |done|done]|done|done|]; intros Hgd; by apply Hg.
Qed.
Lemma stack_run n s : nd_inv (fl_world s) -> 0 <= n ->
  exists l s', stack n s = Done l s' /\ same_pages (fl_world s) (fl_world s') /\
    fl_corrected s' = fl_corrected s /\ arr_len l = n.
Proof.
  intros Hi Hn. pose proof (nd_stack (fl_world s) n Hi Hn) as Hk.
  unfold stack, world_op, bind, gets, id. pose proof (nd_bad_stack (fl_world s) n Hi) as Hbad.
  destruct (wd_stack _ _) as [m w'].
  destruct Hk as (? & ? & ? & ? & Hg & Hwg). do 2 eexists. split; [reflexivity|]. by split_and!.
Qed.
Lemma block_markbad_run ofs s : nd_inv (fl_world s) ->
  exists r s', block_markbad ofs s = Done r s' /\ marked (fl_world s) (fl_world s').
Proof.
  intros Hi. pose proof (nd_markbad (fl_world s) ofs Hi) as Hk.
  unfold block_markbad, world_op, bind, gets, id. destruct (wd_markbad _ _) as [m w'].
  destruct Hk as (? & ? & ? & Hg & Hwg). do 2 eexists. split; [reflexivity|]. by split.
Qed.
Lemma block_isbad_run ofs s : nd_inv (fl_world s) ->
  exists r s', block_isbad ofs s = Done r s' /\ same_pages (fl_world s) (fl_world s').
Proof.
  intros Hi. pose proof (nd_isbad (fl_world s) ofs Hi) as Hk.
  unfold block_isbad, world_op, bind, gets, id. pose proof (nd_bad_isbad_keep (fl_world s) ofs Hi) as Hbad.
  destruct (wd_isbad _ _) as [m w'].
  destruct Hk as (? & ? & ? & Hg & Hwg). do 2 eexists. split; [reflexivity|]. by split.
Qed.

(** Only reads count corrected bit errors. *)
Lemma world_op_corrected {A} (op : W -> A * W) s a s' :
  world_op op s = Done a s' -> fl_corrected s' = fl_corrected s.
Proof.
  unfold world_op, bind, gets, id. destruct (op (fl_world s)) as [x w]. cbn. intros H. by inversion H.
Qed.
Lemma mtd_write_corrected b p buf oob n s r s' :
  mtd_write g b p buf oob n s = Done r s' -> fl_corrected s' = fl_corrected s.
Proof.
  unfold mtd_write, require_room, world_op, bind, gets, modify, ret, crash, id. intros H.
  repeat case_match; simplify_eq; done.
Qed.
Lemma mtd_erase_corrected b s r s' :
  mtd_erase g b s = Done r s' -> fl_corrected s' = fl_corrected s.
Proof.
  unfold mtd_erase, world_op, bind, gets, modify, ret, id. intros H.
  repeat case_match; simplify_eq; done.
Qed.
End Access.
