(* ===== verification/ChipLaws.v ===== *)
(** * The simulated chip is a NAND chip

    The instance of [NandLaws] for the chip of [MtdSim], so that every theorem
    proved from the laws can be evaluated. *)

From Stdlib Require Import ZArith Lia.
From stdpp Require Import base numbers list gmap.
From S2P Require Import Prelude CMonad NftlTypes NftlAlloc MtdDev NftlState MtdSim NandLaws.

Section Laws.
Context (g : mtd_info).
Hypothesis geo : nand_geo g.

Definition page_len (p : list Z * list Z) : Prop :=
  arr_len (fst p) = writesize g /\ arr_len (snd p) = oobsize g.
Definition chip_inv (c : chip) : Prop := map_Forall (fun _ p => page_len p) (ch_pages c).
Definition chip_good (c : chip) : Prop :=
  ch_rfail c = [] /\ 0 <= ch_corr c <= ECC_ERR_LIMIT.
Definition chip_wgood (c : chip) : Prop := ch_wfail c = [].

Lemma erased_page_len : page_len (erased_page g).
Proof.
  pose proof (ng_ws_range g geo). pose proof (ng_oob g geo).
  unfold page_len, erased_page, arr_len. cbn. rewrite !length_replicate. lia.
Qed.

Lemma chip_page_len c ofs : chip_inv c -> page_len (chip_page g c ofs).
Proof.
  intros Hi. unfold chip_page. destruct (ch_pages c !! ofs) eqn:E; cbn; [|apply erased_page_len].
  by eapply Hi.
Qed.

Lemma page_addr_inj b p b' p' :
  on_chip g b p -> on_chip g b' p' -> page_addr g b p = page_addr g b' p' -> (b', p') = (b, p).
Proof.
  intros [Hb Hp] [Hb' Hp'] E. pose proof (ng_es g geo) as He. pose proof (ng_ws_range g geo).
  unfold page_addr in E. rewrite He in E.
  assert (E1 : (b * nr_pgsinblk g + p) * writesize g = (b' * nr_pgsinblk g + p') * writesize g) by lia.
  apply Z.mul_reg_r in E1; [|lia]. assert (b = b') by nia. subst. f_equal. lia.
Qed.

Lemma page_addr_block b p b' : on_chip g b p -> 0 <= b' < nr_blks g ->
  (b' * erasesize g <= page_addr g b p < b' * erasesize g + erasesize g) <-> b' = b.
Proof.
  intros [Hb Hp] Hb'. pose proof (ng_es g geo) as He. pose proof (ng_ws_range g geo).
  unfold page_addr. assert (0 <= p * writesize g) by nia.
  assert (p * writesize g + writesize g <= erasesize g) by (rewrite He; nia). split; [nia|].
  intros ->. lia.
Qed.

Lemma chip_read_spec data oob ofs c :
  chip_inv c ->
  let r := chip_read g data oob ofs c in
  arr_len (rr_data r) <= writesize g /\ arr_len (rr_oob r) <= oobsize g /\
  (rr_res r = 0 -> (data = true -> rr_data r = fst (chip_page g c ofs) /\ rr_retlen r = writesize g) /\
     (oob = true -> rr_oob r = snd (chip_page g c ofs) /\ rr_oobretlen r = oobsize g)) /\
  (chip_good c -> rr_res r = 0 /\ 0 <= rr_corrected r <= ECC_ERR_LIMIT).
Proof.
  intros Hi. pose proof (chip_page_len c ofs Hi) as [Hl1 Hl2].
  pose proof (ng_ws_range g geo). pose proof (ng_oob g geo).
  unfold chip_read. destruct (zmem ofs (ch_rfail c)) eqn:E; cbn [rr_data rr_oob rr_res rr_corrected rr_retlen rr_oobretlen].
  - change (arr_len (@nil Z)) with 0. split_and!; [lia|lia|done|]. intros (Hr & _). by rewrite Hr in E.
  - split_and!; [destruct data; change (arr_len (@nil Z)) with 0; lia|destruct oob; change (arr_len (@nil Z)) with 0; lia| |].
    + intros _. split; intros ->; done.
    + intros (_ & Hc). done.
Qed.

Lemma program_inv ofs data oob c :
  chip_inv c -> arr_len data = writesize g -> arr_len oob = oobsize g ->
  chip_inv (chip_program ofs data oob c).
Proof.
  intros Hi Hd Ho. unfold chip_inv, chip_program. cbn. apply map_Forall_insert_2; [|done].
  destruct (ch_pages c !! ofs) as [[d o]|] eqn:E; [|by split].
  destruct (Hi _ _ E) as [H1 H2]. unfold page_len, arr_len in *. cbn in *.
  rewrite !length_zip_with. lia.
Qed.

#[export] Instance chip_laws : @NandLaws chip (chip_world g) g.
Proof.
  refine {| nd_inv := chip_inv; nd_good := chip_good; nd_wgood := chip_wgood;
            nd_page := fun c b p => chip_page g c (page_addr g b p);
            nd_erased := fun c b p => ch_pages c !! page_addr g b p = None;
            nd_bad := fun c b => zmem (b * erasesize g) (ch_bad c) |}.
  - intros c b p Hi Hc. apply chip_page_len, Hi.
  - intros c b p Hi Hc E. unfold chip_page. by rewrite E.
  - intros c b p Hi Hc. cbn.
    destruct (chip_read_spec true false (page_addr g b p) c Hi) as (H1 & _ & H2 & H3).
    split_and!; try done.
    + intros E. destruct (H2 E) as [H4 _]. by apply H4.
    + intros Hg. destruct (H3 Hg) as (? & ? & ?). by split_and!.
  - intros c b p len Hi Hc Hlen. cbn.
    destruct (chip_read_spec (if len then true else false) true (page_addr g b p) c Hi) as (H1 & H0 & H2 & H3).
    split_and!; try done.
    + intros E. destruct (H2 E) as [H4 H5]. destruct (H5 eq_refl). split_and!; [done|done|].
      intros Hne. apply H4. by destruct len.
    + intros Hg. destruct (H3 Hg) as (? & ? & ?). by split_and!.
  - intros c b p data oob Hi Hc Hd Ho. cbn.
    destruct (zmem (page_addr g b p) (ch_wfail c)) eqn:E.
    + split_and!; [done|by split|done|done|]. intros Hw. by rewrite Hw in E.
    + split_and!; [by apply program_inv| | |done|done].
      * intros b' p' Hc' Hne. unfold chip_page, chip_program. cbn.
        rewrite lookup_insert_ne; [done|]. intros E'. by apply Hne, page_addr_inj.
      * intros He _. unfold chip_page, chip_program. cbn. rewrite He. by rewrite lookup_insert_eq.
  - intros c b Hi Hb. cbn. split_and!.
    + intros i x Hx. cbn in Hx. apply map_lookup_filter_Some in Hx as [Hx _]. by eapply Hi.
    + intros b' p' Hc Hne. unfold chip_page. cbn.
      assert (Hk : forall x, ~ (b * erasesize g <= (page_addr g b' p', x : list Z * list Z).1
                           < b * erasesize g + erasesize g)).
      { intros x Hx. apply (page_addr_block b' p' b Hc Hb) in Hx. congruence. }
      rewrite map_lookup_filter. destruct (ch_pages c !! page_addr g b' p') as [x|] eqn:E; cbn; [|done].
      rewrite option_guard_True by apply (Hk x). done.
    + intros _ p Hc. cbn. apply map_lookup_filter_None. right. intros x Hx Hn. apply Hn. cbn.
      by apply (page_addr_block b p b).
    + done.
    + intros Hg. by split.
  - intros c ofs Hi. cbn. by split_and!.
  - intros c ofs Hi. cbn. by split_and!.
  - intros c n Hi Hn. cbn. split_and!; try done. intros b [= <-]. unfold arr_len.
    rewrite length_replicate. lia.
  - intros c n Hi Hn. cbn. split_and!; try done. unfold arr_len. rewrite length_replicate. lia.
  - intros c b Hi Hb. cbn. by destruct (zmem _ _).
  - done.
  - done.
  - done.
  - intros c ofs data oob Hi. cbn. by destruct (zmem _ _).
  - done.
  - done.
  - done.
Defined.
End Laws.

Lemma small_geo_ok : nand_geo small_geo.
Proof. split; try (vm_compute; intuition congruence). by exists 5. Qed.
