(* ===== verification/NftlFlash.v ===== *)
(** * NFTL: moving pages between blocks and recovering from write errors

    [nftl_erase_error], [nftl_block_replace], [nftl_write_error],
    [nftl_copyback] and [nftl_copyback_error] of
    [BSP/oss/nftl/nftlmount.c]. *)

From Stdlib Require Import ZArith Lia.
From stdpp Require Import base numbers list.
From S2P Require Import Prelude CMonad NftlTypes NftlAlloc MtdDev NftlState.

Section Operations.
Context {W : Type} `{World W} (g : mtd_info).

Definition nftl_erase_error (block : Z) : M (nftl W) Z :=
  onA (nftl_set_block_bad g block) ;;
  onF (block_markbad (u32 (block * erasesize g))).

(** One page of [nftl_block_replace]; the two buffers live across the
    iterations.  The result of the read is overwritten by the write's. *)
Definition block_replace_page (src_blk dst_blk i : Z) (bufs : list Z * list Z * Z)
    : M (nftl W) (list Z * list Z * Z + Z) :=
  let '(databuff, sparebuff, _) := bufs in
  let! r := onF (mtd_read g src_blk i (Some databuff) (Some sparebuff) 1) in
  let! w := onF (mtd_write g dst_blk i (r_buf r) (r_oob r) 1) in
  if truth (fst w) then ret (inr (fst w))
  else ret (inl (r_buf r, r_oob r, fst w)).

Definition nftl_block_replace (src_blk dst_blk pagecnt : Z) : M (nftl W) Z :=
  let! sparebuff := onF (stack NAND_MAX_OOBSIZE) in
  let! m := onF (kmalloc NAND_MAX_PAGESIZE) in
  match m with
  | None => ret 0
  | Some databuff =>
      let! r := for_local 0 pagecnt (databuff, sparebuff, 0)
                  (block_replace_page src_blk dst_blk) in
      match r with inr e => ret e | inl (_, _, e) => ret e end
  end.

(** Marking the backup block bad and going round again. *)
Definition discard_backup (backup_block : Z) : M (nftl W) (option Z) :=
  onF (block_markbad (u32 (backup_block * erasesize g))) ;;
  onA (nftl_set_block_bad g backup_block) ;;
  ret None.
Definition accept_backup (bad_block backup_block : Z) : M (nftl W) (option Z) :=
  onF (block_markbad (u32 (bad_block * erasesize g))) ;;
  onA (nftl_set_block_bad g bad_block) ;;
  ret (Some backup_block).

(** Every [goto] takes one more block from the free table, so this many
    rounds are enough. *)
Definition RETRY_FUEL : nat := 4097.

Definition write_error_round (block page : Z) (data spare : list Z) (nr_page : Z)
    : M (nftl W) (option Z) :=
  let! backup_block := onA (nftl_get_free_block g) in
  if backup_block =? 0xffff then ret (Some 0xffff)
  else
    let! e := nftl_block_replace block backup_block page in
    if truth e then discard_backup backup_block
    else
      let! w := onF (mtd_write g backup_block page data spare nr_page) in
      if (fst w =? 0) && (snd w =? u32 (writesize g + oobsize g))
      then accept_backup block backup_block
      else discard_backup backup_block.
Definition nftl_write_error (block page : Z) (data spare : list Z) (nr_page : Z) : M (nftl W) Z :=
  retry RETRY_FUEL (write_error_round block page data spare nr_page).

(** The [memset] covers [sizeof(temp_data)], the size of a pointer. *)
Definition SIZEOF_PTR : Z := 4.
Definition nftl_copyback (src_blk src_pg dst_blk dst_pg : Z) (dst_blk_type : block_state)
    : M (nftl W) Z :=
  let! blkinfo := onF (stack BLOCK_INFO_SIZE) in
  let! m := onF (kmalloc NAND_MAX_PAGESIZE) in
  match m with
  | None => ret EIO
  | Some temp_data =>
      let! temp_data := assert_some OutOfBounds (memset temp_data 0xff SIZEOF_PTR) in
      let! r := onF (mtd_read g src_blk src_pg (Some temp_data) (Some blkinfo) 1) in
      if truth (r_ret r) then ret EIO
      else
        let blkinfo :=
          if bool_decide (dst_blk_type <> FREE_BLOCK)
          then set_blocktype (block_state_code dst_blk_type) (r_oob r) else r_oob r in
        let! w := onF (mtd_write g dst_blk dst_pg (r_buf r) blkinfo 1) in
        ret (fst w)
  end.

Definition copyback_error_round (src_blk src_pg dst_blk dst_pg : Z) (t : block_state)
    : M (nftl W) (option Z) :=
  let! backup_block := onA (nftl_get_free_block g) in
  if backup_block =? 0xFFFF then ret (Some backup_block)
  else
    let! e := nftl_block_replace dst_blk backup_block dst_pg in
    if truth e then discard_backup backup_block
    else
      let! copy_ok := nftl_copyback src_blk src_pg backup_block dst_pg t in
      if copy_ok =? 0 then accept_backup dst_blk backup_block
      else discard_backup backup_block.
Definition nftl_copyback_error (src_blk src_pg dst_blk dst_pg : Z) (t : block_state) : M (nftl W) Z :=
  retry RETRY_FUEL (copyback_error_round src_blk src_pg dst_blk dst_pg t).
End Operations.
