(* ===== verification/NftlFlashSpec.v ===== *)
(** * NFTL: moving pages and recovering from write errors, specified

    What [nftl_block_replace], [nftl_copyback] and [nftl_write_error] do to
    the pages of the chip, from the laws of [NandLaws]; and that the retry
    loops end. *)

From Stdlib Require Import ZArith Lia.
From stdpp Require Import base numbers list gmap.
From S2P Require Import Prelude CMonad NftlTypes NftlAlloc NftlDl NftlMtl MtdDev NftlState MtdSim.
From S2P Require Import NandLaws ChipLaws NftlFlash.

Section Flash.
Context {W : Type} {WW : World W} (g : mtd_info) {N : NandLaws W g}.
Hypothesis geo : nand_geo g.
Implicit Types (s : nftl W).

Definition world s : W := fl_world (n_flash s).

Lemma onF_run {A} (m : M (flash W) A) s a f :
  m (n_flash s) = Done a f -> onF m s = Done a (with_flash f s).
Proof. intros H. unfold onF, zoom. by rewrite H. Qed.
Lemma onA_run {A} (m : M alloc A) s a al :
  m (n_alloc s) = Done a al -> onA m s = Done a (with_alloc al s).
Proof. intros H. unfold onA, zoom. by rewrite H. Qed.
Lemma with_flash_twice f f' s : with_flash f (with_flash f' s) = with_flash f s.
Proof. done. Qed.

(** ** Copying pages *)
Definition bufs_ok (db sb : list Z) : Prop := writesize g <= arr_len db /\ oobsize g <= arr_len sb.

Lemma nd_page_len s b p : nd_inv (world s) -> on_chip g b p ->
  arr_len (fst (nd_page (world s) b p)) = writesize g /\ arr_len (snd (nd_page (world s) b p)) = oobsize g.
Proof. apply nd_len. Qed.

Lemma block_replace_page_run src dst i db sb e0 s :
  nd_inv (world s) -> on_chip g src i -> on_chip g dst i -> bufs_ok db sb ->
  exists r f, block_replace_page g src dst i (db, sb, e0) s = Done r (with_flash f s) /\
    only_page g (world s) (fl_world f) dst i /\
    match r with
    | inr e => e <> 0
    | inl (db', sb', e) => e = 0 /\ bufs_ok db' sb' /\
        (nd_good (world s) -> nd_erased (world s) dst i ->
         nd_page (fl_world f) dst i = nd_page (world s) src i)
    end /\
    (nd_wgood (world s) -> exists l, r = inl l).
Proof.
  intros Hi Hs Hd [Hb Ho]. unfold block_replace_page, bind at 1.
  destruct (mtd_read_both_run g geo src i db sb (n_flash s) Hi Hs Hb Ho)
    as (r & f1 & Hr & Hsame & Hl1 & Hl2 & Hdata & Hgood).
  rewrite (onF_run _ _ _ _ Hr). unfold bind at 1.
  destruct (mtd_write_run g geo dst i (r_buf r) (r_oob r) f1)
    as (e & n & f2 & Hw & Hop & Hok & Hwg); [apply Hsame|done|lia|lia|].
  rewrite (onF_run _ (with_flash f1 s) _ _ Hw). cbn [fst].
  assert (Honly : only_page g (world s) (fl_world f2) dst i).
  { destruct Hsame as [S1 S2 S3 S4 S5 S6], Hop as [O1 O2 O3 O4 O5 O6]. split; [done| | |auto|auto|by rewrite O6].
    - intros b' p' Hc Hne. by rewrite O2, S2.
    - intros b' p' Hc Hne. by rewrite O3, S3. }
  unfold truth. destruct (e =? 0) eqn:E; zbool; cbn [negb].
  - eexists (inl _), f2. split; [reflexivity|]. split_and!; try done; [split; lia| |by eexists].
    intros Hg He. rewrite (proj1 (Hok ltac:(by rewrite (sp_erased _ _ _ Hsame)) E)).
    destruct (Hdata (proj1 (Hgood Hg))) as [-> ->].
    destruct (nd_page_len s src i Hi Hs) as [L1 L2].
    change (nd_page (fl_world (n_flash s))) with (nd_page (world s)).
    rewrite !take_blit by done. by destruct (nd_page (world s) src i).
  - eexists (inr _), f2. split; [reflexivity|]. split_and!; try done.
    intros Hg. exfalso. apply E, Hwg. by apply (sp_wgood _ _ _ Hsame).
Qed.

(** The state of the destination after pages [lo .. hi-1] were copied. *)
Record copied (w w' : W) (src dst lo hi : Z) : Prop := {
  cp_block : only_block g w w' dst;
  cp_rest : forall p, on_chip g dst p -> ~ lo <= p < hi ->
    nd_page w' dst p = nd_page w dst p /\ (nd_erased w' dst p <-> nd_erased w dst p)
}.

Lemma copy_loop_run (n : nat) : forall i db sb s src dst,
  nd_inv (world s) -> 0 <= src < nr_blks g -> 0 <= dst < nr_blks g -> src <> dst ->
  0 <= i -> i + Z.of_nat n <= nr_pgsinblk g -> bufs_ok db sb ->
  exists r f, forL n i (db, sb, 0) (block_replace_page g src dst) s = Done r (with_flash f s) /\
    copied (world s) (fl_world f) src dst i (i + Z.of_nat n) /\
    match r with
    | inr e => e <> 0
    | inl (_, _, e) => e = 0 /\
        (nd_good (world s) -> (forall p, i <= p < i + Z.of_nat n -> nd_erased (world s) dst p) ->
         forall p, i <= p < i + Z.of_nat n -> nd_page (fl_world f) dst p = nd_page (world s) src p)
    end /\
    (nd_wgood (world s) -> exists l, r = inl l).
Proof.
  induction n as [|n IH]; intros i db sb s src dst Hi Hs Hd Hne H0 Hn Hb; cbn [forL].
  - exists (inl (db, sb, 0)), (n_flash s). split; [by destruct s|]. split_and!; [|done| |by eexists].
    + split; [|done]. by split.
    + intros _ _ p Hp. lia.
  - assert (Hcs : on_chip g src i) by (split; lia). assert (Hcd : on_chip g dst i) by (split; lia).
    destruct (block_replace_page_run src dst i db sb 0 s Hi Hcs Hcd Hb)
      as (r & f & H1 & Hop & Hr & Hwg). unfold bind at 1. rewrite H1.
    destruct r as [[[db' sb'] e]|e].
    + destruct Hr as (-> & Hb' & Hcopy).
      destruct (IH (i + 1) db' sb' (with_flash f s) src dst) as (r & f' & H2 & Hcp & Hr & Hwg');
        [apply Hop|done|done|done|lia|lia|done|].
      change (world (with_flash f s)) with (fl_world f) in *.
      exists r, f'. split; [exact H2|].
      replace (i + Z.of_nat (S n)) with (i + 1 + Z.of_nat n) by lia. split_and!.
      * destruct Hcp as [C1 C2]. split.
        -- eapply only_block_trans; [eapply only_page_block; exact Hop|exact C1].
        -- intros p Hc Hp. destruct (C2 p Hc ltac:(lia)) as [-> ->].
           split; [apply Hop|apply Hop]; (done || (intros [= ->]; lia)).
      * destruct r as [[[? ?] e]|e]; [|done]. destruct Hr as [-> Hr]. split; [done|].
        intros Hg He p Hp. destruct (decide (p = i)) as [->|Hpi].
        -- rewrite (proj1 (cp_rest _ _ _ _ _ _ Hcp i Hcd ltac:(lia))). apply Hcopy; [done|apply He; lia].
        -- rewrite Hr; [|by apply (op_good _ _ _ _ _ Hop)| |lia].
           ++ apply (op_page _ _ _ _ _ Hop); [split; lia|congruence].
           ++ intros q Hq. apply (op_erased _ _ _ _ _ Hop); [split; lia|intros [= ->]; lia|].
              apply He. lia.
      * intros Hg. apply Hwg'. by apply (op_wgood _ _ _ _ _ Hop).
    + exists (inr e), f. split; [reflexivity|]. split_and!; [|done|].
      * split; [by eapply only_page_block|]. intros p Hc Hp.
        split; [apply Hop|apply Hop]; (done || (intros [= ->]; lia)).
      * intros Hg. destruct (Hwg Hg) as [l Hl]. done.
Qed.

Lemma nftl_block_replace_run src dst cnt s :
  nd_inv (world s) -> 0 <= src < nr_blks g -> 0 <= dst < nr_blks g -> src <> dst ->
  0 <= cnt <= nr_pgsinblk g ->
  exists e f, nftl_block_replace g src dst cnt s = Done e (with_flash f s) /\
    copied (world s) (fl_world f) src dst 0 cnt /\
    (nd_good (world s) -> e = 0 -> (forall p, 0 <= p < cnt -> nd_erased (world s) dst p) ->
       forall p, 0 <= p < cnt -> nd_page (fl_world f) dst p = nd_page (world s) src p) /\
    (nd_wgood (world s) -> e = 0).
Proof.
  intros Hi Hs Hd Hne Hc. pose proof (ng_ws_range g geo). pose proof (ng_oob g geo).
  unfold nftl_block_replace, bind at 1.
  destruct (stack_run g NAND_MAX_OOBSIZE (n_flash s) Hi ltac:(done)) as (sb & f1 & H1 & S1 & _ & L1).
  rewrite (onF_run _ _ _ _ H1). unfold bind at 1.
  destruct (kmalloc_run g NAND_MAX_PAGESIZE f1 (sp_inv _ _ _ S1) ltac:(done))
    as (m & f2 & H2 & S2 & _ & L2 & G2).
  rewrite (onF_run _ (with_flash f1 s) _ _ H2). rewrite with_flash_twice.
  pose proof (same_pages_trans _ _ _ _ S1 S2) as S12. fold (world s) in S12.
  destruct m as [db|].
  2:{ exists 0, f2. split; [reflexivity|]. split_and!; [| |done].
      - split; [by apply same_only_block|]. intros p Hp _.
        by rewrite (sp_page _ _ _ S12), (sp_erased _ _ _ S12).
      - intros Hg. exfalso. apply G2; [|done]. by apply (sp_good _ _ _ S1). }
  specialize (L2 _ eq_refl). unfold bind at 1, for_local. rewrite Z.sub_0_r.
  destruct (copy_loop_run (Z.to_nat cnt) 0 db sb (with_flash f2 s) src dst)
    as (r & f & H3 & Hcp & Hr & Hwg);
    [apply S2|done|done|done|lia|lia|unfold bufs_ok, NAND_MAX_PAGESIZE, NAND_MAX_OOBSIZE in *; lia|].
  change (world (with_flash f2 s)) with (fl_world f2) in *. rewrite H3.
  rewrite Z2Nat.id, Z.add_0_l in * by lia.
  destruct Hcp as [C1 C2].
  assert (Hcp : copied (world s) (fl_world f) src dst 0 cnt).
  { split; [eapply only_block_trans; [by apply same_only_block|done]|].
    intros p Hp Hr'. destruct (C2 p Hp Hr') as [-> ->].
    by rewrite (sp_page _ _ _ S12), (sp_erased _ _ _ S12). }
  destruct r as [[[db' sb'] e]|e]; (eexists e, f; split; [reflexivity|]; split_and!; [done| |]).
  - destruct Hr as [-> Hr]. intros Hg _ He p Hp. rewrite Hr; [|by apply (sp_good _ _ _ S12)| |done].
    + by rewrite (sp_page _ _ _ S12).
    + intros q Hq. rewrite (sp_erased _ _ _ S12). by apply He.
  - by destruct Hr.
  - done.
  - intros Hg. destruct (Hwg ltac:(by apply (sp_wgood _ _ _ S12))) as [l Hl]. done.
Qed.

(** ** Recovery *)
Definition free_erased s : Prop :=
  forall b p, block_free (n_alloc s) b -> on_chip g b p -> nd_erased (world s) b p.

(** How far a recovery may have gone from [s0]: blocks were taken from the
    free table, and no block that was in use then, nor any block that is still
    free, was touched. *)
Record recovering (s0 s : nftl W) : Prop := {
  rc_state : s = with_alloc (n_alloc s) (with_flash (n_flash s) s0);
  rc_inv : nd_inv (world s);
  rc_good : nd_good (world s0) -> nd_good (world s);
  rc_alloc : alloc_wf g (n_alloc s);
  rc_free : forall b, block_free (n_alloc s) b -> block_free (n_alloc s0) b;
  rc_page : forall b p, on_chip g b p -> ~ block_free (n_alloc s0) b \/ block_free (n_alloc s) b ->
    nd_page (world s) b p = nd_page (world s0) b p /\
    (nd_erased (world s) b p <-> nd_erased (world s0) b p)
}.

Lemma recovering_refl s : nd_inv (world s) -> alloc_wf g (n_alloc s) -> recovering s s.
Proof. intros Hi Ha. split; try done. by destruct s. Qed.

(** A block was worked on; blocks may have been marked bad. *)
Record touched w w' b : Prop := {
  to_inv : nd_inv w';
  to_page : forall b' p', on_chip g b' p' -> b' <> b -> nd_page w' b' p' = nd_page w b' p';
  to_erased : forall b' p', on_chip g b' p' -> b' <> b -> nd_erased w' b' p' <-> nd_erased w b' p';
  to_good : nd_good w -> nd_good w'
}.
Lemma only_touched w w' b : only_block g w w' b -> touched w w' b.
Proof. intros H. split; apply H. Qed.
Lemma marked_touched w w' b : marked g w w' -> touched w w' b.
Proof. intros [H1 H2 H3 H4 H5]. split; [done|by rewrite H2|by rewrite H3|done]. Qed.

(** Working on a block just taken keeps the relation. *)
Lemma recovering_block s0 s b f a :
  recovering s0 s -> block_free (n_alloc s0) b ->
  touched (world s) (fl_world f) b -> alloc_wf g a ->
  (forall c, block_free a c -> c <> b /\ block_free (n_alloc s) c) ->
  recovering s0 (with_alloc a (with_flash f s)).
Proof.
  intros [R1 R2 R3 R4 R5 R6] Hb Ho Ha Hfree. split.
  - rewrite R1. by destruct s0.
  - apply Ho.
  - intros Hg. apply (to_good _ _ _ Ho). by apply R3.
  - done.
  - intros c Hc. apply R5. by apply Hfree.
  - intros c p Hc Hor. change (world (with_alloc a (with_flash f s))) with (fl_world f).
    assert (Hcb : c <> b) by (destruct Hor as [Hor|Hor]; [naive_solver|by apply Hfree]).
    rewrite (to_page _ _ _ Ho), (to_erased _ _ _ Ho) by done. apply R6; [done|].
    destruct Hor as [Hor|Hor]; [by left|right; by apply Hfree].
Qed.

Lemma block_markbad_same ofs s : nd_inv (world s) ->
  exists r f, onF (block_markbad ofs) s = Done r (with_flash f s) /\ marked g (world s) (fl_world f).
Proof.
  intros Hi. destruct (block_markbad_run g ofs (n_flash s) Hi) as (r & f & H & S).
  exists r, f. split; [by apply onF_run|done].
Qed.

(** Giving a block up: marked bad on the chip and in the table. *)
Lemma discard_backup_run s0 s b :
  recovering s0 s -> 0 <= b < nr_blks g -> block_free (n_alloc s0) b -> ~ block_free (n_alloc s) b ->
  exists s', discard_backup g b s = Done None s' /\ recovering s0 s' /\
    free_count (blockstatus (n_alloc s')) = free_count (blockstatus (n_alloc s)).
Proof.
  intros HR Hb Hf Hnf. unfold discard_backup, bind at 1.
  destruct (block_markbad_same (u32 (b * erasesize g)) s (rc_inv _ _ HR)) as (r & f & H1 & S1).
  rewrite H1. unfold bind at 1.
  destruct (set_bad_wf g (n_alloc s) b (rc_alloc _ _ HR) Hb Hnf) as (a' & H2 & Ha & Hfree & Hcnt).
  rewrite (onA_run _ (with_flash f s) _ _ H2). eexists. split; [reflexivity|]. split; [|exact Hcnt].
  eapply recovering_block; [done|exact Hf|by apply marked_touched|done|].
  intros c Hc. apply Hfree in Hc. split; [congruence|done].
Qed.

(** The recovery's outcome: page [pg] with its predecessors from [blk] is in
    the block handed back. *)
Definition recovered s0 s blk pg data oob b : Prop :=
  b = 0xffff \/
  (0 <= b < nr_blks g /\ block_free (n_alloc s0) b /\ ~ block_free (n_alloc s) b /\
   (free_erased s0 ->
      nd_page (world s) b pg = (take (Z.to_nat (writesize g)) data, take (Z.to_nat (oobsize g)) oob) /\
      (nd_good (world s0) -> forall p, 0 <= p < pg -> nd_page (world s) b p = nd_page (world s0) blk p) /\
      (forall p, on_chip g b p -> pg < p -> nd_erased (world s) b p))).

(** A backup block after the pages before [pg] were copied into it. *)
Record backup_ready (s0 s : nftl W) (blk pg b : Z) (e : Z) : Prop := {
  br_rec : recovering s0 s;
  br_range : 0 <= b < nr_blks g;
  br_free0 : block_free (n_alloc s0) b;
  br_taken : ~ block_free (n_alloc s) b;
  br_copied : free_erased s0 -> nd_good (world s0) -> e = 0 ->
    forall p, 0 <= p < pg -> nd_page (world s) b p = nd_page (world s0) blk p;
  br_rest : free_erased s0 -> forall p, on_chip g b p -> pg <= p -> nd_erased (world s) b p
}.

Lemma backup_replace_run s0 s blk pg b :
  recovering s0 s -> block_free (n_alloc s) b -> 0 <= b < nr_blks g ->
  0 <= blk < nr_blks g -> ~ block_free (n_alloc s0) blk -> 0 <= pg < nr_pgsinblk g ->
  exists e s', nftl_block_replace g blk b pg (with_alloc (take_block b (n_alloc s)) s) = Done e s' /\
    backup_ready s0 s' blk pg b e /\ n_alloc s' = take_block b (n_alloc s).
Proof.
  intros HR Hf Hb Hblk Hnf Hpg. set (s1 := with_alloc _ s).
  assert (Hf0 : block_free (n_alloc s0) b) by (by apply (rc_free _ _ HR)).
  assert (Hne : blk <> b) by congruence.
  destruct (nftl_block_replace_run blk b pg s1) as (e & f & H1 & Hcp & Hdata & _);
    [apply HR|done|done|done|lia|].
  change (world s1) with (world s) in *. pose proof (cp_block _ _ _ _ _ _ Hcp) as Hob.
  exists e, (with_flash f s1). split; [exact H1|]. split; [|done].
  assert (Hrec : recovering s0 (with_flash f s1)).
  { change (with_flash f s1) with (with_alloc (take_block b (n_alloc s)) (with_flash f s)).
    eapply recovering_block; [done|exact Hf0|by apply only_touched|apply take_block_wf; [apply HR|done]|].
    intros c Hc. by apply (take_block_free g _ b c (rc_alloc _ _ HR) Hb). }
  assert (Her : free_erased s0 -> forall p, on_chip g b p -> nd_erased (world s) b p).
  { intros He p Hp. apply (rc_page _ _ HR b p Hp); [by right|]. by apply He. }
  split; try done.
  - intros H. apply (take_block_free g _ b b (rc_alloc _ _ HR) Hb) in H as [H _]. done.
  - intros He Hg E p Hp. change (world (with_flash f s1)) with (fl_world f).
    rewrite Hdata; [|by apply HR|done| |done].
    + apply (rc_page _ _ HR); [split; lia|by left].
    + intros q Hq. apply Her; [done|split; lia].
  - intros He p Hp Hge. apply (cp_rest _ _ _ _ _ _ Hcp p Hp ltac:(lia)). by apply Her.
Qed.

Lemma accept_backup_run s0 s blk b :
  recovering s0 s -> 0 <= blk < nr_blks g -> ~ block_free (n_alloc s0) blk ->
  exists s', accept_backup g blk b s = Done (Some b) s' /\ recovering s0 s' /\
    nd_page (world s') = nd_page (world s) /\ nd_erased (world s') = nd_erased (world s) /\
    (forall c, block_free (n_alloc s') c <-> block_free (n_alloc s) c).
Proof.
  intros HR Hb Hnf. unfold accept_backup, bind at 1.
  destruct (block_markbad_same (u32 (blk * erasesize g)) s (rc_inv _ _ HR)) as (r & f & H1 & S1).
  rewrite H1. unfold bind at 1.
  destruct (set_bad_wf g (n_alloc s) blk (rc_alloc _ _ HR) Hb) as (a' & H2 & Ha & Hfree & _);
    [intros Hc; by apply Hnf, (rc_free _ _ HR)|].
  rewrite (onA_run _ (with_flash f s) _ _ H2). eexists. split; [reflexivity|].
  split_and!; [|apply S1|apply S1|exact Hfree]. destruct HR as [R1 R2 R3 R4 R5 R6]. split.
  - rewrite R1. by destruct s0.
  - apply S1.
  - intros Hg. apply (mk_good _ _ _ S1). by apply R3.
  - done.
  - intros c Hc. by apply R5, Hfree.
  - intros c p Hc Hor. change (world (with_alloc a' (with_flash f s))) with (fl_world f).
    rewrite (mk_page _ _ _ S1), (mk_erased _ _ _ S1). apply R6; [done|].
    destruct Hor as [?|?]; [by left|right; by apply Hfree].
Qed.

Lemma u32_lens : u32 (writesize g + oobsize g) = writesize g + oobsize g.
Proof.
  pose proof (ng_ws_range g geo). pose proof (ng_oob g geo). apply u32_id.
  unfold in_u32, NAND_MAX_OOBSIZE in *. lia.
Qed.

Lemma write_error_round_run s0 s blk pg data oob :
  recovering s0 s -> 0 <= blk < nr_blks g -> ~ block_free (n_alloc s0) blk ->
  0 <= pg < nr_pgsinblk g -> bufs_ok data oob ->
  exists r s', write_error_round g blk pg data oob 1 s = Done r s' /\ recovering s0 s' /\
    match r with
    | None => (free_count (blockstatus (n_alloc s')) < free_count (blockstatus (n_alloc s)))%nat
    | Some b => recovered s0 s' blk pg data oob b
    end.
Proof.
  intros HR Hblk Hnf Hpg [Hd Ho]. unfold write_error_round, bind at 1.
  destruct (get_free_wf g (n_alloc s) (rc_alloc _ _ HR)) as [H1|(b & Hf & Hb & H1)];
    rewrite (onA_run _ _ _ _ H1).
  { rewrite Z.eqb_refl. eexists (Some _), _. split; [reflexivity|].
    replace (with_alloc (n_alloc s) s) with s by (by destruct s). split; [done|by left]. }
  assert (Hff : (b =? 0xffff) = false).
  { apply Z.eqb_neq. pose proof (ng_blks g geo). unfold BLOCKSTATUS_LEN in *. lia. }
  rewrite Hff. unfold bind at 1.
  destruct (backup_replace_run s0 s blk pg b HR Hf Hb Hblk Hnf Hpg) as (e & s2 & H2 & Hbr & Ha2).
  rewrite H2.
  pose proof (take_block_count g (n_alloc s) b (rc_alloc _ _ HR) Hf) as Hcnt. rewrite <- Ha2 in Hcnt.
  pose proof Hbr as [Hrec _ Hf0 Hnt Hcopied Hrest].
  destruct (truth e) eqn:Ee.
  { destruct (discard_backup_run s0 s2 b) as (s3 & H3 & HR3 & Hc3); [done..|].
    exists None, s3. split_and!; [done|done|by rewrite Hc3]. }
  unfold truth in Ee. zbool. unfold bind at 1.
  destruct (mtd_write_run g geo b pg data oob (n_flash s2)) as (w & n & f3 & H3 & Hop & Hok & _);
    [apply Hrec|by split|done|done|].
  rewrite (onF_run _ _ _ _ H3). cbn [fst snd].
  assert (HR3 : recovering s0 (with_flash f3 s2)).
  { change (with_flash f3 s2) with (with_alloc (n_alloc s2) (with_flash f3 s2)).
    eapply recovering_block; [done|exact Hf0|by eapply only_touched, only_page_block|apply Hrec|].
    intros c Hc. split; [congruence|done]. }
  destruct ((w =? 0) && (n =? u32 (writesize g + oobsize g))) eqn:Ew.
  - zbool. destruct (accept_backup_run s0 (with_flash f3 s2) blk b HR3 Hblk Hnf)
      as (s4 & H4 & HR4 & Hpg4 & Her4 & Hfr4).
    exists (Some b), s4. split_and!; [done|done|]. right.
    split_and!; [lia|lia|done|by rewrite Hfr4|]. intros He. rewrite Hpg4, Her4.
    change (world (with_flash f3 s2)) with (fl_world f3). split_and!.
    + apply Hok; [|done]. apply Hrest; [done|by split|lia].
    + intros Hg p Hp. rewrite (op_page _ _ _ _ _ Hop b p); [|split; lia|intros [= ->]; lia].
      by apply Hcopied.
    + intros p Hc Hp. apply (op_erased _ _ _ _ _ Hop b p); [done|intros [= ->]; lia|].
      apply Hrest; [done|done|lia].
  - destruct (discard_backup_run s0 (with_flash f3 s2) b) as (s4 & H4 & HR4 & Hc4); [done..|].
    exists None, s4. split_and!; [done|done|]. rewrite Hc4. exact Hcnt.
Qed.

Lemma retry_recovering s0 body (Q : Z -> nftl W -> Prop) fuel : forall s,
  recovering s0 s -> (free_count (blockstatus (n_alloc s)) < fuel)%nat ->
  (forall s, recovering s0 s -> exists r s', body s = Done r s' /\ recovering s0 s' /\
     match r with
     | None => (free_count (blockstatus (n_alloc s')) < free_count (blockstatus (n_alloc s)))%nat
     | Some b => Q b s'
     end) ->
  exists b s', retry fuel body s = Done b s' /\ recovering s0 s' /\ Q b s'.
Proof.
  induction fuel as [|fuel IH]; intros s HR Hm Hbody; [lia|]. cbn [retry]. unfold bind.
  destruct (Hbody s HR) as ([b|] & s' & H1 & HR' & Hr); rewrite H1; [by exists b, s'|].
  apply IH; [done|lia|done].
Qed.

Lemma fuel_enough s0 s : recovering s0 s -> (free_count (blockstatus (n_alloc s)) < RETRY_FUEL)%nat.
Proof.
  intros HR. pose proof (free_count_le (blockstatus (n_alloc s))) as H1.
  pose proof (tab_len _ _ (aw_table _ _ (rc_alloc _ _ HR))) as H2.
  unfold RETRY_FUEL, BLOCKSTATUS_LEN, arr_len in *. lia.
Qed.

(** [nftl_write_error] always returns. *)
Lemma nftl_write_error_run s blk pg data oob :
  nd_inv (world s) -> alloc_wf g (n_alloc s) -> 0 <= blk < nr_blks g -> ~ block_free (n_alloc s) blk ->
  0 <= pg < nr_pgsinblk g -> bufs_ok data oob ->
  exists b s', nftl_write_error g blk pg data oob 1 s = Done b s' /\ recovering s s' /\
    recovered s s' blk pg data oob b.
Proof.
  intros Hi Ha Hb Hnf Hp Hbufs. pose proof (recovering_refl s Hi Ha) as HR.
  unfold nftl_write_error. apply retry_recovering; [done|by eapply fuel_enough|].
  intros s' HR'. by apply write_error_round_run.
Qed.

(** ** Copying one page *)

(** The page as [nftl_copyback] stores it: FREE_BLOCK keeps the type byte. *)
Definition retag (t : block_state) (p : list Z * list Z) : list Z * list Z :=
  (fst p, if bool_decide (t <> FREE_BLOCK) then set_blocktype (block_state_code t) (snd p) else snd p).

Lemma take_insert_blit (x junk : list Z) v n :
  arr_len x = n -> 0 < n -> n <= arr_len junk ->
  take (Z.to_nat n) (<[0%nat := v]> (blit x junk)) = <[0%nat := v]> x.
Proof.
  intros Hx Hn Hj. unfold blit, arr_len in *. rewrite insert_app_l by lia.
  replace (Z.to_nat n) with (length (<[0%nat := v]> x)) by (rewrite length_insert; lia).
  apply take_app_length.
Qed.

Lemma nftl_copyback_run src sp dst dp t s :
  nd_inv (world s) -> on_chip g src sp -> on_chip g dst dp ->
  exists e f, nftl_copyback g src sp dst dp t s = Done e (with_flash f s) /\
    only_page g (world s) (fl_world f) dst dp /\
    (e = 0 -> nd_erased (world s) dst dp ->
       nd_page (fl_world f) dst dp = retag t (nd_page (world s) src sp)) /\
    (nd_good (world s) -> nd_wgood (world s) -> e = 0) /\
    (nd_good (world s) -> fl_corrected f <= ECC_ERR_LIMIT).
Proof.
  intros Hi Hs Hd. pose proof (ng_ws_range g geo). pose proof (ng_oob g geo).
  unfold nftl_copyback, bind at 1.
  destruct (stack_run g BLOCK_INFO_SIZE (n_flash s) Hi ltac:(done)) as (ob & f1 & H1 & S1 & _ & L1).
  rewrite (onF_run _ _ _ _ H1). unfold bind at 1.
  destruct (kmalloc_run g NAND_MAX_PAGESIZE f1 (sp_inv _ _ _ S1) ltac:(done))
    as (m & f2 & H2 & S2 & _ & L2 & G2).
  rewrite (onF_run _ (with_flash f1 s) _ _ H2). rewrite with_flash_twice.
  pose proof (same_pages_trans _ _ _ _ S1 S2) as S12. fold (world s) in S12.
  assert (Hsame : forall f, same_pages g (world s) (fl_world f) -> only_page g (world s) (fl_world f) dst dp).
  { intros f [A1 A2 A3 A4 A5 A6]. split; [done|by rewrite A2|by rewrite A3|done|done|done]. }
  destruct m as [db|].
  2:{ exists EIO, f2. split_and!; [done|by apply Hsame|done| |];
      intros Hg; exfalso; apply G2; (done || by apply (sp_good _ _ _ S1)). }
  specialize (L2 _ eq_refl). unfold NAND_MAX_PAGESIZE, BLOCK_INFO_SIZE, NAND_MAX_OOBSIZE in *.
  assert (Hms : exists db', memset db 0xff SIZEOF_PTR = Some db' /\ arr_len db' = 4096).
  { unfold memset, SIZEOF_PTR. destruct (arr_len db <? 4) eqn:E; zbool; [lia|]. eexists. split; [done|].
    rewrite arr_len_app. unfold arr_len in *. rewrite length_replicate, length_drop. lia. }
  destruct Hms as (db' & -> & Ldb). cbn [assert_some]. unfold bind at 1, ret at 1, bind at 1.
  destruct (mtd_read_both_run g geo src sp db' ob f2) as (r & f3 & H3 & S3 & Lb & Lo & Hdata & Hgood);
    [apply S2|done|lia|lia|].
  rewrite (onF_run _ (with_flash f2 s) _ _ H3). rewrite with_flash_twice.
  pose proof (same_pages_trans _ _ _ _ S12 S3) as S123.
  unfold truth. destruct (r_ret r =? 0) eqn:Er; zbool; cbn [negb].
  2:{ exists EIO, f3. split_and!; [done|by apply Hsame|done| |];
      intros Hg; exfalso; apply Er, Hgood; by apply (sp_good _ _ _ S12). }
  destruct (Hdata Er) as [Hb Hob]. rewrite (sp_page _ _ _ S12) in Hb, Hob.
  destruct (nd_page_len s src sp Hi Hs) as [Lp1 Lp2].
  set (oob := if bool_decide (t <> FREE_BLOCK) then _ else _). unfold bind at 1.
  assert (Loob : arr_len oob = arr_len ob).
  { unfold oob. rewrite <- Lo. case_match; [|done]. unfold set_blocktype, arr_len. by rewrite length_insert. }
  destruct (mtd_write_run g geo dst dp (r_buf r) oob f3) as (w & n & f4 & H4 & Hop & Hok & Hwg);
    [apply S3|done|lia|lia|].
  rewrite (onF_run _ (with_flash f3 s) _ _ H4). rewrite with_flash_twice. cbn [fst].
  exists w, f4. split; [reflexivity|]. split_and!.
  - destruct S123 as [A1 A2 A3 A4 A5 A6], Hop as [O1 O2 O3 O4 O5 O6]. split; [done| | |auto|auto|by rewrite O6, A6].
    + intros b' p' Hc Hne. by rewrite O2, A2.
    + intros b' p' Hc Hne. by rewrite O3, A3.
  - intros Ew He. rewrite (proj1 (Hok ltac:(by rewrite (sp_erased _ _ _ S123)) Ew)).
    unfold retag. f_equal; [by rewrite Hb, take_blit|].
    unfold oob. rewrite Hob. case_bool_decide; [|by rewrite take_blit].
    unfold set_blocktype. apply take_insert_blit; [done|lia|lia].
  - intros Hg Hgw. apply Hwg. by apply (sp_wgood _ _ _ S123).
  - intros Hg. rewrite (mtd_write_corrected _ _ _ _ _ _ _ _ _ H4). apply Hgood.
    by apply (sp_good _ _ _ S12).
Qed.

(** The outcome of [nftl_copyback_error]: the page and its predecessors from
    [dst] are in the block handed back. *)
Definition recovered_copy s0 s src sp dst dp t b : Prop :=
  b = 0xffff \/
  (0 <= b < nr_blks g /\ block_free (n_alloc s0) b /\ ~ block_free (n_alloc s) b /\
   (free_erased s0 ->
      nd_page (world s) b dp = retag t (nd_page (world s0) src sp) /\
      (nd_good (world s0) -> forall p, 0 <= p < dp -> nd_page (world s) b p = nd_page (world s0) dst p) /\
      (forall p, on_chip g b p -> dp < p -> nd_erased (world s) b p))).

Lemma copyback_error_round_run s0 s src sp dst dp t :
  recovering s0 s -> on_chip g src sp -> ~ block_free (n_alloc s0) src ->
  on_chip g dst dp -> ~ block_free (n_alloc s0) dst ->
  exists r s', copyback_error_round g src sp dst dp t s = Done r s' /\ recovering s0 s' /\
    match r with
    | None => (free_count (blockstatus (n_alloc s')) < free_count (blockstatus (n_alloc s)))%nat
    | Some b => recovered_copy s0 s' src sp dst dp t b
    end.
Proof.
  intros HR Hsrc Hsf Hdst Hnf. unfold copyback_error_round, bind at 1.
  destruct (get_free_wf g (n_alloc s) (rc_alloc _ _ HR)) as [H1|(b & Hf & Hb & H1)];
    rewrite (onA_run _ _ _ _ H1).
  { rewrite Z.eqb_refl. eexists (Some _), _. split; [reflexivity|].
    replace (with_alloc (n_alloc s) s) with s by (by destruct s). split; [done|by left]. }
  assert (Hff : (b =? 0xffff) = false).
  { apply Z.eqb_neq. pose proof (ng_blks g geo). unfold BLOCKSTATUS_LEN in *. lia. }
  rewrite Hff. unfold bind at 1.
  destruct (backup_replace_run s0 s dst dp b HR Hf Hb (proj1 Hdst) Hnf (proj2 Hdst))
    as (e & s2 & H2 & Hbr & Ha2).
  rewrite H2.
  pose proof (take_block_count g (n_alloc s) b (rc_alloc _ _ HR) Hf) as Hcnt. rewrite <- Ha2 in Hcnt.
  pose proof Hbr as [Hrec _ Hf0 Hnt Hcopied Hrest].
  destruct (truth e) eqn:Ee.
  { destruct (discard_backup_run s0 s2 b) as (s3 & H3 & HR3 & Hc3); [done..|].
    exists None, s3. split_and!; [done|done|by rewrite Hc3]. }
  unfold truth in Ee. zbool. unfold bind at 1.
  assert (Hbp : on_chip g b dp) by (split; [done|apply Hdst]).
  destruct (nftl_copyback_run src sp b dp t s2 (rc_inv _ _ Hrec) Hsrc Hbp)
    as (w & f3 & H3 & Hop & Hok & _).
  rewrite H3.
  assert (HR3 : recovering s0 (with_flash f3 s2)).
  { change (with_flash f3 s2) with (with_alloc (n_alloc s2) (with_flash f3 s2)).
    eapply recovering_block; [done|exact Hf0|by eapply only_touched, only_page_block|apply Hrec|].
    intros c Hc. split; [congruence|done]. }
  destruct (w =? 0) eqn:Ew.
  - zbool. destruct (accept_backup_run s0 (with_flash f3 s2) dst b HR3 (proj1 Hdst) Hnf)
      as (s4 & H4 & HR4 & Hpg4 & Her4 & Hfr4).
    exists (Some b), s4. split_and!; [done|done|]. right.
    split_and!; [lia|lia|done|by rewrite Hfr4|]. intros He. rewrite Hpg4, Her4.
    change (world (with_flash f3 s2)) with (fl_world f3). split_and!.
    + rewrite Hok; [|done|apply Hrest; [done|done|lia]]. f_equal.
      apply (rc_page _ _ Hrec); [done|by left].
    + intros Hg p Hp. destruct Hbp as [Hb1 Hb2].
      rewrite (op_page _ _ _ _ _ Hop b p); [|split; lia|intros [= ->]; lia]. by apply Hcopied.
    + intros p Hc Hp. apply (op_erased _ _ _ _ _ Hop b p); [done|intros [= ->]; lia|].
      apply Hrest; [done|done|lia].
  - destruct (discard_backup_run s0 (with_flash f3 s2) b) as (s4 & H4 & HR4 & Hc4); [done..|].
    exists None, s4. split_and!; [done|done|]. rewrite Hc4. exact Hcnt.
Qed.

Lemma nftl_copyback_error_run s src sp dst dp t :
  nd_inv (world s) -> alloc_wf g (n_alloc s) ->
  on_chip g src sp -> ~ block_free (n_alloc s) src ->
  on_chip g dst dp -> ~ block_free (n_alloc s) dst ->
  exists b s', nftl_copyback_error g src sp dst dp t s = Done b s' /\ recovering s s' /\
    recovered_copy s s' src sp dst dp t b.
Proof.
  intros Hi Ha Hs Hsf Hd Hdf. pose proof (recovering_refl s Hi Ha) as HR.
  unfold nftl_copyback_error. apply retry_recovering; [done|by eapply fuel_enough|].
  intros s' HR'. by apply copyback_error_round_run.
Qed.

(** ** The contracts *)

(** A block as it was, data, spare bytes and erased pages. *)
Definition same_block (w w' : W) (b : Z) : Prop := forall p, on_chip g b p ->
  nd_page w' b p = nd_page w b p /\ (nd_erased w' b p <-> nd_erased w b p).

Lemma recovering_blocks s s' : recovering s s' ->
  (forall b, ~ block_free (n_alloc s) b -> same_block (world s) (world s') b) /\
  (free_erased s -> free_erased s').
Proof.
  intros HR. split.
  - intros b Hb p Hc. apply (rc_page _ _ HR b p Hc). by left.
  - intros He b p Hf Hc. apply (rc_page _ _ HR b p Hc); [by right|].
    apply He; [|done]. by apply (rc_free _ _ HR).
Qed.

(** Replacing a block in error: [nftl_block_replace] returns; it touches
    the first [cnt] pages of the destination only; on a chip whose reads and
    allocations work, answering 0 means that these pages, if they were
    erased, are copies of the source's, spare bytes included; and the answer
    is 0 whenever programming works, read errors notwithstanding. *)
Theorem block_replace_copies s src dst cnt
  (Hi : nd_inv (world s)) (Hs : 0 <= src < nr_blks g) (Hd : 0 <= dst < nr_blks g)
  (Hne : src <> dst) (Hc : 0 <= cnt <= nr_pgsinblk g) :
  exists e f, nftl_block_replace g src dst cnt s = Done e (with_flash f s) /\
    nd_inv (fl_world f) /\
    (forall b, b <> dst -> same_block (world s) (fl_world f) b) /\
    (forall p, on_chip g dst p -> cnt <= p -> nd_page (fl_world f) dst p = nd_page (world s) dst p) /\
    (nd_good (world s) -> e = 0 -> (forall p, 0 <= p < cnt -> nd_erased (world s) dst p) ->
       forall p, 0 <= p < cnt -> nd_page (fl_world f) dst p = nd_page (world s) src p) /\
    (nd_wgood (world s) -> e = 0).
Proof.
  destruct (nftl_block_replace_run src dst cnt s Hi Hs Hd Hne Hc) as (e & f & H1 & [Ho Hr] & H2 & H3).
  exists e, f. split_and!; [done|apply Ho| | |done|done].
  - intros b Hb p Hp. split; [by apply (ob_page _ _ _ _ Ho)|by apply (ob_erased _ _ _ _ Ho)].
  - intros p Hp Hge. by apply Hr; [|lia].
Qed.

(** C6. Recovery from a write error.  [nftl_write_error] returns, however
    often programming fails.  No block that was in use is touched, the table
    stays sound, and free blocks stay erased.  The answer is 0xFFFF or a block
    that was free and is taken now, which holds the new page at [pg], nothing
    behind it, and, when reading works, copies of the failing block's pages
    before [pg]. *)
Theorem write_error_recovers s blk pg data oob
  (Hi : nd_inv (world s)) (Ha : alloc_wf g (n_alloc s)) (He : free_erased s)
  (Hb : 0 <= blk < nr_blks g) (Hnf : ~ block_free (n_alloc s) blk)
  (Hp : 0 <= pg < nr_pgsinblk g) (Hbufs : bufs_ok data oob) :
  exists b s', nftl_write_error g blk pg data oob 1 s = Done b s' /\
    nd_inv (world s') /\ alloc_wf g (n_alloc s') /\ free_erased s' /\
    (forall c, ~ block_free (n_alloc s) c -> same_block (world s) (world s') c) /\
    (b = 0xffff \/
     (0 <= b < nr_blks g /\ block_free (n_alloc s) b /\ ~ block_free (n_alloc s') b /\
      nd_page (world s') b pg = (take (Z.to_nat (writesize g)) data, take (Z.to_nat (oobsize g)) oob) /\
      (nd_good (world s) -> forall p, 0 <= p < pg -> nd_page (world s') b p = nd_page (world s) blk p) /\
      (forall p, on_chip g b p -> pg < p -> nd_erased (world s') b p))).
Proof.
  destruct (nftl_write_error_run s blk pg data oob Hi Ha Hb Hnf Hp Hbufs) as (b & s' & H1 & HR & Hrec).
  destruct (recovering_blocks s s' HR) as [Hsame Hfr].
  exists b, s'. split_and!; [done|apply HR|apply HR|by apply Hfr|done|].
  destruct Hrec as [|(H2 & H3 & H4 & H5)]; [by left|right]. destruct (H5 He) as (? & ? & ?).
  by repeat (split; [done|]).
Qed.

(** C19. Recovery from a failed copy: as [write_error_recovers], the page
    handed over being page [sp] of [src] under its new type. *)
Theorem copyback_error_recovers s src sp dst dp t
  (Hi : nd_inv (world s)) (Ha : alloc_wf g (n_alloc s)) (He : free_erased s)
  (Hs : on_chip g src sp) (Hsf : ~ block_free (n_alloc s) src)
  (Hd : on_chip g dst dp) (Hdf : ~ block_free (n_alloc s) dst) :
  exists b s', nftl_copyback_error g src sp dst dp t s = Done b s' /\
    nd_inv (world s') /\ alloc_wf g (n_alloc s') /\ free_erased s' /\
    (forall c, ~ block_free (n_alloc s) c -> same_block (world s) (world s') c) /\
    (b = 0xffff \/
     (0 <= b < nr_blks g /\ block_free (n_alloc s) b /\ ~ block_free (n_alloc s') b /\
      nd_page (world s') b dp = retag t (nd_page (world s) src sp) /\
      (nd_good (world s) -> forall p, 0 <= p < dp -> nd_page (world s') b p = nd_page (world s) dst p) /\
      (forall p, on_chip g b p -> dp < p -> nd_erased (world s') b p))).
Proof.
  destruct (nftl_copyback_error_run s src sp dst dp t Hi Ha Hs Hsf Hd Hdf) as (b & s' & H1 & HR & Hrec).
  destruct (recovering_blocks s s' HR) as [Hsame Hfr].
  exists b, s'. split_and!; [done|apply HR|apply HR|by apply Hfr|done|].
  destruct Hrec as [|(H2 & H3 & H4 & H5)]; [by left|right]. destruct (H5 He) as (? & ? & ?).
  by repeat (split; [done|]).
Qed.

(** [nftl_copyback] returns, changes one page, and when it answers 0 and
    that page was erased, the page is the source page with the block type of
    the destination, FREE_BLOCK standing for the source's type; on a chip in
    working order it does answer 0. *)
Theorem copyback_copies s src sp dst dp t
  (Hi : nd_inv (world s)) (Hs : on_chip g src sp) (Hd : on_chip g dst dp) :
  exists e f, nftl_copyback g src sp dst dp t s = Done e (with_flash f s) /\
    nd_inv (fl_world f) /\
    (forall b p, on_chip g b p -> (b, p) <> (dst, dp) -> nd_page (fl_world f) b p = nd_page (world s) b p) /\
    (e = 0 -> nd_erased (world s) dst dp ->
       nd_page (fl_world f) dst dp = retag t (nd_page (world s) src sp)) /\
    (nd_good (world s) -> nd_wgood (world s) -> e = 0).
Proof.
  destruct (nftl_copyback_run src sp dst dp t s Hi Hs Hd) as (e & f & H1 & Ho & H2 & H3 & _).
  exists e, f. split_and!; [done|apply Ho|apply Ho|done|done].
Qed.
End Flash.

(** ** On the simulated chip

    Block 1 holds one page, blocks 3 to 63 are free, and programming page 1 of
    block 3 fails, so recovery has to give block 3 up. *)
Section Example.
Notation g := small_geo.
#[local] Existing Instance chip_world.

Definition ex_page : list Z * list Z := (replicate 32 7, 0xfd :: replicate 7 9).
Definition ex_chip : chip := MkChip {[ page_addr g 1 0 := ex_page ]} [] [page_addr g 3 1] [] 0.
Definition ex_state : nftl chip := with_alloc alloc_ex (initial ex_chip).
Definition new_page : list Z * list Z := (replicate 32 1, replicate 8 2).

#[local] Instance ex_world : World chip := chip_world g.
#[local] Instance ex_laws : NandLaws chip g := chip_laws g small_geo_ok.

Lemma ex_chip_inv : nd_inv (world ex_state).
Proof. apply map_Forall_singleton. by split. Qed.
Lemma ex_alloc_wf : alloc_wf g (n_alloc ex_state).
Proof. destruct alloc_ex_ok as [Ht _ Hl]. by split. Qed.
Lemma ex_free b : block_free (n_alloc ex_state) b -> 3 <= b < 64.
Proof.
  intros Hf. pose proof (block_free_range _ _ _ (aw_table _ _ ex_alloc_wf) Hf) as Hr.
  change (nr_blks g) with 64 in Hr. destruct (decide (b < 3)) as [Hlt|]; [|lia]. exfalso.
  destruct Hf as (v & Hv & Hne). apply Hne.
  assert (b = 0 \/ b = 1 \/ b = 2) as [->|[->| ->]] by lia; vm_compute in Hv; congruence.
Qed.
Lemma ex_used b : 0 <= b < 3 -> ~ block_free (n_alloc ex_state) b.
Proof. intros Hb Hf. apply ex_free in Hf. lia. Qed.
Lemma ex_free_erased : free_erased g ex_state.
Proof.
  intros b p Hf Hc. apply ex_free in Hf. cbn. apply lookup_singleton_ne.
  unfold page_addr. cbn. destruct Hc as [_ Hp]. lia.
Qed.

Lemma block_replace_copies_witness : exists f,
  nftl_block_replace g 1 5 1 ex_state = Done 0 (with_flash f ex_state) /\
  nd_page (fl_world f) 5 0 = ex_page.
Proof.
  destruct (block_replace_copies g small_geo_ok ex_state 1 5 1 ex_chip_inv)
    as (e & f & H1 & _ & _ & _ & H2 & _); [vm_compute; intuition congruence..|].
  assert (E : match nftl_block_replace g 1 5 1 ex_state with Done e _ => e = 0 | _ => False end)
    by (vm_compute; reflexivity).
  rewrite H1 in E. subst e. exists f. split; [done|]. rewrite H2; [done|by split|done| |lia].
  intros p Hp. assert (p = 0) as -> by lia. done.
Defined.

Lemma write_error_recovers_witness : exists s',
  nftl_write_error g 1 1 (fst new_page) (snd new_page) 1 ex_state = Done 4 s' /\
  nd_page (world s') 4 0 = ex_page /\ nd_page (world s') 4 1 = new_page.
Proof.
  destruct (write_error_recovers g small_geo_ok ex_state 1 1 (fst new_page) (snd new_page)
              ex_chip_inv ex_alloc_wf ex_free_erased) as (b & s' & H1 & _ & _ & _ & _ & H2);
    [vm_compute; intuition congruence|by apply ex_used|vm_compute; intuition congruence..|].
  assert (E : match nftl_write_error g 1 1 (fst new_page) (snd new_page) 1 ex_state with
              | Done b _ => b = 4 | _ => False end) by (vm_compute; reflexivity).
  rewrite H1 in E. subst b. exists s'. split; [exact H1|clear H1].
  destruct H2 as [H2|(_ & _ & _ & H2 & H3 & _)]; [discriminate H2|]. split; [|exact H2].
  transitivity (nd_page (world ex_state) 1 0); [|vm_compute; reflexivity].
  apply H3; [split; [reflexivity|vm_compute; intuition congruence]|lia].
Defined.

Lemma copyback_error_recovers_witness : exists s',
  nftl_copyback_error g 1 0 2 1 DATA_BLOCK ex_state = Done 4 s' /\
  nd_page (world s') 4 1 = (replicate 32 7, 0xfe :: replicate 7 9).
Proof.
  destruct (copyback_error_recovers g small_geo_ok ex_state 1 0 2 1 DATA_BLOCK
              ex_chip_inv ex_alloc_wf ex_free_erased) as (b & s' & H1 & _ & _ & _ & _ & H2);
    [vm_compute; intuition congruence|by apply ex_used|vm_compute; intuition congruence|by apply ex_used|].
  assert (E : match nftl_copyback_error g 1 0 2 1 DATA_BLOCK ex_state with
              | Done b _ => b = 4 | _ => False end) by (vm_compute; reflexivity).
  rewrite H1 in E. subst b. exists s'. split; [exact H1|clear H1].
  destruct H2 as [H2|(_ & _ & _ & H2 & _)]; [discriminate H2|]. exact H2.
Defined.

Lemma copyback_copies_witness : exists f,
  nftl_copyback g 1 0 5 0 MT_LOG_BLOCK ex_state = Done 0 (with_flash f ex_state) /\
  nd_page (fl_world f) 5 0 = (replicate 32 7, 0xfb :: replicate 7 9).
Proof.
  destruct (copyback_copies g small_geo_ok ex_state 1 0 5 0 MT_LOG_BLOCK ex_chip_inv)
    as (e & f & H1 & _ & _ & H2 & _); [vm_compute; intuition congruence..|].
  assert (E : match nftl_copyback g 1 0 5 0 MT_LOG_BLOCK ex_state with Done e _ => e = 0 | _ => False end)
    by (vm_compute; reflexivity).
  rewrite H1 in E. subst e. exists f. split; [exact H1|clear H1]. by rewrite H2.
Defined.
End Example.
