(* ===== verification/NftlGarbage.v ===== *)
(** * NFTL: the garbage table

    Blocks whose contents have been superseded are recorded in the garbage
    list in RAM and on the pages of the GarbageTab block, and erased together
    when there are enough of them: [nftl_is_gar_blk], [nftl_get_gar_blks],
    [nftl_reclaim_garbages], [nftl_addto_gt] of
    [BSP/oss/nftl/nftlmount.c]. *)

From Stdlib Require Import ZArith Lia.
From stdpp Require Import base numbers list.
From S2P Require Import Prelude CMonad NftlTypes NftlAlloc MtdDev NftlState NftlFlash.

(** A 16-bit little-endian access to a byte buffer. *)
Definition get16 (buf : list Z) (ofs : Z) : option Z :=
  lo ← arr_get buf ofs; hi ← arr_get buf (ofs + 1); Some (lo + hi * 2 ^ 8).
Definition put16 (buf : list Z) (ofs v : Z) : option (list Z) :=
  b ← arr_set buf ofs (u8 v); arr_set b (ofs + 1) (u8 (Z.shiftr v 8)).

Section Operations.
Context {W : Type} `{World W} (g : mtd_info).

Definition gt_pba (i : Z) : M (nftl W) Z :=
  let! r := gets n_gar in assert_some OutOfBounds (arr_get (gt_pbas r) i).
Definition gar_pba (i : Z) : M (nftl W) Z :=
  let! r := gets n_gar in assert_some OutOfBounds (arr_get (gar_pbas r) i).
Definition set_gt_pba (i v : Z) : M (nftl W) unit :=
  let! r := gets n_gar in
  let! t := assert_some OutOfBounds (arr_set (gt_pbas r) i v) in
  onG (modify (with_gt_pbas t)).
Definition set_gar_pba (i v : Z) : M (nftl W) unit :=
  let! r := gets n_gar in
  let! t := assert_some OutOfBounds (arr_set (gar_pbas r) i v) in
  onG (modify (with_gar_pbas t)).

Definition nftl_is_gar_blk (block : Z) : M (nftl W) bool :=
  let! r := gets n_gar in
  let! f := for_range 0 (gar_blkcnt r) (fun i =>
    let! b := gar_pba i in
    if block =? b then ret (Some true) else ret None) in
  match f with Some b => ret b | None => ret false end.

(** The entries of one page of the table. *)
Definition get_gar_entry (databuff : list Z) (k : Z) : M (nftl W) (option unit) :=
  let! v := assert_some OutOfBounds (get16 databuff (k * 2)) in
  if v =? 0xffff then ret (Some tt)
  else
    let! r := gets n_gar in
    set_gar_pba (gar_blkcnt r) v ;;
    onG (modify (fun r => with_gar_blkcnt (u16 (gar_blkcnt r + 1)) r)) ;;
    ret None.

(** One page of a GarbageTab block: [inr None] leaves the page loop, [inr
    (Some e)] returns from the function.  The byte counter [k] stops at the
    page's count, which is at most 254 here. *)
Definition get_gar_page (gtblock i : Z) (l : list Z * list Z * Z)
    : M (nftl W) (list Z * list Z * Z + (list Z * list Z * Z) * option Z) :=
  let '(databuff, blkinfo, _) := l in
  let! r := onF (mtd_read g gtblock i (Some databuff) (Some blkinfo) 1) in
  let l := (r_buf r, r_oob r, r_ret r) in
  if r_ret r =? 0 then
    if si_thiscount (r_oob r) =? 0xff then ret (inr (l, None))
    else
      for_range 0 (si_thiscount (r_oob r)) (get_gar_entry (r_buf r)) ;;
      onG (modify (fun r => with_gt_pgcnt (u8 (gt_pgcnt r + 1)) r)) ;;
      ret (inl l)
  else ret (inr (l, Some (u8 (r_ret r)))).

Definition nftl_get_gar_blks : M (nftl W) Z :=
  let! blkinfo := onF (stack BLOCK_INFO_SIZE) in
  let! m := onF (kmalloc NAND_MAX_PAGESIZE) in
  match m with
  | None => ret 1
  | Some databuff =>
      onG (modify (with_gar_blkcnt 0)) ;;
      onG (modify (with_gt_pgcnt 0)) ;;
      let! r := for_local 0 GT_MAX_BLOCKS (databuff, blkinfo, 0) (fun j l =>
        let! b := gt_pba j in
        if b =? 0xffff then ret (inr (u8 (snd l)))
        else
          let! r := for_local 0 (nr_pgsinblk g) l (get_gar_page b) in
          match r with
          | inl l => ret (inl l)
          | inr (l, None) => ret (inl l)
          | inr (_, Some e) => ret (inr e)
          end) in
      match r with inr e => ret e | inl l => ret (u8 (snd l)) end
  end.
End Operations.

Section Reclaim.
Context {W : Type} `{World W} (g : mtd_info).

(** One garbage block; [Some (-1)] is the early return. *)
Definition reclaim_block (i ret0 : Z) : M (nftl W) (Z + Z) :=
  let! b := gar_pba i in
  if negb (b =? 0xffff) then
    let! e := onF (mtd_erase g b) in
    if truth e then
      if b >? nr_blks g then ret (inr (-1))
      else let! r := nftl_erase_error g b in ret (inl r)
    else let! r := onA (nftl_set_block_free g b) in ret (inl r)
  else ret (inl ret0).

Definition reclaim_gt_block (i ret0 : Z) : M (nftl W) (Z + Z) :=
  let! b := gt_pba i in
  if negb (b =? 0xffff) then
    let! e := onF (mtd_erase g b) in
    let! r := (if truth e then nftl_erase_error g b else onA (nftl_set_block_free g b)) in
    set_gt_pba i 0xffff ;;
    ret (inl r)
  else ret (inl ret0).

Definition nftl_reclaim_garbages : M (nftl W) Z :=
  let! r := gets n_gar in
  if gar_blkcnt r =? 0 then ret 0
  else
    let! r := for_local 0 (gar_blkcnt r) 0 reclaim_block in
    match r with
    | inr e => ret e
    | inl ret1 =>
        let! r := for_local 0 GT_MAX_BLOCKS ret1 reclaim_gt_block in
        match r with
        | inr e => ret e
        | inl ret2 =>
            onG (modify (with_gar_blkcnt 0)) ;;
            onG (modify (with_gt_pgcnt 0)) ;;
            ret ret2
        end
    end.

(** Recording the garbage blocks in the page image and in RAM. *)
Fixpoint add_garbages (garbages : list Z) (i : Z) (databuff : list Z) : M (nftl W) (list Z) :=
  match garbages with
  | [] => ret databuff
  | b :: rest =>
      let! databuff := assert_some OutOfBounds (put16 databuff (i * 2) b) in
      let! r := gets n_gar in
      set_gar_pba (gar_blkcnt r) b ;;
      onG (modify (fun r => with_gar_blkcnt (u16 (gar_blkcnt r + 1)) r)) ;;
      add_garbages rest (i + 1) databuff
  end.

(** Writing the page of the table, with recovery. *)
Definition write_gt_page (blkindx pageofs : Z) (databuff spare : list Z) : M (nftl W) unit :=
  let! b := gt_pba blkindx in
  let! w := onF (mtd_write g b pageofs databuff spare 1) in
  if truth (fst w) || negb (snd w =? u32 (writesize g + oobsize g)) then
    let! b := gt_pba blkindx in
    let! nb := nftl_write_error g b pageofs databuff spare 1 in
    set_gt_pba blkindx nb
  else ret tt.

(** The three conditions under which the garbage is reclaimed. *)
Definition gt_full (s : nftl W) : bool := gt_pgcnt (n_gar s) >=? nr_pgsinblk g * GT_MAX_BLOCKS / 2.
Definition gar_full (s : nftl W) : bool := gar_blkcnt (n_gar s) >=? GARBAGE_MAX_CNT_DIV2.
Definition few_free (s : nftl W) : bool :=
  (free_blkcnt (n_alloc s) <=? MINI_FREE_BLOCK) && (gar_blkcnt (n_gar s) >? 0).
Definition reclaim_if (c : nftl W -> bool) (ret0 : Z) : M (nftl W) Z :=
  let! b := gets c in if (b : bool) then nftl_reclaim_garbages else ret ret0.

Definition nftl_addto_gt (garbages : list Z) : M (nftl W) Z :=
  let garcnt := arr_len garbages in
  let! block_info := onF (stack BLOCK_INFO_SIZE) in
  let! m := onF (kmalloc NAND_MAX_PAGESIZE) in
  match m with
  | None => ret 1
  | Some databuff =>
      let! r := gets n_gar in
      let blkindx := u8 (gt_pgcnt r / nr_pgsinblk g) in
      let pageofs := u8 (gt_pgcnt r mod nr_pgsinblk g) in
      let! databuff := assert_some OutOfBounds (memset databuff 0xff (writesize g)) in
      let! spare := assert_some OutOfBounds (memset block_info 0xff (oobsize g)) in
      let! b := gt_pba blkindx in
      (if b =? 0xffff then
         let! nb := onA (nftl_get_free_block g) in set_gt_pba blkindx nb
       else ret tt) ;;
      let! databuff := add_garbages garbages 0 databuff in
      let spare := set_thiscount garcnt
        (set_tabindx blkindx (set_blocktype (block_state_code GARBAGE_TAB_BLOCK) spare)) in
      write_gt_page blkindx pageofs databuff spare ;;
      onG (modify (fun r => with_gt_pgcnt (u8 (gt_pgcnt r + 1)) r)) ;;
      let! r1 := reclaim_if gt_full 0 in
      let! r2 := reclaim_if gar_full r1 in
      let! r3 := reclaim_if few_free r2 in
      let! r := gets n_gar in
      let! f := for_range 0 (gar_blkcnt r) (fun i =>
        let! b := gar_pba i in
        if b >? nr_blks g then ret (Some tt) else ret None) in
      match f with Some _ => ret 1 | None => ret r3 end
  end.
End Reclaim.
