(* ===== verification/NftlTold.v ===== *)
(** * NFTL: what the spare areas say

    The tables in RAM are rebuilt by [NFTL_mount] from the block types, the
    page numbers and the table indices in the spare areas.  This file defines
    what a block must hold to be told by the mount ([dl_stored] and the
    others, one for each kind of block), shows that accesses to other blocks
    do not matter, and that the blocks the layer writes are told: a log block
    with one page more, a new log block, a merged MapTab block, one page more
    of the GarbageTab block. *)

From Stdlib Require Import ZArith Lia.
From stdpp Require Import base numbers list sets.
From S2P Require Import Prelude CMonad NftlTypes NftlAlloc NftlLog NftlDl NftlMtl MtdDev NftlState.
From S2P Require Import NandLaws NftlFlash NftlFlashSpec NftlGarbage.

(** The entries of a log block whose pages [0 .. n-1] are those of the logical
    pages [f 0 .. f (n-1)]. *)
Fixpoint dl_read (f : Z -> Z) (n : nat) : list dl_transitem :=
  match n with
  | O => []
  | S n => ent_put (dl_read f n) (f (Z.of_nat n)) (Z.of_nat n)
  end.
Fixpoint mtl_read (f : Z -> Z) (n : nat) : list mtl_transitem :=
  match n with
  | O => []
  | S n => mte_put (mtl_read f n) (f (Z.of_nat n)) (Z.of_nat n)
  end.
Lemma dl_read_ext f f' n : (forall p, 0 <= p < Z.of_nat n -> f p = f' p) -> dl_read f n = dl_read f' n.
Proof.
  induction n as [|n IH]; intros H; [done|]. cbn [dl_read]. rewrite IH, (H (Z.of_nat n)); [done|lia|].
  intros p Hp. apply H. lia.
Qed.
Lemma mtl_read_ext f f' n : (forall p, 0 <= p < Z.of_nat n -> f p = f' p) -> mtl_read f n = mtl_read f' n.
Proof.
  induction n as [|n IH]; intros H; [done|]. cbn [mtl_read]. rewrite IH, (H (Z.of_nat n)); [done|lia|].
  intros p Hp. apply H. lia.
Qed.
Lemma mtl_read_lookup f n x q : mte_lookup (mtl_read f n) x = Some q -> 0 <= q < Z.of_nat n /\ f q = x.
Proof.
  induction n as [|n IH]; [done|]. cbn [mtl_read]. rewrite mte_lookup_put.
  destruct (x =? f (Z.of_nat n)) eqn:E; zbool; [intros [= <-]; split; [lia|done]|].
  intros H. destruct (IH H) as [H1 H2]. split; [lia|done].
Qed.

(** ** 16-bit entries of a page *)
Lemma arr_len_put16 buf ofs v buf' : put16 buf ofs v = Some buf' -> arr_len buf' = arr_len buf.
Proof.
  unfold put16. intros H. destruct (arr_set buf ofs (u8 v)) as [b|] eqn:E; [|done]. cbn in H.
  by rewrite (arr_set_len _ _ _ _ H), (arr_set_len _ _ _ _ E).
Qed.
Lemma put16_in buf ofs v : 0 <= ofs -> ofs + 2 <= arr_len buf ->
  exists buf', put16 buf ofs v = Some buf' /\ arr_len buf' = arr_len buf.
Proof.
  intros H0 H1. assert (exists buf', put16 buf ofs v = Some buf') as [buf' H]; [|by exists buf'; split; [|by eapply arr_len_put16]].
  unfold put16. rewrite arr_set_in by lia. cbn. rewrite arr_set_in; [by eexists|].
  unfold arr_len in *. rewrite length_insert. lia.
Qed.
Lemma get16_take buf ofs n : 0 <= ofs -> ofs + 2 <= n -> n <= arr_len buf ->
  get16 (take (Z.to_nat n) buf) ofs = get16 buf ofs.
Proof.
  intros H0 H1 H2. unfold get16, arr_get, arr_len in *.
  destruct (0 <=? ofs) eqn:E1, (0 <=? ofs + 1) eqn:E2; zbool; try lia.
  by rewrite !lookup_take_lt by lia.
Qed.
Lemma get16_in buf ofs : 0 <= ofs -> ofs + 2 <= arr_len buf -> exists v, get16 buf ofs = Some v.
Proof.
  intros H0 H1. unfold get16. destruct (arr_get_in buf ofs) as [x ->]; [lia|].
  destruct (arr_get_in buf (ofs + 1)) as [y ->]; [lia|]. by eexists.
Qed.
Lemma put16_get buf ofs v buf' :
  put16 buf ofs v = Some buf' -> 0 <= ofs ->
  get16 buf' ofs = Some (u16 v) /\
  (forall o, o + 2 <= ofs \/ ofs + 2 <= o -> get16 buf' o = get16 buf o).
Proof.
  unfold put16. intros H Hofs. destruct (arr_set buf ofs (u8 v)) as [b1|] eqn:E1; [|done]. cbn in H.
  unfold get16. split.
  - assert (Ha : arr_get buf' ofs = Some (u8 v)).
    { rewrite (arr_get_set _ _ _ _ _ H), (arr_get_set _ _ _ _ _ E1), Z.eqb_refl.
      destruct (ofs =? ofs + 1) eqn:E; zbool; [lia|done]. }
    assert (Hb : arr_get buf' (ofs + 1) = Some (u8 (Z.shiftr v 8)))
      by by rewrite (arr_get_set _ _ _ _ _ H), Z.eqb_refl.
    rewrite Ha, Hb. by rewrite <- le_bytes_u16.
  - intros o Ho.
    assert (Hg : forall j, j <> ofs -> j <> ofs + 1 -> arr_get buf' j = arr_get buf j).
    { intros j N1 N2. rewrite (arr_get_set _ _ _ _ _ H), (arr_get_set _ _ _ _ _ E1).
      destruct (j =? ofs + 1) eqn:Ea, (j =? ofs) eqn:Eb; zbool; congruence. }
    by rewrite !Hg by lia.
Qed.

(** The garbage blocks a page of the GarbageTab names. *)
Definition gar_chunk (data : list Z) (count : Z) : list Z :=
  map (fun k => default 0 (get16 data (k * 2))) (seqZ 0 count).
Lemma gar_chunk_S data c : 0 <= c -> gar_chunk data (c + 1) = gar_chunk data c ++ [default 0 (get16 data (c * 2))].
Proof.
  intros Hc. unfold gar_chunk. rewrite seqZ_app by lia. by rewrite map_app.
Qed.
Lemma gar_chunk_read data bs :
  (forall j b, arr_get bs j = Some b -> get16 data (j * 2) = Some b) -> gar_chunk data (arr_len bs) = bs.
Proof.
  induction bs as [|b bs IH] using rev_ind; intros H; [done|].
  pose proof (arr_len_nonneg bs). rewrite arr_len_app. change (arr_len [b]) with 1.
  rewrite gar_chunk_S by done. f_equal.
  - apply IH. intros j c Hj. apply H. rewrite arr_get_app. pose proof (arr_get_Some _ _ _ Hj) as Hr.
    destruct (j <? arr_len bs) eqn:E; zbool; [done|lia].
  - rewrite (H (arr_len bs) b); [done|]. rewrite arr_get_app.
    destruct (arr_len bs <? arr_len bs) eqn:E; zbool; [lia|]. by rewrite Z.sub_diag.
Qed.

Section Told.
Context {W : Type} {WW : World W} (g : mtd_info) {N : NandLaws W g}.
Implicit Types (w : W) (b p : Z).
Notation n := (nr_pgsinblk g).

Definition spare_at w b p : list Z := snd (nd_page w b p).
Definition page_type w b p : Z := si_blocktype (spare_at w b p).
Fixpoint gar_read w b (k : nat) : list Z :=
  match k with
  | O => []
  | S k => gar_read w b k ++
      gar_chunk (fst (nd_page w b (Z.of_nat k))) (si_thiscount (spare_at w b (Z.of_nat k)))
  end.

(** A DataLog block and an MTLog block. *)
Record dl_stored w (ge : dl_group) : Prop := {
  ds_type : page_type w (dlb_pba ge.1) 0 = block_state_code DATA_LOG_BLOCK;
  ds_used : 1 <= dlb_used ge.1 <= n;
  ds_read : ge.2 = dl_read (fun p => si_lpa (spare_at w (dlb_pba ge.1) p)) (Z.to_nat (dlb_used ge.1));
  ds_lba : forall p, 0 <= p < dlb_used ge.1 -> si_lpa (spare_at w (dlb_pba ge.1) p) / n = dlb_lba ge.1
}.
Record mtl_stored w (ge : mt_group) : Prop := {
  ms_type : page_type w (mtb_pba ge.1) 0 = block_state_code MT_LOG_BLOCK;
  ms_used : 1 <= mtb_used ge.1 <= n;
  ms_index : forall p, 0 <= p < mtb_used ge.1 -> si_tabindx (spare_at w (mtb_pba ge.1) p) = mtb_mtindx ge.1;
  ms_read : ge.2 = mtl_read (fun p => si_pageofs (spare_at w (mtb_pba ge.1) p)) (Z.to_nat (mtb_used ge.1))
}.
(** A MapTab block. *)
Record mt_stored w i b : Prop := {
  mm_type : page_type w b 0 = block_state_code MAP_TAB_BLOCK;
  mm_index : si_tabindx (spare_at w b 0) = i;
  mm_last : i = 0 -> 0 <= si_lastfree (spare_at w b 0) < nr_blks g
}.
(** A data block: written by a merge, or a log block that was completed. *)
Definition data_stored w b : Prop :=
  page_type w b 0 = block_state_code DATA_BLOCK \/
  (page_type w b 0 = block_state_code DATA_LOG_BLOCK /\ page_type w b (n - 1) = block_state_code DATA_BLOCK).
(** A block that was in use. *)
Definition gar_stored w b : Prop := exists t, t ∈ [DATA_BLOCK; DATA_LOG_BLOCK; MAP_TAB_BLOCK; MT_LOG_BLOCK] /\
  page_type w b 0 = block_state_code t.
(** The GarbageTab block with [pg] pages that name the blocks [l]. *)
Record gt_stored w (pg : Z) b (l : list Z) : Prop := {
  gs_type : 1 <= pg -> page_type w b 0 = block_state_code GARBAGE_TAB_BLOCK;
  gs_index : 1 <= pg -> si_tabindx (spare_at w b 0) = 0;
  gs_used : 0 <= pg <= n;
  gs_count : forall p, 0 <= p < pg -> 0 <= si_thiscount (spare_at w b p) * 2 <= writesize g
                                       /\ si_thiscount (spare_at w b p) <> 0xff;
  gs_read : l = gar_read w b (Z.to_nat pg)
}.

Lemma gar_stored_dl w ge : dl_stored w ge -> gar_stored w (dlb_pba ge.1).
Proof. intros H. exists DATA_LOG_BLOCK. split; [set_solver|apply H]. Qed.
Lemma gar_stored_mtl w ge : mtl_stored w ge -> gar_stored w (mtb_pba ge.1).
Proof. intros H. exists MT_LOG_BLOCK. split; [set_solver|apply H]. Qed.
Lemma gar_stored_mt w i b : mt_stored w i b -> gar_stored w b.
Proof. intros H. exists MAP_TAB_BLOCK. split; [set_solver|apply H]. Qed.
Lemma gar_stored_data w b : data_stored w b -> gar_stored w b.
Proof. intros [H|[H _]]; eexists; (split; [|exact H]); set_solver. Qed.

(** ** What depends on other blocks: nothing *)

(** Block [b] holds what it held. *)
Definition same_data w w' b : Prop := forall p, on_chip g b p -> nd_page w' b p = nd_page w b p.

Lemma same_data_refl w b : same_data w w b.
Proof. by intros p. Qed.
Lemma same_data_trans w1 w2 w3 b : same_data w1 w2 b -> same_data w2 w3 b -> same_data w1 w3 b.
Proof. intros H1 H2 p Hp. by rewrite H2, H1. Qed.
Lemma same_data_pages w w' b : same_pages g w w' -> same_data w w' b.
Proof. intros H p _. by rewrite (sp_page _ _ _ H). Qed.
Lemma same_data_block w w' b c : only_block g w w' c -> b <> c -> same_data w w' b.
Proof. intros H Hb p Hp. by apply (ob_page _ _ _ _ H). Qed.
Lemma same_data_page w w' b c q : only_page g w w' c q -> b <> c -> same_data w w' b.
Proof. intros H Hb. eapply same_data_block; [by eapply only_page_block|done]. Qed.

Lemma same_spare w w' b p : same_data w w' b -> on_chip g b p -> spare_at w' b p = spare_at w b p.
Proof. intros H Hon. unfold spare_at. by rewrite H. Qed.
Lemma same_type w w' b p : same_data w w' b -> on_chip g b p -> page_type w' b p = page_type w b p.
Proof. intros H Hon. unfold page_type. by rewrite (same_spare w w'). Qed.

Hypothesis geo : nand_geo g.
Notation in_chip b := (0 <= b < nr_blks g).

Lemma first_page b : in_chip b -> on_chip g b 0.
Proof. intros Hb. split; [done|]. pose proof (ng_pgs g geo). lia. Qed.

Lemma mt_keep w w' i b : in_chip b -> same_data w w' b -> mt_stored w i b -> mt_stored w' i b.
Proof.
  intros Hb Hs [H1 H2 H3]. pose proof (first_page b Hb).
  split; rewrite ?(same_type w w'), ?(same_spare w w') by done; done.
Qed.
Lemma dl_keep w w' ge : in_chip (dlb_pba ge.1) -> same_data w w' (dlb_pba ge.1) ->
  dl_stored w ge -> dl_stored w' ge.
Proof.
  intros Hb Hs [H1 H2 H3 H4]. pose proof (first_page _ Hb). split.
  - by rewrite (same_type w w').
  - done.
  - rewrite H3 at 1. apply dl_read_ext. intros p Hp. by rewrite (same_spare w w') by first [done|split; [done|lia]].
  - intros p Hp. rewrite (same_spare w w') by first [done|split; [done|lia]]. by apply H4.
Qed.
Lemma mtl_keep w w' ge : in_chip (mtb_pba ge.1) -> same_data w w' (mtb_pba ge.1) ->
  mtl_stored w ge -> mtl_stored w' ge.
Proof.
  intros Hb Hs [H1 H2 H3 H4]. pose proof (first_page _ Hb). split.
  - by rewrite (same_type w w').
  - done.
  - intros p Hp. rewrite (same_spare w w') by first [done|split; [done|lia]]. by apply H3.
  - rewrite H4 at 1. apply mtl_read_ext. intros p Hp. by rewrite (same_spare w w') by first [done|split; [done|lia]].
Qed.
Lemma data_keep w w' b : in_chip b -> same_data w w' b -> data_stored w b -> data_stored w' b.
Proof.
  intros Hb Hs H. pose proof (first_page b Hb). pose proof (ng_pgs g geo). unfold data_stored.
  rewrite !(same_type w w') by first [done|split; [done|lia]]. done.
Qed.
Lemma gar_keep w w' b : in_chip b -> same_data w w' b -> gar_stored w b -> gar_stored w' b.
Proof. intros Hb Hs (t & H1 & H2). exists t. split; [done|]. by rewrite (same_type w w') by first [done|by apply first_page]. Qed.
Lemma gar_read_keep w w' b (k : nat) : 
  (forall p, 0 <= p < Z.of_nat k -> nd_page w' b p = nd_page w b p) -> gar_read w' b k = gar_read w b k.
Proof.
  induction k as [|k IH]; intros Hs; [done|]. cbn [gar_read]. rewrite IH by (intros p Hp; apply Hs; lia).
  unfold spare_at. by rewrite Hs by lia.
Qed.
Lemma gt_keep w w' pg b l : in_chip b -> same_data w w' b -> gt_stored w pg b l -> gt_stored w' pg b l.
Proof.
  intros Hb Hs [H1 H2 H3 H4 H5]. pose proof (first_page b Hb). split.
  - by rewrite (same_type w w').
  - by rewrite (same_spare w w').
  - done.
  - intros p Hp. rewrite (same_spare w w') by first [done|split; [done|lia]]. by apply H4.
  - rewrite (gar_read_keep w w'); [done|]. intros p Hp. apply Hs. split; [done|lia].
Qed.

(** ** What the layer writes *)

(** The next page of a DataLog block, and a new one. *)
Lemma dl_stored_grow w w' h es lpa : dl_stored w (h, es) -> in_chip (dlb_pba h) ->
  dlb_used h < n -> lpa / n = dlb_lba h -> only_page g w w' (dlb_pba h) (dlb_used h) ->
  si_lpa (spare_at w' (dlb_pba h) (dlb_used h)) = lpa ->
  dl_stored w' (group_write h es lpa).
Proof.
  intros [H1 H2 H3 H4] Hc Hu Hlpa Hop Hsp. cbn [fst snd] in *.
  assert (Hsame : forall p, 0 <= p < dlb_used h -> spare_at w' (dlb_pba h) p = spare_at w (dlb_pba h) p).
  { intros p Hp. unfold spare_at. rewrite (op_page _ _ _ _ _ Hop); [done|split; [done|lia]|]. intros [= ->]. lia. }
  split; cbn [group_write fst snd dlb_pba dlb_used dlb_lba].
  - unfold page_type. rewrite Hsame by lia. exact H1.
  - lia.
  - replace (Z.to_nat (dlb_used h + 1)) with (S (Z.to_nat (dlb_used h))) by lia. cbn [dl_read].
    rewrite Z2Nat.id, Hsp by lia. f_equal. rewrite H3 at 1. apply dl_read_ext. intros p Hp. by rewrite Hsame by lia.
  - intros p Hp. destruct (decide (p = dlb_used h)) as [->|]; [by rewrite Hsp|]. rewrite Hsame by lia. apply H4. lia.
Qed.
Lemma dl_stored_new w' b lpa : page_type w' b 0 = block_state_code DATA_LOG_BLOCK ->
  si_lpa (spare_at w' b 0) = lpa -> dl_stored w' (group_new g lpa b).
Proof.
  intros Ht Hl. pose proof (ng_pgs g geo).
  split; cbn [group_new fst snd dlb_pba dlb_used dlb_lba]; [done|lia| |].
  - change (Z.to_nat 1) with 1%nat. cbn [dl_read]. change (Z.of_nat 0) with 0. by rewrite Hl.
  - intros p Hp. assert (p = 0) as -> by lia. by rewrite Hl.
Qed.

(** The same for the MTLog. *)
Lemma mtl_stored_grow w w' h es x : mtl_stored w (h, es) -> in_chip (mtb_pba h) ->
  mtb_used h < n -> only_page g w w' (mtb_pba h) (mtb_used h) ->
  si_tabindx (spare_at w' (mtb_pba h) (mtb_used h)) = mtb_mtindx h ->
  si_pageofs (spare_at w' (mtb_pba h) (mtb_used h)) = x ->
  mtl_stored w' (mtg_write h es x).
Proof.
  intros [H1 H2 H3 H4] Hc Hu Hop Hti Hsp. cbn [fst snd] in *.
  assert (Hsame : forall p, 0 <= p < mtb_used h -> spare_at w' (mtb_pba h) p = spare_at w (mtb_pba h) p).
  { intros p Hp. unfold spare_at. rewrite (op_page _ _ _ _ _ Hop); [done|split; [done|lia]|]. intros [= ->]. lia. }
  split; cbn [mtg_write fst snd mtb_pba mtb_used mtb_mtindx].
  - unfold page_type. rewrite Hsame by lia. exact H1.
  - lia.
  - intros p Hp. destruct (decide (p = mtb_used h)) as [->|]; [done|]. rewrite Hsame by lia. apply H3. lia.
  - replace (Z.to_nat (mtb_used h + 1)) with (S (Z.to_nat (mtb_used h))) by lia. cbn [mtl_read].
    rewrite Z2Nat.id, Hsp by lia. f_equal. rewrite H4 at 1. apply mtl_read_ext. intros p Hp. by rewrite Hsame by lia.
Qed.
Lemma mtl_stored_new w' b x : page_type w' b 0 = block_state_code MT_LOG_BLOCK ->
  si_tabindx (spare_at w' b 0) = x / n -> si_pageofs (spare_at w' b 0) = x -> mtl_stored w' (mtg_new g x b).
Proof.
  intros Ht Hi Hl. pose proof (ng_pgs g geo).
  split; cbn [mtg_new fst snd mtb_pba mtb_used mtb_mtindx]; [done|lia| |].
  - intros p Hp. assert (p = 0) as -> by lia. done.
  - change (Z.to_nat 1) with 1%nat. cbn [mtl_read]. change (Z.of_nat 0) with 0. by rewrite Hl.
Qed.

(** Page 0 of a MapTab block that was copied from the old block or from the
    log: a page of the log shows its page offset, 0, as the allocation
    pointer. *)
Lemma retag_type w b p t : nd_inv w -> on_chip g b p -> t <> FREE_BLOCK ->
  si_blocktype (snd (retag t (nd_page w b p))) = block_state_code t /\
  si_tabindx (snd (retag t (nd_page w b p))) = si_tabindx (spare_at w b p) /\
  si_lastfree (snd (retag t (nd_page w b p))) = si_lastfree (spare_at w b p).
Proof.
  intros Hi Hc Ht. destruct (nd_len w b p Hi Hc) as [_ Hl]. pose proof (ng_oob g geo).
  assert (Hok : spare_ok (snd (nd_page w b p))) by (unfold spare_ok, arr_len in *; lia).
  unfold retag, spare_at. cbn [snd]. rewrite bool_decide_eq_true_2 by done.
  rewrite si_blocktype_set, si_tabindx_set_blocktype by done. split; [by destruct t|]. split; [done|].
  exact (si_pageofs_set_blocktype _ _ Hok).
Qed.
Lemma mt_stored_merged w w' h es old new : nd_inv w -> in_chip old -> in_chip (mtb_pba h) ->
  mtl_stored w (h, es) -> mt_stored w (mtb_mtindx h) old ->
  nd_page w' new 0 = retag MAP_TAB_BLOCK
    (match mte_lookup es (mtb_mtindx h * n) with Some q => nd_page w (mtb_pba h) q | None => nd_page w old 0 end) ->
  mt_stored w' (mtb_mtindx h) new.
Proof.
  intros Hi Ho Hp [S1 S2 S3 S4] [M1 M2 M3] Hpg. cbn [fst snd] in *. pose proof (ng_blks g geo).
  destruct (mte_lookup es _) as [q|] eqn:E.
  - rewrite S4 in E. apply mtl_read_lookup in E as [Hq E]. rewrite Z2Nat.id in Hq by lia.
    destruct (retag_type w (mtb_pba h) q MAP_TAB_BLOCK Hi) as (T1 & T2 & T3); [split; [done|lia]|done|].
    split; unfold page_type, spare_at; rewrite Hpg, ?T1, ?T2, ?T3; [done|by apply S3|].
    intros E0. change (si_lastfree (spare_at w (mtb_pba h) q)) with (si_pageofs (spare_at w (mtb_pba h) q)).
    rewrite E, E0. lia.
  - destruct (retag_type w old 0 MAP_TAB_BLOCK Hi) as (T1 & T2 & T3); [by apply first_page|done|].
    split; unfold page_type, spare_at; rewrite Hpg, ?T1, ?T2, ?T3; [done|done|exact M3].
Qed.

(** An empty GarbageTab block, and one page more. *)
Lemma gt_stored_empty w b : gt_stored w 0 b [].
Proof. pose proof (ng_pgs g geo). split; try lia. done. Qed.
Lemma gt_stored_grow w w' pg b l l' : in_chip b -> pg < n -> only_page g w w' b pg -> gt_stored w pg b l ->
  page_type w' b pg = block_state_code GARBAGE_TAB_BLOCK -> si_tabindx (spare_at w' b pg) = 0 ->
  0 <= si_thiscount (spare_at w' b pg) * 2 <= writesize g -> si_thiscount (spare_at w' b pg) <> 0xff ->
  gar_chunk (fst (nd_page w' b pg)) (si_thiscount (spare_at w' b pg)) = l' ->
  gt_stored w' (pg + 1) b (l ++ l').
Proof.
  intros Hb Hpg Hop [H1 H2 H3 H4 H5] T1 T2 T3 T4 T5.
  assert (Hsame : forall p, 0 <= p < pg -> nd_page w' b p = nd_page w b p).
  { intros p Hp. rewrite (op_page _ _ _ _ _ Hop); [done|split; [done|lia]|]. intros [= ->]. lia. }
  assert (Hs0 : 1 <= pg -> spare_at w' b 0 = spare_at w b 0) by (intros Hp; unfold spare_at; by rewrite Hsame by lia).
  split.
  - intros _. destruct (decide (pg = 0)) as [->|]; [done|]. unfold page_type. rewrite Hs0 by lia. apply H1. lia.
  - intros _. destruct (decide (pg = 0)) as [->|]; [done|]. rewrite Hs0 by lia. apply H2. lia.
  - lia.
  - intros p Hp. destruct (decide (p = pg)) as [->|]; [done|]. unfold spare_at. rewrite Hsame by lia. apply H4. lia.
  - replace (Z.to_nat (pg + 1)) with (S (Z.to_nat pg)) by lia. cbn [gar_read]. rewrite Z2Nat.id, T5 by lia.
    f_equal. rewrite H5. symmetry. apply gar_read_keep. intros p Hp. apply Hsame. lia.
Qed.
End Told.
