(* ===== verification/NftlInv.v ===== *)
(** * NFTL: who owns which block

    The invariant of the translation layer on a chip in working order.  A
    ghost state gives every physical block one owner: the free table, the
    mapping table, a log block of either kind, the data of a logical block,
    the garbage list, the garbage table.  The tables in RAM only name blocks
    they own, so that writing to or erasing a block of one owner leaves the
    contents of all the others alone; and the pages a log block has not
    used yet are erased. *)

From Stdlib Require Import ZArith Lia.
From stdpp Require Import base numbers list gmap.
From S2P Require Import Prelude CMonad NftlTypes NftlAlloc NftlLog NftlDl NftlMtl MtdDev NftlState.
From S2P Require Import NandLaws NftlFlash NftlFlashSpec NftlGarbage NftlTold MtdSim ChipLaws.

Inductive role :=
  | RFree | RMt (i : Z) | RMtl (i : Z) | RDl (lba : Z) | RData (lba : Z) | RGar | RGt
  | RBusy | ROther.
#[export] Instance role_eq_dec : EqDecision role.
Proof. solve_decision. Defined.

(** Blocks whose contents matter. *)
Definition live (r : role) : bool :=
  match r with RMt _ | RMtl _ | RDl _ | RData _ | RBusy => true | _ => false end.

Record ghost := MkGhost {
  gh_own : Z -> role;                 (* the owner of a block *)
  gh_dl : list dl_group;              (* the DataLog blocks *)
  gh_mt : Z -> option Z;              (* the MapTab blocks *)
  gh_mtl : list mt_group;             (* the MTLog blocks *)
  gh_data : Z -> option Z;            (* the data block of a logical block *)
  gh_gar : list Z;                    (* the garbage list *)
  gh_gt : option Z;                   (* the GarbageTab block *)
  gh_gtl : list Z                     (* the blocks its pages name *)
}.
Definition upd {A} (f : Z -> A) (i : Z) (v : A) : Z -> A := fun x => if decide (x = i) then v else f x.
Definition set_own b r G := MkGhost (upd (gh_own G) b r)
  (gh_dl G) (gh_mt G) (gh_mtl G) (gh_data G) (gh_gar G) (gh_gt G) (gh_gtl G).
Definition set_gdl v G := MkGhost (gh_own G) v (gh_mt G) (gh_mtl G) (gh_data G) (gh_gar G) (gh_gt G) (gh_gtl G).
Definition set_gmt i v G := MkGhost (gh_own G) (gh_dl G) (upd (gh_mt G) i v) (gh_mtl G)
  (gh_data G) (gh_gar G) (gh_gt G) (gh_gtl G).
Definition set_gmtl v G := MkGhost (gh_own G) (gh_dl G) (gh_mt G) v (gh_data G) (gh_gar G) (gh_gt G) (gh_gtl G).
Definition set_gdata lba v G := MkGhost (gh_own G) (gh_dl G) (gh_mt G) (gh_mtl G)
  (upd (gh_data G) lba v) (gh_gar G) (gh_gt G) (gh_gtl G).
Definition set_ggar v G := MkGhost (gh_own G) (gh_dl G) (gh_mt G) (gh_mtl G) (gh_data G) v (gh_gt G) (gh_gtl G).
(** Another GarbageTab block: its pages name nothing. *)
Definition set_ggt v G := MkGhost (gh_own G) (gh_dl G) (gh_mt G) (gh_mtl G) (gh_data G) (gh_gar G) v [].
Definition set_ggtl v G := MkGhost (gh_own G) (gh_dl G) (gh_mt G) (gh_mtl G) (gh_data G) (gh_gar G) (gh_gt G) v.

Lemma upd_eq {A} (f : Z -> A) i v : upd f i v i = v.
Proof. unfold upd. by rewrite decide_True. Qed.
Lemma upd_ne {A} (f : Z -> A) i v x : x <> i -> upd f i v x = f x.
Proof. intros H. unfold upd. by rewrite decide_False. Qed.
Lemma own_set_eq b r G : gh_own (set_own b r G) b = r.
Proof. apply upd_eq. Qed.
Lemma own_set_ne b r G x : x <> b -> gh_own (set_own b r G) x = gh_own G x.
Proof. apply upd_ne. Qed.

Section Inv.
Context {W : Type} {WW : World W} (g : mtd_info) {N : NandLaws W g}.
Hypothesis geo : nand_geo g.
Implicit Types (s : nftl W) (w : W) (G : ghost) (b p : Z).

Definition in_chip b : Prop := 0 <= b < nr_blks g.

(** The tables name blocks they own. *)
Record owners (a : alloc) G : Prop := {
  ow_free : forall b, block_free a b <-> in_chip b /\ gh_own G b = RFree;
  ow_mt : forall i b, gh_mt G i = Some b -> in_chip b /\ gh_own G b = RMt i;
  ow_mtl : forall h es, (h, es) ∈ gh_mtl G ->
    in_chip (mtb_pba h) /\ gh_own G (mtb_pba h) = RMtl (mtb_mtindx h);
  ow_dl : forall h es, (h, es) ∈ gh_dl G ->
    in_chip (dlb_pba h) /\ gh_own G (dlb_pba h) = RDl (dlb_lba h);
  ow_data : forall lba b, gh_data G lba = Some b -> in_chip b /\ gh_own G b = RData lba;
  ow_gar : forall b, b ∈ gh_gar G -> in_chip b /\ gh_own G b = RGar;
  ow_gar_nodup : NoDup (gh_gar G);
  ow_gt : forall b, gh_gt G = Some b -> in_chip b /\ gh_own G b = RGt
}.

(** What has not been written since the last erase. *)
Record erased_ok w (pg : Z) G : Prop := {
  er_free : forall b p, on_chip g b p -> gh_own G b = RFree -> nd_erased w b p;
  er_mtl : forall h es p, (h, es) ∈ gh_mtl G -> on_chip g (mtb_pba h) p -> mtb_used h <= p ->
    nd_erased w (mtb_pba h) p;
  er_dl : forall h es p, (h, es) ∈ gh_dl G -> on_chip g (dlb_pba h) p -> dlb_used h <= p ->
    nd_erased w (dlb_pba h) p;
  er_gt : forall b p, gh_gt G = Some b -> on_chip g b p -> pg <= p -> nd_erased w b p
}.

(** The tables name every block they own. *)
Definition names G b (r : role) : Prop :=
  match r with
  | RMt i => gh_mt G i = Some b
  | RMtl i => exists h es, (h, es) ∈ gh_mtl G /\ mtb_pba h = b
  | RDl lba => exists h es, (h, es) ∈ gh_dl G /\ dlb_pba h = b
  | RData lba => gh_data G lba = Some b
  | RGar => b ∈ gh_gar G
  | RGt => gh_gt G = Some b
  | RFree | RBusy | ROther => True
  end.
Definition named G : Prop := forall b, names G b (gh_own G b).

(** The flash tells the tables. *)
Record told w (pg : Z) G : Prop := {
  td_mt : forall i b, gh_mt G i = Some b -> mt_stored g w i b;
  td_mtl : forall h es, (h, es) ∈ gh_mtl G -> mtl_stored g w (h, es);
  td_dl : forall h es, (h, es) ∈ gh_dl G -> dl_stored g w (h, es);
  td_data : forall lba b, gh_data G lba = Some b -> data_stored g w b;
  td_gar : forall b, b ∈ gh_gar G -> gar_stored g w b;
  td_gt : forall b, gh_gt G = Some b -> gt_stored g w pg b (gh_gtl G)
}.

(** A mount finds the ghost state again: the flash tells the tables, they name
    all blocks, and the bad blocks are those without a role. *)
Record tells w (pg : Z) G : Prop := {
  tl_told : told w pg G;
  tl_named : named G;
  tl_bad : forall b, in_chip b -> nd_bad w b = true <-> gh_own G b = ROther
}.

Record ftl_inv w (a : alloc) (pg : Z) G : Prop := {
  fi_inv : nd_inv w;
  fi_good : nd_good w;
  fi_wgood : nd_wgood w;
  fi_alloc : alloc_ok g a;
  fi_own : owners a G;
  fi_erased : erased_ok w pg G;
  fi_tells : tells w pg G
}.
Definition inv s G : Prop := ftl_inv (world s) (n_alloc s) (gt_pgcnt (n_gar s)) G.

(** The mapping-table blocks in RAM. *)
Record mt_rep (m : mt_ram) G : Prop := {
  mr_ok : mt_ok g m (gh_mtl G);
  mr_cnt : 0 < mt_blkcnt m < MT_MAX_BLOCKS;
  mr_pba : forall i, 0 <= i < mt_blkcnt m -> exists b, arr_get (mt_pbas m) i = Some b /\ gh_mt G i = Some b;
  mr_out : forall i, gh_mt G i <> None -> 0 <= i < mt_blkcnt m;
  mr_log : forall h es, (h, es) ∈ gh_mtl G -> 0 <= mtb_mtindx h < mt_blkcnt m
}.

(** The garbage list in RAM; the bounds hold between operations. *)
Record gar_list (r : gar_ram) G : Prop := {
  gr_gt : gt_pbas r = [default 0xffff (gh_gt G)];
  gr_len : arr_len (gar_pbas r) = GARBAGE_MAX_CNT;
  gr_cnt : gar_blkcnt r = arr_len (gh_gar G);
  gr_list : exists junk, gar_pbas r = gh_gar G ++ junk;
  gr_pg0 : 0 <= gt_pgcnt r;
  gr_none : gh_gt G = None -> gt_pgcnt r = 0 /\ gh_gar G = []
}.
Record gar_rep (r : gar_ram) G : Prop := {
  gr_rep : gar_list r G;
  gr_small : arr_len (gh_gar G) < GARBAGE_MAX_CNT_DIV2;
  gr_pg : gt_pgcnt r < nr_pgsinblk g;
  gr_told : gh_gtl G = gh_gar G;
  gr_used : gh_gt G <> None -> 1 <= gt_pgcnt r
}.

(** The live blocks hold what they held. *)
Definition live_same G w w' : Prop := forall b p, on_chip g b p -> live (gh_own G b) = true ->
  nd_page w' b p = nd_page w b p.

Lemma live_same_refl G w : live_same G w w.
Proof. by intros b p. Qed.

(** The last read needed few corrections. *)
Definition quiet s : Prop := fl_corrected (n_flash s) <= ECC_ERR_LIMIT.

(** Blocks that can be had without touching live data. *)
Definition nfree s : Z := free_blkcnt (n_alloc s).
Definition spare_blocks s G : Z :=
  nfree s + arr_len (gh_gar G) + match gh_gt G with Some _ => 1 | None => 0 end.

Lemma erased_ok_iff w w' pg G :
  erased_ok w pg G -> (forall b p, on_chip g b p -> nd_erased w b p -> nd_erased w' b p) ->
  erased_ok w' pg G.
Proof.
  intros [H1 H2 H3 H4] H. split.
  - intros b p Hc Ho. apply H; [done|by apply H1].
  - intros h es p Hin Hc Hu. apply H; [done|by eapply H2].
  - intros h es p Hin Hc Hu. apply H; [done|by eapply H3].
  - intros b p Hg Hc Hu. apply H; [done|by apply H4].
Qed.

(** No table names the block. *)
Record unnamed G b : Prop := {
  un_mt : forall i, gh_mt G i <> Some b;
  un_mtl : forall h es, (h, es) ∈ gh_mtl G -> mtb_pba h <> b;
  un_dl : forall h es, (h, es) ∈ gh_dl G -> dlb_pba h <> b;
  un_data : forall lba, gh_data G lba <> Some b;
  un_gar : b ∉ gh_gar G;
  un_gt : gh_gt G <> Some b
}.

#[local] Ltac role := match goal with Hr : _ \/ _ |- _ => destruct Hr as [?|[?|?]]; congruence end.
Lemma unnamed_role a G b :
  owners a G -> gh_own G b = RFree \/ gh_own G b = RBusy \/ gh_own G b = ROther -> unnamed G b.
Proof.
  intros [H1 H2 H3 H4 H5 H6 H7 H8] Hr. split.
  - intros i Hb. destruct (H2 i b Hb). role.
  - intros h es Hin <-. destruct (H3 h es Hin) as (? & ?). role.
  - intros h es Hin <-. destruct (H4 h es Hin) as (? & ?). role.
  - intros lba Hb. destruct (H5 lba b Hb) as (? & ?). role.
  - intros Hb. destruct (H6 b Hb) as (? & ?). role.
  - intros Hb. destruct (H8 b Hb) as (? & ?). role.
Qed.

(** ** What the flash tells *)

Lemma told_step w w' pg pg' a G G' :
  owners a G -> told w pg G ->
  (forall i b, gh_mt G' i = Some b -> (gh_mt G i = Some b /\ same_data g w w' b) \/ mt_stored g w' i b) ->
  (forall h es, (h, es) ∈ gh_mtl G' ->
     ((h, es) ∈ gh_mtl G /\ same_data g w w' (mtb_pba h)) \/ mtl_stored g w' (h, es)) ->
  (forall h es, (h, es) ∈ gh_dl G' ->
     ((h, es) ∈ gh_dl G /\ same_data g w w' (dlb_pba h)) \/ dl_stored g w' (h, es)) ->
  (forall lba b, gh_data G' lba = Some b -> (gh_data G lba = Some b /\ same_data g w w' b) \/ data_stored g w' b) ->
  (forall b, b ∈ gh_gar G' -> (b ∈ gh_gar G /\ same_data g w w' b) \/ gar_stored g w' b) ->
  (forall b, gh_gt G' = Some b ->
     (gh_gt G = Some b /\ same_data g w w' b /\ pg' = pg /\ gh_gtl G' = gh_gtl G) \/
     gt_stored g w' pg' b (gh_gtl G')) ->
  told w' pg' G'.
Proof.
  intros [O1 O2 O3 O4 O5 O6 O7 O8] [T1 T2 T3 T4 T5 T6] H1 H2 H3 H4 H5 H6. split.
  - intros i b Hb. destruct (H1 i b Hb) as [[Hi Hs]|?]; [|done]. apply (mt_keep g geo w); [by apply (O2 i)|done|by apply T1].
  - intros h es Hin. destruct (H2 h es Hin) as [[Hi Hs]|?]; [|done].
    apply (mtl_keep g geo w); [by apply (O3 h es)|done|by apply T2].
  - intros h es Hin. destruct (H3 h es Hin) as [[Hi Hs]|?]; [|done].
    apply (dl_keep g geo w); [by apply (O4 h es)|done|by apply T3].
  - intros lba b Hb. destruct (H4 lba b Hb) as [[Hi Hs]|?]; [|done].
    apply (data_keep g geo w); [by apply (O5 lba)|done|by apply (T4 lba)].
  - intros b Hb. destruct (H5 b Hb) as [[Hi Hs]|?]; [|done]. apply (gar_keep g geo w); [by apply O6|done|by apply T5].
  - intros b Hb. destruct (H6 b Hb) as [(Hi & Hs & -> & ->)|?]; [|done].
    apply (gt_keep g geo w); [by apply O8|done|by apply T6].
Qed.

(** A change to a block no table names. *)
Lemma told_off w w' pg a G b :
  owners a G -> told w pg G -> unnamed G b -> (forall c, c <> b -> same_data g w w' c) -> told w' pg G.
Proof.
  intros HO HT [U1 U2 U3 U4 U5 U6] Hs.
  eapply told_step; [exact HO|exact HT|..]; intros; left; repeat (split; [done|]); try (apply Hs); try done.
  - intros ->. by eapply U1.
  - by eapply U2.
  - by eapply U3.
  - intros ->. by eapply U4.
  - by intros ->.
  - split; [|done]. apply Hs. by intros ->.
Qed.

(** The tables that name block [b] still do. *)
Lemma names_keep G G' b r :
  (forall i, gh_mt G i = Some b -> gh_mt G' i = Some b) ->
  (forall h es, (h, es) ∈ gh_mtl G -> mtb_pba h = b -> exists h' es', (h', es') ∈ gh_mtl G' /\ mtb_pba h' = b) ->
  (forall h es, (h, es) ∈ gh_dl G -> dlb_pba h = b -> exists h' es', (h', es') ∈ gh_dl G' /\ dlb_pba h' = b) ->
  (forall lba, gh_data G lba = Some b -> gh_data G' lba = Some b) ->
  (b ∈ gh_gar G -> b ∈ gh_gar G') -> (gh_gt G = Some b -> gh_gt G' = Some b) ->
  names G b r -> names G' b r.
Proof.
  intros H1 H2 H3 H4 H5 H6. destruct r; cbn; auto.
  - intros (h & es & Hin & Hb). by apply (H2 h es).
  - intros (h & es & Hin & Hb). by apply (H3 h es).
Qed.
(** Block [b] changes hands. *)
Lemma named_step G G' b r :
  named G -> gh_own G' = upd (gh_own G) b r -> names G' b r ->
  (forall c, c <> b -> names G c (gh_own G c) -> names G' c (gh_own G c)) -> named G'.
Proof.
  intros HN Ho Hb Hc c. rewrite Ho. unfold upd. case_decide; [by subst|]. apply Hc; [done|apply HN].
Qed.

(** An access that leaves the pages alone. *)
Lemma ftl_inv_same w w' a pg G : ftl_inv w a pg G -> same_pages g w w' -> ftl_inv w' a pg G.
Proof.
  intros [H1 H2 H3 H4 H7 H8 [T1 T2 T3]] HS. pose proof HS as [S1 S2 S3 S4 S5 S6]. split; auto.
  - eapply erased_ok_iff; [done|]. intros b p _. by rewrite S3.
  - split; [|done|by rewrite S6].
    eapply told_step; [exact H7|exact T1|..]; intros; left; split_and!; try done; by apply same_data_pages.
Qed.

(** Without a GarbageTab block its fill level does not matter. *)
Lemma ftl_inv_pg w a pg pg' G : gh_gt G = None -> ftl_inv w a pg G -> ftl_inv w a pg' G.
Proof.
  intros Hg [H1 H2 H3 H4 H7 [E1 E2 E3 E4] [[T1 T2 T3 T4 T5 T6] TN TB]]. split; auto.
  - split; auto. congruence.
  - split; auto. split; auto. congruence.
Qed.

(** Changes to a block whose owner keeps no pages erased. *)
Lemma erased_ok_block w w' pg G b :
  erased_ok w pg G -> only_block g w w' b -> gh_own G b = RBusy \/ gh_own G b = ROther ->
  (forall h es, (h, es) ∈ gh_mtl G -> gh_own G (mtb_pba h) = RMtl (mtb_mtindx h)) ->
  (forall h es, (h, es) ∈ gh_dl G -> gh_own G (dlb_pba h) = RDl (dlb_lba h)) ->
  (forall b, gh_gt G = Some b -> gh_own G b = RGt) ->
  erased_ok w' pg G.
Proof.
  intros [H1 H2 H3 H4] Ho Hb Om Od Og. split.
  - intros c p Hc Hr. apply (ob_erased _ _ _ _ Ho); [done|intros ->; destruct Hb; congruence|by apply H1].
  - intros h es p Hin Hc Hu. apply (ob_erased _ _ _ _ Ho); [done| |by eapply H2].
    intros E. specialize (Om _ _ Hin). rewrite E in Om. destruct Hb; congruence.
  - intros h es p Hin Hc Hu. apply (ob_erased _ _ _ _ Ho); [done| |by eapply H3].
    intros E. specialize (Od _ _ Hin). rewrite E in Od. destruct Hb; congruence.
  - intros c p Hg Hc Hu. apply (ob_erased _ _ _ _ Ho); [done| |by apply H4].
    intros ->. specialize (Og _ Hg). destruct Hb; congruence.
Qed.

(** Writing to a block that has been taken but is in no table yet. *)
Lemma ftl_inv_busy w w' a pg G b :
  ftl_inv w a pg G -> only_block g w w' b -> gh_own G b = RBusy -> ftl_inv w' a pg G.
Proof.
  intros [H1 H2 H3 H4 H7 H8 [T1 T2 T3]] Ho Hb. split; auto.
  - apply Ho.
  - by apply (ob_good _ _ _ _ Ho).
  - by apply (ob_wgood _ _ _ _ Ho).
  - eapply erased_ok_block; [done|done|by left| | |].
    + intros h es Hin. by apply (ow_mtl _ _ H7 h es).
    + intros h es Hin. by apply (ow_dl _ _ H7 h es).
    + intros c Hc. by apply (ow_gt _ _ H7 c).
  - split; [|done|by rewrite (ob_bad _ _ _ _ Ho)].
    eapply told_off; [exact H7|exact T1|eapply unnamed_role; [exact H7|right; left; exact Hb]|].
    intros c Hc. by eapply same_data_block.
Qed.

(** ** Taking and giving back blocks *)

(** The owner of such a block may change. *)
Lemma owners_set_own a a' G b r :
  owners a G -> unnamed G b -> in_chip b ->
  (forall c, block_free a' c <-> if decide (c = b) then r = RFree else block_free a c) ->
  owners a' (set_own b r G).
Proof.
  intros [H1 H2 H3 H4 H5 H6 H7 H8] [U1 U2 U3 U4 U5 U6] Hb Ha.
  split; cbn [set_own gh_dl gh_mt gh_mtl gh_data gh_gar gh_gt].
  - intros c. rewrite Ha. cbn. unfold upd. case_decide; [|apply H1]. subst c. tauto.
  - intros i c Hc. rewrite own_set_ne; [by apply H2|]. intros ->. by apply (U1 i).
  - intros h es Hin. rewrite own_set_ne; [by eapply H3|by eapply U2].
  - intros h es Hin. rewrite own_set_ne; [by eapply H4|by eapply U3].
  - intros lba c Hc. rewrite own_set_ne; [by apply H5|]. intros ->. by apply (U4 lba).
  - intros c Hc. rewrite own_set_ne; [by apply H6|]. by intros ->.
  - done.
  - intros c Hc. rewrite own_set_ne; [by apply H8|]. intros ->. by apply U6.
Qed.

Lemma erased_ok_set_own w pg G b r :
  erased_ok w pg G -> (r = RFree -> forall p, on_chip g b p -> nd_erased w b p) ->
  erased_ok w pg (set_own b r G).
Proof.
  intros [E1 E2 E3 E4] Hr. split; auto. intros c p Hc. cbn. unfold upd. case_decide; [subst; auto|by apply E1].
Qed.

(** The same for what the flash tells. *)
Lemma tells_set_own w pg G b r :
  tells w pg G -> gh_own G b <> ROther -> names G b r -> r <> ROther -> tells w pg (set_own b r G).
Proof.
  intros [[T1 T2 T3 T4 T5 T6] TN TB] Hb Hn Hr. split; [by split| |].
  - eapply (named_step G); [done|done|by destruct r|by intros c; destruct (gh_own G c)].
  - intros c Hc. rewrite TB by done. cbn. unfold upd. case_decide; [|done]. subst. tauto.
Qed.

Lemma get_free_inv s G (Q : Z -> nftl W -> Prop) :
  inv s G -> 0 < nfree s ->
  (forall b s', inv s' (set_own b RBusy G) -> in_chip b -> gh_own G b = RFree ->
     s' = with_alloc (n_alloc s') s -> nfree s' = nfree s - 1 ->
     (forall p, on_chip g b p -> nd_erased (world s) b p) -> Q b s') ->
  wp (onA (nftl_get_free_block g)) Q s.
Proof.
  intros [H1 H2 H3 H4 H7 H8 HT] Hf HQ. unfold wp, onA, zoom.
  rewrite nftl_get_free_block_ok by done.
  destruct (first_free _ _) as [b|] eqn:E.
  - apply first_free_Some in E as [_ Hfr]. destruct (proj1 (ow_free _ _ H7 b) Hfr) as [Hb Ho].
    apply HQ; [|done|done|done| |].
    + split; auto.
      * by apply take_block_ok.
      * eapply owners_set_own; [done|eapply unnamed_role; [done|by left]|done|]. intros c.
        destruct H4 as [Ht Hc Hl]. change (block_free (take_block b (n_alloc s)) c <->
          if decide (c = b) then RBusy = RFree else block_free (n_alloc s) c).
        rewrite (take_block_free g) by (done || by split). case_decide; [|tauto]. split; [tauto|done].
      * by apply erased_ok_set_own.
      * apply tells_set_own; [done|by rewrite Ho|done|done].
    + unfold nfree. cbn. rewrite u16_id; [done|].
      destruct H4 as [Ht Hc Hl]. pose proof (count_range g _ Ht) as Hr. rewrite <- Hc in Hr.
      unfold nfree, in_u16, BLOCKSTATUS_LEN in *. lia.
    + intros p Hp. by apply (er_free _ _ _ H8).
  - exfalso. rewrite first_free_None in E. destruct H4 as [Ht Hc Hl].
    assert (free_blkcnt (n_alloc s) = 0); [|unfold nfree in *; lia].
    apply (free_count_zero _ Hc). intros b Hbf. apply (E b); [|done].
    apply elem_of_scan_order; [lia|]. by eapply block_free_range.
Qed.

(** Giving an erased block back. *)
Lemma set_block_free_inv s G b (Q : Z -> nftl W -> Prop) :
  inv s G -> in_chip b -> gh_own G b = RBusy ->
  (forall p, on_chip g b p -> nd_erased (world s) b p) ->
  (forall s', inv s' (set_own b RFree G) -> s' = with_alloc (n_alloc s') s ->
     nfree s' = nfree s + 1 -> Q 0 s') ->
  wp (onA (nftl_set_block_free g b)) Q s.
Proof.
  intros [H1 H2 H3 H4 H7 H8 HT] Hb Ho He HQ. destruct H4 as [Ht Hc Hl].
  assert (Hnf : ~ block_free (n_alloc s) b).
  { intros Hf. apply (ow_free _ _ H7) in Hf. destruct Hf. congruence. }
  pose proof (tab_len _ _ Ht). pose proof (tab_blks _ _ Ht). unfold in_chip in Hb.
  unfold wp, onA, zoom. rewrite nftl_set_block_free_run, decide_False by (done || lia).
  pose proof (set_status_table_ok g (n_alloc s) b 0xff Ht ltac:(lia) ltac:(right; lia)) as Ht'.
  pose proof (count_ok_set_status g _ b 0xff (free_blkcnt (n_alloc s) + 1) Ht ltac:(lia) Hc) as Hc'.
  rewrite decide_False in Hc' by done. rewrite decide_False in Hc' by done.
  specialize (Hc' ltac:(lia)). pose proof (count_range g _ Ht') as Hr.
  assert (Hu : u16 (free_blkcnt (n_alloc s) + 1) = free_blkcnt (n_alloc s) + 1).
  { apply u16_id. unfold in_u16, BLOCKSTATUS_LEN in *. lia. }
  apply HQ; [|done|exact Hu]. split; auto.
  - split; [by destruct Ht'; split|unfold count_ok; cbn; rewrite Hu; exact Hc'|done].
  - eapply owners_set_own; [done|eapply unnamed_role; [done|by right; left]|done|]. intros c.
    change (block_free (set_status (n_alloc s) b 0xff) c <->
      if decide (c = b) then RFree = RFree else block_free (n_alloc s) c).
    rewrite block_free_set_status by lia. by case_decide.
  - by apply erased_ok_set_own.
  - apply tells_set_own; [done|by rewrite Ho|done|done].
Qed.

(** Taking a block out of the garbage list or of the garbage table. *)
Lemma release_gar w a pg G b rest :
  ftl_inv w a pg G -> gh_gar G = b :: rest ->
  ftl_inv w a pg (set_own b RBusy (set_ggar rest G)).
Proof.
  intros [H1 H2 H3 H4 H7 H8 [T1 TN TB]] Hg. destruct (ow_gar _ _ H7 b) as [Hb Ho]; [rewrite Hg; left|].
  pose proof (ow_gar_nodup _ _ H7) as Hnd. rewrite Hg in Hnd. apply NoDup_cons in Hnd as [Hni Hnd].
  split; auto.
  - eapply owners_set_own; [| |done|].
    + destruct H7 as [O1 O2 O3 O4 O5 O6 O7 O8]. split; auto. intros c Hc. apply O6. rewrite Hg. by right.
    + destruct H7 as [O1 O2 O3 O4 O5 O6 O7 O8]. split; cbn [set_ggar gh_mt gh_mtl gh_dl gh_data gh_gar gh_gt].
      * intros i Hc. destruct (O2 i b Hc). congruence.
      * intros h es Hin <-. destruct (O3 h es Hin) as (? & ?). congruence.
      * intros h es Hin <-. destruct (O4 h es Hin) as (? & ?). congruence.
      * intros lba Hc. destruct (O5 lba b Hc). congruence.
      * done.
      * intros Hc. destruct (O8 b Hc). congruence.
    + intros c. case_decide; [|done]. subst. rewrite (ow_free _ _ H7), Ho. split; [by intros []|done].
  - apply erased_ok_set_own; [|done]. by destruct H8; split.
  - split.
    + destruct T1 as [T1 T2 T3 T4 T5 T6]. split; try done. cbn. intros c Hc. apply T5. rewrite Hg. by right.
    + eapply (named_step G); [done|done|done|]. intros c Hc. eapply names_keep; cbn; eauto.
      rewrite Hg. intros [?|?]%elem_of_cons; [by subst|done].
    + intros c Hc. rewrite TB by done. cbn. unfold upd. case_decide; [|done]. subst. by rewrite Ho.
Qed.

Lemma release_gt w a pg pg' G b :
  ftl_inv w a pg G -> gh_gt G = Some b ->
  ftl_inv w a pg' (set_own b RBusy (set_ggt None G)).
Proof.
  intros [H1 H2 H3 H4 H7 H8 [T1 TN TB]] Hg. destruct (ow_gt _ _ H7 b Hg) as [Hb Ho].
  split; auto.
  - eapply owners_set_own; [| |done|].
    + destruct H7 as [O1 O2 O3 O4 O5 O6 O7 O8]. by split; auto.
    + destruct H7 as [O1 O2 O3 O4 O5 O6 O7 O8]. split; cbn [set_ggt gh_mt gh_mtl gh_dl gh_data gh_gar gh_gt].
      * intros i Hc. destruct (O2 i b Hc). congruence.
      * intros h es Hin <-. destruct (O3 h es Hin) as (? & ?). congruence.
      * intros h es Hin <-. destruct (O4 h es Hin) as (? & ?). congruence.
      * intros lba Hc. destruct (O5 lba b Hc). congruence.
      * intros Hc. destruct (O6 b Hc). congruence.
      * done.
    + intros c. case_decide; [|done]. subst. rewrite (ow_free _ _ H7), Ho. split; [by intros []|done].
  - apply erased_ok_set_own; [|done]. destruct H8 as [E1 E2 E3 E4]. by split.
  - split.
    + destruct T1 as [T1 T2 T3 T4 T5 T6]. by split.
    + eapply (named_step G); [done|done|done|]. intros c Hc. eapply names_keep; cbn; eauto. rewrite Hg. by intros [= ->].
    + intros c Hc. rewrite TB by done. cbn. unfold upd. case_decide; [|done]. subst. by rewrite Ho.
Qed.

(** ** A block changes hands *)

(** Block [b], which is not free, gets the owner [r]; the tables name it
    accordingly, and the other blocks as before. *)
Record handover G G' b r : Prop := {
  ho_own : gh_own G' = upd (gh_own G) b r;
  ho_mt : forall i c, gh_mt G' i = Some c -> if decide (c = b) then r = RMt i else gh_mt G i = Some c;
  ho_mtl : forall h es, (h, es) ∈ gh_mtl G' ->
    if decide (mtb_pba h = b) then r = RMtl (mtb_mtindx h)
    else exists h0 es0, (h0, es0) ∈ gh_mtl G /\ mtb_pba h0 = mtb_pba h /\ mtb_mtindx h0 = mtb_mtindx h;
  ho_dl : forall h es, (h, es) ∈ gh_dl G' ->
    if decide (dlb_pba h = b) then r = RDl (dlb_lba h)
    else exists h0 es0, (h0, es0) ∈ gh_dl G /\ dlb_pba h0 = dlb_pba h /\ dlb_lba h0 = dlb_lba h;
  ho_data : forall lba c, gh_data G' lba = Some c ->
    if decide (c = b) then r = RData lba else gh_data G lba = Some c;
  ho_gar : forall c, c ∈ gh_gar G' -> if decide (c = b) then r = RGar else c ∈ gh_gar G;
  ho_nodup : NoDup (gh_gar G');
  ho_gt : forall c, gh_gt G' = Some c -> if decide (c = b) then r = RGt else gh_gt G = Some c
}.

Lemma owners_handover a G G' b r :
  owners a G -> handover G G' b r -> in_chip b -> gh_own G b <> RFree -> r <> RFree -> owners a G'.
Proof.
  intros [O1 O2 O3 O4 O5 O6 O7 O8] [Ho Hmt Hmtl Hdl Hdata Hgar Hnd Hgt] Hb Hf Hr.
  split; rewrite ?Ho; unfold upd.
  - intros c. rewrite O1. case_decide; [subst; tauto|done].
  - intros i c Hc. specialize (Hmt i c Hc). case_decide; [by subst|by apply O2].
  - intros h es Hin. specialize (Hmtl h es Hin). case_decide; [by subst|].
    destruct Hmtl as (h0 & es0 & Hin0 & E1 & E2). rewrite <- E1, <- E2. by eapply O3.
  - intros h es Hin. specialize (Hdl h es Hin). case_decide; [by subst|].
    destruct Hdl as (h0 & es0 & Hin0 & E1 & E2). rewrite <- E1, <- E2. by eapply O4.
  - intros lba c Hc. specialize (Hdata lba c Hc). case_decide; [by subst|by apply O5].
  - intros c Hc. specialize (Hgar c Hc). case_decide; [by subst|by apply O6].
  - done.
  - intros c Hc. specialize (Hgt c Hc). case_decide; [by subst|by apply O8].
Qed.

(** A block without owner enters a table. *)
Lemma unnamed_keep a G b : owners a G -> gh_own G b = RBusy ->
  (forall i c, gh_mt G i = Some c -> c <> b) /\
  (forall h es, (h, es) ∈ gh_mtl G -> mtb_pba h <> b) /\
  (forall h es, (h, es) ∈ gh_dl G -> dlb_pba h <> b) /\
  (forall lba c, gh_data G lba = Some c -> c <> b) /\
  (forall c, c ∈ gh_gar G -> c <> b) /\ (forall c, gh_gt G = Some c -> c <> b).
Proof.
  intros Ho Hb. destruct (unnamed_role a G b Ho) as [U1 U2 U3 U4 U5 U6]; [by right; left|].
  split_and!; [intros i c Hc ->; by apply (U1 i)|done|done|intros lba c Hc ->; by apply (U4 lba)|
    by intros c Hc ->|intros c Hc ->; by apply U6].
Qed.
Lemma handover_enter a G G' b r :
  owners a G -> gh_own G b = RBusy -> gh_own G' = upd (gh_own G) b r -> NoDup (gh_gar G') ->
  (forall i c, gh_mt G' i = Some c -> gh_mt G i = Some c \/ (c = b /\ r = RMt i)) ->
  (forall h es, (h, es) ∈ gh_mtl G' -> (h, es) ∈ gh_mtl G \/ (mtb_pba h = b /\ r = RMtl (mtb_mtindx h))) ->
  (forall h es, (h, es) ∈ gh_dl G' -> (h, es) ∈ gh_dl G \/ (dlb_pba h = b /\ r = RDl (dlb_lba h))) ->
  (forall lba c, gh_data G' lba = Some c -> gh_data G lba = Some c \/ (c = b /\ r = RData lba)) ->
  (forall c, c ∈ gh_gar G' -> c ∈ gh_gar G \/ (c = b /\ r = RGar)) ->
  (forall c, gh_gt G' = Some c -> gh_gt G = Some c \/ (c = b /\ r = RGt)) ->
  handover G G' b r.
Proof.
  intros HO Hb Ho Hnd H1 H2 H3 H4 H5 H6.
  destruct (unnamed_keep a G b HO Hb) as (U1 & U2 & U3 & U4 & U5 & U6). split; try done.
  - intros i c Hc. destruct (H1 i c Hc) as [Hc'|[-> ->]]; case_decide; subst; try done.
    by eapply U1 in Hc'.
  - intros h es Hin. destruct (H2 h es Hin) as [Hin'|[<- ->]]; case_decide; try done.
    + by eapply U2 in Hin'.
    + by exists h, es.
  - intros h es Hin. destruct (H3 h es Hin) as [Hin'|[<- ->]]; case_decide; try done.
    + by eapply U3 in Hin'.
    + by exists h, es.
  - intros lba c Hc. destruct (H4 lba c Hc) as [Hc'|[-> ->]]; case_decide; subst; try done.
    by eapply U4 in Hc'.
  - intros c Hc. destruct (H5 c Hc) as [Hc'|[-> ->]]; case_decide; subst; try done.
    by eapply U5 in Hc'.
  - intros c Hc. destruct (H6 c Hc) as [Hc'|[-> ->]]; case_decide; subst; try done.
    by eapply U6 in Hc'.
Qed.

Lemma enter_gar w a pg G b :
  ftl_inv w a pg G -> in_chip b -> gh_own G b = RBusy -> gar_stored g w b ->
  ftl_inv w a pg (set_own b RGar (set_ggar (gh_gar G ++ [b]) G)).
Proof.
  intros [H1 H2 H3 H4 H7 H8 [T1 TN TB]] Hb Ho Hst. split; auto.
  - eapply owners_handover with (b := b) (r := RGar); [exact H7| |done|by rewrite Ho|done].
    eapply handover_enter; [done|done|done| |by left..| |by left].
    + cbn. apply NoDup_app. split_and!; [by apply H7| |apply NoDup_singleton].
      intros c Hc ->%list_elem_of_singleton. destruct (ow_gar _ _ H7 b Hc). congruence.
    + cbn. intros c [Hc| ->%list_elem_of_singleton]%elem_of_app; [by left|by right].
  - apply erased_ok_set_own; [|done]. by destruct H8; split.
  - split.
    + destruct T1 as [T1 T2 T3 T4 T5 T6]. split; try done. cbn.
      intros c [Hc| ->%list_elem_of_singleton]%elem_of_app; [by apply T5|done].
    + eapply (named_step G); [done|done|cbn; set_solver|]. intros c Hc. eapply names_keep; cbn; eauto. set_solver.
    + intros c Hc. rewrite TB by done. cbn. unfold upd. case_decide; [|done]. subst. by rewrite Ho.
Qed.

(** A new GarbageTab block, empty. *)
Lemma enter_gt w a G b :
  ftl_inv w a 0 G -> in_chip b -> gh_own G b = RBusy -> gh_gt G = None ->
  (forall p, on_chip g b p -> nd_erased w b p) ->
  ftl_inv w a 0 (set_own b RGt (set_ggt (Some b) G)).
Proof.
  intros [H1 H2 H3 H4 H7 H8 [T1 TN TB]] Hb Ho Hn He. split; auto.
  - eapply owners_handover with (b := b) (r := RGt); [exact H7| |done|by rewrite Ho|done].
    eapply handover_enter; [done|done|done|apply H7|by left..|].
    cbn. intros c [= ->]. by right.
  - apply erased_ok_set_own; [|done]. destruct H8 as [E1 E2 E3 E4]. split; auto.
    cbn. intros c p [= <-] Hc _. by apply He.
  - split.
    + destruct T1 as [T1 T2 T3 T4 T5 T6]. split; try done. cbn. intros c _. by apply gt_stored_empty.
    + eapply (named_step G); [done|done|done|]. intros c Hc. eapply names_keep; cbn; eauto. by rewrite Hn.
    + intros c Hc. rewrite TB by done. cbn. unfold upd. case_decide; [|done]. subst. by rewrite Ho.
Qed.

(** Filling the next page of the GarbageTab block with the names [l]. *)
Lemma write_gt_inv w w' a pg G b l :
  ftl_inv w a pg G -> gh_gt G = Some b -> only_page g w w' b pg -> pg < nr_pgsinblk g ->
  page_type g w' b pg = block_state_code GARBAGE_TAB_BLOCK -> si_tabindx (spare_at g w' b pg) = 0 ->
  0 <= si_thiscount (spare_at g w' b pg) * 2 <= writesize g -> si_thiscount (spare_at g w' b pg) <> 0xff ->
  gar_chunk (fst (nd_page w' b pg)) (si_thiscount (spare_at g w' b pg)) = l ->
  ftl_inv w' a (pg + 1) (set_ggtl (gh_gtl G ++ l) G).
Proof.
  intros [H1 H2 H3 H4 H7 [E1 E2 E3 E4] [T1 TN TB]] Hg Ho Hpg P1 P2 P3 P4 P5.
  destruct (ow_gt _ _ H7 b Hg) as [Hb Hob].
  split; [apply Ho|by apply (op_good _ _ _ _ _ Ho)|by apply (op_wgood _ _ _ _ _ Ho)|done|by destruct H7; split| |].
  - split.
    + intros c p Hc Hr. apply (op_erased _ _ _ _ _ Ho); [done|intros [= -> ->]; cbn in Hr; congruence|by apply E1].
    + intros h es p Hin Hc Hu. destruct (ow_mtl _ _ H7 _ _ Hin) as [_ Hr].
      apply (op_erased _ _ _ _ _ Ho); [done|intros [= E ->]; congruence|by eapply E2].
    + intros h es p Hin Hc Hu. destruct (ow_dl _ _ H7 _ _ Hin) as [_ Hr].
      apply (op_erased _ _ _ _ _ Ho); [done|intros [= E ->]; congruence|by eapply E3].
    + intros c p Hc Hp Hu. apply (op_erased _ _ _ _ _ Ho); [done|intros [= _ ->]; lia|].
      apply E4; [done|done|lia].
  - split; [|by intros c; specialize (TN c); cbn; destruct (gh_own G c)|by rewrite (op_bad _ _ _ _ _ Ho)].
    assert (Hs : forall c r, gh_own G c = r -> r <> RGt -> same_data g w w' c).
    { intros c r Hr Hne. eapply same_data_page; [done|]. intros ->. congruence. }
    eapply (told_step w w' pg); [exact H7|exact T1|..]; cbn.
    + intros i c Hc. left. split; [done|]. eapply Hs; [by apply (ow_mt _ _ H7 i)|done].
    + intros h es Hin. left. split; [done|]. eapply Hs; [by apply (ow_mtl _ _ H7 h es)|done].
    + intros h es Hin. left. split; [done|]. eapply Hs; [by apply (ow_dl _ _ H7 h es)|done].
    + intros lba c Hc. left. split; [done|]. eapply Hs; [by apply (ow_data _ _ H7 lba)|done].
    + intros c Hc. left. split; [done|]. eapply Hs; [by apply (ow_gar _ _ H7)|done].
    + rewrite Hg. intros c [= <-]. right. apply (gt_stored_grow g w); try done. by apply (td_gt _ _ _ T1).
Qed.

(** Erasing a block without owner. *)
Lemma mtd_erase_inv s G b (Q : Z -> nftl W -> Prop) :
  inv s G -> in_chip b -> gh_own G b = RBusy ->
  (forall f, inv (with_flash f s) G -> (forall p, on_chip g b p -> nd_erased (fl_world f) b p) ->
     only_block g (world s) (fl_world f) b -> fl_corrected f = fl_corrected (n_flash s) ->
     Q 0 (with_flash f s)) ->
  wp (onF (mtd_erase g b)) Q s.
Proof.
  intros HI Hb Ho HQ. destruct (mtd_erase_run g geo b (n_flash s) (fi_inv _ _ _ _ HI) Hb)
    as (e & f & H1 & H2 & _ & H3 & H4).
  specialize (H4 (fi_wgood _ _ _ _ HI)). subst e. unfold wp. rewrite (onF_run _ _ _ _ H1).
  apply HQ; [|by apply H3|done|by eapply mtd_erase_corrected]. eapply ftl_inv_busy; [exact HI|done|done].
Qed.

(** ** Accesses that succeed on a chip in working order *)
Lemma stack_inv s G n (Q : list Z -> nftl W -> Prop) :
  inv s G -> 0 <= n ->
  (forall l f, inv (with_flash f s) G -> same_pages g (world s) (fl_world f) ->
     fl_corrected f = fl_corrected (n_flash s) -> arr_len l = n -> Q l (with_flash f s)) ->
  wp (onF (stack n)) Q s.
Proof.
  intros HI Hn HQ. destruct (stack_run g n (n_flash s) (fi_inv _ _ _ _ HI) Hn) as (l & f & H1 & S1 & C1 & L1).
  unfold wp. rewrite (onF_run _ _ _ _ H1). apply HQ; [by eapply ftl_inv_same|done|done|done].
Qed.
Lemma kmalloc_inv s G n (Q : option (list Z) -> nftl W -> Prop) :
  inv s G -> 0 <= n ->
  (forall l f, inv (with_flash f s) G -> same_pages g (world s) (fl_world f) ->
     fl_corrected f = fl_corrected (n_flash s) -> arr_len l = n -> Q (Some l) (with_flash f s)) ->
  wp (onF (kmalloc n)) Q s.
Proof.
  intros HI Hn HQ. destruct (kmalloc_run g n (n_flash s) (fi_inv _ _ _ _ HI) Hn)
    as (m & f & H1 & S1 & C1 & L1 & G1).
  unfold wp. rewrite (onF_run _ _ _ _ H1). destruct m as [l|].
  - apply HQ; [by eapply ftl_inv_same|done|done|by apply L1].
  - exfalso. apply G1; [apply HI|done].
Qed.
Lemma mtd_write_inv s G b p buf oob (Q : Z * Z -> nftl W -> Prop) :
  inv s G -> on_chip g b p -> nd_erased (world s) b p ->
  writesize g <= arr_len buf -> oobsize g <= arr_len oob ->
  (forall f, only_page g (world s) (fl_world f) b p ->
     nd_page (fl_world f) b p = (take (Z.to_nat (writesize g)) buf, take (Z.to_nat (oobsize g)) oob) ->
     fl_corrected f = fl_corrected (n_flash s) ->
     Q (0, u32 (writesize g + oobsize g)) (with_flash f s)) ->
  wp (onF (mtd_write g b p buf oob 1)) Q s.
Proof.
  intros HI Hc He Hb Ho HQ.
  destruct (mtd_write_run g geo b p buf oob (n_flash s) (fi_inv _ _ _ _ HI) Hc Hb Ho)
    as (e & n & f & H1 & H2 & H3 & H4).
  specialize (H4 (fi_wgood _ _ _ _ HI)). subst e. destruct (H3 He eq_refl) as [H5 ->].
  unfold wp. rewrite (onF_run _ _ _ _ H1). apply HQ; [done|done|by eapply mtd_write_corrected].
Qed.
Lemma mtd_read_inv s G b p buf (Q : mtd_result -> nftl W -> Prop) :
  inv s G -> on_chip g b p -> writesize g <= arr_len buf ->
  (forall r f, inv (with_flash f s) G -> same_pages g (world s) (fl_world f) ->
     r_ret r = 0 -> r_buf r = blit (fst (nd_page (world s) b p)) buf ->
     fl_corrected f <= ECC_ERR_LIMIT -> Q r (with_flash f s)) ->
  wp (onF (mtd_read g b p (Some buf) None 1)) Q s.
Proof.
  intros HI Hc Hb HQ.
  destruct (mtd_read_data_run g geo b p buf (n_flash s) (fi_inv _ _ _ _ HI) Hc Hb)
    as (r & f & H1 & S1 & _ & H2 & H3).
  destruct (H3 (fi_good _ _ _ _ HI)) as [E Hcor]. unfold wp. rewrite (onF_run _ _ _ _ H1).
  apply HQ; [by eapply ftl_inv_same|done|done|by apply H2|done].
Qed.
End Inv.

(** ** A concrete state

    The simulated chip of 64 blocks: blocks 3 to 63 are free, 0 and 2 are bad,
    2 holds a page all the same, and 1 has been taken and was a data block. *)
Section Example.
Notation g := small_geo.
#[local] Instance inv_world : World chip := chip_world g.
#[local] Instance inv_laws : NandLaws chip g := chip_laws g small_geo_ok.

Definition inv_chip : chip := MkChip
  (list_to_map [(page_addr g 1 0, (replicate 32 3, 0xfe :: replicate 7 0));
                (page_addr g 2 0, (replicate 32 7, replicate 8 9))]) [0; 256] [] [] 1.
Definition inv_gar : gar_ram := MkGar [0xffff] 0 (replicate 256 0) 0.
Definition inv_state : nftl chip := with_gar inv_gar (with_alloc alloc_ex (initial inv_chip)).
Definition inv_own (b : Z) : role :=
  if decide (3 <= b < 64) then RFree else if decide (b = 1) then RBusy else ROther.
Definition inv_ghost : ghost := MkGhost inv_own [] (fun _ => None) [] (fun _ => None) [] None [].

Lemma alloc_ex_free b : block_free alloc_ex b <-> 3 <= b < 64.
Proof.
  split.
  - intros Hf. destruct alloc_ex_ok as [Ht _ _].
    pose proof (block_free_range _ _ _ Ht Hf) as Hr. change (nr_blks alloc_geo) with 64 in Hr.
    destruct (decide (b < 3)); [|lia]. destruct Hf as (v & Hv & Hne). exfalso. apply Hne.
    assert (b = 0 \/ b = 1 \/ b = 2) as [->|[->| ->]] by lia; vm_compute in Hv; congruence.
  - intros Hb. exists 0xff. split; [|done]. unfold arr_get. destruct (0 <=? b) eqn:E; zbool; [|lia].
    change (blockstatus alloc_ex) with (replicate 3 0 ++ replicate 61 0xff ++ replicate 4032 0).
    rewrite lookup_app_r by (rewrite length_replicate; lia).
    rewrite lookup_app_l by (rewrite !length_replicate; lia).
    apply lookup_replicate_2. rewrite length_replicate. lia.
Qed.

(** Blocks 0 and 2 are bad. *)
Lemma bad_example b : zmem (b * 128) [0; 256] = true <-> b = 0 \/ b = 2.
Proof.
  unfold zmem. cbn [existsb]. rewrite orb_false_r, orb_true_iff, !Z.eqb_eq. lia.
Qed.

Lemma inv_example : inv g inv_state inv_ghost.
Proof.
  split.
  - apply map_Forall_lookup_2. intros i x Hx. apply elem_of_list_to_map_2 in Hx.
    rewrite !elem_of_cons, elem_of_nil in Hx.
    destruct Hx as [E|[E|[]]]; injection E as _ ->; (split; vm_compute; reflexivity).
  - by split.
  - done.
  - apply alloc_ex_ok.
  - split; try done.
    + intros b. change (n_alloc inv_state) with alloc_ex. rewrite alloc_ex_free. unfold in_chip.
      change (nr_blks g) with 64. cbn. unfold inv_own.
      repeat case_decide; (split; [intros; split|intros [? ?]]); (lia || congruence).
    + intros h es H. inversion H.
    + intros h es H. inversion H.
    + intros b H. inversion H.
    + apply NoDup_nil_2.
  - split.
    + intros b p [_ Hp] Ho. cbn in Ho. unfold inv_own in Ho. case_decide; [|by case_decide].
      apply not_elem_of_list_to_map_1. change (nr_pgsinblk g) with 4 in Hp.
      change (b * 128 + p * 32 ∉ [1 * 128 + 0 * 32; 2 * 128 + 0 * 32]).
      rewrite !not_elem_of_cons. split_and!; [lia|lia|apply not_elem_of_nil].
    + intros h es p H. inversion H.
    + intros h es p H. inversion H.
    + done.
  - split.
    + split; try done; intros h; intros; inversion H.
    + intros b. cbn. unfold inv_own. by repeat case_decide.
    + intros b [Hb Hb']. change (zmem (b * 128) [0; 256] = true <-> inv_own b = ROther). rewrite bad_example.
      unfold inv_own. change (nr_blks g) with 64 in Hb'. repeat case_decide; split; (done || lia).
Qed.

Lemma gar_rep_example : gar_rep g inv_gar inv_ghost.
Proof. split; [split|..]; try done. by exists (replicate 256 0). Qed.

Lemma retired_example : gar_stored g (world inv_state) 1.
Proof. exists DATA_BLOCK. split; [set_solver|reflexivity]. Qed.
End Example.
