(* ===== verification/NftlGarbageSpec.v ===== *)
(** * NFTL: the garbage table, specified

    On a chip in working order [nftl_addto_gt] takes the blocks it is given
    out of use: they end in the garbage list or, when the garbage is
    reclaimed, erased in the free table, and no live block is touched. *)

From Stdlib Require Import ZArith Lia.
From stdpp Require Import base numbers list sets.
From S2P Require Import Prelude CMonad NftlTypes NftlAlloc NftlLog NftlDl NftlMtl MtdDev NftlState.
From S2P Require Import NandLaws NftlFlash NftlFlashSpec NftlGarbage NftlTold NftlInv MtdSim ChipLaws.

Section Garbage.
Context {W : Type} {WW : World W} (g : mtd_info) {N : NandLaws W g}.
Hypothesis geo : nand_geo g.
Implicit Types (s : nftl W) (w : W) (G : ghost) (b p : Z).

(** Only the chip and the free table differ. *)
Definition flash_alloc_only s s' : Prop := s' = with_alloc (n_alloc s') (with_flash (n_flash s') s).

(** The ghost tables other than the garbage are the same. *)
Definition same_tables G G' : Prop :=
  gh_dl G' = gh_dl G /\ gh_mt G' = gh_mt G /\ gh_mtl G' = gh_mtl G /\ gh_data G' = gh_data G.

(** The blocks [bs] have been erased and are free. *)
Record reclaimed (bs : list Z) s G s' G' : Prop := {
  rl_inv : inv g s' G';
  rl_state : flash_alloc_only s s';
  rl_tables : same_tables G G';
  rl_own : forall b, b ∉ bs -> gh_own G' b = gh_own G b;
  rl_free : forall b, b ∈ bs -> gh_own G' b = RFree;
  rl_page : forall b p, b ∉ bs -> on_chip g b p -> nd_page (world s') b p = nd_page (world s) b p;
  rl_nfree : nfree s' = nfree s + arr_len bs;
  rl_quiet : quiet s -> quiet s';
  rl_bad : nd_bad (world s') = nd_bad (world s)
}.

Lemma reclaimed_nil s G : inv g s G -> reclaimed [] s G s G.
Proof.
  intros HI. split; try done.
  - by destruct s.
  - intros b Hb. inversion Hb.
  - unfold arr_len. cbn. lia.
Qed.

Lemma in_chip_no_ffff b : in_chip g b -> b <> 0xffff.
Proof. unfold in_chip. pose proof (ng_blks g geo). unfold BLOCKSTATUS_LEN in *. lia. Qed.

(** Erasing a block that has been taken out of the tables and freeing it. *)
Lemma erase_and_free s G b :
  inv g s G -> in_chip g b -> gh_own G b = RBusy ->
  wp (onF (mtd_erase g b)) (fun e s1 => e = 0 /\
    wp (onA (nftl_set_block_free g b))
      (fun r s' => r = 0 /\ reclaimed [b] s G s' (set_own b RFree G)) s1) s.
Proof.
  intros HI Hb Ho. eapply mtd_erase_inv; [done|done|done|done|].
  intros f HI' He Hob Hcor. split; [done|].
  eapply set_block_free_inv; [done|done|done|exact He|].
  intros s' HI'' Hs' Hn. split; [done|]. split.
  - done.
  - unfold flash_alloc_only. by rewrite Hs'.
  - done.
  - intros c Hc. apply own_set_ne. set_solver.
  - intros c Hc%list_elem_of_singleton. subst. apply own_set_eq.
  - intros c p Hc Hp. rewrite Hs'. apply (ob_page _ _ _ _ Hob); [done|set_solver].
  - rewrite Hn. unfold arr_len, nfree. cbn. lia.
  - unfold quiet. rewrite Hs'. cbn. by rewrite Hcor.
  - rewrite Hs'. apply (ob_bad _ _ _ _ Hob).
Qed.

Lemma reclaimed_trans bs1 bs2 s1 G1 s2 G2 s3 G3 :
  reclaimed bs1 s1 G1 s2 G2 -> reclaimed bs2 s2 G2 s3 G3 -> (forall b, b ∈ bs1 -> b ∉ bs2) ->
  reclaimed (bs1 ++ bs2) s1 G1 s3 G3.
Proof.
  intros [A1 A2 A3 A4 A5 A6 A7 A8 A9] [B1 B2 B3 B4 B5 B6 B7 B8 B9] Hd. split.
  - done.
  - unfold flash_alloc_only in *. rewrite B2, A2. by destruct s1.
  - destruct A3 as (? & ? & ? & ?), B3 as (? & ? & ? & ?). unfold same_tables. split_and!; congruence.
  - intros b Hb. rewrite B4, A4; set_solver.
  - intros b [Hb|Hb]%elem_of_app; [rewrite B4; auto|auto].
  - intros b p Hb Hp. rewrite B6, A6; set_solver.
  - rewrite B7, A7, arr_len_app. lia.
  - auto.
  - congruence.
Qed.

(** The blocks of the garbage list. *)
Lemma reclaim_loop rest : forall i ret0 s G,
  inv g s G -> gh_gar G = rest ->
  (forall j, 0 <= j < arr_len rest -> arr_get (gar_pbas (n_gar s)) (i + j) = arr_get rest j) ->
  wp (forL (length rest) i ret0 (reclaim_block g))
    (fun r s' => exists e G', r = inl e /\ e = match rest with [] => ret0 | _ => 0 end /\
       reclaimed rest s G s' G' /\
       gh_gar G' = [] /\ gh_gt G' = gh_gt G) s.
Proof.
  induction rest as [|b rest IH]; intros i ret0 s G HI Hg Ha; cbn [length forL].
  - unfold wp, ret. exists ret0, G. split_and!; try done. by apply reclaimed_nil.
  - pose proof (Ha 0 ltac:(rewrite arr_len_cons; pose proof (arr_len_nonneg rest); lia)) as H0.
    rewrite Z.add_0_r in H0. cbn in H0.
    destruct (ow_gar _ _ _ (fi_own _ _ _ _ _ HI) b) as [Hb Ho]; [rewrite Hg; left|].
    pose proof (ow_gar_nodup _ _ _ (fi_own _ _ _ _ _ HI)) as Hnd. rewrite Hg in Hnd.
    apply NoDup_cons in Hnd as [Hni Hnd].
    pose proof (release_gar _ _ _ _ _ _ _ HI Hg) as HI1. set (G1 := set_own b RBusy (set_ggar rest G)) in *.
    apply wp_bind. unfold reclaim_block, gar_pba. apply wp_bind. apply wp_bind, wp_gets.
    apply wp_assert_some. exists b. split; [done|].
    apply in_chip_no_ffff in Hb as Hff. apply Z.eqb_neq in Hff. rewrite Hff. cbn [negb].
    apply wp_bind. eapply wp_mono; [eapply (erase_and_free s G1 b); [exact HI1|done|apply own_set_eq]|].
    intros e s1 [-> Hw]. cbn [truth Z.eqb negb]. apply wp_bind. eapply wp_mono; [exact Hw|].
    intros e s2 [-> Hr]. apply wp_ret.
    pose proof (rl_state _ _ _ _ _ Hr) as Hst.
    eapply wp_mono; [apply (IH (i + 1) 0 s2 (set_own b RFree G1)); [apply Hr|done|]|].
    { intros j Hj. rewrite Hst. pose proof (Ha (j + 1)) as H1. rewrite arr_len_cons in H1.
      replace (i + (j + 1)) with (i + 1 + j) in H1 by lia. cbn. rewrite H1 by lia.
      rewrite arr_get_cons. destruct (j + 1 =? 0) eqn:E; zbool; [lia|]. by rewrite Z.add_simpl_r. }
    intros r s3 (e & G' & -> & He & Hr' & Hg' & Ht'). exists e, G'.
    split_and!; [done|rewrite He; by destruct rest| |done|done].
    assert (Hr1 : reclaimed [b] s G s2 (set_own b RFree G1)).
    { destruct Hr as [A1 A2 A3 A4 A5 A6 A7 A8 A9]. split; try done. intros c Hc. rewrite A4 by done.
      unfold G1. rewrite own_set_ne by set_solver. done. }
    eapply (reclaimed_trans [b] rest); [exact Hr1|exact Hr'|set_solver].
Qed.

(** The blocks [bs] are given up; the other live blocks, and the tables that
    have to do with them, are as before. *)
Record kept (bs : list Z) s G s' G' : Prop := {
  kp_state : s' = with_gar (n_gar s') (with_alloc (n_alloc s') (with_flash (n_flash s') s));
  kp_tables : same_tables G G';
  kp_own : forall b, live (gh_own G b) = true -> b ∉ bs -> gh_own G' b = gh_own G b;
  kp_dead : forall b, live (gh_own G b) = false -> live (gh_own G' b) = false;
  kp_page : forall b p, on_chip g b p -> live (gh_own G b) = true -> b ∉ bs ->
    nd_page (world s') b p = nd_page (world s) b p;
  kp_spare : spare_blocks s' G' = spare_blocks s G + arr_len bs;
  kp_quiet : quiet s -> quiet s';
  kp_bad : nd_bad (world s') = nd_bad (world s)
}.
Lemma kept_trans bs1 bs2 s1 G1 s2 G2 s3 G3 :
  kept bs1 s1 G1 s2 G2 -> kept bs2 s2 G2 s3 G3 -> kept (bs1 ++ bs2) s1 G1 s3 G3.
Proof.
  intros [A1 A2 A3 A6 A4 A5 A7 A8] [B1 B2 B3 B6 B4 B5 B7 B8]. split.
  - rewrite B1, A1. by destruct s1.
  - destruct A2 as (? & ? & ? & ?), B2 as (? & ? & ? & ?). unfold same_tables. split_and!; congruence.
  - intros b Hl [Hb1 Hb2]%not_elem_of_app. rewrite B3; [by apply A3| |done]. by rewrite A3.
  - auto.
  - intros b p Hc Hl [Hb1 Hb2]%not_elem_of_app. rewrite B4; [by apply A4|done| |done]. by rewrite A3.
  - rewrite B5, A5, arr_len_app. lia.
  - auto.
  - congruence.
Qed.
Lemma kept_refl s G : kept [] s G s G.
Proof.
  split; [by destruct s|done|done|done|done| |done|done]. change (arr_len []) with 0. lia.
Qed.
Lemma kept_flash s G f : same_pages g (world s) (fl_world f) ->
  (fl_corrected f = fl_corrected (n_flash s) \/ fl_corrected f <= ECC_ERR_LIMIT) ->
  kept [] s G (with_flash f s) G.
Proof.
  intros S1 Hcor. split; [by destruct s|done|done|done| | | |apply (sp_bad _ _ _ S1)].
  3:{ unfold quiet. cbn. by destruct Hcor as [->|?]. }
  2:{ change (arr_len []) with 0. unfold spare_blocks, nfree. cbn. lia. }
  intros b p _ _ _. change (world (with_flash f s)) with (fl_world f). by rewrite (sp_page _ _ _ S1).
Qed.

(** They end in the garbage list or in the free table. *)
Record retired (bs : list Z) s G s' G' : Prop := {
  rt_inv : inv g s' G';
  rt_rep : gar_rep g (n_gar s') G';
  rt_kept : kept bs s G s' G';
  rt_dead : forall b, b ∈ bs -> live (gh_own G' b) = false
}.

(** Only blocks that had been taken are taken. *)
Lemma retired_busy bs s G s' G' b : retired bs s G s' G' -> gh_own G' b = RBusy ->
  gh_own G b = RBusy /\ b ∉ bs.
Proof.
  intros [_ _ HK Hd] Hb. assert (Hl : live (gh_own G b) = true).
  { destruct (live (gh_own G b)) eqn:E; [done|]. apply (kp_dead _ _ _ _ _ HK) in E. by rewrite Hb in E. }
  assert (Hni : b ∉ bs) by (intros Hin; specialize (Hd b Hin); by rewrite Hb in Hd).
  split; [|done]. by rewrite <- (kp_own _ _ _ _ _ HK).
Qed.

(** The GarbageTab block. *)
Lemma reclaim_gt_run ret0 s G :
  inv g s G -> gt_pbas (n_gar s) = [default 0xffff (gh_gt G)] ->
  wp (for_local 0 GT_MAX_BLOCKS ret0 (reclaim_gt_block g)) (fun r s' => exists G',
    r = inl (match gh_gt G with Some _ => 0 | None => ret0 end) /\
    s' = with_gar (with_gt_pbas [0xffff] (n_gar s)) (with_alloc (n_alloc s') (with_flash (n_flash s') s)) /\
    (exists s1, reclaimed (option_list (gh_gt G)) s G s1 G' /\ n_flash s' = n_flash s1 /\ n_alloc s' = n_alloc s1) /\
    gh_gar G' = gh_gar G /\ gh_gt G' = None /\ (gh_gt G <> None -> gh_gtl G' = [])) s.
Proof.
  intros HI Hp. change (for_local 0 GT_MAX_BLOCKS ret0 (reclaim_gt_block g))
    with (forL 1 0 ret0 (reclaim_gt_block g)). cbn [forL].
  apply wp_bind. unfold reclaim_gt_block, gt_pba. apply wp_bind, wp_bind, wp_gets.
  apply wp_assert_some. rewrite Hp. exists (default 0xffff (gh_gt G)). split; [done|].
  destruct (gh_gt G) as [b|] eqn:Hg; cbn [default from_option id].
  - destruct (ow_gt _ _ _ (fi_own _ _ _ _ _ HI) b Hg) as [Hb Ho].
    unshelve epose proof (release_gt _ _ _ _ (gt_pgcnt (n_gar s)) _ _ HI Hg) as HI1.
    set (G1 := set_own b RBusy (set_ggt None G)) in *.
    apply in_chip_no_ffff in Hb as Hff. apply Z.eqb_neq in Hff.
    rewrite Hff. cbn [negb].
    apply wp_bind. eapply wp_mono; [eapply (erase_and_free s G1 b); [exact HI1|done|apply own_set_eq]|].
    intros e s1 [-> Hw]. cbn [truth Z.eqb negb]. apply wp_bind. eapply wp_mono; [exact Hw|].
    intros e s2 [-> Hr]. unfold set_gt_pba. apply wp_bind, wp_bind, wp_gets.
    pose proof (rl_state _ _ _ _ _ Hr) as Hst. rewrite Hst. cbn [n_gar with_alloc with_flash]. rewrite Hp.
    apply wp_bind, wp_assert_some. exists [0xffff]. split; [done|]. apply wp_zoom, wp_modify, wp_ret.
    apply wp_ret. exists (set_own b RFree G1). split_and!; [done|done| |done|done|done].
    exists s2. split_and!; [|done|done].
    destruct Hr as [A1 A2 A3 A4 A5 A6 A7 A8 A9]. split; try done. intros c Hc. rewrite A4 by done.
    unfold G1. rewrite own_set_ne by set_solver. done.
  - change (0xffff =? 0xffff) with true. cbn [negb]. apply wp_ret, wp_ret. exists G. split_and!; [done| | |done|done|done].
    + destruct s as [? ? [? ? ? ?] ? ? ? ? ? ?]. cbn in *. by subst.
    + exists s. split_and!; [by apply reclaimed_nil|done|done].
Qed.

Lemma gar_list_get r G j : gar_list r G -> 0 <= j < arr_len (gh_gar G) ->
  arr_get (gar_pbas r) j = arr_get (gh_gar G) j.
Proof.
  intros HR Hj. destruct (gr_list _ _ HR) as [junk ->]. rewrite arr_get_app.
  destruct (j <? arr_len (gh_gar G)) eqn:E; zbool; [done|lia].
Qed.

(** Everything that was garbage is free afterwards. *)
Lemma nftl_reclaim_garbages_run s G :
  inv g s G -> gar_list (n_gar s) G -> (gh_gar G = [] -> gar_rep g (n_gar s) G) ->
  wp (nftl_reclaim_garbages g) (fun r s' => exists G', r = 0 /\ retired [] s G s' G' /\
    gh_gar G' = [] /\ (forall b, b ∈ gh_gar G -> gh_own G' b = RFree)) s.
Proof.
  intros HI HR HR0. unfold nftl_reclaim_garbages. apply wp_bind, wp_gets. rewrite (gr_cnt _ _ HR).
  destruct (arr_len (gh_gar G) =? 0) eqn:E; zbool.
  { apply wp_ret. exists G. unfold arr_len in E. destruct (gh_gar G) as [|? ?] eqn:Eg; [|cbn in E; lia].
    split_and!; try done; [|intros b Hb; inversion Hb].
    split; [done|by apply HR0|apply kept_refl|]. intros b Hb. inversion Hb. }
  apply wp_bind. unfold for_local at 1. rewrite Z.sub_0_r.
  replace (Z.to_nat (arr_len (gh_gar G))) with (length (gh_gar G)) by (unfold arr_len; lia).
  eapply wp_mono; [apply (reclaim_loop (gh_gar G) 0 0 s G HI eq_refl)|].
  { intros j Hj. rewrite Z.add_0_l. by apply gar_list_get. }
  intros r s1 (e & G1 & -> & He & Hr1 & Hg1 & Ht1). apply wp_bind.
  pose proof (rl_state _ _ _ _ _ Hr1) as Hst1.
  assert (Hgar1 : n_gar s1 = n_gar s) by (rewrite Hst1; done).
  eapply wp_mono; [apply (reclaim_gt_run e s1 G1); [apply Hr1|by rewrite Hgar1, Ht1; apply HR]|].
  intros r s2 (G2 & -> & Hst2 & (s2' & Hr2 & Hf2 & Ha2) & Hg2 & Ht2 & Hl2).
  apply wp_bind, wp_zoom, wp_modify, wp_bind, wp_zoom, wp_modify, wp_ret. exists G2.
  rewrite Ht1 in *.
  assert (Hr : reclaimed (gh_gar G ++ option_list (gh_gt G)) s G s2' G2).
  { eapply reclaimed_trans; [done|done|]. intros b Hb Hb2.
    destruct (ow_gar _ _ _ (fi_own _ _ _ _ _ HI) b Hb) as [_ O1].
    destruct (gh_gt G) as [c|] eqn:Ec; cbn in Hb2; [|inversion Hb2].
    apply list_elem_of_singleton in Hb2. subst c.
    destruct (ow_gt _ _ _ (fi_own _ _ _ _ _ HI) b Ec) as [_ O2]. congruence. }
  assert (Hdead : forall b, live (gh_own G b) = true -> b ∉ gh_gar G ++ option_list (gh_gt G)).
  { intros b Hl Hb. apply elem_of_app in Hb as [Hb|Hb].
    - destruct (ow_gar _ _ _ (fi_own _ _ _ _ _ HI) b Hb) as [_ O]. by rewrite O in Hl.
    - destruct (gh_gt G) as [c|] eqn:Ec; cbn in Hb; [|inversion Hb].
      apply list_elem_of_singleton in Hb. subst c.
      destruct (ow_gt _ _ _ (fi_own _ _ _ _ _ HI) b Ec) as [_ O]. by rewrite O in Hl. }
  pose proof (rl_state _ _ _ _ _ Hr) as Hst.
  assert (Hg2' : gh_gar G2 = []) by congruence.
  assert (E0 : e = 0) by (rewrite He; destruct (gh_gar G); [done|done]).
  split_and!; [by rewrite E0; destruct (gh_gt G)| |congruence|].
  2:{ intros b Hb. apply (rl_free _ _ _ _ _ Hr). set_solver. }
  rewrite Hst2. cbn [n_gar with_gar with_alloc with_flash n_alloc n_flash].
  destruct Hr as [A1 A2 A3 A4 A5 A6 A7 A8 A9]. split.
  - unfold inv, world in *. cbn. rewrite Hf2, Ha2. rewrite Hst in A1. cbn in A1.
    by eapply ftl_inv_pg.
  - rewrite Hgar1. pose proof (ng_pgs g geo). split; [split|..]; cbn; rewrite ?Hg2', ?Ht2; try done.
    + apply HR.
    + by exists (gar_pbas (n_gar s)).
    + lia.
    + apply Hl2. intros Hn. destruct (gr_none _ _ HR Hn) as [_ Hnil]. by rewrite Hnil in E.
  - split.
    + rewrite Hst1. cbn. by destruct s.
    + done.
    + intros b Hl _. apply A4, Hdead, Hl.
    + intros b Hl. destruct (decide (b ∈ gh_gar G ++ option_list (gh_gt G))) as [Hin|Hni].
      * by rewrite A5.
      * by rewrite A4.
    + intros b p Hc Hl _. unfold world. cbn. rewrite Hf2. apply A6; [by apply Hdead|done].
    + unfold spare_blocks, nfree in *. cbn. rewrite Ha2, A7, arr_len_app, Hg2', Ht2.
      destruct (gh_gt G); unfold arr_len; cbn; lia.
    + unfold quiet in *. cbn. rewrite Hf2. exact A8.
    + unfold world in *. cbn. rewrite Hf2. exact A9.
  - intros b Hb. inversion Hb.
Qed.

(** ** Recording garbage *)

Lemma add_garbages_run bs : forall i buf s gl junk,
  gar_pbas (n_gar s) = gl ++ junk -> gar_blkcnt (n_gar s) = arr_len gl ->
  arr_len bs <= arr_len junk -> arr_len gl + arr_len bs < 2 ^ 16 ->
  0 <= i -> 2 * (i + arr_len bs) <= arr_len buf -> Forall in_u16 bs ->
  wp (add_garbages bs i buf) (fun buf' s' => arr_len buf' = arr_len buf /\
    (forall j b, arr_get bs j = Some b -> get16 buf' ((i + j) * 2) = Some b) /\
    (forall j, j < i -> get16 buf' (j * 2) = get16 buf (j * 2)) /\
    exists junk', s' = with_gar (MkGar (gt_pbas (n_gar s)) (gt_pgcnt (n_gar s)) ((gl ++ bs) ++ junk')
                                   (arr_len gl + arr_len bs)) s /\
      arr_len junk' = arr_len junk - arr_len bs) s.
Proof.
  induction bs as [|b bs IH]; intros i buf s gl junk Hp Hc Hj Hl Hi Hbuf Hu; cbn [add_garbages].
  - apply wp_ret. split; [done|]. split; [intros j b Hb; apply arr_get_Some in Hb; change (arr_len (@nil Z)) with 0 in Hb; lia|].
    split; [done|]. exists junk. rewrite app_nil_r, <- Hp. change (arr_len (@nil Z)) with 0.
    rewrite Z.add_0_r, Z.sub_0_r, <- Hc. split; [|done]. by destruct s as [? ? [] ? ? ? ? ? ?].
  - rewrite arr_len_cons in *. pose proof (arr_len_nonneg bs). pose proof (arr_len_nonneg gl).
    destruct (put16_in buf (i * 2) b) as (buf1 & H1 & L1); [lia|lia|].
    inversion_clear Hu as [|? ? Hub Hubs]. destruct (put16_get _ _ _ _ H1) as [Hg1 Hg2]; [lia|].
    apply wp_bind, wp_assert_some. exists buf1. split; [done|].
    apply wp_bind, wp_gets. destruct junk as [|x junk]; [change (arr_len (@nil Z)) with 0 in Hj; lia|].
    rewrite arr_len_cons in Hj.
    unfold set_gar_pba. apply wp_bind, wp_bind, wp_gets. apply wp_bind, wp_assert_some.
    rewrite Hp, Hc, arr_set_mid. eexists. split; [reflexivity|].
    apply wp_zoom, wp_modify. apply wp_bind, wp_zoom, wp_modify.
    eapply wp_mono; [apply (IH (i + 1) buf1 _ (gl ++ [b]) junk)|].
    + cbn. by rewrite <- app_assoc.
    + cbn. rewrite Hc, arr_len_app, u16_id; [done|]. unfold in_u16. lia.
    + lia.
    + rewrite arr_len_app. change (arr_len [b]) with 1. lia.
    + lia.
    + lia.
    + done.
    + intros buf' s' (L2 & R1 & R2 & junk' & -> & Lj). split; [lia|]. split; [|split].
      { intros j c Hj'. rewrite arr_get_cons in Hj'. destruct (j =? 0) eqn:E; zbool.
        - injection Hj' as <-. subst j. rewrite Z.add_0_r, R2, Hg1 by lia. by rewrite u16_id.
        - rewrite <- (R1 (j - 1)) by done. f_equal. lia. }
      { intros j Hj'. rewrite R2, Hg2 by lia. done. }
      exists junk'. cbn.
      rewrite arr_len_app, !arr_len_cons. split; [|lia].
      unfold with_gar. cbn. f_equal. f_equal; [by rewrite <- !app_assoc|]. change (arr_len (@nil Z)) with 0. lia.
Qed.

(** A block that was in use and that no table names any more. *)
Definition given_up w G b : Prop := in_chip g b /\ gh_own G b = RBusy /\ gar_stored g w b.
Definition retire (bs : list Z) G : ghost :=
  foldl (fun G b => set_own b RGar (set_ggar (gh_gar G ++ [b]) G)) G bs.

Lemma retire_spec w a pg bs : forall G,
  ftl_inv g w a pg G -> NoDup bs -> (forall b, b ∈ bs -> given_up w G b) ->
  ftl_inv g w a pg (retire bs G) /\ gh_gar (retire bs G) = gh_gar G ++ bs /\
  gh_gt (retire bs G) = gh_gt G /\ gh_gtl (retire bs G) = gh_gtl G /\ same_tables G (retire bs G) /\
  (forall b, b ∈ bs -> gh_own (retire bs G) b = RGar) /\
  (forall b, b ∉ bs -> gh_own (retire bs G) b = gh_own G b).
Proof.
  induction bs as [|b bs IH]; intros G HI Hnd Hb; cbn [retire foldl].
  - split_and!; try done; [by rewrite app_nil_r|]. intros b H. inversion H.
  - apply NoDup_cons in Hnd as [Hni Hnd]. destruct (Hb b) as (Hc & Ho & Hs); [left|].
    pose proof (enter_gar g geo _ _ _ _ _ HI Hc Ho Hs) as HI1. set (G1 := set_own b RGar _) in *.
    destruct (IH G1 HI1 Hnd) as (H1 & H2 & H3 & H3' & H4 & H5 & H6).
    { intros c Hc'. destruct (Hb c) as (? & Hr & ?); [by right|]. split; [done|]. split; [|done].
      unfold G1. rewrite own_set_ne; [done|]. by intros ->. }
    fold (retire bs G1). split_and!; try done.
    + rewrite H2. cbn. by rewrite <- app_assoc.
    + intros c [->|Hc']%elem_of_cons; [|by apply H5]. rewrite H6 by done. apply own_set_eq.
    + intros c [Hne Hc']%not_elem_of_cons. rewrite H6 by done. unfold G1. by rewrite own_set_ne.
Qed.

(** ** The three parts of [nftl_addto_gt] *)

(** Finding or allocating the GarbageTab block. *)
Lemma ensure_gt_run s G :
  inv g s G -> gar_rep g (n_gar s) G -> (gh_gt G = None -> 0 < nfree s) ->
  wp (if default 0xffff (gh_gt G) =? 0xffff then
        let! nb := onA (nftl_get_free_block g) in set_gt_pba 0 nb
      else ret tt) (fun _ s' => exists b G', gh_gt G' = Some b /\ inv g s' G' /\
    gar_list (n_gar s') G' /\ arr_len (gh_gar G') < GARBAGE_MAX_CNT_DIV2 /\ gh_gtl G' = gh_gar G' /\
    kept [] s G s' G' /\ gt_pgcnt (n_gar s') = gt_pgcnt (n_gar s)) s.
Proof.
  intros HI HR Hf. destruct (gh_gt G) as [b|] eqn:Hg; cbn [default from_option id].
  - destruct (ow_gt _ _ _ (fi_own _ _ _ _ _ HI) b Hg) as [Hb Ho].
    apply in_chip_no_ffff, Z.eqb_neq in Hb as Hff. rewrite Hff. apply wp_ret.
    exists b, G. split_and!; try apply HR; [done|done|apply kept_refl|done].
  - change (0xffff =? 0xffff) with true. cbv iota. apply wp_bind.
    destruct (gr_none _ _ (gr_rep _ _ _ HR) Hg) as [Hpg Hnil].
    eapply get_free_inv; [exact HI|by apply Hf|]. intros b s1 HI1 Hb Ho Hs1 Hn1 He.
    unfold set_gt_pba. apply wp_bind, wp_gets. apply wp_bind, wp_assert_some.
    assert (Hgar : n_gar s1 = n_gar s) by (rewrite Hs1; done).
    rewrite Hgar, (gr_gt _ _ (gr_rep _ _ _ HR)). eexists. split; [reflexivity|].
    apply wp_zoom, wp_modify.
    assert (He1 : forall p, on_chip g b p -> nd_erased (world s1) b p) by (rewrite Hs1; exact He).
    exists b, (set_own b RGt (set_ggt (Some b) (set_own b RBusy G))). split_and!; [done| | |apply HR|by cbn; rewrite Hnil| |].
    + assert (HI0 : ftl_inv g (world s1) (n_alloc s1) 0 (set_own b RBusy G)) by (by rewrite <- Hpg, <- Hgar).
      pose proof (enter_gt g geo _ _ _ _ HI0 Hb (own_set_eq _ _ _) Hg He1) as HI2.
      unfold inv. cbn. by rewrite Hgar, Hpg.
    + cbn. rewrite Hgar. destruct HR as [[R1 R2 R3 R4 R5 R6] R7 R8]. by split.
    + split.
      * rewrite Hs1. cbn. by destruct s.
      * done.
      * intros c Hl _. cbn. unfold upd. case_decide; [|done]. subst. by rewrite Ho in Hl.
      * intros c Hl. cbn. unfold upd. by case_decide.
      * intros c p Hc Hl _. unfold world. cbn. by rewrite Hs1.
      * unfold spare_blocks, nfree in *. cbn. rewrite Hg, Hn1. change (arr_len (@nil Z)) with 0. lia.
      * unfold quiet. cbn. by rewrite Hs1.
      * by rewrite Hs1.
    + cbn. by rewrite Hgar.
Qed.

(** The spare area of a page of the table. *)
Definition gt_spare (count : Z) (sp : list Z) : list Z :=
  set_thiscount count (set_tabindx 0 (set_blocktype (block_state_code GARBAGE_TAB_BLOCK) sp)).
Lemma gt_spare_len count sp : arr_len (gt_spare count sp) = arr_len sp.
Proof. unfold gt_spare, set_thiscount, set_tabindx, set_blocktype, arr_len. by rewrite !length_insert. Qed.
Lemma gt_spare_fields count sp : oobsize g <= arr_len sp -> in_u8 count ->
  let sp' := take (Z.to_nat (oobsize g)) (gt_spare count sp) in
  si_blocktype sp' = block_state_code GARBAGE_TAB_BLOCK /\ si_tabindx sp' = 0 /\ si_thiscount sp' = count.
Proof.
  intros Hl Hc sp'. pose proof (ng_oob g geo). assert (Hok : spare_ok sp) by (unfold spare_ok, arr_len in *; lia).
  destruct (si_take (Z.to_nat (oobsize g)) (gt_spare count sp)) as (T1 & _ & T2 & _); [lia|].
  pose proof (set_blocktype_ok (block_state_code GARBAGE_TAB_BLOCK) _ Hok) as Hok1.
  pose proof (set_tabindx_ok 0 _ Hok1) as Hok2.
  unfold sp'. rewrite T1, T2, si_thiscount_take by lia. unfold gt_spare.
  rewrite si_blocktype_set_thiscount, si_tabindx_set_thiscount by done. rewrite si_thiscount_set by done.
  rewrite si_blocktype_set_tabindx, si_tabindx_set, si_blocktype_set by done. split_and!; [done|done|by apply u8_id].
Qed.

Lemma write_gt_page_run s G b pg databuff sp bs :
  inv g s G -> gar_list (n_gar s) G -> gh_gt G = Some b -> pg = gt_pgcnt (n_gar s) ->
  pg < nr_pgsinblk g -> writesize g <= arr_len databuff -> oobsize g <= arr_len sp ->
  arr_len bs * 2 <= writesize g -> arr_len bs < 0xff ->
  (forall j b, arr_get bs j = Some b -> get16 databuff (j * 2) = Some b) ->
  wp (write_gt_page g 0 pg databuff (gt_spare (arr_len bs) sp)) (fun _ s1 => exists f, s1 = with_flash f s /\
    let G1 := set_ggtl (gh_gtl G ++ bs) G in
    ftl_inv g (fl_world f) (n_alloc s) (pg + 1) G1 /\ kept [] s G s1 G1) s.
Proof.
  intros HI HR Hg Hpg Hlt Hd Hs Hfit Hmax Hbs. destruct (ow_gt _ _ _ (fi_own _ _ _ _ _ HI) b Hg) as [Hb Ho].
  assert (Hc : on_chip g b pg) by (split; [done|pose proof (gr_pg0 _ _ HR); lia]).
  pose proof (arr_len_nonneg bs) as Hlen.
  destruct (gt_spare_fields (arr_len bs) sp Hs) as (F1 & F2 & F3); [unfold in_u8; lia|].
  unfold write_gt_page, gt_pba. apply wp_bind, wp_bind, wp_gets. apply wp_assert_some.
  rewrite (gr_gt _ _ HR), Hg. exists b. split; [done|]. apply wp_bind.
  eapply mtd_write_inv; [done|exact HI|done| |done|by rewrite gt_spare_len|].
  { apply (er_gt _ _ _ _ (fi_erased _ _ _ _ _ HI)); [done|done|lia]. }
  intros f Hop Hpage Hcor. cbn [fst snd truth]. rewrite Z.eqb_refl. cbn [Z.eqb negb orb]. apply wp_ret.
  exists f. split_and!; [done| |].
  - eapply write_gt_inv; try done; [rewrite Hpg; exact HI|..]; unfold page_type, spare_at; rewrite Hpage; cbn [fst snd];
      rewrite ?F3; [done|done|lia|lia|].
    apply gar_chunk_read. intros j c Hj. pose proof (arr_get_Some _ _ _ Hj). rewrite get16_take by lia. by apply Hbs.
  - split; [by destruct s|done|done|done| | |unfold quiet; cbn; by rewrite Hcor|apply (op_bad _ _ _ _ _ Hop)].
    + intros c p Hcp Hl _. apply (op_page _ _ _ _ _ Hop); [done|]. intros [= -> _]. by rewrite Ho in Hl.
    + change (arr_len (@nil Z)) with 0. unfold spare_blocks, nfree. cbn. lia.
Qed.

(** A state between the reclamations. *)
Record reclaimable s G : Prop := {
  rc_inv0 : inv g s G;
  rc_list : gar_list (n_gar s) G;
  rc_nil : gh_gar G = [] -> gar_rep g (n_gar s) G;
  rc_told : gh_gtl G = gh_gar G;
  rc_used : gh_gt G <> None -> 1 <= gt_pgcnt (n_gar s)
}.

Lemma reclaim_if_run c s G (Q : Z -> nftl W -> Prop) :
  reclaimable s G ->
  (c s = false -> Q 0 s) ->
  (forall s' G', reclaimable s' G' -> gh_gar G' = [] -> kept [] s G s' G' -> Q 0 s') ->
  wp (reclaim_if g c 0) Q s.
Proof.
  intros [H1 H2 H3 H4 H5] Hno Hyes. unfold reclaim_if. apply wp_bind, wp_gets.
  destruct (c s) eqn:E; [|by apply Hno].
  eapply wp_mono; [by apply nftl_reclaim_garbages_run|].
  intros r s' (G' & -> & [R1 R2 R3 R4] & Hn & _). apply (Hyes s' G'); [|done|done].
  split; [done|apply R2|done|apply R2|apply R2].
Qed.

Lemma reclaim_all s G (k : Z -> M (nftl W) Z) (Q : Z -> nftl W -> Prop) :
  reclaimable s G -> gh_gar G <> [] -> gh_gt G <> None ->
  (forall s' G', inv g s' G' -> gar_rep g (n_gar s') G' -> kept [] s G s' G' ->
     gh_gar G' = [] \/ MINI_FREE_BLOCK < nfree s' -> wp (k 0) Q s') ->
  wp (let! r1 := reclaim_if g (gt_full g) 0 in
      let! r2 := reclaim_if g gar_full r1 in
      let! r3 := reclaim_if g few_free r2 in k r3) Q s.
Proof.
  intros HR Hne Hgt HQ. pose proof (ng_pgs g geo) as Hpgs.
  (* once the list is empty it stays so *)
  assert (Hlast : forall s1 G1, reclaimable s1 G1 -> gh_gar G1 = [] -> kept [] s G s1 G1 ->
     wp (reclaim_if g few_free 0) (fun r s' => wp (k r) Q s') s1).
  { intros s1 G1 HR1 Hn1 Hk1. eapply reclaim_if_run; [exact HR1| |].
    - intros _. apply (HQ s1 G1); [apply HR1|by apply HR1|done|by left].
    - intros s2 G2 HR2 Hn2 Hk2. apply (HQ s2 G2); [apply HR2|by apply HR2| |by left].
      exact (kept_trans [] [] _ _ _ _ _ _ Hk1 Hk2). }
  assert (Hmid : forall s1 G1, reclaimable s1 G1 -> gh_gar G1 = [] -> kept [] s G s1 G1 ->
     wp (reclaim_if g gar_full 0)
       (fun r s' => wp (let! r3 := reclaim_if g few_free r in k r3) Q s') s1).
  { intros s1 G1 HR1 Hn1 Hk1. eapply reclaim_if_run; [exact HR1| |].
    - intros _. apply wp_bind. by apply (Hlast s1 G1).
    - intros s2 G2 HR2 Hn2 Hk2. apply wp_bind. apply (Hlast s2 G2); [done|done|].
      exact (kept_trans [] [] _ _ _ _ _ _ Hk1 Hk2). }
  apply wp_bind. eapply reclaim_if_run; [exact HR| |].
  2:{ intros s1 G1 HR1 Hn1 Hk1. apply wp_bind. by apply (Hmid s1 G1). }
  intros E1. apply wp_bind. eapply reclaim_if_run; [exact HR| |].
  2:{ intros s1 G1 HR1 Hn1 Hk1. apply wp_bind. by apply (Hlast s1 G1). }
  intros E2. apply wp_bind. eapply reclaim_if_run; [exact HR| |].
  2:{ intros s1 G1 HR1 Hn1 Hk1. apply (HQ s1 G1); [apply HR1|by apply HR1|done|by left]. }
  intros E3. apply (HQ s G); [apply HR| |apply kept_refl|].
  - unfold gt_full, gar_full in *. zbool. destruct HR as [HI HL _ HT HU]. split; [done| | |done|done].
    + rewrite <- (gr_cnt _ _ HL). done.
    + eapply Z.lt_le_trans; [exact E1|]. unfold GT_MAX_BLOCKS. rewrite Z.mul_1_r.
      apply Z.div_le_upper_bound; lia.
  - right. unfold few_free in E3. unfold nfree. apply andb_false_iff in E3 as [E3|E3]; zbool; [done|].
    rewrite (gr_cnt _ _ (rc_list _ _ HR)) in E3. exfalso. apply Hne.
    pose proof (arr_len_nonneg (gh_gar G)). destruct (gh_gar G); [done|]. rewrite arr_len_cons in E3.
    pose proof (arr_len_nonneg l). lia.
Qed.

Lemma memset_in buf v n : 0 <= n <= arr_len buf ->
  exists buf', memset buf v n = Some buf' /\ arr_len buf' = arr_len buf.
Proof.
  intros Hn. unfold memset. destruct (arr_len buf <? n) eqn:E; zbool; [lia|]. eexists. split; [done|].
  rewrite arr_len_app. unfold arr_len in *. rewrite length_replicate, length_drop. lia.
Qed.

(** The sanity check at the end finds nothing. *)
Lemma gar_check_run s G :
  inv g s G -> gar_list (n_gar s) G ->
  for_range 0 (gar_blkcnt (n_gar s)) (fun i =>
    let! b := gar_pba i in if b >? nr_blks g then ret (Some tt) else ret None) s = Done None s.
Proof.
  intros HI HL. apply for_range_miss. intros i Hi. rewrite (gr_cnt _ _ HL) in Hi.
  destruct (arr_get_in (gh_gar G) i Hi) as [b Hb].
  unfold gar_pba, bind, gets. rewrite (gar_list_get _ _ _ HL Hi), Hb. cbn.
  destruct (ow_gar _ _ _ (fi_own _ _ _ _ _ HI) b) as [Hc _].
  { unfold arr_get in Hb. destruct (0 <=? i); [|done]. by eapply list_elem_of_lookup_2. }
  destruct (b >? nr_blks g) eqn:E; zbool; [unfold in_chip in Hc; lia|done].
Qed.

Lemma retire_kept s s' G bs :
  ftl_inv g (world s) (n_alloc s) (gt_pgcnt (n_gar s)) G -> NoDup bs ->
  (forall b, b ∈ bs -> given_up (world s) G b) ->
  s' = with_gar (n_gar s') s -> kept bs s G s' (retire bs G).
Proof.
  intros HI Hnd Hbs Hs'. destruct (retire_spec _ _ _ bs G HI Hnd Hbs) as (H1 & H2 & H3 & _ & H4 & H5 & H6).
  split.
  - rewrite Hs'. by destruct s.
  - done.
  - intros b _ Hb. by apply H6.
  - intros b Hl. destruct (decide (b ∈ bs)) as [Hin|Hni]; [by rewrite H5|by rewrite H6].
  - intros b p _ _ _. by rewrite Hs'.
  - unfold spare_blocks, nfree. rewrite H2, H3, arr_len_app. rewrite Hs'. cbn. lia.
  - by rewrite Hs'.
  - by rewrite Hs'.
Qed.

(** The end of [nftl_addto_gt]. *)
Definition addto_gt_end : M (nftl W) Z :=
  let! r1 := reclaim_if g (gt_full g) 0 in
  let! r2 := reclaim_if g gar_full r1 in
  let! r3 := reclaim_if g few_free r2 in
  let! r := gets n_gar in
  let! f := for_range 0 (gar_blkcnt r) (fun i =>
    let! b := gar_pba i in
    if b >? nr_blks g then ret (Some tt) else ret None) in
  match f with Some _ => ret 1 | None => ret r3 end.

Lemma addto_gt_end_run s G (Q : Z -> nftl W -> Prop) :
  reclaimable s G -> gh_gar G <> [] -> gh_gt G <> None ->
  (forall s' G', inv g s' G' -> gar_rep g (n_gar s') G' -> kept [] s G s' G' ->
     gh_gar G' = [] \/ MINI_FREE_BLOCK < nfree s' -> Q 0 s') ->
  wp addto_gt_end Q s.
Proof.
  intros HR Hne Hgt HQ. eapply reclaim_all; [done|done|done|]. intros s' G' HI' HR' Hk Hn.
  apply wp_bind, wp_gets, wp_bind. unfold wp at 1. rewrite (gar_check_run s' G' HI' (gr_rep _ _ _ HR')).
  apply wp_ret. by eapply HQ.
Qed.

(** Its beginning: the page image, the GarbageTab block, the list in RAM. *)
Lemma addto_gt_record s G bs databuff (k : list Z -> M (nftl W) Z) (Q : Z -> nftl W -> Prop) :
  inv g s G -> gar_rep g (n_gar s) G -> bs <> [] -> arr_len bs <= 2 -> NoDup bs ->
  (forall b, b ∈ bs -> given_up (world s) G b) -> (gh_gt G = None -> 0 < nfree s) ->
  4 <= arr_len databuff ->
  (forall buf' s' G', arr_len buf' = arr_len databuff ->
     (forall j b, arr_get bs j = Some b -> get16 buf' (j * 2) = Some b) ->
     inv g s' G' -> gar_list (n_gar s') G' -> gh_gtl G' ++ bs = gh_gar G' ->
     gh_gt G' <> None -> gh_gar G' <> [] -> gt_pgcnt (n_gar s') = gt_pgcnt (n_gar s) ->
     kept bs s G s' G' -> (forall b, b ∈ bs -> live (gh_own G' b) = false) -> wp (k buf') Q s') ->
  wp (let! b := gt_pba 0 in
      (if b =? 0xffff then let! nb := onA (nftl_get_free_block g) in set_gt_pba 0 nb else ret tt) ;;
      let! databuff := add_garbages bs 0 databuff in k databuff) Q s.
Proof.
  intros HI HR Hne Hlen Hnd Hbs Hfree Hdb HQ.
  apply wp_bind. unfold gt_pba at 1. apply wp_bind, wp_gets, wp_assert_some.
  exists (default 0xffff (gh_gt G)). split; [by rewrite (gr_gt _ _ (gr_rep _ _ _ HR))|].
  apply wp_bind. eapply wp_mono; [apply (ensure_gt_run s G HI HR Hfree)|].
  intros _ s3 (b & G3 & Hg3 & HI3 & HR3 & Hsm & Htl3 & Hk3 & Hpg3).
  assert (Hbs3 : forall b, b ∈ bs -> given_up (world s3) G3 b).
  { intros c Hc. destruct (Hbs c Hc) as (Hcc & Ho & Hst). assert (Hl : live (gh_own G c) = true) by by rewrite Ho.
    split; [done|]. split; [rewrite (kp_own _ _ _ _ _ Hk3); [done|done|set_solver]|].
    apply (gar_keep g geo (world s)); [done| |done]. intros p Hp. apply (kp_page _ _ _ _ _ Hk3); [done|done|set_solver]. }
  destruct (gr_list _ _ HR3) as [junk Hjunk].
  pose proof (gr_len _ _ HR3) as Hgl. rewrite Hjunk, arr_len_app in Hgl. pose proof (arr_len_nonneg (gh_gar G3)).
  unfold GARBAGE_MAX_CNT, GARBAGE_MAX_CNT_DIV2 in *.
  apply wp_bind. eapply wp_mono; [eapply (add_garbages_run bs 0 databuff s3 (gh_gar G3) junk);
    [done|apply HR3|lia..|]|].
  { apply Forall_forall. intros c Hc. destruct (Hbs c Hc) as [Hcc _]. pose proof (ng_blks g geo).
    unfold in_chip, in_u16, BLOCKSTATUS_LEN in *. lia. }
  intros db2 s4 (Ldb2 & Hget & _ & junk' & Hs4 & Ljunk').
  destruct (retire_spec _ _ _ bs G3 HI3 Hnd Hbs3) as (HI4 & Hg4 & Ht4 & Htl4 & _ & Hown4 & _).
  assert (Hk4 : kept bs s3 G3 s4 (retire bs G3)) by (apply retire_kept; [exact HI3|done|done|by rewrite Hs4]).
  pose proof (kept_trans [] bs _ _ _ _ _ _ Hk3 Hk4) as Hk04. cbn [app] in Hk04.
  apply (HQ db2 s4 (retire bs G3)); try done.
  - by rewrite Hs4.
  - rewrite Hs4. cbn [n_gar with_gar]. destruct HR3 as [R1 R2 R3 R4 R5 R6].
    split; cbn; rewrite ?Hg4, ?Ht4; try done.
    + rewrite !arr_len_app, Ljunk'. unfold GARBAGE_MAX_CNT. lia.
    + by rewrite arr_len_app.
    + by exists junk'.
    + congruence.
  - by rewrite Hg4, Htl4, Htl3.
  - congruence.
  - rewrite Hg4. destruct (gh_gar G3); [done|done].
  - rewrite Hs4. exact Hpg3.
  - intros c Hc. by rewrite Hown4.
Qed.

(** The blocks [bs], already out of the tables, are retired. *)
Lemma nftl_addto_gt_run s G bs :
  inv g s G -> gar_rep g (n_gar s) G -> bs <> [] -> arr_len bs <= 2 -> NoDup bs ->
  (forall b, b ∈ bs -> given_up (world s) G b) -> (gh_gt G = None -> 0 < nfree s) ->
  wp (nftl_addto_gt g bs) (fun r s' => exists G', r = 0 /\ retired bs s G s' G' /\
    (gh_gar G' = [] \/ MINI_FREE_BLOCK < nfree s')) s.
Proof.
  intros HI HR Hne Hlen Hnd Hbs Hfree.
  pose proof (ng_ws_range g geo). pose proof (ng_oob g geo). pose proof (ng_pgs g geo).
  unfold NAND_MAX_OOBSIZE, MAX_PAGES_IN_BLOCK in *.
  unfold nftl_addto_gt. apply wp_bind. eapply (stack_inv g geo); [exact HI|done|]. intros l f1 HI1 S1 C1 L1.
  apply wp_bind. eapply (kmalloc_inv g geo); [exact HI1|done|]. intros db f2 HI2 S2 C2 L2.
  apply wp_bind, wp_gets. cbn [n_gar with_flash].
  rewrite with_flash_twice in HI2 |- *. set (s2 := with_flash f2 s) in *.
  assert (Hk2 : kept [] s G s2 G) by (apply kept_flash; [by eapply same_pages_trans|left; by rewrite C2]).
  pose proof (gr_pg _ _ _ HR) as Hpg. pose proof (gr_pg0 _ _ (gr_rep _ _ _ HR)) as Hpg0.
  rewrite Z.div_small, Z.mod_small, (u8_id (gt_pgcnt _)) by (unfold in_u8; lia). change (u8 0) with 0.
  unfold NAND_MAX_PAGESIZE, BLOCK_INFO_SIZE, NAND_MAX_OOBSIZE in *.
  destruct (memset_in db 0xff (writesize g)) as (db1 & -> & Ldb1); [lia|].
  destruct (memset_in l 0xff (oobsize g)) as (sp1 & -> & Lsp1); [lia|].
  apply wp_bind, wp_assert_some. eexists. split; [reflexivity|].
  apply wp_bind, wp_assert_some. eexists. split; [reflexivity|].
  eapply (addto_gt_record s2 G bs); [exact HI2|exact HR|done|done|done| |exact Hfree|lia|].
  { intros c Hc. destruct (Hbs c Hc) as (? & ? & ?). split; [done|]. split; [done|].
    apply (gar_keep g geo (world s)); [done| |done]. apply same_data_pages. by eapply same_pages_trans. }
  intros db2 s4 G4 Ldb2 Hget HI4 HL4 Htl4 Ht4 Hg4 Hpg4 Hk4 Hdead. change (n_gar s2) with (n_gar s) in Hpg4.
  pose proof (kept_trans [] bs _ _ _ _ _ _ Hk2 Hk4) as Hk04. cbn [app] in Hk04.
  destruct (gh_gt G4) as [b|] eqn:Eb; [|done].
  apply wp_bind. eapply wp_mono; [eapply (write_gt_page_run s4 G4 b _ db2 sp1 bs); [done|done|done|by symmetry|done|lia|unfold arr_len in *; lia|lia|lia|done]|].
  intros _ s5 (f5 & -> & HI5 & Hk5). rewrite Htl4 in HI5, Hk5. set (G5 := set_ggtl (gh_gar G4) G4) in *.
  pose proof (kept_trans bs [] _ _ _ _ _ _ Hk04 Hk5) as Hk05. rewrite app_nil_r in Hk05.
  apply wp_bind, wp_zoom, wp_modify. cbn [n_gar with_flash].
  rewrite Hpg4, u8_id by (unfold in_u8; lia).
  set (s6 := with_gar _ _).
  assert (Hk6 : kept bs s G s6 G5).
  { destruct Hk05 as [A1 A2 A3 A4 A5 A6 A7 A8]. split; try done. unfold s6. rewrite A1. by destruct s. }
  eapply (addto_gt_end_run s6 G5); [|done|unfold G5; cbn; congruence|].
  - split; [exact HI5| |done|done|intros _; cbn; lia]. destruct HL4 as [R1 R2 R3 R4 R5 R6]. split; cbn; try done; [lia|congruence].
  - intros s' G' HI' HR' Hk Hn. exists G'. split_and!; [done| |done].
    pose proof (kept_trans bs [] _ _ _ _ _ _ Hk6 Hk) as Hk07. rewrite app_nil_r in Hk07.
    split; [done|done|done|]. intros c Hc. by apply (kp_dead _ _ _ _ _ Hk), Hdead.
Qed.

(** ** The contracts *)

(** [nftl_reclaim_garbages], on a chip in working order and a garbage
    list that agrees with the ghost list, answers 0 and leaves the list empty:
    every block that was on it is in the free table and reads as erased, the
    other tables are as they were, and no page of a live block has changed. *)
Theorem reclaim_garbages_frees s G
  (HI : inv g s G) (HR : gar_rep g (n_gar s) G) :
  exists s' G', nftl_reclaim_garbages g s = Done 0 s' /\ inv g s' G' /\ gar_rep g (n_gar s') G' /\
    gh_gar G' = [] /\ gar_blkcnt (n_gar s') = 0 /\ same_tables G G' /\
    (forall b, b ∈ gh_gar G -> block_free (n_alloc s') b /\
       forall p, on_chip g b p -> nd_erased (world s') b p) /\
    (forall b p, on_chip g b p -> live (gh_own G b) = true ->
       gh_own G' b = gh_own G b /\ nd_page (world s') b p = nd_page (world s) b p).
Proof.
  destruct (proj1 (wp_run _ _ _) (nftl_reclaim_garbages_run s G HI (gr_rep _ _ _ HR) (fun _ => HR)))
    as (r & s' & H1 & G' & -> & [HI' HR' Hk _] & Hn & Hfr).
  exists s', G'. split_and!; try done.
  - by rewrite (gr_cnt _ _ (gr_rep _ _ _ HR')), Hn.
  - apply Hk.
  - intros b Hb. split.
    + apply (ow_free _ _ _ (fi_own _ _ _ _ _ HI')). split; [|by apply Hfr].
      by apply (ow_gar _ _ _ (fi_own _ _ _ _ _ HI)).
    + intros p Hp. apply (er_free _ _ _ _ (fi_erased _ _ _ _ _ HI')); [done|by apply Hfr].
  - intros b p Hp Hl. split; [by apply Hk; [|set_solver]|by apply Hk; [| |set_solver]].
Qed.

(** C24. [nftl_addto_gt] answers 0 for one or two blocks that were in use and
    that no table names any more.
    Afterwards they are garbage or free, the garbage list and the GarbageTab
    block agree with the ghost state, no page of any other live block has
    changed, and every block given up counts as one more that can be had; if
    20 blocks or fewer are free, there is no garbage left. *)
Theorem addto_gt_retires s G bs
  (HI : inv g s G) (HR : gar_rep g (n_gar s) G) (Hne : bs <> []) (Hlen : arr_len bs <= 2)
  (Hnd : NoDup bs) (Hbs : forall b, b ∈ bs -> given_up (world s) G b)
  (Hfree : gh_gt G = None -> 0 < nfree s) :
  exists s' G', nftl_addto_gt g bs s = Done 0 s' /\ inv g s' G' /\ gar_rep g (n_gar s') G' /\
    same_tables G G' /\ (forall b, b ∈ bs -> live (gh_own G' b) = false) /\
    (forall b p, on_chip g b p -> live (gh_own G b) = true -> b ∉ bs ->
       gh_own G' b = gh_own G b /\ nd_page (world s') b p = nd_page (world s) b p) /\
    spare_blocks s' G' = spare_blocks s G + arr_len bs /\
    (gh_gar G' = [] \/ MINI_FREE_BLOCK < nfree s').
Proof.
  destruct (proj1 (wp_run _ _ _) (nftl_addto_gt_run s G bs HI HR Hne Hlen Hnd Hbs Hfree))
    as (r & s' & H1 & G' & -> & [HI' HR' Hk Hd] & Hn).
  exists s', G'. split_and!; try done; [apply Hk| |apply Hk].
  intros b p Hp Hl Hb. split; [by apply Hk|by apply Hk].
Qed.
End Garbage.

(** ** On the simulated chip *)
Section Example.
Notation g := small_geo.
#[local] Existing Instances inv_world inv_laws.

Lemma retire_one_pre : forall b, b ∈ [1] -> given_up g (world inv_state) inv_ghost b.
Proof. intros b ->%list_elem_of_singleton. split; [done|]. split; [done|apply retired_example]. Qed.

Lemma addto_gt_retires_witness : exists s',
  nftl_addto_gt g [1] inv_state = Done 0 s' /\ gar_blkcnt (n_gar s') = 1 /\ gt_pgcnt (n_gar s') = 1 /\
  nd_page (world s') 2 0 = (replicate 32 7, replicate 8 9).
Proof.
  destruct (addto_gt_retires g small_geo_ok inv_state inv_ghost [1] inv_example gar_rep_example)
    as (s' & G' & H1 & _); [done|done|apply NoDup_singleton|apply retire_one_pre|done|].
  exists s'. split; [exact H1|].
  assert (E : match nftl_addto_gt g [1] inv_state with
              | Done _ s => gar_blkcnt (n_gar s) = 1 /\ gt_pgcnt (n_gar s) = 1 /\
                  nd_page (world s) 2 0 = (replicate 32 7, replicate 8 9)
              | _ => False end) by (vm_compute; by repeat split).
  rewrite H1 in E. clear H1. exact E.
Defined.

Lemma reclaim_garbages_frees_witness : exists s1 s2,
  nftl_addto_gt g [1] inv_state = Done 0 s1 /\ nftl_reclaim_garbages g s1 = Done 0 s2 /\
  gar_blkcnt (n_gar s1) = 1 /\ gar_blkcnt (n_gar s2) = 0.
Proof.
  destruct (proj1 (wp_run _ _ _) (nftl_addto_gt_run g small_geo_ok inv_state inv_ghost [1]
    inv_example gar_rep_example ltac:(done) ltac:(done) ltac:(apply NoDup_singleton) retire_one_pre ltac:(done)))
    as (r & s1 & H1 & G1 & -> & [HI1 HR1 _ _] & _).
  destruct (reclaim_garbages_frees g small_geo_ok s1 G1 HI1 HR1) as (s2 & G2 & H2 & _ & _ & _ & H3 & _).
  exists s1, s2. split; [exact H1|]. split; [exact H2|]. split; [|exact H3]. clear H2 H3.
  assert (E : match nftl_addto_gt g [1] inv_state with
              | Done _ s => gar_blkcnt (n_gar s) = 1 | _ => False end) by (vm_compute; reflexivity).
  rewrite H1 in E. clear H1. exact E.
Defined.
End Example.
