(* ===== verification/NftlMap.v ===== *)
(** * NFTL: the mapping table in flash

    [nftl_merge_mtlblk], [nftl_update_mt] and [nftl_lba_to_pba] of
    [BSP/oss/nftl/nftlmount.c]: reading and updating the table that maps
    logical blocks to physical blocks, through the one-page cache
    [mt_readcache], the MTLog blocks and their merge into MapTab blocks. *)

From Stdlib Require Import ZArith Lia.
From stdpp Require Import base numbers list.
From S2P Require Import Prelude CMonad NftlTypes NftlAlloc NftlMtl MtdDev NftlState NftlFlash NftlGarbage.

Section Operations.
Context {W : Type} `{World W} (g : mtd_info).

(** The cached read both functions start with. *)
Definition mt_cached_read (block page : Z) : M (nftl W) Z :=
  let! c := gets n_cache in
  if (block =? mt_cacheblock c) && (page =? mt_cachepage c) then ret 0
  else
    let! r := onF (mtd_read g block page (Some (mt_readcache c)) None 1) in
    onC (modify (fun _ => MkCache block page (r_buf r))) ;;
    ret (r_ret r).

(** ** Merging a log block *)

(** The physical page of the log that holds page [startpgofs + i] of the
    table: the last match wins. *)
Definition mtl_fact (startpgofs offset valid i : Z) : M (nftl W) Z :=
  let! r := for_local 0 valid 0xff (fun j fact =>
    let! t := onM (mtl_trans (offset + j)) in
    ret (inl (if startpgofs + i =? mtt_pageofs t then u8 (mtt_ppa t) else fact) : Z + unit)) in
  match r with inl f => ret f | inr _ => ret 0xff end.

(** Copying one page into the new block, with recovery: [inr] returns EIO. *)
Definition merge_copy (src_blk src_pg dst_pg : Z) (t : block_state) (temp : Z) : M (nftl W) (Z + Z) :=
  let! e := nftl_copyback g src_blk src_pg temp dst_pg t in
  if e =? EIO then ret (inr EIO)
  else if truth e then
    let! nb := nftl_copyback_error g src_blk src_pg temp dst_pg t in ret (inl nb)
  else ret (inl temp).

Definition mtl_offset (ramindex : Z) : M (nftl W) Z :=
  let! m := gets n_mt in
  assert_some OutOfBounds (arr_sum u16 mtb_valid (mtl_blocktab m) ramindex).

Definition nftl_merge_mtlblk (ramindex : Z) : M (nftl W) Z :=
  let! b := onM (mtl_block ramindex) in
  let mtindex := mtb_mtindx b in
  let startpgofs := u16 (mtindex * nr_pgsinblk g) in
  let! fact0 := onF (stack MAX_PAGES_IN_BLOCK) in
  let! tempmtblock := onA (nftl_get_free_block g) in
  let! offset := mtl_offset ramindex in
  let! f := for_local 0 (nr_pgsinblk g) fact0 (fun i factppa =>
    let! v := mtl_fact startpgofs offset (mtb_valid b) i in
    let! factppa := assert_some OutOfBounds (arr_set factppa i v) in
    ret (inl factppa : list Z + unit)) in
  let factppa := match f with inl l => l | inr _ => [] end in
  let! r := for_local 0 (nr_pgsinblk g) tempmtblock (fun i temp =>
    let! v := assert_some OutOfBounds (arr_get factppa i) in
    if negb (v =? 0xff) then merge_copy (mtb_pba b) v i MAP_TAB_BLOCK temp
    else
      let! old := onM (mt_pba mtindex) in
      merge_copy old i i MAP_TAB_BLOCK temp) in
  match r with
  | inr e => ret (u8 e)
  | inl temp =>
      let! old := onM (mt_pba mtindex) in
      nftl_addto_gt g [old; mtb_pba b] ;;
      onM (mt_set_pba mtindex temp) ;;
      let! e := onM (nftl_update_mtl_ram g DEL_OPERATION ramindex 0 0 0) in
      ret (u8 e)
  end.

(** ** Updating an entry *)

(** Storing the new entry in the cached page. *)
Definition mt_store (wordofs pba : Z) : M (nftl W) unit :=
  let! c := gets n_cache in
  let! b := assert_some OutOfBounds (put16 (mt_readcache c) (wordofs * 2) pba) in
  onC (modify (fun c => MkCache (mt_cacheblock c) (mt_cachepage c) b)).

(** Where the updated page goes: [operation], [mtlblock], [mtlpage] and
    [ramindex]. *)
Definition mtl_target (mtindex : Z) : M (nftl W) (Z * Z * Z * Z) :=
  let! f := onM (nftl_find_mtl_ram mtindex) in
  let ramindex := snd f in
  if fst f =? FIND_FAIL then
    let! mtlblock := onA (nftl_get_free_block g) in
    ret (APPEND_OPERATION, mtlblock, 0, ramindex)
  else
    let! b := onM (mtl_block ramindex) in
    ret (INSERT_OPERATION, mtb_pba b, mtb_used b, ramindex).

Definition mtl_spare (mtpgofs mtindex : Z) (junk : list Z) : list Z :=
  set_tabindx mtindex (set_pageofs mtpgofs (set_blocktype (block_state_code MT_LOG_BLOCK) junk)).

(** Writing the cached page to the log, with recovery.  In the append case
    the block that replaces the bad one ends in the local [mtlpage], which
    nothing reads. *)
Definition mtl_write (operation mtlblock mtlpage ramindex : Z) (spare : list Z) : M (nftl W) unit :=
  let! c := gets n_cache in
  let data := mt_readcache c in
  let! w := onF (mtd_write g mtlblock mtlpage data spare 1) in
  onC (modify (fun _ => MkCache mtlblock mtlpage data)) ;;
  if truth (fst w) || negb (snd w =? u32 (writesize g + oobsize g)) then
    if operation =? INSERT_OPERATION then
      let! nb := nftl_write_error g mtlblock mtlpage data spare 1 in
      let! b := onM (mtl_block ramindex) in
      onM (mtl_set_block ramindex (mtb_set_pba nb b))
    else
      let! mtlpage := nftl_write_error g mtlblock mtlpage data spare 1 in
      ret tt
  else ret tt.

Definition nftl_update_mt (lba pba : Z) : M (nftl W) Z :=
  let! junk := onF (stack BLOCK_INFO_SIZE) in
  let mtpgofs := u8 (lba / (writesize g / 2)) in
  let mtindex := u8 (mtpgofs / nr_pgsinblk g) in
  let wordofs := lba mod (writesize g / 2) in
  let! l := onM (nftl_get_physical_mt g mtpgofs) in
  mt_cached_read (fst l) (snd l) ;;
  mt_store wordofs pba ;;
  let! t := mtl_target mtindex in
  let '(operation, mtlblock, mtlpage, ramindex) := t in
  mtl_write operation mtlblock mtlpage ramindex (mtl_spare mtpgofs mtindex junk) ;;
  let! e := onM (nftl_update_mtl_ram g operation ramindex mtpgofs mtlblock 0) in
  let! b := onM (mtl_block ramindex) in
  if mtb_used b =? nr_pgsinblk g then nftl_merge_mtlblk ramindex else ret e.

(** ** Looking an entry up *)

(** Moving a log block with too many bit errors.  [inr] is the early
    return. *)
Definition move_mtl_block (mt_block mt_page : Z) : M (nftl W) (Z + Z) :=
  let! new_blk := onA (nftl_get_free_block g) in
  if new_blk =? 0xFFFF then ret (inr 1)
  else
    let! count := onM (nftl_update_mtl_ram g UPDATE_OPERATION 0 mt_page mt_block new_blk) in
    let replace_page_count := u8 count in
    let! e := nftl_block_replace g mt_block new_blk replace_page_count in
    if truth e then ret (inr 1)
    else
      let! e := nftl_addto_gt g [mt_block] in
      if truth e then ret (inr 1) else ret (inl e).

(** Moving a MapTab block. *)
Definition move_mt_block (mtindex : Z) : M (nftl W) (Z + Z) :=
  let! new_blk := onA (nftl_get_free_block g) in
  if new_blk =? 0xFFFF then ret (inr 1)
  else
    let! mt_block := onM (mt_pba mtindex) in
    onM (mt_set_pba mtindex new_blk) ;;
    let! e := nftl_block_replace g mt_block new_blk (nr_pgsinblk g) in
    if truth e then ret (inr 1)
    else
      let! e := nftl_addto_gt g [mt_block] in
      if truth e then ret (inr 1) else ret (inl e).

Definition sanitize_pba (pba : Z) : Z :=
  if negb (pba =? 0xffff) && (pba >? nr_blks g) then 0xffff else pba.

(** The result and the new contents of [*pba]; [pba0] is what the caller's
    variable held. *)
Definition nftl_lba_to_pba (lba pba0 : Z) : M (nftl W) (Z * Z) :=
  let mt_pgofs := lba / (writesize g / 2) in
  let byteofs_in_pg := lba mod (writesize g / 2) * 2 in
  let! l := onM (nftl_get_physical_mt g mt_pgofs) in
  let! e := mt_cached_read (fst l) (snd l) in
  if truth e then ret (e, sanitize_pba pba0)
  else
    let! c := gets n_cache in
    let! pba := assert_some OutOfBounds (get16 (mt_readcache c) byteofs_in_pg) in
    let! f := gets n_flash in
    if fl_corrected f >? ECC_ERR_LIMIT then
      let! r := onM (nftl_find_mtpg_in_mtl g (u16 mt_pgofs)) in
      let! m := (if fst r =? FIND_OK then move_mtl_block (fst (snd r)) (snd (snd r))
                 else move_mt_block (u8 (mt_pgofs / nr_pgsinblk g))) in
      match m with
      | inr e => ret (e, pba)
      | inl e => ret (e, sanitize_pba pba)
      end
    else ret (e, sanitize_pba pba).
End Operations.
