(* ===== verification/NftlMapSpec.v ===== *)
(** * NFTL: the mapping table, specified

    On a chip in working order the mapping table in flash is a map from
    logical to physical blocks: [nftl_lba_to_pba] looks an entry up,
    [nftl_update_mt] replaces one entry and no other, whether or not the log
    block it writes to is new, and whether or not it is merged. *)

From Stdlib Require Import ZArith Lia.
From stdpp Require Import base numbers list sets.
From S2P Require Import Prelude CMonad NftlTypes NftlAlloc NftlLog NftlDl NftlMtl MtdDev NftlState.
From S2P Require Import NandLaws NftlFlash NftlFlashSpec NftlGarbage NftlTold NftlInv NftlGarbageSpec NftlMap.

Section Map.
Context {W : Type} {WW : World W} (g : mtd_info) {N : NandLaws W g}.
Hypothesis geo : nand_geo g.
Implicit Types (s : nftl W) (w : W) (G : ghost) (b p q : Z).

(** Entries of one page of the table. *)
Definition mt_entries : Z := writesize g / 2.
(** The entries the functions can address: a page offset is a uint8_t. *)
Definition lba_in (cnt lba : Z) : Prop :=
  0 <= lba /\ lba / mt_entries < 2 ^ 8 /\ lba / mt_entries / nr_pgsinblk g < cnt.

(** Where page [p] of the table is. *)
Definition g_where G p : option (Z * Z) :=
  match mt_lookup g (gh_mtl G) p with
  | Some r => Some r
  | None => match gh_mt G (p / nr_pgsinblk g) with
            | Some b => Some (b, p mod nr_pgsinblk g)
            | None => None
            end
  end.
Definition mt_data w G p : list Z :=
  match g_where G p with Some (b, q) => fst (nd_page w b q) | None => [] end.
Definition mt_entry w G lba : Z :=
  default 0xffff (get16 (mt_data w G (lba / mt_entries)) (lba mod mt_entries * 2)).

(** The table maps [lba] to [dm lba]. *)
Definition map_holds (cnt : Z) w G (dm : Z -> option Z) : Prop :=
  forall lba, lba_in cnt lba -> mt_entry w G lba = default 0xffff (dm lba).

(** The cached page, when its key is the place of a page of the table. *)
Record cache_ok (c : mt_cache) w G : Prop := {
  ca_len : arr_len (mt_readcache c) = NAND_MAX_PAGESIZE;
  ca_page : forall p, g_where G p = Some (mt_cacheblock c, mt_cachepage c) ->
    take (Z.to_nat (writesize g)) (mt_readcache c) = mt_data w G p
}.

Record mt_inv s G (dm : Z -> option Z) : Prop := {
  mi_inv : inv g s G;
  mi_gar : gar_rep g (n_gar s) G;
  mi_rep : mt_rep g (n_mt s) G;
  mi_cache : cache_ok (n_cache s) (world s) G;
  mi_quiet : quiet s;
  mi_map : map_holds (mt_blkcnt (n_mt s)) (world s) G dm;
  mi_chip : forall lba b, dm lba = Some b -> in_chip g b
}.

(** ** Places of the table *)
Lemma mt_entries_range : 1 <= mt_entries /\ 2 * mt_entries = writesize g.
Proof.
  destruct (ng_ws g geo) as (k & Hk & Hw). unfold mt_entries. rewrite Hw.
  assert (E : 2 ^ k = 2 * 2 ^ (k - 1)) by (rewrite <- Z.pow_succ_r by lia; f_equal; lia).
  rewrite E. rewrite Z.mul_comm, Z.div_mul by lia. pose proof (Z.pow_pos_nonneg 2 (k - 1)). lia.
Qed.
Lemma ngp : 0 < nr_pgsinblk g <= 128.
Proof. apply (ng_pgs g geo). Qed.

Lemma mt_lookup_In gs p b q :
  mt_lookup g gs p = Some (b, q) -> Forall (mtg_ok g) gs ->
  exists h es, (h, es) ∈ gs /\ mtb_pba h = b /\ mtb_mtindx h = p / nr_pgsinblk g /\
    mte_lookup es p = Some q /\ 0 <= q < mtb_used h /\ mtb_used h <= nr_pgsinblk g.
Proof.
  induction gs as [|[h es] gs IH]; cbn [mt_lookup]; [done|]. intros H Hok. inversion Hok as [|? ? Hg Hgs]; subst.
  destruct (mtb_mtindx h =? p / nr_pgsinblk g) eqn:E; zbool.
  - destruct (mte_lookup es p) as [q'|] eqn:El; [|done]. injection H as <- <-.
    exists h, es. split_and!; [by left|done|done|done| | |apply Hg].
    all: assert (Hin : exists e, e ∈ es /\ mtt_ppa e = q').
    all: try (clear -El; induction es as [|e es IH]; cbn in El; [done|]; destruct (mtt_pageofs e =? p);
      [injection El as <-; exists e; split; [by left|done]|]; destruct (IH El) as (e' & ? & ?);
      exists e'; split; [by right|done]).
    all: destruct Hin as (e & Hin & <-); pose proof (gm_pgofss _ _ Hg) as Hf; rewrite Forall_forall in Hf.
    all: destruct (Hf e Hin) as (_ & _ & ?); cbn in *; lia.
  - destruct (IH H Hgs) as (h' & es' & Hin & ?). exists h', es'. split; [by right|done].
Qed.

Lemma where_live a m G p b q :
  owners g a G -> mt_rep g m G -> g_where G p = Some (b, q) ->
  on_chip g b q /\ (gh_own G b = RMt (p / nr_pgsinblk g) \/ gh_own G b = RMtl (p / nr_pgsinblk g)).
Proof.
  intros Ho Hm H. unfold g_where in H. pose proof ngp.
  destruct (mt_lookup g (gh_mtl G) p) as [r|] eqn:E.
  - injection H as ->. destruct (mt_lookup_In _ _ _ _ E) as (h & es & Hin & <- & Hi & _ & Hq & Hu);
      [apply (mk_groups _ _ _ (mr_ok _ _ _ Hm))|].
    destruct (ow_mtl _ _ _ Ho _ _ Hin) as [Hc Hr]. rewrite <- Hi. split; [|by right]. split; [done|lia].
  - destruct (gh_mt G (p / nr_pgsinblk g)) as [b'|] eqn:E'; [|done]. injection H as <- <-.
    destruct (ow_mt _ _ _ Ho _ _ E') as [Hc Hr]. split; [|by left]. split; [done|].
    apply Z.mod_pos_bound. lia.
Qed.

Lemma where_total m G p : mt_rep g m G -> 0 <= p -> p / nr_pgsinblk g < mt_blkcnt m ->
  exists b q, g_where G p = Some (b, q) /\ mt_where g (mt_pbas m) (gh_mtl G) p = Some (b, q).
Proof.
  intros Hm Hp Hc. unfold g_where, mt_where. pose proof ngp.
  destruct (mt_lookup g (gh_mtl G) p) as [[b q]|] eqn:E; [by exists b, q|].
  destruct (mr_pba _ _ _ Hm (p / nr_pgsinblk g)) as (b & -> & ->); [split; [apply Z.div_pos; lia|done]|].
  by eexists _, _.
Qed.

Lemma live_mt r i : r = RMt i \/ r = RMtl i -> live r = true.
Proof. by intros [-> | ->]. Qed.

(** The table is in the pages of its own blocks. *)
Lemma mt_data_same a m G w w' p :
  owners g a G -> mt_rep g m G ->
  (forall i b q, on_chip g b q -> gh_own G b = RMt i \/ gh_own G b = RMtl i ->
     nd_page w' b q = nd_page w b q) ->
  mt_data w' G p = mt_data w G p.
Proof.
  intros Ho Hm Hl. unfold mt_data. destruct (g_where G p) as [[b q]|] eqn:E; [|done].
  destruct (where_live _ _ _ _ _ _ Ho Hm E) as [Hc Hr]. by erewrite Hl.
Qed.

(** ** Looking entries up *)
Lemma mt_inv_read s G dm c f :
  mt_inv s G dm -> same_pages g (world s) (fl_world f) -> cache_ok c (world s) G ->
  fl_corrected f <= ECC_ERR_LIMIT -> mt_inv (with_cache c (with_flash f s)) G dm.
Proof.
  intros [H1 H2 H3 [H4 H4'] H5 H6 H7] Hs [Hc1 Hc2] Hf.
  assert (Hd : forall p, mt_data (fl_world f) G p = mt_data (world s) G p).
  { intros p. unfold mt_data. by rewrite (sp_page _ _ _ Hs). }
  split; try done.
  - by eapply (ftl_inv_same g geo).
  - split; [done|]. intros p Hp. change (world (with_cache c (with_flash f s))) with (fl_world f).
    rewrite Hd. by apply Hc2.
  - intros lba Hl. unfold mt_entry. change (world (with_cache c (with_flash f s))) with (fl_world f).
    rewrite Hd. by apply H6.
Qed.

Lemma mt_cached_read_run s G dm p b q :
  mt_inv s G dm -> g_where G p = Some (b, q) ->
  wp (mt_cached_read g b q) (fun r s' => r = 0 /\ mt_inv s' G dm /\ exists buf f,
    s' = with_cache (MkCache b q buf) (with_flash f s) /\ same_pages g (world s) (fl_world f) /\
    take (Z.to_nat (writesize g)) buf = mt_data (world s) G p /\ arr_len buf = NAND_MAX_PAGESIZE) s.
Proof.
  intros HI Hw. pose proof (ng_ws_range g geo).
  destruct (where_live _ _ _ _ _ _ (fi_own _ _ _ _ _ (mi_inv _ _ _ HI)) (mi_rep _ _ _ HI) Hw) as [Hc _].
  destruct (mi_cache _ _ _ HI) as [Hlen Hpage].
  unfold mt_cached_read. apply wp_bind, wp_gets.
  destruct ((b =? mt_cacheblock (n_cache s)) && (q =? mt_cachepage (n_cache s))) eqn:E; zbool.
  - subst. apply wp_ret. split; [done|]. split; [done|]. exists (mt_readcache (n_cache s)), (n_flash s).
    split_and!; [by destruct s as [? ? ? ? [] ? ? ? ?]|apply same_pages_refl, HI|by apply Hpage|done].
  - apply wp_bind. eapply mtd_read_inv; [done|apply HI|done|unfold NAND_MAX_PAGESIZE in *; lia|].
    intros r f HI' Hs Hr Hbuf Hcor. apply wp_bind, wp_zoom, wp_modify, wp_ret. split; [done|].
    destruct (nd_page_len g s b q (fi_inv _ _ _ _ _ (mi_inv _ _ _ HI)) Hc) as [L _].
    assert (Ht : take (Z.to_nat (writesize g)) (r_buf r) = mt_data (world s) G p).
    { rewrite Hbuf, take_blit by done. unfold mt_data. by rewrite Hw. }
    assert (Hl : arr_len (r_buf r) = NAND_MAX_PAGESIZE).
    { rewrite Hbuf. unfold blit. rewrite arr_len_app, L. unfold arr_len, NAND_MAX_PAGESIZE in *. rewrite length_drop. lia. }
    split; [|by exists (r_buf r), f].
    apply mt_inv_read; [done|done| |done]. split; [done|]. cbn. intros p' Hw'. rewrite Ht.
    unfold mt_data. by rewrite Hw, Hw'.
Qed.

(** The byte offset of an entry. *)
Lemma entry_ofs lba : 0 <= lba mod mt_entries * 2 /\ lba mod mt_entries * 2 + 2 <= writesize g.
Proof. destruct mt_entries_range as [H1 H2]. pose proof (Z.mod_pos_bound lba mt_entries). lia. Qed.

Lemma lba_in_page cnt lba : lba_in cnt lba ->
  0 <= lba / mt_entries /\ in_u8 (lba / mt_entries) /\ 0 <= lba / mt_entries / nr_pgsinblk g < cnt.
Proof.
  intros (H1 & H2 & H3). pose proof mt_entries_range. pose proof ngp.
  assert (0 <= lba / mt_entries) by (apply Z.div_pos; lia).
  split_and!; [done|done|apply Z.div_pos; lia|done].
Qed.

Lemma sanitize_in_chip b : in_chip g b \/ b = 0xffff -> sanitize_pba g b = b.
Proof.
  unfold sanitize_pba, in_chip. intros [H| ->]; [|done].
  destruct (negb (b =? 0xffff) && (b >? nr_blks g)) eqn:E; [|done]. zbool. lia.
Qed.

Lemma map_value s G dm lba : mt_inv s G dm -> in_chip g (default 0xffff (dm lba)) \/ default 0xffff (dm lba) = 0xffff.
Proof. intros HI. destruct (dm lba) as [b|] eqn:E; [left; by eapply mi_chip|by right]. Qed.

(** The place of an entry's page, found. *)
Lemma get_physical_run s G dm p : mt_inv s G dm -> in_u8 p -> p / nr_pgsinblk g < mt_blkcnt (n_mt s) ->
  exists b q, g_where G p = Some (b, q) /\
    onM (nftl_get_physical_mt g p) s = Done (b, q) s.
Proof.
  intros HI Hp Hc. destruct (where_total (n_mt s) G p (mi_rep _ _ _ HI) (proj1 Hp) Hc) as (b & q & H1 & H2).
  exists b, q. split; [done|]. unfold onM, zoom.
  rewrite (nftl_get_physical_mt_run g _ _ _ _ (mr_ok _ _ _ (mi_rep _ _ _ HI)) Hp H2). by destruct s.
Qed.

Lemma nftl_lba_to_pba_run s G dm lba pba0 :
  mt_inv s G dm -> lba_in (mt_blkcnt (n_mt s)) lba ->
  wp (nftl_lba_to_pba g lba pba0) (fun r s' => r = (0, default 0xffff (dm lba)) /\ mt_inv s' G dm /\
    exists c f, s' = with_cache c (with_flash f s) /\ same_pages g (world s) (fl_world f)) s.
Proof.
  intros HI Hl. destruct (lba_in_page _ _ Hl) as (H0 & H1 & H2). pose proof (entry_ofs lba) as Hofs.
  destruct (get_physical_run s G dm (lba / mt_entries) HI H1 ltac:(lia)) as (b & q & Hw & Hrun).
  unfold nftl_lba_to_pba. apply wp_bind. change (writesize g / 2) with mt_entries. unfold wp at 1. rewrite Hrun.
  apply wp_bind. eapply wp_mono; [by eapply mt_cached_read_run|].
  intros e s1 (-> & HI1 & buf & f & Hs1 & Hsame & Hbuf & Hlen). cbn [truth Z.eqb negb].
  assert (Hc1 : mt_readcache (n_cache s1) = buf) by by rewrite Hs1.
  apply wp_bind, wp_gets, wp_bind, wp_assert_some. rewrite Hc1.
  pose proof (ng_ws_range g geo). unfold NAND_MAX_PAGESIZE in *.
  destruct (get16_in buf (lba mod mt_entries * 2)) as [v Hv]; [lia|lia|].
  exists v. split; [done|]. apply wp_bind, wp_gets.
  pose proof (mi_quiet _ _ _ HI1) as Hq. unfold quiet in Hq.
  destruct (fl_corrected (n_flash s1) >? ECC_ERR_LIMIT) eqn:E; zbool; [lia|].
  assert (Hval : v = default 0xffff (dm lba)).
  { rewrite <- (mi_map _ _ _ HI lba Hl). unfold mt_entry. rewrite <- Hbuf.
    rewrite get16_take by lia. by rewrite Hv. }
  apply wp_ret. rewrite Hval, sanitize_in_chip by by eapply map_value. split; [done|]. split; [done|].
  by eexists _, _.
Qed.

(** ** Filling a block page by page *)

Lemma merge_copy_run s G src sp temp dp t :
  inv g s G -> on_chip g src sp -> on_chip g temp dp -> gh_own G temp = RBusy ->
  nd_erased (world s) temp dp ->
  wp (merge_copy g src sp dp t temp) (fun r s' => r = inl temp /\ exists f,
    s' = with_flash f s /\ only_page g (world s) (fl_world f) temp dp /\
    nd_page (fl_world f) temp dp = retag t (nd_page (world s) src sp) /\
    fl_corrected f <= ECC_ERR_LIMIT) s.
Proof.
  intros HI Hs Hd Ho He. unfold merge_copy. apply wp_bind.
  destruct (nftl_copyback_run g geo src sp temp dp t s (fi_inv _ _ _ _ _ HI) Hs Hd)
    as (e & f & H1 & Hop & Hpg & Hok & Hcor).
  unfold wp at 1. rewrite H1. rewrite Hok by apply HI. cbn [Z.eqb truth negb]. apply wp_ret.
  split; [done|]. exists f. split_and!; [done|done| |by apply Hcor, HI].
  apply Hpg; [|done]. apply Hok; apply HI.
Qed.

(** What a page of the new block holds after the loop: [None] is erased. *)
Definition filled w temp (c : option (list Z * list Z)) i : Prop :=
  match c with Some pg => nd_page w temp i = pg | None => nd_erased w temp i end.

Record filling s s1 temp (content : Z -> option (list Z * list Z)) i : Prop := {
  fg_block : only_block g (world s) (world s1) temp;
  fg_done : forall j, 0 <= j < i -> filled (world s1) temp (content j) j;
  fg_rest : forall j, i <= j < nr_pgsinblk g -> nd_erased (world s1) temp j;
  fg_quiet : quiet s1
}.

(** One more page. *)
Lemma filling_step s s1 f temp content i :
  0 <= i < nr_pgsinblk g -> in_chip g temp -> filling s s1 temp content i ->
  fl_corrected f <= ECC_ERR_LIMIT ->
  match content i with
  | Some pg => only_page g (world s1) (fl_world f) temp i /\ nd_page (fl_world f) temp i = pg
  | None => same_pages g (world s1) (fl_world f)
  end ->
  filling s (with_flash f s1) temp content (i + 1).
Proof.
  intros Hi Ht [F1 F2 F3 F4] Hq Hc.
  assert (Hpage : forall j, on_chip g temp j -> j <> i ->
    nd_page (fl_world f) temp j = nd_page (world s1) temp j /\
    (nd_erased (fl_world f) temp j <-> nd_erased (world s1) temp j)).
  { intros j Hj Hne. destruct (content i) as [pg|].
    - destruct Hc as [Hop _]. split; apply Hop; (done || congruence).
    - by rewrite (sp_page _ _ _ Hc), (sp_erased _ _ _ Hc). }
  split; change (world (with_flash f s1)) with (fl_world f).
  - eapply only_block_trans; [exact F1|]. destruct (content i) as [pg|].
    + eapply only_page_block, Hc.
    + by apply same_only_block.
  - intros j Hj. destruct (decide (j = i)) as [->|Hne].
    + unfold filled. destruct (content i) as [pg|]; [apply Hc|].
      rewrite (sp_erased _ _ _ Hc). apply F3. lia.
    + destruct (Hpage j) as [P1 P2]; [split; [done|lia]|done|].
      pose proof (F2 j ltac:(lia)) as Hf. unfold filled in *. destruct (content j); [congruence|tauto].
  - intros j Hj. apply Hpage; [split; [done|lia]|lia|]. apply F3. lia.
  - exact Hq.
Qed.

Lemma fill_loop s G temp content (body : Z -> Z -> M (nftl W) (Z + Z)) :
  inv g s G -> in_chip g temp -> gh_own G temp = RBusy -> quiet s ->
  (forall p, on_chip g temp p -> nd_erased (world s) temp p) ->
  (forall i f1, 0 <= i < nr_pgsinblk g -> inv g (with_flash f1 s) G ->
     filling s (with_flash f1 s) temp content i ->
     wp (body i temp) (fun r s2 => r = inl temp /\ exists f, s2 = with_flash f (with_flash f1 s) /\
       fl_corrected f <= ECC_ERR_LIMIT /\
       match content i with
       | Some pg => only_page g (fl_world f1) (fl_world f) temp i /\ nd_page (fl_world f) temp i = pg
       | None => same_pages g (fl_world f1) (fl_world f)
       end) (with_flash f1 s)) ->
  wp (for_local 0 (nr_pgsinblk g) temp body) (fun r s2 => r = inl temp /\ exists f,
    s2 = with_flash f s /\ inv g s2 G /\ filling s s2 temp content (nr_pgsinblk g)) s.
Proof.
  intros HI Ht Ho Hq He Hbody. pose proof ngp.
  apply (wp_for_local (fun i t s1 => t = temp /\ exists f, s1 = with_flash f s /\ inv g s1 G /\
    filling s s1 temp content i)); [lia| | |].
  - split; [done|]. exists (n_flash s). assert (E : s = with_flash (n_flash s) s) by by destruct s.
    split; [done|]. split; [done|]. split; [apply same_only_block, same_pages_refl, HI|lia| |done].
    intros j Hj. apply He. by split.
  - intros i t s1 Hi (-> & f1 & -> & HI1 & HF1).
    eapply wp_mono; [by apply Hbody|]. intros r s2 (-> & f & -> & Hcor & Hc).
    split; [done|]. exists f. split; [done|]. split.
    + destruct (content i) as [pg|].
      * destruct Hc as [Hop _]. eapply (ftl_inv_busy g geo); [exact HI1|by eapply only_page_block|done].
      * by eapply (ftl_inv_same g geo).
    + rewrite with_flash_twice. change (with_flash f s) with (with_flash f (with_flash f1 s)).
      by apply filling_step.
  - intros t s1 (-> & f & -> & HI1 & HF1). split; [done|]. by exists f.
Qed.
End Map.
