(* ===== verification/NftlMapUpdate.v ===== *)
(** * NFTL: updating the mapping table, specified

    [nftl_merge_mtlblk] moves the pages of one MapTab block and of its log
    into a new block without changing an entry; [nftl_update_mt] changes one
    entry. *)

From Stdlib Require Import ZArith Lia.
From stdpp Require Import base numbers list sets.
From S2P Require Import Prelude CMonad NftlTypes NftlAlloc NftlLog NftlDl NftlMtl MtdDev NftlState.
From S2P Require Import NandLaws NftlFlash NftlFlashSpec NftlGarbage NftlTold NftlInv NftlGarbageSpec NftlMap NftlMapSpec.

(** ** Searching for the last match *)

(** Entries with distinct keys: the last match is the only one. *)
Lemma mte_last es x acc :
  NoDup (map mtt_pageofs es) -> Forall (fun e => in_u8 (mtt_ppa e)) es ->
  foldl (fun f e => if x =? mtt_pageofs e then u8 (mtt_ppa e) else f) acc es = default acc (mte_lookup es x).
Proof.
  revert acc. induction es as [|e es IH]; intros acc Hnd Hp; cbn [foldl mte_lookup]; [done|].
  cbn [map] in Hnd. apply NoDup_cons in Hnd as [Hni Hnd]. inversion Hp as [|? ? He Hes]; subst.
  rewrite IH by done. rewrite (Z.eqb_sym x). destruct (mtt_pageofs e =? x) eqn:E; [|done]. zbool. subst.
  rewrite u8_id by done. by rewrite (proj2 (mte_lookup_None es (mtt_pageofs e)) Hni).
Qed.

Section Update.
Context {W : Type} {WW : World W} (g : mtd_info) {N : NandLaws W g}.
Hypothesis geo : nand_geo g.
Implicit Types (s : nftl W) (w : W) (G : ghost) (b p q : Z).

Lemma mtl_fact_run s gs1 h es gs2 start i :
  mt_ok g (n_mt s) (gs1 ++ (h, es) :: gs2) ->
  mtl_fact start (arr_len (ents gs1)) (mtb_valid h) i s = Done (default 0xff (mte_lookup es (start + i))) s.
Proof.
  intros Hok. pose proof (mt_ok_group _ _ _ _ _ _ Hok) as Hge.
  pose proof (gm_valid _ _ Hge) as Hv. cbn in Hv.
  unfold mtl_fact, for_local, bind at 1. rewrite Z.sub_0_r, Hv. unfold arr_len at 1. rewrite Nat2Z.id.
  rewrite (forL_fold _ (fun f e => if start + i =? mtt_pageofs e then u8 (mtt_ppa e) else f)).
  - unfold ret. rewrite mte_last; [done|apply Hge|].
    apply (mtg_ok_ppa g (h, es)); [done|apply (mk_geo _ _ _ Hok)].
  - intros j e l Hj. rewrite Z.add_0_l. unfold bind at 1, onM, zoom.
    pose proof (arr_get_Some _ _ _ Hj) as Hr.
    rewrite (mtl_trans_run _ _ e); [by destruct s|].
    by rewrite (log_rep_ent _ _ _ _ _ _ _ _ _ _ (mk_rep _ _ _ Hok)).
Qed.

(** ** The numbers of log blocks and entries *)
Lemma mtl_count m G : mt_rep g m G -> arr_len (gh_mtl G) <= mt_blkcnt m.
Proof.
  intros Hm. pose proof (mr_cnt _ _ _ Hm).
  pose proof (mk_nodup _ _ _ (mr_ok _ _ _ Hm)) as Hnd.
  assert (Hsub : map (fun ge : mt_group => mtb_mtindx ge.1) (gh_mtl G) ⊆ seqZ 0 (mt_blkcnt m)).
  { intros i Hi. apply list_elem_of_In, in_map_iff in Hi as ([h es] & <- & Hin).
    apply list_elem_of_In in Hin. apply elem_of_seqZ. cbn.
    pose proof (mr_log _ _ _ Hm _ _ Hin). lia. }
  pose proof (submseteq_length _ _ (NoDup_submseteq _ _ Hnd Hsub)) as Hl.
  rewrite length_map, length_seqZ in Hl. unfold arr_len. lia.
Qed.

Lemma ents_count gs : Forall (mtg_ok g) gs -> nr_pgsinblk g <= 128 ->
  arr_len (ents gs) <= 128 * arr_len gs.
Proof.
  intros Hgs Hn. induction Hgs as [|[h es] gs Hge Hgs IH]; [done|].
  rewrite ents_cons, arr_len_app, arr_len_cons. pose proof (gm_valid _ _ Hge). pose proof (gm_used _ _ Hge).
  cbn in *. lia.
Qed.

Lemma mtl_room m G : mt_rep g m G -> mtl_blkcnt m < MTL_MAX_BLOCKS /\ mtl_pgcnt m < MTL_MAX_PAGES.
Proof.
  intros Hm. pose proof (mtl_count _ _ Hm). pose proof (mr_cnt _ _ _ Hm). pose proof (ngp g geo).
  pose proof (mr_ok _ _ _ Hm) as Hok. pose proof (ents_count _ (mk_groups _ _ _ Hok) ltac:(lia)).
  rewrite (lr_blkcnt _ _ _ _ _ _ (mk_rep _ _ _ Hok)), (lr_pgcnt _ _ _ _ _ _ (mk_rep _ _ _ Hok)).
  unfold MTL_MAX_BLOCKS, MTL_MAX_PAGES, MTL_MAX_BLOCKS, MT_MAX_BLOCKS, MAX_PAGES_IN_BLOCK in *. lia.
Qed.

(** ** Merging a log block: the owners *)

Definition mtl_merged (i old new : Z) (h : mtl_blockinfo) (gs : list mt_group) G : ghost :=
  set_own new (RMt i) (set_own old RBusy (set_own (mtb_pba h) RBusy
    (set_gmtl gs (set_gmt i (Some new) G)))).

Lemma mtl_merged_own i old new h gs G c :
  gh_own (mtl_merged i old new h gs G) c =
    if decide (c = new) then RMt i
    else if decide (c = old \/ c = mtb_pba h) then RBusy else gh_own G c.
Proof.
  unfold mtl_merged, set_own, set_gmtl, set_gmt, upd. cbn. repeat case_decide; (done || tauto || naive_solver).
Qed.

Lemma mtis_other gs1 h es gs2 h' (es' : list mtl_transitem) :
  NoDup (map (fun ge : mt_group => mtb_mtindx ge.1) (gs1 ++ (h, es) :: gs2)) ->
  (h', es') ∈ gs1 ++ gs2 -> mtb_mtindx h' <> mtb_mtindx h.
Proof.
  intros Hnd Hin E. rewrite map_app in Hnd. cbn [map] in Hnd.
  apply NoDup_app in Hnd as (_ & Hx & [Hy _]%NoDup_cons).
  assert (Hm : forall gs, (h', es') ∈ gs -> mtb_mtindx h' ∈ map (fun ge : mt_group => mtb_mtindx ge.1) gs).
  { intros gs H. apply list_elem_of_In, in_map_iff. exists (h', es'). split; [done|]. by apply list_elem_of_In. }
  apply elem_of_app in Hin as [Hin|Hin]; apply Hm in Hin; rewrite E in Hin.
  - apply (Hx _ Hin). by left.
  - done.
Qed.

Lemma mtl_merged_inv w a pg G i old new gs1 h es gs2 :
  ftl_inv g w a pg G -> gh_mt G i = Some old -> gh_mtl G = gs1 ++ (h, es) :: gs2 -> mtb_mtindx h = i ->
  NoDup (map (fun ge : mt_group => mtb_mtindx ge.1) (gh_mtl G)) ->
  gh_own G new = RBusy -> in_chip g new -> mt_stored g w i new ->
  ftl_inv g w a pg (mtl_merged i old new h (gs1 ++ gs2) G) /\
  old <> mtb_pba h /\ new <> old /\ new <> mtb_pba h /\ in_chip g old /\ in_chip g (mtb_pba h) /\
  live (gh_own G old) = true /\ live (gh_own G (mtb_pba h)) = true.
Proof.
  intros [H1 H2 H3 H4 H7 H8 [HT HN HB]] Hmt Hmtl Hi Hnd Hnew Hc Hst.
  destruct (ow_mt _ _ _ H7 _ _ Hmt) as [Hoc Hoo].
  destruct (ow_mtl _ _ _ H7 h es) as [Hpc Hpo]; [rewrite Hmtl; set_solver|]. rewrite Hi in Hpo.
  assert (Hsub : forall h' es', (h', es') ∈ gs1 ++ gs2 -> (h', es') ∈ gh_mtl G) by (rewrite Hmtl; set_solver).
  split_and!; try congruence; [|by rewrite Hoo|by rewrite Hpo]. split; auto.
  - pose proof (mtl_merged_own i old new h (gs1 ++ gs2) G) as Hown. destruct H7 as [O1 O2 O3 O4 O5 O6 O7 O8].
    assert (Hother : forall c, gh_own G c <> RBusy -> gh_own G c <> RMt i -> gh_own G c <> RMtl i ->
      gh_own (mtl_merged i old new h (gs1 ++ gs2) G) c = gh_own G c).
    { intros c N1 N2 N3. rewrite Hown. rewrite !decide_False; [done|intros [->| ->]; congruence|congruence]. }
    split.
    + intros c. rewrite O1, Hown. repeat case_decide; [subst; rewrite Hnew; split; intros []; done| |done].
      match goal with Hor : _ \/ _ |- _ => destruct Hor as [->| ->] end; [rewrite Hoo|rewrite Hpo]; (split; intros []; done).
    + intros j c. change (gh_mt (mtl_merged i old new h (gs1 ++ gs2) G) j) with (upd (gh_mt G) i (Some new) j).
      unfold upd. case_decide.
      * intros [= <-]. subst j. split; [done|]. rewrite Hown. by rewrite decide_True.
      * intros Hj. destruct (O2 j c Hj) as [? E]. split; [done|]. rewrite Hother; [done|rewrite E; congruence..].
    + intros h' es' Hin. destruct (O3 h' es') as [? E]; [by apply Hsub|]. split; [done|].
      assert (mtb_mtindx h' <> mtb_mtindx h) by (rewrite Hmtl in Hnd; by eapply mtis_other).
      rewrite Hother; [done|rewrite E; congruence..].
    + intros h' es' Hin. destruct (O4 h' es' Hin) as [? E]. split; [done|].
      rewrite Hother; [done|rewrite E; congruence..].
    + intros lba c Hl. destruct (O5 lba c Hl) as [? E]. split; [done|]. rewrite Hother; [done|rewrite E; congruence..].
    + intros c Hin. destruct (O6 c Hin) as [? E]. split; [done|]. rewrite Hother; [done|rewrite E; congruence..].
    + done.
    + intros c Hin. destruct (O8 c Hin) as [? E]. split; [done|]. rewrite Hother; [done|rewrite E; congruence..].
  - destruct H8 as [E1 E2 E3 E4]. split; auto.
    + intros c p Hcp. rewrite mtl_merged_own. repeat case_decide; [done|done|by apply E1].
    + intros h' es' p Hin. apply (E2 h' es'). by apply Hsub.
  - split.
    + eapply (told_step g geo w w); [exact H7|exact HT|..]; cbn.
      * intros j c. unfold upd. case_decide; [intros [= <-]; right; by subst|by left].
      * intros h' es' Hin. left. split; [by apply Hsub|done].
      * by left.
      * by left.
      * by left.
      * by left.
    + intros c. rewrite mtl_merged_own. case_decide as D1; [cbn; by rewrite D1, upd_eq|].
      case_decide as D2; [done|]. eapply (names_keep G); [..|by apply HN]; cbn; try done.
      * intros j Hj. rewrite upd_ne; [done|]. intros ->. apply D2. left. congruence.
      * intros h' es' Hin Hp. exists h', es'. split; [|done]. rewrite Hmtl in Hin.
        assert ((h', es') <> (h, es)) by (intros [= -> ->]; apply D2; by right). set_solver.
      * eauto.
    + intros c Hcc. rewrite HB by done. rewrite mtl_merged_own. repeat case_decide; try done.
      * subst. by rewrite Hnew.
      * match goal with Hor : _ \/ _ |- _ => destruct Hor as [->| ->] end; [by rewrite Hoo|by rewrite Hpo].
Qed.

(** Where the pages are afterwards. *)
Lemma g_where_merged i old new h gs1 es gs2 G p :
  NoDup (map (fun ge : mt_group => mtb_mtindx ge.1) (gh_mtl G)) -> gh_mtl G = gs1 ++ (h, es) :: gs2 ->
  mtb_mtindx h = i ->
  g_where g (mtl_merged i old new h (gs1 ++ gs2) G) p =
    if p / nr_pgsinblk g =? i then Some (new, p mod nr_pgsinblk g) else g_where g G p.
Proof.
  intros Hnd Hmtl Hi. unfold g_where. cbn [mtl_merged set_own set_gmtl set_gmt gh_mtl gh_mt].
  rewrite Hmtl in Hnd |- *. rewrite (mt_lookup_mid g gs1 h es gs2) by done. rewrite Hi, (Z.eqb_sym i).
  destruct (p / nr_pgsinblk g =? i) eqn:E; zbool.
  - rewrite (mt_lookup_deleted g gs1 h es gs2) by (done || congruence). by rewrite E, upd_eq.
  - by rewrite upd_ne.
Qed.

(** The page the merge copies to page [i] of the new block. *)
Definition merge_src (h : mtl_blockinfo) es (old start i : Z) : Z * Z :=
  match mte_lookup es (start + i) with Some q => (mtb_pba h, q) | None => (old, i) end.
Definition merge_content w h es old start i : option (list Z * list Z) :=
  let r := merge_src h es old start i in Some (retag MAP_TAB_BLOCK (nd_page w (fst r) (snd r))).

Lemma g_where_src G gs1 h es gs2 old i :
  NoDup (map (fun ge : mt_group => mtb_mtindx ge.1) (gh_mtl G)) -> gh_mtl G = gs1 ++ (h, es) :: gs2 ->
  gh_mt G (mtb_mtindx h) = Some old -> 0 <= i < nr_pgsinblk g ->
  g_where g G (mtb_mtindx h * nr_pgsinblk g + i) =
    Some (merge_src h es old (mtb_mtindx h * nr_pgsinblk g) i).
Proof.
  intros Hnd Hmtl Hmt Hi. unfold g_where, merge_src. rewrite Hmtl in Hnd |- *.
  assert (Hd : (mtb_mtindx h * nr_pgsinblk g + i) / nr_pgsinblk g = mtb_mtindx h)
    by (rewrite Z.div_add_l by lia; rewrite Z.div_small by lia; lia).
  assert (Hm : (mtb_mtindx h * nr_pgsinblk g + i) mod nr_pgsinblk g = i)
    by (rewrite Z.add_comm, Z.mod_add by lia; by apply Z.mod_small).
  rewrite (mt_lookup_mid g gs1 h es gs2) by done. rewrite Hd, Hm, Z.eqb_refl.
  destruct (mte_lookup es _); [done|]. by rewrite Hmt.
Qed.

Lemma merge_pages_run s G temp mtindex old h es start factppa :
  inv g s G -> in_chip g temp -> gh_own G temp = RBusy -> quiet s ->
  (forall p, on_chip g temp p -> nd_erased (world s) temp p) ->
  arr_get (mt_pbas (n_mt s)) mtindex = Some old -> in_chip g old -> old <> temp ->
  in_chip g (mtb_pba h) -> mtb_pba h <> temp ->
  (forall x q, mte_lookup es x = Some q -> 0 <= q < nr_pgsinblk g) ->
  (forall i, 0 <= i < nr_pgsinblk g -> arr_get factppa i = Some (default 0xff (mte_lookup es (start + i)))) ->
  wp (for_local 0 (nr_pgsinblk g) temp (fun i temp =>
    let! v := assert_some OutOfBounds (arr_get factppa i) in
    if negb (v =? 0xff) then merge_copy g (mtb_pba h) v i MAP_TAB_BLOCK temp
    else
      let! old := onM (mt_pba mtindex) in
      merge_copy g old i i MAP_TAB_BLOCK temp))
  (fun r s2 => r = inl temp /\ exists f, s2 = with_flash f s /\ inv g s2 G /\
    filling g s s2 temp (merge_content (world s) h es old start) (nr_pgsinblk g)) s.
Proof.
  intros HI Ht Ho Hq He Hold Hco Hne Hch Hneh Hes Hf. pose proof (ngp g geo).
  eapply fill_loop; [done|done|done|done|done|done|]. intros i f1 Hi HI1 HF.
  apply wp_bind, wp_assert_some. rewrite Hf by done. eexists. split; [reflexivity|].
  assert (Htd : on_chip g temp i) by by split.
  assert (Hsrc : forall b q, on_chip g b q -> b <> temp -> merge_src h es old start i = (b, q) ->
    wp (merge_copy g b q i MAP_TAB_BLOCK temp) (fun r s2 => r = inl temp /\
      exists f, s2 = with_flash f (with_flash f1 s) /\ fl_corrected f <= ECC_ERR_LIMIT /\
      match merge_content (world s) h es old start i with
      | Some pg => only_page g (fl_world f1) (fl_world f) temp i /\ nd_page (fl_world f) temp i = pg
      | None => same_pages g (fl_world f1) (fl_world f) end) (with_flash f1 s)).
  { intros b q Hc Hb Hs. eapply wp_mono; [eapply (merge_copy_run g geo _ G b q temp i MAP_TAB_BLOCK HI1 Hc Htd Ho)|].
    - apply (fg_rest _ _ _ _ _ _ HF). lia.
    - intros r s2 (-> & f & -> & Hop & Hpg & Hcor). split; [done|]. exists f. split_and!; [done|done|].
      unfold merge_content. rewrite Hs. split; [done|]. cbn. rewrite Hpg. f_equal.
      by apply (ob_page _ _ _ _ (fg_block _ _ _ _ _ _ HF)). }
  destruct (mte_lookup es (start + i)) as [q|] eqn:E; cbn [default from_option id].
  - pose proof (Hes _ _ E). destruct (q =? 255) eqn:Eq; zbool; [lia|]. cbn [negb].
    apply Hsrc; [by split|done|]. unfold merge_src. by rewrite E.
  - change (255 =? 255) with true. cbn [negb]. apply wp_bind. unfold onM. apply wp_zoom.
    unfold mt_pba. apply wp_bind, wp_gets, wp_assert_some. cbn [id n_mt with_flash].
    exists old. split; [done|]. change (with_mt (n_mt s) (with_flash f1 s)) with (with_flash f1 s).
    apply Hsrc; [by split|done|]. unfold merge_src. by rewrite E.
Qed.

(** ** What the table leaves alone *)

(** Blocks whose contents belong to the layer above, or that have been taken. *)
Definition user (r : role) : bool := match r with RDl _ | RData _ | RBusy => true | _ => false end.
Lemma user_live r : user r = true -> live r = true.
Proof. by destruct r. Qed.

(** Everything of the layer above, the blocks [xs] excepted. *)
Record mt_frame (xs : list Z) s G s' G' : Prop := {
  mf_dl : n_dl s' = n_dl s;
  mf_maxlp : n_maxlp s' = n_maxlp s;
  mf_bad : n_badblkcnt s' = n_badblkcnt s;
  mf_size : n_storagesize s' = n_storagesize s;
  mf_cnt : mt_blkcnt (n_mt s') = mt_blkcnt (n_mt s);
  mf_gdl : gh_dl G' = gh_dl G;
  mf_gdata : gh_data G' = gh_data G;
  mf_own : forall b, user (gh_own G b) = true -> b ∉ xs -> gh_own G' b = gh_own G b;
  mf_page : forall b p, on_chip g b p -> user (gh_own G b) = true -> b ∉ xs ->
    nd_page (world s') b p = nd_page (world s) b p;
  mf_busy : forall b, gh_own G' b = RBusy -> b ∉ xs -> gh_own G b = RBusy;
  mf_nd_bad : nd_bad (world s') = nd_bad (world s)
}.
Lemma mt_frame_trans xs ys s1 G1 s2 G2 s3 G3 :
  mt_frame xs s1 G1 s2 G2 -> mt_frame ys s2 G2 s3 G3 -> mt_frame (xs ++ ys) s1 G1 s3 G3.
Proof.
  intros [A1 A2 A3 A4 A5 A6 A7 A8 A9 A10 A11] [B1 B2 B3 B4 B5 B6 B7 B8 B9 B10 B11]. split; try congruence.
  - intros b Hu [Hx Hy]%not_elem_of_app. rewrite B8; [by apply A8| |done]. by rewrite A8.
  - intros b p Hc Hu [Hx Hy]%not_elem_of_app. rewrite B9; [by apply A9|done| |done]. by rewrite A8.
  - intros b Hb [Hx Hy]%not_elem_of_app. auto.
Qed.
(** A block that was free and is not left behind does not count. *)
Lemma mt_frame_taken xs s G s' G' b :
  mt_frame xs s G s' G' -> xs ⊆ [b] -> gh_own G b = RFree -> gh_own G' b <> RBusy -> mt_frame [] s G s' G'.
Proof.
  intros [A1 A2 A3 A4 A5 A6 A7 A8 A9 A10 A11] Hx Hf Hb. split; try done.
  - intros c Hu _. apply A8; [done|]. intros ->%Hx%list_elem_of_singleton. by rewrite Hf in Hu.
  - intros c p Hc Hu _. apply A9; [done|done|]. intros ->%Hx%list_elem_of_singleton. by rewrite Hf in Hu.
  - intros c Hc _. apply A10; [done|]. intros ->%Hx%list_elem_of_singleton. done.
Qed.
(** Accesses that only read, and the cache. *)
Lemma mt_frame_read s G c f : same_pages g (world s) (fl_world f) ->
  mt_frame [] s G (with_cache c (with_flash f s)) G.
Proof.
  intros Hs. split; try done; [|apply (sp_bad _ _ _ Hs)]. intros b p _ _ _. by rewrite <- (sp_page _ _ _ Hs).
Qed.
(** Taking a block. *)
Lemma mt_frame_take s s' G b : s' = with_alloc (n_alloc s') s -> gh_own G b = RFree ->
  mt_frame [b] s G s' (set_own b RBusy G).
Proof.
  intros Hs Hb. rewrite Hs. split; try done.
  - intros c Hu _. rewrite own_set_ne; [done|]. intros ->. by rewrite Hb in Hu.
  - intros c Hc Hn. rewrite own_set_ne in Hc by set_solver. done.
Qed.

(** Free blocks can be had: the garbage is reclaimed or [k] blocks are free. *)
Definition room (k : Z) s G : Prop := gh_gar G = [] \/ k <= nfree s.
Lemma room_free k m s G : room k s G -> m <= k -> m < spare_blocks s G -> m <= nfree s.
Proof.
  intros [H|H] Hk Hs; [|lia]. unfold spare_blocks in Hs. rewrite H in Hs.
  change (arr_len (@nil Z)) with 0 in Hs. destruct (gh_gt G); lia.
Qed.
Lemma room_gt k m s G : room k s G -> m <= k -> m <= spare_blocks s G -> gh_gt G = None -> m <= nfree s.
Proof.
  intros [H|H] Hk Hs Hg; [|lia]. unfold spare_blocks in Hs. rewrite H, Hg in Hs.
  change (arr_len (@nil Z)) with 0 in Hs. lia.
Qed.

(** ** The end of the merge *)

(** No entry has changed. *)
Lemma merged_data s G s3 G3 temp old gs1 h es gs2 p :
  mt_rep g (n_mt s) G -> owners g (n_alloc s) G -> gh_mtl G = gs1 ++ (h, es) :: gs2 ->
  gh_mt G (mtb_mtindx h) = Some old -> gh_own G temp = RBusy -> in_chip g temp ->
  (forall i, 0 <= i < nr_pgsinblk g -> filled g (world s) temp
     (merge_content (world s) h es old (mtb_mtindx h * nr_pgsinblk g) i) i) ->
  kept g [old; mtb_pba h] s (mtl_merged (mtb_mtindx h) old temp h (gs1 ++ gs2) G) s3 G3 ->
  mt_data g (world s3) G3 p = mt_data g (world s) G p.
Proof.
  intros Hm Ho Hmtl Hmt Ht Hc Hfill Hk. pose proof (ngp g geo). set (idx := mtb_mtindx h) in *.
  pose proof (mk_nodup _ _ _ (mr_ok _ _ _ Hm)) as Hnd.
  destruct (ow_mt _ _ _ Ho _ _ Hmt) as [_ Hoo].
  destruct (ow_mtl _ _ _ Ho h es) as [_ Hpo]; [rewrite Hmtl; set_solver|]. fold idx in Hpo.
  destruct (kp_tables _ _ _ _ _ _ Hk) as (_ & T1 & T2 & _).
  assert (Hw3 : g_where g G3 p = if p / nr_pgsinblk g =? idx then Some (temp, p mod nr_pgsinblk g) else g_where g G p).
  { rewrite <- (g_where_merged idx old temp h gs1 es gs2 G p Hnd Hmtl eq_refl).
    unfold g_where. by rewrite T1, T2. }
  assert (Hown : forall b, gh_own (mtl_merged idx old temp h (gs1 ++ gs2) G) b =
     if decide (b = temp) then RMt idx else if decide (b = old \/ b = mtb_pba h) then RBusy else gh_own G b)
    by (intros b; apply mtl_merged_own).
  unfold mt_data at 1. rewrite Hw3. destruct (p / nr_pgsinblk g =? idx) eqn:E; zbool.
  - pose proof (Z.mod_pos_bound p (nr_pgsinblk g) ltac:(lia)) as Hmod.
    rewrite (kp_page _ _ _ _ _ _ Hk); [|by split|by rewrite Hown, decide_True|].
    2:{ intros [->|[->|Hn]%elem_of_cons]%elem_of_cons; [congruence|congruence|inversion Hn]. }
    assert (Hp : p = idx * nr_pgsinblk g + p mod nr_pgsinblk g) by (rewrite <- E; pose proof (Z.div_mod p (nr_pgsinblk g)); lia).
    unfold mt_data. pose proof (g_where_src G gs1 h es gs2 old (p mod nr_pgsinblk g) Hnd Hmtl Hmt Hmod) as Hs.
    fold idx in Hs. rewrite <- Hp in Hs. rewrite Hs. specialize (Hfill _ Hmod). unfold filled, merge_content in Hfill.
    rewrite Hfill. by destruct (merge_src _ _ _ _ _).
  - unfold mt_data. destruct (g_where g G p) as [[b q]|] eqn:Eg; [|done].
    destruct (where_live g geo _ _ _ _ _ _ Ho Hm Eg) as [Hbc Hbr].
    assert (b <> temp /\ b <> old /\ b <> mtb_pba h) as (N1 & N2 & N3).
    { split_and!; intros ->; destruct Hbr; congruence. }
    rewrite (kp_page _ _ _ _ _ _ Hk); [done|done| |set_solver].
    rewrite Hown, decide_False, decide_False by tauto. by eapply live_mt.
Qed.

Lemma mt_ok_with_pbas d gs t : mt_ok g d gs -> arr_len t = arr_len (mt_pbas d) -> mt_ok g (with_mt_pbas t d) gs.
Proof. intros [H1 H2 H3 H4 H5 H6 H7] Ht. split; try done. cbn. by rewrite Ht. Qed.

(** The directory and the log after a merge. *)
Lemma mt_rep_merged m G G3 idx old temp t d' gs1 h es gs2 :
  mt_rep g m G -> gh_mtl G = gs1 ++ (h, es) :: gs2 -> gh_mt G idx = Some old ->
  arr_set (mt_pbas m) idx temp = Some t -> mt_ok g d' (gs1 ++ gs2) -> mt_pbas d' = t ->
  mt_blkcnt d' = mt_blkcnt m -> gh_mtl G3 = gs1 ++ gs2 -> gh_mt G3 = upd (gh_mt G) idx (Some temp) ->
  mt_rep g d' G3.
Proof.
  intros [M1 M2 M3 M4 M5] Hmtl Hmt Ht Hok Hp Hc H1 H2. split.
  - by rewrite H1.
  - by rewrite Hc.
  - intros i Hi. rewrite Hc in Hi. rewrite Hp, H2. unfold upd. rewrite (arr_get_set _ _ _ _ _ Ht).
    destruct (i =? idx) eqn:E; zbool; case_decide; try lia; [by eexists|by apply M3].
  - intros i. rewrite H2, Hc. unfold upd. case_decide; [|apply M4]. intros _. subst. apply M4. congruence.
  - intros h' es' Hin. rewrite Hc. apply (M5 h' es'). rewrite Hmtl. rewrite H1 in Hin. set_solver.
Qed.

(** The blocks of the layer above are not concerned. *)
Lemma merged_user a G idx old temp gs1 h es gs2 c :
  owners g a G -> gh_mt G idx = Some old -> gh_mtl G = gs1 ++ (h, es) :: gs2 ->
  user (gh_own G c) = true -> c <> temp ->
  gh_own (mtl_merged idx old temp h (gs1 ++ gs2) G) c = gh_own G c /\ c ∉ [old; mtb_pba h].
Proof.
  intros Ho Hmt Hmtl Hu Hc. destruct (ow_mt _ _ _ Ho _ _ Hmt) as [_ Hoo].
  destruct (ow_mtl _ _ _ Ho h es) as [_ Hpo]; [rewrite Hmtl; set_solver|].
  assert (c <> old /\ c <> mtb_pba h) as [? ?] by (split; intros ->; [by rewrite Hoo in Hu|by rewrite Hpo in Hu]).
  rewrite mtl_merged_own, decide_False, decide_False by tauto. split; [done|set_solver].
Qed.

(** The state once the old blocks are retired and the tables updated. *)
Lemma merge_end_inv s G dm temp old t d' gs1 h es gs2 s3 G3 :
  let idx := mtb_mtindx h in
  mt_inv g s G dm -> in_chip g temp -> gh_own G temp = RBusy -> gh_mtl G = gs1 ++ (h, es) :: gs2 ->
  gh_mt G idx = Some old ->
  (forall i, 0 <= i < nr_pgsinblk g -> filled g (world s) temp
     (merge_content (world s) h es old (idx * nr_pgsinblk g) i) i) ->
  mt_cacheblock (n_cache s) <> temp ->
  retired g [old; mtb_pba h] s (mtl_merged idx old temp h (gs1 ++ gs2) G) s3 G3 -> temp ∉ [old; mtb_pba h] ->
  arr_set (mt_pbas (n_mt s)) idx temp = Some t -> mt_ok g d' (gs1 ++ gs2) -> mt_pbas d' = t ->
  mt_blkcnt d' = mt_blkcnt (n_mt s) ->
  mt_inv g (with_mt d' s3) G3 dm /\ gh_mtl G3 = gs1 ++ gs2 /\ mt_frame [temp] s G (with_mt d' s3) G3 /\
  gh_own G3 temp <> RBusy.
Proof.
  intros idx HI Hc Ho Hmtl Hmt Hfill Hca Hret Htn Et Hok Hp Hcnt. pose proof Hret as [R1 R2 Hk R4].
  pose proof HI as [I1 I2 I3 [I4 I4'] I5 I6 I7]. pose proof (mk_nodup _ _ _ (mr_ok _ _ _ I3)) as Hnd.
  pose proof (kp_state _ _ _ _ _ _ Hk) as Hst. destruct (kp_tables _ _ _ _ _ _ Hk) as (T1 & T2 & T3 & T4).
  set (G1 := mtl_merged idx old temp h (gs1 ++ gs2) G) in *. change (gh_mtl G1) with (gs1 ++ gs2) in T3.
  set (s' := with_mt d' s3).
  assert (Hdata : forall p, mt_data g (world s') G3 p = mt_data g (world s) G p).
  { intros p. change (world s') with (world s3). eapply merged_data;
      [exact I3|apply I1|exact Hmtl|exact Hmt|exact Ho|exact Hc|exact Hfill|exact Hk]. }
  split_and!; [|done| |].
  3:{ intros Hb. apply (retired_busy g _ _ _ _ _ _ Hret) in Hb as [Hb _]. unfold G1 in Hb.
      rewrite mtl_merged_own in Hb. by rewrite decide_True in Hb. }
  - split; [exact R1|exact R2| | |exact (kp_quiet _ _ _ _ _ _ Hk I5)| |done].
    + eapply mt_rep_merged; [exact I3|done|exact Hmt|exact Et|exact Hok|done|done|done|by rewrite T2].
    + assert (Hcache : n_cache s' = n_cache s) by (unfold s'; by rewrite Hst). rewrite Hcache.
      split; [done|]. intros p Hw. rewrite Hdata. apply I4'.
      assert (Hw3 : g_where g G3 p = g_where g G1 p) by (unfold g_where; by rewrite T2, T3).
      rewrite Hw3 in Hw. unfold G1 in Hw. rewrite (g_where_merged idx old temp h gs1 es gs2 G p Hnd Hmtl eq_refl) in Hw.
      destruct (p / nr_pgsinblk g =? idx); [|done]. by injection Hw.
    + intros lba Hl. change (n_mt s') with d' in Hl. rewrite Hcnt in Hl.
      rewrite <- (I6 lba Hl). unfold mt_entry. by rewrite Hdata.
  - assert (Hu : forall c, user (gh_own G c) = true -> c ∉ [temp] ->
      gh_own G1 c = gh_own G c /\ c ∉ [old; mtb_pba h]).
    { intros c Hu [Hn _]%not_elem_of_cons. eapply merged_user; [apply I1|exact Hmt|exact Hmtl|exact Hu|exact Hn]. }
    split; try (unfold s'; rewrite Hst; done); try done.
    + intros c Hc1 Hc2. destruct (Hu c Hc1 Hc2) as [Hg Hn].
      rewrite (kp_own _ _ _ _ _ _ Hk); [done|rewrite Hg; by apply user_live|done].
    + intros c p Hcp Hc1 Hc2. destruct (Hu c Hc1 Hc2) as [Hg Hn].
      apply (kp_page _ _ _ _ _ _ Hk); [done|rewrite Hg; by apply user_live|done].
    + intros c Hc1 [Hn _]%not_elem_of_cons. apply (retired_busy g _ _ _ _ _ _ Hret) in Hc1 as [Hc1 Hc2].
      unfold G1 in Hc1. rewrite mtl_merged_own in Hc1. rewrite !decide_False in Hc1 by set_solver. done.
    + exact (kp_bad _ _ _ _ _ _ Hk).
Qed.

Definition merge_end (ramindex mtindex mtlpba temp : Z) : M (nftl W) Z :=
  let! old := onM (mt_pba mtindex) in
  nftl_addto_gt g [old; mtlpba] ;;
  onM (mt_set_pba mtindex temp) ;;
  let! e := onM (nftl_update_mtl_ram g DEL_OPERATION ramindex 0 0 0) in
  ret (u8 e).

Lemma merge_end_run s G dm temp old gs1 h es gs2 :
  mt_inv g s G dm -> in_chip g temp -> gh_own G temp = RBusy -> gh_mtl G = gs1 ++ (h, es) :: gs2 ->
  gh_mt G (mtb_mtindx h) = Some old -> (gh_gt G = None -> 0 < nfree s) ->
  (forall i, 0 <= i < nr_pgsinblk g -> filled g (world s) temp
     (merge_content (world s) h es old (mtb_mtindx h * nr_pgsinblk g) i) i) ->
  mt_cacheblock (n_cache s) <> temp ->
  wp (merge_end (arr_len gs1) (mtb_mtindx h) (mtb_pba h) temp) (fun r s' => r = 0 /\ exists G',
    mt_inv g s' G' dm /\ gh_mtl G' = gs1 ++ gs2 /\ mt_frame [temp] s G s' G' /\ gh_own G' temp <> RBusy /\
    spare_blocks s' G' = spare_blocks s G + 2 /\ room (MINI_FREE_BLOCK + 1) s' G') s.
Proof.
  intros HI Hc Ho Hmtl Hmt Hfree Hfill Hca. set (idx := mtb_mtindx h) in *.
  pose proof HI as [I1 I2 I3 I4 I5 I6 I7].
  pose proof (mk_nodup _ _ _ (mr_ok _ _ _ I3)) as Hnd.
  pose proof (tl_told _ _ _ _ (fi_tells _ _ _ _ _ I1)) as HT.
  assert (Hin : (h, es) ∈ gh_mtl G) by (rewrite Hmtl; set_solver).
  pose proof (td_mtl _ _ _ _ HT _ _ Hin) as Hstl. pose proof (td_mt _ _ _ _ HT _ _ Hmt) as Hstm.
  pose proof (ow_mtl _ _ _ (fi_own _ _ _ _ _ I1) h es Hin) as [Hpc _].
  pose proof (ow_mt _ _ _ (fi_own _ _ _ _ _ I1) _ _ Hmt) as [Hoc _].
  assert (Hnew : mt_stored g (world s) idx temp).
  { pose proof (ngp g geo). apply (mt_stored_merged g geo (world s) (world s) h es old temp); try done; [apply I1|].
    specialize (Hfill 0 ltac:(lia)). unfold filled, merge_content, merge_src in Hfill. rewrite Z.add_0_r in Hfill.
    fold idx. by destruct (mte_lookup es (idx * nr_pgsinblk g)). }
  destruct (mtl_merged_inv _ _ _ _ idx old temp gs1 h es gs2 I1 Hmt Hmtl eq_refl Hnd Ho Hc Hnew)
    as (HI1 & N1 & N2 & N3 & C1 & C2 & L1 & L2).
  set (G1 := mtl_merged idx old temp h (gs1 ++ gs2) G) in *.
  pose proof (mr_out _ _ _ I3 idx ltac:(congruence)) as Hidx.
  destruct (mr_pba _ _ _ I3 idx Hidx) as (b & Hb & Hb'). assert (b = old) as -> by congruence.
  unfold merge_end. apply wp_bind. unfold onM at 1. apply wp_zoom. unfold mt_pba at 1.
  apply wp_bind, wp_gets, wp_assert_some. cbn [id]. exists old. split; [done|].
  assert (E : with_mt (n_mt s) s = s) by by destruct s. rewrite E.
  assert (HR1 : gar_rep g (n_gar s) G1) by (destruct I2 as [[] ? ? ? ?]; by split).
  apply wp_bind. eapply wp_mono; [apply (nftl_addto_gt_run g geo s G1 [old; mtb_pba h] HI1 HR1)|].
  - done.
  - done.
  - apply NoDup_cons. split; [set_solver|apply NoDup_singleton].
  - intros c Hcin. assert (c = old \/ c = mtb_pba h) as Hor by set_solver.
    unfold given_up, G1. rewrite mtl_merged_own.
    destruct Hor as [->| ->]; (split; [done|]); rewrite decide_False, decide_True by (congruence || tauto);
      (split; [done|]); [by eapply gar_stored_mt|exact (gar_stored_mtl g _ _ Hstl)].
  - exact Hfree.
  - intros r s3 (G3 & -> & Hret & Hroom). pose proof (rt_kept _ _ _ _ _ _ Hret) as Hk.
    assert (Hmt3 : n_mt s3 = n_mt s) by by rewrite (kp_state _ _ _ _ _ _ Hk).
    apply wp_bind. unfold onM at 1. apply wp_zoom. unfold mt_set_pba. apply wp_bind, wp_gets. cbn [id]. rewrite Hmt3.
    pose proof (mr_ok _ _ _ I3) as Hok. rewrite Hmtl in Hok. pose proof (arr_get_Some _ _ _ Hb) as Hrange.
    apply wp_bind, wp_assert_some. destruct (arr_set (mt_pbas (n_mt s)) idx temp) as [t|] eqn:Et;
      [|by rewrite arr_set_in in Et by done].
    exists t. split; [done|]. apply wp_modify.
    pose proof (mt_ok_with_pbas _ _ t Hok (arr_set_len _ _ _ _ Et)) as Hok1.
    destruct (nftl_update_mtl_ram_delete g _ gs1 h es gs2 0 0 0 Hok1) as (d' & Hd & Hok2); [apply (mtl_room _ _ I3)|].
    pose proof (nftl_update_mtl_ram_pbas g DEL_OPERATION (arr_len gs1) 0 0 0 (with_mt_pbas t (n_mt s))) as Hp.
    rewrite Hd in Hp. destruct Hp as [Hp Hcnt]. cbn in Hp, Hcnt.
    apply wp_bind. unfold onM. apply wp_zoom. unfold wp at 1. cbn [n_mt with_mt]. rewrite Hd. apply wp_ret. split; [done|].
    destruct (merge_end_inv s G dm temp old t d' gs1 h es gs2 s3 G3 HI Hc Ho Hmtl Hmt Hfill Hca Hret ltac:(set_solver) Et Hok2 Hp Hcnt)
      as (P1 & P2 & P3 & P4).
    exists G3. split_and!; [exact P1|exact P2|exact P3|exact P4|exact (kp_spare _ _ _ _ _ _ Hk)|].
    destruct Hroom as [?|?]; [by left|right]. unfold MINI_FREE_BLOCK, nfree in *. cbn. lia.
Qed.

(** ** Merging a log block *)
Lemma mt_inv_take s s' G dm b :
  mt_inv g s G dm -> s' = with_alloc (n_alloc s') s -> inv g s' (set_own b RBusy G) ->
  mt_inv g s' (set_own b RBusy G) dm.
Proof.
  intros [I1 I2 I3 I4 I5 I6 I7] Hs HI. generalize dependent (n_alloc s'). intros a ->. split; try done.
  - destruct I2 as [[] ? ? ? ?]. by split.
  - by destruct I3; split.
  - by destruct I4; split.
Qed.

(** Writing to a block that is in no table. *)
Lemma mt_inv_busy s G dm b f :
  mt_inv g s G dm -> only_block g (world s) (fl_world f) b -> gh_own G b = RBusy ->
  fl_corrected f <= ECC_ERR_LIMIT -> mt_inv g (with_flash f s) G dm.
Proof.
  intros [I1 I2 I3 [I4 I4'] I5 I6 I7] Ho Hb Hf.
  assert (Hd : forall p, mt_data g (fl_world f) G p = mt_data g (world s) G p).
  { intros p. eapply mt_data_same; [done|apply I1|exact I3|]. intros i c q Hc Hl.
    apply (ob_page _ _ _ _ Ho); [done|]. intros ->. destruct Hl; congruence. }
  split; try done.
  - by eapply (ftl_inv_busy g geo).
  - split; [done|]. intros p Hp. change (world (with_flash f s)) with (fl_world f). rewrite Hd. by apply I4'.
  - intros lba Hl. unfold mt_entry. change (world (with_flash f s)) with (fl_world f). rewrite Hd. by apply I6.
Qed.

Lemma onM_run {A} (m : M mt_ram A) s a : m (n_mt s) = Done a (n_mt s) -> onM m s = Done a s.
Proof. intros H. unfold onM, zoom. rewrite H. by destruct s. Qed.

(** The index of the log block's first entry. *)
Lemma mtl_offset_run s gs1 gs2 : mt_ok g (n_mt s) (gs1 ++ gs2) ->
  mtl_offset (arr_len gs1) s = Done (arr_len (ents gs1)) s.
Proof.
  intros Hok. unfold mtl_offset, bind, gets.
  rewrite (log_rep_offset _ _ _ _ _ _ _ u16 (2 ^ 16) (mk_rep _ _ _ Hok)); [done|apply u16_id|].
  pose proof (mt_ok_pgcnt _ _ _ Hok). unfold MTL_MAX_PAGES, MTL_MAX_BLOCKS, MT_MAX_BLOCKS, MAX_PAGES_IN_BLOCK in *. lia.
Qed.

Lemma mte_lookup_range h es x q : mtg_ok g (h, es) -> mte_lookup es x = Some q -> 0 <= q < mtb_used h.
Proof.
  intros Hge. pose proof (gm_pgofss _ _ Hge) as Hf. cbn in Hf. clear Hge.
  induction Hf as [|e es (_ & _ & He) _ IH]; cbn [mte_lookup]; [done|].
  destruct (mtt_pageofs e =? x); [by intros [= <-]|done].
Qed.

(** Blocks other than the one being filled hold what they held. *)
Lemma merge_content_same w w' temp h es old start i :
  only_block g w w' temp -> in_chip g old -> in_chip g (mtb_pba h) -> old <> temp -> mtb_pba h <> temp ->
  0 <= i < nr_pgsinblk g -> (forall x q, mte_lookup es x = Some q -> 0 <= q < nr_pgsinblk g) ->
  merge_content w' h es old start i = merge_content w h es old start i.
Proof.
  intros Ho Hc1 Hc2 N1 N2 Hi Hes. unfold merge_content, merge_src. f_equal. f_equal.
  destruct (mte_lookup es (start + i)) as [q|] eqn:E; cbn; apply (ob_page _ _ _ _ Ho); try done.
  split; [done|]. by eapply Hes.
Qed.

(** The copying loop and what follows it. *)
Lemma merge_rest_run s G dm temp old gs1 h es gs2 l :
  mt_inv g s G dm -> in_chip g temp -> gh_own G temp = RBusy ->
  (forall p, on_chip g temp p -> nd_erased (world s) temp p) ->
  gh_mtl G = gs1 ++ (h, es) :: gs2 -> gh_mt G (mtb_mtindx h) = Some old -> (gh_gt G = None -> 0 < nfree s) ->
  (forall i, 0 <= i < nr_pgsinblk g ->
     arr_get l i = Some (default 0xff (mte_lookup es (mtb_mtindx h * nr_pgsinblk g + i)))) ->
  mt_cacheblock (n_cache s) <> temp ->
  wp (let! r := for_local 0 (nr_pgsinblk g) temp (fun i temp =>
        let! v := assert_some OutOfBounds (arr_get l i) in
        if negb (v =? 0xff) then merge_copy g (mtb_pba h) v i MAP_TAB_BLOCK temp
        else
          let! old := onM (mt_pba (mtb_mtindx h)) in
          merge_copy g old i i MAP_TAB_BLOCK temp) in
      match r with
      | inr e => ret (u8 e)
      | inl temp => merge_end (arr_len gs1) (mtb_mtindx h) (mtb_pba h) temp
      end) (fun r s' => r = 0 /\ exists G',
    mt_inv g s' G' dm /\ gh_mtl G' = gs1 ++ gs2 /\ mt_frame [temp] s G s' G' /\ gh_own G' temp <> RBusy /\
    spare_blocks s' G' = spare_blocks s G + 2 /\ room (MINI_FREE_BLOCK + 1) s' G') s.
Proof.
  intros HI Ht Ho He Hmtl Hmt Hgt Hl Hcb. pose proof (mr_ok _ _ _ (mi_rep _ _ _ _ HI)) as Hok.
  rewrite Hmtl in Hok. pose proof (mt_ok_group _ _ _ _ _ _ Hok) as Hge.
  destruct (ow_mt _ _ _ (fi_own _ _ _ _ _ (mi_inv _ _ _ _ HI)) _ _ Hmt) as [Hoc Hoo].
  destruct (ow_mtl _ _ _ (fi_own _ _ _ _ _ (mi_inv _ _ _ _ HI)) h es) as [Hpc Hpo]; [rewrite Hmtl; set_solver|].
  assert (N1 : old <> temp) by congruence. assert (N2 : mtb_pba h <> temp) by congruence.
  assert (Hes : forall x q, mte_lookup es x = Some q -> 0 <= q < nr_pgsinblk g).
  { intros x q Hx. pose proof (mte_lookup_range _ _ _ _ Hge Hx). pose proof (gm_used _ _ Hge). cbn in *. lia. }
  assert (Hold : arr_get (mt_pbas (n_mt s)) (mtb_mtindx h) = Some old).
  { destruct (mr_pba _ _ _ (mi_rep _ _ _ _ HI) (mtb_mtindx h)) as (b & Hb & Hb'); [|congruence].
    apply (mr_log _ _ _ (mi_rep _ _ _ _ HI) h es). rewrite Hmtl. set_solver. }
  apply wp_bind. eapply wp_mono; [by eapply (merge_pages_run s G temp (mtb_mtindx h) old h es
    (mtb_mtindx h * nr_pgsinblk g) l (mi_inv _ _ _ _ HI) Ht Ho (mi_quiet _ _ _ _ HI) He Hold Hoc N1 Hpc N2 Hes)|].
  intros r s3 (-> & f3 & -> & HI3 & HF3). pose proof (fg_block _ _ _ _ _ _ HF3) as Hob.
  assert (HM3 : mt_inv g (with_flash f3 s) G dm) by (eapply mt_inv_busy; [done|exact Hob|done|apply HF3]).
  eapply wp_mono; [eapply (merge_end_run _ G dm temp old gs1 h es gs2 HM3 Ht Ho Hmtl Hmt)|].
  - exact Hgt.
  - intros i Hi. rewrite (merge_content_same _ _ _ _ _ _ _ _ Hob) by done. by apply (fg_done _ _ _ _ _ _ HF3).
  - exact Hcb.
  - intros r s' (-> & G' & P1 & P2 & P3 & P4 & P5 & P6). split; [done|]. exists G'. split_and!; try done.
    destruct P3 as [A1 A2 A3 A4 A5 A6 A7 A8 A9 A10 A11]. split; try done.
    + intros b p Hc Hu Hx. rewrite A9 by done. apply (ob_page _ _ _ _ Hob); [done|set_solver].
    + rewrite A11. apply (ob_bad _ _ _ _ Hob).
Qed.

(** [nftl_merge_mtlblk] succeeds, and no entry of the table changes. *)
Lemma nftl_merge_mtlblk_run s G dm gs1 h es gs2 :
  mt_inv g s G dm -> gh_mtl G = gs1 ++ (h, es) :: gs2 -> 0 < nfree s ->
  (gh_gt G = None -> 1 < nfree s) -> gh_own G (mt_cacheblock (n_cache s)) <> RFree ->
  wp (nftl_merge_mtlblk g (arr_len gs1)) (fun r s' => r = 0 /\ exists G',
    mt_inv g s' G' dm /\ gh_mtl G' = gs1 ++ gs2 /\ mt_frame [] s G s' G' /\
    spare_blocks s' G' = spare_blocks s G + 1 /\ room (MINI_FREE_BLOCK + 1) s' G') s.
Proof.
  intros HI Hmtl Hfree Hgt Hcb. pose proof (ngp g geo) as Hn. pose proof (mr_ok _ _ _ (mi_rep _ _ _ _ HI)) as Hok.
  rewrite Hmtl in Hok. pose proof (mt_ok_group _ _ _ _ _ _ Hok) as Hge.
  destruct (mr_pba _ _ _ (mi_rep _ _ _ _ HI) (mtb_mtindx h)) as (old & Hold & Hmt);
    [eapply (mr_log _ _ _ (mi_rep _ _ _ _ HI) h es); rewrite Hmtl; set_solver|].
  unfold nftl_merge_mtlblk. apply wp_bind. unfold wp at 1.
  rewrite (onM_run _ _ _ (mtl_block_mid g _ _ _ _ _ Hok)).
  assert (Hstart : u16 (mtb_mtindx h * nr_pgsinblk g) = mtb_mtindx h * nr_pgsinblk g).
  { apply u16_id. pose proof (gm_mti _ _ Hge) as Hu. cbn in Hu. unfold in_u8, in_u16 in *. nia. }
  rewrite Hstart.
  apply wp_bind. eapply (stack_inv g geo); [apply HI|done|]. intros fact0 f1 HI1 S1 C1 L1.
  pose proof (mi_quiet _ _ _ _ HI) as Hq.
  assert (HI1' : mt_inv g (with_cache (n_cache s) (with_flash f1 s)) G dm).
  { apply (mt_inv_read g geo); [done|done|apply HI|]. unfold quiet in Hq. by rewrite C1. }
  apply wp_bind. eapply get_free_inv; [exact HI1|done|].
  intros temp s2 HI2 Ht Ho Hs2 Hn2 He2.
  pose proof (mt_inv_take _ _ _ _ _ HI1' Hs2 HI2) as HM2. set (G2 := set_own temp RBusy G) in *.
  assert (Hmt2 : n_mt s2 = n_mt s) by by rewrite Hs2.
  apply wp_bind. unfold wp at 1. rewrite (mtl_offset_run s2 gs1 ((h, es) :: gs2)) by by rewrite Hmt2.
  apply wp_bind. rewrite <- Hmt2 in Hok.
  destruct (fill_array_run (R := unit)
    (mtl_fact (mtb_mtindx h * nr_pgsinblk g) (arr_len (ents gs1)) (mtb_valid h))
    (fun i => default 0xff (mte_lookup es (mtb_mtindx h * nr_pgsinblk g + i))) s2 (nr_pgsinblk g) fact0)
    as (l & Hl & _ & Hf).
  { intros i _. by apply (mtl_fact_run s2 gs1 h es gs2). }
  { rewrite L1. unfold MAX_PAGES_IN_BLOCK. lia. }
  unfold wp at 1. rewrite Hl.
  eapply wp_mono; [eapply (merge_rest_run s2 G2 dm temp old gs1 h es gs2 l HM2 Ht (own_set_eq _ _ _))|].
  - intros p Hp. rewrite Hs2. by apply He2.
  - exact Hmtl.
  - exact Hmt.
  - intros Hg. rewrite Hn2. specialize (Hgt Hg). unfold nfree in *. cbn in *. lia.
  - exact Hf.
  - rewrite Hs2. cbn. intros E. by rewrite E in Hcb.
  - intros r s' (-> & G' & P1 & P2 & P3 & P4 & P5 & P6). split; [done|]. exists G'. split_and!; [done|done| | |done].
    + pose proof (mt_frame_read s G (n_cache s) f1 S1) as F1.
      pose proof (mt_frame_take _ s2 G temp Hs2 Ho) as F2.
      pose proof (mt_frame_trans _ _ _ _ _ _ _ _ (mt_frame_trans _ _ _ _ _ _ _ _ F1 F2) P3) as F.
      apply (mt_frame_taken _ _ _ _ _ temp F); [set_solver|exact Ho|exact P4].
    + rewrite P5. unfold spare_blocks in *. rewrite Hn2. unfold nfree. cbn. lia.
Qed.

(** ** Changing an entry of the cached page *)

Lemma map_update cnt w w' G G' dm lba pba b pg buf buf' :
  map_holds g cnt w G dm -> lba_in g cnt lba -> in_u16 pba ->
  (forall x, g_where g G' x = if x =? lba / mt_entries g then Some (b, pg) else g_where g G x) ->
  (forall x c q, g_where g G x = Some (c, q) -> nd_page w' c q = nd_page w c q) ->
  take (Z.to_nat (writesize g)) buf = mt_data g w G (lba / mt_entries g) -> arr_len buf = NAND_MAX_PAGESIZE ->
  put16 buf (lba mod mt_entries g * 2) pba = Some buf' ->
  fst (nd_page w' b pg) = take (Z.to_nat (writesize g)) buf' ->
  map_holds g cnt w' G' (upd dm lba (Some pba)).
Proof.
  intros Hm Hl Hp Hw Hpg Hbuf Hlen Hput Hnew lba' Hl'. pose proof (ng_ws_range g geo).
  pose proof (mt_entries_range g geo) as [He1 He2].
  pose proof (entry_ofs g geo lba) as [Ho1 Ho2]. pose proof (entry_ofs g geo lba') as [Ho1' Ho2'].
  destruct (put16_get _ _ _ _ Hput Ho1) as [Hg1 Hg2].
  pose proof (arr_len_put16 _ _ _ _ Hput) as Hlen'. unfold NAND_MAX_PAGESIZE in *.
  specialize (Hm lba' Hl'). unfold mt_entry, mt_data in *. rewrite Hw.
  destruct (lba' / mt_entries g =? lba / mt_entries g) eqn:E; zbool.
  - rewrite Hnew, get16_take by lia. unfold upd. case_decide as Ed.
    + subst lba'. rewrite Hg1. cbn. by apply u16_id.
    + rewrite Hg2. 2:{ assert (lba' mod mt_entries g <> lba mod mt_entries g); [|lia]. intros Em. apply Ed.
        rewrite (Z.div_mod lba' (mt_entries g)), (Z.div_mod lba (mt_entries g)) by lia. lia. }
      rewrite E, <- Hbuf, get16_take in Hm by lia. exact Hm.
  - unfold upd. rewrite decide_False by congruence.
    destruct (g_where g G (lba' / mt_entries g)) as [[c q]|] eqn:Ec; [|done].
    by rewrite (Hpg _ _ _ Ec).
Qed.

Lemma mtl_write_run s G op b pg idx sp (Q : unit -> nftl W -> Prop) :
  inv g s G -> on_chip g b pg -> nd_erased (world s) b pg ->
  arr_len (mt_readcache (n_cache s)) = NAND_MAX_PAGESIZE -> oobsize g <= arr_len sp ->
  (forall f, only_page g (world s) (fl_world f) b pg ->
     nd_page (fl_world f) b pg =
       (take (Z.to_nat (writesize g)) (mt_readcache (n_cache s)), take (Z.to_nat (oobsize g)) sp) ->
     fl_corrected f = fl_corrected (n_flash s) ->
     Q tt (with_cache (MkCache b pg (mt_readcache (n_cache s))) (with_flash f s))) ->
  wp (mtl_write g op b pg idx sp) Q s.
Proof.
  intros HI Hc He Hlen Hsp HQ. pose proof (ng_ws_range g geo). unfold NAND_MAX_PAGESIZE in *.
  unfold mtl_write. apply wp_bind, wp_gets. apply wp_bind.
  eapply mtd_write_inv; [done|exact HI|done|done|lia|done|].
  intros f Hop Hpg Hcor. apply wp_bind, wp_zoom, wp_modify.
  cbn [fst snd truth]. rewrite Z.eqb_refl. cbn [Z.eqb negb orb]. apply wp_ret.
  by apply HQ.
Qed.

(** ** The owners after a page went to the log *)

(** The next page of a log block. *)
Lemma write_mtl_insert w w' a pg G gs1 h es gs2 p :
  ftl_inv g w a pg G -> gh_mtl G = gs1 ++ (h, es) :: gs2 ->
  NoDup (map (fun ge : mt_group => mtb_mtindx ge.1) (gh_mtl G)) ->
  only_page g w w' (mtb_pba h) (mtb_used h) -> mtl_stored g w' (mtg_write h es p) ->
  ftl_inv g w' a pg (set_gmtl (gs1 ++ mtg_write h es p :: gs2) G).
Proof.
  intros [H1 H2 H3 H4 H7 [E1 E2 E3 E4] [HT HN HB]] Hmtl Hnd Hop Hst. rewrite Hmtl in Hnd.
  assert (Hin0 : (h, es) ∈ gh_mtl G) by (rewrite Hmtl; set_solver).
  assert (Hsub : forall h' es', (h', es') ∈ gs1 ++ mtg_write h es p :: gs2 ->
    (h' = (mtg_write h es p).1) \/ ((h', es') ∈ gh_mtl G /\ mtb_mtindx h' <> mtb_mtindx h)).
  { intros h' es' Hin. assert ((h', es') = mtg_write h es p \/ (h', es') ∈ gs1 ++ gs2) as [<-|Hin'] by set_solver;
      [by left|right]. split; [rewrite Hmtl; set_solver|by eapply mtis_other]. }
  destruct (ow_mtl _ _ _ H7 _ _ Hin0) as [Hc Ho].
  split; [apply Hop|by apply (op_good _ _ _ _ _ Hop)|by apply (op_wgood _ _ _ _ _ Hop)|done| | |].
  - destruct H7 as [O1 O2 O3 O4 O5 O6 O7 O8]. split; try done.
    cbn. intros h' es' Hin. destruct (Hsub _ _ Hin) as [->|[Hin' _]]; [done|by apply (O3 h' es')].
  - split.
    + intros b q Hb Hr. apply (op_erased _ _ _ _ _ Hop); [done|intros [= -> ->]; cbn in Hr; congruence|by apply E1].
    + cbn. intros h' es' q Hin Hb Hq. destruct (Hsub _ _ Hin) as [->|[Hin' Hne]]; cbn in *.
      * apply (op_erased _ _ _ _ _ Hop); [done|intros [= ->]; lia|]. apply (E2 h es); [done|done|lia].
      * destruct (ow_mtl _ _ _ H7 _ _ Hin') as [_ Ho'].
        apply (op_erased _ _ _ _ _ Hop); [done|intros [= Heq _]; congruence|by apply (E2 h' es')].
    + cbn. intros h' es' q Hin Hb Hq. destruct (ow_dl _ _ _ H7 _ _ Hin) as [_ Ho'].
      apply (op_erased _ _ _ _ _ Hop); [done|intros [= Heq _]; congruence|by apply (E3 h' es')].
    + cbn. intros b q Hg Hb Hq. destruct (ow_gt _ _ _ H7 _ Hg) as [_ Ho'].
      apply (op_erased _ _ _ _ _ Hop); [done|intros [= Heq _]; congruence|by apply E4].
  - assert (Hs : forall c, gh_own G c <> RMtl (mtb_mtindx h) -> same_data g w w' c).
    { intros c Hne. eapply same_data_page; [done|]. intros ->. congruence. }
    assert (Hsplit : forall h' es', (h', es') ∈ gs1 ++ mtg_write h es p :: gs2 ->
      (h', es') = mtg_write h es p \/ (h', es') ∈ gs1 ++ gs2) by set_solver.
    split; [|intros c|by rewrite (op_bad _ _ _ _ _ Hop)].
    + eapply (told_step g geo w w'); [exact H7|exact HT|..]; cbn.
      * intros i c Hc'. left. split; [done|]. apply Hs. destruct (ow_mt _ _ _ H7 i c Hc'). congruence.
      * intros h' es' Hin. destruct (Hsplit _ _ Hin) as [->|Hin']; [by right|left].
        assert (Hin2 : (h', es') ∈ gh_mtl G) by (rewrite Hmtl; set_solver). split; [done|]. apply Hs.
        destruct (ow_mtl _ _ _ H7 h' es' Hin2) as [_ ->]. intros [= Hi]. by apply (mtis_other _ _ _ _ _ _ Hnd Hin').
      * intros h' es' Hin. left. split; [done|]. apply Hs. destruct (ow_dl _ _ _ H7 h' es' Hin). congruence.
      * intros lba c Hc'. left. split; [done|]. apply Hs. destruct (ow_data _ _ _ H7 lba c Hc'). congruence.
      * intros c Hc'. left. split; [done|]. apply Hs. destruct (ow_gar _ _ _ H7 c Hc'). congruence.
      * intros c Hc'. left. split; [done|]. split; [|done]. apply Hs. destruct (ow_gt _ _ _ H7 c Hc'). congruence.
    + eapply (names_keep G); [..|apply HN]; cbn; try done; [|eauto].
      intros h' es' Hin Hp. rewrite Hmtl in Hin.
      assert ((h', es') = (h, es) \/ (h', es') ∈ gs1 ++ gs2) as [[= -> ->]|Hin'] by set_solver.
      * exists (mtg_write h es p).1, (mtg_write h es p).2. split; [set_solver|done].
      * exists h', es'. split; [set_solver|done].
Qed.

(** The first page of a new one. *)
Lemma write_mtl_append w w' a pg G b p :
  ftl_inv g w a pg G -> in_chip g b -> gh_own G b = RBusy ->
  (forall q, on_chip g b q -> nd_erased w b q) -> only_page g w w' b 0 -> mtl_stored g w' (mtg_new g p b) ->
  ftl_inv g w' a pg (set_own b (RMtl (p / nr_pgsinblk g)) (set_gmtl (gh_mtl G ++ [mtg_new g p b]) G)).
Proof.
  intros HI Hc Ho He Hop Hst.
  assert (HI' : ftl_inv g w' a pg G) by (eapply (ftl_inv_busy g geo); [done|by eapply only_page_block|done]).
  destruct HI' as [H1 H2 H3 H4 H7 H8 [HT HN HB]]. split; auto.
  - eapply owners_handover with (b := b) (r := RMtl (p / nr_pgsinblk g)); [exact H7| |done|by rewrite Ho|done].
    eapply handover_enter; [done|done|done|apply H7|by left| |by left..].
    cbn. intros h es [Hin|Hin%list_elem_of_singleton]%elem_of_app; [by left|].
    injection Hin as -> ->. by right.
  - apply erased_ok_set_own; [|done]. destruct H8 as [E1 E2 E3 E4]. split; auto.
    cbn. intros h es q [Hin|Hin%list_elem_of_singleton]%elem_of_app Hb Hq; [by eapply E2|].
    injection Hin as -> ->. cbn in *.
    apply (op_erased _ _ _ _ _ Hop); [done|intros [= ->]; lia|by apply He].
  - split.
    + destruct HT as [T1 T2 T3 T4 T5 T6]. split; try done. cbn.
      intros h es [Hin| ->%list_elem_of_singleton]%elem_of_app; [by apply T2|done].
    + eapply (named_step G); [done|done| |].
      * cbn. eexists _, _. split; [apply elem_of_app; right; by left|done].
      * intros c Hc'. eapply names_keep; cbn; try done; [|eauto]. intros h es Hin Hp. exists h, es. split; [set_solver|done].
    + intros c Hc'. rewrite HB by done. cbn. unfold upd. case_decide; [|done]. subst. by rewrite Ho.
Qed.

(** ** Where the pages are after a write to the log *)

Lemma g_where_insert gs1 h es gs2 G p x :
  NoDup (map (fun ge : mt_group => mtb_mtindx ge.1) (gh_mtl G)) -> gh_mtl G = gs1 ++ (h, es) :: gs2 ->
  p / nr_pgsinblk g = mtb_mtindx h ->
  g_where g (set_gmtl (gs1 ++ mtg_write h es p :: gs2) G) x =
    if x =? p then Some (mtb_pba h, mtb_used h) else g_where g G x.
Proof.
  intros Hnd Hmtl Hp. unfold g_where. cbn [set_gmtl gh_mtl gh_mt]. rewrite Hmtl in Hnd |- *.
  assert (Hnd' : NoDup (map (fun ge : mt_group => mtb_mtindx ge.1) (gs1 ++ mtg_write h es p :: gs2))).
  { rewrite map_app in *. exact Hnd. }
  unfold mtg_write in *. rewrite !mt_lookup_mid by done. cbn [mtb_mtindx mtb_pba]. rewrite mte_lookup_put.
  destruct (x =? p) eqn:E; zbool; [|done]. subst x. by rewrite Hp, Z.eqb_refl.
Qed.

Lemma g_where_append G b p x r :
  p / nr_pgsinblk g ∉ map (fun ge : mt_group => mtb_mtindx ge.1) (gh_mtl G) ->
  g_where g (set_own b r (set_gmtl (gh_mtl G ++ [mtg_new g p b]) G)) x =
    if x =? p then Some (b, 0) else g_where g G x.
Proof.
  intros Hn. unfold g_where. cbn [set_own set_gmtl gh_mtl gh_mt].
  rewrite mt_lookup_last by done. cbn [mtg_new fst snd mtb_mtindx mtb_pba mte_lookup mtt_pageofs mtt_ppa].
  rewrite (Z.eqb_sym p x). destruct (x =? p) eqn:E; zbool; [subst; by rewrite Z.eqb_refl|].
  destruct (p / nr_pgsinblk g =? x / nr_pgsinblk g) eqn:E'; zbool; [|done].
  assert (Hnone : mt_lookup g (gh_mtl G) x = None); [|by rewrite Hnone].
  rewrite <- (app_nil_r (gh_mtl G)). rewrite mt_lookup_skip; [done|]. by rewrite <- E'.
Qed.

(** The next page of a log block is no page of the table yet. *)
Lemma where_below a m G gs1 h es gs2 x c q :
  owners g a G -> mt_rep g m G -> gh_mtl G = gs1 ++ (h, es) :: gs2 ->
  g_where g G x = Some (c, q) -> (c, q) <> (mtb_pba h, mtb_used h).
Proof.
  intros Ho Hm Hmtl Hw [= -> ->]. pose proof (mr_ok _ _ _ Hm) as Hok. rewrite Hmtl in Hok.
  destruct (ow_mtl _ _ _ Ho h es) as [_ Hr]; [rewrite Hmtl; set_solver|].
  unfold g_where in Hw. rewrite Hmtl in Hw.
  rewrite (mt_lookup_mid g gs1 h es gs2) in Hw by apply (mk_nodup _ _ _ Hok).
  destruct (mtb_mtindx h =? x / nr_pgsinblk g) eqn:E; zbool.
  - destruct (mte_lookup es x) as [q'|] eqn:El.
    + injection Hw as Hq. pose proof (mte_lookup_range _ _ _ _ (mt_ok_group _ _ _ _ _ _ Hok) El). lia.
    + destruct (gh_mt G _) as [b|] eqn:Eb; [|done]. injection Hw as -> _.
      destruct (ow_mt _ _ _ Ho _ _ Eb). congruence.
  - destruct (mt_lookup g (gs1 ++ gs2) x) as [[b q']|] eqn:El.
    + injection Hw as -> ->. apply mt_lookup_In in El as (h' & es' & Hin & Hb & Hi & _).
      * destruct (ow_mtl _ _ _ Ho h' es') as [_ Hr']; [rewrite Hmtl; set_solver|]. rewrite Hb in Hr'. congruence.
      * pose proof (mk_groups _ _ _ Hok) as Hg. apply Forall_app in Hg as [? Hg].
        apply Forall_app. split; [done|]. by inversion Hg.
    + destruct (gh_mt G _) as [b|] eqn:Eb; [|done]. injection Hw as -> _.
      destruct (ow_mt _ _ _ Ho _ _ Eb). congruence.
Qed.

(** The table after the page of [lba] went to page [pg] of [b]. *)
Lemma mt_written s G dm s' G' lba pba b pg buf buf' :
  mt_inv g s G dm -> lba_in g (mt_blkcnt (n_mt s)) lba -> in_chip g pba ->
  inv g s' G' -> gar_rep g (n_gar s') G' -> mt_rep g (n_mt s') G' -> mt_blkcnt (n_mt s') = mt_blkcnt (n_mt s) ->
  quiet s' -> n_cache s' = MkCache b pg buf' -> only_page g (world s) (world s') b pg ->
  (forall x, g_where g G' x = if x =? lba / mt_entries g then Some (b, pg) else g_where g G x) ->
  (forall x c q, g_where g G x = Some (c, q) -> (c, q) <> (b, pg)) ->
  take (Z.to_nat (writesize g)) buf = mt_data g (world s) G (lba / mt_entries g) ->
  arr_len buf = NAND_MAX_PAGESIZE -> put16 buf (lba mod mt_entries g * 2) pba = Some buf' ->
  fst (nd_page (world s') b pg) = take (Z.to_nat (writesize g)) buf' ->
  mt_inv g s' G' (upd dm lba (Some pba)).
Proof.
  intros HI Hl Hp I1 I2 I3 Hcnt I5 Hc Hop Hw Hne Hbuf Hlen Hput Hpg.
  pose proof (ng_blks g geo). unfold in_chip, BLOCKSTATUS_LEN in *.
  split; try done.
  - rewrite Hc. split; cbn [mt_readcache mt_cacheblock mt_cachepage].
    + by rewrite (arr_len_put16 _ _ _ _ Hput).
    + intros x Hx. unfold mt_data. rewrite Hx. by rewrite Hpg.
  - rewrite Hcnt. eapply map_update; [apply HI|done|unfold in_u16; lia|exact Hw| |exact Hbuf|done|exact Hput|done].
    intros x c q Hx. apply (op_page _ _ _ _ _ Hop); [|by eapply Hne].
    by eapply where_live; [done|apply HI|apply HI|].
  - intros lba' c. unfold upd. case_decide; [|apply (mi_chip _ _ _ _ HI)]. by intros [= <-].
Qed.

(** No log block is full: full ones are merged. *)
Definition mtl_open G : Prop := forall h es, (h, es) ∈ gh_mtl G -> mtb_used h < nr_pgsinblk g.

(** ** The end of [nftl_update_mt] *)
Lemma update_tail_run s G dm gs1 h es gs2 :
  mt_inv g s G dm -> gh_mtl G = gs1 ++ (h, es) :: gs2 -> mt_cacheblock (n_cache s) = mtb_pba h ->
  0 < nfree s -> (gh_gt G = None -> 1 < nfree s) ->
  (forall h' es', (h', es') ∈ gs1 ++ gs2 -> mtb_used h' < nr_pgsinblk g) ->
  wp (let! blk := onM (mtl_block (arr_len gs1)) in
      if mtb_used blk =? nr_pgsinblk g then nftl_merge_mtlblk g (arr_len gs1) else ret 0)
  (fun r s' => r = 0 /\ exists G', mt_inv g s' G' dm /\ mtl_open G' /\ mt_frame [] s G s' G' /\
    spare_blocks s' G' + arr_len (gh_mtl G') = spare_blocks s G + arr_len (gh_mtl G) /\
    (forall k, k <= MINI_FREE_BLOCK + 1 -> room k s G -> room k s' G')) s.
Proof.
  intros HI Hmtl Hcb Hf Hgt Hopen. pose proof (mr_ok _ _ _ (mi_rep _ _ _ _ HI)) as Hok. rewrite Hmtl in Hok.
  apply wp_bind. unfold wp at 1. rewrite (onM_run _ _ _ (mtl_block_mid g _ _ _ _ _ Hok)).
  destruct (mtb_used h =? nr_pgsinblk g) eqn:E; zbool.
  - eapply wp_mono; [eapply (nftl_merge_mtlblk_run s G dm gs1 h es gs2); [done..|]|].
    + destruct (ow_mtl _ _ _ (fi_own _ _ _ _ _ (mi_inv _ _ _ _ HI)) h es) as [_ Hr]; [rewrite Hmtl; set_solver|].
      rewrite Hcb, Hr. done.
    + intros r s' (-> & G' & P1 & P2 & P3 & P4 & P5). split; [done|]. exists G'. split_and!; [done| |done| |].
      * intros h' es' Hin. apply (Hopen h' es'). by rewrite <- P2.
      * rewrite P4, P2, Hmtl, !arr_len_app, arr_len_cons. lia.
      * intros k Hk _. destruct P5 as [?|?]; [by left|right; lia].
  - apply wp_ret. split; [done|]. exists G. split; [done|]. split; [|done].
    intros h' es'. rewrite Hmtl. intros Hin.
    assert ((h', es') = (h, es) \/ (h', es') ∈ gs1 ++ gs2) as [[= -> ->]|Hin'] by set_solver; [|by eapply Hopen].
    pose proof (gm_used _ _ (mt_ok_group _ _ _ _ _ _ Hok)). cbn in *. lia.
Qed.

(** Everything after the entry was stored in the cached page. *)
Definition update_rest (mtpgofs mtindex : Z) (junk : list Z) : M (nftl W) Z :=
  let! t := mtl_target g mtindex in
  let '(operation, mtlblock, mtlpage, ramindex) := t in
  mtl_write g operation mtlblock mtlpage ramindex (mtl_spare mtpgofs mtindex junk) ;;
  let! e := onM (nftl_update_mtl_ram g operation ramindex mtpgofs mtlblock 0) in
  let! blk := onM (mtl_block ramindex) in
  if mtb_used blk =? nr_pgsinblk g then nftl_merge_mtlblk g ramindex else ret e.

(** What it does. *)
Definition updated s G dm lba pba s' G' : Prop :=
  mt_inv g s' G' (upd dm lba (Some pba)) /\ mtl_open G' /\ mt_frame [] s G s' G' /\
  spare_blocks s' G' + arr_len (gh_mtl G') = spare_blocks s G + arr_len (gh_mtl G) /\
  (forall k, k <= MINI_FREE_BLOCK + 2 -> room k s G -> room (k - 1) s' G').

(** The page waits in the cache with its new entry. *)
Record pending s G dm lba pba c b q buf buf' : Prop := {
  pd_inv : mt_inv g s G dm;
  pd_open : mtl_open G;
  pd_lba : lba_in g (mt_blkcnt (n_mt s)) lba;
  pd_pba : in_chip g pba;
  pd_cache : c = MkCache b q buf';
  pd_buf : take (Z.to_nat (writesize g)) buf = mt_data g (world s) G (lba / mt_entries g);
  pd_len : arr_len buf = NAND_MAX_PAGESIZE;
  pd_put : put16 buf (lba mod mt_entries g * 2) pba = Some buf'
}.

Lemma mtl_spare_len p i junk : arr_len (mtl_spare p i junk) = arr_len junk.
Proof. unfold mtl_spare, set_tabindx, set_pageofs, set_half, set_blocktype, arr_len. by rewrite !length_insert. Qed.

Lemma mtl_spare_fields p i junk : oobsize g <= arr_len junk -> in_u8 i -> in_u16 p ->
  let sp := take (Z.to_nat (oobsize g)) (mtl_spare p i junk) in
  si_blocktype sp = block_state_code MT_LOG_BLOCK /\ si_tabindx sp = i /\ si_pageofs sp = p.
Proof.
  intros Hl Hi Hp sp. pose proof (ng_oob g geo). assert (Hok : spare_ok junk) by (unfold spare_ok, arr_len in *; lia).
  pose proof (set_blocktype_ok (block_state_code MT_LOG_BLOCK) _ Hok) as Hok1.
  pose proof (set_half_ok p _ Hok1) as Hok2.
  destruct (si_take (Z.to_nat (oobsize g)) (mtl_spare p i junk)) as (T1 & _ & T2 & T3); [lia|].
  change (si_lastfree ?l) with (si_pageofs l) in T3. unfold sp. rewrite T1, T2, T3. unfold mtl_spare, set_pageofs.
  rewrite si_blocktype_set_tabindx, si_tabindx_set, si_pageofs_set_tabindx by done.
  rewrite si_blocktype_set_half, si_blocktype_set by done. split_and!; [done|by apply u8_id|].
  rewrite (si_pageofs_set p) by done. by apply u16_id.
Qed.

(** The table has a log block for the page. *)
Lemma update_insert_run s G dm lba pba c b q buf buf' junk gs1 h es gs2 :
  let p := lba / mt_entries g in
  pending s G dm lba pba c b q buf buf' -> gh_mtl G = gs1 ++ (h, es) :: gs2 ->
  mtb_mtindx h = p / nr_pgsinblk g -> oobsize g <= arr_len junk ->
  0 < nfree s -> (gh_gt G = None -> 1 < nfree s) ->
  wp (update_rest p (mtb_mtindx h) junk) (fun r s' => r = 0 /\ exists G', updated s G dm lba pba s' G')
    (with_cache c s).
Proof.
  intros p [HI Hopen Hl Hp -> Hbuf Hlen Hput] Hmtl Hi Hj Hf Hgt. pose proof HI as [I1 I2 I3 I4 I5 I6 I7].
  destruct (lba_in_page g geo _ _ Hl) as (L0 & L1 & L2). fold p in L0, L1, L2.
  pose proof (mr_ok _ _ _ I3) as Hok. pose proof (mk_nodup _ _ _ Hok) as Hnd. rewrite Hmtl in Hok.
  pose proof (gm_used _ _ (mt_ok_group _ _ _ _ _ _ Hok)) as Hu. cbn in Hu.
  assert (Hin : (h, es) ∈ gh_mtl G) by (rewrite Hmtl; set_solver).
  destruct (ow_mtl _ _ _ (fi_own _ _ _ _ _ I1) _ _ Hin) as [Hc Ho]. pose proof (Hopen _ _ Hin) as Hroom.
  pose proof (gm_valid _ _ (mt_ok_group _ _ _ _ _ _ Hok)) as Hv. cbn in Hv. pose proof (arr_len_nonneg es).
  unfold update_rest. apply wp_bind. unfold mtl_target. apply wp_bind. unfold wp at 1.
  rewrite (onM_run _ (with_cache _ s) _ (nftl_find_mti_in_mtl_hit g _ _ _ _ _ Hok)).
  cbn [fst snd]. change (FIND_OK =? FIND_FAIL) with false. cbv iota.
  apply wp_bind. unfold wp at 1. rewrite (onM_run _ (with_cache _ s) _ (mtl_block_mid g _ _ _ _ _ Hok)). apply wp_ret.
  apply wp_bind. eapply (mtl_write_run _ G); [exact I1|split; [done|lia]| | |by rewrite mtl_spare_len|].
  { apply (er_mtl _ _ _ _ (fi_erased _ _ _ _ _ I1) h es); [done|split; [done|lia]|lia]. }
  { by rewrite <- Hlen, <- (arr_len_put16 _ _ _ _ Hput). }
  intros f Hop Hpg Hcor. cbn [n_cache with_cache mt_readcache] in *.
  destruct (nftl_update_mtl_ram_insert g (n_mt s) gs1 h es gs2 p (mtb_pba h) 0 Hok) as (d' & Hd & Hok2);
    [unfold in_u8, in_u16 in *; lia|done|done|apply (mtl_room _ _ I3)|].
  pose proof (nftl_update_mtl_ram_pbas g INSERT_OPERATION (arr_len gs1) p (mtb_pba h) 0 (n_mt s)) as Hpb.
  rewrite Hd in Hpb. destruct Hpb as [Hpb Hcnt].
  apply wp_bind. unfold onM at 1. apply wp_zoom. unfold wp at 1. cbn [n_mt with_cache with_flash]. rewrite Hd.
  set (G' := set_gmtl (gs1 ++ mtg_write h es p :: gs2) G).
  set (s5 := with_mt d' _).
  assert (HM : mt_inv g s5 G' (upd dm lba (Some pba))).
  { eapply (mt_written s G dm s5 G' lba pba (mtb_pba h) (mtb_used h) buf buf');
      [done|done|done| | | |done| |done|exact Hop| | |done|done|done|change (world s5) with (fl_world f); by rewrite Hpg].
    - eapply write_mtl_insert; [exact I1|done|done|exact Hop|].
      destruct (mtl_spare_fields p (mtb_mtindx h) junk) as (F1 & F2 & F3); [done| |unfold in_u8, in_u16 in *; lia|].
      { pose proof (mr_cnt _ _ _ I3). unfold in_u8, MT_MAX_BLOCKS in *. lia. }
      apply (mtl_stored_grow g (world s)); unfold spare_at; change (world s5) with (fl_world f);
        rewrite ?Hpg; try done.
      by apply (td_mtl _ _ _ _ (tl_told _ _ _ _ (fi_tells _ _ _ _ _ I1))).
    - destruct I2 as [[] ? ? ? ?]. by split.
    - destruct I3 as [M1 M2 M3 M4 M5]. split; cbn [s5 n_mt with_mt]; rewrite ?Hpb, ?Hcnt; try done.
      intros h' es' Hin'. assert ((h', es') = mtg_write h es p \/ (h', es') ∈ gs1 ++ gs2) as [[= -> _]|Hin2] by set_solver.
      + by apply (M5 h es).
      + apply (M5 h' es'). rewrite Hmtl. set_solver.
    - unfold quiet in *. cbn. by rewrite Hcor.
    - intros x. by apply g_where_insert.
    - intros x c' q' Hx. eapply where_below; [apply I1|exact I3|done|done]. }
  eapply wp_mono; [eapply (update_tail_run s5 G' _ gs1 (mtg_write h es p).1 (mtg_write h es p).2 gs2);
    [exact HM|done|done|done|done|]|].
  - intros h' es' Hin'. apply (Hopen h' es'). rewrite Hmtl. set_solver.
  - intros r s' (-> & G2 & P1 & P2 & P3 & P4 & P5). split; [done|]. exists G2. split_and!; [done|done| | |].
    + assert (F : mt_frame [] s G s5 G').
      { split; try done; [|apply (op_bad _ _ _ _ _ Hop)].
        intros c' q' Hcc Hu' _. apply (op_page _ _ _ _ _ Hop); [done|]. intros [= -> _]. by rewrite Ho in Hu'. }
      exact (mt_frame_trans _ _ _ _ _ _ _ _ F P3).
    + rewrite P4. cbn. rewrite Hmtl, !arr_len_app, !arr_len_cons. unfold spare_blocks, nfree. cbn. lia.
    + intros k Hk Hr. apply P5; [lia|]. destruct Hr as [?|?]; [by left|right]. unfold nfree in *. cbn. lia.
Qed.

(** It has none yet. *)
Lemma update_append_run s G dm lba pba c b0 q buf buf' junk :
  let p := lba / mt_entries g in
  pending s G dm lba pba c b0 q buf buf' ->
  p / nr_pgsinblk g ∉ map (fun ge : mt_group => mtb_mtindx ge.1) (gh_mtl G) -> oobsize g <= arr_len junk ->
  1 < nfree s -> (gh_gt G = None -> 2 < nfree s) ->
  wp (update_rest p (p / nr_pgsinblk g) junk) (fun r s' => r = 0 /\ exists G', updated s G dm lba pba s' G')
    (with_cache c s).
Proof.
  intros p [HI Hopen Hl Hp -> Hbuf Hlen Hput] Hnew Hj Hf Hgt. pose proof HI as [I1 I2 I3 I4 I5 I6 I7].
  destruct (lba_in_page g geo _ _ Hl) as (L0 & L1 & L2). fold p in L0, L1, L2.
  pose proof (mr_ok _ _ _ I3) as Hok. pose proof (ngp g geo) as Hn.
  pose proof (lr_blkcnt _ _ _ _ _ _ (mk_rep _ _ _ Hok)) as Hcount.
  unfold update_rest. apply wp_bind. unfold mtl_target. apply wp_bind. unfold wp at 1.
  rewrite (onM_run _ (with_cache _ s) _ (nftl_find_mti_in_mtl_miss g _ _ _ Hok Hnew)).
  cbn [fst snd]. change (FIND_FAIL =? FIND_FAIL) with true. cbv iota. apply wp_bind.
  eapply (get_free_inv g (with_cache (MkCache b0 q buf') s) G); [exact I1|exact (Z.lt_trans 0 1 _ eq_refl Hf)|].
  intros b s2 HI2 Hb Ho Hs2 Hn2 He2. apply wp_ret.
  set (G2 := set_own b RBusy G) in *. set (s1 := with_alloc (n_alloc s2) s).
  assert (HM1 : mt_inv g s1 G2 dm).
  { apply (mt_inv_take s s1); [done|done|]. rewrite Hs2 in HI2. exact HI2. }
  assert (Hc2 : n_cache s2 = MkCache b0 q buf') by by rewrite Hs2.
  assert (Hmt2 : n_mt s2 = n_mt s) by by rewrite Hs2.
  assert (Hw2 : world s2 = world s) by by rewrite Hs2.
  assert (Hg2 : n_gar s2 = n_gar s) by by rewrite Hs2.
  apply wp_bind. eapply (mtl_write_run _ G2); [exact HI2|split; [done|lia]| | |by rewrite mtl_spare_len|].
  { rewrite Hw2. apply He2. split; [done|lia]. }
  { by rewrite Hc2, <- Hlen, <- (arr_len_put16 _ _ _ _ Hput). }
  intros f Hop Hpg Hcor. rewrite Hc2, Hw2 in *. cbn [mt_readcache] in *.
  destruct (nftl_update_mtl_ram_append g (n_mt s) (gh_mtl G) (mtl_blkcnt (n_mt s)) p b 0 Hok) as (d' & Hd & Hok2);
    [unfold in_u8, in_u16 in *; lia|pose proof (mr_cnt _ _ _ I3); unfold in_u8, MT_MAX_BLOCKS in *; lia
    |pose proof (ng_blks g geo); unfold in_chip, in_u16, BLOCKSTATUS_LEN in *; lia
    |apply (mtl_room _ _ I3)|apply (mtl_room _ _ I3)|done|].
  pose proof (nftl_update_mtl_ram_pbas g APPEND_OPERATION (mtl_blkcnt (n_mt s)) p b 0 (n_mt s)) as Hpb.
  rewrite Hd in Hpb. destruct Hpb as [Hpb Hcnt].
  apply wp_bind. unfold onM at 1. apply wp_zoom. unfold wp at 1. cbn [n_mt with_cache with_flash]. rewrite Hmt2, Hd.
  set (G' := set_own b (RMtl (p / nr_pgsinblk g)) (set_gmtl (gh_mtl G ++ [mtg_new g p b]) G2)).
  set (s5 := with_mt d' _).
  assert (HM : mt_inv g s5 G' (upd dm lba (Some pba))).
  { eapply (mt_written s1 G2 dm s5 G' lba pba b 0 buf buf');
      [exact HM1|done|done| | | |done| |done|exact Hop| | |done|done|done|change (world s5) with (fl_world f); by rewrite Hpg].
    - apply (write_mtl_append (world s) (fl_world f) (n_alloc s2) (gt_pgcnt (n_gar s2)) G2 b p);
        [|done|apply own_set_eq|exact He2|exact Hop|].
      { rewrite <- Hw2. exact HI2. }
      destruct (mtl_spare_fields p (p / nr_pgsinblk g) junk) as (F1 & F2 & F3); [done| |unfold in_u8, in_u16 in *; lia|].
      { pose proof (mr_cnt _ _ _ I3). unfold in_u8, MT_MAX_BLOCKS in *. lia. }
      apply (mtl_stored_new g geo); unfold page_type, spare_at; change (world s5) with (fl_world f); by rewrite Hpg.
    - unfold s5. cbn [n_gar with_mt with_cache with_flash]. rewrite Hg2. destruct I2 as [[] ? ? ? ?]. by split.
    - destruct I3 as [M1 M2 M3 M4 M5]. split; cbn [s5 n_mt with_mt]; rewrite ?Hpb, ?Hcnt; try done.
      intros h' es' [Hin|Hin%list_elem_of_singleton]%elem_of_app; [by apply (M5 h' es')|].
      injection Hin as -> ->. done.
    - unfold quiet in *. cbn. rewrite Hcor. by rewrite Hs2.
    - intros x. by apply (g_where_append G2 b p x).
    - intros x c' q' Hx [= -> ->].
      destruct (where_live g geo _ _ _ _ _ _ (fi_own _ _ _ _ _ (mi_inv _ _ _ _ HM1)) (mi_rep _ _ _ _ HM1) Hx) as [_ Hr].
      cbn in Hr. unfold upd in Hr. rewrite decide_True in Hr by done. by destruct Hr. }
  rewrite Hcount.
  eapply wp_mono; [eapply (update_tail_run s5 G' _ (gh_mtl G) (mtg_new g p b).1 (mtg_new g p b).2 []);
    [exact HM|done|done| | |]|].
  - unfold nfree in *. cbn in *. lia.
  - intros Hg. specialize (Hgt Hg). unfold nfree in *. cbn in *. lia.
  - rewrite app_nil_r. exact Hopen.
  - intros r s' (-> & G3 & P1 & P2 & P3 & P4 & P5). split; [done|]. exists G3. split_and!; [done|done| | |].
    + assert (F : mt_frame [] s G s5 G').
      { assert (Hne : forall c', user (gh_own G c') = true -> c' <> b) by (intros c' Hu' ->; by rewrite Ho in Hu').
        split; try (unfold s5; rewrite Hs2; done); try done.
        - intros c' Hu' _. cbn. unfold upd. by rewrite !decide_False by by apply Hne.
        - intros c' q' Hcc Hu' _. apply (op_page _ _ _ _ _ Hop); [done|]. intros [= -> _]. by apply (Hne b).
        - intros c' Hb' _. cbn in Hb'. unfold upd in Hb'. by repeat case_decide.
        - apply (op_bad _ _ _ _ _ Hop). }
      exact (mt_frame_trans _ _ _ _ _ _ _ _ F P3).
    + rewrite P4. cbn. rewrite !arr_len_app, !arr_len_cons. change (arr_len (@nil mt_group)) with 0.
      unfold spare_blocks, nfree in *. cbn in *. rewrite Hn2. lia.
    + intros k Hk Hr. apply P5; [lia|]. destruct Hr as [?|?]; [by left|right]. unfold nfree in *. cbn in *. lia.
Qed.

(** ** [nftl_update_mt] *)

Lemma updated_read s G dm lba pba s' G' c f : same_pages g (world s) (fl_world f) ->
  updated (with_cache c (with_flash f s)) G dm lba pba s' G' -> updated s G dm lba pba s' G'.
Proof.
  intros Hs (P1 & P2 & P3 & P4 & P5). split_and!; [done|done| |exact P4|exact P5].
  exact (mt_frame_trans _ _ _ _ _ _ _ _ (mt_frame_read s G c f Hs) P3).
Qed.

Lemma nftl_update_mt_run s G dm lba pba :
  mt_inv g s G dm -> mtl_open G -> lba_in g (mt_blkcnt (n_mt s)) lba -> in_chip g pba -> 3 <= nfree s ->
  wp (nftl_update_mt g lba pba) (fun r s' => r = 0 /\ exists G', updated s G dm lba pba s' G') s.
Proof.
  intros HI Hopen Hl Hp Hf. destruct (lba_in_page g geo _ _ Hl) as (L0 & L1 & L2).
  pose proof (ng_oob g geo) as Hoob. pose proof (ng_ws_range g geo) as Hws.
  unfold nftl_update_mt. apply wp_bind. eapply (stack_inv g geo); [apply HI|done|]. intros junk f HI1 S1 C1 J1.
  assert (HM1 : mt_inv g (with_cache (n_cache s) (with_flash f s)) G dm).
  { apply (mt_inv_read g geo); [done|done|apply HI|]. rewrite C1. exact (mi_quiet _ _ _ _ HI). }
  set (s1 := with_flash f s). change (with_cache (n_cache s) (with_flash f s)) with s1 in HM1.
  change (writesize g / 2) with (mt_entries g). rewrite (u8_id (lba / mt_entries g)) by done.
  assert (E : u8 (lba / mt_entries g / nr_pgsinblk g) = lba / mt_entries g / nr_pgsinblk g).
  { apply u8_id. pose proof (mr_cnt _ _ _ (mi_rep _ _ _ _ HI)). unfold in_u8, MT_MAX_BLOCKS in *. lia. }
  rewrite E. destruct (get_physical_run g geo s1 G dm (lba / mt_entries g) HM1 L1 (proj2 L2)) as (b & q & Hw & Hrun).
  apply wp_bind. unfold wp at 1. rewrite Hrun. cbn [fst snd]. apply wp_bind.
  eapply wp_mono; [by eapply (mt_cached_read_run g geo s1 G dm (lba / mt_entries g) b q)|].
  intros r s2 (_ & HM2 & buf & f2 & Hs2 & S2 & Hbuf & Hlen). apply wp_bind.
  unfold mt_store. apply wp_bind, wp_gets, wp_bind, wp_assert_some.
  assert (Hc2 : n_cache s2 = MkCache b q buf) by by rewrite Hs2. rewrite Hc2. cbn [mt_readcache].
  pose proof (entry_ofs g geo lba) as [Ho1 Ho2].
  destruct (put16_in buf (lba mod mt_entries g * 2) pba) as (buf' & Hput & _);
    [done|unfold NAND_MAX_PAGESIZE in *; lia|].
  exists buf'. split; [done|]. apply wp_zoom, wp_modify. rewrite Hc2. cbn [mt_cacheblock mt_cachepage].
  assert (HP : pending s2 G dm lba pba (MkCache b q buf') b q buf buf').
  { assert (Hpg : nd_page (world s2) = nd_page (world s1)) by (rewrite Hs2; exact (sp_page _ _ _ S2)).
    split; try done; [by rewrite Hs2|]. rewrite Hbuf. unfold mt_data. by rewrite Hpg. }
  assert (Hn2 : nfree s2 = nfree s) by by rewrite Hs2.
  change (wp (update_rest (lba / mt_entries g) (lba / mt_entries g / nr_pgsinblk g) junk)
    (fun r s' => r = 0 /\ exists G', updated s G dm lba pba s' G') (with_cache (MkCache b q buf') s2)).
  assert (Hpost : forall r s', (r = 0 /\ exists G', updated s2 G dm lba pba s' G') ->
    r = 0 /\ exists G', updated s G dm lba pba s' G').
  { intros r' s' (-> & G' & HU). split; [done|]. exists G'. eapply updated_read; [exact S1|].
    change (with_cache (n_cache s) (with_flash f s)) with s1. rewrite Hs2 in HU. by eapply updated_read. }
  unfold BLOCK_INFO_SIZE, NAND_MAX_OOBSIZE in *.
  destruct (decide (lba / mt_entries g / nr_pgsinblk g ∈ map (fun ge : mt_group => mtb_mtindx ge.1) (gh_mtl G)))
    as [Hin|Hnew].
  - apply list_elem_of_In, in_map_iff in Hin as ([h es] & Hi & Hin).
    apply list_elem_of_In, list_elem_of_split in Hin as (gs1 & gs2 & Hmtl). cbn in Hi. rewrite <- Hi.
    eapply wp_mono; [eapply (update_insert_run s2 G dm lba pba _ b q buf buf' junk gs1 h es gs2);
      [exact HP|done|done|lia|lia|lia]|exact Hpost].
  - eapply wp_mono; [eapply (update_append_run s2 G dm lba pba _ b q buf buf' junk);
      [exact HP|done|lia|lia|lia]|exact Hpost].
Qed.
End Update.
