(* ===== verification/NftlMapContract.v ===== *)
(** * NFTL: the contract of the mapping table

    What the layer above relies on: looking up, replacing an entry, and
    merging the log, on a chip in working order; and a concrete table on the
    simulated chip. *)

From Stdlib Require Import ZArith Lia.
From stdpp Require Import base numbers list gmap.
From S2P Require Import Prelude CMonad NftlTypes NftlAlloc NftlLog NftlDl NftlMtl MtdDev NftlState MtdSim.
From S2P Require Import NandLaws ChipLaws NftlFlash NftlFlashSpec NftlGarbage NftlTold NftlInv NftlGarbageSpec.
From S2P Require Import NftlMap NftlMapSpec NftlMapUpdate.

Section Contract.
Context {W : Type} {WW : World W} (g : mtd_info) {N : NandLaws W g}.
Hypothesis geo : nand_geo g.
Implicit Types (s : nftl W) (G : ghost) (dm : Z -> option Z).

(** C8. [nftl_lba_to_pba] answers 0 and the entry of the mapping table,
    0xFFFF for a logical block without one; whatever the cache holds, only the
    cache changes, and it stays coherent. *)
Theorem lba_to_pba_correct s G dm lba pba0
  (HI : mt_inv g s G dm) (Hl : lba_in g (mt_blkcnt (n_mt s)) lba) :
  exists s', nftl_lba_to_pba g lba pba0 s = Done (0, default 0xffff (dm lba)) s' /\
    mt_inv g s' G dm /\ n_mt s' = n_mt s /\ n_alloc s' = n_alloc s /\ n_gar s' = n_gar s /\ n_dl s' = n_dl s /\
    nd_page (world s') = nd_page (world s).
Proof.
  destruct (proj1 (wp_run _ _ _) (nftl_lba_to_pba_run g geo s G dm lba pba0 HI Hl))
    as (r & s' & H1 & -> & H2 & c & f & -> & Hs).
  eexists. split; [exact H1|]. split_and!; try done. exact (sp_page _ _ _ Hs).
Qed.

(** C7. [nftl_update_mt], with three free blocks, answers 0 and replaces the
    entry of [lba], in a new or an existing log block, merging the log block
    when that fills it: the invariant holds for the updated map, no block of
    the layer above changes hands or contents, and the blocks that can be had
    are accounted for. *)
Theorem update_mt_correct s G dm lba pba
  (HI : mt_inv g s G dm) (Hopen : mtl_open g G) (Hl : lba_in g (mt_blkcnt (n_mt s)) lba)
  (Hp : in_chip g pba) (Hf : 3 <= nfree s) :
  exists s' G', nftl_update_mt g lba pba s = Done 0 s' /\
    mt_inv g s' G' (upd dm lba (Some pba)) /\ mtl_open g G' /\
    n_dl s' = n_dl s /\ gh_dl G' = gh_dl G /\ gh_data G' = gh_data G /\
    (forall b p, on_chip g b p -> user (gh_own G b) = true ->
       gh_own G' b = gh_own G b /\ nd_page (world s') b p = nd_page (world s) b p) /\
    spare_blocks s' G' + arr_len (gh_mtl G') = spare_blocks s G + arr_len (gh_mtl G).
Proof.
  destruct (proj1 (wp_run _ _ _) (nftl_update_mt_run g geo s G dm lba pba HI Hopen Hl Hp Hf))
    as (r & s' & H1 & -> & G' & H2 & H3 & HF & H4 & _).
  exists s', G'. split_and!; try done; try apply HF.
  intros b p Hc Hu. split; [apply HF; [done|set_solver]|apply HF; [done|done|set_solver]].
Qed.

(** Reading the table back after an update: the entry just written, and
    for every other logical block what a lookup before the update answered. *)
Theorem update_mt_lookup s G dm lba pba lba' x
  (HI : mt_inv g s G dm) (Hopen : mtl_open g G) (Hl : lba_in g (mt_blkcnt (n_mt s)) lba)
  (Hl' : lba_in g (mt_blkcnt (n_mt s)) lba') (Hp : in_chip g pba) (Hf : 3 <= nfree s) :
  exists s1 s2 v, nftl_update_mt g lba pba s = Done 0 s1 /\ nftl_lba_to_pba g lba' x s1 = Done (0, v) s2 /\
    if lba' =? lba then v = pba
    else exists s0, nftl_lba_to_pba g lba' x s = Done (0, v) s0.
Proof.
  destruct (proj1 (wp_run _ _ _) (nftl_update_mt_run g geo s G dm lba pba HI Hopen Hl Hp Hf))
    as (r & s1 & H1 & -> & G' & H2 & H3 & HF & _).
  assert (Hl1 : lba_in g (mt_blkcnt (n_mt s1)) lba') by by rewrite (mf_cnt _ _ _ _ _ _ HF).
  destruct (proj1 (wp_run _ _ _) (nftl_lba_to_pba_run g geo s1 G' _ lba' x H2 Hl1)) as (r & s2 & E2 & -> & _).
  exists s1, s2. eexists. split; [exact H1|]. split; [exact E2|]. unfold upd.
  destruct (lba' =? lba) eqn:E; zbool; case_decide; try done.
  destruct (proj1 (wp_run _ _ _) (nftl_lba_to_pba_run g geo s G dm lba' x HI Hl')) as (r & s0 & E0 & -> & _).
  by exists s0.
Qed.

(** C9. [nftl_merge_mtlblk] answers 0, takes the log block out of the table
    and changes no entry of the map; the two old blocks are given up, and
    garbage remains only when more than 20 blocks are free. *)
Theorem merge_mtlblk_preserves s G dm gs1 h es gs2
  (HI : mt_inv g s G dm) (Hmtl : gh_mtl G = gs1 ++ (h, es) :: gs2) (Hf : 2 <= nfree s)
  (Hcb : gh_own G (mt_cacheblock (n_cache s)) <> RFree) :
  exists s' G', nftl_merge_mtlblk g (arr_len gs1) s = Done 0 s' /\
    mt_inv g s' G' dm /\ gh_mtl G' = gs1 ++ gs2 /\ gh_dl G' = gh_dl G /\ gh_data G' = gh_data G /\
    (forall b p, on_chip g b p -> user (gh_own G b) = true ->
       gh_own G' b = gh_own G b /\ nd_page (world s') b p = nd_page (world s) b p) /\
    spare_blocks s' G' = spare_blocks s G + 1 /\ (gh_gar G' = [] \/ MINI_FREE_BLOCK < nfree s').
Proof.
  destruct (proj1 (wp_run _ _ _) (nftl_merge_mtlblk_run g geo s G dm gs1 h es gs2 HI Hmtl ltac:(lia) ltac:(lia) Hcb))
    as (r & s' & H1 & -> & G' & H2 & H3 & HF & H4 & H5).
  exists s', G'. split_and!; try done; try apply HF.
  - intros b p Hc Hu. split; [apply HF; [done|set_solver]|apply HF; [done|done|set_solver]].
  - destruct H5 as [?|?]; [by left|right; lia].
Qed.
End Contract.

(** ** On the simulated chip

    One MapTab block, 1, without an entry, and one log block, 2, with a copy of
    page 3 of the table in which every entry is 7.  Block 0 is bad. *)
Section Example.
Notation g := small_geo.
#[local] Existing Instances inv_world inv_laws.

Definition tab_spare (t : block_state) (index half : Z) : list Z :=
  set_half half (set_tabindx index (set_blocktype (block_state_code t) (replicate 8 0xff))).
Definition mt_page0 : list Z * list Z := (replicate 32 0xff, tab_spare MAP_TAB_BLOCK 0 0).
Definition mt_page7 : list Z * list Z := (concat (replicate 16 [7; 0]), tab_spare MT_LOG_BLOCK 0 3).
Definition mt_chip : chip := MkChip
  (list_to_map [(page_addr g 1 0, mt_page0); (page_addr g 2 0, mt_page7)]) [0] [] [] 1.
Definition mt_table : mt_ram :=
  MkMt (1 :: replicate 5 0) 1 (MkMtb 0 2 1 1 :: replicate 5 (MkMtb 0 0 0 0)) 1
    (MkMtt 0 3 :: replicate 767 (MkMtt 0 0)) 1.
Definition mt_state : nftl chip :=
  with_mt mt_table (with_gar inv_gar (with_alloc alloc_ex (initial mt_chip))).
Definition mt_own (b : Z) : role :=
  if decide (3 <= b < 64) then RFree else if decide (b = 1) then RMt 0
  else if decide (b = 2) then RMtl 0 else ROther.
Definition mt_groups : list mt_group := [(MkMtb 0 2 1 1, [MkMtt 0 3])].
Definition mt_ghost : ghost :=
  MkGhost mt_own [] (upd (fun _ => None) 0 (Some 1)) mt_groups (fun _ => None) [] None [].
Definition mt_map (lba : Z) : option Z := if decide (48 <= lba < 64) then Some 7 else None.

Lemma mt_state_owners : owners g alloc_ex mt_ghost.
Proof.
  split; try done.
  - intros b. rewrite alloc_ex_free. unfold in_chip.
    change (nr_blks g) with 64. cbn. unfold mt_own.
    repeat case_decide; (split; [intros; split|intros [? ?]]); (lia || congruence).
  - intros i b. cbn. unfold upd. case_decide; [|done]. intros [= <-]. by subst.
  - intros h es [= -> ->]%list_elem_of_singleton. done.
  - intros h es H. inversion H.
  - intros b H. inversion H.
  - apply NoDup_nil_2.
Qed.

Lemma bad_first b : zmem (b * 128) [0] = true <-> b = 0.
Proof. unfold zmem. cbn [existsb]. rewrite orb_false_r, Z.eqb_eq. lia. Qed.

Lemma mt_state_tells : tells g mt_chip 0 mt_ghost.
Proof.
  split.
  - split; [..|done]; cbn.
    + intros i b. unfold upd. case_decide; [|done]. intros [= <-]. subst.
      split; [reflexivity|reflexivity|intros _; vm_compute; intuition congruence].
    + intros h es [= -> ->]%list_elem_of_singleton. split; cbn; [reflexivity|vm_compute; intuition congruence| |reflexivity].
      intros p Hp. assert (p = 0) as -> by lia. reflexivity.
    + intros h es H. inversion H.
    + done.
    + intros b H. inversion H.
  - intros b. cbn. unfold mt_own. repeat case_decide; cbn; subst; try done.
    by exists (MkMtb 0 2 1 1), [MkMtt 0 3]; split; [left|].
  - intros b [Hb Hb']. change (zmem (b * 128) [0] = true <-> mt_own b = ROther). rewrite bad_first.
    change (nr_blks g) with 64 in Hb'. unfold mt_own. repeat case_decide; split; (done || lia).
Qed.

Lemma mt_state_inv : inv g mt_state mt_ghost.
Proof.
  split; [|by split|done|apply alloc_ex_ok|apply mt_state_owners| |apply mt_state_tells].
  { apply map_Forall_lookup_2. intros i x Hx. apply elem_of_list_to_map_2 in Hx.
    rewrite !elem_of_cons, elem_of_nil in Hx.
    destruct Hx as [E|[E|[]]]; injection E as _ ->; (split; vm_compute; reflexivity). }
  assert (Hne : forall b p, b <> 2 /\ b <> 1 \/ 1 <= p -> 0 <= p < 4 -> @nd_erased _ _ g inv_laws mt_chip b p).
  { intros b p Hb Hp. apply not_elem_of_list_to_map_1.
    change (b * 128 + p * 32 ∉ [1 * 128 + 0 * 32; 2 * 128 + 0 * 32]).
    rewrite !not_elem_of_cons. split_and!; [lia|lia|apply not_elem_of_nil]. }
  split.
  - intros b p [_ Hp] Ho. apply Hne; [|done]. cbn in Ho. unfold mt_own in Ho. repeat case_decide; (done || lia).
  - intros h es p [= -> ->]%list_elem_of_singleton [_ Hp] Hu. apply Hne; [cbn in Hu; lia|done].
  - intros h es p H. inversion H.
  - done.
Qed.

Lemma mt_state_rep : mt_rep g mt_table mt_ghost.
Proof.
  split.
  - split; try (vm_compute; reflexivity).
    + split; [by eexists|by eexists|done|done|by repeat constructor].
    + vm_compute. intuition congruence.
    + repeat constructor; cbn; try (vm_compute; intuition congruence). set_solver.
    + apply NoDup_singleton.
  - done.
  - intros i Hi. cbn in Hi. assert (i = 0) as -> by lia. by exists 1.
  - cbn. intros i. unfold upd. case_decide; [subst; intros _; lia|done].
  - intros h es [= -> ->]%list_elem_of_singleton. done.
Qed.

(** Every entry, evaluated. *)
Lemma mt_state_map : map_holds g 1 mt_chip mt_ghost mt_map.
Proof.
  intros lba (H0 & _ & H1). change (mt_entries g) with 16 in H1. change (nr_pgsinblk g) with 4 in H1.
  assert (Hr : 0 <= lba < 64).
  { rewrite Z.div_div in H1 by lia. change (16 * 4) with 64 in H1. zdiv_lia. }
  assert (Hall : Forall (fun lba => mt_entry g mt_chip mt_ghost lba = default 0xffff (mt_map lba)) (seqZ 0 64)).
  { apply (bool_decide_unpack _). vm_compute. reflexivity. }
  rewrite Forall_forall in Hall. apply Hall. apply elem_of_seqZ. lia.
Qed.

Lemma mt_state_ok : mt_inv g mt_state mt_ghost mt_map.
Proof.
  split; [apply mt_state_inv| |apply mt_state_rep| |done|apply mt_state_map|].
  - split; [split|..]; try done. by exists (replicate 256 0).
  - split; [done|]. intros p Hp.
    destruct (where_live g small_geo_ok _ _ _ _ _ _ mt_state_owners mt_state_rep Hp) as [[Hb _] _].
    cbn in Hb. change (nr_blks g) with 64 in Hb. lia.
  - intros lba b. unfold mt_map. case_decide; [|done]. intros [= <-]. done.
Qed.
Lemma mt_state_open : mtl_open g mt_ghost.
Proof. intros h es [= -> ->]%list_elem_of_singleton. done. Qed.
Lemma mt_state_lba lba : 0 <= lba < 64 -> lba_in g (mt_blkcnt (n_mt mt_state)) lba.
Proof.
  intros H. change (0 <= lba /\ lba / 16 < 2 ^ 8 /\ lba / 16 / 4 < 1).
  rewrite Z.div_div by lia. change (16 * 4) with 64.
  split; [lia|]. split; [apply Z.div_lt_upper_bound; lia|apply Z.div_lt_upper_bound; lia].
Qed.

Lemma lba_to_pba_correct_witness :
  (exists s', nftl_lba_to_pba g 50 0 mt_state = Done (0, 7) s') /\
  (exists s', nftl_lba_to_pba g 5 0 mt_state = Done (0, 0xffff) s').
Proof.
  split.
  - destruct (lba_to_pba_correct g small_geo_ok mt_state mt_ghost mt_map 50 0 mt_state_ok) as (s' & H & _);
      [apply mt_state_lba; lia|]. exists s'. exact H.
  - destruct (lba_to_pba_correct g small_geo_ok mt_state mt_ghost mt_map 5 0 mt_state_ok) as (s' & H & _);
      [apply mt_state_lba; lia|]. exists s'. exact H.
Defined.

Lemma update_mt_correct_witness : exists s' G', nftl_update_mt g 5 9 mt_state = Done 0 s' /\
  mt_inv g s' G' (upd mt_map 5 (Some 9)) /\ mtl_blkcnt (n_mt s') = 1.
Proof.
  destruct (update_mt_correct g small_geo_ok mt_state mt_ghost mt_map 5 9 mt_state_ok mt_state_open)
    as (s' & G' & H1 & H2 & _); [apply mt_state_lba; lia|done|vm_compute; discriminate|].
  exists s', G'. split; [exact H1|]. split; [exact H2|].
  assert (E : match nftl_update_mt g 5 9 mt_state with
              | Done _ s => mtl_blkcnt (n_mt s) = 1 | _ => False end) by (vm_compute; reflexivity).
  rewrite H1 in E. clear H1 H2. exact E.
Defined.

Lemma update_mt_lookup_witness : exists s1 s2 s3,
  nftl_update_mt g 5 9 mt_state = Done 0 s1 /\ nftl_lba_to_pba g 5 0 s1 = Done (0, 9) s2 /\
  nftl_lba_to_pba g 50 0 s1 = Done (0, 7) s3.
Proof.
  destruct (update_mt_lookup g small_geo_ok mt_state mt_ghost mt_map 5 9 5 0 mt_state_ok mt_state_open)
    as (s1 & s2 & v & H1 & H2 & H3); [apply mt_state_lba; lia|apply mt_state_lba; lia|done|vm_compute; discriminate|].
  cbn in H3. subst v.
  destruct (update_mt_lookup g small_geo_ok mt_state mt_ghost mt_map 5 9 50 0 mt_state_ok mt_state_open)
    as (s1' & s3 & v & H1' & H4 & (s0 & H5)); [apply mt_state_lba; lia|apply mt_state_lba; lia|done|vm_compute; discriminate|].
  rewrite H1 in H1'. injection H1' as <-. exists s1, s2, s3. split; [exact H1|]. split; [exact H2|].
  assert (v = 7) as ->; [|exact H4].
  assert (E : match nftl_lba_to_pba g 50 0 mt_state with Done (_, v) _ => v = 7 | _ => False end)
    by (vm_compute; reflexivity).
  rewrite H5 in E. clear H1 H2 H4 H5. exact E.
Defined.

Lemma merge_mtlblk_preserves_witness : exists s' G', nftl_merge_mtlblk g 0 mt_state = Done 0 s' /\
  mt_inv g s' G' mt_map /\ gh_mtl G' = [] /\ mtl_blkcnt (n_mt s') = 0.
Proof.
  destruct (merge_mtlblk_preserves g small_geo_ok mt_state mt_ghost mt_map [] (MkMtb 0 2 1 1) [MkMtt 0 3] []
    mt_state_ok) as (s' & G' & H1 & H2 & H3 & _); [reflexivity|vm_compute; discriminate|discriminate|].
  change (nftl_merge_mtlblk g 0 mt_state = Done 0 s') in H1.
  exists s', G'. split; [exact H1|]. split; [exact H2|]. split; [exact H3|].
  assert (E : match nftl_merge_mtlblk g 0 mt_state with
              | Done _ s => mtl_blkcnt (n_mt s) = 0 | _ => False end) by (vm_compute; reflexivity).
  rewrite H1 in E. clear H1 H2 H3. exact E.
Defined.
End Example.
