(* ===== verification/NftlData.v ===== *)
(** * NFTL: reading and writing logical pages

    [nftl_merge_dlblk], [nftl_read_logicpage] and [nftl_write_logicpage] of
    [BSP/oss/nftl/nftlmount.c]. *)

From Stdlib Require Import ZArith Lia.
From stdpp Require Import base numbers list.
From S2P Require Import Prelude CMonad NftlTypes NftlAlloc NftlDl NftlMtl MtdDev NftlState NftlFlash NftlGarbage NftlMap.

Section Operations.
Context {W : Type} `{World W} (g : mtd_info).

(** An uninitialised uint16_t variable. *)
Definition stack16 : M (nftl W) Z :=
  let! b := onF (stack 2) in
  ret (u8 (byte_at b 0) + u8 (byte_at b 1) * 2 ^ 8).

(** ** Merging a DataLog block *)
Definition dl_offset (index : Z) : M (nftl W) Z :=
  let! d := gets n_dl in
  assert_some OutOfBounds (arr_sum u16 dlb_valid (dl_blocktab d) index).

Definition dl_fact (startlpa offset valid i : Z) : M (nftl W) Z :=
  let! r := for_local 0 valid 0xff (fun j fact =>
    let! t := onD (dl_trans (offset + j)) in
    ret (inl (if u32 (startlpa + i) =? dlt_lpa t then u8 (dlt_ppa t) else fact) : Z + unit)) in
  match r with inl f => ret f | inr _ => ret 0xff end.

Definition dl_facts (startlpa offset valid n : Z) (fact0 : list Z) : M (nftl W) (list Z) :=
  let! f := for_local 0 n fact0 (fun i factppa =>
    let! v := dl_fact startlpa offset valid i in
    let! factppa := assert_some OutOfBounds (arr_set factppa i v) in
    ret (inl factppa : list Z + unit)) in
  match f with inl l => ret l | inr _ => ret [] end.

(** A first page without data still marks the block as a data block.  The
    buffer [tempbuf] is what [kmalloc] returned, unchecked. *)
Definition mark_data_block (tempbuf : option (list Z)) (junk : list Z) (temp : Z) : M (nftl W) Z :=
  let spare := set_blocktype (block_state_code DATA_BLOCK) junk in
  let! buf := assert_some OutOfBounds tempbuf in
  let! w := onF (mtd_write g temp 0 buf spare 1) in
  if truth (fst w) then nftl_write_error g temp 0 buf spare 1 else ret temp.

(** Filling page [i] of the new data block: [inr] returns. *)
Definition merge_dl_page (dlpba pba : Z) (factppa : list Z) (tempbuf : option (list Z))
    (junk : list Z) (i temp : Z) : M (nftl W) (Z + Z) :=
  let! v := assert_some OutOfBounds (arr_get factppa i) in
  let! r :=
    (if negb (v =? 0xff) then merge_copy g dlpba v i DATA_BLOCK temp
     else if negb (pba =? 0xffff) then merge_copy g pba i i DATA_BLOCK temp
     else if i =? 0 then let! t := mark_data_block tempbuf junk temp in ret (inl t)
     else ret (inl temp)) in
  match r with
  | inl temp => if temp =? 0xFFFF then ret (inr (-1)) else ret (inl temp)
  | inr e => ret (inr e)
  end.

Definition nftl_merge_dlblk (index : Z) : M (nftl W) Z :=
  let! fact0 := onF (stack MAX_PAGES_IN_BLOCK) in
  let! junk := onF (stack BLOCK_INFO_SIZE) in
  let! pba0 := stack16 in
  let! tempbuf := onF (kmalloc NAND_MAX_PAGESIZE) in
  let! b := onD (dl_block index) in
  let lba := dlb_lba b in
  let startlpa := u32 (lba * nr_pgsinblk g) in
  let! offset := dl_offset index in
  let! factppa := dl_facts startlpa offset (dlb_valid b) (nr_pgsinblk g) fact0 in
  let! lp := nftl_lba_to_pba g lba pba0 in
  let pba := snd lp in
  let! tempdatablock := onA (nftl_get_free_block g) in
  if tempdatablock =? 0xFFFF then ret (-1)
  else
    let! r := for_local 0 (nr_pgsinblk g) tempdatablock
                (merge_dl_page (dlb_pba b) pba factppa tempbuf junk) in
    match r with
    | inr e => ret e
    | inl temp =>
        nftl_addto_gt g (dlb_pba b :: if pba =? 0xffff then [] else [pba]) ;;
        nftl_update_mt g lba temp ;;
        onD (nftl_update_dl_ram g DEL_OPERATION index 0 0)
    end.

(** ** Reading a logical page *)

(** Moving a log block whose page needed too many corrections. *)
Definition move_dl_block (lpa pba : Z) : M (nftl W) (option Z) :=
  let! new_blk := onA (nftl_get_free_block g) in
  if new_blk =? 0xFFFF then ret (Some 1)
  else
    let! count := onD (nftl_update_dl_ram g UPDATE_OPERATION 0 lpa new_blk) in
    let replace_page_count := u8 count in
    let! e := nftl_block_replace g pba new_blk replace_page_count in
    if truth e then ret (Some 1)
    else
      let! e := nftl_addto_gt g [pba] in
      if truth e then ret (Some 1) else ret None.

Definition move_data_block (lba pba : Z) : M (nftl W) (option Z) :=
  let! new_blk := onA (nftl_get_free_block g) in
  if new_blk =? 0xFFFF then ret (Some 1)
  else
    let! e := nftl_block_replace g pba new_blk (nr_pgsinblk g) in
    if truth e then ret (Some 1)
    else
      let! e := nftl_update_mt g lba new_blk in
      if truth e then ret (Some 1)
      else
        let! e := nftl_addto_gt g [pba] in
        if truth e then ret (Some 1) else ret None.

(** Reading the page at (block, page) and moving its block when needed. *)
Definition read_and_move (block page : Z) (databuff : list Z) (move : M (nftl W) (option Z))
    : M (nftl W) (Z * list Z) :=
  let! r := onF (mtd_read g block page (Some databuff) None 1) in
  let! f := gets n_flash in
  if fl_corrected f >? ECC_ERR_LIMIT then
    let! m := move in
    match m with Some e => ret (e, r_buf r) | None => ret (0, r_buf r) end
  else ret (r_ret r, r_buf r).

(** The result and the contents of the buffer. *)
Definition nftl_read_logicpage (lpa : Z) (databuff : list Z) : M (nftl W) (Z * list Z) :=
  let! pba0 := stack16 in
  let! maxlp := gets n_maxlp in
  if lpa >=? maxlp then ret (-1, databuff)
  else
    let! f := onD (nftl_find_lpa_in_dl g lpa) in
    match f with
    | Some (pba, pageofs) => read_and_move pba pageofs databuff (move_dl_block lpa pba)
    | None =>
        let lba := u16 (lpa / nr_pgsinblk g) in
        let! lp := nftl_lba_to_pba g lba pba0 in
        let pba := snd lp in
        if negb (pba =? 0xFFFF) then
          let pageofs := u8 (lpa mod nr_pgsinblk g) in
          read_and_move pba pageofs databuff (move_data_block lba pba)
        else
          let! b := assert_some OutOfBounds (memset databuff 0xff (writesize g)) in
          ret (0, b)
    end.
End Operations.

Section Write.
Context {W : Type} `{World W} (g : mtd_info).

(** The block with the largest [key], the earliest on a tie. *)
Definition max_block (key : dl_blockinfo -> Z) (lo : Z) : M (nftl W) Z :=
  let! d := gets n_dl in
  let! r := for_local lo (dl_blkcnt d) 0 (fun i tempindex =>
    let! b := onD (dl_block tempindex) in
    let! c := onD (dl_block i) in
    ret (inl (if key b <? key c then i else tempindex) : Z + unit)) in
  match r with inl i => ret i | inr _ => ret 0 end.

(** The first log block whose logical block has a data block; [inl ret] when
    there is none, with the result of the last lookup. *)
Definition pick_mapped (ret0 : Z) : M (nftl W) (Z + Z) :=
  let! d := gets n_dl in
  for_local 0 (dl_blkcnt d) ret0 (fun i _ =>
    let! mypba0 := stack16 in
    let! b := onD (dl_block i) in
    let! lp := nftl_lba_to_pba g (dlb_lba b) mypba0 in
    ret (if (fst lp =? 0) && negb (snd lp =? 0xffff) then inr i else inl (fst lp))).

(** One round of the loops that shrink the table: [Some None] leaves the
    loop, [Some (Some e)] the function. *)
Definition shrink_round (lo : Z) (more : dl_ram -> bool) : M (nftl W) (option (option Z)) :=
  let! d := gets n_dl in
  if negb (more d) then ret (Some None)
  else
    max_block dlb_used lo ;;
    let! p := pick_mapped 0 in
    match p with
    | inl _ => ret (Some None)
    | inr tempindex =>
        let! e := nftl_merge_dlblk g tempindex in
        if truth e then ret (Some (Some (u8 (-1)))) else ret None
    end.
(** Each round removes a block from the table. *)
Definition shrink (trigger : dl_ram -> bool) (lo : Z) (more : dl_ram -> bool)
    : M (nftl W) (option Z) :=
  let! d := gets n_dl in
  if trigger d then retry (S (Z.to_nat (dl_blkcnt d))) (shrink_round lo more) else ret None.

Definition shrink_blocks := shrink (fun d => dl_blkcnt d >=? DL_MAX_BLOCKS_DIV4) 0
                                   (fun d => dl_blkcnt d >? DL_MAX_BLOCKS_DIV8).
Definition shrink_pages := shrink (fun d => dl_pgcnt d >=? DL_MAX_PAGES_DIV4) 1
                                  (fun d => dl_pgcnt d >? DL_MAX_PAGES_DIV8).

(** Whether the pages [0 .. nr_pgsinblk-2] of the log block sit at their own
    offsets, so that one more page in order turns it into a data block. *)
Definition in_order (lba index : Z) (b : dl_blockinfo) (fact0 : list Z) : M (nftl W) bool :=
  let! offset := dl_offset index in
  let startlpa := u32 (lba * nr_pgsinblk g) in
  let! r := for_range 0 (nr_pgsinblk g - 1) (fun i =>
    let! v := dl_fact startlpa offset (dlb_valid b) i in
    let! _ := assert_some OutOfBounds (arr_set fact0 i v) in
    if v =? i then ret None else ret (Some tt)) in
  match r with None => ret true | Some _ => ret false end.

(** Where the page goes: block, page, operation, index and [need_convert]. *)
Record write_target := MkTarget {
  wt_block : Z; wt_page : Z; wt_operation : Z; wt_index : Z; wt_convert : bool }.
Definition dl_target (lba : Z) (fact0 : list Z) : M (nftl W) write_target :=
  let! f := onD (nftl_find_lba_in_dl lba) in
  match f with
  | Some index =>
      let! b := onD (dl_block index) in
      let temppage := dlb_used b in
      let! need_convert :=
        (if temppage =? nr_pgsinblk g - 1 then in_order lba index b fact0 else ret false) in
      ret (MkTarget (dlb_pba b) temppage
             (if need_convert : bool then DEL_OPERATION else INSERT_OPERATION) index need_convert)
  | None =>
      let! d := gets n_dl in
      let! tempblock := onA (nftl_get_free_block g) in
      ret (MkTarget tempblock 0 APPEND_OPERATION (dl_blkcnt d) false)
  end.

(** Programming the page, with recovery; answers the block it ended in. *)
Definition dl_write (t : write_target) (databuff spare : list Z) : M (nftl W) Z :=
  let! w := onF (mtd_write g (wt_block t) (u8 (wt_page t)) databuff spare 1) in
  if truth (fst w) then
    let! nb := nftl_write_error g (wt_block t) (u8 (wt_page t)) databuff spare 1 in
    if wt_operation t =? INSERT_OPERATION then
      let! b := onD (dl_block (wt_index t)) in
      onD (dl_set_block (wt_index t) (dlb_set_pba nb b)) ;; ret nb
    else ret nb
  else ret (wt_block t).

(** The log block has become the data block of [lba]. *)
Definition convert_block (lba tempblock pba0 : Z) : M (nftl W) Z :=
  let! lp := nftl_lba_to_pba g lba pba0 in
  let pba := snd lp in
  (if negb (pba =? 0xffff) then nftl_addto_gt g [pba] else ret 0) ;;
  nftl_update_mt g lba tempblock.

(** The last part: reclaiming space when few blocks are free. *)
Definition low_space (ret0 : Z) : M (nftl W) Z :=
  let! a := gets n_alloc in
  if free_blkcnt a <=? MINI_FREE_BLOCK then
    max_block dlb_valid 1 ;;
    let! p := pick_mapped ret0 in
    match p with
    | inl e => ret (u8 e)
    | inr tempindex =>
        let! e := nftl_merge_dlblk g tempindex in
        if truth e then ret (u8 (-1)) else ret (u8 e)
    end
  else ret (u8 ret0).

(** Updating the table and merging the log block when it is full. *)
Definition dl_record (t : write_target) (lpa tempblock : Z) : M (nftl W) (Z + Z) :=
  onD (nftl_update_dl_ram g (wt_operation t) (wt_index t) lpa tempblock) ;;
  let! b := onD (dl_block (wt_index t)) in
  if dlb_used b =? nr_pgsinblk g then
    let! e := nftl_merge_dlblk g (wt_index t) in
    if truth e then ret (inr (u8 (-1))) else ret (inl e)
  else ret (inl 0).

Definition write_page (lpa : Z) (databuff junk fact0 : list Z) (pba0 : Z) : M (nftl W) Z :=
  let lba := u16 (lpa / nr_pgsinblk g) in
  let! t := dl_target lba fact0 in
  let spare := set_lpa lpa
    (set_blocktype (block_state_code (if wt_convert t then DATA_BLOCK else DATA_LOG_BLOCK)) junk) in
  let! tempblock := dl_write t databuff spare in
  let! c := (if wt_convert t then convert_block lba tempblock pba0 else ret 0) in
  if truth c then ret (u8 (-1))
  else
    let! r := dl_record t lpa tempblock in
    match r with inr e => ret e | inl e => low_space e end.

Definition nftl_write_logicpage (lpa : Z) (databuff : list Z) : M (nftl W) Z :=
  let! junk := onF (stack BLOCK_INFO_SIZE) in
  let! fact0 := onF (stack MAX_PAGES_IN_BLOCK) in
  let! pba0 := stack16 in
  let! r := shrink_blocks in
  match r with
  | Some e => ret e
  | None =>
      let! r := shrink_pages in
      match r with
      | Some e => ret e
      | None => write_page lpa databuff junk fact0 pba0
      end
  end.
End Write.
