(* ===== verification/NftlDataSpec.v ===== *)
(** * NFTL: logical pages, specified

    The state of the whole translation layer, the contents it gives to the
    logical pages, and reading one: [nftl_read_logicpage] hands back the page
    in the log if there is one, else the page of the data block, else a page
    of 0xFF. *)

From Stdlib Require Import ZArith Lia.
From stdpp Require Import base numbers list sets.
From S2P Require Import Prelude CMonad NftlTypes NftlAlloc NftlLog NftlDl NftlMtl MtdDev NftlState.
From S2P Require Import NandLaws NftlFlash NftlFlashSpec NftlGarbage NftlTold NftlInv NftlGarbageSpec.
From S2P Require Import NftlMap NftlMapSpec NftlMapUpdate NftlData.

Section Data.
Context {W : Type} {WW : World W} (g : mtd_info) {N : NandLaws W g}.
Hypothesis geo : nand_geo g.
Implicit Types (s : nftl W) (w : W) (G : ghost) (b p q : Z).

(** Entries behind the last log block are as the module was loaded. *)
Definition dl_tail (d : dl_ram) : Prop :=
  forall i h, dl_blkcnt d <= i -> arr_get (dl_blocktab d) i = Some h -> dlb_used h = 0.

(** The log blocks are those of the table in RAM, the map in flash is that of
    the data blocks, and every logical page has an entry. *)
Record ftl s G : Prop := {
  ft_mt : mt_inv g s G (gh_data G);
  ft_open : mtl_open g G;
  ft_dl : dl_ok g (n_dl s) (gh_dl G);
  ft_lba : forall h es, (h, es) ∈ gh_dl G -> lba_in g (mt_blkcnt (n_mt s)) (dlb_lba h);
  ft_cnt : dl_blkcnt (n_dl s) < DL_MAX_BLOCKS;
  ft_tail : dl_tail (n_dl s);
  ft_range : forall lpa, 0 <= lpa < n_maxlp s ->
    lba_in g (mt_blkcnt (n_mt s)) (lpa / nr_pgsinblk g) /\ in_u16 (lpa / nr_pgsinblk g) /\ in_u32 lpa
}.

(** No log block is full between operations. *)
Definition dl_open G : Prop := forall h es, (h, es) ∈ gh_dl G -> dlb_used h < nr_pgsinblk g.

(** Where logical page [lpa] is, and what it holds; [None] when it has never
    been written. *)
Definition place G lpa : option (Z * Z) :=
  match dl_lookup g (gh_dl G) lpa with
  | Some r => Some r
  | None => match gh_data G (lpa / nr_pgsinblk g) with
            | Some b => Some (b, lpa mod nr_pgsinblk g)
            | None => None
            end
  end.
Definition page_at w (r : option (Z * Z)) : option (list Z) :=
  match r with Some (b, q) => Some (fst (nd_page w b q)) | None => None end.
Definition logical w G lpa : option (list Z) := page_at w (place G lpa).

Lemma dl_lookup_In gs lpa b q :
  dl_lookup g gs lpa = Some (b, q) -> Forall (group_ok g) gs ->
  exists h es, (h, es) ∈ gs /\ dlb_pba h = b /\ dlb_lba h = lpa / nr_pgsinblk g /\
    ent_lookup es lpa = Some q /\ 0 <= q < dlb_used h /\ dlb_used h <= nr_pgsinblk g.
Proof.
  induction gs as [|[h es] gs IH]; cbn [dl_lookup]; [done|]. intros H Hok. inversion Hok as [|? ? Hg Hgs]; subst.
  destruct (dlb_lba h =? lpa / nr_pgsinblk g) eqn:E; zbool.
  - destruct (ent_lookup es lpa) as [q'|] eqn:El; [|done]. injection H as <- <-.
    exists h, es. pose proof (go_used _ _ Hg) as Hu. pose proof (go_lpas _ _ Hg) as Hf. cbn in Hu, Hf.
    assert (Hr : 0 <= q' < dlb_used h).
    { clear -El Hf. induction Hf as [|e es (_ & _ & He) _ IH]; cbn in El; [done|].
      destruct (dlt_lpa e =? lpa); [by injection El as <-|by apply IH]. }
    split_and!; (by left) || done || lia.
  - destruct (IH H Hgs) as (h' & es' & Hin & ?). exists h', es'. split; [by right|done].
Qed.

(** The place of a page is a page of a block of the layer. *)
Lemma place_user s G lpa b q : ftl s G -> place G lpa = Some (b, q) ->
  on_chip g b q /\
  (gh_own G b = RDl (lpa / nr_pgsinblk g) \/ gh_own G b = RData (lpa / nr_pgsinblk g)).
Proof.
  intros HF H. unfold place in H. pose proof (ngp g geo).
  pose proof (fi_own _ _ _ _ _ (mi_inv _ _ _ _ (ft_mt _ _ HF))) as Ho.
  destruct (dl_lookup g (gh_dl G) lpa) as [r|] eqn:E.
  - injection H as ->. destruct (dl_lookup_In _ _ _ _ E) as (h & es & Hin & <- & Hi & _ & Hq & Hu);
      [apply (dk_groups _ _ _ (ft_dl _ _ HF))|].
    destruct (ow_dl _ _ _ Ho _ _ Hin) as [Hc Hr]. rewrite <- Hi. split; [|by left]. split; [done|lia].
  - destruct (gh_data G (lpa / nr_pgsinblk g)) as [b'|] eqn:E'; [|done]. injection H as <- <-.
    destruct (ow_data _ _ _ Ho _ _ E') as [Hc Hr]. split; [|by right]. split; [done|].
    apply Z.mod_pos_bound. lia.
Qed.

(** Reading changes nothing but the cache. *)
Lemma ftl_read s G c f :
  ftl s G -> same_pages g (world s) (fl_world f) -> cache_ok g c (world s) G ->
  fl_corrected f <= ECC_ERR_LIMIT -> ftl (with_cache c (with_flash f s)) G.
Proof.
  intros [H1 H2 H3 H4 H5 H6 H7] Hs Hc Hf. split; try done. by apply (mt_inv_read g geo).
Qed.
Lemma ftl_flash s G f :
  ftl s G -> same_pages g (world s) (fl_world f) -> fl_corrected f <= ECC_ERR_LIMIT -> ftl (with_flash f s) G.
Proof.
  intros HF Hs Hf. replace (with_flash f s) with (with_cache (n_cache s) (with_flash f s)) by by destruct s.
  apply ftl_read; [done|done|apply HF|done].
Qed.

(** A state that differs in the cache and the accesses made. *)
Definition only_read s s' : Prop := exists c f, s' = with_cache c (with_flash f s) /\
  same_pages g (world s) (fl_world f).
Lemma only_read_flash s f : same_pages g (world s) (fl_world f) -> only_read s (with_flash f s).
Proof. intros H. exists (n_cache s), f. split; [by destruct s|done]. Qed.
Lemma only_read_trans s1 s2 s3 : only_read s1 s2 -> only_read s2 s3 -> only_read s1 s3.
Proof.
  intros (c & f & -> & H1) (c' & f' & -> & H2). exists c', f'. split; [done|].
  by eapply same_pages_trans.
Qed.

Lemma stack16_run s G (Q : Z -> nftl W -> Prop) :
  ftl s G -> (forall v s', ftl s' G -> only_read s s' -> Q v s') -> wp stack16 Q s.
Proof.
  intros HF HQ. unfold stack16. apply wp_bind. eapply (stack_inv g geo); [apply (ft_mt _ _ HF)|done|].
  intros l f HI S1 C1 L1. apply wp_ret. apply HQ; [|by apply only_read_flash].
  apply ftl_flash; [done|done|]. rewrite C1. exact (mi_quiet _ _ _ _ (ft_mt _ _ HF)).
Qed.

Lemma lba_lookup_run s G lba x (Q : Z * Z -> nftl W -> Prop) :
  ftl s G -> lba_in g (mt_blkcnt (n_mt s)) lba ->
  (forall s', ftl s' G -> only_read s s' -> Q (0, default 0xffff (gh_data G lba)) s') ->
  wp (nftl_lba_to_pba g lba x) Q s.
Proof.
  intros HF Hl HQ. eapply wp_mono; [by apply (nftl_lba_to_pba_run g geo s G _ lba x (ft_mt _ _ HF))|].
  intros r s' (-> & HM & c & f & -> & Hs). apply HQ; [|by exists c, f].
  destruct HF as [H1 H2 H3 H4 H5 H6 H7]. by split.
Qed.

Lemma default_ffff G lba s : ftl s G ->
  (default 0xffff (gh_data G lba) =? 0xffff) = match gh_data G lba with Some _ => false | None => true end.
Proof.
  intros HF. destruct (gh_data G lba) as [b|] eqn:E; [|done]. apply Z.eqb_neq. cbn.
  apply (in_chip_no_ffff g geo). by eapply (mi_chip _ _ _ _ (ft_mt _ _ HF)).
Qed.

(** ** Reading *)
Lemma read_and_move_run s G b q buf move (Q : Z * list Z -> nftl W -> Prop) :
  ftl s G -> on_chip g b q -> writesize g <= arr_len buf ->
  (forall s' buf', ftl s' G -> only_read s s' -> arr_len buf' = arr_len buf ->
     take (Z.to_nat (writesize g)) buf' = fst (nd_page (world s) b q) -> Q (0, buf') s') ->
  wp (read_and_move g b q buf move) Q s.
Proof.
  intros HF Hc Hb HQ. pose proof (ng_ws_range g geo). unfold read_and_move. apply wp_bind.
  eapply mtd_read_inv; [done|apply (ft_mt _ _ HF)|done|done|].
  intros r f HI Hs Hr Hbuf Hcor. apply wp_bind, wp_gets. cbn [n_flash with_flash].
  destruct (fl_corrected f >? ECC_ERR_LIMIT) eqn:E; zbool; [lia|]. apply wp_ret. rewrite Hr.
  destruct (nd_page_len g s b q (fi_inv _ _ _ _ _ (mi_inv _ _ _ _ (ft_mt _ _ HF))) Hc) as [L _].
  apply HQ; [by apply ftl_flash|by apply only_read_flash| |].
  - rewrite Hbuf. unfold blit. rewrite arr_len_app, L. unfold arr_len in *. rewrite length_drop. lia.
  - by rewrite Hbuf, take_blit.
Qed.

(** The contents a read hands back. *)
Definition page_read (o : option (list Z)) : list Z := default (replicate (Z.to_nat (writesize g)) 0xff) o.

Lemma nftl_read_logicpage_run s G lpa buf (Q : Z * list Z -> nftl W -> Prop) :
  ftl s G -> 0 <= lpa < n_maxlp s -> writesize g <= arr_len buf ->
  (forall s' buf', ftl s' G -> only_read s s' -> arr_len buf' = arr_len buf ->
     take (Z.to_nat (writesize g)) buf' = page_read (logical (world s) G lpa) -> Q (0, buf') s') ->
  wp (nftl_read_logicpage g lpa buf) Q s.
Proof.
  intros HF Hr Hb HQ. pose proof (ng_ws_range g geo). pose proof (ngp g geo).
  unfold nftl_read_logicpage. apply wp_bind. eapply stack16_run; [done|]. intros x s1 HF1 HO1.
  assert (Hsame : n_maxlp s1 = n_maxlp s /\ n_dl s1 = n_dl s /\ n_mt s1 = n_mt s /\ nd_page (world s1) = nd_page (world s)).
  { destruct HO1 as (c & f & -> & Hs). split_and!; try done. exact (sp_page _ _ _ Hs). }
  destruct Hsame as (E1 & E2 & E3 & E4).
  apply wp_bind, wp_gets. rewrite E1. destruct (lpa >=? n_maxlp s) eqn:E; zbool; [lia|].
  destruct (ft_range _ _ HF lpa Hr) as (Hl & Hu & _).
  apply wp_bind. unfold onD at 1. apply wp_zoom. unfold wp at 1.
  rewrite (nftl_find_lpa_in_dl_run g _ _ lpa (ft_dl _ _ HF1) Hu).
  replace (with_dl (n_dl s1) s1) with s1 by by destruct s1.
  pose proof (place_user s1 G lpa) as Hpl. unfold logical, place in *.
  destruct (dl_lookup g (gh_dl G) lpa) as [[b q]|].
  - eapply read_and_move_run; [done|by eapply Hpl|done|]. intros s' buf' HF' HO' L' T'.
    apply HQ; [done|by eapply only_read_trans|done|]. rewrite T'. cbn. by rewrite E4.
  - rewrite u16_id by done. apply wp_bind. eapply lba_lookup_run; [done|by rewrite E3|]. intros s2 HF2 HO2.
    assert (Hsame2 : nd_page (world s2) = nd_page (world s)).
    { destruct HO2 as (c & f & -> & Hs). rewrite <- E4. exact (sp_page _ _ _ Hs). }
    pose proof (only_read_trans _ _ _ HO1 HO2) as HO12.
    cbn [snd]. rewrite (default_ffff G _ s) by done.
    destruct (gh_data G (lpa / nr_pgsinblk g)) as [b|]; cbn [negb default from_option id].
    + rewrite u8_id by (unfold in_u8; pose proof (Z.mod_pos_bound lpa (nr_pgsinblk g)); lia).
      eapply read_and_move_run; [done|by eapply Hpl|done|]. intros s' buf' HF' HO' L' T'.
      apply HQ; [done|by eapply only_read_trans|done|]. rewrite T'. cbn. by rewrite Hsame2.
    + apply wp_bind, wp_assert_some. unfold memset. destruct (arr_len buf <? writesize g) eqn:Eb; zbool; [lia|].
      eexists. split; [done|]. apply wp_ret. apply HQ; [done|done| |].
      * rewrite arr_len_app. unfold arr_len in *. rewrite length_replicate, length_drop. lia.
      * cbn. rewrite take_app_le, take_ge by (rewrite length_replicate; lia). done.
Qed.
End Data.
