(* ===== verification/NftlDataMerge.v ===== *)
(** * NFTL: merging a DataLog block, specified

    [nftl_merge_dlblk] gathers the pages of a logical block, from its log
    block and its data block, into a new data block: no page that was written
    changes, and the log block leaves the table. *)

From Stdlib Require Import ZArith Lia.
From stdpp Require Import base numbers list sets.
From S2P Require Import Prelude CMonad NftlTypes NftlAlloc NftlLog NftlDl NftlMtl MtdDev NftlState.
From S2P Require Import NandLaws NftlFlash NftlFlashSpec NftlGarbage NftlTold NftlInv NftlGarbageSpec.
From S2P Require Import NftlMap NftlMapSpec NftlMapUpdate NftlData NftlDataSpec.

(** Entries with distinct pages: the last match is the only one. *)
Lemma ent_last es x acc :
  NoDup (map dlt_lpa es) -> Forall (fun e => in_u8 (dlt_ppa e)) es ->
  foldl (fun f e => if x =? dlt_lpa e then u8 (dlt_ppa e) else f) acc es = default acc (ent_lookup es x).
Proof.
  revert acc. induction es as [|e es IH]; intros acc Hnd Hp; cbn [foldl ent_lookup]; [done|].
  cbn [map] in Hnd. apply NoDup_cons in Hnd as [Hni Hnd]. inversion Hp as [|? ? He Hes]; subst.
  rewrite IH by done. rewrite (Z.eqb_sym x). destruct (dlt_lpa e =? x) eqn:E; [|done]. zbool. subst.
  rewrite u8_id by done. by rewrite (proj2 (ent_lookup_None es (dlt_lpa e)) Hni).
Qed.


(** ** The entries behind the table stay unused *)
Lemma dl_tail_delete g d d' index lpa pba e :
  nftl_update_dl_ram g DEL_OPERATION index lpa pba d = Done e d' -> 0 <= index < dl_blkcnt d ->
  dl_blkcnt d < DL_MAX_BLOCKS -> arr_len (dl_blocktab d) = DL_MAX_BLOCKS -> dl_tail d -> dl_tail d'.
Proof.
  intros H Hi Hc Hl Ht. cbn in H. 
  unfold dl_delete, dl_block, bind, gets, modify, ret, crash, id, assert_some in H.
  repeat (run_case H). injection H as <- <-.
  destruct (arr_move_up_spec (dl_blocktab d) index (dl_blkcnt d) 1) as (bt & Hm & _ & Hj); [lia|lia|lia|].
  unfold DL_MAX_BLOCKS in *.
  intros i h Hi' Hg. cbn in Hi', Hg. rewrite (u16_id (dl_blkcnt d - 1)) in Hi' by (unfold in_u16; lia).
  match goal with E : arr_move_up (dl_blocktab d) _ _ _ = Some ?l |- _ => 
    assert (l = bt) as -> by congruence end.
  rewrite Hj in Hg.
  destruct (index <=? i) eqn:F1, (i <? dl_blkcnt d) eqn:F2; cbn in Hg; zbool; eapply Ht; try exact Hg; lia.
Qed.
Lemma dl_tail_insert g d d' index lpa pba e :
  nftl_update_dl_ram g INSERT_OPERATION index lpa pba d = Done e d' -> 0 <= index < dl_blkcnt d ->
  dl_tail d -> dl_tail d'.
Proof.
  intros H Hi Ht. cbn in H. 
  unfold dl_insert, dl_block, dl_trans, dl_set_trans, dl_set_block, bind, gets, modify, ret, crash, id, assert_some in H.
  repeat (run_case H); injection H as <- <-; intros i h Hi' Hg; cbn in Hi', Hg.
  all: match goal with Es : arr_set (dl_blocktab _) _ _ = Some _ |- _ => rewrite (arr_get_set _ _ _ _ _ Es) in Hg end.
  all: destruct (i =? index) eqn:E'; zbool; [lia|by eapply Ht].
Qed.
Lemma dl_tail_append g d d' index lpa pba e :
  nftl_update_dl_ram g APPEND_OPERATION index lpa pba d = Done e d' -> 0 <= dl_blkcnt d < DL_MAX_BLOCKS ->
  dl_tail d -> dl_tail d'.
Proof.
  intros H Hi Ht. cbn in H. 
  unfold dl_append, dl_block, dl_trans, dl_set_trans, dl_set_block, bind, gets, modify, ret, crash, id, assert_some in H.
  repeat (run_case H); injection H as <- <-; intros i h Hi' Hg; cbn in Hi', Hg.
  unfold DL_MAX_BLOCKS in *. rewrite (u16_id (dl_blkcnt d + 1)) in Hi' by (unfold in_u16; lia).
  match goal with Es : arr_set (dl_blocktab _) _ _ = Some _ |- _ => rewrite (arr_get_set _ _ _ _ _ Es) in Hg end.
  destruct (i =? dl_blkcnt d) eqn:E'; zbool; [lia|eapply Ht; [|exact Hg]; lia].
Qed.
Lemma dl_tail_set_pba i h d d' v e : dl_set_block i (dlb_set_pba v h) d = Done e d' -> 
  arr_get (dl_blocktab d) i = Some h -> dl_tail d -> dl_tail d'.
Proof.
  unfold dl_set_block, bind, gets, modify, ret, crash, id, assert_some. intros H Hg Ht.
  repeat (run_case H); injection H as _ <-; intros j h' Hj Hg'; cbn in Hj, Hg'.
  match goal with Es : arr_set (dl_blocktab _) _ _ = Some _ |- _ => rewrite (arr_get_set _ _ _ _ _ Es) in Hg' end.
  destruct (j =? i) eqn:E'; zbool; [|by eapply Ht]. subst. injection Hg' as <-. cbn. by apply (Ht i).
Qed.

Section Merge.
Context {W : Type} {WW : World W} (g : mtd_info) {N : NandLaws W g}.
Hypothesis geo : nand_geo g.
Implicit Types (s : nftl W) (w : W) (G : ghost) (b p q : Z).

Lemma onD_run {A} (m : M dl_ram A) s a : m (n_dl s) = Done a (n_dl s) -> onD m s = Done a s.
Proof. intros H. unfold onD, zoom. rewrite H. by destruct s. Qed.

(** ** Accesses that only read, at the level of the layer *)
Lemma ftl_stack_run s G n (Q : list Z -> nftl W -> Prop) :
  ftl g s G -> 0 <= n -> (forall l s', ftl g s' G -> only_read g s s' -> arr_len l = n -> Q l s') ->
  wp (onF (stack n)) Q s.
Proof.
  intros HF Hn HQ. eapply (stack_inv g geo); [exact (mi_inv _ _ _ _ (ft_mt _ _ _ HF))|done|].
  intros l f _ S1 C1 L1. apply HQ; [|by apply only_read_flash|done].
  apply (ftl_flash g geo); [done|done|]. rewrite C1. exact (mi_quiet _ _ _ _ (ft_mt _ _ _ HF)).
Qed.
Lemma ftl_kmalloc_run s G n (Q : option (list Z) -> nftl W -> Prop) :
  ftl g s G -> 0 <= n -> (forall l s', ftl g s' G -> only_read g s s' -> arr_len l = n -> Q (Some l) s') ->
  wp (onF (kmalloc n)) Q s.
Proof.
  intros HF Hn HQ. eapply (kmalloc_inv g geo); [exact (mi_inv _ _ _ _ (ft_mt _ _ _ HF))|done|].
  intros l f _ S1 C1 L1. apply HQ; [|by apply only_read_flash|done].
  apply (ftl_flash g geo); [done|done|]. rewrite C1. exact (mi_quiet _ _ _ _ (ft_mt _ _ _ HF)).
Qed.
Lemma only_read_same s s' : only_read g s s' ->
  n_dl s' = n_dl s /\ n_mt s' = n_mt s /\ n_alloc s' = n_alloc s /\ n_maxlp s' = n_maxlp s /\
  nd_page (world s') = nd_page (world s) /\ nd_erased (world s') = nd_erased (world s).
Proof. intros (c & f & -> & Hs). split_and!; try done; apply Hs. Qed.
Lemma only_read_bad s s' : only_read g s s' -> nd_bad (world s') = nd_bad (world s).
Proof. intros (c & f & -> & Hs). apply (sp_bad _ _ _ Hs). Qed.

(** ** Which page of the log block is the last one written *)
Lemma dl_offset_run s gs1 gs2 : dl_ok g (n_dl s) (gs1 ++ gs2) ->
  dl_offset (arr_len gs1) s = Done (arr_len (ents gs1)) s.
Proof.
  intros Hok. unfold dl_offset, bind, gets.
  rewrite (log_rep_offset _ _ _ _ _ _ _ u16 (2 ^ 16) (dk_rep _ _ _ Hok)); [done|apply u16_id|].
  pose proof (dl_ok_pgcnt _ _ _ Hok). unfold DL_MAX_PAGES in *. lia.
Qed.

Lemma dl_fact_run s gs1 h es gs2 start i :
  dl_ok g (n_dl s) (gs1 ++ (h, es) :: gs2) -> in_u32 (start + i) ->
  dl_fact start (arr_len (ents gs1)) (dlb_valid h) i s = Done (default 0xff (ent_lookup es (start + i))) s.
Proof.
  intros Hok Hi. pose proof (dl_ok_group _ _ _ _ _ _ Hok) as Hge.
  pose proof (go_valid _ _ Hge) as Hv. cbn in Hv.
  unfold dl_fact, for_local, bind at 1. rewrite Z.sub_0_r, Hv. unfold arr_len at 1. rewrite Nat2Z.id.
  rewrite (forL_fold _ (fun f e => if start + i =? dlt_lpa e then u8 (dlt_ppa e) else f)).
  - unfold ret. rewrite ent_last; [done|apply Hge|].
    apply (group_ok_ppa g (h, es)); [done|apply (dk_geo _ _ _ Hok)].
  - intros j e l Hj. rewrite Z.add_0_l. unfold bind at 1.
    pose proof (arr_get_Some _ _ _ Hj) as Hr.
    rewrite (onD_run _ s e); [by rewrite u32_id|]. apply dl_trans_run.
    by rewrite (log_rep_ent _ _ _ _ _ _ _ _ _ _ (dk_rep _ _ _ Hok)).
Qed.

Lemma ent_lookup_range h es x q : group_ok g (h, es) -> ent_lookup es x = Some q -> 0 <= q < dlb_used h.
Proof.
  intros Hge. pose proof (go_lpas _ _ Hge) as Hf. cbn in Hf. clear Hge.
  induction Hf as [|e es (_ & _ & He) _ IH]; cbn [ent_lookup]; [done|].
  destruct (dlt_lpa e =? x); [by intros [= <-]|done].
Qed.

(** Groups other than one of a table belong to other logical blocks. *)
Lemma groups_other gs gs1 h es gs2 :
  NoDup (map (fun ge : dl_group => dlb_lba ge.1) gs) -> gs = gs1 ++ (h, es) :: gs2 ->
  forall h' es', (h', es') ∈ gs1 ++ gs2 -> (h', es') ∈ gs /\ dlb_lba h' <> dlb_lba h.
Proof.
  intros Hnd -> h' es' Hin. split; [set_solver|]. intros E. rewrite map_app in Hnd. cbn [map] in Hnd.
  apply NoDup_app in Hnd as (_ & Hx & [Hy _]%NoDup_cons).
  assert (Hm : forall l, (h', es') ∈ l -> dlb_lba h' ∈ map (fun ge : dl_group => dlb_lba ge.1) l).
  { intros l H. apply list_elem_of_In, in_map_iff. exists (h', es'). split; [done|]. by apply list_elem_of_In. }
  apply elem_of_app in Hin as [Hin|Hin]; apply Hm in Hin; rewrite E in Hin.
  - apply (Hx _ Hin). by left.
  - done.
Qed.

(** ** A block becomes the data block *)

(** Block [new] is the data block of [lba], the blocks [bs] are given up and
    [gs] are the log blocks that are left. *)
Definition moved lba (new : Z) (bs : list Z) (gs : list dl_group) G : ghost :=
  MkGhost (fun c => if decide (c = new) then RData lba else if decide (c ∈ bs) then RBusy else gh_own G c)
    gs (gh_mt G) (gh_mtl G) (upd (gh_data G) lba (Some new)) (gh_gar G) (gh_gt G) (gh_gtl G).

(** Blocks of one logical block. *)
Definition of_lba G lba b : Prop := gh_own G b = RDl lba \/ gh_own G b = RData lba.

Lemma moved_other G lba new bs gs c :
  gh_own G new = RBusy \/ of_lba G lba new -> (forall b, b ∈ bs -> of_lba G lba b) ->
  gh_own G c <> RBusy -> ~ of_lba G lba c -> gh_own (moved lba new bs gs G) c = gh_own G c.
Proof.
  intros Hn Hb H1 H2. cbn. rewrite !decide_False; [done| |].
  - intros Hin. by apply H2, Hb.
  - intros ->. tauto.
Qed.

(** The blocks [bs] and [new] are all there is of [lba], and [gs] the log
    blocks of the others. *)
Record moving G lba new (bs : list Z) (gs : list dl_group) : Prop := {
  mv_new : gh_own G new = RBusy \/ of_lba G lba new;
  mv_bs : forall b, b ∈ bs -> of_lba G lba b;
  mv_gs : forall h es, (h, es) ∈ gs -> (h, es) ∈ gh_dl G /\ dlb_lba h <> lba;
  mv_all : forall b, of_lba G lba b -> b = new \/ b ∈ bs;
  mv_dl : forall h es, (h, es) ∈ gh_dl G -> dlb_lba h <> lba -> (h, es) ∈ gs
}.

Lemma moved_inv w w' a pg G lba new bs gs :
  ftl_inv g w a pg G -> moving G lba new bs gs -> in_chip g new ->
  only_block g w w' new -> data_stored g w' new ->
  ftl_inv g w' a pg (moved lba new bs gs G).
Proof.
  intros [H1 H2 H3 H4 HO [E1 E2 E3 E4] [HT HN HB]] [Hn Hb Hgs Hall Hdl] Hc Hob Hst.
  pose proof HO as [O1 O2 O3 O4 O5 O6 O7 O8].
  assert (Hother : forall c r, gh_own G c = r -> r <> RBusy -> r <> RDl lba -> r <> RData lba ->
    gh_own (moved lba new bs gs G) c = r).
  { intros c r <- N1 N2 N3. apply moved_other; [done|done|done|]. by intros []. }
  assert (Hfree : forall c, gh_own (moved lba new bs gs G) c = RFree <-> gh_own G c = RFree).
  { intros c. split; [|intros E; by apply Hother]. cbn. by repeat case_decide. }
  assert (Hne : forall c r, gh_own G c = r -> r <> RBusy -> r <> RDl lba -> r <> RData lba -> c <> new).
  { intros c r <- N1 N2 N3 ->. destruct Hn as [?|[?|?]]; congruence. }
  split; [apply Hob|by apply (ob_good _ _ _ _ Hob)|by apply (ob_wgood _ _ _ _ Hob)|done| | |].
  - split; auto.
    + intros c. by rewrite O1, Hfree.
    + intros i c Hi. destruct (O2 i c Hi). split; [done|]. by apply Hother.
    + intros h es Hin. destruct (O3 h es Hin). split; [done|]. by apply Hother.
    + intros h es Hin. destruct (Hgs h es Hin) as [Hin' Hl]. destruct (O4 h es Hin'). split; [done|].
      apply Hother; congruence.
    + intros l c Hl. change (gh_data (moved lba new bs gs G) l) with (upd (gh_data G) lba (Some new) l) in Hl.
      unfold upd in Hl. case_decide.
      * injection Hl as <-. subst l. split; [done|]. cbn. by rewrite decide_True.
      * destruct (O5 l c Hl). split; [done|]. apply Hother; congruence.
    + intros c Hin. destruct (O6 c Hin). split; [done|]. by apply Hother.
    + intros c Hin. destruct (O8 c Hin). split; [done|]. by apply Hother.
  - split.
    + intros c p Hcp. rewrite Hfree. intros Ho. apply (ob_erased _ _ _ _ Hob); [done|by eapply Hne|by apply E1].
    + intros h es p Hin Hcp Hu. destruct (O3 h es Hin). apply (ob_erased _ _ _ _ Hob); [done|by eapply Hne|by eapply E2].
    + intros h es p Hin Hcp Hu. destruct (Hgs h es Hin) as [Hin' Hl]. destruct (O4 h es Hin').
      apply (ob_erased _ _ _ _ Hob); [done|eapply Hne; [done|congruence..]|by eapply E3].
    + intros c p Hg Hcp Hu. destruct (O8 c Hg). apply (ob_erased _ _ _ _ Hob); [done|by eapply Hne|by apply E4].
  - assert (Hs : forall c r, gh_own G c = r -> r <> RBusy -> r <> RDl lba -> r <> RData lba -> same_data g w w' c).
    { intros c r Hr N1 N2 N3. eapply same_data_block; [done|by eapply Hne]. }
    split; [eapply (told_step g geo w w'); [exact HO|exact HT|..]; cbn| |].
    + intros i c Hi. left. split; [done|]. destruct (O2 i c Hi). by eapply Hs.
    + intros h es Hin. left. split; [done|]. destruct (O3 h es Hin). by eapply Hs.
    + intros h es Hin. left. destruct (Hgs h es Hin) as [Hin' Hl]. split; [done|]. destruct (O4 h es Hin').
      eapply Hs; [done|congruence..].
    + intros l c. unfold upd. case_decide; [intros [= <-]; by right|]. intros Hl. left. split; [done|].
      destruct (O5 l c Hl). eapply Hs; [done|congruence..].
    + intros c Hin. left. split; [done|]. destruct (O6 c Hin). by eapply Hs.
    + intros c Hin. left. destruct (O8 c Hin). split; [done|]. split; [by eapply Hs|done].
    + intros c. cbn. case_decide as D1; [subst; cbn; by rewrite upd_eq|]. case_decide as D2; [done|].
      assert (Hl : ~ of_lba G lba c) by (intros Ho; by destruct (Hall c Ho)).
      eapply (names_keep G); [..|apply HN]; cbn; try done; [eauto| |].
      * intros h es Hin Hp. exists h, es. split; [|done]. apply Hdl; [done|]. intros El.
        apply Hl. left. rewrite <- Hp. destruct (O4 h es Hin). congruence.
      * intros l Hd. rewrite upd_ne; [done|]. intros ->. apply Hl. right. by apply (O5 lba).
    + intros c Hcc. rewrite (ob_bad _ _ _ _ Hob), HB by done. cbn. case_decide as D1.
      { subst. split; [|done]. destruct Hn as [->|[-> | ->]]; done. }
      case_decide as D2; [|done]. split; [|done]. destruct (Hb c D2) as [-> | ->]; done.
Qed.

(** Nothing else belongs to the logical block of a log block. *)
Lemma moving_group a w pg G gs1 h es gs2 new bs :
  ftl_inv g w a pg G -> gh_dl G = gs1 ++ (h, es) :: gs2 ->
  NoDup (map (fun ge : dl_group => dlb_lba ge.1) (gh_dl G)) ->
  gh_own G new = RBusy \/ new = dlb_pba h ->
  (forall b, b ∈ bs <-> (b = dlb_pba h \/ gh_data G (dlb_lba h) = Some b) /\ b <> new) ->
  moving G (dlb_lba h) new bs (gs1 ++ gs2).
Proof.
  intros HI Hdl Hnd Hn Hbs. pose proof (fi_own _ _ _ _ _ HI) as HO. pose proof (tl_named _ _ _ _ (fi_tells _ _ _ _ _ HI)) as HN.
  assert (Hin : (h, es) ∈ gh_dl G) by (rewrite Hdl; set_solver). destruct (ow_dl _ _ _ HO _ _ Hin) as [Hc Ho].
  assert (Hof : forall b, of_lba G (dlb_lba h) b <-> b = dlb_pba h \/ gh_data G (dlb_lba h) = Some b).
  { intros b. unfold of_lba. split.
    - intros [E|E]; specialize (HN b); rewrite E in HN; [left|by right].
      destruct HN as (h' & es' & Hin' & <-). destruct (ow_dl _ _ _ HO _ _ Hin') as [_ Ho'].
      assert ((h', es') = (h, es) \/ (h', es') ∈ gs1 ++ gs2) as [[= -> _]|Hin2] by (rewrite Hdl in Hin'; set_solver); [done|].
      exfalso. apply (groups_other _ _ _ _ _ Hnd Hdl) in Hin2 as [_ Hne]. congruence.
    - intros [->|E]; [by left|right]. by apply (ow_data _ _ _ HO). }
  split.
  - destruct Hn as [?| ->]; [by left|right; by left].
  - intros b Hb. apply Hof. by apply Hbs.
  - by eapply groups_other.
  - intros b Hb%Hof. destruct (decide (b = new)); [by left|right]. by apply Hbs.
  - intros h' es' Hin' Hne. rewrite Hdl in Hin'. assert ((h', es') <> (h, es)) by (intros [= -> ->]; done). set_solver.
Qed.

Lemma mt_inv_moved s G dm lba new bs gs :
  mt_inv g s G dm -> moving G lba new bs gs -> in_chip g new -> data_stored g (world s) new ->
  mt_inv g s (moved lba new bs gs G) dm.
Proof.
  intros [I1 I2 I3 I4 I5 I6 I7] Hm Hc Hst. split; try done.
  - eapply moved_inv; [exact I1|done|done|apply same_only_block, same_pages_refl, I1|done].
  - destruct I2 as [[] ? ? ? ?]. by split.
  - by destruct I3; split.
  - by destruct I4; split.
Qed.

(** ** Giving up the old blocks *)
Lemma mt_inv_retired s G dm bs s' G' :
  mt_inv g s G dm -> retired g bs s G s' G' -> (forall b, b ∈ bs -> gh_own G b = RBusy) ->
  mt_inv g s' G' dm /\ gh_mtl G' = gh_mtl G /\ mt_frame g bs s G s' G'.
Proof.
  intros [I1 I2 I3 I4 I5 I6 I7] Hret Hb. pose proof Hret as [R1 R2 Hk R4].
  pose proof (kp_state _ _ _ _ _ _ Hk) as Hst. destruct (kp_tables _ _ _ _ _ _ Hk) as (T1 & T2 & T3 & T4).
  assert (Hw : forall p, g_where g G' p = g_where g G p) by (intros p; unfold g_where; by rewrite T2, T3).
  assert (Hd : forall p, mt_data g (world s') G' p = mt_data g (world s) G p).
  { intros p. unfold mt_data. rewrite Hw. destruct (g_where g G p) as [[b q]|] eqn:E; [|done].
    destruct (where_live g geo _ _ _ _ _ _ (fi_own _ _ _ _ _ I1) I3 E) as [Hc Hr].
    rewrite (kp_page _ _ _ _ _ _ Hk); [done|done|by eapply live_mt|].
    intros Hin. specialize (Hb _ Hin). destruct Hr; congruence. }
  split; [|split; [done|]].
  - split; [exact R1|exact R2| | |by apply (kp_quiet _ _ _ _ _ _ Hk)| |done].
    + rewrite Hst. destruct I3 as [M1 M2 M3 M4 M5]. split; cbn [n_mt with_gar with_alloc with_flash]; try done.
      * by rewrite T3.
      * intros i Hi. rewrite T2. by apply M3.
      * intros i. rewrite T2. apply M4.
      * intros h es. rewrite T3. apply M5.
    + destruct I4 as [I4 I4']. assert (Hc : n_cache s' = n_cache s) by by rewrite Hst. rewrite Hc.
      split; [done|]. intros p. rewrite Hw, Hd. apply I4'.
    + intros lba Hl. assert (Hn : n_mt s' = n_mt s) by by rewrite Hst. rewrite Hn in Hl.
      rewrite <- (I6 lba Hl). unfold mt_entry. by rewrite Hd.
  - split; try (rewrite Hst; done); try done.
    + intros c Hu Hc. apply (kp_own _ _ _ _ _ _ Hk); [by apply user_live|done].
    + intros c p Hp Hu Hc. apply (kp_page _ _ _ _ _ _ Hk); [done|by apply user_live|done].
    + intros c Hc _. by apply (retired_busy g _ _ _ _ _ _ Hret) in Hc as [? _].
    + exact (kp_bad _ _ _ _ _ _ Hk).
Qed.

(** The blocks that can be had once the table is merged. *)
Definition stock s G : Z := spare_blocks s G + arr_len (gh_mtl G).
Lemma stock_spare s G dm : mt_inv g s G dm -> stock s G - 5 <= spare_blocks s G <= stock s G.
Proof.
  intros HI. pose proof (mtl_count g _ _ (mi_rep _ _ _ _ HI)). pose proof (mr_cnt _ _ _ (mi_rep _ _ _ _ HI)).
  pose proof (arr_len_nonneg (gh_mtl G)). unfold stock, MT_MAX_BLOCKS in *. lia.
Qed.
Lemma room_mono k m s G : room k s G -> m <= k -> room m s G.
Proof. intros [H|H] Hk; [by left|right; lia]. Qed.

(** Retiring the blocks and entering the new one in the mapping table. *)
Lemma commit_run s G dm lba new bs (k : Z -> M (nftl W) Z) (Q : Z -> nftl W -> Prop) :
  mt_inv g s G dm -> mtl_open g G -> lba_in g (mt_blkcnt (n_mt s)) lba -> in_chip g new ->
  bs <> [] -> arr_len bs <= 2 -> NoDup bs -> (forall b, b ∈ bs -> given_up g (world s) G b) ->
  room 1 s G -> 8 <= stock s G ->
  (forall s' G', mt_inv g s' G' (upd dm lba (Some new)) -> mtl_open g G' -> mt_frame g bs s G s' G' ->
     (forall b, gh_own G' b = RBusy -> gh_own G b = RBusy /\ b ∉ bs) ->
     stock s' G' = stock s G + arr_len bs -> room MINI_FREE_BLOCK s' G' -> wp (k 0) Q s') ->
  wp (nftl_addto_gt g bs ;; let! e := nftl_update_mt g lba new in k e) Q s.
Proof.
  intros HI Hopen Hl Hn H0 H1 H2 Hb Hr Hs HQ. pose proof (stock_spare _ _ _ HI) as Hst.
  assert (Hlen : 1 <= arr_len bs) by (destruct bs; [done|rewrite arr_len_cons; pose proof (arr_len_nonneg bs); lia]).
  apply wp_bind. eapply wp_mono; [apply (nftl_addto_gt_run g geo s G bs (mi_inv _ _ _ _ HI) (mi_gar _ _ _ _ HI));
    [done|done|done|done|]|].
  { intros Hg. assert (1 <= nfree s) by (apply (room_gt 1 1 s G Hr); [done|lia|done]). lia. }
  intros r s1 (G1 & _ & Hret & Hroom). destruct (mt_inv_retired s G dm bs s1 G1 HI Hret) as (HI1 & Hm1 & F1);
    [intros b Hin; by apply Hb|].
  pose proof (kp_spare _ _ _ _ _ _ (rt_kept _ _ _ _ _ _ Hret)) as Hsp.
  assert (Hr1 : room (MINI_FREE_BLOCK + 1) s1 G1) by (destruct Hroom as [?|?]; [by left|right; lia]).
  apply wp_bind. eapply wp_mono; [apply (nftl_update_mt_run g geo s1 G1 dm lba new HI1)|].
  - intros h es. rewrite Hm1. apply Hopen.
  - by rewrite (mf_cnt _ _ _ _ _ _ F1).
  - done.
  - apply (room_free _ _ _ _ Hr1); [done|lia].
  - intros r2 s2 (-> & G2 & U1 & U2 & U3 & U4 & U5). apply (HQ s2 G2); [done|done| | | |].
    + rewrite <- (app_nil_r bs). by eapply mt_frame_trans.
    + intros b Hbusy. apply (mf_busy _ _ _ _ _ _ U3) in Hbusy; [|set_solver].
      by apply (retired_busy g _ _ _ _ _ _ Hret).
    + unfold stock in *. rewrite U4, Hm1. lia.
    + specialize (U5 (MINI_FREE_BLOCK + 1)). apply U5; [done|done].
Qed.

(** ** The new data block *)

(** What page [i] of it holds; [junk] is what the first page holds when there
    is nothing to copy. *)
Definition dl_content w (h : dl_blockinfo) es (old : option Z) (junk : list Z * list Z) i
    : option (list Z * list Z) :=
  match ent_lookup es (dlb_lba h * nr_pgsinblk g + i) with
  | Some q => Some (retag DATA_BLOCK (nd_page w (dlb_pba h) q))
  | None => match old with
            | Some o => Some (retag DATA_BLOCK (nd_page w o i))
            | None => if i =? 0 then Some junk else None
            end
  end.

Lemma dl_content_same w w' temp h es old junk i :
  only_block g w w' temp -> in_chip g (dlb_pba h) -> dlb_pba h <> temp ->
  (forall o, old = Some o -> in_chip g o /\ o <> temp) -> 0 <= i < nr_pgsinblk g ->
  (forall x q, ent_lookup es x = Some q -> 0 <= q < nr_pgsinblk g) ->
  dl_content w' h es old junk i = dl_content w h es old junk i.
Proof.
  intros Ho Hc Hne Hold Hi Hes. unfold dl_content. destruct (ent_lookup es _) as [q|] eqn:E.
  - rewrite (ob_page _ _ _ _ Ho); [done|split; [done|by eapply Hes]|done].
  - destruct old as [o|]; [|done]. destruct (Hold o eq_refl).
    by rewrite (ob_page _ _ _ _ Ho) by (done || by split).
Qed.

(** Page 0 of it says that it is a data block. *)
Lemma dl_content_stored w temp h es old junk :
  nd_inv w -> in_chip g (dlb_pba h) -> (forall o, old = Some o -> in_chip g o) ->
  (forall x q, ent_lookup es x = Some q -> 0 <= q < nr_pgsinblk g) ->
  si_blocktype (snd junk) = block_state_code DATA_BLOCK ->
  filled g w temp (dl_content w h es old junk 0) 0 -> data_stored g w temp.
Proof.
  intros Hi Hc Ho Hes Hj Hf. pose proof (ngp g geo). left. unfold page_type, spare_at.
  unfold filled, dl_content in Hf. destruct (ent_lookup es _) as [q|] eqn:E.
  - rewrite Hf. apply (retag_type g geo); [done|split; [done|by eapply Hes]|done].
  - destruct old as [o|]; cbn in Hf; rewrite Hf; [|done]. apply (retag_type g geo); [done|split; [by apply Ho|lia]|done].
Qed.
Lemma data_block_spare sp : oobsize g <= arr_len sp ->
  si_blocktype (take (Z.to_nat (oobsize g)) (set_blocktype (block_state_code DATA_BLOCK) sp)) = block_state_code DATA_BLOCK.
Proof.
  intros Hl. pose proof (ng_oob g geo).
  destruct (si_take (Z.to_nat (oobsize g)) (set_blocktype (block_state_code DATA_BLOCK) sp)) as (-> & _); [lia|].
  rewrite si_blocktype_set; [done|unfold spare_ok, arr_len in *; lia].
Qed.

Lemma mark_data_block_run s G temp tb spare0 (Q : Z -> nftl W -> Prop) :
  inv g s G -> on_chip g temp 0 -> nd_erased (world s) temp 0 -> writesize g <= arr_len tb ->
  oobsize g <= arr_len spare0 -> quiet s ->
  (forall f, only_page g (world s) (fl_world f) temp 0 -> fl_corrected f <= ECC_ERR_LIMIT ->
     nd_page (fl_world f) temp 0 = (take (Z.to_nat (writesize g)) tb,
       take (Z.to_nat (oobsize g)) (set_blocktype (block_state_code DATA_BLOCK) spare0)) ->
     Q temp (with_flash f s)) ->
  wp (mark_data_block g (Some tb) spare0 temp) Q s.
Proof.
  intros HI Hc He Ht Ho Hq HQ. unfold mark_data_block. apply wp_bind, wp_assert_some.
  eexists. split; [reflexivity|]. apply wp_bind. eapply mtd_write_inv; [done|exact HI|done|done|done| |].
  { unfold set_blocktype, arr_len in *. by rewrite length_insert. }
  intros f Hop Hpg Hcor. cbn [fst truth Z.eqb negb]. apply wp_ret, HQ; [done| |done].
  rewrite Hcor. exact Hq.
Qed.

Lemma merge_dl_pages_run s G temp h es old factppa tb spare0 :
  inv g s G -> in_chip g temp -> gh_own G temp = RBusy -> quiet s ->
  (forall p, on_chip g temp p -> nd_erased (world s) temp p) ->
  in_chip g (dlb_pba h) -> dlb_pba h <> temp ->
  (forall o, old = Some o -> in_chip g o /\ o <> temp) ->
  (forall x q, ent_lookup es x = Some q -> 0 <= q < nr_pgsinblk g) ->
  (forall i, 0 <= i < nr_pgsinblk g ->
     arr_get factppa i = Some (default 0xff (ent_lookup es (dlb_lba h * nr_pgsinblk g + i)))) ->
  writesize g <= arr_len tb -> oobsize g <= arr_len spare0 ->
  let junk := (take (Z.to_nat (writesize g)) tb,
       take (Z.to_nat (oobsize g)) (set_blocktype (block_state_code DATA_BLOCK) spare0)) in
  wp (for_local 0 (nr_pgsinblk g) temp
        (merge_dl_page g (dlb_pba h) (default 0xffff old) factppa (Some tb) spare0))
  (fun r s2 => r = inl temp /\ exists f, s2 = with_flash f s /\ inv g s2 G /\
    filling g s s2 temp (dl_content (world s) h es old junk) (nr_pgsinblk g)) s.
Proof.
  intros HI Ht Ho Hq He Hch Hneh Hold Hes Hf Htb Hsp junk. pose proof (ngp g geo).
  pose proof (in_chip_no_ffff g geo temp Ht) as Htf. apply Z.eqb_neq in Htf.
  eapply fill_loop; [done|done|done|done|done|done|]. intros i f1 Hi HI1 HF.
  assert (Htd : on_chip g temp i) by by split.
  unfold merge_dl_page. apply wp_bind, wp_assert_some. rewrite Hf by done. eexists. split; [reflexivity|].
  assert (Her : nd_erased (world (with_flash f1 s)) temp i) by (apply (fg_rest _ _ _ _ _ _ HF); lia).
  set (post := fun (r : Z + Z) s2 => r = inl temp /\ exists f, s2 = with_flash f (with_flash f1 s) /\
    fl_corrected f <= ECC_ERR_LIMIT /\
    match dl_content (world s) h es old junk i with
    | Some pg => only_page g (fl_world f1) (fl_world f) temp i /\ nd_page (fl_world f) temp i = pg
    | None => same_pages g (fl_world f1) (fl_world f) end).
  apply wp_bind. eapply wp_mono with (P := post).
  2:{ intros r s2 [-> Hp]. cbn. rewrite Htf. apply wp_ret. split; [done|exact Hp]. }
  assert (Hsrc : forall b q, on_chip g b q -> b <> temp ->
    dl_content (world s) h es old junk i = Some (retag DATA_BLOCK (nd_page (world s) b q)) ->
    wp (merge_copy g b q i DATA_BLOCK temp) post (with_flash f1 s)).
  { intros b q Hc Hb Hs. eapply wp_mono; [by apply (merge_copy_run g geo _ G b q temp i DATA_BLOCK HI1 Hc Htd Ho)|].
    intros r s2 (-> & f & -> & Hop & Hpg & Hcor). split; [done|]. exists f. split_and!; [done|done|].
    rewrite Hs. split; [done|]. rewrite Hpg. f_equal. by apply (ob_page _ _ _ _ (fg_block _ _ _ _ _ _ HF)). }
  unfold dl_content in Hsrc. destruct (ent_lookup es _) as [q|] eqn:E; cbn [default from_option id].
  - pose proof (Hes _ _ E). destruct (q =? 255) eqn:Eq; zbool; [lia|]. cbn [negb].
    apply Hsrc; [by split|done|done].
  - change (255 =? 255) with true. cbn [negb]. destruct old as [o|]; cbn [default from_option id].
    + destruct (Hold o eq_refl) as [Hoc Hoo]. pose proof (in_chip_no_ffff g geo o Hoc) as Hof.
      apply Z.eqb_neq in Hof. rewrite Hof. cbn [negb]. apply Hsrc; [by split|done|done].
    + change (65535 =? 65535) with true. cbn [negb]. unfold post, dl_content. rewrite E.
      destruct (i =? 0) eqn:Ei; zbool; subst.
      * apply wp_bind. eapply (mark_data_block_run _ G); [exact HI1|done|done|done|done|apply HF|].
        intros f Hop Hcor Hpg. apply wp_ret. split; [done|]. by exists f.
      * apply wp_ret. split; [done|]. exists f1. split_and!; [done|apply HF|apply same_pages_refl, HI1].
Qed.

(** ** No page that was written changes *)

(** Contents survive; a page without contents stays without, or reads as one
    that was never written, or is the first page of its block. *)
Definition keeps_page w G w' G' lpa : Prop :=
  match logical g w G lpa with
  | Some d => logical g w' G' lpa = Some d
  | None => lpa mod nr_pgsinblk g = 0 \/ page_read g (logical g w' G' lpa) = page_read g None
  end.
Definition preserved w G w' G' : Prop := forall lpa, keeps_page w G w' G' lpa.
Lemma keeps_page_trans w1 G1 w2 G2 w3 G3 lpa :
  keeps_page w1 G1 w2 G2 lpa -> keeps_page w2 G2 w3 G3 lpa -> keeps_page w1 G1 w3 G3 lpa.
Proof.
  unfold keeps_page. intros H1 H2. destruct (logical g w1 G1 lpa) as [d|].
  - by rewrite H1 in H2.
  - destruct H1 as [H1|H1]; [by left|]. destruct (logical g w2 G2 lpa) as [d|]; [|exact H2].
    right. by rewrite H2.
Qed.
Lemma preserved_refl w G : preserved w G w G.
Proof. intros lpa. unfold keeps_page. destruct (logical g w G lpa); [done|by right]. Qed.
Lemma preserved_trans w1 G1 w2 G2 w3 G3 :
  preserved w1 G1 w2 G2 -> preserved w2 G2 w3 G3 -> preserved w1 G1 w3 G3.
Proof. intros H1 H2 lpa. by eapply keeps_page_trans. Qed.

Lemma merged_preserved w G w' G' gs1 h es gs2 temp junk :
  NoDup (map (fun ge : dl_group => dlb_lba ge.1) (gh_dl G)) -> gh_dl G = gs1 ++ (h, es) :: gs2 ->
  gh_dl G' = gs1 ++ gs2 -> gh_data G' = upd (gh_data G) (dlb_lba h) (Some temp) ->
  (forall lpa b q, place g G lpa = Some (b, q) -> lpa / nr_pgsinblk g <> dlb_lba h ->
     nd_page w' b q = nd_page w b q) ->
  (forall i, 0 <= i < nr_pgsinblk g -> fst (nd_page w' temp i) =
     match dl_content w h es (gh_data G (dlb_lba h)) junk i with
     | Some pg => fst pg | None => page_read g None end) ->
  preserved w G w' G'.
Proof.
  intros Hnd Hdl Hdl' Hdata Hpage Hcont lpa. pose proof (ngp g geo). unfold keeps_page, logical, place in *.
  rewrite Hdl', Hdata. destruct (decide (lpa / nr_pgsinblk g = dlb_lba h)) as [E|E].
  - pose proof (Z.mod_pos_bound lpa (nr_pgsinblk g) ltac:(lia)) as Hm.
    specialize (Hcont _ Hm). unfold dl_content in Hcont.
    assert (Hlpa : dlb_lba h * nr_pgsinblk g + lpa mod nr_pgsinblk g = lpa)
      by (rewrite <- E; pose proof (Z.div_mod lpa (nr_pgsinblk g)); lia).
    rewrite Hlpa in Hcont.
    rewrite Hdl in Hnd |- *. rewrite (dl_lookup_deleted g gs1 h es gs2) by done.
    rewrite E, upd_eq. cbn [page_at]. rewrite (dl_lookup_mid g gs1 h es gs2) by done.
    rewrite E, Z.eqb_refl. destruct (ent_lookup es lpa) as [q|].
    + cbn. rewrite Hcont. by destruct (nd_page w (dlb_pba h) q).
    + destruct (gh_data G (dlb_lba h)) as [o|].
      * cbn. rewrite Hcont. by destruct (nd_page w o _).
      * cbn. destruct (lpa mod nr_pgsinblk g =? 0) eqn:E0; zbool; [by left|right]. exact Hcont.
  - rewrite upd_ne by done. specialize (Hpage lpa).
    assert (El : dl_lookup g (gs1 ++ gs2) lpa = dl_lookup g (gh_dl G) lpa).
    { rewrite Hdl in Hnd |- *. rewrite (dl_lookup_mid g gs1 h es gs2) by done.
      destruct (dlb_lba h =? _) eqn:E'; zbool; [congruence|done]. }
    rewrite El. destruct (dl_lookup g (gh_dl G) lpa) as [[b q]|].
    + cbn. f_equal. f_equal. by apply Hpage.
    + destruct (gh_data G (lpa / nr_pgsinblk g)) as [b|]; [|by right]. cbn. f_equal. f_equal. by apply Hpage.
Qed.

(** ** Merging *)

(** The effect on the layer of removing the log block [h]. *)
Record merged s G (h : dl_blockinfo) (gs : list dl_group) s' G' : Prop := {
  mg_ftl : ftl g s' G';
  mg_dl : gh_dl G' = gs;
  mg_data : exists b, gh_data G' = upd (gh_data G) (dlb_lba h) (Some b);
  mg_maxlp : n_maxlp s' = n_maxlp s;
  mg_cnt : mt_blkcnt (n_mt s') = mt_blkcnt (n_mt s);
  mg_pages : preserved (world s) G (world s') G';
  mg_room : room MINI_FREE_BLOCK s' G';
  mg_busy : forall b, gh_own G' b = RBusy -> gh_own G b = RBusy;
  mg_bad : nd_bad (world s') = nd_bad (world s)
}.

Lemma mt_inv_dl s G dm d : mt_inv g s G dm -> mt_inv g (with_dl d s) G dm.
Proof. by intros [I1 I2 I3 I4 I5 I6 I7]. Qed.

Lemma ftl_take s s' G b :
  ftl g s G -> s' = with_alloc (n_alloc s') s -> inv g s' (set_own b RBusy G) -> ftl g s' (set_own b RBusy G).
Proof.
  intros [F1 F2 F3 F4 F5 F6 F7] Hs HI. pose proof (mt_inv_take g _ _ _ _ _ F1 Hs HI) as HM.
  rewrite Hs in HM |- *. by split.
Qed.
Lemma ftl_busy s G b f :
  ftl g s G -> only_block g (world s) (fl_world f) b -> gh_own G b = RBusy -> fl_corrected f <= ECC_ERR_LIMIT ->
  ftl g (with_flash f s) G.
Proof. intros [F1 F2 F3 F4 F5 F6 F7] Ho Hb Hf. split; try done. by eapply mt_inv_busy. Qed.

(** The table without the group, when flash and mapping table follow. *)
Lemma ftl_deleted s G gs1 h es gs2 temp s2 G2 lpa pba :
  ftl g s G -> gh_dl G = gs1 ++ (h, es) :: gs2 ->
  mt_inv g s2 G2 (upd (gh_data G) (dlb_lba h) (Some temp)) -> mtl_open g G2 -> n_dl s2 = n_dl s ->
  n_maxlp s2 = n_maxlp s -> mt_blkcnt (n_mt s2) = mt_blkcnt (n_mt s) ->
  gh_data G2 = upd (gh_data G) (dlb_lba h) (Some temp) -> gh_dl G2 = gs1 ++ gs2 ->
  exists d', nftl_update_dl_ram g DEL_OPERATION (arr_len gs1) lpa pba (n_dl s2) = Done 0 d' /\
    ftl g (with_dl d' s2) G2.
Proof.
  intros HF Hdl HI2 Hopen2 E1 E2 Hcnt Hdata Hgdl. pose proof (dk_nodup _ _ _ (ft_dl _ _ _ HF)) as Hnd.
  pose proof (ft_dl _ _ _ HF) as Hok. rewrite Hdl in Hok.
  destruct (nftl_update_dl_ram_delete g (n_dl s) gs1 h es gs2 lpa pba Hok (ft_cnt _ _ _ HF)) as (d' & Hd & Hok').
  exists d'. rewrite E1. split; [exact Hd|]. split.
  - rewrite Hdata. by apply mt_inv_dl.
  - done.
  - by rewrite Hgdl.
  - intros h' es'. rewrite Hgdl. intros Hin'. cbn [n_mt with_dl]. rewrite Hcnt. apply (ft_lba _ _ _ HF h' es').
    by apply (groups_other _ _ _ _ _ Hnd Hdl).
  - cbn. pose proof (lr_blkcnt _ _ _ _ _ _ (dk_rep _ _ _ Hok')) as L1.
    pose proof (lr_blkcnt _ _ _ _ _ _ (dk_rep _ _ _ Hok)) as L2. pose proof (ft_cnt _ _ _ HF).
    rewrite arr_len_app in L1, L2. rewrite arr_len_cons in L2. lia.
  - eapply dl_tail_delete; [exact Hd|by eapply dl_mid_range|apply (ft_cnt _ _ _ HF)|apply (dk_blen _ _ _ Hok)|
      apply (ft_tail _ _ _ HF)].
  - cbn [n_mt n_maxlp with_dl]. rewrite Hcnt, E2. apply (ft_range _ _ _ HF).
Qed.

Lemma elem_of_option_list {A} (m : option A) x : x ∈ option_list m <-> m = Some x.
Proof.
  destruct m; cbn; [rewrite list_elem_of_singleton; naive_solver|]. split; [by intros ?%not_elem_of_nil|done].
Qed.

(** The blocks that are given up. *)
Definition retirees (h : dl_blockinfo) (old : option Z) : list Z := dlb_pba h :: option_list old.

Lemma retirees_ok s G h es :
  ftl g s G -> (h, es) ∈ gh_dl G -> let bs := retirees h (gh_data G (dlb_lba h)) in
  bs <> [] /\ arr_len bs <= 2 /\ NoDup bs /\
  (forall b, b ∈ bs -> in_chip g b /\ of_lba G (dlb_lba h) b) /\
  arr_len bs = 1 + match gh_data G (dlb_lba h) with Some _ => 1 | None => 0 end.
Proof.
  intros HF Hin. pose proof (fi_own _ _ _ _ _ (mi_inv _ _ _ _ (ft_mt _ _ _ HF))) as Ho.
  destruct (ow_dl _ _ _ Ho _ _ Hin) as [Hc Hr]. unfold retirees.
  destruct (gh_data G (dlb_lba h)) as [o|] eqn:E; cbn [option_list].
  - destruct (ow_data _ _ _ Ho _ _ E) as [Hoc Hor]. split; [done|]. split; [done|]. split.
    + apply NoDup_cons. split; [|apply NoDup_singleton]. intros Ho'%list_elem_of_singleton. congruence.
    + split; [|done]. intros b [-> | ->%list_elem_of_singleton]%elem_of_cons; (split; [done|]); [by left|by right].
  - split; [done|]. split; [done|]. split; [apply NoDup_singleton|]. split; [|done].
    intros b ->%list_elem_of_singleton. split; [done|by left].
Qed.

Lemma merge_commit_run s G gs1 h es gs2 temp junk :
  ftl g s G -> gh_dl G = gs1 ++ (h, es) :: gs2 -> in_chip g temp -> gh_own G temp = RBusy ->
  (forall i, 0 <= i < nr_pgsinblk g ->
     filled g (world s) temp (dl_content (world s) h es (gh_data G (dlb_lba h)) junk i) i) ->
  si_blocktype (snd junk) = block_state_code DATA_BLOCK ->
  room 1 s G -> 8 <= stock s G ->
  wp (nftl_addto_gt g (retirees h (gh_data G (dlb_lba h))) ;; nftl_update_mt g (dlb_lba h) temp ;;
      onD (nftl_update_dl_ram g DEL_OPERATION (arr_len gs1) 0 0))
    (fun r s' => r = 0 /\ exists G', ftl g s' G' /\ gh_dl G' = gs1 ++ gs2 /\
       gh_data G' = upd (gh_data G) (dlb_lba h) (Some temp) /\
       n_maxlp s' = n_maxlp s /\ mt_blkcnt (n_mt s') = mt_blkcnt (n_mt s) /\
       preserved (world s) G (world s') G' /\
       stock s' G' = stock s G + 1 + match gh_data G (dlb_lba h) with Some _ => 1 | None => 0 end /\
       room MINI_FREE_BLOCK s' G' /\
       (forall b, gh_own G' b = RBusy -> gh_own G b = RBusy /\ b <> temp) /\
       nd_bad (world s') = nd_bad (world s)) s.
Proof.
  intros HF Hdl Ht Hto Hfill Hj Hr Hs. set (lba := dlb_lba h) in *.
  assert (Hin : (h, es) ∈ gh_dl G) by (rewrite Hdl; set_solver).
  destruct (retirees_ok s G h es HF Hin) as (B1 & B2 & B3 & B4 & B5). fold lba in B1, B2, B3, B4, B5.
  set (bs := retirees h (gh_data G lba)) in *.
  pose proof (dk_nodup _ _ _ (ft_dl _ _ _ HF)) as Hnd.
  assert (Hbs : forall b, b ∈ bs -> of_lba G lba b) by (intros b Hb; by apply B4).
  assert (Htb : temp ∉ bs) by (intros Hb; destruct (Hbs _ Hb); congruence).
  pose proof (mi_inv _ _ _ _ (ft_mt _ _ _ HF)) as HI. pose proof (fi_own _ _ _ _ _ HI) as HO.
  pose proof (tl_told _ _ _ _ (fi_tells _ _ _ _ _ HI)) as HT.
  assert (Hm : moving G lba temp bs (gs1 ++ gs2)).
  { apply (moving_group (n_alloc s) (world s) (gt_pgcnt (n_gar s)) G gs1 h es gs2); [exact HI|done|done|by left|].
    intros b. unfold bs, retirees. fold lba. split.
    - intros Hb. split; [|intros ->; by apply Htb]. apply elem_of_cons in Hb as [->|Hb]; [by left|right].
      by apply elem_of_option_list in Hb.
    - intros [[->|Hb] _]; apply elem_of_cons; [by left|right]. by apply elem_of_option_list. }
  assert (Hnew : data_stored g (world s) temp).
  { destruct (ow_dl _ _ _ HO _ _ Hin) as [Hc _].
    apply (dl_content_stored (world s) temp h es (gh_data G lba) junk); [apply HI|done| | |done|].
    - intros o Hd. by apply (ow_data _ _ _ HO lba o).
    - intros y q Hy. pose proof (dl_ok_group g (n_dl s) gs1 h es gs2 ltac:(rewrite <- Hdl; apply HF)) as Hge.
      pose proof (ent_lookup_range _ _ _ _ Hge Hy). pose proof (go_used _ _ Hge). cbn in *. lia.
    - apply Hfill. pose proof (ngp g geo). lia. }
  pose proof (mt_inv_moved s G (gh_data G) lba temp bs (gs1 ++ gs2) (ft_mt _ _ _ HF) Hm Ht Hnew) as HI1.
  set (G1 := moved lba temp bs (gs1 ++ gs2) G) in *.
  apply (commit_run s G1 (gh_data G) lba temp bs (fun _ => _)); [done|exact (ft_open _ _ _ HF)| |done|done|done|done| |done|done|].
  { by apply (ft_lba _ _ _ HF h es). }
  { intros b Hb. split; [by apply B4|]. split; [cbn; rewrite decide_False by congruence; by rewrite decide_True|].
    unfold bs, retirees in Hb. fold lba in Hb. apply elem_of_cons in Hb as [->|Hb].
    - exact (gar_stored_dl g _ _ (td_dl _ _ _ _ HT _ _ Hin)).
    - apply elem_of_option_list in Hb. by apply gar_stored_data, (td_data _ _ _ _ HT lba). }
  intros s2 G2 HI2 Hopen2 F2 Hbusy2 Hst2 Hr2.
  assert (Hdata : gh_data G2 = upd (gh_data G) lba (Some temp)) by by rewrite (mf_gdata _ _ _ _ _ _ F2).
  assert (Hgdl : gh_dl G2 = gs1 ++ gs2) by by rewrite (mf_gdl _ _ _ _ _ _ F2).
  destruct (ftl_deleted s G gs1 h es gs2 temp s2 G2 0 0 HF Hdl HI2 Hopen2 (mf_dl _ _ _ _ _ _ F2)
    (mf_maxlp _ _ _ _ _ _ F2) (mf_cnt _ _ _ _ _ _ F2) Hdata Hgdl) as (d' & Hd & HF').
  unfold onD. apply wp_zoom. unfold wp. rewrite Hd. split; [done|]. exists G2.
  split_and!; [done|done|done|exact (mf_maxlp _ _ _ _ _ _ F2)|exact (mf_cnt _ _ _ _ _ _ F2)| | |exact Hr2| |exact (mf_nd_bad _ _ _ _ _ _ F2)].
  3:{ intros b Hb. apply Hbusy2 in Hb as [Hb Hb2]. cbn in Hb. repeat case_decide; done. }
  - eapply (merged_preserved _ _ _ _ gs1 h es gs2 temp junk); [done|done|done|done| |].
    + intros lpa b q Hp Hne. fold lba in Hne. destruct (place_user g geo s G lpa b q HF Hp) as [Hc Hor].
      assert (Hnb : gh_own G b <> RBusy) by (destruct Hor; congruence).
      assert (Hnl : ~ of_lba G lba b) by (unfold of_lba; destruct Hor as [E|E]; rewrite E; intros []; congruence).
      pose proof (moved_other G lba temp bs (gs1 ++ gs2) b (or_introl Hto) Hbs Hnb Hnl) as Hob. fold G1 in Hob.
      apply (mf_page _ _ _ _ _ _ F2); [done| |intros Hb; by apply Hnl, Hbs].
      rewrite Hob. by destruct Hor as [-> | ->].
    + intros i Hi. change (world (with_dl d' s2)) with (world s2). rewrite (mf_page _ _ _ _ _ _ F2); [|by split| |done].
      2:{ cbn. by rewrite decide_True. }
      specialize (Hfill i Hi). unfold filled in Hfill. destruct (dl_content _ _ _ _ _ i) as [pg|]; [by rewrite Hfill|].
      rewrite (nd_erased_page _ _ _ (fi_inv _ _ _ _ _ (mi_inv _ _ _ _ (ft_mt _ _ _ HF))) ltac:(by split) Hfill). done.
  - change (stock (with_dl d' s2) G2) with (stock s2 G2). rewrite Hst2, B5. change (stock s G1) with (stock s G). lia.
Qed.

Lemma same_pages_preserved s G s' G' :
  (forall lpa, place g G' lpa = place g G lpa) ->
  (forall lpa b q, place g G lpa = Some (b, q) -> nd_page (world s') b q = nd_page (world s) b q) ->
  preserved (world s) G (world s') G'.
Proof.
  intros Hp Hw lpa. unfold keeps_page, logical. rewrite Hp. specialize (Hw lpa).
  destruct (place g G lpa) as [[b q]|]; [|by right]. cbn. by rewrite Hw.
Qed.

(** Taking a block. *)
Lemma get_free_run s G (Q : Z -> nftl W -> Prop) :
  ftl g s G -> 0 < nfree s ->
  (forall b s', ftl g s' (set_own b RBusy G) -> in_chip g b -> gh_own G b = RFree ->
     s' = with_alloc (n_alloc s') s -> stock s' (set_own b RBusy G) = stock s G - 1 ->
     (forall k, room k s G -> room (k - 1) s' (set_own b RBusy G)) ->
     (forall p, on_chip g b p -> nd_erased (world s) b p) -> Q b s') ->
  wp (onA (nftl_get_free_block g)) Q s.
Proof.
  intros HF Hn HQ. eapply get_free_inv; [exact (mi_inv _ _ _ _ (ft_mt _ _ _ HF))|done|].
  intros b s' HI Hb Ho Hs Hn' He. apply HQ; [by eapply ftl_take|done|done|done| | |done].
  - unfold stock, spare_blocks in *. rewrite Hn'. unfold nfree. cbn. lia.
  - intros k [Hk|Hk]; [by left|right; lia].
Qed.

Lemma retirees_eq s G h : ftl g s G ->
  (dlb_pba h :: if default 0xffff (gh_data G (dlb_lba h)) =? 0xffff then []
                else [default 0xffff (gh_data G (dlb_lba h))]) = retirees h (gh_data G (dlb_lba h)).
Proof.
  intros HF. rewrite (default_ffff g geo G _ s) by done. unfold retirees.
  by destruct (gh_data G (dlb_lba h)).
Qed.

(** The facts about the group the loops rely on. *)
Lemma group_start h es i : group_ok g (h, es) -> 0 <= i < nr_pgsinblk g ->
  in_u32 (dlb_lba h * nr_pgsinblk g + i).
Proof.
  intros Hge Hi. pose proof (go_lba _ _ Hge) as Hl. cbn in Hl. pose proof (ngp g geo).
  unfold in_u16, in_u32 in *. nia.
Qed.

(** From the choice of the new block on. *)
Lemma merge_rest_dl_run s G gs1 h es gs2 temp factppa tb spare0 :
  ftl g s G -> gh_dl G = gs1 ++ (h, es) :: gs2 -> in_chip g temp -> gh_own G temp = RBusy ->
  (forall p, on_chip g temp p -> nd_erased (world s) temp p) ->
  (forall i, 0 <= i < nr_pgsinblk g ->
     arr_get factppa i = Some (default 0xff (ent_lookup es (dlb_lba h * nr_pgsinblk g + i)))) ->
  writesize g <= arr_len tb -> oobsize g <= arr_len spare0 -> room 1 s G -> 8 <= stock s G ->
  wp (let! r := for_local 0 (nr_pgsinblk g) temp
          (merge_dl_page g (dlb_pba h) (default 0xffff (gh_data G (dlb_lba h))) factppa (Some tb) spare0) in
      match r with
      | inr e => ret e
      | inl temp =>
          nftl_addto_gt g (dlb_pba h :: if default 0xffff (gh_data G (dlb_lba h)) =? 0xffff then []
                                        else [default 0xffff (gh_data G (dlb_lba h))]) ;;
          nftl_update_mt g (dlb_lba h) temp ;;
          onD (nftl_update_dl_ram g DEL_OPERATION (arr_len gs1) 0 0)
      end) (fun r s' => r = 0 /\ exists G', merged s G h (gs1 ++ gs2) s' G' /\ gh_own G' temp <> RBusy /\
        stock s' G' = stock s G + 1 + match gh_data G (dlb_lba h) with Some _ => 1 | None => 0 end) s.
Proof.
  intros HF Hdl Ht Hto He Hf Htb Hsp Hr Hst.
  assert (Hin : (h, es) ∈ gh_dl G) by (rewrite Hdl; set_solver).
  pose proof (fi_own _ _ _ _ _ (mi_inv _ _ _ _ (ft_mt _ _ _ HF))) as Ho.
  destruct (ow_dl _ _ _ Ho _ _ Hin) as [Hc Hrole].
  pose proof (dl_ok_group g (n_dl s) gs1 h es gs2) as Hge. rewrite <- Hdl in Hge. specialize (Hge (ft_dl _ _ _ HF)).
  assert (Hne : dlb_pba h <> temp) by congruence.
  assert (Hold : forall o, gh_data G (dlb_lba h) = Some o -> in_chip g o /\ o <> temp).
  { intros o E. destruct (ow_data _ _ _ Ho _ _ E). split; [done|congruence]. }
  assert (Hes : forall x q, ent_lookup es x = Some q -> 0 <= q < nr_pgsinblk g).
  { intros x q Hx. pose proof (ent_lookup_range _ _ _ _ Hge Hx). pose proof (go_used _ _ Hge). cbn in *. lia. }
  rewrite (retirees_eq s G h HF).
  apply wp_bind. eapply wp_mono; [apply (merge_dl_pages_run s G temp h es (gh_data G (dlb_lba h)) factppa tb spare0
    (mi_inv _ _ _ _ (ft_mt _ _ _ HF)) Ht Hto (mi_quiet _ _ _ _ (ft_mt _ _ _ HF)) He Hc Hne Hold Hes Hf Htb Hsp)|].
  intros r s3 (-> & f3 & -> & _ & HF3). pose proof (fg_block _ _ _ _ _ _ HF3) as Hob.
  assert (HFs : ftl g (with_flash f3 s) G) by (eapply ftl_busy; [done|exact Hob|done|apply HF3]).
  eapply wp_mono; [eapply (merge_commit_run (with_flash f3 s) G gs1 h es gs2 temp _ HFs Hdl Ht Hto)|]; [| |exact Hr|exact Hst|].
  - intros i Hi. erewrite dl_content_same; [by apply (fg_done _ _ _ _ _ _ HF3)|exact Hob|done|done|done|done|done].
  - cbn [snd]. by apply data_block_spare.
  - intros r s' (-> & G' & P1 & P2 & P3 & P4 & P5 & P6 & P7 & P8 & P9 & P10). split; [done|]. exists G'.
    split; [|split; [by intros Hb; destruct (P9 _ Hb)|exact P7]].
    split; [exact P1|exact P2|by exists temp|exact P4|exact P5| |exact P8|by intros b Hb; destruct (P9 _ Hb)
      |rewrite P10; apply (ob_bad _ _ _ _ Hob)].
    eapply preserved_trans; [|exact P6]. apply same_pages_preserved; [done|].
    intros lpa b q Hp. destruct (place_user g geo s G lpa b q HF Hp) as [Hbc Hor].
    apply (ob_page _ _ _ _ Hob); [done|]. intros ->. destruct Hor; congruence.
Qed.

(** [nftl_merge_dlblk] succeeds: the log block leaves the table, the new data
    block holds its pages, and the other pages stay where they are. *)
Lemma nftl_merge_dlblk_run s G gs1 h es gs2 :
  ftl g s G -> gh_dl G = gs1 ++ (h, es) :: gs2 -> room 2 s G -> 9 <= stock s G ->
  wp (nftl_merge_dlblk g (arr_len gs1)) (fun r s' => r = 0 /\ exists G', merged s G h (gs1 ++ gs2) s' G' /\
    stock s' G' = stock s G + match gh_data G (dlb_lba h) with Some _ => 1 | None => 0 end) s.
Proof.
  intros HF Hdl Hr Hst. pose proof (ngp g geo). pose proof (ng_ws_range g geo). pose proof (ng_oob g geo).
  pose proof (stock_spare _ _ _ (ft_mt _ _ _ HF)) as Hsp.
  assert (Hin : (h, es) ∈ gh_dl G) by (rewrite Hdl; set_solver).
  pose proof (dl_ok_group g (n_dl s) gs1 h es gs2) as Hge. rewrite <- Hdl in Hge. specialize (Hge (ft_dl _ _ _ HF)).
  unfold nftl_merge_dlblk. apply wp_bind, (ftl_stack_run s G); [done|done|]. intros fact0 s1 HF1 O1 L1.
  apply wp_bind, (ftl_stack_run s1 G); [done|done|]. intros spare0 s2 HF2 O2 L2.
  apply wp_bind. eapply (stack16_run g geo); [exact HF2|]. intros pba0 s3 HF3 O3.
  apply wp_bind, (ftl_kmalloc_run s3 G); [done|done|]. intros tb s4 HF4 O4 L4.
  pose proof (only_read_trans g _ _ _ (only_read_trans g _ _ _ (only_read_trans g _ _ _ O1 O2) O3) O4) as O.
  clear O1 O2 O3 O4 HF1 HF2 HF3. pose proof (ft_dl _ _ _ HF4) as Hok. rewrite Hdl in Hok.
  apply wp_bind. unfold wp at 1. rewrite (onD_run _ _ _ (dl_block_mid g _ _ _ _ _ Hok)).
  apply wp_bind. unfold wp at 1. rewrite (dl_offset_run s4 gs1 ((h, es) :: gs2)) by done.
  assert (Hstart : u32 (dlb_lba h * nr_pgsinblk g) = dlb_lba h * nr_pgsinblk g).
  { apply u32_id. rewrite <- (Z.add_0_r (_ * _)). apply (group_start h es); [done|lia]. }
  rewrite Hstart. apply wp_bind. unfold dl_facts. apply wp_bind.
  destruct (fill_array_run (R := unit)
    (dl_fact (dlb_lba h * nr_pgsinblk g) (arr_len (ents gs1)) (dlb_valid h))
    (fun i => default 0xff (ent_lookup es (dlb_lba h * nr_pgsinblk g + i))) s4 (nr_pgsinblk g) fact0)
    as (l & Hl & _ & Hf).
  { intros i Hi. apply (dl_fact_run s4 gs1 h es gs2); [done|]. by eapply group_start. }
  { rewrite L1. unfold MAX_PAGES_IN_BLOCK. lia. }
  unfold wp at 1. rewrite Hl. apply wp_ret. destruct (only_read_same _ _ O) as (E1 & E2 & E3 & E4 & E5 & E6).
  apply wp_bind. eapply lba_lookup_run; [exact geo|exact HF4|by eapply (ft_lba _ _ _ HF4)|]. intros s5 HF5 O5. cbn [snd].
  destruct (only_read_same _ _ O5) as (D1 & D2 & D3 & D4 & D5 & D6).
  assert (Hn : nfree s5 = nfree s) by (unfold nfree; by rewrite D3, E3).
  apply wp_bind. apply (get_free_run s5 G); [done| |].
  { rewrite Hn. assert (1 <= nfree s); [|lia]. apply (room_free 2 1 s G); [done|lia|lia]. }
  intros temp s6 HF6 Hc Ho Hs6 Hst6 Hr6 He6.
  destruct (temp =? 65535) eqn:Etf; zbool; [by apply (in_chip_no_ffff g geo) in Hc|].
  set (G6 := set_own temp RBusy G) in *.
  assert (Hst5 : stock s5 G = stock s G) by (unfold stock, spare_blocks; by rewrite Hn).
  assert (Hr5 : room 2 s5 G) by (unfold room; by rewrite Hn).
  eapply wp_mono; [apply (merge_rest_dl_run s6 G6 gs1 h es gs2 temp l tb spare0 HF6 Hdl Hc (own_set_eq _ _ _))|].
  - intros p Hp. rewrite Hs6. by apply He6.
  - exact Hf.
  - rewrite L4. unfold NAND_MAX_PAGESIZE. lia.
  - rewrite L2. unfold BLOCK_INFO_SIZE, NAND_MAX_OOBSIZE in *. lia.
  - by apply (Hr6 2).
  - lia.
  - intros r s' (-> & G' & [M1 M2 M3 M4 M5 M6 M8 M9 M10] & Mt & M7). split; [done|]. exists G'. split.
    + split; [done|done|done| | | |done| |].
      * rewrite M4, Hs6. cbn. by rewrite D4, E4.
      * rewrite M5, Hs6. cbn. by rewrite D2, E2.
      * assert (Hw : nd_page (world s6) = nd_page (world s)) by (rewrite Hs6; by rewrite <- E5, <- D5).
        eapply preserved_trans; [|exact M6]. apply same_pages_preserved; [done|]. intros. by rewrite Hw.
      * intros b Hb. pose proof (M9 b Hb) as Hb6. unfold G6 in Hb6. rewrite own_set_ne in Hb6; [done|]. by intros ->.
      * rewrite M10, Hs6. change (nd_bad (world s5) = nd_bad (world s)).
        by rewrite (only_read_bad _ _ O5), (only_read_bad _ _ O).
    + change (gh_data G6) with (gh_data G) in M7. lia.
Qed.
End Merge.
