(* ===== verification/NftlDataShrink.v ===== *)
(** * NFTL: making room in the DataLog table, specified

    The loops of [nftl_write_logicpage] that merge log blocks while the table
    is crowded or free blocks are scarce: they end, and no page that was
    written changes. *)

From Stdlib Require Import ZArith Lia.
From stdpp Require Import base numbers list sets.
From S2P Require Import Prelude CMonad NftlTypes NftlAlloc NftlLog NftlDl NftlMtl MtdDev NftlState.
From S2P Require Import NandLaws NftlFlash NftlFlashSpec NftlGarbage NftlTold NftlInv NftlGarbageSpec.
From S2P Require Import NftlMap NftlMapSpec NftlMapUpdate NftlData NftlDataSpec NftlDataMerge.

Section Shrink.
Context {W : Type} {WW : World W} (g : mtd_info) {N : NandLaws W g}.
Hypothesis geo : nand_geo g.
Implicit Types (s : nftl W) (w : W) (G : ghost) (b p q : Z).

(** The logical blocks that have a log block, and those with pages at all. *)
Definition logged G : list Z := map (fun ge : dl_group => dlb_lba ge.1) (gh_dl G).
Definition touched G (l : Z) : Prop := gh_data G l <> None \/ l ∈ logged G.
Lemma logged_group G h es : (h, es) ∈ gh_dl G -> dlb_lba h ∈ logged G.
Proof. intros Hin. apply list_elem_of_In, in_map_iff. exists (h, es). split; [done|by apply list_elem_of_In]. Qed.
Lemma group_logged G l : l ∈ logged G -> exists h es, (h, es) ∈ gh_dl G /\ dlb_lba h = l.
Proof.
  intros ([h es] & <- & Hin)%list_elem_of_In%in_map_iff. exists h, es. by split; [apply list_elem_of_In|].
Qed.

(** Log blocks have gone, each into the data block of its logical block. *)
Record drained G G' : Prop := {
  dr_dl : forall ge, ge ∈ gh_dl G' -> ge ∈ gh_dl G;
  dr_mapped : forall l, gh_data G l <> None -> gh_data G' l <> None;
  dr_same : forall l, l ∈ logged G' -> gh_data G' l = gh_data G l;
  dr_touched : forall l, touched G' l <-> touched G l
}.
Lemma drained_refl G : drained G G.
Proof. done. Qed.
Lemma drained_trans G1 G2 G3 : drained G1 G2 -> drained G2 G3 -> drained G1 G3.
Proof.
  intros [A1 A2 A3 A4] [B1 B2 B3 B4]. split; [auto|auto| |intros l; by rewrite B4].
  intros l Hl. rewrite B3 by done. apply A3. destruct (group_logged _ _ Hl) as (h & es & Hin & <-).
  by eapply logged_group, B1.
Qed.
Lemma drained_merged G G' gs1 h es gs2 b :
  NoDup (logged G) -> gh_dl G = gs1 ++ (h, es) :: gs2 -> gh_dl G' = gs1 ++ gs2 -> gh_data G' = upd (gh_data G) (dlb_lba h) (Some b) ->
  drained G G'.
Proof.
  intros Hnd H1 H2 H3. split.
  - intros ge. rewrite H1, H2. set_solver.
  - intros l. rewrite H3. unfold upd. by case_decide.
  - intros l Hl. destruct (group_logged _ _ Hl) as (h' & es' & Hin & <-). rewrite H2 in Hin.
    rewrite H3, upd_ne; [done|]. by apply (groups_other g geo (gh_dl G) gs1 h es gs2 Hnd H1 h' es').
  - intros l. unfold touched, logged. rewrite H1, H2, H3, !map_app. cbn [map fst]. unfold upd. case_decide as Hl.
    + subst l. split; [intros _; right; set_solver|by left].
    + rewrite !elem_of_app, elem_of_cons. tauto.
Qed.

(** Some log blocks have been merged. *)
Record shrunk s G s' G' : Prop := {
  sh_ftl : ftl g s' G';
  sh_dl : sublist (gh_dl G') (gh_dl G);
  sh_maxlp : n_maxlp s' = n_maxlp s;
  sh_cnt : mt_blkcnt (n_mt s') = mt_blkcnt (n_mt s);
  sh_pages : preserved g (world s) G (world s') G';
  sh_stock : stock s G <= stock s' G';
  sh_room : forall k, k <= MINI_FREE_BLOCK -> room k s G -> room k s' G';
  sh_busy : forall b, gh_own G' b = RBusy -> gh_own G b = RBusy;
  sh_bad : nd_bad (world s') = nd_bad (world s);
  sh_drained : drained G G'
}.
Lemma shrunk_trans s1 G1 s2 G2 s3 G3 : shrunk s1 G1 s2 G2 -> shrunk s2 G2 s3 G3 -> shrunk s1 G1 s3 G3.
Proof.
  intros [A1 A2 A3 A4 A5 A6 A7 A8 A9 A10] [B1 B2 B3 B4 B5 B6 B7 B8 B9 B10].
  split; [done|by etrans|congruence|congruence|by eapply preserved_trans|lia|auto|auto|congruence|].
  by eapply drained_trans.
Qed.
Lemma shrunk_read s G s' : ftl g s' G -> only_read g s s' -> shrunk s G s' G.
Proof.
  intros HF O. destruct (only_read_same g _ _ O) as (E1 & E2 & E3 & E4 & E5 & E6).
  split; [done|done|done|by rewrite E2| | | |done|by eapply only_read_bad|done].
  - apply same_pages_preserved; [done|]. intros. by rewrite E5.
  - unfold stock, spare_blocks, nfree. by rewrite E3.
  - intros k _ [H|H]; [by left|right]. unfold nfree. by rewrite E3.
Qed.
Lemma shrunk_refl s G : ftl g s G -> shrunk s G s G.
Proof.
  intros HF. split; [done|done|done|done|apply preserved_refl|lia|done|done|done|done].
Qed.
Lemma shrunk_merged s G gs1 h es gs2 s' G' :
  NoDup (logged G) -> gh_dl G = gs1 ++ (h, es) :: gs2 -> merged g s G h (gs1 ++ gs2) s' G' ->
  stock s' G' = stock s G + match gh_data G (dlb_lba h) with Some _ => 1 | None => 0 end ->
  shrunk s G s' G' /\ arr_len (gh_dl G') < arr_len (gh_dl G).
Proof.
  intros Hnd Hdl [M1 M2 [b M3] M4 M5 M6 M7 M8 M9] Hst. split.
  - split; [done| |done|done|done| | |done|done|by eapply drained_merged].
    + rewrite M2, Hdl. apply sublist_app; [done|]. by apply sublist_cons.
    + rewrite Hst. destruct (gh_data G _); lia.
    + intros k Hk _. by eapply room_mono.
  - rewrite M2, Hdl, !arr_len_app, arr_len_cons. lia.
Qed.

(** ** The block with the largest key *)
Lemma max_block_run key lo s G (Q : Z -> nftl W -> Prop) :
  ftl g s G -> 0 <= lo -> (forall i, Q i s) -> wp (max_block key lo) Q s.
Proof.
  intros HF Hlo HQ. pose proof (ft_cnt _ _ _ HF) as Hc. pose proof (dk_blen _ _ _ (ft_dl _ _ _ HF)) as Hb.
  unfold max_block. apply wp_bind, wp_gets, wp_bind.
  assert (Hget : forall i (K : dl_blockinfo -> nftl W -> Prop), 0 <= i < DL_MAX_BLOCKS ->
    (forall blk, K blk s) -> wp (onD (dl_block i)) K s).
  { intros i K Hi HK. destruct (arr_get_in (dl_blocktab (n_dl s)) i) as [blk Hblk]; [lia|].
    unfold wp. rewrite (onD_run _ s blk); [apply HK|]. by apply dl_block_run. }
  destruct (decide (lo <= dl_blkcnt (n_dl s))) as [Hle|Hgt].
  - apply (wp_for_local (fun _ t s' => s' = s /\ 0 <= t < DL_MAX_BLOCKS)); [done|done| |].
    + intros i t s' Hi [-> Ht]. apply wp_bind, Hget; [done|]. intros blk.
      apply wp_bind, Hget; [lia|]. intros blk'. apply wp_ret. split; [done|]. destruct (_ <? _); lia.
    + intros t s' [-> _]. apply wp_ret, HQ.
  - unfold for_local. replace (Z.to_nat (dl_blkcnt (n_dl s) - lo)) with 0%nat by lia. apply wp_ret, wp_ret, HQ.
Qed.

(** ** The first log block whose logical block has a data block *)
Definition picked G (i : Z) : Prop := exists gs1 h es gs2,
  gh_dl G = gs1 ++ (h, es) :: gs2 /\ i = arr_len gs1 /\ gh_data G (dlb_lba h) <> None.

(** No log block has a data block to be merged with. *)
Definition unmapped G : Prop := forall h es, (h, es) ∈ gh_dl G -> gh_data G (dlb_lba h) = None.

Lemma pick_mapped_run s G :
  ftl g s G -> wp (pick_mapped g 0) (fun r s' => ftl g s' G /\ only_read g s s' /\
    match r with inl e => e = 0 /\ unmapped G | inr i => picked G i end) s.
Proof.
  intros HF. pose proof (lr_blkcnt _ _ _ _ _ _ (dk_rep _ _ _ (ft_dl _ _ _ HF))) as Hc.
  pose proof (arr_len_nonneg (gh_dl G)).
  unfold pick_mapped. apply wp_bind, wp_gets.
  apply (wp_for_local (fun i e s' => ftl g s' G /\ only_read g s s' /\ e = 0 /\
    forall j h es, j < i -> arr_get (gh_dl G) j = Some (h, es) -> gh_data G (dlb_lba h) = None)); [lia| | |].
  - split; [done|]. split; [|split; [done|intros j h es Hj Hg; apply arr_get_Some in Hg; lia]]. replace s with (with_flash (n_flash s) s) at 2 by by destruct s.
    apply only_read_flash, same_pages_refl, (mi_inv _ _ _ _ (ft_mt _ _ _ HF)).
  - intros i e s1 Hi (HF1 & O1 & -> & Hnone). apply wp_bind. eapply (stack16_run g geo); [exact HF1|]. intros x s2 HF2 O2.
    destruct (dl_block_at g (n_dl s2) (gh_dl G) i (ft_dl _ _ _ HF2)) as (h & es & Hg & Hb).
    { destruct (only_read_same g _ _ (only_read_trans g _ _ _ O1 O2)) as (-> & _). done. }
    apply wp_bind. unfold wp at 1. rewrite (onD_run _ _ _ Hb).
    destruct (arr_get_split _ _ _ Hg) as (gs1 & gs2 & Hdl & -> & _).
    apply wp_bind. eapply lba_lookup_run; [done|exact HF2| |].
    { apply (ft_lba _ _ _ HF2 h es). rewrite Hdl. set_solver. }
    intros s3 HF3 O3. apply wp_ret. cbn [fst snd]. rewrite (default_ffff g geo G _ s3) by done.
    pose proof (only_read_trans g _ _ _ (only_read_trans g _ _ _ O1 O2) O3) as O.
    destruct (gh_data G (dlb_lba h)) as [o|] eqn:E; cbn; split_and!; try done.
    + exists gs1, h, es, gs2. split_and!; [done|done|congruence].
    + intros j h' es' Hj Hg'. destruct (decide (j = arr_len gs1)) as [->|Hne]; [|eapply Hnone; [|done]; lia].
      rewrite Hg in Hg'. by injection Hg' as <- _.
  - intros e s1 (HF1 & O1 & -> & Hnone). split_and!; [done|done|done|]. intros h es Hin.
    apply list_elem_of_lookup in Hin as [j Hj]. apply (Hnone (Z.of_nat j) h es).
    + rewrite Hc. apply lookup_lt_Some in Hj. unfold arr_len. lia.
    + unfold arr_get. destruct (0 <=? Z.of_nat j) eqn:E; zbool; [|lia]. by rewrite Nat2Z.id.
Qed.

(** ** Shrinking the table *)

(** What merging needs: free blocks, and blocks behind them. *)
Definition mergeable s G : Prop := room 2 s G /\ 9 <= stock s G.
Lemma mergeable_shrunk s G s' G' : mergeable s G -> shrunk s G s' G' -> mergeable s' G'.
Proof. intros [H1 H2] H. split; [by apply (sh_room _ _ _ _ H)|pose proof (sh_stock _ _ _ _ H); lia]. Qed.

Lemma merge_picked_run s G i :
  ftl g s G -> mergeable s G -> picked G i ->
  wp (nftl_merge_dlblk g i) (fun r s' => r = 0 /\ exists G', shrunk s G s' G' /\
    arr_len (gh_dl G') < arr_len (gh_dl G)) s.
Proof.
  intros HF [Hr Hs] (gs1 & h & es & gs2 & Hdl & -> & _).
  eapply wp_mono; [by apply (nftl_merge_dlblk_run g geo s G gs1 h es gs2)|].
  intros r s' (-> & G' & HM & Hst). split; [done|]. exists G'. eapply shrunk_merged; [apply (ft_dl _ _ _ HF)|done..].
Qed.

Lemma shrink_round_run s G lo more :
  ftl g s G -> mergeable s G -> 0 <= lo ->
  wp (shrink_round g lo more) (fun r s' => exists G', shrunk s G s' G' /\
    match r with
    | None => arr_len (gh_dl G') < arr_len (gh_dl G)
    | Some o => o = None /\ (more (n_dl s') = false \/ unmapped G')
    end) s.
Proof.
  intros HF Hm Hlo. unfold shrink_round. apply wp_bind, wp_gets.
  destruct (more (n_dl s)) eqn:Em; cbn [negb];
    [|apply wp_ret; exists G; split; [by apply shrunk_refl|split; [done|by left]]].
  apply wp_bind, (max_block_run dlb_used lo s G); [done|done|]. intros _.
  apply wp_bind. eapply wp_mono; [by apply pick_mapped_run|].
  intros [e|i] s1 (HF1 & O1 & Hp); pose proof (shrunk_read s G s1 HF1 O1) as Hs1.
  - apply wp_ret. exists G. split; [done|]. split; [done|]. right. apply Hp.
  - apply wp_bind. eapply wp_mono; [apply (merge_picked_run s1 G i HF1); [by eapply mergeable_shrunk|done]|].
    intros r s2 (-> & G2 & Hs2 & Hlt). apply wp_ret. exists G2. split; [by eapply shrunk_trans|done].
Qed.

(** The loops end, having merged what they could. *)
Lemma shrink_run s G trigger lo more :
  ftl g s G -> mergeable s G -> 0 <= lo ->
  wp (shrink g trigger lo more) (fun r s' => r = None /\ exists G', shrunk s G s' G' /\
    ((s' = s /\ trigger (n_dl s) = false) \/ more (n_dl s') = false \/ unmapped G')) s.
Proof.
  intros HF Hm Hlo. unfold shrink. apply wp_bind, wp_gets.
  destruct (trigger (n_dl s)) eqn:Et; [|apply wp_ret; split; [done|exists G; split; [by apply shrunk_refl|by left]]].
  pose proof (lr_blkcnt _ _ _ _ _ _ (dk_rep _ _ _ (ft_dl _ _ _ HF))) as Hc.
  apply (wp_retry (fun s1 => exists G1, shrunk s G s1 G1) (fun s1 => Z.to_nat (dl_blkcnt (n_dl s1)))); [|lia|].
  - exists G. by apply shrunk_refl.
  - intros s1 (G1 & H1). eapply wp_mono; [apply (shrink_round_run s1 G1 lo more);
      [apply H1|by eapply mergeable_shrunk|done]|].
    intros [o|] s2 (G2 & H2 & Hr).
    + destruct Hr as [-> Hr]. split; [done|]. exists G2. split; [by eapply shrunk_trans|by right].
    + split; [exists G2; by eapply shrunk_trans|].
      rewrite (lr_blkcnt _ _ _ _ _ _ (dk_rep _ _ _ (ft_dl _ _ _ (sh_ftl _ _ _ _ H1)))),
        (lr_blkcnt _ _ _ _ _ _ (dk_rep _ _ _ (ft_dl _ _ _ (sh_ftl _ _ _ _ H2)))).
      pose proof (arr_len_nonneg (gh_dl G2)). lia.
Qed.

(** ** Reclaiming space *)
Lemma low_space_run s G :
  ftl g s G -> mergeable s G ->
  wp (low_space g 0) (fun r s' => r = 0 /\ exists G', shrunk s G s' G') s.
Proof.
  intros HF Hm. unfold low_space. apply wp_bind, wp_gets.
  destruct (free_blkcnt (n_alloc s) <=? MINI_FREE_BLOCK);
    [|apply wp_ret; split; [done|exists G; by apply shrunk_refl]].
  apply wp_bind, (max_block_run dlb_valid 1 s G); [done|done|]. intros _.
  apply wp_bind. eapply wp_mono; [by apply pick_mapped_run|].
  intros [e|i] s1 (HF1 & O1 & Hp); pose proof (shrunk_read s G s1 HF1 O1) as Hs1.
  - destruct Hp as [-> _]. apply wp_ret. split; [done|]. by exists G.
  - apply wp_bind. eapply wp_mono; [apply (merge_picked_run s1 G i HF1); [by eapply mergeable_shrunk|done]|].
    intros r s2 (-> & G2 & Hs2 & Hlt). apply wp_ret. split; [done|]. exists G2. by eapply shrunk_trans.
Qed.
End Shrink.
