(* ===== verification/NftlDataWrite.v ===== *)
(** * NFTL: writing a logical page, specified

    [nftl_write_logicpage] on a chip in working order: the page goes to the
    log block of its logical block, to a new log block, or, when it completes
    a log block written in order, turns the log block into the data block. *)

From Stdlib Require Import ZArith Lia.
From stdpp Require Import base numbers list sets.
From S2P Require Import Prelude CMonad NftlTypes NftlAlloc NftlLog NftlDl NftlMtl MtdDev NftlState.
From S2P Require Import NandLaws NftlFlash NftlFlashSpec NftlGarbage NftlTold NftlInv NftlGarbageSpec.
From S2P Require Import NftlMap NftlMapSpec NftlMapUpdate NftlData NftlDataSpec NftlDataMerge NftlDataShrink.

Section Write.
Context {W : Type} {WW : World W} (g : mtd_info) {N : NandLaws W g}.
Hypothesis geo : nand_geo g.
Implicit Types (s : nftl W) (w : W) (G : ghost) (b p q : Z).

(** ** Writing to a block of the layer *)

(** The next page of a log block. *)
Lemma write_dl_insert w w' a pg G gs1 h es gs2 lpa :
  ftl_inv g w a pg G -> gh_dl G = gs1 ++ (h, es) :: gs2 ->
  NoDup (map (fun ge : dl_group => dlb_lba ge.1) (gh_dl G)) ->
  only_page g w w' (dlb_pba h) (dlb_used h) -> dl_stored g w' (group_write h es lpa) ->
  ftl_inv g w' a pg (set_gdl (gs1 ++ group_write h es lpa :: gs2) G).
Proof.
  intros [H1 H2 H3 H4 H7 [E1 E2 E3 E4] [HT HN HB]] Hdl Hnd Hop Hst.
  assert (Hin0 : (h, es) ∈ gh_dl G) by (rewrite Hdl; set_solver).
  assert (Hsub : forall h' es', (h', es') ∈ gs1 ++ group_write h es lpa :: gs2 ->
    (h' = (group_write h es lpa).1) \/ ((h', es') ∈ gh_dl G /\ dlb_lba h' <> dlb_lba h)).
  { intros h' es' Hin. assert ((h', es') = group_write h es lpa \/ (h', es') ∈ gs1 ++ gs2) as [<-|Hin'] by set_solver;
      [by left|right]. by eapply groups_other. }
  destruct (ow_dl _ _ _ H7 _ _ Hin0) as [Hc Ho].
  split; [apply Hop|by apply (op_good _ _ _ _ _ Hop)|by apply (op_wgood _ _ _ _ _ Hop)|done| | |].
  - destruct H7 as [O1 O2 O3 O4 O5 O6 O7 O8]. split; try done.
    cbn. intros h' es' Hin. destruct (Hsub _ _ Hin) as [->|[Hin' _]]; [done|by apply (O4 h' es')].
  - split.
    + intros b q Hb Hr. apply (op_erased _ _ _ _ _ Hop); [done|intros [= -> ->]; cbn in Hr; congruence|by apply E1].
    + cbn. intros h' es' q Hin Hb Hq. destruct (ow_mtl _ _ _ H7 _ _ Hin) as [_ Ho'].
      apply (op_erased _ _ _ _ _ Hop); [done|intros [= Heq _]; congruence|by apply (E2 h' es')].
    + cbn. intros h' es' q Hin Hb Hq. destruct (Hsub _ _ Hin) as [->|[Hin' Hne]]; cbn in *.
      * apply (op_erased _ _ _ _ _ Hop); [done|intros [= ->]; lia|]. apply (E3 h es); [done|done|lia].
      * destruct (ow_dl _ _ _ H7 _ _ Hin') as [_ Ho'].
        apply (op_erased _ _ _ _ _ Hop); [done|intros [= Heq _]; congruence|by apply (E3 h' es')].
    + cbn. intros b q Hg Hb Hq. destruct (ow_gt _ _ _ H7 _ Hg) as [_ Ho'].
      apply (op_erased _ _ _ _ _ Hop); [done|intros [= Heq _]; congruence|by apply E4].
  - assert (Hs : forall c, gh_own G c <> RDl (dlb_lba h) -> same_data g w w' c).
    { intros c Hne. eapply same_data_page; [done|]. intros ->. congruence. }
    split; [|intros c|by rewrite (op_bad _ _ _ _ _ Hop)].
    + eapply (told_step g geo w w'); [exact H7|exact HT|..]; cbn.
      * intros i c Hc'. left. split; [done|]. apply Hs. destruct (ow_mt _ _ _ H7 i c Hc'). congruence.
      * intros h' es' Hin. left. split; [done|]. apply Hs. destruct (ow_mtl _ _ _ H7 h' es' Hin). congruence.
      * intros h' es' Hin.
        assert ((h', es') = group_write h es lpa \/ (h', es') ∈ gs1 ++ gs2) as [->|Hin'] by set_solver; [by right|left].
        destruct (groups_other g geo _ _ _ _ _ Hnd Hdl _ _ Hin') as [Hin2 Hne]. split; [done|]. apply Hs.
        destruct (ow_dl _ _ _ H7 h' es' Hin2). congruence.
      * intros lba c Hc'. left. split; [done|]. apply Hs. destruct (ow_data _ _ _ H7 lba c Hc'). congruence.
      * intros c Hc'. left. split; [done|]. apply Hs. destruct (ow_gar _ _ _ H7 c Hc'). congruence.
      * intros c Hc'. left. split; [done|]. split; [|done]. apply Hs. destruct (ow_gt _ _ _ H7 c Hc'). congruence.
    + eapply (names_keep G); [..|apply HN]; cbn; try done; [eauto|].
      intros h' es' Hin Hp. rewrite Hdl in Hin.
      assert ((h', es') = (h, es) \/ (h', es') ∈ gs1 ++ gs2) as [[= -> ->]|Hin'] by set_solver.
      * exists (group_write h es lpa).1, (group_write h es lpa).2. split; [set_solver|done].
      * exists h', es'. split; [set_solver|done].
Qed.

(** The first page of a new one. *)
Lemma write_dl_append w w' a pg G b lpa :
  ftl_inv g w a pg G -> in_chip g b -> gh_own G b = RBusy ->
  (forall q, on_chip g b q -> nd_erased w b q) -> only_page g w w' b 0 -> dl_stored g w' (group_new g lpa b) ->
  ftl_inv g w' a pg (set_own b (RDl (lpa / nr_pgsinblk g)) (set_gdl (gh_dl G ++ [group_new g lpa b]) G)).
Proof.
  intros HI Hc Ho He Hop Hst.
  assert (HI' : ftl_inv g w' a pg G) by (eapply (ftl_inv_busy g geo); [done|by eapply only_page_block|done]).
  destruct HI' as [H1 H2 H3 H4 H7 H8 [HT HN HB]]. split; auto.
  - eapply owners_handover with (b := b) (r := RDl (lpa / nr_pgsinblk g)); [exact H7| |done|by rewrite Ho|done].
    eapply handover_enter; [done|done|done|apply H7|by left|by left| |by left..].
    cbn. intros h es [Hin|Hin%list_elem_of_singleton]%elem_of_app; [by left|].
    injection Hin as -> ->. by right.
  - apply erased_ok_set_own; [|done]. destruct H8 as [E1 E2 E3 E4]. split; auto.
    cbn. intros h es q [Hin|Hin%list_elem_of_singleton]%elem_of_app Hb Hq; [by eapply E3|].
    injection Hin as -> ->. cbn in *.
    apply (op_erased _ _ _ _ _ Hop); [done|intros [= ->]; lia|by apply He].
  - split.
    + destruct HT as [T1 T2 T3 T4 T5 T6]. split; try done. cbn.
      intros h es [Hin| ->%list_elem_of_singleton]%elem_of_app; [by apply T3|done].
    + eapply (named_step G); [done|done| |].
      * cbn. eexists _, _. split; [apply elem_of_app; right; by left|done].
      * intros c Hc'. eapply names_keep; cbn; try done; [eauto|]. intros h es Hin Hp. exists h, es. split; [set_solver|done].
    + intros c Hc'. rewrite HB by done. cbn. unfold upd. case_decide; [|done]. subst. by rewrite Ho.
Qed.

(** The table in flash does not notice. *)
Lemma mt_inv_write s G dm G' f b p :
  mt_inv g s G dm -> only_page g (world s) (fl_world f) b p ->
  (forall i, gh_own G b <> RMt i /\ gh_own G b <> RMtl i) ->
  gh_mt G' = gh_mt G -> gh_mtl G' = gh_mtl G -> gh_gar G' = gh_gar G -> gh_gt G' = gh_gt G ->
  gh_gtl G' = gh_gtl G -> inv g (with_flash f s) G' -> fl_corrected f <= ECC_ERR_LIMIT -> mt_inv g (with_flash f s) G' dm.
Proof.
  intros [I1 I2 I3 [I4 I4'] I5 I6 I7] Hop Hb T1 T2 T3 T4 T5 HI Hf.
  assert (Hw : forall x, g_where g G' x = g_where g G x) by (intros x; unfold g_where; by rewrite T1, T2).
  assert (Hd : forall x, mt_data g (fl_world f) G' x = mt_data g (world s) G x).
  { intros x. transitivity (mt_data g (fl_world f) G x); [unfold mt_data; by rewrite Hw|].
    eapply mt_data_same; [done|apply I1|exact I3|]. intros i c q Hc Hl.
    apply (op_page _ _ _ _ _ Hop); [done|]. intros [= -> _]. destruct (Hb i). by destruct Hl. }
  split; try done.
  - destruct I2 as [[R1 R2 R3 R4 R5 R6] R7 R8 R9 R10]. split; [split|..]; rewrite ?T3, ?T4, ?T5; try done.
  - destruct I3 as [M1 M2 M3 M4 M5]. split; rewrite ?T1, ?T2; try done.
  - split; [done|]. intros x Hx. change (world (with_flash f s)) with (fl_world f). rewrite Hd. apply I4'. by rewrite <- Hw.
  - intros lba Hl. unfold mt_entry. change (world (with_flash f s)) with (fl_world f). rewrite Hd. by apply I6.
Qed.

(** ** Where the pages are afterwards *)

Lemma place_insert gs1 h es gs2 G lpa x :
  NoDup (map (fun ge : dl_group => dlb_lba ge.1) (gh_dl G)) -> gh_dl G = gs1 ++ (h, es) :: gs2 ->
  lpa / nr_pgsinblk g = dlb_lba h ->
  place g (set_gdl (gs1 ++ group_write h es lpa :: gs2) G) x =
    if x =? lpa then Some (dlb_pba h, dlb_used h) else place g G x.
Proof.
  intros Hnd Hdl Hp. unfold place. cbn [set_gdl gh_dl gh_data]. rewrite Hdl in Hnd |- *.
  assert (Hnd' : NoDup (map (fun ge : dl_group => dlb_lba ge.1) (gs1 ++ group_write h es lpa :: gs2))).
  { rewrite map_app in *. exact Hnd. }
  unfold group_write in *. rewrite !dl_lookup_mid by done. cbn [dlb_lba dlb_pba]. rewrite ent_lookup_put.
  destruct (x =? lpa) eqn:E; zbool; [|done]. subst x. by rewrite Hp, Z.eqb_refl.
Qed.

Lemma place_append G b lpa x r :
  lpa / nr_pgsinblk g ∉ map (fun ge : dl_group => dlb_lba ge.1) (gh_dl G) ->
  place g (set_own b r (set_gdl (gh_dl G ++ [group_new g lpa b]) G)) x =
    if x =? lpa then Some (b, 0) else place g G x.
Proof.
  intros Hn. unfold place. cbn [set_own set_gdl gh_dl gh_data].
  rewrite dl_lookup_last by done. cbn [group_new fst snd dlb_lba dlb_pba ent_lookup dlt_lpa dlt_ppa].
  rewrite (Z.eqb_sym lpa x). destruct (x =? lpa) eqn:E; zbool; [subst; by rewrite Z.eqb_refl|].
  destruct (lpa / nr_pgsinblk g =? x / nr_pgsinblk g) eqn:E'; zbool; [|done].
  assert (Hnone : dl_lookup g (gh_dl G) x = None); [|by rewrite Hnone].
  rewrite <- (app_nil_r (gh_dl G)). rewrite dl_lookup_skip; [done|]. by rewrite <- E'.
Qed.

(** The next page of a log block is no page yet. *)
Lemma place_below s G gs1 h es gs2 x c q :
  ftl g s G -> gh_dl G = gs1 ++ (h, es) :: gs2 -> place g G x = Some (c, q) -> (c, q) <> (dlb_pba h, dlb_used h).
Proof.
  intros HF Hdl Hw [= -> ->]. pose proof (ft_dl _ _ _ HF) as Hok. rewrite Hdl in Hok.
  pose proof (fi_own _ _ _ _ _ (mi_inv _ _ _ _ (ft_mt _ _ _ HF))) as Ho.
  destruct (ow_dl _ _ _ Ho h es) as [_ Hr]; [rewrite Hdl; set_solver|].
  unfold place in Hw. rewrite Hdl in Hw.
  rewrite (dl_lookup_mid g gs1 h es gs2) in Hw by apply (dk_nodup _ _ _ Hok).
  assert (Hdata : forall i, gh_data G i <> Some (dlb_pba h)).
  { intros i E. destruct (ow_data _ _ _ Ho _ _ E). congruence. }
  destruct (dlb_lba h =? x / nr_pgsinblk g) eqn:E; zbool.
  - destruct (ent_lookup es x) as [q'|] eqn:El.
    + injection Hw as Hq. pose proof (ent_lookup_range g _ _ _ _ (dl_ok_group _ _ _ _ _ _ Hok) El). lia.
    + destruct (gh_data G _) as [b|] eqn:Eb; [|done]. injection Hw as -> _. by eapply Hdata.
  - destruct (dl_lookup g (gs1 ++ gs2) x) as [[b q']|] eqn:El.
    + injection Hw as -> ->. apply dl_lookup_In in El as (h' & es' & Hin & Hb & Hi & _).
      * destruct (ow_dl _ _ _ Ho h' es') as [_ Hr']; [rewrite Hdl; set_solver|]. rewrite Hb in Hr'. congruence.
      * pose proof (dk_groups _ _ _ Hok) as Hg. apply Forall_app in Hg as [? Hg].
        apply Forall_app. split; [done|]. by inversion Hg.
    + destruct (gh_data G _) as [b|] eqn:Eb; [|done]. injection Hw as -> _. by eapply Hdata.
Qed.

(** ** What a write does to the logical pages *)
Definition wrote w G w' G' lpa (d : list Z) : Prop :=
  logical g w' G' lpa = Some d /\ forall x, x <> lpa -> keeps_page g w G w' G' x.

Lemma wrote_after w1 G1 w2 G2 w3 G3 lpa d :
  wrote w1 G1 w2 G2 lpa d -> preserved g w2 G2 w3 G3 -> wrote w1 G1 w3 G3 lpa d.
Proof.
  intros [H1 H2] Hp. split.
  - specialize (Hp lpa). unfold keeps_page in Hp. by rewrite H1 in Hp.
  - intros x Hx. eapply keeps_page_trans; [by apply H2|apply Hp].
Qed.
Lemma wrote_before w1 G1 w2 G2 w3 G3 lpa d :
  preserved g w1 G1 w2 G2 -> wrote w2 G2 w3 G3 lpa d -> wrote w1 G1 w3 G3 lpa d.
Proof.
  intros Hp [H1 H2]. split; [done|]. intros x Hx. eapply keeps_page_trans; [apply Hp|by apply H2].
Qed.
(** Page [lpa] holds [d], and every other page what it held. *)
Definition wrote_only w G w' G' lpa (d : list Z) : Prop :=
  forall x, logical g w' G' x = if x =? lpa then Some d else logical g w G x.
Lemma wrote_only_wrote w G w' G' lpa d : wrote_only w G w' G' lpa d -> wrote w G w' G' lpa d.
Proof.
  intros H. split; [by rewrite H, Z.eqb_refl|]. intros x Hx. unfold keeps_page. rewrite H.
  destruct (x =? lpa) eqn:E; zbool; [done|]. destruct (logical g w G x); [done|by right].
Qed.
Lemma wrote_pages_only w G w' G' lpa b p d :
  (forall x, place g G' x = if x =? lpa then Some (b, p) else place g G x) ->
  (forall x c q, x <> lpa -> place g G x = Some (c, q) -> nd_page w' c q = nd_page w c q) ->
  fst (nd_page w' b p) = d -> wrote_only w G w' G' lpa d.
Proof.
  intros Hp Hw Hd x. unfold logical. rewrite Hp. destruct (x =? lpa) eqn:E; zbool; [cbn; by rewrite Hd|].
  specialize (Hw x). destruct (place g G x) as [[c q]|]; [|done]. cbn. by rewrite Hw.
Qed.
Lemma wrote_pages w G w' G' lpa b p d :
  (forall x, place g G' x = if x =? lpa then Some (b, p) else place g G x) ->
  (forall x c q, x <> lpa -> place g G x = Some (c, q) -> nd_page w' c q = nd_page w c q) ->
  fst (nd_page w' b p) = d -> wrote w G w' G' lpa d.
Proof. intros Hp Hw Hd. eapply wrote_only_wrote, wrote_pages_only; [exact Hp|exact Hw|exact Hd]. Qed.

(** ** The resources of a write *)

(** Enough for [k] more writes. *)
Definition reserve (k : Z) s G : Prop := room (k + 3) s G /\ k + 9 <= stock s G.
Definition MAX_RESERVE : Z := 17.

Lemma reserve_shrunk k s G s' G' : k <= MAX_RESERVE -> reserve k s G -> shrunk g s G s' G' -> reserve k s' G'.
Proof.
  intros Hk [H1 H2] H. split; [|pose proof (sh_stock _ _ _ _ _ H); lia].
  apply (sh_room _ _ _ _ _ H); [unfold MAX_RESERVE, MINI_FREE_BLOCK in *; lia|done].
Qed.
Lemma reserve_mergeable s G : reserve 0 s G -> mergeable s G.
Proof. intros [H1 H2]. split; [by eapply room_mono|lia]. Qed.
Lemma reserve_nfree k s G dm : mt_inv g s G dm -> 1 <= k -> reserve k s G -> 4 <= nfree s.
Proof.
  intros HI Hk [H1 H2]. pose proof (stock_spare g _ _ _ HI). apply (room_free (k + 3) 4 s G); [done|lia|lia].
Qed.

(** No log block has more than [u] pages written. *)
Definition used_max (u : Z) G : Prop := forall h es, (h, es) ∈ gh_dl G -> dlb_used h <= u.
Lemma used_max_sublist u G G' : sublist (gh_dl G') (gh_dl G) -> used_max u G -> used_max u G'.
Proof. intros Hs Hu h es Hin. apply (Hu h es). eapply sublist_subseteq; [exact Hs|done]. Qed.

(** What the write of [lpa] does to the log blocks: the page went to a log block
    of its logical block, to a new one, or the logical block has a data block
    now; others may have been merged. *)
Record recorded G lpa G' : Prop := {
  rc_other : forall h es, (h, es) ∈ gh_dl G' -> dlb_lba h <> lpa / nr_pgsinblk g -> (h, es) ∈ gh_dl G;
  rc_this : forall h es, (h, es) ∈ gh_dl G' -> dlb_lba h = lpa / nr_pgsinblk g ->
    (exists h0 es0, (h0, es0) ∈ gh_dl G /\ dlb_lba h0 = lpa / nr_pgsinblk g /\ (h, es) = group_write h0 es0 lpa) \/
    (exists b, (h, es) = group_new g lpa b /\
       (lpa / nr_pgsinblk g ∉ logged G \/ gh_data G' (lpa / nr_pgsinblk g) <> None));
  rc_mapped : forall l, gh_data G l <> None -> gh_data G' l <> None;
  rc_same : forall l, l ∈ logged G' -> l <> lpa / nr_pgsinblk g -> gh_data G' l = gh_data G l;
  rc_touched : forall l, touched G' l <-> touched G l \/ l = lpa / nr_pgsinblk g
}.
Lemma recorded_drained G lpa G1 G2 : recorded G lpa G1 -> drained G1 G2 -> recorded G lpa G2.
Proof.
  intros [A1 A2 A3 A5 A4] [B1 B2 B5 B3]. split; [auto| |auto| |intros l; by rewrite B3].
  2:{ intros l Hl Hne. rewrite B5 by done. apply A5; [|done].
      destruct (group_logged _ _ Hl) as (h & es & Hin & <-). by eapply logged_group, B1. }
  intros h es Hin Hl. destruct (A2 h es (B1 _ Hin) Hl) as [?|(b & E & Hor)]; [by left|right].
  exists b. split; [done|]. destruct Hor as [?|?]; [by left|right; auto].
Qed.
Lemma drained_recorded G lpa G1 G2 : drained G G1 -> recorded G1 lpa G2 -> recorded G lpa G2.
Proof.
  intros [A1 A2 A5 A3] [B1 B2 B3 B5 B4]. split; [auto| |auto| |intros l; by rewrite B4, A3].
  2:{ intros l Hl Hne. rewrite B5 by done. apply A5.
      destruct (group_logged _ _ Hl) as (h & es & Hin & <-). by eapply logged_group, B1. }
  intros h es Hin Hl. destruct (B2 h es Hin Hl) as [(h0 & es0 & Hin0 & ?)|(b & E & Hor)].
  - left. exists h0, es0. split; [auto|done].
  - right. exists b. split; [done|]. destruct Hor as [Hn|?]; [|by right].
    destruct (decide (lpa / nr_pgsinblk g ∈ logged G)) as [Hin'|?]; [right|by left].
    destruct (proj2 (A3 (lpa / nr_pgsinblk g)) (or_intror Hin')) as [?|?]; [auto|done].
Qed.

(** The state after a write: [d] is the page written. *)
Record written s G lpa (d : list Z) s' G' : Prop := {
  wr_ftl : ftl g s' G';
  wr_maxlp : n_maxlp s' = n_maxlp s;
  wr_cnt : mt_blkcnt (n_mt s') = mt_blkcnt (n_mt s);
  wr_pages : wrote (world s) G (world s') G' lpa d;
  wr_reserve : forall k, 1 <= k <= MAX_RESERVE -> reserve k s G -> reserve (k - 1) s' G';
  wr_blocks : arr_len (gh_dl G') <= arr_len (gh_dl G) + 1;
  wr_ents : arr_len (ents (gh_dl G')) <= arr_len (ents (gh_dl G)) + 1;
  wr_used : forall u, 0 <= u -> used_max u G -> used_max (u + 1) G';
  wr_busy : forall b, gh_own G' b = RBusy -> gh_own G b = RBusy;
  wr_bad : nd_bad (world s') = nd_bad (world s);
  wr_log : recorded G lpa G'
}.

Lemma sublist_ents (gs gs' : list dl_group) : sublist gs' gs -> arr_len (ents gs') <= arr_len (ents gs).
Proof.
  induction 1 as [|[h es] l1 l2 _ IH|[h es] l1 l2 _ IH]; [done| |]; rewrite !ents_cons, !arr_len_app; [lia|].
  pose proof (arr_len_nonneg es). lia.
Qed.
Lemma sublist_arr_len (gs gs' : list dl_group) : sublist gs' gs -> arr_len gs' <= arr_len gs.
Proof. intros H%sublist_length. unfold arr_len. lia. Qed.
Lemma dl_open_sublist G G' : sublist (gh_dl G') (gh_dl G) -> dl_open g G -> dl_open g G'.
Proof. intros Hs Ho h es Hin. apply (Ho h es). eapply sublist_subseteq; [exact Hs|done]. Qed.

Lemma written_shrunk s G lpa d s1 G1 s2 G2 :
  written s G lpa d s1 G1 -> shrunk g s1 G1 s2 G2 -> written s G lpa d s2 G2.
Proof.
  intros [A1 A2 A3 A4 A5 A6 A7 A8 A9 A10 A11] H. pose proof (sublist_ents _ _ (sh_dl _ _ _ _ _ H)).
  pose proof (sublist_arr_len _ _ (sh_dl _ _ _ _ _ H)). pose proof H as [B1 B2 B3 B4 B5 B6 B7 B8 B9 B10].
  split; [done|congruence|congruence|by eapply wrote_after| |lia|lia| |auto|congruence|by eapply recorded_drained].
  - intros k Hk Hr. eapply reserve_shrunk; [lia|by apply A5|done].
  - intros u Hpos Hu. eapply used_max_sublist; [exact B2|by apply A8].
Qed.
Lemma shrunk_written s G lpa d s1 G1 s2 G2 :
  shrunk g s G s1 G1 -> written s1 G1 lpa d s2 G2 -> written s G lpa d s2 G2.
Proof.
  intros H [A1 A2 A3 A4 A5 A6 A7 A8 A9 A10 A11]. pose proof (sublist_ents _ _ (sh_dl _ _ _ _ _ H)).
  pose proof (sublist_arr_len _ _ (sh_dl _ _ _ _ _ H)). pose proof H as [B1 B2 B3 B4 B5 B6 B7 B8 B9 B10].
  split; [done|congruence|congruence|by eapply wrote_before| |lia|lia| |auto|congruence|by eapply drained_recorded].
  - intros k Hk Hr. apply A5; [done|]. eapply reserve_shrunk; [lia|done|done].
  - intros u Hpos Hu. apply A8; [done|]. by eapply used_max_sublist.
Qed.

(** The three ways a page is recorded. *)
Lemma recorded_insert gs1 h es gs2 G lpa :
  NoDup (logged G) -> gh_dl G = gs1 ++ (h, es) :: gs2 -> lpa / nr_pgsinblk g = dlb_lba h ->
  recorded G lpa (set_gdl (gs1 ++ group_write h es lpa :: gs2) G).
Proof.
  intros Hnd Hdl Hlba.
  assert (Hsame : logged (set_gdl (gs1 ++ group_write h es lpa :: gs2) G) = logged G)
    by (unfold logged; rewrite Hdl; cbn; by rewrite !map_app).
  assert (Hin : forall h' es', (h', es') ∈ gs1 ++ group_write h es lpa :: gs2 ->
    (h', es') = group_write h es lpa \/ (h', es') ∈ gs1 ++ gs2) by set_solver.
  split; cbn [set_gdl gh_dl gh_data].
  - intros h' es' [[= -> ->]|Hi]%Hin Hne; [done|]. rewrite Hdl. set_solver.
  - intros h' es' [E|Hi]%Hin He; left; [exists h, es; split_and!; [rewrite Hdl; set_solver|done|done]|].
    exfalso. destruct (groups_other g geo (gh_dl G) gs1 h es gs2 Hnd Hdl h' es' Hi). congruence.
  - done.
  - done.
  - intros l. unfold touched. rewrite Hsame. cbn [set_gdl gh_data]. split; [by left|]. intros [?| ->]; [done|right].
    rewrite Hlba. apply (logged_group G h es). rewrite Hdl. set_solver.
Qed.
Lemma recorded_append G b lpa :
  lpa / nr_pgsinblk g ∉ logged G ->
  recorded G lpa (set_own b (RDl (lpa / nr_pgsinblk g)) (set_gdl (gh_dl G ++ [group_new g lpa b]) (set_own b RBusy G))).
Proof.
  intros Hn. split; cbn [set_own set_gdl gh_dl gh_data].
  - intros h es [?|[= -> ->]%list_elem_of_singleton]%elem_of_app Hne; done.
  - intros h es [Hin|Hin%list_elem_of_singleton]%elem_of_app He.
    + exfalso. apply Hn. rewrite <- He. by eapply logged_group.
    + right. exists b. split; [done|by left].
  - done.
  - done.
  - intros l. unfold touched, logged. cbn [set_own set_gdl gh_dl gh_data]. rewrite map_app, elem_of_app.
    cbn [map group_new fst dlb_lba]. rewrite list_elem_of_singleton. tauto.
Qed.
Lemma recorded_convert gs1 h es gs2 G G' lpa b :
  NoDup (logged G) -> gh_dl G = gs1 ++ (h, es) :: gs2 -> lpa / nr_pgsinblk g = dlb_lba h ->
  gh_dl G' = gs1 ++ gs2 -> gh_data G' = upd (gh_data G) (dlb_lba h) (Some b) -> recorded G lpa G'.
Proof.
  intros Hnd Hdl Hlba Hdl' Hdata. destruct (drained_merged g geo G G' gs1 h es gs2 b Hnd Hdl Hdl' Hdata) as [D1 D2 D4 D3]. split.
  - intros h' es' Hin _. auto.
  - intros h' es' Hin He. exfalso. rewrite Hdl' in Hin.
    destruct (groups_other g geo (gh_dl G) gs1 h es gs2 Hnd Hdl h' es' Hin). congruence.
  - done.
  - auto.
  - intros l. rewrite D3. split; [by left|]. intros [?| ->]; [done|]. rewrite Hlba. right.
    apply (logged_group G h es). rewrite Hdl. set_solver.
Qed.

(** ** The end of a write *)

(** The log block just written is merged when it is full. *)
Definition tail_merge (index : Z) : M (nftl W) (Z + Z) :=
  let! blk := onD (dl_block index) in
  if dlb_used blk =? nr_pgsinblk g then
    let! e := nftl_merge_dlblk g index in
    if truth e then ret (inr (u8 (-1))) else ret (inl e)
  else ret (inl 0).

Lemma tail_merge_run s G gs1 h es gs2 :
  ftl g s G -> gh_dl G = gs1 ++ (h, es) :: gs2 -> mergeable s G ->
  (forall h' es', (h', es') ∈ gs1 ++ gs2 -> dlb_used h' < nr_pgsinblk g) ->
  wp (tail_merge (arr_len gs1)) (fun r s' => r = inl 0 /\ exists G', shrunk g s G s' G' /\ dl_open g G') s.
Proof.
  intros HF Hdl Hm Hopen. pose proof (ft_dl _ _ _ HF) as Hok. rewrite Hdl in Hok.
  unfold tail_merge. apply wp_bind. unfold wp at 1. rewrite (onD_run _ _ _ (dl_block_mid g _ _ _ _ _ Hok)).
  destruct (dlb_used h =? nr_pgsinblk g) eqn:E; zbool.
  - apply wp_bind. destruct Hm as [Hr Hs].
    eapply wp_mono; [by apply (nftl_merge_dlblk_run g geo s G gs1 h es gs2)|].
    intros r s' (-> & G' & HM & Hst). apply wp_ret. split; [done|]. exists G'. split; [eapply (shrunk_merged g geo); [apply (ft_dl _ _ _ HF)|done..]|].
    intros h' es'. rewrite (mg_dl _ _ _ _ _ _ _ HM). apply Hopen.
  - apply wp_ret. split; [done|]. exists G. split; [by apply shrunk_refl|].
    intros h' es'. rewrite Hdl. intros Hin.
    assert ((h', es') = (h, es) \/ (h', es') ∈ gs1 ++ gs2) as [[= -> ->]|Hin'] by set_solver; [|by eapply Hopen].
    pose proof (go_used _ _ (dl_ok_group _ _ _ _ _ _ Hok)). cbn in *. lia.
Qed.

(** After DEL_OPERATION the index names the next log block, or none. *)
Lemma tail_merge_open s G index :
  ftl g s G -> dl_open g G -> 0 <= index < DL_MAX_BLOCKS -> tail_merge index s = Done (inl 0) s.
Proof.
  intros HF Hopen Hi. pose proof (ngp g geo). pose proof (ft_dl _ _ _ HF) as Hok.
  unfold tail_merge, bind. assert (Hb : exists h, dl_block index (n_dl s) = Done h (n_dl s) /\ dlb_used h <> nr_pgsinblk g).
  { destruct (decide (index < dl_blkcnt (n_dl s))) as [Hlt|Hge].
    - destruct (dl_block_at g _ _ index Hok) as (h & es & Hg & Hb); [lia|]. exists h. split; [done|].
      destruct (arr_get_split _ _ _ Hg) as (gs1 & gs2 & Hdl & _).
      assert (Hlt' : dlb_used h < nr_pgsinblk g) by (apply (Hopen h es); rewrite Hdl; set_solver). lia.
    - destruct (arr_get_in (dl_blocktab (n_dl s)) index) as [h Hh]; [by rewrite (dk_blen _ _ _ Hok)|].
      exists h. split; [by apply dl_block_run|]. rewrite (ft_tail _ _ _ HF index h); [lia|lia|done]. }
  destruct Hb as (h & Hb & Hne). rewrite (onD_run _ _ _ Hb). apply Z.eqb_neq in Hne. by rewrite Hne.
Qed.

Lemma low_space_written s G lpa d s1 G1 :
  written s G lpa d s1 G1 -> dl_open g G1 -> mergeable s1 G1 ->
  wp (low_space g 0) (fun r s' => r = 0 /\ exists G', written s G lpa d s' G' /\ dl_open g G') s1.
Proof.
  intros Hw Ho Hm. eapply wp_mono; [apply (low_space_run g geo s1 G1 (wr_ftl _ _ _ _ _ _ Hw) Hm)|].
  intros r s' (-> & G' & Hs). split; [done|]. exists G'. split; [by eapply written_shrunk|].
  eapply dl_open_sublist; [apply Hs|done].
Qed.

(** ** Where the page goes *)

(** The log block holds the first [n - 1] pages in order and nothing else
    fits: one page more makes it a data block. *)
Definition in_sequence (h : dl_blockinfo) es : Prop :=
  dlb_used h = nr_pgsinblk g - 1 /\
  forall i, 0 <= i < nr_pgsinblk g - 1 -> ent_lookup es (dlb_lba h * nr_pgsinblk g + i) = Some i.

Lemma in_order_run s gs1 h es gs2 fact0 :
  dl_ok g (n_dl s) (gs1 ++ (h, es) :: gs2) -> nr_pgsinblk g <= arr_len fact0 ->
  wp (in_order g (dlb_lba h) (arr_len gs1) h fact0) (fun r s' => s' = s /\
    (r = true <-> forall i, 0 <= i < nr_pgsinblk g - 1 -> ent_lookup es (dlb_lba h * nr_pgsinblk g + i) = Some i)) s.
Proof.
  intros Hok Hlen. pose proof (ngp g geo). pose proof (dl_ok_group _ _ _ _ _ _ Hok) as Hge.
  unfold in_order. apply wp_bind. unfold wp at 1. rewrite (dl_offset_run g s gs1 ((h, es) :: gs2)) by done.
  assert (Hstart : u32 (dlb_lba h * nr_pgsinblk g) = dlb_lba h * nr_pgsinblk g).
  { apply u32_id. rewrite <- (Z.add_0_r (_ * _)). apply (group_start g geo h es); [done|lia]. }
  rewrite Hstart. apply wp_bind.
  apply (wp_for_range (fun i s' => s' = s /\ forall j, 0 <= j < i ->
    ent_lookup es (dlb_lba h * nr_pgsinblk g + j) = Some j)); [lia|split; [done|lia]| |].
  - intros i s' Hi [-> Hj]. apply wp_bind. unfold wp at 1.
    rewrite (dl_fact_run g s gs1 h es gs2) by (done || (apply (group_start g geo h es); [done|lia])).
    apply wp_bind, wp_assert_some. rewrite arr_set_in by lia. eexists. split; [done|].
    destruct (default 0xff (ent_lookup es (dlb_lba h * nr_pgsinblk g + i)) =? i) eqn:E; zbool.
    + apply wp_ret. split; [done|]. intros j Hj'. destruct (decide (j = i)) as [->|Hne]; [|apply Hj; lia].
      destruct (ent_lookup es _) as [q|] eqn:Eq; cbn in E; [by subst|lia].
    + apply wp_ret, wp_ret. split; [done|]. split; [done|]. intros Hall. rewrite Hall in E by done. done.
  - intros s' [-> Hj]. apply wp_ret. split; [done|]. split; [|done]. intros _ i Hi. by apply Hj.
Qed.

Lemma dl_target_hit s G gs1 h es gs2 fact0 :
  ftl g s G -> gh_dl G = gs1 ++ (h, es) :: gs2 -> nr_pgsinblk g <= arr_len fact0 ->
  wp (dl_target g (dlb_lba h) fact0) (fun t s' => s' = s /\
    ((in_sequence h es /\ t = MkTarget (dlb_pba h) (dlb_used h) DEL_OPERATION (arr_len gs1) true) \/
     (~ in_sequence h es /\ t = MkTarget (dlb_pba h) (dlb_used h) INSERT_OPERATION (arr_len gs1) false))) s.
Proof.
  intros HF Hdl Hlen. pose proof (ft_dl _ _ _ HF) as Hok. rewrite Hdl in Hok.
  unfold dl_target. apply wp_bind. unfold wp at 1. rewrite (onD_run _ _ _ (nftl_find_lba_in_dl_hit g _ _ _ _ _ Hok)).
  apply wp_bind. unfold wp at 1. rewrite (onD_run _ _ _ (dl_block_mid g _ _ _ _ _ Hok)). apply wp_bind.
  destruct (dlb_used h =? nr_pgsinblk g - 1) eqn:E; zbool.
  - eapply wp_mono; [by eapply in_order_run|]. intros r s' [-> Hr]. apply wp_ret. split; [done|].
    destruct r; [left|right]; (split; [|done]).
    + split; [done|]. by apply Hr.
    + intros [_ Hs]. by apply Hr in Hs.
  - apply wp_ret, wp_ret. split; [done|]. right. split; [|done]. by intros [? _].
Qed.

Lemma dl_target_miss s G lba fact0 (Q : write_target -> nftl W -> Prop) :
  ftl g s G -> lba ∉ map (fun ge : dl_group => dlb_lba ge.1) (gh_dl G) -> 0 < nfree s ->
  (forall b s', ftl g s' (set_own b RBusy G) -> in_chip g b -> gh_own G b = RFree ->
     s' = with_alloc (n_alloc s') s -> stock s' (set_own b RBusy G) = stock s G - 1 ->
     (forall k, room k s G -> room (k - 1) s' (set_own b RBusy G)) ->
     (forall p, on_chip g b p -> nd_erased (world s) b p) ->
     Q (MkTarget b 0 APPEND_OPERATION (arr_len (gh_dl G)) false) s') ->
  wp (dl_target g lba fact0) Q s.
Proof.
  intros HF Hn Hf HQ. pose proof (ft_dl _ _ _ HF) as Hok.
  unfold dl_target. apply wp_bind. unfold wp at 1. rewrite (onD_run _ _ _ (nftl_find_lba_in_dl_miss g _ _ _ Hok Hn)).
  apply wp_bind, wp_gets, wp_bind. apply (get_free_run g s G); [done|done|].
  intros b s' H1 H2 H3 H4 H5 H6 H7. apply wp_ret. rewrite (lr_blkcnt _ _ _ _ _ _ (dk_rep _ _ _ Hok)). by apply HQ.
Qed.

(** Page [p] of block [b] was programmed. *)
Record page_write s b p (buf spare : list Z) (f : flash W) : Prop := {
  pw_only : only_page g (world s) (fl_world f) b p;
  pw_page : nd_page (fl_world f) b p = (take (Z.to_nat (writesize g)) buf, take (Z.to_nat (oobsize g)) spare);
  pw_quiet : fl_corrected f <= ECC_ERR_LIMIT;
  pw_run : exists len, mtd_write g b p buf spare 1 (n_flash s) = Done (0, len) f
}.
Lemma pw_data s b p buf spare f : page_write s b p buf spare f ->
  fst (nd_page (fl_world f) b p) = take (Z.to_nat (writesize g)) buf.
Proof. intros H. by rewrite (pw_page _ _ _ _ _ _ H). Qed.

Lemma page_write_run s G b p buf spare :
  inv g s G -> on_chip g b p -> nd_erased (world s) b p -> writesize g <= arr_len buf -> oobsize g <= arr_len spare ->
  quiet s -> exists f, mtd_write g b p buf spare 1 (n_flash s) = Done (0, u32 (writesize g + oobsize g)) f /\
    page_write s b p buf spare f.
Proof.
  intros HI Hc He Hb Ho Hq.
  destruct (mtd_write_run g geo b p buf spare (n_flash s) (fi_inv _ _ _ _ _ HI) Hc Hb Ho) as (e & len & f & H1 & H2 & H3 & H4).
  specialize (H4 (fi_wgood _ _ _ _ _ HI)). subst e. destruct (H3 He eq_refl) as [H5 ->].
  exists f. split; [done|]. split; [done|done| |by eexists]. rewrite (mtd_write_corrected _ _ _ _ _ _ _ _ _ H1). exact Hq.
Qed.
Lemma dl_write_run s G t buf spare (Q : Z -> nftl W -> Prop) :
  inv g s G -> on_chip g (wt_block t) (wt_page t) -> nd_erased (world s) (wt_block t) (wt_page t) ->
  writesize g <= arr_len buf -> oobsize g <= arr_len spare -> quiet s ->
  (forall f, page_write s (wt_block t) (wt_page t) buf spare f -> Q (wt_block t) (with_flash f s)) ->
  wp (dl_write g t buf spare) Q s.
Proof.
  intros HI Hc He Hb Ho Hq HQ. pose proof (ngp g geo). unfold dl_write.
  rewrite u8_id by (destruct Hc; unfold in_u8; lia).
  destruct (page_write_run s G (wt_block t) (wt_page t) buf spare HI Hc He Hb Ho Hq) as (f & H1 & H2).
  apply wp_bind. unfold wp at 1. rewrite (onF_run _ _ _ _ H1). cbn [fst truth Z.eqb negb]. by apply wp_ret, HQ.
Qed.

(** The spare area names the logical page and the kind of block. *)
Definition page_spare (t : block_state) lpa (spare : list Z) : Prop :=
  si_blocktype (take (Z.to_nat (oobsize g)) spare) = block_state_code t /\
  si_lpa (take (Z.to_nat (oobsize g)) spare) = lpa.
Lemma page_spare_set t lpa junk : in_u32 lpa -> oobsize g <= arr_len junk ->
  page_spare t lpa (set_lpa lpa (set_blocktype (block_state_code t) junk)).
Proof.
  intros Hl Hj. pose proof (ng_oob g geo). unfold page_spare.
  assert (Hok : spare_ok junk) by (unfold spare_ok, arr_len in *; lia).
  destruct (si_take (Z.to_nat (oobsize g)) (set_lpa lpa (set_blocktype (block_state_code t) junk)))
    as (-> & -> & _); [lia|].
  rewrite si_blocktype_set_lpa, si_blocktype_set, si_lpa_set, u32_id by auto with spare. by destruct t.
Qed.
Lemma pw_spare s b p buf spare f t lpa : page_write s b p buf spare f -> page_spare t lpa spare ->
  page_type g (fl_world f) b p = block_state_code t /\ si_lpa (spare_at g (fl_world f) b p) = lpa.
Proof. intros H [S1 S2]. unfold page_type, spare_at. by rewrite (pw_page _ _ _ _ _ _ H). Qed.

(** The writing proper, once the target is known. *)
Definition write_to (t : write_target) (lpa : Z) (databuff spare : list Z) (pba0 : Z) : M (nftl W) Z :=
  let! tempblock := dl_write g t databuff spare in
  let! c := (if wt_convert t then convert_block g (u16 (lpa / nr_pgsinblk g)) tempblock pba0 else ret 0) in
  if truth c then ret (u8 (-1))
  else
    let! r := dl_record g t lpa tempblock in
    match r with inr e => ret e | inl e => low_space g e end.

(** What follows the programming of the page and the update of the table. *)
Definition write_rest (index : Z) : M (nftl W) Z :=
  let! r := tail_merge index in
  match r with inr e => ret e | inl e => low_space g e end.
Lemma write_rest_run s G lpa d s1 G1 gs1 h es gs2 :
  written s G lpa d s1 G1 -> gh_dl G1 = gs1 ++ (h, es) :: gs2 -> mergeable s1 G1 ->
  (forall h' es', (h', es') ∈ gs1 ++ gs2 -> dlb_used h' < nr_pgsinblk g) ->
  wp (write_rest (arr_len gs1)) (fun r s' => r = 0 /\ exists G', written s G lpa d s' G' /\ dl_open g G') s1.
Proof.
  intros HW Hdl Hm Ho. unfold write_rest. apply wp_bind.
  eapply wp_mono; [by apply (tail_merge_run s1 G1 gs1 h es gs2 (wr_ftl _ _ _ _ _ _ HW))|].
  intros r s3 (-> & G3 & Hs3 & Ho3). apply (low_space_written _ _ _ _ _ G3); [by eapply written_shrunk|done|].
  by eapply mergeable_shrunk.
Qed.

(** ** The next page of a log block *)
Lemma write_insert_core s G gs1 h es gs2 lpa buf spare pba0 (Q : Z -> nftl W -> Prop) :
  ftl g s G -> dl_open g G -> gh_dl G = gs1 ++ (h, es) :: gs2 -> lpa / nr_pgsinblk g = dlb_lba h -> in_u32 lpa ->
  writesize g <= arr_len buf -> oobsize g <= arr_len spare -> page_spare DATA_LOG_BLOCK lpa spare ->
  arr_len (ents (gh_dl G)) < DL_MAX_PAGES ->
  (forall f d', let s2 := with_dl d' (with_flash f s) in let G' := set_gdl (gs1 ++ group_write h es lpa :: gs2) G in
     page_write s (dlb_pba h) (dlb_used h) buf spare f ->
     written s G lpa (take (Z.to_nat (writesize g)) buf) s2 G' ->
     wrote_only (world s) G (world s2) G' lpa (take (Z.to_nat (writesize g)) buf) ->
     wp (write_rest (arr_len gs1)) Q s2) ->
  wp (write_to (MkTarget (dlb_pba h) (dlb_used h) INSERT_OPERATION (arr_len gs1) false) lpa buf spare pba0) Q s.
Proof.
  intros HF Hopen Hdl Hlba Hl Hb Hsp Hsl Hpc HQ. pose proof (ngp g geo).
  pose proof HF as [F1 F2 F3 F4 F5 F6 F7]. pose proof (mi_inv _ _ _ _ F1) as HI. pose proof F3 as Hok. rewrite Hdl in Hok.
  assert (Hin : (h, es) ∈ gh_dl G) by (rewrite Hdl; set_solver).
  destruct (ow_dl _ _ _ (fi_own _ _ _ _ _ HI) _ _ Hin) as [Hc Ho]. pose proof (Hopen _ _ Hin) as Hu.
  pose proof (go_used _ _ (dl_ok_group _ _ _ _ _ _ Hok)) as Hv. cbn in Hv.
  pose proof (go_valid _ _ (dl_ok_group _ _ _ _ _ _ Hok)) as Hv'. cbn in Hv'. pose proof (arr_len_nonneg es).
  unfold write_to. apply wp_bind. eapply (dl_write_run _ G); cbn [wt_block wt_page wt_convert];
    [exact HI|split; [done|lia]| |done|done|apply F1|].
  { apply (er_dl _ _ _ _ (fi_erased _ _ _ _ _ HI) h es); [done|split; [done|lia]|lia]. }
  intros f Hpw. pose proof Hpw as [Hop _ Hcor _]. pose proof (pw_data _ _ _ _ _ _ Hpw) as Hpg. apply wp_bind, wp_ret. change (truth 0) with false. cbv iota. apply wp_bind.
  unfold dl_record. cbn [wt_operation wt_index]. apply wp_bind.
  assert (Hpc' : dl_pgcnt (n_dl s) < DL_MAX_PAGES) by by rewrite (lr_pgcnt _ _ _ _ _ _ (dk_rep _ _ _ F3)).
  destruct (nftl_update_dl_ram_insert g (n_dl s) gs1 h es gs2 lpa (dlb_pba h) Hok Hl Hlba Hu Hpc') as (d' & Hd & Hok2).
  unfold onD at 1. apply wp_zoom. unfold wp at 1. cbn [n_dl with_flash]. rewrite Hd.
  set (G' := set_gdl (gs1 ++ group_write h es lpa :: gs2) G). set (s2 := with_dl d' (with_flash f s)).
  pose proof (dk_nodup _ _ _ F3) as Hnd.
  assert (HF2 : ftl g s2 G').
  { split.
    - apply mt_inv_dl. eapply mt_inv_write; [exact F1|exact Hop|by intros i; rewrite Ho| | | | | | |exact Hcor]; try done.
      eapply (write_dl_insert (world s)); [exact HI|done|done|exact Hop|].
      apply (dl_stored_grow g (world s)); [|done|done|done|exact Hop|by apply (pw_spare _ _ _ _ _ _ _ _ Hpw Hsl)].
      apply (td_dl _ _ _ _ (tl_told _ _ _ _ (fi_tells _ _ _ _ _ HI))). exact Hin.
    - exact F2.
    - exact Hok2.
    - intros h' es' Hin'. change (mt_blkcnt (n_mt s2)) with (mt_blkcnt (n_mt s)).
      assert ((h', es') = group_write h es lpa \/ (h', es') ∈ gs1 ++ gs2) as [[= -> _]|Hin2] by set_solver.
      + by apply (F4 h es).
      + apply (F4 h' es'). rewrite Hdl. set_solver.
    - cbn. rewrite (lr_blkcnt _ _ _ _ _ _ (dk_rep _ _ _ F3)) in F5. rewrite (lr_blkcnt _ _ _ _ _ _ (dk_rep _ _ _ Hok2)).
      rewrite Hdl in F5. rewrite arr_len_app, arr_len_cons in *. exact F5.
    - eapply dl_tail_insert; [exact Hd|by eapply dl_mid_range|done].
    - exact F7. }
  assert (HX : wrote_only (world s) G (world s2) G' lpa (take (Z.to_nat (writesize g)) buf)).
  { eapply (wrote_pages_only _ _ _ _ lpa (dlb_pba h) (dlb_used h)); [by intros x; apply place_insert| |done].
    intros x c q _ Hx. apply (op_page _ _ _ _ _ Hop); [apply (place_user g geo s G x c q HF Hx)|exact (place_below s G gs1 h es gs2 x c q HF Hdl Hx)]. }
  assert (HW : written s G lpa (take (Z.to_nat (writesize g)) buf) s2 G').
  { split; [done|done|done| | | | | |done|apply (op_bad _ _ _ _ _ Hop)|by apply (recorded_insert gs1 h es gs2)].
    - by apply wrote_only_wrote.
    - intros k Hk [R1 R2]. split; [by eapply room_mono; [exact R1|lia]|]. change (stock s2 G') with (stock s G). lia.
    - change (gh_dl G') with (gs1 ++ group_write h es lpa :: gs2). rewrite Hdl, !arr_len_app, !arr_len_cons. lia.
    - change (gh_dl G') with (gs1 ++ group_write h es lpa :: gs2).
      rewrite Hdl, !ents_app. unfold group_write. rewrite !ents_cons, !arr_len_app.
      pose proof (ent_put_len es lpa (dlb_used h)). lia.
    - intros u Hpos Hm h' es' Hin'.
      assert ((h', es') = group_write h es lpa \/ (h', es') ∈ gs1 ++ gs2) as [[= -> _]|Hin2] by set_solver.
      + specialize (Hm h es Hin). cbn. lia.
      + enough (dlb_used h' <= u) by lia. apply (Hm h' es'). rewrite Hdl. set_solver. }
  specialize (HQ f d' Hpw HW HX). apply wp_bind in HQ. exact HQ.
Qed.
Lemma write_insert_run s G gs1 h es gs2 lpa buf spare pba0 :
  ftl g s G -> dl_open g G -> gh_dl G = gs1 ++ (h, es) :: gs2 -> lpa / nr_pgsinblk g = dlb_lba h -> in_u32 lpa ->
  writesize g <= arr_len buf -> oobsize g <= arr_len spare -> page_spare DATA_LOG_BLOCK lpa spare ->
  arr_len (ents (gh_dl G)) < DL_MAX_PAGES -> reserve 1 s G ->
  wp (write_to (MkTarget (dlb_pba h) (dlb_used h) INSERT_OPERATION (arr_len gs1) false) lpa buf spare pba0)
    (fun r s' => r = 0 /\ exists G', written s G lpa (take (Z.to_nat (writesize g)) buf) s' G' /\ dl_open g G') s.
Proof.
  intros HF Hopen Hdl Hlba Hl Hb Hsp Hsl Hpc Hres. apply (write_insert_core s G gs1 h es gs2); try done.
  intros f d' s2 G' Hpw HW _.
  pose proof (wr_reserve _ _ _ _ _ _ HW 1 ltac:(unfold MAX_RESERVE; lia) Hres) as Hres2. cbn in Hres2.
  apply (write_rest_run s G lpa _ s2 G' gs1 (group_write h es lpa).1 (group_write h es lpa).2 gs2);
    [done|done|by apply reserve_mergeable|].
  intros h' es' Hin'. apply (Hopen h' es'). rewrite Hdl. set_solver.
Qed.

(** ** The first page of a new log block *)
Lemma write_append_core s0 s G b lpa buf spare pba0 (Q : Z -> nftl W -> Prop) :
  let G1 := set_own b RBusy G in
  ftl g s0 G -> ftl g s G1 -> s = with_alloc (n_alloc s) s0 -> gh_own G b = RFree ->
  stock s G1 = stock s0 G - 1 -> (forall k, room k s0 G -> room (k - 1) s G1) ->
  dl_open g G -> in_chip g b -> (forall p, on_chip g b p -> nd_erased (world s0) b p) ->
  lpa / nr_pgsinblk g ∉ map (fun ge : dl_group => dlb_lba ge.1) (gh_dl G) -> 0 <= lpa < n_maxlp s0 ->
  writesize g <= arr_len buf -> oobsize g <= arr_len spare -> page_spare DATA_LOG_BLOCK lpa spare ->
  arr_len (gh_dl G) + 1 < DL_MAX_BLOCKS -> arr_len (ents (gh_dl G)) < DL_MAX_PAGES  ->
  (forall f d', let s2 := with_dl d' (with_flash f s) in
     let G' := set_own b (RDl (lpa / nr_pgsinblk g)) (set_gdl (gh_dl G ++ [group_new g lpa b]) G1) in
     page_write s b 0 buf spare f -> written s0 G lpa (take (Z.to_nat (writesize g)) buf) s2 G' ->
     wrote_only (world s0) G (world s2) G' lpa (take (Z.to_nat (writesize g)) buf) ->
     wp (write_rest (arr_len (gh_dl G))) Q s2) ->
  wp (write_to (MkTarget b 0 APPEND_OPERATION (arr_len (gh_dl G)) false) lpa buf spare pba0) Q s.
Proof.
  intros G1 HF0 HF Hs Hob Hst Hroom Hopen Hc He Hn Hr Hb Hsp Hsl Hbc Hpc HQ. pose proof (ngp g geo).
  pose proof HF as [F1 F2 F3 F4 F5 F6 F7]. pose proof (mi_inv _ _ _ _ F1) as HI.
  assert (Hw : world s = world s0) by by rewrite Hs.
  assert (Hmax : n_maxlp s = n_maxlp s0) by by rewrite Hs.
  assert (Hmt : n_mt s = n_mt s0) by by rewrite Hs.
  destruct (F7 lpa) as (Hl & Hl16 & Hl32); [by rewrite Hmax|].
  unfold write_to. apply wp_bind. eapply (dl_write_run _ G1); cbn [wt_block wt_page wt_convert];
    [exact HI|split; [done|lia]| |done|done|apply F1|].
  { rewrite Hw. apply He. split; [done|lia]. }
  intros f Hpw. pose proof Hpw as [Hop _ Hcor _]. pose proof (pw_data _ _ _ _ _ _ Hpw) as Hpg. apply wp_bind, wp_ret. change (truth 0) with false. cbv iota. apply wp_bind.
  unfold dl_record. cbn [wt_operation wt_index]. apply wp_bind.
  destruct (nftl_update_dl_ram_append g (n_dl s) (gh_dl G) (arr_len (gh_dl G)) lpa b F3 Hl32 Hl16) as (d' & Hd & Hok2);
    [pose proof (ng_blks g geo); unfold in_chip, in_u16, BLOCKSTATUS_LEN in *; lia
    |exact F5|by rewrite (lr_pgcnt _ _ _ _ _ _ (dk_rep _ _ _ F3))|done|].
  unfold onD at 1. apply wp_zoom. unfold wp at 1. cbn [n_dl with_flash]. rewrite Hd.
  set (G' := set_own b (RDl (lpa / nr_pgsinblk g)) (set_gdl (gh_dl G ++ [group_new g lpa b]) G1)).
  set (s2 := with_dl d' (with_flash f s)).
  assert (HF2 : ftl g s2 G').
  { split.
    - apply mt_inv_dl. eapply mt_inv_write; [exact F1|exact Hop| | | | | | | |exact Hcor]; try done.
      + intros i. unfold G1. by rewrite own_set_eq.
      + eapply (write_dl_append (world s) _ _ _ G1); [exact HI|done|apply own_set_eq|by rewrite Hw|exact Hop|].
        destruct (pw_spare _ _ _ _ _ _ _ _ Hpw Hsl). by apply (dl_stored_new g geo).
    - exact F2.
    - exact Hok2.
    - change (mt_blkcnt (n_mt s2)) with (mt_blkcnt (n_mt s)).
      intros h' es' [Hin|Hin%list_elem_of_singleton]%elem_of_app; [by apply (F4 h' es')|].
      injection Hin as -> _. exact Hl.
    - cbn. rewrite (lr_blkcnt _ _ _ _ _ _ (dk_rep _ _ _ Hok2)), arr_len_app. exact Hbc.
    - eapply dl_tail_append; [exact Hd| |done]. rewrite (lr_blkcnt _ _ _ _ _ _ (dk_rep _ _ _ F3)) in *.
      split; [apply arr_len_nonneg|done].
    - exact F7. }
  assert (HX : wrote_only (world s0) G (world s2) G' lpa (take (Z.to_nat (writesize g)) buf)).
  { eapply (wrote_pages_only _ _ _ _ lpa b 0); [by intros x; apply (place_append G1)| |done].
    intros x c q _ Hx. rewrite <- Hw. destruct (place_user g geo s0 G x c q HF0 Hx) as [Hcq Hor].
    apply (op_page _ _ _ _ _ Hop); [done|]. intros [= -> ->]. destruct Hor; congruence. }
  assert (HW : written s0 G lpa (take (Z.to_nat (writesize g)) buf) s2 G').
  { split; [done|done|by cbn; rewrite Hmt| | | | | | |rewrite <- Hw; apply (op_bad _ _ _ _ _ Hop)|by apply recorded_append].
    6:{ intros c. cbn. unfold upd. by repeat case_decide. }
    - by apply wrote_only_wrote.
    - intros k Hk [R1 R2]. apply Hroom in R1. split; [by eapply room_mono; [exact R1|lia]|].
      change (stock s2 G') with (stock s G1). lia.
    - change (gh_dl G') with (gh_dl G ++ [group_new g lpa b]). rewrite arr_len_app.
      change (arr_len [group_new g lpa b]) with 1. change (gh_dl G1) with (gh_dl G). lia.
    - change (gh_dl G') with (gh_dl G ++ [group_new g lpa b]). rewrite ents_app, arr_len_app.
      change (arr_len (ents [group_new g lpa b])) with 1. lia.
    - intros u Hpos Hm h' es' [Hin|Hin%list_elem_of_singleton]%elem_of_app.
      + enough (dlb_used h' <= u) by lia. by apply (Hm h' es').
      + injection Hin as -> _. cbn. lia. }
  specialize (HQ f d' Hpw HW HX). apply wp_bind in HQ. exact HQ.
Qed.
Lemma write_append_run s0 s G b lpa buf spare pba0 :
  let G1 := set_own b RBusy G in
  ftl g s0 G -> ftl g s G1 -> s = with_alloc (n_alloc s) s0 -> gh_own G b = RFree ->
  stock s G1 = stock s0 G - 1 -> (forall k, room k s0 G -> room (k - 1) s G1) ->
  dl_open g G -> in_chip g b -> (forall p, on_chip g b p -> nd_erased (world s0) b p) ->
  lpa / nr_pgsinblk g ∉ map (fun ge : dl_group => dlb_lba ge.1) (gh_dl G) -> 0 <= lpa < n_maxlp s0 ->
  writesize g <= arr_len buf -> oobsize g <= arr_len spare -> page_spare DATA_LOG_BLOCK lpa spare ->
  arr_len (gh_dl G) + 1 < DL_MAX_BLOCKS -> arr_len (ents (gh_dl G)) < DL_MAX_PAGES -> reserve 1 s0 G ->
  wp (write_to (MkTarget b 0 APPEND_OPERATION (arr_len (gh_dl G)) false) lpa buf spare pba0)
    (fun r s' => r = 0 /\ exists G', written s0 G lpa (take (Z.to_nat (writesize g)) buf) s' G' /\ dl_open g G') s.
Proof.
  intros G1 HF0 HF Hs Hob Hst Hroom Hopen Hc He Hn Hr Hb Hsp Hsl Hbc Hpc Hres.
  apply (write_append_core s0 s G b); try done. intros f d' s2 G' Hpw HW _.
  pose proof (wr_reserve _ _ _ _ _ _ HW 1 ltac:(unfold MAX_RESERVE; lia) Hres) as Hres2. cbn in Hres2.
  apply (write_rest_run s0 G lpa _ s2 G' (gh_dl G) (group_new g lpa b).1 (group_new g lpa b).2 []);
    [done|done|by apply reserve_mergeable|by rewrite app_nil_r].
Qed.

(** ** The page that completes a log block written in order *)

(** The old data block, if any, is retired and the new one entered. *)
Lemma convert_block_run s G1 dm lba b pba0 :
  mt_inv g s G1 dm -> mtl_open g G1 -> lba_in g (mt_blkcnt (n_mt s)) lba -> in_chip g b ->
  (forall o, dm lba = Some o -> given_up g (world s) G1 o) -> reserve 1 s G1 ->
  wp (convert_block g lba b pba0) (fun r s' => r = 0 /\ exists G',
    mt_inv g s' G' (upd dm lba (Some b)) /\ mtl_open g G' /\ mt_frame g (option_list (dm lba)) s G1 s' G' /\
    (forall c, gh_own G' c = RBusy -> gh_own G1 c = RBusy /\ c ∉ option_list (dm lba)) /\
    (forall k, 1 <= k <= MAX_RESERVE -> reserve k s G1 -> reserve (k - 1) s' G')) s.
Proof.
  intros HI Hopen Hl Hc Ho Hres. unfold convert_block. apply wp_bind.
  eapply wp_mono; [by apply (nftl_lba_to_pba_run g geo s G1 dm lba pba0 HI)|].
  intros r s1 (-> & HI1 & c & f & -> & Hsame). cbn [snd]. set (s1 := with_cache c (with_flash f s)) in *.
  pose proof (mt_frame_read g s G1 c f Hsame) as F1. fold s1 in F1.
  assert (Hres1 : forall k, reserve k s G1 -> reserve k s1 G1) by done.
  destruct (dm lba) as [o|] eqn:E; cbn [default from_option id option_list].
  - destruct (Ho o eq_refl) as (Hoc & Hob & Hos). pose proof (in_chip_no_ffff g geo o Hoc) as Hff.
    apply Z.eqb_neq in Hff. rewrite Hff. cbn [negb]. destruct Hres as [R1 R2].
    enough (Hen : wp (nftl_addto_gt g [o] ;; let! e := nftl_update_mt g lba b in ret e)
      (fun r s' => r = 0 /\ exists G', mt_inv g s' G' (upd dm lba (Some b)) /\ mtl_open g G' /\ mt_frame g [o] s G1 s' G' /\
      (forall c, gh_own G' c = RBusy -> gh_own G1 c = RBusy /\ c ∉ [o]) /\ (forall k, 1 <= k <= MAX_RESERVE -> reserve k s G1 -> reserve (k - 1) s' G')) s1).
    { apply wp_bind in Hen. apply wp_bind. eapply wp_mono; [exact Hen|]. intros e s2 H2. apply wp_bind in H2. exact H2. }
    apply (commit_run g geo s1 G1 dm lba b [o] ret); [done|done|done|done|done|done|apply NoDup_singleton| | | |].
    + intros x ->%list_elem_of_singleton. split_and!; [done|done|].
      eapply (gar_keep g geo); [done|by apply same_data_pages|exact Hos].
    + by apply (room_mono 4).
    + change (stock s1 G1) with (stock s G1). lia.
    + intros s' G' P1 P2 P3 P4 P5 P6. apply wp_ret. split; [done|]. exists G'. split_and!; [done|done| |done|].
      * exact (mt_frame_trans g _ _ _ _ _ _ _ _ F1 P3).
      * intros k Hk [Q1 Q2]. split; [by eapply room_mono; [exact P6|unfold MAX_RESERVE, MINI_FREE_BLOCK in *; lia]|].
        rewrite P5. change (stock s1 G1) with (stock s G1). change (arr_len [o]) with 1. lia.
  - change (65535 =? 65535) with true. cbn [negb]. apply wp_bind, wp_ret.
    eapply wp_mono; [apply (nftl_update_mt_run g geo s1 G1 dm lba b HI1 Hopen Hl Hc)|].
    { pose proof (reserve_nfree 1 s1 G1 dm HI1). enough (4 <= nfree s1) by lia. apply (reserve_nfree 1 s1 G1 dm HI1); [lia|auto]. }
    intros r s' (-> & G' & U1 & U2 & U3 & U4 & U5). split; [done|]. exists G'. split_and!; [done|done| | |].
    + exact (mt_frame_trans g _ _ _ _ _ _ _ _ F1 U3).
    + intros x Hx. split; [apply (mf_busy _ _ _ _ _ _ U3 x Hx)|]; apply not_elem_of_nil.
    + intros k Hk [Q1 Q2]. split.
      * replace (k - 1 + 3) with (k + 3 - 1) by lia. apply U5; [unfold MAX_RESERVE, MINI_FREE_BLOCK in *; lia|exact Q1].
      * unfold stock in *. rewrite U4. change (spare_blocks s1 G1) with (spare_blocks s G1). lia.
Qed.

(** A log block written in order holds the pages where a data block does. *)
Lemma place_in_sequence gs1 h es gs2 G x :
  NoDup (map (fun ge : dl_group => dlb_lba ge.1) (gh_dl G)) -> gh_dl G = gs1 ++ (h, es) :: gs2 ->
  in_sequence h es -> x / nr_pgsinblk g = dlb_lba h -> x mod nr_pgsinblk g <> nr_pgsinblk g - 1 ->
  place g G x = Some (dlb_pba h, x mod nr_pgsinblk g).
Proof.
  intros Hnd Hdl [_ Hseq] Hx Hm. pose proof (ngp g geo). pose proof (Z.mod_pos_bound x (nr_pgsinblk g) ltac:(lia)).
  unfold place. rewrite Hdl in Hnd |- *. rewrite (dl_lookup_mid g gs1 h es gs2) by done.
  rewrite Hx, Z.eqb_refl.
  assert (Hlpa : x = dlb_lba h * nr_pgsinblk g + x mod nr_pgsinblk g)
    by (rewrite <- Hx; pose proof (Z.div_mod x (nr_pgsinblk g)); lia).
  rewrite Hlpa at 1. by rewrite Hseq by lia.
Qed.

Lemma place_converted gs1 h es gs2 G G' lpa x :
  NoDup (map (fun ge : dl_group => dlb_lba ge.1) (gh_dl G)) -> gh_dl G = gs1 ++ (h, es) :: gs2 ->
  in_sequence h es -> lpa / nr_pgsinblk g = dlb_lba h -> lpa mod nr_pgsinblk g = nr_pgsinblk g - 1 ->
  gh_dl G' = gs1 ++ gs2 -> gh_data G' = upd (gh_data G) (dlb_lba h) (Some (dlb_pba h)) ->
  place g G' x = if x =? lpa then Some (dlb_pba h, dlb_used h) else place g G x.
Proof.
  intros Hnd Hdl Hseq Hlpa Hm Hdl' Hdata. pose proof (ngp g geo).
  destruct (decide (x / nr_pgsinblk g = dlb_lba h)) as [Hx|Hx].
  - assert (Hp : place g G' x = Some (dlb_pba h, x mod nr_pgsinblk g)).
    { unfold place. rewrite Hdl', Hdata. rewrite Hdl in Hnd.
      rewrite (dl_lookup_deleted g gs1 h es gs2) by done. by rewrite Hx, upd_eq. }
    rewrite Hp. destruct (x =? lpa) eqn:E; zbool; [subst; by rewrite Hm, (proj1 Hseq)|].
    symmetry. eapply place_in_sequence; [done|done|done|done|]. intros Hm'. apply E.
    rewrite (Z.div_mod x (nr_pgsinblk g)), (Z.div_mod lpa (nr_pgsinblk g)) by lia. congruence.
  - destruct (x =? lpa) eqn:E; zbool; [congruence|]. unfold place. rewrite Hdl', Hdata, upd_ne by done.
    rewrite Hdl in Hnd |- *. rewrite (dl_lookup_mid g gs1 h es gs2) by done.
    destruct (dlb_lba h =? _) eqn:E'; zbool; [congruence|done].
Qed.

(** The last page of the block of the log block. *)
Definition last_page (h : dl_blockinfo) : Z := dlb_lba h * nr_pgsinblk g + (nr_pgsinblk g - 1).
Lemma last_page_pos h : last_page h / nr_pgsinblk g = dlb_lba h /\ last_page h mod nr_pgsinblk g = nr_pgsinblk g - 1.
Proof.
  pose proof (ngp g geo). unfold last_page. rewrite Z.div_add_l, (Z.add_comm (_ * _)), Z.mod_add by lia.
  rewrite Z.div_small, Z.mod_small by lia. lia.
Qed.
Lemma last_page_eq h lpa : lpa / nr_pgsinblk g = dlb_lba h -> lpa mod nr_pgsinblk g = nr_pgsinblk g - 1 ->
  lpa = last_page h.
Proof.
  intros E1 E2. pose proof (ngp g geo). rewrite (Z.div_mod lpa (nr_pgsinblk g)) by lia. unfold last_page.
  rewrite E1, E2. lia.
Qed.

(** Whatever page was asked for, the data end in the last page. *)
Lemma write_convert_run s G gs1 h es gs2 lpa buf spare pba0 :
  let last := last_page h in
  ftl g s G -> dl_open g G -> gh_dl G = gs1 ++ (h, es) :: gs2 -> lpa / nr_pgsinblk g = dlb_lba h ->
  in_sequence h es -> writesize g <= arr_len buf -> oobsize g <= arr_len spare ->
  page_spare DATA_BLOCK lpa spare -> reserve 1 s G ->
  wp (write_to (MkTarget (dlb_pba h) (dlb_used h) DEL_OPERATION (arr_len gs1) true) lpa buf spare pba0)
    (fun r s' => r = 0 /\ exists G', written s G last (take (Z.to_nat (writesize g)) buf) s' G' /\ dl_open g G') s.
Proof.
  intros last HF Hopen Hdl Hlba Hseq Hb Hsp Hsl Hres. destruct (last_page_pos h) as [Hlba' Hlast]. fold last in Hlba', Hlast. pose proof (ngp g geo). pose proof Hseq as [Hu _].
  pose proof HF as [F1 F2 F3 F4 F5 F6 F7]. pose proof (mi_inv _ _ _ _ F1) as HI. pose proof F3 as Hok. rewrite Hdl in Hok.
  pose proof (dk_nodup _ _ _ F3) as Hnd. assert (Hin : (h, es) ∈ gh_dl G) by (rewrite Hdl; set_solver).
  destruct (ow_dl _ _ _ (fi_own _ _ _ _ _ HI) _ _ Hin) as [Hc Ho].
  pose proof (tl_told _ _ _ _ (fi_tells _ _ _ _ _ HI)) as HT. pose proof (td_dl _ _ _ _ HT h es Hin) as Hst.
  pose proof (ds_used _ _ _ Hst) as Hu1. cbn [fst] in Hu1.
  set (lba := dlb_lba h) in *. set (bs := option_list (gh_data G lba)) in *.
  assert (Hpb : forall o, gh_data G lba = Some o -> o <> dlb_pba h).
  { intros o E ->. destruct (ow_data _ _ _ (fi_own _ _ _ _ _ HI) _ _ E). congruence. }
  assert (Hmv : moving G lba (dlb_pba h) bs (gs1 ++ gs2)).
  { eapply (moving_group g geo); [exact HI|done|done|by right|]. intros b. unfold bs. rewrite elem_of_option_list.
    split; [intros E; split; [by right|by apply Hpb]|]. by intros [[?|?] ?]. }
  pose proof (mv_bs _ _ _ _ _ Hmv) as Hbs.
  set (G1 := moved lba (dlb_pba h) bs (gs1 ++ gs2) G) in *.
  assert (Ho1 : gh_own G1 (dlb_pba h) = RData lba) by (cbn; by rewrite decide_True).
  unfold write_to. apply wp_bind. eapply (dl_write_run _ G); cbn [wt_block wt_page wt_convert];
    [exact HI|split; [done|lia]| |done|done|apply F1|].
  { apply (er_dl _ _ _ _ (fi_erased _ _ _ _ _ HI) h es); [done|split; [done|lia]|lia]. }
  intros f Hpw. pose proof Hpw as [Hop _ Hcor _]. pose proof (pw_data _ _ _ _ _ _ Hpw) as Hpg. set (s1 := with_flash f s) in *.
  assert (Hds : data_stored g (fl_world f) (dlb_pba h)).
  { right. destruct (pw_spare _ _ _ _ _ _ _ _ Hpw Hsl) as [Hty _]. rewrite Hu in Hty. split; [|exact Hty].
    unfold page_type, spare_at. rewrite (op_page _ _ _ _ _ Hop); [apply Hst|split; [done|lia]|intros [= E]; lia]. }
  assert (HI2 : mt_inv g s1 G1 (gh_data G)).
  { eapply mt_inv_write; [exact F1|exact Hop|by intros i; rewrite Ho|done|done|done|done|done| |exact Hcor].
    eapply (moved_inv g geo); [exact HI|exact Hmv|done|by eapply only_page_block|exact Hds]. }
  pose proof (F4 h es Hin) as Hl. rewrite Hlba, u16_id by apply (go_lba _ _ (dl_ok_group _ _ _ _ _ _ Hok)).
  apply wp_bind. eapply wp_mono; [apply (convert_block_run s1 G1 (gh_data G) lba (dlb_pba h) pba0 HI2 F2 Hl Hc)|].
  { intros o E. destruct (ow_data _ _ _ (fi_own _ _ _ _ _ HI) _ _ E) as [Hoc Hoo]. split; [done|]. split.
    - cbn. rewrite decide_False by (by apply Hpb). rewrite decide_True; [done|]. unfold bs. by rewrite elem_of_option_list.
    - apply (gar_keep g geo (world s)); [done|eapply same_data_page; [exact Hop|by apply Hpb]|].
      by apply gar_stored_data, (td_data _ _ _ _ HT lba). }
  { exact Hres. }
  intros r s2 (-> & G2 & M1 & M2 & M3 & Mb & M4). change (truth 0) with false. cbv iota. apply wp_bind.
  unfold dl_record. cbn [wt_operation wt_index]. apply wp_bind.
  assert (Hdata : gh_data G2 = upd (gh_data G) lba (Some (dlb_pba h))) by by rewrite (mf_gdata _ _ _ _ _ _ M3).
  assert (Hgdl : gh_dl G2 = gs1 ++ gs2) by by rewrite (mf_gdl _ _ _ _ _ _ M3).
  destruct (ftl_deleted g geo s G gs1 h es gs2 (dlb_pba h) s2 G2 lpa (dlb_pba h) HF Hdl M1 M2 (mf_dl _ _ _ _ _ _ M3)
    (mf_maxlp _ _ _ _ _ _ M3) (mf_cnt _ _ _ _ _ _ M3) Hdata Hgdl) as (d' & Hd & HF3).
  unfold onD at 1. apply wp_zoom. unfold wp at 1. rewrite Hd. set (s3 := with_dl d' s2) in *.
  assert (Hsub : sublist (gs1 ++ gs2) (gh_dl G)).
  { rewrite Hdl. apply sublist_app; [done|]. by apply sublist_cons. }
  assert (Hopen3 : dl_open g G2) by (eapply dl_open_sublist; [rewrite Hgdl; exact Hsub|done]).
  assert (HW : written s G last (take (Z.to_nat (writesize g)) buf) s3 G2).
  { split; [done|exact (mf_maxlp _ _ _ _ _ _ M3)|exact (mf_cnt _ _ _ _ _ _ M3)| | | | | | | |].
    8:{ by apply (recorded_convert gs1 h es gs2 G G2 last (dlb_pba h)). }
    7:{ etransitivity; [exact (mf_nd_bad _ _ _ _ _ _ M3)|exact (op_bad _ _ _ _ _ Hop)]. }
    6:{ intros b Hb'. destruct (Mb b Hb') as [Hb1 Hb2]. cbn in Hb1. by repeat case_decide. }
    - eapply (wrote_pages _ _ _ _ last (dlb_pba h) (dlb_used h)).
      + intros x. by apply (place_converted gs1 h es gs2).
      + intros x c q Hne Hx. destruct (place_user g geo s G x c q HF Hx) as [Hcq Hor].
        transitivity (nd_page (world s1) c q).
        * apply (mf_page _ _ _ _ _ _ M3); [done| |].
          -- cbn. repeat case_decide; [done|done|]. by destruct Hor as [-> | ->].
          -- intros Hin'. destruct (decide (x / nr_pgsinblk g = lba)) as [E|E].
             ++ rewrite (place_in_sequence gs1 h es gs2 G x) in Hx; [|done|done|done|done|].
                { injection Hx as <- _. by apply elem_of_option_list, Hpb in Hin'. }
                intros Hm'. apply Hne. rewrite (Z.div_mod x (nr_pgsinblk g)), (Z.div_mod last (nr_pgsinblk g)) by lia.
                congruence.
             ++ destruct (Hbs _ Hin'), Hor; congruence.
        * apply (op_page _ _ _ _ _ Hop); [done|exact (place_below s G gs1 h es gs2 x c q HF Hdl Hx)].
      + rewrite <- Hpg. f_equal. change (world s3) with (world s2). apply (mf_page _ _ _ _ _ _ M3); [split; [done|lia]| |by intros Hx%elem_of_option_list%Hpb].
        by rewrite Ho1.
    - intros k Hk Hr. by apply M4.
    - rewrite Hgdl. pose proof (sublist_arr_len _ _ Hsub). lia.
    - rewrite Hgdl. pose proof (sublist_ents _ _ Hsub). lia.
    - intros u Hpos Hm h' es' Hin'. rewrite Hgdl in Hin'. enough (dlb_used h' <= u) by lia.
      apply (Hm h' es'). eapply sublist_subseteq; [exact Hsub|done]. }
  pose proof (wr_reserve _ _ _ _ _ _ HW 1 ltac:(unfold MAX_RESERVE; lia) Hres) as Hres3. cbn in Hres3.
  assert (Hidx : 0 <= arr_len gs1 < DL_MAX_BLOCKS) by (pose proof (dl_mid_range g _ _ _ _ _ Hok); lia).
  match goal with |- wp _ ?Q _ => change (wp (tail_merge (arr_len gs1)) Q s3) end.
  unfold wp at 1. rewrite (tail_merge_open s3 G2 (arr_len gs1) HF3 Hopen3 Hidx).
  apply (low_space_written _ _ _ _ _ G2); [done|done|by apply reserve_mergeable].
Qed.

(** ** [nftl_write_logicpage] *)

(** What a write of [lpa] relies on.  [cw_last]: when one more page would turn
    the log block into the data block, it is the last page of it. *)
Record can_write s G lpa : Prop := {
  cw_range : 0 <= lpa < n_maxlp s;
  cw_reserve : reserve 1 s G;
  cw_blocks : arr_len (gh_dl G) + 1 < DL_MAX_BLOCKS;
  cw_ents : arr_len (ents (gh_dl G)) < DL_MAX_PAGES;
  cw_last : forall h es, (h, es) ∈ gh_dl G -> dlb_lba h = lpa / nr_pgsinblk g -> in_sequence h es ->
    lpa mod nr_pgsinblk g = nr_pgsinblk g - 1
}.
Lemma can_write_shrunk s G s' G' lpa : can_write s G lpa -> shrunk g s G s' G' -> can_write s' G' lpa.
Proof.
  intros [C1 C2 C3 C4 C5] H. pose proof (sublist_ents _ _ (sh_dl _ _ _ _ _ H)).
  pose proof (sublist_arr_len _ _ (sh_dl _ _ _ _ _ H)).
  split; [by rewrite (sh_maxlp _ _ _ _ _ H)|by eapply reserve_shrunk|lia|lia|].
  intros h es Hin. apply C5. eapply sublist_subseteq; [apply H|done].
Qed.

(** The log is small, or none of its blocks but those of one logical block has
    a data block to be merged with. *)
Definition unmapped_but l G : Prop := forall h es, (h, es) ∈ gh_dl G -> dlb_lba h <> l -> gh_data G (dlb_lba h) = None.
Record tidy lpa G : Prop := {
  ti_blocks : arr_len (gh_dl G) <= DL_MAX_BLOCKS_DIV4 \/ unmapped_but (lpa / nr_pgsinblk g) G;
  ti_ents : arr_len (ents (gh_dl G)) <= DL_MAX_PAGES_DIV4 \/ unmapped_but (lpa / nr_pgsinblk g) G
}.
Lemma unmapped_drained G G' : unmapped G -> drained G G' -> unmapped G'.
Proof.
  intros Hu [D1 D2 D3 D4] h es Hin. rewrite D3 by by eapply logged_group. by apply (Hu h es), D1.
Qed.
Lemma unmapped_recorded lpa G G' : unmapped G -> recorded G lpa G' -> unmapped_but (lpa / nr_pgsinblk g) G'.
Proof.
  intros Hu [R1 R2 R3 R4 R5] h es Hin Hne. rewrite R4; [|by eapply logged_group|done]. by apply (Hu h es), R1.
Qed.

Lemma set_lpa_len lpa sp : arr_len (set_lpa lpa sp) = arr_len sp.
Proof. unfold set_lpa, arr_len. by rewrite !length_insert. Qed.

Lemma write_page_run s G lpa buf junk fact0 pba0 :
  ftl g s G -> dl_open g G -> can_write s G lpa -> writesize g <= arr_len buf ->
  oobsize g <= arr_len junk -> nr_pgsinblk g <= arr_len fact0 ->
  wp (write_page g lpa buf junk fact0 pba0)
    (fun r s' => r = 0 /\ exists G', written s G lpa (take (Z.to_nat (writesize g)) buf) s' G' /\ dl_open g G') s.
Proof.
  intros HF Hopen [C1 C2 C3 C4 C5] Hb Hj Hf. destruct (ft_range _ _ _ HF lpa C1) as (Hl & Hl16 & Hl32).
  unfold write_page. rewrite (u16_id (lpa / _)) by done. apply wp_bind.
  assert (Hsl : forall t, page_spare t lpa (set_lpa lpa (set_blocktype (block_state_code t) junk)))
    by (intros t; by apply page_spare_set).
  assert (Hsp : forall t, oobsize g <= arr_len (set_lpa lpa (set_blocktype t junk))).
  { intros t. rewrite set_lpa_len. unfold set_blocktype, arr_len in *. by rewrite length_insert. }
  assert (Hto : forall t spare Q s', wp (write_to t lpa buf spare pba0) Q s' ->
    wp (let! tempblock := dl_write g t buf spare in
        let! c := (if wt_convert t then convert_block g (lpa / nr_pgsinblk g) tempblock pba0 else ret 0) in
        if truth c then ret (u8 (-1))
        else let! r := dl_record g t lpa tempblock in
             match r with inr e => ret e | inl e => low_space g e end) Q s').
  { intros t spare Q s'. unfold write_to. by rewrite u16_id. }
  destruct (decide (lpa / nr_pgsinblk g ∈ map (fun ge : dl_group => dlb_lba ge.1) (gh_dl G))) as [Hin|Hnew].
  - apply list_elem_of_In, in_map_iff in Hin as ([h es] & Hi & Hin). apply list_elem_of_In in Hin.
    pose proof (C5 h es Hin Hi) as Hlast. pose proof Hin as Hin0.
    apply list_elem_of_split in Hin as (gs1 & gs2 & Hdl). cbn in Hi. rewrite <- Hi.
    eapply wp_mono; [by apply (dl_target_hit s G gs1 h es gs2)|].
    intros t s' (-> & [[Hseq ->]|[Hseq ->]]); rewrite Hi; apply Hto.
    + replace (written s G lpa) with (written s G (last_page h)) by (f_equal; symmetry; apply last_page_eq; auto).
      apply (write_convert_run s G gs1 h es gs2); [done|done|done|done|done|done|apply Hsp|apply Hsl|done].
    + apply (write_insert_run s G gs1 h es gs2); [done|done|done|done|done|done|apply Hsp|apply Hsl|done|done].
  - apply (dl_target_miss s G); [done|done| |].
    { pose proof (reserve_nfree 1 s G _ (ft_mt _ _ _ HF) ltac:(lia) C2). lia. }
    intros b s' H1 H2 H3 H4 H5 H6 H7. apply Hto.
    apply (write_append_run s s' G b); [done|done|done|done|done|done|done|done|done|done|done|done|apply Hsp|apply Hsl|done|done|done].
Qed.

Lemma nftl_write_logicpage_run s G lpa buf :
  ftl g s G -> dl_open g G -> can_write s G lpa -> writesize g <= arr_len buf ->
  wp (nftl_write_logicpage g lpa buf)
    (fun r s' => r = 0 /\ exists G', written s G lpa (take (Z.to_nat (writesize g)) buf) s' G' /\ dl_open g G' /\
       tidy lpa G') s.
Proof.
  intros HF Hopen HC Hb. pose proof (ngp g geo). pose proof (ng_oob g geo).
  unfold nftl_write_logicpage. apply wp_bind, (ftl_stack_run g geo s G); [done|done|]. intros junk s1 HF1 O1 L1.
  apply wp_bind, (ftl_stack_run g geo s1 G); [done|done|]. intros fact0 s2 HF2 O2 L2.
  apply wp_bind. eapply (stack16_run g geo); [exact HF2|]. intros pba0 s3 HF3 O3.
  pose proof (shrunk_read g s G s3 HF3 (only_read_trans g _ _ _ (only_read_trans g _ _ _ O1 O2) O3)) as S3.
  assert (Hm : forall s' G', shrunk g s G s' G' -> mergeable s' G').
  { intros s' G' H'. eapply mergeable_shrunk; [|exact H']. destruct (cw_reserve _ _ _ HC).
    split; [by eapply room_mono|lia]. }
  apply wp_bind. eapply wp_mono; [apply (shrink_run g geo s3 G _ 0 _ HF3 (Hm _ _ S3)); lia|].
  intros r s4 (-> & G4 & S4' & E4). pose proof (shrunk_trans g _ _ _ _ _ _ S3 S4') as S4.
  apply wp_bind. eapply wp_mono; [apply (shrink_run g geo s4 G4 _ 1 _ (sh_ftl _ _ _ _ _ S4') (Hm _ _ S4)); lia|].
  intros r s5 (-> & G5 & S5' & E5). pose proof (shrunk_trans g _ _ _ _ _ _ S4 S5') as S5.
  eapply wp_mono; [apply (write_page_run s5 G5 lpa buf junk fact0 pba0 (sh_ftl _ _ _ _ _ S5'))|].
  - eapply dl_open_sublist; [apply S5|done].
  - by eapply can_write_shrunk.
  - done.
  - rewrite L1. unfold BLOCK_INFO_SIZE, NAND_MAX_OOBSIZE in *. lia.
  - rewrite L2. unfold MAX_PAGES_IN_BLOCK. lia.
  - intros r s' (-> & G' & Hw & Ho). split; [done|]. exists G'. split_and!; [by eapply shrunk_written|done|].
    pose proof (wr_log _ _ _ _ _ _ Hw) as HR. pose proof (wr_blocks _ _ _ _ _ _ Hw). pose proof (wr_ents _ _ _ _ _ _ Hw).
    pose proof (dk_rep _ _ _ (ft_dl _ _ _ (sh_ftl _ _ _ _ _ S4'))) as L4.
    pose proof (dk_rep _ _ _ (ft_dl _ _ _ (sh_ftl _ _ _ _ _ S5'))) as L5.
    pose proof (sublist_arr_len _ _ (sh_dl _ _ _ _ _ S5')). pose proof (lr_blkcnt _ _ _ _ _ _ L4) as C4.
    pose proof (lr_pgcnt _ _ _ _ _ _ L5) as C5.
    unfold DL_MAX_BLOCKS_DIV4, DL_MAX_BLOCKS_DIV8, DL_MAX_PAGES_DIV4, DL_MAX_PAGES_DIV8 in *. split.
    + destruct E4 as [[-> E]|[E|E]]; [left; zbool; unfold DL_MAX_BLOCKS_DIV4 in *; lia|left; zbool; unfold DL_MAX_BLOCKS_DIV4 in *; lia|right].
      eapply unmapped_recorded; [|done]. eapply unmapped_drained; [done|apply S5'].
    + destruct E5 as [[-> E]|[E|E]]; [left; zbool; unfold DL_MAX_PAGES_DIV4 in *; lia|left; zbool; unfold DL_MAX_PAGES_DIV4 in *; lia|right].
      by eapply unmapped_recorded.
Qed.
End Write.
