(* ===== verification/NftlDataContract.v ===== *)
(** * NFTL: the contract of the translation layer

    What the block device relies on: reading, writing and merging logical
    pages, on a chip in working order; the loop that keeps the log small ends;
    several writes in a row; and the case in which a write is lost. *)

From Stdlib Require Import ZArith Lia.
From stdpp Require Import base numbers list gmap.
From S2P Require Import Prelude CMonad NftlTypes NftlAlloc NftlLog NftlDl NftlMtl MtdDev NftlState MtdSim.
From S2P Require Import NandLaws ChipLaws NftlFlash NftlFlashSpec NftlGarbage NftlTold NftlInv NftlGarbageSpec.
From S2P Require Import NftlMap NftlMapSpec NftlMapUpdate NftlMapContract NftlData NftlDataSpec NftlDataMerge NftlDataShrink NftlDataWrite.

Section Contract.
Context {W : Type} {WW : World W} (g : mtd_info) {N : NandLaws W g}.
Hypothesis geo : nand_geo g.
Implicit Types (s : nftl W) (G : ghost).
Notation page_of buf := (take (Z.to_nat (writesize g)) buf).

(** C12. [nftl_read_logicpage] answers 0 and the contents of the logical page,
    wherever the page is: in a log block, in the data block, or nowhere (0xFF).
    Nothing but the table cache changes. *)
Theorem read_logicpage_correct s G lpa buf
  (HF : ftl g s G) (Hr : 0 <= lpa < n_maxlp s) (Hb : writesize g <= arr_len buf) :
  exists s' buf', nftl_read_logicpage g lpa buf s = Done (0, buf') s' /\
    ftl g s' G /\ n_dl s' = n_dl s /\ n_mt s' = n_mt s /\ n_alloc s' = n_alloc s /\
    nd_page (world s') = nd_page (world s) /\
    page_of buf' = page_read g (logical g (world s) G lpa).
Proof.
  destruct (proj1 (wp_run _ _ _) (nftl_read_logicpage_run g geo s G lpa buf
    (fun r s' => exists buf', r = (0, buf') /\ ftl g s' G /\ only_read g s s' /\
       page_of buf' = page_read g (logical g (world s) G lpa)) HF Hr Hb
    ltac:(intros s' buf' H1 H2 _ H3; by exists buf'))) as (r & s' & H & buf' & -> & H1 & H2 & H3).
  exists s', buf'. destruct (only_read_same g _ _ H2) as (E1 & E2 & E3 & E4 & E5 & E6). by split_and!.
Qed.

(** C1. [nftl_write_logicpage] refines the update of one page of the disk: it
    answers 0, the page then holds the data, every other page that was written
    keeps its contents, and the invariant of the layer holds again, whether the
    page went to an existing log block (merged when full), to a new one, or
    turned the log block into the data block, and whether or not log blocks
    were merged before or after to make room. *)
Theorem write_logicpage_correct s G lpa buf
  (HF : ftl g s G) (Hopen : dl_open g G) (HC : can_write g s G lpa) (Hb : writesize g <= arr_len buf) :
  exists s' G', nftl_write_logicpage g lpa buf s = Done 0 s' /\
    ftl g s' G' /\ dl_open g G' /\ n_maxlp s' = n_maxlp s /\
    logical g (world s') G' lpa = Some (page_of buf) /\
    (forall x d, x <> lpa -> logical g (world s) G x = Some d -> logical g (world s') G' x = Some d) /\
    (forall k, 1 <= k <= MAX_RESERVE -> reserve k s G -> reserve (k - 1) s' G').
Proof.
  destruct (proj1 (wp_run _ _ _) (nftl_write_logicpage_run g geo s G lpa buf HF Hopen HC Hb))
    as (r & s' & H & -> & G' & [W1 W2 W3 [W4 W4'] W5 _ _ _ _ _ _] & Ho & _).
  exists s', G'. split_and!; try done. intros x d Hx Hd. specialize (W4' x Hx). unfold keeps_page in W4'.
  by rewrite Hd in W4'.
Qed.

(** C2. Reading after writing: [nftl_read_logicpage] returns the data just
    written, and for every other page that had contents the contents it would
    have returned before. *)
Theorem write_read_logicpage s G lpa buf
  (HF : ftl g s G) (Hopen : dl_open g G) (HC : can_write g s G lpa) (Hb : writesize g <= arr_len buf) :
  exists s1, nftl_write_logicpage g lpa buf s = Done 0 s1 /\
    forall x out, 0 <= x < n_maxlp s -> writesize g <= arr_len out ->
      x = lpa \/ logical g (world s) G x <> None ->
      exists s2 out', nftl_read_logicpage g x out s1 = Done (0, out') s2 /\
        if x =? lpa then page_of out' = page_of buf
        else exists s3 out'', nftl_read_logicpage g x out s = Done (0, out'') s3 /\ page_of out' = page_of out''.
Proof.
  destruct (proj1 (wp_run _ _ _) (nftl_write_logicpage_run g geo s G lpa buf HF Hopen HC Hb))
    as (r & s1 & H & -> & G1 & [W1 W2 W3 [W4 W4'] W5 _ _ _ _ _ _] & Ho & _).
  exists s1. split; [done|]. intros x out Hx Hout Hor.
  destruct (proj1 (wp_run _ _ _) (nftl_read_logicpage_run g geo s1 G1 x out
    (fun r s' => exists out', r = (0, out') /\ page_of out' = page_read g (logical g (world s1) G1 x)) W1
    ltac:(by rewrite W2) Hout ltac:(intros s' out' _ _ _ E; by exists out'))) as (r & s2 & H2 & out' & -> & E2).
  exists s2, out'. split; [done|]. destruct (x =? lpa) eqn:E; zbool.
  - subst x. by rewrite E2, W4.
  - destruct (proj1 (wp_run _ _ _) (nftl_read_logicpage_run g geo s G x out
      (fun r s' => exists out', r = (0, out') /\ page_of out' = page_read g (logical g (world s) G x)) HF Hx Hout
      ltac:(intros s' out0 _ _ _ E'; by exists out0))) as (r & s3 & H3 & out'' & -> & E3).
    exists s3, out''. split; [done|]. rewrite E2, E3. destruct Hor as [?|Hn]; [done|].
    specialize (W4' x E). unfold keeps_page in W4'. destruct (logical g (world s) G x); [by rewrite W4'|done].
Qed.

(** C10. [nftl_merge_dlblk] answers 0 and removes the log block from the table;
    the logical block has a new data block, no page that was written changes,
    and the number of blocks that can be had grows by the data block it
    replaces. *)
Theorem merge_dlblk_preserves s G gs1 h es gs2
  (HF : ftl g s G) (Hdl : gh_dl G = gs1 ++ (h, es) :: gs2) (Hm : mergeable s G) :
  exists s' G', nftl_merge_dlblk g (arr_len gs1) s = Done 0 s' /\
    ftl g s' G' /\ gh_dl G' = gs1 ++ gs2 /\ gh_data G' (dlb_lba h) <> None /\
    (forall x d, logical g (world s) G x = Some d -> logical g (world s') G' x = Some d) /\
    stock s' G' = stock s G + match gh_data G (dlb_lba h) with Some _ => 1 | None => 0 end.
Proof.
  destruct (proj1 (wp_run _ _ _) (nftl_merge_dlblk_run g geo s G gs1 h es gs2 HF Hdl (proj1 Hm) (proj2 Hm)))
    as (r & s' & H & -> & G' & [M1 M2 [b M3] M4 M5 M6 M7 _] & Hst).
  exists s', G'. split_and!; try done; [by rewrite M3, upd_eq|]. intros x d Hx. specialize (M6 x).
  unfold keeps_page in M6. by rewrite Hx in M6.
Qed.

(** C13. The loops of [nftl_write_logicpage] that shrink the table end: the
    first does so with the table below its bound or with no log block left
    that has a data block to be merged with, and the same for the second; no
    page that was written changes. *)
Theorem shrink_ends s G
  (HF : ftl g s G) (Hm : mergeable s G) :
  exists s1 G1 s2 G2, shrink_blocks g s = Done None s1 /\ shrink_pages g s1 = Done None s2 /\
    ftl g s2 G2 /\
    (dl_blkcnt (n_dl s1) < DL_MAX_BLOCKS_DIV4 \/ unmapped G1) /\
    (dl_pgcnt (n_dl s2) < DL_MAX_PAGES_DIV4 \/ unmapped G2) /\
    (forall x d, logical g (world s) G x = Some d -> logical g (world s2) G2 x = Some d).
Proof.
  destruct (proj1 (wp_run _ _ _) (shrink_run g geo s G (fun d => dl_blkcnt d >=? DL_MAX_BLOCKS_DIV4) 0
    (fun d => dl_blkcnt d >? DL_MAX_BLOCKS_DIV8) HF Hm ltac:(lia))) as (r & s1 & H1 & -> & G1 & S1 & E1).
  destruct (proj1 (wp_run _ _ _) (shrink_run g geo s1 G1 (fun d => dl_pgcnt d >=? DL_MAX_PAGES_DIV4) 1
    (fun d => dl_pgcnt d >? DL_MAX_PAGES_DIV8) (sh_ftl _ _ _ _ _ S1) (mergeable_shrunk g _ _ _ _ Hm S1) ltac:(lia)))
    as (r & s2 & H2 & -> & G2 & S2 & E2).
  exists s1, G1, s2, G2. split_and!; [exact H1|exact H2|apply S2| | |].
  - destruct E1 as [[-> E]|[E|E]]; [left|left|by right]; unfold DL_MAX_BLOCKS_DIV4, DL_MAX_BLOCKS_DIV8 in *; lia.
  - destruct E2 as [[-> E]|[E|E]]; [left|left|by right]; unfold DL_MAX_PAGES_DIV4, DL_MAX_PAGES_DIV8 in *; lia.
  - intros x d Hx. pose proof (sh_pages _ _ _ _ _ (shrunk_trans g _ _ _ _ _ _ S1 S2) x) as Hp.
    unfold keeps_page in Hp. by rewrite Hx in Hp.
Qed.

(** ** Several writes *)

(** Writing pages one after the other until one write fails. *)
Fixpoint write_all (ops : list (Z * list Z)) : M (nftl W) Z :=
  match ops with
  | [] => ret 0
  | (lpa, buf) :: ops =>
      let! e := nftl_write_logicpage g lpa buf in
      if truth e then ret e else write_all ops
  end.
(** What the disk holds afterwards. *)
Fixpoint last_written (ops : list (Z * list Z)) (disk : Z -> option (list Z)) : Z -> option (list Z) :=
  match ops with
  | [] => disk
  | (lpa, buf) :: ops => last_written ops (upd disk lpa (Some (page_of buf)))
  end.
Lemma last_written_mono ops : forall d d' : Z -> option (list Z),
  (forall x v, d x = Some v -> d' x = Some v) ->
  forall x v, last_written ops d x = Some v -> last_written ops d' x = Some v.
Proof.
  induction ops as [|[lpa buf] ops IH]; intros d d' Hd; [exact Hd|]. cbn. apply IH.
  intros x v. unfold upd. case_decide; [done|apply Hd].
Qed.

Lemma write_all_run ops : forall u s G,
  ftl g s G -> dl_open g G -> 0 <= u -> used_max u G -> u + arr_len ops <= nr_pgsinblk g - 1 ->
  arr_len ops <= MAX_RESERVE -> reserve (arr_len ops) s G ->
  arr_len (gh_dl G) + arr_len ops < DL_MAX_BLOCKS -> arr_len (ents (gh_dl G)) + arr_len ops <= DL_MAX_PAGES ->
  (forall lpa buf, (lpa, buf) ∈ ops -> 0 <= lpa < n_maxlp s /\ writesize g <= arr_len buf) ->
  wp (write_all ops) (fun r s' => r = 0 /\ exists G', ftl g s' G' /\ n_maxlp s' = n_maxlp s /\
    forall x d, last_written ops (logical g (world s) G) x = Some d -> logical g (world s') G' x = Some d) s.
Proof.
  induction ops as [|[lpa buf] ops IH]; intros u s G HF Hopen Hu Hmax Hn Hk Hres Hb He Hops.
  { apply wp_ret. split; [done|]. by exists G. }
  rewrite arr_len_cons in *. pose proof (arr_len_nonneg ops).
  destruct (Hops lpa buf) as [Hr Hbuf]; [by left|]. cbn [write_all last_written]. apply wp_bind.
  eapply wp_mono; [apply (nftl_write_logicpage_run g geo s G lpa buf HF Hopen)|]; [split|done|].
  - done.
  - destruct Hres as [R1 R2]. split; [eapply room_mono; [exact R1|lia]|lia].
  - lia.
  - lia.
  - intros h es Hin _ [Hseq _]. specialize (Hmax h es Hin). lia.
  - intros r s1 (-> & G1 & [W1 W2 W3 [W4 W4'] W5 W6 W7 W8 _ _ _] & Ho & _). change (truth 0) with false. cbv iota.
    eapply wp_mono; [apply (IH (u + 1) s1 G1 W1 Ho)|]; try lia.
    + by apply W8.
    + replace (arr_len ops) with (1 + arr_len ops - 1) by lia. apply W5; [lia|exact Hres].
    + intros lpa' buf' Hin. rewrite W2. apply Hops. by right.
    + intros r s' (-> & G' & P1 & P2 & P3). split; [done|]. exists G'. split; [done|]. split; [congruence|].
      intros x d Hx. apply P3. eapply last_written_mono; [|exact Hx]. intros y v. unfold upd. case_decide.
      * intros [= <-]. subst. exact W4.
      * intros Hy. specialize (W4' y ltac:(done)). unfold keeps_page in W4'. by rewrite Hy in W4'.
Qed.

(** Writes in a row: from a state with room for them and log blocks that
    none of them can fill, up to 17 writes all answer 0, and each page then
    reads as it was last written. *)
Theorem write_all_correct ops u s G
  (HF : ftl g s G) (Hopen : dl_open g G) (Hu : 0 <= u) (Hmax : used_max u G)
  (Hn : u + arr_len ops <= nr_pgsinblk g - 1) (Hk : arr_len ops <= MAX_RESERVE)
  (Hres : reserve (arr_len ops) s G) (Hb : arr_len (gh_dl G) + arr_len ops < DL_MAX_BLOCKS)
  (He : arr_len (ents (gh_dl G)) + arr_len ops <= DL_MAX_PAGES)
  (Hops : forall lpa buf, (lpa, buf) ∈ ops -> 0 <= lpa < n_maxlp s /\ writesize g <= arr_len buf) :
  exists s1, write_all ops s = Done 0 s1 /\
    forall x out d, 0 <= x < n_maxlp s -> writesize g <= arr_len out ->
      last_written ops (logical g (world s) G) x = Some d ->
      exists s2 out', nftl_read_logicpage g x out s1 = Done (0, out') s2 /\ page_of out' = d.
Proof.
  destruct (proj1 (wp_run _ _ _) (write_all_run ops u s G HF Hopen Hu Hmax Hn Hk Hres Hb He Hops))
    as (r & s1 & H & -> & G1 & P1 & P2 & P3).
  exists s1. split; [done|]. intros x out d Hx Hout Hd.
  destruct (proj1 (wp_run _ _ _) (nftl_read_logicpage_run g geo s1 G1 x out
    (fun r s' => exists out', r = (0, out') /\ page_of out' = page_read g (logical g (world s1) G1 x)) P1
    ltac:(by rewrite P2) Hout ltac:(intros s' out' _ _ _ E; by exists out'))) as (r & s2 & H2 & out' & -> & E2).
  exists s2, out'. split; [done|]. by rewrite E2, (P3 x d Hd).
Qed.

(** ** A write that is lost *)

Lemma shrink_idle s trigger lo more : trigger (n_dl s) = false -> shrink g trigger lo more s = Done None s.
Proof. intros E. unfold shrink, bind, gets. by rewrite E. Qed.

Lemma write_convert_any s G gs1 h es gs2 lpa buf :
  ftl g s G -> dl_open g G -> gh_dl G = gs1 ++ (h, es) :: gs2 -> lpa / nr_pgsinblk g = dlb_lba h ->
  in_sequence g h es -> 0 <= lpa < n_maxlp s -> writesize g <= arr_len buf -> reserve 1 s G ->
  dl_blkcnt (n_dl s) < DL_MAX_BLOCKS_DIV4 -> dl_pgcnt (n_dl s) < DL_MAX_PAGES_DIV4 ->
  wp (nftl_write_logicpage g lpa buf) (fun r s' => r = 0 /\ exists G',
    written g s G (last_page g h) (page_of buf) s' G' /\ dl_open g G') s.
Proof.
  intros HF Hopen Hdl Hlba Hseq Hr Hb Hres Hc Hp. pose proof (ngp g geo). pose proof (ng_oob g geo).
  unfold nftl_write_logicpage. apply wp_bind, (ftl_stack_run g geo s G); [done|done|]. intros junk s1 HF1 O1 L1.
  apply wp_bind, (ftl_stack_run g geo s1 G); [done|done|]. intros fact0 s2 HF2 O2 L2.
  apply wp_bind. eapply (stack16_run g geo); [exact HF2|]. intros pba0 s3 HF3 O3.
  pose proof (only_read_trans g _ _ _ (only_read_trans g _ _ _ O1 O2) O3) as O.
  pose proof (shrunk_read g s G s3 HF3 O) as S3. destruct (only_read_same g _ _ O) as (D & _).
  apply wp_bind. unfold wp at 1, shrink_blocks.
  rewrite shrink_idle by (rewrite D; destruct (_ >=? _) eqn:E; zbool; (done || lia)).
  apply wp_bind. unfold wp at 1, shrink_pages.
  rewrite shrink_idle by (rewrite D; destruct (_ >=? _) eqn:E; zbool; (done || lia)).
  pose proof (go_lba _ _ (dl_ok_group g (n_dl s) gs1 h es gs2 ltac:(rewrite <- Hdl; apply HF))) as Hl16. cbn in Hl16.
  unfold write_page. rewrite Hlba, u16_id by done. apply wp_bind.
  eapply wp_mono; [apply (dl_target_hit g geo s3 G gs1 h es gs2 fact0 HF3 Hdl)|].
  { rewrite L2. unfold MAX_PAGES_IN_BLOCK. lia. }
  intros t s' (-> & [[_ ->]|[Hno _]]); [|done].
  eapply wp_mono with (P := fun r s' => r = 0 /\ exists G', written g s3 G (last_page g h) (page_of buf) s' G' /\ dl_open g G').
  - rewrite <- (u16_id (dlb_lba h)), <- Hlba by done.
    assert (Hj : oobsize g <= arr_len junk) by (rewrite L1; unfold BLOCK_INFO_SIZE, NAND_MAX_OOBSIZE in *; lia).
    apply (write_convert_run g geo s3 G gs1 h es gs2); try done; [| |by eapply reserve_shrunk].
    + rewrite set_lpa_len. unfold set_blocktype, arr_len in *. by rewrite length_insert.
    + apply (page_spare_set g geo DATA_BLOCK); [|done]. by apply (ft_range _ _ _ HF).
  - intros r s'' (-> & G' & Hw & Ho). split; [done|]. exists G'. split; [by eapply shrunk_written|done].
Qed.

(** C11. A write that is lost.  When a log block holds all pages of its logical
    block but the last, in order, and any other page of the logical block is
    written again, the log block is turned into the data block all the same:
    [nftl_write_logicpage] answers 0, the page written still reads with its old
    contents, and the last page of the logical block reads with the new ones. *)
Theorem convert_loses_write s G gs1 h es gs2 lpa buf out
  (HF : ftl g s G) (Hopen : dl_open g G) (Hdl : gh_dl G = gs1 ++ (h, es) :: gs2)
  (Hlba : lpa / nr_pgsinblk g = dlb_lba h) (Hseq : in_sequence g h es) (Hne : lpa <> last_page g h)
  (Hr : 0 <= lpa < n_maxlp s) (Hr' : last_page g h < n_maxlp s)
  (Hb : writesize g <= arr_len buf) (Ho : writesize g <= arr_len out)
  (Hres : reserve 1 s G) (Hc : dl_blkcnt (n_dl s) < DL_MAX_BLOCKS_DIV4) (Hp : dl_pgcnt (n_dl s) < DL_MAX_PAGES_DIV4) :
  exists s1 s0 s2 s3 out0 out2 out3, nftl_write_logicpage g lpa buf s = Done 0 s1 /\
    nftl_read_logicpage g lpa out s = Done (0, out0) s0 /\
    nftl_read_logicpage g lpa out s1 = Done (0, out2) s2 /\ page_of out2 = page_of out0 /\
    nftl_read_logicpage g (last_page g h) out s1 = Done (0, out3) s3 /\ page_of out3 = page_of buf.
Proof.
  assert (Hread : forall x s G, ftl g s G -> 0 <= x < n_maxlp s -> exists s' out',
    nftl_read_logicpage g x out s = Done (0, out') s' /\ page_of out' = page_read g (logical g (world s) G x)).
  { intros x t G0 HF0 Hx. destruct (proj1 (wp_run _ _ _) (nftl_read_logicpage_run g geo t G0 x out
      (fun r s' => exists out', r = (0, out') /\ page_of out' = page_read g (logical g (world t) G0 x)) HF0 Hx
      Ho ltac:(intros s' out' _ _ _ E; by exists out'))) as (r & s' & H & out' & -> & E). by exists s', out'. }
  destruct (proj1 (wp_run _ _ _) (write_convert_any s G gs1 h es gs2 lpa buf HF Hopen Hdl Hlba Hseq Hr Hb Hres Hc Hp))
    as (r & s1 & H & -> & G1 & [W1 W2 W3 [W4 W4'] _ _ _ _ _ _ _] & _).
  assert (Hlast : 0 <= last_page g h).
  { pose proof (ngp g geo). pose proof (go_lba _ _ (dl_ok_group g (n_dl s) gs1 h es gs2 ltac:(rewrite <- Hdl; apply HF))).
    unfold last_page, in_u16 in *. cbn in *. nia. }
  destruct (Hread lpa s G HF Hr) as (s0 & out0 & H0 & E0).
  destruct (Hread lpa s1 G1 W1 ltac:(by rewrite W2)) as (s2 & out2 & H2 & E2).
  destruct (Hread (last_page g h) s1 G1 W1 ltac:(rewrite W2; lia)) as (s3 & out3 & H3 & E3).
  exists s1, s0, s2, s3, out0, out2, out3. split_and!; [done|done|done| |done|by rewrite E3, W4].
  rewrite E2, E0. specialize (W4' lpa Hne). unfold keeps_page in W4'.
  assert (Hm : lpa mod nr_pgsinblk g <> nr_pgsinblk g - 1) by (intros E; apply Hne; by apply (last_page_eq g geo)).
  assert (El : logical g (world s) G lpa = Some (fst (nd_page (world s) (dlb_pba h) (lpa mod nr_pgsinblk g)))).
  { unfold logical. rewrite (place_in_sequence g geo gs1 h es gs2 G lpa); [done| |done|done|done|done].
    apply (dk_nodup _ _ _ (ft_dl _ _ _ HF)). }
  rewrite El in W4' |- *. by rewrite W4'.
Qed.
End Contract.

(** ** On the simulated chip

    One MapTab block, 1, without an entry, and one log block, 2, with the first
    three pages of logical block 3 in order; blocks 3 to 63 are free, block 0 is
    bad. *)
Section Example.
Notation g := small_geo.
#[local] Existing Instances inv_world inv_laws.

Definition data_of (v : Z) : list Z := replicate 32 v.
Definition ftl_spare (lpa : Z) : list Z :=
  set_lpa lpa (set_blocktype (block_state_code DATA_LOG_BLOCK) (replicate 8 0xff)).
Definition ftl_chip : chip := MkChip
  (list_to_map [(page_addr g 1 0, mt_page0); (page_addr g 2 0, (data_of 10, ftl_spare 12));
                (page_addr g 2 1, (data_of 11, ftl_spare 13)); (page_addr g 2 2, (data_of 12, ftl_spare 14))])
  [0] [] [] 1.
Definition ftl_head : dl_blockinfo := MkDlb 3 2 3 3.
Definition ftl_ents : list dl_transitem := [MkDlt 0 12; MkDlt 1 13; MkDlt 2 14].
Definition ftl_table : dl_ram := MkDl (ftl_head :: replicate 127 (MkDlb 0 0 0 0)) 1
  (ftl_ents ++ replicate 4093 (MkDlt 0 0)) 3.
Definition ftl_dir : mt_ram := MkMt (1 :: replicate 5 0) 1 (replicate 6 (MkMtb 0 0 0 0)) 0 (replicate 768 (MkMtt 0 0)) 0.
Definition ftl_state : nftl chip :=
  with_maxlp 200 (with_dl ftl_table (with_mt ftl_dir (with_gar inv_gar (with_alloc alloc_ex (initial ftl_chip))))).
Definition ftl_own (b : Z) : role :=
  if decide (3 <= b < 64) then RFree else if decide (b = 1) then RMt 0
  else if decide (b = 2) then RDl 3 else ROther.
Definition ftl_ghost : ghost :=
  MkGhost ftl_own [(ftl_head, ftl_ents)] (upd (fun _ => None) 0 (Some 1)) [] (fun _ => None) [] None [].

Lemma ftl_state_owners : owners g alloc_ex ftl_ghost.
Proof.
  split; try done.
  - intros b. rewrite alloc_ex_free. unfold in_chip.
    change (nr_blks g) with 64. cbn. unfold ftl_own.
    repeat case_decide; (split; [intros; split|intros [? ?]]); (lia || congruence).
  - intros i b. cbn. unfold upd. case_decide; [|done]. intros [= <-]. by subst.
  - intros h es H. inversion H.
  - intros h es [= -> ->]%list_elem_of_singleton. done.
  - intros b H. inversion H.
  - apply NoDup_nil_2.
Qed.

Lemma ftl_chip_erased b p : b <> 2 /\ b <> 1 \/ 3 <= p -> 0 <= p < 4 -> @nd_erased _ _ g inv_laws ftl_chip b p.
Proof.
  intros Hb Hp. apply not_elem_of_list_to_map_1.
  change (b * 128 + p * 32 ∉ [1 * 128 + 0 * 32; 2 * 128 + 0 * 32; 2 * 128 + 1 * 32; 2 * 128 + 2 * 32]).
  rewrite !not_elem_of_cons. split_and!; [lia|lia|lia|lia|apply not_elem_of_nil].
Qed.

Lemma ftl_state_tells : tells g ftl_chip 0 ftl_ghost.
Proof.
  split.
  - split; [..|done]; cbn.
    + intros i b. unfold upd. case_decide; [|done]. intros [= <-]. subst.
      split; [reflexivity|reflexivity|intros _; vm_compute; intuition congruence].
    + intros h es H. inversion H.
    + intros h es [= -> ->]%list_elem_of_singleton. split; cbn; [reflexivity|vm_compute; intuition congruence|reflexivity|].
      intros p Hp. assert (p = 0 \/ p = 1 \/ p = 2) as [->|[->| ->]] by lia; reflexivity.
    + done.
    + intros b H. inversion H.
  - intros b. cbn. unfold ftl_own. repeat case_decide; cbn; subst; try done.
    by exists ftl_head, ftl_ents; split; [left|].
  - intros b [Hb Hb']. change (zmem (b * 128) [0] = true <-> ftl_own b = ROther). rewrite bad_first.
    change (nr_blks g) with 64 in Hb'. unfold ftl_own. repeat case_decide; split; (done || lia).
Qed.

Lemma ftl_state_inv : inv g ftl_state ftl_ghost.
Proof.
  split; [|by split|done|apply alloc_ex_ok|apply ftl_state_owners| |apply ftl_state_tells].
  - apply map_Forall_lookup_2. intros i x Hx. apply elem_of_list_to_map_2 in Hx.
    rewrite !elem_of_cons, elem_of_nil in Hx.
    destruct Hx as [E|[E|[E|[E|[]]]]]; injection E as _ ->; (split; vm_compute; reflexivity).
  - split.
    + intros b p [_ Hp] Ho. apply ftl_chip_erased; [|done]. cbn in Ho. unfold ftl_own in Ho.
      repeat case_decide; (done || lia).
    + intros h es p H. inversion H.
    + intros h es p [= -> ->]%list_elem_of_singleton [_ Hp] Hu. apply ftl_chip_erased; [right; exact Hu|done].
    + done.
Qed.

Lemma ftl_state_rep : mt_rep g ftl_dir ftl_ghost.
Proof.
  split.
  - split; try (vm_compute; reflexivity).
    + split; [by eexists|by eexists|done|done|by repeat constructor].
    + vm_compute. intuition congruence.
    + constructor.
    + apply NoDup_nil_2.
  - done.
  - intros i Hi. cbn in Hi. assert (i = 0) as -> by lia. by exists 1.
  - cbn. intros i. unfold upd. case_decide; [subst; intros _; lia|done].
  - intros h es H. inversion H.
Qed.

Lemma ftl_lba_range lba : 0 <= lba < 64 <-> lba_in g 1 lba.
Proof.
  unfold lba_in. change (mt_entries g) with 16. change (nr_pgsinblk g) with 4.
  rewrite Z.div_div by lia. change (16 * 4) with 64. split.
  - intros H. split; [lia|]. split; [apply Z.div_lt_upper_bound; lia|apply Z.div_lt_upper_bound; lia].
  - intros (H0 & _ & H1). zdiv_lia.
Qed.

Lemma ftl_state_map : map_holds g 1 ftl_chip ftl_ghost (fun _ => None).
Proof.
  intros lba Hl%ftl_lba_range.
  assert (Hall : Forall (fun lba => mt_entry g ftl_chip ftl_ghost lba = 0xffff) (seqZ 0 64)).
  { apply (bool_decide_unpack _). vm_compute. reflexivity. }
  rewrite Forall_forall in Hall. apply Hall. apply elem_of_seqZ. lia.
Qed.

Lemma ftl_state_dl : dl_ok g ftl_table [(ftl_head, ftl_ents)].
Proof.
  split; try (vm_compute; reflexivity).
  - split; [by eexists|by eexists|done|done|by repeat constructor].
  - vm_compute. intuition congruence.
  - repeat constructor; cbn; try (vm_compute; intuition congruence); set_solver.
  - apply NoDup_singleton.
Qed.

Lemma ftl_state_ok : ftl g ftl_state ftl_ghost.
Proof.
  split.
  - split; [apply ftl_state_inv| |apply ftl_state_rep| |done|apply ftl_state_map|done].
    + split; [split|..]; try done. by exists (replicate 256 0).
    + split; [done|]. intros p Hp.
      destruct (where_live g small_geo_ok _ _ _ _ _ _ ftl_state_owners ftl_state_rep Hp) as [[Hb _] _].
      cbn in Hb. change (nr_blks g) with 64 in Hb. lia.
  - intros h es H. inversion H.
  - apply ftl_state_dl.
  - intros h es [= -> ->]%list_elem_of_singleton. by apply ftl_lba_range.
  - done.
  - intros i h Hi Hg. change (dl_blkcnt (n_dl ftl_state)) with 1 in Hi.
    change (dl_blocktab (n_dl ftl_state)) with ([ftl_head] ++ replicate 127 (MkDlb 0 0 0 0)) in Hg.
    rewrite arr_get_app in Hg. change (arr_len [ftl_head]) with 1 in Hg. destruct (i <? 1) eqn:E; zbool; [lia|].
    unfold arr_get in Hg. destruct (0 <=? i - 1); [|done]. by apply lookup_replicate in Hg as [-> _].
  - intros lpa Hl. change (n_maxlp ftl_state) with 200 in Hl. change (nr_pgsinblk g) with 4.
    change (mt_blkcnt (n_mt ftl_state)) with 1. rewrite <- ftl_lba_range. unfold in_u16, in_u32. zdiv_lia.
Qed.
Lemma ftl_state_open : dl_open g ftl_ghost.
Proof. intros h es [= -> ->]%list_elem_of_singleton. done. Qed.
Lemma ftl_state_reserve : reserve MAX_RESERVE ftl_state ftl_ghost.
Proof. split; [by left|by vm_compute]. Qed.
Lemma ftl_state_sequence : in_sequence g ftl_head ftl_ents.
Proof.
  split; [done|]. change (nr_pgsinblk g) with 4. cbn [dlb_lba ftl_head]. intros i Hi.
  assert (i = 0 \/ i = 1 \/ i = 2) as [->|[->| ->]] by lia; done.
Qed.
Lemma ftl_state_can_write lpa : 0 <= lpa < 200 -> lpa / 4 <> 3 \/ lpa mod 4 = 3 -> can_write g ftl_state ftl_ghost lpa.
Proof.
  intros Hl Hor. split; [done|by split; [left|vm_compute]|done|done|].
  intros h es [= -> ->]%list_elem_of_singleton E _. change (nr_pgsinblk g) with 4 in *. cbn in E.
  destruct Hor; [congruence|done].
Qed.

Lemma read_logicpage_correct_witness :
  (exists s' buf, nftl_read_logicpage g 13 (data_of 0) ftl_state = Done (0, buf) s' /\ take 32 buf = data_of 11) /\
  (exists s' buf, nftl_read_logicpage g 40 (data_of 0) ftl_state = Done (0, buf) s' /\ take 32 buf = data_of 0xff).
Proof.
  split.
  - destruct (read_logicpage_correct g small_geo_ok ftl_state ftl_ghost 13 (data_of 0) ftl_state_ok)
      as (s' & buf & H1 & _ & _ & _ & _ & _ & H2); [done|done|].
    exists s', buf. split; [exact H1|]. clear H1. etransitivity; [exact H2|]. vm_compute. reflexivity.
  - destruct (read_logicpage_correct g small_geo_ok ftl_state ftl_ghost 40 (data_of 0) ftl_state_ok)
      as (s' & buf & H1 & _ & _ & _ & _ & _ & H2); [done|done|].
    exists s', buf. split; [exact H1|]. clear H1. etransitivity; [exact H2|]. vm_compute. reflexivity.
Defined.

(** Page 15 completes the log block; page 40 opens a new one. *)
Lemma write_logicpage_correct_witness :
  (exists s' G', nftl_write_logicpage g 15 (data_of 13) ftl_state = Done 0 s' /\ ftl g s' G' /\
     dl_blkcnt (n_dl s') = 0 /\ logical g (world s') G' 13 = Some (data_of 11)) /\
  (exists s' G', nftl_write_logicpage g 40 (data_of 14) ftl_state = Done 0 s' /\ ftl g s' G' /\
     dl_blkcnt (n_dl s') = 2).
Proof.
  split.
  - destruct (write_logicpage_correct g small_geo_ok ftl_state ftl_ghost 15 (data_of 13) ftl_state_ok ftl_state_open
      (ftl_state_can_write 15 ltac:(lia) ltac:(right; reflexivity))) as (s' & G' & H1 & H2 & _ & _ & _ & H3 & _); [done|].
    exists s', G'. split; [exact H1|]. split; [exact H2|]. split.
    + assert (E : match nftl_write_logicpage g 15 (data_of 13) ftl_state with
                  | Done _ s => dl_blkcnt (n_dl s) = 0 | _ => False end) by (vm_compute; reflexivity).
      rewrite H1 in E. clear H1 H2 H3. exact E.
    + apply H3; [discriminate|]. vm_compute. reflexivity.
  - destruct (write_logicpage_correct g small_geo_ok ftl_state ftl_ghost 40 (data_of 14) ftl_state_ok ftl_state_open
      (ftl_state_can_write 40 ltac:(lia) ltac:(left; discriminate))) as (s' & G' & H1 & H2 & _); [done|].
    exists s', G'. split; [exact H1|]. split; [exact H2|].
    assert (E : match nftl_write_logicpage g 40 (data_of 14) ftl_state with
                | Done _ s => dl_blkcnt (n_dl s) = 2 | _ => False end) by (vm_compute; reflexivity).
    rewrite H1 in E. clear H1 H2. exact E.
Defined.

Lemma write_read_logicpage_witness : exists s1 s2 s3 out2 out3,
  nftl_write_logicpage g 15 (data_of 13) ftl_state = Done 0 s1 /\
  nftl_read_logicpage g 15 (data_of 0) s1 = Done (0, out2) s2 /\ take 32 out2 = data_of 13 /\
  nftl_read_logicpage g 12 (data_of 0) s1 = Done (0, out3) s3 /\ take 32 out3 = data_of 10.
Proof.
  destruct (write_read_logicpage g small_geo_ok ftl_state ftl_ghost 15 (data_of 13) ftl_state_ok ftl_state_open
    (ftl_state_can_write 15 ltac:(lia) ltac:(right; reflexivity))) as (s1 & H1 & H2); [done|].
  destruct (H2 15 (data_of 0)) as (s2 & out2 & E2 & D2); [clear; done|clear; done|left; reflexivity|].
  destruct (H2 12 (data_of 0)) as (s3 & out3 & E3 & s0 & out0 & E0 & D3);
    [clear; done|clear; done|right; clear; vm_compute; discriminate|].
  exists s1, s2, s3, out2, out3. split; [exact H1|]. split; [exact E2|]. split; [exact D2|]. split; [exact E3|].
  assert (E : match nftl_read_logicpage g 12 (data_of 0) ftl_state with
              | Done (_, out) _ => take 32 out = data_of 10 | _ => False end) by (vm_compute; reflexivity).
  rewrite E0 in E. change (take 32 out3 = take 32 out0) in D3. clear H1 H2 E2 D2 E3 E0. rewrite D3. exact E.
Defined.

Lemma merge_dlblk_preserves_witness : exists s' G', nftl_merge_dlblk g 0 ftl_state = Done 0 s' /\
  ftl g s' G' /\ gh_dl G' = [] /\ logical g (world s') G' 13 = Some (data_of 11).
Proof.
  destruct (merge_dlblk_preserves g small_geo_ok ftl_state ftl_ghost [] ftl_head ftl_ents [] ftl_state_ok)
    as (s' & G' & H1 & H2 & H3 & _ & H4 & _); [reflexivity|by split; [left|vm_compute]|].
  change (nftl_merge_dlblk g 0 ftl_state = Done 0 s') in H1.
  exists s', G'. split; [exact H1|]. split; [exact H2|]. split; [exact H3|]. apply H4. vm_compute. reflexivity.
Defined.

Lemma shrink_ends_witness : exists s1 s2, shrink_blocks g ftl_state = Done None s1 /\ shrink_pages g s1 = Done None s2.
Proof.
  destruct (shrink_ends g small_geo_ok ftl_state ftl_ghost ftl_state_ok) as (s1 & G1 & s2 & G2 & H1 & H2 & _);
    [by split; [left|vm_compute]|]. exists s1, s2. split; [exact H1|exact H2].
Defined.

(** Two writes of one page and one of another, after page 15 has cleared the
    log. *)
Lemma write_all_correct_witness : exists s G s1 s2 out,
  nftl_write_logicpage g 15 (data_of 13) ftl_state = Done 0 s /\ ftl g s G /\
  write_all g [(40, data_of 1); (40, data_of 2)] s = Done 0 s1 /\
  nftl_read_logicpage g 40 (data_of 0) s1 = Done (0, out) s2 /\ take 32 out = data_of 2.
Proof.
  destruct (proj1 (wp_run _ _ _) (nftl_write_logicpage_run g small_geo_ok ftl_state ftl_ghost 15 (data_of 13)
    ftl_state_ok ftl_state_open (ftl_state_can_write 15 ltac:(lia) ltac:(right; reflexivity)) ltac:(done)))
    as (r & s & H & -> & G & [W1 W2 W3 W4 W5 W6 W7 W8 _ _ _] & Ho & _).
  assert (E : match nftl_write_logicpage g 15 (data_of 13) ftl_state with
              | Done _ s => dl_blkcnt (n_dl s) = 0 | _ => False end) by (vm_compute; reflexivity).
  rewrite H in E. rewrite (lr_blkcnt _ _ _ _ _ _ (dk_rep _ _ _ (ft_dl _ _ _ W1))) in E.
  assert (Hnil : gh_dl G = []) by (destruct (gh_dl G) as [|x l]; [done|rewrite arr_len_cons in E; pose proof (arr_len_nonneg l); lia]).
  pose proof (W5 MAX_RESERVE ltac:(unfold MAX_RESERVE; lia) ftl_state_reserve) as [R1 R2].
  destruct (write_all_correct g small_geo_ok [(40, data_of 1); (40, data_of 2)] 0 s G W1 Ho)
    as (s1 & H1 & H2); [done|..].
  - intros h es. rewrite Hnil. intros Hin. inversion Hin.
  - clear. done.
  - clear. done.
  - split; [by eapply room_mono; [exact R1|]|]. unfold MAX_RESERVE in R2. change (2 + 9 <= stock s G). lia.
  - rewrite Hnil. clear. done.
  - rewrite Hnil. clear. done.
  - rewrite W2. intros lpa buf Hin. rewrite !elem_of_cons, elem_of_nil in Hin.
    destruct Hin as [Hi|[Hi|[]]]; injection Hi as -> ->; clear; done.
  - destruct (H2 40 (data_of 0) (data_of 2)) as (s2 & out & H3 & H4);
      [rewrite W2; clear; done|clear; done|reflexivity|].
    exists s, G, s1, s2, out. split; [exact H|]. split; [exact W1|]. split; [exact H1|]. split; [exact H3|exact H4].
Defined.

(** Page 13 is rewritten; the data turn up in page 15. *)
Lemma convert_loses_write_witness : exists s1 s2 s3 out2 out3,
  nftl_write_logicpage g 13 (data_of 77) ftl_state = Done 0 s1 /\
  nftl_read_logicpage g 13 (data_of 0) s1 = Done (0, out2) s2 /\ take 32 out2 = data_of 11 /\
  nftl_read_logicpage g 15 (data_of 0) s1 = Done (0, out3) s3 /\ take 32 out3 = data_of 77.
Proof.
  destruct (convert_loses_write g small_geo_ok ftl_state ftl_ghost [] ftl_head ftl_ents [] 13 (data_of 77) (data_of 0)
    ftl_state_ok ftl_state_open) as (s1 & s0 & s2 & s3 & out0 & out2 & out3 & H1 & H0 & H2 & D2 & H3 & D3).
  - reflexivity.
  - reflexivity.
  - apply ftl_state_sequence.
  - vm_compute. discriminate.
  - split; [discriminate|reflexivity].
  - reflexivity.
  - vm_compute. discriminate.
  - vm_compute. discriminate.
  - split; [left; reflexivity|vm_compute; discriminate].
  - reflexivity.
  - reflexivity.
  - exists s1, s2, s3, out2, out3. split; [exact H1|]. split; [exact H2|].
    split; [|split; [exact H3|exact D3]].
    assert (E : match nftl_read_logicpage g 13 (data_of 0) ftl_state with
                | Done (_, out) _ => take 32 out = data_of 11 | _ => False end) by (vm_compute; reflexivity).
    rewrite H0 in E. change (take 32 out2 = take 32 out0) in D2. clear H0 H1 H2 H3. rewrite D2. exact E.
Defined.
End Example.
