(* ===== verification/NftlMount.v ===== *)
(** * NFTL: mounting

    [NFTL_mount] of [BSP/oss/nftl/nftlmount.c]: rebuilding the tables in RAM
    from the spare areas of the chip, and writing a fresh mapping table on a
    chip that has none. *)

From Stdlib Require Import ZArith Lia.
From stdpp Require Import base numbers list.
From S2P Require Import Prelude CMonad NftlTypes NftlAlloc NftlDl NftlMtl MtdDev NftlState NftlFlash NftlGarbage NftlMap.

Section Operations.
Context {W : Type} `{World W} (g : mtd_info).

(** The locals that live across the loops: the spare buffer and [ret]. *)
Definition locals : Type := list Z * Z.

(** A read of the spare area of a page. *)
Definition read_spare (block page : Z) (blkinfo : list Z) : M (nftl W) mtd_result :=
  onF (mtd_read g block page None (Some blkinfo) 1).
Definition spare_read_ok (r : mtd_result) : bool :=
  (r_ret r =? 0) && (r_retlen r =? oobsize g).

(** [memset(mt_pbas, 0xff, sizeof(uint16_t) * n)] *)
Definition clear_mt_pbas (n : Z) : M (nftl W) unit :=
  let! m := gets n_mt in
  if arr_len (mt_pbas m) <? n then crash OutOfBounds
  else onM (modify (with_mt_pbas (replicate (Z.to_nat n) 0xffff ++ drop (Z.to_nat n) (mt_pbas m)))).

Definition mount_init : M (nftl W) unit :=
  onA (modify (fun a => with_blockstatus (replicate (length (blockstatus a)) 0) a)) ;;
  onG (modify (with_gt_pbas (replicate (Z.to_nat GT_MAX_BLOCKS) 0xffff))) ;;
  let n := u8 (u32 ((nb_blocks g - 1) * 2) / erasesize g + 1) in
  onM (modify (with_mt_blkcnt n)) ;;
  clear_mt_pbas n ;;
  onM (modify (fun m => with_mtl_transtab (replicate (length (mtl_transtab m)) (MkMtt 0 0)) m)) ;;
  modify (with_maxlp (u32 (nb_blocks g * erasesize g) / writesize g)) ;;
  onC (modify (fun c => MkCache 0xffff 0xff (replicate (length (mt_readcache c)) 0xff))).

(** ** The types of the blocks, and the garbage table *)
Definition note_gt_block (i : Z) (blkinfo : list Z) : M (nftl W) unit :=
  if si_blocktype blkinfo =? block_state_code GARBAGE_TAB_BLOCK then
    let! bad := onF (block_isbad (u32 (i * erasesize g))) in
    if truth bad then ret tt
    else
      let gt_index := si_tabindx blkinfo in
      if gt_index <? GT_MAX_BLOCKS then set_gt_pba gt_index i else ret tt
  else ret tt.

Definition scan_type (i : Z) (l : list Z * locals) : M (nftl W) (list Z * locals + Z) :=
  let '(blocktype, (blkinfo, _)) := l in
  let! r := read_spare i 0 blkinfo in
  if spare_read_ok r then
    let! blocktype := assert_some OutOfBounds (arr_set blocktype i (si_blocktype (r_oob r))) in
    note_gt_block i (r_oob r) ;;
    ret (inl (blocktype, (r_oob r, r_ret r)))
  else ret (inr (-1)).

(** ** The second scan *)
Definition mount_mt_block (i : Z) (l : locals) : M (nftl W) (locals + Z) :=
  let! r := read_spare i 0 (fst l) in
  if spare_read_ok r then
    let! m := gets n_mt in
    let indx := si_tabindx (r_oob r) in
    if indx <? mt_blkcnt m then
      onM (mt_set_pba indx i) ;;
      (if indx =? 0 then onA (modify (with_lastfree (si_lastfree (r_oob r)))) else ret tt) ;;
      ret (inl (r_oob r, r_ret r))
    else ret (inr 1)
  else ret (inr (r_ret r)).

(** One page of an MTLog block, whose table entry is [k]: [Some (inl l)]
    ends the loop. *)
Definition mount_mtl_page (i k : Z) (l : locals) : M (nftl W) (locals + (locals + Z)) :=
  let! b := onM (mtl_block k) in
  if mtb_used b >=? nr_pgsinblk g then ret (inr (inl l))
  else
    let! r := read_spare i (mtb_used b) (fst l) in
    let sp := r_oob r in
    if spare_read_ok r then
      if negb (si_tabindx sp =? 0xff) then
        let! m := gets n_mt in
        let offset := u16 (mtl_pgcnt m - mtb_valid b) in
        let! j := assert_some OutOfBounds
          (arr_find (fun t => mtt_pageofs t =? si_pageofs sp) (mtl_transtab m)
             offset (offset + mtb_valid b)) in
        onM (mtl_set_trans (u16 j) (MkMtt (mtb_used b) (si_pageofs sp))) ;;
        let b := mtb_set_used (u8 (mtb_used b + 1)) b in
        (if j - offset =? mtb_valid b then
           onM (modify (fun m => with_mtl_pgcnt (u16 (mtl_pgcnt m + 1)) m)) ;;
           onM (mtl_set_block k (mtb_set_valid (u8 (mtb_valid b + 1)) b))
         else onM (mtl_set_block k b)) ;;
        ret (inl (sp, r_ret r))
      else ret (inr (inl (sp, r_ret r)))
    else ret (inr (inr (r_ret r))).

Definition mount_mtl_block (i : Z) (l : locals) : M (nftl W) (locals + Z) :=
  let! m := gets n_mt in
  let k := mtl_blkcnt m in
  let! r := read_spare i 0 (fst l) in
  if spare_read_ok r then
    if si_tabindx (r_oob r) <? mt_blkcnt m then
      onM (mtl_set_block k (MkMtb (si_tabindx (r_oob r)) i 0 0)) ;;
      (* each page raises [used], which ends the loop at nr_pgsinblk *)
      let! e := for_local 0 (nr_pgsinblk g + 1) (r_oob r, r_ret r) (fun _ l => mount_mtl_page i k l) in
      match e with
      | inl _ => crash OutOfFuel
      | inr (inr e) => ret (inr e)
      | inr (inl l) =>
          onM (modify (fun m => with_mtl_blkcnt (u8 (mtl_blkcnt m + 1)) m)) ;;
          ret (inl l)
      end
    else ret (inr 1)
  else ret (inr (r_ret r)).
End Operations.

Section DataLog.
Context {W : Type} `{World W} (g : mtd_info).

(** One page of a DataLog block. *)
Definition mount_dl_page (i k : Z) (l : locals) : M (nftl W) (locals + (locals + Z)) :=
  let! b := onD (dl_block k) in
  if dlb_used b >=? nr_pgsinblk g then ret (inr (inl l))
  else
    let! r := read_spare g i (dlb_used b) (fst l) in
    let sp := r_oob r in
    if spare_read_ok g r then
      if negb (si_lpa sp =? 0xffffffff) then
        let! d := gets n_dl in
        let offset := u16 (dl_pgcnt d - dlb_valid b) in
        let! j := assert_some OutOfBounds
          (arr_find (fun t => dlt_lpa t =? si_lpa sp) (dl_transtab d)
             offset (offset + dlb_valid b)) in
        onD (dl_set_trans (u16 j) (MkDlt (dlb_used b) (si_lpa sp))) ;;
        let b := dlb_set_used (u8 (dlb_used b + 1)) b in
        let b := if dlb_used b <? 2
                 then MkDlb (u16 (si_lpa sp / nr_pgsinblk g)) (dlb_pba b) (dlb_used b) (dlb_valid b)
                 else b in
        (if j - offset =? dlb_valid b then
           onD (modify (fun d => with_dl_pgcnt (u16 (dl_pgcnt d + 1)) d)) ;;
           onD (dl_set_block k (dlb_set_valid (u8 (dlb_valid b + 1)) b))
         else onD (dl_set_block k b)) ;;
        ret (inl (sp, r_ret r))
      else ret (inr (inl (sp, r_ret r)))
    else ret (inr (inr (r_ret r))).

Definition mount_dl_block (i : Z) (l : locals) : M (nftl W) (locals + Z) :=
  let! r := read_spare g i (u8 (nr_pgsinblk g - 1)) (fst l) in
  if spare_read_ok g r then
    if negb (si_blocktype (r_oob r) =? block_state_code DATA_BLOCK) then
      let! d := gets n_dl in
      let k := dl_blkcnt d in
      let! b := onD (dl_block k) in
      onD (dl_set_block k (MkDlb (dlb_lba b) i 0 0)) ;;
      let! e := for_local 0 (nr_pgsinblk g + 1) (r_oob r, r_ret r) (fun _ l => mount_dl_page i k l) in
      match e with
      | inl _ => crash OutOfFuel
      | inr (inr e) => ret (inr e)
      | inr (inl l) =>
          onD (modify (fun d => with_dl_blkcnt (u16 (dl_blkcnt d + 1)) d)) ;;
          ret (inl l)
      end
    else ret (inl (r_oob r, r_ret r))
  else ret (inr (r_ret r)).

(** The classification of block [i] of the second scan. *)
Definition scan_block (blocktype : list Z) (i : Z) (l : locals) : M (nftl W) (locals + Z) :=
  let! bad := onF (block_isbad (u32 (i * erasesize g))) in
  let! t := assert_some OutOfBounds (arr_get blocktype i) in
  if truth bad || (t =? block_state_code BBT_BLOCK) then
    modify (fun s => with_badblkcnt (u32 (n_badblkcnt s + 1)) s) ;; ret (inl l)
  else if t =? block_state_code GARBAGE_TAB_BLOCK then ret (inl l)
  else if t =? block_state_code FREE_BLOCK then
    onA (nftl_set_block_free g i) ;; ret (inl l)
  else if t =? block_state_code DATA_BLOCK then ret (inl l)
  else
    let! gar := nftl_is_gar_blk i in
    if (gar : bool) then ret (inl l)
    else if t =? block_state_code MAP_TAB_BLOCK then mount_mt_block g i l
    else if t =? block_state_code MT_LOG_BLOCK then mount_mtl_block g i l
    else if t =? block_state_code DATA_LOG_BLOCK then mount_dl_block i l
    else ret (inl l).

(** ** A fresh mapping table *)
Definition create_mt_page (databuff : list Z) (i : Z) (l : locals) : M (nftl W) (locals + Z) :=
  let mtindex := u8 (i / nr_pgsinblk g) in
  let mtpgofs := u8 (i mod nr_pgsinblk g) in
  let! failed :=
    (if mtpgofs =? 0 then
       onA (modify (with_lastfree 0)) ;;
       let! b := onA (nftl_get_free_block g) in
       onM (mt_set_pba mtindex b) ;;
       ret (b =? 0xffff)
     else ret false) in
  if (failed : bool) then ret (inr (-1))
  else
    let! a := gets n_alloc in
    let sp := set_tabindx mtindex (fst l) in
    let sp := if i =? 0 then set_lastfree (lastfree a) sp else sp in
    let! b := onM (mt_pba mtindex) in
    let! w := onF (mtd_write g b mtpgofs databuff sp 1) in
    if truth (fst w) || negb (snd w =? u32 (oobsize g + writesize g)) then
      let! nb := nftl_write_error g b mtpgofs databuff sp 1 in
      onM (mt_set_pba mtindex nb) ;;
      ret (inl (sp, 0))
    else ret (inl (sp, fst w)).

Definition create_mt (l : locals) : M (nftl W) Z :=
  let! junk := onF (stack NAND_MAX_PAGESIZE) in
  let! databuff := assert_some OutOfBounds (memset junk 0xff (writesize g)) in
  let nr_mtpage := u8 (u32 ((nr_blks g - 1) * 2) / writesize g + 1) in
  let sp := set_blocktype (block_state_code MAP_TAB_BLOCK) (fst l) in
  let! r := for_local 0 nr_mtpage (sp, snd l) (create_mt_page databuff) in
  match r with inr e => ret e | inl l => ret (snd l) end.

Definition mt_missing : M (nftl W) bool :=
  let! m := gets n_mt in
  let! first := onM (mt_pba 0) in
  if first =? 0xffff then ret true
  else let! last := onM (mt_pba (mt_blkcnt m - 1)) in ret (last =? 0xffff).

Definition mount_finish (l : locals) : M (nftl W) Z :=
  let! bad := gets n_badblkcnt in
  let size := u32 ((nr_blks g - bad - nr_blks g / 8) * erasesize g) in
  modify (with_storagesize size) ;;
  if size <? 500 then ret (-1)
  else
    let! missing := mt_missing in
    if (missing : bool) then
      let! m := gets n_mt in
      if mtl_blkcnt m =? 0 then create_mt l else ret (snd l)
    else ret (snd l).

(** [blocktype] is [kzalloc]ed and not checked. *)
Definition NFTL_mount : M (nftl W) Z :=
  let! blkinfo := onF (stack BLOCK_INFO_SIZE) in
  let! m := onF (kmalloc MAX_BLOCKS) in
  let! blocktype := assert_some OutOfBounds m in
  let blocktype := replicate (length blocktype) 0 in
  mount_init g ;;
  let! r := for_local 0 (nb_blocks g) (blocktype, (blkinfo, 0)) (scan_type g) in
  match r with
  | inr e => ret e
  | inl (blocktype, (blkinfo, ret0)) =>
      let! gt := gt_pba 0 in
      let! ret1 := (if negb (gt =? 0xffff)
                    then let! e := nftl_get_gar_blks g in ret (Z.lor ret0 e) else ret ret0) in
      if negb (gt =? 0xffff) && truth ret1 then ret ret1
      else
        let! r := for_local 0 (nr_blks g) (blkinfo, ret1) (scan_block blocktype) in
        match r with inr e => ret e | inl l => mount_finish l end
  end.
End DataLog.
