(* ===== verification/NftlCore.v ===== *)
(** * NFTL: the block-device front end

    [BSP/oss/nftl/nftlcore.c]: the sector operations of the block device over
    logical pages, with one write-back page cache and one read page cache, and
    the geometry computed when a partition is added.

    The logical pages are reached through the class [PageStore], which is all
    the front end knows of the translation layer; [nftl_store] is the instance
    the driver is linked with. *)

From Stdlib Require Import ZArith Lia.
From stdpp Require Import base numbers list.
From S2P Require Import Prelude CMonad NftlTypes MtdDev NftlState NftlData NftlMount.

(** What the front end calls: [nftl_read_logicpage] and
    [nftl_write_logicpage]. *)
Class PageStore (S : Type) := {
  ps_read : Z -> list Z -> M S (Z * list Z);
  ps_write : Z -> list Z -> M S Z
}.

#[export] Instance nftl_store (W : Type) `{World W} (g : mtd_info) : PageStore (nftl W) := {
  ps_read := nftl_read_logicpage g;
  ps_write := nftl_write_logicpage g
}.

Definition SECTORSIZE : Z := 4096.

Record core (S : Type) := MkCore {
  c_store : S;
  l_writeblock : Z; l_writepage : Z; write_buffer : list Z;
  l_readblock : Z; l_readpage : Z; read_buffer : list Z }.
Arguments MkCore {_}. Arguments c_store {_}. Arguments l_writeblock {_}. Arguments l_writepage {_}.
Arguments write_buffer {_}. Arguments l_readblock {_}. Arguments l_readpage {_}. Arguments read_buffer {_}.

(** [memcpy(dst + ofs, src, n)] *)
Definition memcpy (dst : list Z) (ofs : Z) (src : list Z) (n : Z) : option (list Z) :=
  if (0 <=? ofs) && (0 <=? n) && (ofs + n <=? arr_len dst) && (n <=? arr_len src)
  then Some (take (Z.to_nat ofs) dst ++ take (Z.to_nat n) src ++ drop (Z.to_nat (ofs + n)) dst)
  else None.

Section Operations.
Context {S : Type} `{PageStore S} (g : mtd_info).

Definition with_store (v : S) (c : core S) := MkCore v (l_writeblock c) (l_writepage c) (write_buffer c)
                                     (l_readblock c) (l_readpage c) (read_buffer c).
Definition set_wkey (b p : Z) (c : core S) := MkCore (c_store c) b p (write_buffer c)
                                     (l_readblock c) (l_readpage c) (read_buffer c).
Definition set_wbuf (v : list Z) (c : core S) := MkCore (c_store c) (l_writeblock c) (l_writepage c) v
                                     (l_readblock c) (l_readpage c) (read_buffer c).
Definition set_rkey (b p : Z) (c : core S) := MkCore (c_store c) (l_writeblock c) (l_writepage c)
                                     (write_buffer c) b p (read_buffer c).
Definition set_rbuf (v : list Z) (c : core S) := MkCore (c_store c) (l_writeblock c) (l_writepage c)
                                     (write_buffer c) (l_readblock c) (l_readpage c) v.
Definition onS {A} : M S A -> M (core S) A := zoom c_store with_store.

Definition page_lpa (block page : Z) : Z := u32 (block * nr_pgsinblk g + page).
Definition nftl_read (block page : Z) (buffer : list Z) : M (core S) (Z * list Z) :=
  let! r := onS (ps_read (page_lpa block page) buffer) in ret (u8 (fst r), snd r).
Definition nftl_write (block page : Z) (buffer : list Z) : M (core S) Z :=
  let! r := onS (ps_write (page_lpa block page) buffer) in ret (u8 r).

(** The block, page and offset of a sector; [sect] is a 32-bit unsigned
    long, so the byte address is computed modulo [2^32]. *)
Definition sect_block (sect : Z) : Z := u16 (u32 (sect * SECTORSIZE) / erasesize g).
Definition sect_page (sect : Z) : Z := u8 (u32 (sect * SECTORSIZE) mod erasesize g / writesize g).
Definition sect_pofs (sect : Z) : Z := u16 (u32 (sect * SECTORSIZE) mod erasesize g mod writesize g).

(** The locals of the two functions. *)
Record cursor := MkCur { cu_block : Z; cu_page : Z; cu_ofs : Z; cu_left : Z; cu_buf : list Z }.

(** [page_num++] with the carry into [block_num]; [mark] is the assignment
    [l_writeblock = block_num] some places have.  [None] is the early
    return of -1. *)
Definition next_page (mark : bool) (b p : Z) : M (core S) (option (Z * Z)) :=
  let p := u8 (p + 1) in
  if p >=? nr_pgsinblk g then
    (if mark then modify (fun c => set_wkey b (l_writepage c) c) else ret tt) ;;
    let b' := u16 (b + 1) in
    if b' >? nr_blks g then ret None else ret (Some (b', 0))
  else ret (Some (b, p)).

(** Writing out the cached page. *)
Definition write_cached : M (core S) Z :=
  let! c := gets id in nftl_write (l_writeblock c) (l_writepage c) (write_buffer c).
Definition wcache_valid (c : core S) : bool :=
  negb (l_writeblock c =? 0xffff) && negb (l_writepage c =? 0xff).

(** Storing [n] bytes of the caller's buffer in the cached page. *)
Definition fill_wbuf (ofs : Z) (src : list Z) (n : Z) : M (core S) unit :=
  let! c := gets id in
  let! b := assert_some OutOfBounds (memcpy (write_buffer c) ofs src n) in
  modify (set_wbuf b).
(** Reading a page into the write cache; the buffer may change even when the
    read fails. *)
Definition load_wbuf (b p : Z) : M (core S) Z :=
  let! c := gets id in
  let! r := nftl_read b p (write_buffer c) in
  modify (set_wbuf (snd r)) ;; ret (fst r).

Definition s16 (x : Z) : Z := (x + 2 ^ 15) mod 2 ^ 16 - 2 ^ 15.
Definition page_room (ofs limit : Z) : Z :=
  let count := s16 (writesize g - ofs) in
  s16 (if limit >? count then count else limit).

(** The four parts of [nftl_writesect]; [inr] returns. *)
Definition ws_hit (u : cursor) : M (core S) (cursor + Z) :=
  let! c := gets id in
  if (cu_block u =? l_writeblock c) && (cu_page u =? l_writepage c) then
    let count := page_room (cu_ofs u) SECTORSIZE in
    fill_wbuf (cu_ofs u) (cu_buf u) count ;;
    let left := u16 (cu_left u - count) in
    if left =? 0 then ret (inr 0)
    else
      modify (fun c => set_wkey (l_writeblock c) (cu_page u) c) ;;
      let! n := next_page true (cu_block u) (cu_page u) in
      match n with
      | None => ret (inr (-1))
      | Some (b, p) => ret (inl (MkCur b p 0 left (drop (Z.to_nat count) (cu_buf u))))
      end
  else ret (inl u).

Definition ws_flush : M (core S) (option Z) :=
  let! c := gets id in
  if wcache_valid c then
    let! e := write_cached in
    if truth e then ret (Some (-1)) else ret None
  else ret None.

Definition ws_unaligned (u : cursor) : M (core S) (cursor + Z) :=
  if negb (cu_ofs u =? 0) then
    let count := page_room (cu_ofs u) (cu_left u) in
    let! e := load_wbuf (cu_block u) (cu_page u) in
    if truth e then ret (inr (-1))
    else
      fill_wbuf (cu_ofs u) (cu_buf u) count ;;
      let left := u16 (cu_left u - count) in
      if left =? 0 then
        modify (set_wkey (cu_block u) (cu_page u)) ;; ret (inr 0)
      else
        let! c := gets id in
        let! e := nftl_write (cu_block u) (cu_page u) (write_buffer c) in
        if truth e then ret (inr (-1))
        else
          modify (set_wkey 0xffff 0xff) ;;
          let! n := next_page false (cu_block u) (cu_page u) in
          match n with
          | None => ret (inr (-1))
          | Some (b, p) =>
              ret (inl (MkCur b p (cu_ofs u) left (drop (Z.to_nat count) (cu_buf u))))
          end
  else ret (inl u).

Definition ws_page (u : cursor) : M (core S) (cursor + Z) :=
  fill_wbuf 0 (cu_buf u) (writesize g) ;;
  let! c := gets id in
  let! e := nftl_write (cu_block u) (cu_page u) (write_buffer c) in
  if truth e then ret (inr (-1))
  else
    modify (fun c => set_wkey (l_writeblock c) (cu_page u) c) ;;
    let! n := next_page true (cu_block u) (cu_page u) in
    match n with
    | None => ret (inr (-1))
    | Some (b, p) =>
        ret (inl (MkCur b p (cu_ofs u) (u16 (cu_left u - writesize g))
                    (drop (Z.to_nat (writesize g)) (cu_buf u))))
    end.

(** The last part: the page after the written ones becomes the cached one. *)
Definition ws_preload (u : cursor) : M (core S) Z :=
  let! e := load_wbuf (cu_block u) (cu_page u) in
  if truth e then ret (-1)
  else
    fill_wbuf 0 (cu_buf u) (cu_left u) ;;
    modify (set_wkey (cu_block u) (cu_page u)) ;;
    ret 0.

(** At most [SECTORSIZE] rounds of pages of at least one byte. *)
Definition PAGE_FUEL : nat := 4097.

Definition nftl_writesect (sect : Z) (buffer : list Z) : M (core S) Z :=
  let! r := ws_hit (MkCur (sect_block sect) (sect_page sect) (sect_pofs sect) SECTORSIZE buffer) in
  match r with
  | inr e => ret e
  | inl u =>
      let! f := ws_flush in
      match f with
      | Some e => ret e
      | None =>
          let! r := ws_unaligned u in
          match r with
          | inr e => ret e
          | inl u =>
              let! r := while_local PAGE_FUEL (fun u => cu_left u >=? writesize g) u ws_page in
              match r with inr e => ret e | inl u => ws_preload u end
          end
      end
  end.
End Operations.

Section Reading.
Context {S : Type} `{PageStore S} (g : mtd_info).

(** Making the read cache hold page [p] of block [b]; [false] when the read
    fails (the key is then unchanged). *)
Definition rs_fetch (b p : Z) : M (core S) bool :=
  let! c := gets id in
  let! ok :=
    (if (b =? l_writeblock c) && (p =? l_writepage c) then
       let! v := assert_some OutOfBounds
                   (memcpy (read_buffer c) 0 (write_buffer c) (writesize g)) in
       modify (set_rbuf v) ;; ret true
     else if negb (b =? l_readblock c) || negb (p =? l_readpage c) then
       let! r := nftl_read g b p (read_buffer c) in
       modify (set_rbuf (snd r)) ;; ret (fst r =? 0)
     else ret true) in
  if (ok : bool) then modify (set_rkey b p) ;; ret true else ret false.

(** The locals of the read: block, page, [count] and the caller's buffer. *)
Record rcursor := MkRc { rc_block : Z; rc_page : Z; rc_count : Z; rc_out : list Z }.

Definition rs_unaligned (u : rcursor) (ofs : Z) : M (core S) (rcursor + Z * list Z) :=
  if negb (ofs =? 0) then
    let count := page_room g ofs SECTORSIZE in
    let! ok := rs_fetch (rc_block u) (rc_page u) in
    if negb ok then ret (inr (- EIO, rc_out u))
    else
      let! c := gets id in
      let! out := assert_some OutOfBounds
                    (memcpy (rc_out u) 0 (drop (Z.to_nat ofs) (read_buffer c)) count) in
      let! n := next_page g false (rc_block u) (rc_page u) in
      match n with
      | None => ret (inr (-1, out))
      | Some (b, p) => ret (inl (MkRc b p count out))
      end
  else ret (inl u).

Definition rs_page (u : rcursor) : M (core S) (rcursor + Z * list Z) :=
  let! ok := rs_fetch (rc_block u) (rc_page u) in
  if negb ok then ret (inr (- EIO, rc_out u))
  else
    let! c := gets id in
    let last := SECTORSIZE - rc_count u <? writesize g in
    let n := if last then SECTORSIZE - rc_count u else writesize g in
    let! out := assert_some OutOfBounds (memcpy (rc_out u) (rc_count u) (read_buffer c) n) in
    let count := if last then SECTORSIZE else s16 (rc_count u + writesize g) in
    let! n := next_page g false (rc_block u) (rc_page u) in
    match n with
    | None => ret (inr (-1, out))
    | Some (b, p) => ret (inl (MkRc b p count out))
    end.

(** The result and the caller's buffer. *)
Definition nftl_readsect (sect : Z) (buffer : list Z) : M (core S) (Z * list Z) :=
  let! r := rs_unaligned (MkRc (sect_block g sect) (sect_page g sect) 0 buffer)
              (sect_pofs g sect) in
  match r with
  | inr e => ret e
  | inl u =>
      let! r := while_local PAGE_FUEL (fun u => rc_count u <? SECTORSIZE) u rs_page in
      match r with inr e => ret e | inl u => ret (0, rc_out u) end
  end.

(** ** The page operations and the flush *)

(** The write-back that several functions start with; its result is
    dropped. *)
Definition flush_cache : M (core S) unit :=
  let! c := gets id in
  if wcache_valid c then write_cached g ;; modify (set_wkey 0xffff 0xff) else ret tt.

Definition whole_page (count : Z) : bool :=
  ((count =? 8) && (writesize g =? 4096)) || ((count =? 4) && (writesize g =? 2048)).

Definition nftl_writesects (sect : Z) (buffer : list Z) (count : Z) : M (core S) Z :=
  flush_cache ;;
  if whole_page count then onS (ps_write sect buffer) else ret 1.
Definition nftl_readsects (sect : Z) (buffer : list Z) (count : Z) : M (core S) (Z * list Z) :=
  flush_cache ;;
  if whole_page count then onS (ps_read sect buffer) else ret (1, buffer).

Definition nftl_flush : M (core S) unit := flush_cache.
(** The key of the cached page is left as it is. *)
Definition nftl_remove_dev : M (core S) unit :=
  let! c := gets id in
  if wcache_valid c then write_cached g ;; ret tt else ret tt.
End Reading.

(** ** Adding a partition *)
Record nftl_record := MkRec { nr_heads : Z; nr_sectors : Z; nr_cylinders : Z; nr_size : Z; nr_numvunits : Z }.

Section Geometry.
Context (g : mtd_info).

(** C integer division. *)
Definition cdiv (a b : Z) : option Z := if b =? 0 then None else Some (a / b).
Definition cmod (a b : Z) : option Z := if b =? 0 then None else Some (a mod b).

(** [cylinders] is 16 bits wide, [heads] and [sectors] 8. *)
Definition calc_geometry (size : Z) : option (Z * Z * Z) :=
  let cylinders := 1024 in
  let heads := 16 in
  let temp := cylinders * heads in
  q ← cdiv size temp; r ← cmod size temp;
  let sectors := u8 q in
  if truth r then
    let sectors := u8 (sectors + 1) in
    let temp := cylinders * sectors in
    q ← cdiv size temp; r ← cmod size temp;
    let heads := u8 q in
    if truth r then
      let heads := u8 (heads + 1) in
      let temp := heads * sectors in
      q ← cdiv size temp;
      Some (heads, sectors, u16 q)
    else Some (heads, sectors, cylinders)
  else Some (heads, sectors, cylinders).

Definition numvunits : Z := u16 (u32 (mtd_size g - 1 * 1024 * 1024) / erasesize g).
Definition mbd_size : Z := u32 (numvunits * (erasesize g / SECTORSIZE)).

Context {W : Type} `{World W}.
(** [nftl_add_mtd] up to the registration of the device: what it stores in
    the record, [None] when it gives up. *)
Definition nftl_add_mtd (partition index : Z) (is_nand has_isbad : bool) (alloc_ok : bool)
    : M (nftl W) (option nftl_record) :=
  if negb (index =? partition) then ret None
  else if negb is_nand then ret None
  else if negb has_isbad then ret None
  else if negb alloc_ok then ret None
  else
    let! e := NFTL_mount g in
    if truth e then ret None
    else
      let! c := assert_some DivByZero (calc_geometry mbd_size) in
      let '(h, s, c) := c in
      ret (Some (MkRec h s c mbd_size numvunits)).

(** [nftl_getgeo]: heads, sectors, cylinders and start. *)
Definition nftl_getgeo (r : nftl_record) (s : nftl W) : Z * Z * Z * Z :=
  (nr_heads r, nr_sectors r, nr_cylinders r, n_storagesize s).
End Geometry.

(** ** The contract of the page layer *)

(** What the front end relies on.  A state of the layer stands for ([ps_rep]) what
    is known of it: [ps_page] is what a page holds, as far as that is known, and
    [ps_fits] says that a page can be written then.  A page that does not fit is
    not promised anything: the layer the driver is linked with loses pages that
    way.  An operation may fail; a write that failed disturbs no other page, and no
    result is mistaken for success when it is cut to a byte. *)
Class PageStoreLaws (S : Type) `{PageStore S} (g : mtd_info) := {
  ps_state : Type;
  ps_rep : S -> ps_state -> Prop;
  ps_page : ps_state -> Z -> option (list Z);
  ps_put : ps_state -> Z -> list Z -> ps_state;
  ps_fits : ps_state -> Z -> Prop;
  ps_len_law s a p d : ps_rep s a -> ps_page a p = Some d -> arr_len d = writesize g;
  ps_put_law a p d q : ps_page (ps_put a p d) q = if q =? p then Some d else ps_page a q;
  ps_read_law s a p buf : ps_rep s a -> in_u32 p -> writesize g <= arr_len buf ->
    exists r buf' s', ps_read p buf s = Done (r, buf') s' /\ ps_rep s' a /\ arr_len buf' = arr_len buf /\
      (u8 r = 0 -> forall d, ps_page a p = Some d -> take (Z.to_nat (writesize g)) buf' = d);
  ps_write_law s a p data : ps_rep s a -> ps_fits a p -> writesize g <= arr_len data ->
    exists r s' a', ps_write p data s = Done r s' /\ ps_rep s' a' /\
      (forall q, q <> p -> ps_page a' q = ps_page a q) /\
      (u8 r = 0 -> a' = ps_put a p (take (Z.to_nat (writesize g)) data))
}.

(** The page sizes the driver supports: pages divide a sector, sectors divide
    a block. *)
Record geo_ok (g : mtd_info) : Prop := {
  geo_ws : 0 < writesize g;
  geo_sect : exists k, 0 < k /\ SECTORSIZE = k * writesize g;
  geo_es : erasesize g = nr_pgsinblk g * writesize g;
  geo_block : exists m, 0 < m /\ erasesize g = m * SECTORSIZE;
  geo_pgs : 0 < nr_pgsinblk g < 255;
  geo_blks : 0 < nr_blks g < 65535
}.
