(* ===== verification/NftlCoreSpec.v ===== *)
(** * NFTL: correctness of the block-device front end

    The sector operations of [NftlCore] are related to the disk they
    implement: the pages of the layer below as far as they are known, overlaid
    with the page held in the write cache.  Everything is proved against
    [PageStoreLaws], of writes that fit; [NftlDevice] shows that the layer the
    driver is linked with keeps that contract. *)

From Stdlib Require Import ZArith Lia.
From stdpp Require Import base numbers list.
From S2P Require Import Prelude CMonad NftlTypes MtdDev NftlCore.

Section Buffers.
Implicit Types (l src dst : list Z) (n : Z).

Lemma memcpy_run dst ofs src n :
  0 <= ofs -> 0 <= n -> ofs + n <= arr_len dst -> n <= arr_len src ->
  memcpy dst ofs src n =
    Some (take (Z.to_nat ofs) dst ++ take (Z.to_nat n) src ++ drop (Z.to_nat (ofs + n)) dst).
Proof.
  intros ? ? ? ?. unfold memcpy.
  destruct (_ && _) eqn:E; [done|].
  repeat (apply andb_false_iff in E as [E|E]); zbool; lia.
Qed.

Lemma memcpy_start dst src n :
  0 <= n -> n <= arr_len dst -> n <= arr_len src ->
  memcpy dst 0 src n = Some (take (Z.to_nat n) src ++ drop (Z.to_nat n) dst).
Proof. intros. by rewrite memcpy_run by lia. Qed.

Lemma arr_len_take l n : 0 <= n <= arr_len l -> arr_len (take (Z.to_nat n) l) = n.
Proof. unfold arr_len. rewrite length_take. lia. Qed.
Lemma arr_len_drop l n : 0 <= n <= arr_len l -> arr_len (drop (Z.to_nat n) l) = arr_len l - n.
Proof. unfold arr_len. rewrite length_drop. lia. Qed.

Lemma arr_len_patch dst src n :
  0 <= n -> n <= arr_len dst -> n <= arr_len src ->
  arr_len (take (Z.to_nat n) src ++ drop (Z.to_nat n) dst) = arr_len dst.
Proof. intros. rewrite arr_len_app, arr_len_take, arr_len_drop by lia. lia. Qed.

Lemma take_patch dst src n :
  0 <= n -> n <= arr_len src ->
  take (Z.to_nat n) (take (Z.to_nat n) src ++ drop (Z.to_nat n) dst) = take (Z.to_nat n) src.
Proof.
  intros. rewrite take_app_le; [by rewrite take_take, Nat.min_id|].
  unfold arr_len in *. rewrite length_take. lia.
Qed.

End Buffers.

Section Disk.
Context {S : Type} {P : PageStore S} (g : mtd_info) {L : PageStoreLaws S g}.
Hypothesis geo : geo_ok g.
Implicit Types (c : core S) (s : S) (a : ps_state).
Notation ws := (writesize g).
Notation nr := (nr_pgsinblk g).
Notation page := (list Z).

Lemma ws_le : ws <= 4096.
Proof. destruct geo as [Hw (k & Hk & He) _ _ _ _]. unfold SECTORSIZE in He. nia. Qed.

(** ** The disk *)
Definition wkey c : Z := page_lpa g (l_writeblock c) (l_writepage c).

(** Page [p] of the disk the front end presents. *)
Definition disk_page a c (p : Z) : option page :=
  if wcache_valid c && (p =? wkey c) then Some (take (Z.to_nat ws) (write_buffer c)) else ps_page a p.
(** One disk agrees with another wherever that is known. *)
Definition shown (D D' : Z -> option page) : Prop := forall q d, D q = Some d -> D' q = Some d.

(** Pages that can be written in turn, whatever is written to them, and what comes
    of it; a layer that serves does not fail then, nor when it reads a page of the
    device. *)
Fixpoint can_put a (ps : list Z) : Prop :=
  match ps with [] => True | p :: ps => ps_fits a p /\ forall d, can_put (ps_put a p d) ps end.
Fixpoint puts a (ps : list Z) a' : Prop :=
  match ps with [] => a' = a | p :: ps => exists d, puts (ps_put a p d) ps a' end.
Definition serves : Prop :=
  (forall s a p data r s', ps_rep s a -> ps_fits a p -> ws <= arr_len data -> ps_write p data s = Done r s' -> r = 0) /\
  (forall s a p buf r buf' s', ps_rep s a -> 0 <= p < nr_blks g * nr -> ws <= arr_len buf -> ps_read p buf s = Done (r, buf') s' -> r = 0).
Lemma puts_app a ps ps' a1 a2 : puts a ps a1 -> puts a1 ps' a2 -> puts a (ps ++ ps') a2.
Proof. revert a. induction ps as [|p ps IH]; intros a; cbn [puts app]; [by intros ->|]. intros [d Hd] H2. exists d. by apply IH. Qed.
Lemma can_put_app a ps ps' : can_put a (ps ++ ps') -> can_put a ps /\ forall a', puts a ps a' -> can_put a' ps'.
Proof.
  revert a. induction ps as [|p ps IH]; intros a; cbn [can_put puts app]; [by intros H; split; [|by intros ? ->]|].
  intros [Hp Hps]. split; [split; [done|]|]; [intros d; by apply IH|intros a' [d Hd]; by eapply (IH _ (Hps d))].
Qed.

Definition pages_per_sector : Z := SECTORSIZE / ws.
(** Page [j] of a sector buffer. *)
Definition sector_page (buf : list Z) (j : Z) : list Z :=
  take (Z.to_nat ws) (drop (Z.to_nat (j * ws)) buf).

Definition in_page b p : Prop := 0 <= b <= nr_blks g /\ 0 <= p < nr.

Record core_ok a c : Prop := {
  co_rep : ps_rep (c_store c) a;
  co_wbuf : arr_len (write_buffer c) = NAND_MAX_PAGESIZE;
  co_rbuf : arr_len (read_buffer c) = NAND_MAX_PAGESIZE;
  co_wkey : wcache_valid c = true -> in_page (l_writeblock c) (l_writepage c)
}.
(** The page the write cache holds. *)
Definition cached c : list Z := if wcache_valid c then [wkey c] else [].

Lemma page_lpa_id b p : in_page b p -> page_lpa g b p = b * nr + p.
Proof.
  intros [Hb Hp]. pose proof (geo_pgs g geo). pose proof (geo_blks g geo).
  unfold page_lpa. apply u32_id. unfold in_u32. nia.
Qed.
Lemma page_lpa_inj b p b' p' :
  in_page b p -> in_page b' p' -> page_lpa g b p = page_lpa g b' p' -> b = b' /\ p = p'.
Proof.
  intros H1 H2. rewrite !page_lpa_id by done. destruct H1 as [_ H1], H2 as [_ H2]. intros E.
  assert (b = b') by nia. subst. split; lia.
Qed.
Lemma page_lpa_u32 b p : in_u32 (page_lpa g b p).
Proof. apply u32_range. Qed.

(** A sector of the device starts at a page boundary and stays in a block. *)
Record sect_ok (sect : Z) : Prop := {
  so_nonneg : 0 <= sect;
  so_dev : sect * SECTORSIZE < nr_blks g * erasesize g;
  so_4g : nr_blks g * erasesize g <= 2 ^ 32
}.

Lemma sect_split sect : sect_ok sect ->
  in_page (sect_block g sect) (sect_page g sect) /\ sect_pofs g sect = 0 /\
  sect_page g sect + pages_per_sector <= nr /\ sect_block g sect < nr_blks g /\
  page_lpa g (sect_block g sect) (sect_page g sect) = sect * pages_per_sector /\
  0 < pages_per_sector /\ SECTORSIZE = pages_per_sector * ws.
Proof.
  intros [H0 Hd H4]. destruct geo as [Hw (k & Hk & Hks) Hes (m & Hm & Hme) Hp Hb].
  assert (Hpps : pages_per_sector = k).
  { unfold pages_per_sector. rewrite Hks. by apply Z.div_mul, not_eq_sym, Z.lt_neq. }
  rewrite Hpps. assert (Hnr : nr = m * k) by nia.
  assert (Ha : u32 (sect * SECTORSIZE) = sect * SECTORSIZE).
  { apply u32_id. unfold in_u32, SECTORSIZE in *. lia. }
  assert (Hblk : sect * SECTORSIZE / erasesize g = sect / m).
  { rewrite Hme. apply Z.div_mul_cancel_r; unfold SECTORSIZE; lia. }
  assert (Hmod : sect * SECTORSIZE mod erasesize g = (sect mod m) * SECTORSIZE).
  { rewrite Hme. rewrite Z.mul_mod_distr_r by (unfold SECTORSIZE; lia). done. }
  assert (Hpg : sect * SECTORSIZE mod erasesize g / ws = (sect mod m) * k).
  { rewrite Hmod, Hks, Z.mul_assoc. apply Z.div_mul. lia. }
  pose proof (Z.mod_pos_bound sect m Hm) as Hmb. pose proof (Z.div_mod sect m ltac:(lia)) as Hdm.
  assert (Hq : 0 <= sect / m < nr_blks g).
  { split; [apply Z.div_pos; lia|]. apply Z.div_lt_upper_bound; [lia|].
    rewrite Hme in Hd. unfold SECTORSIZE in Hd. nia. }
  assert (Hb1 : sect_block g sect = sect / m).
  { unfold sect_block. rewrite Ha, Hblk. apply u16_id. unfold in_u16. lia. }
  assert (Hp1 : sect_page g sect = sect mod m * k).
  { unfold sect_page. rewrite Ha, Hpg. apply u8_id. unfold in_u8. nia. }
  assert (Hin : in_page (sect_block g sect) (sect_page g sect)).
  { rewrite Hb1, Hp1. split; [lia|nia]. }
  split_and!; [done| |rewrite Hp1, Hnr; nia|lia| |done|done].
  - unfold sect_pofs. rewrite Ha, Hmod, Hks, Z.mul_assoc, Z.mod_mul by lia. done.
  - rewrite page_lpa_id by done. rewrite Hb1, Hp1, Hnr. nia.
Qed.

(** ** The operations on the page layer *)
Lemma nftl_write_run b p buf c a :
  ps_rep (c_store c) a -> ps_fits a (page_lpa g b p) -> ws <= arr_len buf ->
  exists e s' a', nftl_write g b p buf c = Done e (with_store s' c) /\ ps_rep s' a' /\
    (forall q, q <> page_lpa g b p -> ps_page a' q = ps_page a q) /\
    (e = 0 -> a' = ps_put a (page_lpa g b p) (take (Z.to_nat ws) buf)) /\ (serves -> e = 0) /\
    forall r s1, ps_write (page_lpa g b p) buf (c_store c) = Done r s1 -> e = u8 r.
Proof.
  intros Hi Hfit Hb. destruct (ps_write_law (c_store c) a _ buf Hi Hfit Hb) as (r & s' & a' & Hr & Hi' & Hf & Hv).
  exists (u8 r), s', a'. unfold nftl_write, onS, zoom, bind. rewrite Hr. split_and!; try done.
  - intros [Hs _]. by rewrite (Hs _ _ _ _ _ _ Hi Hfit Hb Hr).
  - by intros r1 s1 [= <- _].
Qed.

Lemma nftl_read_run b p buf c a :
  ps_rep (c_store c) a -> ws <= arr_len buf ->
  exists e buf' s', nftl_read g b p buf c = Done (e, buf') (with_store s' c) /\ ps_rep s' a /\ arr_len buf' = arr_len buf /\
    (e = 0 -> forall d, ps_page a (page_lpa g b p) = Some d -> take (Z.to_nat ws) buf' = d) /\
    (serves -> 0 <= page_lpa g b p < nr_blks g * nr -> e = 0).
Proof.
  intros Hi Hb. destruct (ps_read_law (c_store c) a _ buf Hi (page_lpa_u32 b p) Hb) as (r & buf' & s' & Hr & Hi' & Hl & Hv).
  exists (u8 r), buf', s'. unfold nftl_read, onS, zoom, bind. rewrite Hr. split_and!; try done.
  intros [_ Hs] Hp. by rewrite (Hs _ _ _ _ _ _ _ Hi Hp Hb Hr).
Qed.

(** Moving to the following page. *)
Lemma next_page_run mark b p c :
  in_page b p ->
  exists r c', next_page g mark b p c = Done r c' /\
    (c' = c \/ c' = set_wkey b (l_writepage c) c) /\
    match r with
    | Some (b', p') => in_page b' p' /\ page_lpa g b' p' = page_lpa g b p + 1 /\
                       (p + 1 < nr -> b' = b /\ p' = p + 1)
    | None => p + 1 = nr /\ b = nr_blks g
    end.
Proof.
  intros [Hb Hp]. pose proof (geo_pgs g geo). pose proof (geo_blks g geo).
  unfold next_page. rewrite u8_id by (unfold in_u8; lia).
  destruct (p + 1 >=? nr) eqn:E; zbool.
  - destruct mark; unfold bind, modify, ret;
      rewrite u16_id by (unfold in_u16; lia);
      (destruct (b + 1 >? nr_blks g) eqn:E1; zbool;
       do 2 eexists; split; [reflexivity| |reflexivity|]; (split; [by auto|]); [split; lia|]);
      (split_and!; [split; lia|rewrite !page_lpa_id by (split; lia); nia|lia]).
  - do 2 eexists. split; [reflexivity|]. split; [by left|].
    split_and!; [split; lia|rewrite !page_lpa_id by (split; lia); nia|done].
Qed.

(** ** The parts of [nftl_writesect] *)
Definition cache_lens c : Prop :=
  arr_len (write_buffer c) = NAND_MAX_PAGESIZE /\ arr_len (read_buffer c) = NAND_MAX_PAGESIZE.

Lemma fill_wbuf_run src n c :
  cache_lens c -> 0 <= n <= 4096 -> n <= arr_len src ->
  fill_wbuf 0 src n c =
    Done tt (set_wbuf (take (Z.to_nat n) src ++ drop (Z.to_nat n) (write_buffer c)) c).
Proof.
  intros [Hw _] Hn Hs. unfold NAND_MAX_PAGESIZE in Hw.
  unfold fill_wbuf, bind, gets, id. by rewrite memcpy_start by lia.
Qed.

Lemma set_wbuf_lens c src n :
  cache_lens c -> 0 <= n <= 4096 -> n <= arr_len src ->
  cache_lens (set_wbuf (take (Z.to_nat n) src ++ drop (Z.to_nat n) (write_buffer c)) c).
Proof.
  intros [Hw Hr] Hn Hs. unfold NAND_MAX_PAGESIZE in *. split; [|done]. cbn.
  rewrite arr_len_patch by lia. done.
Qed.

(** The cached page reaches the page layer. *)
Lemma ws_flush_run c a :
  core_ok a c -> can_put a (cached c) -> exists r s' a', ws_flush g c = Done r (with_store s' c) /\
    (r = None \/ r = Some (-1)) /\ (serves -> r = None) /\
    (r = None -> puts a (cached c) a' /\ ps_rep s' a' /\ forall q, ps_page a' q = disk_page a c q).
Proof.
  intros [Hi Hw Hr Hk] Hfit. pose proof ws_le. unfold ws_flush, bind at 1, gets, id, disk_page. unfold cached in *.
  unfold NAND_MAX_PAGESIZE in *.
  destruct (wcache_valid c) eqn:E; cbn [andb].
  - destruct Hfit as [Hfit _]. unfold write_cached, bind at 1, bind at 1, gets, id.
    destruct (nftl_write_run (l_writeblock c) (l_writepage c) (write_buffer c) c a Hi Hfit)
      as (e & s' & a' & He & Hi' & Hf & Hv & Hs & _); [lia|].
    rewrite He. unfold truth. destruct (e =? 0) eqn:E0; zbool; cbn [negb].
    + exists None, s', a'. split_and!; [done|by left|done|]. intros _. specialize (Hv E0). fold (wkey c) in *.
      split; [by eexists|]. split; [done|]. intros q. by rewrite Hv, ps_put_law.
    + exists (Some (-1)), s', a'. split_and!; [done|by right|by intros Hs'; specialize (Hs Hs')|done].
  - exists None, (c_store c), a. split_and!; [by destruct c|by left|done|done].
Qed.

Lemma sector_page_len buf j n :
  0 <= j < n -> arr_len buf = n * ws -> arr_len (sector_page buf j) = ws.
Proof.
  intros Hj Hb. pose proof (geo_ws g geo). unfold sector_page.
  rewrite arr_len_take; [done|]. rewrite arr_len_drop by nia. nia.
Qed.

Lemma sector_page_tail buf j n :
  0 <= j -> 1 <= n -> arr_len buf = n * ws ->
  sector_page (drop (Z.to_nat ws) buf) j = sector_page buf (j + 1).
Proof.
  intros Hj Hn Hb. pose proof (geo_ws g geo). unfold sector_page. rewrite drop_drop.
  do 2 f_equal. nia.
Qed.

(** The page loop, from a cursor at a page boundary with [n] whole pages
    left in the block. *)
Lemma ws_loop_run (n : nat) : forall fuel u c a,
  let base := page_lpa g (cu_block u) (cu_page u) in
  (n < fuel)%nat -> ps_rep (c_store c) a -> can_put a (seqZ base (Z.of_nat n)) -> cache_lens c -> in_page (cu_block u) (cu_page u) ->
  cu_left u = Z.of_nat n * ws -> cu_left u <= 4096 -> arr_len (cu_buf u) = cu_left u ->
  (n = 0%nat \/ cu_page u + Z.of_nat n <= nr) ->
  exists r c', while_local fuel (fun u => cu_left u >=? ws) u (ws_page g) c = Done r c' /\
    cache_lens c' /\ l_readblock c' = l_readblock c /\ l_readpage c' = l_readpage c /\ read_buffer c' = read_buffer c /\
    match r with
    | inr e => e = -1 /\ (serves -> base + Z.of_nat n < nr_blks g * nr -> False)
    | inl u' => cu_left u' = 0 /\ in_page (cu_block u') (cu_page u') /\
        page_lpa g (cu_block u') (cu_page u') = base + Z.of_nat n /\
        exists a', puts a (seqZ base (Z.of_nat n)) a' /\ ps_rep (c_store c') a' /\ forall q, ps_page a' q =
          if (base <=? q) && (q <? base + Z.of_nat n) then Some (sector_page (cu_buf u) (q - base)) else ps_page a q
    end.
Proof.
  induction n as [|n IH]; intros fuel u c a base Hfuel Hi Hfit Hl Hin Hleft Hmax Hbuf Hpg;
    pose proof (geo_ws g geo) as Hws; pose proof ws_le as Hws4.
  - exists (inl u), c. destruct fuel as [|fuel]; [lia|]. cbn [while_local].
    destruct (cu_left u >=? ws) eqn:E; zbool; [lia|]. split_and!; try done.
    + unfold base. lia.
    + exists a. split_and!; [done|done|]. intros q. destruct (_ && _) eqn:E1; [zbool; lia|done].
  - destruct fuel as [|fuel]; [lia|]. cbn [while_local].
    rewrite (seqZ_cons base) in * by lia. replace (Z.pred (Z.of_nat (Datatypes.S n))) with (Z.of_nat n) in * by lia.
    replace (Z.succ base) with (base + 1) in * by lia. destruct Hfit as [Hfit Hfits].
    destruct (cu_left u >=? ws) eqn:E; zbool; [|lia].
    assert (Hb1 : ws <= arr_len (cu_buf u)) by lia.
    unfold bind at 1, ws_page at 1, bind at 1. rewrite fill_wbuf_run by (done || lia).
    set (c1 := set_wbuf _ c). assert (Hl1 : cache_lens c1) by (apply set_wbuf_lens; (done || lia)).
    unfold bind at 1, gets, id, bind at 1.
    destruct (nftl_write_run (cu_block u) (cu_page u) (write_buffer c1) c1 a)
      as (e & s' & a1 & He & Hi' & Hf & Hv & Hs & _); [done|done|rewrite (proj1 Hl1); unfold NAND_MAX_PAGESIZE; lia|].
    rewrite He. unfold truth. destruct (e =? 0) eqn:E0; zbool; cbn [negb].
    2:{ exists (inr (-1)). eexists. split; [reflexivity|]. split_and!; try done. intros Hs'. by specialize (Hs Hs'). }
    specialize (Hv E0). fold base in Hv.
    assert (Hv1 : take (Z.to_nat ws) (write_buffer c1) = sector_page (cu_buf u) 0).
    { cbn [c1 set_wbuf write_buffer]. rewrite take_patch by lia. unfold sector_page. by rewrite Z.mul_0_l, drop_0. }
    rewrite Hv1 in Hv. subst a1.
    unfold bind at 1, modify at 1. unfold bind at 1.
    set (c2 := set_wkey _ _ (with_store s' c1)).
    destruct (next_page_run true (cu_block u) (cu_page u) c2 Hin) as (r & c3 & Hn & Hc3 & Hr).
    rewrite Hn.
    assert (H3 : c_store c3 = s' /\ cache_lens c3 /\ l_readblock c3 = l_readblock c /\
                 l_readpage c3 = l_readpage c /\ read_buffer c3 = read_buffer c)
      by (destruct Hc3 as [->| ->]; split_and!; done).
    destruct H3 as (Hs3 & Hl3 & Hr1 & Hr2 & Hr3).
    destruct r as [[b' p']|].
    2:{ exists (inr (-1)), c3. split; [reflexivity|]. split_and!; try done. intros _ Hend.
        destruct Hr as [Hr1' Hr2']. unfold base in Hend. rewrite page_lpa_id, Hr2' in Hend by done. destruct Hin as [_ Hin]. lia. }
    destruct Hr as (Hin' & Hlpa & Hsame). unfold ret.
    set (u' := MkCur b' p' _ _ _).
    assert (Hleft' : cu_left u' = Z.of_nat n * ws).
    { cbn. rewrite u16_id by (unfold in_u16; lia). lia. }
    assert (Hbase : page_lpa g (cu_block u') (cu_page u') = base + 1) by done.
    destruct (IH fuel u' c3 (ps_put a base (sector_page (cu_buf u) 0))) as (r & c' & Hw & Hl4 & Hk1 & Hk2 & Hk3 & Hr);
      [lia|by rewrite Hs3|rewrite Hbase; apply Hfits|done|done|done|lia| | |].
    { rewrite Hleft'. cbn. rewrite arr_len_drop by lia. lia. }
    { destruct n as [|n]; [by left|]. right. destruct Hsame as [-> ->]; [lia|]. cbn. lia. }
    exists r, c'. split; [exact Hw|]. rewrite Hbase in Hr. split_and!; [done|congruence..|].
    destruct r as [u4|e4]; [|destruct Hr as [-> Hr]; split; [done|]; intros; apply Hr; [done|lia]].
    destruct Hr as (Hz & Hin4 & Hlpa4 & a' & Hput & Hrep & Hview).
    cbn [u' cu_block cu_page cu_buf] in *. split_and!; [done|done|lia|]. exists a'. split; [by eexists|]. split; [done|].
    intros q. rewrite Hview, ps_put_law.
    destruct ((base <=? q) && (q <? base + Z.of_nat (Datatypes.S n))) eqn:E1.
    + zbool. destruct (decide (q = base)) as [Heq|Hne].
      * destruct ((base + 1 <=? q) && _) eqn:E2; [zbool; lia|]. rewrite Heq, Z.eqb_refl. do 2 f_equal. lia.
      * destruct ((base + 1 <=? q) && _) eqn:E2.
        -- rewrite (sector_page_tail _ _ (Z.of_nat (Datatypes.S n))) by lia. do 2 f_equal. lia.
        -- apply andb_false_iff in E2 as [E2|E2]; zbool; lia.
    + destruct ((base + 1 <=? q) && _) eqn:E2; [zbool; apply andb_false_iff in E1 as [E1|E1]; zbool; lia|].
      destruct (q =? base) eqn:Eq; [|done]. zbool. apply andb_false_iff in E1 as [E1|E1]; zbool; lia.
Qed.

(** The disk after the first [j] pages of a sector at [base] were written. *)
Definition patched (old : Z -> option page) base j buf (q : Z) : option page :=
  if (base <=? q) && (q <? base + j) then Some (sector_page buf (q - base)) else old q.

Lemma patched_0 old base buf q : patched old base 0 buf q = old q.
Proof. unfold patched. destruct (_ && _) eqn:E; [zbool; lia|done]. Qed.

Lemma patched_patched old base j n buf q :
  0 <= j -> 0 <= n -> arr_len buf = (j + n) * ws ->
  patched (patched old base j buf) (base + j) n (drop (Z.to_nat (j * ws)) buf) q =
    patched old base (j + n) buf q.
Proof.
  intros Hj Hn Hb. pose proof (geo_ws g geo). unfold patched.
  destruct ((base + j <=? q) && (q <? base + j + n)) eqn:E1;
    destruct ((base <=? q) && (q <? base + (j + n))) eqn:E2; zbool; try lia.
  - unfold sector_page. rewrite drop_drop. do 3 f_equal. nia.
  - destruct ((base <=? q) && (q <? base + j)) eqn:E3; [done|].
    apply andb_false_iff in E1 as [E1|E1], E3 as [E3|E3]; zbool; lia.
  - destruct ((base <=? q) && (q <? base + j)) eqn:E3; [|done].
    apply andb_false_iff in E2 as [E2|E2]; zbool; lia.
Qed.

Lemma in_page_valid b p : in_page b p -> (b =? 0xffff) = false /\ (p =? 0xff) = false.
Proof.
  intros [Hb Hp]. pose proof (geo_pgs g geo). pose proof (geo_blks g geo).
  split; apply Z.eqb_neq; lia.
Qed.

Lemma page_room_aligned left : ws <= left <= 4096 -> page_room g 0 left = ws.
Proof.
  intros H. pose proof (geo_ws g geo). pose proof ws_le. unfold page_room, s16.
  rewrite Z.sub_0_r. rewrite (Z.mod_small (ws + 2 ^ 15)) by lia.
  rewrite Z.add_simpl_r. destruct (left >? ws) eqn:E; zbool; rewrite Z.mod_small by lia; lia.
Qed.

(** The write cache has the page. *)
Definition hits c (base : Z) : bool := wcache_valid c && (wkey c =? base).
Lemma hits_key a c b p : core_ok a c -> in_page b p -> (b =? l_writeblock c) && (p =? l_writepage c) = hits c (page_lpa g b p).
Proof.
  intros Hok Hin. unfold hits. destruct (in_page_valid _ _ Hin) as [Hb Hp].
  destruct ((b =? l_writeblock c) && (p =? l_writepage c)) eqn:E.
  - apply andb_true_iff in E as [->%Z.eqb_eq ->%Z.eqb_eq]. unfold wcache_valid, wkey. by rewrite Hb, Hp, Z.eqb_refl.
  - destruct (wcache_valid c) eqn:Ev; [|done]. destruct (wkey c =? _) eqn:Ek; [|done]. apply Z.eqb_eq in Ek.
    destruct (page_lpa_inj b p (l_writeblock c) (l_writepage c) Hin (co_wkey a c Hok Ev)) as [-> ->]; [done|]. by rewrite !Z.eqb_refl in E.
Qed.

Lemma ws_hit_run b p buf c a :
  core_ok a c -> in_page b p -> p + pages_per_sector <= nr ->
  0 < pages_per_sector -> SECTORSIZE = pages_per_sector * ws -> arr_len buf = SECTORSIZE ->
  let base := page_lpa g b p in
  exists r c', ws_hit g (MkCur b p 0 SECTORSIZE buf) c = Done r c' /\ core_ok a c' /\
    cached c' = cached c /\ l_readblock c' = l_readblock c /\
    l_readpage c' = l_readpage c /\ read_buffer c' = read_buffer c /\
    exists j, 0 <= j <= pages_per_sector /\ j = (if hits c base then 1 else 0) /\
      (forall q, disk_page a c' q = patched (disk_page a c) base j buf q) /\
      match r with
      | inr e => e = 0 /\ j = pages_per_sector
      | inl u => (j = 1 -> pages_per_sector <> 1) /\ in_page (cu_block u) (cu_page u) /\ cu_ofs u = 0 /\
          cu_page u + (pages_per_sector - j) <= nr /\
          page_lpa g (cu_block u) (cu_page u) = base + j /\
          cu_left u = (pages_per_sector - j) * ws /\ cu_buf u = drop (Z.to_nat (j * ws)) buf
      end.
Proof.
  intros Hok Hin Hpg Hpps Hss Hbuf base. pose proof (geo_ws g geo) as Hws. pose proof ws_le as Hw4.
  pose proof (co_wbuf a c Hok) as Hwb. pose proof (co_rbuf a c Hok) as Hrb. pose proof (hits_key a c b p Hok Hin) as Hhit.
  unfold NAND_MAX_PAGESIZE, SECTORSIZE in *.
  unfold ws_hit, SECTORSIZE, bind at 1, gets, id. cbn [cu_block cu_page cu_ofs cu_left cu_buf].
  destruct ((b =? l_writeblock c) && (p =? l_writepage c)) eqn:E.
  2:{ exists (inl (MkCur b p 0 4096 buf)), c. split_and!; try done.
      exists 0. unfold base. rewrite <- Hhit. split; [lia|]. split; [done|]. split; [intros q; by rewrite patched_0|]. cbn [cu_block cu_page cu_ofs cu_left cu_buf].
      rewrite Z.sub_0_r, Z.add_0_r, Z.mul_0_l, drop_0. by split_and!. }
  assert (Hj : 1 = if hits c base then 1 else 0) by (unfold base; by rewrite <- Hhit). clear Hhit.
  zbool. subst b p. rewrite page_room_aligned by lia. unfold bind at 1.
  rewrite fill_wbuf_run by (done || lia).
  set (c1 := set_wbuf _ c).
  assert (Hval : wcache_valid c = true).
  { unfold wcache_valid. by destruct (in_page_valid _ _ Hin) as [-> ->]. }
  assert (Hok1 : core_ok a c1).
  { destruct (set_wbuf_lens c buf ws) as [Hl1 Hl2]; [done|lia|lia|].
    split; [apply Hok|done|done|]. intros _. exact Hin. }
  assert (Hdisk : forall q, disk_page a c1 q = patched (disk_page a c) base 1 buf q).
  { intros q. unfold disk_page, patched. change (wcache_valid c1) with (wcache_valid c).
    change (wkey c1) with (wkey c). change (c_store c1) with (c_store c). rewrite Hval. cbn [andb].
    unfold base. fold (wkey c).
    destruct (q =? wkey c) eqn:Eq; zbool.
    - subst q. destruct ((wkey c <=? wkey c) && _) eqn:E2; [|apply andb_false_iff in E2 as [E2|E2]; zbool; lia].
      cbn [c1 set_wbuf write_buffer]. rewrite take_patch by lia.
      unfold sector_page. rewrite Z.sub_diag, Z.mul_0_l, drop_0. done.
    - destruct ((wkey c <=? q) && _) eqn:E2; [zbool; lia|done]. }
  rewrite u16_id by (unfold in_u16; lia). destruct (4096 - ws =? 0) eqn:E0; zbool.
  - exists (inr 0), c1. split_and!; try done. exists 1. split_and!; [lia|lia|done|done|done|nia].
  - unfold bind at 1, modify at 1.
    change (set_wkey (l_writeblock c1) (l_writepage c) c1) with c1.
    unfold bind at 1.
    destruct (next_page_run true (l_writeblock c) (l_writepage c) c1 Hin) as (r & c2 & Hn & Hc2 & Hr).
    rewrite Hn. assert (c2 = c1) as ->.
    { destruct Hc2 as [->| ->]; done. }
    destruct r as [[b' p']|]; [|nia]. destruct Hr as (Hin' & Hlpa & Hsame).
    eexists (inl _), c1. split; [reflexivity|]. split_and!; try done. exists 1. split; [lia|]. split; [done|].
    split; [done|]. split; [intros _; nia|]. cbn [cu_block cu_page cu_ofs cu_left cu_buf]. destruct Hsame as [-> ->]; [nia|].
    split_and!; [done..|lia|done|nia|by rewrite Z.mul_1_l].
Qed.

Lemma ws_preload_run u c a :
  ps_rep (c_store c) a -> cache_lens c -> in_page (cu_block u) (cu_page u) ->
  cu_left u = 0 ->
  exists e c', ws_preload g u c = Done e c' /\
    l_readblock c' = l_readblock c /\ l_readpage c' = l_readpage c /\
    read_buffer c' = read_buffer c /\ (e = 0 \/ e = -1) /\
    (serves -> page_lpa g (cu_block u) (cu_page u) < nr_blks g * nr -> e = 0) /\
    (e = 0 -> core_ok a c' /\ cached c' = [page_lpa g (cu_block u) (cu_page u)] /\ shown (ps_page a) (disk_page a c')).
Proof.
  intros Hi [Hwb Hrb] Hin Hl. pose proof ws_le. pose proof (geo_ws g geo).
  unfold NAND_MAX_PAGESIZE in *.
  unfold ws_preload, bind at 1, load_wbuf, bind at 1, gets, id, bind at 1.
  destruct (nftl_read_run (cu_block u) (cu_page u) (write_buffer c) c a)
    as (e & buf' & s' & Hr & Hi' & Hlen & Hd & Hs); [done|lia|].
  rewrite Hr. unfold bind, modify, ret. cbn [fst snd]. pose proof (page_lpa_u32 (cu_block u) (cu_page u)) as Hu.
  unfold truth. destruct (e =? 0) eqn:E; zbool; cbn [negb].
  2:{ exists (-1). eexists. split; [reflexivity|]. split_and!; try done; [by right|].
      intros Hs' Hp. specialize (Hs Hs'). unfold in_u32 in Hu. lia. }
  rewrite Hl, fill_wbuf_run.
  - eexists 0, _. split; [reflexivity|]. split_and!; try done; [by left|]. intros _.
    change (Z.to_nat 0) with 0%nat. rewrite drop_0. cbn [take app]. split; [|split].
    + split; [done|change (arr_len buf' = NAND_MAX_PAGESIZE); by rewrite Hlen|done|done].
    + unfold cached, wcache_valid, wkey. cbn [set_wkey set_wbuf with_store l_writeblock l_writepage].
      by destruct (in_page_valid _ _ Hin) as [-> ->].
    + intros q d Hq. unfold disk_page, wkey, wcache_valid.
      cbn [set_wkey set_wbuf with_store l_writeblock l_writepage write_buffer c_store].
      destruct (in_page_valid _ _ Hin) as [-> ->]. cbn [negb andb].
      destruct (q =? _) eqn:Eq; zbool; [|done]. subst q. by rewrite take_0, app_nil_l, (Hd E d Hq).
  - split; cbn; unfold NAND_MAX_PAGESIZE; lia.
  - lia.
  - apply arr_len_nonneg.
Qed.

(** The pages a sector write hands to the page layer, and what is in the write
    cache afterwards. *)
Definition sector_pages (sect : Z) : list Z := seqZ (sect * pages_per_sector) pages_per_sector.
Definition sect_writes (key : list Z) (sect : Z) : list Z * list Z :=
  let base := sect * pages_per_sector in
  if decide (key = [base]) then if pages_per_sector =? 1 then ([], key) else (sector_pages sect, [base + pages_per_sector])
  else (key ++ sector_pages sect, [base + pages_per_sector]).
Lemma hits_cached c base : hits c base = bool_decide (cached c = [base]).
Proof.
  unfold hits, cached. destruct (wcache_valid c); [|done]. cbn [andb]. destruct (wkey c =? base) eqn:E; zbool; symmetry.
  - apply bool_decide_eq_true. congruence.
  - apply bool_decide_eq_false. congruence.
Qed.

(** [nftl_writesect] as a whole. *)
Lemma nftl_writesect_run sect buf c a :
  core_ok a c -> sect_ok sect -> arr_len buf = SECTORSIZE -> can_put a (fst (sect_writes (cached c) sect)) ->
  exists e c', nftl_writesect g sect buf c = Done e c' /\ (e = 0 \/ e = -1) /\
    l_readblock c' = l_readblock c /\ l_readpage c' = l_readpage c /\ read_buffer c' = read_buffer c /\
    (serves -> (sect + 1) * pages_per_sector < nr_blks g * nr -> e = 0) /\
    (e = 0 -> exists a', puts a (fst (sect_writes (cached c) sect)) a' /\ core_ok a' c' /\
      cached c' = snd (sect_writes (cached c) sect) /\
      shown (patched (disk_page a c) (sect * pages_per_sector) pages_per_sector buf) (disk_page a' c')).
Proof.
  intros Hok Hs Hbuf Hfit. destruct (sect_split sect Hs) as (Hin & Hofs & Hpg & _ & Hlpa & Hpps & Hss).
  pose proof (geo_ws g geo) as Hws. unfold nftl_writesect, bind at 1. rewrite Hofs.
  destruct (ws_hit_run _ _ buf c a Hok Hin Hpg Hpps Hss Hbuf)
    as (r & c1 & H1 & Hok1 & Hst1 & Hrb1 & Hrp1 & Hrbuf1 & j & Hj & Hjh & Hd1 & Hr1).
  rewrite H1. rewrite Hlpa in *. rewrite hits_cached in Hjh. unfold sect_writes in *.
  set (base := sect * pages_per_sector) in *.
  destruct r as [u|e].
  2:{ destruct Hr1 as [-> Hj1]. exists 0, c1. split_and!; try done; [by left|]. intros _. exists a.
      destruct (decide (cached c = [base])) as [E|E]; [rewrite bool_decide_eq_true_2 in Hjh by done|rewrite bool_decide_eq_false_2 in Hjh by done; lia].
      rewrite <- Hj1, Hjh in *. change (1 =? 1) with true. cbv iota. split_and!; [done|done|by rewrite Hst1|].
      intros q d. by rewrite Hd1. }
  destruct Hr1 as (Hne & Hin1 & Hofs1 & Hpg1 & Hlpa1 & Hleft1 & Hbuf1).
  (* what is written: the cached page and the rest of the sector *)
  assert (Hw : fst (if decide (cached c = [base]) then if pages_per_sector =? 1 then ([], cached c) else (sector_pages sect, [base + pages_per_sector])
      else (cached c ++ sector_pages sect, [base + pages_per_sector])) = cached c1 ++ seqZ (base + j) (pages_per_sector - j) /\
    snd (if decide (cached c = [base]) then if pages_per_sector =? 1 then ([], cached c) else (sector_pages sect, [base + pages_per_sector])
      else (cached c ++ sector_pages sect, [base + pages_per_sector])) = [base + pages_per_sector]).
  { rewrite Hst1. unfold sector_pages. fold base. destruct (decide (cached c = [base])) as [E|E].
    - rewrite bool_decide_eq_true_2 in Hjh by done. subst j. destruct (pages_per_sector =? 1) eqn:E1; zbool; [by destruct (Hne eq_refl)|].
      cbn [fst snd]. split; [|done]. rewrite E, (seqZ_cons base) by lia. cbn [app]. do 2 f_equal; lia.
    - rewrite bool_decide_eq_false_2 in Hjh by done. subst j. cbn [fst snd]. by rewrite Z.add_0_r, Z.sub_0_r. }
  destruct Hw as [Hw1 Hw2]. rewrite Hw1 in *. rewrite Hw2. clear Hw1 Hw2. apply can_put_app in Hfit as [Hfit1 Hfit2].
  unfold bind at 1. destruct (ws_flush_run c1 a Hok1 Hfit1) as (r & s2 & a2 & H2 & Hr2 & Hs2 & Hv2). rewrite H2.
  destruct r as [e|].
  { destruct Hr2 as [?|?]; [done|]. simplify_eq. exists (-1), (with_store s2 c1).
    split_and!; try done; [by right|]. intros Hs' _. specialize (Hs2 Hs'). done. }
  destruct (Hv2 eq_refl) as (Hp2 & Hi2 & Hd2). unfold bind at 1, ws_unaligned. rewrite Hofs1. cbn [negb Z.eqb].
  unfold ret at 1, bind at 1.
  assert (Hsz : SECTORSIZE = 4096) by done.
  assert (Hp4 : pages_per_sector <= 4096) by nia.
  destruct (ws_loop_run (Z.to_nat (pages_per_sector - j)) PAGE_FUEL u (with_store s2 c1) a2)
    as (r & c3 & H3 & Hl3 & Hrb3 & Hrp3 & Hrbuf3 & Hr3).
  - unfold PAGE_FUEL. lia.
  - done.
  - rewrite Hlpa1, Z2Nat.id by lia. by apply Hfit2.
  - split; [apply (co_wbuf _ _ Hok1)|apply (co_rbuf _ _ Hok1)].
  - done.
  - rewrite Hleft1, Z2Nat.id by lia. done.
  - rewrite Hleft1. nia.
  - rewrite Hbuf1, arr_len_drop by nia. rewrite Hleft1. lia.
  - right. lia.
  - rewrite H3. rewrite Hlpa1, Z2Nat.id in Hr3 by lia. destruct r as [u3|e].
    2:{ destruct Hr3 as [-> Hr3]. exists (-1), c3. split_and!; try done; [by right|by rewrite Hrb3|by rewrite Hrp3|by rewrite Hrbuf3|].
        intros Hs' Hend. destruct (Hr3 Hs'). unfold base. lia. }
    destruct Hr3 as (Hz & Hin3 & Hlpa3 & a3 & Hp3 & Hi3 & Hv3).
    destruct (ws_preload_run u3 c3 a3 Hi3 Hl3 Hin3 Hz)
      as (e & c4 & H4 & Hrb4 & Hrp4 & Hrbuf4 & He & Hs4 & Hd4).
    exists e, c4. split; [exact H4|]. split_and!; try done;
      [by rewrite Hrb4, Hrb3|by rewrite Hrp4, Hrp3|by rewrite Hrbuf4, Hrbuf3| |].
    { intros Hs' Hend. apply Hs4; [done|]. rewrite Hlpa3. unfold base. lia. }
    intros He0. destruct (Hd4 He0) as (Hok4 & Hk4 & Hd). exists a3.
    split; [by eapply puts_app|]. split; [done|]. split; [rewrite Hk4, Hlpa3; f_equal; lia|].
    intros q d Hq. apply Hd. rewrite Hv3, <- Hq, Hd2, Hbuf1.
    pose proof (patched_patched (disk_page a c) base j (pages_per_sector - j) buf q) as Hpp.
    rewrite Zplus_minus in Hpp. rewrite <- Hpp by (lia || nia). unfold patched at 1. rewrite Hd1. done.
Qed.

(** ** The parts of [nftl_readsect] *)

(** The read cache holds what the disk has, as far as that is known. *)
Definition read_coherent a c : Prop :=
  in_page (l_readblock c) (l_readpage c) ->
  forall d, disk_page a c (page_lpa g (l_readblock c) (l_readpage c)) = Some d -> take (Z.to_nat ws) (read_buffer c) = d.

Lemma take_drop_lookup (l : list Z) (d w n : nat) :
  take w (drop d l) !! n = if decide (n < w)%nat then l !! (d + n)%nat else None.
Proof.
  case_decide.
  - rewrite lookup_take_lt by done. by rewrite lookup_drop.
  - by rewrite lookup_take_ge by lia.
Qed.

Lemma sector_page_memcpy out src i j n :
  0 <= i < n -> 0 <= j < n -> arr_len out = n * ws -> ws <= arr_len src ->
  sector_page (take (Z.to_nat (i * ws)) out ++ take (Z.to_nat ws) src ++
               drop (Z.to_nat (i * ws + ws)) out) j
  = if j =? i then take (Z.to_nat ws) src else sector_page out j.
Proof.
  intros Hi Hj Ho Hs. pose proof (geo_ws g geo). unfold sector_page, arr_len in *.
  assert (Hid : i * ws + ws <= n * ws) by nia. assert (Hjd : j * ws + ws <= n * ws) by nia.
  assert (Hlt : j < i -> j * ws + ws <= i * ws) by nia.
  assert (Hgt : i < j -> i * ws + ws <= j * ws) by nia.
  assert (0 <= i * ws) by nia. assert (0 <= j * ws) by nia.
  assert (E : j = i -> j * ws = i * ws) by (intros ->; done).
  generalize dependent (i * ws). generalize dependent (j * ws). generalize dependent (n * ws).
  intros N HN dj Hjd Hdj di Hid Hlt Hgt Hdi E.
  apply list_eq. intros k. rewrite take_drop_lookup.
  destruct (j =? i) eqn:Eji; zbool.
  - specialize (E Eji). subst dj. case_decide.
    + rewrite lookup_app_r by (rewrite length_take; lia). rewrite length_take.
      rewrite lookup_app_l by (rewrite length_take; lia). f_equal. lia.
    + rewrite lookup_take_ge by lia. done.
  - rewrite take_drop_lookup. case_decide; [|done].
    destruct (decide (j < i)) as [Hji|Hji].
    + specialize (Hlt Hji). rewrite lookup_app_l by (rewrite length_take; lia).
      by rewrite lookup_take_lt by lia.
    + specialize (Hgt ltac:(lia)). rewrite lookup_app_r by (rewrite length_take; lia).
      rewrite length_take, lookup_app_r by (rewrite length_take; lia).
      rewrite length_take, lookup_drop. f_equal. lia.
Qed.

Lemma rs_fetch_run b p c a :
  core_ok a c -> read_coherent a c -> in_page b p ->
  exists ok c', rs_fetch g b p c = Done ok c' /\ core_ok a c' /\ cached c' = cached c /\
    (forall q, disk_page a c' q = disk_page a c q) /\
    (serves -> page_lpa g b p < nr_blks g * nr -> ok = true) /\
    (ok = true -> l_readblock c' = b /\ l_readpage c' = p /\
       forall d, disk_page a c (page_lpa g b p) = Some d -> take (Z.to_nat ws) (read_buffer c') = d).
Proof.
  intros Hok Hc Hin. pose proof ws_le. pose proof (geo_ws g geo). pose proof (hits_key a c b p Hok Hin) as Hhit.
  destruct Hok as [Hi Hwb Hrb Hk]. unfold NAND_MAX_PAGESIZE in *.
  unfold rs_fetch, bind at 1, gets, id. rewrite Hhit.
  destruct (hits c (page_lpa g b p)) eqn:E1.
  - apply andb_true_iff in E1 as [E1 E2%Z.eqb_eq]. rewrite memcpy_start by lia.
    cbn. eexists true, _. split; [reflexivity|]. split_and!; try done.
    + split; [done|done| |done]. unfold NAND_MAX_PAGESIZE. cbn [read_buffer set_rkey set_rbuf].
      rewrite arr_len_patch by lia. done.
    + intros _. split_and!; [done|done|]. cbn [read_buffer set_rkey set_rbuf].
      rewrite take_patch by lia. unfold disk_page. rewrite E1, E2, Z.eqb_refl. by intros d [= <-].
  - destruct (negb (b =? l_readblock c) || negb (p =? l_readpage c)) eqn:E2.
    + unfold bind at 1. unfold bind at 1.
      destruct (nftl_read_run b p (read_buffer c) c a) as (e & buf' & s' & Hr & Hi' & Hl & Hd & Hs);
        [done|lia|].
      rewrite Hr. unfold bind at 1, modify at 1, ret at 1. cbn [fst snd].
      assert (Hrl : arr_len buf' = NAND_MAX_PAGESIZE) by (unfold NAND_MAX_PAGESIZE; lia).
      assert (Hdp : disk_page a c (page_lpa g b p) = ps_page a (page_lpa g b p)).
      { unfold disk_page, hits in *. by rewrite Z.eqb_sym, E1. }
      pose proof (page_lpa_u32 b p) as Hu.
      destruct (e =? 0) eqn:E0; zbool.
      * cbn. eexists true, _. split; [reflexivity|]. split_and!; try done. intros _. split_and!; [done|done|].
        cbn [read_buffer set_rkey set_rbuf]. intros d. rewrite Hdp. by apply Hd.
      * cbn. eexists false, _. split; [reflexivity|]. split_and!; try done.
        intros Hs' Hp. specialize (Hs Hs'). unfold in_u32 in Hu. lia.
    + zbool. subst b p. cbn. eexists true, _. split; [reflexivity|]. split_and!; try done.
      intros _. split_and!; [done|done|]. cbn [read_buffer set_rkey]. by apply Hc.
Qed.

(** The page loop of the read. *)
Lemma rs_loop_run (n : nat) : forall fuel u c a,
  (n < fuel)%nat -> core_ok a c -> read_coherent a c -> in_page (rc_block u) (rc_page u) ->
  (n = 0%nat \/ rc_page u + Z.of_nat n <= nr) ->
  0 <= pages_per_sector - Z.of_nat n -> rc_count u = (pages_per_sector - Z.of_nat n) * ws ->
  SECTORSIZE = pages_per_sector * ws -> arr_len (rc_out u) = SECTORSIZE ->
  let done := pages_per_sector - Z.of_nat n in
  exists r c', while_local fuel (fun u => rc_count u <? SECTORSIZE) u (rs_page g) c = Done r c' /\
    core_ok a c' /\ cached c' = cached c /\ (forall q, disk_page a c' q = disk_page a c q) /\
    match r with
    | inr e => fst e <> 0 /\ (serves -> page_lpa g (rc_block u) (rc_page u) + Z.of_nat n <= nr_blks g * nr -> False)
    | inl u' => read_coherent a c' /\ arr_len (rc_out u') = SECTORSIZE /\
        forall j, 0 <= j < pages_per_sector ->
          if j <? done then sector_page (rc_out u') j = sector_page (rc_out u) j
          else forall d, disk_page a c (page_lpa g (rc_block u) (rc_page u) + (j - done)) = Some d -> sector_page (rc_out u') j = d
    end.
Proof.
  induction n as [|n IH]; intros fuel u c a Hfuel Hok Hc Hin Hpg Hd0 Hcount Hss Hout dn;
    pose proof (geo_ws g geo) as Hws; pose proof ws_le as Hw4;
    (destruct fuel as [|fuel]; [lia|]); cbn [while_local].
  - exists (inl u), c. destruct (rc_count u <? SECTORSIZE) eqn:E; zbool; [lia|].
    split_and!; try done. intros j Hj. destruct (j <? dn) eqn:Ej; zbool; [done|]. lia.
  - assert (Hc1 : rc_count u + ws <= SECTORSIZE) by nia.
    assert (Hc0 : 0 <= rc_count u) by nia.
    assert (Hs4 : SECTORSIZE = 4096) by reflexivity.
    destruct (rc_count u <? SECTORSIZE) eqn:E; zbool; [|lia].
    unfold bind at 1, rs_page at 1, bind at 1.
    destruct (rs_fetch_run (rc_block u) (rc_page u) c a Hok Hc Hin) as (ok & c1 & Hf & Hok1 & Hk1 & Hd1 & Hs1 & Hf1).
    rewrite Hf. destruct ok; cbn [negb].
    2:{ exists (inr (- EIO, rc_out u)), c1. split_and!; try done. intros Hs Hend. specialize (Hs1 Hs). lia. }
    destruct (Hf1 eq_refl) as (Hrb & Hrp & Hrbuf).
    assert (Hc1' : read_coherent a c1).
    { intros _ d. rewrite Hrb, Hrp, Hd1. apply Hrbuf. }
    unfold bind at 1, gets, id.
    destruct (SECTORSIZE - rc_count u <? ws) eqn:El; zbool; [lia|].
    assert (Hrl : ws <= arr_len (read_buffer c1)).
    { rewrite (co_rbuf _ _ Hok1). unfold NAND_MAX_PAGESIZE. lia. }
    rewrite memcpy_run by lia. cbn [assert_some]. unfold bind at 1, ret at 1.
    set (out1 := _ ++ _). unfold bind at 1.
    assert (Ho1 : arr_len out1 = SECTORSIZE).
    { unfold out1. rewrite !arr_len_app, !arr_len_take, arr_len_drop by lia. lia. }
    destruct (next_page_run false (rc_block u) (rc_page u) c1 Hin) as (r & c2 & Hn & Hc2 & Hr).
    rewrite Hn. assert (c2 = c1) as ->.
    { destruct Hc2 as [->|Hc2]; [done|]. unfold next_page in Hn.
      destruct (_ >=? nr); unfold bind, ret in Hn; [destruct (_ >? nr_blks g)|]; congruence. }
    destruct r as [[b' p']|].
    2:{ exists (inr (-1, out1)), c1. split_and!; try done. intros _ Hend. destruct Hr as [Hr1 Hr2].
        rewrite page_lpa_id, Hr2 in Hend by done. destruct Hin as [_ Hin]. lia. }
    destruct Hr as (Hin' & Hlpa & Hsame). unfold ret.
    assert (Hs16 : s16 (rc_count u + ws) = rc_count u + ws).
    { unfold s16. rewrite Z.mod_small by lia. lia. }
    destruct (IH fuel (MkRc b' p' (s16 (rc_count u + ws)) out1) c1 a)
      as (r & c' & Hw & Hok' & Hk' & Hd' & Hr); cbn [rc_block rc_page rc_count rc_out]; try done.
    + lia.
    + destruct n as [|n]; [by left|]. right. destruct Hsame as [-> ->]; lia.
    + lia.
    + rewrite Hs16, Hcount. lia.
    + exists r, c'. split; [exact Hw|]. split; [done|]. split; [congruence|].
      split; [intros q; by rewrite Hd', Hd1|]. cbn [rc_block rc_page rc_count rc_out] in Hr. rewrite Hlpa in Hr.
      destruct r as [u'|e]; [|destruct Hr as [He Hr]; split; [done|]; intros; apply Hr; [done|lia]].
      destruct Hr as (Hcoh & Hlen & Hpages). split_and!; [done|done|]. intros j Hj.
      specialize (Hpages j Hj). assert (Hout1 : sector_page out1 j = if j =? dn then take (Z.to_nat ws) (read_buffer c1) else sector_page (rc_out u) j).
      { unfold out1. rewrite Hcount. fold dn. apply (sector_page_memcpy _ _ dn j pages_per_sector); try lia; subst dn; lia. }
      destruct (j <? dn) eqn:Ej; zbool.
      * destruct (j <? pages_per_sector - Z.of_nat n) eqn:Ej2; zbool; [|subst dn; lia].
        destruct (j =? dn) eqn:Ej3; zbool; [lia|congruence].
      * intros d Hd. destruct (j =? dn) eqn:Ej3; zbool.
        -- destruct (j <? pages_per_sector - Z.of_nat n) eqn:Ej2; zbool; [|subst dn; lia].
           rewrite Hpages, Hout1. apply Hrbuf. rewrite <- Hd. f_equal. lia.
        -- destruct (j <? pages_per_sector - Z.of_nat n) eqn:Ej2; zbool; [subst dn; lia|].
           apply Hpages. rewrite Hd1, <- Hd. f_equal. subst dn. lia.
Qed.

Lemma nftl_readsect_run sect out c a :
  core_ok a c -> read_coherent a c -> sect_ok sect -> arr_len out = SECTORSIZE ->
  exists e out' c', nftl_readsect g sect out c = Done (e, out') c' /\ core_ok a c' /\ cached c' = cached c /\
    (forall q, disk_page a c' q = disk_page a c q) /\ (serves -> e = 0) /\
    (e = 0 -> read_coherent a c' /\ arr_len out' = SECTORSIZE /\
       forall j, 0 <= j < pages_per_sector ->
         forall d, disk_page a c (sect * pages_per_sector + j) = Some d -> sector_page out' j = d).
Proof.
  intros Hok Hc Hs Hout. destruct (sect_split sect Hs) as (Hin & Hofs & Hpg & Hblt & Hlpa & Hpps & Hss).
  pose proof (geo_ws g geo) as Hws. assert (Hs4 : SECTORSIZE = 4096) by reflexivity.
  assert (Hp4 : pages_per_sector <= 4096) by nia.
  unfold nftl_readsect, bind at 1, rs_unaligned. rewrite Hofs. cbn [negb Z.eqb]. unfold ret at 1.
  unfold bind at 1.
  destruct (rs_loop_run (Z.to_nat pages_per_sector) PAGE_FUEL
    (MkRc (sect_block g sect) (sect_page g sect) 0 out) c a)
    as (r & c' & Hw & Hok' & Hk' & Hd' & Hr); cbn [rc_block rc_page rc_count rc_out]; try done.
  - unfold PAGE_FUEL. lia.
  - right. lia.
  - lia.
  - rewrite Z2Nat.id by lia. lia.
  - rewrite Hw. cbn [rc_block rc_page rc_count rc_out] in Hr. rewrite Z2Nat.id in Hr by lia. destruct r as [u|[e o]].
    + exists 0, (rc_out u), c'. split_and!; try done. intros _. destruct Hr as (H1 & H2 & H3).
      split_and!; [done|done|]. intros j Hj d Hd. specialize (H3 j Hj).
      destruct (j <? _) eqn:Ej; zbool; [lia|]. apply H3. rewrite Hlpa, <- Hd. f_equal. lia.
    + destruct Hr as [He Hr]. exists e, o, c'. split_and!; try done. intros Hs'. destruct (Hr Hs').
      rewrite page_lpa_id by done. pose proof (geo_pgs g geo).
      assert ((sect_block g sect + 1) * nr <= nr_blks g * nr) by (apply Z.mul_le_mono_nonneg_r; lia). lia.
Qed.

(** Away from the end of the device the cursor moves on without touching the
    state. *)
Lemma next_page_false b p c :
  in_page b p -> b < nr_blks g ->
  exists b' p', next_page g false b p c = Done (Some (b', p')) c.
Proof.
  intros [Hb Hp] Hlt. pose proof (geo_blks g geo). unfold next_page.
  destruct (_ >=? nr); unfold bind, ret; [|by eauto].
  rewrite u16_id by (unfold in_u16; lia).
  destruct (b + 1 >? nr_blks g) eqn:E; zbool; [lia|by eauto].
Qed.

(** A page in the read cache only is served from it. *)
Lemma rs_fetch_cached c :
  (l_readblock c =? l_writeblock c) && (l_readpage c =? l_writepage c) = false ->
  rs_fetch g (l_readblock c) (l_readpage c) c = Done true c.
Proof.
  intros E. unfold rs_fetch, bind at 1, gets, id. rewrite E, !Z.eqb_refl.
  by destruct c.
Qed.

(** Reading a one-page sector that is in the read cache only. *)
Lemma readsect_cached sect out c a :
  core_ok a c -> sect_ok sect -> pages_per_sector = 1 -> arr_len out = SECTORSIZE ->
  l_readblock c = sect_block g sect -> l_readpage c = sect_page g sect ->
  (l_readblock c =? l_writeblock c) && (l_readpage c =? l_writepage c) = false ->
  nftl_readsect g sect out c = Done (0, read_buffer c) c.
Proof.
  intros Hok Hs H1 Ho Hrb Hrp E.
  destruct (sect_split sect Hs) as (Hin & Hofs & _ & Hblt & Hlpa & _ & Hss).
  rewrite H1, Z.mul_1_l in Hss. pose proof (co_rbuf _ _ Hok) as Hrl.
  unfold NAND_MAX_PAGESIZE in Hrl. assert (Hs4 : SECTORSIZE = 4096) by reflexivity.
  unfold nftl_readsect, rs_unaligned. rewrite Hofs, <- Hrb, <- Hrp. cbn [negb Z.eqb].
  unfold bind at 1, ret at 1, bind at 1.
  assert (exists n, PAGE_FUEL = Datatypes.S n) as [n ->] by by exists 4096%nat.
  cbn [while_local rc_count]. change (0 <? SECTORSIZE) with true. cbn iota.
  unfold bind at 1, rs_page at 1, bind at 1. cbn [rc_block rc_page rc_count rc_out].
  rewrite (rs_fetch_cached c E). cbn [negb]. unfold bind at 1, gets, id.
  rewrite Z.sub_0_r, Hss, Z.ltb_irrefl, memcpy_start by lia. cbn [assert_some].
  unfold bind at 1, ret at 1, bind at 1.
  unfold arr_len in *. rewrite take_ge, drop_ge, app_nil_r by lia.
  destruct (next_page_false (l_readblock c) (l_readpage c) c) as (b' & p' & ->);
    [by rewrite Hrb, Hrp|by rewrite Hrb|].
  unfold ret. rewrite <- Hss. by destruct n.
Qed.

(** The write-back of the cached page, whose result is dropped. *)
Lemma flush_cache_run c a :
  core_ok a c -> can_put a (cached c) -> exists c' a', flush_cache g c = Done tt c' /\ core_ok a' c' /\ cached c' = [] /\
    l_readblock c' = l_readblock c /\ l_readpage c' = l_readpage c /\ read_buffer c' = read_buffer c /\
    (forall q, q <> wkey c -> disk_page a' c' q = disk_page a c q) /\
    (serves \/ (forall r s', ps_write (wkey c) (write_buffer c) (c_store c) = Done r s' -> u8 r = 0) ->
       puts a (cached c) a' /\ forall q, disk_page a' c' q = disk_page a c q).
Proof.
  intros [Hi Hw Hr Hk] Hfit. pose proof ws_le. unfold flush_cache, bind at 1, gets, id. unfold cached in *.
  destruct (wcache_valid c) eqn:E.
  - assert (Hw4 : ws <= arr_len (write_buffer c)) by (rewrite Hw; unfold NAND_MAX_PAGESIZE; lia).
    destruct Hfit as [Hfit _]. destruct (nftl_write_run (l_writeblock c) (l_writepage c) (write_buffer c) c a Hi Hfit Hw4)
      as (e & s' & a' & He & Hi' & Hf & Hv & Hs & Hres). fold (wkey c) in *.
    unfold write_cached, bind, gets, id, modify. rewrite He. eexists _, a'. split; [reflexivity|].
    assert (Hd : forall q, disk_page a' (set_wkey 0xffff 0xff (with_store s' c)) q = ps_page a' q) by done.
    split; [by split|]. split_and!; try done.
    + intros q Hq. rewrite Hd, (Hf q Hq). unfold disk_page. rewrite E. by rewrite (proj2 (Z.eqb_neq _ _) Hq).
    + intros Hgood. assert (e = 0) as ->.
      { destruct Hgood as [Hgood|Hgood]; [by apply Hs|]. destruct (ps_write_law (c_store c) a _ _ Hi Hfit Hw4) as (r & s1 & _ & Hr1 & _).
        rewrite (Hres _ _ Hr1). by eapply Hgood. }
      rewrite (Hv eq_refl) in *. split; [by eexists|]. intros q. rewrite Hd, ps_put_law. unfold disk_page. rewrite E. cbn [andb]. done.
  - exists c, a. unfold ret. rewrite E. split_and!; try done. split; try done. by rewrite E.
Qed.
End Disk.

(** ** Properties *)
Section Properties.
Context {S : Type} {P : PageStore S} (g : mtd_info) {L : PageStoreLaws S g}.
Hypothesis geo : geo_ok g.
Implicit Types (c : core S) (s : S) (a : ps_state).
Notation ws := (writesize g).

(** C18. [nftl_writesect] of a sector of the device always returns 0 or -1, as long as
    the pages it hands to the page layer, the cached page before those of the
    sector, fit there in turn.  When it returns 0 these and no others were written,
    the pages of the sector hold the buffer and every other page of the disk
    (write cache over page layer) is what it was, whether the sector hit the write
    cache or the cached page had to be written out first.  It returns 0 when the
    page layer does not fail, except for the last sector of the flash. *)
Theorem writesect_correct sect buf c a :
  core_ok g a c -> sect_ok g sect -> arr_len buf = SECTORSIZE -> can_put g a (fst (sect_writes g (cached g c) sect)) ->
  exists e c', nftl_writesect g sect buf c = Done e c' /\ (e = 0 \/ e = -1) /\
    (serves g -> (sect + 1) * pages_per_sector g < nr_blks g * nr_pgsinblk g -> e = 0) /\
    (e = 0 -> exists a', puts g a (fst (sect_writes g (cached g c) sect)) a' /\ core_ok g a' c' /\ forall q d,
      (if (sect * pages_per_sector g <=? q) && (q <? (sect + 1) * pages_per_sector g)
       then Some (sector_page g buf (q - sect * pages_per_sector g)) else disk_page g a c q) = Some d ->
      disk_page g a' c' q = Some d).
Proof.
  intros Hok Hs Hb Hfit.
  destruct (nftl_writesect_run g geo sect buf c a Hok Hs Hb Hfit)
    as (e & c' & Hw & He & _ & _ & _ & Hserve & Hd).
  exists e, c'. split_and!; [done|done|done|]. intros E. destruct (Hd E) as (a' & Hp & Hok' & _ & Hd').
  exists a'. split; [done|]. split; [done|]. intros q d Hq. apply Hd'. unfold patched.
  by replace (sect * pages_per_sector g + pages_per_sector g) with ((sect + 1) * pages_per_sector g) by lia.
Qed.

(** C20. [nftl_readsect] always returns and leaves the disk as it is; when
    the read cache agrees with the disk and 0 is returned, the buffer holds
    the sector's pages, as far as they are known, and the read cache still agrees
    with the disk; 0 is returned when the page layer does not fail. *)
Theorem readsect_correct sect out c a :
  core_ok g a c -> read_coherent g a c -> sect_ok g sect -> arr_len out = SECTORSIZE ->
  exists e out' c', nftl_readsect g sect out c = Done (e, out') c' /\
    (forall q, disk_page g a c' q = disk_page g a c q) /\ (serves g -> e = 0) /\
    (e = 0 -> core_ok g a c' /\ read_coherent g a c' /\
       forall j, 0 <= j < pages_per_sector g ->
         forall d, disk_page g a c (sect * pages_per_sector g + j) = Some d -> sector_page g out' j = d).
Proof.
  intros Hok Hc Hs Ho.
  destruct (nftl_readsect_run g geo sect out c a Hok Hc Hs Ho)
    as (e & out' & c' & Hr & Hok' & _ & Hd & Hserve & He).
  exists e, out', c'. split_and!; [done|done|done|]. intros E. destruct (He E) as (H1 & _ & H2).
  by split_and!.
Qed.

(** C40. [nftl_writesect] does not invalidate the read cache: with a page
    as large as a sector, a sector that was read last and is then
    successfully overwritten (not through the write cache) is read back with
    its old contents. *)
Theorem readsect_stale sect buf out c c' a :
  core_ok g a c -> sect_ok g sect -> pages_per_sector g = 1 -> can_put g a (fst (sect_writes g (cached g c) sect)) ->
  arr_len buf = SECTORSIZE -> arr_len out = SECTORSIZE ->
  l_readblock c = sect_block g sect -> l_readpage c = sect_page g sect ->
  (in_page g (l_writeblock c) (l_writepage c) -> wkey g c <> sect) ->
  nftl_writesect g sect buf c = Done 0 c' ->
  nftl_readsect g sect out c' = Done (0, read_buffer c) c' /\
  exists a', core_ok g a' c' /\ disk_page g a' c' sect = Some buf.
Proof.
  intros Hok Hs H1 Hfit Hb Ho Hrb Hrp Hk Hw.
  destruct (nftl_writesect_run g geo sect buf c a Hok Hs Hb Hfit)
    as (e & c2 & Hw2 & _ & Erb & Erp & Erbuf & _ & Hd).
  rewrite Hw in Hw2. injection Hw2 as <- <-. destruct (Hd eq_refl) as (a' & _ & Hok' & Hkey & Hdisk).
  destruct (sect_split g geo sect Hs) as (Hin & Hofs & _ & Hblt & Hlpa & _ & Hss).
  unfold sect_writes in Hkey. rewrite H1, !Z.mul_1_r in *. rewrite Z.mul_1_l in Hss.
  pose proof (co_rbuf g _ _ Hok) as Hrl. unfold NAND_MAX_PAGESIZE in Hrl.
  assert (Hs4 : SECTORSIZE = 4096) by reflexivity. split.
  2:{ exists a'. split; [done|]. apply Hdisk. unfold patched. rewrite Z.leb_refl.
      destruct (sect <? sect + 1) eqn:E; zbool; [|lia]. cbn [andb]. f_equal.
      unfold sector_page. rewrite Z.sub_diag, Z.mul_0_l, drop_0. apply take_ge.
      unfold arr_len in Hb. lia. }
  destruct (decide (cached g c = [sect])) as [E|_].
  { exfalso. unfold cached in E. destruct (wcache_valid c) eqn:Ev; [|done]. injection E as E. by destruct (Hk (co_wkey g _ _ Hok Ev)). }
  cbn [snd] in Hkey. rewrite <- Erbuf. apply (readsect_cached g geo sect out c' a'); try done; [congruence..|].
  rewrite Erb, Erp, Hrb, Hrp. apply andb_false_iff.
  destruct (sect_block g sect =? l_writeblock c') eqn:E1; [|by left].
  destruct (sect_page g sect =? l_writepage c') eqn:E2; [|by right].
  zbool. unfold cached, wkey in Hkey. rewrite <- E1, <- E2, Hlpa in Hkey. destruct (wcache_valid c'); [|done]. injection Hkey. lia.
Qed.

(** [nftl_flush] of a page that fits always empties the write cache; the disk is
    unchanged when the write of the cached page succeeded.  A failure is not
    reported: the function returns in the same way, and the page is then whatever
    the page layer has. *)
Theorem flush_correct c a :
  core_ok g a c -> can_put g a (cached g c) -> exists c' a', nftl_flush g c = Done tt c' /\ core_ok g a' c' /\
    wcache_valid c' = false /\
    (forall q, q <> wkey g c -> disk_page g a' c' q = disk_page g a c q) /\
    ((forall r s', ps_write (wkey g c) (write_buffer c) (c_store c) = Done r s' -> u8 r = 0) ->
       forall q, disk_page g a' c' q = disk_page g a c q).
Proof.
  intros Hok Hfit. destruct (flush_cache_run g geo c a Hok Hfit) as (c' & a' & Hf & Hok' & Hv & _ & _ & _ & Hother & Hall).
  exists c', a'. split_and!; [done|done| |done|].
  - unfold cached in Hv. by destruct (wcache_valid c').
  - intros Hg. by apply Hall; right.
Qed.
End Properties.

(** ** The disk geometry *)
Section DiskGeometry.
(** For a device of at most 255 * 16384 sectors [nftl_add_mtd] computes
    a geometry without dividing by zero, with at most 16 heads and 1024
    cylinders' worth of tracks, that covers no more than the device and loses
    less than one cylinder of it. *)
Theorem calc_geometry_covers size :
  0 < size <= 255 * 16384 ->
  exists h s c, calc_geometry size = Some (h, s, c) /\
    0 < h <= 16 /\ 0 < s <= 255 /\ 0 <= c <= 1024 /\
    h * s * c <= size < h * s * c + h * s.
Proof.
  intros Hsz. unfold calc_geometry, cdiv, cmod, truth. change (1024 * 16 =? 0) with false. cbn [mbind option_bind].
  change (1024 * 16) with 16384.
  pose proof (Z.div_mod size 16384 ltac:(lia)) as Hdm.
  pose proof (Z.mod_pos_bound size 16384 ltac:(lia)) as Hm.
  assert (Hq : 0 <= size / 16384 <= 255) by (split; [apply Z.div_pos; lia|apply Z.div_le_upper_bound; lia]).
  rewrite (u8_id (size / 16384)) by (unfold in_u8; lia).
  destruct (size mod 16384 =? 0) eqn:E; zbool; cbn [negb].
  - exists 16, (size / 16384), 1024. split_and!; [done|lia..].
  - assert (Hq1 : size / 16384 < 255) by nia.
    set (s := size / 16384 + 1). rewrite (u8_id s) by (unfold in_u8; lia).
    destruct (1024 * s =? 0) eqn:Es; zbool; [lia|]. cbn [mbind option_bind].
    pose proof (Z.div_mod size (1024 * s) ltac:(lia)) as Hdm2.
    pose proof (Z.mod_pos_bound size (1024 * s) ltac:(lia)) as Hm2.
    assert (Hh : 0 <= size / (1024 * s) < 16).
    { split; [apply Z.div_pos; lia|]. apply Z.div_lt_upper_bound; lia. }
    rewrite (u8_id (size / (1024 * s))) by (unfold in_u8; lia).
    destruct (size mod (1024 * s) =? 0) eqn:E2; zbool; cbn [negb].
    + exists (size / (1024 * s)), s, 1024. split_and!; try done; nia.
    + set (h := size / (1024 * s) + 1). rewrite (u8_id h) by (unfold in_u8; lia).
      destruct (h * s =? 0) eqn:Eh; zbool; [nia|]. cbn [mbind option_bind].
      pose proof (Z.div_mod size (h * s) ltac:(lia)) as Hdm3.
      pose proof (Z.mod_pos_bound size (h * s) ltac:(nia)) as Hm3.
      assert (Hc : 0 <= size / (h * s) <= 1024).
      { split; [apply Z.div_pos; nia|]. apply Z.div_le_upper_bound; nia. }
      rewrite (u16_id (size / (h * s))) by (unfold in_u16; lia).
      exists h, s, (size / (h * s)). split_and!; try done; nia.
Qed.
End DiskGeometry.

(** ** A page layer in memory, and the properties on it *)
Section Memory.
Context (g : mtd_info).

#[local] Instance mem_store : PageStore (list (list Z)) := {
  ps_read p buf := let! m := gets id in
    match arr_get m p with
    | Some d => ret (0, blit d buf)
    | None => ret (-1, buf)
    end;
  ps_write p data := let! m := gets id in
    match arr_set m p (take (Z.to_nat (writesize g)) data) with
    | Some m' => modify (fun _ => m') ;; ret 0
    | None => ret 255
    end
}.

Lemma mem_page m p (d : list Z) : Forall (fun d => arr_len d = writesize g) m -> arr_get m p = Some d -> arr_len d = writesize g.
Proof. intros Hm E. rewrite Forall_lookup in Hm. unfold arr_get in E. destruct (0 <=? p); [|done]. by eapply Hm. Qed.
#[local] Instance mem_laws : PageStoreLaws (list (list Z)) g.
Proof.
  refine {| ps_state := Z -> option (list Z);
    ps_rep m a := Forall (fun d => arr_len d = writesize g) m /\ forall p d, a p = Some d -> arr_get m p = Some d;
    ps_page a p := a p; ps_put a p d q := if q =? p then Some d else a q; ps_fits a p := is_Some (a p) |}.
  - intros m a p d [Hm Ha] Hp. by eapply mem_page, Ha.
  - done.
  - intros m a p buf [Hm Ha] Hp Hb. unfold bind, gets, id. cbn. destruct (arr_get m p) as [v|] eqn:E.
    + exists 0, (blit v buf), m. pose proof (mem_page m p v Hm E) as Hv. split_and!; try done.
      * unfold blit, arr_len in *. rewrite length_app, length_drop. lia.
      * intros _ d Hd. specialize (Ha p d Hd). rewrite E in Ha. injection Ha as <-. by apply take_blit.
    + exists (-1), buf, m. by split_and!.
  - intros m a p data [Hm Ha] [d0 Hd0] Hb. unfold bind, gets, id. cbn.
    pose proof (arr_get_Some _ _ _ (Ha p d0 Hd0)) as Hp. pose proof (mem_page m p d0 Hm (Ha p d0 Hd0)). pose proof (arr_len_nonneg d0). rewrite arr_set_in by done. set (d := take _ data).
    exists 0, (<[Z.to_nat p := d]> m), (fun q => if q =? p then Some d else a q). split_and!; try done.
    + apply Forall_insert; [done|]. unfold d, arr_len in *. rewrite length_take. lia.
    + intros q e. rewrite (arr_get_set m p q d) by by apply arr_set_in. destruct (q =? p); [done|apply Ha].
    + intros q Hq. by apply Z.eqb_neq in Hq as ->.
Defined.
End Memory.

(** Two blocks of two pages of 4096 bytes. *)
Definition page_geo : mtd_info := MkMtd 16384 8192 4096 128.

Definition page_geo_ok : geo_ok page_geo.
Proof. split; try (vm_compute; intuition congruence); [by exists 1|by exists 2]. Defined.

#[export] Instance page_mem : PageStore (list (list Z)) := mem_store page_geo.
#[export] Instance page_mem_laws : PageStoreLaws (list (list Z)) page_geo := mem_laws page_geo.

Definition page_of (v : Z) : list Z := replicate 4096 v.
(** Sector 0 was read last; nothing is in the write cache. *)
Definition page_core : core (list (list Z)) :=
  MkCore (replicate 4 (page_of 7)) 0xffff 0xff (page_of 0) 0 0 (page_of 7).
(** All pages are known. *)
Definition page_known : Z -> option (list Z) := fun p => arr_get (replicate 4 (page_of 7)) p.

Lemma page_core_ok : core_ok page_geo page_known page_core.
Proof. split; [split; [by repeat constructor|done]|done|done|done]. Qed.
Lemma page_core_coherent : read_coherent page_geo page_known page_core.
Proof. intros _ d E. vm_compute in E. injection E as <-. vm_compute. reflexivity. Qed.
Lemma page_sect_ok n : 0 <= n < 4 -> sect_ok page_geo n.
Proof.
  intros Hn. split; [lia| |vm_compute; discriminate].
  change (nr_blks page_geo * erasesize page_geo) with 16384. unfold SECTORSIZE. lia.
Qed.

Lemma writesect_correct_witness :
  exists c' a', nftl_writesect page_geo 1 (page_of 9) page_core = Done 0 c' /\
    core_ok page_geo a' c' /\ disk_page page_geo a' c' 1 = Some (page_of 9) /\ disk_page page_geo a' c' 0 = Some (page_of 7).
Proof.
  destruct (writesect_correct page_geo (L := page_mem_laws) page_geo_ok 1 (page_of 9) page_core page_known)
    as (e & c' & Hw & _ & _ & H); [apply page_core_ok|by apply page_sect_ok|done|by repeat split; eexists|].
  assert (e = 0) as -> by (vm_compute in Hw; congruence).
  destruct (H eq_refl) as (a' & _ & Hok & Hd). exists c', a'. split; [done|]. split; [done|].
  split; apply Hd; vm_compute; reflexivity.
Defined.

Lemma readsect_correct_witness :
  exists out' c', nftl_readsect page_geo 2 (page_of 1) page_core = Done (0, out') c' /\
    sector_page page_geo out' 0 = page_of 7.
Proof.
  destruct (readsect_correct page_geo (L := page_mem_laws) page_geo_ok 2 (page_of 1) page_core page_known)
    as (e & out' & c' & Hr & _ & _ & H);
    [apply page_core_ok|apply page_core_coherent|by apply page_sect_ok|done|].
  assert (e = 0) as -> by (vm_compute in Hr; congruence).
  exists out', c'. destruct (H eq_refl) as (_ & _ & Hd). split; [done|].
  apply Hd; [vm_compute; intuition congruence|]. vm_compute. reflexivity.
Defined.

Lemma readsect_stale_witness :
  exists c' a', nftl_writesect page_geo 0 (page_of 9) page_core = Done 0 c' /\
    nftl_readsect page_geo 0 (page_of 1) c' = Done (0, page_of 7) c' /\
    core_ok page_geo a' c' /\ disk_page page_geo a' c' 0 = Some (page_of 9).
Proof.
  pose proof (readsect_stale page_geo (L := page_mem_laws) page_geo_ok 0 (page_of 9) (page_of 1) page_core) as H.
  destruct (nftl_writesect page_geo 0 (page_of 9) page_core) as [e c'|] eqn:E; [|vm_compute in E; discriminate].
  assert (e = 0) as -> by (vm_compute in E; congruence).
  destruct (H c' page_known) as (Hr & a' & Hok & Hd); [apply page_core_ok|by apply page_sect_ok|done|by repeat split; eexists|done..|
    intros [[_ Hp] _]; exfalso; apply Hp; reflexivity|reflexivity|].
  exists c', a'. split; [done|]. by split.
Defined.

(** Page 3 is in the write cache. *)
Definition page_core_w : core (list (list Z)) :=
  MkCore (replicate 4 (page_of 7)) 1 1 (page_of 5) 0 0 (page_of 7).
Lemma page_core_w_ok : core_ok page_geo page_known page_core_w.
Proof.
  split; [split; [by repeat constructor|done]|done|done|]. intros _. split; vm_compute; intuition congruence.
Qed.

Lemma flush_correct_witness :
  exists c' a', nftl_flush page_geo page_core_w = Done tt c' /\ wcache_valid c' = false /\
    disk_page page_geo a' c' 3 = Some (page_of 5).
Proof.
  destruct (flush_correct page_geo (L := page_mem_laws) page_geo_ok page_core_w page_known page_core_w_ok)
    as (c' & a' & Hf & _ & Hv & _ & Hall); [by repeat split; eexists|].
  exists c', a'. split; [done|]. split; [done|].
  rewrite Hall; [vm_compute; reflexivity|]. intros r s' E. vm_compute in E. injection E as <- _. reflexivity.
Defined.

Lemma calc_geometry_covers_witness :
  calc_geometry 100000 = Some (14, 7, 1020) /\ 14 * 7 * 1020 <= 100000 < 14 * 7 * 1020 + 14 * 7.
Proof.
  destruct (calc_geometry_covers 100000) as (h & s & c & Hg & _ & _ & _ & Hc); [lia|].
  assert (E : calc_geometry 100000 = Some (14, 7, 1020)) by reflexivity.
  split; [exact E|]. rewrite E in Hg. injection Hg as <- <- <-. exact Hc.
Defined.
