(* ===== verification/NftlMountSpec.v ===== *)
(** * NFTL: mounting an erased chip

    [NFTL_mount] on a chip that holds nothing: the scan finds every block that
    is not bad free, no table is rebuilt, and a fresh mapping table is
    written.  The state it leaves satisfies the invariant of the whole layer,
    with a disk on which no page has been written. *)

From Stdlib Require Import ZArith Lia.
From stdpp Require Import base numbers list gmap.
From S2P Require Import Prelude CMonad NftlTypes NftlAlloc NftlLog NftlDl NftlMtl MtdDev NftlState MtdSim.
From S2P Require Import NandLaws ChipLaws NftlFlash NftlFlashSpec NftlGarbage NftlTold NftlInv NftlGarbageSpec.
From S2P Require Import NftlMap NftlMapSpec NftlMapUpdate NftlData NftlDataSpec NftlDataMerge NftlDataShrink NftlDataWrite.
From S2P Require Import NftlDataContract NftlMount.

(** The module's globals when it is loaded: all zero but the cache key. *)
Definition at_load {W} (w : W) : nftl W :=
  MkNftl (MkFlash w 0) (MkAlloc (replicate 4096 0) 0 0)
    (MkGar (replicate (Z.to_nat GT_MAX_BLOCKS) 0) 0 (replicate (Z.to_nat GARBAGE_MAX_CNT) 0) 0)
    (MkMt (replicate (Z.to_nat MT_MAX_BLOCKS) 0) 0
       (replicate (Z.to_nat MTL_MAX_BLOCKS) (MkMtb 0 0 0 0)) 0
       (replicate (Z.to_nat MTL_MAX_PAGES) (MkMtt 0 0)) 0)
    (MkCache 0xffff 0xff (replicate (Z.to_nat NAND_MAX_PAGESIZE) 0))
    (MkDl (replicate (Z.to_nat DL_MAX_BLOCKS) (MkDlb 0 0 0 0)) 0
       (replicate (Z.to_nat DL_MAX_PAGES) (MkDlt 0 0)) 0)
    0 0 0.

Section Counts.
Context (g : mtd_info) (bad : Z -> bool).
(** Good blocks among the first [i]. *)
Definition good_upto (i : Z) : Z := Z.of_nat (length (filter (fun b => bad b = false) (seqZ 0 i))).
Definition good_blocks : Z := good_upto (nr_blks g).
(** Bytes of the mapping table but the last entry, its blocks and pages. *)
Definition mt_bytes : Z := (nr_blks g - 1) * 2.
Definition nr_mt : Z := mt_bytes / erasesize g + 1.
Definition nr_mtpage : Z := mt_bytes / writesize g + 1.
(** The size in bytes [NFTL_mount] gives the disk. *)
Definition disk_size : Z := (good_blocks - nr_blks g / 8) * erasesize g.

(** Chips the mount is made for: the block numbers fit, the mapping table fits
    its directory, and enough blocks are good for the disk and the table. *)
Record mountable : Prop := {
  mo_blocks : in_u16 (nb_blocks g);
  mo_mt : nr_mt < MT_MAX_BLOCKS;
  mo_pages : nr_mtpage < 2 ^ 8;
  mo_size : 500 <= disk_size;
  mo_good : nr_mt <= good_blocks
}.

Lemma good_upto_0 : good_upto 0 = 0.
Proof. done. Qed.
Lemma good_upto_S i : 0 <= i -> good_upto (i + 1) = good_upto i + (if bad i then 0 else 1).
Proof.
  intros Hi. unfold good_upto. rewrite seqZ_app, filter_app, length_app by lia.
  assert (seqZ (0 + i) 1 = [i]) as -> by (unfold seqZ; cbn; f_equal; lia).
  rewrite filter_cons, filter_nil. destruct (bad i) eqn:E.
  - rewrite decide_False by congruence. cbn. lia.
  - rewrite decide_True by done. cbn. lia.
Qed.
Lemma good_upto_range i : 0 <= i -> 0 <= good_upto i <= i.
Proof.
  intros Hi. unfold good_upto. pose proof (length_filter (fun b => bad b = false) (seqZ 0 i)) as H.
  rewrite length_seqZ in H. lia.
Qed.
End Counts.

Section Scan.
Context {W : Type} {WW : World W} (g : mtd_info) {N : NandLaws W g}.
Hypothesis geo : nand_geo g.
Context (w : W).
Hypotheses (Hinv : nd_inv w) (Hgood : nd_good w).
Hypothesis Hblank : forall b p, on_chip g b p -> nd_erased w b p.
Implicit Types (f : flash W) (b p i : Z).

(** ** The accesses of the scan *)
Lemma wp_onF {A} (m : M (flash W) A) (s : nftl W) a f (Q : A -> nftl W -> Prop) :
  m (n_flash s) = Done a f -> Q a (with_flash f s) -> wp (onF m) Q s.
Proof. intros H HQ. unfold wp. by rewrite (onF_run _ _ _ _ H). Qed.

(** Only reads so far. *)
Record calm f : Prop := {
  cm_same : same_pages g w (fl_world f);
  cm_quiet : fl_corrected f <= ECC_ERR_LIMIT
}.
Lemma calm_start : calm (MkFlash w 0).
Proof. split; [by apply same_pages_refl|done]. Qed.
Lemma calm_op f f' : calm f -> same_pages g (fl_world f) (fl_world f') -> fl_corrected f' <= ECC_ERR_LIMIT -> calm f'.
Proof. intros [H1 H2] Hs Hc. split; [by eapply same_pages_trans|done]. Qed.
Lemma calm_inv f : calm f -> nd_inv (fl_world f).
Proof. intros [[? ? ? ? ? ?] ?]. done. Qed.
Lemma cm_bad f : calm f -> nd_bad (fl_world f) = nd_bad w.
Proof. intros H. apply (sp_bad _ _ _ (cm_same _ H)). Qed.

Lemma world_op_world {A} (op : W -> A * W) f :
  world_op op f = Done (fst (op (fl_world f))) (MkFlash (snd (op (fl_world f))) (fl_corrected f)).
Proof. unfold world_op, bind, gets, id. by destruct (op (fl_world f)). Qed.

Lemma calm_stack f n : calm f -> 0 <= n ->
  exists l f', stack n f = Done l f' /\ calm f' /\ arr_len l = n.
Proof.
  intros Hc Hn. destruct (stack_run g n f (calm_inv _ Hc) Hn) as (l & f' & H & Hs & Hcor & Hl).
  exists l, f'. split_and!; [done| |done]. eapply calm_op; [done|done|rewrite Hcor; apply Hc].
Qed.
Lemma calm_kmalloc f n : calm f -> 0 <= n ->
  exists l f', kmalloc n f = Done (Some l) f' /\ calm f' /\ arr_len l = n.
Proof.
  intros Hc Hn. destruct (kmalloc_run g n f (calm_inv _ Hc) Hn) as (m & f' & H & Hs & Hcor & Hl & Hg).
  destruct m as [l|]; [|exfalso; apply Hg; [apply (sp_good _ _ _ (cm_same _ Hc) Hgood)|done]].
  exists l, f'. split_and!; [done| |by apply Hl]. eapply calm_op; [done|done|rewrite Hcor; apply Hc].
Qed.
Lemma calm_isbad f b : calm f -> 0 <= b < nr_blks g ->
  exists r f', block_isbad (u32 (b * erasesize g)) f = Done r f' /\ calm f' /\ truth r = nd_bad w b.
Proof.
  intros Hc Hb. destruct (block_isbad_run g (u32 (b * erasesize g)) f (calm_inv _ Hc)) as (r & f' & H & Hs).
  exists r, f'. rewrite <- (cm_bad _ Hc). unfold block_isbad in H.
  pose proof (world_op_corrected _ _ _ _ H) as Hcor. split_and!.
  - unfold block_isbad. exact H.
  - eapply calm_op; [done|done|rewrite Hcor; apply Hc].
  - rewrite world_op_world in H. injection H as <- <-. rewrite block_addr by done.
    apply nd_bad_isbad; [by apply calm_inv|done].
Qed.

(** The spare area of a page. *)
Lemma calm_page f b p buf : calm f -> on_chip g b p -> arr_len buf = BLOCK_INFO_SIZE ->
  exists r f', mtd_read g b p None (Some buf) 1 f = Done r f' /\ calm f' /\
    r_ret r = 0 /\ r_retlen r = oobsize g /\ r_oob r = blit (snd (nd_page w b p)) buf /\
    arr_len (r_oob r) = BLOCK_INFO_SIZE.
Proof.
  intros Hc Hon Hl. pose proof (ng_oob g geo) as Ho.
  destruct (mtd_read_spare_run g geo b p buf f (calm_inv _ Hc) Hon) as (r & f' & H & Hs & Hlen & Hd & Hr);
    [unfold BLOCK_INFO_SIZE, NAND_MAX_OOBSIZE in *; lia|].
  specialize (Hr (sp_good _ _ _ (cm_same _ Hc) Hgood)). destruct (Hd Hr) as [Hoob Hret].
  exists r, f'. split_and!; [done| |done|done|by rewrite Hoob, (sp_page _ _ _ (cm_same _ Hc))|congruence].
  pose proof (nd_read_oob (fl_world f) b p None (calm_inv _ Hc) Hon (or_introl eq_refl)) as Hlaw.
  unfold mtd_read, set_corrected, bind, modify, ret in H. change (default [] (Some buf)) with buf in H.
  rewrite require_room_run in H by (unfold BLOCK_INFO_SIZE, NAND_MAX_OOBSIZE in *; lia).
  rewrite world_op_world in H. cbn [fl_world fl_corrected] in H. injection H as _ <-.
  rewrite page_offs_addr, page_align_addr in * by done.
  eapply calm_op; [done|done|]. cbn [fl_corrected].
  destruct (wd_read_oob _ _ _ _) as [rr w']. destruct Hlaw as (_ & _ & _ & _ & _ & _ & Hg & _).
  apply corrected_small, Hg, (sp_good _ _ _ (cm_same _ Hc) Hgood).
Qed.

(** The spare area of page 0 of any block reads as erased. *)
Definition blank_spare (sp : list Z) : Prop := arr_len sp = BLOCK_INFO_SIZE /\ si_blocktype sp = 0xff.
Lemma calm_spare f b buf : calm f -> 0 <= b < nr_blks g -> arr_len buf = BLOCK_INFO_SIZE ->
  exists r f', mtd_read g b 0 None (Some buf) 1 f = Done r f' /\ calm f' /\
    r_ret r = 0 /\ r_retlen r = oobsize g /\ blank_spare (r_oob r).
Proof.
  intros Hc Hb Hl. pose proof (ng_oob g geo) as Ho. pose proof (ng_pgs g geo) as Hpg.
  assert (Hon : on_chip g b 0) by (split; lia).
  destruct (calm_page f b 0 buf Hc Hon Hl) as (r & f' & H & Hc' & Hr & Hret & Hoob & Hlen).
  exists r, f'. split_and!; [done|done|done|done|]. split; [done|].
  rewrite Hoob, nd_erased_page by auto. cbn [snd].
  unfold si_blocktype, byte_at, blit. rewrite lookup_app_l by (rewrite length_replicate; lia).
  rewrite lookup_replicate_2 by lia. done.
Qed.

(** ** The state during the scan *)
Hypothesis mo : mountable g (nd_bad w).

Definition gar_ready : gar_ram := MkGar [0xffff] 0 (replicate (Z.to_nat GARBAGE_MAX_CNT) 0) 0.
Definition pbas_ready : list Z :=
  replicate (Z.to_nat (nr_mt g)) 0xffff ++ drop (Z.to_nat (nr_mt g)) (replicate (Z.to_nat MT_MAX_BLOCKS) 0).
Definition mt_ready (pbas : list Z) : mt_ram :=
  MkMt pbas (nr_mt g) (replicate (Z.to_nat MTL_MAX_BLOCKS) (MkMtb 0 0 0 0)) 0
    (replicate (Z.to_nat MTL_MAX_PAGES) (MkMtt 0 0)) 0.
Definition cache_ready : mt_cache := MkCache 0xffff 0xff (replicate (Z.to_nat NAND_MAX_PAGESIZE) 0xff).
Definition ready f (a : alloc) (nbad : Z) : nftl W :=
  MkNftl f a gar_ready (mt_ready pbas_ready) cache_ready (n_dl (at_load w))
    (nr_blks g * nr_pgsinblk g) nbad 0.

Lemma nb_nr : nb_blocks g = nr_blks g.
Proof. unfold nr_blks. by rewrite u16_id by apply mo. Qed.
Lemma es_pos : 0 < erasesize g.
Proof. pose proof (ng_es g geo). pose proof (ng_ws_range g geo). pose proof (ng_pgs g geo). nia. Qed.
Lemma mt_bytes_range : 0 <= mt_bytes g < 2 ^ 13.
Proof. pose proof (ng_blks g geo). unfold mt_bytes, BLOCKSTATUS_LEN in *. lia. Qed.
Lemma nr_mt_range : 1 <= nr_mt g < MT_MAX_BLOCKS.
Proof.
  pose proof (mo_mt _ _ mo). pose proof mt_bytes_range. pose proof es_pos.
  assert (0 <= mt_bytes g / erasesize g) by (apply Z.div_pos; lia). unfold nr_mt in *. lia.
Qed.
Lemma nr_mtpage_range : 1 <= nr_mtpage g < 2 ^ 8.
Proof.
  pose proof (mo_pages _ _ mo). pose proof mt_bytes_range. pose proof (ng_ws_range g geo).
  assert (0 <= mt_bytes g / writesize g) by (apply Z.div_pos; lia). unfold nr_mtpage in *. lia.
Qed.

Lemma mount_init_eq (s : nftl W) : nr_mt g <= arr_len (mt_pbas (n_mt s)) ->
  mount_init g s = Done tt (MkNftl (n_flash s)
    (with_blockstatus (replicate (length (blockstatus (n_alloc s))) 0) (n_alloc s))
    (with_gt_pbas (replicate (Z.to_nat GT_MAX_BLOCKS) 0xffff) (n_gar s))
    (MkMt (replicate (Z.to_nat (nr_mt g)) 0xffff ++ drop (Z.to_nat (nr_mt g)) (mt_pbas (n_mt s))) (nr_mt g)
       (mtl_blocktab (n_mt s)) (mtl_blkcnt (n_mt s))
       (replicate (length (mtl_transtab (n_mt s))) (MkMtt 0 0)) (mtl_pgcnt (n_mt s)))
    (MkCache 0xffff 0xff (replicate (length (mt_readcache (n_cache s))) 0xff)) (n_dl s)
    (nr_blks g * nr_pgsinblk g) (n_badblkcnt s) (n_storagesize s)).
Proof.
  intros Hl.
  pose proof nr_mt_range as Hm. pose proof mt_bytes_range as Hb. unfold mt_bytes in Hb. pose proof (ng_size g geo) as Hs.
  pose proof (ng_es g geo) as He. pose proof (ng_ws_range g geo) as Hw. pose proof es_pos. pose proof (ng_blks g geo).
  unfold mount_init. rewrite nb_nr, (u32_id ((nr_blks g - 1) * 2)) by (unfold in_u32; lia).
  change ((nr_blks g - 1) * 2 / erasesize g + 1) with (nr_mt g).
  rewrite (u8_id (nr_mt g)) by (unfold in_u8, MT_MAX_BLOCKS in *; lia).
  rewrite (u32_id (_ * erasesize g)) by (unfold in_u32; nia).
  replace (nr_blks g * erasesize g / writesize g) with (nr_blks g * nr_pgsinblk g)
    by (rewrite He, Z.mul_assoc, Z.div_mul; lia).
  unfold clear_mt_pbas, onA, onG, onM, onC, zoom, bind, gets, modify, id.
  destruct s as [f a gr m c d x y z]. cbn [n_mt n_alloc n_gar n_cache with_alloc with_gar with_mt mt_pbas with_mt_blkcnt] in *.
  destruct (arr_len (mt_pbas m) <? nr_mt g) eqn:E; zbool; [lia|]. reflexivity.
Qed.
Lemma mount_init_run f : mount_init g (with_flash f (at_load w)) = Done tt (ready f (MkAlloc (replicate 4096 0) 0 0) 0).
Proof.
  pose proof nr_mt_range as Hm. rewrite mount_init_eq.
  - unfold at_load, with_flash. cbn [n_alloc n_mt n_cache n_gar blockstatus mtl_transtab mt_readcache].
    rewrite !length_replicate. reflexivity.
  - change (arr_len _) with MT_MAX_BLOCKS. lia.
Qed.

(** Every block has type FREE_BLOCK. *)
Definition types_upto (i : Z) (l : list Z) : Prop :=
  arr_len l = MAX_BLOCKS /\ forall j, 0 <= j < i -> arr_get l j = Some 0xff.
Lemma scan_types_run f a n l blkinfo : calm f -> arr_len l = MAX_BLOCKS -> arr_len blkinfo = BLOCK_INFO_SIZE ->
  wp (for_local 0 (nb_blocks g) (l, (blkinfo, 0)) (scan_type g)) (fun r s' =>
    exists l' blkinfo' f', r = inl (l', (blkinfo', 0)) /\ s' = ready f' a n /\ calm f' /\
      types_upto (nr_blks g) l' /\ arr_len blkinfo' = BLOCK_INFO_SIZE) (ready f a n).
Proof.
  intros Hc Hl Hb. rewrite nb_nr. pose proof (ng_blks g geo) as Hn.
  apply (wp_for_local (fun i x s' => exists l' blkinfo' f', x = (l', (blkinfo', 0)) /\ s' = ready f' a n /\ calm f' /\
      types_upto i l' /\ arr_len blkinfo' = BLOCK_INFO_SIZE)); [lia| | |].
  - exists l, blkinfo, f. split_and!; try done. split; [done|]. intros j Hj. lia.
  - intros i x s Hi (l' & bi & f' & -> & -> & Hc' & [Hl' Ht] & Hb').
    destruct (calm_spare f' i bi Hc' Hi Hb') as (r & f2 & H & Hc2 & Hr & Hret & Hsp & Hty).
    unfold scan_type. apply wp_bind, (wp_onF _ (ready f' a n) _ _ _ H).
    unfold spare_read_ok. rewrite Hr, Hret, !Z.eqb_refl. cbn [andb]. rewrite Hty.
    apply wp_bind, wp_assert_some. destruct (arr_set l' i 0xff) as [l2|] eqn:E;
      [|rewrite arr_set_in in E; [done|unfold MAX_BLOCKS, BLOCKSTATUS_LEN in *; lia]].
    exists l2. split; [done|]. apply wp_bind. unfold note_gt_block. rewrite Hty. apply wp_ret, wp_ret.
    exists l2, (r_oob r), f2. split_and!; try done. split; [by rewrite (arr_set_len _ _ _ _ E)|].
    intros j Hj. rewrite (arr_get_set _ _ _ _ _ E). destruct (j =? i) eqn:Ej; zbool; [done|]. apply Ht. lia.
  - intros x s (l' & bi & f' & -> & -> & H). exists l', bi, f'. by split.
Qed.

(** The good blocks found so far are free. *)
Record scanned (i : Z) (a : alloc) : Prop := {
  sc_table : table_ok g a;
  sc_count : count_ok a;
  sc_free : forall b, block_free a b <-> 0 <= b < i /\ nd_bad w b = false;
  sc_cnt : free_blkcnt a = good_upto (nd_bad w) i;
  sc_last : lastfree a = 0
}.
Lemma scanned_start : scanned 0 (MkAlloc (replicate 4096 0) 0 0).
Proof.
  assert (Hno : forall b, ~ block_free (MkAlloc (replicate 4096 0) 0 0) b).
  { intros b (v & Hv & Hne). apply Hne. unfold arr_get in Hv. destruct (0 <=? b); [|done].
    by apply lookup_replicate in Hv as [-> _]. }
  split; [|by vm_compute| |done|done].
  - split; [done|apply (ng_blks g geo)|]. intros b Hb. by apply Hno in Hb.
  - intros b. split; [intros Hb; by apply Hno in Hb|lia].
Qed.

Lemma scanned_bad i a : 0 <= i -> nd_bad w i = true -> scanned i a -> scanned (i + 1) a.
Proof.
  intros Hi Hb [H1 H2 H3 H4 H5]. split; [done|done| |rewrite good_upto_S, Hb by done; lia|done].
  intros b. rewrite H3. destruct (decide (b = i)) as [->|].
  - rewrite Hb. split; [lia|by intros []].
  - split; intros []; (split; [lia|done]).
Qed.
Lemma scanned_good i a : 0 <= i < nr_blks g -> nd_bad w i = false -> scanned i a ->
  exists a', nftl_set_block_free g i a = Done 0 a' /\ scanned (i + 1) a'.
Proof.
  intros Hi Hb [H1 H2 H3 H4 H5]. pose proof (tab_len _ _ H1). pose proof (tab_blks _ _ H1).
  assert (Hnf : ~ block_free a i) by (rewrite H3; intros []; lia).
  rewrite nftl_set_block_free_run, decide_False by (done || lia). eexists. split; [reflexivity|].
  assert (Hu : u16 (free_blkcnt a + 1) = free_blkcnt a + 1).
  { apply u16_id. rewrite H4. pose proof (good_upto_range (nd_bad w) i). unfold in_u16, BLOCKSTATUS_LEN in *. lia. }
  pose proof (set_status_table_ok g a i 0xff H1 ltac:(lia) ltac:(right; lia)) as Ht'.
  pose proof (count_ok_set_status g a i 0xff (free_blkcnt a + 1) H1 ltac:(lia) H2) as Hc'.
  rewrite decide_False in Hc' by done. rewrite decide_False in Hc' by done. specialize (Hc' ltac:(lia)).
  split.
  - by destruct Ht'; split.
  - unfold count_ok in *. cbn. by rewrite Hu.
  - intros b. change (block_free (set_status a i 0xff) b <-> 0 <= b < i + 1 /\ nd_bad w b = false).
    rewrite block_free_set_status by lia. case_decide; [subst; rewrite Hb; split; [split; [lia|done]|done]|].
    rewrite H3. split; intros []; (split; [lia|done]).
  - cbn. rewrite Hu, H4, good_upto_S, Hb by lia. done.
  - done.
Qed.

Lemma scan_blocks_run f a l x : calm f -> scanned 0 a -> types_upto (nr_blks g) l ->
  wp (for_local 0 (nr_blks g) x (scan_block g l)) (fun r s' =>
    exists f' a', r = inl x /\ s' = ready f' a' (nr_blks g - good_blocks g (nd_bad w)) /\ calm f' /\
      scanned (nr_blks g) a') (ready f a 0).
Proof.
  intros Hc Ha [_ Hl]. pose proof (ng_blks g geo) as Hn.
  apply (wp_for_local (fun i y s' => exists f' a', y = x /\
    s' = ready f' a' (i - good_upto (nd_bad w) i) /\ calm f' /\ scanned i a')); [lia| | |].
  - by exists f, a.
  - intros i y s Hi (f' & a' & -> & -> & Hc' & Ha').
    destruct (calm_isbad f' i Hc' Hi) as (r & f2 & H & Hc2 & Hr).
    pose proof (good_upto_range (nd_bad w) i ltac:(lia)) as Hg.
    unfold scan_block. apply wp_bind, (wp_onF _ (ready f' a' _) _ _ _ H). apply wp_bind, wp_assert_some.
    exists 0xff. split; [by apply Hl|]. rewrite Hr. destruct (nd_bad w i) eqn:Eb.
    + apply wp_bind, wp_modify, wp_ret. exists f2, a'. split_and!; [done| |done|by apply scanned_bad; [lia|..]].
      rewrite good_upto_S, Eb by lia. unfold ready, with_badblkcnt, with_flash.
      cbn [n_flash n_alloc n_gar n_mt n_cache n_dl n_maxlp n_badblkcnt n_storagesize]. f_equal.
      rewrite u32_id; [lia|]. unfold in_u32, BLOCKSTATUS_LEN in *. lia.
    + destruct (scanned_good i a' Hi Eb Ha') as (a2 & H2 & Ha2).
      change (255 =? block_state_code BBT_BLOCK) with false. change (255 =? block_state_code GARBAGE_TAB_BLOCK) with false.
      change (255 =? block_state_code FREE_BLOCK) with true. cbv iota. cbn [orb].
      apply wp_bind. unfold wp at 1. rewrite (onA_run _ (with_flash f2 (ready f' a' _)) _ _ H2). apply wp_ret.
      exists f2, a2. split_and!; [done| |done|done]. rewrite good_upto_S, Eb by lia.
      by replace (i + 1 - (good_upto (nd_bad w) i + 1)) with (i - good_upto (nd_bad w) i) by lia.
  - intros y s (f' & a' & -> & -> & H). exists f', a'. by split.
Qed.

(** ** Writing the mapping table *)
Hypothesis Hwgood : nd_wgood w.
Notation n := (nr_pgsinblk g).
Implicit Types (G : ghost) (a : alloc) (j k q : Z).

Definition fresh f a (pbas : list Z) (nbad size : Z) : nftl W :=
  MkNftl f a gar_ready (mt_ready pbas) cache_ready (n_dl (at_load w)) (nr_blks g * n) nbad size.

(** Tables that name MapTab blocks only. *)
Record only_mt G : Prop := {
  om_dl : gh_dl G = []; om_mtl : gh_mtl G = []; om_data : forall lba, gh_data G lba = None;
  om_gar : gh_gar G = []; om_gt : gh_gt G = None; om_gtl : gh_gtl G = []
}.
Definition blank_ghost : ghost :=
  MkGhost (fun b => if nd_bad w b then ROther else RFree) [] (fun _ => None) [] (fun _ => None) [] None [].

(** MapTab blocks for the first [k] blocks of the table, of which the first
    [i] pages have been written; all pages read as 0xFF.  [o] is a block taken
    for the next one. *)
Record creating k i f a pbas G (o : option Z) : Prop := {
  cr_inv : ftl_inv g (fl_world f) a 0 G;
  cr_shape : only_mt G;
  cr_len : arr_len pbas = MT_MAX_BLOCKS;
  cr_mt : forall j b, gh_mt G j = Some b -> 0 <= j < k;
  cr_pba : forall j, 0 <= j < k -> exists b, arr_get pbas j = Some b /\ gh_mt G j = Some b;
  cr_blank : forall j b p, gh_mt G j = Some b -> on_chip g b p ->
    fst (nd_page (fl_world f) b p) = replicate (Z.to_nat (writesize g)) 0xff;
  cr_left : forall j b p, gh_mt G j = Some b -> on_chip g b p -> i <= j * n + p -> nd_erased (fl_world f) b p;
  cr_free : free_blkcnt a = good_blocks g (nd_bad w) - k - match o with Some _ => 1 | None => 0 end;
  cr_quiet : fl_corrected f <= ECC_ERR_LIMIT;
  cr_bad : nd_bad (fl_world f) = nd_bad w;
  cr_busy : forall b, gh_own G b = RBusy <-> o = Some b;
  cr_taken : forall b, o = Some b -> in_chip g b /\ arr_get pbas k = Some b /\
    forall p, on_chip g b p -> nd_erased (fl_world f) b p
}.

Lemma creating_start f a pbas : calm f -> scanned (nr_blks g) a -> arr_len pbas = MT_MAX_BLOCKS ->
  creating 0 0 f a pbas blank_ghost None.
Proof.
  intros Hcalm [S1 S2 S3 S4 S5] Hl. pose proof (cm_bad _ Hcalm) as Hbad. destruct Hcalm as [Hs Hq].
  pose proof (ng_blks g geo) as Hn. split; try done.
  - split; [apply Hs|by apply (sp_good _ _ _ Hs)|by apply (sp_wgood _ _ _ Hs)|split; [done|done|rewrite S5; lia]| | |].
    + split; try done.
      * intros b. rewrite S3. unfold in_chip, blank_ghost. cbn. destruct (nd_bad w b); (split; intros []; split; done).
      * by intros h es H%elem_of_nil.
      * by intros h es H%elem_of_nil.
      * by intros b H%elem_of_nil.
      * apply NoDup_nil_2.
    + split; try done.
      * intros b p Hon _. rewrite (sp_erased _ _ _ Hs). by apply Hblank.
      * by intros h es p H%elem_of_nil.
      * by intros h es p H%elem_of_nil.
    + split.
      * split; try done; cbn; by intros h es H%elem_of_nil || intros b H%elem_of_nil.
      * intros b. cbn. by destruct (nd_bad w b).
      * intros b _. cbn. rewrite Hbad. by destruct (nd_bad w b).
  - intros j Hj. lia.
  - rewrite S4. unfold good_blocks. lia.
  - intros b. cbn. by destruct (nd_bad w b).
Qed.

(** The blocks that hold the first [i] pages. *)
Definition blocks_of i : Z := if i mod n =? 0 then i / n else i / n + 1.
Lemma blocks_of_S i : 0 <= i -> blocks_of (i + 1) = i / n + 1.
Proof.
  intros Hi. pose proof (ng_pgs g geo). unfold blocks_of.
  pose proof (Z.div_mod i n ltac:(lia)). pose proof (Z.mod_pos_bound i n ltac:(lia)).
  destruct (decide (i mod n = n - 1)) as [Hl|Hl].
  - assert (E : i + 1 = (i / n + 1) * n) by nia. rewrite E, Z.mod_mul, Z.div_mul by lia. done.
  - assert (E1 : (i + 1) / n = i / n) by (symmetry; apply Z.div_unique with (i mod n + 1); nia).
    assert (E2 : (i + 1) mod n = i mod n + 1) by (symmetry; apply Z.mod_unique with (i / n); nia).
    rewrite E1, E2. destruct (_ =? 0) eqn:E; zbool; lia.
Qed.
Lemma page_block i : 0 <= i < nr_mtpage g -> 0 <= i / n < nr_mt g.
Proof.
  intros Hi. pose proof (ng_pgs g geo). pose proof (ng_ws_range g geo). pose proof mt_bytes_range.
  split; [apply Z.div_pos; lia|]. unfold nr_mt, nr_mtpage in *.
  rewrite (ng_es g geo), (Z.mul_comm n), <- Z.div_div by lia.
  pose proof (Z.div_le_mono i (mt_bytes g / writesize g) n). lia.
Qed.
Lemma blocks_of_all : blocks_of (nr_mtpage g) = nr_mt g.
Proof.
  pose proof (ng_pgs g geo). pose proof (ng_ws_range g geo). pose proof mt_bytes_range.
  unfold nr_mtpage, nr_mt. rewrite blocks_of_S by (apply Z.div_pos; lia).
  rewrite (ng_es g geo), (Z.mul_comm n), Z.div_div by lia. done.
Qed.

Lemma ftl_inv_lastfree v a pg G l : 0 <= l < nr_blks g -> ftl_inv g v a pg G -> ftl_inv g v (with_lastfree l a) pg G.
Proof.
  intros Hl [H1 H2 H3 [[T1 T2 T3] H5 H6] [O1 O2 O3 O4 O5 O6 O7 O8] H8 H9].
  split; [done|done|done|by split; [split|..]|by split|done|done].
Qed.
(** The block taken holds its first page and enters the directory. *)
Lemma enter_mt v v' a pg G b p j :
  ftl_inv g v a pg G -> in_chip g b -> gh_own G b = RBusy -> gh_mt G j = None ->
  only_page g v v' b p -> mt_stored g v' j b ->
  ftl_inv g v' a pg (set_own b (RMt j) (set_gmt j (Some b) G)).
Proof.
  intros HI Hb Ho Hj Hop Hst.
  assert (HI' : ftl_inv g v' a pg G) by (eapply (ftl_inv_busy g geo); [done|by eapply only_page_block|done]).
  destruct HI' as [H1 H2 H3 H4 H7 H8 [T1 TN TB]]. split; auto.
  - eapply (owners_handover g) with (b := b) (r := RMt j); [exact H7| |done|by rewrite Ho|done].
    eapply handover_enter; [done|done|done|apply H7| |by left..].
    cbn. intros i c. unfold upd. case_decide; [|by left]. intros [= <-]. right. by subst.
  - apply erased_ok_set_own; [|done]. by destruct H8; split.
  - split.
    + destruct T1 as [T1 T2 T3 T4 T5 T6]. split; try done. cbn. intros i c. unfold upd. case_decide; [|apply T1].
      intros [= <-]. by subst.
    + eapply (named_step G); [done|done|by cbn; rewrite upd_eq|]. intros c Hc. eapply names_keep; cbn; eauto.
      intros i Hi. rewrite upd_ne; [done|]. intros ->. congruence.
    + intros c Hc. rewrite TB by done. cbn. unfold upd. case_decide; [|done]. subst. by rewrite Ho.
Qed.
(** A later page of a block of the directory. *)
Lemma write_mt_inv v v' a pg G b p j :
  ftl_inv g v a pg G -> only_mt G -> gh_mt G j = Some b -> only_page g v v' b p -> p <> 0 -> ftl_inv g v' a pg G.
Proof.
  intros [H1 H2 H3 H4 H7 [E1 E2 E3 E4] [HT HN HB]] [M1 M2 M3 M4 M5 M6] Hb Hp Hp0.
  destruct (ow_mt _ _ _ H7 _ _ Hb) as [Hc Ho].
  split; [apply Hp|by apply (op_good _ _ _ _ _ Hp)|by apply (op_wgood _ _ _ _ _ Hp)|done|done| |].
  - split.
    + intros c q Hq Hr. apply (op_erased _ _ _ _ _ Hp); [done|intros [= -> ->]; congruence|by apply E1].
    + intros h es q. rewrite M2. by intros H%elem_of_nil.
    + intros h es q. rewrite M1. by intros H%elem_of_nil.
    + intros c q. by rewrite M5.
  - split; [|done|by rewrite (op_bad _ _ _ _ _ Hp)]. eapply (told_step g geo v); [exact H7|exact HT|..].
    + intros i c Hi. destruct (decide (c = b)) as [->|Hne]; [right|left; split; [done|by eapply same_data_page]].
      destruct (td_mt _ _ _ _ HT i b Hi) as [D1 D2 D3].
      assert (Hsp : spare_at g v' b 0 = spare_at g v b 0).
      { unfold spare_at. rewrite (op_page _ _ _ _ _ Hp); [done|split; [done|pose proof (ng_pgs g geo); lia]|congruence]. }
      split; unfold page_type; rewrite Hsp; done.
    + intros h es. rewrite M2. by intros H%elem_of_nil.
    + intros h es. rewrite M1. by intros H%elem_of_nil.
    + intros lba c. by rewrite M3.
    + intros c. rewrite M4. by intros H%elem_of_nil.
    + intros c. by rewrite M5.
Qed.

(** A block is taken for the first page of the next block of the table. *)
Lemma create_block_run k f a pbas nbad size G :
  creating k (k * n) f a pbas G None -> 0 <= k < nr_mt g ->
  wp (onA (modify (with_lastfree 0)) ;;
      let! b := onA (nftl_get_free_block g) in onM (mt_set_pba k b) ;; ret (b =? 0xffff))
    (fun r s' => r = false /\ exists a' pbas' G' b, s' = fresh f a' pbas' nbad size /\
       creating k (k * n) f a' pbas' G' (Some b)) (fresh f a pbas nbad size).
Proof.
  intros [C1 C2 C3 C4 C5 C6 C7 C8 C9 C10 C11 _] Hk. pose proof (ng_blks g geo) as Hn.
  pose proof nr_mt_range as Hm. pose proof (mo_good _ _ mo) as Hg.
  apply wp_bind, wp_zoom, wp_modify. cbn [n_alloc fresh with_alloc].
  apply wp_bind. eapply (get_free_inv g (fresh f (with_lastfree 0 a) pbas nbad size) G).
  { apply ftl_inv_lastfree; [lia|exact C1]. }
  { change (0 < free_blkcnt a). lia. }
  intros b s' HI Hb Ho Hs Hfree He.
  assert (Hs' : s' = fresh f (n_alloc s') pbas nbad size) by (rewrite Hs; reflexivity). rewrite Hs'.
  apply wp_bind, wp_zoom. cbn [n_mt fresh mt_ready]. unfold mt_set_pba. apply wp_bind, wp_gets, wp_bind, wp_assert_some.
  destruct (arr_set pbas k b) as [pbas'|] eqn:E; [|rewrite arr_set_in in E; [done|lia]].
  exists pbas'. split; [exact E|]. apply wp_modify, wp_ret. unfold BLOCKSTATUS_LEN in *.
  split; [apply Z.eqb_neq; unfold in_chip in Hb; lia|].
  exists (n_alloc s'), pbas', (set_own b RBusy G), b. split; [done|].
  split; try done.
  - rewrite Hs' in HI. exact HI.
  - by destruct C2; split.
  - by rewrite (arr_set_len _ _ _ _ E).
  - intros j Hj. rewrite (arr_get_set _ _ _ _ _ E). destruct (j =? k) eqn:Ej; zbool; [lia|]. by apply C5.
  - change (free_blkcnt (n_alloc s')) with (nfree s'). rewrite Hfree.
    change (free_blkcnt a - 1 = good_blocks g (nd_bad w) - k - 1). lia.
  - intros c. cbn. unfold upd. case_decide; [by subst|]. rewrite C11. split; [done|congruence].
  - intros c [= <-]. split; [done|]. split; [|done].
    by rewrite (arr_get_set _ _ _ _ _ E), Z.eqb_refl.
Qed.

(** Page [i] of the table is written, the first of its block or a later one. *)
Lemma creating_first k f f' a pbas G b :
  creating k (k * n) f a pbas G (Some b) -> 0 <= k -> only_page g (fl_world f) (fl_world f') b 0 ->
  fst (nd_page (fl_world f') b 0) = replicate (Z.to_nat (writesize g)) 0xff ->
  fl_corrected f' <= ECC_ERR_LIMIT -> mt_stored g (fl_world f') k b ->
  creating (k + 1) (k * n + 1) f' a pbas (set_own b (RMt k) (set_gmt k (Some b) G)) None.
Proof.
  intros [C1 C2 C3 C4 C5 C6 C7 C8 C9 C10 C11 C12] Hk Hop Hpg Hcor Hst. pose proof (ng_pgs g geo) as Hn.
  destruct (C12 b eq_refl) as (Hb & Hpba & He). assert (Ho : gh_own G b = RBusy) by by apply C11.
  assert (Hnone : gh_mt G k = None) by (destruct (gh_mt G k) eqn:E; [apply C4 in E; lia|done]).
  assert (Hnb : forall j c, gh_mt G j = Some c -> c <> b).
  { intros j c Hc ->. destruct (ow_mt _ _ _ (fi_own _ _ _ _ _ C1) _ _ Hc). congruence. }
  split; try done.
  - by eapply enter_mt.
  - by destruct C2; split.
  - cbn. intros j c. unfold upd. case_decide; [lia|]. intros Hc. specialize (C4 _ _ Hc). lia.
  - cbn. intros j Hj. unfold upd. case_decide; [subst; by exists b|]. apply C5. lia.
  - cbn. intros j c p. unfold upd. case_decide.
    + intros [= <-] Hon. destruct (decide (p = 0)) as [->|Hp]; [done|].
      rewrite (op_page _ _ _ _ _ Hop) by first [done|congruence]. rewrite nd_erased_page; [done|apply C1|done|by apply He].
    + intros Hc Hon. rewrite (op_page _ _ _ _ _ Hop); [by apply (C6 j)|done|]. intros [= -> _]. by apply (Hnb j b).
  - cbn. intros j c p. unfold upd. case_decide.
    + intros [= <-] Hon Hle. apply (op_erased _ _ _ _ _ Hop); [done|intros [= ->]; nia|by apply He].
    + intros Hc Hon Hle. apply (op_erased _ _ _ _ _ Hop); [done| |apply (C7 j); [done|done|lia]].
      intros [= -> _]. by apply (Hnb j b).
  - rewrite C8. lia.
  - by rewrite (op_bad _ _ _ _ _ Hop).
  - intros c. cbn. unfold upd. case_decide; [done|]. rewrite C11. split; [congruence|done].
Qed.
Lemma creating_next k i f f' a pbas G b :
  creating k i f a pbas G None -> 0 <= i -> gh_mt G (i / n) = Some b -> i mod n <> 0 ->
  only_page g (fl_world f) (fl_world f') b (i mod n) ->
  fst (nd_page (fl_world f') b (i mod n)) = replicate (Z.to_nat (writesize g)) 0xff ->
  fl_corrected f' <= ECC_ERR_LIMIT -> creating k (i + 1) f' a pbas G None.
Proof.
  intros [C1 C2 C3 C4 C5 C6 C7 C8 C9 C10 C11 _] Hi Hb Hm Hop Hpg Hcor.
  pose proof (ng_pgs g geo) as Hn. pose proof (Z.div_mod i n ltac:(lia)) as Hdm.
  destruct (ow_mt _ _ _ (fi_own _ _ _ _ _ C1) _ _ Hb) as [Hbc Hbo].
  split; try done.
  - by eapply write_mt_inv.
  - intros j c p Hc Hon. destruct (decide ((c, p) = (b, i mod n))) as [[= -> ->]|Hne]; [done|].
    rewrite (op_page _ _ _ _ _ Hop) by done. by eapply C6.
  - intros j c p Hc Hon Hle. apply (op_erased _ _ _ _ _ Hop); [done| |apply (C7 j); [done|done|lia]].
    intros [= -> ->]. destruct (ow_mt _ _ _ (fi_own _ _ _ _ _ C1) _ _ Hc) as [_ Hr].
    rewrite Hbo in Hr. injection Hr as Hr. nia.
  - by rewrite (op_bad _ _ _ _ _ Hop).
Qed.

Lemma create_page_run i l f a pbas nbad size databuff :
  0 <= i < nr_mtpage g -> (exists G, creating (blocks_of i) i f a pbas G None) ->
  arr_len databuff = NAND_MAX_PAGESIZE ->
  take (Z.to_nat (writesize g)) databuff = replicate (Z.to_nat (writesize g)) 0xff ->
  arr_len (fst l) = BLOCK_INFO_SIZE -> si_blocktype (fst l) = block_state_code MAP_TAB_BLOCK -> snd l = 0 ->
  wp (create_mt_page g databuff i l) (fun r s' => exists sp f' a' pbas' G', r = inl (sp, 0) /\
      arr_len sp = BLOCK_INFO_SIZE /\ si_blocktype sp = block_state_code MAP_TAB_BLOCK /\ s' = fresh f' a' pbas' nbad size /\
      creating (blocks_of (i + 1)) (i + 1) f' a' pbas' G' None) (fresh f a pbas nbad size).
Proof.
  intros Hi [G HC] Hdb Hff Hsp Htype Hl. pose proof (ng_pgs g geo) as Hn. pose proof (page_block i Hi) as Hq.
  pose proof nr_mtpage_range as Hnp. pose proof nr_mt_range as Hm. pose proof (ng_ws_range g geo) as Hw.
  pose proof (ng_oob g geo) as Ho. pose proof (Z.div_mod i n ltac:(lia)) as Hdm.
  pose proof (Z.mod_pos_bound i n ltac:(lia)) as Hr.
  unfold create_mt_page.
  rewrite (u8_id (i / n)) by (unfold in_u8, MT_MAX_BLOCKS in *; lia).
  rewrite (u8_id (i mod n)) by (unfold in_u8, MAX_PAGES_IN_BLOCK in *; lia).
  apply wp_bind. eapply wp_mono with (P := fun r s' => r = false /\ exists a' pbas' G' k o b,
    s' = fresh f a' pbas' nbad size /\ creating k i f a' pbas' G' o /\ arr_get pbas' (i / n) = Some b /\
    in_chip g b /\ nd_erased (fl_world f) b (i mod n) /\
    if decide (i mod n = 0) then k = i / n /\ i = k * n /\ o = Some b
    else k = i / n + 1 /\ o = None /\ gh_mt G' (i / n) = Some b).
  { unfold blocks_of in HC. destruct (i mod n =? 0) eqn:E; zbool.
    - assert (Ei : i = i / n * n) by lia. rewrite Ei in HC at 2.
      eapply wp_mono; [apply (create_block_run (i / n) f a pbas nbad size G HC); lia|].
      intros r s' (-> & a' & pbas' & G' & b & -> & HC'). split; [done|].
      destruct (cr_taken _ _ _ _ _ _ _ HC' b eq_refl) as (Hb & Hp & He).
      exists a', pbas', G', (i / n), (Some b), b. rewrite decide_True by done. rewrite <- Ei in HC'.
      split_and!; try done. apply He. by split.
    - apply wp_ret. split; [done|]. destruct (cr_pba _ _ _ _ _ _ _ HC (i / n)) as (b & Hb & HG); [lia|].
      destruct (ow_mt _ _ _ (fi_own _ _ _ _ _ (cr_inv _ _ _ _ _ _ _ HC)) _ _ HG) as [Hbc _].
      exists a, pbas, G, (i / n + 1), None, b. rewrite decide_False by done. split_and!; try done.
      apply (cr_left _ _ _ _ _ _ _ HC (i / n)); [done|by split|lia]. }
  intros r s' (-> & a' & pbas' & G' & k & o & b & -> & HC' & Hb & Hbc & Her & Hcase). cbv iota.
  apply wp_bind, wp_gets. set (sp := if i =? 0 then _ else _).
  assert (Hlen : arr_len sp = BLOCK_INFO_SIZE).
  { unfold sp, set_lastfree, set_half, set_tabindx, arr_len in *. destruct (i =? 0); by rewrite ?length_insert. }
  apply wp_bind, wp_zoom, wp_bind, wp_gets, wp_assert_some. exists b. split; [exact Hb|].
  assert (Hok : spare_ok (fst l)) by (unfold spare_ok, arr_len, BLOCK_INFO_SIZE, NAND_MAX_OOBSIZE in *; lia).
  assert (Hok2 : spare_ok (set_tabindx (i / n) (fst l))) by (unfold spare_ok, set_tabindx in *; by rewrite length_insert).
  assert (Hty : si_blocktype sp = block_state_code MAP_TAB_BLOCK).
  { rewrite <- Htype. unfold sp, set_lastfree, si_blocktype, set_half, set_tabindx, spare_ok in *.
    destruct (i =? 0); by rewrite ?byte_at_insert by (rewrite ?length_insert; lia). }
  assert (Hti : si_tabindx sp = i / n).
  { rewrite <- (u8_id (i / n)) by (unfold in_u8, MT_MAX_BLOCKS in *; lia).
    unfold sp, set_lastfree. destruct (i =? 0); rewrite ?si_tabindx_set_half by done; by apply si_tabindx_set. }
  assert (Hlf : i = 0 -> 0 <= si_lastfree sp < nr_blks g).
  { intros ->. unfold sp. cbn [Z.eqb]. rewrite si_lastfree_set by done.
    pose proof (al_last _ _ (fi_alloc _ _ _ _ _ (cr_inv _ _ _ _ _ _ _ HC'))) as Hlast. cbn [n_alloc fresh].
    pose proof (ng_blks g geo). rewrite u16_id by (unfold in_u16, BLOCKSTATUS_LEN in *; lia). exact Hlast. }
  destruct (page_write_run g geo (fresh f a' pbas' nbad size) G' b (i mod n) databuff sp) as (f' & Hrun & [Hop Hpg Hcor _]).
  { apply HC'. }
  { by split. }
  { exact Her. }
  { unfold NAND_MAX_PAGESIZE in *. lia. }
  { unfold BLOCK_INFO_SIZE, NAND_MAX_OOBSIZE in *. lia. }
  { apply HC'. }
  apply wp_bind. eapply wp_onF; [exact Hrun|]. cbn [fst snd]. change (truth 0) with false. cbn [orb].
  rewrite (Z.add_comm (oobsize g)), Z.eqb_refl. apply wp_ret.
  exists sp, f', a', pbas'. rewrite blocks_of_S by lia. enough (Hen : exists G0, creating (i / n + 1) (i + 1) f' a' pbas' G0 None)
    by (destruct Hen as [G0 HG0]; by exists G0).
  destruct (decide (i mod n = 0)) as [E|E].
  - destruct Hcase as (-> & Ei & ->). rewrite E in *. exists (set_own b (RMt (i / n)) (set_gmt (i / n) (Some b) G')).
    rewrite Ei at 2. rewrite Ei in HC' at 2.
    eapply creating_first; [exact HC'|lia|exact Hop|by rewrite Hpg|exact Hcor|].
    destruct (si_take (Z.to_nat (oobsize g)) sp ltac:(lia)) as (T1 & _ & T3 & T4).
    split; unfold page_type, spare_at; rewrite Hpg; cbn [snd]; rewrite ?T1, ?T3, ?T4; [done|done|].
    intros Hj. apply Hlf. lia.
  - destruct Hcase as (-> & -> & HG). exists G'.
    eapply creating_next; [exact HC'|lia|done|done|exact Hop|by rewrite Hpg|exact Hcor].
Qed.

Lemma create_mt_run l f a pbas nbad size :
  creating 0 0 f a pbas blank_ghost None -> arr_len (fst l) = BLOCK_INFO_SIZE -> snd l = 0 ->
  wp (create_mt g l) (fun r s' => r = 0 /\ exists f' a' pbas' G', s' = fresh f' a' pbas' nbad size /\
      creating (nr_mt g) (nr_mtpage g) f' a' pbas' G' None) (fresh f a pbas nbad size).
Proof.
  intros HC Hsp Hl. pose proof mt_bytes_range as Hmb. pose proof nr_mtpage_range as Hnp.
  pose proof (ng_ws_range g geo) as Hw. unfold create_mt. apply wp_bind.
  destruct (stack_run g NAND_MAX_PAGESIZE f (fi_inv _ _ _ _ _ (cr_inv _ _ _ _ _ _ _ HC))) as (junk & f1 & Hrun & Hs1 & Hc1 & Hj);
    [done|].
  pose proof (ftl_inv_same g geo _ _ _ _ _ (cr_inv _ _ _ _ _ _ _ HC) Hs1) as HI1.
  eapply wp_onF; [exact Hrun|]. apply wp_bind, wp_assert_some. unfold memset.
  destruct (arr_len junk <? writesize g) eqn:E; zbool; [unfold NAND_MAX_PAGESIZE in *; lia|].
  eexists. split; [reflexivity|].
  unfold mt_bytes in Hmb. rewrite (u32_id ((nr_blks g - 1) * 2)) by (unfold in_u32; lia).
  change ((nr_blks g - 1) * 2 / writesize g + 1) with (nr_mtpage g).
  rewrite (u8_id (nr_mtpage g)) by (unfold in_u8; lia).
  set (databuff := replicate _ 255 ++ _).
  assert (Hdb : arr_len databuff = NAND_MAX_PAGESIZE).
  { unfold databuff. rewrite arr_len_app. unfold arr_len in *. rewrite length_replicate, length_drop.
    unfold NAND_MAX_PAGESIZE in *. lia. }
  assert (Hff : take (Z.to_nat (writesize g)) databuff = replicate (Z.to_nat (writesize g)) 255).
  { unfold databuff. by rewrite take_app_length' by by rewrite length_replicate. }
  assert (HC1 : creating 0 0 f1 a pbas blank_ghost None).
  { destruct HC as [C1 C2 C3 C4 C5 C6 C7 C8 C9 C10 C11 C12]. split; try done; [by rewrite Hc1|].
    by rewrite (sp_bad _ _ _ Hs1). }
  apply wp_bind. apply (wp_for_local (fun i x s' => exists sp f' a' pbas' G', x = (sp, 0) /\
      arr_len sp = BLOCK_INFO_SIZE /\ si_blocktype sp = block_state_code MAP_TAB_BLOCK /\ s' = fresh f' a' pbas' nbad size /\
      creating (blocks_of i) i f' a' pbas' G' None)); [lia| | |].
  - exists (set_blocktype (block_state_code MAP_TAB_BLOCK) (fst l)), f1, a, pbas, blank_ghost.
    rewrite Hl. split_and!; [done| | |done|exact HC1]; [unfold set_blocktype, arr_len in *; by rewrite length_insert|].
    rewrite si_blocktype_set; [done|]. unfold spare_ok, arr_len, BLOCK_INFO_SIZE, NAND_MAX_OOBSIZE in *. lia.
  - intros i x s Hi (sp & f' & a' & pbas' & G' & -> & Hsp' & Hty' & -> & HC').
    eapply wp_mono; [eapply (create_page_run i (sp, 0)); [done|by exists G'|done|done|done|done|done]|].
    intros r s' (sp2 & f2 & a2 & p2 & G2 & -> & H2). by exists sp2, f2, a2, p2, G2.
  - intros x s (sp & f' & a' & pbas' & G' & -> & _ & _ & -> & HC'). apply wp_ret. split; [done|].
    rewrite blocks_of_all in HC'. by exists f', a', pbas', G'.
Qed.

(** ** The state it leaves *)
Lemma elem_of_none {A} (x : A) (l : list A) (P : Prop) : l = [] -> x ∈ l -> P.
Proof. intros ->. by intros H%elem_of_nil. Qed.
Lemma get16_blank m ofs : 0 <= ofs -> ofs + 2 <= m -> get16 (replicate (Z.to_nat m) 0xff) ofs = Some 0xffff.
Proof.
  intros H0 H1. unfold get16, arr_get. destruct (0 <=? ofs) eqn:E1, (0 <=? ofs + 1) eqn:E2; zbool; try lia.
  rewrite !lookup_replicate_2 by lia. done.
Qed.

Lemma mounted_map k i f a pbas G : creating k i f a pbas G None -> k = nr_mt g ->
  mt_rep g (mt_ready pbas) G -> map_holds g k (fl_world f) G (gh_data G).
Proof.
  intros HC -> Hrep lba Hlba. rewrite (om_data _ (cr_shape _ _ _ _ _ _ _ HC)). cbn [default].
  destruct (lba_in_page g geo _ _ Hlba) as (H0 & _ & [_ H1]).
  destruct (where_total g geo _ _ _ Hrep H0 H1) as (b & q & Hw & _).
  unfold mt_entry, mt_data. rewrite Hw. unfold g_where in Hw.
  rewrite (om_mtl _ (cr_shape _ _ _ _ _ _ _ HC)) in Hw. cbn [mt_lookup] in Hw.
  destruct (gh_mt G _) as [c|] eqn:E; [|done]. injection Hw as -> <-.
  destruct (ow_mt _ _ _ (fi_own _ _ _ _ _ (cr_inv _ _ _ _ _ _ _ HC)) _ _ E) as [Hc _].
  rewrite (cr_blank _ _ _ _ _ _ _ HC _ _ _ E).
  - destruct (entry_ofs g geo lba). by rewrite get16_blank.
  - split; [done|]. apply Z.mod_pos_bound. pose proof (ng_pgs g geo). lia.
Qed.

Lemma mounted_range lpa : 0 <= lpa < nr_blks g * n ->
  lba_in g (nr_mt g) (lpa / n) /\ in_u16 (lpa / n) /\ in_u32 lpa.
Proof.
  intros Hl. pose proof (ng_pgs g geo) as Hn. pose proof (ng_blks g geo) as Hb.
  pose proof nr_mtpage_range as Hnp. pose proof (mt_entries_range g geo) as [He1 He2].
  assert (Hlba : 0 <= lpa / n < nr_blks g)
    by (split; [apply Z.div_pos; lia|apply Z.div_lt_upper_bound; lia]).
  assert (Hpg : 0 <= lpa / n / mt_entries g < nr_mtpage g).
  { split; [apply Z.div_pos; lia|]. unfold nr_mtpage, mt_bytes. rewrite <- He2.
    rewrite (Z.mul_comm _ 2), Z.div_mul_cancel_l by lia.
    pose proof (Z.div_le_mono (lpa / n) (nr_blks g - 1) (mt_entries g)). lia. }
  unfold lba_in, in_u16, in_u32, BLOCKSTATUS_LEN, MAX_PAGES_IN_BLOCK in *.
  split_and!; try lia; [|nia]. apply page_block. lia.
Qed.

Lemma mounted_ftl i f a pbas G nbad size :
  creating (nr_mt g) i f a pbas G None -> ftl g (fresh f a pbas nbad size) G.
Proof.
  intros HC. pose proof (cr_shape _ _ _ _ _ _ _ HC) as [M1 M2 M3 M4 M5 M6].
  pose proof nr_mt_range as Hm. pose proof (ng_pgs g geo) as Hn.
  assert (Hrep : mt_rep g (mt_ready pbas) G).
  { split; cbn [mt_blkcnt mt_ready mt_pbas].
    - rewrite M2. split; [|done|by apply HC|done|exact Hn|constructor|apply NoDup_nil_2].
      split; [by eexists|by eexists|done|done|constructor].
    - lia.
    - by apply HC.
    - intros j Hj. destruct (gh_mt G j) as [b|] eqn:E; [|done]. by apply (cr_mt _ _ _ _ _ _ _ HC j b).
    - intros h es. by apply elem_of_none. }
  split.
  - split.
    + apply HC.
    + split; [split|..]; cbn [n_gar fresh]; rewrite ?M4, ?M5, ?M6; try done; [by eexists|]. cbn. lia.
    + exact Hrep.
    + split; [done|]. intros p Hp. exfalso.
      destruct (where_live g geo _ _ _ _ _ _ (fi_own _ _ _ _ _ (cr_inv _ _ _ _ _ _ _ HC)) Hrep Hp) as [[Hb _] _].
      pose proof (ng_blks g geo). cbn in Hb. unfold BLOCKSTATUS_LEN in *. lia.
    + apply HC.
    + by eapply mounted_map.
    + intros lba b. by rewrite M3.
  - intros h es. by apply elem_of_none.
  - rewrite M1. split; [|done|done|exact Hn|constructor|apply NoDup_nil_2].
    split; [by eexists|by eexists|done|done|constructor].
  - intros h es. by apply elem_of_none.
  - done.
  - intros j h _ Hj. unfold arr_get in Hj. destruct (0 <=? j); [|done].
    cbn [n_dl fresh at_load dl_blocktab] in Hj. by apply lookup_replicate in Hj as [-> _].
  - apply mounted_range.
Qed.

(** The disk starts empty. *)
Lemma mounted_logical k i f a pbas G v lpa : creating k i f a pbas G None -> logical g v G lpa = None.
Proof.
  intros HC. destruct (cr_shape _ _ _ _ _ _ _ HC) as [M1 M2 M3 M4 M5 M6].
  unfold logical, place. rewrite M1. cbn [dl_lookup]. by rewrite M3.
Qed.

Lemma disk_size_range : 500 <= disk_size g (nd_bad w) < 2 ^ 32.
Proof.
  pose proof (mo_size _ _ mo). pose proof (ng_size g geo). pose proof es_pos. pose proof (ng_blks g geo).
  pose proof (good_upto_range (nd_bad w) (nr_blks g) ltac:(lia)). split; [done|].
  unfold disk_size, good_blocks in *. assert (0 <= nr_blks g / 8) by (apply Z.div_pos; lia). nia.
Qed.

Lemma mount_finish_run f a blkinfo : calm f -> scanned (nr_blks g) a -> arr_len blkinfo = BLOCK_INFO_SIZE ->
  wp (mount_finish g (blkinfo, 0)) (fun r s' => r = 0 /\ exists f' a' pbas' G',
      s' = fresh f' a' pbas' (nr_blks g - good_blocks g (nd_bad w)) (disk_size g (nd_bad w)) /\
      creating (nr_mt g) (nr_mtpage g) f' a' pbas' G' None)
    (ready f a (nr_blks g - good_blocks g (nd_bad w))).
Proof.
  intros Hc Ha Hl. pose proof disk_size_range as Hd. pose proof nr_mt_range as Hm.
  unfold mount_finish. apply wp_bind, wp_gets. cbn [n_badblkcnt ready].
  replace (nr_blks g - (nr_blks g - good_blocks g (nd_bad w)) - nr_blks g / 8)
    with (good_blocks g (nd_bad w) - nr_blks g / 8) by lia.
  change ((good_blocks g (nd_bad w) - nr_blks g / 8) * erasesize g) with (disk_size g (nd_bad w)).
  rewrite u32_id by (unfold in_u32; lia). apply wp_bind, wp_modify.
  destruct (disk_size g (nd_bad w) <? 500) eqn:E; zbool; [lia|].
  change (with_storagesize _ _) with
    (fresh f a pbas_ready (nr_blks g - good_blocks g (nd_bad w)) (disk_size g (nd_bad w))).
  apply wp_bind. unfold mt_missing. apply wp_bind, wp_gets, wp_bind, wp_zoom, wp_bind, wp_gets, wp_assert_some.
  exists 0xffff. split.
  { cbn [n_mt fresh mt_ready mt_pbas id]. unfold pbas_ready, arr_get. cbn [Z.leb Z.compare].
    rewrite lookup_app_l by (rewrite length_replicate; lia). apply lookup_replicate_2. lia. }
  apply wp_ret, wp_bind, wp_gets. cbn [n_mt fresh with_mt mt_ready mtl_blkcnt].
  apply create_mt_run; [|done|done]. apply creating_start; [done|done|].
  unfold pbas_ready. rewrite arr_len_app. unfold arr_len. rewrite length_drop, !length_replicate.
  unfold MT_MAX_BLOCKS in *. lia.
Qed.

Lemma NFTL_mount_run : wp (NFTL_mount g) (fun r s' => r = 0 /\ exists f' a' pbas' G',
      s' = fresh f' a' pbas' (nr_blks g - good_blocks g (nd_bad w)) (disk_size g (nd_bad w)) /\
      creating (nr_mt g) (nr_mtpage g) f' a' pbas' G' None) (at_load w).
Proof.
  unfold NFTL_mount.
  destruct (calm_stack (MkFlash w 0) BLOCK_INFO_SIZE calm_start) as (blkinfo & f1 & H1 & Hc1 & Hl1); [done|].
  apply wp_bind, (wp_onF _ (at_load w) _ _ _ H1).
  destruct (calm_kmalloc f1 MAX_BLOCKS Hc1) as (bt & f2 & H2 & Hc2 & Hl2); [done|].
  apply wp_bind, (wp_onF _ (with_flash f1 (at_load w)) _ _ _ H2). apply wp_bind, wp_assert_some.
  exists bt. split; [done|]. apply wp_bind. unfold wp at 1.
  change (with_flash f2 (with_flash f1 (at_load w))) with (with_flash f2 (at_load w)). rewrite mount_init_run.
  apply wp_bind. eapply wp_mono; [apply scan_types_run; [done| |done]|].
  { unfold arr_len in *. by rewrite length_replicate. }
  intros r s (l & bi & f3 & -> & -> & Hc3 & Hty & Hbi).
  apply wp_bind. unfold gt_pba. apply wp_bind, wp_gets, wp_assert_some. exists 0xffff. split; [done|].
  change (negb (65535 =? 65535)) with false. cbv iota. apply wp_bind, wp_ret. cbn [andb].
  apply wp_bind. eapply wp_mono; [apply scan_blocks_run; [exact Hc3|apply scanned_start|exact Hty]|].
  intros r s (f4 & a4 & -> & -> & Hc4 & Ha4). by apply mount_finish_run.
Qed.
End Scan.

(** ** The contract of the mount *)
Section Contract.
Context {W : Type} {WW : World W} (g : mtd_info) {N : NandLaws W g}.
Hypothesis geo : nand_geo g.
Notation page_of buf := (take (Z.to_nat (writesize g)) buf).

(** A chip in working order on which nothing is programmed. *)
Record erased_chip (w : W) : Prop := {
  ec_inv : nd_inv w;
  ec_good : nd_good w;
  ec_wgood : nd_wgood w;
  ec_blank : forall b p, on_chip g b p -> nd_erased w b p
}.

(** The state [NFTL_mount] leaves. *)
Record mounted (w : W) (s : nftl W) (G : ghost) : Prop := {
  md_ftl : ftl g s G;
  md_dl : gh_dl G = [];
  md_gar : gh_gar G = [];
  md_logical : forall lpa, logical g (world s) G lpa = None;
  md_maxlp : n_maxlp s = nr_blks g * nr_pgsinblk g;
  md_size : n_storagesize s = disk_size g (nd_bad w);
  md_bad : n_badblkcnt s = nr_blks g - good_blocks g (nd_bad w);
  md_free : nfree s = good_blocks g (nd_bad w) - nr_mt g;
  md_busy : forall b, gh_own G b <> RBusy;
  md_isbad : nd_bad (world s) = nd_bad w;
  md_cnt : mt_blkcnt (n_mt s) = nr_mt g;
  md_data : forall l, gh_data G l = None
}.

Lemma mount_mounted w : erased_chip w -> mountable g (nd_bad w) ->
  exists s G, NFTL_mount g (at_load w) = Done 0 s /\ mounted w s G.
Proof.
  intros [E1 E2 E3 E4] mo.
  destruct (proj1 (wp_run _ _ _) (NFTL_mount_run g geo w E1 E2 E4 mo E3))
    as (r & s & H & -> & f & a & pbas & G & -> & HC).
  eexists _, G. split; [exact H|]. split; try done.
  - by eapply mounted_ftl.
  - apply HC.
  - apply HC.
  - intros lpa. by eapply mounted_logical.
  - change (free_blkcnt a = good_blocks g (nd_bad w) - nr_mt g). rewrite (cr_free _ _ _ _ _ _ _ _ _ HC). lia.
  - intros b Hb. by apply (cr_busy _ _ _ _ _ _ _ _ _ HC) in Hb.
  - apply HC.
  - intros l. by rewrite (om_data _ (cr_shape _ _ _ _ _ _ _ _ _ HC)).
Qed.
(** C5. Mounting an erased chip succeeds: [NFTL_mount] answers 0 in a state
    that satisfies the invariant of the layer, with the disk size computed
    from the good blocks, one free block per good block that the mapping
    table does not use, and a disk all of whose pages read as 0xFF. *)
Theorem mount_erased w (HE : erased_chip w) (mo : mountable g (nd_bad w)) :
  exists s G, NFTL_mount g (at_load w) = Done 0 s /\ ftl g s G /\
    n_storagesize s = disk_size g (nd_bad w) /\ n_badblkcnt s = nr_blks g - good_blocks g (nd_bad w) /\
    free_blkcnt (n_alloc s) = good_blocks g (nd_bad w) - nr_mt g /\
    forall lpa out, 0 <= lpa < nr_blks g * nr_pgsinblk g -> writesize g <= arr_len out ->
      exists s' out', nftl_read_logicpage g lpa out s = Done (0, out') s' /\
        page_of out' = replicate (Z.to_nat (writesize g)) 0xff.
Proof.
  destruct (mount_mounted w HE mo) as (s & G & H & [M1 M2 M3 M4 M5 M6 M7 M8 _ _ _ _]).
  exists s, G. split_and!; try done. intros lpa out Hl Ho. rewrite <- M5 in Hl.
  destruct (proj1 (wp_run _ _ _) (nftl_read_logicpage_run g geo s G lpa out
    (fun r s' => exists out', r = (0, out') /\ page_of out' = page_read g (logical g (world s) G lpa)) M1 Hl Ho
    ltac:(intros s' out' _ _ _ E; by exists out'))) as (r & s' & H' & out' & -> & E).
  exists s', out'. split; [done|]. by rewrite E, M4.
Qed.

End Contract.

(** ** A concrete chip with one bad block *)
Section Example.
Notation g := small_geo.
#[local] Existing Instances inv_world inv_laws.

Definition one_bad : chip := MkChip ∅ [5 * 128] [] [] 1.

Lemma one_bad_erased : erased_chip g one_bad.
Proof.
  split.
  - apply map_Forall_empty.
  - by split.
  - done.
  - intros b p _. apply lookup_empty.
Qed.
Lemma one_bad_mountable : mountable g (nd_bad one_bad).
Proof. split; vm_compute; intuition congruence. Qed.

Lemma mount_erased_witness : exists s s' out',
  NFTL_mount g (at_load one_bad) = Done 0 s /\ n_storagesize s = 55 * 128 /\ n_badblkcnt s = 1 /\
  free_blkcnt (n_alloc s) = 62 /\
  nftl_read_logicpage g 7 (data_of 0) s = Done (0, out') s' /\ take 32 out' = data_of 0xff.
Proof.
  destruct (mount_erased g small_geo_ok one_bad one_bad_erased one_bad_mountable)
    as (s & G & H & _ & H1 & H2 & H3 & H4).
  destruct (H4 7 (data_of 0)) as (s' & out' & H5 & H6); [clear; done|clear; done|].
  exists s, s', out'. split; [exact H|]. split; [exact H1|]. split; [exact H2|]. split; [exact H3|].
  split; [exact H5|exact H6].
Defined.
End Example.
