(* ===== verification/NftlPersist.v ===== *)
(** * NFTL: what the flash says about the tables

    Between operations every block that is in use is named by a table, and the
    spare areas say which ([stored]): a consequence of the invariant of the
    layer, by owner of the block, from which [NFTL_mount] is shown to rebuild
    the tables. *)

From Stdlib Require Import ZArith Lia.
From stdpp Require Import base numbers list sets.
From S2P Require Import Prelude CMonad NftlTypes NftlAlloc NftlLog NftlDl NftlMtl MtdDev NftlState.
From S2P Require Import NandLaws ChipLaws NftlFlash NftlFlashSpec NftlGarbage NftlTold NftlInv NftlGarbageSpec.
From S2P Require Import NftlMap NftlMapSpec NftlMapUpdate NftlData NftlDataSpec NftlDataMerge NftlDataShrink NftlDataWrite.
From S2P Require Import NftlDataContract NftlMount NftlMountSpec.

Section Stored.
Context {W : Type} {WW : World W} (g : mtd_info) {N : NandLaws W g}.
Implicit Types (s : nftl W) (w : W) (G : ghost) (b p : Z).
Notation n := (nr_pgsinblk g).

(** The flash tells the ghost state: every block in use is named by a table
    and its spare areas say which. *)
Record stored w (pg : Z) G : Prop := {
  sr_mt : forall b i, gh_own G b = RMt i -> gh_mt G i = Some b /\ mt_stored g w i b;
  sr_mtl : forall b i, gh_own G b = RMtl i -> exists ge, ge ∈ gh_mtl G /\ mtb_pba ge.1 = b /\ mtl_stored g w ge;
  sr_dl : forall b lba, gh_own G b = RDl lba -> exists ge, ge ∈ gh_dl G /\ dlb_pba ge.1 = b /\ dl_stored g w ge;
  sr_data : forall b lba, in_chip g b -> gh_own G b = RData lba -> data_stored g w b;
  sr_gar : forall b, gh_own G b = RGar -> b ∈ gh_gar G /\ gar_stored g w b;
  sr_gt : forall b, gh_own G b = RGt -> gh_gt G = Some b /\ gt_stored g w pg b (gh_gar G) /\ 1 <= pg;
  sr_busy : forall b, gh_own G b <> RBusy;
  sr_bad : forall b, in_chip g b -> nd_bad w b = true <-> gh_own G b = ROther
}.

Lemma ftl_stored s G : ftl g s G -> (forall b, gh_own G b <> RBusy) -> stored (world s) (gt_pgcnt (n_gar s)) G.
Proof.
  intros HF Hb. pose proof (ft_mt _ _ _ HF) as HM. pose proof (mi_gar _ _ _ _ HM) as HR.
  destruct (fi_tells _ _ _ _ _ (mi_inv _ _ _ _ HM)) as [[T1 T2 T3 T4 T5 T6] TN TB].
  split; [intros b i Ho|intros b i Ho|intros b i Ho|intros b i _ Ho|intros b Ho|intros b Ho|done|done];
    pose proof (TN b) as Hn; rewrite Ho in Hn; cbn in Hn.
  - split; [done|by apply T1].
  - destruct Hn as (h & es & Hin & Hp). exists (h, es). split_and!; [done|done|by apply T2].
  - destruct Hn as (h & es & Hin & Hp). exists (h, es). split_and!; [done|done|by apply T3].
  - by apply (T4 i).
  - split; [done|by apply T5].
  - split; [done|]. rewrite <- (gr_told _ _ _ HR). split; [by apply T6|]. apply (gr_used _ _ _ HR). congruence.
Qed.

(** A state between operations: no block is in nobody's hands. *)
Record settled s G : Prop := {
  sd_ftl : ftl g s G;
  sd_open : dl_open g G;
  sd_busy : forall b, gh_own G b <> RBusy;
  sd_cnt : mt_blkcnt (n_mt s) = nr_mt g;
  sd_maxlp : n_maxlp s = nr_blks g * n
}.
Lemma settled_write s G lpa d s' G' : settled s G -> written g s G lpa d s' G' -> dl_open g G' -> settled s' G'.
Proof.
  intros [S1 S2 S3 S4 S5] HW Ho. split; [apply HW|done| | |].
  - intros b Hb. by apply (S3 b), (wr_busy _ _ _ _ _ _ _ HW).
  - by rewrite (wr_cnt _ _ _ _ _ _ _ HW).
  - by rewrite (wr_maxlp _ _ _ _ _ _ _ HW).
Qed.
End Stored.
