(* ===== verification/NftlRemount.v ===== *)
(** * NFTL: mounting a chip that was in use

    [NFTL_mount] after power has gone: the tables in RAM are rebuilt from the
    spare areas.  When the flash says what [stored] asks for, the rebuilt
    state satisfies the invariant of the layer and gives every logical page
    the contents it had. *)

From Stdlib Require Import ZArith Lia.
From stdpp Require Import base numbers list sets.
From S2P Require Import Prelude CMonad NftlTypes NftlAlloc NftlLog NftlDl NftlMtl MtdDev NftlState.
From S2P Require Import NandLaws ChipLaws NftlFlash NftlFlashSpec NftlGarbage NftlTold NftlInv NftlGarbageSpec.
From S2P Require Import NftlMap NftlMapSpec NftlMapUpdate NftlData NftlDataSpec NftlDataMerge NftlDataShrink NftlDataWrite.
From S2P Require Import NftlDataContract NftlMount NftlMountSpec NftlPersist.

Section Rebuild.
Context {W : Type} {WW : World W} (g : mtd_info) {N : NandLaws W g}.
Hypothesis geo : nand_geo g.
Context (w : W).
Hypotheses (Hinv : nd_inv w) (Hgood : nd_good w).
Implicit Types (s : nftl W) (f : flash W) (G : ghost) (b p i : Z).
Notation n := (nr_pgsinblk g).

Lemma wp_onD {A} (m : M dl_ram A) s a d (Q : A -> nftl W -> Prop) :
  m (n_dl s) = Done a d -> Q a (with_dl d s) -> wp (onD m) Q s.
Proof. intros H HQ. unfold wp, onD, zoom. by rewrite H. Qed.

(** ** Reading spare areas *)

(** What the code sees of a page's spare area. *)
Record sees b p (sp : list Z) : Prop := {
  se_len : arr_len sp = BLOCK_INFO_SIZE;
  se_type : si_blocktype sp = page_type g w b p;
  se_lpa : si_lpa sp = si_lpa (spare_at g w b p);
  se_index : si_tabindx sp = si_tabindx (spare_at g w b p);
  se_pageofs : si_pageofs sp = si_pageofs (spare_at g w b p);
  se_count : si_thiscount sp = si_thiscount (spare_at g w b p)
}.
Lemma sees_blit b p buf sp : on_chip g b p -> sp = blit (spare_at g w b p) buf -> arr_len sp = BLOCK_INFO_SIZE ->
  sees b p sp.
Proof.
  intros Hon -> Hl. destruct (nd_len w b p Hinv Hon) as [_ Hs]. pose proof (ng_oob g geo).
  assert (Hb : forall k : nat, (k < 5)%nat -> byte_at (blit (spare_at g w b p) buf) k = byte_at (spare_at g w b p) k).
  { intros k Hk. unfold byte_at, blit. rewrite lookup_app_l; [done|]. unfold spare_at, arr_len in *. lia. }
  split; [done|..];
    unfold page_type, si_blocktype, si_lpa, si_tabindx, si_pageofs, si_thiscount; by rewrite ?Hb by lia.
Qed.

Lemma read_spare_run s b p buf (Q : mtd_result -> nftl W -> Prop) :
  calm g w (n_flash s) -> on_chip g b p -> arr_len buf = BLOCK_INFO_SIZE ->
  (forall r f, calm g w f -> r_ret r = 0 -> spare_read_ok g r = true -> sees b p (r_oob r) ->
     Q r (with_flash f s)) ->
  wp (read_spare g b p buf) Q s.
Proof.
  intros Hc Hon Hl HQ.
  destruct (calm_page g geo w Hgood (n_flash s) b p buf Hc Hon Hl) as (r & f & H & Hc' & Hr & Hret & Hoob & Hlen).
  eapply wp_onF; [exact H|]. apply HQ; [done|done| |by eapply sees_blit].
  unfold spare_read_ok. by rewrite Hr, Hret, !Z.eqb_refl.
Qed.

(** ** A DataLog block *)

(** The log blocks [gs] and the pages read so far of the next one. *)
Record dl_part (d : dl_ram) (gs : list dl_group) (ge : dl_group) : Prop := {
  dp_rep : log_rep dlb_valid (dl_blocktab d) (dl_blkcnt d + 1) (dl_transtab d) (dl_pgcnt d) (gs ++ [ge]);
  dp_blen : arr_len (dl_blocktab d) = DL_MAX_BLOCKS;
  dp_tlen : arr_len (dl_transtab d) = DL_MAX_PAGES;
  dp_rest : forall j h, arr_len gs < j -> arr_get (dl_blocktab d) j = Some h -> dlb_used h = 0
}.
Lemma dl_part_cnt d gs ge : dl_part d gs ge -> dl_blkcnt d = arr_len gs.
Proof.
  intros [H _ _ _]. pose proof (lr_blkcnt _ _ _ _ _ _ H) as E. rewrite arr_len_app in E.
  change (arr_len [ge]) with 1 in E. lia.
Qed.
Lemma dl_part_pages d gs ge : dl_part d gs ge ->
  dl_pgcnt d = arr_len (ents gs) + arr_len ge.2 /\ dlb_valid ge.1 = arr_len ge.2.
Proof.
  intros [H _ _ _]. destruct ge as [h es]. split.
  - rewrite (lr_pgcnt _ _ _ _ _ _ H), ents_app, ents_cons, !arr_len_app. change (arr_len (ents [])) with 0. cbn. lia.
  - pose proof (lr_counted _ _ _ _ _ _ H) as Hc. apply counted_app in Hc as [_ Hc]. by inversion Hc.
Qed.

(** One more page of it. *)
Definition dl_next (ge : dl_group) (L p : Z) : dl_group :=
  (MkDlb (if p + 1 <? 2 then u16 (L / n) else dlb_lba ge.1) (dlb_pba ge.1) (p + 1) (arr_len (ent_put ge.2 L p)),
   ent_put ge.2 L p).

Lemma mount_dl_page_run s i gs ge l :
  let p := dlb_used ge.1 in let L := si_lpa (spare_at g w i p) in
  calm g w (n_flash s) -> dl_part (n_dl s) gs ge -> on_chip g i p -> arr_len (fst l) = BLOCK_INFO_SIZE ->
  L = 0xffffffff \/ arr_len (ents gs) + arr_len (ent_put ge.2 L p) <= DL_MAX_PAGES -> arr_len ge.2 <= p ->
  wp (mount_dl_page g i (arr_len gs) l) (fun r s' => exists sp f, sees i p sp /\ calm g w f /\
      if L =? 0xffffffff then r = inr (inl (sp, 0)) /\ s' = with_flash f s
      else r = inl (sp, 0) /\ exists d', s' = with_dl d' (with_flash f s) /\ dl_part d' gs (dl_next ge L p) /\
           dl_blkcnt d' = dl_blkcnt (n_dl s)) s.
Proof.
  intros p L Hc Hd Hon Hl Hroom Hvp. pose proof (ng_pgs g geo) as Hn. destruct Hon as [Hon1 Hon2]. pose proof (conj Hon1 Hon2 : on_chip g i p) as Hon. unfold MAX_PAGES_IN_BLOCK in Hn. destruct (dl_part_pages _ _ _ Hd) as [Hpn Hv].
  pose proof Hd as [Hrep Hbl Htl Hrest]. destruct ge as [h es]. cbn [fst snd] in *.
  pose proof (arr_len_nonneg es) as Ha1. pose proof (arr_len_nonneg (ents gs)) as Ha2. pose proof (ngp g geo) as Hng.
  pose proof (ent_put_len es L p) as Hpl. unfold mount_dl_page. apply wp_bind. unfold wp at 1.
  rewrite (onD_run _ _ _ (dl_block_run _ _ _ (log_rep_hdr _ _ _ _ _ _ _ _ _ Hrep))).
  fold p. destruct (p >=? n) eqn:E; zbool; [destruct Hon; lia|].
  apply wp_bind, read_spare_run; [done|done|done|]. intros r f Hc' Hr Hok Hsp. rewrite Hok, (se_lpa _ _ _ Hsp), Hr.
  fold L. destruct (L =? 0xffffffff) eqn:EL; cbn [negb].
  { apply wp_ret. by exists (r_oob r), f. }
  destruct Hroom as [Hroom|Hroom]; [by rewrite Hroom in EL|].
  apply wp_bind, wp_gets. cbn [n_dl with_flash].
  assert (Hp16 : u16 (dl_pgcnt (n_dl s) - dlb_valid h) = arr_len (ents gs)).
  { rewrite Hpn, Hv, u16_id; [lia|]. unfold in_u16, DL_MAX_PAGES in *. lia. }
  rewrite Hp16, Hv. apply wp_bind, wp_assert_some.
  assert (Hfin : forall d' sp, sees i p sp -> dl_part d' gs (dl_next (h, es) L p) -> dl_blkcnt d' = dl_blkcnt (n_dl s) ->
    exists sp' f0, sees i p sp' /\ calm g w f0 /\ (inl (sp, 0) : locals + (locals + Z)) = inl (sp', 0) /\
      exists d'', with_dl d' (with_flash f s) = with_dl d'' (with_flash f0 s) /\
        dl_part d'' gs (dl_next (h, es) L p) /\ dl_blkcnt d'' = dl_blkcnt (n_dl s)).
  { intros d' sp H1 H2 H3. exists sp, f. split_and!; [done|done|done|]. by exists d'. }
  set (lba' := if p + 1 <? 2 then u16 (L / n) else dlb_lba h).
  assert (Hb1 : forall x, dlb_used x = p + 1 -> dlb_lba x = dlb_lba h -> dlb_pba x = dlb_pba h ->
    dlb_valid x = arr_len es ->
    (if dlb_used x <? 2 then MkDlb (u16 (L / n)) (dlb_pba x) (dlb_used x) (dlb_valid x) else x)
    = MkDlb lba' (dlb_pba h) (p + 1) (arr_len es)).
  { intros [x1 x2 x3 x4]. cbn. intros -> -> -> ->. unfold lba'. by destruct (p + 1 <? 2). }
  destruct (ent_split es L p) as [[Hno Hput]|(es1 & e & es2 & Hes & Hno & He & Hput)].
  - exists (arr_len (ents gs) + arr_len es). split; [by eapply log_rep_find_miss|].
    destruct (log_rep_add_last _ _ _ _ _ gs h (dl_next (h, es) L p).1 es (MkDlt p L) Hrep)
      as (bt' & tt' & H1 & H2 & H3 & H4 & H5).
    { cbn. rewrite Hput, arr_len_app. change (arr_len [MkDlt p L]) with 1. lia. }
    { rewrite Htl. rewrite Hput, arr_len_app in Hroom. change (arr_len [MkDlt p L]) with 1 in Hroom. lia. }
    rewrite u16_id by (unfold in_u16, DL_MAX_PAGES in *; lia).
    rewrite Hb1 by (cbn; rewrite ?u8_id; unfold in_u8; (done || lia)). cbn [dlb_valid dlb_set_valid dlb_used dlb_lba dlb_pba].
    apply wp_bind. eapply wp_onD; [exact (run_dl_set_trans _ _ _ _ H1)|].
    replace (arr_len (ents gs) + arr_len es - arr_len (ents gs)) with (arr_len es) by lia. rewrite Z.eqb_refl.
    apply wp_bind, wp_bind, wp_zoom, wp_modify.
    eapply wp_onD; [apply (run_dl_set_block (with_dl_pgcnt _ (with_dl_transtab tt' (n_dl s))))|].
    { rewrite (u8_id (arr_len es + 1)) by (unfold in_u8; lia).
      replace (arr_len es + 1) with (arr_len (ent_put es L p)); [exact H2|].
      rewrite Hput, arr_len_app. change (arr_len [MkDlt p L]) with 1. lia. }
    apply wp_ret, Hfin; [done| |done].
    cbn [n_dl with_dl dl_pgcnt with_dl_transtab]. rewrite u16_id by (unfold in_u16, DL_MAX_PAGES in *; lia).
    split; cbn [dl_blocktab dl_transtab dl_blkcnt dl_pgcnt with_dl_blocktab with_dl_pgcnt with_dl_transtab]; [|congruence|congruence|].
    2: { intros j x Hj. rewrite (arr_get_set _ _ _ _ _ H2). destruct (j =? arr_len gs) eqn:Ej; zbool; [lia|by apply Hrest]. }
    unfold dl_next in *. cbn [fst snd] in *. rewrite Hput in *. exact H5.
  - assert (Hlen : arr_len (ent_put es L p) = arr_len es).
    { rewrite Hput, Hes, !arr_len_app, !arr_len_cons. done. }
    rewrite Hes in Hrep. exists (arr_len (ents gs) + arr_len es1).
    split; [rewrite Hes; by eapply log_rep_find_hit|].
    assert (Hlt : arr_len es1 < arr_len es) by (rewrite Hes, arr_len_app, arr_len_cons; pose proof (arr_len_nonneg es2); lia).
    pose proof (arr_len_nonneg es1).
    destruct (log_rep_set_ent _ _ _ _ _ gs h es1 e (MkDlt p L) es2 [] Hrep) as (tt' & H1 & H2 & H3).
    destruct (log_rep_set_hdr _ _ _ _ _ gs h (dl_next (h, es) L p).1 _ [] H3) as (bt' & H4 & H5 & H6).
    { cbn. by rewrite Hlen. }
    rewrite u16_id by (unfold in_u16, DL_MAX_PAGES in *; lia).
    rewrite Hb1 by (cbn; rewrite ?u8_id; unfold in_u8; (done || lia)). cbn [dlb_valid dlb_set_valid dlb_used dlb_lba dlb_pba].
    apply wp_bind. eapply wp_onD; [exact (run_dl_set_trans _ _ _ _ H1)|].
    replace (arr_len (ents gs) + arr_len es1 - arr_len (ents gs)) with (arr_len es1) by lia.
    destruct (arr_len es1 =? arr_len es) eqn:E1; zbool; [lia|].
    apply wp_bind. eapply wp_onD; [apply (run_dl_set_block (with_dl_transtab tt' (n_dl s)))|].
    { rewrite <- Hlen. exact H4. }
    apply wp_ret, Hfin; [done| |done].
    split; cbn [n_dl with_dl dl_blocktab dl_transtab dl_blkcnt dl_pgcnt with_dl_blocktab with_dl_pgcnt with_dl_transtab]; [|congruence|congruence|].
    2: { intros j x Hj. rewrite (arr_get_set _ _ _ _ _ H4). destruct (j =? arr_len gs) eqn:Ej; zbool; [lia|by apply Hrest]. }
    unfold dl_next in *. cbn [fst snd] in *. rewrite Hput in *. exact H6.
Qed.

Lemma dl_read_len F k : arr_len (dl_read F k) <= Z.of_nat k.
Proof.
  induction k as [|k IH]; [done|]. cbn [dl_read].
  pose proof (ent_put_len (dl_read F k) (F (Z.of_nat k)) (Z.of_nat k)). lia.
Qed.
Lemma dl_read_mono F k m : (k <= m)%nat -> arr_len (dl_read F k) <= arr_len (dl_read F m).
Proof.
  induction 1 as [|m _ IH]; [done|]. cbn [dl_read].
  pose proof (ent_put_len (dl_read F m) (F (Z.of_nat m)) (Z.of_nat m)). lia.
Qed.

(** The log blocks in RAM are [gs]. *)
Record dl_tab (d : dl_ram) (gs : list dl_group) : Prop := {
  dt_rep : log_rep dlb_valid (dl_blocktab d) (dl_blkcnt d) (dl_transtab d) (dl_pgcnt d) gs;
  dt_blen : arr_len (dl_blocktab d) = DL_MAX_BLOCKS;
  dt_tlen : arr_len (dl_transtab d) = DL_MAX_PAGES;
  dt_rest : dl_tail d
}.

Lemma erased_lpa b p : on_chip g b p -> nd_erased w b p -> si_lpa (spare_at g w b p) = 0xffffffff /\
  page_type g w b p = 0xff /\ si_tabindx (spare_at g w b p) = 0xff /\ si_thiscount (spare_at g w b p) = 0xff.
Proof.
  intros Hon He. pose proof (ng_oob g geo). unfold page_type, spare_at. rewrite nd_erased_page by done. cbn [snd].
  assert (Hb : forall k : nat, (k < 5)%nat -> byte_at (replicate (Z.to_nat (oobsize g)) 0xff) k = 0xff).
  { intros k Hk. unfold byte_at. rewrite lookup_replicate_2 by lia. done. }
  unfold si_lpa, si_blocktype, si_tabindx, si_thiscount. by rewrite !Hb by lia.
Qed.

Lemma mount_dl_block_run s i gs ge l :
  calm g w (n_flash s) -> dl_tab (n_dl s) gs -> in_chip g i -> dlb_pba ge.1 = i ->
  group_ok g ge -> dl_stored g w ge -> dlb_used ge.1 < n ->
  (forall p, on_chip g i p -> dlb_used ge.1 <= p -> nd_erased w i p) ->
  dl_blkcnt (n_dl s) < DL_MAX_BLOCKS -> arr_len (ents gs) + arr_len ge.2 <= DL_MAX_PAGES ->
  arr_len (fst l) = BLOCK_INFO_SIZE ->
  wp (mount_dl_block g i l) (fun r s' => exists sp f d', r = inl (sp, 0) /\ arr_len sp = BLOCK_INFO_SIZE /\
      calm g w f /\ s' = with_dl d' (with_flash f s) /\ dl_tab d' (gs ++ [ge]) /\
      dl_blkcnt d' = dl_blkcnt (n_dl s) + 1) s.
Proof.
  destruct ge as [h es]. cbn [fst snd].
  intros Hc [Hrep Hbl Htl Htail] Hi Hpba Hok [D1 D2 D3 D4] Hu He Hb Hroom Hl. cbn [fst snd] in *. subst i.
  pose proof (ngp g geo) as Hn. unfold mount_dl_block.
  apply wp_bind. rewrite (u8_id (n - 1)) by (unfold in_u8; lia).
  apply read_spare_run; [done|split; [done|lia]|done|]. intros r f Hc1 Hr Hok1 Hsp. rewrite Hok1, (se_type _ _ _ Hsp).
  destruct (erased_lpa (dlb_pba h) (n - 1)) as (_ & -> & _); [split; [done|lia]|apply He; [split; [done|lia]|lia]|].
  change (255 =? block_state_code DATA_BLOCK) with false. cbn [negb].
  apply wp_bind, wp_gets. cbn [n_dl with_flash].
  destruct (arr_get_in (dl_blocktab (n_dl s)) (dl_blkcnt (n_dl s))) as [b0 Hb0].
  { rewrite Hbl. split; [|done]. rewrite (lr_blkcnt _ _ _ _ _ _ Hrep). apply arr_len_nonneg. }
  apply wp_bind. unfold wp at 1. rewrite (onD_run _ (with_flash f s) _ (dl_block_run _ _ _ Hb0)).
  destruct (log_rep_open dlb_valid _ _ _ _ gs (MkDlb (dlb_lba b0) (dlb_pba h) 0 0) Hrep) as (bt' & H1 & H2 & H3);
    [done|by rewrite Hbl|].
  apply wp_bind. eapply wp_onD; [exact (run_dl_set_block _ _ _ _ H1)|].
  set (F := fun p => si_lpa (spare_at g w (dlb_pba h) p)) in *.
  set (part := fun j => (MkDlb (if j =? 0 then dlb_lba b0 else dlb_lba h) (dlb_pba h) j
                           (arr_len (dl_read F (Z.to_nat j))), dl_read F (Z.to_nat j)) : dl_group).
  assert (Hcnt : dl_blkcnt (n_dl s) = arr_len gs) by apply (lr_blkcnt _ _ _ _ _ _ Hrep).
  assert (Hgo : go_lba _ _ Hok = go_lba _ _ Hok) by done. clear Hgo.
  pose proof (go_lba _ _ Hok) as Hlba. pose proof (go_used _ _ Hok) as Hvu. pose proof (go_valid _ _ Hok) as Hv.
  cbn [fst snd] in Hlba, Hvu, Hv.
  apply wp_bind. apply (wp_for_local (fun j x s' => exists sp f d, x = (sp, 0) /\ arr_len sp = BLOCK_INFO_SIZE /\
    calm g w f /\ s' = with_dl d (with_flash f s) /\ dl_part d gs (part j) /\ dl_blkcnt d = dl_blkcnt (n_dl s) /\
    0 <= j <= dlb_used h)); [lia| | |].
  - exists (r_oob r), f, (with_dl_blocktab bt' (n_dl s)). split_and!; [by rewrite Hr|apply Hsp|done|done| |done|lia|lia].
    split; [exact H3|by cbn; rewrite H2|exact Htl|].
    cbn. intros j x Hj. rewrite (arr_get_set _ _ _ _ _ H1).
    destruct (j =? dl_blkcnt (n_dl s)) eqn:Ej; zbool; [lia|]. apply Htail. lia.
  - intros j x s' Hj (sp & f' & d & -> & Hsl & Hc' & -> & Hpart & Hdc & Hju).
    assert (Hon : on_chip g (dlb_pba h) j) by (split; [done|lia]).
    assert (Hread : j <> dlb_used h -> arr_len (ents gs) + arr_len (ent_put (dl_read F (Z.to_nat j)) (F j) j) <= DL_MAX_PAGES).
    { intros Hne. pose proof (dl_read_mono F (S (Z.to_nat j)) (Z.to_nat (dlb_used h)) ltac:(lia)) as Hm.
      cbn [dl_read] in Hm. rewrite Z2Nat.id, <- D3 in Hm by lia. lia. }
    rewrite Hcnt. pose proof (dl_read_len F (Z.to_nat j)) as Hrl. rewrite Z2Nat.id in Hrl by lia.
    pose proof (mount_dl_page_run (with_dl d (with_flash f' s)) (dlb_pba h) gs (part j) (sp, 0) Hc' Hpart Hon Hsl) as Hrun.
    cbv zeta in Hrun. change (dlb_used (part j).1) with j in Hrun.
    change (si_lpa (spare_at g w (dlb_pba h) j)) with (F j) in Hrun. change (part j).2 with (dl_read F (Z.to_nat j)) in Hrun.
    destruct (decide (j = dlb_used h)) as [Ej|Hne].
    + assert (HF : F j = 0xffffffff) by (apply erased_lpa; [done|apply He; [done|lia]]).
      rewrite HF in Hrun. eapply wp_mono; [apply Hrun; [by left|done]|].
      intros r1 s1 (sp1 & f1 & Hsp1 & Hc2 & -> & ->). apply wp_bind, wp_zoom, wp_modify, wp_ret.
      exists sp1, f1, (with_dl_blkcnt (u16 (dl_blkcnt d + 1)) d).
      pose proof (arr_len_nonneg gs).
      assert (Hu16 : u16 (dl_blkcnt d + 1) = arr_len gs + 1) by (rewrite Hdc, Hcnt, u16_id; unfold in_u16, DL_MAX_BLOCKS in *; lia).
      assert (Epart : part j = (h, es)).
      { unfold part. rewrite Ej, <- D3, <- Hv. destruct (dlb_used h =? 0) eqn:E0; zbool; [lia|]. by destruct h. }
      split_and!; [done|apply Hsp1|done|done| |done].
      rewrite Epart in Hpart. destruct Hpart as [P1 P2 P3 P4].
      split; cbn [dl_blocktab dl_blkcnt dl_transtab dl_pgcnt with_dl_blkcnt]; [|done|done|].
      * rewrite Hu16. by rewrite <- Hcnt, <- Hdc.
      * intros k x Hk. cbn in Hk. apply P4. lia.
    + assert (HF : F j / n = dlb_lba h) by (apply D4; lia).
      assert (Hne2 : (F j =? 0xffffffff) = false).
      { apply Z.eqb_neq. intros E. rewrite E in HF. unfold in_u16 in Hlba.
        assert (2 ^ 25 - 1 <= 0xffffffff / n) by (apply Z.div_le_lower_bound; lia). lia. }
      rewrite Hne2 in Hrun. specialize (Hread Hne).
      eapply wp_mono; [apply Hrun; [by right|done]|].
      intros r1 s1 (sp1 & f1 & Hsp1 & Hc2 & -> & d1 & -> & Hpart1 & Hd1).
      exists sp1, f1, d1. split_and!; [done|apply Hsp1|done|done| |rewrite Hd1; cbn [n_dl with_dl]; lia|lia|lia].
      replace (part (j + 1)) with (dl_next (part j) (F j) j); [done|].
      unfold dl_next, part. cbn [fst snd dlb_lba dlb_pba]. replace (Z.to_nat (j + 1)) with (S (Z.to_nat j)) by lia.
      cbn [dl_read]. rewrite Z2Nat.id by lia. f_equal. f_equal.
      rewrite HF, u16_id by done. destruct (j + 1 <? 2) eqn:E1, (j =? 0) eqn:E2, (j + 1 =? 0) eqn:E3; zbool; (done || lia).
  - intros x s' (sp & f' & d & _ & _ & _ & _ & _ & _ & Hj). lia.
Qed.

(** A log block that was completed is a data block. *)
Lemma mount_dl_data_run s i l (Q : locals + Z -> nftl W -> Prop) :
  calm g w (n_flash s) -> in_chip g i -> page_type g w i (n - 1) = block_state_code DATA_BLOCK ->
  arr_len (fst l) = BLOCK_INFO_SIZE ->
  (forall sp f, arr_len sp = BLOCK_INFO_SIZE -> calm g w f -> Q (inl (sp, 0)) (with_flash f s)) ->
  wp (mount_dl_block g i l) Q s.
Proof.
  intros Hc Hi Ht Hl HQ. pose proof (ngp g geo). unfold mount_dl_block. rewrite (u8_id (n - 1)) by (unfold in_u8; lia).
  apply wp_bind, read_spare_run; [done|split; [done|lia]|done|]. intros r f Hc1 Hr Hok Hsp.
  rewrite Hok, (se_type _ _ _ Hsp), Ht, Hr, Z.eqb_refl. apply wp_ret, HQ; [apply Hsp|done].
Qed.

(** ** An MTLog block *)
Lemma wp_onM {A} (m : M mt_ram A) s a d (Q : A -> nftl W -> Prop) :
  m (n_mt s) = Done a d -> Q a (with_mt d s) -> wp (onM m) Q s.
Proof. intros H HQ. unfold wp, onM, zoom. by rewrite H. Qed.

Record mtl_part (d : mt_ram) (gs : list mt_group) (ge : mt_group) : Prop := {
  mp_rep : log_rep mtb_valid (mtl_blocktab d) (mtl_blkcnt d + 1) (mtl_transtab d) (mtl_pgcnt d) (gs ++ [ge]);
  mp_blen : arr_len (mtl_blocktab d) = MTL_MAX_BLOCKS;
  mp_tlen : arr_len (mtl_transtab d) = MTL_MAX_PAGES
}.
Lemma mtl_part_pages d gs ge : mtl_part d gs ge ->
  mtl_pgcnt d = arr_len (ents gs) + arr_len ge.2 /\ mtb_valid ge.1 = arr_len ge.2.
Proof.
  intros [H _ _]. destruct ge as [h es]. split.
  - rewrite (lr_pgcnt _ _ _ _ _ _ H), ents_app, ents_cons, !arr_len_app. change (arr_len (ents [])) with 0. cbn. lia.
  - pose proof (lr_counted _ _ _ _ _ _ H) as Hc. apply counted_app in Hc as [_ Hc]. by inversion Hc.
Qed.
Definition mtl_next (ge : mt_group) (x p : Z) : mt_group :=
  (MkMtb (mtb_mtindx ge.1) (mtb_pba ge.1) (p + 1) (arr_len (mte_put ge.2 x p)), mte_put ge.2 x p).
(** The directory and the number of log blocks are as before. *)
Definition mt_same (d d' : mt_ram) : Prop :=
  mt_pbas d' = mt_pbas d /\ mt_blkcnt d' = mt_blkcnt d /\ mtl_blkcnt d' = mtl_blkcnt d.

Lemma mount_mtl_page_run s i gs ge l :
  let p := mtb_used ge.1 in let x := si_pageofs (spare_at g w i p) in
  let t := si_tabindx (spare_at g w i p) in
  calm g w (n_flash s) -> mtl_part (n_mt s) gs ge -> on_chip g i p -> arr_len (fst l) = BLOCK_INFO_SIZE ->
  t = 0xff \/ arr_len (ents gs) + arr_len (mte_put ge.2 x p) <= MTL_MAX_PAGES -> arr_len ge.2 <= p ->
  wp (mount_mtl_page g i (arr_len gs) l) (fun r s' => exists sp f, sees i p sp /\ calm g w f /\
      if t =? 0xff then r = inr (inl (sp, 0)) /\ s' = with_flash f s
      else r = inl (sp, 0) /\ exists d', s' = with_mt d' (with_flash f s) /\ mtl_part d' gs (mtl_next ge x p) /\
           mt_same (n_mt s) d') s.
Proof.
  intros p x t Hc Hd Hon Hl Hroom Hvp. pose proof (ng_pgs g geo) as Hn. destruct Hon as [Hon1 Hon2].
  pose proof (conj Hon1 Hon2 : on_chip g i p) as Hon. unfold MAX_PAGES_IN_BLOCK in Hn.
  destruct (mtl_part_pages _ _ _ Hd) as [Hpn Hv].
  pose proof Hd as [Hrep Hbl Htl]. destruct ge as [h es]. cbn [fst snd] in *.
  pose proof (arr_len_nonneg es) as Ha1. pose proof (arr_len_nonneg (ents gs)) as Ha2.
  pose proof (mte_put_len es x p) as Hpl. unfold mount_mtl_page. apply wp_bind. unfold wp at 1.
  rewrite (onM_run _ _ _ (mtl_block_run _ _ _ (log_rep_hdr _ _ _ _ _ _ _ _ _ Hrep))).
  fold p. destruct (p >=? n) eqn:E; zbool; [destruct Hon; lia|].
  apply wp_bind, read_spare_run; [done|done|done|]. intros r f Hc' Hr Hok Hsp.
  rewrite Hok, (se_index _ _ _ Hsp), Hr, (se_pageofs _ _ _ Hsp). fold t. fold x. destruct (t =? 0xff) eqn:EL; cbn [negb].
  { apply wp_ret. by exists (r_oob r), f. }
  destruct Hroom as [Hroom|Hroom]; [by rewrite Hroom in EL|].
  apply wp_bind, wp_gets. cbn [n_mt with_flash].
  assert (Hp16 : u16 (mtl_pgcnt (n_mt s) - mtb_valid h) = arr_len (ents gs)).
  { rewrite Hpn, Hv, u16_id; [lia|]. unfold in_u16, MTL_MAX_PAGES, MTL_MAX_BLOCKS, MT_MAX_BLOCKS, MAX_PAGES_IN_BLOCK in *. lia. }
  unfold MTL_MAX_PAGES, MTL_MAX_BLOCKS, MT_MAX_BLOCKS, MAX_PAGES_IN_BLOCK in *.
  rewrite Hp16, Hv. apply wp_bind, wp_assert_some.
  assert (Hfin : forall d' sp, sees i p sp -> mtl_part d' gs (mtl_next (h, es) x p) -> mt_same (n_mt s) d' ->
    exists sp' f0, sees i p sp' /\ calm g w f0 /\ (inl (sp, 0) : locals + (locals + Z)) = inl (sp', 0) /\
      exists d'', with_mt d' (with_flash f s) = with_mt d'' (with_flash f0 s) /\
        mtl_part d'' gs (mtl_next (h, es) x p) /\ mt_same (n_mt s) d'').
  { intros d' sp H1 H2 H3. exists sp, f. split_and!; [done|done|done|]. by exists d'. }
  assert (Hu : u8 (p + 1) = p + 1) by (apply u8_id; unfold in_u8; lia).
  destruct (mte_split es x p) as [[Hno Hput]|(es1 & e & es2 & Hes & Hno & He & Hput)].
  - exists (arr_len (ents gs) + arr_len es). split; [by eapply log_rep_find_miss|].
    destruct (log_rep_add_last _ _ _ _ _ gs h (mtl_next (h, es) x p).1 es (MkMtt p x) Hrep)
      as (bt' & tt' & H1 & H2 & H3 & H4 & H5).
    { cbn. rewrite Hput, arr_len_app. change (arr_len [MkMtt p x]) with 1. lia. }
    { rewrite Htl. rewrite Hput, arr_len_app in Hroom. change (arr_len [MkMtt p x]) with 1 in Hroom. lia. }
    rewrite u16_id by (unfold in_u16; lia).
    apply wp_bind. eapply wp_onM; [exact (run_mtl_set_trans _ _ _ _ H1)|].
    replace (arr_len (ents gs) + arr_len es - arr_len (ents gs)) with (arr_len es) by lia.
    cbn [mtb_valid mtb_set_used]. rewrite Hv, Z.eqb_refl.
    apply wp_bind, wp_bind, wp_zoom, wp_modify.
    eapply wp_onM; [apply (run_mtl_set_block (with_mtl_pgcnt _ (with_mtl_transtab tt' (n_mt s))))|].
    { unfold mtb_set_used, mtb_set_valid. cbn [mtb_mtindx mtb_pba mtb_used mtb_valid].
      change (mtb_used h) with p. rewrite Hu, (u8_id (arr_len es + 1)) by (unfold in_u8; lia).
      replace (arr_len es + 1) with (arr_len (mte_put es x p)); [exact H2|].
      rewrite Hput, arr_len_app. change (arr_len [MkMtt p x]) with 1. lia. }
    apply wp_ret, Hfin; [done| |done].
    cbn [n_mt with_mt mtl_pgcnt with_mtl_transtab]. rewrite u16_id by (unfold in_u16; lia).
    split; cbn [mtl_blocktab mtl_transtab mtl_blkcnt mtl_pgcnt with_mtl_blocktab with_mtl_pgcnt with_mtl_transtab];
      [|rewrite H3; exact Hbl|rewrite H4; exact Htl].
    unfold mtl_next in *. cbn [fst snd] in *. rewrite Hput in *. exact H5.
  - assert (Hlen : arr_len (mte_put es x p) = arr_len es).
    { rewrite Hput, Hes, !arr_len_app, !arr_len_cons. done. }
    rewrite Hes in Hrep. exists (arr_len (ents gs) + arr_len es1).
    split; [rewrite Hes; by eapply log_rep_find_hit|].
    assert (Hlt : arr_len es1 < arr_len es) by (rewrite Hes, arr_len_app, arr_len_cons; pose proof (arr_len_nonneg es2); lia).
    pose proof (arr_len_nonneg es1).
    destruct (log_rep_set_ent _ _ _ _ _ gs h es1 e (MkMtt p x) es2 [] Hrep) as (tt' & H1 & H2 & H3).
    destruct (log_rep_set_hdr _ _ _ _ _ gs h (mtl_next (h, es) x p).1 _ [] H3) as (bt' & H4 & H5 & H6).
    { cbn. by rewrite Hlen. }
    rewrite u16_id by (unfold in_u16; lia).
    apply wp_bind. eapply wp_onM; [exact (run_mtl_set_trans _ _ _ _ H1)|].
    replace (arr_len (ents gs) + arr_len es1 - arr_len (ents gs)) with (arr_len es1) by lia.
    cbn [mtb_valid mtb_set_used]. rewrite Hv. destruct (arr_len es1 =? arr_len es) eqn:E1; zbool; [lia|].
    apply wp_bind. eapply wp_onM; [apply (run_mtl_set_block (with_mtl_transtab tt' (n_mt s)))|].
    { unfold mtb_set_used. change (mtb_used h) with p. rewrite Hu, Hv, <- Hlen. exact H4. }
    apply wp_ret, Hfin; [done| |done].
    split; cbn [n_mt with_mt mtl_blocktab mtl_transtab mtl_blkcnt mtl_pgcnt with_mtl_blocktab with_mtl_pgcnt with_mtl_transtab];
      [|rewrite H5; exact Hbl|rewrite H2; exact Htl].
    unfold mtl_next in *. cbn [fst snd] in *. rewrite Hput in *. exact H6.
Qed.

Lemma mtl_read_len F k : arr_len (mtl_read F k) <= Z.of_nat k.
Proof.
  induction k as [|k IH]; [done|]. cbn [mtl_read].
  pose proof (mte_put_len (mtl_read F k) (F (Z.of_nat k)) (Z.of_nat k)). lia.
Qed.
Lemma mtl_read_mono F k m : (k <= m)%nat -> arr_len (mtl_read F k) <= arr_len (mtl_read F m).
Proof.
  induction 1 as [|m _ IH]; [done|]. cbn [mtl_read].
  pose proof (mte_put_len (mtl_read F m) (F (Z.of_nat m)) (Z.of_nat m)). lia.
Qed.
Record mtl_tab (d : mt_ram) (gs : list mt_group) : Prop := {
  mtt_rep : log_rep mtb_valid (mtl_blocktab d) (mtl_blkcnt d) (mtl_transtab d) (mtl_pgcnt d) gs;
  mtt_blen : arr_len (mtl_blocktab d) = MTL_MAX_BLOCKS;
  mtt_tlen : arr_len (mtl_transtab d) = MTL_MAX_PAGES
}.

Lemma mount_mtl_block_run s i gs ge l :
  calm g w (n_flash s) -> mtl_tab (n_mt s) gs -> in_chip g i -> mtb_pba ge.1 = i ->
  mtg_ok g ge -> mtl_stored g w ge -> mtb_used ge.1 < n -> mtb_mtindx ge.1 < mt_blkcnt (n_mt s) < MT_MAX_BLOCKS ->
  (forall p, on_chip g i p -> mtb_used ge.1 <= p -> nd_erased w i p) ->
  mtl_blkcnt (n_mt s) < MTL_MAX_BLOCKS -> arr_len (ents gs) + arr_len ge.2 <= MTL_MAX_PAGES ->
  arr_len (fst l) = BLOCK_INFO_SIZE ->
  wp (mount_mtl_block g i l) (fun r s' => exists sp f d', r = inl (sp, 0) /\ arr_len sp = BLOCK_INFO_SIZE /\
      calm g w f /\ s' = with_mt d' (with_flash f s) /\ mtl_tab d' (gs ++ [ge]) /\
      mt_pbas d' = mt_pbas (n_mt s) /\ mt_blkcnt d' = mt_blkcnt (n_mt s) /\
      mtl_blkcnt d' = mtl_blkcnt (n_mt s) + 1) s.
Proof.
  destruct ge as [h es]. cbn [fst snd].
  intros Hc [Hrep Hbl Htl] Hi Hpba Hok [D1 D2 D3 D4] Hu Hcnt He Hb Hroom Hl. cbn [fst snd] in *. subst i.
  pose proof (ngp g geo) as Hn. unfold mount_mtl_block.
  apply wp_bind, wp_gets, wp_bind.
  apply read_spare_run; [done|split; [done|lia]|done|]. intros r f Hc1 Hr Hok1 Hsp.
  rewrite Hok1, (se_index _ _ _ Hsp), D3 by lia. destruct (mtb_mtindx h <? _) eqn:E; zbool; [|lia].
  destruct (log_rep_open mtb_valid _ _ _ _ gs (MkMtb (mtb_mtindx h) (mtb_pba h) 0 0) Hrep) as (bt' & H1 & H2 & H3);
    [done|by rewrite Hbl|].
  apply wp_bind. eapply wp_onM; [exact (run_mtl_set_block _ _ _ _ H1)|].
  set (F := fun p => si_pageofs (spare_at g w (mtb_pba h) p)) in *.
  set (part := fun j => (MkMtb (mtb_mtindx h) (mtb_pba h) j
                           (arr_len (mtl_read F (Z.to_nat j))), mtl_read F (Z.to_nat j)) : mt_group).
  assert (Hgs : mtl_blkcnt (n_mt s) = arr_len gs) by apply (lr_blkcnt _ _ _ _ _ _ Hrep).
  pose proof (gm_used _ _ Hok) as Hvu. pose proof (gm_valid _ _ Hok) as Hv. pose proof (gm_mti _ _ Hok) as Hmi.
  cbn [fst snd] in Hvu, Hv, Hmi. pose proof (arr_len_nonneg gs) as Hgn.
  apply wp_bind. apply (wp_for_local (fun j x s' => exists sp f d, x = (sp, 0) /\ arr_len sp = BLOCK_INFO_SIZE /\
    calm g w f /\ s' = with_mt d (with_flash f s) /\ mtl_part d gs (part j) /\ mt_same (n_mt s) d /\
    0 <= j <= mtb_used h)); [lia| | |].
  - exists (r_oob r), f, (with_mtl_blocktab bt' (n_mt s)). split_and!; [by rewrite Hr|apply Hsp|done|done| |by split_and!|lia|lia].
    split; [exact H3|by cbn; rewrite H2|exact Htl].
  - intros j x s' Hj (sp & f' & d & -> & Hsl & Hc' & -> & Hpart & Hsame & Hju).
    assert (Hon : on_chip g (mtb_pba h) j) by (split; [done|lia]).
    assert (Hread : j <> mtb_used h -> arr_len (ents gs) + arr_len (mte_put (mtl_read F (Z.to_nat j)) (F j) j) <= MTL_MAX_PAGES).
    { intros Hne. pose proof (mtl_read_mono F (S (Z.to_nat j)) (Z.to_nat (mtb_used h)) ltac:(lia)) as Hm.
      cbn [mtl_read] in Hm. rewrite Z2Nat.id, <- D4 in Hm by lia. lia. }
    rewrite Hgs. pose proof (mtl_read_len F (Z.to_nat j)) as Hrl. rewrite Z2Nat.id in Hrl by lia.
    pose proof (mount_mtl_page_run (with_mt d (with_flash f' s)) (mtb_pba h) gs (part j) (sp, 0) Hc' Hpart Hon Hsl) as Hrun.
    cbv zeta in Hrun. change (mtb_used (part j).1) with j in Hrun.
    change (si_pageofs (spare_at g w (mtb_pba h) j)) with (F j) in Hrun. change (part j).2 with (mtl_read F (Z.to_nat j)) in Hrun.
    destruct Hsame as (E1 & E2 & E3).
    destruct (decide (j = mtb_used h)) as [Ej|Hne].
    + assert (HF : si_tabindx (spare_at g w (mtb_pba h) j) = 0xff) by (apply erased_lpa; [done|apply He; [done|lia]]).
      rewrite HF in Hrun. eapply wp_mono; [apply Hrun; [by left|done]|].
      intros r1 s1 (sp1 & f1 & Hsp1 & Hc2 & -> & ->). apply wp_bind, wp_zoom, wp_modify, wp_ret.
      exists sp1, f1, (with_mtl_blkcnt (u8 (mtl_blkcnt d + 1)) d).
      assert (Hu8 : u8 (mtl_blkcnt d + 1) = arr_len gs + 1).
      { rewrite E3, Hgs, u8_id; [done|]. unfold in_u8, MTL_MAX_BLOCKS, MT_MAX_BLOCKS in *. lia. }
      assert (Epart : part j = (h, es)).
      { unfold part. rewrite Ej, <- D4, <- Hv. by destruct h. }
      split_and!; [done|apply Hsp1|done|done| |done|done|done].
      rewrite Epart in Hpart. destruct Hpart as [P1 P2 P3].
      split; cbn [mtl_blocktab mtl_blkcnt mtl_transtab mtl_pgcnt with_mtl_blkcnt]; [|done|done].
      rewrite Hu8. by rewrite <- Hgs, <- E3.
    + assert (Hne2 : (si_tabindx (spare_at g w (mtb_pba h) j) =? 0xff) = false).
      { rewrite D3 by lia. apply Z.eqb_neq. unfold MT_MAX_BLOCKS in *. lia. }
      rewrite Hne2 in Hrun. specialize (Hread Hne).
      eapply wp_mono; [apply Hrun; [by right|done]|].
      intros r1 s1 (sp1 & f1 & Hsp1 & Hc2 & -> & d1 & -> & Hpart1 & E4 & E5 & E6). cbn [n_mt with_mt] in *.
      exists sp1, f1, d1. split_and!; [done|apply Hsp1|done|done| |split_and!; congruence|lia|lia].
      replace (part (j + 1)) with (mtl_next (part j) (F j) j); [done|].
      unfold mtl_next, part. cbn [fst snd mtb_mtindx mtb_pba]. replace (Z.to_nat (j + 1)) with (S (Z.to_nat j)) by lia.
      cbn [mtl_read]. by rewrite Z2Nat.id by lia.
  - intros x s' (sp & f' & d & _ & _ & _ & _ & _ & _ & Hj). lia.
Qed.
End Rebuild.
