(* ===== verification/NftlRemountSpec.v ===== *)
(** * NFTL: power loss between operations

    [NFTL_mount] on the flash of a state of the layer between operations
    ([settled]): the mount succeeds in a state between operations with the same
    blocks in the same hands, and every logical page reads as before. *)

From Stdlib Require Import ZArith Lia.
From stdpp Require Import base numbers list sets.
From S2P Require Import Prelude CMonad NftlTypes NftlAlloc NftlLog NftlDl NftlMtl MtdDev NftlState.
From S2P Require Import NandLaws ChipLaws NftlFlash NftlFlashSpec NftlGarbage NftlTold NftlInv NftlGarbageSpec.
From S2P Require Import NftlMap NftlMapSpec NftlMapUpdate NftlData NftlDataSpec NftlDataMerge NftlDataShrink NftlDataWrite.
From S2P Require Import NftlDataContract NftlMount NftlMountSpec NftlPersist NftlRemount.

(** ** Tables in another order *)
Section Order.
Context (g : mtd_info).

Lemma dl_lookup_perm gs gs' lpa : gs ≡ₚ gs' -> NoDup (map (fun ge : dl_group => dlb_lba ge.1) gs) ->
  dl_lookup g gs lpa = dl_lookup g gs' lpa.
Proof.
  induction 1 as [|[h es] gs gs' _ IH|[h es] [h' es'] gs|gs1 gs2 gs3 H1 IH1 H2 IH2]; intros Hnd; [done| | |].
  - cbn [map fst] in Hnd. apply NoDup_cons in Hnd as [_ Hnd]. cbn [dl_lookup]. by rewrite IH.
  - cbn [map fst] in Hnd. apply NoDup_cons in Hnd as [Hn _]. cbn [dl_lookup].
    destruct (dlb_lba h =? _) eqn:E1, (dlb_lba h' =? _) eqn:E2; zbool; try done.
    exfalso. apply Hn. rewrite E2, <- E1. left.
  - rewrite IH1 by done. apply IH2. eapply NoDup_Permutation_proper; [|exact Hnd]. by apply Permutation_map.
Qed.
Lemma mt_lookup_perm gs gs' x : gs ≡ₚ gs' -> NoDup (map (fun ge : mt_group => mtb_mtindx ge.1) gs) ->
  mt_lookup g gs x = mt_lookup g gs' x.
Proof.
  induction 1 as [|[h es] gs gs' _ IH|[h es] [h' es'] gs|gs1 gs2 gs3 H1 IH1 H2 IH2]; intros Hnd; [done| | |].
  - cbn [map fst] in Hnd. apply NoDup_cons in Hnd as [_ Hnd]. cbn [mt_lookup]. by rewrite IH.
  - cbn [map fst] in Hnd. apply NoDup_cons in Hnd as [Hn _]. cbn [mt_lookup].
    destruct (mtb_mtindx h =? _) eqn:E1, (mtb_mtindx h' =? _) eqn:E2; zbool; try done.
    exfalso. apply Hn. rewrite E2, <- E1. left.
  - rewrite IH1 by done. apply IH2. eapply NoDup_Permutation_proper; [|exact Hnd]. by apply Permutation_map.
Qed.
End Order.

(** The groups met so far. *)
Section Met.
Context {A : Type} (pba : A -> Z).
Implicit Types (gs l : list A) (i : Z).
Record met gs i l : Prop := {
  me_nodup : NoDup l;
  me_elem : forall ge, ge ∈ l <-> ge ∈ gs /\ pba ge < i
}.
Lemma met_start gs : (forall ge, ge ∈ gs -> 0 <= pba ge) -> met gs 0 [].
Proof.
  intros H. split; [apply NoDup_nil_2|]. intros ge. split; [by intros Hn%elem_of_nil|].
  intros [Hin Hlt]. specialize (H _ Hin). lia.
Qed.
Lemma met_other gs i l : (forall ge, ge ∈ gs -> pba ge <> i) -> met gs i l -> met gs (i + 1) l.
Proof.
  intros Hne [H1 H2]. split; [done|]. intros ge. rewrite H2. split; intros [Hin Hlt]; (split; [done|]).
  - lia.
  - specialize (Hne _ Hin). lia.
Qed.
Lemma met_next gs i l ge : ge ∈ gs -> pba ge = i -> (forall x, x ∈ gs -> pba x = i -> x = ge) ->
  met gs i l -> met gs (i + 1) (l ++ [ge]).
Proof.
  intros Hin Hp Hu [H1 H2]. split.
  - apply NoDup_app. split_and!; [done| |apply NoDup_singleton].
    intros x Hx ->%list_elem_of_singleton. apply H2 in Hx as [_ Hx]. lia.
  - intros x. rewrite elem_of_app, list_elem_of_singleton, H2. split.
    + intros [[Hx Hlt]| ->]; [split; [done|lia]|split; [done|lia]].
    + intros [Hx Hlt]. destruct (decide (pba x = i)) as [E|E]; [right; by apply Hu|left; split; [done|lia]].
Qed.
Lemma met_sub gs i l : met gs i l -> l ⊆+ gs.
Proof. intros [H1 H2]. apply NoDup_submseteq; [done|]. intros ge Hx. by apply H2 in Hx as [? _]. Qed.
Lemma met_all gs i l : met gs i l -> NoDup gs -> (forall ge, ge ∈ gs -> pba ge < i) -> l ≡ₚ gs.
Proof.
  intros [H1 H2] Hnd Hlt. apply NoDup_Permutation; [done|done|]. intros ge. rewrite H2. split; [by intros []|].
  intros Hin. split; [done|by apply Hlt].
Qed.
End Met.

Lemma submseteq_ents {H E} (l gs : list (H * list E)) : l ⊆+ gs -> arr_len l <= arr_len gs /\ arr_len (ents l) <= arr_len (ents gs).
Proof.
  intros (k & Hk)%submseteq_Permutation.
  assert (Hperm : forall a b : list (H * list E), a ≡ₚ b -> arr_len (ents a) = arr_len (ents b)).
  { induction 1 as [|[h es] a b _ IH|[h es] [h' es'] a|a b c _ IH1 _ IH2];
      rewrite ?ents_cons, ?arr_len_app; [done|lia|lia|lia]. }
  rewrite (Hperm _ _ Hk), ents_app. unfold arr_len. rewrite (Permutation_length Hk), !length_app. lia.
Qed.

(** ** The mount *)
Section Mount.
Context {W : Type} {WW : World W} (g : mtd_info) {N : NandLaws W g}.
Hypothesis geo : nand_geo g.
Implicit Types (s : nftl W) (f : flash W) (b p i : Z) (a : alloc) (m : mt_ram) (d : dl_ram).
Notation n := (nr_pgsinblk g).

(** The state before the power was lost. *)
Context (s0 : nftl W) (G : ghost).
Notation w := (world s0).
Notation pg := (gt_pgcnt (n_gar s0)).
Hypotheses (HD : settled g s0 G) (mo : mountable g (nd_bad w)).

Let HF : ftl g s0 G := sd_ftl _ _ _ HD.
Let Hopen : dl_open g G := sd_open _ _ _ HD.
Let HS : stored g w pg G := ftl_stored g s0 G HF (sd_busy _ _ _ HD).
Let Hcnt : mt_blkcnt (n_mt s0) = nr_mt g := sd_cnt _ _ _ HD.

Lemma rm_inv : ftl_inv g w (n_alloc s0) pg G.
Proof. apply HF. Qed.
Lemma rm_nd : nd_inv w.
Proof. apply rm_inv. Qed.
Lemma rm_good : nd_good w.
Proof. apply rm_inv. Qed.
Lemma rm_page b : in_chip g b -> on_chip g b 0.
Proof. intros Hb. split; [done|]. pose proof (ngp g geo). lia. Qed.

(** The block types by owner. *)
Lemma type_of b : in_chip g b -> match gh_own G b with
  | RFree => page_type g w b 0 = block_state_code FREE_BLOCK
  | RMt _ => page_type g w b 0 = block_state_code MAP_TAB_BLOCK
  | RMtl _ => page_type g w b 0 = block_state_code MT_LOG_BLOCK
  | RDl _ => page_type g w b 0 = block_state_code DATA_LOG_BLOCK
  | RData _ => data_stored g w b
  | RGar => b ∈ gh_gar G /\ gar_stored g w b
  | RGt => page_type g w b 0 = block_state_code GARBAGE_TAB_BLOCK
  | RBusy => False
  | ROther => nd_bad w b = true
  end.
Proof.
  intros Hb. destruct (gh_own G b) eqn:E.
  - apply (erased_lpa g geo w rm_nd b 0); [by apply rm_page|].
    apply (er_free _ _ _ _ (fi_erased _ _ _ _ _ rm_inv)); [by apply rm_page|done].
  - by destruct (sr_mt _ _ _ _ HS _ _ E) as [_ []].
  - by destruct (sr_mtl _ _ _ _ HS _ _ E) as (ge & _ & <- & []).
  - by destruct (sr_dl _ _ _ _ HS _ _ E) as (ge & _ & <- & []).
  - by eapply sr_data.
  - by apply (sr_gar _ _ _ _ HS).
  - destruct (sr_gt _ _ _ _ HS _ E) as (_ & Hs & Hp). by apply Hs.
  - by apply (sr_busy _ _ _ _ HS b).
  - by apply (sr_bad _ _ _ _ HS b Hb).
Qed.
Lemma not_bad b : in_chip g b -> gh_own G b <> ROther -> nd_bad w b = false.
Proof.
  intros Hb Ho. destruct (nd_bad w b) eqn:E; [|done]. apply (sr_bad _ _ _ _ HS b Hb) in E. done.
Qed.

(** ** The first scan *)
Definition at_scan f a (gr : gar_ram) m d (nbad : Z) : nftl W :=
  MkNftl f a gr m cache_ready d (nr_blks g * n) nbad 0.

Definition gt_upto i : Z := match gh_gt G with Some b => if b <? i then b else 0xffff | None => 0xffff end.
Definition gar_upto i : gar_ram := MkGar [gt_upto i] 0 (replicate (Z.to_nat GARBAGE_MAX_CNT) 0) 0.

Lemma gt_upto_other i : gh_gt G <> Some i -> gt_upto (i + 1) = gt_upto i.
Proof.
  intros H. unfold gt_upto. destruct (gh_gt G) as [b|]; [|done].
  destruct (b <? i + 1) eqn:E1, (b <? i) eqn:E2; zbool; try done; try lia.
  assert (b = i) as -> by lia. done.
Qed.
Lemma gt_upto_this i : gh_gt G = Some i -> gt_upto (i + 1) = i.
Proof. intros H. unfold gt_upto. rewrite H. destruct (i <? i + 1) eqn:E; zbool; [done|lia]. Qed.

(** The only block typed as garbage table that is not bad. *)
Lemma gt_found b : in_chip g b -> page_type g w b 0 = block_state_code GARBAGE_TAB_BLOCK -> nd_bad w b = false ->
  gh_gt G = Some b /\ si_tabindx (spare_at g w b 0) = 0.
Proof.
  intros Hb Ht Hbad. pose proof (type_of b Hb) as Hty. destruct (gh_own G b) eqn:E.
  1-4: by rewrite Ht in Hty.
  - destruct Hty as [Hty|[Hty _]]; by rewrite Ht in Hty.
  - destruct Hty as (_ & t & Hin & Hty). rewrite Ht in Hty. apply block_state_code_inj in Hty. subst t. set_solver.
  - destruct (sr_gt _ _ _ _ HS _ E) as (Hg & Hs & Hp). split; [done|by apply Hs].
  - done.
  - by rewrite Hbad in Hty.
Qed.
Lemma gt_named b : gh_gt G = Some b ->
  in_chip g b /\ page_type g w b 0 = block_state_code GARBAGE_TAB_BLOCK /\ nd_bad w b = false /\ gt_stored g w pg b (gh_gar G).
Proof.
  intros Hb. destruct (ow_gt _ _ _ (fi_own _ _ _ _ _ rm_inv) _ Hb) as [Hc Ho].
  destruct (sr_gt _ _ _ _ HS _ Ho) as (_ & Hs & Hp). split_and!; [done|by apply Hs| |done]. apply not_bad; [done|congruence].
Qed.

Definition types_are (i : Z) (l : list Z) : Prop :=
  arr_len l = MAX_BLOCKS /\ forall j, 0 <= j < i -> arr_get l j = Some (page_type g w j 0).

Lemma note_gt_block_run i f a m d nb sp (Q : unit -> nftl W -> Prop) :
  calm g w f -> in_chip g i -> sees g w i 0 sp ->
  (forall f', calm g w f' -> Q tt (at_scan f' a (gar_upto (i + 1)) m d nb)) ->
  wp (note_gt_block g i sp) Q (at_scan f a (gar_upto i) m d nb).
Proof.
  intros Hc Hi Hsp HQ. unfold note_gt_block. rewrite (se_type _ _ _ _ _ Hsp).
  destruct (page_type g w i 0 =? block_state_code GARBAGE_TAB_BLOCK) eqn:E; zbool.
  - destruct (calm_isbad g geo w f i Hc Hi) as (r & f' & H & Hc' & Hr).
    apply wp_bind. eapply wp_onF; [exact H|]. rewrite Hr. destruct (nd_bad w i) eqn:Eb.
    + apply wp_ret. change (Q tt (at_scan f' a (gar_upto i) m d nb)).
      unfold gar_upto. rewrite <- gt_upto_other; [by apply HQ|]. intros Hg. destruct (gt_named _ Hg) as (_ & _ & Hb & _). congruence.
    + destruct (gt_found i Hi E Eb) as [Hg Hx]. rewrite (se_index _ _ _ _ _ Hsp), Hx.
      change (0 <? GT_MAX_BLOCKS) with true. cbv iota. unfold set_gt_pba.
      apply wp_bind, wp_gets, wp_bind, wp_assert_some. exists [i]. split; [done|]. apply wp_zoom, wp_modify.
      change (Q tt (at_scan f' a (MkGar [i] 0 (replicate (Z.to_nat GARBAGE_MAX_CNT) 0) 0) m d nb)).
      unfold gar_upto in HQ. rewrite gt_upto_this in HQ by done. by apply HQ.
  - apply wp_ret. unfold gar_upto. rewrite <- gt_upto_other; [by apply HQ|].
    intros Hg. destruct (gt_named _ Hg) as (_ & Ht & _). congruence.
Qed.

Lemma scan_all_types_run f a m d nb l blkinfo : calm g w f -> arr_len l = MAX_BLOCKS -> arr_len blkinfo = BLOCK_INFO_SIZE ->
  wp (for_local 0 (nb_blocks g) (l, (blkinfo, 0)) (scan_type g)) (fun r s' =>
    exists l' blkinfo' f', r = inl (l', (blkinfo', 0)) /\ s' = at_scan f' a (gar_upto (nr_blks g)) m d nb /\ calm g w f' /\
      types_are (nr_blks g) l' /\ arr_len blkinfo' = BLOCK_INFO_SIZE) (at_scan f a (gar_upto 0) m d nb).
Proof.
  intros Hc Hl Hb. rewrite (nb_nr g w mo). pose proof (ng_blks g geo) as Hn.
  apply (wp_for_local (fun i x s' => exists l' blkinfo' f', x = (l', (blkinfo', 0)) /\
    s' = at_scan f' a (gar_upto i) m d nb /\ calm g w f' /\ types_are i l' /\ arr_len blkinfo' = BLOCK_INFO_SIZE)); [lia| | |].
  - exists l, blkinfo, f. split_and!; try done. split; [done|]. intros j Hj. lia.
  - intros i x s Hi (l' & bi & f' & -> & -> & Hc' & [Hl' Ht] & Hb').
    unfold scan_type. apply wp_bind, (read_spare_run g geo w rm_nd rm_good); [done|by apply rm_page|done|].
    intros r f2 Hc2 Hr Hok Hsp. rewrite Hok, (se_type _ _ _ _ _ Hsp).
    apply wp_bind, wp_assert_some. destruct (arr_set l' i (page_type g w i 0)) as [l2|] eqn:E;
      [|rewrite arr_set_in in E; [done|unfold MAX_BLOCKS, BLOCKSTATUS_LEN in *; lia]].
    exists l2. split; [done|]. apply wp_bind.
    apply (note_gt_block_run i f2 a m d nb); [done|done|done|]. intros f3 Hc3. apply wp_ret.
    exists l2, (r_oob r), f3. rewrite Hr. split_and!; [done|done|done| |apply Hsp].
    split; [by rewrite (arr_set_len _ _ _ _ E)|].
    intros j Hj. rewrite (arr_get_set _ _ _ _ _ E). destruct (j =? i) eqn:Ej; zbool; [by subst|]. apply Ht. lia.
  - intros x s (l' & bi & f' & -> & -> & H). exists l', bi, f'. by split.
Qed.

(** ** The garbage list *)
Lemma calm_both f b p buf oob : calm g w f -> on_chip g b p -> writesize g <= arr_len buf -> arr_len oob = BLOCK_INFO_SIZE ->
  exists r f', mtd_read g b p (Some buf) (Some oob) 1 f = Done r f' /\ calm g w f' /\ r_ret r = 0 /\
    r_buf r = blit (fst (nd_page w b p)) buf /\ arr_len (r_buf r) = arr_len buf /\ sees g w b p (r_oob r).
Proof.
  intros Hc Hon Hb Hl. pose proof (ng_oob g geo) as Ho.
  destruct (mtd_read_both_run g geo b p buf oob f (calm_inv g w f Hc) Hon Hb) as (r & f' & H & Hs & Hl1 & Hl2 & Hd & Hr);
    [unfold BLOCK_INFO_SIZE, NAND_MAX_OOBSIZE in *; lia|].
  destruct (Hr (sp_good _ _ _ (cm_same _ _ _ Hc) rm_good)) as [Hr0 Hcor]. destruct (Hd Hr0) as [Hd1 Hd2].
  rewrite (sp_page _ _ _ (cm_same _ _ _ Hc)) in Hd1, Hd2.
  exists r, f'. split_and!; [done| |done|done|done|].
  - eapply calm_op; [done|done|exact Hcor].
  - apply (sees_blit g geo w rm_nd b p oob); [done|done|congruence].
Qed.

(** The garbage list after [k] pages and [c] entries more. *)
Definition gar_at (b : Z) (cnt : Z) (l : list Z) (junk : list Z) : gar_ram := MkGar [b] cnt (l ++ junk) (arr_len l).

Lemma gar_read_prefix b (k m : nat) : (k <= m)%nat -> exists t, gar_read g w b m = gar_read g w b k ++ t.
Proof.
  induction 1 as [|m _ [t Ht]]; [exists []; by rewrite app_nil_r|]. cbn [gar_read]. rewrite Ht, <- app_assoc. by eexists.
Qed.
Lemma gar_chunk_prefix data c (e : Z) : 0 <= c <= e -> exists t, gar_chunk data e = gar_chunk data c ++ t.
Proof.
  intros Hc. exists (map (fun k => default 0 (get16 data (k * 2))) (seqZ (0 + c) (e - c))).
  unfold gar_chunk. rewrite <- map_app, <- (seqZ_app 0 c (e - c)) by lia. by replace (c + (e - c)) with e by lia.
Qed.

(** The entries of page [p]: [l] has been collected before. *)
Lemma gar_entries_run f a m d nb b p l junk buf cnt :
  let data := fst (nd_page w b p) in let c := si_thiscount (spare_at g w b p) in
  on_chip g b p -> 0 <= c * 2 <= writesize g -> arr_len data = writesize g ->
  (forall k, 0 <= k < c -> default 0 (get16 data (k * 2)) <> 0xffff) ->
  arr_len (l ++ junk) = GARBAGE_MAX_CNT -> arr_len (l ++ gar_chunk data c) < GARBAGE_MAX_CNT ->
  wp (for_range 0 c (get_gar_entry (blit data buf))) (fun r s' => exists junk',
      s' = at_scan f a (gar_at b cnt (l ++ gar_chunk data c) junk') m d nb /\
      arr_len ((l ++ gar_chunk data c) ++ junk') = GARBAGE_MAX_CNT)
    (at_scan f a (gar_at b cnt l junk) m d nb).
Proof.
  intros data c Hon Hc Hd Hv Hlen Hroom.
  apply (wp_for_range (fun k s' => exists junk', s' = at_scan f a (gar_at b cnt (l ++ gar_chunk data k) junk') m d nb /\
      arr_len ((l ++ gar_chunk data k) ++ junk') = GARBAGE_MAX_CNT)); [lia| | |].
  - exists junk. change (gar_chunk data 0) with (@nil Z). by rewrite app_nil_r.
  - intros k s Hk (junk' & -> & Hl'). unfold get_gar_entry. apply wp_bind, wp_assert_some.
    destruct (get16_in data (k * 2)) as [v Ev]; [lia|lia|].
    assert (Ev' : get16 (blit data buf) (k * 2) = Some v).
    { rewrite <- Ev. unfold get16, blit. rewrite !arr_get_app.
      destruct (k * 2 <? arr_len data) eqn:E1, (k * 2 + 1 <? arr_len data) eqn:E2; zbool; try lia. done. }
    exists v. split; [done|]. pose proof (Hv k Hk) as Hne. rewrite Ev in Hne. cbn in Hne.
    apply Z.eqb_neq in Hne. rewrite Hne. apply wp_bind, wp_gets. cbn [n_gar at_scan gar_at gar_blkcnt].
    destruct (gar_chunk_prefix data (k + 1) c) as [t Ht]; [lia|].
    rewrite gar_chunk_S, Ev in Ht by lia. cbn in Ht.
    assert (Hlt : arr_len (l ++ gar_chunk data k) + 1 < GARBAGE_MAX_CNT).
    { rewrite Ht, !arr_len_app in Hroom. change (arr_len [v]) with 1 in Hroom. pose proof (arr_len_nonneg t).
      rewrite arr_len_app. lia. }
    destruct junk' as [|x junk']; [rewrite app_nil_r in Hl'; lia|].
    apply wp_bind. unfold set_gar_pba. apply wp_bind, wp_gets, wp_bind, wp_assert_some.
    cbn [n_gar at_scan gar_at gar_pbas]. rewrite arr_set_mid. eexists. split; [done|]. apply wp_zoom, wp_modify.
    apply wp_bind, wp_zoom, wp_modify, wp_ret. exists junk'.
    cbn [n_gar at_scan gar_at with_gar with_gar_pbas gar_blkcnt].
    rewrite u16_id by (pose proof (arr_len_nonneg (l ++ gar_chunk data k)); unfold in_u16, GARBAGE_MAX_CNT in *; lia).
    rewrite gar_chunk_S, Ev by lia. cbn [default]. split.
    + unfold at_scan, with_gar, gar_at, with_gar_blkcnt, with_gar_pbas. cbn. f_equal. f_equal.
      * by rewrite <- !app_assoc.
      * rewrite !arr_len_app. change (arr_len [v]) with 1. lia.
    + rewrite !arr_len_app, ?arr_len_cons in *. change (arr_len (@nil Z)) with 0. lia.
  - intros s Hs. exact Hs.
Qed.

(** One page of the GarbageTab block. *)
Lemma gar_page_run f a m d nb b i junk l :
  calm g w f -> gh_gt G = Some b -> 0 <= i <= pg -> i < n -> arr_len (gar_read g w b (Z.to_nat i) ++ junk) = GARBAGE_MAX_CNT ->
  arr_len (fst (fst l)) = NAND_MAX_PAGESIZE -> arr_len (snd (fst l)) = BLOCK_INFO_SIZE ->
  wp (get_gar_page g b i l) (fun r s' => exists buf oob f' junk', calm g w f' /\
      arr_len buf = NAND_MAX_PAGESIZE /\ arr_len oob = BLOCK_INFO_SIZE /\
      if decide (i = pg) then r = inr ((buf, oob, 0), None) /\ s' = at_scan f' a (gar_at b i (gar_read g w b (Z.to_nat i)) junk) m d nb
      else r = inl (buf, oob, 0) /\ s' = at_scan f' a (gar_at b (i + 1) (gar_read g w b (Z.to_nat (i + 1))) junk') m d nb /\
           arr_len (gar_read g w b (Z.to_nat (i + 1)) ++ junk') = GARBAGE_MAX_CNT)
    (at_scan f a (gar_at b i (gar_read g w b (Z.to_nat i)) junk) m d nb).
Proof.
  intros Hc Hb Hi Hn Hlen Hl1 Hl2. destruct (gt_named b Hb) as (Hbc & _ & _ & [_ _ _ Hcount Hread]).
  destruct l as [[buf oob] e]. cbn [fst snd] in *. assert (Hon : on_chip g b i) by (split; [done|lia]).
  pose proof (ng_ws_range g geo) as Hw. pose proof (ft_mt _ _ _ HF) as HM. pose proof (ng_pgs g geo) as Hpgs.
  destruct (calm_both f b i buf oob Hc Hon ltac:(unfold NAND_MAX_PAGESIZE in *; lia) Hl2)
    as (r & f' & H & Hc' & Hr & Hbuf & Hbl & Hsp).
  unfold get_gar_page. apply wp_bind. eapply wp_onF; [exact H|].
  rewrite Hr, (se_count _ _ _ _ _ Hsp). cbn [Z.eqb]. destruct (decide (i = pg)) as [Ei|Ei].
  - destruct (erased_lpa g geo w rm_nd b i Hon) as (_ & _ & _ & Ee).
    { eapply (er_gt _ _ _ _ (fi_erased _ _ _ _ _ rm_inv)); [done|done|lia]. }
    rewrite Ee. cbn [Z.eqb Pos.eqb]. apply wp_ret. exists (r_buf r), (r_oob r), f', junk.
    split_and!; [done|congruence|apply Hsp|done|done].
  - destruct (Hcount i) as [Hcnt1 Hcnt2]; [lia|]. apply Z.eqb_neq in Hcnt2. rewrite Hcnt2.
    destruct (nd_len w b i rm_nd Hon) as [Hd _].
    assert (Hsub : exists t, gh_gar G = gar_read g w b (Z.to_nat (i + 1)) ++ t) by (rewrite Hread; apply gar_read_prefix; lia).
    destruct Hsub as [t Ht]. replace (Z.to_nat (i + 1)) with (S (Z.to_nat i)) in * by lia.
    cbn [gar_read] in *. rewrite Z2Nat.id in * by lia.
    apply wp_bind. rewrite Hbuf. eapply wp_mono.
    { apply (gar_entries_run f' a m d nb b i (gar_read g w b (Z.to_nat i)) junk buf i Hon Hcnt1 Hd); [|exact Hlen|].
      - intros k Hk. assert (Hin : default 0 (get16 (fst (nd_page w b i)) (k * 2)) ∈ gh_gar G).
        { rewrite Ht. apply elem_of_app. left. apply elem_of_app. right. apply list_elem_of_fmap.
          exists k. split; [done|]. apply elem_of_seqZ. lia. }
        destruct (ow_gar _ _ _ (fi_own _ _ _ _ _ rm_inv) _ Hin) as [[Hin1 Hin2] _].
        pose proof (ng_blks g geo). unfold BLOCKSTATUS_LEN in *. lia.
      - pose proof (gr_small _ _ _ (mi_gar _ _ _ _ HM)) as Hs. rewrite Ht, arr_len_app in Hs.
        pose proof (arr_len_nonneg t). unfold GARBAGE_MAX_CNT_DIV2, GARBAGE_MAX_CNT in *. lia. }
    intros _ s (junk' & -> & Hlen'). apply wp_bind, wp_zoom, wp_modify, wp_ret.
    exists (r_buf r), (r_oob r), f', junk'. split_and!; [done|congruence|apply Hsp|by rewrite Hbuf| |exact Hlen'].
    unfold at_scan, with_gar, gar_at, with_gt_pgcnt. cbn. do 2 f_equal.
    rewrite u8_id; [done|]. unfold in_u8, MAX_PAGES_IN_BLOCK in *. lia.
Qed.

(** The garbage list of the state before. *)
Definition gar_done (junk : list Z) : gar_ram := MkGar [default 0xffff (gh_gt G)] pg (gh_gar G ++ junk) (arr_len (gh_gar G)).

Lemma get_gar_blks_run f a m d nb b :
  calm g w f -> gh_gt G = Some b ->
  wp (nftl_get_gar_blks g) (fun r s' => r = 0 /\ exists f' junk, calm g w f' /\
      s' = at_scan f' a (gar_done junk) m d nb /\ arr_len (gh_gar G ++ junk) = GARBAGE_MAX_CNT)
    (at_scan f a (gar_upto (nr_blks g)) m d nb).
Proof.
  intros Hc Hb. pose proof (ft_mt _ _ _ HF) as HM. pose proof (gr_pg _ _ _ (mi_gar _ _ _ _ HM)) as Hpg.
  pose proof (gr_pg0 _ _ (gr_rep _ _ _ (mi_gar _ _ _ _ HM))) as Hpg0.
  destruct (gt_named b Hb) as (Hbc & _ & _ & [_ _ _ _ Hread]). pose proof (ng_blks g geo) as Hnb.
  assert (Hgt : gt_upto (nr_blks g) = b).
  { unfold gt_upto. rewrite Hb. destruct Hbc. destruct (b <? nr_blks g) eqn:E; zbool; [done|lia]. }
  unfold nftl_get_gar_blks.
  destruct (calm_stack g w f BLOCK_INFO_SIZE Hc) as (oob & f1 & H1 & Hc1 & Hl1); [done|].
  apply wp_bind. eapply wp_onF; [exact H1|].
  destruct (calm_kmalloc g w rm_good f1 NAND_MAX_PAGESIZE Hc1) as (buf & f2 & H2 & Hc2 & Hl2); [done|].
  apply wp_bind. eapply wp_onF; [exact H2|].
  apply wp_bind, wp_zoom, wp_modify, wp_bind, wp_zoom, wp_modify.
  change (with_gar _ (with_gar _ (with_flash f2 _))) with
    (at_scan f2 a (MkGar [gt_upto (nr_blks g)] 0 (replicate (Z.to_nat GARBAGE_MAX_CNT) 0) 0) m d nb). rewrite Hgt.
  set (at_page := fun f (k : Z) junk => at_scan f a (gar_at b k (gar_read g w b (Z.to_nat k)) junk) m d nb).
  set (bufs := fun l : list Z * list Z * Z => exists buf oob, l = (buf, oob, 0) /\
    arr_len buf = NAND_MAX_PAGESIZE /\ arr_len oob = BLOCK_INFO_SIZE).
  apply wp_bind. apply (wp_for_local (fun j l s' => bufs l /\ exists f' junk, calm g w f' /\
    s' = at_page f' (if j =? 0 then 0 else pg) junk /\
    arr_len (gar_read g w b (Z.to_nat (if j =? 0 then 0 else pg)) ++ junk) = GARBAGE_MAX_CNT)); [done| | |].
  - split; [by exists buf, oob|]. by exists f2, (replicate (Z.to_nat GARBAGE_MAX_CNT) 0).
  - intros j l s Hj (Hl & f' & junk & Hc' & -> & Hjunk). assert (j = 0) as -> by (unfold GT_MAX_BLOCKS in *; lia).
    unfold gt_pba. apply wp_bind, wp_bind, wp_gets, wp_assert_some. exists b. split; [done|].
    destruct (b =? 0xffff) eqn:E; zbool; [destruct Hbc; unfold BLOCKSTATUS_LEN in *; lia|].
    apply wp_bind. apply (wp_for_local (fun i l s' => 0 <= i <= pg /\ bufs l /\ exists f' junk, calm g w f' /\
      s' = at_page f' i junk /\ arr_len (gar_read g w b (Z.to_nat i) ++ junk) = GARBAGE_MAX_CNT)); [lia| | |].
    + split_and!; [done|lia|done|]. by exists f', junk.
    + intros i l' s Hi (Hi1 & (buf1 & oob1 & -> & Hb1 & Ho1) & f3 & junk3 & Hc3 & -> & Hj3).
      eapply wp_mono; [apply (gar_page_run f3 a m d nb b i junk3 (buf1, oob1, 0)); (done || lia)|].
      intros r s (buf4 & oob4 & f4 & junk4 & Hc4 & Hb4 & Ho4 & HR). destruct (decide (i = pg)) as [->|Hne].
      * destruct HR as [-> ->]. apply wp_ret. split; [by exists buf4, oob4|]. by exists f4, junk3.
      * destruct HR as (-> & -> & Hlen4). split_and!; [lia|lia|by exists buf4, oob4|]. by exists f4, junk4.
    + intros l' s (Hi1 & _). lia.
  - intros l s ((buf1 & oob1 & -> & _ & _) & f' & junk & Hc' & -> & Hjunk). apply wp_ret. split; [done|].
    cbn [Z.eqb] in Hjunk. change (GT_MAX_BLOCKS =? 0) with false in *. cbv iota in *.
    exists f', junk. rewrite <- Hread in Hjunk. split_and!; [done| |done].
    unfold at_page, gar_done, gar_at. by rewrite <- Hread, Hb.
Qed.

(** The list names the blocks in use before. *)
Lemma is_gar_run f a m d nb junk b (Q : bool -> nftl W -> Prop) :
  Q (bool_decide (b ∈ gh_gar G)) (at_scan f a (gar_done junk) m d nb) ->
  wp (nftl_is_gar_blk b) Q (at_scan f a (gar_done junk) m d nb).
Proof.
  intros HQ. unfold nftl_is_gar_blk. apply wp_bind, wp_gets. cbn [n_gar at_scan gar_done gar_blkcnt].
  pose proof (arr_len_nonneg (gh_gar G)) as Hn. set (s1 := at_scan _ _ _ _ _ _) in *.
  apply wp_bind. apply (wp_for_range (fun i s' => s' = s1 /\ b ∉ take (Z.to_nat i) (gh_gar G))); [done| | |].
  - split; [done|]. by intros ?%elem_of_nil.
  - intros i s Hi [-> Hno]. destruct (arr_get_in (gh_gar G) i Hi) as [c Ec].
    unfold gar_pba. apply wp_bind, wp_bind, wp_gets, wp_assert_some. exists c. split.
    { unfold s1. cbn [n_gar at_scan gar_done gar_pbas]. rewrite arr_get_app. destruct (i <? _) eqn:E; zbool; [done|lia]. }
    assert (Hc : gh_gar G !! Z.to_nat i = Some c) by (revert Ec; unfold arr_get; destruct (0 <=? i) eqn:E; zbool; [done|lia]).
    destruct (b =? c) eqn:E; zbool.
    + subst c. apply wp_ret, wp_ret. rewrite bool_decide_true in HQ; [done|]. by eapply list_elem_of_lookup_2.
    + apply wp_ret. split; [done|]. replace (Z.to_nat (i + 1)) with (S (Z.to_nat i)) by lia.
      rewrite (take_S_r _ _ _ Hc). intros [Hx|Hx%list_elem_of_singleton]%elem_of_app; done.
  - intros s [-> Hno]. apply wp_ret. rewrite take_ge in Hno by (unfold arr_len; lia). by rewrite bool_decide_false in HQ.
Qed.

(** ** The second scan *)

(** What the blocks below [i] have put into the tables. *)
Record free_upto i a : Prop := {
  fu_table : table_ok g a;
  fu_count : count_ok a;
  fu_last : 0 <= lastfree a < nr_blks g;
  fu_free : forall b, block_free a b <-> 0 <= b < i /\ gh_own G b = RFree;
  fu_cnt : free_blkcnt a <= i
}.
Record mt_upto i m : Prop := {
  mu_len : arr_len (mt_pbas m) = MT_MAX_BLOCKS;
  mu_cnt : mt_blkcnt m = nr_mt g;
  mu_pba : forall j, 0 <= j < nr_mt g -> exists b, gh_mt G j = Some b /\
    arr_get (mt_pbas m) j = Some (if b <? i then b else 0xffff)
}.
Definition mtl_upto i m : Prop := exists gs, mtl_tab m gs /\ met (fun ge : mt_group => mtb_pba ge.1) (gh_mtl G) i gs.
Definition dl_upto i d : Prop := exists gs, dl_tab d gs /\ met (fun ge : dl_group => dlb_pba ge.1) (gh_dl G) i gs.
Record scan_at i f a m d : Prop := {
  sa_calm : calm g w f;
  sa_free : free_upto i a;
  sa_mt : mt_upto i m;
  sa_mtl : mtl_upto i m;
  sa_dl : dl_upto i d
}.

Lemma free_skip i a : gh_own G i <> RFree -> free_upto i a -> free_upto (i + 1) a.
Proof.
  intros Ho [H1 H2 H3 H4 H5]. split; [done|done|done| |lia]. intros b. rewrite H4.
  split; intros [Hb Hr]; (split; [|done]); [lia|]. destruct (decide (b = i)) as [->|]; [done|lia].
Qed.
Lemma mt_skip i m : (forall k, gh_own G i <> RMt k) -> mt_upto i m -> mt_upto (i + 1) m.
Proof.
  intros Ho [H1 H2 H3]. split; [done|done|]. intros j Hj. destruct (H3 j Hj) as (b & Hb & Hp). exists b. split; [done|].
  rewrite Hp. destruct (ow_mt _ _ _ (fi_own _ _ _ _ _ rm_inv) _ _ Hb) as [_ Hr].
  destruct (b <? i) eqn:E1, (b <? i + 1) eqn:E2; zbool; try done; try lia.
  assert (b = i) as -> by lia. by apply Ho in Hr.
Qed.
Lemma mtl_skip i m : (forall k, gh_own G i <> RMtl k) -> mtl_upto i m -> mtl_upto (i + 1) m.
Proof.
  intros Ho (gs & H1 & H2). exists gs. split; [done|]. apply met_other; [|done].
  intros [h es] Hin Hp. cbn in Hp. destruct (ow_mtl _ _ _ (fi_own _ _ _ _ _ rm_inv) _ _ Hin) as [_ Hr].
  rewrite Hp in Hr. by apply Ho in Hr.
Qed.
Lemma dl_skip i d : (forall k, gh_own G i <> RDl k) -> dl_upto i d -> dl_upto (i + 1) d.
Proof.
  intros Ho (gs & H1 & H2). exists gs. split; [done|]. apply met_other; [|done].
  intros [h es] Hin Hp. cbn in Hp. destruct (ow_dl _ _ _ (fi_own _ _ _ _ _ rm_inv) _ _ Hin) as [_ Hr].
  rewrite Hp in Hr. by apply Ho in Hr.
Qed.
(** A block that no table in RAM names. *)
Lemma scan_skip i f f' a m d : calm g w f' -> match gh_own G i with RFree | RMt _ | RMtl _ | RDl _ => False | _ => True end ->
  scan_at i f a m d -> scan_at (i + 1) f' a m d.
Proof.
  intros Hc Ho [_ H2 H3 H4 H5]. split; [done|apply free_skip|apply mt_skip|apply mtl_skip|apply dl_skip]; try done;
    intros; by destruct (gh_own G i).
Qed.

Lemma free_this i a : in_chip g i -> gh_own G i = RFree -> free_upto i a ->
  exists a', nftl_set_block_free g i a = Done 0 a' /\ free_upto (i + 1) a'.
Proof.
  intros Hi Ho [H1 H2 H3 H4 H5]. pose proof (tab_len _ _ H1). pose proof (tab_blks _ _ H1). destruct Hi as [Hi1 Hi2].
  assert (Hnf : ~ block_free a i) by (rewrite H4; intros []; lia).
  rewrite nftl_set_block_free_run, decide_False by (done || lia). eexists. split; [reflexivity|].
  assert (Hu : u16 (free_blkcnt a + 1) = free_blkcnt a + 1).
  { apply u16_id. unfold count_ok in H2. unfold in_u16, BLOCKSTATUS_LEN in *. lia. }
  pose proof (set_status_table_ok g a i 0xff H1 ltac:(lia) ltac:(right; lia)) as Ht'.
  pose proof (count_ok_set_status g a i 0xff (free_blkcnt a + 1) H1 ltac:(lia) H2) as Hc'.
  rewrite decide_False in Hc' by done. rewrite decide_False in Hc' by done. specialize (Hc' ltac:(lia)).
  split.
  - by destruct Ht'; split.
  - unfold count_ok in *. cbn. by rewrite Hu.
  - done.
  - intros b. change (block_free (set_status a i 0xff) b <-> 0 <= b < i + 1 /\ gh_own G b = RFree).
    rewrite block_free_set_status by lia. case_decide; [subst; rewrite Ho; split; [split; [lia|done]|done]|].
    rewrite H4. split; intros []; (split; [lia|done]).
  - cbn. rewrite Hu. lia.
Qed.
Lemma scan_free i f f' a m d : in_chip g i -> gh_own G i = RFree -> calm g w f' -> scan_at i f a m d ->
  exists a', nftl_set_block_free g i a = Done 0 a' /\ scan_at (i + 1) f' a' m d.
Proof.
  intros Hi Ho Hc [_ H2 H3 H4 H5]. destruct (free_this i a Hi Ho H2) as (a' & H & Ha'). exists a'. split; [done|].
  split; [done|done|apply mt_skip|apply mtl_skip|apply dl_skip]; try done; intros; congruence.
Qed.

(** What a step of the scan leaves. *)
Definition step_post i gr nb (r : locals + Z) (s' : nftl W) : Prop := exists sp f a m d,
  r = inl (sp, 0) /\ arr_len sp = BLOCK_INFO_SIZE /\ s' = at_scan f a gr m d nb /\ scan_at i f a m d.

Lemma scan_mt_block i k l f a gr m d nb : in_chip g i -> gh_own G i = RMt k -> arr_len (fst l) = BLOCK_INFO_SIZE ->
  scan_at i f a m d -> wp (mount_mt_block g i l) (step_post (i + 1) gr nb) (at_scan f a gr m d nb).
Proof.
  intros Hi Ho Hl [H1 H2 [M1 M2 M3] H4 H5]. destruct (sr_mt _ _ _ _ HS _ _ Ho) as [Hk [_ S2 S3]].
  pose proof (mr_out _ _ _ (mi_rep _ _ _ _ (ft_mt _ _ _ HF)) k ltac:(by rewrite Hk)) as Hkr. rewrite Hcnt in Hkr.
  pose proof (nr_mt_range g geo w mo) as Hm. destruct Hi as [Hi1 Hi2].
  unfold mount_mt_block. apply wp_bind, (read_spare_run g geo w rm_nd rm_good); [done|by apply rm_page|done|].
  intros r f' Hc' Hr Hok Hsp. rewrite Hok, (se_index _ _ _ _ _ Hsp), S2. apply wp_bind, wp_gets.
  cbn [n_mt at_scan with_flash]. rewrite M2. destruct (k <? nr_mt g) eqn:E; zbool; [|lia].
  destruct (arr_set (mt_pbas m) k i) as [pbas|] eqn:Es; [|rewrite arr_set_in in Es; [done|lia]].
  apply wp_bind, wp_zoom. unfold mt_set_pba. apply wp_bind, wp_gets, wp_bind, wp_assert_some. exists pbas.
  split; [done|]. apply wp_modify. cbn [id].
  assert (Hmt : mt_upto (i + 1) (with_mt_pbas pbas m)).
  { split; [by cbn; rewrite (arr_set_len _ _ _ _ Es)|done|]. intros j Hj. cbn [mt_pbas with_mt_pbas].
    rewrite (arr_get_set _ _ _ _ _ Es). destruct (M3 j Hj) as (b & Hb & Hp). exists b. split; [done|].
    destruct (j =? k) eqn:Ej; zbool.
    - assert (b = i) as -> by congruence. destruct (i <? i + 1) eqn:E2; zbool; [done|lia].
    - rewrite Hp. destruct (b <? i) eqn:E1, (b <? i + 1) eqn:E2; zbool; try done; try lia. exfalso.
      assert (b = i) as -> by lia. destruct (ow_mt _ _ _ (fi_own _ _ _ _ _ rm_inv) _ _ Hb) as [_ Hr']. congruence. }
  assert (Hgoal : forall a', free_upto i a' -> step_post (i + 1) gr nb (inl (r_oob r, r_ret r))
    (at_scan f' a' gr (with_mt_pbas pbas m) d nb)).
  { intros a' Ha'. exists (r_oob r), f', a', (with_mt_pbas pbas m), d. rewrite Hr. split_and!; [done|apply Hsp|done|].
    split; [done|apply free_skip; [congruence|done]|done|apply mtl_skip; [congruence|]|apply dl_skip; [congruence|done]].
    destruct H4 as (gs & [T1 T2 T3] & T4). exists gs. by split; [split|]. }
  destruct (k =? 0) eqn:Ek; zbool.
  - apply wp_bind, wp_zoom, wp_modify, wp_ret, (Hgoal (with_lastfree (si_lastfree (r_oob r)) a)).
    change (si_lastfree (r_oob r)) with (si_pageofs (r_oob r)). rewrite (se_pageofs _ _ _ _ _ Hsp).
    destruct H2 as [[A1 A2 A3] A4 A5 A6 A7]. by split; [split|..|apply S3| |].
  - apply wp_bind, wp_ret, wp_ret. by apply (Hgoal a).
Qed.

Lemma nodup_map_inj {X Y} (F : X -> Y) l x y : NoDup (map F l) -> x ∈ l -> y ∈ l -> F x = F y -> x = y.
Proof.
  induction l as [|z l IH]; intros Hnd Hx Hy E; [by apply elem_of_nil in Hx|].
  cbn in Hnd. apply NoDup_cons in Hnd as [Hn Hnd].
  apply elem_of_cons in Hx as [->|Hx], Hy as [->|Hy].
  - done.
  - exfalso. apply Hn. rewrite E. by apply list_elem_of_fmap_2.
  - exfalso. apply Hn. rewrite <- E. by apply list_elem_of_fmap_2.
  - by apply IH.
Qed.
Lemma dl_at_inj x y : x ∈ gh_dl G -> y ∈ gh_dl G -> dlb_pba x.1 = dlb_pba y.1 -> x = y.
Proof.
  intros Hx Hy E. apply (nodup_map_inj (fun ge : dl_group => dlb_lba ge.1) (gh_dl G)); [apply HF|done|done|].
  destruct x as [h es], y as [h' es']. cbn in *. pose proof (fi_own _ _ _ _ _ rm_inv) as HO.
  destruct (ow_dl _ _ _ HO _ _ Hx) as [_ H1], (ow_dl _ _ _ HO _ _ Hy) as [_ H2]. congruence.
Qed.
Lemma mtl_at_inj x y : x ∈ gh_mtl G -> y ∈ gh_mtl G -> mtb_pba x.1 = mtb_pba y.1 -> x = y.
Proof.
  intros Hx Hy E. pose proof (mr_ok _ _ _ (mi_rep _ _ _ _ (ft_mt _ _ _ HF))) as Hok.
  apply (nodup_map_inj (fun ge : mt_group => mtb_mtindx ge.1) (gh_mtl G)); [apply Hok|done|done|].
  destruct x as [h es], y as [h' es']. cbn in *. pose proof (fi_own _ _ _ _ _ rm_inv) as HO.
  destruct (ow_mtl _ _ _ HO _ _ Hx) as [_ H1], (ow_mtl _ _ _ HO _ _ Hy) as [_ H2]. congruence.
Qed.

Lemma scan_dl_block i k l f a gr m d nb : in_chip g i -> gh_own G i = RDl k -> arr_len (fst l) = BLOCK_INFO_SIZE ->
  scan_at i f a m d -> wp (mount_dl_block g i l) (step_post (i + 1) gr nb) (at_scan f a gr m d nb).
Proof.
  intros Hi Ho Hl [H1 H2 H3 H4 (gs & T & Hmet)].
  destruct (sr_dl _ _ _ _ HS _ _ Ho) as ([h es] & Hin & Hp & Hst). cbn [fst] in Hp.
  pose proof (ft_dl _ _ _ HF) as Hdk. pose proof (dk_rep _ _ _ Hdk) as Hrep.
  assert (Hmet' : met (fun ge : dl_group => dlb_pba ge.1) (gh_dl G) (i + 1) (gs ++ [(h, es)])).
  { apply met_next; [done|done| |done]. intros x Hx E. apply dl_at_inj; [done|done|]. by cbn; congruence. }
  destruct (submseteq_ents _ _ (met_sub _ _ _ _ Hmet')) as [Hs1 Hs2].
  rewrite arr_len_app in Hs1. rewrite ents_app, arr_len_app, ents_cons in Hs2.
  change (es ++ ents []) with (es ++ @nil dl_transitem) in Hs2. rewrite app_nil_r in Hs2. change (arr_len [(h, es)]) with 1 in Hs1.
  eapply wp_mono; [apply (mount_dl_block_run g geo w rm_nd rm_good _ i gs (h, es)); try done|].
  - eapply Forall_forall; [apply Hdk|done].
  - by apply (Hopen h es).
  - cbn [fst]. intros p Hon Hu. rewrite <- Hp in *. by eapply (er_dl _ _ _ _ (fi_erased _ _ _ _ _ rm_inv)).
  - cbn [n_dl at_scan]. rewrite (lr_blkcnt _ _ _ _ _ _ (dt_rep _ _ T)).
    pose proof (ft_cnt _ _ _ HF) as Hc. rewrite (lr_blkcnt _ _ _ _ _ _ Hrep) in Hc. lia.
  - cbn [snd]. destruct (lr_trans _ _ _ _ _ _ Hrep) as [tj Htj]. pose proof (dk_tlen _ _ _ Hdk) as Ht.
    rewrite Htj, arr_len_app in Ht. pose proof (arr_len_nonneg tj). lia.
  - intros r s' (sp & f' & d' & -> & Hsp & Hc' & -> & Hd' & _).
    exists sp, f', a, m, d'. split_and!; [done|done|done|].
    split; [done|apply free_skip; [congruence|done]|apply mt_skip; [congruence|done]|apply mtl_skip; [congruence|done]|].
    by exists (gs ++ [(h, es)]).
Qed.

Lemma scan_mtl_block i k l f a gr m d nb : in_chip g i -> gh_own G i = RMtl k -> arr_len (fst l) = BLOCK_INFO_SIZE ->
  scan_at i f a m d -> wp (mount_mtl_block g i l) (step_post (i + 1) gr nb) (at_scan f a gr m d nb).
Proof.
  intros Hi Ho Hl [H1 H2 H3 (gs & T & Hmet) H5].
  destruct (sr_mtl _ _ _ _ HS _ _ Ho) as ([h es] & Hin & Hp & Hst). cbn [fst] in Hp.
  pose proof (mi_rep _ _ _ _ (ft_mt _ _ _ HF)) as Hmr. pose proof (mr_ok _ _ _ Hmr) as Hmk.
  pose proof (mk_rep _ _ _ Hmk) as Hrep. pose proof (nr_mt_range g geo w mo) as Hm.
  assert (Hmet' : met (fun ge : mt_group => mtb_pba ge.1) (gh_mtl G) (i + 1) (gs ++ [(h, es)])).
  { apply met_next; [done|done| |done]. intros x Hx E. apply mtl_at_inj; [done|done|]. by cbn; congruence. }
  destruct (submseteq_ents _ _ (met_sub _ _ _ _ Hmet')) as [Hs1 Hs2].
  rewrite arr_len_app in Hs1. rewrite ents_app, arr_len_app, ents_cons in Hs2.
  change (es ++ ents []) with (es ++ @nil mtl_transitem) in Hs2. rewrite app_nil_r in Hs2. change (arr_len [(h, es)]) with 1 in Hs1.
  eapply wp_mono; [apply (mount_mtl_block_run g geo w rm_nd rm_good _ i gs (h, es)); try done|].
  - eapply Forall_forall; [apply Hmk|done].
  - by apply (ft_open _ _ _ HF h es).
  - cbn [n_mt at_scan fst]. rewrite (mu_cnt _ _ H3). pose proof (mr_log _ _ _ Hmr h es Hin) as Hr. rewrite Hcnt in Hr. lia.
  - cbn [fst]. intros p Hon Hu. rewrite <- Hp in *. by eapply (er_mtl _ _ _ _ (fi_erased _ _ _ _ _ rm_inv)).
  - cbn [n_mt at_scan]. rewrite (lr_blkcnt _ _ _ _ _ _ (mtt_rep _ _ T)).
    destruct (lr_blocks _ _ _ _ _ _ Hrep) as [bj Hbj]. pose proof (mk_blen _ _ _ Hmk) as Hb.
    rewrite Hbj, arr_len_app, hdrs_len in Hb. pose proof (arr_len_nonneg bj). lia.
  - cbn [snd]. destruct (lr_trans _ _ _ _ _ _ Hrep) as [tj Htj]. pose proof (mk_tlen _ _ _ Hmk) as Ht.
    rewrite Htj, arr_len_app in Ht. pose proof (arr_len_nonneg tj). lia.
  - intros r s' (sp & f' & m' & -> & Hsp & Hc' & -> & Hm' & E1 & E2 & _). cbn [n_mt at_scan] in *.
    exists sp, f', a, m', d. split_and!; [done|done|done|].
    split; [done|apply free_skip; [congruence|done]| | |apply dl_skip; [congruence|done]].
    + apply mt_skip; [congruence|]. destruct H3 as [M1 M2 M3]. split; rewrite ?E1, ?E2; done.
    + by exists (gs ++ [(h, es)]).
Qed.

(** Bad blocks below [i]. *)
Definition bad_upto i : Z := i - good_upto (nd_bad w) i.

Lemma scan_block_step i l sp f a m d junk : in_chip g i -> types_are (nr_blks g) l -> arr_len sp = BLOCK_INFO_SIZE ->
  scan_at i f a m d ->
  wp (scan_block g l i (sp, 0)) (step_post (i + 1) (gar_done junk) (bad_upto (i + 1))) (at_scan f a (gar_done junk) m d (bad_upto i)).
Proof.
  intros Hi [_ Hl] Hsp HS1. pose proof Hi as [Hi1 Hi2]. pose proof (ng_blks g geo) as Hnb. unfold scan_block.
  destruct (calm_isbad g geo w f i (sa_calm _ _ _ _ _ HS1) Hi) as (r & f' & H & Hc' & Hr).
  apply wp_bind. eapply wp_onF; [exact H|]. apply wp_bind, wp_assert_some. exists (page_type g w i 0).
  split; [by apply Hl|]. rewrite Hr. pose proof (type_of i Hi) as Hty. pose proof (not_bad i Hi) as Hnbad.
  change (with_flash f' _) with (at_scan f' a (gar_done junk) m d (bad_upto i)).
  assert (Hbad : gh_own G i <> ROther -> bad_upto (i + 1) = bad_upto i).
  { intros Hne. unfold bad_upto. rewrite good_upto_S, (Hnbad Hne) by done. lia. }
  assert (Hskip : match gh_own G i with RFree | RMt _ | RMtl _ | RDl _ | ROther => False | _ => True end ->
    forall f2, calm g w f2 -> forall sp2, arr_len sp2 = BLOCK_INFO_SIZE ->
    step_post (i + 1) (gar_done junk) (bad_upto (i + 1)) (inl (sp2, 0)) (at_scan f2 a (gar_done junk) m d (bad_upto i))).
  { intros Ho f2 Hc2 sp2 Hsp2. exists sp2, f2, a, m, d. rewrite Hbad by (intros E; by rewrite E in Ho).
    split_and!; [done|done|done|]. apply (scan_skip i f); [done| |done]. by destruct (gh_own G i). }
  assert (Hs' : scan_at i f' a m d) by (destruct HS1; by split).
  destruct (gh_own G i) eqn:Eo.
  - rewrite Hnbad, Hty by done. cbn [orb Z.eqb Pos.eqb block_state_code].
    destruct (scan_free i f' f' a m d Hi Eo Hc' Hs') as (a' & Ha & Hs2).
    apply wp_bind. unfold wp at 1. rewrite (onA_run _ (at_scan f' a (gar_done junk) m d (bad_upto i)) _ _ Ha). apply wp_ret. rewrite Hbad by done.
    by exists sp, f', a', m, d.
  - rewrite Hnbad, Hty by done. cbn [orb Z.eqb Pos.eqb block_state_code]. apply wp_bind, is_gar_run.
    rewrite bool_decide_false; [|intros Hg; destruct (ow_gar _ _ _ (fi_own _ _ _ _ _ rm_inv) _ Hg); congruence].
    rewrite Hbad by done. by eapply scan_mt_block.
  - rewrite Hnbad, Hty by done. cbn [orb Z.eqb Pos.eqb block_state_code]. apply wp_bind, is_gar_run.
    rewrite bool_decide_false; [|intros Hg; destruct (ow_gar _ _ _ (fi_own _ _ _ _ _ rm_inv) _ Hg); congruence].
    rewrite Hbad by done. by eapply scan_mtl_block.
  - rewrite Hnbad, Hty by done. cbn [orb Z.eqb Pos.eqb block_state_code]. apply wp_bind, is_gar_run.
    rewrite bool_decide_false; [|intros Hg; destruct (ow_gar _ _ _ (fi_own _ _ _ _ _ rm_inv) _ Hg); congruence].
    rewrite Hbad by done. by eapply scan_dl_block.
  - rewrite Hnbad by done. cbn [orb]. destruct Hty as [Hty|[Hty Hlast]]; rewrite Hty; cbn [Z.eqb Pos.eqb block_state_code].
    + by apply wp_ret, Hskip.
    + apply wp_bind, is_gar_run.
      rewrite bool_decide_false; [|intros Hg; destruct (ow_gar _ _ _ (fi_own _ _ _ _ _ rm_inv) _ Hg); congruence].
      apply (mount_dl_data_run g geo w rm_nd rm_good); [done|done|done|done|]. intros sp2 f2 Hsp2 Hc2. by apply Hskip.
  - rewrite Hnbad by done. destruct Hty as (Hin & t & Ht & Hty). rewrite Hty.
    assert (Hret : forall K, wp (let! gar := nftl_is_gar_blk i in if (gar : bool) then ret (inl (sp, 0)) else K)
      (step_post (i + 1) (gar_done junk) (bad_upto (i + 1))) (at_scan f' a (gar_done junk) m d (bad_upto i))).
    { intros K. apply wp_bind, is_gar_run. rewrite bool_decide_true by done. by apply wp_ret, Hskip. }
    apply list_elem_of_In in Ht. cbn in Ht. destruct Ht as [<-|[<-|[<-|[<-|[]]]]]; cbn [orb Z.eqb Pos.eqb block_state_code];
      [by apply wp_ret, Hskip|apply Hret..].
  - rewrite Hnbad, Hty by done. cbn [orb Z.eqb Pos.eqb block_state_code]. by apply wp_ret, Hskip.
  - done.
  - rewrite Hty. cbn [orb]. apply wp_bind, wp_modify, wp_ret. exists sp, f', a, m, d. split_and!; [done|done| |].
    + unfold at_scan, with_badblkcnt. cbn. f_equal. unfold bad_upto. rewrite good_upto_S, Hty by done.
      pose proof (good_upto_range (nd_bad w) i Hi1). rewrite u32_id; [lia|]. unfold in_u32, BLOCKSTATUS_LEN in *. lia.
    + apply (scan_skip i f'); [done|by rewrite Eo|done].
Qed.

Lemma scan_blocks_all f a m d l sp junk : types_are (nr_blks g) l -> arr_len sp = BLOCK_INFO_SIZE -> scan_at 0 f a m d ->
  wp (for_local 0 (nr_blks g) (sp, 0) (scan_block g l)) (step_post (nr_blks g) (gar_done junk) (bad_upto (nr_blks g)))
    (at_scan f a (gar_done junk) m d 0).
Proof.
  intros Hl Hsp HS1. pose proof (ng_blks g geo) as Hnb.
  apply (wp_for_local (fun i x s' => exists sp f a m d, x = (sp, 0) /\ arr_len sp = BLOCK_INFO_SIZE /\
    s' = at_scan f a (gar_done junk) m d (bad_upto i) /\ scan_at i f a m d)); [lia| | |].
  - by exists sp, f, a, m, d.
  - intros i x s Hi (sp1 & f1 & a1 & m1 & d1 & -> & Hsp1 & -> & HS2).
    eapply wp_mono; [by apply scan_block_step|]. intros r s' (sp2 & f2 & a2 & m2 & d2 & -> & H). by exists sp2, f2, a2, m2, d2.
  - intros x s (sp1 & f1 & a1 & m1 & d1 & -> & H). by exists sp1, f1, a1, m1, d1.
Qed.

(** ** The state it leaves *)
Definition reordered gm gd : ghost := MkGhost (gh_own G) gd (gh_mt G) gm (gh_data G) (gh_gar G) (gh_gt G) (gh_gtl G).
Definition remounted f a m d junk size : nftl W :=
  MkNftl f a (gar_done junk) m cache_ready d (nr_blks g * n) (bad_upto (nr_blks g)) size.

Section Left.
Context (gm : list mt_group) (gd : list dl_group).
Hypotheses (Hgm : gm ≡ₚ gh_mtl G) (Hgd : gd ≡ₚ gh_dl G).
Notation G1 := (reordered gm gd).

Lemma reordered_where p : g_where g G1 p = g_where g G p.
Proof.
  unfold g_where. cbn [gh_mtl gh_mt reordered]. rewrite (mt_lookup_perm g (gh_mtl G) gm); [done|done|].
  apply (mi_rep _ _ _ _ (ft_mt _ _ _ HF)).
Qed.
Lemma reordered_logical w' lpa : same_pages g w w' -> logical g w' G1 lpa = logical g w G lpa.
Proof.
  intros Hs. unfold logical, place. cbn [gh_dl gh_data reordered].
  rewrite (dl_lookup_perm g (gh_dl G) gd); [|done|apply HF].
  destruct (dl_lookup _ _ _) as [[b q]|]; [|destruct (gh_data G _) as [b|]; [|done]]; cbn; by rewrite (sp_page g _ _ Hs).
Qed.
Lemma reordered_entry w' lba : same_pages g w w' -> mt_entry g w' G1 lba = mt_entry g w G lba.
Proof.
  intros Hs. unfold mt_entry, mt_data. rewrite reordered_where. destruct (g_where g G _) as [[b q]|]; [|done].
  by rewrite (sp_page g _ _ Hs).
Qed.
Lemma reordered_inv f a : calm g w f -> free_upto (nr_blks g) a -> ftl_inv g (fl_world f) a pg G1.
Proof.
  intros [Hs _] [A1 A2 A3 A4 A5]. pose proof rm_inv as HI. destruct (fi_own _ _ _ _ _ HI) as [O1 O2 O3 O4 O5 O6 O7 O8].
  destruct (fi_erased _ _ _ _ _ HI) as [E1 E2 E3 E4].
  split; [apply Hs|apply (sp_good _ _ _ Hs), HI|apply (sp_wgood _ _ _ Hs), HI|by split| | |].
  - split; try done; cbn.
    + intros h es Hin. rewrite Hgm in Hin. by eapply O3.
    + intros h es Hin. rewrite Hgd in Hin. by eapply O4.
  - split; cbn; intros *; rewrite ?(sp_erased _ _ _ Hs); [by apply E1| | |by apply E4].
    + rewrite Hgm. by apply E2.
    + rewrite Hgd. by apply E3.
  - destruct (fi_tells _ _ _ _ _ HI) as [HT HN HB]. split; [|intros b|by rewrite (sp_bad _ _ _ Hs)].
    + eapply (told_step g geo w); [apply (fi_own _ _ _ _ _ HI)|exact HT|..]; cbn.
      * intros i b Hb. left. split; [done|by apply same_data_pages].
      * intros h es Hin. rewrite Hgm in Hin. left. split; [done|by apply same_data_pages].
      * intros h es Hin. rewrite Hgd in Hin. left. split; [done|by apply same_data_pages].
      * intros lba b Hb. left. split; [done|by apply same_data_pages].
      * intros b Hb. left. split; [done|by apply same_data_pages].
      * intros b Hb. left. split_and!; [done|by apply same_data_pages|done|done].
    + eapply (names_keep G); [..|apply HN]; cbn; try done.
      * intros h es Hin Hp. exists h, es. by rewrite Hgm.
      * intros h es Hin Hp. exists h, es. by rewrite Hgd.
Qed.

Lemma remounted_mt f m : mtl_tab m gm -> mt_upto (nr_blks g) m -> mt_rep g m G1.
Proof.
  intros [T1 T2 T3] [U1 U2 U3]. pose proof (mi_rep _ _ _ _ (ft_mt _ _ _ HF)) as [R1 R2 R3 R4 R5]. destruct R1.
  pose proof (nr_mt_range g geo w mo) as Hm. split; cbn [gh_mtl gh_mt reordered].
  - split; try done.
    + by rewrite Hgm.
    + eapply NoDup_Permutation_proper; [|eassumption]. by apply Permutation_map.
  - lia.
  - intros j Hj. rewrite U2 in Hj. destruct (U3 j Hj) as (b & Hb & Hp). exists b. split; [|done]. rewrite Hp.
    destruct (ow_mt _ _ _ (fi_own _ _ _ _ _ rm_inv) _ _ Hb) as [[_ Hb2] _]. destruct (b <? _) eqn:E; zbool; [done|lia].
  - intros j Hj. rewrite U2, <- Hcnt. by apply R4.
  - intros h es Hin. rewrite Hgm in Hin. rewrite U2, <- Hcnt. by eapply R5.
Qed.
Lemma remounted_dl d : dl_tab d gd -> dl_ok g d gd.
Proof.
  intros [T1 T2 T3 T4]. destruct (ft_dl _ _ _ HF) as [D1 D2 D3 D4 D5 D6]. split; try done.
  - by rewrite Hgd.
  - eapply NoDup_Permutation_proper; [|exact D6]. by apply Permutation_map.
Qed.

Lemma remounted_ftl f a m d junk size : calm g w f -> free_upto (nr_blks g) a -> mt_upto (nr_blks g) m ->
  mtl_tab m gm -> dl_tab d gd -> arr_len (gh_gar G ++ junk) = GARBAGE_MAX_CNT ->
  ftl g (remounted f a m d junk size) G1 /\ dl_open g G1.
Proof.
  intros Hc Ha Hm Hgmt Hgdt Hj. pose proof (remounted_mt f m Hgmt Hm) as Hrep. pose proof (reordered_inv f a Hc Ha) as HI.
  pose proof (ft_mt _ _ _ HF) as HM. pose proof (mi_gar _ _ _ _ HM) as [[R1 R2 R3 R4 R5 R6] R7 R8 R9 R10].
  pose proof (mu_cnt _ _ Hm) as Hmc. split; [split|].
  - split; cbn [n_gar n_mt n_cache n_dl remounted].
    + exact HI.
    + split; [split|..]; try done. by eexists.
    + exact Hrep.
    + split; [done|]. intros p Hp. exfalso.
      destruct (where_live g geo _ _ _ _ _ _ (fi_own _ _ _ _ _ HI) Hrep Hp) as [[Hb _] _].
      pose proof (ng_blks g geo). cbn in Hb. unfold BLOCKSTATUS_LEN in *. lia.
    + apply Hc.
    + intros lba Hl. rewrite reordered_entry by apply Hc. cbn [gh_data reordered]. apply HM. by rewrite Hcnt, <- Hmc.
    + apply HM.
  - intros h es Hin. cbn in Hin. rewrite Hgm in Hin. by eapply HF.
  - by apply remounted_dl.
  - intros h es Hin. cbn in Hin. rewrite Hgd in Hin. cbn [n_mt remounted]. rewrite Hmc, <- Hcnt. by eapply HF.
  - cbn [n_dl remounted]. rewrite (lr_blkcnt _ _ _ _ _ _ (dt_rep _ _ Hgdt)). pose proof (ft_cnt _ _ _ HF) as Hd.
    rewrite (lr_blkcnt _ _ _ _ _ _ (dk_rep _ _ _ (ft_dl _ _ _ HF))) in Hd. unfold arr_len in *. by rewrite Hgd.
  - apply Hgdt.
  - cbn [n_mt n_maxlp remounted]. rewrite Hmc. by eapply mounted_range.
  - intros h es Hin. cbn in Hin. rewrite Hgd in Hin. by eapply Hopen.
Qed.
End Left.

(** ** The whole mount *)
Lemma scan_start f : calm g w f ->
  scan_at 0 f (MkAlloc (replicate 4096 0) 0 0) (mt_ready g (pbas_ready g)) (n_dl (at_load w)).
Proof.
  intros Hc. pose proof (nr_mt_range g geo w mo) as Hm. pose proof (ng_blks g geo) as Hnb.
  destruct (scanned_start g geo w) as [S1 S2 S3 S4 S5].
  split; [done| | | |].
  - split; [done|done|cbn; lia| |done]. intros b. rewrite S3. split; intros []; lia.
  - split; cbn [mt_ready mt_pbas mt_blkcnt].
    + unfold pbas_ready. rewrite arr_len_app. unfold arr_len. rewrite length_drop, !length_replicate.
      unfold MT_MAX_BLOCKS in *. lia.
    + done.
    + intros j Hj. destruct (mr_pba _ _ _ (mi_rep _ _ _ _ (ft_mt _ _ _ HF)) j) as (b & _ & Hb); [by rewrite Hcnt|].
      exists b. split; [done|]. destruct (ow_mt _ _ _ (fi_own _ _ _ _ _ rm_inv) _ _ Hb) as [[Hb0 _] _].
      destruct (b <? 0) eqn:E; zbool; [lia|]. unfold pbas_ready. rewrite arr_get_app.
      unfold arr_len at 1. rewrite length_replicate. destruct (j <? _) eqn:E2; zbool; [|lia].
      unfold arr_get. destruct (0 <=? j) eqn:E3; zbool; [|lia]. apply lookup_replicate_2. lia.
  - exists []. split; [split; [|done|done]|].
    + split; [by eexists|by eexists|done|done|constructor].
    + apply met_start. intros [h es] Hin. by destruct (ow_mtl _ _ _ (fi_own _ _ _ _ _ rm_inv) _ _ Hin) as [[? _] _].
  - exists []. split; [split; [|done|done|]|].
    + split; [by eexists|by eexists|done|done|constructor].
    + intros j h _ Hj. unfold arr_get in Hj. destruct (0 <=? j); [|done].
      cbn [n_dl at_load dl_blocktab] in Hj. by apply lookup_replicate in Hj as [-> _].
    + apply met_start. intros [h es] Hin. by destruct (ow_dl _ _ _ (fi_own _ _ _ _ _ rm_inv) _ _ Hin) as [[? _] _].
Qed.

Lemma scan_end f a m d : scan_at (nr_blks g) f a m d -> exists gm gd, gm ≡ₚ gh_mtl G /\ gd ≡ₚ gh_dl G /\
  mtl_tab m gm /\ dl_tab d gd.
Proof.
  intros [_ _ _ (gm & T1 & M1) (gd & T2 & M2)]. exists gm, gd. split_and!; [| |done|done].
  - eapply met_all; [done| |].
    + eapply NoDup_fmap_1. apply (mi_rep _ _ _ _ (ft_mt _ _ _ HF)).
    + intros [h es] Hin. by destruct (ow_mtl _ _ _ (fi_own _ _ _ _ _ rm_inv) _ _ Hin) as [[_ ?] _].
  - eapply met_all; [done| |].
    + eapply NoDup_fmap_1. apply HF.
    + intros [h es] Hin. by destruct (ow_dl _ _ _ (fi_own _ _ _ _ _ rm_inv) _ _ Hin) as [[_ ?] _].
Qed.

(** No fresh mapping table is written. *)
Lemma finish_run f a m d junk sp (Q : Z -> nftl W -> Prop) : mt_upto (nr_blks g) m ->
  Q 0 (remounted f a m d junk (disk_size g (nd_bad w))) ->
  wp (mount_finish g (sp, 0)) Q (at_scan f a (gar_done junk) m d (bad_upto (nr_blks g))).
Proof.
  intros [U1 U2 U3] HQ. pose proof (disk_size_range g geo w mo) as Hd. pose proof (nr_mt_range g geo w mo) as Hm.
  assert (Hp : forall j, 0 <= j < nr_mt g -> exists b, arr_get (mt_pbas m) j = Some b /\ b <> 0xffff).
  { intros j Hj. destruct (U3 j Hj) as (b & Hb & Hp). exists b.
    destruct (ow_mt _ _ _ (fi_own _ _ _ _ _ rm_inv) _ _ Hb) as [[_ Hb2] _]. rewrite Hp.
    pose proof (ng_blks g geo). unfold BLOCKSTATUS_LEN in *. destruct (b <? _) eqn:E; zbool; [split; [done|]|]; lia. }
  unfold mount_finish. apply wp_bind, wp_gets. cbn [n_badblkcnt at_scan].
  replace (nr_blks g - bad_upto (nr_blks g) - nr_blks g / 8)
    with (good_blocks g (nd_bad w) - nr_blks g / 8) by (unfold bad_upto, good_blocks; lia).
  change ((good_blocks g (nd_bad w) - nr_blks g / 8) * erasesize g) with (disk_size g (nd_bad w)).
  rewrite u32_id by (unfold in_u32; lia). apply wp_bind, wp_modify.
  destruct (disk_size g (nd_bad w) <? 500) eqn:E; zbool; [lia|].
  change (with_storagesize _ _) with (remounted f a m d junk (disk_size g (nd_bad w))).
  destruct (Hp 0) as (b1 & Hb1 & Hn1); [lia|]. destruct (Hp (nr_mt g - 1)) as (b2 & Hb2 & Hn2); [lia|].
  apply wp_bind. unfold mt_missing. apply wp_bind, wp_gets, wp_bind, wp_zoom, wp_bind, wp_gets, wp_assert_some.
  exists b1. split; [exact Hb1|]. apply Z.eqb_neq in Hn1. rewrite Hn1.
  apply wp_bind, wp_zoom, wp_bind, wp_gets, wp_assert_some.
  exists b2. split; [cbn [n_mt with_mt remounted id]; by rewrite U2|]. apply Z.eqb_neq in Hn2. rewrite Hn2.
  apply wp_ret, wp_ret. exact HQ.
Qed.

(** What is left of the state: the log blocks may be in another order. *)
Record restored s' G1 : Prop := {
  rs_settled : settled g s' G1;
  rs_same : same_pages g w (world s');
  rs_size : n_storagesize s' = disk_size g (nd_bad w);
  rs_logical : forall lpa, logical g (world s') G1 lpa = logical g w G lpa;
  rs_dl : gh_dl G1 ≡ₚ gh_dl G;
  rs_mtl : gh_mtl G1 ≡ₚ gh_mtl G;
  rs_own : gh_own G1 = gh_own G;
  rs_data : gh_data G1 = gh_data G;
  rs_gar : gh_gar G1 = gh_gar G;
  rs_gt : gh_gt G1 = gh_gt G;
  rs_free : forall b, block_free (n_alloc s') b <-> block_free (n_alloc s0) b
}.

Lemma NFTL_mount_again : wp (NFTL_mount g) (fun r s' => r = 0 /\ exists G1, restored s' G1) (at_load w).
Proof.
  pose proof (ft_mt _ _ _ HF) as HM. pose proof (gr_rep _ _ _ (mi_gar _ _ _ _ HM)) as HR.
  assert (Hgt0 : gt_upto 0 = 0xffff).
  { unfold gt_upto. destruct (gh_gt G) as [b|] eqn:E; [|done]. destruct (gt_named b E) as ([Hb _] & _).
    destruct (b <? 0) eqn:Eb; zbool; [lia|done]. }
  unfold NFTL_mount.
  destruct (calm_stack g w (MkFlash w 0) BLOCK_INFO_SIZE (calm_start g w rm_nd)) as (blkinfo & f1 & H1 & Hc1 & Hl1); [done|].
  apply wp_bind, (wp_onF _ (at_load w) _ _ _ H1).
  destruct (calm_kmalloc g w rm_good f1 MAX_BLOCKS Hc1) as (bt & f2 & H2 & Hc2 & Hl2); [done|].
  apply wp_bind, (wp_onF _ (with_flash f1 (at_load w)) _ _ _ H2). apply wp_bind, wp_assert_some.
  exists bt. split; [done|]. apply wp_bind. unfold wp at 1.
  change (with_flash f2 (with_flash f1 (at_load w))) with (with_flash f2 (at_load w)).
  rewrite (mount_init_run g geo w mo).
  assert (Hstart : ready g w f2 (MkAlloc (replicate 4096 0) 0 0) 0 =
    at_scan f2 (MkAlloc (replicate 4096 0) 0 0) (gar_upto 0) (mt_ready g (pbas_ready g)) (n_dl (at_load w)) 0).
  { unfold gar_upto. by rewrite Hgt0. }
  rewrite Hstart. apply wp_bind. eapply wp_mono; [apply scan_all_types_run; [done| |done]|].
  { unfold arr_len in *. by rewrite length_replicate. }
  intros r s (l & bi & f3 & -> & -> & Hc3 & Hty & Hbi).
  apply wp_bind. unfold gt_pba at 1. apply wp_bind, wp_gets, wp_assert_some. exists (gt_upto (nr_blks g)). split; [done|].
  assert (Hrest : forall f junk, calm g w f -> arr_len (gh_gar G ++ junk) = GARBAGE_MAX_CNT ->
    wp (let! r := for_local 0 (nr_blks g) (bi, 0) (scan_block g l) in
        match r with inr e => ret e | inl l => mount_finish g l end)
      (fun r s' => r = 0 /\ exists G1, restored s' G1)
      (at_scan f (MkAlloc (replicate 4096 0) 0 0) (gar_done junk) (mt_ready g (pbas_ready g)) (n_dl (at_load w)) 0)).
  { intros f junk Hc Hj. apply wp_bind. eapply wp_mono; [apply scan_blocks_all; [done|done|by apply scan_start]|].
    intros r s (sp & f4 & a & m & d & -> & Hsp & -> & HS1). destruct (scan_end _ _ _ _ HS1) as (gm & gd & P1 & P2 & T1 & T2).
    destruct HS1 as [Hc4 Ha Hm _ _]. apply finish_run; [done|]. split; [done|].
    destruct (remounted_ftl gm gd P1 P2 f4 a m d junk (disk_size g (nd_bad w)) Hc4 Ha Hm T1 T2 Hj) as [F1 F2].
    exists (reordered gm gd). split; try done; [|apply Hc4|intros lpa; by apply reordered_logical, Hc4|].
    - split; [done|done|apply HD|by apply Hm|done].
    - intros b. cbn [n_alloc remounted]. rewrite (fu_free _ _ Ha), (ow_free _ _ _ (fi_own _ _ _ _ _ rm_inv)).
      split; by intros [? ?]. }
  destruct (gh_gt G) as [b|] eqn:Eg.
  - assert (Hgt : gt_upto (nr_blks g) = b).
    { unfold gt_upto. rewrite Eg. destruct (gt_named b Eg) as ([_ Hb] & _). destruct (b <? nr_blks g) eqn:Eb; zbool; [done|lia]. }
    assert (Hb : (b =? 0xffff) = false).
    { apply Z.eqb_neq. destruct (gt_named b Eg) as ([_ Hb] & _). pose proof (ng_blks g geo). unfold BLOCKSTATUS_LEN in *. lia. }
    rewrite Hgt, Hb. cbn [negb]. apply wp_bind, wp_bind. eapply wp_mono; [by eapply get_gar_blks_run|].
    intros r s (-> & f5 & junk & Hc5 & -> & Hj). apply wp_ret. change (Z.lor 0 0) with 0. cbn [truth Z.eqb negb andb].
    by apply Hrest.
  - assert (Hgt : gt_upto (nr_blks g) = 0xffff) by (unfold gt_upto; by rewrite Eg). rewrite Hgt.
    change (negb (65535 =? 65535)) with false. cbv iota. apply wp_bind, wp_ret. cbn [andb].
    destruct (gr_none _ _ HR Eg) as [Hp Hg].
    assert (Hdone : gar_upto (nr_blks g) = gar_done (replicate (Z.to_nat GARBAGE_MAX_CNT) 0)).
    { unfold gar_upto, gar_done. by rewrite Hgt, Eg, Hp, Hg. }
    rewrite Hdone. apply Hrest; [done|]. by rewrite Hg.
Qed.
End Mount.
