(* ===== verification/NftlCycle.v ===== *)
(** * NFTL: a power cycle

    The state [NFTL_mount] leaves on an erased chip, and every state reached
    from it by a few writes that reorganise nothing, is settled: when the
    power is lost, mounting again brings every logical page back.  The same
    for histories of any length, with every kind of write, is
    NftlHistory.v. *)

From Stdlib Require Import ZArith Lia.
From stdpp Require Import base numbers list sets.
From S2P Require Import Prelude CMonad NftlTypes NftlAlloc NftlLog NftlDl NftlMtl MtdDev NftlState MtdSim.
From S2P Require Import NandLaws ChipLaws NftlFlash NftlFlashSpec NftlGarbage NftlTold NftlInv NftlGarbageSpec.
From S2P Require Import NftlMap NftlMapSpec NftlMapUpdate NftlData NftlDataSpec NftlDataMerge NftlDataShrink NftlDataWrite.
From S2P Require Import NftlDataContract NftlMount NftlMountSpec NftlPersist NftlRemount NftlRemountSpec.

(** ** Writes that reorganise nothing *)

Section Quiet.
Context {W : Type} {WW : World W} (g : mtd_info) {N : NandLaws W g}.
Hypothesis geo : nand_geo g.
Implicit Types (s : nftl W) (w : W) (G : ghost) (b c p : Z).
Notation n := (nr_pgsinblk g).

Lemma low_space_idle s : MINI_FREE_BLOCK < nfree s -> low_space g 0 s = Done 0 s.
Proof.
  intros Hf. unfold low_space, bind, gets, ret. change (free_blkcnt (n_alloc s)) with (nfree s).
  by destruct (nfree s <=? MINI_FREE_BLOCK) eqn:E; zbool; [lia|].
Qed.
Lemma write_rest_idle s G index : ftl g s G -> dl_open g G -> 0 <= index < DL_MAX_BLOCKS -> MINI_FREE_BLOCK < nfree s ->
  write_rest g index s = Done 0 s.
Proof.
  intros HF Ho Hi Hf. unfold write_rest, bind. rewrite (tail_merge_open g geo s G index HF Ho Hi).
  by apply low_space_idle.
Qed.

(** A write that finds both tables small goes straight to the page. *)
Lemma write_start s G lpa buf (Q : Z -> nftl W -> Prop) :
  ftl g s G -> dl_blkcnt (n_dl s) < DL_MAX_BLOCKS_DIV4 -> dl_pgcnt (n_dl s) < DL_MAX_PAGES_DIV4 ->
  (forall f junk fact0 pba0, calm g (world s) f -> ftl g (with_flash f s) G -> arr_len junk = BLOCK_INFO_SIZE ->
     arr_len fact0 = MAX_PAGES_IN_BLOCK -> wp (write_page g lpa buf junk fact0 pba0) Q (with_flash f s)) ->
  wp (nftl_write_logicpage g lpa buf) Q s.
Proof.
  intros HF Hc Hp HQ. pose proof (mi_inv _ _ _ _ (ft_mt _ _ _ HF)) as HI.
  assert (C0 : calm g (world s) (n_flash s)) by (split; [apply same_pages_refl, HI|apply (ft_mt _ _ _ HF)]).
  unfold nftl_write_logicpage, stack16.
  destruct (calm_stack g _ _ BLOCK_INFO_SIZE C0) as (junk & f1 & R1 & C1 & L1); [done|].
  destruct (calm_stack g _ _ MAX_PAGES_IN_BLOCK C1) as (fact0 & f2 & R2 & C2 & L2); [done|].
  destruct (calm_stack g _ _ 2 C2) as (two & f3 & R3 & C3 & L3); [done|].
  apply wp_bind. eapply wp_onF; [exact R1|]. apply wp_bind. eapply wp_onF; [exact R2|].
  apply wp_bind, wp_bind. eapply wp_onF; [exact R3|]. apply wp_ret.
  change (with_flash f3 _) with (with_flash f3 s).
  apply wp_bind. unfold wp at 1, shrink_blocks.
  rewrite shrink_idle by (cbn [n_dl with_flash]; destruct (_ >=? _) eqn:E; zbool; (done || lia)).
  apply wp_bind. unfold wp at 1, shrink_pages.
  rewrite shrink_idle by (cbn [n_dl with_flash]; destruct (_ >=? _) eqn:E; zbool; (done || lia)).
  apply HQ; [done| |done|done]. apply (ftl_flash g geo); [done|apply C3|apply C3].
Qed.

Lemma logical_same w w' G x : same_pages g w w' -> logical g w' G x = logical g w G x.
Proof.
  intros Hs. unfold logical. destruct (place g G x) as [[b q]|]; [|done]. cbn. by rewrite (sp_page g _ _ Hs).
Qed.
(** After [k] writes with [F] free blocks at the start. *)
Context (F : Z).
Record few_writes (k : Z) s G : Prop := {
  fw_settled : settled g s G;
  fw_used : used_max k G;
  fw_blocks : arr_len (gh_dl G) <= k;
  fw_ents : arr_len (ents (gh_dl G)) <= k;
  fw_free : F <= nfree s + k
}.
Lemma few_open k s G : k < n -> few_writes k s G -> dl_open g G.
Proof. intros Hk HW h es Hin. pose proof (fw_used _ _ _ HW h es Hin). lia. Qed.

(** The state in which the page has been programmed and recorded. *)
Lemma few_writes_step k s G s2 G' lpa d :
  few_writes k s G -> 0 <= k -> k + 1 < n -> written g s G lpa d s2 G' -> nfree s - 1 <= nfree s2 ->
  few_writes (k + 1) s2 G'.
Proof.
  intros [H1 H2 H3 H4 H5] Hk Hn HW Hf. pose proof (wr_used _ _ _ _ _ _ _ HW k Hk H2) as Hu.
  pose proof (wr_blocks _ _ _ _ _ _ _ HW). pose proof (wr_ents _ _ _ _ _ _ _ HW).
  split; [|done|lia|lia|lia]. eapply settled_write; [done|done|]. intros h es Hin. specialize (Hu h es Hin). lia.
Qed.

Lemma quiet_write_run k s G lpa buf :
  few_writes k s G -> 0 <= k -> k + 1 < n -> k < DL_MAX_BLOCKS_DIV4 -> MINI_FREE_BLOCK + k + 1 < F ->
  0 <= lpa < nr_blks g * n -> writesize g <= arr_len buf ->
  wp (nftl_write_logicpage g lpa buf) (fun r s' => r = 0 /\ exists G', few_writes (k + 1) s' G' /\
    wrote_only g (world s) G (world s') G' lpa (take (Z.to_nat (writesize g)) buf) /\
    nd_bad (world s') = nd_bad (world s)) s.
Proof.
  intros HW Hk Hn Hk32 HF0 Hr Hb. pose proof (few_open k s G ltac:(lia) HW) as Hopen.
  pose proof HW as [[H1 _ Hbusy Hcnt Hmax] H3 H4 H5 H6]. pose proof (ngp g geo). pose proof (ng_oob g geo) as Hoob.
  pose proof (ng_pgs g geo) as Hpgs. pose proof (dk_rep _ _ _ (ft_dl _ _ _ H1)) as Hrep. rewrite <- Hmax in Hr.
  apply (write_start s G); [done| | |].
  { rewrite (lr_blkcnt _ _ _ _ _ _ Hrep). lia. }
  { rewrite (lr_pgcnt _ _ _ _ _ _ Hrep). unfold DL_MAX_BLOCKS_DIV4, DL_MAX_PAGES_DIV4 in *. lia. }
  intros f junk fact0 pba0 Hc HF L1 L2. set (s3 := with_flash f s) in *. pose proof (cm_same _ _ _ Hc) as Hsame.
  destruct (ft_range _ _ _ HF lpa Hr) as (Hl & Hl16 & Hl32).
  unfold write_page. rewrite (u16_id (lpa / _)) by done. apply wp_bind.
  assert (Hj : oobsize g <= arr_len junk) by (rewrite L1; unfold BLOCK_INFO_SIZE, NAND_MAX_OOBSIZE in *; lia).
  assert (Hsl : page_spare g DATA_LOG_BLOCK lpa (set_lpa lpa (set_blocktype (block_state_code DATA_LOG_BLOCK) junk)))
    by by apply page_spare_set.
  assert (Hsp : oobsize g <= arr_len (set_lpa lpa (set_blocktype (block_state_code DATA_LOG_BLOCK) junk)))
    by (rewrite set_lpa_len; unfold set_blocktype, arr_len in *; by rewrite length_insert).
  assert (Hend : forall s2 G' index, written g s3 G lpa (take (Z.to_nat (writesize g)) buf) s2 G' ->
    wrote_only g (world s3) G (world s2) G' lpa (take (Z.to_nat (writesize g)) buf) ->
    nfree s - 1 <= nfree s2 -> 0 <= index < DL_MAX_BLOCKS ->
    wp (write_rest g index) (fun r s' => r = 0 /\ exists G', few_writes (k + 1) s' G' /\
      wrote_only g (world s) G (world s') G' lpa (take (Z.to_nat (writesize g)) buf) /\
      nd_bad (world s') = nd_bad (world s)) s2).
  { intros s2 G' index HWr HX Hf Hi.
    assert (HWr' : written g s G lpa (take (Z.to_nat (writesize g)) buf) s2 G').
    { eapply shrunk_written; [|exact HWr]. apply (shrunk_read g s G s3 HF). by apply only_read_flash. }
    assert (Hfew : few_writes (k + 1) s2 G') by (by eapply few_writes_step).
    unfold wp. rewrite (write_rest_idle s2 G' index (sd_ftl _ _ _ (fw_settled _ _ _ Hfew)) (sd_open _ _ _ (fw_settled _ _ _ Hfew)) Hi)
      by (unfold MINI_FREE_BLOCK in *; lia).
    split; [done|]. exists G'. split_and!; [done| |by apply (wr_bad _ _ _ _ _ _ _ HWr')].
    intros x. rewrite HX. by rewrite (logical_same (world s) (world s3) G x Hsame). }
  assert (arr_len (gh_dl G) + 1 < DL_MAX_BLOCKS /\ arr_len (ents (gh_dl G)) < DL_MAX_PAGES) as [Hdl32 Hents]
    by (unfold DL_MAX_BLOCKS_DIV4, DL_MAX_BLOCKS, DL_MAX_PAGES in *; lia).
  destruct (decide (lpa / n ∈ map (fun ge : dl_group => dlb_lba ge.1) (gh_dl G))) as [Hin|Hnew].
  - apply list_elem_of_In, in_map_iff in Hin as ([h es] & Hi & Hin). apply list_elem_of_In in Hin. cbn in Hi.
    pose proof Hin as Hin0. apply list_elem_of_split in Hin as (gs1 & gs2 & Hdl).
    rewrite <- Hi. eapply wp_mono; [apply (dl_target_hit g geo s3 G gs1 h es gs2 fact0 HF Hdl); unfold MAX_PAGES_IN_BLOCK in *; lia|].
    intros t s' (-> & [[[Hu _] _]|[_ ->]]); [specialize (H3 h es Hin0); lia|]. cbn [wt_convert].
    apply (write_insert_core g geo s3 G gs1 h es gs2 lpa buf _ pba0); try done.
    intros f0 d' s2 G' Hpw HWr HX. apply (Hend s2 G'); [done|done|change (nfree s2) with (nfree s); lia|].
    split; [apply arr_len_nonneg|]. rewrite Hdl, arr_len_app in Hdl32. pose proof (arr_len_nonneg ((h, es) :: gs2)). lia.
  - apply (dl_target_miss g s3 G); [done|done|change (nfree s3) with (nfree s); unfold MINI_FREE_BLOCK in *; lia|].
    intros b s' T1 T2 T3 T4 T5 T6 T7. cbn [wt_convert].
    assert (Hnf : nfree s' = nfree s - 1).
    { change (spare_blocks s' G + arr_len (gh_mtl G) = spare_blocks s G + arr_len (gh_mtl G) - 1) in T5.
      unfold spare_blocks in T5. lia. }
    apply (write_append_core g geo s3 s' G b lpa buf _ pba0); try done.
    intros f0 d' s2 G' Hpw HWr HX. apply (Hend s2 G'); [done|done|change (nfree s2) with (nfree s'); lia|].
    split; [apply arr_len_nonneg|lia].
Qed.

Lemma last_written_ext ops : forall d d', (forall x, d x = d' x) -> forall x, last_written g ops d x = last_written g ops d' x.
Proof.
  induction ops as [|[lpa buf] ops IH]; intros d d' Hd; [exact Hd|]. cbn. apply IH.
  intros x. unfold upd. by case_decide.
Qed.
Lemma few_write_all ops : forall k s G,
  few_writes k s G -> 0 <= k -> k + arr_len ops < n -> k + arr_len ops <= DL_MAX_BLOCKS_DIV4 ->
  MINI_FREE_BLOCK + k + arr_len ops < F ->
  (forall lpa buf, (lpa, buf) ∈ ops -> 0 <= lpa < nr_blks g * n /\ writesize g <= arr_len buf) ->
  wp (write_all g ops) (fun r s' => r = 0 /\ exists G', few_writes (k + arr_len ops) s' G' /\
    nd_bad (world s') = nd_bad (world s) /\
    forall x, logical g (world s') G' x = last_written g ops (logical g (world s) G) x) s.
Proof.
  induction ops as [|[lpa buf] ops IH]; intros k s G HW Hk Hn Hb Hf Hops.
  { apply wp_ret. split; [done|]. exists G. split_and!; [|done|done]. change (arr_len (@nil (Z * list Z))) with 0.
    by rewrite Z.add_0_r. }
  rewrite arr_len_cons in *. pose proof (arr_len_nonneg ops).
  destruct (Hops lpa buf) as [Hr Hbuf]; [by left|]. cbn [write_all last_written]. apply wp_bind.
  eapply wp_mono; [apply (quiet_write_run k s G lpa buf HW); (done || lia)|].
  intros r s1 (-> & G1 & HW1 & HX & Hbad). change (truth 0) with false. cbv iota.
  eapply wp_mono; [apply (IH (k + 1) s1 G1 HW1); try lia; intros l b Hin; apply Hops; by right|].
  intros r s' (-> & G' & HW' & Hbad' & HL). split; [done|]. exists G'.
  split_and!; [by replace (k + (1 + arr_len ops)) with (k + 1 + arr_len ops) by lia|congruence|].
  intros x. rewrite HL. apply last_written_ext. intros y. rewrite HX. unfold upd.
  destruct (y =? lpa) eqn:E; zbool; [subst; by rewrite decide_True|by rewrite decide_False].
Qed.
End Quiet.

(** ** The power cycle *)
Section Cycle.
Context {W : Type} {WW : World W} (g : mtd_info) {N : NandLaws W g}.
Hypothesis geo : nand_geo g.
Implicit Types (s : nftl W) (w : W) (G : ghost).
Notation n := (nr_pgsinblk g).
Notation page_of buf := (take (Z.to_nat (writesize g)) buf).

Lemma mount_settled w : erased_chip g w -> mountable g (nd_bad w) ->
  exists s G, NFTL_mount g (at_load w) = Done 0 s /\ settled g s G /\ mounted g w s G.
Proof.
  intros HE mo. destruct (mount_mounted g geo w HE mo) as (s & G & H & HM). exists s, G. split_and!; [done| |done].
  pose proof HM as [M1 M2 M3 M4 M5 M6 M7 M8 M9 M10 M11 M12].
  split; [done| |done|done|done]. intros h es. rewrite M2. by intros Hin%elem_of_nil.
Qed.
Lemma mount_few w : erased_chip g w -> mountable g (nd_bad w) ->
  exists s G, NFTL_mount g (at_load w) = Done 0 s /\
    few_writes g (good_blocks g (nd_bad w) - nr_mt g) 0 s G /\
    nd_bad (world s) = nd_bad w /\ forall lpa, logical g (world s) G lpa = None.
Proof.
  intros HE mo. destruct (mount_settled w HE mo) as (s & G & H & HS & [M1 M2 M3 M4 M5 M6 M7 M8 M9 M10 _ _]).
  exists s, G. split_and!; [done| |done|done]. split; [done| |by rewrite M2|by rewrite M2|lia].
  intros h es. rewrite M2. by intros Hin%elem_of_nil.
Qed.

(** C4. A mount after the power was lost between two operations.  [NFTL_mount]
    answers 0; the state it builds is again one between operations, with every
    block of the chip in the same hands and the same blocks free, and every
    logical page holds what it held before. *)
Theorem remount_preserves s0 G
  (HS : settled g s0 G) (mo : mountable g (nd_bad (world s0))) :
  exists s1 G1, NFTL_mount g (at_load (world s0)) = Done 0 s1 /\ settled g s1 G1 /\
    n_storagesize s1 = disk_size g (nd_bad (world s0)) /\
    (forall b, gh_own G1 b = gh_own G b) /\
    (forall b, block_free (n_alloc s1) b <-> block_free (n_alloc s0) b) /\
    forall lpa, logical g (world s1) G1 lpa = logical g (world s0) G lpa.
Proof.
  destruct (proj1 (wp_run _ _ _) (NFTL_mount_again g geo s0 G HS mo)) as (r & s1 & H & -> & G1 & HR).
  exists s1, G1. split_and!; [done|apply HR|apply HR|by rewrite (rs_own _ _ _ _ _ HR)|apply HR..].
Qed.

(** A power cycle.  An erased chip is mounted and pages are written, fewer
    than a block has and with 21 free blocks left; the power is lost, and
    [NFTL_mount] is called again on what the flash holds.  All three succeed,
    and every page of the disk reads as it was last written, the pages never
    written as 0xFF. *)
Theorem power_cycle w ops
  (HE : erased_chip g w) (mo : mountable g (nd_bad w))
  (Hn : arr_len ops < n) (Hb : arr_len ops <= DL_MAX_BLOCKS_DIV4)
  (Hfree : MINI_FREE_BLOCK + arr_len ops < good_blocks g (nd_bad w) - nr_mt g)
  (Hops : forall lpa buf, (lpa, buf) ∈ ops -> 0 <= lpa < nr_blks g * n /\ writesize g <= arr_len buf) :
  exists s0 s1 s2, NFTL_mount g (at_load w) = Done 0 s0 /\ write_all g ops s0 = Done 0 s1 /\
    NFTL_mount g (at_load (world s1)) = Done 0 s2 /\
    forall x out, 0 <= x < nr_blks g * n -> writesize g <= arr_len out ->
      exists s3 out', nftl_read_logicpage g x out s2 = Done (0, out') s3 /\
        page_of out' = page_read g (last_written g ops (fun _ => None) x).
Proof.
  destruct (mount_few w HE mo) as (s0 & G0 & R0 & HW0 & Hb0 & Hl0).
  destruct (proj1 (wp_run _ _ _) (few_write_all g geo _ ops 0 s0 G0 HW0 ltac:(lia) Hn Hb ltac:(lia) Hops))
    as (r & s1 & R1 & -> & G1 & HW1 & Hb1 & Hl1).
  assert (Hbad : nd_bad (world s1) = nd_bad w) by congruence.
  destruct (proj1 (wp_run _ _ _) (NFTL_mount_again g geo s1 G1 (fw_settled _ _ _ _ _ HW1) ltac:(by rewrite Hbad)))
    as (r & s2 & R2 & -> & G2 & HR).
  pose proof (rs_settled _ _ _ _ _ HR) as HS2.
  exists s0, s1, s2. split_and!; [done|done|done|]. intros x out Hx Hout.
  destruct (proj1 (wp_run _ _ _) (nftl_read_logicpage_run g geo s2 G2 x out
    (fun r s' => exists out', r = (0, out') /\ page_of out' = page_read g (logical g (world s2) G2 x)) (sd_ftl _ _ _ HS2)
    ltac:(by rewrite (sd_maxlp _ _ _ HS2)) Hout ltac:(intros s' out' _ _ _ E; by exists out'))) as (r & s3 & R3 & out' & -> & E3).
  exists s3, out'. split; [done|]. rewrite E3, (rs_logical _ _ _ _ _ HR), Hl1. f_equal. by apply last_written_ext.
Qed.
End Cycle.

(** ** The concrete chip *)
Section Example.
Notation g := small_geo.
#[local] Existing Instances inv_world inv_laws.

Lemma remount_preserves_witness : exists s0 s1, NFTL_mount g (at_load one_bad) = Done 0 s0 /\
  NFTL_mount g (at_load (world s0)) = Done 0 s1 /\ n_maxlp s1 = 256 /\ n_storagesize s1 = 55 * 128.
Proof.
  destruct (mount_settled g small_geo_ok one_bad one_bad_erased one_bad_mountable) as (s0 & G & H & HS & HM).
  pose proof (md_isbad _ _ _ _ HM) as Hb.
  destruct (remount_preserves g small_geo_ok s0 G HS) as (s1 & G1 & H1 & H2 & H3 & _); [rewrite Hb; exact one_bad_mountable|].
  exists s0, s1. split; [exact H|]. split; [exact H1|]. split; [exact (sd_maxlp _ _ _ H2)|]. rewrite H3, Hb. reflexivity.
Defined.

Lemma power_cycle_witness : exists s0 s1 s2 s3 s4 out out',
  NFTL_mount g (at_load one_bad) = Done 0 s0 /\
  write_all g [(40, data_of 1); (7, data_of 3); (40, data_of 2)] s0 = Done 0 s1 /\
  NFTL_mount g (at_load (world s1)) = Done 0 s2 /\
  nftl_read_logicpage g 40 (data_of 0) s2 = Done (0, out) s3 /\ take 32 out = data_of 2 /\
  nftl_read_logicpage g 8 (data_of 0) s2 = Done (0, out') s4 /\ take 32 out' = data_of 0xff.
Proof.
  destruct (power_cycle g small_geo_ok one_bad [(40, data_of 1); (7, data_of 3); (40, data_of 2)]
    one_bad_erased one_bad_mountable) as (s0 & s1 & s2 & H0 & H1 & H2 & H3).
  - reflexivity.
  - vm_compute. discriminate.
  - vm_compute. reflexivity.
  - intros lpa buf Hin. rewrite !elem_of_cons, elem_of_nil in Hin.
    destruct Hin as [Hi|[Hi|[Hi|[]]]]; injection Hi as -> ->; (split; [split; [discriminate|reflexivity]|discriminate]).
  - destruct (H3 40 (data_of 0)) as (s3 & out & H4 & H5); [split; [discriminate|reflexivity]|discriminate|].
    destruct (H3 8 (data_of 0)) as (s4 & out' & H6 & H7); [split; [discriminate|reflexivity]|discriminate|].
    exists s0, s1, s2, s3, s4, out, out'. split; [exact H0|]. split; [exact H1|]. split; [exact H2|].
    split; [exact H4|]. split; [exact H5|]. split; [exact H6|exact H7].
Defined.
End Example.
