(* ===== verification/NftlResources.v ===== *)
(** * NFTL: counting the blocks

    Between operations every good block of the chip is free or named by a
    table, so the number of free blocks is bounded below by the sizes of the
    tables. *)

From Stdlib Require Import ZArith Lia.
From stdpp Require Import base numbers list sets.
From S2P Require Import Prelude CMonad NftlTypes NftlAlloc NftlLog NftlDl NftlMtl MtdDev NftlState.
From S2P Require Import NandLaws NftlFlash NftlFlashSpec NftlGarbage NftlTold NftlInv NftlGarbageSpec.
From S2P Require Import NftlMap NftlMapSpec NftlMapUpdate NftlData NftlDataSpec NftlDataMerge NftlDataShrink NftlDataWrite.
From S2P Require Import NftlMount NftlMountSpec NftlPersist.

(** Free blocks, each counted once. *)
Lemma free_count_nodup (l : list nat) : forall st : list Z, NoDup l ->
  (forall i, i ∈ l -> exists v, st !! i = Some v /\ v <> 0) -> (length l <= free_count st)%nat.
Proof.
  induction l as [|i l IH]; intros st Hnd Hl; [cbn; lia|]. apply NoDup_cons in Hnd as [Hni Hnd].
  destruct (Hl i) as (v & Hv & Hne); [by left|].
  pose proof (free_count_insert st i v 0%Z Hv) as Hc. rewrite decide_False, decide_True in Hc by done.
  assert (length l <= free_count (<[i := 0%Z]> st))%nat; [|cbn; lia].
  apply IH; [done|]. intros j Hj. rewrite list_lookup_insert_ne by (intros ->; done). apply Hl. by right.
Qed.

Section Count.
Context {W : Type} {WW : World W} (g : mtd_info) {N : NandLaws W g}.
Hypothesis geo : nand_geo g.
Implicit Types (s : nftl W) (G : ghost) (b l : Z) (ls : list Z).
Notation n := (nr_pgsinblk g).

Lemma free_le a (bs : list Z) : count_ok a -> NoDup bs -> (forall b, b ∈ bs -> block_free a b) -> arr_len bs <= free_blkcnt a.
Proof.
  intros Hc Hnd Hb. rewrite Hc. unfold arr_len. apply inj_le. rewrite <- (length_map Z.to_nat bs).
  assert (Hpos : forall b, b ∈ bs -> 0 <= b /\ exists v, blockstatus a !! Z.to_nat b = Some v /\ v <> 0).
  { intros b Hin. destruct (Hb b Hin) as (v & Hv & Hne). unfold arr_get in Hv. destruct (0 <=? b) eqn:E; [|done].
    zbool. split; [done|by exists v]. }
  apply free_count_nodup.
  - apply NoDup_fmap_2_strong; [|done]. intros x y Hx Hy E. destruct (Hpos x Hx), (Hpos y Hy). lia.
  - intros i (b & -> & Hin)%list_elem_of_fmap. by apply Hpos.
Qed.

(** The data blocks of the logical blocks [ls]. *)
Definition data_blocks G ls : list Z := omap (gh_data G) ls.

Lemma blocks_named s G ls b :
  settled g s G -> (forall l, gh_data G l <> None -> l ∈ ls) -> in_chip g b -> nd_bad (world s) b = false ->
  gh_own G b = RFree \/
  b ∈ omap (gh_mt G) (seqZ 0 (nr_mt g)) ++ map (fun ge : mt_group => mtb_pba ge.1) (gh_mtl G) ++
      map (fun ge : dl_group => dlb_pba ge.1) (gh_dl G) ++ data_blocks G ls ++ gh_gar G ++ option_list (gh_gt G).
Proof.
  intros HS Hls Hb Hbad. pose proof (sd_ftl _ _ _ HS) as HF. pose proof (ft_mt _ _ _ HF) as HM.
  destruct (fi_tells _ _ _ _ _ (mi_inv _ _ _ _ HM)) as [_ HN HB]. specialize (HN b). specialize (HB b Hb).
  rewrite !elem_of_app. destruct (gh_own G b) eqn:E; cbn in HN.
  - by left.
  - right; left. apply list_elem_of_omap. exists i. split; [|done]. apply elem_of_seqZ.
    pose proof (mr_out _ _ _ (mi_rep _ _ _ _ HM) i ltac:(congruence)). rewrite (sd_cnt _ _ _ HS) in *. lia.
  - right; right; left. destruct HN as (h & es & Hin & <-). apply list_elem_of_In, in_map_iff.
    exists (h, es). split; [done|by apply list_elem_of_In].
  - do 3 right; left. destruct HN as (h & es & Hin & <-). apply list_elem_of_In, in_map_iff.
    exists (h, es). split; [done|by apply list_elem_of_In].
  - do 4 right; left. apply list_elem_of_omap. exists lba. split; [apply Hls; congruence|done].
  - do 5 right; left. done.
  - do 6 right. by apply elem_of_option_list.
  - by destruct (sd_busy _ _ _ HS b).
  - destruct HB as [_ HB]. specialize (HB eq_refl). congruence.
Qed.

Lemma arr_len_map {A B} (f : A -> B) (l : list A) : arr_len (map f l) = arr_len l.
Proof. unfold arr_len. by rewrite length_map. Qed.
Lemma arr_len_omap {A B} (f : A -> option B) (l : list A) : arr_len (omap f l) <= arr_len l.
Proof.
  unfold arr_len. apply inj_le. induction l as [|x l IH]; [done|]. cbn. destruct (f x); cbn; lia.
Qed.

(** Every good block is accounted for. *)
Lemma blocks_counted s G ls :
  settled g s G -> (forall l, gh_data G l <> None -> l ∈ ls) ->
  good_blocks g (nd_bad (world s)) <= nfree s + nr_mt g + arr_len (gh_mtl G) + arr_len (gh_dl G) +
    arr_len (data_blocks G ls) + arr_len (gh_gar G) + 1.
Proof.
  intros HS Hls. pose proof (ft_mt _ _ _ (sd_ftl _ _ _ HS)) as HM. pose proof (mi_inv _ _ _ _ HM) as HI.
  set (goods := filter (fun b => nd_bad (world s) b = false) (seqZ 0 (nr_blks g))).
  set (frees := filter (fun b => gh_own G b = RFree) goods).
  assert (Hnd : NoDup goods) by apply NoDup_filter, NoDup_seqZ.
  assert (Hf : arr_len frees <= nfree s).
  { apply free_le; [apply (fi_alloc _ _ _ _ _ HI)|by apply NoDup_filter|].
    intros b (Ho & Hb)%list_elem_of_filter. apply list_elem_of_filter in Hb as [_ Hb]. apply elem_of_seqZ in Hb.
    apply (ow_free _ _ _ (fi_own _ _ _ _ _ HI)). split; [unfold in_chip; lia|done]. }
  assert (Hsub : goods ⊆+ frees ++ omap (gh_mt G) (seqZ 0 (nr_mt g)) ++ map (fun ge : mt_group => mtb_pba ge.1) (gh_mtl G) ++
      map (fun ge : dl_group => dlb_pba ge.1) (gh_dl G) ++ data_blocks G ls ++ gh_gar G ++ option_list (gh_gt G)).
  { apply NoDup_submseteq; [done|]. intros b Hin. pose proof Hin as (Hb & Hc%elem_of_seqZ)%list_elem_of_filter.
    apply elem_of_app. destruct (blocks_named s G ls b HS Hls) as [Ho|Ho]; [unfold in_chip; lia|done| |by right].
    left. by apply list_elem_of_filter. }
  assert (Hlen : arr_len goods <= arr_len (frees ++ omap (gh_mt G) (seqZ 0 (nr_mt g)) ++ map (fun ge : mt_group => mtb_pba ge.1) (gh_mtl G) ++
      map (fun ge : dl_group => dlb_pba ge.1) (gh_dl G) ++ data_blocks G ls ++ gh_gar G ++ option_list (gh_gt G)))
    by (by apply inj_le, submseteq_length).
  rewrite !arr_len_app, !arr_len_map in Hlen. change (good_blocks g (nd_bad (world s))) with (arr_len goods).
  pose proof (arr_len_omap (gh_mt G) (seqZ 0 (nr_mt g))) as Hmt.
  assert (Hseq : arr_len (seqZ 0 (nr_mt g)) = Z.max 0 (nr_mt g)) by (unfold arr_len; rewrite length_seqZ; lia).
  assert (Hg : arr_len (option_list (gh_gt G)) <= 1) by by destruct (gh_gt G).
  pose proof (mr_cnt _ _ _ (mi_rep _ _ _ _ HM)) as Hc. rewrite (sd_cnt _ _ _ HS) in Hc. lia.
Qed.

(** ** The blocks of the log *)

Lemma logged_unmapped_but G L : NoDup (logged G) -> unmapped_but L G ->
  arr_len (gh_dl G) <= arr_len (filter (fun l => gh_data G l = None) (logged G)) + 1.
Proof.
  intros Hnd Hu. rewrite <- (arr_len_map (fun ge : dl_group => dlb_lba ge.1) (gh_dl G)). fold (logged G).
  assert (Hsub : logged G ⊆+ filter (fun l => gh_data G l = None) (logged G) ++ [L]).
  { apply NoDup_submseteq; [done|]. intros l Hl. apply elem_of_app. destruct (decide (l = L)) as [->|Hne]; [right; by left|left].
    apply list_elem_of_filter. split; [|done]. destruct (group_logged _ _ Hl) as (h & es & Hin & <-). by apply (Hu h es). }
  apply submseteq_length in Hsub. rewrite length_app in Hsub. unfold arr_len. cbn in Hsub. lia.
Qed.
(** Log and data blocks together, when the log is small or unmapped. *)
Lemma log_and_data G ls L : NoDup (logged G) -> (forall l, touched G l -> l ∈ ls) -> NoDup ls ->
  arr_len (gh_dl G) <= DL_MAX_BLOCKS_DIV4 \/ unmapped_but L G ->
  arr_len (gh_dl G) + arr_len (data_blocks G ls) <= arr_len ls + DL_MAX_BLOCKS_DIV4.
Proof.
  intros Hnd Ht Hls Hor. destruct Hor as [Hs|Hu].
  - pose proof (arr_len_omap (gh_data G) ls). unfold data_blocks. lia.
  - pose proof (logged_unmapped_but G L Hnd Hu) as Hl.
    set (un := filter (fun l => gh_data G l = None) (logged G)) in *.
    set (mp := filter (fun l => gh_data G l <> None) ls).
    assert (Hmp : arr_len (data_blocks G ls) = arr_len mp).
    { unfold data_blocks, mp, arr_len. f_equal. clear. induction ls as [|l ls IH]; [done|].
      cbn [omap list_omap]. rewrite filter_cons. destruct (gh_data G l) as [b|] eqn:E.
      - rewrite decide_True by done. cbn [length]. by rewrite <- IH.
      - rewrite decide_False by auto. exact IH. }
    assert (Hsub : un ++ mp ⊆+ ls).
    { apply NoDup_submseteq.
      - apply NoDup_app. split_and!; [by apply NoDup_filter| |by apply NoDup_filter].
        intros l (H1 & _)%list_elem_of_filter (H2 & _)%list_elem_of_filter. done.
      - intros l [(_ & Hl')%list_elem_of_filter|(_ & Hl')%list_elem_of_filter]%elem_of_app; [|done]. apply Ht. by right. }
    apply submseteq_length in Hsub. rewrite length_app in Hsub. unfold arr_len in *.
    unfold DL_MAX_BLOCKS_DIV4. lia.
Qed.

(** The blocks that are neither free nor hold a logical block's pages for good:
    log blocks besides the data blocks, garbage and its table, and the reserve
    of a write. *)
Definition OVERHEAD : Z := DL_MAX_BLOCKS_DIV4 + GARBAGE_MAX_CNT_DIV2 + 10.

Lemma reserve_counted s G ls L :
  settled g s G -> (forall l, touched G l -> l ∈ ls) -> NoDup ls ->
  arr_len (gh_dl G) <= DL_MAX_BLOCKS_DIV4 \/ unmapped_but L G ->
  2 * nr_mt g + arr_len ls + OVERHEAD <= good_blocks g (nd_bad (world s)) -> reserve 1 s G.
Proof.
  intros HS Ht Hls Hor Hg. pose proof (sd_ftl _ _ _ HS) as HF. pose proof (ft_mt _ _ _ HF) as HM.
  pose proof (blocks_counted s G ls HS ltac:(intros l Hl; apply Ht; by left)) as Hc.
  pose proof (log_and_data G ls L (dk_nodup _ _ _ (ft_dl _ _ _ HF)) Ht Hls Hor) as Hd.
  pose proof (mtl_count g _ _ (mi_rep _ _ _ _ HM)) as Hm. rewrite (sd_cnt _ _ _ HS) in Hm.
  pose proof (gr_small _ _ _ (mi_gar _ _ _ _ HM)) as Hgar. pose proof (arr_len_nonneg (gh_gar G)).
  pose proof (arr_len_nonneg (gh_mtl G)). unfold OVERHEAD, GARBAGE_MAX_CNT_DIV2, DL_MAX_BLOCKS_DIV4 in *.
  split; [right; lia|]. unfold stock, spare_blocks. destruct (gh_gt G); lia.
Qed.

(** The entries of the log, when none of its blocks is full. *)
Lemma ents_bound (gs : list dl_group) : (forall h es, (h, es) ∈ gs -> arr_len es <= n - 1) ->
  arr_len (ents gs) <= arr_len gs * (n - 1).
Proof.
  induction gs as [|[h es] gs IH]; intros Hb; [done|]. rewrite ents_cons, arr_len_app, arr_len_cons.
  pose proof (Hb h es ltac:(by left)). pose proof (IH ltac:(intros h' es' Hin; apply (Hb h' es'); by right)). lia.
Qed.
End Count.
