(* ===== verification/NftlHistory.v ===== *)
(** * NFTL: whole histories

    Any number of writes of logical pages and power failures between them.
    What the layer needs of a history is a matter of which pages were written
    in which order ([write_ok]); the rest of the state is not looked at. *)

From Stdlib Require Import ZArith Lia.
From stdpp Require Import base numbers list gmap sets.
From S2P Require Import Prelude CMonad NftlTypes NftlAlloc NftlLog NftlDl NftlMtl MtdDev NftlState MtdSim.
From S2P Require Import NandLaws ChipLaws NftlFlash NftlFlashSpec NftlGarbage NftlTold NftlInv NftlGarbageSpec.
From S2P Require Import NftlMap NftlMapSpec NftlMapUpdate NftlMapContract NftlData NftlDataSpec NftlDataMerge NftlDataShrink NftlDataWrite.
From S2P Require Import NftlDataContract NftlMount NftlMountSpec NftlPersist NftlRemount NftlRemountSpec NftlCycle NftlResources.

(** ** What a history is *)

(** Writing and reading a logical page, and losing the power: RAM is lost, and
    the module is loaded and mounts the flash again. *)
Inductive event :=
  | EWrite (lpa : Z) (databuff : list Z)
  | ERead (lpa : Z) (databuff : list Z)
  | EPower.

Section Events.
Context {W : Type} {WW : World W} (g : mtd_info).
Notation n := (nr_pgsinblk g).
Notation page_of buf := (take (Z.to_nat (writesize g)) buf).

Definition power_fail : M (nftl W) Z := fun s => NFTL_mount g (at_load (world s)).
Definition do_event (e : event) : M (nftl W) Z :=
  match e with
  | EWrite lpa buf => nftl_write_logicpage g lpa buf
  | ERead lpa buf => let! r := nftl_read_logicpage g lpa buf in ret (fst r)
  | EPower => power_fail
  end.
(** The events in turn, until one fails. *)
Fixpoint run_events (es : list event) : M (nftl W) Z :=
  match es with
  | [] => ret 0
  | e :: es => let! r := do_event e in if truth r then ret r else run_events es
  end.

(** The disk afterwards: neither reading nor the power matters to it. *)
Fixpoint disk_after (es : list event) (disk : Z -> option (list Z)) : Z -> option (list Z) :=
  match es with
  | [] => disk
  | EWrite lpa buf :: es => disk_after es (upd disk lpa (Some (page_of buf)))
  | _ :: es => disk_after es disk
  end.

(** ** What it leaves behind *)
Implicit Types (H ps : list Z) (l lpa : Z).

(** [H] are the pages written, the last one first. *)
Definition pages_of H l : list Z := filter (fun x => x / n = l) H.
Definition writes H l : Z := arr_len (pages_of H l).
Definition blocks_in H : list Z := remove_dups (map (fun x => x / n) H).
(** How many of the last writes to a logical block were to its first pages, in
    order. *)
Fixpoint run_of ps : Z :=
  match ps with
  | [] => 0
  | x :: ps => let k := run_of ps in if x mod n =? k then k + 1 else if x mod n =? 0 then 1 else 0
  end.
(** The logical blocks with fewer writes than a block has pages: they may have
    a log block only. *)
Definition partial H : list Z := filter (fun l => writes H l < n) (blocks_in H).

(** What a write of [lpa] needs of the history [H] before it: the page is on
    the disk; after the pages of a logical block but the last, in order, only
    the last is written; the tables have room for the logical blocks that have
    no data block yet; and there are good blocks for all logical blocks. *)
Definition write_ok (good : Z) H lpa : bool :=
  (0 <=? lpa) && (lpa <? nr_blks g * n) &&
  ((negb (run_of (pages_of H (lpa / n)) =? n - 1)) || (lpa mod n =? n - 1)) &&
  (arr_len (partial H) + 2 <? DL_MAX_BLOCKS) && ((arr_len (partial H) + 1) * (n - 1) <? DL_MAX_PAGES) &&
  (2 * nr_mt g + arr_len (blocks_in H) + OVERHEAD <=? good).
Fixpoint history_ok (good : Z) H (es : list event) : bool :=
  match es with
  | [] => true
  | EWrite lpa buf :: es => write_ok good H lpa && (writesize g <=? arr_len buf) && history_ok good (lpa :: H) es
  | ERead lpa buf :: es =>
      (0 <=? lpa) && (lpa <? nr_blks g * n) && (writesize g <=? arr_len buf) && history_ok good H es
  | EPower :: es => history_ok good H es
  end.

(** ** One write more *)
Lemma pages_of_cons H lpa l : pages_of (lpa :: H) l = if decide (lpa / n = l) then lpa :: pages_of H l else pages_of H l.
Proof. unfold pages_of. by rewrite filter_cons. Qed.
Lemma writes_same H lpa : writes (lpa :: H) (lpa / n) = writes H (lpa / n) + 1.
Proof. unfold writes. rewrite pages_of_cons, decide_True by done. rewrite arr_len_cons. lia. Qed.
Lemma writes_other H lpa l : l <> lpa / n -> writes (lpa :: H) l = writes H l.
Proof. intros Hl. unfold writes. by rewrite pages_of_cons, decide_False by congruence. Qed.
Lemma blocks_in_elem H l : l ∈ blocks_in H <-> l ∈ map (fun x => x / n) H.
Proof. unfold blocks_in. by rewrite elem_of_remove_dups. Qed.
Lemma writes_none H l : l ∉ blocks_in H -> writes H l = 0.
Proof.
  rewrite blocks_in_elem. unfold writes. induction H as [|x H IH]; [done|]. cbn [map].
  intros [Hx Hl]%not_elem_of_cons. rewrite pages_of_cons, decide_False by congruence. by apply IH.
Qed.
End Events.

(** ** The layer keeps track *)
Section Track.
Context {W : Type} {WW : World W} (g : mtd_info) {N : NandLaws W g}.
Hypothesis geo : nand_geo g.
Implicit Types (s : nftl W) (G : ghost) (H : list Z) (l lpa : Z).
Notation n := (nr_pgsinblk g).
Notation page_of buf := (take (Z.to_nat (writesize g)) buf).

(** The pages of a log block are the first of the logical block, in order. *)
Definition ordered (h : dl_blockinfo) es : Prop :=
  forall i, 0 <= i < dlb_used h -> ent_lookup es (dlb_lba h * n + i) = Some i.

(** The state after the writes [H], on a chip with the bad blocks [bad]. *)
Record tracks (bad : Z -> bool) H s G : Prop := {
  tr_settled : settled g s G;
  tr_bad : nd_bad (world s) = bad;
  tr_touched : forall l, touched G l <-> l ∈ blocks_in g H;
  tr_fresh : forall h es, (h, es) ∈ gh_dl G -> gh_data G (dlb_lba h) = None -> dlb_used h = writes g H (dlb_lba h);
  tr_run : forall h es, (h, es) ∈ gh_dl G -> ordered h es -> run_of g (pages_of g H (dlb_lba h)) = dlb_used h;
  tr_blocks : exists L, arr_len (gh_dl G) <= DL_MAX_BLOCKS_DIV4 \/ unmapped_but L G;
  tr_ents : exists L, arr_len (ents (gh_dl G)) <= DL_MAX_PAGES_DIV4 \/ unmapped_but L G
}.

Lemma tracks_fresh bad H s G h es : tracks bad H s G -> (h, es) ∈ gh_dl G -> gh_data G (dlb_lba h) = None ->
  dlb_lba h ∈ partial g H.
Proof.
  intros HT Hin Hd. apply list_elem_of_filter. split.
  - rewrite <- (tr_fresh _ _ _ _ HT h es Hin Hd). by apply (sd_open _ _ _ (tr_settled _ _ _ _ HT) h es).
  - apply (tr_touched _ _ _ _ HT). right. by eapply logged_group.
Qed.
(** A log of unmapped blocks is no larger than the history allows. *)
Lemma tracks_log bad H s G L : tracks bad H s G -> unmapped_but L G -> arr_len (gh_dl G) <= arr_len (partial g H) + 1.
Proof.
  intros HT Hu. pose proof (dk_nodup _ _ _ (ft_dl _ _ _ (sd_ftl _ _ _ (tr_settled _ _ _ _ HT)))) as Hnd.
  pose proof (logged_unmapped_but G L Hnd Hu) as Hl.
  enough (Hsub : filter (fun l => gh_data G l = None) (logged G) ⊆+ partial g H)
    by (apply submseteq_length in Hsub; unfold arr_len in *; lia).
  apply NoDup_submseteq; [by apply NoDup_filter|]. intros l (Hd & Hl')%list_elem_of_filter.
  destruct (group_logged _ _ Hl') as (h & es & Hin & <-). by eapply tracks_fresh.
Qed.

Lemma tracks_can_write bad H s G lpa : tracks bad H s G -> write_ok g (good_blocks g bad) H lpa = true ->
  can_write g s G lpa.
Proof.
  intros HT Hok. pose proof HT as [HS Hb Ht Hf Hr [L1 HL1] [L2 HL2]]. pose proof HS as [HF Hopen Hbusy Hcnt Hmax].
  pose proof (ngp g geo). unfold write_ok in Hok. rewrite !andb_true_iff, orb_true_iff in Hok.
  destruct Hok as (((((O1 & O2) & O3) & O4) & O5) & O6). zbool.
  pose proof (arr_len_nonneg (partial g H)). unfold DL_MAX_BLOCKS_DIV4, DL_MAX_PAGES_DIV4, DL_MAX_BLOCKS, DL_MAX_PAGES in *.
  split.
  - lia.
  - apply (reserve_counted g s G (blocks_in g H) L1 HS); [by intros l; apply Ht|apply NoDup_remove_dups|done|by rewrite Hb].
  - unfold DL_MAX_BLOCKS. destruct HL1 as [?|Hu]; [lia|]. pose proof (tracks_log _ _ _ _ _ HT Hu). lia.
  - unfold DL_MAX_PAGES. destruct HL2 as [?|Hu]; [lia|]. pose proof (tracks_log _ _ _ _ _ HT Hu).
    pose proof (ents_bound g (gh_dl G)) as Hbd. pose proof (arr_len_nonneg (gh_dl G)).
    assert (arr_len (ents (gh_dl G)) <= arr_len (gh_dl G) * (n - 1)); [|nia].
    apply Hbd. intros h es Hin. pose proof (Hopen h es Hin).
    pose proof (dk_groups _ _ _ (ft_dl _ _ _ HF)) as Hg. eapply Forall_forall in Hg; [|exact Hin].
    pose proof (go_valid _ _ Hg). pose proof (go_used _ _ Hg). cbn in *. lia.
  - intros h es Hin Hl [Hu Hseq]. destruct O3 as [O3|O3]; [|by zbool].
    apply negb_true_iff in O3. zbool. exfalso. apply O3. rewrite <- Hl. rewrite (Hr h es Hin); [done|].
    intros i Hi. apply Hseq. lia.
Qed.

(** The order of the pages of a log block that grows by one. *)
Lemma ordered_write h es lpa : group_ok g (h, es) -> dlb_lba h = lpa / n -> dlb_used h < n ->
  ordered (group_write h es lpa).1 (group_write h es lpa).2 -> ordered h es /\ lpa mod n = dlb_used h.
Proof.
  intros Hg Hl Hu Ho. pose proof (ngp g geo). pose proof (go_used _ _ Hg) as Hv. pose proof (go_valid _ _ Hg) as Hv'.
  pose proof (arr_len_nonneg es). pose proof (go_lpas _ _ Hg) as Hes. cbn in Hv, Hv', Hes.
  assert (Hlk : forall i, 0 <= i < dlb_used h + 1 ->
    (if dlb_lba h * n + i =? lpa then Some (dlb_used h) else ent_lookup es (dlb_lba h * n + i)) = Some i).
  { intros i Hi. specialize (Ho i). cbn [group_write fst snd dlb_used dlb_lba] in Ho. rewrite ent_lookup_put in Ho. by apply Ho. }
  split.
  - intros i Hi. specialize (Hlk i ltac:(lia)). destruct (_ =? lpa); [|done]. injection Hlk as E. lia.
  - specialize (Hlk (dlb_used h) ltac:(lia)). destruct (_ =? lpa) eqn:E; zbool.
    + rewrite <- E, Z.add_comm, Z.mod_add by lia. apply Z.mod_small. lia.
    + exfalso. pose proof (ent_lookup_range g _ _ _ _ Hg Hlk). cbn in *. lia.
Qed.

Lemma tracks_write bad H s G lpa d s' G' :
  tracks bad H s G -> written g s G lpa d s' G' -> dl_open g G' -> tidy g lpa G' -> tracks bad (lpa :: H) s' G'.
Proof.
  intros HT HW Ho [T1 T2]. pose proof HT as [HS Hb Ht Hf Hr _ _]. pose proof HS as [HF Hopen Hbusy Hcnt Hmax].
  pose proof (wr_log _ _ _ _ _ _ _ HW) as [R1 R2 R3 R4 R5]. pose proof (ngp g geo).
  assert (Hgo : forall h es, (h, es) ∈ gh_dl G -> group_ok g (h, es)).
  { intros h es Hin. pose proof (dk_groups _ _ _ (ft_dl _ _ _ HF)) as Hg. by eapply Forall_forall in Hg. }
  split.
  - by eapply settled_write.
  - by rewrite (wr_bad _ _ _ _ _ _ _ HW).
  - intros l. rewrite R5, Ht, !blocks_in_elem. cbn [map]. rewrite elem_of_cons. tauto.
  - intros h es Hin Hd. destruct (decide (dlb_lba h = lpa / n)) as [El|Hne].
    + destruct (R2 h es Hin El) as [(h0 & es0 & Hin0 & El0 & [= -> ->])|(b & [= -> ->] & Hor)]; cbn [dlb_lba dlb_used] in *.
      * rewrite El0, writes_same, <- El0, <- (Hf h0 es0 Hin0); [done|].
        destruct (gh_data G (dlb_lba h0)) eqn:E; [|done]. exfalso. apply (R3 (dlb_lba h0)); [congruence|done].
      * rewrite writes_same, (writes_none g H); [done|]. rewrite <- Ht. intros [Hd'|Hl'].
        -- by apply (R3 _ Hd').
        -- by destruct Hor.
    + rewrite writes_other by done. apply (Hf h es); [by apply R1|]. rewrite <- R4; [done|by eapply logged_group|done].
  - intros h es Hin Hord. destruct (decide (dlb_lba h = lpa / n)) as [El|Hne].
    + rewrite El, pages_of_cons, decide_True by done. cbn [run_of].
      destruct (R2 h es Hin El) as [(h0 & es0 & Hin0 & El0 & E)|(b & [= -> ->] & Hor)].
      * injection E as -> ->. destruct (ordered_write h0 es0 lpa (Hgo h0 es0 Hin0) El0 (Hopen h0 es0 Hin0) Hord) as [Ho0 Hm].
        rewrite <- El0, (Hr h0 es0 Hin0 Ho0), Hm, Z.eqb_refl. done.
      * cbn [dlb_used]. specialize (Hord 0 ltac:(cbn; lia)). cbn [dlb_lba ent_lookup dlt_lpa] in Hord.
        rewrite Z.add_0_r in Hord. destruct (lpa =? _) eqn:E; zbool; [|done].
        assert (Hm : lpa mod n = 0) by (rewrite E; apply Z.mod_mul; lia). rewrite Hm.
        destruct (0 =? run_of g _) eqn:E'; zbool; [by rewrite <- E'|done].
    + rewrite pages_of_cons, decide_False by congruence. apply (Hr h es); [by apply R1|done].
  - by exists (lpa / n).
  - by exists (lpa / n).
Qed.

(** The power fails. *)
Lemma unmapped_but_perm L G G' : gh_dl G' ≡ₚ gh_dl G -> gh_data G' = gh_data G -> unmapped_but L G -> unmapped_but L G'.
Proof. intros Hp Hd Hu h es. rewrite Hp, Hd. apply Hu. Qed.
Lemma tracks_restored bad H s G s' G' :
  tracks bad H s G -> restored g s G s' G' -> tracks bad H s' G'.
Proof.
  intros [_ Hb Ht Hf Hr [L1 HL1] [L2 HL2]] [Q1 Q2 Q3 Q4 Q5 Q6 Q7 Q8 Q9 Q10 Q11].
  split.
  - done.
  - by rewrite (sp_bad _ _ _ Q2).
  - intros l. rewrite <- Ht. unfold touched, logged. rewrite Q8.
    by rewrite (Permutation_map (fun ge : dl_group => dlb_lba ge.1) Q5).
  - intros h es. rewrite Q5, Q8. apply Hf.
  - intros h es. rewrite Q5. apply Hr.
  - exists L1. destruct HL1 as [HL|HL]; [left|right; by eapply unmapped_but_perm].
    unfold arr_len in *. by rewrite Q5.
  - exists L2. destruct HL2 as [HL|HL]; [left|right; by eapply unmapped_but_perm].
    pose proof (submseteq_ents (gh_dl G') (gh_dl G) ltac:(by rewrite Q5)). lia.
Qed.

(** Reading. *)
Lemma tracks_read bad H s G s' : tracks bad H s G -> ftl g s' G -> only_read g s s' -> tracks bad H s' G.
Proof.
  intros [[HF Ho Hbusy Hcnt Hmax] Hb Ht Hf Hr HL1 HL2] HF' O. destruct (only_read_same g _ _ O) as (E1 & E2 & E3 & E4 & E5 & E6).
  split; try done; [|by rewrite (only_read_bad g _ _ O)]. split; [done|done|done|by rewrite E2|by rewrite E4].
Qed.
End Track.

(** ** The disk a history leaves *)
Section Disk.
Context {W : Type} {WW : World W} (g : mtd_info) {N : NandLaws W g}.
Hypothesis geo : nand_geo g.
Implicit Types (s : nftl W) (w : W) (G : ghost) (H : list Z) (es : list event) (D : Z -> option (list Z)).
Notation n := (nr_pgsinblk g).
Notation page_of buf := (take (Z.to_nat (writesize g)) buf).

(** The logical pages hold what disk [D] holds; a page never written reads as
    0xFF, unless it is the first of its block. *)
Definition shows s G D : Prop := forall x, match D x with
  | Some d => logical g (world s) G x = Some d
  | None => x mod n = 0 \/ page_read g (logical g (world s) G x) = page_read g None
  end.
Lemma shows_same s G s' G' D : (forall x, logical g (world s') G' x = logical g (world s) G x) ->
  shows s G D -> shows s' G' D.
Proof. intros E HD x. specialize (HD x). by rewrite E. Qed.
Lemma shows_write s G lpa d s' G' D : wrote g (world s) G (world s') G' lpa d -> shows s G D ->
  shows s' G' (upd D lpa (Some d)).
Proof.
  intros [H1 H2] HD x. unfold upd. case_decide as Hx; [by subst|]. specialize (HD x). specialize (H2 x Hx).
  unfold keeps_page in H2. destruct (D x) as [v|].
  - by rewrite HD in H2.
  - destruct HD as [HD|HD]; [by left|]. destruct (logical g (world s) G x); [right; by rewrite H2|done].
Qed.

Context (bad : Z -> bool) (mo : mountable g bad).

Lemma do_event_run e es H s G D :
  tracks g bad H s G -> shows s G D -> history_ok g (good_blocks g bad) H (e :: es) = true ->
  wp (do_event g e) (fun r s' => r = 0 /\ exists H' G' D', tracks g bad H' s' G' /\ shows s' G' D' /\
    disk_after g (e :: es) D = disk_after g es D' /\ history_ok g (good_blocks g bad) H' es = true) s.
Proof.
  intros HT HD Hok. pose proof (tr_settled _ _ _ _ _ HT) as HS. destruct e as [lpa buf|lpa buf|]; cbn [do_event history_ok] in *.
  - rewrite !andb_true_iff in Hok. destruct Hok as ((Hw & Hb) & Hes). zbool.
    eapply wp_mono; [apply (nftl_write_logicpage_run g geo s G lpa buf (sd_ftl _ _ _ HS) (sd_open _ _ _ HS)); [|done]|].
    { by eapply (tracks_can_write g geo). }
    intros r s' (-> & G' & HW & Ho & Hti). split; [done|].
    exists (lpa :: H), G', (upd D lpa (Some (page_of buf))). split_and!; [by eapply (tracks_write g geo)| |done|done].
    eapply shows_write; [apply HW|done].
  - rewrite !andb_true_iff in Hok. destruct Hok as (((Hl & Hl') & Hb) & Hes). zbool.
    apply wp_bind. apply (nftl_read_logicpage_run g geo s G lpa buf); [apply HS|rewrite (sd_maxlp _ _ _ HS); lia|done|].
    intros s' buf' HF' O _ _. apply wp_ret. split; [done|]. exists H, G, D.
    split_and!; [by eapply tracks_read| |done|done].
    eapply shows_same; [|done]. intros x. destruct O as (c & f & -> & Hs). by apply logical_same.
  - unfold power_fail, wp. pose proof (NFTL_mount_again g geo s G HS ltac:(by rewrite (tr_bad _ _ _ _ _ HT))) as HM.
    eapply wp_mono in HM; [exact HM|]. intros r s' (-> & G' & HR). split; [done|]. exists H, G', D.
    split_and!; [by eapply tracks_restored| |done|done]. eapply shows_same; [|done]. apply HR.
Qed.
Lemma run_events_run es : forall H s G D,
  tracks g bad H s G -> shows s G D -> history_ok g (good_blocks g bad) H es = true ->
  wp (run_events g es) (fun r s' => r = 0 /\ exists H' G', tracks g bad H' s' G' /\ shows s' G' (disk_after g es D)) s.
Proof.
  induction es as [|e es IH]; intros H s G D HT HD Hok.
  - apply wp_ret. split; [done|]. by exists H, G.
  - cbn [run_events]. apply wp_bind. eapply wp_mono; [by apply (do_event_run e es H s G D)|].
    intros r s1 (-> & H1 & G1 & D1 & HT1 & HD1 & -> & Hok1). change (truth 0) with false. cbv iota. by apply (IH H1 s1 G1 D1).
Qed.

(** An erased chip. *)
Lemma mounted_tracks w s G : settled g s G -> mounted g w s G -> nd_bad w = bad ->
  tracks g bad [] s G /\ shows s G (fun _ => None).
Proof.
  intros HS [M1 M2 M3 M4 M5 M6 M7 M8 M9 M10 M11 M12] Hb. split.
  - split; [done|congruence| | | | |].
    + intros l. unfold touched, logged. rewrite M2, M12. cbn. split; [by intros [?|?%elem_of_nil]|by intros ?%elem_of_nil].
    + intros h es. rewrite M2. by intros ?%elem_of_nil.
    + intros h es. rewrite M2. by intros ?%elem_of_nil.
    + exists 0. left. rewrite M2. done.
    + exists 0. left. rewrite M2. done.
  - intros x. right. by rewrite M4.
Qed.
End Disk.

(** ** The theorem *)
Section Whole.
Context {W : Type} {WW : World W} (g : mtd_info) {N : NandLaws W g}.
Hypothesis geo : nand_geo g.
Implicit Types (w : W) (es : list event).
Notation page_of buf := (take (Z.to_nat (writesize g)) buf).

(** C3. Whole histories.  An erased chip is mounted, then pages are written and
    read, any number of times, and the power fails any number of times between
    two operations.  Every operation and every mount answers 0, and in the end
    every page reads as it was last written; a page never written reads as
    0xFF, unless it is the first of its block.  What is asked of the history
    ([history_ok]) concerns the pages written: no write falls into the trap of
    a log block in order, the logical blocks without a data block fit the
    DataLog table, and there are blocks for all logical blocks. *)
Theorem history_correct w es
  (HE : erased_chip g w) (mo : mountable g (nd_bad w))
  (Hok : history_ok g (good_blocks g (nd_bad w)) [] es = true) :
  exists s0 s1, NFTL_mount g (at_load w) = Done 0 s0 /\ run_events g es s0 = Done 0 s1 /\
    forall x out, 0 <= x < nr_blks g * nr_pgsinblk g -> writesize g <= arr_len out ->
      exists s2 out', nftl_read_logicpage g x out s1 = Done (0, out') s2 /\
        match disk_after g es (fun _ => None) x with
        | Some d => page_of out' = d
        | None => x mod nr_pgsinblk g = 0 \/ page_of out' = replicate (Z.to_nat (writesize g)) 0xff
        end.
Proof.
  destruct (mount_settled g geo w HE mo) as (s0 & G0 & R0 & HS & HM).
  destruct (mounted_tracks g (nd_bad w) w s0 G0 HS HM eq_refl) as [HT HD].
  destruct (proj1 (wp_run _ _ _) (run_events_run g geo (nd_bad w) mo es [] s0 G0 (fun _ => None) HT HD Hok))
    as (r & s1 & R1 & -> & H' & G1 & HT1 & HD1).
  exists s0, s1. split_and!; [done|done|]. intros x out Hx Hout. pose proof (tr_settled _ _ _ _ _ HT1) as HS1.
  destruct (proj1 (wp_run _ _ _) (nftl_read_logicpage_run g geo s1 G1 x out
    (fun r s' => exists out', r = (0, out') /\ page_of out' = page_read g (logical g (world s1) G1 x)) (sd_ftl _ _ _ HS1)
    ltac:(by rewrite (sd_maxlp _ _ _ HS1)) Hout ltac:(intros s' out' _ _ _ E; by exists out'))) as (r & s2 & R2 & out' & -> & E2).
  exists s2, out'. split; [done|]. specialize (HD1 x). destruct (disk_after g es _ x) as [d|].
  - by rewrite E2, HD1.
  - destruct HD1 as [HD1|HD1]; [by left|right]. by rewrite E2, HD1.
Qed.
End Whole.

(** ** A concrete chip *)
Section Example.
(** 256 blocks of 4 pages of 32 bytes, one of them bad. *)
Definition wide_geo : mtd_info := MkMtd (256 * 128) 128 32 8.
Notation g := wide_geo.
#[local] Instance wide_world : World chip := chip_world g.

Lemma wide_geo_ok : nand_geo g.
Proof. split; try (vm_compute; intuition congruence). by exists 5. Qed.
#[local] Instance wide_laws : NandLaws chip g := chip_laws g wide_geo_ok.
Lemma wide_erased : erased_chip g one_bad.
Proof.
  split.
  - apply map_Forall_empty.
  - by split.
  - done.
  - intros b p _. apply lookup_empty.
Qed.
Lemma wide_mountable : mountable g (nd_bad one_bad).
Proof. split; vm_compute; intuition congruence. Qed.

(** A logical block written in order and then page by page again, others
    besides, with the power failing in between. *)
Definition long_history : list event :=
  map (fun i => EWrite (40 + i mod 4) (data_of i)) (seqZ 0 60) ++ [EPower; EWrite 7 (data_of 3); ERead 41 (data_of 0); EPower].

Lemma history_correct_witness : exists s0 s1 s2 s3 out out',
  NFTL_mount g (at_load one_bad) = Done 0 s0 /\ run_events g long_history s0 = Done 0 s1 /\
  nftl_read_logicpage g 43 (data_of 0) s1 = Done (0, out) s2 /\ take 32 out = data_of 59 /\
  nftl_read_logicpage g 7 (data_of 0) s1 = Done (0, out') s3 /\ take 32 out' = data_of 3.
Proof.
  destruct (history_correct g wide_geo_ok one_bad long_history wide_erased wide_mountable) as (s0 & s1 & H0 & H1 & H2).
  - vm_compute. reflexivity.
  - destruct (H2 43 (data_of 0)) as (s2 & out & R2 & E2); [split; [discriminate|reflexivity]|discriminate|].
    destruct (H2 7 (data_of 0)) as (s3 & out' & R3 & E3); [split; [discriminate|reflexivity]|discriminate|].
    assert (D2 : disk_after g long_history (fun _ => None) 43 = Some (data_of 59)) by (vm_compute; reflexivity).
    assert (D3 : disk_after g long_history (fun _ => None) 7 = Some (data_of 3)) by (vm_compute; reflexivity).
    rewrite D2 in E2. rewrite D3 in E3.
    exists s0, s1, s2, s3, out, out'. split; [exact H0|]. split; [exact H1|]. split; [exact R2|]. split; [exact E2|].
    split; [exact R3|exact E3].
Defined.
End Example.
