(* ===== verification/NftlDevice.v ===== *)
(** * NFTL: the block device on the translation layer

    The front end ([NftlCore]) linked with the layer below ([NftlMount],
    [NftlData]): that layer keeps the contract [PageStoreLaws] for the pages a
    history of writes allows it ([write_ok]), so that whatever sequence of
    sectors, pages and flushes is written to the device, its sectors read as they
    were last written. *)

From Stdlib Require Import ZArith Lia.
From stdpp Require Import base numbers list gmap sets.
From S2P Require Import Prelude CMonad NftlTypes NftlAlloc NftlLog NftlDl NftlMtl MtdDev NftlState MtdSim.
From S2P Require Import NandLaws ChipLaws NftlFlash NftlFlashSpec NftlGarbage NftlTold NftlInv NftlGarbageSpec.
From S2P Require Import NftlMap NftlMapSpec NftlMapUpdate NftlMapContract NftlData NftlDataSpec NftlDataMerge NftlDataShrink NftlDataWrite.
From S2P Require Import NftlDataContract NftlMount NftlMountSpec NftlPersist NftlRemount NftlRemountSpec NftlCycle NftlResources.
From S2P Require Import NftlHistory NftlCore NftlCoreSpec.

(** ** Requests of the block layer *)
Inductive request :=
  | WriteSector (sect : Z) (buffer : list Z)
  | WritePage (page : Z) (buffer : list Z)
  | Flush.

Section Requests.
Context {S : Type} {P : PageStore S} (g : mtd_info).
Implicit Types (c : core S) (r : request) (rs : list request) (key : list Z).
Notation ws := (writesize g).
Notation pps := (pages_per_sector g).

(** A page is as many sectors of 512 bytes as it holds. *)
Definition do_request r : M (core S) Z :=
  match r with
  | WriteSector sect buffer => nftl_writesect g sect buffer
  | WritePage page buffer => nftl_writesects g page buffer (ws / 512)
  | Flush => nftl_flush g ;; ret 0
  end.
Fixpoint do_requests rs : M (core S) Z :=
  match rs with
  | [] => ret 0
  | r :: rs => let! e := do_request r in if truth e then ret e else do_requests rs
  end.
(** Sectors read in turn, up to the first that cannot be read. *)
Fixpoint read_sectors (sects : list Z) : M (core S) (list (list Z)) :=
  match sects with
  | [] => ret []
  | sect :: sects =>
      let! o := nftl_readsect g sect (replicate (Z.to_nat SECTORSIZE) 0) in
      if truth (fst o) then ret [] else let! outs := read_sectors sects in ret (snd o :: outs)
  end.

(** The sectors of the device but the last, and whole pages. *)
Definition sector_in (sect : Z) : bool := (0 <=? sect) && ((sect + 1) * pps <? nr_blks g * nr_pgsinblk g).
Definition request_ok r : bool :=
  match r with
  | WriteSector sect buffer => sector_in sect && (arr_len buffer =? SECTORSIZE)
  | WritePage page buffer => whole_page g (ws / 512) && (ws <=? arr_len buffer)
  | Flush => true
  end.

(** The pages that reach the page layer, in turn: [key] is the page in the write
    cache. *)
Definition request_writes key r : list Z * list Z :=
  match r with
  | WriteSector sect _ => sect_writes g key sect
  | WritePage page _ => (key ++ [page], [])
  | Flush => (key, [])
  end.
Fixpoint requests_writes key rs : list Z :=
  match rs with
  | [] => []
  | r :: rs => fst (request_writes key r) ++ requests_writes (snd (request_writes key r)) rs
  end.

(** What the pages of the device hold afterwards. *)
Definition request_contents r (D : Z -> option (list Z)) : Z -> option (list Z) :=
  match r with
  | WriteSector sect buffer => patched g D (sect * pps) pps buffer
  | WritePage page buffer => fun q => if q =? page then Some (take (Z.to_nat ws) buffer) else D q
  | Flush => D
  end.
Fixpoint contents rs (D : Z -> option (list Z)) : Z -> option (list Z) :=
  match rs with [] => D | r :: rs => contents rs (request_contents r D) end.
Definition holds (D : Z -> option (list Z)) (sect : Z) (out : list Z) : Prop :=
  forall j d, 0 <= j < pps -> D (sect * pps + j) = Some d -> sector_page g out j = d.

Lemma request_contents_mono r D D' : shown D D' -> shown (request_contents r D) (request_contents r D').
Proof.
  intros H q d. destruct r as [sect buf|page buf|]; cbn [request_contents]; [unfold patched; case_match|case_match|]; auto.
Qed.
Lemma shown_trans D1 D2 D3 : shown D1 D2 -> shown D2 D3 -> shown D1 D3.
Proof. intros H1 H2 q d Hq. by apply H2, H1. Qed.

(** ** On a page layer that keeps its contract and does not fail *)
Context {L : PageStoreLaws S g}.
Hypothesis geo : geo_ok g.
Hypothesis small : nr_blks g * erasesize g <= 2 ^ 32.
Hypothesis served : serves g.
Implicit Types a : ps_state.

Lemma sector_in_ok sect : sector_in sect = true -> sect_ok g sect /\ (sect + 1) * pps < nr_blks g * nr_pgsinblk g.
Proof.
  intros [H1 H2]%andb_true_iff. zbool. split; [|done]. split; [done| |done]. pose proof (geo_ws g geo). rewrite (geo_es g geo).
  destruct (geo_sect g geo) as (k & Hk & He). assert (Hp : pps = k) by (unfold pages_per_sector; rewrite He; apply Z.div_mul; lia).
  rewrite Hp in H2. rewrite He. nia.
Qed.

(** The state is sound again and the read cache is not touched. *)
Record keeps c c' a' : Prop := {
  kp_ok : core_ok g a' c';
  kp_readblock : l_readblock c' = l_readblock c;
  kp_readpage : l_readpage c' = l_readpage c }.

Lemma do_request_run r c a : core_ok g a c -> request_ok r = true -> can_put g a (fst (request_writes (cached g c) r)) ->
  exists c' a', do_request r c = Done 0 c' /\ keeps c c' a' /\ puts g a (fst (request_writes (cached g c) r)) a' /\
    cached g c' = snd (request_writes (cached g c) r) /\ shown (request_contents r (disk_page g a c)) (disk_page g a' c').
Proof.
  intros Hok Hr Hfit. destruct r as [sect buf|page buf|]; cbn [do_request request_ok request_writes request_contents] in *.
  - apply andb_true_iff in Hr as [[Hs Hend]%sector_in_ok Hb]. zbool.
    destruct (nftl_writesect_run g geo sect buf c a Hok Hs Hb Hfit) as (e & c' & Hw & _ & Hrb & Hrp & _ & He & H).
    rewrite (He served Hend) in *. destruct (H eq_refl) as (a' & Hput & Hok' & Hk & Hd). by exists c', a'.
  - apply andb_true_iff in Hr as [Hw Hb]. zbool. cbn [fst snd] in Hfit. apply can_put_app in Hfit as [Hfit Hfits].
    destruct (flush_cache_run g geo c a Hok Hfit) as (c1 & a1 & Hf & Hok1 & Hk1 & Hrb & Hrp & _ & _ & Hall).
    destruct (Hall (or_introl served)) as [Hput Hd1]. destruct (Hfits a1 Hput) as [Hfit1 _].
    destruct (ps_write_law (c_store c1) a1 page buf (co_rep g _ _ Hok1) Hfit1 Hb) as (r & s' & a' & Hw1 & Hrep & _ & Hv).
    assert (r = 0) as -> by (eapply (proj1 served); [apply (co_rep g _ _ Hok1)|exact Hfit1|exact Hb|exact Hw1]).
    rewrite (Hv eq_refl) in Hrep. exists (with_store s' c1), (ps_put a1 page (take (Z.to_nat ws) buf)). split_and!.
    + unfold nftl_writesects, bind at 1. rewrite Hf, Hw. unfold onS, zoom. by rewrite Hw1.
    + destruct Hok1 as [? ? ? ?]. split; [by split|done|done].
    + eapply puts_app; [exact Hput|]. by exists (take (Z.to_nat ws) buf).
    + done.
    + intros q d. unfold disk_page at 2. assert (Hv1 : wcache_valid (with_store s' c1) = false).
      { change (wcache_valid c1 = false). unfold cached in Hk1. by destruct (wcache_valid c1). }
      rewrite Hv1. cbn [andb]. rewrite ps_put_law. destruct (q =? page); [done|]. rewrite <- Hd1. unfold disk_page.
      change (wcache_valid (with_store s' c1)) with (wcache_valid c1) in Hv1. by rewrite Hv1.
  - destruct (flush_cache_run g geo c a Hok Hfit) as (c1 & a1 & Hf & Hok1 & Hk1 & Hrb & Hrp & _ & _ & Hall).
    destruct (Hall (or_introl served)) as [Hput Hd1]. exists c1, a1. split_and!; [|by split|done|done|].
    + unfold bind, nftl_flush. by rewrite Hf.
    + intros q d. by rewrite Hd1.
Qed.

Lemma do_requests_run rs : forall c a D, core_ok g a c -> forallb request_ok rs = true -> can_put g a (requests_writes (cached g c) rs) ->
  shown D (disk_page g a c) ->
  exists c' a', do_requests rs c = Done 0 c' /\ keeps c c' a' /\ shown (contents rs D) (disk_page g a' c').
Proof.
  induction rs as [|r rs IH]; intros c a D Hok Hrs Hfit HD; cbn [do_requests forallb requests_writes contents] in *.
  - exists c, a. split; [done|]. by split.
  - apply andb_true_iff in Hrs as [Hr Hrs]. apply can_put_app in Hfit as [Hfit Hfits].
    destruct (do_request_run r c a Hok Hr Hfit) as (c1 & a1 & H1 & [Hok1 Hb1 Hp1] & Hput & Hk & Hd).
    destruct (IH c1 a1 (request_contents r D)) as (c2 & a2 & H2 & [Hok2 Hb2 Hp2] & Hd2); [done|done|rewrite Hk; by apply Hfits| |].
    { eapply shown_trans; [by apply request_contents_mono|exact Hd]. }
    exists c2, a2. split; [|split; [split; congruence|done]]. unfold bind. rewrite H1. change (truth 0) with false. exact H2.
Qed.

Lemma read_sectors_run sects : forall c a D, core_ok g a c -> read_coherent g a c -> forallb sector_in sects = true ->
  shown D (disk_page g a c) -> exists outs c', read_sectors sects c = Done outs c' /\ Forall2 (holds D) sects outs.
Proof.
  induction sects as [|sect sects IH]; intros c a D Hok Hc Hs HD; cbn [read_sectors forallb] in *; [by exists [], c|].
  apply andb_true_iff in Hs as [[Hs _]%sector_in_ok Hss].
  destruct (nftl_readsect_run g geo sect (replicate (Z.to_nat SECTORSIZE) 0) c a Hok Hc Hs) as (e & out & c1 & H1 & Hok1 & _ & Hd1 & He & H).
  { unfold arr_len. rewrite length_replicate. done. }
  rewrite (He served) in *. destruct (H eq_refl) as (Hc1 & _ & Hout).
  destruct (IH c1 a D) as (outs & c2 & H2 & Hf); [done|done|done|intros q d Hq; rewrite Hd1; by apply HD|].
  exists (out :: outs), c2. split.
  - unfold bind. rewrite H1. cbn [fst snd]. change (truth 0) with false. cbv beta iota. by rewrite H2.
  - constructor; [|done]. intros j d Hj Hd. by apply Hout, HD.
Qed.
End Requests.

(** ** The layer the driver is linked with *)
Section Linked.
Context {W : Type} {WW : World W} (g : mtd_info) {N : NandLaws W g}.
Hypothesis geo : nand_geo g.
Context (bad : Z -> bool) (mo : mountable g bad).
Implicit Types (s : nftl W) (H : list Z) (D : Z -> option (list Z)).
Notation ws := (writesize g).

(** What is known of a state: the pages written, the last one first, and what they
    hold. *)
Definition layer_rep s (a : list Z * (Z -> option (list Z))) : Prop :=
  (exists G, tracks g bad (fst a) s G /\ shows g s G (snd a)) /\ forall p d, snd a p = Some d -> arr_len d = ws.
Definition layer_fits (a : list Z * (Z -> option (list Z))) (p : Z) : Prop := write_ok g (good_blocks g bad) (fst a) p = true.
Definition layer_put (a : list Z * (Z -> option (list Z))) (p : Z) (d : list Z) : list Z * (Z -> option (list Z)) :=
  (p :: fst a, upd (snd a) p (Some d)).

Lemma layer_read s a p buf : layer_rep s a -> in_u32 p -> ws <= arr_len buf ->
  exists r buf' s', nftl_read_logicpage g p buf s = Done (r, buf') s' /\ layer_rep s' a /\ arr_len buf' = arr_len buf /\
    (u8 r = 0 -> forall d, snd a p = Some d -> take (Z.to_nat ws) buf' = d) /\ (0 <= p < nr_blks g * nr_pgsinblk g -> r = 0).
Proof.
  intros [(G & HT & HD) Hl] Hp Hb. pose proof (tr_settled _ _ _ _ _ HT) as HS.
  assert (Hafter : forall s', ftl g s' G -> only_read g s s' -> layer_rep s' a).
  { intros s' HF' O. split; [|done]. exists G. split; [by eapply tracks_read|]. eapply shows_same; [|exact HD].
    intros x. destruct O as (c & f & -> & Hs). by apply logical_same. }
  destruct (decide (p < nr_blks g * nr_pgsinblk g)) as [Hlt|Hge].
  - destruct (proj1 (wp_run _ _ _) (nftl_read_logicpage_run g geo s G p buf
      (fun o s' => exists buf', o = (0, buf') /\ layer_rep s' a /\ arr_len buf' = arr_len buf /\
        take (Z.to_nat ws) buf' = page_read g (logical g (world s) G p))
      (sd_ftl _ _ _ HS) ltac:(rewrite (sd_maxlp _ _ _ HS); unfold in_u32 in Hp; lia) Hb
      ltac:(intros s' buf' HF' O Hlen Ht; exists buf'; auto))) as (o & s' & R & buf' & -> & Hrep & Hlen & Ht).
    exists 0, buf', s'. split_and!; try done. intros _ d Hd. specialize (HD p). rewrite Hd in HD. by rewrite Ht, HD.
  - assert (Hrun : wp (nftl_read_logicpage g p buf) (fun o s' => o = (-1, buf) /\ ftl g s' G /\ only_read g s s') s).
    { unfold nftl_read_logicpage. apply wp_bind. eapply (stack16_run g geo); [apply HS|]. intros x s1 HF1 O1.
      assert (E1 : n_maxlp s1 = n_maxlp s) by by destruct O1 as (c & f & -> & _).
      apply wp_bind, wp_gets. rewrite E1, (sd_maxlp _ _ _ HS). destruct (p >=? _) eqn:E; zbool; [|lia]. by apply wp_ret. }
    apply wp_run in Hrun as (o & s' & R & -> & HF' & O). exists (-1), buf, s'. split_and!; [done|by apply Hafter|done|done|lia].
Qed.
Lemma layer_write s a p data : layer_rep s a -> layer_fits a p -> ws <= arr_len data ->
  exists s', nftl_write_logicpage g p data s = Done 0 s' /\ layer_rep s' (layer_put a p (take (Z.to_nat ws) data)).
Proof.
  intros [(G & HT & HD) Hl] Hfit Hb. pose proof (tr_settled _ _ _ _ _ HT) as HS.
  destruct (proj1 (wp_run _ _ _) (nftl_write_logicpage_run g geo s G p data (sd_ftl _ _ _ HS) (sd_open _ _ _ HS)
    ltac:(by eapply (tracks_can_write g geo)) Hb)) as (r & s' & R & -> & G' & HW & Ho & Hti).
  exists s'. split; [exact R|]. split.
  - exists G'. split; [by eapply (tracks_write g geo)|]. eapply shows_write; [apply HW|exact HD].
  - intros q d. cbn [layer_put snd]. unfold upd. case_decide as E; [|apply Hl]. intros [= <-].
    pose proof (ng_ws_range g geo). rewrite arr_len_take; lia.
Qed.

#[local] Instance layer_laws : @PageStoreLaws (nftl W) (nftl_store W g) g.
Proof using All.
  refine {| ps_rep := layer_rep; ps_page a := snd a; ps_put := layer_put; ps_fits := layer_fits |}.
  - intros s a p d [_ Hl]. apply Hl.
  - intros a p d q. cbn [layer_put snd]. unfold upd. case_decide as E; [by rewrite E, Z.eqb_refl|by apply Z.eqb_neq in E as ->].
  - intros s a p buf Hs Hp Hb. destruct (layer_read s a p buf Hs Hp Hb) as (r & buf' & s' & R & Hs' & Hlen & Hd & _). by exists r, buf', s'.
  - intros s a p data Hs Hfit Hb. destruct (layer_write s a p data Hs Hfit Hb) as (s' & R & Hs').
    exists 0, s', (layer_put a p (take (Z.to_nat ws) data)). split_and!; try done.
    intros q Hq. cbn [layer_put snd]. by rewrite upd_ne.
Defined.
Lemma layer_serves : serves g (L := layer_laws).
Proof using All.
  split.
  - intros s a p data r s' Hs Hfit Hb R. destruct (layer_write s a p data Hs Hfit Hb) as (s1 & R1 & _).
    change (nftl_write_logicpage g p data s = Done r s') in R. congruence.
  - intros s a p buf r buf' s' Hs Hp Hb R. pose proof (ng_size g geo) as Hsz. pose proof (ng_ws_range g geo). pose proof (ng_pgs g geo).
    destruct (layer_read s a p buf Hs) as (r1 & buf1 & s1 & R1 & _ & _ & _ & Hz); [|done|].
    + rewrite (ng_es g geo) in Hsz. unfold in_u32. nia.
    + change (nftl_read_logicpage g p buf s = Done (r, buf') s') in R. rewrite R1 in R. injection R as <- _ _. by apply Hz.
Qed.

(** Pages that can be written in turn. *)
Fixpoint pages_ok H (ps : list Z) : bool :=
  match ps with [] => true | p :: ps => write_ok g (good_blocks g bad) H p && pages_ok (p :: H) ps end.
Lemma pages_can_put ps : forall a, pages_ok (fst a) ps = true -> can_put g (L := layer_laws) a ps.
Proof.
  induction ps as [|p ps IH]; intros a Ha; cbn [pages_ok can_put] in *; [done|]. apply andb_true_iff in Ha as [Hp Hps].
  split; [exact Hp|]. intros d. by apply IH.
Qed.
End Linked.

(** ** The device *)
Section Device.
Context {W : Type} {WW : World W} (g : mtd_info) {N : NandLaws W g}.
Hypothesis geo : nand_geo g.
Hypothesis sectors : geo_ok g.

(** The caches as the module is loaded. *)
Definition core_at_load (s : nftl W) : core (nftl W) :=
  MkCore s 0xffff 0xff (replicate (Z.to_nat NAND_MAX_PAGESIZE) 0) 0xffff 0xff (replicate (Z.to_nat NAND_MAX_PAGESIZE) 0).

(** C25. The block device from its requests to the flash.  An erased chip is
    mounted, then sectors and whole pages are written and the cache is flushed, in
    any order: as long as the pages that reach the translation layer, which the
    write cache makes other ones than those written ([requests_writes]), are in turn
    ones it can take ([write_ok]), every request answers 0.  Then sectors are read,
    any number of them, and each reads as its pages were last written, those of the
    write cache included. *)
Theorem device_correct w rs sects
    (HE : erased_chip g w) (mo : mountable g (nd_bad w)) (Hrs : forallb (request_ok g) rs = true)
    (Hfit : pages_ok g (nd_bad w) [] (requests_writes g [] rs) = true) (Hsects : forallb (sector_in g) sects = true) :
  exists s0 c1 outs c2, NFTL_mount g (at_load w) = Done 0 s0 /\ do_requests (P := nftl_store W g) g rs (core_at_load s0) = Done 0 c1 /\
    read_sectors (P := nftl_store W g) g sects c1 = Done outs c2 /\ Forall2 (holds g (contents g rs (fun _ => None))) sects outs.
Proof.
  destruct (mount_settled g geo w HE mo) as (s0 & G0 & R0 & HS & HM).
  destruct (mounted_tracks g (nd_bad w) w s0 G0 HS HM eq_refl) as [HT HD].
  set (L := layer_laws g geo (nd_bad w) mo). set (a := ([], fun _ => None) : list Z * (Z -> option (list Z))).
  pose proof (layer_serves g geo (nd_bad w) mo) as Hserve. pose proof (ng_size g geo) as Hsz.
  assert (Hok : core_ok g (L := L) a (core_at_load s0)).
  { split; [|done|done|done]. split; [by exists G0|done]. }
  destruct (do_requests_run g (L := L) sectors ltac:(lia) Hserve rs (core_at_load s0) a (fun _ => None) Hok Hrs) as (c1 & a1 & H1 & [Hok1 Hb Hp] & Hd);
    [by apply pages_can_put|done|].
  assert (Hc1 : read_coherent g (L := L) a1 c1).
  { intros [Hin _]. rewrite Hb in Hin. cbn in Hin. pose proof (geo_blks g sectors). lia. }
  destruct (read_sectors_run g (L := L) sectors ltac:(lia) Hserve sects c1 a1 _ Hok1 Hc1 Hsects Hd) as (outs & c2 & H2 & Hf).
  by exists s0, c1, outs, c2.
Qed.
End Device.

(** ** A concrete device *)
Section Example.
(** 256 blocks of 8 pages of 2048 bytes, one of them bad: two pages to a sector. *)
Definition device_geo : mtd_info := MkMtd (256 * 16384) 16384 2048 64.
Notation g := device_geo.
#[local] Instance device_world : World chip := chip_world g.

Lemma device_nand : nand_geo g.
Proof. split; try (vm_compute; intuition congruence). by exists 11. Qed.
Lemma device_sectors : geo_ok g.
Proof. split; try (vm_compute; intuition congruence); [by exists 2|by exists 4]. Qed.
#[local] Instance device_laws : NandLaws chip g := chip_laws g device_nand.
Definition device_chip : chip := MkChip ∅ [5 * 16384] [] [] 0.
Lemma device_erased : erased_chip g device_chip.
Proof.
  split.
  - apply map_Forall_empty.
  - by split.
  - done.
  - intros b p _. apply lookup_empty.
Qed.
Lemma device_mountable : mountable g (nd_bad device_chip).
Proof. split; vm_compute; intuition congruence. Qed.

(** Sector 5 is written, then 6 in the write cache, then 5 again, a page of
    another block, and 6 again, the first page of which the cache holds. *)
Definition some_requests : list request :=
  [WriteSector 5 (replicate 4096 1); WriteSector 6 (replicate 4096 2); WriteSector 5 (replicate 2048 3 ++ replicate 2048 4);
   WritePage 40 (replicate 2048 5); Flush; WriteSector 6 (replicate 4096 6); WriteSector 9 (replicate 4096 7); WriteSector 6 (replicate 4096 8)].

Lemma device_correct_witness : exists s0 c1 out5 out6 out20 c2,
  NFTL_mount g (at_load device_chip) = Done 0 s0 /\
  do_requests (P := nftl_store chip g) g some_requests (core_at_load s0) = Done 0 c1 /\
  read_sectors (P := nftl_store chip g) g [5; 6; 20] c1 = Done [out5; out6; out20] c2 /\
  sector_page g out5 1 = replicate 2048 4 /\ sector_page g out6 0 = replicate 2048 8 /\ sector_page g out20 0 = replicate 2048 5.
Proof.
  destruct (device_correct g device_nand device_sectors device_chip some_requests [5; 6; 20] device_erased device_mountable)
    as (s0 & c1 & outs & c2 & H0 & H1 & H2 & Hf); [vm_compute; reflexivity..|].
  destruct outs as [|o5 [|o6 [|o20 [|o outs]]]]; try (exfalso; apply Forall2_length in Hf; discriminate Hf).
  apply Forall2_cons in Hf as [Hf5 Hf]. apply Forall2_cons in Hf as [Hf6 Hf]. apply Forall2_cons in Hf as [Hf20 _].
  exists s0, c1, o5, o6, o20, c2. split; [exact H0|]. split; [exact H1|]. split; [exact H2|].
  split; [apply Hf5|split; [apply Hf6|apply Hf20]]; vm_compute; (reflexivity || (split; [discriminate|reflexivity])).
Defined.
End Example.
