(* ===== verification/NftlLimits.v ===== *)
(** * NFTL: two limits nothing guards

    The DataLog table is emptied by merging log blocks into data blocks, and the
    loops that do it only merge log blocks whose logical block has an entry in
    the mapping table.  Log blocks of logical blocks that were never merged
    stay.  Nothing bounds their number: on a fresh chip, the first pages of 129
    logical blocks do not fit.  And while there are only such log blocks,
    garbage is not reclaimed: the free blocks run out before it is. *)

From Stdlib Require Import ZArith Lia.
From stdpp Require Import base numbers list gmap.
From S2P Require Import Prelude CMonad NftlTypes NftlAlloc NftlLog NftlDl NftlMtl MtdDev NftlState MtdSim.
From S2P Require Import NftlData NftlDataContract NftlMount NftlCore.

(** A chip of 160 blocks of 4 pages of 32 bytes, erased. *)
Definition lim_geo : mtd_info := MkMtd (160 * 128) 128 32 8.
#[export] Instance lim_world : World chip := chip_world lim_geo.
Definition lim_start : nftl chip := initial blank_chip.

(** Page 0 of logical blocks 0 .. n-1. *)
Definition first_pages (n : nat) : list (Z * list Z) :=
  map (fun i => (Z.of_nat i * nr_pgsinblk lim_geo, data_of (Z.of_nat i))) (seq 0 n).

(** What is observed of the run: the mount, the writes that fit, and the one
    that does not. *)
Definition crashes_outside {A} (r : outcome (nftl chip) A) : bool :=
  match r with Crash OutOfBounds => true | _ => false end.
Definition overflow_at (n : nat) (lpa : Z) (buf : list Z) : bool :=
  match NFTL_mount lim_geo lim_start with
  | Done e0 s0 =>
      match write_all lim_geo (first_pages n) s0 with
      | Done e1 s1 =>
          (e0 =? 0) && (e1 =? 0) && (dl_blkcnt (n_dl s1) =? DL_MAX_BLOCKS)
          && (MINI_FREE_BLOCK <? free_blkcnt (n_alloc s1))
          && (lpa <? n_storagesize s1 / writesize lim_geo)
          && crashes_outside (nftl_write_logicpage lim_geo lpa buf s1)
      | Crash _ => false
      end
  | Crash _ => false
  end.
Lemma overflow_at_run n lpa buf : overflow_at n lpa buf = true ->
  exists s0 s1, NFTL_mount lim_geo lim_start = Done 0 s0 /\
    write_all lim_geo (first_pages n) s0 = Done 0 s1 /\
    dl_blkcnt (n_dl s1) = DL_MAX_BLOCKS /\ MINI_FREE_BLOCK < free_blkcnt (n_alloc s1) /\
    lpa < n_storagesize s1 / writesize lim_geo /\
    nftl_write_logicpage lim_geo lpa buf s1 = Crash OutOfBounds.
Proof.
  unfold overflow_at. destruct (NFTL_mount _ _) as [e0 s0|]; [|done].
  destruct (write_all _ _ _) as [e1 s1|] eqn:E1; [|done].
  rewrite !andb_true_iff. intros (((((H0 & H1) & H2) & H3) & H4) & H5). zbool. subst.
  exists s0, s1. split_and!; try done. destruct (nftl_write_logicpage _ _ _ _) as [|[]]; done.
Qed.

(** Writing the first page of 128 logical blocks of a freshly mounted chip
    succeeds; writing the first page of one more, a page of the disk and with
    free blocks left, makes [nftl_update_dl_ram] store behind the end of
    [dl_blocktab]. *)
Example dl_table_overflows :
  exists s0 s1, NFTL_mount lim_geo lim_start = Done 0 s0 /\
    write_all lim_geo (first_pages 128) s0 = Done 0 s1 /\
    dl_blkcnt (n_dl s1) = DL_MAX_BLOCKS /\ MINI_FREE_BLOCK < free_blkcnt (n_alloc s1) /\
    128 * nr_pgsinblk lim_geo < n_storagesize s1 / writesize lim_geo /\
    nftl_write_logicpage lim_geo (128 * nr_pgsinblk lim_geo) (data_of 128) s1 = Crash OutOfBounds.
Proof. apply overflow_at_run. vm_compute. reflexivity. Qed.

(** ** Free blocks run out while there is garbage *)

(** A chip of 64 blocks of 16 pages of 32 bytes, erased: the disk has 56
    logical blocks. *)
Definition gar_geo : mtd_info := MkMtd (64 * 512) 512 32 8.
#[export] Instance gar_world : World chip := chip_world gar_geo.

(** The pages of logical block 0 backwards, seven times over; then the first
    pages of 47 others. *)
Definition backwards (k : nat) : list (Z * list Z) :=
  map (fun i => (15 - Z.of_nat i mod 16, data_of (Z.of_nat i))) (seq 0 k).
Definition fresh_pages (n : nat) : list (Z * list Z) :=
  map (fun i => ((1 + Z.of_nat i) * nr_pgsinblk gar_geo, data_of (Z.of_nat i))) (seq 0 n).

Definition exhausted_after (k n : nat) : bool :=
  match NFTL_mount gar_geo (initial blank_chip) with
  | Done e0 s0 =>
      match write_all gar_geo (backwards k ++ fresh_pages n) s0 with
      | Done e1 s1 =>
          (e0 =? 0) && (e1 =? 0) && (free_blkcnt (n_alloc s1) =? 0) && (gar_blkcnt (n_gar s1) =? 13)
          && match onA (nftl_get_free_block gar_geo) s1 with Done b _ => b =? 0xffff | Crash _ => false end
      | Crash _ => false
      end
  | Crash _ => false
  end.
Lemma exhausted_after_run k n : exhausted_after k n = true ->
  exists s0 s1 s2, NFTL_mount gar_geo (initial blank_chip) = Done 0 s0 /\
    write_all gar_geo (backwards k ++ fresh_pages n) s0 = Done 0 s1 /\
    free_blkcnt (n_alloc s1) = 0 /\ gar_blkcnt (n_gar s1) = 13 /\
    onA (nftl_get_free_block gar_geo) s1 = Done 0xffff s2.
Proof.
  unfold exhausted_after. destruct (NFTL_mount _ _) as [e0 s0|]; [|done].
  destruct (write_all _ _ _) as [e1 s1|] eqn:E1; [|done].
  destruct (onA (nftl_get_free_block gar_geo) s1) as [b s2|] eqn:E2; [|by rewrite andb_false_r].
  rewrite !andb_true_iff. intros ((((H0 & H1) & H2) & H3) & H4). zbool. subst. by exists s0, s1, s2.
Qed.

(** Free blocks are only won back by merging a log block whose logical
    block has a data block, or by retiring other blocks.  Here no log block has
    one: 159 writes succeed, with 13 blocks in the garbage list the last
    free block is used up, and the next search for a free block answers 0xFFFF,
    which [nftl_write_logicpage] does not test. *)
Example garbage_not_reclaimed :
  exists s0 s1 s2, NFTL_mount gar_geo (initial blank_chip) = Done 0 s0 /\
    write_all gar_geo (backwards 112 ++ fresh_pages 47) s0 = Done 0 s1 /\
    free_blkcnt (n_alloc s1) = 0 /\ gar_blkcnt (n_gar s1) = 13 /\
    onA (nftl_get_free_block gar_geo) s1 = Done 0xffff s2.
Proof. apply exhausted_after_run. vm_compute. reflexivity. Qed.
