(* ===== verification/DevIO.v ===== *)
(** * Device registers

    The drivers of the platform reach the hardware through [io_rd32] and
    [io_wr32] of [arch/arm/mach-magus/os.h], accesses to a volatile word at an
    address.  What the hardware does with them is a parameter: the class [Bus]
    gives the answer of a read and the effect of either on the world.
    [Registers] states the documented behaviour of configuration registers:
    they hold what was written, apart from status bits; [clears] says that a
    busy bit goes off after a number of reads.  [SimBus] is a concrete bus that
    obeys both. *)

From Stdlib Require Import ZArith Lia.
From stdpp Require Import base numbers list.
From S2P Require Import Prelude CMonad.

Class Bus (W : Type) := {
  bus_rd : Z -> W -> Z * W;
  bus_wr : Z -> Z -> W -> W }.

Section Access.
Context {W : Type} `{Bus W}.

Definition io_rd32 (a : Z) : M W Z := fun w => let '(v, w') := bus_rd a w in Done (u32 v) w'.
Definition io_wr32 (a d : Z) : M W unit := modify (bus_wr a (u32 d)).

(** [while (io_rd32(a) & m);] *)
Definition poll_clear (fuel : nat) (a m : Z) : M W unit :=
  retry fuel (let! v := io_rd32 a in ret (if Z.land v m =? 0 then Some tt else None)).

(** [i = n; while (io_rd32(a) & m) { if (!i--) return failed; } return ok;] *)
Fixpoint poll_timeout {R} (i : nat) (a m : Z) (ok failed : R) : M W R :=
  let! v := io_rd32 a in
  if Z.land v m =? 0 then ret ok
  else match i with O => ret failed | S i' => poll_timeout i' a m ok failed end.

(** The bits [m] of register [a] read as zero at the latest at read [k + 1]. *)
Fixpoint clears (k : nat) (a m : Z) (w : W) : Prop :=
  let '(v, w') := bus_rd a w in
  Z.land (u32 v) m = 0 \/ match k with O => False | S k' => clears k' a m w' end.
End Access.

(** ** Resources

    A driver holds a list of things; a release takes away what it names. *)
Section Release.
Context {A : Type} `{EqDecision A}.
(** A release takes away one thing that was there once. *)
Lemma release_head (x : A) (l : list A) : x ∉ l -> filter (fun y => y <> x) (x :: l) = l.
Proof.
  intros Hx. rewrite filter_cons, decide_False by auto. induction l as [|y l IH]; [done|].
  apply not_elem_of_cons in Hx as [Hne Hx]. rewrite filter_cons, decide_True by auto. by rewrite IH.
Qed.
Lemma release_under (x y : A) (l : list A) : x <> y -> filter (fun z => z <> x) (y :: l) = y :: filter (fun z => z <> x) l.
Proof. intros Hne. by rewrite filter_cons, decide_True by auto. Qed.
Lemma release_none (x : A) (l : list A) : x ∉ l -> filter (fun z => z <> x) l = l.
Proof. intros Hx. pose proof (release_head x l Hx) as H. by rewrite filter_cons, decide_False in H by auto. Qed.
End Release.

(** ** Drivers with a context

    The operations of a driver take a pointer to its context [T]: they run on
    the world behind the bus and the context. *)
Section Context.
Context {W T : Type}.
Definition io {A} (m : M W A) : M (W * T) A := zoom fst (fun w s => (w, snd s)) m.
Definition get_t : M (W * T) T := gets snd.
Definition upd_t (f : T -> T) : M (W * T) unit := modify (fun s => (fst s, f (snd s))).

Lemma wp_io {A} (m : M W A) (Q : A -> W * T -> Prop) w t :
  wp (io m) Q (w, t) <-> wp m (fun a w' => Q a (w', t)) w.
Proof. unfold wp, io, zoom. cbn. by destruct (m w). Qed.
Lemma wp_get_t (Q : T -> W * T -> Prop) w t : wp get_t Q (w, t) <-> Q t (w, t).
Proof. done. Qed.
Lemma wp_upd_t f (Q : unit -> W * T -> Prop) w t : wp (upd_t f) Q (w, t) <-> Q tt (w, f t).
Proof. done. Qed.
End Context.

(** ** Division

    The ARM926 has no divide instruction: [a / b] and [a % b] are calls that
    trap when [b] is zero. *)
Definition udiv {S} (a b : Z) : M S Z := if b =? 0 then crash DivByZero else ret (a / b).
Definition umod {S} (a b : Z) : M S Z := if b =? 0 then crash DivByZero else ret (a mod b).

(** ** Fields of a register

    [getf] is [(x >> lo) & m], [putf] is [(x & ~(m << lo)) | ((v & m) << lo)]. *)
Definition getf (x lo m : Z) : Z := Z.land (Z.shiftr x lo) m.
Definition putf (x lo m v : Z) : Z :=
  Z.lor (Z.land x (Z.lnot (Z.shiftl m lo))) (Z.shiftl (Z.land v m) lo).

Definition upd (s : Z -> Z) (a d : Z) : Z -> Z := fun b => if b =? a then d else s b.

(** [volat a] are the status bits of [a]; the registers of [live] keep the rest. *)
Class Registers (W : Type) `{Bus W} (live : Z -> Prop) (volat : Z -> Z) := {
  rep : W -> (Z -> Z) -> Prop;
  rep_rd w s a : rep w s -> live a ->
    exists v w', bus_rd a w = (v, w') /\ rep w' s /\ Z.land (u32 v) (Z.lnot (volat a)) = s a;
  rep_wr w s a d : rep w s -> live a -> in_u32 d ->
    rep (bus_wr a d w) (upd s a (Z.land d (Z.lnot (volat a)))) }.

(** ** Bits *)
Section Bits.
Implicit Types (x y v m : Z) (i lo n : Z).

Lemma bits_ext x y : (forall i, 0 <= i -> Z.testbit x i = Z.testbit y i) -> x = y.
Proof. intros H. by apply Z.bits_inj'. Qed.

Lemma u32_bits x i : Z.testbit (u32 x) i = (i <? 32) && Z.testbit x i.
Proof.
  unfold u32. destruct (i <? 32) eqn:E; zbool; cbn.
  - destruct (decide (0 <= i)); [by rewrite Z.mod_pow2_bits_low|by rewrite !Z.testbit_neg_r by lia].
  - by rewrite Z.mod_pow2_bits_high by lia.
Qed.

Lemma high_bit x i : in_u32 x -> 32 <= i -> Z.testbit x i = false.
Proof. intros Hx Hi. rewrite <- (u32_id x Hx), u32_bits. destruct (i <? 32) eqn:E; zbool; [lia|done]. Qed.

Lemma in_u32_bits x : 0 <= x -> (forall i, 32 <= i -> Z.testbit x i = false) -> in_u32 x.
Proof.
  intros Hx H. enough (u32 x = x) as <- by apply u32_range.
  apply bits_ext. intros i Hi. rewrite u32_bits. destruct (i <? 32) eqn:E; zbool; [done|].
  by rewrite H.
Qed.

Lemma land_u32 x y : in_u32 x -> in_u32 (Z.land x y).
Proof.
  intros Hx. apply in_u32_bits; [apply Z.land_nonneg; unfold in_u32 in Hx; lia|].
  intros i Hi. by rewrite Z.land_spec, (high_bit x).
Qed.
Lemma lor_u32 x y : in_u32 x -> in_u32 y -> in_u32 (Z.lor x y).
Proof.
  intros Hx Hy. apply in_u32_bits; [apply Z.lor_nonneg; unfold in_u32 in *; lia|].
  intros i Hi. by rewrite Z.lor_spec, (high_bit x), (high_bit y).
Qed.

(** [getf] and [putf] with a mask of [n] ones at [lo]. *)
Lemma getf_bit x lo n i : 0 <= lo -> 0 <= n -> 0 <= i ->
  Z.testbit (getf x lo (Z.ones n)) i = (i <? n) && Z.testbit x (i + lo).
Proof.
  intros ? ? ?. unfold getf. rewrite Z.land_spec, Z.shiftr_spec, Z.testbit_ones_nonneg by lia.
  apply andb_comm.
Qed.
Lemma putf_bit x lo n v i : 0 <= lo -> 0 <= n -> 0 <= i ->
  Z.testbit (putf x lo (Z.ones n) v) i =
    if (lo <=? i) && (i <? lo + n) then Z.testbit v (i - lo) else Z.testbit x i.
Proof.
  intros ? ? ?. unfold putf.
  rewrite Z.lor_spec, Z.land_spec, Z.lnot_spec, !Z.shiftl_spec, Z.land_spec by lia.
  destruct (lo <=? i) eqn:E1; zbool; cbn.
  - rewrite Z.testbit_ones_nonneg by lia.
    destruct (i <? lo + n) eqn:E2, (i - lo <? n) eqn:E3; zbool; try lia;
      destruct (Z.testbit x i), (Z.testbit v (i - lo)); done.
  - rewrite (Z.testbit_neg_r (Z.ones n)), (Z.testbit_neg_r v) by lia.
    by rewrite andb_true_r, orb_false_r.
Qed.

Lemma getf_range x lo n : 0 <= n -> 0 <= getf x lo (Z.ones n) < 2 ^ n.
Proof. intros ?. unfold getf. rewrite Z.land_ones by done. apply Z.mod_pos_bound. lia. Qed.

Lemma getf_putf x lo n v : 0 <= lo -> 0 <= n ->
  getf (putf x lo (Z.ones n) v) lo (Z.ones n) = Z.land v (Z.ones n).
Proof.
  intros ? ?. apply bits_ext. intros i Hi.
  rewrite getf_bit, putf_bit, Z.land_spec, Z.testbit_ones_nonneg by lia.
  destruct (lo <=? i + lo) eqn:E1, (i + lo <? lo + n) eqn:E2, (i <? n) eqn:E3; zbool; try lia;
    cbn; rewrite ?Z.add_simpl_r, ?andb_true_r, ?andb_false_r; done.
Qed.
Lemma getf_putf_ne x lo n lo' n' v : 0 <= lo -> 0 <= n -> 0 <= lo' -> 0 <= n' ->
  (lo + n <= lo' \/ lo' + n' <= lo) ->
  getf (putf x lo (Z.ones n) v) lo' (Z.ones n') = getf x lo' (Z.ones n').
Proof.
  intros ? ? ? ? Hd. apply bits_ext. intros i Hi. rewrite !getf_bit, putf_bit by lia.
  destruct (i <? n') eqn:E; zbool; cbn; [|done].
  destruct (lo <=? i + lo') eqn:E1, (i + lo' <? lo + n) eqn:E2; zbool; try lia; done.
Qed.
Lemma putf_self x lo n : 0 <= lo -> 0 <= n -> putf x lo (Z.ones n) (getf x lo (Z.ones n)) = x.
Proof.
  intros ? ?. apply bits_ext. intros i Hi. rewrite putf_bit by lia.
  destruct (lo <=? i) eqn:E1, (i <? lo + n) eqn:E2; zbool; try done. cbn.
  rewrite getf_bit, Z.sub_add by lia. destruct (i - lo <? n) eqn:E3; zbool; [done|lia].
Qed.
Lemma putf_u32 x lo n v : 0 <= lo -> 0 <= n -> lo + n <= 32 -> in_u32 x ->
  in_u32 (putf x lo (Z.ones n) v).
Proof.
  intros ? ? ? Hx. apply in_u32_bits.
  - unfold putf. apply Z.lor_nonneg. split; [apply Z.land_nonneg; unfold in_u32 in Hx; lia|].
    apply Z.shiftl_nonneg, Z.land_nonneg. right. rewrite Z.ones_equiv. lia.
  - intros i Hi. rewrite putf_bit by lia.
    destruct (lo <=? i) eqn:E1, (i <? lo + n) eqn:E2; zbool; try lia; cbn; by apply high_bit.
Qed.
End Bits.
#[export] Hint Resolve land_u32 lor_u32 : cint.
#[export] Hint Rewrite Z.lor_spec Z.land_spec Z.lxor_spec u32_bits : bits.

(** ** Reasoning about accesses *)
Section Rules.
Context {W : Type} {B : Bus W} {live : Z -> Prop} {volat : Z -> Z} {R : Registers W live volat}.
Implicit Types (w : W) (s : Z -> Z).

Lemma rep_range w s a : rep w s -> live a -> in_u32 (s a).
Proof. intros Hw Ha. destruct (rep_rd w s a Hw Ha) as (v & w' & _ & _ & <-). eauto with cint. Qed.

Lemma wp_rd_status a (Q : Z -> W -> Prop) w s : rep w s -> live a ->
  (forall v w', in_u32 v -> Z.land v (Z.lnot (volat a)) = s a -> rep w' s -> Q v w') ->
  wp (io_rd32 a) Q w.
Proof.
  intros Hw Ha HQ. destruct (rep_rd w s a Hw Ha) as (v & w' & E & Hw' & Hv).
  unfold wp, io_rd32. rewrite E. apply HQ; [apply u32_range|done..].
Qed.
Lemma wp_rd a (Q : Z -> W -> Prop) w s : rep w s -> live a -> volat a = 0 ->
  (forall w', rep w' s -> Q (s a) w') -> wp (io_rd32 a) Q w.
Proof.
  intros Hw Ha Hs HQ. apply (wp_rd_status a Q w s Hw Ha). intros v w' _ Hv Hw'.
  rewrite Hs, Z.land_m1_r in Hv. subst v. by apply HQ.
Qed.
Lemma wp_wr_status a d (Q : unit -> W -> Prop) w s : rep w s -> live a -> in_u32 d ->
  (forall w', rep w' (upd s a (Z.land d (Z.lnot (volat a)))) -> Q tt w') -> wp (io_wr32 a d) Q w.
Proof. intros Hw Ha Hd HQ. apply wp_modify, HQ. rewrite u32_id by done. by apply rep_wr. Qed.
Lemma wp_wr a d (Q : unit -> W -> Prop) w s : rep w s -> live a -> volat a = 0 -> in_u32 d ->
  (forall w', rep w' (upd s a d) -> Q tt w') -> wp (io_wr32 a d) Q w.
Proof.
  intros Hw Ha Hs Hd HQ. apply (wp_wr_status a d Q w s Hw Ha Hd).
  by rewrite Hs, Z.land_m1_r.
Qed.

Lemma wp_poll_clear fuel a m (Q : unit -> W -> Prop) w s k : rep w s -> live a ->
  clears k a m w -> (k < fuel)%nat -> (forall w', rep w' s -> Q tt w') -> wp (poll_clear fuel a m) Q w.
Proof.
  intros Hw Ha Hc Hk HQ. revert k w Hw Hc Hk. induction fuel as [|fuel IH]; intros k w Hw Hc Hk; [lia|].
  unfold poll_clear. cbn [retry]. apply wp_bind, wp_bind. unfold io_rd32 at 1, wp at 1.
  destruct (rep_rd w s a Hw Ha) as (v & w' & E & Hw' & _). rewrite E. apply wp_ret.
  destruct k as [|k]; cbn [clears] in Hc; rewrite E in Hc; destruct Hc as [Hc|Hc]; try done;
    try (rewrite Hc; apply wp_ret; by apply HQ).
  destruct (_ =? 0); [apply wp_ret; by apply HQ|]. apply (IH k); [done..|lia].
Qed.
End Rules.

Section Timeout.
Context {W R : Type} `{Bus W}.

(** The bounded wait always returns, and answers [ok] exactly when the bits
    clear in time. *)
Lemma poll_timeout_spec i a m (ok failed : R) w : ok <> failed ->
  exists r w', poll_timeout i a m ok failed w = Done r w' /\
    (r = ok \/ r = failed) /\ (r = ok <-> clears i a m w).
Proof.
  intros Hne. revert w. induction i as [|i IH]; intros w; cbn [poll_timeout clears];
    unfold bind, io_rd32; destruct (bus_rd a w) as [v w'] eqn:E; destruct (Z.land (u32 v) m =? 0) eqn:Ez; zbool.
  - exists ok, w'. split_and!; [done|by left|]. split; [by left|done].
  - exists failed, w'. split_and!; [done|by right|]. split; [intros ->; done|intros [|]; done].
  - exists ok, w'. split_and!; [done|by left|]. split; [by left|done].
  - destruct (IH w') as (r & w'' & -> & Hr & Hiff). exists r, w''. split_and!; [done..|].
    rewrite Hiff. split; [by right|intros [|]; done].
Qed.
End Timeout.

Section Division.
Context {S : Type}.
Lemma wp_assoc {A B C} (m : M S A) (k : A -> M S B) (h : B -> M S C) Q s :
  wp (bind (bind m k) h) Q s <-> wp (let! x := m in let! y := k x in h y) Q s.
Proof. unfold wp, bind. by destruct (m s). Qed.
Lemma wp_udiv a b (Q : Z -> S -> Prop) s : b <> 0 -> Q (a / b) s -> wp (udiv a b) Q s.
Proof. intros Hb HQ. unfold udiv. destruct (b =? 0) eqn:E; zbool; [done|]. by apply wp_ret. Qed.
Lemma wp_umod a b (Q : Z -> S -> Prop) s : b <> 0 -> Q (a mod b) s -> wp (umod a b) Q s.
Proof. intros Hb HQ. unfold umod. destruct (b =? 0) eqn:E; zbool; [done|]. by apply wp_ret. Qed.
End Division.

Lemma upd_reg_eq s a d : upd s a d a = d.
Proof. unfold upd. by rewrite Z.eqb_refl. Qed.
Lemma upd_reg_ne s a d b : b <> a -> upd s a d b = s b.
Proof. intros H. unfold upd. by rewrite (proj2 (Z.eqb_neq b a) H). Qed.

(** ** A simulated bus

    Words of memory; [clr a] are bits of [a] that go off after [delay] reads. *)
Record sim := Sim { sim_mem : list (Z * Z); sim_cnt : nat }.

Fixpoint sim_peek (l : list (Z * Z)) (a : Z) : Z :=
  match l with [] => 0 | (b, v) :: l' => if a =? b then v else sim_peek l' a end.

Definition sim_bus (clr : Z -> Z) (delay : nat) : Bus sim := {|
  bus_rd a w :=
    match sim_cnt w with
    | S n => (sim_peek (sim_mem w) a, if clr a =? 0 then w else Sim (sim_mem w) n)
    | O => (Z.land (sim_peek (sim_mem w) a) (Z.lnot (clr a)), w)
    end;
  bus_wr a d w :=
    Sim ((a, d) :: sim_mem w) (if Z.land d (clr a) =? 0 then sim_cnt w else delay) |}.

Definition sim_rep (live : Z -> Prop) (clr : Z -> Z) (delay : nat) (w : sim) (s : Z -> Z) : Prop :=
  (sim_cnt w <= delay)%nat /\
  forall a, live a -> Z.land (u32 (sim_peek (sim_mem w) a)) (Z.lnot (clr a)) = s a.

Lemma sim_clear x m : Z.land (u32 (Z.land x (Z.lnot m))) (Z.lnot m) = Z.land (u32 x) (Z.lnot m).
Proof.
  apply bits_ext. intros i Hi. autorewrite with bits. rewrite Z.lnot_spec by done.
  destruct (i <? 32), (Z.testbit x i), (Z.testbit m i); done.
Qed.

#[global] Instance sim_registers live clr delay : @Registers sim (sim_bus clr delay) live clr.
Proof.
  refine {| rep := sim_rep live clr delay : sim -> (Z -> Z) -> Prop |}.
  - intros w s a [Hc Hw] Ha. cbn. destruct (sim_cnt w) as [|n] eqn:E.
    + do 2 eexists. split_and!; [done|split; [lia|done]|]. rewrite sim_clear. by apply Hw.
    + do 2 eexists. split_and!; [done| |by apply Hw].
      destruct (clr a =? 0); [split; [lia|done]|]. split; [cbn; lia|done].
  - intros w s a d [Hc Hw] Ha Hd. split; [cbn; destruct (_ =? 0); lia|].
    intros b Hb. cbn. unfold upd. destruct (b =? a) eqn:E; zbool; [by subst; rewrite u32_id|by apply Hw].
Defined.

(** The busy bits of the simulated bus clear within [delay] reads. *)
Lemma sim_clears clr delay a m w : (sim_cnt w <= delay)%nat -> Z.land m (clr a) = m -> clr a <> 0 ->
  @clears sim (sim_bus clr delay) delay a m w.
Proof.
  intros Hc Hm Ha. revert w Hc.
  enough (forall n w, (sim_cnt w <= n)%nat -> @clears sim (sim_bus clr delay) n a m w) as H
    by (intros w; apply H).
  assert (Hz : forall x, Z.land (u32 (Z.land x (Z.lnot (clr a)))) m = 0).
  { intros x. rewrite <- Hm. apply bits_ext. intros i Hi. autorewrite with bits.
    rewrite Z.lnot_spec, Z.bits_0 by done.
    destruct (i <? 32), (Z.testbit x i), (Z.testbit m i), (Z.testbit (clr a) i); done. }
  induction n as [|n IH]; intros w Hn; cbn [clears]; destruct (sim_cnt w) as [|k] eqn:E;
    cbn [bus_rd sim_bus]; rewrite E.
  - left. apply Hz.
  - lia.
  - left. apply Hz.
  - right. apply IH. destruct (clr a =? 0) eqn:E'; zbool; [done|]. cbn. lia.
Qed.
