(* ===== verification/MagusClock.v ===== *)
(** * The clocks of the SoC

    [arch/arm/mach-magus/clock.c] with the macros of [scrmr.h]: the PLL and the
    dividers behind it for the ARM core, the AHB and APB busses and the two
    peripheral clocks.  [scrm_...] take the address of the module, the
    [magus_...] wrappers fix it.  Frequencies are [uint32_t] in Hz. *)

From Stdlib Require Import ZArith Lia Bool.
From stdpp Require Import base numbers list.
From S2P Require Import Prelude CMonad DevIO.

Definition MAGUS_VIO_SCRM : Z := 0xF0000000.
Definition MAGUS_VIO_UART : Z := 0xF0003000.
Definition MAGUS_VIO_SDRAMC : Z := 0xF0010000.

(** [scrmr_t]: offsets of the registers. *)
Definition scrm_idr : Z := 0.
Definition scrm_pllr : Z := 8.
Definition scrm_csdr : Z := 12.
Definition scrm_psdr : Z := 16.

Definition SCRM_CLID : Z := 0x080C.
Definition SCRM_ID_CLID (d : Z) : Z := Z.shiftr d 16.
Definition CLKSRC_USBOTG_XTAL_IN : Z := 12000000.
Definition SCRM_PLLR_RESTRT : Z := Z.shiftl 1 1.
Definition SCRM_PLLR_REFDIV (p : Z) : Z := getf p 8 0x1f.
Definition SCRM_PLLR_OPDIV (p : Z) : Z := getf p 16 0x3.
Definition SCRM_PLLR_FBDIV (p : Z) : Z := getf p 24 0xff.
Definition SCRM_CSDR_PSCLR (c : Z) : Z := getf c 12 0x7.
Definition SCRM_CSDR_HCLKDIV (c : Z) : Z := getf c 8 0xf.
Definition SCRM_CSDR_APBDIV (c : Z) : Z := getf c 4 0x3.
Definition SCRM_PSDR_PDIV1 (p : Z) : Z := getf p 12 0xf.
Definition SCRM_PSDR_PDIV2 (p : Z) : Z := getf p 8 0xf.

(** Integer division without the trap, for the specifications below. *)
Definition pll_freq (pll f_in : Z) : Z :=
  u32 (f_in / SCRM_PLLR_REFDIV pll * (2 * SCRM_PLLR_FBDIV pll)) / SCRM_PLLR_OPDIV pll.

Section Clock.
Context {W : Type} `{Bus W}.
Implicit Types (r : Z).

(** ** Reading the clocks *)

Definition scrm_decode_pll (pll f_in : Z) : M W Z :=
  let refdiv := SCRM_PLLR_REFDIV pll in
  let opdiv := SCRM_PLLR_OPDIV pll in
  let fbdiv := u32 (2 * SCRM_PLLR_FBDIV pll) in
  let! f_ref := udiv f_in refdiv in
  udiv (u32 (f_ref * fbdiv)) opdiv.

Definition scrm_get_pllr r : M W Z := io_rd32 (r + scrm_pllr).

Definition scrm_get_pll_out r : M W Z :=
  let! pll := io_rd32 (r + scrm_pllr) in
  scrm_decode_pll pll CLKSRC_USBOTG_XTAL_IN.

Definition scrm_get_system_clk r : M W Z :=
  let! pll := io_rd32 (r + scrm_pllr) in
  let! csdr := io_rd32 (r + scrm_csdr) in
  let! f_out := scrm_decode_pll pll CLKSRC_USBOTG_XTAL_IN in
  udiv f_out (SCRM_CSDR_PSCLR csdr + 1).

Definition scrm_get_hclk r : M W Z :=
  let! csdr := io_rd32 (r + scrm_csdr) in
  let hclkdiv := SCRM_CSDR_HCLKDIV csdr in
  let! sysclk := scrm_get_system_clk r in
  udiv sysclk (hclkdiv + 1).

Definition scrm_get_pclk r : M W Z :=
  let! csdr := io_rd32 (r + scrm_csdr) in
  let apbdiv := SCRM_CSDR_APBDIV csdr in
  let! hclk := scrm_get_hclk r in
  udiv hclk (apbdiv + 1).

Definition scrm_get_perclk1 r : M W Z :=
  let! pll := io_rd32 (r + scrm_pllr) in
  let! psdr := io_rd32 (r + scrm_psdr) in
  let! f_out := scrm_decode_pll pll CLKSRC_USBOTG_XTAL_IN in
  udiv f_out (SCRM_PSDR_PDIV1 psdr + 1).

Definition scrm_get_perclk2 r : M W Z :=
  let! pll := io_rd32 (r + scrm_pllr) in
  let! psdr := io_rd32 (r + scrm_psdr) in
  let! f_out := scrm_decode_pll pll CLKSRC_USBOTG_XTAL_IN in
  udiv f_out (SCRM_PSDR_PDIV2 psdr + 1).

Definition magus_get_system_clk : M W Z := scrm_get_system_clk MAGUS_VIO_SCRM.
Definition magus_get_hclk : M W Z := scrm_get_hclk MAGUS_VIO_SCRM.
Definition magus_get_pclk : M W Z := scrm_get_pclk MAGUS_VIO_SCRM.
Definition magus_get_perclk1 : M W Z := scrm_get_perclk1 MAGUS_VIO_SCRM.
Definition magus_get_perclk2 : M W Z := scrm_get_perclk2 MAGUS_VIO_SCRM.
Definition magus_get_pllr : M W Z := scrm_get_pllr MAGUS_VIO_SCRM.
Definition magus_get_pll_out : M W Z := scrm_get_pll_out MAGUS_VIO_SCRM.

(** [print_mhz(m)] is [((m) / MHZ), ((m / 1000) % 1000)]: [m] is called twice. *)
Definition print_mhz (m : M W Z) : M W unit := m ;; m ;; ret tt.

Definition magus_print_clocks : M W unit :=
  print_mhz magus_get_system_clk ;; print_mhz magus_get_hclk ;; print_mhz magus_get_pclk ;;
  print_mhz magus_get_perclk1 ;; print_mhz magus_get_perclk2.

Definition scrm_init r : M W Z :=
  let! id := io_rd32 (r + scrm_idr) in
  if negb (SCRM_ID_CLID id =? SCRM_CLID) then ret (-1)
  else magus_print_clocks ;; ret 0.

(** ** Setting the dividers *)

Definition scrm_set_hclk r (hclk_freq : Z) : M W Z :=
  let! sysclk := scrm_get_system_clk r in
  let! pll_out := scrm_get_pll_out r in
  let hclk := if hclk_freq >? sysclk then sysclk else hclk_freq in
  let! uneven := (if negb (sysclk =? hclk)
                  then let! q := udiv sysclk hclk in ret (negb (q mod 2 =? 0))
                  else ret false) in
  if (uneven : bool) then magus_get_hclk
  else if (sysclk =? hclk) && (sysclk =? pll_out) then magus_get_hclk
  else
    let! q := udiv sysclk hclk in
    let hclkdiv := u32 (q - 1) in
    let hclkdiv := if hclkdiv <? 0 then 0 else hclkdiv in
    let hclkdiv := if hclkdiv >? 15 then 15 else hclkdiv in
    let! csdr := io_rd32 (r + scrm_csdr) in
    io_wr32 (r + scrm_csdr) (putf csdr 8 0xf hclkdiv) ;;
    magus_get_hclk.

Definition scrm_set_pclk r (pclk : Z) : M W Z :=
  let! hclk := scrm_get_hclk r in
  let! q := udiv hclk pclk in
  let apbdiv := u32 (q - 1) in
  let apbdiv := if apbdiv <? 0 then 0 else apbdiv in
  let apbdiv := if apbdiv >? 3 then 3 else apbdiv in
  let! csdr := io_rd32 (r + scrm_csdr) in
  io_wr32 (r + scrm_csdr) (putf csdr 4 0x3 apbdiv) ;;
  magus_get_pclk.

Definition scrm_set_perclk1 r (perclk1 : Z) : M W Z :=
  let! pll := io_rd32 (r + scrm_pllr) in
  let! psdr := io_rd32 (r + scrm_psdr) in
  let! f_out := scrm_decode_pll pll CLKSRC_USBOTG_XTAL_IN in
  let! q := udiv f_out perclk1 in
  let pdiv1 := u32 (q - 1) in
  let pdiv1 := if pdiv1 <? 0 then 0 else pdiv1 in
  let pdiv1 := if pdiv1 >? 15 then 15 else pdiv1 in
  io_wr32 (r + scrm_psdr) (putf psdr 12 0xf pdiv1) ;;
  magus_get_perclk1.

Definition scrm_set_perclk2 r (perclk2 : Z) : M W Z :=
  let! pll := io_rd32 (r + scrm_pllr) in
  let! psdr := io_rd32 (r + scrm_psdr) in
  let! f_out := scrm_decode_pll pll CLKSRC_USBOTG_XTAL_IN in
  let! q := udiv f_out perclk2 in
  let pdiv2 := u32 (q - 1) in
  let pdiv2 := if pdiv2 <? 0 then 0 else pdiv2 in
  let pdiv2 := if pdiv2 >? 15 then 15 else pdiv2 in
  io_wr32 (r + scrm_psdr) (putf psdr 8 0xf pdiv2) ;;
  magus_get_perclk2.

Definition magus_set_hclk (hclk : Z) : M W Z := scrm_set_hclk MAGUS_VIO_SCRM hclk.
Definition magus_set_pclk (pclk : Z) : M W Z := scrm_set_pclk MAGUS_VIO_SCRM pclk.
Definition magus_set_perclk1 (perclk1 : Z) : M W Z := scrm_set_perclk1 MAGUS_VIO_SCRM perclk1.
Definition magus_set_perclk2 (perclk2 : Z) : M W Z := scrm_set_perclk2 MAGUS_VIO_SCRM perclk2.

(** ** The ARM clock *)

Definition write_psclr r (psclr : Z) : M W unit :=
  let! csdr := io_rd32 (r + scrm_csdr) in
  io_wr32 (r + scrm_csdr) (putf csdr 12 0x7 psclr).

Definition SDRAM_CFGR : Z := Z.lor MAGUS_VIO_SDRAMC 0x0C.

(** [sdr_ECAS = on; sdr_cs0_cfgr = ...; *(MAGUS_VIO_SDRAMC | 0x0C) = sdr_cs0_cfgr;] *)
Definition set_ecas (cfgr : Z) (on : bool) : M W unit :=
  io_wr32 SDRAM_CFGR
    (if on then Z.lor cfgr (Z.shiftl 1 12) else Z.land cfgr (Z.lnot (Z.shiftl 1 12))).

(** The branch of the boards listed in the [#if]. *)
Definition scrm_set_system_clk r (freq : Z) : M W Z :=
  let! pll_out := scrm_get_pll_out r in
  let! csdr := io_rd32 (r + scrm_csdr) in
  let hclkdiv := SCRM_CSDR_HCLKDIV csdr in
  let! cur_sys_clk := magus_get_system_clk in
  let armclk := if freq >? pll_out then pll_out else freq in
  let! q := udiv pll_out armclk in
  let psclr := u32 (q - 1) in
  let psclr := if psclr <? 0 then 0 else psclr in
  let psclr := if psclr >? 7 then 7 else psclr in
  (if (psclr =? 0) && (hclkdiv =? 0) then
     let! csdr := io_rd32 (r + scrm_csdr) in
     io_wr32 (r + scrm_csdr) (putf csdr 8 0xf (hclkdiv + 1))
   else ret tt) ;;
  let! sdr_cs0_cfgr := io_rd32 SDRAM_CFGR in
  let sdr_ECAS := getf sdr_cs0_cfgr 12 0x1 in
  let! excpt :=
    (if cur_sys_clk >? armclk then
       (if armclk / 1000 <=? 150000 then
          if sdr_ECAS =? 1 then set_ecas sdr_cs0_cfgr false else ret tt
        else if armclk / 1000 >=? 180000 then
          if sdr_ECAS =? 0 then set_ecas sdr_cs0_cfgr true else ret tt
        else ret tt) ;;
       ret 0
     else
       if armclk / 1000 <=? 150000 then
         (if sdr_ECAS =? 1 then set_ecas sdr_cs0_cfgr false else ret tt) ;; ret 0
       else if armclk / 1000 >=? 180000 then
         write_psclr r psclr ;;
         (if sdr_ECAS =? 0 then set_ecas sdr_cs0_cfgr true else ret tt) ;; ret 1
       else ret 0) in
  (if excpt =? 0 then write_psclr r psclr else ret tt) ;;
  magus_get_system_clk.

(** The branch of the other boards: the AHB clock is kept at 120 MHz. *)
Definition DEFAULT_FIX_AHB_CLK : Z := 120000000.

Definition scrm_set_system_clk_fixed r (freq : Z) : M W Z :=
  let! pll_out := scrm_get_pll_out r in
  let! csdr := io_rd32 (r + scrm_csdr) in
  let hclkdiv := SCRM_CSDR_HCLKDIV csdr in
  let! current_armclk := scrm_get_system_clk r in
  if current_armclk =? freq then ret current_armclk
  else
    let hclk := DEFAULT_FIX_AHB_CLK in
    io_rd32 (r + scrm_csdr) ;;
    let armclk := if freq >? pll_out then pll_out else freq in
    let! q := udiv pll_out armclk in
    let psclr := u32 (q - 1) in
    let psclr := if psclr <? 0 then 0 else psclr in
    let psclr := if psclr >? 7 then 7 else psclr in
    let hclkdiv :=
      if (psclr =? 0) && (hclkdiv =? 0) then hclkdiv + 1
      else
        let hclkdiv := u32 (pll_out / (psclr + 1) / hclk - 1) in
        if hclkdiv =? u32 (-1) then 1 else hclkdiv in
    let! csdr := io_rd32 (r + scrm_csdr) in
    io_wr32 (r + scrm_csdr) (putf (putf csdr 8 0xf hclkdiv) 12 0x7 psclr) ;;
    magus_get_system_clk.
End Clock.

(** Which branch of the [#if] is compiled; the fuel bounds the wait for the PLL. *)
Class ClockConfig := { listed_board : bool; pll_fuel : nat }.

Section SetFreq.
Context {W : Type} `{Bus W} `{ClockConfig}.

Definition magus_set_system_clk (armclk : Z) : M W Z :=
  if listed_board then scrm_set_system_clk MAGUS_VIO_SCRM armclk
  else scrm_set_system_clk_fixed MAGUS_VIO_SCRM armclk.

(** The divisor of the UART follows the peripheral clock. *)
Definition set_uart_latch : M W unit :=
  let! perclk1 := magus_get_perclk1 in
  let! uart_div_latch := udiv perclk1 (16 * 115200) in
  if uart_div_latch >? 0xff then
    io_wr32 (Z.lor MAGUS_VIO_UART 0x30) (Z.land uart_div_latch 0xff) ;;
    io_wr32 (Z.lor MAGUS_VIO_UART 0x34) (Z.land (Z.shiftr uart_div_latch 8) 0xff)
  else io_wr32 (Z.lor MAGUS_VIO_UART 0x30) uart_div_latch.

Definition scrm_set_new_freq (r pllr freq : Z) : M W unit :=
  (if negb (pllr =? 0) then
     io_wr32 (r + scrm_pllr) pllr ;;
     set_uart_latch ;;
     let! p := io_rd32 (r + scrm_pllr) in
     io_wr32 (r + scrm_pllr) (Z.lor p SCRM_PLLR_RESTRT) ;;
     poll_clear pll_fuel (r + scrm_pllr) SCRM_PLLR_RESTRT
   else ret tt) ;;
  magus_set_system_clk freq ;; ret tt.

Definition magus_set_new_freq (pllr freq : Z) : M W unit := scrm_set_new_freq MAGUS_VIO_SCRM pllr freq.
End SetFreq.
