(* ===== verification/MagusClockSpec.v ===== *)
(** * What the clock functions compute

    The registers of the clock module hold what is written to them, but for the
    restart bit of the PLL; [freq_of] reads the frequencies off such registers.
    The setters of the divided clocks pick the slowest clock that is not slower
    than the request. *)

From Stdlib Require Import ZArith Lia Bool.
From stdpp Require Import base numbers list sets.
From S2P Require Import Prelude CMonad DevIO MagusClock.

(** ** The registers and the frequencies they mean *)

Definition PLLR : Z := MAGUS_VIO_SCRM + scrm_pllr.
Definition CSDR : Z := MAGUS_VIO_SCRM + scrm_csdr.
Definition PSDR : Z := MAGUS_VIO_SCRM + scrm_psdr.
Definition UART_LSB : Z := Z.lor MAGUS_VIO_UART 0x30.
Definition UART_MSB : Z := Z.lor MAGUS_VIO_UART 0x34.

Definition clock_live (a : Z) : Prop := a ∈ [PLLR; CSDR; PSDR; UART_LSB; UART_MSB; SDRAM_CFGR].
Definition clock_volat (a : Z) : Z := if a =? PLLR then SCRM_PLLR_RESTRT else 0.

Definition f_pll (s : Z -> Z) : Z := pll_freq (s PLLR) CLKSRC_USBOTG_XTAL_IN.
Definition f_sys (s : Z -> Z) : Z := f_pll s / (SCRM_CSDR_PSCLR (s CSDR) + 1).
Definition f_hclk (s : Z -> Z) : Z := f_sys s / (SCRM_CSDR_HCLKDIV (s CSDR) + 1).

(** The PLL dividers are not zero: the PLL has an output. *)
Definition pll_ok (s : Z -> Z) : Prop := SCRM_PLLR_REFDIV (s PLLR) <> 0 /\ SCRM_PLLR_OPDIV (s PLLR) <> 0.

(** The clocks with a divider of their own that are set independently. *)
Inductive divided := Pclk | Perclk1 | Perclk2.

Definition clk_parent (c : divided) (s : Z -> Z) : Z :=
  match c with Pclk => f_hclk s | Perclk1 | Perclk2 => f_pll s end.
Definition clk_div (c : divided) (s : Z -> Z) : Z :=
  match c with
  | Pclk => SCRM_CSDR_APBDIV (s CSDR)
  | Perclk1 => SCRM_PSDR_PDIV1 (s PSDR)
  | Perclk2 => SCRM_PSDR_PDIV2 (s PSDR)
  end.
Definition clk_max (c : divided) : Z := match c with Pclk => 3 | Perclk1 | Perclk2 => 15 end.
Definition freq_of (c : divided) (s : Z -> Z) : Z := clk_parent c s / (clk_div c s + 1).

Section Setters.
Context {W : Type} `{Bus W}.
Definition clk_get (c : divided) : M W Z :=
  match c with Pclk => magus_get_pclk | Perclk1 => magus_get_perclk1 | Perclk2 => magus_get_perclk2 end.
Definition clk_set (c : divided) (f : Z) : M W Z :=
  match c with
  | Pclk => magus_set_pclk f | Perclk1 => magus_set_perclk1 f | Perclk2 => magus_set_perclk2 f end.
End Setters.

(** ** Arithmetic of a divider *)

(** What the setters store for a request [f]. *)
Definition pick (parent f max : Z) : Z :=
  let d := u32 (parent / f - 1) in
  let d := if d <? 0 then 0 else d in
  if d >? max then max else d.

Lemma pick_range parent f max : 0 <= max -> 0 <= pick parent f max <= max.
Proof.
  intros ?. unfold pick. pose proof (u32_range (parent / f - 1)). unfold in_u32 in *.
  destruct (_ <? 0) eqn:E1; destruct (_ >? max) eqn:E2; rewrite Z.gtb_ltb in E2; zbool; lia.
Qed.

Lemma pick_below parent f max : 0 < f <= parent -> in_u32 parent -> 0 <= max ->
  pick parent f max = Z.min (parent / f - 1) max.
Proof.
  intros Hf Hp Hm. unfold pick.
  assert (Hq : 1 <= parent / f <= parent).
  { split; [apply Z.div_le_lower_bound; lia|apply Z.div_le_upper_bound; nia]. }
  rewrite u32_id by (unfold in_u32 in *; lia).
  destruct (_ <? 0) eqn:E1; zbool; [lia|]. rewrite Z.gtb_ltb.
  destruct (max <? _) eqn:E2; zbool; lia.
Qed.

Lemma pick_above parent f max : 0 <= parent < f -> 0 <= max < 2 ^ 32 - 1 -> pick parent f max = max.
Proof.
  intros Hf Hm. unfold pick. rewrite Z.div_small by done.
  change (u32 (0 - 1)) with (2 ^ 32 - 1). cbn [Z.ltb]. rewrite Z.gtb_ltb.
  destruct (_ <? 0) eqn:E; zbool; [lia|]. destruct (max <? _) eqn:E1; zbool; lia.
Qed.

(** The clock picked is the slowest of those that are not slower than [f]. *)
Lemma pick_slowest parent f max : 0 < f <= parent -> in_u32 parent -> 0 <= max ->
  f <= parent / (pick parent f max + 1) /\
  forall d, 0 <= d <= max -> f <= parent / (d + 1) ->
    parent / (pick parent f max + 1) <= parent / (d + 1).
Proof.
  intros Hf Hp Hm. rewrite (pick_below parent f max Hf Hp Hm).
  assert (Hq : 1 <= parent / f) by (apply Z.div_le_lower_bound; lia).
  pose proof (Z.mul_div_le parent f ltac:(lia)).
  split.
  - apply Z.div_le_lower_bound; [lia|]. nia.
  - intros d Hd Hfd. apply Z.div_le_compat_l; [lia|].
    assert (d + 1 <= parent / f); [|lia].
    apply Z.div_le_lower_bound; [lia|].
    pose proof (Z.mul_div_le parent (d + 1) ltac:(lia)). nia.
Qed.

(** ** Fields of the registers *)

Lemma status_bit_field v x lo n : Z.land v (Z.lnot SCRM_PLLR_RESTRT) = x -> 1 < lo -> 0 <= n ->
  getf v lo (Z.ones n) = getf x lo (Z.ones n).
Proof.
  intros <- Hlo Hn. apply bits_ext. intros i Hi. rewrite !getf_bit by lia.
  rewrite Z.land_spec, Z.lnot_spec by lia. unfold SCRM_PLLR_RESTRT.
  rewrite Z.shiftl_spec, (Z.bits_above_log2 1), andb_true_r by (cbn; lia). done.
Qed.

Lemma pll_fields v x : Z.land v (Z.lnot SCRM_PLLR_RESTRT) = x ->
  SCRM_PLLR_REFDIV v = SCRM_PLLR_REFDIV x /\ SCRM_PLLR_OPDIV v = SCRM_PLLR_OPDIV x /\
  SCRM_PLLR_FBDIV v = SCRM_PLLR_FBDIV x.
Proof.
  intros Hv. unfold SCRM_PLLR_REFDIV, SCRM_PLLR_OPDIV, SCRM_PLLR_FBDIV.
  change 0x1f with (Z.ones 5). change 0x3 with (Z.ones 2). change 0xff with (Z.ones 8).
  split; [|split]; apply (status_bit_field v x); (done || lia).
Qed.

Lemma div_u32 a b : in_u32 a -> 0 < b -> in_u32 (a / b).
Proof.
  intros Ha Hb. unfold in_u32 in *.   split; [apply Z.div_pos; lia|]. assert (a / b <= a); [apply Z.div_le_upper_bound; nia|lia].
Qed.

Lemma pll_freq_fields v x f_in : Z.land v (Z.lnot SCRM_PLLR_RESTRT) = x -> pll_freq v f_in = pll_freq x f_in.
Proof. intros (H1 & H2 & H3)%pll_fields. unfold pll_freq. congruence. Qed.

Lemma pll_freq_u32 p f_in : SCRM_PLLR_OPDIV p <> 0 -> in_u32 (pll_freq p f_in).
Proof.
  intros Ho. apply div_u32; [apply u32_range|].
  pose proof (getf_range p 16 2 ltac:(lia)). unfold SCRM_PLLR_OPDIV in *.
  change 0x3 with (Z.ones 2) in *. lia.
Qed.

Lemma getf_nonneg x lo m : 0 <= m -> 0 <= getf x lo m.
Proof. intros. apply Z.land_nonneg. by right. Qed.

Lemma f_sys_u32 s : pll_ok s -> in_u32 (f_sys s).
Proof.
  intros [_ Ho]. apply div_u32; [by apply pll_freq_u32|].
  pose proof (getf_nonneg (s CSDR) 12 7 ltac:(lia)). unfold SCRM_CSDR_PSCLR. lia.
Qed.
Lemma f_hclk_u32 s : pll_ok s -> in_u32 (f_hclk s).
Proof.
  intros Hok. apply div_u32; [by apply f_sys_u32|].
  pose proof (getf_nonneg (s CSDR) 8 15 ltac:(lia)). unfold SCRM_CSDR_HCLKDIV. lia.
Qed.
Lemma clk_parent_u32 c s : pll_ok s -> in_u32 (clk_parent c s).
Proof. intros Hok. destruct c; [by apply f_hclk_u32|by apply pll_freq_u32, Hok..]. Qed.

Create HintDb clock.
#[export] Hint Unfold clock_live : clock.

(** Registers of the clock module are told apart by their addresses. *)
Ltac live := unfold clock_live; set_solver.

Section Spec.
Context {W : Type} {B : Bus W} {R : Registers W clock_live clock_volat}.
Implicit Types (w : W) (s : Z -> Z).

(** ** Reading the clocks *)

Lemma wp_decode_pll p f_in (Q : Z -> W -> Prop) w :
  SCRM_PLLR_REFDIV p <> 0 -> SCRM_PLLR_OPDIV p <> 0 -> Q (pll_freq p f_in) w ->
  wp (scrm_decode_pll p f_in) Q w.
Proof.
  intros Hr Ho HQ. unfold scrm_decode_pll.
  apply wp_bind, wp_udiv; [done|]. apply wp_udiv; [done|].
  rewrite (u32_id (2 * _)); [done|].
  pose proof (getf_range p 24 8 ltac:(lia)). unfold SCRM_PLLR_FBDIV, in_u32.
  change 0xff with (Z.ones 8). lia.
Qed.

(** Reading PLLR and decoding it. *)
Lemma wp_rd_pllr (Q : Z -> W -> Prop) w s : rep w s -> pll_ok s ->
  (forall v w', rep w' s -> SCRM_PLLR_REFDIV v <> 0 -> SCRM_PLLR_OPDIV v <> 0 ->
     pll_freq v CLKSRC_USBOTG_XTAL_IN = f_pll s ->
     Z.land v (Z.lnot SCRM_PLLR_RESTRT) = s PLLR -> in_u32 v -> Q v w') ->
  wp (io_rd32 (MAGUS_VIO_SCRM + scrm_pllr)) Q w.
Proof.
  intros Hw [Hr Ho] HQ. apply (wp_rd_status PLLR Q w s Hw); [live|].
  intros v w' Hu Hv Hw'. change (clock_volat PLLR) with SCRM_PLLR_RESTRT in Hv.
  pose proof (pll_fields v _ Hv) as (E1 & E2 & _).
  apply HQ; [done|congruence|congruence|by apply pll_freq_fields|done|done].
Qed.

Lemma wp_rd_csdr (Q : Z -> W -> Prop) w s : rep w s -> (forall w', rep w' s -> Q (s CSDR) w') ->
  wp (io_rd32 (MAGUS_VIO_SCRM + scrm_csdr)) Q w.
Proof. intros Hw HQ. apply (wp_rd CSDR Q w s Hw); [live|done|done]. Qed.
Lemma wp_rd_psdr (Q : Z -> W -> Prop) w s : rep w s -> (forall w', rep w' s -> Q (s PSDR) w') ->
  wp (io_rd32 (MAGUS_VIO_SCRM + scrm_psdr)) Q w.
Proof. intros Hw HQ. apply (wp_rd PSDR Q w s Hw); [live|done|done]. Qed.

Lemma wp_rd_sdram (Q : Z -> W -> Prop) w s : rep w s -> (forall w', rep w' s -> Q (s SDRAM_CFGR) w') ->
  wp (io_rd32 SDRAM_CFGR) Q w.
Proof. intros Hw HQ. apply (wp_rd SDRAM_CFGR Q w s Hw); [live|done|done]. Qed.

Lemma wp_pll_out (Q : Z -> W -> Prop) w s : rep w s -> pll_ok s ->
  (forall w', rep w' s -> Q (f_pll s) w') -> wp magus_get_pll_out Q w.
Proof.
  intros Hw Hok HQ. apply wp_bind, (wp_rd_pllr _ w s Hw Hok).
  intros v w' Hw' ? ? E _ _. apply wp_decode_pll; [done..|]. rewrite E. by apply HQ.
Qed.

Lemma wp_system_clk (Q : Z -> W -> Prop) w s : rep w s -> pll_ok s ->
  (forall w', rep w' s -> Q (f_sys s) w') -> wp magus_get_system_clk Q w.
Proof.
  intros Hw Hok HQ. apply wp_bind, (wp_rd_pllr _ w s Hw Hok).
  intros v w1 Hw1 ? ? E _ _. apply wp_bind, (wp_rd_csdr _ w1 s Hw1). intros w2 Hw2.
  apply wp_bind, wp_decode_pll; [done..|]. rewrite E. apply wp_udiv; [|by apply HQ].
  pose proof (getf_nonneg (s CSDR) 12 7 ltac:(lia)). unfold SCRM_CSDR_PSCLR. lia.
Qed.

Lemma wp_hclk (Q : Z -> W -> Prop) w s : rep w s -> pll_ok s ->
  (forall w', rep w' s -> Q (f_hclk s) w') -> wp magus_get_hclk Q w.
Proof.
  intros Hw Hok HQ. apply wp_bind, (wp_rd_csdr _ w s Hw). intros w1 Hw1.
  apply wp_bind, (wp_system_clk _ w1 s Hw1 Hok). intros w2 Hw2. apply wp_udiv; [|by apply HQ].
  pose proof (getf_nonneg (s CSDR) 8 15 ltac:(lia)). unfold SCRM_CSDR_HCLKDIV. lia.
Qed.

Lemma clk_div_nonneg c s : 0 <= clk_div c s.
Proof. destruct c; apply getf_nonneg; lia. Qed.

Lemma wp_clk_get c (Q : Z -> W -> Prop) w s : rep w s -> pll_ok s ->
  (forall w', rep w' s -> Q (freq_of c s) w') -> wp (clk_get c) Q w.
Proof.
  intros Hw Hok HQ. pose proof (clk_div_nonneg c s) as Hd. destruct c; cbn [clk_get].
  - apply wp_bind, (wp_rd_csdr _ w s Hw). intros w1 Hw1.
    apply wp_bind, (wp_hclk _ w1 s Hw1 Hok). intros w2 Hw2.
    apply wp_udiv; [cbn in Hd; lia|by apply HQ].
  - apply wp_bind, (wp_rd_pllr _ w s Hw Hok). intros v w1 Hw1 ? ? E _ _.
    apply wp_bind, (wp_rd_psdr _ w1 s Hw1). intros w2 Hw2.
    apply wp_bind, wp_decode_pll; [done..|]. rewrite E. apply wp_udiv; [cbn in Hd; lia|by apply HQ].
  - apply wp_bind, (wp_rd_pllr _ w s Hw Hok). intros v w1 Hw1 ? ? E _ _.
    apply wp_bind, (wp_rd_psdr _ w1 s Hw1). intros w2 Hw2.
    apply wp_bind, wp_decode_pll; [done..|]. rewrite E. apply wp_udiv; [cbn in Hd; lia|by apply HQ].
Qed.

(** ** Setting a divided clock *)

(** The registers after a setter: one field of one register has changed. *)
Definition clk_reg (c : divided) : Z := match c with Pclk => CSDR | Perclk1 | Perclk2 => PSDR end.
Definition clk_put (c : divided) (x d : Z) : Z :=
  match c with
  | Pclk => putf x 4 0x3 d | Perclk1 => putf x 12 0xf d | Perclk2 => putf x 8 0xf d end.
Definition clk_upd (c : divided) (s : Z -> Z) (d : Z) : Z -> Z :=
  upd s (clk_reg c) (clk_put c (s (clk_reg c)) d).

Lemma clk_put_u32 c x d : in_u32 x -> in_u32 (clk_put c x d).
Proof.
  intros Hx. destruct c; cbn [clk_put]; [apply (putf_u32 x 4 2)|apply (putf_u32 x 12 4)|apply (putf_u32 x 8 4)];
    done || lia.
Qed.

Lemma clk_upd_div c s d : 0 <= d <= clk_max c -> clk_div c (clk_upd c s d) = d.
Proof.
  intros Hd. unfold clk_upd.
  destruct c; cbn [clk_reg clk_div clk_put clk_max] in *; rewrite upd_reg_eq;
    unfold SCRM_CSDR_APBDIV, SCRM_PSDR_PDIV1, SCRM_PSDR_PDIV2;
    change 0x3 with (Z.ones 2); change 0xf with (Z.ones 4); rewrite getf_putf by lia;
    rewrite Z.land_ones by lia; apply Z.mod_small; lia.
Qed.

(** Its own field apart, a setter changes no clock. *)
Lemma clk_upd_frame c s d : f_sys (clk_upd c s d) = f_sys s /\ f_hclk (clk_upd c s d) = f_hclk s /\
  f_pll (clk_upd c s d) = f_pll s /\ (forall c', c' <> c -> freq_of c' (clk_upd c s d) = freq_of c' s).
Proof.
  assert (Hp : f_pll (clk_upd c s d) = f_pll s).
  { unfold f_pll, clk_upd. rewrite upd_reg_ne; [done|]. by destruct c. }
  assert (H1 : f_sys (clk_upd c s d) = f_sys s).
  { unfold f_sys. rewrite Hp. unfold clk_upd. destruct c; cbn [clk_reg clk_put];
      [|by rewrite upd_reg_ne..]. rewrite upd_reg_eq. unfold SCRM_CSDR_PSCLR.
    change 0x3 with (Z.ones 2). change 0x7 with (Z.ones 3). by rewrite getf_putf_ne by lia. }
  assert (H2 : f_hclk (clk_upd c s d) = f_hclk s).
  { unfold f_hclk. rewrite H1. unfold clk_upd. destruct c; cbn [clk_reg clk_put];
      [|by rewrite upd_reg_ne..]. rewrite upd_reg_eq. unfold SCRM_CSDR_HCLKDIV.
    change 0xf with (Z.ones 4). change 0x3 with (Z.ones 2). by rewrite getf_putf_ne by lia. }
  split; [done|]. split; [done|]. split; [done|]. intros c' Hc'. unfold freq_of.
  assert (clk_parent c' (clk_upd c s d) = clk_parent c' s) as -> by by destruct c'.
  f_equal. f_equal. unfold clk_upd.
  destruct c, c'; try done; cbn [clk_reg clk_put clk_div]; first [by rewrite upd_reg_ne|rewrite upd_reg_eq];
    unfold SCRM_PSDR_PDIV1, SCRM_PSDR_PDIV2; change 0xf with (Z.ones 4); by rewrite getf_putf_ne by lia.
Qed.

Lemma wp_wr_reg a d (Q : unit -> W -> Prop) w s : rep w s -> clock_live a -> clock_volat a = 0 ->
  in_u32 d -> (forall w', rep w' (upd s a d) -> Q tt w') -> wp (io_wr32 a d) Q w.
Proof. apply wp_wr. Qed.

Lemma clk_upd_ok c s d : pll_ok s -> pll_ok (clk_upd c s d).
Proof. unfold pll_ok, clk_upd. rewrite upd_reg_ne; [done|]. by destruct c. Qed.

(** A request for [f] stores [pick] in the divider. *)
Lemma clk_set_run c f w s : rep w s -> pll_ok s -> f <> 0 ->
  let s' := clk_upd c s (pick (clk_parent c s) f (clk_max c)) in
  wp (clk_set c f) (fun v w' => v = freq_of c s' /\ rep w' s') w.
Proof.
  intros Hw Hok Hf s'. assert (Hok' : pll_ok s') by by apply clk_upd_ok.
  assert (Hend : forall w', rep w' s' -> wp (clk_get c) (fun v w' => v = freq_of c s' /\ rep w' s') w')
    by (intros w' Hw'; by apply (wp_clk_get c _ w' s' Hw' Hok')).
  assert (Hst : forall w1, rep w1 s -> wp (io_wr32 (clk_reg c) (clk_put c (s (clk_reg c))
     (pick (clk_parent c s) f (clk_max c)))) (fun _ w' => rep w' s') w1).
  { intros w1 Hw1. assert (clock_live (clk_reg c)) as Hl by (destruct c; live).
    apply (wp_wr_reg _ _ _ w1 s Hw1 Hl); [by destruct c|by apply clk_put_u32, (rep_range w1)|done]. }
  destruct c; cbn [clk_set].
  - apply wp_bind, (wp_hclk _ w s Hw Hok). intros w1 Hw1. apply wp_bind, wp_udiv; [done|].
    apply wp_bind, (wp_rd_csdr _ w1 s Hw1). intros w2 Hw2.
    apply wp_bind. eapply wp_mono; [apply (Hst w2 Hw2)|]. intros [] w3 Hw3. by apply Hend.
  - apply wp_bind, (wp_rd_pllr _ w s Hw Hok). intros v w1 Hw1 ? ? E _ _.
    apply wp_bind, (wp_rd_psdr _ w1 s Hw1). intros w2 Hw2.
    apply wp_bind, wp_decode_pll; [done..|]. rewrite E. apply wp_bind, wp_udiv; [done|].
    apply wp_bind. eapply wp_mono; [apply (Hst w2 Hw2)|]. intros [] w3 Hw3. by apply Hend.
  - apply wp_bind, (wp_rd_pllr _ w s Hw Hok). intros v w1 Hw1 ? ? E _ _.
    apply wp_bind, (wp_rd_psdr _ w1 s Hw1). intros w2 Hw2.
    apply wp_bind, wp_decode_pll; [done..|]. rewrite E. apply wp_bind, wp_udiv; [done|].
    apply wp_bind. eapply wp_mono; [apply (Hst w2 Hw2)|]. intros [] w3 Hw3. by apply Hend.
Qed.

(** What is kept when the divider of [c] is set. *)
Definition same_clocks (c : divided) (s s' : Z -> Z) : Prop :=
  f_pll s' = f_pll s /\ f_sys s' = f_sys s /\ f_hclk s' = f_hclk s /\
  (forall c', c' <> c -> freq_of c' s' = freq_of c' s) /\
  (forall a, a <> clk_reg c -> s' a = s a).

Lemma clk_upd_same c s d : same_clocks c s (clk_upd c s d).
Proof.
  pose proof (clk_upd_frame c s d) as (H1 & H2 & H3 & H4). split_and!; [done..|].
  intros a Ha. unfold clk_upd. by rewrite upd_reg_ne.
Qed.

Lemma freq_upd c s d : 0 <= d <= clk_max c -> freq_of c (clk_upd c s d) = clk_parent c s / (d + 1).
Proof.
  intros Hd. unfold freq_of. rewrite clk_upd_div by done.
  destruct (clk_upd_frame c s d) as (H1 & H2 & H3 & _). by destruct c; cbn [clk_parent]; rewrite ?H2, ?H3.
Qed.

(** [magus_set_pclk], [magus_set_perclk1] and [magus_set_perclk2]: a request
    between 1 Hz and the parent clock gives the slowest of the clocks the
    divider can make that are not slower than the request, or the slowest of
    all when none is that slow; the answer is the new clock, and no other
    clock changes. *)
Theorem set_clk_closest c f w s : rep w s -> pll_ok s -> 0 < f <= clk_parent c s ->
  exists v w' s', clk_set c f w = Done v w' /\ rep w' s' /\ v = freq_of c s' /\ f <= v /\
    (forall d, 0 <= d <= clk_max c -> f <= clk_parent c s / (d + 1) -> v <= clk_parent c s / (d + 1)) /\
    same_clocks c s s'.
Proof.
  intros Hw Hok Hf. pose proof (clk_set_run c f w s Hw Hok ltac:(lia)) as Hrun. cbn zeta in Hrun.
  apply wp_run in Hrun as (v & w' & E & Hv & Hw').
  assert (Hm : 0 <= clk_max c) by by destruct c.
  pose proof (pick_range (clk_parent c s) f _ Hm) as Hp. rewrite freq_upd in Hv by done.
  destruct (pick_slowest (clk_parent c s) f _ Hf (clk_parent_u32 c s Hok) Hm) as [Hlo Hbest].
  exists v, w', (clk_upd c s (pick (clk_parent c s) f (clk_max c))).
  rewrite freq_upd by done. subst v. split_and!; [done..|]. apply clk_upd_same.
Qed.

(** A request above the parent clock does not give the parent clock: the
    test [div < 0] on an unsigned divider never holds, the largest divider is
    stored and the clock becomes the slowest one. *)
Theorem set_clk_above_parent c f w s : rep w s -> pll_ok s -> clk_parent c s < f ->
  exists v w' s', clk_set c f w = Done v w' /\ rep w' s' /\ v = freq_of c s' /\
    v = clk_parent c s / (clk_max c + 1) /\ same_clocks c s s'.
Proof.
  intros Hw Hok Hf. pose proof (clk_parent_u32 c s Hok) as Hu. unfold in_u32 in Hu.
  pose proof (clk_set_run c f w s Hw Hok ltac:(lia)) as Hrun. cbn zeta in Hrun.
  apply wp_run in Hrun as (v & w' & E & Hv & Hw').
  rewrite pick_above in Hv, Hw' by (destruct c; cbn [clk_max]; lia).
  exists v, w', (clk_upd c s (clk_max c)). rewrite freq_upd in * by (destruct c; cbn; lia).
  split_and!; [done..|]. apply clk_upd_same.
Qed.

(** ** The AHB clock *)

(** Requests [magus_set_hclk] refuses: an odd ratio to the ARM clock, and the
    PLL output itself. *)
Definition hclk_refused (s : Z -> Z) (f : Z) : bool :=
  let h := Z.min f (f_sys s) in
  (h <? f_sys s) && Z.odd (f_sys s / h) || (h =? f_sys s) && (f_sys s =? f_pll s).

Definition hclk_upd (s : Z -> Z) (d : Z) : Z -> Z := upd s CSDR (putf (s CSDR) 8 0xf d).

Lemma hclk_upd_div s d : 0 <= d <= 15 -> SCRM_CSDR_HCLKDIV (hclk_upd s d CSDR) = d.
Proof.
  intros Hd. unfold hclk_upd, SCRM_CSDR_HCLKDIV. rewrite upd_reg_eq. change 0xf with (Z.ones 4).
  rewrite getf_putf by lia. rewrite Z.land_ones by lia. apply Z.mod_small. lia.
Qed.
Lemma hclk_upd_frame s d : f_pll (hclk_upd s d) = f_pll s /\ f_sys (hclk_upd s d) = f_sys s /\
  SCRM_CSDR_APBDIV (hclk_upd s d CSDR) = SCRM_CSDR_APBDIV (s CSDR) /\
  forall a, a <> CSDR -> hclk_upd s d a = s a.
Proof.
  assert (Hp : f_pll (hclk_upd s d) = f_pll s) by (unfold f_pll, hclk_upd; by rewrite upd_reg_ne).
  split_and!; [done| | |intros a Ha; by apply upd_reg_ne].
  - unfold f_sys. rewrite Hp. unfold hclk_upd. rewrite upd_reg_eq. unfold SCRM_CSDR_PSCLR.
    change 0xf with (Z.ones 4). change 0x7 with (Z.ones 3). by rewrite getf_putf_ne by lia.
  - unfold hclk_upd. rewrite upd_reg_eq. unfold SCRM_CSDR_APBDIV.
    change 0xf with (Z.ones 4). change 0x3 with (Z.ones 2). by rewrite getf_putf_ne by lia.
Qed.

Lemma odd_mod2 q : negb (q mod 2 =? 0) = Z.odd q.
Proof. rewrite Zmod_odd. by destruct (Z.odd q). Qed.

Lemma clamp_min f m : (if f >? m then m else f) = Z.min f m.
Proof. rewrite Z.gtb_ltb. destruct (m <? f) eqn:E; zbool; lia. Qed.

(** The refused requests go first; the others store the divider. *)
Lemma set_hclk_run f w s : rep w s -> pll_ok s -> 0 < f -> 0 < f_sys s ->
  let s' := if hclk_refused s f then s
            else hclk_upd s (pick (f_sys s) (Z.min f (f_sys s)) 15) in
  wp (magus_set_hclk f) (fun v w' => v = f_hclk s' /\ rep w' s') w.
Proof.
  intros Hw Hok Hf Hs s'. set (h := Z.min f (f_sys s)) in *.
  apply wp_bind, (wp_system_clk _ w s Hw Hok). intros w1 Hw1.
  apply wp_bind, (wp_pll_out _ w1 s Hw1 Hok). intros w2 Hw2. rewrite clamp_min. fold h.
  set (odd := negb (f_sys s =? h) && Z.odd (f_sys s / h)).
  apply wp_bind. enough (wp (if negb (f_sys s =? h) then
      let! q := udiv (f_sys s) h in ret (negb (q mod 2 =? 0)) else ret false)
      (fun b w' => b = odd /\ w' = w2) w2) as H.
  { eapply wp_mono; [exact H|]. intros b w3 [-> ->].
    assert (Hr : hclk_refused s f = odd || (f_sys s =? h) && (f_sys s =? f_pll s)).
    { unfold hclk_refused, odd. fold h. rewrite (Z.eqb_sym h). f_equal. f_equal.
      destruct (f_sys s =? h) eqn:E, (h <? f_sys s) eqn:E'; zbool; try done; lia. }
    assert (Hend : forall w' s1, rep w' s1 -> pll_ok s1 -> s1 = s' ->
        wp magus_get_hclk (fun v w' => v = f_hclk s' /\ rep w' s') w')
      by (intros w' s1 Hw' Hok' <-; by apply (wp_hclk _ w' s1 Hw' Hok')).
    unfold s' in *. rewrite Hr in *. clear s'. destruct odd; [by apply (Hend w2 s)|].
    destruct (_ && _); [by apply (Hend w2 s)|]. cbn [orb] in Hend.
    apply wp_bind, wp_udiv; [lia|]. apply wp_bind, (wp_rd_csdr _ w2 s Hw2). intros w3 Hw3.
    apply wp_bind. eapply (wp_wr_reg CSDR _ _ w3 s Hw3); [live|done| |].
    - apply (putf_u32 _ 8 4); [lia..|]. apply (rep_range w3 s CSDR Hw3). live.
    - intros w4 Hw4. eapply Hend; [exact Hw4| |done].
      unfold pll_ok. by rewrite upd_reg_ne. }
  unfold odd. destruct (f_sys s =? h) eqn:E; cbn [negb andb]; [by apply wp_ret|].
  apply wp_bind, wp_udiv; [lia|]. apply wp_ret. by rewrite odd_mod2.
Qed.

(** C34. [magus_set_hclk]: requests with an odd ratio to the ARM clock, and for
    the undivided PLL output, change nothing; any other stores the divider of
    the slowest AHB clock that is not slower than the request (at most the ARM
    clock), which divides the ARM clock by one or by an even number.  The
    answer is the AHB clock, and the PLL, the ARM clock and the APB divider
    stay as they were. *)
Theorem set_hclk_correct f w s : rep w s -> pll_ok s -> 0 < f -> 0 < f_sys s ->
  exists v w' s', magus_set_hclk f w = Done v w' /\ rep w' s' /\ v = f_hclk s' /\
    f_pll s' = f_pll s /\ f_sys s' = f_sys s /\
    SCRM_CSDR_APBDIV (s' CSDR) = SCRM_CSDR_APBDIV (s CSDR) /\
    (forall a, a <> CSDR -> s' a = s a) /\
    if hclk_refused s f then s' CSDR = s CSDR
    else let div := SCRM_CSDR_HCLKDIV (s' CSDR) in
      (div = 0 \/ Z.Even (div + 1)) /\ Z.min f (f_sys s) <= v /\
      forall d, 0 <= d <= 15 -> Z.min f (f_sys s) <= f_sys s / (d + 1) -> v <= f_sys s / (d + 1).
Proof.
  intros Hw Hok Hf Hs. pose proof (set_hclk_run f w s Hw Hok Hf Hs) as Hrun. cbn zeta in Hrun.
  apply wp_run in Hrun as (v & w' & E & Hv & Hw'). do 3 eexists. split; [exact E|]. split; [exact Hw'|].
  split; [exact Hv|]. destruct (hclk_refused s f) eqn:Er; [split_and!; done|].
  set (h := Z.min f (f_sys s)) in *. set (d := pick (f_sys s) h 15) in *.
  assert (Hh : 0 < h <= f_sys s) by lia.
  destruct (hclk_upd_frame s d) as (Hpll & Hsys & Happ & Hoth).
  pose proof (pick_range (f_sys s) h 15 ltac:(lia)) as Hd. fold d in Hd.
  destruct (pick_slowest (f_sys s) h 15 Hh (f_sys_u32 s Hok) ltac:(lia)) as [Hlo Hbest]. fold d in Hlo, Hbest.
  unfold f_hclk in Hv. rewrite Hsys, hclk_upd_div in Hv by done.
cbn zeta. split_and!; [done..| |by subst v|by subst v].
  rewrite hclk_upd_div by done. unfold d. rewrite pick_below by (done || lia || by apply f_sys_u32).
  assert (Hq : 1 <= f_sys s / h) by (apply Z.div_le_lower_bound; lia).
  destruct (decide (f_sys s / h - 1 = 0)) as [->|Hne]; [left; lia|]. right.
  destruct (decide (15 <= f_sys s / h - 1)); [rewrite Z.min_r by done; by exists 8|].
  rewrite Z.min_l, Z.sub_add by lia. apply Z.even_spec. rewrite <- Z.negb_odd. apply negb_true_iff.
  unfold hclk_refused in Er. fold h in Er. apply orb_false_iff in Er as [Er _].
  destruct (h <? f_sys s) eqn:E'; zbool; [done|]. replace (f_sys s) with h in Hne by lia.
  rewrite Z.div_same in Hne by lia. lia.
Qed.

(** ** The ARM clock *)

Definition SDRAM_ECAS (y : Z) : Z := getf y 12 0x1.

Lemma ecas_bit y : SDRAM_ECAS y = 0 \/ SDRAM_ECAS y = 1.
Proof. pose proof (getf_range y 12 1 ltac:(lia)). change (getf y 12 (Z.ones 1)) with (SDRAM_ECAS y) in *. lia. Qed.

(** What the boards listed in the [#if] do with the controller of the memory. *)
Definition ecas_for (arm old : Z) : Z :=
  if arm / 1000 <=? 150000 then 0 else if arm / 1000 >=? 180000 then 1 else old.

Lemma ecas_write y on : (if on : bool then Z.lor y (Z.shiftl 1 12) else Z.land y (Z.lnot (Z.shiftl 1 12)))
  = putf y 12 0x1 (if on then 1 else 0).
Proof.
  change (putf y 12 0x1) with (putf y 12 (Z.ones 1)). apply bits_ext. intros i Hi. rewrite putf_bit by lia.
  assert (E1 : Z.testbit (Z.shiftl 1 12) i = (12 <=? i) && (i <? 12 + 1)).
  { change (Z.shiftl 1 12) with (2 ^ 12). rewrite Z.pow2_bits_eqb by lia.
    destruct (12 =? i) eqn:E, (12 <=? i) eqn:E', (i <? 12 + 1) eqn:E''; zbool; try done; lia. }
  destruct on; rewrite ?Z.lor_spec, ?Z.land_spec, ?Z.lnot_spec, E1 by lia;
    destruct ((12 <=? i) && (i <? 12 + 1)) eqn:E; rewrite ?orb_true_r, ?orb_false_r, ?andb_false_r, ?andb_true_r;
    try done; zbool; by replace i with 12 by lia.
Qed.

(** The state a request leaves, but for the other registers. *)
Definition sys_state (s : Z -> Z) (x y : Z) (w : W) : Prop :=
  exists s', rep w s' /\ s' CSDR = x /\ s' SDRAM_CFGR = y /\
    forall a, a <> CSDR -> a <> SDRAM_CFGR -> s' a = s a.

Lemma sys_state_rd_csdr s x y (Q : Z -> W -> Prop) w : sys_state s x y w ->
  (forall w', sys_state s x y w' -> Q x w') -> wp (io_rd32 (MAGUS_VIO_SCRM + scrm_csdr)) Q w.
Proof.
  intros (s1 & Hw & Hx & Hy & Ho) HQ. apply (wp_rd_csdr _ w s1 Hw). intros w' Hw'.
  rewrite Hx. apply HQ. by exists s1.
Qed.
Lemma sys_state_wr_csdr s x y d (Q : unit -> W -> Prop) w : sys_state s x y w -> in_u32 d ->
  (forall w', sys_state s d y w' -> Q tt w') -> wp (io_wr32 (MAGUS_VIO_SCRM + scrm_csdr) d) Q w.
Proof.
  intros (s1 & Hw & Hx & Hy & Ho) Hd HQ. apply (wp_wr_reg CSDR _ _ w s1 Hw); [live|done|done|].
  intros w' Hw'. apply HQ. exists (upd s1 CSDR d). split_and!; [done|by apply upd_reg_eq|by rewrite upd_reg_ne|].
  intros a Ha1 Ha2. rewrite upd_reg_ne by done. by apply Ho.
Qed.
Lemma sys_state_u32 s x y w : sys_state s x y w -> in_u32 x /\ in_u32 y.
Proof. intros (s1 & Hw & <- & <- & _). split; apply (rep_range w s1); done || live. Qed.

Lemma write_psclr_run s x y p w : sys_state s x y w ->
  wp (write_psclr MAGUS_VIO_SCRM p) (fun _ => sys_state s (putf x 12 0x7 p) y) w.
Proof.
  intros Hw. pose proof (sys_state_u32 _ _ _ _ Hw) as [Hx _].
  apply wp_bind, (sys_state_rd_csdr s x y _ w Hw). intros w1 Hw1.
  apply (sys_state_wr_csdr s x y _ _ w1 Hw1); [by apply (putf_u32 _ 12 3)|done].
Qed.
Lemma set_ecas_run s x y on w : sys_state s x y w ->
  wp (set_ecas y on) (fun _ => sys_state s x (putf y 12 0x1 (if on then 1 else 0))) w.
Proof.
  intros Hw. pose proof (sys_state_u32 _ _ _ _ Hw) as [_ Hy].
  destruct Hw as (s1 & Hw & Hx & Hy' & Ho). unfold set_ecas. rewrite ecas_write.
  apply (wp_wr_reg SDRAM_CFGR _ _ w s1 Hw); [live|done|by apply (putf_u32 _ 12 1)|].
  intros w' Hw'. eexists. split_and!; [exact Hw'|by rewrite upd_reg_ne|by apply upd_reg_eq|].
  intros a Ha1 Ha2. rewrite upd_reg_ne by done. by apply Ho.
Qed.

(** The order of the writes apart, both directions do the same. *)
Lemma ecas_steps s x y p arm (up : bool) w : sys_state s x y w ->
  wp (let! excpt :=
        (if up then
           (if arm / 1000 <=? 150000 then
              if SDRAM_ECAS y =? 1 then set_ecas y false else ret tt
            else if arm / 1000 >=? 180000 then
              if SDRAM_ECAS y =? 0 then set_ecas y true else ret tt
            else ret tt) ;; ret 0
         else if arm / 1000 <=? 150000 then
           (if SDRAM_ECAS y =? 1 then set_ecas y false else ret tt) ;; ret 0
         else if arm / 1000 >=? 180000 then
           write_psclr MAGUS_VIO_SCRM p ;;
           (if SDRAM_ECAS y =? 0 then set_ecas y true else ret tt) ;; ret 1
         else ret 0) in
      if excpt =? 0 then write_psclr MAGUS_VIO_SCRM p else ret tt)
    (fun _ => sys_state s (putf x 12 0x7 p) (putf y 12 0x1 (ecas_for arm (SDRAM_ECAS y)))) w.
Proof.
  assert (Hset : forall (on : bool) x w, sys_state s x y w ->
    wp (if SDRAM_ECAS y =? (if on then 0 else 1) then set_ecas y on else ret tt)
      (fun _ => sys_state s x (putf y 12 0x1 (if on then 1 else 0))) w).
  { intros on x' w' Hw'. destruct (_ =? _) eqn:E; [by apply set_ecas_run|]. apply wp_ret. zbool.
    enough (putf y 12 0x1 (if on then 1 else 0) = y) as -> by done.
    rewrite <- (putf_self y 12 1) at 2 by lia. f_equal.
    destruct (ecas_bit y) as [E'|E']; unfold SDRAM_ECAS in E'; change (Z.ones 1) with 0x1;
      rewrite E' in *; destruct on; done. }
  assert (Hid : putf y 12 0x1 (SDRAM_ECAS y) = y) by (apply (putf_self y 12 1); lia).
  assert (Hps : forall x1 y1 w1, sys_state s x1 y1 w1 -> wp (write_psclr MAGUS_VIO_SCRM p)
    (fun _ => sys_state s (putf x1 12 0x7 p) y1) w1) by (intros; by apply write_psclr_run).
  intros Hw. unfold ecas_for. apply wp_bind.
  destruct (arm / 1000 <=? 150000).
  - destruct up; apply wp_bind; (eapply wp_mono; [by apply (Hset false x)|]);
      intros [] w1 Hw1; apply wp_ret; by apply Hps.
  - destruct (arm / 1000 >=? 180000); [|rewrite Hid; destruct up; wp_simpl; by apply Hps].
    destruct up; apply wp_bind.
    + eapply wp_mono; [by apply (Hset true x)|]. intros [] w1 Hw1. apply wp_ret. by apply Hps.
    + eapply wp_mono; [by apply (Hps x y)|]. intros [] w1 Hw1. apply wp_bind.
      eapply wp_mono; [by apply (Hset true)|]. intros [] w2 Hw2. by apply wp_ret, wp_ret.
Qed.

Definition armclk_of (s : Z -> Z) (f : Z) : Z := Z.min f (f_pll s).
Definition psclr_of (s : Z -> Z) (f : Z) : Z := pick (f_pll s) (armclk_of s f) 7.

(** With neither clock divided the AHB divider is made 2. *)
Definition listed_csdr (s : Z -> Z) (f : Z) : Z :=
  let c := s CSDR in
  putf (if (psclr_of s f =? 0) && (SCRM_CSDR_HCLKDIV c =? 0)
        then putf c 8 0xf (SCRM_CSDR_HCLKDIV c + 1) else c) 12 0x7 (psclr_of s f).
Definition fixed_csdr (s : Z -> Z) (f : Z) : Z :=
  let c := s CSDR in let p := psclr_of s f in
  let q := u32 (f_pll s / (p + 1) / DEFAULT_FIX_AHB_CLK - 1) in
  putf (putf c 8 0xf (if (p =? 0) && (SCRM_CSDR_HCLKDIV c =? 0) then SCRM_CSDR_HCLKDIV c + 1
                      else if q =? u32 (-1) then 1 else q)) 12 0x7 p.

Lemma sys_state_init w s : rep w s -> sys_state s (s CSDR) (s SDRAM_CFGR) w.
Proof. intros Hw. by exists s. Qed.

(** The ARM clock of a state whose prescaler is [p]. *)
Lemma sys_state_clk s x p : 0 <= p <= 7 -> forall s', s' CSDR = putf x 12 0x7 p ->
  (forall a, a <> CSDR -> a <> SDRAM_CFGR -> s' a = s a) ->
  f_pll s' = f_pll s /\ SCRM_CSDR_PSCLR (s' CSDR) = p /\ f_sys s' = f_pll s / (p + 1).
Proof.
  intros Hp s' Hx Ho. assert (Hpll : f_pll s' = f_pll s) by (unfold f_pll; by rewrite Ho).
  assert (E : SCRM_CSDR_PSCLR (s' CSDR) = p).
  { rewrite Hx. unfold SCRM_CSDR_PSCLR. change 0x7 with (Z.ones 3). rewrite getf_putf by lia.
    rewrite Z.land_ones by lia. apply Z.mod_small. lia. }
  split_and!; [done..|]. unfold f_sys. by rewrite E, Hpll.
Qed.

Lemma sys_state_get s x y w : pll_ok s -> sys_state s x y w ->
  wp magus_get_system_clk (fun v w' => exists s', rep w' s' /\ v = f_sys s' /\ s' CSDR = x /\
    s' SDRAM_CFGR = y /\ forall a, a <> CSDR -> a <> SDRAM_CFGR -> s' a = s a) w.
Proof.
  intros Hok (s' & Hw & Hx & Hy & Ho).
  assert (Hok' : pll_ok s') by (unfold pll_ok; by rewrite (Ho PLLR)).
  apply (wp_system_clk _ w s' Hw Hok'). intros w' Hw'. by exists s'.
Qed.

Lemma listed_run f w s : rep w s -> pll_ok s -> 0 < f -> 0 < f_pll s ->
  wp (scrm_set_system_clk MAGUS_VIO_SCRM f) (fun v w' => exists s', rep w' s' /\ v = f_sys s' /\
    s' CSDR = listed_csdr s f /\
    s' SDRAM_CFGR = putf (s SDRAM_CFGR) 12 0x1 (ecas_for (armclk_of s f) (SDRAM_ECAS (s SDRAM_CFGR))) /\
    forall a, a <> CSDR -> a <> SDRAM_CFGR -> s' a = s a) w.
Proof.
  intros Hw Hok Hf Hpos.
  apply wp_bind, (wp_pll_out _ w s Hw Hok). intros w1 Hw1.
  apply wp_bind, (wp_rd_csdr _ w1 s Hw1). intros w2 Hw2.
  apply wp_bind, (wp_system_clk _ w2 s Hw2 Hok). intros w3 Hw3%sys_state_init.
  rewrite clamp_min. fold (armclk_of s f).
  apply wp_bind, wp_udiv; [unfold armclk_of; lia|]. cbn zeta.
  change (if _ >? 7 then 7 else _) with (psclr_of s f).
  set (x := if (psclr_of s f =? 0) && (SCRM_CSDR_HCLKDIV (s CSDR) =? 0)
        then putf (s CSDR) 8 0xf (SCRM_CSDR_HCLKDIV (s CSDR) + 1) else s CSDR).
  apply wp_bind. eapply (wp_mono _ (fun _ => sys_state s x (s SDRAM_CFGR))).
  { pose proof (sys_state_u32 _ _ _ _ Hw3) as [Hu _]. unfold x.
    destruct (_ && _); [|by apply wp_ret]. apply wp_bind. eapply (sys_state_rd_csdr _ _ _ _ w3); [exact Hw3|]. intros w4 Hw4.
    apply (sys_state_wr_csdr _ _ _ _ _ w4 Hw4); [|by intros].
    apply (putf_u32 _ 8 4); [lia..|exact Hu]. }
  intros [] w4 (s1 & Hw4 & Hx & Hy & Ho). apply wp_bind, (wp_rd_sdram _ w4 s1 Hw4).
  intros w5 Hw5. rewrite Hy. fold (SDRAM_ECAS (s SDRAM_CFGR)).
  assert (Hs5 : sys_state s x (s SDRAM_CFGR) w5) by (exists s1; done).
  apply wp_bind. pose proof (ecas_steps s x (s SDRAM_CFGR) (psclr_of s f) (armclk_of s f)
    (f_sys s >? armclk_of s f) w5 Hs5) as Hrun. apply wp_bind in Hrun.
  eapply wp_mono; [exact Hrun|]. intros e w6 Hw6. apply wp_bind.
  eapply wp_mono; [exact Hw6|]. intros [] w7 Hw7. by apply (sys_state_get s _ _ w7 Hok Hw7).
Qed.

Lemma fixed_run f w s : rep w s -> pll_ok s -> 0 < f -> 0 < f_pll s -> f_sys s <> f ->
  wp (scrm_set_system_clk_fixed MAGUS_VIO_SCRM f) (fun v w' => exists s', rep w' s' /\ v = f_sys s' /\
    s' CSDR = fixed_csdr s f /\ s' SDRAM_CFGR = s SDRAM_CFGR /\
    forall a, a <> CSDR -> a <> SDRAM_CFGR -> s' a = s a) w.
Proof.
  intros Hw Hok Hf Hpos Hne.
  apply wp_bind, (wp_pll_out _ w s Hw Hok). intros w1 Hw1.
  apply wp_bind, (wp_rd_csdr _ w1 s Hw1). intros w2 Hw2.
  apply wp_bind, (wp_system_clk _ w2 s Hw2 Hok). intros w3 Hw3.
  rewrite (proj2 (Z.eqb_neq _ _) Hne).
  apply wp_bind, (wp_rd_csdr _ w3 s Hw3). intros w4 Hw4%sys_state_init.
  rewrite clamp_min. fold (armclk_of s f).
  apply wp_bind, wp_udiv; [unfold armclk_of; lia|]. cbn zeta.
  apply wp_bind. eapply (sys_state_rd_csdr _ _ _ _ w4); [exact Hw4|]. intros w5 Hw5.
  apply wp_bind. pose proof (sys_state_u32 _ _ _ _ Hw5) as [Hu _].
  apply (sys_state_wr_csdr _ _ _ _ _ w5 Hw5).
  { apply (putf_u32 _ 12 3); [lia..|]. by apply (putf_u32 _ 8 4). }
  intros w6 Hw6. by apply (sys_state_get s _ _ w6 Hok Hw6).
Qed.
End Spec.

Section SystemClock.
Context {W : Type} {B : Bus W} {R : Registers W clock_live clock_volat} {Cfg : ClockConfig}.
Implicit Types (w : W) (s : Z -> Z).

(** Both branches: the registers, and what they make of the clocks. *)
Lemma system_clk_run f w s : rep w s -> pll_ok s -> 0 < f -> 0 < f_pll s ->
  wp (magus_set_system_clk f) (fun v w' => exists s', rep w' s' /\ v = f_sys s' /\ f_pll s' = f_pll s /\
    f_sys s' = (if negb listed_board && (f_sys s =? f) then f else f_pll s / (psclr_of s f + 1)) /\
    (forall a, a <> CSDR -> a <> SDRAM_CFGR -> s' a = s a) /\
    (listed_board = true -> s' CSDR = listed_csdr s f /\
      s' SDRAM_CFGR = putf (s SDRAM_CFGR) 12 0x1 (ecas_for (armclk_of s f) (SDRAM_ECAS (s SDRAM_CFGR))))) w.
Proof.
  intros Hw Hok Hf Hpos. unfold magus_set_system_clk.
  pose proof (pick_range (f_pll s) (armclk_of s f) 7 ltac:(lia)) as Hp. fold (psclr_of s f) in Hp.
  destruct listed_board; cbn [negb andb].
  - eapply wp_mono; [by apply listed_run|]. intros v w' (s' & Hw' & Hv & Hx & Hy & Ho).
    destruct (sys_state_clk s _ _ Hp s' Hx Ho) as (H1 & _ & H2). by exists s'.
  - destruct (f_sys s =? f) eqn:E; zbool.
    + apply wp_bind, (wp_pll_out _ w s Hw Hok). intros w1 Hw1.
      apply wp_bind, (wp_rd_csdr _ w1 s Hw1). intros w2 Hw2.
      apply wp_bind, (wp_system_clk _ w2 s Hw2 Hok). intros w3 Hw3.
      rewrite (proj2 (Z.eqb_eq _ _) E). apply wp_ret. by exists s.
    + eapply wp_mono; [by apply fixed_run|]. intros v w' (s' & Hw' & Hv & Hx & Hy & Ho).
      destruct (sys_state_clk s _ _ Hp s' Hx Ho) as (H1 & _ & H2). by exists s'.
Qed.

(** C28. [magus_set_system_clk], on either kind of board: the ARM clock becomes
    the slowest the prescaler can make that is not slower than the request, the
    PLL output when the request is above it; the PLL and the peripheral clocks
    are unchanged.  On the boards listed in the [#if] the AHB clock is not the
    PLL output afterwards, and the memory controller is switched for clocks up
    to 150 MHz and from 180 MHz. *)
Theorem set_system_clk_closest f w s : rep w s -> pll_ok s -> 0 < f -> 0 < f_pll s ->
  exists v w' s', magus_set_system_clk f w = Done v w' /\ rep w' s' /\ v = f_sys s' /\
    f_pll s' = f_pll s /\ Z.min f (f_pll s) <= v /\
    (forall d, 0 <= d <= 7 -> Z.min f (f_pll s) <= f_pll s / (d + 1) -> v <= f_pll s / (d + 1)) /\
    freq_of Perclk1 s' = freq_of Perclk1 s /\ freq_of Perclk2 s' = freq_of Perclk2 s /\
    (listed_board = true ->
       (SCRM_CSDR_PSCLR (s' CSDR) = 0 -> SCRM_CSDR_HCLKDIV (s' CSDR) <> 0) /\
       SDRAM_ECAS (s' SDRAM_CFGR) = ecas_for (Z.min f (f_pll s)) (SDRAM_ECAS (s SDRAM_CFGR))).
Proof.
  intros Hw Hok Hf Hpos. pose proof (system_clk_run f w s Hw Hok Hf Hpos) as Hrun.
  apply wp_run in Hrun as (v & w' & E & s' & Hw' & Hv & Hpll & Hsys & Ho & Hl).
  assert (Hper : forall c, c <> Pclk -> freq_of c s' = freq_of c s).
  { intros c Hc. unfold freq_of. assert (clk_parent c s' = clk_parent c s) as -> by by destruct c.
    destruct c; [done|..]; cbn [clk_div]; by rewrite (Ho PSDR). }
  exists v, w', s'. split; [done|]. split; [done|]. split; [done|]. split; [done|].
  assert (Ha : 0 < armclk_of s f <= f_pll s) by (unfold armclk_of; lia).
  assert (Hu : in_u32 (f_pll s)) by apply pll_freq_u32, Hok.
  destruct (pick_slowest (f_pll s) (armclk_of s f) 7 Ha Hu ltac:(lia)) as [Hlo Hbest].
  fold (psclr_of s f) (armclk_of s f) in *. rewrite Hv, Hsys.
  pose proof (pick_range (f_pll s) (armclk_of s f) 7 ltac:(lia)) as Hp. fold (psclr_of s f) in Hp.
  assert (Hfs : f_sys s <= f_pll s).
  { unfold f_sys. pose proof (getf_nonneg (s CSDR) 12 7 ltac:(lia)) as Hn.
    unfold SCRM_CSDR_PSCLR. apply Z.div_le_upper_bound; nia. }
  split; [destruct (negb _ && _) eqn:Eb; [unfold armclk_of; lia|done]|].
  split. { destruct (negb _ && _) eqn:Eb; [|done]. zbool.
    unfold armclk_of. rewrite Z.min_l by lia. done. }
  split; [by apply Hper|]. split; [by apply Hper|]. intros Hb. destruct (Hl Hb) as [Hx Hy]. split.
  - rewrite Hx. unfold listed_csdr, SCRM_CSDR_PSCLR, SCRM_CSDR_HCLKDIV.
    change 0xf with (Z.ones 4). change 0x7 with (Z.ones 3).
    rewrite getf_putf, getf_putf_ne by lia. rewrite Z.land_ones, Z.mod_small by lia.
    intros ->. cbn [Z.eqb andb]. destruct (getf _ 8 (Z.ones 4) =? 0) eqn:E0; zbool; [|done].
    by rewrite E0, getf_putf by lia.
  - rewrite Hy. unfold SDRAM_ECAS at 1. change 0x1 with (Z.ones 1). rewrite getf_putf by lia.
    unfold ecas_for. destruct (_ <=? _); [done|]. destruct (_ >=? _); [done|].
    by destruct (ecas_bit (s SDRAM_CFGR)) as [->| ->].
Qed.
End SystemClock.

(** ** The clock module at work

    240 MHz out of the PLL, the AHB clock at half of it. *)
Definition clock_bus : Bus sim := sim_bus clock_volat 3.
Definition clock_w0 : sim := Sim [(PLLR, 0x14010200); (CSDR, 0x110); (PSDR, 0x3300)] 0.
Definition clock_s0 (a : Z) : Z := Z.land (u32 (sim_peek (sim_mem clock_w0) a)) (Z.lnot (clock_volat a)).

#[global] Instance clock_registers : @Registers sim clock_bus clock_live clock_volat := sim_registers _ _ _.

Lemma clock_rep0 : @rep sim clock_bus clock_live clock_volat _ clock_w0 clock_s0.
Proof. split; [cbn; lia|done]. Qed.
Lemma clock_ok0 : pll_ok clock_s0.
Proof. by vm_compute. Qed.

#[local] Instance clock_bus_i : Bus sim := clock_bus.

Lemma set_clk_closest_witness :
  exists v w', clk_set Perclk1 50000000 clock_w0 = Done v w' /\ 50000000 <= v.
Proof.
  destruct (set_clk_closest Perclk1 50000000 clock_w0 clock_s0 clock_rep0 clock_ok0)
    as (v & w' & s' & E & _ & _ & Hv & _); [by vm_compute|]. exists v, w'. split; [exact E|exact Hv].
Defined.

Lemma set_clk_above_parent_witness :
  exists w', clk_set Perclk1 250000000 clock_w0 = Done 15000000 w'.
Proof.
  destruct (set_clk_above_parent Perclk1 250000000 clock_w0 clock_s0 clock_rep0 clock_ok0)
    as (v & w' & s' & E & _ & _ & -> & _); [by vm_compute|]. exists w'. exact E.
Defined.

Lemma set_hclk_correct_witness :
  exists v w' s', magus_set_hclk 60000000 clock_w0 = Done v w' /\ rep w' s' /\ v = f_hclk s'.
Proof.
  destruct (set_hclk_correct 60000000 clock_w0 clock_s0 clock_rep0 clock_ok0)
    as (v & w' & s' & E & Hr & Hv & _); [by vm_compute..|]. exists v, w', s'. split; [exact E|]. split; [exact Hr|exact Hv].
Defined.

#[local] Instance clock_config : ClockConfig := {| listed_board := true; pll_fuel := 4 |}.

Lemma set_system_clk_closest_witness :
  exists v w' s', magus_set_system_clk 200000000 clock_w0 = Done v w' /\ rep w' s' /\ v = f_sys s' /\
    200000000 <= v.
Proof.
  destruct (set_system_clk_closest 200000000 clock_w0 clock_s0 clock_rep0 clock_ok0)
    as (v & w' & s' & E & Hr & Hv & _ & Hle & _); [by vm_compute..|]. exists v, w', s'.
  split; [exact E|]. split; [exact Hr|]. split; [exact Hv|]. etrans; [|exact Hle]. by vm_compute.
Defined.

(** On the other boards 60 MHz leaves the AHB at 30 MHz, where the comment of
    [scrm_set_system_clk] says 60 MHz. *)
Example fixed_board_ahb :
  match (magus_set_system_clk (H0 := {| listed_board := false; pll_fuel := 4 |}) 60000000 ;; magus_get_hclk) clock_w0 with
  | Done v _ => v = 30000000 | Crash _ => False end.
Proof. by vm_compute. Qed.
