(* ===== verification/MagusCpufreq.v ===== *)
(** * Scaling the ARM clock

    [arch/arm/mach-magus/cpufreq.c]: the table of PLL outputs with the ARM
    clocks each can give, the PLL dividers for an output, and the driver's
    operations.  Frequencies are in kHz in the table and the policy, in Hz for
    the clock module.  [notify] is the kernel's [cpufreq_notify_transition];
    [stack_int] is what the uninitialised local [opdiv_new] holds. *)

From Stdlib Require Import ZArith Lia Bool.
From stdpp Require Import base numbers list.
From S2P Require Import Prelude CMonad DevIO MagusClock.

Definition INVALID : Z := u32 (Z.lnot 0).
Definition TABLE_END : Z := u32 (Z.lnot 1).

Record cpufreq_pll_table := PllRow { row_pll_out : Z; row_valid_freqs : list Z }.

Definition magus_freq_table : list cpufreq_pll_table :=
  [ PllRow 240000 [240000; 120000; 60000];
    PllRow 220000 [220000; 110000; 55000];
    PllRow 210000 [210000; 105000; INVALID];
    PllRow 200000 [200000; 100000; 50000];
    PllRow 190000 [190000; 95000; INVALID];
    PllRow 180000 [180000; 90000; INVALID];
    PllRow 170000 [170000; 85000; INVALID];
    PllRow 160000 [160000; 80000; INVALID];
    PllRow 150000 [150000; 75000; INVALID];
    PllRow 130000 [130000; 65000; INVALID];
    PllRow TABLE_END [TABLE_END; TABLE_END; TABLE_END] ].

Record cpufreq_policy := Policy {
  pol_cpu : Z; pol_min : Z; pol_max : Z; pol_cur : Z;
  cpuinfo_min_freq : Z; cpuinfo_max_freq : Z; transition_latency : Z }.

(** ** The table *)

(** [for (i = 0; table[i].pll_out != TABLE_END; i++) if (p(table[i])) return i; return -1;] *)
Fixpoint table_lookup (p : cpufreq_pll_table -> bool) (table : list cpufreq_pll_table) (i : Z) : option Z :=
  match table with
  | [] => None
  | row :: rest =>
      if row_pll_out row =? TABLE_END then Some (-1)
      else if p row then Some i else table_lookup p rest (i + 1)
  end.

Definition cpufreq_table_lookup_pllout (table : list cpufreq_pll_table) (pll_out : Z) : option Z :=
  table_lookup (fun row => row_pll_out row =? pll_out) table 0.

Definition cpufreq_table_lookup_freq (table : list cpufreq_pll_table) (target_freq : Z) : option Z :=
  table_lookup (fun row => existsb (fun f => f =? target_freq) (row_valid_freqs row)) table 0.

(** ** The dividers of the PLL *)
Section Dividers.
Context {W : Type}.

(** [(fbdiv_new % 2) != 0] and the remainder test of the loops. *)
Definition uneven (f_out refdiv opdiv f_in fbdiv : Z) : M W bool :=
  let! m := umod (u32 (f_out * refdiv * opdiv)) f_in in
  ret (negb (m =? 0) || negb (Z.rem fbdiv 2 =? 0)).

Definition fbdiv_for (f_out refdiv opdiv f_in : Z) : M W Z :=
  let! q := udiv (u32 (f_out * refdiv * opdiv)) f_in in ret (s32 q).

(** One round of the searches: [inr (refdiv_new, fbdiv_new)] is the [break]. *)
Definition try_refdiv (ok : Z -> bool) (f_out opdiv f_in refdiv : Z) : M W (Z + Z * Z) :=
  let! fbdiv := fbdiv_for f_out refdiv opdiv f_in in
  if ok fbdiv then
    let! u := uneven f_out refdiv opdiv f_in fbdiv in
    ret (if (u : bool) then inl fbdiv else inr (refdiv, fbdiv))
  else ret (inl fbdiv).

(** [for (refdiv_new = 2; refdiv_new <= 6; refdiv_new++)]: [refdiv_new] is 7
    when no round breaks. *)
Definition search_up (ok : Z -> bool) (f_out opdiv f_in fbdiv : Z) : M W (Z * Z) :=
  let! r := for_local 2 7 fbdiv (fun refdiv _ => try_refdiv ok f_out opdiv f_in refdiv) in
  ret match r with inl f => (7, f) | inr p => p end.

(** [for (refdiv_new = 6; refdiv_new <= 2; refdiv_new--)]. *)
Definition search_down (f_out opdiv f_in fbdiv : Z) : M W (Z * Z) :=
  let! r := while_local 1 (fun l => fst l <=? 2) (6, fbdiv)
    (fun l => let refdiv := fst l in
       let! t := try_refdiv (fun f => f <=? 400) f_out opdiv f_in refdiv in
       ret match t with inl f => inl (refdiv - 1, f) | inr p => inr p end) in
  ret match r with inl p => p | inr p => p end.

Definition choose_opdiv (stack_int f_out : Z) : Z :=
  if (f_out >=? 50000000) && (f_out <? 100000000) then 3
  else if (f_out >=? 100000000) && (f_out <? 200000000) then 2
  else if (f_out >=? 200000000) && (f_out <=? 400000000) then 1
  else stack_int.

Definition search_dividers (f_out opdiv f_in : Z) : M W (Z * Z) :=
  let! fbdiv := fbdiv_for f_out 2 opdiv f_in in
  if fbdiv <? 52 then search_up (fun f => f >=? 52) f_out opdiv f_in fbdiv
  else if fbdiv >? 400 then search_down f_out opdiv f_in fbdiv
  else
    let! m := umod (u32 (f_out * 2 * opdiv)) f_in in
    if negb (m =? 0)
    then search_up (fun f => (f >=? 52) && (f <=? 400)) f_out opdiv f_in fbdiv
    else ret (2, fbdiv).

(** The new value of PLLR: each field is cleared and the divider or-ed in. *)
Definition put_dividers (cur_pllr fbdiv opdiv refdiv : Z) : Z :=
  let pllr := cur_pllr in
  let pllr := Z.land pllr (Z.lnot (Z.shiftl 0xff 24)) in
  let pllr := Z.lor pllr (u32 (Z.shiftl fbdiv 24)) in
  let pllr := Z.land pllr (Z.lnot (Z.shiftl 0x3 16)) in
  let pllr := Z.lor pllr (u32 (Z.shiftl opdiv 16)) in
  let pllr := Z.land pllr (Z.lnot (Z.shiftl 0x1f 8)) in
  Z.lor pllr (u32 (Z.shiftl refdiv 8)).
End Dividers.

(** ** The driver *)
Class CpufreqEnv (W : Type) := {
  stack_int : Z;
  notify : Z -> Z -> Z -> M W unit }.

Definition CPUFREQ_PRECHANGE : Z := 0.
Definition CPUFREQ_POSTCHANGE : Z := 1.
Definition EINVAL : Z := 22.

Section Cpufreq.
Context {W : Type} `{Bus W} `{ClockConfig} `{CpufreqEnv W}.

(** Answers the new PLLR and the PLL output it gives. *)
Definition magus_compute_pllr (f_out f_in : Z) : M W (Z * Z) :=
  let! cur_pllr := magus_get_pllr in
  udiv f_in (SCRM_PLLR_REFDIV cur_pllr) ;;
  let opdiv_new := choose_opdiv stack_int f_out in
  let! (refdiv_new, fbdiv_new) := search_dividers f_out opdiv_new f_in in
  let pllr := put_dividers cur_pllr (Z.quot fbdiv_new 2) opdiv_new refdiv_new in
  let! new_freq := scrm_decode_pll pllr f_in in
  ret (pllr, new_freq).

Definition cpufreq_verify_within_limits (p : cpufreq_policy) (min max : Z) : cpufreq_policy :=
  let pmin := if pol_min p <? min then min else pol_min p in
  let pmax := if pol_max p <? min then min else pol_max p in
  let pmin := if pmin >? max then max else pmin in
  let pmax := if pmax >? max then max else pmax in
  let pmin := if pmin >? pmax then pmax else pmin in
  Policy (pol_cpu p) pmin pmax (pol_cur p) (cpuinfo_min_freq p) (cpuinfo_max_freq p) (transition_latency p).

Definition magus_verify_speed (p : cpufreq_policy) : Z * cpufreq_policy :=
  if negb (pol_cpu p =? 0) then (- EINVAL, p)
  else (0, cpufreq_verify_within_limits p (cpuinfo_min_freq p) (cpuinfo_max_freq p)).

Definition magus_get_speed (cpu : Z) : M W Z :=
  if negb (cpu =? 0) then ret 0
  else let! freq := magus_get_system_clk in ret (freq / 1000).

Definition clamp_target (p : cpufreq_policy) (target_freq : Z) : Z :=
  let t := if target_freq <? cpuinfo_min_freq p then cpuinfo_min_freq p else target_freq in
  let t := if t >? cpuinfo_max_freq p then cpuinfo_max_freq p else t in
  if t <? pol_min p then pol_min p else t.

(** Row [index] has the target among its clocks. *)
Definition row_has (index target_freq : Z) : option bool :=
  row ← arr_get magus_freq_table index; Some (existsb (fun f => f =? target_freq) (row_valid_freqs row)).

Definition magus_set_target (p : cpufreq_policy) (target : Z) : M W Z :=
  let target_freq := clamp_target p target in
  let freq := u32 (target_freq * 1000) in
  let! cur_pll_out := magus_get_pll_out in
  let! cur_arm_freq := magus_get_system_clk in
  if (target_freq >? 150000) && (target_freq <? 180000) then ret 0
  else if freq =? cur_arm_freq then ret 0
  else
    let! index := assert_some OutOfBounds
                    (cpufreq_table_lookup_pllout magus_freq_table (cur_pll_out / 1000)) in
    let! same_pll := (if index <? 0 then ret false
                      else assert_some OutOfBounds (row_has index target_freq)) in
    let! pllr :=
      (if (same_pll : bool) then ret 0
       else
         let! index := assert_some OutOfBounds (cpufreq_table_lookup_freq magus_freq_table target_freq) in
         if index <? 0 then ret 0
         else
           let! row := assert_some OutOfBounds (arr_get magus_freq_table index) in
           let! (pllr, _) := magus_compute_pllr (u32 (row_pll_out row * 1000)) CLKSRC_USBOTG_XTAL_IN in
           ret pllr) in
    let! old := magus_get_speed 0 in
    let new := freq / 1000 in
    notify CPUFREQ_PRECHANGE old new ;;
    (if (same_pll : bool) then magus_set_new_freq 0 freq else magus_set_new_freq pllr freq) ;;
    notify CPUFREQ_POSTCHANGE old new ;;
    magus_print_clocks ;;
    ret 0.

Definition magus_cpufreq_driver_init (p : cpufreq_policy) : M W (Z * cpufreq_policy) :=
  if negb (pol_cpu p =? 0) then ret (- EINVAL, p)
  else
    let! f := magus_get_speed 0 in
    ret (0, Policy (pol_cpu p) f f f (50 * 1000) (240 * 1000) (4 * 1000000000 / 32000)).
End Cpufreq.
