(* ===== verification/MagusCpufreqSpec.v ===== *)
(** * Scaling reaches the frequency asked for

    For the outputs of the table [magus_compute_pllr] finds dividers that give
    exactly the output within the limits of the PLL, and [magus_set_target]
    then brings the ARM clock to every supported target. *)

From Stdlib Require Import ZArith Lia Bool.
From stdpp Require Import base numbers list sets.
From S2P Require Import Prelude CMonad DevIO MagusClock MagusClockSpec MagusCpufreq.

(** ** Facts about the table *)

Definition rows : list cpufreq_pll_table := take 10 magus_freq_table.

(** A target some row can give. *)
Definition supported (t : Z) : bool :=
  existsb (fun row => existsb (fun f => (f =? t) && (f <=? 240000)) (row_valid_freqs row)) rows.

Definition XTAL : Z := CLKSRC_USBOTG_XTAL_IN.

(** Dividers within the limits of the PLL: 2 to 8 MHz into the phase detector,
    200 to 400 MHz out of the oscillator. *)
Definition in_limits (f_out fbdiv opdiv refdiv : Z) : Prop :=
  26 <= fbdiv <= 200 /\ 1 <= opdiv <= 3 /\ 1 <= refdiv <= 31 /\
  2000000 <= XTAL / refdiv <= 8000000 /\ 200000000 <= f_out * opdiv <= 400000000 /\
  XTAL / refdiv * (2 * fbdiv) / opdiv = f_out /\ XTAL / refdiv * (2 * fbdiv) < 2 ^ 32.

Lemma search_rows {W} j row (w : W) : row ∈ rows ->
  let f := row_pll_out row * 1000 in
  exists refdiv fbdiv, search_dividers f (choose_opdiv j f) XTAL w = Done (refdiv, fbdiv) w /\
    in_limits f (Z.quot fbdiv 2) (choose_opdiv j f) refdiv.
Proof.
  intros Hr f. subst f. revert row Hr. apply Forall_forall. unfold rows, magus_freq_table. cbn [take].
  repeat constructor; do 2 eexists; (split; [vm_compute; reflexivity|]); unfold in_limits; vm_compute;
    split_and!; done.
Qed.

(** The search stops at a row with the property, or answers -1 when none of the
    rows before the end marker has it. *)
Lemma table_lookup_spec p tb i :
  row_pll_out <$> last tb = Some TABLE_END ->
  exists k, table_lookup p tb i = Some k /\
    (k = -1 /\ (forall n row, tb !! n = Some row -> p row = true ->
       exists m r, (m <= n)%nat /\ tb !! m = Some r /\ row_pll_out r = TABLE_END) \/
     exists row, i <= k /\ arr_get tb (k - i) = Some row /\ row_pll_out row <> TABLE_END /\ p row = true).
Proof.
  revert i. induction tb as [|row tb IH]; intros i Hl; [done|]. cbn [table_lookup].
  destruct (row_pll_out row =? TABLE_END) eqn:E; zbool.
  { exists (-1). split; [done|]. left. split; [done|]. intros n r _ _. exists 0%nat, row. split_and!; [lia|done..]. }
  destruct (p row) eqn:Ep.
  { exists i. split; [done|]. right. exists row. split_and!; [lia| |done|done]. by rewrite Z.sub_diag. }
  destruct tb as [|row' tb]; [cbn in Hl; congruence|].
  destruct (IH (i + 1)) as (k & -> & Hk); [done|]. exists k. split; [done|].
  destruct Hk as [[-> Hno]|(r & Hi & Hg & He & Hp)].
  - left. split; [done|]. intros [|n] r Hn Hp; [injection Hn as <-; congruence|].
    destruct (Hno n r Hn Hp) as (m & r' & Hm & Hr & He). exists (S m), r'. split_and!; [lia|done..].
  - right. exists r. split_and!; [lia| |done|done].
    rewrite arr_get_cons. destruct (k - i =? 0) eqn:E0; zbool; [lia|].
    by replace (k - i - 1) with (k - (i + 1)) by lia.
Qed.

(** The rows before the end marker are those of [rows]. *)
Lemma row_in_rows k row : arr_get magus_freq_table k = Some row -> row_pll_out row <> TABLE_END -> row ∈ rows.
Proof.
  intros Hg Hne. pose proof (arr_get_Some _ _ _ Hg) as Hk. cbn in Hk.
  unfold arr_get in Hg. destruct (0 <=? k) eqn:E; zbool; [|done].
  assert (Hn : (Z.to_nat k <= 10)%nat) by (unfold arr_len in Hk; cbn in Hk; lia).
  destruct (decide (Z.to_nat k = 10%nat)) as [E'|E']; [rewrite E' in Hg; injection Hg as <-; done|].
  apply (list_elem_of_lookup_2 _ (Z.to_nat k)). unfold rows. by rewrite lookup_take_lt by lia.
Qed.

(** Every supported target is in a row the search finds. *)
Lemma lookup_supported t : supported t = true ->
  exists k row, cpufreq_table_lookup_freq magus_freq_table t = Some k /\ 0 <= k /\
    arr_get magus_freq_table k = Some row /\ row ∈ rows /\
    existsb (fun f => f =? t) (row_valid_freqs row) = true.
Proof.
  intros Ht. destruct (table_lookup_spec (fun row => existsb (fun f => f =? t) (row_valid_freqs row))
    magus_freq_table 0) as (k & E & Hk); [done|]. fold (cpufreq_table_lookup_freq magus_freq_table t) in E.
  assert (Hin : exists row, row ∈ rows /\ existsb (fun f => f =? t) (row_valid_freqs row) = true).
  { apply existsb_exists in Ht as (row & Hr & Hf). exists row. split; [by apply list_elem_of_In|].
    apply existsb_exists in Hf as (f & Hi & Hf). apply existsb_exists. exists f. by apply andb_true_iff in Hf as [Hf _]. }
  destruct Hk as [[_ Hno]|(row & Hk0 & Hg & Hne & Hp)].
  - exfalso. destruct Hin as (row & Hr & Hp). apply list_elem_of_lookup in Hr as [n Hn].
    pose proof (lookup_lt_Some _ _ _ Hn) as Hl. cbn in Hl.
    unfold rows in Hn. rewrite lookup_take_lt in Hn by lia.
    destruct (Hno n row Hn Hp) as (m & r & Hm & Hr & He).
    do 10 (destruct m as [|m]; [injection Hr as <-; done|]). lia.
  - rewrite Z.sub_0_r in Hg. exists k, row. split_and!; [done..| |done]. by apply (row_in_rows k).
Qed.

(** Where the search by PLL output stops, the output is the row's. *)
Lemma lookup_pllout_spec x : exists k, cpufreq_table_lookup_pllout magus_freq_table x = Some k /\
  (k = -1 \/ 0 <= k /\ exists row, arr_get magus_freq_table k = Some row /\ row ∈ rows /\ row_pll_out row = x).
Proof.
  destruct (table_lookup_spec (fun row => row_pll_out row =? x) magus_freq_table 0) as (k & E & Hk); [done|].
  exists k. split; [done|]. destruct Hk as [[-> _]|(row & Hk0 & Hg & Hne & Hp)]; [by left|]. right.
  rewrite Z.sub_0_r in Hg. split; [done|]. exists row. split_and!; [done|by apply (row_in_rows k)|by zbool].
Qed.

(** A clock of a row is its output divided by what the prescaler is set to. *)
Lemma row_clock row t : row ∈ rows -> existsb (fun f => f =? t) (row_valid_freqs row) = true -> t <= 240000 ->
  let pll := row_pll_out row * 1000 in
  0 < t * 1000 <= pll /\ pll / (pick pll (Z.min (t * 1000) pll) 7 + 1) = t * 1000 /\ in_u32 pll /\
  row_pll_out row = pll / 1000.
Proof.
  intros Hr Ht Hle. cbn zeta. apply existsb_exists in Ht as (f & Hf & E). zbool. subst f.
  unfold rows, magus_freq_table in Hr. cbn [take] in Hr.
  repeat (apply elem_of_cons in Hr as [->|Hr];
    [cbn [row_pll_out row_valid_freqs] in *; destruct Hf as [<-|[<-|[<-|[]]]];
     try (exfalso; revert Hle; vm_compute; by intros []);
     (split; [lia|]; split; [by vm_compute|]; split; [unfold in_u32; lia|by vm_compute])|]).
  by apply not_elem_of_nil in Hr.
Qed.

(** ** The fields of the new PLLR *)

Lemma put_field x lo n d : 0 <= lo -> 0 <= n -> lo + n <= 32 -> 0 <= d < 2 ^ n ->
  Z.lor (Z.land x (Z.lnot (Z.shiftl (Z.ones n) lo))) (u32 (Z.shiftl d lo)) = putf x lo (Z.ones n) d.
Proof.
  intros Hlo Hn Hs Hd. unfold putf. f_equal. rewrite Z.land_ones, (Z.mod_small d) by lia.
  apply u32_id. unfold in_u32. rewrite Z.shiftl_mul_pow2 by lia.
  assert (2 ^ n * 2 ^ lo <= 2 ^ 32); [rewrite <- Z.pow_add_r by lia; apply Z.pow_le_mono_r; lia|].
  pose proof (Z.pow_pos_nonneg 2 lo ltac:(lia) Hlo). nia.
Qed.

Lemma put_dividers_putf c fbdiv opdiv refdiv : 0 <= fbdiv < 256 -> 0 <= opdiv < 4 -> 0 <= refdiv < 32 ->
  put_dividers c fbdiv opdiv refdiv =
    putf (putf (putf c 24 (Z.ones 8) fbdiv) 16 (Z.ones 2) opdiv) 8 (Z.ones 5) refdiv.
Proof.
  intros ? ? ?. unfold put_dividers.
  change 0xff with (Z.ones 8). change (Z.shiftl 3 16) with (Z.shiftl (Z.ones 2) 16). change 0x1f with (Z.ones 5).
  by rewrite !put_field by lia.
Qed.

Lemma put_dividers_fields c fbdiv opdiv refdiv : 0 <= fbdiv < 256 -> 0 <= opdiv < 4 -> 0 <= refdiv < 32 ->
  in_u32 c -> let p := put_dividers c fbdiv opdiv refdiv in
  SCRM_PLLR_FBDIV p = fbdiv /\ SCRM_PLLR_OPDIV p = opdiv /\ SCRM_PLLR_REFDIV p = refdiv /\ in_u32 p /\
  Z.land p 0xfce0ff = Z.land c 0xfce0ff.
Proof.
  intros Hf Ho Hr Hc p. unfold p. rewrite put_dividers_putf by done.
  unfold SCRM_PLLR_FBDIV, SCRM_PLLR_OPDIV, SCRM_PLLR_REFDIV.
  change (getf ?x 24 0xff) with (getf x 24 (Z.ones 8)). change (getf ?x 16 0x3) with (getf x 16 (Z.ones 2)).
  change (getf ?x 8 0x1f) with (getf x 8 (Z.ones 5)).
  split; [|split; [|split; [|split]]].
  - rewrite 2!getf_putf_ne, getf_putf by lia. rewrite Z.land_ones by lia. by apply Z.mod_small.
  - rewrite getf_putf_ne, getf_putf by lia. rewrite Z.land_ones by lia. by apply Z.mod_small.
  - rewrite getf_putf by lia. rewrite Z.land_ones by lia. by apply Z.mod_small.
  - repeat (apply putf_u32; [lia..|]). done.
  - apply bits_ext. intros i Hi. rewrite !Z.land_spec, !putf_bit by lia.
    destruct ((8 <=? i) && (i <? 8 + 5)) eqn:E1; [|destruct ((16 <=? i) && (i <? 16 + 2)) eqn:E2;
      [|destruct ((24 <=? i) && (i <? 24 + 8)) eqn:E3; [|done]]]; zbool.
    1: assert (i ∈ seqZ 8 5) as Hin by (apply elem_of_seqZ; lia).
    2: assert (i ∈ seqZ 16 2) as Hin by (apply elem_of_seqZ; lia).
    3: assert (i ∈ seqZ 24 8) as Hin by (apply elem_of_seqZ; lia).
    all: vm_compute in Hin; repeat (apply elem_of_cons in Hin as [->|Hin]; [by rewrite !andb_false_r|]);
      by apply not_elem_of_nil in Hin.
Qed.

Section Spec.
Context {W : Type} {B : Bus W} {R : Registers W clock_live clock_volat}.
Context {Cfg : ClockConfig} {Env : CpufreqEnv W}.
Implicit Types (w : W) (s : Z -> Z).

(** The PLL locks while the driver waits, and the notifiers of the kernel leave
    the clock registers alone. *)
Definition pll_locks : Prop := forall w s, rep w s ->
  exists k, (k < pll_fuel)%nat /\ clears k PLLR SCRM_PLLR_RESTRT w.
Definition notify_quiet : Prop := forall e old new w s, rep w s ->
  wp (notify e old new) (fun _ w' => rep w' s) w.

(** ** The dividers *)

Lemma compute_pllr_run row w s : rep w s -> pll_ok s -> row ∈ rows ->
  let f := row_pll_out row * 1000 in
  wp (magus_compute_pllr f XTAL) (fun r w' => rep w' s /\ snd r = f /\ in_u32 (fst r) /\
    in_limits f (SCRM_PLLR_FBDIV (fst r)) (SCRM_PLLR_OPDIV (fst r)) (SCRM_PLLR_REFDIV (fst r)) /\
    pll_freq (fst r) XTAL = f /\
    Z.land (Z.land (fst r) 0xfce0ff) (Z.lnot SCRM_PLLR_RESTRT) = Z.land (s PLLR) 0xfce0ff) w.
Proof.
  intros Hw Hok Hr f.
  apply wp_bind, (wp_rd_pllr _ w s Hw Hok). intros v w1 Hw1 Hr0 Ho0 _ Hv Hu.
  apply wp_bind, wp_udiv; [done|]. apply wp_bind.
  destruct (search_rows stack_int row w1 Hr) as (refdiv & fbdiv & E & Hlim). fold f in E, Hlim.
  apply wp_run. do 2 eexists. split; [exact E|].
  set (op := choose_opdiv stack_int f) in *.
  pose proof Hlim as (Hf1 & Ho1 & Hr1 & _ & _ & Hout & Hvco).
  destruct (put_dividers_fields v (Z.quot fbdiv 2) op refdiv ltac:(lia) ltac:(lia) ltac:(lia) Hu)
    as (F1 & F2 & F3 & F4 & F5).
  set (p := put_dividers v (Z.quot fbdiv 2) op refdiv) in *.
  assert (Hfreq : pll_freq p XTAL = f).
  { unfold pll_freq. rewrite F1, F2, F3, u32_id; [done|]. unfold in_u32. split; [|done].
    apply Z.mul_nonneg_nonneg; [apply Z.div_pos; (done || lia)|lia]. }
  apply wp_bind, wp_decode_pll; [rewrite F3; lia|rewrite F2; lia|]. apply wp_ret. cbn [fst snd].
  split; [done|]. split; [done|]. split; [done|]. split; [by rewrite F1, F2, F3|]. split; [done|].
  rewrite F5, <- Hv. rewrite <- !Z.land_assoc. f_equal.
Qed.

(** C27. For every PLL output of the frequency table [magus_compute_pllr] finds
    dividers within the limits the header of [clock.c] states (reference 2 to 8
    MHz, oscillator 200 to 400 MHz), whose output is exactly the one asked for,
    and changes no other bit of PLLR. *)
Theorem compute_pllr_exact row w s : rep w s -> pll_ok s -> row ∈ rows ->
  let f := row_pll_out row * 1000 in
  exists p w', magus_compute_pllr f XTAL w = Done (p, f) w' /\ rep w' s /\
    in_limits f (SCRM_PLLR_FBDIV p) (SCRM_PLLR_OPDIV p) (SCRM_PLLR_REFDIV p) /\
    pll_freq p XTAL = f /\
    Z.land (Z.land p 0xfce0ff) (Z.lnot SCRM_PLLR_RESTRT) = Z.land (s PLLR) 0xfce0ff.
Proof.
  intros Hw Hok Hr f. pose proof (compute_pllr_run row w s Hw Hok Hr) as Hrun. cbn zeta in Hrun.
  apply wp_run in Hrun as ([p f'] & w' & E & Hw' & Hf & _ & H1 & H2 & H3). cbn [fst snd] in *. subst f'.
  by exists p, w'.
Qed.

(** ** Switching *)

Lemma uart_latch_run w s : rep w s -> pll_ok s ->
  wp set_uart_latch (fun _ w' => exists s', rep w' s' /\ forall a, a <> UART_LSB -> a <> UART_MSB -> s' a = s a) w.
Proof.
  intros Hw Hok. apply wp_bind, (wp_clk_get Perclk1 _ w s Hw Hok). intros w1 Hw1.
  apply wp_bind, wp_udiv; [done|]. set (d := freq_of Perclk1 s / (16 * 115200)).
  assert (Hd : in_u32 d).
  { apply div_u32; [|lia]. apply div_u32; [by apply pll_freq_u32, Hok|].
    pose proof (clk_div_nonneg Perclk1 s). lia. }
  destruct (d >? 0xff).
  - apply wp_bind. apply (wp_wr_reg UART_LSB _ _ w1 s Hw1); [live|done|by apply land_u32|]. intros w2 Hw2.
    apply (wp_wr_reg UART_MSB _ _ w2 _ Hw2); [live|done| |].
    + rewrite Z.land_comm. by apply land_u32.
    + intros w3 Hw3. eexists. split; [exact Hw3|]. intros a H1 H2. by rewrite !upd_reg_ne.
  - apply (wp_wr_reg UART_LSB _ _ w1 s Hw1); [live|done|done|]. intros w2 Hw2.
    eexists. split; [exact Hw2|]. intros a H1 H2. by rewrite upd_reg_ne.
Qed.

Lemma wp_wr_pllr p (Q : unit -> W -> Prop) w s : rep w s -> in_u32 p ->
  (forall w', rep w' (upd s PLLR (Z.land p (Z.lnot SCRM_PLLR_RESTRT))) -> Q tt w') ->
  wp (io_wr32 (MAGUS_VIO_SCRM + scrm_pllr) p) Q w.
Proof. intros Hw Hp HQ. apply (wp_wr_status PLLR p Q w s Hw); [live|done|done]. Qed.

(** Writing a new PLLR and waiting for the PLL. *)
Lemma new_pll_run p w s : pll_locks -> rep w s -> in_u32 p -> SCRM_PLLR_REFDIV p <> 0 -> SCRM_PLLR_OPDIV p <> 0 ->
  wp (io_wr32 (MAGUS_VIO_SCRM + scrm_pllr) p ;;
      set_uart_latch ;;
      let! q := io_rd32 (MAGUS_VIO_SCRM + scrm_pllr) in
      io_wr32 (MAGUS_VIO_SCRM + scrm_pllr) (Z.lor q SCRM_PLLR_RESTRT) ;;
      poll_clear pll_fuel (MAGUS_VIO_SCRM + scrm_pllr) SCRM_PLLR_RESTRT)
    (fun _ w' => exists s', rep w' s' /\ pll_ok s' /\ f_pll s' = pll_freq p XTAL) w.
Proof.
  intros Hlock Hw Hp Hr Ho. set (x := Z.land p (Z.lnot SCRM_PLLR_RESTRT)).
  assert (Hx : forall s', s' PLLR = x -> pll_ok s' /\ f_pll s' = pll_freq p XTAL).
  { intros s' E. pose proof (pll_fields p x eq_refl) as (E1 & E2 & _). unfold pll_ok, f_pll. rewrite E.
    split; [split; congruence|]. symmetry. by apply pll_freq_fields. }
  apply wp_bind. apply (wp_wr_pllr p _ w s Hw Hp). intros w1 Hw1. fold x in Hw1.
  set (s1 := upd s PLLR x) in *. destruct (Hx s1 (upd_reg_eq _ _ _)) as [Hok1 _].
  apply wp_bind. eapply wp_mono; [exact (uart_latch_run w1 s1 Hw1 Hok1)|]. intros [] w2 (s2 & Hw2 & Hs2).
  assert (E2 : s2 PLLR = x) by (rewrite Hs2 by done; apply upd_reg_eq).
  destruct (Hx s2 E2) as [Hok2 _].
  apply wp_bind, (wp_rd_pllr _ w2 s2 Hw2 Hok2). intros v w3 Hw3 _ _ _ Hv Hu.
  apply wp_bind. apply (wp_wr_pllr _ _ w3 s2 Hw3); [by apply lor_u32|]. intros w4 Hw4.
  rewrite Z.land_lor_distr_l, Hv, Z.land_lnot_diag, Z.lor_0_r in Hw4.
  destruct (Hlock w4 _ Hw4) as (k & Hk & Hc).
  apply (wp_poll_clear pll_fuel PLLR _ _ w4 _ k Hw4); [live|done|done|]. intros w5 Hw5.
  eexists. split; [exact Hw5|]. apply Hx. rewrite upd_reg_eq. exact E2.
Qed.

(** The ARM clock [scrm_set_new_freq] sets from a PLL whose row has the target. *)
Lemma exact_clk_run row t w s : rep w s -> pll_ok s -> row ∈ rows -> f_pll s = row_pll_out row * 1000 ->
  existsb (fun f => f =? t) (row_valid_freqs row) = true -> t <= 240000 ->
  wp (magus_set_system_clk (t * 1000)) (fun _ w' => exists s', rep w' s' /\ pll_ok s' /\ f_sys s' = t * 1000) w.
Proof.
  intros Hw Hok Hr Hp Ht Hle. destruct (row_clock row t Hr Ht Hle) as (Hpos & Hdiv & _ & _).
  eapply wp_mono; [apply (system_clk_run (t * 1000) w s Hw Hok); lia|].
  intros v w' (s' & Hw' & _ & Hpll & Hsys & Hoth & _). exists s'. split; [done|].
  split; [unfold pll_ok; by rewrite (Hoth PLLR)|].
  rewrite Hsys. destruct (_ && _) eqn:E; [done|]. unfold psclr_of, armclk_of. by rewrite Hp, Hdiv.
Qed.

Lemma print_clocks_run w s : rep w s -> pll_ok s -> wp magus_print_clocks (fun _ w' => rep w' s) w.
Proof.
  intros Hw Hok.
  assert (Hpr : forall (m : M W Z), (forall w, rep w s -> wp m (fun _ w' => rep w' s) w) ->
    forall w, rep w s -> wp (print_mhz m) (fun _ w' => rep w' s) w).
  { intros m Hm w0 Hw0. apply wp_bind. eapply wp_mono; [by apply Hm|]. intros v w1 Hw1.
    apply wp_bind. eapply wp_mono; [by apply Hm|]. intros v2 w2 Hw2. by apply wp_ret. }
  apply wp_bind. eapply wp_mono; [apply Hpr; [|done]; intros; by eapply wp_system_clk|]. intros [] w1 Hw1.
  apply wp_bind. eapply wp_mono; [apply Hpr; [|done]; intros; by eapply wp_hclk|]. intros [] w2 Hw2.
  apply wp_bind. eapply wp_mono; [apply Hpr; [|done]; intros; by eapply (wp_clk_get Pclk)|]. intros [] w3 Hw3.
  apply wp_bind. eapply wp_mono; [apply Hpr; [|done]; intros; by eapply (wp_clk_get Perclk1)|]. intros [] w4 Hw4.
  apply Hpr; [|done]. intros; by eapply (wp_clk_get Perclk2).
Qed.

Lemma get_speed_run w s : rep w s -> pll_ok s -> wp (magus_get_speed 0) (fun _ w' => rep w' s) w.
Proof.
  intros Hw Hok. apply wp_bind, (wp_system_clk _ w s Hw Hok). intros w' Hw'. by apply wp_ret.
Qed.

(** What follows the choice of the PLL: switch between the notifications. *)
Lemma switch_run {A} t (m : M W A) w s : notify_quiet -> rep w s -> pll_ok s ->
  (forall w, rep w s -> wp m (fun _ w' => exists s', rep w' s' /\ pll_ok s' /\ f_sys s' = t) w) ->
  wp (let! old := magus_get_speed 0 in
      notify CPUFREQ_PRECHANGE old (t / 1000) ;; m ;; notify CPUFREQ_POSTCHANGE old (t / 1000) ;;
      magus_print_clocks ;; ret 0)
    (fun r w' => r = 0 /\ exists s', rep w' s' /\ f_sys s' = t) w.
Proof.
  intros Hn Hw Hok Hm. apply wp_bind. eapply wp_mono; [by apply (get_speed_run w s)|]. intros old w1 Hw1.
  apply wp_bind. eapply wp_mono; [exact (Hn _ _ _ w1 s Hw1)|]. intros [] w2 Hw2.
  apply wp_bind. eapply wp_mono; [exact (Hm w2 Hw2)|]. intros a w3 (s' & Hw3 & Hok' & Hs').
  apply wp_bind. eapply wp_mono; [exact (Hn _ _ _ w3 s' Hw3)|]. intros [] w4 Hw4.
  apply wp_bind. eapply wp_mono; [by apply (print_clocks_run w4 s')|]. intros [] w5 Hw5.
  apply wp_ret. split; [done|]. by exists s'.
Qed.

(** The choice of the PLL, and the switch that follows. *)
Lemma set_target_run t p w s : pll_locks -> notify_quiet -> rep w s -> pll_ok s ->
  0 < f_pll s -> f_pll s mod 1000 = 0 -> clamp_target p t = t -> supported t = true -> 0 < t <= 240000 ->
  (t <= 150000 \/ 180000 <= t) ->
  wp (magus_set_target p t) (fun r w' => r = 0 /\ exists s', rep w' s' /\ f_sys s' = t * 1000) w.
Proof.
  intros Hlock Hn Hw Hok Hpos Hm Hc Ht Hle Hddr. unfold magus_set_target. rewrite Hc.
  rewrite (u32_id (t * 1000)) by (unfold in_u32; lia).
  apply wp_bind, (wp_pll_out _ w s Hw Hok). intros w1 Hw1.
  apply wp_bind, (wp_system_clk _ w1 s Hw1 Hok). intros w2 Hw2.
  destruct ((t >? 150000) && (t <? 180000)) eqn:E; [rewrite Z.gtb_ltb in E; zbool; lia|].
  destruct (t * 1000 =? f_sys s) eqn:Eq; [zbool; apply wp_ret; split; [done|by exists s]|]. clear E Eq.
  assert (Hrow : forall k row, arr_get magus_freq_table k = Some row ->
    row_has k t = Some (existsb (fun f => f =? t) (row_valid_freqs row)))
    by (intros k row Hg; unfold row_has; by rewrite Hg).
  apply wp_bind, wp_assert_some. destruct (lookup_pllout_spec (f_pll s / 1000)) as (i & -> & Hi).
  eexists. split; [done|].
  apply wp_bind. eapply (wp_mono _ (fun b w' => w' = w2 /\ (b = true -> exists row, row ∈ rows /\
    f_pll s = row_pll_out row * 1000 /\ existsb (fun f => f =? t) (row_valid_freqs row) = true))).
  { destruct Hi as [->|(Hi & row & Hg & Hr & Hp)]; [by apply wp_ret|].
    destruct (i <? 0) eqn:E; zbool; [lia|]. apply wp_assert_some. eexists. split; [by apply Hrow|].
    split; [done|]. intros Hb. exists row. split_and!; [done| |done].
    pose proof (Z.div_mod (f_pll s) 1000 ltac:(lia)). lia. }
  intros same w3 [-> Hsame]. destruct same.
  - apply wp_bind, wp_ret. destruct (Hsame eq_refl) as (row & Hr & Hp & Hb).
    apply (switch_run (t * 1000) _ w2 s Hn Hw2 Hok). intros w4 Hw4. apply wp_bind, wp_ret.
    apply wp_bind. eapply wp_mono; [apply (exact_clk_run row t w4 s Hw4 Hok); (done || lia)|].
    intros a w5 H5. by apply wp_ret.
  - clear Hsame Hi i. destruct (lookup_supported t Ht) as (k & row & Ek & Hk & Hg & Hr & Hb).
    destruct (row_clock row t Hr Hb ltac:(lia)) as (_ & _ & Hu & _).
    apply wp_bind, wp_bind, wp_assert_some. rewrite Ek. eexists. split; [done|].
    destruct (k <? 0) eqn:E; zbool; [lia|]. apply wp_bind, wp_assert_some. eexists. split; [exact Hg|].
    rewrite (u32_id _ Hu). apply wp_bind.
    eapply wp_mono; [exact (compute_pllr_run row w2 s Hw2 Hok Hr)|].
    intros [pllr f] w3 (Hw3 & _ & Hpu & Hlim & Hfreq & _). cbn [fst snd] in *. apply wp_ret.
    destruct Hlim as (Hl1 & Hl2 & Hl3 & _).
    apply (switch_run (t * 1000) _ w3 s Hn Hw3 Hok). intros w4 Hw4.
    assert (Hnz : (pllr =? 0) = false).
    { apply Z.eqb_neq. intros ->. change (SCRM_PLLR_REFDIV 0) with 0 in Hl3. lia. }
    unfold magus_set_new_freq, scrm_set_new_freq. rewrite Hnz. cbn [negb].
    apply wp_bind. eapply wp_mono; [apply (new_pll_run pllr w4 s Hlock Hw4 Hpu); lia|].
    intros [] w5 (s5 & Hw5 & Hok5 & Hp5). apply wp_bind.
    eapply wp_mono; [apply (exact_clk_run row t w5 s5 Hw5 Hok5 Hr); [congruence|done|lia]|].
    intros a w6 H6. by apply wp_ret.
Qed.

(** C26. [magus_set_target] brings the ARM clock to every target of the
    frequency table but 160 and 170 MHz, which it ignores as unstable, whether
    or not the PLL has to be changed, from any state in which the PLL runs at a
    whole number of kHz; it then answers 0. *)
Theorem set_target_exact t p w s : pll_locks -> notify_quiet -> rep w s -> pll_ok s ->
  0 < f_pll s -> f_pll s mod 1000 = 0 -> clamp_target p t = t -> supported t = true -> 0 < t <= 240000 ->
  (t <= 150000 \/ 180000 <= t) ->
  exists w' s', magus_set_target p t w = Done 0 w' /\ rep w' s' /\ f_sys s' = t * 1000.
Proof.
  intros ? ? ? ? ? ? ? ? ? ?.
  assert (Hrun : wp (magus_set_target p t) (fun r w' => r = 0 /\ exists s', rep w' s' /\ f_sys s' = t * 1000) w)
    by by apply (set_target_run t p w s).
  apply wp_run in Hrun as (v & w' & E & -> & s' & Hs & Hf). by exists w', s'.
Qed.
End Spec.

(** ** The clock module at work *)

#[local] Instance cpu_config : ClockConfig := {| listed_board := true; pll_fuel := 4 |}.
#[local] Instance cpu_env : CpufreqEnv sim :=
  {| stack_int := 0; notify _ _ _ := ret tt |}.
#[local] Instance cpu_bus : Bus sim := clock_bus.

Lemma cpu_locks : pll_locks.
Proof.
  intros w s [Hc _]. exists 3%nat. split; [cbn; lia|]. by apply (sim_clears clock_volat 3 PLLR).
Qed.
Lemma cpu_notify : notify_quiet.
Proof. intros e old new w s Hw. by apply wp_ret. Qed.

Definition cpu_policy : cpufreq_policy := Policy 0 50000 240000 240000 50000 240000 0.

Lemma compute_pllr_exact_witness :
  exists p w', magus_compute_pllr 190000000 XTAL clock_w0 = Done (p, 190000000) w'.
Proof.
  destruct (compute_pllr_exact (PllRow 190000 [190000; 95000; INVALID]) clock_w0 clock_s0 clock_rep0 clock_ok0)
    as (p & w' & E & _); [by repeat constructor|]. exists p, w'. exact E.
Defined.

Lemma set_target_exact_witness :
  exists w' s', magus_set_target cpu_policy 95000 clock_w0 = Done 0 w' /\ rep w' s' /\ f_sys s' = 95000000.
Proof.
  apply (set_target_exact 95000 cpu_policy clock_w0 clock_s0 cpu_locks cpu_notify clock_rep0 clock_ok0);
    first [by vm_compute|lia].
Defined.
