(* ===== verification/MagusGpio.v ===== *)
(** * General purpose pins

    [arch/arm/mach-magus/gpio.c] (the registers of a port of 32 pins) and
    [ssl_gpio.c] (the kernel's pin interface over the six ports), with
    [gpior.h], [gpio.h] and the encoding of a pin's function in
    [asm-arm/arch-magus/hardware.h].  [r] is the address of a port. *)

From Stdlib Require Import ZArith Lia Bool.
From stdpp Require Import base numbers list.
From S2P Require Import Prelude CMonad DevIO.

(** [gpior_t]: offsets of the registers. *)
Definition gpio_idr : Z := 0.
Definition gpio_ctrl : Z := 16.
Definition gpio_func : Z := 20.
Definition gpio_mode : Z := 24.
Definition gpio_puen : Z := 28.
Definition gpio_ddir : Z := 32.
Definition gpio_oss1 : Z := 36.
Definition gpio_oss2 : Z := 40.
Definition gpio_issa1 : Z := 44.
Definition gpio_issa2 : Z := 48.
Definition gpio_issb1 : Z := 52.
Definition gpio_issb2 : Z := 56.
Definition gpio_dreg : Z := 60.
Definition gpio_icr1 : Z := 64.
Definition gpio_icr2 : Z := 68.
Definition gpio_ier : Z := 72.
Definition gpio_isr : Z := 76.

Definition GPIO_CLID : Z := 0x0810.
Definition GPIO_ID_CLID (d : Z) : Z := Z.shiftr d 16.
Definition GPIO_CTRL_RST : Z := 1.
Definition GPIO_TIMEOUT : nat := 300.

Inductive gpio_mode_e := GPIO_M_PRI | GPIO_M_ALT | GPIO_M_OUT | GPIO_M_IN | GPIO_M_INTR | GPIO_M_BAD.
Inductive gpio_err_e := GPIO_ERR_NONE | GPIO_ERR_HW | GPIO_ERR_PARM.

#[global] Instance gpio_mode_dec : EqDecision gpio_mode_e.
Proof. solve_decision. Defined.
#[global] Instance gpio_err_dec : EqDecision gpio_err_e.
Proof. solve_decision. Defined.

Definition GPIO_OSS_DREG : Z := 0.
Definition GPIO_OSS_A : Z := 1.
Definition GPIO_OSS_B : Z := 2.
Definition GPIO_OSS_C : Z := 3.
Definition GPIO_ISS_GIN : Z := 0.
Definition GPIO_ISS_ISR : Z := 1.
Definition GPIO_ISS_0 : Z := 2.
Definition GPIO_ISS_1 : Z := 3.

(** [gpio_cfg_t]; [GPIO_M_BAD] stands for the values above [GPIO_M_INTR]. *)
Record gpio_cfg_t := GpioCfg {
  cfg_mode : gpio_mode_e; cfg_pull_en : Z; cfg_oss : Z; cfg_issa : Z; cfg_issb : Z; cfg_irq : Z }.

(** The loops over the two bits each pin has in a pair of registers: [mask1] and
    [mask2], and the template of a two-bit setting for 16 pins. *)
Definition mask_step (mask off : Z) (m i : Z) : Z :=
  Z.lor m (if truth (Z.land mask (Z.shiftl 1 (i + off))) then Z.shiftl 3 (2 * i) else 0).
Definition pin_mask (mask off : Z) : Z := foldl (mask_step mask off) 0 (seqZ 0 16).
Definition template (v : Z) : Z :=
  foldl (fun t i => Z.lor t (Z.shiftl (Z.land v 3) (2 * i))) 0 (seqZ 0 16).

Section Port.
Context {W : Type} `{Bus W}.
Implicit Types (r mask : Z).

Definition gpio_reset r : M W gpio_err_e :=
  io_wr32 (r + gpio_ctrl) GPIO_CTRL_RST ;;
  poll_timeout GPIO_TIMEOUT (r + gpio_ctrl) GPIO_CTRL_RST GPIO_ERR_NONE GPIO_ERR_HW.

Definition gpio_init r : M W gpio_err_e :=
  let! id := io_rd32 (r + gpio_idr) in
  if negb (GPIO_ID_CLID id =? GPIO_CLID) then ret GPIO_ERR_HW
  else gpio_reset r.

Definition gpio_ack_port r (pinmask : Z) : M W unit := io_wr32 (r + gpio_isr) pinmask.

Definition gpio_mask_port r (pinmask mask : Z) : M W unit :=
  let! v := io_rd32 (r + gpio_ier) in
  if Bool.eqb (truth mask) (truth (Z.land v pinmask))
  then io_wr32 (r + gpio_ier) (Z.lxor v pinmask)
  else ret tt.

Definition gpio_pend r : M W Z := io_rd32 (r + gpio_isr).

(** [io_wr32(a, (io_rd32(a) & ~m) | (t & m))], the reading and the writing of
    the pairs of registers interleaved as in the source. *)
Definition read_pair (a1 a2 m1 m2 : Z) : M W (Z * Z) :=
  let! x1 := io_rd32 a1 in
  let! x2 := io_rd32 a2 in
  ret (Z.land x1 (Z.lnot m1), Z.land x2 (Z.lnot m2)).
Definition write_pair (a1 a2 m1 m2 t : Z) (x : Z * Z) : M W unit :=
  io_wr32 a1 (Z.lor (fst x) (Z.land t m1)) ;;
  io_wr32 a2 (Z.lor (snd x) (Z.land t m2)).

Definition cfg_output r mask m1 m2 (c : gpio_cfg_t) : M W unit :=
  let! oss := read_pair (r + gpio_oss1) (r + gpio_oss2) m1 m2 in
  write_pair (r + gpio_oss1) (r + gpio_oss2) m1 m2 (template (cfg_oss c)) oss ;;
  let! ddir := io_rd32 (r + gpio_ddir) in
  io_wr32 (r + gpio_ddir) (Z.lor ddir mask).

Definition cfg_intr r m1 m2 (c : gpio_cfg_t) : M W gpio_cfg_t :=
  let! icr := read_pair (r + gpio_icr1) (r + gpio_icr2) m1 m2 in
  write_pair (r + gpio_icr1) (r + gpio_icr2) m1 m2 (template (cfg_irq c)) icr ;;
  ret (GpioCfg (cfg_mode c) (cfg_pull_en c) (cfg_oss c) GPIO_ISS_ISR GPIO_ISS_ISR (cfg_irq c)).

Definition cfg_input r (opmask m1 m2 : Z) (c : gpio_cfg_t) : M W gpio_cfg_t :=
  let! issa := read_pair (r + gpio_issa1) (r + gpio_issa2) m1 m2 in
  let! issb := read_pair (r + gpio_issb1) (r + gpio_issb2) m1 m2 in
  let! c := (match cfg_mode c with GPIO_M_INTR => cfg_intr r m1 m2 c | _ => ret c end) in
  write_pair (r + gpio_issa1) (r + gpio_issa2) m1 m2 (template (cfg_issa c)) issa ;;
  write_pair (r + gpio_issb1) (r + gpio_issb2) m1 m2 (template (cfg_issb c)) issb ;;
  let! ddir := io_rd32 (r + gpio_ddir) in
  io_wr32 (r + gpio_ddir) (Z.land ddir opmask) ;;
  ret c.

(** Answers the error and the configuration, which [GPIO_M_INTR] changes. *)
Definition gpio_cfg_pins r mask (c : gpio_cfg_t) : M W (gpio_err_e * gpio_cfg_t) :=
  match cfg_mode c with
  | GPIO_M_BAD => ret (GPIO_ERR_PARM, c)
  | _ =>
    if mask =? 0 then ret (GPIO_ERR_NONE, c)
    else
      let opmask := u32 (Z.lnot mask) in
      let! puen := io_rd32 (r + gpio_puen) in
      io_wr32 (r + gpio_puen) (Z.lor (Z.land puen opmask) (if truth (cfg_pull_en c) then mask else 0)) ;;
      match cfg_mode c with
      | GPIO_M_PRI =>
          let! func := io_rd32 (r + gpio_func) in
          io_wr32 (r + gpio_func) (Z.land func opmask) ;;
          let! mode := io_rd32 (r + gpio_mode) in
          io_wr32 (r + gpio_mode) (Z.land mode opmask) ;;
          ret (GPIO_ERR_NONE, c)
      | GPIO_M_ALT =>
          let! func := io_rd32 (r + gpio_func) in
          io_wr32 (r + gpio_func) (Z.lor func mask) ;;
          let! mode := io_rd32 (r + gpio_mode) in
          io_wr32 (r + gpio_mode) (Z.land mode opmask) ;;
          ret (GPIO_ERR_NONE, c)
      | _ =>
          let m1 := pin_mask mask 0 in
          let m2 := pin_mask mask 16 in
          let! mode := io_rd32 (r + gpio_mode) in
          io_wr32 (r + gpio_mode) (Z.lor mode mask) ;;
          match cfg_mode c with
          | GPIO_M_OUT => cfg_output r mask m1 m2 c ;; ret (GPIO_ERR_NONE, c)
          | _ => let! c := cfg_input r opmask m1 m2 c in ret (GPIO_ERR_NONE, c)
          end
      end
  end.

Definition gpio_set_pins r (pinmask data : Z) : M W unit :=
  let! d := io_rd32 (r + gpio_dreg) in
  io_wr32 (r + gpio_dreg) (Z.lor (Z.land d (Z.lnot pinmask)) (Z.land data pinmask)).

Definition gpio_get_pins r (pinmask : Z) : M W Z :=
  let! d := io_rd32 (r + gpio_dreg) in ret (Z.land d pinmask).

(** The macros of [gpio.h] for one pin; [1 << p] becomes a [uint32_t]. *)
Definition gpio_cfg r (p : Z) (c : gpio_cfg_t) := gpio_cfg_pins r (Z.shiftl 1 p) c.
Definition gpio_mask r (p : Z) := gpio_mask_port r (Z.shiftl 1 p) 1.
Definition gpio_unmask r (p : Z) := gpio_mask_port r (Z.shiftl 1 p) 0.
Definition gpio_put r (p : Z) (v : Z) :=
  gpio_set_pins r (Z.shiftl 1 p) (if truth v then Z.shiftl 1 p else 0).
Definition gpio_get r (p : Z) : M W Z :=
  let! d := gpio_get_pins r (Z.shiftl 1 p) in ret (Z.shiftr d p).
End Port.

(** ** The kernel's interface *)

Definition MAGUS_VIO_GPIO : Z := 0xF000F000.
Definition GPIO_PORTS : Z := 6.
Definition GPIO_PORT_MAX : Z := 6.
Definition GPIO_PIN_MASK : Z := 0x1f.
Definition GPIO_PORT_MASK : Z := Z.shiftl 7 5.
Definition GPIO_PORT_SHIFT : Z := 5.
Definition GPIO_PORT_VADDR (port : Z) : Z := MAGUS_VIO_GPIO + Z.shiftl port 8.
Definition GPIO_PORT (gpio : Z) : Z := Z.shiftr (Z.land gpio GPIO_PORT_MASK) GPIO_PORT_SHIFT.
Definition GPIO_PIN (gpio : Z) : Z := Z.land gpio (Z.shiftl 1 5 - 1).
Definition GPIO_NUM (port pin : Z) : Z := Z.lor (Z.shiftl port 5) pin.
Definition GPIO_DIR_OUT : Z := Z.shiftl 1 8.
Definition GPIO_PUEN : Z := Z.shiftl 1 9.
Definition GPIO_AF : Z := Z.shiftl 1 10.
Definition GPIO_MODE : Z := Z.shiftl 1 17.

(** [magus_gpio_alloc_map]: a bit per pin, in words of 32. *)
Definition ALLOC_WORDS : Z := (GPIO_PORT_MAX + 1) * 32 / 32.

(** [test_and_set_bit] and [clear_bit] of the kernel on an array of words. *)
Definition test_and_set_bit (nr : Z) (m : list Z) : option (bool * list Z) :=
  w ← arr_get m (Z.shiftr nr 5);
  m' ← arr_set m (Z.shiftr nr 5) (Z.lor w (Z.shiftl 1 (Z.land nr 31)));
  Some (Z.testbit w (Z.land nr 31), m').
Definition clear_bit (nr : Z) (m : list Z) : option (list Z) :=
  w ← arr_get m (Z.shiftr nr 5);
  arr_set m (Z.shiftr nr 5) (Z.land w (Z.lnot (Z.shiftl 1 (Z.land nr 31)))).

Definition EINVAL : Z := 22.
Definition EBUSY : Z := 16.

Definition gpio_request (gpio : Z) (m : list Z) : option (Z * list Z) :=
  if GPIO_PORT gpio >=? GPIO_PORTS then Some (- EINVAL, m)
  else '(used, m') ← test_and_set_bit gpio m; Some (if used : bool then - EBUSY else 0, m').

Definition gpio_free (gpio : Z) (m : list Z) : option (list Z) :=
  if GPIO_PORT gpio >=? GPIO_PORTS then Some m else clear_bit gpio m.

Section Pins.
Context {W : Type} `{Bus W}.

Definition gpio_direction_input (gpio : Z) : M W Z :=
  gpio_cfg (GPIO_PORT_VADDR (GPIO_PORT gpio)) (GPIO_PIN gpio) (GpioCfg GPIO_M_IN 0 0 0 0 0) ;;
  ret 0.

Definition gpio_direction_output (gpio value : Z) : M W Z :=
  let port := GPIO_PORT_VADDR (GPIO_PORT gpio) in
  let pin := GPIO_PIN gpio in
  gpio_put port pin value ;;
  gpio_cfg port pin (GpioCfg GPIO_M_OUT 0 0 0 0 0) ;;
  ret 0.

Definition gpio_get_value (gpio : Z) : M W Z :=
  gpio_get (GPIO_PORT_VADDR (GPIO_PORT gpio)) (GPIO_PIN gpio).
Definition gpio_set_value (gpio value : Z) : M W unit :=
  gpio_put (GPIO_PORT_VADDR (GPIO_PORT gpio)) (GPIO_PIN gpio) value.

(** The configuration a function code stands for; [None] is the [return -1]. *)
Definition oss_of (osrc : Z) : option Z :=
  match osrc with
  | 0 => Some GPIO_OSS_A | 1 => Some GPIO_OSS_B | 2 => Some GPIO_OSS_C | 3 => Some GPIO_OSS_DREG
  | _ => None end.
Definition iss_of (isrc : Z) : option Z :=
  match isrc with
  | 0 => Some GPIO_ISS_GIN | 1 => Some GPIO_ISS_ISR | 2 => Some GPIO_ISS_0 | 3 => Some GPIO_ISS_1
  | _ => None end.

Definition decode_fn (gmode : Z) : option gpio_cfg_t :=
  let osrc := getf gmode 11 3 in
  let isrca := getf gmode 13 3 in
  let isrcb := getf gmode 15 3 in
  let pull := if truth (Z.land gmode GPIO_PUEN) then 1 else 0 in
  if truth (Z.land gmode GPIO_MODE) then
    if truth (Z.land gmode GPIO_DIR_OUT) then
      oss ← oss_of osrc; Some (GpioCfg GPIO_M_OUT pull oss 0 0 0)
    else
      a ← iss_of isrca; b ← iss_of isrcb; Some (GpioCfg GPIO_M_IN pull 0 a b 0)
  else if truth (Z.land gmode GPIO_AF) then Some (GpioCfg GPIO_M_ALT pull 0 0 0 0)
  else Some (GpioCfg GPIO_M_PRI pull 0 0 0 0).

Definition gpio_fn (gmode : Z) : M W Z :=
  let pin := Z.land gmode GPIO_PIN_MASK in
  let port := Z.shiftr (Z.land gmode GPIO_PORT_MASK) GPIO_PORT_SHIFT in
  match decode_fn gmode with
  | None => ret (-1)
  | Some c => gpio_cfg (GPIO_PORT_VADDR port) pin c ;; ret 0
  end.
End Pins.
