(* ===== verification/MagusGpioSpec.v ===== *)
(** * What configuring pins does

    [pin_of] reads the setting of one pin off the registers of a port.
    [gpio_cfg_pins] changes the setting of the pins of its mask, all of them and
    no others; the kernel's interface is stated pin by pin on top of it. *)

From Stdlib Require Import ZArith Lia Bool.
From stdpp Require Import base numbers list sets.
From S2P Require Import Prelude CMonad DevIO MagusGpio.

(** ** Two bits per pin *)

Lemma fold_lor_bit {A} (g : A -> Z) l t k :
  Z.testbit (foldl (fun t i => Z.lor t (g i)) t l) k = Z.testbit t k || existsb (fun i => Z.testbit (g i) k) l.
Proof.
  revert t. induction l as [|i l IH]; intros t; cbn [foldl existsb]; [by rewrite orb_false_r|].
  rewrite IH, Z.lor_spec. by rewrite orb_assoc.
Qed.

Lemma existsb_ext_in {A} (f g : A -> bool) l : (forall x, x ∈ l -> f x = g x) -> existsb f l = existsb g l.
Proof.
  induction l as [|x l IH]; intros H; cbn [existsb]; [done|]. rewrite H by set_solver. f_equal.
  apply IH. set_solver.
Qed.

Lemma existsb_pairs (h : Z -> bool) (q : Z -> Z -> bool) k : 0 <= k ->
  existsb (fun i => h i && q i (k - 2 * i) && (2 * i <=? k) && (k <? 2 * i + 2)) (seqZ 0 16) =
    (k <? 32) && h (k / 2) && q (k / 2) (k mod 2).
Proof.
  intros Hk. pose proof (Z.div_mod k 2 ltac:(lia)) as Hdm. pose proof (Z.mod_pos_bound k 2 ltac:(lia)) as Hm.
  apply eq_true_iff_eq. rewrite existsb_exists. split.
  - intros (i & Hi & H). zbool. apply list_elem_of_In, elem_of_seqZ in Hi.
    assert (k / 2 = i) as -> by (symmetry; apply (Z.div_unique k 2 i (k - 2 * i)); lia).
    assert (k mod 2 = k - 2 * i) as -> by (symmetry; apply (Z.mod_unique k 2 i (k - 2 * i)); lia).
    rewrite !andb_true_iff. split_and!; [lia|done|done].
  - intros H. zbool. exists (k / 2). split; [apply list_elem_of_In, elem_of_seqZ; lia|].
    replace (k - 2 * (k / 2)) with (k mod 2) by lia. rewrite !andb_true_iff. split_and!; [done|done|lia|lia].
Qed.

Lemma two_bits v i k : 0 <= i -> 0 <= k ->
  Z.testbit (Z.shiftl (Z.land v 3) (2 * i)) k = Z.testbit v (k - 2 * i) && (2 * i <=? k) && (k <? 2 * i + 2).
Proof.
  intros Hi Hk. rewrite Z.shiftl_spec by done. change 3 with (Z.ones 2). rewrite Z.land_spec.
  destruct (2 * i <=? k) eqn:E; zbool.
  - rewrite Z.testbit_ones_nonneg by lia. rewrite andb_true_r.
    destruct (k - 2 * i <? 2) eqn:E1, (k <? 2 * i + 2) eqn:E2; zbool; try lia; done.
  - rewrite (Z.testbit_neg_r v) by lia. done.
Qed.

Lemma template_bit v k : 0 <= k -> Z.testbit (template v) k = (k <? 32) && Z.testbit v (k mod 2).
Proof.
  intros Hk. unfold template. rewrite fold_lor_bit, Z.bits_0, orb_false_l.
  pose proof (existsb_pairs (fun _ => true) (fun _ => Z.testbit v) k Hk) as E. cbn beta in E.
  rewrite andb_true_r in E. rewrite <- E.
  apply existsb_ext_in. intros i Hi%elem_of_seqZ. rewrite two_bits by lia. done.
Qed.

Lemma truth_bit m i : 0 <= i -> truth (Z.land m (Z.shiftl 1 i)) = Z.testbit m i.
Proof.
  intros Hi. rewrite Z.shiftl_1_l. unfold truth.
  destruct (Z.testbit m i) eqn:E.
  - apply negb_true_iff, Z.eqb_neq. intros H0. enough (Z.testbit 0 i = true) as H by by rewrite Z.bits_0 in H.
    rewrite <- H0, Z.land_spec, E, Z.pow2_bits_true by lia. done.
  - apply negb_false_iff, Z.eqb_eq, bits_ext. intros k Hk. rewrite Z.land_spec, Z.bits_0, Z.pow2_bits_eqb by lia.
    destruct (i =? k) eqn:Ek; zbool; [by subst; rewrite E|by rewrite andb_false_r].
Qed.

Lemma pin_mask_bit mask off k : 0 <= off -> 0 <= k ->
  Z.testbit (pin_mask mask off) k = (k <? 32) && Z.testbit mask (k / 2 + off).
Proof.
  intros Ho Hk. unfold pin_mask, mask_step. rewrite fold_lor_bit, Z.bits_0, orb_false_l.
  transitivity (existsb (fun i => Z.testbit mask (i + off) && true && (2 * i <=? k) && (k <? 2 * i + 2)) (seqZ 0 16)).
  - apply existsb_ext_in. intros i Hi%elem_of_seqZ. rewrite truth_bit by lia.
    destruct (Z.testbit mask (i + off)); [|by rewrite Z.bits_0].
    change 3 with (Z.land 3 3). rewrite two_bits by lia.
    destruct (2 * i <=? k) eqn:E1, (k <? 2 * i + 2) eqn:E2; zbool; rewrite ?andb_false_r, ?andb_true_r; try done.
    assert (k - 2 * i = 0 \/ k - 2 * i = 1) as [-> | ->] by lia; done.
  - rewrite (existsb_pairs (fun i => Z.testbit mask (i + off)) (fun _ _ => true)) by done. by rewrite andb_true_r.
Qed.

(** A pair of registers after the read-modify-write of [gpio_cfg_pins]. *)
Definition merge_pair (x m t : Z) : Z := Z.lor (Z.land x (Z.lnot m)) (Z.land t m).

Lemma merge_pair_field x mask off v j : 0 <= off -> 0 <= j < 16 ->
  getf (merge_pair x (pin_mask mask off) (template v)) (2 * j) 3 =
    if Z.testbit mask (j + off) then Z.land v 3 else getf x (2 * j) 3.
Proof.
  intros Ho Hj. apply bits_ext. intros i Hi. change 3 with (Z.ones 2).
  assert (E : Z.testbit (if Z.testbit mask (j + off) then Z.land v (Z.ones 2) else getf x (2 * j) (Z.ones 2)) i
    = (i <? 2) && if Z.testbit mask (j + off) then Z.testbit v i else Z.testbit x (i + 2 * j)).
  { destruct (Z.testbit mask (j + off)); [|by rewrite getf_bit by lia].
    rewrite Z.land_spec, Z.testbit_ones_nonneg by lia. apply andb_comm. }
  rewrite E, getf_bit by lia. destruct (i <? 2) eqn:Ei; [|done]. zbool. cbn [andb]. unfold merge_pair.
  rewrite Z.lor_spec, !Z.land_spec, Z.lnot_spec, pin_mask_bit, template_bit by lia.
  assert ((i + 2 * j) / 2 = j) as -> by (symmetry; apply (Z.div_unique _ 2 j i); lia).
  assert ((i + 2 * j) mod 2 = i) as -> by (symmetry; apply (Z.mod_unique _ 2 j i); lia).
  destruct (i + 2 * j <? 32) eqn:E3; zbool; [|lia]. cbn [andb].
  destruct (Z.testbit mask (j + off)), (Z.testbit v i), (Z.testbit x (i + 2 * j)); done.
Qed.

Lemma pin_mask_u32 mask off : 0 <= off -> in_u32 (pin_mask mask off).
Proof.
  intros Ho. apply in_u32_bits.
  - unfold pin_mask. generalize (seqZ 0 16). assert (forall l t, 0 <= t -> 0 <= foldl (mask_step mask off) t l) as H.
    { induction l as [|i l IH]; intros t Ht; cbn [foldl]; [done|]. apply IH. unfold mask_step.
      apply Z.lor_nonneg. split; [done|]. destruct (truth _); [|done]. by apply Z.shiftl_nonneg. }
    intros l. by apply H.
  - intros i Hi. rewrite pin_mask_bit by lia. destruct (i <? 32) eqn:E; zbool; [lia|done].
Qed.

Lemma merge_pair_u32 x mask off t : 0 <= off -> in_u32 x -> in_u32 (merge_pair x (pin_mask mask off) t).
Proof.
  intros Ho Hx. apply lor_u32; [by apply land_u32|]. rewrite Z.land_comm. by apply land_u32, pin_mask_u32.
Qed.

(** ** The setting of a pin *)
Record pin := Pin {
  pin_alt : bool; pin_gpio : bool; pin_pull : bool; pin_out : bool;
  pin_oss : Z; pin_issa : Z; pin_issb : Z; pin_icr : Z }.

Definition pair_field (s : Z -> Z) (a1 a2 p : Z) : Z :=
  if p <? 16 then getf (s a1) (2 * p) 3 else getf (s a2) (2 * (p - 16)) 3.

Definition pin_of (s : Z -> Z) (r p : Z) : pin := {|
  pin_alt := Z.testbit (s (r + gpio_func)) p;
  pin_gpio := Z.testbit (s (r + gpio_mode)) p;
  pin_pull := Z.testbit (s (r + gpio_puen)) p;
  pin_out := Z.testbit (s (r + gpio_ddir)) p;
  pin_oss := pair_field s (r + gpio_oss1) (r + gpio_oss2) p;
  pin_issa := pair_field s (r + gpio_issa1) (r + gpio_issa2) p;
  pin_issb := pair_field s (r + gpio_issb1) (r + gpio_issb2) p;
  pin_icr := pair_field s (r + gpio_icr1) (r + gpio_icr2) p |}.

(** What a configuration asks of a pin. *)
Definition pin_set (c : gpio_cfg_t) (o : pin) : pin :=
  let pull := truth (cfg_pull_en c) in
  match cfg_mode c with
  | GPIO_M_PRI => Pin false false pull (pin_out o) (pin_oss o) (pin_issa o) (pin_issb o) (pin_icr o)
  | GPIO_M_ALT => Pin true false pull (pin_out o) (pin_oss o) (pin_issa o) (pin_issb o) (pin_icr o)
  | GPIO_M_OUT => Pin (pin_alt o) true pull true (Z.land (cfg_oss c) 3) (pin_issa o) (pin_issb o) (pin_icr o)
  | GPIO_M_IN => Pin (pin_alt o) true pull false (pin_oss o) (Z.land (cfg_issa c) 3) (Z.land (cfg_issb c) 3) (pin_icr o)
  | GPIO_M_INTR => Pin (pin_alt o) true pull false (pin_oss o) GPIO_ISS_ISR GPIO_ISS_ISR (Z.land (cfg_irq c) 3)
  | GPIO_M_BAD => o
  end.

(** ** The registers of the ports *)
Definition cfg_regs : list Z :=
  [gpio_func; gpio_mode; gpio_puen; gpio_ddir; gpio_oss1; gpio_oss2; gpio_issa1; gpio_issa2; gpio_issb1;
   gpio_issb2; gpio_icr1; gpio_icr2].
Definition is_port (r : Z) : Prop := exists port, 0 <= port < GPIO_PORTS /\ r = GPIO_PORT_VADDR port.
Definition gpio_live (a : Z) : Prop :=
  exists r off, is_port r /\ off ∈ cfg_regs ++ [gpio_dreg; gpio_ier] /\ a = r + off.

(** The data register shows the level of the input pins, [inputs]. *)
Definition gpio_volat (inputs : Z -> Z) (a : Z) : Z := if a mod 256 =? gpio_dreg then inputs a else 0.

Lemma port_addr port off : 0 <= off < 256 -> (GPIO_PORT_VADDR port + off) mod 256 = off.
Proof.
  intros Ho. unfold GPIO_PORT_VADDR. rewrite Z.shiftl_mul_pow2 by done. change (2 ^ 8) with 256.
  change MAGUS_VIO_GPIO with (15728880 * 256). rewrite <- Z.mul_add_distr_r, Z.add_comm, Z_mod_plus_full.
  by apply Z.mod_small.
Qed.

Lemma gpio_live_reg r off : is_port r -> off ∈ cfg_regs ++ [gpio_dreg; gpio_ier] -> gpio_live (r + off).
Proof. intros Hr Ho. by exists r, off. Qed.
Lemma gpio_volat_reg inputs r off : is_port r -> 0 <= off < 256 -> off <> gpio_dreg -> gpio_volat inputs (r + off) = 0.
Proof.
  intros (port & _ & ->) Ho Hne. unfold gpio_volat. rewrite port_addr by done.
  by rewrite (proj2 (Z.eqb_neq _ _) Hne).
Qed.
Lemma gpio_volat_dreg inputs r : is_port r -> gpio_volat inputs (r + gpio_dreg) = inputs (r + gpio_dreg).
Proof. intros (port & _ & ->). unfold gpio_volat. by rewrite port_addr by (unfold gpio_dreg; lia). Qed.

(** ** One bit per pin *)
Section PinBits.
Implicit Types (x mask p : Z).

Lemma opmask_bit mask p : 0 <= p < 32 -> Z.testbit (u32 (Z.lnot mask)) p = negb (Z.testbit mask p).
Proof.
  intros Hp. rewrite u32_bits, Z.lnot_spec by lia. destruct (p <? 32) eqn:E; zbool; [done|lia].
Qed.
Lemma clear_pins x mask p : 0 <= p < 32 ->
  Z.testbit (Z.land x (u32 (Z.lnot mask))) p = if Z.testbit mask p then false else Z.testbit x p.
Proof.
  intros Hp. rewrite Z.land_spec, opmask_bit by done.
  by destruct (Z.testbit mask p), (Z.testbit x p).
Qed.
Lemma set_pins x mask p : Z.testbit (Z.lor x mask) p = if Z.testbit mask p then true else Z.testbit x p.
Proof. rewrite Z.lor_spec. by destruct (Z.testbit mask p), (Z.testbit x p). Qed.
Lemma assign_pins x mask (b : bool) p : 0 <= p < 32 ->
  Z.testbit (Z.lor (Z.land x (u32 (Z.lnot mask))) (if b then mask else 0)) p =
    if Z.testbit mask p then b else Z.testbit x p.
Proof.
  intros Hp. rewrite Z.lor_spec, clear_pins by done.
  destruct b; rewrite ?Z.bits_0; by destruct (Z.testbit mask p), (Z.testbit x p).
Qed.

(** Both registers of a pair. *)
Definition upd_pair (s : Z -> Z) (a1 a2 mask v : Z) : Z -> Z :=
  upd (upd s a1 (merge_pair (s a1) (pin_mask mask 0) (template v))) a2
    (merge_pair (s a2) (pin_mask mask 16) (template v)).

Lemma upd_pair_field s a1 a2 mask v p : a1 <> a2 -> 0 <= p < 32 ->
  pair_field (upd_pair s a1 a2 mask v) a1 a2 p =
    if Z.testbit mask p then Z.land v 3 else pair_field s a1 a2 p.
Proof.
  intros Ha Hp. unfold pair_field, upd_pair. rewrite upd_reg_eq, upd_reg_ne, upd_reg_eq by done.
  destruct (p <? 16) eqn:E; zbool; rewrite merge_pair_field by lia; [by rewrite Z.add_0_r|by rewrite Z.sub_add].
Qed.
Lemma upd_pair_ne s a1 a2 mask v a : a <> a1 -> a <> a2 -> upd_pair s a1 a2 mask v a = s a.
Proof. intros H1 H2. unfold upd_pair. by rewrite !upd_reg_ne. Qed.
End PinBits.

Ltac offs := unfold gpio_func, gpio_mode, gpio_puen, gpio_ddir, gpio_oss1, gpio_oss2, gpio_issa1, gpio_issa2,
  gpio_issb1, gpio_issb2, gpio_icr1, gpio_icr2, gpio_dreg, gpio_ier in *.
(** Looking up registers of one port in a chain of updates. *)
Ltac regs := repeat first
  [ rewrite upd_reg_eq | rewrite upd_reg_ne by (offs; lia) | rewrite upd_pair_ne by (offs; lia) ].
Lemma pair_field_ext s s' a1 a2 p : s' a1 = s a1 -> s' a2 = s a2 -> pair_field s' a1 a2 p = pair_field s a1 a2 p.
Proof. intros H1 H2. unfold pair_field. by rewrite H1, H2. Qed.

Section Spec.
Context {W : Type} {B : Bus W} {inputs : Z -> Z} {R : Registers W gpio_live (gpio_volat inputs)}.
Implicit Types (w : W) (s : Z -> Z) (r : Z).

Lemma cfg_reg_off off : off ∈ cfg_regs ++ [gpio_ier] -> off ∈ cfg_regs ++ [gpio_dreg; gpio_ier] /\
  0 <= off < 256 /\ off <> gpio_dreg.
Proof.
  intros H. split; [set_solver|]. revert off H. apply Forall_forall. by repeat constructor.
Qed.

Lemma wp_reg_rd r off (Q : Z -> W -> Prop) w s : is_port r -> off ∈ cfg_regs ++ [gpio_ier] -> rep w s ->
  (forall w', rep w' s -> Q (s (r + off)) w') -> wp (io_rd32 (r + off)) Q w.
Proof.
  intros Hr (H1 & H2 & H3)%cfg_reg_off Hw HQ.
  apply (wp_rd (r + off) Q w s Hw); [by apply gpio_live_reg|by apply gpio_volat_reg|done].
Qed.
Lemma wp_reg_wr r off d (Q : unit -> W -> Prop) w s : is_port r -> off ∈ cfg_regs ++ [gpio_ier] -> rep w s ->
  in_u32 d -> (forall w', rep w' (upd s (r + off) d) -> Q tt w') -> wp (io_wr32 (r + off) d) Q w.
Proof.
  intros Hr (H1 & H2 & H3)%cfg_reg_off Hw Hd HQ.
  apply (wp_wr (r + off) d Q w s Hw); [by apply gpio_live_reg|by apply gpio_volat_reg|done|done].
Qed.
Lemma reg_u32 r off w s : is_port r -> off ∈ cfg_regs ++ [gpio_ier] -> rep w s -> in_u32 (s (r + off)).
Proof. intros Hr (H1 & _)%cfg_reg_off Hw. apply (rep_range w s); [done|by apply gpio_live_reg]. Qed.

(** Reading a pair of registers and, later, writing it. *)
Definition pair_read s (a1 a2 mask : Z) : Z * Z :=
  (Z.land (s a1) (Z.lnot (pin_mask mask 0)), Z.land (s a2) (Z.lnot (pin_mask mask 16))).

Lemma read_pair_run r o1 o2 mask w s : is_port r -> o1 ∈ cfg_regs -> o2 ∈ cfg_regs -> rep w s ->
  wp (read_pair (r + o1) (r + o2) (pin_mask mask 0) (pin_mask mask 16))
    (fun x w' => x = pair_read s (r + o1) (r + o2) mask /\ rep w' s) w.
Proof.
  intros Hr H1 H2 Hw. apply wp_bind. apply (wp_reg_rd r o1 _ w s Hr); [set_solver|done|]. intros w1 Hw1.
  apply wp_bind. apply (wp_reg_rd r o2 _ w1 s Hr); [set_solver|done|]. intros w2 Hw2. by apply wp_ret.
Qed.
Lemma write_pair_run r o1 o2 mask v x w s : is_port r -> o1 ∈ cfg_regs -> o2 ∈ cfg_regs -> o1 <> o2 -> rep w s ->
  x = pair_read s (r + o1) (r + o2) mask ->
  wp (write_pair (r + o1) (r + o2) (pin_mask mask 0) (pin_mask mask 16) (template v) x)
    (fun _ w' => rep w' (upd_pair s (r + o1) (r + o2) mask v)) w.
Proof.
  intros Hr H1 H2 Hne Hw ->. pose proof (reg_u32 r o1 w s Hr ltac:(set_solver) Hw).
  pose proof (reg_u32 r o2 w s Hr ltac:(set_solver) Hw).
  apply wp_bind. apply (wp_reg_wr r o1 _ _ w s Hr); [set_solver|done|by apply (merge_pair_u32 _ _ 0)|].
  intros w1 Hw1. eapply (wp_reg_wr r o2); [done|set_solver|exact Hw1|by apply (merge_pair_u32 _ _ 16)|done].
Qed.

(** ** The registers [gpio_cfg_pins] leaves *)
Definition cfg_after (c : gpio_cfg_t) : gpio_cfg_t :=
  match cfg_mode c with
  | GPIO_M_INTR => GpioCfg GPIO_M_INTR (cfg_pull_en c) (cfg_oss c) GPIO_ISS_ISR GPIO_ISS_ISR (cfg_irq c)
  | _ => c end.

Definition out_state s r mask (c : gpio_cfg_t) : Z -> Z :=
  let s1 := upd_pair s (r + gpio_oss1) (r + gpio_oss2) mask (cfg_oss c) in
  upd s1 (r + gpio_ddir) (Z.lor (s1 (r + gpio_ddir)) mask).
Definition intr_state s r mask (c : gpio_cfg_t) : Z -> Z :=
  match cfg_mode c with
  | GPIO_M_INTR => upd_pair s (r + gpio_icr1) (r + gpio_icr2) mask (cfg_irq c)
  | _ => s end.
Definition in_state s r mask (c : gpio_cfg_t) : Z -> Z :=
  let s1 := intr_state s r mask c in
  let s2 := upd_pair s1 (r + gpio_issa1) (r + gpio_issa2) mask (cfg_issa (cfg_after c)) in
  let s3 := upd_pair s2 (r + gpio_issb1) (r + gpio_issb2) mask (cfg_issb (cfg_after c)) in
  upd s3 (r + gpio_ddir) (Z.land (s3 (r + gpio_ddir)) (u32 (Z.lnot mask))).
Definition cfg_state s r mask (c : gpio_cfg_t) : Z -> Z :=
  let om := u32 (Z.lnot mask) in
  let s1 := upd s (r + gpio_puen)
    (Z.lor (Z.land (s (r + gpio_puen)) om) (if truth (cfg_pull_en c) then mask else 0)) in
  match cfg_mode c with
  | GPIO_M_BAD => s
  | GPIO_M_PRI =>
      let s2 := upd s1 (r + gpio_func) (Z.land (s1 (r + gpio_func)) om) in
      upd s2 (r + gpio_mode) (Z.land (s2 (r + gpio_mode)) om)
  | GPIO_M_ALT =>
      let s2 := upd s1 (r + gpio_func) (Z.lor (s1 (r + gpio_func)) mask) in
      upd s2 (r + gpio_mode) (Z.land (s2 (r + gpio_mode)) om)
  | GPIO_M_OUT => out_state (upd s1 (r + gpio_mode) (Z.lor (s1 (r + gpio_mode)) mask)) r mask c
  | _ => in_state (upd s1 (r + gpio_mode) (Z.lor (s1 (r + gpio_mode)) mask)) r mask c
  end.

(** [io_wr32(a, F(io_rd32(a)))] *)
Lemma rmw_run r off (F : Z -> Z) (Q : unit -> W -> Prop) w s : is_port r -> off ∈ cfg_regs ++ [gpio_ier] -> rep w s ->
  (in_u32 (s (r + off)) -> in_u32 (F (s (r + off)))) ->
  (forall w', rep w' (upd s (r + off) (F (s (r + off)))) -> Q tt w') ->
  wp (let! x := io_rd32 (r + off) in io_wr32 (r + off) (F x)) Q w.
Proof.
  intros Hr Ho Hw HF HQ. apply wp_bind. apply (wp_reg_rd r off _ w s Hr Ho Hw). intros w1 Hw1.
  apply (wp_reg_wr r off _ _ w1 s Hr Ho Hw1); [by apply HF, (reg_u32 r off w s)|done].
Qed.

Ltac in_regs := unfold cfg_regs; set_solver.

Lemma cfg_output_run r mask c w s : is_port r -> in_u32 mask -> rep w s ->
  wp (cfg_output r mask (pin_mask mask 0) (pin_mask mask 16) c) (fun _ w' => rep w' (out_state s r mask c)) w.
Proof.
  intros Hr Hm Hw. apply wp_bind.
  eapply wp_mono; [apply (read_pair_run r gpio_oss1 gpio_oss2 mask w s Hr); [in_regs..|done]|].
  intros x w1 [Hx Hw1]. apply wp_bind.
  eapply wp_mono; [apply (write_pair_run r gpio_oss1 gpio_oss2 mask (cfg_oss c) x w1 s Hr); [in_regs|in_regs|done..]|].
  intros [] w2 Hw2. eapply (rmw_run r gpio_ddir (fun d => Z.lor d mask) _ w2); [done|in_regs|exact Hw2| |done].
  intros ?. by apply lor_u32.
Qed.

Lemma cfg_intr_run r mask c w s : is_port r -> rep w s ->
  wp (match cfg_mode c with GPIO_M_INTR => cfg_intr r (pin_mask mask 0) (pin_mask mask 16) c | _ => ret c end)
    (fun c' w' => c' = cfg_after c /\ rep w' (intr_state s r mask c)) w.
Proof.
  intros Hr Hw. unfold cfg_after, intr_state. destruct (cfg_mode c) eqn:Ec; try by apply wp_ret.
  apply wp_bind. eapply wp_mono; [apply (read_pair_run r gpio_icr1 gpio_icr2 mask w s Hr); [in_regs..|done]|].
  intros x w1 [Hx Hw1]. apply wp_bind.
  eapply wp_mono; [apply (write_pair_run r gpio_icr1 gpio_icr2 mask (cfg_irq c) x w1 s Hr); [in_regs|in_regs|done..]|].
  intros [] w2 Hw2. apply wp_ret. by rewrite Ec.
Qed.

Lemma cfg_input_run r mask c w s : is_port r -> in_u32 mask -> rep w s ->
  wp (cfg_input r (u32 (Z.lnot mask)) (pin_mask mask 0) (pin_mask mask 16) c)
    (fun c' w' => c' = cfg_after c /\ rep w' (in_state s r mask c)) w.
Proof.
  intros Hr Hm Hw. apply wp_bind.
  eapply wp_mono; [apply (read_pair_run r gpio_issa1 gpio_issa2 mask w s Hr); [in_regs..|done]|].
  intros xa w1 [Hxa Hw1]. apply wp_bind.
  eapply wp_mono; [apply (read_pair_run r gpio_issb1 gpio_issb2 mask w1 s Hr); [in_regs..|done]|].
  intros xb w2 [Hxb Hw2]. apply wp_bind.
  eapply wp_mono; [by apply (cfg_intr_run r mask c w2 s)|]. intros c' w3 [-> Hw3]. cbn beta in Hw3.
  assert (Hs : forall off, off <> gpio_icr1 -> off <> gpio_icr2 -> intr_state s r mask c (r + off) = s (r + off)).
  { intros off H1 H2. unfold intr_state. destruct (cfg_mode c); try done. apply upd_pair_ne; lia. }
  apply wp_bind. eapply wp_mono.
  { eapply (write_pair_run r gpio_issa1 gpio_issa2 mask (cfg_issa (cfg_after c)) xa w3); [done|in_regs|in_regs|done|exact Hw3|].
    unfold pair_read. by rewrite !Hs. }
  intros [] w4 Hw4. apply wp_bind. eapply wp_mono.
  { eapply (write_pair_run r gpio_issb1 gpio_issb2 mask (cfg_issb (cfg_after c)) xb w4); [done|in_regs|in_regs|done|exact Hw4|].
    unfold pair_read. rewrite !upd_pair_ne by (offs; lia). by rewrite !Hs. }
  intros [] w5 Hw5. apply wp_assoc, wp_bind.
  eapply (rmw_run r gpio_ddir (fun d => Z.land d (u32 (Z.lnot mask))) _ w5); [done|in_regs|exact Hw5| |];
    [intros; by apply land_u32|]. intros w6 Hw6. by apply wp_ret.
Qed.

Lemma cfg_pins_run r mask c w s : is_port r -> in_u32 mask -> mask <> 0 -> cfg_mode c <> GPIO_M_BAD -> rep w s ->
  wp (gpio_cfg_pins r mask c) (fun res w' => res = (GPIO_ERR_NONE, cfg_after c) /\ rep w' (cfg_state s r mask c)) w.
Proof.
  intros Hr Hm H0 Hbad Hw. unfold gpio_cfg_pins. rewrite (proj2 (Z.eqb_neq _ _) H0).
  set (om := u32 (Z.lnot mask)).
  assert (Hom : forall x, in_u32 x -> in_u32 (Z.land x om)) by (intros; by apply land_u32).
  assert (Hset : forall x, in_u32 x -> in_u32 (Z.lor x mask)) by (intros; by apply lor_u32).
  set (P := fun (res : gpio_err_e * gpio_cfg_t) (w' : W) => res = (GPIO_ERR_NONE, cfg_after c) /\ rep w' (cfg_state s r mask c)).
  enough (forall (k : M W (gpio_err_e * gpio_cfg_t)),
    (forall w1, rep w1 (upd s (r + gpio_puen) (Z.lor (Z.land (s (r + gpio_puen)) om)
        (if truth (cfg_pull_en c) then mask else 0))) -> wp k P w1) ->
    wp (let! puen := io_rd32 (r + gpio_puen) in
        io_wr32 (r + gpio_puen) (Z.lor (Z.land puen om) (if truth (cfg_pull_en c) then mask else 0)) ;; k) P w) as Hpuen.
  2:{ intros k Hk. apply wp_assoc, wp_bind.
      apply (rmw_run r gpio_puen (fun x => Z.lor (Z.land x om) (if truth (cfg_pull_en c) then mask else 0)) _ w s Hr);
        [in_regs|done| |exact Hk]. intros Hx. apply lor_u32; [by apply Hom|]. by destruct (truth _). }
  unfold P, cfg_after, cfg_state in *. fold om.
  destruct (cfg_mode c) eqn:Ec; try done; apply Hpuen; intros w1 Hw1.
  - apply wp_assoc, wp_bind. eapply (rmw_run r gpio_func (fun x => Z.land x om) _ w1); [done|in_regs|done|by apply Hom|].
    intros w2 Hw2. apply wp_assoc, wp_bind.
    eapply (rmw_run r gpio_mode (fun x => Z.land x om) _ w2); [done|in_regs|done|by apply Hom|].
    intros w3 Hw3. by apply wp_ret.
  - apply wp_assoc, wp_bind. eapply (rmw_run r gpio_func (fun x => Z.lor x mask) _ w1); [done|in_regs|done|by apply Hset|].
    intros w2 Hw2. apply wp_assoc, wp_bind.
    eapply (rmw_run r gpio_mode (fun x => Z.land x om) _ w2); [done|in_regs|done|by apply Hom|].
    intros w3 Hw3. by apply wp_ret.
  - apply wp_assoc, wp_bind. eapply (rmw_run r gpio_mode (fun x => Z.lor x mask) _ w1); [done|in_regs|done|by apply Hset|].
    intros w2 Hw2. apply wp_bind. eapply wp_mono; [by apply (cfg_output_run r mask c w2)|].
    intros [] w3 Hw3. by apply wp_ret.
  - apply wp_assoc, wp_bind. eapply (rmw_run r gpio_mode (fun x => Z.lor x mask) _ w1); [done|in_regs|done|by apply Hset|].
    intros w2 Hw2. apply wp_bind. eapply wp_mono; [by apply (cfg_input_run r mask c w2)|].
    intros c' w3 [-> Hw3]. apply wp_ret. unfold cfg_after. by rewrite Ec.
  - apply wp_assoc, wp_bind. eapply (rmw_run r gpio_mode (fun x => Z.lor x mask) _ w1); [done|in_regs|done|by apply Hset|].
    intros w2 Hw2. apply wp_bind. eapply wp_mono; [by apply (cfg_input_run r mask c w2)|].
    intros c' w3 [-> Hw3]. apply wp_ret. unfold cfg_after. by rewrite Ec.
Qed.
End Spec.

Section Pins.
Implicit Types (s : Z -> Z) (r p mask : Z).

Lemma pair_field_upd s a d a1 a2 p : a <> a1 -> a <> a2 -> pair_field (upd s a d) a1 a2 p = pair_field s a1 a2 p.
Proof. intros H1 H2. apply pair_field_ext; by apply upd_reg_ne. Qed.
Lemma pair_field_upd_pair s b1 b2 mask v a1 a2 p : a1 <> b1 -> a1 <> b2 -> a2 <> b1 -> a2 <> b2 ->
  pair_field (upd_pair s b1 b2 mask v) a1 a2 p = pair_field s a1 a2 p.
Proof. intros. apply pair_field_ext; by apply upd_pair_ne. Qed.

Ltac pin_fields :=
  repeat first
    [ rewrite upd_pair_field by (done || (offs; lia))
    | rewrite pair_field_upd by (offs; lia)
    | rewrite pair_field_upd_pair by (offs; lia)
    | rewrite upd_reg_eq | rewrite upd_reg_ne by (offs; lia) | rewrite upd_pair_ne by (offs; lia) ].

(** The registers change for the pins of the mask as the configuration asks. *)
Lemma cfg_state_pin s r mask c p : 0 <= p < 32 ->
  pin_of (cfg_state s r mask c) r p =
    if Z.testbit mask p then pin_set c (pin_of s r p) else pin_of s r p.
Proof.
  intros Hp. unfold pin_set, cfg_state. destruct (cfg_mode c) eqn:Ec; [| | | | |by destruct (Z.testbit mask p)];
    unfold out_state, in_state, intr_state, cfg_after, pin_of; rewrite ?Ec; cbn zeta; pin_fields;
    rewrite ?assign_pins, ?clear_pins, ?set_pins by done;
    by destruct (Z.testbit mask p).
Qed.

Lemma cfg_state_frame s r mask c a : (forall off, off ∈ cfg_regs -> a <> r + off) -> cfg_state s r mask c a = s a.
Proof.
  intros Ha. unfold cfg_state, out_state, in_state, intr_state.
  assert (forall off, off ∈ cfg_regs -> a <> r + off) as H by done.
  destruct (cfg_mode c); cbn zeta; repeat first [done | rewrite upd_reg_ne by (apply H; unfold cfg_regs; set_solver)
    | rewrite upd_pair_ne by (apply H; unfold cfg_regs; set_solver)].
Qed.
End Pins.

Section Properties.
Context {W : Type} {B : Bus W} {inputs : Z -> Z} {R : Registers W gpio_live (gpio_volat inputs)}.
Implicit Types (w : W) (s : Z -> Z) (r : Z).

Lemma cfg_pins_all r mask c w s : is_port r -> in_u32 mask -> rep w s ->
  wp (gpio_cfg_pins r mask c) (fun res w' => exists s', rep w' s' /\
    fst res = (match cfg_mode c with GPIO_M_BAD => GPIO_ERR_PARM | _ => GPIO_ERR_NONE end) /\
    (forall p, 0 <= p < 32 -> pin_of s' r p = if Z.testbit mask p then pin_set c (pin_of s r p) else pin_of s r p) /\
    (forall a, (forall off, off ∈ cfg_regs -> a <> r + off) -> s' a = s a)) w.
Proof.
  intros Hr Hm Hw. destruct (decide (cfg_mode c = GPIO_M_BAD)) as [Eb|Hb].
  { unfold gpio_cfg_pins. rewrite Eb. apply wp_ret. exists s. split_and!; [done|done| |done].
    intros p _. unfold pin_set. rewrite Eb. by destruct (Z.testbit mask p). }
  destruct (decide (mask = 0)) as [->|Hne].
  { unfold gpio_cfg_pins. destruct (cfg_mode c) eqn:Ec; try done; apply wp_ret; exists s; (split_and!; [done|done| |done]);
      intros p _; by rewrite Z.bits_0. }
  eapply wp_mono; [by apply (cfg_pins_run r mask c w s)|]. intros res w' [-> Hw'].
  exists (cfg_state s r mask c). split_and!; [done|by destruct (cfg_mode c)|by intros; apply cfg_state_pin|].
  intros a Ha. by apply cfg_state_frame.
Qed.

(** C29. [gpio_cfg_pins] refines setting pins one by one: every pin of the mask
    gets function, direction, pull, output source, input sources and interrupt
    condition as the configuration asks, every other pin of the port and every
    other register keep theirs, and a mode out of range is refused with nothing
    changed. *)
Theorem cfg_pins_correct r mask c w s : is_port r -> in_u32 mask -> rep w s ->
  exists err c' w' s', gpio_cfg_pins r mask c w = Done (err, c') w' /\ rep w' s' /\
    err = (match cfg_mode c with GPIO_M_BAD => GPIO_ERR_PARM | _ => GPIO_ERR_NONE end) /\
    (forall p, 0 <= p < 32 -> pin_of s' r p = if Z.testbit mask p then pin_set c (pin_of s r p) else pin_of s r p) /\
    (forall a, (forall off, off ∈ cfg_regs -> a <> r + off) -> s' a = s a).
Proof.
  intros Hr Hm Hw. pose proof (cfg_pins_all r mask c w s Hr Hm Hw) as Hrun.
  apply wp_run in Hrun as ([err c'] & w' & E & s' & H1 & H2 & H3 & H4). by exists err, c', w', s'.
Qed.
End Properties.

(** ** Function codes

    The codes of [hardware.h] or together the port, the pin, [GPIO_PUEN] and the
    function; an output source is written AIN, BIN, CIN, DR = 0, 1, 2, 3. *)
Inductive pin_function :=
| Primary | Alternate | Output (src : Z) | Input (a b : Z).

Definition valid_function (f : pin_function) : Prop :=
  match f with
  | Output src => 0 <= src < 4 | Input a b => 0 <= a < 4 /\ 0 <= b < 4 | _ => True end.

Definition function_bits (f : pin_function) : Z :=
  match f with
  | Primary => 0
  | Alternate => GPIO_AF
  | Output src => Z.lor GPIO_MODE (Z.lor GPIO_DIR_OUT (Z.shiftl src 11))
  | Input a b => Z.lor GPIO_MODE (Z.lor (Z.shiftl a 13) (Z.shiftl b 15))
  end.
Definition fn_code (port pin : Z) (pull : bool) (f : pin_function) : Z :=
  Z.lor (Z.shiftl port 5) (Z.lor (function_bits f) (Z.lor (if pull then GPIO_PUEN else 0) pin)).

(** The setting of a pin with a function; the inputs of an output, the
    direction of a peripheral pin and the like stay as they were. *)
Definition function_pin (pull : bool) (f : pin_function) (o : pin) : pin :=
  match f with
  | Primary => Pin false false pull (pin_out o) (pin_oss o) (pin_issa o) (pin_issb o) (pin_icr o)
  | Alternate => Pin true false pull (pin_out o) (pin_oss o) (pin_issa o) (pin_issb o) (pin_icr o)
  | Output src => Pin (pin_alt o) true pull true ((src + 1) mod 4) (pin_issa o) (pin_issb o) (pin_icr o)
  | Input a b => Pin (pin_alt o) true pull false (pin_oss o) a b (pin_icr o)
  end.

Section Codes.
Implicit Types (x y : Z).

(** What [gpio_fn] takes out of a code. *)
Definition code_bits x : list bool := Z.testbit x <$> [17; 8; 10; 9].
Definition code_nums x : list Z :=
  [getf x 11 3; getf x 13 3; getf x 15 3; Z.land x GPIO_PIN_MASK; Z.shiftr (Z.land x GPIO_PORT_MASK) GPIO_PORT_SHIFT].

Lemma code_bits_lor x y : code_bits (Z.lor x y) = zip_with orb (code_bits x) (code_bits y).
Proof. unfold code_bits. cbn [fmap list_fmap zip_with]. by rewrite !Z.lor_spec. Qed.
Lemma code_nums_lor x y : code_nums (Z.lor x y) = zip_with Z.lor (code_nums x) (code_nums y).
Proof. unfold code_nums, getf. cbn [zip_with]. by rewrite !Z.shiftr_lor, !Z.land_lor_distr_l, Z.shiftr_lor. Qed.

Ltac cases_of x lo n :=
  intros Hx; assert (Hin : x ∈ seqZ lo n) by (apply elem_of_seqZ; lia); vm_compute in Hin;
  repeat (apply elem_of_cons in Hin as [->|Hin]; [done|]); by apply not_elem_of_nil in Hin.

Lemma port_bits port : 0 <= port < 6 ->
  code_bits (Z.shiftl port 5) = [false; false; false; false] /\ code_nums (Z.shiftl port 5) = [0; 0; 0; 0; port].
Proof. cases_of port 0 6. Qed.
Lemma pin_bits p : 0 <= p < 32 -> code_bits p = [false; false; false; false] /\ code_nums p = [0; 0; 0; p; 0].
Proof. cases_of p 0 32. Qed.

Lemma small4 a : 0 <= a < 4 -> a = 0 \/ a = 1 \/ a = 2 \/ a = 3.
Proof. lia. Qed.

Lemma function_cases (P : pin_function -> Prop) :
  P Primary -> P Alternate -> Forall (fun a => P (Output a)) [0; 1; 2; 3] ->
  Forall (fun a => Forall (fun b => P (Input a b)) [0; 1; 2; 3]) [0; 1; 2; 3] ->
  forall f, valid_function f -> P f.
Proof.
  intros H1 H2 H3 H4 [| |src|a b]; cbn; [done|done| |].
  - intros Hs. rewrite Forall_forall in H3. apply H3. destruct (small4 src Hs) as [->|[->|[->| ->]]]; set_solver.
  - intros [Ha Hb]. rewrite Forall_forall in H4. specialize (H4 a). rewrite Forall_forall in H4. apply H4;
      [destruct (small4 a Ha) as [->|[->|[->| ->]]]; set_solver|destruct (small4 b Hb) as [->|[->|[->| ->]]]; set_solver].
Qed.

(** [decode_fn] in terms of what it takes out of the code. *)
Definition decode_parts (gp out alt pull : bool) (o a b : Z) : option gpio_cfg_t :=
  let pl := if pull then 1 else 0 in
  if gp then
    if out then oss ← oss_of o; Some (GpioCfg GPIO_M_OUT pl oss 0 0 0)
    else ia ← iss_of a; ib ← iss_of b; Some (GpioCfg GPIO_M_IN pl 0 ia ib 0)
  else if alt then Some (GpioCfg GPIO_M_ALT pl 0 0 0 0) else Some (GpioCfg GPIO_M_PRI pl 0 0 0 0).

Lemma decode_fn_parts x gp out alt pull o a b p q :
  code_bits x = [gp; out; alt; pull] -> code_nums x = [o; a; b; p; q] ->
  decode_fn x = decode_parts gp out alt pull o a b /\ Z.land x GPIO_PIN_MASK = p /\
  Z.shiftr (Z.land x GPIO_PORT_MASK) GPIO_PORT_SHIFT = q.
Proof.
  unfold code_bits, code_nums. cbn [fmap list_fmap]. intros [= <- <- <- <-] [= <- <- <- <- <-].
  split; [|done]. unfold decode_fn, decode_parts, GPIO_MODE, GPIO_DIR_OUT, GPIO_AF, GPIO_PUEN.
  by rewrite !truth_bit by lia.
Qed.

Lemma function_parts f : valid_function f -> exists gp out alt o a b,
  code_bits (function_bits f) = [gp; out; alt; false] /\ code_nums (function_bits f) = [o; a; b; 0; 0] /\
  exists c, (forall pull, decode_parts gp out alt pull o a b = Some (c pull)) /\
    forall pull pn, pin_set (c pull) pn = function_pin pull f pn.
Proof.
  revert f. apply function_cases; repeat constructor; do 6 eexists; (split; [vm_compute; reflexivity|]);
    (split; [vm_compute; reflexivity|]); eexists (fun pull => _); (split; [intros pull; cbn; reflexivity|]);
    by intros [] pn.
Qed.

(** The decoded configuration, the port and the pin of a code. *)
Lemma decode_code port p pull f : 0 <= port < 6 -> 0 <= p < 32 -> valid_function f ->
  exists c, decode_fn (fn_code port p pull f) = Some c /\ (forall o, pin_set c o = function_pin pull f o) /\
    Z.land (fn_code port p pull f) GPIO_PIN_MASK = p /\
    Z.shiftr (Z.land (fn_code port p pull f) GPIO_PORT_MASK) GPIO_PORT_SHIFT = port.
Proof.
  intros Hport Hp Hf. destruct (port_bits port Hport) as [B1 N1]. destruct (pin_bits p Hp) as [B2 N2].
  destruct (function_parts f Hf) as (gp & out & alt & o & a & b & Bf & Nf & c & Hc & Hpin).
  assert (Hx : code_bits (fn_code port p pull f) = [gp; out; alt; pull] /\
               code_nums (fn_code port p pull f) = [o; a; b; p; port]).
  { unfold fn_code. rewrite !code_bits_lor, !code_nums_lor, B1, B2, N1, N2, Bf, Nf.
    destruct pull; cbn [zip_with]; change (code_bits GPIO_PUEN) with [false; false; false; true];
      change (code_nums GPIO_PUEN) with [0; 0; 0; 0; 0]; change (code_bits 0) with [false; false; false; false];
      change (code_nums 0) with [0; 0; 0; 0; 0]; cbn [zip_with];
      by rewrite ?Z.lor_0_l, ?Z.lor_0_r, ?orb_false_r. }
  destruct Hx as [Hb Hn]. destruct (decode_fn_parts _ _ _ _ _ _ _ _ _ _ Hb Hn) as (-> & -> & ->).
  exists (c pull). by rewrite Hc.
Qed.
End Codes.

Section PinProperties.
Context {W : Type} {B : Bus W} {inputs : Z -> Z} {R : Registers W gpio_live (gpio_volat inputs)}.
Implicit Types (w : W) (s : Z -> Z) (r : Z).

Lemma ports_apart r r' off off' : is_port r -> is_port r' -> 0 <= off < 256 -> 0 <= off' < 256 ->
  r + off = r' + off' -> r = r' /\ off = off'.
Proof.
  intros (p & Hp & ->) (p' & Hp' & ->) Ho Ho' E.
  assert (Hoff : off = off') by by rewrite <- (port_addr p off Ho), E, port_addr by done.
  subst off'. split; [lia|done].
Qed.

Lemma cfg_regs_off off : off ∈ cfg_regs -> 0 <= off < 256.
Proof. revert off. apply Forall_forall. by repeat constructor. Qed.

Lemma cfg_regs_data off : off ∈ cfg_regs -> off ∉ [gpio_dreg; gpio_ier].
Proof. revert off. apply Forall_forall. repeat constructor; by rewrite !elem_of_cons, elem_of_nil; intros [|[]]. Qed.

(** Configuring one port leaves the others alone. *)
Lemma other_port s s' r r' p : is_port r -> is_port r' -> r <> r' ->
  (forall a, (forall off, off ∈ cfg_regs -> a <> r + off) -> s' a = s a) -> pin_of s' r' p = pin_of s r' p.
Proof.
  intros Hr Hr' Hne Hf.
  assert (Hs : forall off, off ∈ cfg_regs -> s' (r' + off) = s (r' + off)).
  { intros off Ho. apply Hf. intros off' Ho' E. apply Hne. symmetry.
    by apply (ports_apart r' r off off'); [..|apply cfg_regs_off|apply cfg_regs_off|]. }
  unfold pin_of, pair_field. by rewrite !Hs by (unfold cfg_regs; set_solver).
Qed.

Lemma one_pin p q : 0 <= p < 32 -> 0 <= q < 32 -> Z.testbit (Z.shiftl 1 p) q = bool_decide (q = p).
Proof.
  intros Hp Hq. rewrite Z.shiftl_1_l, Z.pow2_bits_eqb by lia.
  destruct (p =? q) eqn:E; zbool; [by rewrite bool_decide_eq_true_2|by rewrite bool_decide_eq_false_2].
Qed.
Lemma one_pin_u32 p : 0 <= p < 32 -> in_u32 (Z.shiftl 1 p).
Proof.
  intros Hp. rewrite Z.shiftl_1_l. unfold in_u32. split; [lia|]. apply Z.pow_lt_mono_r; lia.
Qed.

(** Configuring one pin. *)
Lemma gpio_cfg_run port p c w s : 0 <= port < GPIO_PORTS -> 0 <= p < 32 -> rep w s ->
  wp (gpio_cfg (GPIO_PORT_VADDR port) p c) (fun _ w' => exists s', rep w' s' /\
    (forall port' p', 0 <= port' < GPIO_PORTS -> 0 <= p' < 32 ->
       pin_of s' (GPIO_PORT_VADDR port') p' =
         if decide (port' = port /\ p' = p) then pin_set c (pin_of s (GPIO_PORT_VADDR port') p')
         else pin_of s (GPIO_PORT_VADDR port') p') /\
    (forall r off, is_port r -> off ∈ [gpio_dreg; gpio_ier] -> s' (r + off) = s (r + off))) w.
Proof.
  intros Hport Hp Hw. assert (Hr : is_port (GPIO_PORT_VADDR port)) by by exists port.
  eapply wp_mono; [by apply (cfg_pins_all _ _ c w s Hr); [apply one_pin_u32|]|].
  intros res w' (s' & Hw' & _ & Hpins & Hframe). exists s'. split; [done|]. split.
  - intros port' p' Hport' Hp'. destruct (decide (port' = port)) as [->|Hne].
    + rewrite Hpins, one_pin by done. destruct (decide (p' = p)) as [->|Hne].
      * rewrite bool_decide_eq_true_2 by done. by rewrite decide_True.
      * rewrite bool_decide_eq_false_2 by done. rewrite decide_False; [done|by intros []].
    + rewrite decide_False by (by intros []). eapply (other_port s s' _ _ p' Hr); [by exists port'| |exact Hframe].
      intros E. apply Hne. unfold GPIO_PORT_VADDR in E. rewrite !Z.shiftl_mul_pow2 in E by done. lia.
  - intros r off Hr' Ho. apply Hframe. intros off' Ho' E.
    assert (H1 : 0 <= off < 256).
    { revert Ho. rewrite !elem_of_cons, elem_of_nil. by intros [->|[->|[]]]. }
    destruct (ports_apart _ _ _ _ Hr' Hr H1 (cfg_regs_off _ Ho') E) as [_ ->].
    by apply (cfg_regs_data off').
Qed.

(** C30. [gpio_fn] gives the pin named in a function code the function, pull and
    sources of the code, for every code of the six ports, and leaves every
    other pin of every port as it was. *)
Theorem gpio_fn_correct port p pull f w s :
  0 <= port < GPIO_PORTS -> 0 <= p < 32 -> valid_function f -> rep w s ->
  exists w' s', gpio_fn (fn_code port p pull f) w = Done 0 w' /\ rep w' s' /\
    forall port' p', 0 <= port' < GPIO_PORTS -> 0 <= p' < 32 ->
      pin_of s' (GPIO_PORT_VADDR port') p' =
        if decide (port' = port /\ p' = p) then function_pin pull f (pin_of s (GPIO_PORT_VADDR port') p')
        else pin_of s (GPIO_PORT_VADDR port') p'.
Proof.
  intros Hport Hp Hf Hw. destruct (decode_code port p pull f Hport Hp Hf) as (c & Hc & Hset & Hpin & Hprt).
  assert (Hrun : wp (gpio_fn (fn_code port p pull f)) (fun v w' => v = 0 /\ exists s', rep w' s' /\
    forall port' p', 0 <= port' < GPIO_PORTS -> 0 <= p' < 32 ->
      pin_of s' (GPIO_PORT_VADDR port') p' =
        if decide (port' = port /\ p' = p) then function_pin pull f (pin_of s (GPIO_PORT_VADDR port') p')
        else pin_of s (GPIO_PORT_VADDR port') p') w).
  { unfold gpio_fn. rewrite Hc, Hpin, Hprt. apply wp_bind.
    eapply wp_mono; [by apply (gpio_cfg_run port p c w s)|]. intros res w' (s' & Hw' & Hpins & _).
    apply wp_ret. split; [done|]. exists s'. split; [done|]. intros port' p' H1 H2. rewrite Hpins by done.
    destruct (decide _); [by rewrite Hset|done]. }
  apply wp_run in Hrun as (v & w' & E & -> & s' & H1 & H2). by exists w', s'.
Qed.

(** ** The level of a pin *)

(** The level the data register drives. *)
Definition drives s r p : bool := Z.testbit (s (r + gpio_dreg)) p.

Lemma gpio_num port p : 0 <= port < 6 -> 0 <= p < 32 ->
  GPIO_PORT (GPIO_NUM port p) = port /\ GPIO_PIN (GPIO_NUM port p) = p.
Proof.
  intros Hport Hp. destruct (port_bits port Hport) as [_ N1]. destruct (pin_bits p Hp) as [_ N2].
  pose proof (code_nums_lor (Z.shiftl port 5) p) as E. rewrite N1, N2 in E. cbn [zip_with] in E.
  rewrite !Z.lor_0_r in E. unfold code_nums in E. injection E as _ _ _ E1 E2. by split.
Qed.

Lemma gpio_put_run r p v w s : is_port r -> 0 <= p < 32 -> rep w s ->
  wp (gpio_put r p v) (fun _ w' => exists s', rep w' s' /\
    (Z.testbit (inputs (r + gpio_dreg)) p = false -> drives s' r p = truth v) /\
    (forall q, 0 <= q < 32 -> q <> p -> drives s' r q = drives s r q) /\
    forall a, a <> r + gpio_dreg -> s' a = s a) w.
Proof.
  intros Hr Hp Hw. assert (Hl : gpio_live (r + gpio_dreg)) by (apply gpio_live_reg; [done|set_solver]).
  set (m := Z.shiftl 1 p). assert (Hm : in_u32 m) by by apply one_pin_u32.
  apply wp_bind. apply (wp_rd_status (r + gpio_dreg) _ w s Hw Hl). intros d w1 Hd Hds Hw1.
  rewrite gpio_volat_dreg in Hds by done. set (i := inputs (r + gpio_dreg)) in *.
  set (x := Z.lor (Z.land d (Z.lnot m)) (Z.land (if truth v then m else 0) m)).
  assert (Hx : in_u32 x).
  { apply lor_u32; [by apply land_u32|]. rewrite Z.land_comm. by apply land_u32. }
  apply (wp_wr_status (r + gpio_dreg) x _ w1 s Hw1 Hl Hx). intros w2 Hw2. eexists. split; [exact Hw2|].
  rewrite gpio_volat_dreg by done. fold i. unfold drives. rewrite upd_reg_eq.
  assert (Hbit : forall q, 0 <= q < 32 -> Z.testbit (Z.land x (Z.lnot i)) q =
    (if decide (q = p) then truth v else Z.testbit d q) && negb (Z.testbit i q)).
  { intros q Hq. unfold x. rewrite Z.land_spec, Z.lor_spec, !Z.land_spec, !Z.lnot_spec by lia.
    assert (Z.testbit (if truth v then m else 0) q = truth v && Z.testbit m q) as ->
      by (destruct (truth v); [done|by rewrite Z.bits_0]).
    unfold m. rewrite one_pin by done. destruct (decide (q = p)).
    - rewrite bool_decide_eq_true_2 by done. by destruct (Z.testbit d q), (truth v).
    - rewrite bool_decide_eq_false_2 by done. by destruct (Z.testbit d q), (truth v). }
  split; [|split].
  - intros Hi. rewrite Hbit, decide_True, Hi, andb_true_r by done. done.
  - intros q Hq Hne. rewrite Hbit, decide_False by done. by rewrite <- Hds, Z.land_spec, Z.lnot_spec by lia.
  - intros a Ha. by rewrite upd_reg_ne.
Qed.

Lemma gpio_get_run r p w s : is_port r -> 0 <= p < 32 -> rep w s -> Z.testbit (inputs (r + gpio_dreg)) p = false ->
  wp (gpio_get r p) (fun v w' => rep w' s /\ v = if drives s r p then 1 else 0) w.
Proof.
  intros Hr Hp Hw Hi. assert (Hl : gpio_live (r + gpio_dreg)) by (apply gpio_live_reg; [done|set_solver]).
  apply wp_bind, wp_bind. apply (wp_rd_status (r + gpio_dreg) _ w s Hw Hl). intros d w1 Hd Hds Hw1.
  rewrite gpio_volat_dreg in Hds by done. apply wp_ret, wp_ret. split; [done|].
  assert (Hb : Z.testbit d p = drives s r p).
  { unfold drives. rewrite <- Hds, Z.land_spec, Z.lnot_spec, Hi, andb_true_r by lia. done. }
  rewrite <- Hb. apply bits_ext. intros k Hk. rewrite Z.shiftr_spec, Z.land_spec, Z.shiftl_1_l, Z.pow2_bits_eqb by lia.
  destruct (p =? k + p) eqn:E; zbool.
  - replace k with 0 by lia. rewrite Z.add_0_l, andb_true_r. by destruct (Z.testbit d p).
  - rewrite andb_false_r. destruct (Z.testbit d p); [|by rewrite Z.bits_0].
    symmetry. apply Z.bits_above_log2; [lia|]. cbn. lia.
Qed.

(** [gpio_direction_output] makes a pin an output of the data register
    without pull-up at the level given: [gpio_get_value] then reads that level,
    and neither the setting nor the level of any other pin changes. *)
Theorem direction_output_correct port p v w s :
  0 <= port < GPIO_PORTS -> 0 <= p < 32 -> rep w s ->
  let r := GPIO_PORT_VADDR port in Z.testbit (inputs (r + gpio_dreg)) p = false ->
  exists w1 w2 s', gpio_direction_output (GPIO_NUM port p) v w = Done 0 w1 /\ rep w1 s' /\
    pin_of s' r p = function_pin false (Output 3) (pin_of s r p) /\
    gpio_get_value (GPIO_NUM port p) w1 = Done (if truth v then 1 else 0) w2 /\
    forall port' q, 0 <= port' < GPIO_PORTS -> 0 <= q < 32 -> ~ (port' = port /\ q = p) ->
      let r' := GPIO_PORT_VADDR port' in pin_of s' r' q = pin_of s r' q /\ drives s' r' q = drives s r' q.
Proof.
  intros Hport Hp Hw r Hi. assert (Hr : is_port r) by by exists port.
  destruct (gpio_num port p Hport Hp) as [Eport Epin].
  unfold gpio_direction_output, gpio_get_value. rewrite Eport, Epin. fold r.
  pose proof (gpio_put_run r p v w s Hr Hp Hw) as Hput.
  apply wp_run in Hput as (u & w1 & Ep & s1 & Hw1 & Hlev & Hoth & Hfr).
  pose proof (gpio_cfg_run port p (GpioCfg GPIO_M_OUT 0 0 0 0 0) w1 s1 Hport Hp Hw1) as Hcfg.
  apply wp_run in Hcfg as (e & w2 & Ec & s2 & Hw2 & Hpins & Hdreg). fold r in Ec, Hpins.
  assert (Hpin1 : forall r' q, is_port r' -> pin_of s1 r' q = pin_of s r' q).
  { intros r' q Hr'. assert (forall off, off ∈ cfg_regs -> s1 (r' + off) = s (r' + off)) as Hs.
    { intros off Ho. apply Hfr. intros E.
      destruct (ports_apart r' r off gpio_dreg Hr' Hr (cfg_regs_off _ Ho) ltac:(unfold gpio_dreg; lia) E) as [_ ->].
      apply (cfg_regs_data _ Ho). set_solver. }
    unfold pin_of, pair_field. by rewrite !Hs by (unfold cfg_regs; set_solver). }
  assert (Hd2 : forall r' q, is_port r' -> drives s2 r' q = drives s1 r' q)
    by (intros r' q Hr'; unfold drives; rewrite Hdreg; [done|done|set_solver]).
  pose proof (gpio_get_run r p w2 s2 Hr Hp Hw2 Hi) as Hget. apply wp_run in Hget as (g & w3 & Eg & _ & Hg).
  exists w2, w3, s2. split; [unfold bind; by rewrite Ep, Ec|]. split; [done|].
  split; [unfold r; rewrite Hpins, decide_True by done; by rewrite Hpin1|].
  split; [rewrite Eg, Hg, Hd2, Hlev by done; done|].
  intros port' q Hport' Hq Hne. assert (Hr' : is_port (GPIO_PORT_VADDR port')) by by exists port'.
  rewrite Hpins, decide_False, Hpin1, Hd2 by done. split; [done|].
  destruct (decide (port' = port)) as [->|Hnp]; [apply Hoth; [done|by intros ->; apply Hne]|].
  unfold drives. rewrite Hfr; [done|]. intros E.
  destruct (ports_apart (GPIO_PORT_VADDR port') r gpio_dreg gpio_dreg Hr' Hr
    ltac:(unfold gpio_dreg; lia) ltac:(unfold gpio_dreg; lia) E) as [E' _].
  apply Hnp. unfold r, GPIO_PORT_VADDR in E'. rewrite !Z.shiftl_mul_pow2 in E' by done. lia.
Qed.
End PinProperties.

(** ** The allocation bitmap *)
Section Alloc.
Implicit Types (m : list Z) (g : Z).

Definition allocated m g : bool :=
  match arr_get m (Z.shiftr g 5) with Some x => Z.testbit x (Z.land g 31) | None => false end.

Lemma pin_number g : 0 <= g -> g = Z.shiftr g 5 * 32 + Z.land g 31 /\ 0 <= Z.land g 31 < 32 /\ 0 <= Z.shiftr g 5.
Proof.
  intros Hg. rewrite Z.shiftr_div_pow2 by done. change 31 with (Z.ones 5). rewrite Z.land_ones by done.
  change (2 ^ 5) with 32. pose proof (Z.div_mod g 32 ltac:(lia)). pose proof (Z.mod_pos_bound g 32 ltac:(lia)).
  split_and!; [lia..|]. by apply Z.div_pos.
Qed.

Lemma port_of_small g : 0 <= g < 256 -> GPIO_PORT g = Z.shiftr g 5.
Proof.
  intros Hg. unfold GPIO_PORT, GPIO_PORT_MASK, GPIO_PORT_SHIFT. rewrite Z.shiftr_land.
  change (Z.shiftr (Z.shiftl 7 5) 5) with (Z.ones 3). rewrite Z.land_ones by done. apply Z.mod_small.
  rewrite Z.shiftr_div_pow2 by done. split; [apply Z.div_pos; lia|]. apply Z.div_lt_upper_bound; lia.
Qed.

(** Changing one bit of the map. *)
Lemma bitmap_update m g (F : Z -> Z) (b : bool) : 0 <= g -> Z.shiftr g 5 < arr_len m ->
  (forall x k, 0 <= k -> Z.testbit (F x) k = if decide (k = Z.land g 31) then b else Z.testbit x k) ->
  exists x m', arr_get m (Z.shiftr g 5) = Some x /\ arr_set m (Z.shiftr g 5) (F x) = Some m' /\
    Z.testbit x (Z.land g 31) = allocated m g /\ arr_len m' = arr_len m /\
    forall h, 0 <= h -> allocated m' h = if decide (h = g) then b else allocated m h.
Proof.
  intros Hg Hl HF. destruct (pin_number g Hg) as (Eg & Hlow & Hhi).
  destruct (arr_get_in m (Z.shiftr g 5)) as [x Hx]; [lia|].
  destruct (arr_set m (Z.shiftr g 5) (F x)) as [m'|] eqn:Hs; [|rewrite arr_set_in in Hs by lia; done].
  exists x, m'. split; [done|]. split; [done|]. split; [by unfold allocated; rewrite Hx|].
  split; [by apply (arr_set_len _ _ _ _ Hs)|]. intros h Hh. destruct (pin_number h Hh) as (Eh & Hlow' & Hhi').
  unfold allocated. rewrite (arr_get_set _ _ _ _ _ Hs). destruct (_ =? _) eqn:E; zbool.
  - rewrite E, Hx, HF by lia. destruct (decide (h = g)) as [->|]; [by rewrite decide_True|].
    rewrite decide_False by (intros E'; lia). done.
  - by rewrite decide_False by (intros ->; done).
Qed.

(** The bitmap of the pins in use: [gpio_request] of a pin of the six ports
    answers 0 exactly when it was free and then holds it, [gpio_free] releases
    it, neither touches another pin, and numbers of the missing ports are
    refused.  Nothing checks the bits of the number above the port: for
    [gpio >= 256] that name an existing port the access is outside the map. *)
Theorem gpio_request_correct m g : arr_len m = ALLOC_WORDS -> 0 <= g ->
  (g < 192 -> exists m', gpio_request g m = Some (if allocated m g then - EBUSY else 0, m') /\
     arr_len m' = ALLOC_WORDS /\ forall h, 0 <= h -> allocated m' h = if decide (h = g) then true else allocated m h) /\
  (g < 192 -> exists m', gpio_free g m = Some m' /\
     arr_len m' = ALLOC_WORDS /\ forall h, 0 <= h -> allocated m' h = if decide (h = g) then false else allocated m h) /\
  (192 <= g < 256 -> gpio_request g m = Some (- EINVAL, m) /\ gpio_free g m = Some m) /\
  (256 <= g -> GPIO_PORT g < GPIO_PORTS -> gpio_request g m = None /\ gpio_free g m = None).
Proof.
  intros Hm Hg. change ALLOC_WORDS with 7 in *. destruct (pin_number g Hg) as (Eg & Hlow & Hhi).
  unfold gpio_request, gpio_free, test_and_set_bit, clear_bit.
  assert (Hword : g < 192 -> Z.shiftr g 5 < 6) by lia.
  assert (Hmask : forall k, 0 <= k -> Z.testbit (Z.shiftl 1 (Z.land g 31)) k = bool_decide (k = Z.land g 31)).
  { intros k Hk. rewrite Z.shiftl_1_l, Z.pow2_bits_eqb by lia.
    destruct (Z.land g 31 =? k) eqn:E; zbool; [by rewrite bool_decide_eq_true_2|by rewrite bool_decide_eq_false_2]. }
  assert (Hport : g < 192 -> (GPIO_PORT g >=? GPIO_PORTS) = false).
  { intros Hlt. rewrite Z.geb_leb. apply Z.leb_gt. rewrite port_of_small by lia. by apply Hword. }
  split_and!.
  - intros Hlt. rewrite Hport by done.
    destruct (bitmap_update m g (fun x => Z.lor x (Z.shiftl 1 (Z.land g 31))) true Hg) as (x & m' & Hx & Hs & Ha & Hl & Hall).
    { specialize (Hword Hlt). lia. }
    { intros x k Hk. rewrite Z.lor_spec, Hmask by done. destruct (decide (k = _)).
      - by rewrite bool_decide_eq_true_2, orb_true_r by done.
      - by rewrite bool_decide_eq_false_2, orb_false_r by done. }
    exists m'. rewrite Hx. cbn [mbind option_bind]. rewrite Hs. cbn. rewrite Ha. split_and!; [done|lia|done].
  - intros Hlt. rewrite Hport by done.
    destruct (bitmap_update m g (fun x => Z.land x (Z.lnot (Z.shiftl 1 (Z.land g 31)))) false Hg) as (x & m' & Hx & Hs & Ha & Hl & Hall).
    { specialize (Hword Hlt). lia. }
    { intros x k Hk. rewrite Z.land_spec, Z.lnot_spec, Hmask by done. destruct (decide (k = _)).
      - by rewrite bool_decide_eq_true_2, andb_false_r by done.
      - by rewrite bool_decide_eq_false_2, andb_true_r by done. }
    exists m'. rewrite Hx. cbn [mbind option_bind]. rewrite Hs. split_and!; [done|lia|done].
  - intros Hr. assert ((GPIO_PORT g >=? GPIO_PORTS) = true) as ->; [|done].
    rewrite Z.geb_leb. apply Z.leb_le. rewrite port_of_small by lia. unfold GPIO_PORTS. lia.
  - intros Hr Hp. assert ((GPIO_PORT g >=? GPIO_PORTS) = false) as -> by (rewrite Z.geb_leb; by apply Z.leb_gt).
    rewrite arr_get_out by lia. done.
Qed.
End Alloc.

(** ** The ports at work *)
Definition no_inputs (_ : Z) : Z := 0.
Definition gpio_bus : Bus sim := sim_bus (gpio_volat no_inputs) 0.
#[local] Instance gpio_bus_i : Bus sim := gpio_bus.
#[local] Instance gpio_registers : @Registers sim gpio_bus gpio_live (gpio_volat no_inputs) := sim_registers _ _ _.
Definition gpio_w0 : sim := Sim [(GPIO_PORT_VADDR 0 + gpio_func, 0xff00)] 0.
Definition gpio_s0 (a : Z) : Z := Z.land (u32 (sim_peek (sim_mem gpio_w0) a)) (Z.lnot (gpio_volat no_inputs a)).

Lemma gpio_rep0 : rep gpio_w0 gpio_s0.
Proof. split; [cbn; lia|done]. Qed.
Lemma port0 : is_port (GPIO_PORT_VADDR 0).
Proof. by exists 0. Qed.

Lemma cfg_pins_correct_witness :
  exists err c' w', gpio_cfg_pins (GPIO_PORT_VADDR 0) 0x30 (GpioCfg GPIO_M_INTR 1 0 0 0 2) gpio_w0 = Done (err, c') w'.
Proof.
  destruct (cfg_pins_correct (GPIO_PORT_VADDR 0) 0x30 (GpioCfg GPIO_M_INTR 1 0 0 0 2) gpio_w0 gpio_s0 port0)
    as (err & c' & w' & s' & E & _); [by vm_compute|exact gpio_rep0|]. exists err, c', w'. exact E.
Defined.

(** [PA22_CX_SEM_HINT_R_2], an output of source CIN with pull-up. *)
Lemma gpio_fn_correct_witness : exists w', gpio_fn (fn_code 0 22 true (Output 2)) gpio_w0 = Done 0 w'.
Proof.
  destruct (gpio_fn_correct 0 22 true (Output 2) gpio_w0 gpio_s0) as (w' & s' & E & _);
    [by vm_compute..|exact gpio_rep0|]. exists w'. exact E.
Defined.

Lemma direction_output_correct_witness :
  exists w1 w2, gpio_direction_output (GPIO_NUM 3 27) 1 gpio_w0 = Done 0 w1 /\
    gpio_get_value (GPIO_NUM 3 27) w1 = Done 1 w2.
Proof.
  destruct (direction_output_correct 3 27 1 gpio_w0 gpio_s0) as (w1 & w2 & s' & E & _ & _ & E2 & _);
    [by vm_compute..|exact gpio_rep0|by vm_compute|]. exists w1, w2. split; [exact E|exact E2].
Defined.

Lemma gpio_request_correct_witness :
  exists m', gpio_request 40 (replicate 7 0) = Some (0, m') /\ gpio_request 256 (replicate 7 0) = None.
Proof.
  destruct (gpio_request_correct (replicate 7 0) 40) as (H & _); [done|lia|].
  destruct (gpio_request_correct (replicate 7 0) 256) as (_ & _ & _ & H'); [done|lia|].
  destruct H as (m' & H & _); [lia|]. exists m'. split; [exact H|]. by apply H'.
Defined.
