(* ===== verification/MagusRtc.v ===== *)
(** * The real time clock

    [drivers/rtc/ssl/rtc.c] with [rtcr.h] and [rtc.h], and the operations of the
    kernel's RTC class in [ssl_rtc.c].  [r] is the address of the module.  The
    locks around the operations are not modelled: an operation is one step. *)

From Stdlib Require Import ZArith Lia Bool.
From stdpp Require Import base numbers list.
From S2P Require Import Prelude CMonad DevIO.

(** [rtcr_t]: offsets of the registers. *)
Definition rtc_id : Z := 0.
Definition rtc_ctl : Z := 8.
Definition rtc_date : Z := 12.
Definition rtc_time : Z := 16.
Definition rtc_day : Z := 20.
Definition rtc_ier : Z := 24.
Definition rtc_isr_reg : Z := 28.
Definition rtc_alarm : Z := 32.
Definition rtc_evdate : Z := 36.
Definition rtc_evtime : Z := 40.
Definition rtc_stpwatch : Z := 44.

Definition RTC_IDV_CLSDSG : Z := Z.shiftl 0x0803 6.
Definition RTC_ID_CLSDSG (d : Z) : Z := Z.shiftr d 10.
Definition RTC_ID_VER (d : Z) : Z := Z.land d 0x3FF.
Definition RTC_CTL_RST : Z := Z.shiftl 1 1.
Definition RTC_CTL_EN : Z := 1.

Definition RTC_DATE (y m d : Z) : Z := Z.lor (Z.lor (Z.shiftl y 16) (Z.shiftl m 8)) d.
Definition RTC_DATE_YEAR (dt : Z) : Z := Z.shiftr dt 16.
Definition RTC_DATE_MONTH (dt : Z) : Z := Z.land (Z.shiftr dt 8) 0xFF.
Definition RTC_DATE_DAY (dt : Z) : Z := Z.land dt 0xFF.
Definition RTC_TIME (h m s : Z) : Z := Z.lor (Z.lor (Z.shiftl h 16) (Z.shiftl m 8)) s.
Definition RTC_TIME_HOUR (tm : Z) : Z := Z.shiftr tm 16.
Definition RTC_TIME_MIN (tm : Z) : Z := Z.land (Z.shiftr tm 8) 0xFF.
Definition RTC_TIME_SEC (tm : Z) : Z := Z.land tm 0xFF.
Definition RTC_WDAY : Z := 0x7.

Definition RTC_INT_PSTALL : Z := Z.shiftl 0xFF 16.
Definition RTC_INT_PST (d : Z) : Z := Z.shiftl 1 (16 + d).
Definition RTC_INT_EVENT : Z := Z.shiftl 1 9.
Definition RTC_INT_ALARM : Z := Z.shiftl 1 8.
Definition RTC_INT_2HZ : Z := Z.shiftl 1 7.
Definition RTC_INT_STPW : Z := Z.shiftl 1 6.
Definition RTC_INT_SEC : Z := 1.

(** The fields of [struct rtc_time] the driver uses. *)
Record rtc_tm := Tm { tm_year : Z; tm_mon : Z; tm_mday : Z; tm_wday : Z; tm_hour : Z; tm_min : Z; tm_sec : Z }.

Inductive rtc_err_e := RTC_ERR_NONE | RTC_ERR_HW | RTC_ERR_PARM.

Definition RTC_TIMEOUT : nat := Z.to_nat 10000.
Definition RTC_SET_TIMEOUT : nat := Z.to_nat (10000 * 100).

(** Fuel of the unbounded waits for an interrupt bit to clear. *)
Class RtcConfig := { rtc_fuel : nat }.

Definition EINVAL : Z := 22.

Section Rtc.
Context {W : Type} `{Bus W} `{RtcConfig}.
Implicit Types (r : Z) (t : rtc_tm).

(** [do body while ((tmp != val) && (i--));] *)
Fixpoint do_until (i : nat) (body : M W Z) (val : Z) : M W unit :=
  let! tmp := body in
  if tmp =? val then ret tt
  else match i with O => ret tt | S i' => do_until i' body val end.

(** [while (io_rd32(r->ctl) != RTC_CTL_EN) if (!i--) return RTC_ERR_HW;] *)
Fixpoint reset_wait (i : nat) r : M W rtc_err_e :=
  let! v := io_rd32 (r + rtc_ctl) in
  if v =? RTC_CTL_EN then ret RTC_ERR_NONE
  else match i with O => ret RTC_ERR_HW | S i' => reset_wait i' r end.

Definition rtc_reset r : M W rtc_err_e :=
  io_wr32 (r + rtc_ctl) (Z.lor RTC_CTL_RST RTC_CTL_EN) ;;
  reset_wait RTC_TIMEOUT r.

(** Answers the error and the version; [clk] is the reference crystal. *)
Definition rtc_init r (clk : Z) : M W (rtc_err_e * option Z) :=
  let! id := io_rd32 (r + rtc_id) in
  if negb (RTC_ID_CLSDSG id =? RTC_IDV_CLSDSG) then ret (RTC_ERR_HW, None)
  else
    let! err := rtc_reset r in
    match err with
    | RTC_ERR_NONE =>
        io_wr32 (r + rtc_ctl) (Z.lor (Z.shiftl clk 2) RTC_CTL_EN) ;;
        ret (RTC_ERR_NONE, Some (RTC_ID_VER id))
    | e => ret (e, Some (RTC_ID_VER id))
    end.

Definition rtc_exit r : M W rtc_err_e :=
  let! err := rtc_reset r in
  match err with
  | RTC_ERR_NONE => io_wr32 (r + rtc_ctl) 0 ;; ret RTC_ERR_NONE
  | _ => ret RTC_ERR_HW
  end.

Definition rtc_settime r t : M W rtc_err_e :=
  io_wr32 (r + rtc_day) (u32 (tm_wday t)) ;;
  do_until RTC_SET_TIMEOUT (io_rd32 (r + rtc_day)) (u32 (tm_wday t)) ;;
  let val := u32 (RTC_DATE (tm_year t) (tm_mon t) (tm_mday t)) in
  io_wr32 (r + rtc_date) val ;;
  do_until RTC_SET_TIMEOUT (io_rd32 (r + rtc_date)) val ;;
  let val := u32 (RTC_TIME (tm_hour t) (tm_min t) (tm_sec t)) in
  do_until RTC_SET_TIMEOUT (io_wr32 (r + rtc_time) val ;; io_rd32 (r + rtc_time)) val ;;
  ret RTC_ERR_NONE.

Definition rtc_gettime r : M W rtc_tm :=
  let! d := io_rd32 (r + rtc_date) in
  let! day := io_rd32 (r + rtc_day) in
  let! tm := io_rd32 (r + rtc_time) in
  ret (Tm (RTC_DATE_YEAR d) (RTC_DATE_MONTH d) (RTC_DATE_DAY d) (Z.land day RTC_WDAY)
          (RTC_TIME_HOUR tm) (RTC_TIME_MIN tm) (RTC_TIME_SEC tm)).

Definition rtc_set_intr r (mask mode : Z) : M W unit :=
  let! ier := io_rd32 (r + rtc_ier) in
  let ier := Z.land ier (Z.lnot mask) in
  io_wr32 (r + rtc_ier) (if truth mode then Z.lor ier mask else ier).

Definition rtc_get_intr r : M W Z := io_rd32 (r + rtc_ier).
Definition rtc_get_stat r : M W Z := io_rd32 (r + rtc_isr_reg).

Definition rtc_alarm_set r (time : option rtc_tm) (enable : Z) : M W rtc_err_e :=
  (match time with
   | Some t => io_wr32 (r + rtc_alarm) (RTC_TIME (tm_hour t) (tm_min t) (tm_sec t))
   | None => ret tt end) ;;
  let! d := io_rd32 (r + rtc_ier) in
  (if negb (Bool.eqb (truth enable) (truth (Z.land d RTC_INT_ALARM))) then
     io_wr32 (r + rtc_isr_reg) RTC_INT_ALARM ;;
     poll_clear rtc_fuel (r + rtc_isr_reg) RTC_INT_ALARM ;;
     io_wr32 (r + rtc_ier) (Z.lxor d RTC_INT_ALARM)
   else ret tt) ;;
  ret RTC_ERR_NONE.

(** With a time to fill in; answers hour, minute and second, and the flags. *)
Definition rtc_alarm_get r : M W (Z * Z * Z * Z) :=
  let! tm := io_rd32 (r + rtc_alarm) in
  let! ier := io_rd32 (r + rtc_ier) in
  let! isr := io_rd32 (r + rtc_isr_reg) in
  ret (RTC_TIME_HOUR tm, RTC_TIME_MIN tm, RTC_TIME_SEC tm,
       Z.lor (if truth (Z.land ier RTC_INT_ALARM) then 1 else 0)
             (if truth (Z.land isr RTC_INT_ALARM) then 2 else 0)).

Definition rtc_set_event r (time : option rtc_tm) : M W rtc_err_e :=
  match time with
  | None =>
      let! ier := io_rd32 (r + rtc_ier) in
      io_wr32 (r + rtc_ier) (Z.land ier (Z.lnot RTC_INT_EVENT)) ;;
      ret RTC_ERR_NONE
  | Some t =>
      io_wr32 (r + rtc_evdate) (RTC_DATE 0 (tm_mon t) (tm_mday t)) ;;
      io_wr32 (r + rtc_evtime) (RTC_TIME (tm_hour t) (tm_min t) (tm_sec t)) ;;
      let! ier := io_rd32 (r + rtc_ier) in
      io_wr32 (r + rtc_ier) (Z.lor ier RTC_INT_EVENT) ;;
      ret RTC_ERR_NONE
  end.

(** Answers month, day, hour, minute and second. *)
Definition rtc_get_event r : M W (Z * Z * Z * Z * Z) :=
  let! d := io_rd32 (r + rtc_evdate) in
  let! tm := io_rd32 (r + rtc_evtime) in
  ret (RTC_DATE_MONTH d, RTC_DATE_DAY d, RTC_TIME_HOUR tm, RTC_TIME_MIN tm, RTC_TIME_SEC tm).

Definition rtc_set_stopwatch r (mins : Z) : M W rtc_err_e :=
  if mins >=? 32 then ret RTC_ERR_PARM
  else
    io_wr32 (r + rtc_stpwatch) mins ;;
    let! ier := io_rd32 (r + rtc_ier) in
    io_wr32 (r + rtc_ier) (Z.lor ier RTC_INT_STPW) ;;
    ret RTC_ERR_NONE.

Definition rtc_isr r : M W Z :=
  let! ier := io_rd32 (r + rtc_ier) in
  let! isr := io_rd32 (r + rtc_isr_reg) in
  let sta := Z.land ier isr in
  if sta =? 0 then ret 0
  else io_wr32 (r + rtc_isr_reg) sta ;; ret sta.

Definition rtc_intr_clear r (mask : Z) : M W unit :=
  io_wr32 (r + rtc_isr_reg) mask ;;
  poll_clear rtc_fuel (r + rtc_isr_reg) mask.

Definition rtc_event_is_on r : M W Z :=
  let! i := rtc_get_intr r in ret (Z.shiftr (Z.land i RTC_INT_EVENT) 9).

(** ** The RTC class *)

Definition sslrtc_set_time r t : M W rtc_err_e :=
  rtc_settime r (Tm (tm_year t - 70) (tm_mon t + 1) (tm_mday t) (tm_wday t) (tm_hour t) (tm_min t) (tm_sec t)).

Definition sslrtc_get_time r : M W rtc_tm :=
  let! t := rtc_gettime r in
  ret (Tm (tm_year t + 70) (tm_mon t - 1) (tm_mday t) (tm_wday t) (tm_hour t) (tm_min t) (tm_sec t)).

Definition sslrtc_set_alarm r t (enabled : Z) : M W rtc_err_e := rtc_alarm_set r (Some t) enabled.

(** Answers hour, minute, second, [enabled] and [pending]. *)
Definition sslrtc_get_alarm r : M W (Z * Z * Z * Z * bool) :=
  let! a := rtc_alarm_get r in
  let '(h, m, s, rt) := a in
  ret (h, m, s, Z.land rt 1, truth (Z.land rt 2)).

Definition sslrtc_set_event r t (enabled : bool) : M W rtc_err_e :=
  let! on := rtc_event_is_on r in
  (if truth on then rtc_set_intr r RTC_INT_EVENT 0 else ret tt) ;;
  rtc_intr_clear r RTC_INT_EVENT ;;
  let! e := rtc_set_event r (Some (Tm (tm_year t) (tm_mon t + 1) (tm_mday t) (tm_wday t)
                                      (tm_hour t) (tm_min t) (tm_sec t))) in
  (match e with
   | RTC_ERR_NONE => if enabled then rtc_set_intr r RTC_INT_EVENT 1 else ret tt
   | _ => ret tt end) ;;
  ret e.

(** Month, day, hour, minute and second; [None] where the time is filled with 0xff. *)
Definition sslrtc_get_event r : M W (option (Z * Z * Z * Z * Z)) :=
  let! on := rtc_event_is_on r in
  if truth on then
    let! e := rtc_get_event r in
    let '(mon, mday, h, m, s) := e in
    ret (Some (mon - 1, mday, h, m, s))
  else ret None.

(** [rtc_set_stopwatch] takes the minutes as [uint8_t]. *)
Definition sslrtc_set_stopwatch r (mins : Z) : M W Z :=
  let! e := rtc_set_stopwatch r (u8 mins) in
  ret match e with RTC_ERR_NONE => 0 | _ => - EINVAL end.

Inductive rtc_cmd :=
| AIE_OFF | AIE_ON | PIE_OFF | PIE_ON | UIE_ON | UIE_OFF | IRQP_READ | IRQP_SET (arg : Z) | OtherCmd.
Inductive rtc_reply := Reply (v : Z) | UserValue (v : Z).
Definition ENOIOCTLCMD : Z := 515.

(** [for (fq = 0; fq < 9; fq++) if (arg == (2 << fq)) ...] *)
Definition find_rate (arg : Z) : option Z :=
  find (fun fq => arg =? Z.shiftl 2 fq) (seqZ 0 9).

(** Answers the reply and the rate selected; [freq] is [rtc->freq]. *)
Definition sslrtc_ioctl r (freq : Z) (cmd : rtc_cmd) : M W (rtc_reply * Z) :=
  match cmd with
  | AIE_OFF => rtc_alarm_set r None 0 ;; ret (Reply 0, freq)
  | AIE_ON => rtc_alarm_set r None 1 ;; ret (Reply 0, freq)
  | PIE_OFF => rtc_set_intr r (Z.lor RTC_INT_PSTALL RTC_INT_2HZ) 0 ;; ret (Reply 0, freq)
  | PIE_ON =>
      rtc_intr_clear r (Z.lor RTC_INT_PSTALL RTC_INT_2HZ) ;;
      (if freq =? 0 then rtc_set_intr r RTC_INT_2HZ 1 else rtc_set_intr r (RTC_INT_PST freq) 1) ;;
      ret (Reply 0, freq)
  | UIE_ON => rtc_set_intr r RTC_INT_SEC 1 ;; ret (Reply 0, freq)
  | UIE_OFF => rtc_set_intr r RTC_INT_SEC 0 ;; ret (Reply 0, freq)
  | IRQP_READ => ret (UserValue (Z.shiftl 2 freq), freq)
  | IRQP_SET arg =>
      match find_rate arg with
      | Some fq => ret (Reply 0, fq)
      | None => ret (Reply (- EINVAL), freq)
      end
  | OtherCmd => ret (Reply (- ENOIOCTLCMD), freq)
  end.

Definition RTC_IRQF : Z := 0x80.
Definition RTC_PF : Z := 0x40.
Definition RTC_AF : Z := 0x20.
Definition RTC_UF : Z := 0x10.

(** The events reported to [rtc_update_irq], and whether the interrupt was the
    clock's. *)
Definition sslrtc_interrupt r : M W (Z * bool) :=
  let! sta := rtc_isr r in
  let e := if truth (Z.land sta RTC_INT_ALARM) then Z.lor RTC_AF RTC_IRQF else 0 in
  let e := if truth (Z.land sta RTC_INT_SEC) then Z.lor e (Z.lor RTC_UF RTC_IRQF) else e in
  let e := if truth (Z.land sta (Z.lor RTC_INT_2HZ RTC_INT_PSTALL))
           then Z.lor e (Z.lor RTC_PF RTC_IRQF) else e in
  ret (e, truth sta).

Definition EBUSY : Z := 16.
Definition sslrtc_open (use : Z) : Z * Z := if truth use then (- EBUSY, use) else (0, 1).
Definition sslrtc_release (use : Z) : Z := 0.
End Rtc.
