(* ===== verification/MagusRtcSpec.v ===== *)
(** * What the clock operations do

    The registers hold what is written, but for the date, the time and the day,
    which run; of the interrupt status only that a bit goes off once it is
    acknowledged.  Setting and reading the alarm is a round trip; reading the
    time of a clock that runs gives a moment during the reading, unless midnight
    passes; the periodic interrupt is followed through its life. *)

From Stdlib Require Import ZArith Lia Bool.
From stdpp Require Import base numbers list sets.
From S2P Require Import Prelude CMonad DevIO MagusRtc.

(** ** Packed dates and times *)
Section Packing.
Implicit Types (y m d : Z).

Lemma pack_bit y m d i : 0 <= m < 256 -> 0 <= d < 256 -> 0 <= i ->
  Z.testbit (RTC_DATE y m d) i =
    if 16 <=? i then Z.testbit y (i - 16) else if 8 <=? i then Z.testbit m (i - 8) else Z.testbit d i.
Proof.
  intros Hm Hd Hi. unfold RTC_DATE. rewrite !Z.lor_spec, !Z.shiftl_spec by done.
  assert (Hsmall : forall x k, 0 <= x < 256 -> 8 <= k -> Z.testbit x k = false).
  { intros x k Hx Hk. rewrite <- (Z.mod_small x (2 ^ 8)) by done. by apply Z.mod_pow2_bits_high. }
  destruct (16 <=? i) eqn:E1, (8 <=? i) eqn:E2; zbool; try lia.
  - rewrite (Hsmall m (i - 8)), (Hsmall d i) by lia. by rewrite !orb_false_r.
  - rewrite (Z.testbit_neg_r y), (Hsmall d i) by lia. by rewrite orb_false_r.
  - by rewrite (Z.testbit_neg_r y), (Z.testbit_neg_r m) by lia.
Qed.

Lemma unpack_date y m d : 0 <= y < 2 ^ 16 -> 0 <= m < 256 -> 0 <= d < 256 ->
  in_u32 (RTC_DATE y m d) /\ RTC_DATE_YEAR (RTC_DATE y m d) = y /\
  RTC_DATE_MONTH (RTC_DATE y m d) = m /\ RTC_DATE_DAY (RTC_DATE y m d) = d.
Proof.
  intros Hy Hm Hd. unfold RTC_DATE_YEAR, RTC_DATE_MONTH, RTC_DATE_DAY. change 0xFF with (Z.ones 8).
  assert (Hlow : forall x i, 0 <= x < 256 -> 0 <= i -> Z.testbit x i = (i <? 8) && Z.testbit x i).
  { intros x i Hx Hi. destruct (i <? 8) eqn:E; zbool; [done|].
    rewrite <- (Z.mod_small x (2 ^ 8)) by done. by apply Z.mod_pow2_bits_high. }
  split_and!.
  - apply in_u32_bits.
    + unfold RTC_DATE. rewrite !Z.lor_nonneg, !Z.shiftl_nonneg. lia.
    + intros i Hi. rewrite pack_bit by lia. destruct (16 <=? i) eqn:E; zbool; [|lia].
      rewrite <- (Z.mod_small y (2 ^ 16)) by done. apply Z.mod_pow2_bits_high. lia.
  - apply bits_ext. intros i Hi. rewrite Z.shiftr_spec, pack_bit by lia.
    destruct (16 <=? i + 16) eqn:E; zbool; [|lia]. by rewrite Z.add_simpl_r.
  - apply bits_ext. intros i Hi. rewrite Z.land_spec, Z.shiftr_spec, pack_bit, Z.testbit_ones_nonneg by lia.
    rewrite (Hlow m i Hm Hi).
    destruct (i <? 8) eqn:E; zbool; [|apply andb_false_r].
    destruct (16 <=? i + 8) eqn:E1, (8 <=? i + 8) eqn:E2; zbool; try lia.
    by rewrite Z.add_simpl_r, andb_true_r.
  - apply bits_ext. intros i Hi. rewrite Z.land_spec, pack_bit, Z.testbit_ones_nonneg by lia.
    rewrite (Hlow d i Hd Hi). destruct (i <? 8) eqn:E; zbool; [|apply andb_false_r].
    destruct (16 <=? i) eqn:E1, (8 <=? i) eqn:E2; zbool; try lia. apply andb_true_r.
Qed.

Lemma unpack_time h m x : 0 <= h < 2 ^ 16 -> 0 <= m < 256 -> 0 <= x < 256 ->
  in_u32 (RTC_TIME h m x) /\ RTC_TIME_HOUR (RTC_TIME h m x) = h /\
  RTC_TIME_MIN (RTC_TIME h m x) = m /\ RTC_TIME_SEC (RTC_TIME h m x) = x.
Proof. exact (unpack_date h m x). Qed.
End Packing.

(** ** The registers *)
Definition rtc_regs : list Z := [rtc_ier; rtc_alarm; rtc_evdate; rtc_evtime; rtc_stpwatch].
Definition rtc_running : list Z := [rtc_date; rtc_time; rtc_day; rtc_isr_reg].
Definition rtc_live (r a : Z) : Prop := exists off, off ∈ rtc_running ++ rtc_regs /\ a = r + off.
Definition rtc_volat (r a : Z) : Z :=
  if existsb (fun off => a =? r + off) rtc_running then 2 ^ 32 - 1 else 0.

(** A time of day. *)
Definition clock_time (t : rtc_tm) : Prop :=
  0 <= tm_hour t < 24 /\ 0 <= tm_min t < 60 /\ 0 <= tm_sec t < 60.

Section Spec.
Context {W : Type} {B : Bus W} {r : Z} {R : Registers W (rtc_live r) (rtc_volat r)} {Cfg : RtcConfig}.
Implicit Types (w : W) (s : Z -> Z).

Lemma rtc_reg_apart off a : off ∈ rtc_regs -> a ∈ rtc_running -> off <> a.
Proof. intros H1 H2 ->. revert H1 H2. unfold rtc_regs, rtc_running. rewrite !elem_of_cons, !elem_of_nil. naive_solver. Qed.
Lemma rtc_reg_plain off : off ∈ rtc_regs -> rtc_live r (r + off) /\ rtc_volat r (r + off) = 0.
Proof.
  intros Ho. split; [exists off; set_solver|]. unfold rtc_volat. destruct (existsb _ _) eqn:E; [|done].
  apply existsb_exists in E as (a & Ha & Heq). zbool. apply list_elem_of_In in Ha.
  by destruct (rtc_reg_apart off a Ho Ha ltac:(lia)).
Qed.

Lemma wp_rtc_rd off (Q : Z -> W -> Prop) w s : off ∈ rtc_regs -> rep w s ->
  (forall w', rep w' s -> Q (s (r + off)) w') -> wp (io_rd32 (r + off)) Q w.
Proof. intros [H1 H2]%rtc_reg_plain Hw HQ. by apply (wp_rd (r + off) Q w s Hw). Qed.
Lemma wp_rtc_wr off d (Q : unit -> W -> Prop) w s : off ∈ rtc_regs -> rep w s -> in_u32 d ->
  (forall w', rep w' (upd s (r + off) d) -> Q tt w') -> wp (io_wr32 (r + off) d) Q w.
Proof. intros [H1 H2]%rtc_reg_plain Hw Hd HQ. by apply (wp_wr (r + off) d Q w s Hw). Qed.

(** States that agree on the registers that keep what is written. *)
Definition same_regs (s s' : Z -> Z) : Prop := forall off, off ∈ rtc_regs -> s' (r + off) = s (r + off).

(** Acknowledging an interrupt makes its bit go off within the fuel. *)
Definition acks_clear : Prop := forall m w s, in_u32 m -> rep w s ->
  exists k, (k < rtc_fuel)%nat /\ clears k (r + rtc_isr_reg) m (bus_wr (r + rtc_isr_reg) m w).

Lemma isr_live : rtc_live r (r + rtc_isr_reg).
Proof. exists rtc_isr_reg. unfold rtc_running. set_solver. Qed.

Lemma rtc_intr_clear_run m w s : acks_clear -> rep w s -> in_u32 m ->
  wp (rtc_intr_clear r m) (fun _ w' => exists s', rep w' s' /\ same_regs s s') w.
Proof.
  intros Hack Hw Hm. pose proof (Hack m w s Hm Hw) as (k & Hk & Hc).
  apply wp_bind, wp_modify. rewrite u32_id by done.
  apply (wp_poll_clear rtc_fuel _ _ _ _ _ k (rep_wr w s _ m Hw isr_live Hm) isr_live Hc Hk).
  intros w' Hw'. eexists. split; [exact Hw'|]. intros off Ho. apply upd_reg_ne.
  intros E. apply (rtc_reg_apart off rtc_isr_reg Ho); [unfold rtc_running; set_solver|lia].
Qed.

Ltac in_regs := unfold rtc_regs; set_solver.

(** ** Interrupts *)

Lemma truth_land_pow2 x n : 0 <= n -> truth (Z.land x (Z.shiftl 1 n)) = Z.testbit x n.
Proof.
  intros Hn. rewrite Z.shiftl_1_l. unfold truth. destruct (Z.testbit x n) eqn:E.
  - apply negb_true_iff, Z.eqb_neq. intros H0.
    assert (H1 : Z.testbit (Z.land x (2 ^ n)) n = true) by by rewrite Z.land_spec, E, Z.pow2_bits_true.
    by rewrite H0, Z.bits_0 in H1.
  - apply negb_false_iff, Z.eqb_eq, bits_ext. intros i Hi. rewrite Z.land_spec, Z.bits_0, Z.pow2_bits_eqb by lia.
    destruct (n =? i) eqn:Ei; zbool; [by subst; rewrite E|apply andb_false_r].
Qed.

(** The enable register with the alarm bit as asked. *)
Definition alarm_ier (x : Z) (enable : bool) : Z :=
  if enable then Z.lor x RTC_INT_ALARM else Z.land x (Z.lnot RTC_INT_ALARM).

Lemma alarm_toggle x (enable : bool) : Z.testbit x 8 <> enable -> Z.lxor x RTC_INT_ALARM = alarm_ier x enable.
Proof.
  intros Hne. unfold alarm_ier, RTC_INT_ALARM. rewrite Z.shiftl_1_l. apply bits_ext. intros i Hi.
  destruct enable; rewrite ?Z.lxor_spec, ?Z.lor_spec, ?Z.land_spec, ?Z.lnot_spec, Z.pow2_bits_eqb by lia;
    (destruct (8 =? i) eqn:E; zbool; [subst i|]); destruct (Z.testbit x _); done.
Qed.
Lemma alarm_same x (enable : bool) : Z.testbit x 8 = enable -> alarm_ier x enable = x.
Proof.
  intros He. unfold alarm_ier, RTC_INT_ALARM. rewrite Z.shiftl_1_l. apply bits_ext. intros i Hi.
  destruct enable; rewrite ?Z.lor_spec, ?Z.land_spec, ?Z.lnot_spec, Z.pow2_bits_eqb by lia;
    (destruct (8 =? i) eqn:E; zbool; [subst i; by rewrite He|]); by destruct (Z.testbit x i).
Qed.
Lemma alarm_ier_bit x enable : Z.testbit (alarm_ier x enable) 8 = enable.
Proof.
  unfold alarm_ier, RTC_INT_ALARM. rewrite Z.shiftl_1_l.
  destruct enable; rewrite ?Z.lor_spec, ?Z.land_spec, ?Z.lnot_spec, Z.pow2_bits_true by lia;
    [apply orb_true_r|apply andb_false_r].
Qed.

Lemma alarm_set_run (time : option rtc_tm) enable w s : acks_clear -> rep w s ->
  (forall t, time = Some t -> clock_time t) ->
  wp (rtc_alarm_set r time enable) (fun e w' => e = RTC_ERR_NONE /\ exists s', rep w' s' /\
    s' (r + rtc_ier) = alarm_ier (s (r + rtc_ier)) (truth enable) /\
    s' (r + rtc_alarm) = (match time with
      | Some t => RTC_TIME (tm_hour t) (tm_min t) (tm_sec t) | None => s (r + rtc_alarm) end) /\
    forall off, off ∈ rtc_regs -> off <> rtc_ier -> off <> rtc_alarm -> s' (r + off) = s (r + off)) w.
Proof.
  intros Hack Hw Ht. set (a := match time with
      | Some t => RTC_TIME (tm_hour t) (tm_min t) (tm_sec t) | None => s (r + rtc_alarm) end).
  apply wp_bind. eapply (wp_mono _ (fun _ w' => exists s1, rep w' s1 /\ s1 (r + rtc_alarm) = a /\
    forall off, off ∈ rtc_regs -> off <> rtc_alarm -> s1 (r + off) = s (r + off))).
  { destruct time as [t|]; [|apply wp_ret; by exists s].
    destruct (Ht t eq_refl) as (Hh & Hm & Hs).
    destruct (unpack_time (tm_hour t) (tm_min t) (tm_sec t)) as (Htu & _); [lia..|].
    apply (wp_rtc_wr rtc_alarm _ _ w s); [in_regs|done|exact Htu|]. intros w1 Hw1. eexists. split; [exact Hw1|].
    split; [by rewrite upd_reg_eq|]. intros off _ Hne. apply upd_reg_ne. lia. }
  intros [] w1 (s1 & Hw1 & Ha & Hoth). apply wp_bind.
  apply (wp_rtc_rd rtc_ier _ w1 s1); [in_regs|done|]. intros w2 Hw2.
  rewrite (Hoth rtc_ier) by (in_regs || done). set (d := s (r + rtc_ier)) in *.
  assert (Hd : in_u32 d).
  { unfold d. apply (rep_range w s); [done|]. exists rtc_ier. split; [in_regs|done]. }
  unfold RTC_INT_ALARM at 1. rewrite truth_land_pow2 by lia.
  destruct (Bool.eqb (truth enable) (Z.testbit d 8)) eqn:E; cbn [negb].
  - apply eqb_prop in E. apply wp_bind, wp_ret, wp_ret. split; [done|]. exists s1.
    rewrite Ha, (Hoth rtc_ier), alarm_same by (in_regs || done).
    split_and!; [done..|]. intros off Ho _ Hne. by apply Hoth.
  - apply eqb_false_iff in E. apply wp_bind.
    apply (proj1 (wp_assoc (io_wr32 (r + rtc_isr_reg) RTC_INT_ALARM)
      (fun _ => poll_clear rtc_fuel (r + rtc_isr_reg) RTC_INT_ALARM)
      (fun _ => io_wr32 (r + rtc_ier) (Z.lxor d RTC_INT_ALARM)) _ _)), wp_bind.
    eapply wp_mono; [apply (rtc_intr_clear_run RTC_INT_ALARM w2 s1 Hack Hw2); by compute|].
    intros [] w3 (s3 & Hw3 & Hs3). rewrite (alarm_toggle d (truth enable)) by congruence.
    eapply (wp_rtc_wr rtc_ier); [in_regs|exact Hw3| |].
    { unfold alarm_ier. destruct (truth enable); [apply lor_u32; [done|by compute]|by apply land_u32]. }
    intros w4 Hw4. apply wp_ret. split; [done|]. eexists. split; [exact Hw4|]. split; [by rewrite upd_reg_eq|].
    split; [rewrite upd_reg_ne by (unfold rtc_alarm, rtc_ier; lia); rewrite Hs3 by in_regs; exact Ha|].
    intros off Ho Hn1 Hn2. rewrite upd_reg_ne by lia. rewrite Hs3 by done. by apply Hoth.
Qed.

Lemma alarm_get_run w s : rep w s ->
  wp (sslrtc_get_alarm r) (fun v _ => exists pending,
    v = (RTC_TIME_HOUR (s (r + rtc_alarm)), RTC_TIME_MIN (s (r + rtc_alarm)), RTC_TIME_SEC (s (r + rtc_alarm)),
         if Z.testbit (s (r + rtc_ier)) 8 then 1 else 0, pending)) w.
Proof.
  intros Hw. apply wp_bind, wp_bind. apply (wp_rtc_rd rtc_alarm _ w s); [in_regs|done|]. intros w1 Hw1.
  apply wp_bind. apply (wp_rtc_rd rtc_ier _ w1 s); [in_regs|done|]. intros w2 Hw2.
  apply wp_bind. apply (wp_rd_status (r + rtc_isr_reg) _ w2 s Hw2 isr_live). intros i w3 _ _ Hw3.
  apply wp_ret, wp_ret. eexists. f_equal. f_equal. unfold RTC_INT_ALARM. rewrite truth_land_pow2 by lia.
  by destruct (Z.testbit _ 8), (truth _).
Qed.

(** C31. Setting the alarm and reading it back gives the time and the enable
    flag asked for, whatever the alarm was before; every other interrupt stays
    enabled or disabled, and no other register but the interrupt status is
    touched. *)
Theorem rtc_alarm_roundtrip t enabled w s : acks_clear -> rep w s -> clock_time t ->
  exists w1 w2 s' pending, sslrtc_set_alarm r t enabled w = Done RTC_ERR_NONE w1 /\
    sslrtc_get_alarm r w1 = Done (tm_hour t, tm_min t, tm_sec t, if truth enabled then 1 else 0, pending) w2 /\
    rep w1 s' /\ (forall i, 0 <= i -> i <> 8 -> Z.testbit (s' (r + rtc_ier)) i = Z.testbit (s (r + rtc_ier)) i) /\
    forall off, off ∈ rtc_regs -> off <> rtc_ier -> off <> rtc_alarm -> s' (r + off) = s (r + off).
Proof.
  intros Hack Hw Ht.
  pose proof (alarm_set_run (Some t) enabled w s Hack Hw ltac:(by intros ? [= <-])) as Hset.
  apply wp_run in Hset as (e & w1 & E1 & -> & s' & Hw1 & Hier & Hal & Hoth).
  pose proof (alarm_get_run w1 s' Hw1) as Hget. apply wp_run in Hget as (v & w2 & E2 & pending & ->).
  destruct Ht as (Hh & Hm & Hs). destruct (unpack_time (tm_hour t) (tm_min t) (tm_sec t)) as (_ & F1 & F2 & F3); [lia..|].
  rewrite Hier, alarm_ier_bit, Hal, F1, F2, F3 in E2. exists w1, w2, s', pending. split_and!; [done..| |done].
  intros i Hi Hne. rewrite Hier. unfold alarm_ier, RTC_INT_ALARM. rewrite Z.shiftl_1_l.
  destruct (truth enabled); rewrite ?Z.lor_spec, ?Z.land_spec, ?Z.lnot_spec, Z.pow2_bits_eqb by lia;
    (destruct (8 =? i) eqn:E; zbool; [lia|]); by destruct (Z.testbit _ i).
Qed.

(** ** The periodic interrupt *)
Definition PERIODIC : Z := Z.lor RTC_INT_PSTALL RTC_INT_2HZ.

Lemma set_intr_run mask mode w s : rep w s -> in_u32 mask ->
  wp (rtc_set_intr r mask mode) (fun _ w' =>
    rep w' (upd s (r + rtc_ier) (let x := Z.land (s (r + rtc_ier)) (Z.lnot mask) in if truth mode then Z.lor x mask else x))) w.
Proof.
  intros Hw Hm. assert (Hu : in_u32 (s (r + rtc_ier))).
  { apply (rep_range w s); [done|]. exists rtc_ier. split; [in_regs|done]. }
  apply wp_bind. apply (wp_rtc_rd rtc_ier _ w s); [in_regs|done|]. intros w1 Hw1.
  apply (wp_rtc_wr rtc_ier _ _ w1 s); [in_regs|done| |done].
  destruct (truth mode); [apply lor_u32; [by apply land_u32|done]|by apply land_u32].
Qed.

Definition pst_bit (fq : Z) : Z := if fq =? 0 then RTC_INT_2HZ else RTC_INT_PST fq.

(** Select a rate, switch the periodic interrupt on, and off again. *)
Definition pie_cycle (fq : Z) : M W (rtc_reply * Z) :=
  let! a := sslrtc_ioctl r 0 (IRQP_SET (Z.shiftl 2 fq)) in
  sslrtc_ioctl r (snd a) PIE_ON ;; sslrtc_ioctl r (snd a) PIE_OFF.

Lemma find_rate_pow fq : 0 <= fq < 9 -> find_rate (Z.shiftl 2 fq) = Some fq.
Proof.
  intros Hx. assert (Hin : fq ∈ seqZ 0 9) by (apply elem_of_seqZ; lia). vm_compute in Hin.
  repeat (apply elem_of_cons in Hin as [->|Hin]; [done|]); by apply not_elem_of_nil in Hin.
Qed.

Lemma pie_bits x fq : 0 <= fq < 9 ->
  let p := pst_bit fq in
  Z.land (Z.lor (Z.land x (Z.lnot p)) p) (Z.lnot PERIODIC) =
    if fq <? 8 then Z.land x (Z.lnot PERIODIC) else Z.lor (Z.land x (Z.lnot PERIODIC)) (Z.shiftl 1 24).
Proof.
  intros Hfq p. assert (Hin : fq ∈ seqZ 0 9) by (apply elem_of_seqZ; lia). vm_compute in Hin.
  assert (Hsub : forall q, Z.land q (Z.lnot PERIODIC) = 0 ->
    Z.land (Z.lor (Z.land x (Z.lnot q)) q) (Z.lnot PERIODIC) = Z.land x (Z.lnot PERIODIC)).
  { intros q Hq. rewrite Z.land_lor_distr_l, Hq, Z.lor_0_r. apply bits_ext. intros i Hi.
    assert (Hqi : Z.testbit (Z.land q (Z.lnot PERIODIC)) i = false) by by rewrite Hq, Z.bits_0.
    rewrite Z.land_spec, Z.lnot_spec in Hqi by done. rewrite !Z.land_spec, !Z.lnot_spec by done.
    by destruct (Z.testbit x i), (Z.testbit q i), (Z.testbit PERIODIC i). }
  do 8 (apply elem_of_cons in Hin as [->|Hin]; [apply Hsub; by compute|]).
  apply elem_of_cons in Hin as [->|Hin]; [|by apply not_elem_of_nil in Hin].
  unfold p. change (pst_bit 8) with (Z.shiftl 1 24). cbn [Z.ltb Z.compare Pos.compare Pos.compare_cont].
  apply bits_ext. intros i Hi. rewrite !Z.land_spec, !Z.lor_spec, !Z.land_spec, !Z.lnot_spec by done.
  rewrite Z.shiftl_1_l, Z.pow2_bits_eqb by lia.
  destruct (24 =? i) eqn:E; zbool; [subst i; by destruct (Z.testbit x 24)|]. by destruct (Z.testbit x i), (Z.testbit PERIODIC i).
Qed.

(** C33. Switching the periodic interrupt on at a rate of 2 to 256 Hz and off
    again leaves no periodic source enabled and every other interrupt as it
    was.  At 512 Hz, the last of the nine rates RTC_IRQP_SET accepts, the
    source enabled is bit 24, outside the eight RTC_INT_PSTALL switches off: it
    stays enabled. *)
Theorem pie_off_correct fq w s : acks_clear -> rep w s -> 0 <= fq < 9 ->
  exists w' s', pie_cycle fq w = Done (Reply 0, fq) w' /\ rep w' s' /\
    s' (r + rtc_ier) = (if fq <? 8 then Z.land (s (r + rtc_ier)) (Z.lnot PERIODIC)
                        else Z.lor (Z.land (s (r + rtc_ier)) (Z.lnot PERIODIC)) (Z.shiftl 1 24)).
Proof.
  intros Hack Hw Hfq.
  assert (Hb : in_u32 (pst_bit fq)).
  { unfold pst_bit. destruct (fq =? 0) eqn:E; [by compute|]. unfold RTC_INT_PST. rewrite Z.shiftl_1_l. unfold in_u32.
    split; [lia|]. apply Z.pow_lt_mono_r; lia. }
  assert (Hrun : wp (pie_cycle fq) (fun v w' => v = (Reply 0, fq) /\ exists s', rep w' s' /\
    s' (r + rtc_ier) = Z.land (Z.lor (Z.land (s (r + rtc_ier)) (Z.lnot (pst_bit fq))) (pst_bit fq)) (Z.lnot PERIODIC)) w).
  { unfold pie_cycle. cbn [sslrtc_ioctl]. rewrite find_rate_pow by done. apply wp_bind, wp_ret. cbn [snd].
    apply wp_bind, wp_bind. eapply wp_mono; [apply (rtc_intr_clear_run PERIODIC w s Hack Hw); by compute|].
    intros [] w1 (s1 & Hw1 & Hs1). apply wp_bind.
    eapply (wp_mono _ (fun _ w' => rep w' (upd s1 (r + rtc_ier) (Z.lor (Z.land (s1 (r + rtc_ier)) (Z.lnot (pst_bit fq))) (pst_bit fq))))).
    { unfold pst_bit in *. destruct (fq =? 0); by apply (set_intr_run _ 1). }
    intros [] w2 Hw2. apply wp_ret, wp_bind.
    eapply wp_mono; [apply (set_intr_run PERIODIC 0 w2 _ Hw2); by compute|]. intros [] w3 Hw3. apply wp_ret.
    split; [done|]. eexists. split; [exact Hw3|]. rewrite !upd_reg_eq. rewrite Hs1 by in_regs. done. }
  apply wp_run in Hrun as (v & w' & E & -> & s' & Hw' & Hs'). exists w', s'. rewrite Hs', pie_bits by done. done.
Qed.
End Spec.

(** ** The time of a running clock *)

(** Seconds since 1970, and the date in the calendar of the chip: year, month
    from 1, day from 1. *)
Definition DAY : Z := 86400.
Definition civil_of_era (doe : Z) : Z * Z * Z :=
  let yoe := (doe - doe / 1460 + doe / 36524 - doe / 146096) / 365 in
  let doy := doe - (365 * yoe + yoe / 4 - yoe / 100) in
  let mp := (5 * doy + 2) / 153 in
  let m := if mp <? 10 then mp + 3 else mp - 9 in
  (if m <=? 2 then yoe + 1 else yoe, m, doy - (153 * mp + 2) / 5 + 1).
Definition civil (day : Z) : Z * Z * Z :=
  let '(y, m, d) := civil_of_era ((day + 719468) mod 146097) in
  ((day + 719468) / 146097 * 400 + y, m, d).

Definition date_word (x : Z) : Z := let '(y, m, d) := civil (x / DAY) in RTC_DATE (y - 1970) m d.
Definition time_word (x : Z) : Z :=
  let s := x mod DAY in RTC_TIME (s / 3600) (s / 60 mod 60) (s mod 60).
Definition day_word (x : Z) : Z := (x / DAY + 4) mod 7.
(** [struct rtc_time]: years since 1900, months from 0, days from Sunday. *)
Definition tm_of (date day time : Z) : rtc_tm :=
  let '(y, m, d) := civil (date / DAY) in let s := time mod DAY in
  Tm (y - 1900) (m - 1) d (day_word day) (s / 3600) (s / 60 mod 60) (s mod 60).

(** A clock at [r] that runs: a read gives a register of the moment it is done. *)
Class Ticking (W : Type) `{Bus W} (r : Z) := {
  now : W -> Z;
  tick_rd w off word : (off, word) ∈ [(rtc_date, date_word); (rtc_day, day_word); (rtc_time, time_word)] ->
    exists v w', bus_rd (r + off) w = (v, w') /\ now w <= now w' /\ u32 v = u32 (word (now w')) }.

(** The days of an era of 400 years, one by one. *)
Definition era_ok (doe : Z) : bool :=
  let '(y, m, d) := civil_of_era doe in
  ((if 135080 <=? doe then 370 else 0) <=? y) && (y <=? 400) && (1 <=? m) && (m <=? 12) && (1 <=? d) && (d <=? 31).
Definition era_step (p : Z * bool) : Z * bool := (fst p + 1, snd p && era_ok (fst p)).
Lemma era_iter n k b : Pos.iter era_step (0, true) n = (k, b) -> b = true -> forall x, 0 <= x < k -> era_ok x = true.
Proof.
  assert (H : snd (Pos.iter era_step (0, true) n) = true ->
    forall x, 0 <= x < fst (Pos.iter era_step (0, true) n) -> era_ok x = true).
  { apply (Pos.iter_invariant n _ era_step (fun p => snd p = true -> forall x, 0 <= x < fst p -> era_ok x = true)); [|cbn; lia].
    intros [k' b'] IH. unfold era_step. cbn [fst snd] in *. intros [Hb Hk]%andb_true_iff x Hx.
    destruct (decide (x = k')) as [->|]; [done|]. apply IH; [done|lia]. }
  intros E. by rewrite E in H.
Qed.
Lemma civil_era_ok doe : 0 <= doe < 146097 ->
  let '(y, m, d) := civil_of_era doe in
  (if 135080 <=? doe then 370 else 0) <= y <= 400 /\ 1 <= m <= 12 /\ 1 <= d <= 31.
Proof.
  intros Hd. assert (Hall : Pos.iter era_step (0, true) 146097 = (146097, true)) by (vm_compute; reflexivity).
  pose proof (era_iter _ _ _ Hall eq_refl doe Hd) as Hok. clear Hall. unfold era_ok in Hok.
  destruct (civil_of_era doe) as [[y m] d]. rewrite !andb_true_iff in Hok. destruct Hok as (((((? & ?) & ?) & ?) & ?) & ?). by zbool.
Qed.

(** Dates of the next thirty thousand years fit the register. *)
Lemma civil_ok x : 0 <= x < 2 ^ 40 -> let '(y, m, d) := civil (x / DAY) in
  0 <= y - 1970 < 2 ^ 16 /\ 1 <= m <= 12 /\ 1 <= d <= 31.
Proof.
  intros Hx. unfold civil, DAY. assert (Hd : 0 <= x / 86400 < 12725830) by zdiv_lia.
  set (n := x / 86400 + 719468). assert (Hn : 719468 <= n < 13445298) by lia. clearbody n.
  pose proof (civil_era_ok (n mod 146097) ltac:(apply Z.mod_pos_bound; lia)) as H.
  destruct (civil_of_era (n mod 146097)) as [[y m] d]. destruct H as (Hy & Hm & Hdd). split; [|done].
  destruct (135080 <=? n mod 146097) eqn:E; zbool; zdiv_lia.
Qed.

Section Clock.
Context {W : Type} {B : Bus W} {r : Z} {K : Ticking W r} {Cfg : RtcConfig}.

Lemma tick_io off word w : (off, word) ∈ [(rtc_date, date_word); (rtc_day, day_word); (rtc_time, time_word)] ->
  exists w', io_rd32 (r + off) w = Done (u32 (word (now w'))) w' /\ now w <= now w'.
Proof. intros Hin. destruct (tick_rd w off word Hin) as (v & w' & E & Hw & Hv). exists w'. unfold io_rd32. by rewrite E, Hv. Qed.

Lemma time_fields x : let s := x mod DAY in 0 <= s / 3600 < 24 /\ 0 <= s / 60 mod 60 < 60 /\ 0 <= s mod 60 < 60.
Proof. unfold DAY. cbn. zdiv_lia. Qed.

End Clock.

(** Setting the time answers RTC_ERR_NONE whatever the registers read, also when
    the clock never took the time: the loops that wait for it give up after
    their rounds and [rtc_settime] does not tell. *)
Theorem set_time_never_fails {W} `{Bus W} r t w : exists w', sslrtc_set_time r t w = Done RTC_ERR_NONE w'.
Proof.
  assert (Hdo : forall body val, (forall w, exists v w', body w = Done v w') ->
    forall n w, exists w', do_until (W := W) n body val w = Done tt w').
  { intros body val Hb. induction n as [|n IH]; intros w1; destruct (Hb w1) as (v & w2 & E); cbn [do_until];
      unfold bind; rewrite E; destruct (v =? val); eauto. }
  assert (Hrd : forall a (w : W), exists v w', io_rd32 a w = Done v w').
  { intros a w1. unfold io_rd32. destruct (bus_rd a w1) as [v w2]. by eexists _, _. }
  unfold sslrtc_set_time, rtc_settime, bind, io_wr32, modify. 
  match goal with |- context [do_until ?n ?b ?v ?w] => destruct (Hdo b v (Hrd _) n w) as [w1 ->] end.
  match goal with |- context [do_until ?n ?b ?v ?w] => destruct (Hdo b v (Hrd _) n w) as [w2 ->] end.
  match goal with |- context [do_until ?n ?b ?v ?w] => destruct (Hdo b v ltac:(intros w3; apply Hrd) n w) as [w3 ->] end.
  by eexists.
Qed.

(** ** The module at work *)
#[local] Instance rtc_config : RtcConfig := {| rtc_fuel := 3 |}.
Definition rtc_bus : Bus sim := sim_bus (rtc_volat 0) 2.
#[local] Instance rtc_bus_i : Bus sim := rtc_bus.
#[local] Instance rtc_registers : @Registers sim rtc_bus (rtc_live 0) (rtc_volat 0) := sim_registers _ _ _.
Definition rtc_w0 : sim := Sim [(rtc_ier, 0x109)] 0.
Definition rtc_s0 (a : Z) : Z := Z.land (u32 (sim_peek (sim_mem rtc_w0) a)) (Z.lnot (rtc_volat 0 a)).
Lemma rtc_rep0 : rep rtc_w0 rtc_s0.
Proof. split; [cbn; lia|done]. Qed.
Lemma rtc_acks : acks_clear (r := 0).
Proof.
  intros m w s Hm [Hc _]. exists 2%nat. split; [cbn; lia|].
  apply (sim_clears (rtc_volat 0) 2 rtc_isr_reg); [| |by vm_compute].
  - unfold bus_wr. cbn [rtc_bus_i rtc_bus sim_bus sim_cnt]. destruct (_ =? 0); [done|lia].
  - change (rtc_volat 0 rtc_isr_reg) with (Z.ones 32). rewrite Z.land_ones by lia. by apply Z.mod_small.
Qed.

(** 31 December 2008, 23:59:59. *)
Definition new_year_eve : rtc_tm := Tm 108 11 31 3 23 59 59.

Lemma rtc_alarm_roundtrip_witness :
  exists w1 w2 pending, sslrtc_set_alarm 0 new_year_eve 0 rtc_w0 = Done RTC_ERR_NONE w1 /\
    sslrtc_get_alarm 0 w1 = Done (23, 59, 59, 0, pending) w2.
Proof.
  destruct (rtc_alarm_roundtrip new_year_eve 0 rtc_w0 rtc_s0 rtc_acks rtc_rep0)
    as (w1 & w2 & s' & pending & E1 & E2 & _); [by vm_compute|].
  exists w1, w2, pending. split; [exact E1|exact E2].
Defined.

Lemma pie_off_correct_witness :
  exists w' s', pie_cycle (r := 0) 8 rtc_w0 = Done (Reply 0, 8) w' /\ rep w' s' /\
    s' rtc_ier = Z.lor 0x109 (Z.shiftl 1 24).
Proof.
  destruct (pie_off_correct 8 rtc_w0 rtc_s0 rtc_acks rtc_rep0) as (w' & s' & E & Hw & Hs); [by vm_compute|].
  exists w', s'. split; [exact E|]. split; [exact Hw|]. etrans; [exact Hs|]. by vm_compute.
Defined.

(** A clock that passes midnight between the reads of the date and of the time:
    the answer is the old date with the new time, a day in the past. *)
Definition midnight : Bus bool := {|
  bus_rd := fun (a : Z) (after : bool) =>
    (if a =? rtc_date then (if after then RTC_DATE 39 1 1 else RTC_DATE 38 12 31)
     else if a =? rtc_time then (if after then RTC_TIME 0 0 0 else RTC_TIME 23 59 59)
     else if a =? rtc_day then (if after then 4 else 3) else 0, true);
  bus_wr := fun (_ _ : Z) (after : bool) => after |}.

Example gettime_torn : @sslrtc_get_time bool midnight 0 false = Done (Tm 108 11 31 4 0 0 0) true.
Proof. by vm_compute. Qed.

(** A clock that gains a second with every read, before and at that midnight. *)
Definition ticking_bus : Bus Z := {|
  bus_rd := fun (a x : Z) => (if a =? rtc_date then date_word (x + 1) else if a =? rtc_day then day_word (x + 1)
                              else time_word (x + 1), x + 1);
  bus_wr := fun (_ _ x : Z) => x |}.
Definition ticking_clock : @Ticking Z ticking_bus 0.
Proof.
  refine (@Build_Ticking Z ticking_bus 0 (fun x : Z => x) _). intros x off word Hin.
  rewrite !elem_of_cons, elem_of_nil in Hin.
  destruct Hin as [[= -> ->]|[[= -> ->]|[[= -> ->]|[]]]]; (eexists _, (x + 1); split; [reflexivity|]; split; [lia|done]).
Defined.

