(* ===== verification/MagusRtcProbe.v ===== *)
(** * The clock chip driver comes and goes

    [sslrtc_probe] and [sslrtc_remove] of [drivers/rtc/ssl/ssl_rtc.c], with
    registers mapped by the kernel ([IO_MAP] is 1).  The services of the kernel
    are the parameter [DriverCore]; [Ledger] states what they document about
    the resources a driver holds. *)

From Stdlib Require Import ZArith Lia Bool.
From stdpp Require Import base numbers list.
From S2P Require Import Prelude CMonad DevIO MagusRtc.

Definition ENOMEM : Z := 12.
Definition ENODEV : Z := 19.

(** A null pointer is 0; registration answers an error or the device. *)
Class DriverCore (W : Type) := {
  kzalloc : M W Z;
  kfree : Z -> M W unit;
  platform_get_irq : M W Z;
  ioremap_nocache : M W Z;
  iounmap : Z -> M W unit;
  request_irq : Z -> Z -> M W Z;
  free_irq : Z -> Z -> M W unit;
  rtc_device_register : M W (Z + Z);
  rtc_device_unregister : Z -> M W unit }.

(** The context [sslrtc] a probe leaves with the device: its address, the
    registers, the clock and the device of the class. *)
Record sslrtc := Sslrtc { sr_ptr : Z; sr_r : Z; sr_clk : Z; sr_use : Z; sr_dev : Z }.

Section Probe.
Context {W : Type} `{Bus W} `{DriverCore W}.

(** [local] is the address of the local variable [rtc]: the error path passes
    [&rtc] to [free_irq].  Answers the result and what [platform_set_drvdata]
    gets. *)
Definition sslrtc_probe (local clk : Z) : M W (Z * option sslrtc) :=
  let! rtc := kzalloc in
  if rtc =? 0 then ret (- ENOMEM, None)
  else
    let! irq := platform_get_irq in
    let! vaddr := ioremap_nocache in
    if vaddr =? 0 then kfree rtc ;; ret (- EBUSY, None)
    else
      let! e := request_irq irq rtc in
      if truth e then iounmap vaddr ;; kfree rtc ;; ret (e, None)
      else
        let! init := rtc_init vaddr clk in
        match fst init with
        | RTC_ERR_NONE =>
            let! reg := rtc_device_register in
            match reg with
            | inl e =>
                rtc_exit vaddr ;;
                free_irq irq local ;; iounmap vaddr ;; kfree rtc ;; ret (e, None)
            | inr dev => ret (0, Some (Sslrtc rtc vaddr clk 0 dev))
            end
        | _ => free_irq irq local ;; iounmap vaddr ;; kfree rtc ;; ret (- ENODEV, None)
        end.

Definition sslrtc_remove (c : sslrtc) : M W Z :=
  rtc_device_unregister (sr_dev c) ;;
  rtc_exit (sr_r c) ;;
  let! irq := platform_get_irq in
  free_irq irq (sr_ptr c) ;;
  iounmap (sr_r c) ;;
  kfree (sr_ptr c) ;;
  ret 0.
End Probe.

(** ** The resources a driver holds *)
Inductive res := RMem (p : Z) | RMap (v : Z) | RIrq (irq dev : Z) | RDev (d : Z).
#[global] Instance res_eq_dec : EqDecision res.
Proof. solve_decision. Defined.

(** What was acquired is new; a release takes away what it names, if it is
    there.  The line of the device does not change, the allocator does not give
    out the address of a local, and the bus knows no resources. *)
Class Ledger (W : Type) `{Bus W} `{DriverCore W} (line local : Z) := {
  held : W -> list res -> Prop;
  kzalloc_held l w : held w l ->
    wp kzalloc (fun p w' => p <> local /\ if p =? 0 then held w' l else held w' (RMem p :: l) /\ RMem p ∉ l) w;
  kfree_held p l w : held w l -> wp (kfree p) (fun _ w' => held w' (filter (fun x => x <> RMem p) l)) w;
  irq_held l w : held w l -> wp platform_get_irq (fun irq w' => irq = line /\ held w' l) w;
  ioremap_held l w : held w l ->
    wp ioremap_nocache (fun v w' => if v =? 0 then held w' l else held w' (RMap v :: l) /\ RMap v ∉ l) w;
  iounmap_held v l w : held w l -> wp (iounmap v) (fun _ w' => held w' (filter (fun x => x <> RMap v) l)) w;
  request_held irq dev l w : held w l ->
    wp (request_irq irq dev) (fun e w' => if truth e then held w' l else held w' (RIrq irq dev :: l) /\ RIrq irq dev ∉ l) w;
  free_held irq dev l w : held w l -> wp (free_irq irq dev) (fun _ w' => held w' (filter (fun x => x <> RIrq irq dev) l)) w;
  register_held l w : held w l ->
    wp rtc_device_register (fun d w' => match d with inl e => e <> 0 /\ held w' l | inr d => held w' (RDev d :: l) /\ RDev d ∉ l end) w;
  unregister_held d l w : held w l -> wp (rtc_device_unregister d) (fun _ w' => held w' (filter (fun x => x <> RDev d) l)) w;
  bus_held l w : held w l -> (forall a, held (snd (bus_rd a w)) l) /\ (forall a d, held (bus_wr a d w) l) }.

Section Ledger.
Context {W : Type} {B : Bus W} {C : DriverCore W} {line local : Z} {L : Ledger W line local}.
Implicit Types (w : W) (l : list res).

Lemma rd_held a l w : held w l -> wp (io_rd32 a) (fun _ w' => held w' l) w.
Proof. intros Hl. destruct (bus_held l w Hl) as [Hr _]. specialize (Hr a). unfold wp, io_rd32. by destruct (bus_rd a w). Qed.
Lemma wr_held a d l w : held w l -> wp (io_wr32 a d) (fun _ w' => held w' l) w.
Proof. intros Hl. by apply wp_modify, (bus_held l w Hl). Qed.

Lemma reset_wait_held n r l w : held w l -> wp (reset_wait n r) (fun _ w' => held w' l) w.
Proof.
  revert w. induction n as [|n IH]; intros w Hl; cbn [reset_wait]; apply wp_bind;
    (eapply wp_mono; [by apply (rd_held _ l)|]); intros v w1 H1; destruct (v =? RTC_CTL_EN); try (by apply wp_ret).
  by apply IH.
Qed.
Lemma reset_held r l w : held w l -> wp (rtc_reset r) (fun _ w' => held w' l) w.
Proof. intros Hl. apply wp_bind. eapply wp_mono; [by apply (wr_held _ _ l)|]. intros ? w1 H1. by apply reset_wait_held. Qed.
Lemma init_held r clk l w : held w l -> wp (rtc_init r clk) (fun _ w' => held w' l) w.
Proof.
  intros Hl. apply wp_bind. eapply wp_mono; [by apply (rd_held _ l)|]. intros id w1 H1. destruct (negb _); [by apply wp_ret|].
  apply wp_bind. eapply wp_mono; [by apply (reset_held _ l)|]. intros [] w2 H2; try (by apply wp_ret).
  apply wp_bind. eapply wp_mono; [by apply (wr_held _ _ l)|]. intros ? w3 H3. by apply wp_ret.
Qed.
Lemma exit_held r l w : held w l -> wp (rtc_exit r) (fun _ w' => held w' l) w.
Proof.
  intros Hl. apply wp_bind. eapply wp_mono; [by apply (reset_held _ l)|]. intros [] w1 H1; try (by apply wp_ret).
  apply wp_bind. eapply wp_mono; [by apply (wr_held _ _ l)|]. intros ? w2 H2. by apply wp_ret.
Qed.

Ltac release H := eapply wp_mono; [apply H; eassumption|]; cbn beta; intros ? ? ?.

(** The way out of a probe that failed after [request_irq]. *)
Lemma unwind_held rtc vaddr l w (v : Z * option sslrtc) : rtc <> local -> RMem rtc ∉ l -> RMap vaddr ∉ l ->
  RIrq line local ∉ l -> held w (RIrq line rtc :: RMap vaddr :: RMem rtc :: l) ->
  wp (free_irq line local ;; iounmap vaddr ;; kfree rtc ;; ret v) (fun a w' => a = v /\ held w' (RIrq line rtc :: l)) w.
Proof.
  intros Hne Hm Hv Hi Hl.
  apply wp_bind. release free_held. apply wp_bind. release iounmap_held. apply wp_bind. release kfree_held. apply wp_ret.
  split; [done|]. match goal with H : held ?w1 (filter _ (filter _ (filter _ (RIrq line rtc :: _)))) |- held ?w1 _ => revert H end.
  rewrite (release_under (RIrq line local)), (release_under (RIrq line local) (RMap vaddr)), (release_under (RIrq line local) (RMem rtc)),
    (release_none _ l Hi) by congruence.
  rewrite (release_under (RMap vaddr) (RIrq line rtc)), (release_head (RMap vaddr)) by (congruence || (rewrite not_elem_of_cons; split; congruence)).
  by rewrite (release_under (RMem rtc)), release_head by congruence.
Qed.

Lemma remove_held c l w : RDev (sr_dev c) ∉ RIrq line (sr_ptr c) :: RMap (sr_r c) :: RMem (sr_ptr c) :: l ->
  RIrq line (sr_ptr c) ∉ RMap (sr_r c) :: RMem (sr_ptr c) :: l -> RMap (sr_r c) ∉ RMem (sr_ptr c) :: l -> RMem (sr_ptr c) ∉ l ->
  held w (RDev (sr_dev c) :: RIrq line (sr_ptr c) :: RMap (sr_r c) :: RMem (sr_ptr c) :: l) ->
  wp (sslrtc_remove c) (fun a w' => a = 0 /\ held w' l) w.
Proof.
  intros Hd Hi Hv Hm Hl.
  apply wp_bind. release unregister_held. apply wp_bind. release exit_held. apply wp_bind.
  eapply wp_mono; [apply irq_held; eassumption|]. intros ? ? [-> ?].
  apply wp_bind. release free_held. apply wp_bind. release iounmap_held. apply wp_bind. release kfree_held. apply wp_ret.
  split; [done|]. match goal with H : held ?w1 (filter _ (filter _ (filter _ _))) |- held ?w1 _ => revert H end.
  by rewrite !release_head.
Qed.

(** What a probe answers and leaves held. *)
Definition probed l (a : Z * option sslrtc) (w' : W) : Prop :=
  match snd a with
  | None => fst a <> 0 /\ (held w' l \/ exists rtc, held w' (RIrq line rtc :: l) /\ RMem rtc ∉ l)
  | Some c => fst a = 0 /\ held w' (RDev (sr_dev c) :: RIrq line (sr_ptr c) :: RMap (sr_r c) :: RMem (sr_ptr c) :: l) /\
      wp (sslrtc_remove c) (fun a w2 => a = 0 /\ held w2 l) w'
  end.

Lemma probe_run clk l w : held w l -> RIrq line local ∉ l -> wp (sslrtc_probe local clk) (probed l) w.
Proof.
  intros Hl Hi.
  unfold sslrtc_probe. apply wp_bind. eapply wp_mono; [by apply kzalloc_held|]. cbn beta. intros rtc w1 [Hloc H1].
  destruct (rtc =? 0); [apply wp_ret; cbn; auto|]. destruct H1 as [H1 Hm].
  apply wp_bind. eapply wp_mono; [by apply irq_held|]. intros irq w2 [-> H2].
  apply wp_bind. eapply wp_mono; [by apply ioremap_held|]. cbn beta. intros vaddr w3 H3.
  destruct (vaddr =? 0).
  { apply wp_bind. eapply wp_mono; [by apply kfree_held|]. cbn beta. intros ? w4 H4. apply wp_ret. cbn.
    rewrite release_head in H4 by done. auto. }
  destruct H3 as [H3 Hv]. apply wp_bind. eapply wp_mono; [by apply request_held|]. cbn beta. intros e w4 H4.
  destruct (truth e) eqn:Ee.
  { apply wp_bind. eapply wp_mono; [by apply iounmap_held|]. cbn beta. intros ? w5 H5. rewrite release_head in H5 by done.
    apply wp_bind. eapply wp_mono; [by apply kfree_held|]. cbn beta. intros ? w6 H6. apply wp_ret. cbn.
    rewrite release_head in H6 by done. split; [|by left]. intros ->. done. }
  destruct H4 as [H4 Hq]. apply wp_bind. eapply wp_mono; [by apply (init_held _ _ _ _ H4)|]. cbn beta. intros init w5 H5.
  assert (Hv' : RMap vaddr ∉ l) by (apply not_elem_of_cons in Hv; tauto).
  assert (Hout : forall (v : Z * option sslrtc) w', fst v <> 0 -> snd v = None ->
    held w' (RIrq line rtc :: RMap vaddr :: RMem rtc :: l) ->
    wp (free_irq line local ;; iounmap vaddr ;; kfree rtc ;; ret v) (probed l) w').
  { intros v w' Hv1 Hv2 Hh. eapply wp_mono; [by apply (unwind_held rtc vaddr l)|]. intros a w6 [-> H6]. unfold probed. rewrite Hv2. eauto. }
  destruct (fst init); try (by apply Hout).
  apply wp_bind. eapply wp_mono; [by apply (register_held _ _ H5)|]. cbn beta. intros [err|dev] w6 H6.
  - apply wp_bind. eapply wp_mono; [by apply (exit_held _ _ _ (proj2 H6))|]. cbn beta. intros ? w7 H7. apply Hout; [apply H6|done..].
  - apply wp_ret. cbn. destruct H6 as [H6 Hd]. split_and!; [done..|]. by apply remove_held.
Qed.

(** A probe of the clock chip that fails before the interrupt is requested, or
    at the request, gives back everything it took.  One that fails later does
    not: it releases the interrupt under the address of its local variable and
    not under the one it was requested with, so the handler stays, with a
    context that is freed.  One that succeeds holds the memory, the mapping, the
    interrupt and the device, and removal gives all four back. *)
Theorem probe_resources clk l w : held w l -> RIrq line local ∉ l ->
  exists ret ctx w', sslrtc_probe local clk w = Done (ret, ctx) w' /\
  match ctx with
  | None => ret <> 0 /\ (held w' l \/ exists rtc, held w' (RIrq line rtc :: l) /\ RMem rtc ∉ l)
  | Some c => ret = 0 /\ held w' (RDev (sr_dev c) :: RIrq line (sr_ptr c) :: RMap (sr_r c) :: RMem (sr_ptr c) :: l) /\
      exists w2, sslrtc_remove c w' = Done 0 w2 /\ held w2 l
  end.
Proof.
  intros Hl Hi. pose proof (probe_run clk l w Hl Hi) as H. apply wp_run in H as ([a ctx] & w' & E & H).
  exists a, ctx, w'. split; [done|]. destruct ctx as [c|]; [|done].
  destruct H as (E0 & Hh & Hr). split; [done|]. split; [done|]. apply wp_run in Hr as (b & w2 & E2 & -> & H2). by exists w2.
Qed.
End Ledger.

(** ** The module at work

    A kernel that gives out numbers from 100 on, and refuses a second handler
    with the same context; the chip is mapped at 101. *)
Record ksim := Ksim { k_sim : sim; k_res : list res; k_next : Z }.
Definition k_clr (a : Z) : Z := if a =? 101 + rtc_ctl then RTC_CTL_RST else 0.
#[local] Instance k_bus : Bus ksim := {|
  bus_rd a w := let '(v, s) := @bus_rd sim (sim_bus k_clr 2) a (k_sim w) in (v, Ksim s (k_res w) (k_next w));
  bus_wr a d w := Ksim (@bus_wr sim (sim_bus k_clr 2) a d (k_sim w)) (k_res w) (k_next w) |}.
Definition k_get (f : Z -> res) : M ksim Z :=
  fun w => Done (k_next w) (Ksim (k_sim w) (f (k_next w) :: k_res w) (k_next w + 1)).
Definition k_put (x : res) : M ksim unit := modify (fun w => Ksim (k_sim w) (filter (fun y => y <> x) (k_res w)) (k_next w)).
#[local] Instance k_core : DriverCore ksim := {|
  kzalloc := k_get RMem; kfree p := k_put (RMem p); platform_get_irq := ret 21;
  ioremap_nocache := k_get RMap; iounmap v := k_put (RMap v);
  request_irq irq dev := fun w => if decide (RIrq irq dev ∈ k_res w) then Done (-16) w
    else Done 0 (Ksim (k_sim w) (RIrq irq dev :: k_res w) (k_next w));
  free_irq irq dev := k_put (RIrq irq dev);
  rtc_device_register := (let! d := k_get RDev in ret (inr d)); rtc_device_unregister d := k_put (RDev d) |}.

(** The numbers given out are below the next one. *)
Definition res_num (x : res) : Z := match x with RMem p => p | RMap v => v | RIrq _ d => d | RDev d => d end.
Definition k_held (w : ksim) (l : list res) : Prop :=
  k_res w = l /\ 100 <= k_next w /\ Forall (fun x => match x with RIrq _ _ => True | _ => res_num x < k_next w end) l.
Lemma k_fresh w l x : k_held w l -> res_num x = k_next w -> match x with RIrq _ _ => False | _ => True end -> x ∉ l.
Proof.
  intros (_ & _ & Hall) Hx Hk Hin. rewrite Forall_forall in Hall. specialize (Hall x Hin). destruct x; cbn in *; (done || lia).
Qed.
Lemma k_get_held f l w : k_held w l -> (forall p, res_num (f p) = p /\ match f p with RIrq _ _ => False | _ => True end) ->
  wp (k_get f) (fun p w' => 100 <= p /\ k_held w' (f p :: l) /\ f p ∉ l) w.
Proof.
  intros Hw Hf. pose proof Hw as (E & Hn & Hall). destruct (Hf (k_next w)) as [Hx Hk]. split; [done|].
  split; [|by apply (k_fresh w)]. split; [by rewrite E|]. split; [cbn; lia|]. cbn. constructor.
  - destruct (f (k_next w)); cbn in *; (done || lia).
  - eapply Forall_impl; [exact Hall|]. intros [] Hy; cbn in *; (done || lia).
Qed.
Lemma k_put_held x l w : k_held w l -> wp (k_put x) (fun _ w' => k_held w' (filter (fun y => y <> x) l)) w.
Proof.
  intros (<- & Hn & Hall). apply wp_modify. split; [done|]. split; [done|]. cbn. apply Forall_forall. intros y Hy.
  apply list_elem_of_filter in Hy as [_ Hy]. rewrite Forall_forall in Hall. by apply Hall.
Qed.
#[local] Instance k_ledger : Ledger ksim 21 1.
Proof.
  refine {| held := k_held |}; intros.
  - eapply wp_mono; [by apply (k_get_held _ l)|]. cbn beta. intros p w' (Hp & Hh & Hf). split; [lia|].
    rewrite (proj2 (Z.eqb_neq p 0)) by lia. done.
  - by apply k_put_held.
  - by apply wp_ret.
  - eapply wp_mono; [by apply (k_get_held _ l)|]. cbn beta. intros p w' (Hp & Hh & Hf).
    rewrite (proj2 (Z.eqb_neq p 0)) by lia. done.
  - by apply k_put_held.
  - unfold wp, request_irq, k_core. destruct H as (<- & Hn & Hall).
    destruct (decide _); cbn; [done|]. split; [|done]. split; [done|]. split; [done|]. by constructor.
  - by apply k_put_held.
  - apply wp_bind. eapply wp_mono; [by apply (k_get_held _ l)|]. cbn beta. intros p w' (Hp & Hh & Hf). by apply wp_ret.
  - by apply k_put_held.
  - split; [|done]. intros a. cbn. destruct (sim_cnt (k_sim w)); done.
Defined.

Definition chip_w : ksim := Ksim (Sim [(101 + rtc_id, Z.shiftl RTC_IDV_CLSDSG 10)] 0) [] 100.

Lemma probe_resources_witness : exists c w' w2, sslrtc_probe 1 32768 chip_w = Done (0, Some c) w' /\
  k_res w' = [RDev 102; RIrq 21 100; RMap 101; RMem 100] /\ sslrtc_remove c w' = Done 0 w2 /\ k_res w2 = [].
Proof.
  destruct (probe_resources (line := 21) (local := 1) 32768 [] chip_w) as (a & ctx & w' & E & H);
    [by split_and!|by apply not_elem_of_nil|]. vm_compute in E. injection E as <- <- <-.
  destruct H as (_ & (Hh & _) & w2 & E2 & (H2 & _)). eexists _, _, w2. split; [by vm_compute|]. split; [exact Hh|].
  split; [exact E2|exact H2].
Defined.

(** No chip there: the probe fails and the handler stays registered, with the
    context at 100, which was freed. *)
Example probe_leaks : match sslrtc_probe 1 32768 (Ksim (Sim [] 0) [] 100) with
  | Done (e, None) w => e = - ENODEV /\ k_res w = [RIrq 21 100] | _ => False end.
Proof. by vm_compute. Qed.
