(* ===== verification/MagusDma.v ===== *)
(** * The DMA controller

    [arch/arm/mach-magus/dma.c] with [dmar.h] and [asm-arm/arch-magus/_dma.h].
    The state is the world behind the bus and the context [dma_t].  An event
    callback of a client is a number; what it does is the parameter
    [dma_callback]. *)

From Stdlib Require Import ZArith Lia Bool.
From stdpp Require Import base numbers list.
From S2P Require Import Prelude CMonad DevIO.

Definition DMA_MAX_CHANNELS : Z := 32.
Definition DMAC_CLID : Z := 0x0801.
Definition DMAC_DSGNR : Z := 0x01.
Definition DMA_TIMEOUT : nat := 300.

Inductive dma_err_e := DMA_ERR_NONE | DMA_ERR_HW | DMA_ERR_PARM | DMA_ERR_CFG | DMA_ERR_FULL.
Definition dma_err_code (e : dma_err_e) : Z :=
  match e with
  | DMA_ERR_NONE => 0 | DMA_ERR_HW => -1 | DMA_ERR_PARM => -2 | DMA_ERR_CFG => -3 | DMA_ERR_FULL => -5 end.
Inductive dma_evt_e := DMA_EV_DONE | DMA_EV_ERR.

(** [flag] is an [int]; DMA_F_ALL is [~0]. *)
Definition DMA_F_ALL : Z := -1.
Definition DMA_F_SRCADDR : Z := Z.shiftl 1 0.
Definition DMA_F_DSTADDR : Z := Z.shiftl 1 1.
Definition DMA_F_COUNT : Z := Z.shiftl 1 2.

Record dma_fifo_t := Fifo { fifo_width : Z; fifo_depth : Z; fifo_req : Z }.
Record dma_cfg_t := DmaCfg {
  cfg_flag : Z; cfg_saddr : Z; cfg_daddr : Z; cfg_count : Z;
  cfg_src : dma_fifo_t; cfg_dst : dma_fifo_t; cfg_evt : Z; cfg_flush : Z }.

Record dma_t := Dma {
  dma_r : Z; dma_waitdelay : Z; dma_priority : Z;
  dma_evt : list Z; dma_channels : Z; dma_fifosize : Z; dma_used : Z; dma_active : Z }.
Definition set_used (u : Z) (t : dma_t) : dma_t :=
  Dma (dma_r t) (dma_waitdelay t) (dma_priority t) (dma_evt t) (dma_channels t) (dma_fifosize t) u (dma_active t).
Definition set_active (a : Z) (t : dma_t) : dma_t :=
  Dma (dma_r t) (dma_waitdelay t) (dma_priority t) (dma_evt t) (dma_channels t) (dma_fifosize t) (dma_used t) a.
Definition set_evt (e : list Z) (t : dma_t) : dma_t :=
  Dma (dma_r t) (dma_waitdelay t) (dma_priority t) e (dma_channels t) (dma_fifosize t) (dma_used t) (dma_active t).
Definition set_caps (c f : Z) (t : dma_t) : dma_t :=
  Dma (dma_r t) (dma_waitdelay t) (dma_priority t) (dma_evt t) c f 0 0.

(** [dmar_t] and [dmar_ch_t]: offsets of the registers. *)
Definition dma_id : Z := 0.
Definition dma_cap : Z := 4.
Definition dma_ctl : Z := 8.
Definition dma_ier : Z := 16.
Definition dma_isr_reg : Z := 20.
Definition ch_addr (r ch : Z) : Z := r + 0x100 + 0x20 * ch.
Definition ch_cfg : Z := 0.
Definition ch_saddr : Z := 4.
Definition ch_daddr : Z := 8.
Definition ch_count : Z := 12.
Definition ch_ier : Z := 16.
Definition ch_isr : Z := 20.

Definition DMA_ID_CLID (d : Z) : Z := Z.shiftr d 16.
Definition DMA_ID_DSGNR (d : Z) : Z := Z.land (Z.shiftr d 10) 0x3F.
Definition DMA_CAP_FIFOSZ (d : Z) : Z := Z.shiftl 1 (Z.land (Z.shiftr d 2) 3 + 5).
Definition DMA_CAP_CHN (d : Z) : Z := (Z.land d 3 + 1) * 8.
Definition DMA_CTL_WAIT (n : Z) : Z := Z.shiftl n 8.
Definition DMA_CTL_PRI : Z := 4.
Definition DMA_CTL_RST : Z := 2.
Definition DMA_CTL_EN : Z := 1.
Definition DMA_CH_IDX (ch : Z) : Z := Z.shiftl 1 ch.
Definition DMA_CFG_FLUSH : Z := 8.
Definition DMA_CFG_RST : Z := 4.
Definition DMA_CFG_DIS : Z := 2.
Definition DMA_CFG_EN : Z := 1.
Definition DMA_CFG_BURST (n : Z) : Z := Z.shiftl (n - 1) 8.
Definition DMA_CFG_SRC (width req : Z) : Z :=
  Z.lor (Z.lor (Z.shiftl 1 16) (Z.shiftl width 18)) (Z.shiftl req 20).
Definition DMA_CFG_DST (width req : Z) : Z :=
  Z.lor (Z.lor (Z.shiftl 1 24) (Z.shiftl width 26)) (Z.shiftl req 28).
Definition DMA_IRQ_ERR : Z := 0x80.
Definition DMA_IRQ_DONE : Z := 0x01.
Definition DMA_WIDTH_ERR (w : Z) : bool := (w >? 8) || (w =? 3) || ((w >? 4) && (w <? 7)).

(** ** Checking the parameters of a FIFO: the binary coding of the width *)
Definition dma_fifoparm (f : dma_fifo_t) (size count : Z) : dma_err_e + Z :=
  let b := fifo_width f in
  let w := Z.shiftr b 1 in
  if (w >? 4) && negb (w =? 4) then inl DMA_ERR_PARM
  else
    let w := if w =? 4 then w - 1 else w in
    if truth (Z.land count (b - 1)) then inl DMA_ERR_PARM
    else
      let b := u8 (b * fifo_depth f) in
      if b >? size then inl DMA_ERR_PARM else inr w.

Definition cfg_word (c : dma_cfg_t) (burst swidth dwidth : Z) : Z :=
  Z.lor (Z.lor (Z.lor (DMA_CFG_BURST burst)
    (if truth (cfg_flush c) then DMA_CFG_FLUSH else 0))
    (if truth (fifo_width (cfg_src c)) then DMA_CFG_SRC swidth (fifo_req (cfg_src c)) else 0))
    (if truth (fifo_width (cfg_dst c)) then DMA_CFG_DST dwidth (fifo_req (cfg_dst c)) else 0).

(** The checks of [dma_cfg]: burst and the codings of both widths. *)
Definition check_cfg (size : Z) (c : dma_cfg_t) : dma_err_e + Z * Z * Z :=
  let swidth := fifo_width (cfg_src c) in
  let dwidth := fifo_width (cfg_dst c) in
  if DMA_WIDTH_ERR swidth || DMA_WIDTH_ERR dwidth then inl DMA_ERR_PARM
  else if truth swidth && truth dwidth &&
          (negb (swidth =? dwidth) || negb (fifo_depth (cfg_src c) =? fifo_depth (cfg_dst c)))
  then inl DMA_ERR_PARM
  else
    match (if truth swidth then
             match dma_fifoparm (cfg_src c) size (cfg_count c) with
             | inl e => inl e
             | inr w => inr (u8 (fifo_width (cfg_src c) * fifo_depth (cfg_src c)), w) end
           else inr (64, swidth)) with
    | inl e => inl e
    | inr (burst, swidth) =>
        if truth dwidth then
          match dma_fifoparm (cfg_dst c) size (cfg_count c) with
          | inl e => inl e
          | inr w => inr (u8 (fifo_width (cfg_dst c) * fifo_depth (cfg_dst c)), swidth, w) end
        else inr (burst, swidth, dwidth)
    end.

Class DmaClient (W : Type) := { dma_callback : Z -> dma_evt_e -> M (W * dma_t) unit }.
(** Fuel of the wait for a channel to reset. *)
Class DmaConfig := { dma_fuel : nat }.

Section Dma.
Context {W : Type} `{Bus W}.

Definition dma_reset : M (W * dma_t) dma_err_e :=
  let! t := get_t in let r := dma_r t in
  io (io_wr32 (r + dma_ctl) (Z.lor DMA_CTL_RST DMA_CTL_EN)) ;;
  let! e := io (poll_timeout DMA_TIMEOUT (r + dma_ctl) DMA_CTL_RST DMA_ERR_NONE DMA_ERR_HW) in
  match e with
  | DMA_ERR_NONE => io (io_wr32 (r + dma_ctl) 0) ;; ret DMA_ERR_NONE
  | e => ret e
  end.

Definition dma_init : M (W * dma_t) dma_err_e :=
  let! t := get_t in let r := dma_r t in
  let! id := io (io_rd32 (r + dma_id)) in
  if negb (DMA_ID_CLID id =? DMAC_CLID) || negb (DMA_ID_DSGNR id =? DMAC_DSGNR) then ret DMA_ERR_HW
  else
    let! err := dma_reset in
    match err with
    | DMA_ERR_NONE =>
        let! caps := io (io_rd32 (r + dma_cap)) in
        upd_t (set_caps (u8 (DMA_CAP_CHN caps)) (u8 (DMA_CAP_FIFOSZ caps))) ;;
        let! t := get_t in
        (if dma_channels t >? DMA_MAX_CHANNELS
         then upd_t (set_caps DMA_MAX_CHANNELS (dma_fifosize t)) else ret tt) ;;
        io (io_wr32 (r + dma_ctl) (Z.lor (Z.lor (DMA_CTL_WAIT (dma_waitdelay t))
             (if truth (dma_priority t) then DMA_CTL_PRI else 0)) DMA_CTL_EN)) ;;
        ret DMA_ERR_NONE
    | e => ret e
    end.

Definition dma_free (ch : Z) : M (W * dma_t) Z :=
  let! t := get_t in
  io (io_wr32 (ch_addr (dma_r t) ch + ch_cfg) DMA_CFG_RST) ;;
  upd_t (fun t => set_used (Z.land (dma_used t) (u32 (Z.lnot (DMA_CH_IDX ch)))) t) ;;
  ret 0.

Definition dma_cfg (ch : Z) (c : dma_cfg_t) : M (W * dma_t) dma_err_e :=
  let! t := get_t in let chr := ch_addr (dma_r t) ch in
  let! err :=
    (if cfg_flag c =? DMA_F_ALL then
       match check_cfg (dma_fifosize t) c with
       | inl e => ret (Some e)
       | inr (burst, swidth, dwidth) =>
           let! e := assert_some OutOfBounds (arr_set (dma_evt t) ch (cfg_evt c)) in
           upd_t (set_evt e) ;;
           io (io_wr32 (chr + ch_cfg) (cfg_word c burst swidth dwidth)) ;;
           ret None
       end
     else ret None) in
  match err with
  | Some e => ret e
  | None =>
      (if truth (Z.land (cfg_flag c) DMA_F_SRCADDR) then io (io_wr32 (chr + ch_saddr) (cfg_saddr c)) else ret tt) ;;
      (if truth (Z.land (cfg_flag c) DMA_F_DSTADDR) then io (io_wr32 (chr + ch_daddr) (cfg_daddr c)) else ret tt) ;;
      (if truth (Z.land (cfg_flag c) DMA_F_COUNT) then io (io_wr32 (chr + ch_count) (cfg_count c)) else ret tt) ;;
      ret DMA_ERR_NONE
  end.

Definition dma_alloc : M (W * dma_t) Z :=
  let! t := get_t in
  let! r := for_range 0 (dma_channels t) (fun ch =>
    let! t := get_t in
    if negb (truth (Z.land (dma_used t) (DMA_CH_IDX ch))) then
      upd_t (fun t => set_used (Z.lor (dma_used t) (DMA_CH_IDX ch)) t) ;; ret (Some ch)
    else ret None) in
  ret match r with Some ch => ch | None => -1 end.

Definition dma_request (c : dma_cfg_t) : M (W * dma_t) Z :=
  if negb (cfg_flag c =? DMA_F_ALL) then ret (dma_err_code DMA_ERR_CFG)
  else
    let! ch := dma_alloc in
    if ch <? 0 then ret (dma_err_code DMA_ERR_FULL)
    else
      let! rt := dma_cfg ch c in
      match rt with
      | DMA_ERR_NONE =>
          let! t := get_t in let r := dma_r t in
          let! ier := io (io_rd32 (r + dma_ier)) in
          io (io_wr32 (r + dma_ier) (Z.lor ier (DMA_CH_IDX ch))) ;;
          io (io_wr32 (ch_addr r ch + ch_ier) (Z.lor DMA_IRQ_ERR DMA_IRQ_DONE)) ;;
          ret ch
      | e => dma_free ch ;; ret (dma_err_code e)
      end.

Definition dma_enable (ch : Z) : M (W * dma_t) dma_err_e :=
  let! t := get_t in let chr := ch_addr (dma_r t) ch in
  upd_t (fun t => set_active (Z.lor (dma_active t) (DMA_CH_IDX ch)) t) ;;
  let! cfg := io (io_rd32 (chr + ch_cfg)) in
  io (io_wr32 (chr + ch_cfg) (Z.lor cfg DMA_CFG_EN)) ;;
  ret DMA_ERR_NONE.

(** Answers the error and what [*count] gets. *)
Definition dma_abort (ch : Z) : M (W * dma_t) (dma_err_e * option Z) :=
  let! t := get_t in let chr := ch_addr (dma_r t) ch in
  if (ch >? dma_channels t - 1) || (ch <? 0) then ret (DMA_ERR_PARM, None)
  else if negb (truth (Z.land (dma_active t) (DMA_CH_IDX ch))) then ret (DMA_ERR_NONE, Some 0)
  else
    let! cfg := io (io_rd32 (chr + ch_cfg)) in
    io (io_wr32 (chr + ch_cfg) (Z.lor cfg DMA_CFG_DIS)) ;;
    upd_t (fun t => set_active (Z.land (dma_active t) (u32 (Z.lnot (DMA_CH_IDX ch)))) t) ;;
    let! count := io (io_rd32 (chr + ch_count)) in
    ret (DMA_ERR_NONE, Some count).

Definition dma_exit : M (W * dma_t) dma_err_e := dma_reset.

Context `{DmaClient W} `{DmaConfig}.

(** One pending channel. *)
Definition isr_channel (r sta ch : Z) : M (W * dma_t) Z :=
  if negb (truth (Z.land sta (DMA_CH_IDX ch))) then ret 0
  else
    let chr := ch_addr r ch in
    let! csta := io (io_rd32 (chr + ch_isr)) in
    if csta =? 0 then ret 0
    else
      upd_t (fun t => set_active (Z.land (dma_active t) (u32 (Z.lnot (DMA_CH_IDX ch)))) t) ;;
      (if truth (Z.land csta DMA_IRQ_ERR) then
         io (io_rd32 (chr + ch_count)) ;;
         io (io_wr32 (chr + ch_cfg) DMA_CFG_RST) ;;
         io (poll_clear dma_fuel (chr + ch_cfg) DMA_CFG_RST)
       else ret tt) ;;
      let! t := get_t in
      let! e := assert_some OutOfBounds (arr_get (dma_evt t) ch) in
      dma_callback e (if truth (Z.land csta DMA_IRQ_ERR) then DMA_EV_ERR else DMA_EV_DONE) ;;
      ret 1.

Definition dma_isr : M (W * dma_t) bool :=
  let! t := get_t in let r := dma_r t in
  let! sta := io (io_rd32 (r + dma_isr_reg)) in
  if sta =? 0 then ret false
  else
    io (io_wr32 (r + dma_isr_reg) sta) ;;
    let! t := get_t in
    let! h := for_local 0 (dma_channels t) 0 (fun ch handled =>
      let! n := isr_channel r sta ch in ret (inl (handled + n) : Z + Z)) in
    ret match h with inl n => truth n | inr n => truth n end.
End Dma.
