(* ===== verification/MagusDmaSpec.v ===== *)
(** * Channels of the DMA controller

    Requesting and freeing channels, stated on the context and on the exact
    sequence of register accesses, so that nothing is assumed of the hardware;
    and the checks of the FIFO parameters against what they are documented to
    mean. *)

From Stdlib Require Import ZArith Lia Bool.
From stdpp Require Import base numbers list.
From S2P Require Import Prelude CMonad DevIO MagusDma.

Section Alloc.
Context {W : Type} `{Bus W}.
Implicit Types (w : W) (t : dma_t) (ch : Z).

Definition in_use t ch : bool := Z.testbit (dma_used t) ch.

Lemma truth_idx x ch : 0 <= ch -> truth (Z.land x (DMA_CH_IDX ch)) = Z.testbit x ch.
Proof.
  intros Hc. unfold DMA_CH_IDX. rewrite Z.shiftl_1_l. unfold truth. destruct (Z.testbit x ch) eqn:E.
  - apply negb_true_iff, Z.eqb_neq. intros H0.
    assert (H1 : Z.testbit (Z.land x (2 ^ ch)) ch = true) by by rewrite Z.land_spec, E, Z.pow2_bits_true.
    by rewrite H0, Z.bits_0 in H1.
  - apply negb_false_iff, Z.eqb_eq, bits_ext. intros i Hi. rewrite Z.land_spec, Z.bits_0, Z.pow2_bits_eqb by lia.
    destruct (ch =? i) eqn:Ei; zbool; [by subst; rewrite E|apply andb_false_r].
Qed.

(** The lowest channel that is not in use, if there is one. *)
Definition lowest_free t ch : Prop :=
  0 <= ch < dma_channels t /\ in_use t ch = false /\ forall j, 0 <= j < ch -> in_use t j = true.
Definition all_used t : Prop := forall j, 0 <= j < dma_channels t -> in_use t j = true.

Definition take_ch ch t : dma_t := set_used (Z.lor (dma_used t) (DMA_CH_IDX ch)) t.

Lemma alloc_hit w t ch : lowest_free t ch -> dma_alloc (w, t) = Done ch (w, take_ch ch t).
Proof.
  intros (Hch & Hfree & Hlow). unfold dma_alloc, bind at 1, get_t at 1, gets at 1. cbn [snd].
  unfold bind at 1. erewrite (for_range_hit _ (w, t) (w, take_ch ch t) 0 ch); [done| |lia|].
  - intros j Hj. unfold bind, get_t, gets. cbn [snd]. rewrite truth_idx by lia.
    pose proof (Hlow j Hj) as E. unfold in_use in E. by rewrite E.
  - unfold bind, get_t, gets, upd_t, modify, ret. cbn [fst snd]. rewrite truth_idx by lia.
    unfold in_use in Hfree. by rewrite Hfree.
Qed.

Lemma alloc_miss w t : all_used t -> dma_alloc (w, t) = Done (-1) (w, t).
Proof.
  intros Hall. unfold dma_alloc, bind at 1, get_t at 1, gets at 1. cbn [snd].
  unfold bind at 1. rewrite (for_range_miss _ (w, t)); [done|].
  intros j Hj. unfold bind, get_t, gets. cbn [snd]. rewrite truth_idx by lia.
  pose proof (Hall j Hj) as E. unfold in_use in E. by rewrite E.
Qed.

Lemma free_taken u ch : in_u32 u -> 0 <= ch < 32 -> Z.testbit u ch = false ->
  Z.land (Z.lor u (DMA_CH_IDX ch)) (u32 (Z.lnot (DMA_CH_IDX ch))) = u.
Proof.
  intros Hu Hc Hf. unfold DMA_CH_IDX. rewrite Z.shiftl_1_l. apply bits_ext. intros i Hi.
  rewrite Z.land_spec, Z.lor_spec, u32_bits, Z.lnot_spec, Z.pow2_bits_eqb by lia.
  destruct (ch =? i) eqn:E; zbool; [subst i; rewrite Hf; by rewrite andb_false_r, andb_false_r|].
  rewrite orb_false_r, andb_true_r. destruct (i <? 32) eqn:E'; zbool; [by rewrite andb_true_r|].
  by rewrite (high_bit u), andb_false_l by done.
Qed.

(** ** The register accesses of a request *)

(** Configuring channel [ch]. *)
Definition cfg_writes t ch (c : dma_cfg_t) (burst sw dw : Z) w : W :=
  let a := ch_addr (dma_r t) ch in
  bus_wr (a + ch_count) (u32 (cfg_count c)) (bus_wr (a + ch_daddr) (u32 (cfg_daddr c))
    (bus_wr (a + ch_saddr) (u32 (cfg_saddr c)) (bus_wr (a + ch_cfg) (u32 (cfg_word c burst sw dw)) w))).
(** Enabling its interrupt. *)
Definition irq_writes t ch w : W :=
  let '(v, w') := bus_rd (dma_r t + dma_ier) w in
  bus_wr (ch_addr (dma_r t) ch + ch_ier) (u32 (Z.lor DMA_IRQ_ERR DMA_IRQ_DONE))
    (bus_wr (dma_r t + dma_ier) (u32 (Z.lor (u32 v) (DMA_CH_IDX ch))) w').

Lemma dma_cfg_ok t ch c w burst sw dw : cfg_flag c = DMA_F_ALL -> 0 <= ch < arr_len (dma_evt t) ->
  check_cfg (dma_fifosize t) c = inr (burst, sw, dw) ->
  dma_cfg ch c (w, t) = Done DMA_ERR_NONE
    (cfg_writes t ch c burst sw dw w, set_evt (<[Z.to_nat ch := cfg_evt c]> (dma_evt t)) t).
Proof.
  intros Hf Hch Hc. unfold dma_cfg, bind, get_t, gets. cbn [snd]. rewrite Hf, Z.eqb_refl, Hc.
  unfold assert_some. rewrite arr_set_in by done. done.
Qed.
Lemma dma_cfg_err t ch c w e : cfg_flag c = DMA_F_ALL -> check_cfg (dma_fifosize t) c = inl e ->
  dma_cfg ch c (w, t) = Done e (w, t).
Proof. intros Hf Hc. unfold dma_cfg, bind, get_t, gets. cbn [snd]. by rewrite Hf, Z.eqb_refl, Hc. Qed.

Lemma fifoparm_err f size count e : dma_fifoparm f size count = inl e -> e = DMA_ERR_PARM.
Proof. unfold dma_fifoparm. repeat case_match; congruence. Qed.
Lemma check_cfg_err size c e : check_cfg size c = inl e -> e = DMA_ERR_PARM.
Proof.
  unfold check_cfg. intros Hc.
  repeat case_match; simplify_eq; try done; eauto using fifoparm_err.
Qed.

Lemma request_full t c w : cfg_flag c = DMA_F_ALL -> all_used t ->
  dma_request c (w, t) = Done (dma_err_code DMA_ERR_FULL) (w, t).
Proof.
  intros Hf Hall. unfold dma_request. rewrite Hf, Z.eqb_refl. cbn [negb]. unfold bind at 1. by rewrite alloc_miss.
Qed.

Lemma request_refused t c w ch e : in_u32 (dma_used t) -> dma_channels t <= 32 -> cfg_flag c = DMA_F_ALL ->
  lowest_free t ch -> check_cfg (dma_fifosize t) c = inl e ->
  dma_request c (w, t) = Done (dma_err_code DMA_ERR_PARM) (bus_wr (ch_addr (dma_r t) ch + ch_cfg) DMA_CFG_RST w, t).
Proof.
  intros Hu Hmax Hf Hlow Ec. pose proof Hlow as (Hch & Hfree & _). pose proof (check_cfg_err _ _ _ Ec) as ->.
  unfold dma_request. rewrite Hf, Z.eqb_refl. cbn [negb]. unfold bind at 1. rewrite (alloc_hit w t ch Hlow).
  destruct (ch <? 0) eqn:E0; zbool; [lia|].
  unfold bind at 1. rewrite (dma_cfg_err (take_ch ch t) ch c w DMA_ERR_PARM Hf Ec).
  unfold dma_free, bind, get_t, gets, io, zoom, io_wr32, upd_t, modify, ret. cbn [fst snd dma_r take_ch set_used].
  cbn [dma_used dma_waitdelay dma_priority dma_evt dma_channels dma_fifosize dma_active dma_r].
  change (u32 DMA_CFG_RST) with DMA_CFG_RST. f_equal. f_equal. unfold set_used, take_ch. cbn.
  rewrite free_taken by (done || lia). by destruct t.
Qed.

Definition granted t ch (c : dma_cfg_t) : dma_t :=
  set_evt (<[Z.to_nat ch := cfg_evt c]> (dma_evt t)) (take_ch ch t).

Lemma request_granted t c w ch burst sw dw : dma_channels t <= 32 -> arr_len (dma_evt t) = 32 ->
  cfg_flag c = DMA_F_ALL -> lowest_free t ch -> check_cfg (dma_fifosize t) c = inr (burst, sw, dw) ->
  dma_request c (w, t) = Done ch (irq_writes t ch (cfg_writes t ch c burst sw dw w), granted t ch c).
Proof.
  intros Hmax Hevt Hf Hlow Ec. pose proof Hlow as (Hch & Hfree & _).
  unfold dma_request. rewrite Hf, Z.eqb_refl. cbn [negb]. unfold bind at 1. rewrite (alloc_hit w t ch Hlow).
  destruct (ch <? 0) eqn:E0; zbool; [lia|].
  unfold bind at 1. rewrite (dma_cfg_ok (take_ch ch t) ch c w burst sw dw Hf); [|cbn; lia|exact Ec].
  unfold irq_writes, bind, get_t, gets, io, zoom, io_rd32, io_wr32, modify, ret. cbn [fst snd].
  change (dma_r (set_evt _ (take_ch ch t))) with (dma_r t).
  change (cfg_writes (take_ch ch t) ch c burst sw dw w) with (cfg_writes t ch c burst sw dw w).
  by destruct (bus_rd (dma_r t + dma_ier) (cfg_writes t ch c burst sw dw w)) as [v w'].
Qed.

Lemma all_used_or_free t : 0 <= dma_channels t -> all_used t \/ exists k, lowest_free t k.
Proof.
  intros Hpos. assert (Hn : forall n : nat, Z.of_nat n <= dma_channels t ->
      (forall j, 0 <= j < Z.of_nat n -> in_use t j = true) \/ exists k, lowest_free t k).
  { induction n as [|n IH]; intros Hn; [left; lia|]. destruct IH as [IH|IH]; [lia| |by right].
    destruct (in_use t (Z.of_nat n)) eqn:E; [|right; exists (Z.of_nat n); split_and!; [lia|lia|done|done]].
    left. intros j Hj. destruct (decide (j = Z.of_nat n)) as [->|]; [done|]. apply IH. lia. }
  destruct (Hn (Z.to_nat (dma_channels t))) as [Hall|Hex]; [lia| |by right].
  left. intros j Hj. apply Hall. lia.
Qed.

(** C35. [dma_request] gives out the lowest channel that is not in use, marks it
    used, stores the client's callback, and writes exactly the registers of
    that channel and its interrupt enable; when all channels are in use it
    answers DMA_ERR_FULL and does nothing; when the parameters are refused it
    answers the error with the channel reset and free again. *)
Theorem dma_request_correct t c w : in_u32 (dma_used t) -> dma_channels t <= 32 -> arr_len (dma_evt t) = 32 ->
  cfg_flag c = DMA_F_ALL ->
  (all_used t -> dma_request c (w, t) = Done (dma_err_code DMA_ERR_FULL) (w, t)) /\
  forall ch, lowest_free t ch ->
    match check_cfg (dma_fifosize t) c with
    | inl e => dma_request c (w, t) =
        Done (dma_err_code DMA_ERR_PARM) (bus_wr (ch_addr (dma_r t) ch + ch_cfg) DMA_CFG_RST w, t)
    | inr (burst, sw, dw) => dma_request c (w, t) =
        Done ch (irq_writes t ch (cfg_writes t ch c burst sw dw w), granted t ch c)
    end.
Proof.
  intros Hu Hmax Hevt Hf. split; [by apply request_full|]. intros ch Hlow.
  destruct (check_cfg (dma_fifosize t) c) as [e|[[burst sw] dw]] eqn:Ec;
    [by apply (request_refused t c w ch e)|by apply request_granted].
Qed.

(** A channel freed after a request is free again and nothing else of the
    bitmap changed: it is the one the next request gets. *)
Theorem dma_request_free t c w ch w1 t1 : in_u32 (dma_used t) -> 0 <= dma_channels t <= 32 ->
  arr_len (dma_evt t) = 32 -> 0 <= ch -> dma_request c (w, t) = Done ch (w1, t1) ->
  exists w2 t2, dma_free ch (w1, t1) = Done 0 (w2, t2) /\ dma_used t2 = dma_used t /\ lowest_free t2 ch.
Proof.
  intros Hu [Hpos Hmax] Hevt Hch Hreq.
  assert (Hf : cfg_flag c = DMA_F_ALL).
  { unfold dma_request in Hreq. destruct (cfg_flag c =? DMA_F_ALL) eqn:E; zbool; [done|].
    cbn in Hreq. injection Hreq as E' _. subst ch. lia. }
  destruct (all_used_or_free t Hpos) as [Hall|[k Hlow]].
  { rewrite request_full in Hreq by done. injection Hreq as <- _. by cbn in Hch. }
  destruct (check_cfg (dma_fifosize t) c) as [e|[[burst sw] dw]] eqn:Ec.
  { rewrite (request_refused t c w k e) in Hreq by done. injection Hreq as <- _. by cbn in Hch. }
  rewrite (request_granted t c w k burst sw dw) in Hreq by done. injection Hreq as <- _ <-.
  pose proof Hlow as (Hk & Hfree & Hl). do 2 eexists. split; [reflexivity|].
  assert (Hused : dma_used (set_used (Z.land (dma_used (granted t k c)) (u32 (Z.lnot (DMA_CH_IDX k)))) (granted t k c)) = dma_used t)
    by (cbn; by apply free_taken; [|lia|]).
  cbn [fst snd]. split; [exact Hused|]. unfold lowest_free, in_use. rewrite Hused. cbn. done.
Qed.

(** ** The parameters of a FIFO *)

Definition legal_width (x : Z) : Prop := x = 1 \/ x = 2 \/ x = 4 \/ x = 8.

Lemma width_mask x n : legal_width x -> truth (Z.land n (x - 1)) = negb (n mod x =? 0).
Proof.
  unfold truth. intros [->|[->|[->| ->]]].
  - change (1 - 1) with 0. by rewrite Z.land_0_r, Z.mod_1_r.
  - change (2 - 1) with (Z.ones 1). by rewrite Z.land_ones.
  - change (4 - 1) with (Z.ones 2). by rewrite Z.land_ones.
  - change (8 - 1) with (Z.ones 3). by rewrite Z.land_ones.
Qed.

(** For the access sizes 1, 2, 4 and 8 [_dma_fifoparm] accepts a FIFO
    exactly when the count is a multiple of the size and the burst, _taken
    modulo 256_, fits the FIFO, and codes the size in binary; so bursts of 256
    bytes and more are accepted although no FIFO is that deep, and size 7,
    which [dma_cfg] lets pass, is treated as 8. *)
Theorem fifoparm_correct f size count : 0 <= fifo_depth f < 256 -> 0 <= count ->
  (legal_width (fifo_width f) ->
    dma_fifoparm f size count =
      if (count mod fifo_width f =? 0) && ((fifo_width f * fifo_depth f) mod 256 <=? size)
      then inr (Z.log2 (fifo_width f)) else inl DMA_ERR_PARM) /\
  (fifo_width f = 7 -> DMA_WIDTH_ERR (fifo_width f) = false /\
    (Z.land count 6 = 0 -> (7 * fifo_depth f) mod 256 <= size -> dma_fifoparm f size count = inr 3)).
Proof.
  intros Hd Hn. split.
  - intros Hw. unfold dma_fifoparm. cbn zeta. rewrite (width_mask _ count Hw).
    unfold u8. change (2 ^ 8) with 256. rewrite !Z.gtb_ltb.
    assert (Hsz : (size <? (fifo_width f * fifo_depth f) mod 256) = negb ((fifo_width f * fifo_depth f) mod 256 <=? size)).
    { rewrite Z.leb_antisym. by rewrite negb_involutive. }
    rewrite Hsz. generalize ((fifo_width f * fifo_depth f) mod 256 <=? size) as fits.
    generalize (count mod fifo_width f =? 0) as even. intros even fits.
    destruct Hw as [E|[E|[E|E]]]; rewrite E; by destruct even, fits.
  - intros E. rewrite E. split; [done|]. intros Hc Hs. unfold dma_fifoparm. cbn zeta. rewrite E. change (7 - 1) with 6. rewrite Hc.
    unfold u8. change (2 ^ 8) with 256. rewrite !Z.gtb_ltb. revert Hs. generalize ((7 * fifo_depth f) mod 256) as m.
    intros m Hs. cbn. destruct (size <? m) eqn:Es; zbool; [lia|done].
Qed.
End Alloc.

(** ** A controller of eight channels *)
#[local] Instance dma_bus : Bus sim := sim_bus (fun _ => 0) 0.
Definition dma_t0 : dma_t := Dma 0xF0013000 0 0 (replicate 32 0) 8 64 0x0b 0.
Definition uart_cfg : dma_cfg_t := DmaCfg DMA_F_ALL 0x1000 0x2000 96 (Fifo 4 8 3) (Fifo 0 0 0) 7 0.

Lemma dma_lowest0 : lowest_free dma_t0 2.
Proof. split_and!; [done..|]. intros j Hj. assert (j = 0 \/ j = 1) as [-> | ->] by lia; done. Qed.

Lemma dma_request_correct_witness :
  exists w' t', dma_request uart_cfg (Sim [] 0, dma_t0) = Done 2 (w', t') /\ dma_used t' = 0x0f.
Proof.
  destruct (dma_request_correct dma_t0 uart_cfg (Sim [] 0)) as [_ H]; [by vm_compute..|].
  specialize (H 2 dma_lowest0). cbn [check_cfg] in H. do 2 eexists. split; [exact H|]. by vm_compute.
Defined.

Lemma dma_request_free_witness :
  exists w1 t1 w2 t2, dma_request uart_cfg (Sim [] 0, dma_t0) = Done 2 (w1, t1) /\
    dma_free 2 (w1, t1) = Done 0 (w2, t2) /\ dma_used t2 = 0x0b.
Proof.
  assert (Hr : exists w1 t1, dma_request uart_cfg (Sim [] 0, dma_t0) = Done 2 (w1, t1)) by (do 2 eexists; vm_compute; reflexivity).
  destruct Hr as (w1 & t1 & Hr).
  destruct (dma_request_free dma_t0 uart_cfg (Sim [] 0) 2 w1 t1) as (w2 & t2 & H1 & H2 & _);
    [by vm_compute..|exact Hr|]. exists w1, t1, w2, t2. split; [exact Hr|]. split; [exact H1|exact H2].
Defined.

(** Eight-byte accesses in bursts of 32: 256 bytes pass as 0. *)
Lemma fifoparm_correct_witness : dma_fifoparm (Fifo 8 32 0) 32 1024 = inr 3.
Proof.
  destruct (fifoparm_correct (Fifo 8 32 0) 32 1024) as [H _]; [by vm_compute..|].
  rewrite H by (right; right; by right). by vm_compute.
Defined.
