(* ===== verification/MagusGpt.v ===== *)
(** * The general purpose timer and the system timer

    [arch/arm/mach-magus/gpt.c] with [gptr.h] and [gpt.h], and the two uses
    [time.c] makes of it.  The state is the world behind the bus and the
    context [gpt_t].  An event callback of a client is a number, 0 for the null
    pointer; what it does is the parameter [gpt_callback].  [_DO_RESET] is not
    defined in the source, and of the two bodies of [gpt_setclk] the one that
    is compiled is translated. *)

From Stdlib Require Import ZArith Lia Bool.
From stdpp Require Import base numbers list.
From S2P Require Import Prelude CMonad DevIO MagusGpio.

Definition GPT_CLID : Z := 0x0802.
Definition GPT_TIMEOUT : nat := 300.

(** [gpt_reg_t]: offsets of the registers. *)
Definition gpt_idr : Z := 0.
Definition gpt_ctrl : Z := 8.
Definition gpt_ier : Z := 12.
Definition gpt_isr_reg : Z := 16.
Definition gpt_pslr : Z := 20.
Definition gpt_cnt : Z := 24.
Definition gpt_comp : Z := 28.
Definition gpt_capt : Z := 32.

Definition GPT_ID_CLID (d : Z) : Z := Z.shiftr d 16.
Definition GPT_ID_MAJ (d : Z) : Z := Z.land (Z.shiftr d 6) 0x0F.
Definition GPT_ID_MIN (d : Z) : Z := Z.land d 0x3F.
Definition GPT_CTRL_RST : Z := Z.shiftl 1 1.
Definition GPT_CTRL_EN : Z := 1.
Definition GPT_CTRL_DIS : Z := 0.
Definition GPT_CTRL_CAPEN : Z := Z.shiftl 1 11.
Definition GPT_CTRL_COMPEN : Z := Z.shiftl 1 10.
Definition GPT_CTRL_CLKSEL : Z := Z.shiftl 3 8.
Definition GPT_CTRL_EDGEDET : Z := Z.shiftl 3 5.
Definition GPT_CTRL_FRS : Z := Z.shiftl 1 3.
Definition GPT_INT_COMP : Z := 1.
Definition GPT_INT_CAP : Z := Z.shiftl 1 1.

Inductive gpt_err_e := GPT_ERR_NONE | GPT_ERR_HW | GPT_ERR_PARM | GPT_ERR_CFG.
Definition gpt_err_code (e : gpt_err_e) : Z :=
  match e with GPT_ERR_NONE => 0 | GPT_ERR_HW => -1 | GPT_ERR_PARM => -2 | GPT_ERR_CFG => -3 end.
Inductive gpt_evt_e := GPT_EV_COMP | GPT_EV_CAP.
Definition GPT_M_SYSTEM : Z := 1.
Definition GPT_M_PROFILE : Z := Z.shiftl 1 1.
Definition GPT_M_CAPTURE : Z := Z.shiftl 1 2.
Definition GPT_CLK_PER : Z := 1.

Record gpt_callback_t := GptCb { cb_ctx : Z; cb_evt : Z }.
Record gpt_t := Gpt {
  gpt_reg : Z; gpt_apbclk : Z; gpt_perclk : Z; gpt_clk32k : Z;
  gpt_cb : gpt_callback_t; gpt_freq : Z; gpt_major : Z; gpt_minor : Z; gpt_mode : Z; gpt_usage : Z }.
Definition set_clk32k (c : Z) (t : gpt_t) : gpt_t :=
  Gpt (gpt_reg t) (gpt_apbclk t) (gpt_perclk t) c (gpt_cb t) (gpt_freq t) (gpt_major t) (gpt_minor t) (gpt_mode t) (gpt_usage t).
Definition set_cb (c : gpt_callback_t) (t : gpt_t) : gpt_t :=
  Gpt (gpt_reg t) (gpt_apbclk t) (gpt_perclk t) (gpt_clk32k t) c (gpt_freq t) (gpt_major t) (gpt_minor t) (gpt_mode t) (gpt_usage t).
Definition set_freq (f : Z) (t : gpt_t) : gpt_t :=
  Gpt (gpt_reg t) (gpt_apbclk t) (gpt_perclk t) (gpt_clk32k t) (gpt_cb t) f (gpt_major t) (gpt_minor t) (gpt_mode t) (gpt_usage t).
Definition set_version (a i : Z) (t : gpt_t) : gpt_t :=
  Gpt (gpt_reg t) (gpt_apbclk t) (gpt_perclk t) (gpt_clk32k t) (gpt_cb t) (gpt_freq t) a i (gpt_mode t) (gpt_usage t).
Definition set_mode (m : Z) (t : gpt_t) : gpt_t :=
  Gpt (gpt_reg t) (gpt_apbclk t) (gpt_perclk t) (gpt_clk32k t) (gpt_cb t) (gpt_freq t) (gpt_major t) (gpt_minor t) m (gpt_usage t).
(** [usage] is a [uint8_t]. *)
Definition set_usage (u : Z) (t : gpt_t) : gpt_t :=
  Gpt (gpt_reg t) (gpt_apbclk t) (gpt_perclk t) (gpt_clk32k t) (gpt_cb t) (gpt_freq t) (gpt_major t) (gpt_minor t) (gpt_mode t) (u8 u).

Record gpt_clk_t := GptClk { clksel : Z; clk_pslr : Z; comp_val : Z }.

Class GptClient (W : Type) := { gpt_callback : Z -> Z -> gpt_evt_e -> M (W * gpt_t) unit }.
(** Fuel of the waits for the counter, and the contents an uninitialised local
    [gpt_clk_t] happens to have. *)
Class GptConfig := { gpt_fuel : nat; gpt_junk : gpt_clk_t }.

(** ** Choosing prescaler and compare value *)
Definition clk_limit (mode lim : Z) : Z :=
  if mode =? GPT_M_SYSTEM then Z.shiftr lim 5
  else if mode =? GPT_M_CAPTURE then Z.shiftr lim 4 else lim.

Definition gpt_setclk {S} (t : gpt_t) (mode : Z) (clkparm : gpt_clk_t) : M S (gpt_err_e * gpt_clk_t) :=
  let f := gpt_freq t in
  if f >? clk_limit mode (Z.min (gpt_perclk t) (gpt_apbclk t)) then ret (GPT_ERR_PARM, clkparm)
  else
    let! N := udiv (gpt_perclk t) f in
    ret (GPT_ERR_NONE,
      if mode =? GPT_M_SYSTEM then GptClk GPT_CLK_PER 0 (u32 (N - 1))
      else GptClk GPT_CLK_PER (u16 ((if truth (Z.shiftr N 11) then Z.shiftl 1 11 else N) - 1)) (comp_val clkparm)).

Section Gpt.
Context {W : Type} `{Bus W}.
Notation G := (M (W * gpt_t)).

Definition rd (off : Z) : G Z := let! t := get_t in io (io_rd32 (gpt_reg t + off)).
Definition wr (off d : Z) : G unit := let! t := get_t in io (io_wr32 (gpt_reg t + off) d).

Definition gpt_reset : G gpt_err_e :=
  wr gpt_ctrl GPT_CTRL_EN ;;
  wr gpt_ctrl (Z.lor GPT_CTRL_RST GPT_CTRL_EN) ;;
  let! t := get_t in
  io (poll_timeout GPT_TIMEOUT (gpt_reg t + gpt_ctrl) GPT_CTRL_RST GPT_ERR_NONE GPT_ERR_HW).

Definition gpt_init : G gpt_err_e :=
  let! t := get_t in
  (if negb (truth (gpt_clk32k t)) || (negb (gpt_clk32k t =? 32000) && negb (gpt_clk32k t =? 32768))
   then upd_t (set_clk32k 32000) else ret tt) ;;
  let! id := rd gpt_idr in
  if negb (GPT_ID_CLID id =? GPT_CLID) then ret GPT_ERR_HW
  else
    upd_t (set_version (GPT_ID_MAJ id) (GPT_ID_MIN id)) ;;
    let! err := gpt_reset in
    match err with
    | GPT_ERR_NONE =>
        let! comp := rd gpt_comp in
        if negb (comp =? u32 (Z.lnot 0)) then ret GPT_ERR_HW
        else
          wr gpt_ctrl GPT_CTRL_DIS ;;
          upd_t (set_usage 0) ;;
          ret GPT_ERR_NONE
    | _ => ret GPT_ERR_HW
    end.

Context `{GptConfig}.

(** The clock selection in the control register. *)
Definition clksel_bits (c : gpt_clk_t) : Z := Z.land (Z.shiftl (clksel c) 8) GPT_CTRL_CLKSEL.

Definition gpt_sys_start (freq : Z) : G Z :=
  upd_t (set_freq freq) ;;
  let! t := get_t in
  let! r := gpt_setclk t GPT_M_SYSTEM gpt_junk in
  match r with
  | (GPT_ERR_NONE, c) =>
      wr gpt_ctrl GPT_CTRL_EN ;;
      wr gpt_pslr (clk_pslr c) ;;
      wr gpt_ier GPT_INT_COMP ;;
      wr gpt_comp (comp_val c) ;;
      let ctrl := Z.lor (Z.lor GPT_CTRL_EN (clksel_bits c)) GPT_CTRL_COMPEN in
      upd_t (set_mode GPT_M_SYSTEM) ;;
      wr gpt_ctrl ctrl ;;
      ret (if clksel c =? GPT_CLK_PER then 1 else 0)
  | (err, _) => ret (gpt_err_code err)
  end.

(** Answers the error and what [*tick] gets. *)
Definition gpt_profile_start : G (gpt_err_e * option Z) :=
  let! t := get_t in
  let! err :=
    (if negb (truth (gpt_usage t)) then
       let! r := gpt_setclk t GPT_M_PROFILE gpt_junk in
       match r with
       | (GPT_ERR_NONE, c) =>
           wr gpt_ctrl GPT_CTRL_EN ;;
           wr gpt_pslr (clk_pslr c) ;;
           upd_t (set_mode GPT_M_PROFILE) ;;
           wr gpt_ctrl (Z.lor GPT_CTRL_EN (Z.lor (clksel_bits c) GPT_CTRL_FRS)) ;;
           ret GPT_ERR_NONE
       | (err, _) => ret err
       end
     else ret GPT_ERR_NONE) in
  match err with
  | GPT_ERR_NONE =>
      upd_t (fun t => set_usage (gpt_usage t + 1) t) ;;
      let! tick := rd gpt_cnt in
      ret (GPT_ERR_NONE, Some tick)
  | _ => ret (err, None)
  end.

(** [if (!(--(t->usage))) io_wr32(reg->ctrl, GPT_CTRL_DIS);] *)
Definition drop_usage : G unit :=
  upd_t (fun t => set_usage (gpt_usage t - 1) t) ;;
  let! t := get_t in
  if negb (truth (gpt_usage t)) then wr gpt_ctrl GPT_CTRL_DIS else ret tt.

Definition gpt_profile_end : G Z :=
  let! tick := rd gpt_cnt in
  drop_usage ;;
  ret tick.

Definition gpt_tick : G Z :=
  let! cnt := rd gpt_cnt in
  let! ticks := (if truth cnt then let! p := rd gpt_pslr in ret (u32 (p + 1)) else ret cnt) in
  let! isr := rd gpt_isr_reg in
  if truth (Z.land isr GPT_INT_COMP) then let! p := rd gpt_pslr in ret (u32 (ticks + (p + 1)))
  else ret ticks.

(** [while (stay(io_rd32(reg->cnt)));] *)
Definition wait_cnt (stay : Z -> bool) : G unit :=
  retry gpt_fuel (let! v := rd gpt_cnt in ret (if stay v then None else Some tt)).

Definition gpt_time_udelay (usec : Z) (callback : option gpt_callback_t) : G gpt_err_e :=
  match callback with
  | None =>
      let! r := gpt_profile_start in
      match r with
      | (GPT_ERR_NONE, Some cnt) =>
          let! t := get_t in
          let ticks := u32 (usec * gpt_freq t) / 1000000 in
          (if u32 (ticks + cnt) <? cnt then wait_cnt (fun v => v <=? u32 (Z.lnot 0)) else ret tt) ;;
          let cnt := u32 (cnt + ticks) in
          wait_cnt (fun v => v <? cnt) ;;
          gpt_profile_end ;;
          ret GPT_ERR_NONE
      | (err, _) => ret err
      end
  | Some callback =>
      let! t := get_t in
      let! r :=
        (if truth (gpt_usage t) then
           let! ctrl := rd gpt_ctrl in ret (inr (ctrl, gpt_junk))
         else
           let! r := gpt_setclk t GPT_M_PROFILE gpt_junk in
           match r with
           | (GPT_ERR_NONE, c) =>
               wr gpt_pslr (clk_pslr c) ;;
               ret (inr (Z.lor (Z.lor GPT_CTRL_EN (clksel_bits c)) GPT_CTRL_FRS, c))
           | (err, _) => ret (inl err)
           end) in
      match r with
      | inl err => ret err
      | inr (ctrl, c) =>
          upd_t (set_cb callback) ;;
          wr gpt_ier GPT_INT_COMP ;;
          let! cnt := rd gpt_cnt in
          wr gpt_comp (u32 (comp_val c + cnt)) ;;
          upd_t (set_mode GPT_M_PROFILE) ;;
          wr gpt_ctrl (Z.lor ctrl GPT_CTRL_COMPEN) ;;
          upd_t (fun t => set_usage (gpt_usage t + 1) t) ;;
          ret GPT_ERR_NONE
      end
  end.

Definition gpt_profile_capture (edgedet : Z) (callback : gpt_callback_t) : G (gpt_err_e * option Z) :=
  let! t := get_t in
  let! r :=
    (if truth (gpt_usage t) then let! ctrl := rd gpt_ctrl in ret (inr ctrl)
     else
       let! r := gpt_setclk t GPT_M_CAPTURE gpt_junk in
       match r with
       | (GPT_ERR_NONE, c) =>
           wr gpt_ctrl GPT_CTRL_EN ;;
           wr gpt_pslr (clk_pslr c) ;;
           upd_t (set_mode GPT_M_PROFILE) ;;
           ret (inr (Z.lor (Z.lor GPT_CTRL_EN (clksel_bits c)) GPT_CTRL_FRS))
       | (err, _) => ret (inl err)
       end) in
  match r with
  | inl err => ret (err, None)
  | inr ctrl =>
      upd_t (set_cb callback) ;;
      wr gpt_ier GPT_INT_CAP ;;
      let ctrl := Z.lor (Z.land ctrl (Z.lnot GPT_CTRL_EDGEDET)) (Z.shiftl edgedet 5) in
      wr gpt_ctrl (Z.lor ctrl GPT_CTRL_CAPEN) ;;
      upd_t (fun t => set_usage (gpt_usage t + 1) t) ;;
      let! tick := rd gpt_cnt in
      ret (GPT_ERR_NONE, Some tick)
  end.

Definition gpt_compare : G Z := rd gpt_comp.
Definition gpt_capture : G Z := rd gpt_capt.

Definition gpt_exit : G gpt_err_e :=
  let! err := gpt_reset in
  match err with
  | GPT_ERR_NONE => wr gpt_ctrl GPT_CTRL_DIS ;; ret GPT_ERR_NONE
  | _ => ret GPT_ERR_HW
  end.

Definition gpt_sys_ofs : G Z :=
  let! isr := rd gpt_isr_reg in
  if truth (Z.land isr GPT_INT_COMP) then wr gpt_isr_reg GPT_INT_COMP ;; ret 1 else ret 0.

Context `{GptClient W}.

(** [if (t->callback.evt) t->callback.evt(t->callback.ctx, evt);] *)
Definition call_back (evt : gpt_evt_e) : G unit :=
  let! t := get_t in
  if truth (cb_evt (gpt_cb t)) then gpt_callback (cb_evt (gpt_cb t)) (cb_ctx (gpt_cb t)) evt else ret tt.

Definition gpt_isr : G Z :=
  let! ier := rd gpt_ier in
  let! isr := rd gpt_isr_reg in
  let stat := Z.land ier isr in
  if stat =? 0 then ret 0
  else
    wr gpt_isr_reg stat ;;
    (if truth (Z.land stat GPT_INT_COMP) then
       call_back GPT_EV_COMP ;;
       let! t := get_t in
       if gpt_mode t =? GPT_M_PROFILE then drop_usage else ret tt
     else ret tt) ;;
    (if truth (Z.land stat GPT_INT_CAP) then
       let! ctrl := rd gpt_ctrl in
       wr gpt_ctrl (Z.land ctrl (Z.lnot (Z.lor GPT_CTRL_CAPEN GPT_CTRL_EDGEDET))) ;;
       let! ier := rd gpt_ier in
       wr gpt_ier (Z.land ier (Z.lnot GPT_INT_CAP)) ;;
       call_back GPT_EV_CAP ;;
       drop_usage
     else ret tt) ;;
    ret 1.

(** ** The system timer, [time.c] *)
Definition MAGUS_VIO_TMR : Z := 0xF0009000.
Definition SCRM_CLKMODE : Z := 0xF0000018.
Definition MNT32K : Z := 32768.

(** [gpt] is a global, zero but for what is set here; [apb] and [per1] are
    [MAGUS_CLK_APB] and [MAGUS_CLK_PER1] of the board. *)
Definition gpt0_init (apb per1 : Z) : G Z :=
  let! mode := io (io_rd32 SCRM_CLKMODE) in
  upd_t (fun t => Gpt MAGUS_VIO_TMR apb per1 (if truth (Z.land mode (Z.shiftl 1 16)) then 32000 else MNT32K)
    (gpt_cb t) (gpt_freq t) (gpt_major t) (gpt_minor t) (gpt_mode t) (gpt_usage t)) ;;
  gpt_init ;;
  gpt_sys_start 100.

Definition tmr_getofs : G Z := let! n := gpt_sys_ofs in ret (n * 10000).

(** The board is chosen at compile time: the ADS has a lamp on a pin, the FPGA
    one in a register; [timer_tick] is the kernel's; [count] is the static
    [_count], answered back. *)
Inductive magus_board := BoardADS | BoardFPGA | BoardOther.
Definition MAGUS_GPIO_TMRLED : Z := GPIO_NUM 5 13.
Definition CM_CTRL : Z := 0xF000000C.
Definition CM_CTRL_LED : Z := 1.

Definition tmr_isr (board : magus_board) (timer_tick : G unit) (count : Z) : G Z :=
  gpt_isr ;;
  timer_tick ;;
  let count := count + 1 in
  if match board with BoardADS => count =? 50 | _ => false end
  then io (gpio_set_value MAGUS_GPIO_TMRLED 1) ;; ret count
  else if count =? 100 then
    match board with
    | BoardFPGA => let! v := io (io_rd32 CM_CTRL) in io (io_wr32 CM_CTRL (Z.lxor v CM_CTRL_LED))
    | BoardADS => io (gpio_set_value MAGUS_GPIO_TMRLED 0)
    | BoardOther => ret tt
    end ;;
    ret 0
  else ret count.

(** [setup_irq] of the kernel comes after. *)
Definition tmr_init (board : magus_board) (apb per1 : Z) : G unit :=
  match board with
  | BoardADS => io (gpio_direction_output MAGUS_GPIO_TMRLED 0) ;; ret tt
  | _ => ret tt
  end ;;
  gpt0_init apb per1 ;; ret tt.
End Gpt.
