(* ===== verification/MagusGptSpec.v ===== *)
(** * What the timer does

    The registers keep what is written, but for the counter, the interrupt
    status and the reset bit.  The system timer ticks at the rate asked for;
    the profile timer runs as long as somebody uses it; a busy-waiting delay
    ends if and only if the counter need not wrap. *)

From Stdlib Require Import ZArith Lia Bool.
From stdpp Require Import base numbers list.
From S2P Require Import Prelude CMonad DevIO MagusGpt.

(** The registers behind a context. *)
Definition gpt_regs : list Z := [gpt_ctrl; gpt_ier; gpt_isr_reg; gpt_pslr; gpt_cnt; gpt_comp].
Definition gpt_live (r a : Z) : Prop := exists off, off ∈ gpt_regs /\ a = r + off.
Definition gpt_volat (r a : Z) : Z :=
  if a =? r + gpt_ctrl then GPT_CTRL_RST
  else if (a =? r + gpt_cnt) || (a =? r + gpt_isr_reg) then 2 ^ 32 - 1 else 0.

(** The world after the first of the next [k + 1] reads of [a] that gives at
    least [c]. *)
Fixpoint reached {W} `{Bus W} (k : nat) (a c : Z) (w : W) : option W :=
  let '(v, w') := bus_rd a w in
  if c <=? u32 v then Some w' else match k with O => None | S k' => reached k' a c w' end.

(** The control word of the profile timer, and its prescaler. *)
Definition PROFILE_CTRL : Z := 0x109.
Definition SYSTEM_CTRL : Z := 0x501.
Definition profile_pslr (t : gpt_t) : Z :=
  let N := gpt_perclk t / gpt_freq t in u16 ((if truth (Z.shiftr N 11) then 2048 else N) - 1).

(** A context whose tick rate the profile timer accepts. *)
Definition profile_rate (t : gpt_t) : Prop :=
  0 < gpt_freq t <= Z.min (gpt_perclk t) (gpt_apbclk t).

Section Spec.
Context {W : Type} {B : Bus W} {r : Z} {R : Registers W (gpt_live r) (gpt_volat r)} {Cfg : GptConfig}.
Implicit Types (w : W) (s : Z -> Z) (t : gpt_t).

Lemma gpt_reg_live off : off ∈ gpt_regs -> gpt_live r (r + off).
Proof. intros Ho. by exists off. Qed.
Lemma gpt_reg_volat off : off ∈ [gpt_ier; gpt_pslr; gpt_comp] -> gpt_volat r (r + off) = 0.
Proof.
  intros Ho. unfold gpt_volat, gpt_ctrl, gpt_cnt, gpt_isr_reg.
  assert (off = 12 \/ off = 20 \/ off = 28) as Hoff by (revert Ho; rewrite !elem_of_cons, elem_of_nil; naive_solver).
  repeat (match goal with |- context [?a =? ?b] => destruct (Z.eqb_spec a b); [lia|] end). done.
Qed.
Lemma gpt_volat_ctrl : gpt_volat r (r + gpt_ctrl) = GPT_CTRL_RST.
Proof. unfold gpt_volat. by rewrite Z.eqb_refl. Qed.

Ltac in_gpt := rewrite ?elem_of_cons, ?elem_of_nil; tauto.

Lemma wp_gpt_rd off (Q : Z -> W * gpt_t -> Prop) w s t : gpt_reg t = r -> off ∈ gpt_regs -> rep w s ->
  (forall v w', in_u32 v -> Z.land v (Z.lnot (gpt_volat r (r + off))) = s (r + off) -> rep w' s -> Q v (w', t)) ->
  wp (rd off) Q (w, t).
Proof.
  intros Ht Ho Hw HQ. apply wp_bind, wp_get_t, wp_io. rewrite Ht.
  apply (wp_rd_status _ _ w s Hw (gpt_reg_live off Ho)). naive_solver.
Qed.
Lemma wp_gpt_wr off d (Q : unit -> W * gpt_t -> Prop) w s t : gpt_reg t = r -> off ∈ [gpt_ier; gpt_pslr; gpt_comp] ->
  rep w s -> in_u32 d -> (forall w', rep w' (upd s (r + off) d) -> Q tt (w', t)) -> wp (wr off d) Q (w, t).
Proof.
  intros Ht Ho Hw Hd HQ. apply wp_bind, wp_get_t, wp_io. rewrite Ht.
  apply (wp_wr _ _ _ w s Hw); [|by apply gpt_reg_volat|done..].
  apply gpt_reg_live. revert Ho. unfold gpt_regs. rewrite !elem_of_cons, !elem_of_nil. tauto.
Qed.
(** A word without the reset bit is kept by the control register. *)
Lemma wp_gpt_ctrl d (Q : unit -> W * gpt_t -> Prop) w s t : gpt_reg t = r -> rep w s -> in_u32 d ->
  Z.land d (Z.lnot GPT_CTRL_RST) = d -> (forall w', rep w' (upd s (r + gpt_ctrl) d) -> Q tt (w', t)) ->
  wp (wr gpt_ctrl d) Q (w, t).
Proof.
  intros Ht Hw Hd Hr HQ. apply wp_bind, wp_get_t, wp_io. rewrite Ht.
  apply (wp_wr_status _ _ _ w s Hw); [apply gpt_reg_live; unfold gpt_regs; in_gpt|done|].
  intros w'. rewrite gpt_volat_ctrl, Hr. apply HQ.
Qed.

(** ** The choice of prescaler and compare value *)
Lemma setclk_profile {S} t c (Q : gpt_err_e * gpt_clk_t -> S -> Prop) x : profile_rate t ->
  Q (GPT_ERR_NONE, GptClk GPT_CLK_PER (profile_pslr t) (comp_val c)) x -> wp (gpt_setclk t GPT_M_PROFILE c) Q x.
Proof.
  intros [Hf Hlim] HQ. unfold gpt_setclk, clk_limit.
  change (GPT_M_PROFILE =? GPT_M_SYSTEM) with false.
  change (GPT_M_PROFILE =? GPT_M_CAPTURE) with false. cbn beta iota.
  rewrite Z.gtb_ltb, (proj2 (Z.ltb_ge _ _)) by done. apply wp_bind, wp_udiv; [lia|]. by apply wp_ret.
Qed.
Lemma setclk_system {S} t c (Q : gpt_err_e * gpt_clk_t -> S -> Prop) x :
  0 < gpt_freq t <= Z.shiftr (Z.min (gpt_perclk t) (gpt_apbclk t)) 5 ->
  Q (GPT_ERR_NONE, GptClk GPT_CLK_PER 0 (u32 (gpt_perclk t / gpt_freq t - 1))) x -> wp (gpt_setclk t GPT_M_SYSTEM c) Q x.
Proof.
  intros [Hf Hlim] HQ. unfold gpt_setclk, clk_limit. change (GPT_M_SYSTEM =? GPT_M_SYSTEM) with true. cbn beta iota.
  rewrite Z.gtb_ltb, (proj2 (Z.ltb_ge _ _)) by done. apply wp_bind, wp_udiv; [lia|]. by apply wp_ret.
Qed.

(** ** The system timer *)
Lemma sys_start_run t freq w s : gpt_reg t = r -> rep w s ->
  0 < freq <= Z.shiftr (Z.min (gpt_perclk t) (gpt_apbclk t)) 5 ->
  wp (gpt_sys_start freq) (fun a x => a = 1 /\ snd x = set_mode GPT_M_SYSTEM (set_freq freq t) /\ exists s', rep (fst x) s' /\
    s' (r + gpt_ctrl) = SYSTEM_CTRL /\ s' (r + gpt_ier) = GPT_INT_COMP /\ s' (r + gpt_pslr) = 0 /\
    s' (r + gpt_comp) = u32 (gpt_perclk t / freq - 1)) (w, t).
Proof.
  intros Ht Hw Hf. unfold gpt_sys_start. apply wp_bind, wp_upd_t, wp_bind, wp_get_t, wp_bind.
  apply setclk_system; [done|]. cbn [comp_val clk_pslr clksel]. change (gpt_freq (set_freq freq t)) with freq.
  change (gpt_perclk (set_freq freq t)) with (gpt_perclk t).
  apply wp_bind. apply (wp_gpt_ctrl _ _ w s); [done|done|by compute|done|]. intros w1 Hw1.
  apply wp_bind. eapply wp_gpt_wr; [done|in_gpt|exact Hw1|by compute|]. intros w2 Hw2.
  apply wp_bind. eapply wp_gpt_wr; [done|in_gpt|exact Hw2|by compute|]. intros w3 Hw3.
  apply wp_bind. eapply wp_gpt_wr; [done|in_gpt|exact Hw3|apply u32_range|]. intros w4 Hw4.
  apply wp_bind, wp_upd_t, wp_bind. eapply wp_gpt_ctrl; [done|exact Hw4|by compute|done|]. intros w5 Hw5.
  apply wp_ret. split; [done|]. split; [done|]. eexists. split; [exact Hw5|].
  unfold gpt_ctrl, gpt_ier, gpt_pslr, gpt_comp, gpt_isr_reg.
  split; [by rewrite upd_reg_eq|].
  repeat split; repeat (first [rewrite upd_reg_eq | rewrite upd_reg_ne by lia]); done.
Qed.

(** Starting the system timer at a rate up to a thirty-second of the slower of
    the two clocks programs a restarting compare of [comp + 1] input clocks per
    tick: the rate is exact when it divides the clock, and otherwise the
    fastest that is not below the request.  A rate above the limit is refused
    and no register changes; the rate 0 divides by zero. *)
Theorem sys_start_correct t freq w s : gpt_reg t = r -> rep w s -> in_u32 (gpt_perclk t) -> 0 <= freq ->
  let limit := Z.shiftr (Z.min (gpt_perclk t) (gpt_apbclk t)) 5 in
  if limit <? freq then gpt_sys_start freq (w, t) = Done (gpt_err_code GPT_ERR_PARM) (w, set_freq freq t)
  else if freq =? 0 then gpt_sys_start freq (w, t) = Crash DivByZero
  else exists w' s', gpt_sys_start freq (w, t) = Done 1 (w', set_mode GPT_M_SYSTEM (set_freq freq t)) /\ rep w' s' /\
    s' (r + gpt_ctrl) = SYSTEM_CTRL /\ s' (r + gpt_ier) = GPT_INT_COMP /\ s' (r + gpt_pslr) = 0 /\
    let ticks := s' (r + gpt_comp) + 1 in
    32 <= ticks /\ ticks * freq <= gpt_perclk t < (ticks + 1) * freq.
Proof.
  intros Ht Hw Hp Hf limit. destruct (Z.ltb_spec limit freq) as [Hl|Hl].
  { unfold gpt_sys_start, gpt_setclk, clk_limit, bind, upd_t, modify, get_t, gets. cbn -[Z.gtb Z.shiftr].
    rewrite Z.gtb_ltb. unfold limit in Hl. by rewrite (proj2 (Z.ltb_lt _ _) Hl). }
  destruct (Z.eqb_spec freq 0) as [->|Hne].
  { unfold gpt_sys_start, gpt_setclk, clk_limit, bind, upd_t, modify, get_t, gets. cbn -[Z.gtb Z.shiftr].
    rewrite Z.gtb_ltb, (proj2 (Z.ltb_ge _ _)) by exact Hl. done. }
  pose proof (sys_start_run t freq w s Ht Hw ltac:(fold limit; lia)) as Hrun.
  apply wp_run in Hrun as (a & [w' t'] & E & -> & Et & s' & Hw' & H1 & H2 & H3 & H4). cbn [fst snd] in *. subst t'.
  exists w', s'. do 5 (split; [done|]). rewrite H4.
  assert (Hdiv : 32 <= gpt_perclk t / freq).
  { apply Z.div_le_lower_bound; [lia|]. unfold limit in Hl. rewrite Z.shiftr_div_pow2 in Hl by lia.
    change (2 ^ 5) with 32 in Hl. pose proof (Z.mul_div_le (Z.min (gpt_perclk t) (gpt_apbclk t)) 32 ltac:(lia)) as Hm.
    pose proof (Z.le_min_l (gpt_perclk t) (gpt_apbclk t)) as Hmin.
    clear limit. lia. }
  assert (gpt_perclk t / freq <= gpt_perclk t) by (apply Z.div_le_upper_bound; unfold in_u32 in Hp; nia).
  rewrite u32_id by (unfold in_u32 in *; lia).
  pose proof (Z.div_mod (gpt_perclk t) freq Hne). pose proof (Z.mod_pos_bound (gpt_perclk t) freq ltac:(lia)).
  split; [lia|]. nia.
Qed.

(** ** The users of the profile timer *)
Inductive use := UStart | UEnd.
Fixpoint run_uses (h : list use) : M (W * gpt_t) bool :=
  match h with
  | [] => ret true
  | UStart :: h =>
      let! e := gpt_profile_start in
      match fst e with GPT_ERR_NONE => run_uses h | _ => ret false end
  | UEnd :: h => gpt_profile_end ;; run_uses h
  end.

(** Users after a history, from [d] of them; [None] when somebody stops who did
    not start, or more than [usage] can count are there at once. *)
Fixpoint users (d : Z) (h : list use) : option Z :=
  match h with
  | [] => Some d
  | UStart :: h => if d <? 255 then users (d + 1) h else None
  | UEnd :: h => if 0 <? d then users (d - 1) h else None
  end.

(** The timer with [d] users: running, or off. *)
Definition used_by (t0 : gpt_t) (d : Z) w t s : Prop :=
  rep w s /\ gpt_reg t = r /\ 0 <= d <= 255 /\ gpt_usage t = d /\ s (r + gpt_ctrl) = (if d =? 0 then 0 else PROFILE_CTRL) /\
  (0 < d -> s (r + gpt_pslr) = profile_pslr t0) /\
  gpt_perclk t = gpt_perclk t0 /\ gpt_apbclk t = gpt_apbclk t0 /\ gpt_freq t = gpt_freq t0.

Lemma profile_start_run t0 d w t s : profile_rate t0 -> used_by t0 d w t s -> d < 255 ->
  wp gpt_profile_start (fun e x => exists v s', e = (GPT_ERR_NONE, Some v) /\ in_u32 v /\ used_by t0 (d + 1) (fst x) (snd x) s') (w, t).
Proof.
  intros Hrate (Hw & Ht & Hd & Hu & Hc & Hps & E1 & E2 & E3) Hlt.
  assert (Hpslr : profile_pslr t = profile_pslr t0) by (unfold profile_pslr; by rewrite E1, E3).
  apply wp_bind, wp_get_t, wp_bind.
  eapply (wp_mono _ (fun e x => e = GPT_ERR_NONE /\ exists t1 s1, snd x = t1 /\ rep (fst x) s1 /\ gpt_reg t1 = r /\ gpt_usage t1 = d /\
    s1 (r + gpt_ctrl) = PROFILE_CTRL /\ s1 (r + gpt_pslr) = profile_pslr t0 /\
    gpt_perclk t1 = gpt_perclk t0 /\ gpt_apbclk t1 = gpt_apbclk t0 /\ gpt_freq t1 = gpt_freq t0)).
  - rewrite Hu. destruct (Z.eqb_spec d 0) as [->|Hne]; cycle 1.
    { unfold truth. rewrite (proj2 (Z.eqb_neq d 0)) by done. cbn [negb]. apply wp_ret. split; [done|].
      exists t, s. split_and!; try done. apply Hps. lia. }
    cbn [truth Z.eqb negb]. apply wp_bind, setclk_profile; [by unfold profile_rate in *; rewrite E1, E2, E3|].
    cbn [clk_pslr].
    apply wp_bind, (wp_gpt_ctrl _ _ w s); [done|done|by compute|done|]. intros w1 Hw1.
    apply wp_bind. eapply wp_gpt_wr; [done|in_gpt|exact Hw1| |].
    { rewrite Hpslr. unfold profile_pslr. pose proof (u16_range ((if truth (Z.shiftr (gpt_perclk t0 / gpt_freq t0) 11) then 2048
        else gpt_perclk t0 / gpt_freq t0) - 1)). unfold in_u16, in_u32 in *. lia. }
    intros w2 Hw2. apply wp_bind, wp_upd_t, wp_bind. eapply wp_gpt_ctrl; [done|exact Hw2|by compute|done|].
    intros w3 Hw3. apply wp_ret. split; [done|]. eexists _, _. split; [done|]. split; [exact Hw3|].
    split_and!; [done|done|by rewrite upd_reg_eq| |done..].
    rewrite upd_reg_ne by (unfold gpt_pslr, gpt_ctrl; lia). by rewrite upd_reg_eq.
  - intros e [w1 t1] (-> & tx & s1 & Et & Hw1 & Ht1 & Hu1 & Hc1 & Hp1 & F1 & F2 & F3). cbn [fst snd] in Et, Hw1. subst tx.
    apply wp_bind, wp_upd_t, wp_bind. eapply wp_gpt_rd; [exact Ht1|unfold gpt_regs; in_gpt|exact Hw1|].
    intros v w2 Hv _ Hw2. apply wp_ret. exists v, s1. split_and!; [done..|]. unfold used_by. cbn [fst snd].
    cbn [gpt_reg gpt_usage gpt_perclk gpt_apbclk gpt_freq set_usage].
    rewrite Hu1, u8_id by (unfold in_u8; lia). rewrite (proj2 (Z.eqb_neq (d + 1) 0)) by lia.
    split_and!; done || lia.
Qed.

Lemma profile_end_run t0 d w t s : used_by t0 d w t s -> 0 < d ->
  wp gpt_profile_end (fun _ x => exists s', used_by t0 (d - 1) (fst x) (snd x) s') (w, t).
Proof.
  intros (Hw & Ht & Hd & Hu & Hc & Hps & E1 & E2 & E3) Hlt.
  apply wp_bind, (wp_gpt_rd _ _ w s); [exact Ht|unfold gpt_regs; in_gpt|exact Hw|]. intros v w1 _ _ Hw1.
  apply wp_bind. unfold drop_usage. apply wp_bind, wp_upd_t, wp_bind, wp_get_t.
  cbn [set_usage gpt_usage]. rewrite Hu, u8_id by (unfold in_u8; lia).
  rewrite (proj2 (Z.eqb_neq d 0)) in Hc by lia.
  destruct (Z.eqb_spec (d - 1) 0) as [E|Hne]; unfold truth; [rewrite E|rewrite (proj2 (Z.eqb_neq _ _) Hne)]; cbn [Z.eqb negb].
  - eapply (wp_gpt_ctrl _ _ w1 s); [done|done|by compute|done|]. intros w2 Hw2. apply wp_ret.
    eexists. unfold used_by. cbn. rewrite upd_reg_eq, u8_id by (unfold in_u8; lia). split_and!; try done; lia.
  - apply wp_ret, wp_ret. exists s. unfold used_by. cbn. rewrite u8_id by (unfold in_u8; lia).
    rewrite (proj2 (Z.eqb_neq _ _) Hne). split_and!; try done; try lia.
Qed.

(** C36. However its users come and go, as long as nobody stops who did not start
    and at most 255 are there at once, every start succeeds, and the timer runs
    freely at the rate set exactly while it has a user: the count of users is
    the number of starts less the number of stops, and the last stop switches
    the timer off. *)
Theorem profile_users t0 h w t s d : profile_rate t0 -> used_by t0 0 w t s -> users 0 h = Some d ->
  exists w' t' s', run_uses h (w, t) = Done true (w', t') /\ used_by t0 d w' t' s'.
Proof.
  intros Hrate. enough (H : forall d0 w t s, used_by t0 d0 w t s -> users d0 h = Some d ->
    wp (run_uses h) (fun b x => b = true /\ exists s', used_by t0 d (fst x) (snd x) s') (w, t)).
  { intros Hu Hd. specialize (H 0 w t s Hu Hd). apply wp_run in H as (b & [w' t'] & E & -> & s' & Hs'). by exists w', t', s'. }
  clear w t s. induction h as [|[] h IH]; intros d0 w t s Hu Hd; cbn in Hd.
  - injection Hd as ->. apply wp_ret. split; [done|]. by exists s.
  - destruct (Z.ltb_spec d0 255); [|done]. apply wp_bind.
    eapply wp_mono; [by apply (profile_start_run t0 d0 w t s)|]. intros e [w1 t1] (v & s1 & -> & _ & Hu1). by apply (IH (d0 + 1) w1 t1 s1).
  - destruct (Z.ltb_spec 0 d0); [|done]. apply wp_bind.
    eapply wp_mono; [by apply (profile_end_run t0 d0 w t s)|]. intros e [w1 t1] (s1 & Hu1). by apply (IH (d0 - 1) w1 t1 s1).
Qed.

(** ** The busy-waiting delay *)
Lemma wait_run fuel k c w t s w2 : gpt_reg t = r -> rep w s -> (k < fuel)%nat -> reached k (r + gpt_cnt) c w = Some w2 ->
  retry fuel (let! v := rd gpt_cnt in ret (if v <? c then None else Some tt)) (w, t) = Done tt (w2, t) /\ rep w2 s.
Proof.
  intros Ht Hw Hk Hr. revert k w Hw Hk Hr. induction fuel as [|fuel IH]; intros k w Hw Hk Hr; [lia|].
  destruct (rep_rd w s (r + gpt_cnt) Hw) as (v & w' & E & Hw' & _); [apply gpt_reg_live; unfold gpt_regs; in_gpt|].
  cbn [retry]. unfold bind at 1 2, rd at 1, bind at 1, get_t, gets, io, io_rd32, zoom. cbn [fst snd]. rewrite Ht, E.
  cbn [snd]. unfold ret at 1. destruct k as [|k]; cbn [reached] in Hr; rewrite E, Z.leb_antisym in Hr;
    destruct (u32 v <? c); cbn [negb] in Hr; try done; try by injection Hr as <-. apply (IH k); [done|lia|done].
Qed.

(** A word is never above the largest word. *)
Lemma wait_forever w t : wait_cnt (fun v => v <=? u32 (Z.lnot 0)) (w, t) = Crash OutOfFuel.
Proof.
  unfold wait_cnt. revert w. induction gpt_fuel as [|n IH]; intros w; [done|]. cbn [retry].
  unfold bind at 1 2. unfold rd, get_t, io, io_rd32, gets, zoom, bind. cbn [fst snd].
  destruct (bus_rd (gpt_reg t + gpt_cnt) w) as [v w']. cbn.
  pose proof (u32_range v) as [_ Hv]. rewrite (proj2 (Z.leb_le _ _)) by (change (u32 (Z.lnot 0)) with (2 ^ 32 - 1); lia). apply IH.
Qed.

(** C37. A delay without a callback, with [cnt] the counter when it starts: when
    [cnt] and the ticks to wait fit in 32 bits the delay goes on until the
    counter has come that far: the timer is given back (to its other users, or
    switched off) in the world behind the first reading that is high enough,
    and in no earlier one.  When they do not fit it never ends: the
    loop that waits for the counter to wrap asks for a word above the largest. *)
Theorem udelay_waits usec t0 d w t s : profile_rate t0 -> used_by t0 d w t s -> d < 255 ->
  exists cnt w1 t1, gpt_profile_start (w, t) = Done (GPT_ERR_NONE, Some cnt) (w1, t1) /\
    let ticks := u32 (usec * gpt_freq t0) / 1000000 in
    if cnt + ticks <? 2 ^ 32 then
      forall k w2, (k < gpt_fuel)%nat -> reached k (r + gpt_cnt) (cnt + ticks) w1 = Some w2 ->
      exists v w' t' s', gpt_profile_end (w2, t1) = Done v (w', t') /\
        gpt_time_udelay usec None (w, t) = Done GPT_ERR_NONE (w', t') /\ used_by t0 d w' t' s'
    else gpt_time_udelay usec None (w, t) = Crash OutOfFuel.
Proof.
  intros Hrate Hu Hd. pose proof (profile_start_run t0 d w t s Hrate Hu Hd) as Hs.
  apply wp_run in Hs as (e & [w1 t1] & E & cnt & s1 & -> & Hcnt & Hu1). exists cnt, w1, t1. split; [exact E|].
  assert (0 <= d) by (destruct Hu as (_ & _ & Hd0 & _); lia).
  intros ticks. assert (Hticks : 0 <= ticks < 2 ^ 32).
  { subst ticks. pose proof (u32_range (usec * gpt_freq t0)) as [Hl Hh]. split; [by apply Z.div_pos|].
    apply Z.div_lt_upper_bound; lia. }
  assert (Hf : gpt_freq t1 = gpt_freq t0) by apply Hu1. cbn [fst snd] in Hu1. unfold in_u32 in Hcnt.
  set (tail := bind (if u32 (ticks + cnt) <? cnt then wait_cnt (fun v => v <=? u32 (Z.lnot 0)) else ret tt)
      (fun _ => wait_cnt (fun v => v <? u32 (cnt + ticks)) ;; gpt_profile_end ;; ret GPT_ERR_NONE)).
  assert (Hrun : gpt_time_udelay usec None (w, t) = tail (w1, t1)).
  { unfold gpt_time_udelay. unfold bind at 1. rewrite E. unfold bind at 1, get_t, gets. cbn [snd]. by rewrite Hf. }
  rewrite Hrun. clear Hrun. subst tail. destruct (Z.ltb_spec (cnt + ticks) (2 ^ 32)) as [Hfit|Hwrap].
  - intros k w2 Hk Hr. rewrite (u32_id (ticks + cnt)), (u32_id (cnt + ticks)) by (unfold in_u32; lia).
    rewrite (proj2 (Z.ltb_ge _ _)) by lia. pose proof Hu1 as (Hw1 & Ht1 & Hrest).
    destruct (wait_run gpt_fuel k (cnt + ticks) w1 t1 s1 w2 Ht1 Hw1 Hk Hr) as [Ew Hw2].
    pose proof (profile_end_run t0 (d + 1) w2 t1 s1 ltac:(by split) ltac:(lia)) as He.
    apply wp_run in He as (v & [w3 t3] & Ee & s3 & Hu3). rewrite Z.add_simpl_r in Hu3. exists v, w3, t3, s3.
    split; [exact Ee|]. split; [|exact Hu3]. unfold bind at 1, ret at 1, bind at 1, wait_cnt. rewrite Ew. unfold bind at 1. by rewrite Ee.
  - unfold bind at 1.
    assert (Hw32 : u32 (ticks + cnt) = ticks + cnt - 2 ^ 32).
    { unfold u32. rewrite <- (Z_mod_plus_full _ (-1)), Z.mod_small by lia. lia. }
    rewrite Hw32, (proj2 (Z.ltb_lt _ _)) by lia. by rewrite wait_forever.
Qed.
End Spec.

(** ** The module at work

    A timer whose counter advances by one at every reading, and whose reset is
    over at once; a compare interrupt is always pending. *)
Record tsim := Tsim { tm_mem : list (Z * Z); tm_now : Z }.
Definition tm_peek (a : Z) (w : tsim) : Z :=
  if a =? gpt_cnt then tm_now w
  else if a =? gpt_ctrl then Z.land (sim_peek (tm_mem w) a) (Z.lnot GPT_CTRL_RST)
  else if a =? gpt_isr_reg then GPT_INT_COMP else sim_peek (tm_mem w) a.
#[local] Instance timer_bus : Bus tsim := {|
  bus_rd a w := (tm_peek a w, if a =? gpt_cnt then Tsim (tm_mem w) (tm_now w + 1) else w);
  bus_wr a d w := Tsim ((a, d) :: tm_mem w) (tm_now w) |}.
Definition tm_rep (w : tsim) (s : Z -> Z) : Prop :=
  forall a, gpt_live 0 a -> s a = Z.land (u32 (tm_peek a w)) (Z.lnot (gpt_volat 0 a)).
Lemma whole_word x : Z.land (u32 x) (Z.lnot (2 ^ 32 - 1)) = 0.
Proof.
  change (2 ^ 32 - 1) with (Z.ones 32). apply bits_ext. intros i Hi.
  rewrite Z.land_spec, u32_bits, Z.lnot_spec, Z.testbit_ones_nonneg, Z.bits_0 by lia.
  destruct (i <? 32), (Z.testbit x i); done.
Qed.
#[local] Instance timer_registers : Registers tsim (gpt_live 0) (gpt_volat 0).
Proof.
  refine {| rep := tm_rep |}.
  - intros w s a Hw Ha. do 2 eexists. split; [done|]. split; [|symmetry; by apply Hw].
    intros b Hb. rewrite (Hw b Hb). destruct (a =? gpt_cnt); [|done]. unfold tm_peek.
    destruct (Z.eqb_spec b gpt_cnt) as [->|]; [|done]. change (gpt_volat 0 gpt_cnt) with (2 ^ 32 - 1). by rewrite !whole_word.
  - intros w s a d Hw Ha Hd b Hb. cbn [bus_wr timer_bus]. unfold upd.
    destruct (Z.eqb_spec b a) as [->|Hne].
    + destruct Ha as (off & Ho & ->). unfold gpt_regs in Ho. rewrite !elem_of_cons, elem_of_nil in Ho.
      assert (Hall : Z.land d (Z.lnot (2 ^ 32 - 1)) = 0) by (rewrite <- (u32_id d Hd); apply whole_word).
      destruct Ho as [->|[->|[->|[->|[->|[->|[]]]]]]].
      * change (Z.land d (Z.lnot GPT_CTRL_RST) = Z.land (u32 (Z.land d (Z.lnot GPT_CTRL_RST))) (Z.lnot GPT_CTRL_RST)).
        by rewrite sim_clear, u32_id.
      * change (Z.land d (Z.lnot 0) = Z.land (u32 d) (Z.lnot 0)). by rewrite u32_id.
      * by etrans.
      * change (Z.land d (Z.lnot 0) = Z.land (u32 d) (Z.lnot 0)). by rewrite u32_id.
      * etrans; [exact Hall|]. symmetry. apply whole_word.
      * change (Z.land d (Z.lnot 0) = Z.land (u32 d) (Z.lnot 0)). by rewrite u32_id.
    + rewrite (Hw b Hb). unfold tm_peek. cbn. by rewrite (proj2 (Z.eqb_neq b a)).
Defined.

#[local] Instance gpt_config : GptConfig := {| gpt_fuel := 10; gpt_junk := GptClk 0 0 0 |}.
(** The clocks of the board, and a profile timer of one tick per microsecond. *)
Definition board_gpt : gpt_t := Gpt 0 60000000 60000000 32768 (GptCb 0 0) 1000000 0 0 0 0.
Definition gpt_off (now : Z) : tsim := Tsim [] now.
Definition gpt_s0 (a : Z) : Z := Z.land (u32 (tm_peek a (gpt_off 0))) (Z.lnot (gpt_volat 0 a)).

Lemma gpt_off_used now : used_by (r := 0) board_gpt 0 (gpt_off now) board_gpt gpt_s0.
Proof.
  split_and!; try done. intros a Ha. unfold gpt_s0, tm_peek. cbn [gpt_off tm_mem tm_now].
  destruct (Z.eqb_spec a gpt_cnt) as [->|]; [|done]. change (gpt_volat 0 gpt_cnt) with (2 ^ 32 - 1). by rewrite !whole_word.
Qed.

(** A hundred ticks per second, as [gpt0_init] asks. *)
Lemma sys_start_correct_witness : exists w' s',
  gpt_sys_start 100 (gpt_off 0, board_gpt) = Done 1 (w', set_mode GPT_M_SYSTEM (set_freq 100 board_gpt)) /\
  (s' gpt_comp + 1) * 100 <= 60000000 < (s' gpt_comp + 1 + 1) * 100.
Proof.
  pose proof (sys_start_correct board_gpt 100 (gpt_off 0) gpt_s0 eq_refl ltac:(exact (proj1 (gpt_off_used 0)))
    ltac:(by vm_compute) ltac:(lia)) as H. cbv zeta in H.
  destruct H as (w' & s' & E & _ & _ & _ & _ & _ & Hr). exists w', s'. split; [exact E|].
  exact Hr.
Defined.

Lemma profile_users_witness : exists w' t' s',
  run_uses [UStart; UStart; UEnd; UStart; UEnd; UEnd] (gpt_off 7, board_gpt) = Done true (w', t') /\ gpt_usage t' = 0 /\ s' gpt_ctrl = 0.
Proof.
  destruct (profile_users board_gpt [UStart; UStart; UEnd; UStart; UEnd; UEnd] (gpt_off 7) board_gpt gpt_s0 0)
    as (w' & t' & s' & E & _ & _ & _ & Hu & Hc & _); [by vm_compute|exact (gpt_off_used 7)|by vm_compute|].
  exists w', t', s'. split; [exact E|]. split; [exact Hu|]. exact Hc.
Defined.

Lemma udelay_waits_witness :
  (exists w' t', gpt_time_udelay 5 None (gpt_off 10, board_gpt) = Done GPT_ERR_NONE (w', t') /\ gpt_usage t' = 0 /\ 15 < tm_now w') /\
  gpt_time_udelay 5 None (gpt_off (2 ^ 32 - 3), board_gpt) = Crash OutOfFuel.
Proof.
  split.
  - destruct (udelay_waits 5 board_gpt 0 (gpt_off 10) board_gpt gpt_s0) as (cnt & w1 & t1 & E & H);
      [by vm_compute|exact (gpt_off_used 10)|lia|]. vm_compute in E. injection E as <- <- <-.
    destruct (H 5%nat _ ltac:(cbn; lia) eq_refl) as (v & w' & t' & s' & E1 & E2 & _ & _ & _ & Hu & _).
    exists w', t'. split; [exact E2|]. split; [exact Hu|]. vm_compute in E1. injection E1 as _ <- _. by vm_compute.
  - destruct (udelay_waits 5 board_gpt 0 (gpt_off (2 ^ 32 - 3)) board_gpt gpt_s0) as (cnt & w1 & t1 & E & H);
      [by vm_compute|exact (gpt_off_used (2 ^ 32 - 3))|lia|]. vm_compute in E. injection E as <- <- <-. exact H.
Defined.

(** The count of users is a byte: with 256 of them it is 0, and the one that
    comes next and leaves again switches the timer off for all the others. *)
Example users_wrap : match run_uses (replicate 256 UStart ++ [UStart; UEnd]) (gpt_off 0, board_gpt) with
  | Done _ (w, t) => gpt_usage t = 0 /\ tm_peek gpt_ctrl w = 0 | Crash _ => False end.
Proof. by vm_compute. Qed.

(** The delay with a callback does not look at how long it is to be, and in
    the compare value it programs is the local it never set. *)
Lemma udelay_callback_length usec1 usec2 cb (x : tsim * gpt_t) :
  gpt_time_udelay usec1 (Some cb) x = gpt_time_udelay usec2 (Some cb) x.
Proof. done. Qed.

(** Nor does it end with its interrupt: the comparison stays on, and when the
    counter comes round again the interrupt takes the other user's timer. *)
#[local] Instance no_client : GptClient tsim := {| gpt_callback _ _ _ := ret tt |}.
Example udelay_callback_again :
  match (gpt_profile_start ;; gpt_time_udelay 5 (Some (GptCb 0 0)) ;; gpt_isr ;; gpt_isr) (gpt_off 0, board_gpt) with
  | Done _ (w, t) => gpt_usage t = 0 /\ tm_peek gpt_ctrl w = 0 | Crash _ => False end.
Proof. by vm_compute. Qed.
