(* ===== verification/MagusIntc.v ===== *)
(** * The interrupt controller and the interrupts of the pins

    [arch/arm/mach-magus/intc.c] with [intcr.h], and [irq.c], which builds the
    two interrupt chips of the platform from it and from the pins
    ([MagusGpio]).  What the kernel's interrupt core does with a line is the
    parameter [IrqCore]. *)

From Stdlib Require Import ZArith Lia Bool.
From stdpp Require Import base numbers list.
From S2P Require Import Prelude CMonad DevIO MagusClock MagusGpio.

(** [intc_reg_t]: offsets of the registers. *)
Definition intc_id : Z := 0.
Definition intc_ctl : Z := 8.
Definition intc_sta (i : Z) : Z := 64 + 4 * i.
Definition intc_mask_reg : Z := 72.
Definition intc_unmask_reg : Z := 76.
Definition intc_pend_reg : Z := 80.

Definition INTC_CLSDEV : Z := Z.shiftl 0x0800 6.
Definition INTC_ID_CLSDEV (r : Z) : Z := Z.shiftr r 10.
Definition INTC_CTL_ENA : Z := 1.
Definition INTC_CTL_RST : Z := 2.
Definition INTC_TIMEOUT : nat := Z.to_nat 0x1000.

Section Controller.
Context {W : Type} `{Bus W}.
Implicit Types (r : Z).

(** [while (tout--) ...]: [None] for the [return -1] inside, otherwise [tout]
    after the loop. *)
Fixpoint intc_wait (tout : nat) r : M W (option Z) :=
  match tout with
  | O => ret (Some (-1))
  | S tout =>
      let! d := io_rd32 (r + intc_ctl) in
      if d =? INTC_CTL_ENA then ret (Some (Z.of_nat tout))
      else if negb (d =? Z.lor INTC_CTL_ENA INTC_CTL_RST) then ret None
      else intc_wait tout r
  end.

Definition intc_init r : M W Z :=
  let! d := io_rd32 (r + intc_id) in
  if negb (INTC_ID_CLSDEV d =? INTC_CLSDEV) then ret (-1)
  else
    io_wr32 (r + intc_ctl) (Z.lor INTC_CTL_ENA INTC_CTL_RST) ;;
    let! tout := intc_wait INTC_TIMEOUT r in
    match tout with
    | None => ret (-1)
    | Some tout => ret (if negb (truth tout) then -1 else 0)
    end.

Definition intc_exit r : M W unit := io_wr32 (r + intc_ctl) (Z.lor INTC_CTL_ENA INTC_CTL_RST).
Definition intc_unmask r (intr : Z) : M W unit := io_wr32 (r + intc_unmask_reg) intr.
Definition intc_mask r (intr : Z) : M W unit := io_wr32 (r + intc_mask_reg) intr.
Definition intc_pend r : M W Z := io_rd32 (r + intc_pend_reg).

Definition intc_ack r (intr : Z) : M W unit :=
  if intr >? 63 then ret tt
  else
    let '(intr, sta) := if intr >? 31 then (intr - 32, intc_sta 1) else (intr, intc_sta 0) in
    io_wr32 (r + sta) (Z.shiftl 1 intr).
End Controller.

(** ** The chips of the platform, [irq.c] *)
Definition MAGUS_VIO_INTC : Z := 0xF0001000.
Definition INTC_IRQS : Z := 32.
Definition GPIO_PINS : Z := 5.
Definition GPIO_IRQS : Z := Z.shiftl GPIO_PORTS GPIO_PINS.
Definition GPIO_IRQ (port pin : Z) : Z := INTC_IRQS + Z.shiftl port 5 + pin.
Definition GPIO_IRQ_PORT (irq : Z) : Z := Z.shiftr (irq - INTC_IRQS) 5.
Definition GPIO_IRQ_PIN (irq : Z) : Z := Z.land (irq - INTC_IRQS) (Z.shiftl 1 5 - 1).
Definition IRQT_RISEDGE : Z := 1.
Definition IRQT_FALEDGE : Z := 2.
Definition IRQT_HIGHLVL : Z := 4.
Definition IRQT_LOWLVL : Z := 8.
Definition GPIO_IRQ_RS : Z := 0.
Definition GPIO_IRQ_FL : Z := 1.
Definition GPIO_IRQ_HI : Z := 2.
Definition GPIO_IRQ_LO : Z := 3.

Inductive irq_chip := magus_intc | magus_gpio.
Inductive irq_flow := handle_level_irq | handle_edge_irq.

(** The kernel's interrupt core: registration of a line, and the delivery of an
    interrupt to the line's handler. *)
Class IrqCore (W : Type) := {
  set_irq_chip : Z -> irq_chip -> M W unit;
  set_irq_handler : Z -> irq_flow -> M W unit;
  set_irq_flags : Z -> M W unit;
  set_irq_chained_handler : Z -> M W unit;
  desc_handle_irq : Z -> M W unit }.

Section Chips.
Context {W : Type} `{Bus W} `{IrqCore W}.

Definition intc_mask_irq (irq : Z) : M W unit := intc_mask MAGUS_VIO_INTC irq.
Definition intc_unmask_irq (irq : Z) : M W unit := intc_unmask MAGUS_VIO_INTC irq.
Definition intc_ack_irq (irq : Z) : M W unit := intc_ack MAGUS_VIO_INTC irq.

(** [cfg.irq] after the four tests; [junk] is what the local held. *)
Definition irq_sense (type junk : Z) : Z :=
  let i := if truth (Z.land type IRQT_RISEDGE) then GPIO_IRQ_RS else junk in
  let i := if truth (Z.land type IRQT_FALEDGE) then GPIO_IRQ_FL else i in
  let i := if truth (Z.land type IRQT_LOWLVL) then GPIO_IRQ_LO else i in
  if truth (Z.land type IRQT_HIGHLVL) then GPIO_IRQ_HI else i.

Definition gpio_irq_type (junk irq type : Z) : M W Z :=
  let i := irq_sense type junk in
  let cfg := GpioCfg GPIO_M_INTR 0 GPIO_OSS_DREG GPIO_ISS_ISR GPIO_ISS_ISR i in
  set_irq_handler irq (if i >? GPIO_IRQ_FL then handle_level_irq else handle_edge_irq) ;;
  gpio_cfg (GPIO_PORT_VADDR (GPIO_IRQ_PORT irq)) (GPIO_IRQ_PIN irq) cfg ;;
  ret 0.

Definition gpio_ack_irq (irq : Z) : M W unit :=
  gpio_ack_port (GPIO_PORT_VADDR (GPIO_IRQ_PORT irq)) (Z.shiftl 1 (GPIO_IRQ_PIN irq)).
Definition gpio_mask_irq (irq : Z) : M W unit :=
  gpio_mask (GPIO_PORT_VADDR (GPIO_IRQ_PORT irq)) (GPIO_IRQ_PIN irq).
Definition gpio_unmask_irq (irq : Z) : M W unit :=
  gpio_unmask (GPIO_PORT_VADDR (GPIO_IRQ_PORT irq)) (GPIO_IRQ_PIN irq).

(** The word has 32 bits: as many rounds, and the test that ends the loop. *)
Definition ISR_FUEL : nat := 32.

(** [while (isr) ...] for one port; the locals are [isr] and [pin]. *)
Definition isr_port (port isr : Z) : M W unit :=
  while_local ISR_FUEL (fun '(isr, pin) => truth isr) (isr, 0) (fun '(isr, pin) =>
    (if truth (Z.land isr 1) then desc_handle_irq (GPIO_IRQ port pin) else ret tt) ;;
    ret (inl (Z.shiftr isr 1, pin + 1) : (Z * Z) + unit)) ;;
  ret tt.

Definition gpio_isr : M W unit :=
  for_range 0 6 (fun port =>
    let! isr := gpio_pend (GPIO_PORT_VADDR port) in
    isr_port port isr ;;
    ret (None : option unit)) ;;
  ret tt.

Definition register_irqs (lo hi : Z) (chip : irq_chip) : M W unit :=
  for_range lo hi (fun irq =>
    set_irq_chip irq chip ;;
    set_irq_handler irq handle_level_irq ;;
    set_irq_flags irq ;;
    ret (None : option unit)) ;;
  ret tt.

(** The answers of the three initialisations are not looked at. *)
Definition magus_init_irq : M W unit :=
  intc_init MAGUS_VIO_INTC ;;
  register_irqs 0 INTC_IRQS magus_intc ;;
  gpio_init MAGUS_VIO_GPIO ;;
  register_irqs INTC_IRQS (INTC_IRQS + GPIO_IRQS) magus_gpio ;;
  set_irq_chained_handler 0x1D ;;
  scrm_init MAGUS_VIO_SCRM ;;
  ret tt.
End Chips.
