(* ===== verification/MagusIntcSpec.v ===== *)
(** * What the interrupt code does

    [intc_init] is followed through its wait for the reset; the dispatch of the
    interrupts of the pins is compared with a plain description: the ports in
    order, and of each the pins pending when it was read, in order. *)

From Stdlib Require Import ZArith Lia Bool.
From stdpp Require Import base numbers list.
From S2P Require Import Prelude CMonad DevIO MagusClock MagusGpio MagusIntc.

(** The next [n] readings of a register. *)
Fixpoint readings {W} `{Bus W} (n : nat) (a : Z) (w : W) : list Z :=
  match n with O => [] | S n => let '(v, w') := bus_rd a w in u32 v :: readings n a w' end.

(** ** The reset of the controller *)
Section Reset.
Context {W : Type} {B : Bus W}.
Implicit Types (w : W) (r : Z).

Definition resetting (d : Z) : bool := d =? Z.lor INTC_CTL_ENA INTC_CTL_RST.

(** What the loop makes of the readings: it stops at the first that is not the
    value written. *)
Definition wait_answer (n : nat) (ds : list Z) : option Z :=
  match list_find (fun d => resetting d = false) ds with
  | Some (k, d) => if d =? INTC_CTL_ENA then Some (Z.of_nat n - 1 - Z.of_nat k) else None
  | None => Some (-1)
  end.

Lemma intc_wait_run n r w : exists w', intc_wait n r w = Done (wait_answer n (readings n (r + intc_ctl) w)) w'.
Proof.
  revert w. induction n as [|n IH]; intros w; [by exists w|].
  cbn [intc_wait readings]. unfold bind, io_rd32. destruct (bus_rd (r + intc_ctl) w) as [v w1] eqn:E.
  unfold wait_answer. cbn [list_find]. fold (resetting (u32 v)).
  destruct (Z.eqb_spec (u32 v) INTC_CTL_ENA) as [Ev|Hne].
  - rewrite Ev. cbn. exists w1. do 2 f_equal. lia.
  - destruct (resetting (u32 v)) eqn:Er; cbn [negb].
    + destruct (IH w1) as [w' Hw']. exists w'. rewrite Hw'. f_equal. unfold wait_answer.
      rewrite decide_False by done. destruct (list_find _ _) as [[k d]|]; cbn; [|done].
      destruct (d =? INTC_CTL_ENA); [|done]. f_equal. lia.
    + exists w1. rewrite decide_True by done. cbn. by rewrite (proj2 (Z.eqb_neq _ _) Hne).
Qed.

(** What [intc_init] answers for a controller of the right class, by the 4096
    readings of its control register: 0 when the reset is over at one of the
    first 4095, and -1 when the register reads as neither.  But also 0 when the
    reset is never over, and -1 when it is over at the last reading: the test
    of [tout] after [while (tout--)] looks for the value the loop leaves when
    it succeeds at the last moment, not for the one it leaves when it fails. *)
Theorem intc_init_correct r w : let '(d, w0) := bus_rd (r + intc_id) w in
  if negb (INTC_ID_CLSDEV (u32 d) =? INTC_CLSDEV) then intc_init r w = Done (-1) w0
  else
    let ds := readings INTC_TIMEOUT (r + intc_ctl) (bus_wr (r + intc_ctl) 3 w0) in
    exists w', intc_init r w = Done match list_find (fun d => resetting d = false) ds with
      | Some (k, d) => if (d =? INTC_CTL_ENA) && (Z.of_nat k <? 4095) then 0 else -1
      | None => 0 end w'.
Proof.
  destruct (bus_rd (r + intc_id) w) as [d w0] eqn:E. unfold intc_init, bind, io_rd32, io_wr32, modify. rewrite E.
  destruct (negb _); [done|]. set (w1 := bus_wr (r + intc_ctl) 3 w0).
  destruct (intc_wait_run INTC_TIMEOUT r w1) as [w' Hw']. exists w'.
  change (u32 (Z.lor INTC_CTL_ENA INTC_CTL_RST)) with 3. fold w1. rewrite Hw'.
  unfold wait_answer. cbv zeta.
  assert (Hlen : length (readings INTC_TIMEOUT (r + intc_ctl) w1) = INTC_TIMEOUT).
  { generalize INTC_TIMEOUT. intros n. clearbody w1. clear. revert w1. induction n as [|n IH]; intros w; [done|]. cbn.
    destruct (bus_rd _ w). cbn. by rewrite IH. }
  destruct (list_find _ _) as [[k x]|] eqn:Ef; [|done]. apply list_find_Some in Ef as (Hk & _).
  apply lookup_lt_Some in Hk. rewrite Hlen in Hk. destruct (x =? INTC_CTL_ENA); [|done]. cbn [andb].
  assert (Z.of_nat INTC_TIMEOUT = 4096) as Hn by (unfold INTC_TIMEOUT; lia). unfold truth.
  destruct (Z.ltb_spec (Z.of_nat k) 4095), (Z.eqb_spec (Z.of_nat INTC_TIMEOUT - 1 - Z.of_nat k) 0); (done || lia).
Qed.
End Reset.

(** ** The dispatch of the interrupts of the pins *)
Definition pending_irqs (port isr : Z) : list Z := map (GPIO_IRQ port) (filter (fun pin => Z.testbit isr pin = true) (seqZ 0 32)).

Section Dispatch.
Context {W : Type} {B : Bus W} {K : IrqCore W}.

Fixpoint handle_all (l : list Z) : M W unit :=
  match l with [] => ret tt | irq :: l => desc_handle_irq irq ;; handle_all l end.

(** The ports in order; of each the pins pending when its status is read. *)
Fixpoint dispatch (ports : list Z) : M W unit :=
  match ports with
  | [] => ret tt
  | port :: ports =>
      let! isr := gpio_pend (GPIO_PORT_VADDR port) in
      handle_all (pending_irqs port isr) ;; dispatch ports
  end.

Lemma truth_land_1 x : truth (Z.land x 1) = Z.testbit x 0.
Proof.
  change (Z.land x 1) with (Z.land x (Z.ones 1)). rewrite Z.land_ones by lia. change (2 ^ 1) with 2.
  rewrite <- Z.bit0_mod. unfold truth. by destruct (Z.testbit x 0).
Qed.

(** The loop over the pins from [k] on. *)
Lemma isr_loop n port isr k w : 0 <= k -> (forall i, k + Z.of_nat n <= i -> Z.testbit isr i = false) ->
  bind (while_local n (fun '(isr, pin) => truth isr) (Z.shiftr isr k, k) (fun '(isr, pin) =>
    (if truth (Z.land isr 1) then desc_handle_irq (GPIO_IRQ port pin) else ret tt) ;;
    ret (inl (Z.shiftr isr 1, pin + 1) : (Z * Z) + unit))) (fun _ => ret tt) w =
  handle_all (map (GPIO_IRQ port) (filter (fun pin => Z.testbit isr pin = true) (seqZ k (Z.of_nat n)))) w.
Proof.
  revert k w. induction n as [|n IH]; intros k w Hk Hhigh.
  - assert (Z.shiftr isr k = 0) as ->.
    { apply bits_ext. intros i Hi. rewrite Z.shiftr_spec, Z.bits_0 by done. apply Hhigh. lia. }
    done.
  - rewrite seqZ_cons by lia. rewrite filter_cons. replace (Z.pred (Z.of_nat (S n))) with (Z.of_nat n) by lia.
    assert (Hbit : Z.testbit (Z.shiftr isr k) 0 = Z.testbit isr k) by by rewrite Z.shiftr_spec, Z.add_0_l by lia.
    assert (Hz : Z.shiftr isr k = 0 -> forall i, k <= i -> Z.testbit isr i = false).
    { intros H0 i Hi. replace i with (i - k + k) by lia. by rewrite <- Z.shiftr_spec, H0, Z.bits_0 by lia. }
    specialize (IH (Z.succ k)). replace (Z.shiftr isr (Z.succ k)) with (Z.shiftr (Z.shiftr isr k) 1) in IH
      by (rewrite Z.shiftr_shiftr by lia; done).
    cbn [while_local]. unfold truth at 1. destruct (Z.eqb_spec (Z.shiftr isr k) 0) as [E0|Hne]; cbn [negb].
    + rewrite decide_False by by rewrite (Hz E0 k) by lia. rewrite <- IH by (lia || intros; apply Hhigh; lia).
      rewrite E0. by destruct n.
    + rewrite truth_land_1, Hbit. destruct (Z.testbit isr k) eqn:Eb.
      * rewrite decide_True by done. cbn [map handle_all]. unfold bind. destruct (desc_handle_irq _ w) as [[] w1|]; [|done].
        cbn. rewrite <- IH by (lia || intros; apply Hhigh; lia). done.
      * rewrite decide_False by done. rewrite <- IH by (lia || intros; apply Hhigh; lia). done.
Qed.

Lemma isr_port_run port isr w : in_u32 isr -> isr_port port isr w = handle_all (pending_irqs port isr) w.
Proof.
  intros Hi. unfold isr_port, pending_irqs. rewrite <- (isr_loop ISR_FUEL); [|lia|].
  - by rewrite Z.shiftr_0_r.
  - intros i Hge. apply high_bit; [done|]. unfold ISR_FUEL in Hge. lia.
Qed.

Lemma isr_ports n lo w :
  bind (forM n lo (fun port => let! isr := gpio_pend (GPIO_PORT_VADDR port) in isr_port port isr ;; ret (None : option unit)))
    (fun _ => ret tt) w = dispatch (seqZ lo (Z.of_nat n)) w.
Proof.
  revert lo w. induction n as [|n IH]; intros lo w; [done|].
  rewrite seqZ_cons by lia. replace (Z.pred (Z.of_nat (S n))) with (Z.of_nat n) by lia. cbn [forM dispatch].
  unfold bind, gpio_pend, io_rd32, ret. destruct (bus_rd _ w) as [v w1].
  rewrite isr_port_run by apply u32_range. destruct (handle_all _ w1) as [[] w2|]; [|done]. exact (IH _ _).
Qed.

(** C38. The interrupt of the pins: of the six ports in order, each pin whose status
    bit is set when its port's status is read is handled once, in order, and
    nothing else is; the number it is handled under is one of the 192 lines
    registered for the pins and leads back to the port and the pin. *)
Theorem gpio_isr_correct w : gpio_isr w = dispatch (seqZ 0 6) w /\
  forall port isr irq, 0 <= port < 6 -> in_u32 isr ->
    (irq ∈ pending_irqs port isr <-> exists pin, 0 <= pin < 32 /\ Z.testbit isr pin = true /\ irq = GPIO_IRQ port pin) /\
    (irq ∈ pending_irqs port isr -> INTC_IRQS <= irq < INTC_IRQS + GPIO_IRQS /\
      GPIO_IRQ_PORT irq = port /\ Z.testbit isr (GPIO_IRQ_PIN irq) = true).
Proof.
  split; [apply (isr_ports 6 0)|]. intros port isr irq Hp Hi.
  assert (Hmem : irq ∈ pending_irqs port isr <-> exists pin, 0 <= pin < 32 /\ Z.testbit isr pin = true /\ irq = GPIO_IRQ port pin).
  { unfold pending_irqs. rewrite list_elem_of_fmap. setoid_rewrite list_elem_of_filter. setoid_rewrite elem_of_seqZ.
    split; [intros (pin & -> & Hb & Hr)|intros (pin & Hr & Hb & ->)]; exists pin; split_and!; (done || lia). }
  split; [exact Hmem|]. rewrite Hmem. intros (pin & Hpin & Hb & ->).
  assert (Hn : GPIO_IRQ port pin - INTC_IRQS = pin + port * 2 ^ 5).
  { unfold GPIO_IRQ. rewrite Z.shiftl_mul_pow2 by lia. lia. }
  unfold GPIO_IRQ_PORT, GPIO_IRQ_PIN. rewrite Hn. change (Z.shiftl 1 5 - 1) with (Z.ones 5).
  rewrite Z.land_ones, Z.shiftr_div_pow2, Z.div_add, Z.mod_add, Z.div_small, Z.mod_small by lia.
  change (2 ^ 5) with 32 in Hn. change GPIO_IRQS with 192. split_and!; try done; lia.
Qed.
End Dispatch.

(** ** The module at work *)
#[local] Instance intc_bus : Bus sim := sim_bus (fun _ => 0) 0.
#[local] Instance no_core : IrqCore sim := {|
  set_irq_chip _ _ := ret tt; set_irq_handler _ _ := ret tt; set_irq_flags _ := ret tt;
  set_irq_chained_handler _ := ret tt; desc_handle_irq _ := ret tt |}.

(** Pins 0 and 2 of the third port. *)
Lemma gpio_isr_correct_witness : 98 ∈ pending_irqs 2 5 /\ GPIO_IRQ_PORT 98 = 2 /\ Z.testbit 5 (GPIO_IRQ_PIN 98) = true.
Proof.
  destruct (gpio_isr_correct (W := sim) (Sim [] 0)) as [_ H].
  destruct (H 2 5 98) as [Hin Hback]; [lia|by vm_compute|].
  assert (98 ∈ pending_irqs 2 5) as Hi by (apply Hin; exists 2; by vm_compute).
  split; [exact Hi|]. destruct (Hback Hi) as (_ & Hp & Hb). split; [exact Hp|exact Hb].
Defined.

(** A controller whose reset is never over is initialised without an error. *)
Example intc_init_stuck : match intc_init 0 (Sim [(intc_id, Z.shiftl INTC_CLSDEV 10)] 0) with
  | Done v _ => v = 0 | Crash _ => False end.
Proof. by vm_compute. Qed.
