(* ===== verification/MagusSdhc.v ===== *)
(** * The SD host controller

    [BSP/oss/sdhc/sdhc.c] with [sdhcr.h], [sdhc.h] and [sd.h], built as its
    Makefile builds it: [SDHC_IO] is 8, so registers are reached at their own
    width; [SDHC_TOUT] is defined, [SDHC_CMD12], [SDHC_DIV2] and [GPIO_DBG] are
    not.  Commands and their data are objects the client owns and the driver
    changes through pointers: they live in a store, by address, and so does the
    memory behind the buffers.  The client's callback, which may call the
    driver again, is the parameter [SdClient]. *)

From Stdlib Require Import ZArith Lia Bool.
From stdpp Require Import base numbers list gmap.
From S2P Require Import Prelude CMonad DevIO.

(** [sdhcr_t]: offsets of the registers. *)
Definition sd_dma : Z := 0.
Definition sd_blk : Z := 4.
Definition sd_count : Z := 6.
Definition sd_arg : Z := 8.
Definition sd_mode : Z := 12.
Definition sd_cmdreg : Z := 14.
Definition sd_rsp (i : Z) : Z := 16 + 4 * i.
Definition sd_port : Z := 32.
Definition sd_sta : Z := 36.
Definition sd_host : Z := 40.
Definition sd_pwr : Z := 41.
Definition sd_clk : Z := 44.
Definition sd_frqdiv : Z := 45.
Definition sd_tout : Z := 46.
Definition sd_rst : Z := 47.
Definition sd_ista : Z := 48.
Definition sd_esta : Z := 50.
Definition sd_istaen : Z := 52.
Definition sd_estaen : Z := 54.
Definition sd_isigen : Z := 56.
Definition sd_esigen : Z := 58.
Definition sd_a12err : Z := 60.
Definition sd_toutcaps : Z := 64.
Definition sd_clkcaps : Z := 65.
Definition sd_fncaps : Z := 66.
Definition sd_pwrcaps : Z := 67.
Definition SDHC_CTL_REG (r : Z) : Z := u32 (r - 0x100).

Definition SDHC_BLK_ALIGN_512K : Z := 0x7000.
Definition SDHC_MODE_DMA : Z := 0x01.
Definition SDHC_MODE_COUNT : Z := 0x02.
Definition SDHC_MODE_AUTOSTOP : Z := 0x04.
Definition SDHC_MODE_RD : Z := 0x10.
Definition SDHC_MODE_MULTI : Z := 0x20.
Definition SDHC_CMD_TYP_MASK : Z := 0xC0.
Definition SDHC_CMD_TYP_SUSPEND : Z := Z.shiftl 1 6.
Definition SDHC_CMD_TYP_RESUME : Z := Z.shiftl 2 6.
Definition SDHC_CMD_TYP_ABORT : Z := Z.shiftl 3 6.
Definition SDHC_CMD_DAT : Z := 0x20.
Definition SDHC_CMD_IDX : Z := 0x10.
Definition SDHC_CMD_CRC : Z := 0x08.
Definition SDHC_CMD_RSP_MASK : Z := 0x03.
Definition SDHC_CMD_RSP_136 : Z := 1.
Definition SDHC_CMD_RSP_48 : Z := 2.
Definition SDHC_CMD_RSP_BUSY : Z := 3.
Definition SDHC_STA_CMD_INHIBIT : Z := 1.
Definition SDHC_STA_DAT_INHIBIT : Z := 2.
Definition SDHC_STA_WRDY : Z := 0x400.
Definition SDHC_STA_RRDY : Z := 0x800.
Definition SDHC_STA_INS : Z := 0x10000.
Definition SDHC_STA_WP : Z := 0x80000.
Definition SDHC_HOST_LED : Z := 1.
Definition SDHC_HOST_WIDE : Z := 2.
Definition SDHC_PWR_ENA : Z := 0x01.
Definition SDHC_PWR_V18 : Z := Z.shiftl 5 1.
Definition SDHC_PWR_V30 : Z := Z.shiftl 6 1.
Definition SDHC_PWR_V33 : Z := Z.shiftl 7 1.
Definition SDHC_CLK_ENA : Z := 4.
Definition SDHC_CLK_STABLE : Z := 2.
Definition SDHC_CLK_INT : Z := 1.
Definition SDHC_RST_DAT : Z := 4.
Definition SDHC_RST_CMD : Z := 2.
Definition SDHC_RST_ALL : Z := 1.
Definition SDHC_IRQ_ERR : Z := 0x8000.
Definition SDHC_IRQ_IO : Z := 0x100.
Definition SDHC_IRQ_REM : Z := 0x80.
Definition SDHC_IRQ_INS : Z := 0x40.
Definition SDHC_IRQ_RD : Z := 0x20.
Definition SDHC_IRQ_WR : Z := 0x10.
Definition SDHC_IRQ_DMA : Z := 0x08.
Definition SDHC_IRQ_DAT : Z := 0x02.
Definition SDHC_IRQ_CMD : Z := 0x01.
Definition SDHC_ERR_ALL_MASK : Z := 0x1FF.
Definition SDHC_ERR_A12 : Z := 0x100.
Definition SDHC_ERR_DAT_MASK : Z := 0x70.
Definition SDHC_ERR_DAT_CRC : Z := 0x20.
Definition SDHC_ERR_DAT_TOUT : Z := 0x10.
Definition SDHC_ERR_RSP_MASK : Z := 0x0F.
Definition SDHC_ERR_RSP_TOUT : Z := 0x01.
Definition SDHC_PWRCAPS_V18 : Z := 4.
Definition SDHC_PWRCAPS_V30 : Z := 2.
Definition SDHC_PWRCAPS_V33 : Z := 1.
Definition SDHC_FNCAPS_SUSPEND : Z := 0x80.
Definition SDHC_FNCAPS_DMA : Z := 0x40.
Definition SDHC_FNCAPS_HSPEED : Z := 0x20.
Definition SDHC_FNCAPS_BMASK : Z := 3.
Definition SDHC_TOUTCAPS_MHZ : Z := 0x80.
Definition SDHC_TOUTCAPS_MASK : Z := 0x3F.
Definition SDHC_C_ABORT : Z := Z.lor (Z.lor (Z.shiftl 12 8) 0x1b) 0xC0.
Definition SDHC_IRQ_ALL : Z :=
  Z.lor SDHC_IRQ_ERR (Z.lor SDHC_IRQ_REM (Z.lor SDHC_IRQ_INS (Z.lor SDHC_IRQ_RD (Z.lor SDHC_IRQ_WR
    (Z.lor SDHC_IRQ_DMA (Z.lor SDHC_IRQ_DAT SDHC_IRQ_CMD)))))).
Definition SDHC_INHIBIT_TOUT : Z := 100000.
Definition SD_OCR_V (dV : Z) : Z := dV - 12.

Definition SDCMD_F_DMA : Z := 0x80.
Definition SDCMD_F_MULTI : Z := 0x40.
Definition SDCMD_F_DAT : Z := 0x20.
Definition SDCMD_F_WR : Z := 0x10.
Definition SDCMD_F_STOP : Z := 0x08.
Definition SDCMD_F_RMASK : Z := 0x07.
Definition SDCMD_F_R1 : Z := 0x01.
Definition SDCMD_F_R2 : Z := 0x02.
Definition SDCMD_F_R3 : Z := 0x03.
Definition SDCMD_F_R1B : Z := 0x05.
Definition SDHC_EVT_REM : Z := 0.
Definition SDHC_EVT_INS : Z := 1.
Definition SDHC_EVT_IO : Z := 2.
Definition SDHC_EVT_MAX : Z := 3.

Definition SDHC_RET_NONE : Z := 0.
Definition SDHC_RET_PARM : Z := -1.
Definition SDHC_RET_BUSY : Z := -2.
Definition SDHC_RET_TOUT : Z := -3.
Definition SDHC_RET_CMD_TOUT : Z := -4.
Definition SDHC_RET_CMD_LINE : Z := -5.
Definition SDHC_RET_DAT_TOUT : Z := -6.
Definition SDHC_RET_DAT_LINE : Z := -7.
Definition SDHC_RET_REM : Z := -8.
Definition SDHC_RET_ABORT : Z := -9.
Definition SDHC_RET_DAT_OVR : Z := -10.

Record sd_dat_t := SdDat { dat_buf : Z; dat_count : Z; dat_blk : Z; dat_actual : Z }.
Definition set_actual (a : Z) (d : sd_dat_t) : sd_dat_t := SdDat (dat_buf d) (dat_count d) (dat_blk d) (u16 a).

(** [c_dat] is the address of a [sd_dat_t], or 0. *)
Record sd_cmd_t := SdCmd {
  c_arg : Z; c_rsp : Z; c_ctx : Z; c_rt : Z; c_dat : Z; c_tout : Z; c_cmd : Z; c_flag : Z }.
Definition set_rt (rt : Z) (c : sd_cmd_t) : sd_cmd_t :=
  SdCmd (c_arg c) (c_rsp c) (c_ctx c) rt (c_dat c) (c_tout c) (c_cmd c) (c_flag c).
Definition set_rsp (rsp : Z) (c : sd_cmd_t) : sd_cmd_t :=
  SdCmd (c_arg c) rsp (c_ctx c) (c_rt c) (c_dat c) (c_tout c) (c_cmd c) (c_flag c).

(** [h_cmd] and [h_dat] are addresses of commands, or 0. *)
Record sdhc_t := Sdhc {
  h_r : Z; h_ctx : Z; h_baseclk : Z; h_toutclk : Z; h_ocr : Z;
  h_fhspeed : bool; h_fdma : bool; h_fsuspend : bool; h_maxblksz : Z;
  h_fwp : bool; h_fins : bool; h_ver : Z; h_cmd : Z; h_dat : Z }.
Definition set_baseclk (x : Z) (t : sdhc_t) : sdhc_t :=
  Sdhc (h_r t) (h_ctx t) (u16 x) (h_toutclk t) (h_ocr t) (h_fhspeed t) (h_fdma t) (h_fsuspend t) (h_maxblksz t) (h_fwp t) (h_fins t) (h_ver t) (h_cmd t) (h_dat t).
Definition set_toutclk (x : Z) (t : sdhc_t) : sdhc_t :=
  Sdhc (h_r t) (h_ctx t) (h_baseclk t) x (h_ocr t) (h_fhspeed t) (h_fdma t) (h_fsuspend t) (h_maxblksz t) (h_fwp t) (h_fins t) (h_ver t) (h_cmd t) (h_dat t).
Definition set_ocr (x : Z) (t : sdhc_t) : sdhc_t :=
  Sdhc (h_r t) (h_ctx t) (h_baseclk t) (h_toutclk t) x (h_fhspeed t) (h_fdma t) (h_fsuspend t) (h_maxblksz t) (h_fwp t) (h_fins t) (h_ver t) (h_cmd t) (h_dat t).
(** The capabilities, from the byte [fncaps]. *)
Definition set_fncaps (p : Z) (ins : bool) (t : sdhc_t) : sdhc_t :=
  Sdhc (h_r t) (h_ctx t) (h_baseclk t) (h_toutclk t) (h_ocr t) (truth (Z.land p SDHC_FNCAPS_HSPEED)) (truth (Z.land p SDHC_FNCAPS_DMA))
    (truth (Z.land p SDHC_FNCAPS_SUSPEND)) (Z.land p SDHC_FNCAPS_BMASK) (h_fwp t) ins (h_ver t) (h_cmd t) (h_dat t).
Definition set_ver (x : Z) (t : sdhc_t) : sdhc_t :=
  Sdhc (h_r t) (h_ctx t) (h_baseclk t) (h_toutclk t) (h_ocr t) (h_fhspeed t) (h_fdma t) (h_fsuspend t) (h_maxblksz t) (h_fwp t) (h_fins t) x (h_cmd t) (h_dat t).
Definition set_card (wp ins : bool) (t : sdhc_t) : sdhc_t :=
  Sdhc (h_r t) (h_ctx t) (h_baseclk t) (h_toutclk t) (h_ocr t) (h_fhspeed t) (h_fdma t) (h_fsuspend t) (h_maxblksz t) wp ins (h_ver t) (h_cmd t) (h_dat t).
Definition set_slots (cmd dat : Z) (t : sdhc_t) : sdhc_t :=
  Sdhc (h_r t) (h_ctx t) (h_baseclk t) (h_toutclk t) (h_ocr t) (h_fhspeed t) (h_fdma t) (h_fsuspend t) (h_maxblksz t) (h_fwp t) (h_fins t) (h_ver t) cmd dat.

(** The context, the commands and their data by address, and the bytes of
    memory. *)
Record sd_state := SdState {
  st_t : sdhc_t; st_cmds : gmap Z sd_cmd_t; st_dats : gmap Z sd_dat_t; st_mem : Z -> Z }.
Definition on_t (f : sdhc_t -> sdhc_t) (s : sd_state) : sd_state := SdState (f (st_t s)) (st_cmds s) (st_dats s) (st_mem s).
Definition on_cmd (p : Z) (f : sd_cmd_t -> sd_cmd_t) (s : sd_state) : sd_state :=
  SdState (st_t s) (alter f p (st_cmds s)) (st_dats s) (st_mem s).
Definition on_dat (p : Z) (f : sd_dat_t -> sd_dat_t) (s : sd_state) : sd_state :=
  SdState (st_t s) (st_cmds s) (alter f p (st_dats s)) (st_mem s).
Definition on_mem (f : (Z -> Z) -> Z -> Z) (s : sd_state) : sd_state :=
  SdState (st_t s) (st_cmds s) (st_dats s) (f (st_mem s)).

(** A word of memory, low byte first. *)
Definition mem_word (m : Z -> Z) (a : Z) : Z := m a + 2 ^ 8 * m (a + 1) + 2 ^ 16 * m (a + 2) + 2 ^ 24 * m (a + 3).
Definition byte_of (x i : Z) : Z := u8 (Z.shiftr x (8 * i)).
Definition put_word (a x : Z) (m : Z -> Z) : Z -> Z :=
  upd (upd (upd (upd m a (byte_of x 0)) (a + 1) (byte_of x 1)) (a + 2) (byte_of x 2)) (a + 3) (byte_of x 3).

(** Volatile accesses of one, two and four bytes, and the kernel's delay. *)
Inductive width := B8 | B16 | B32.
Definition trunc (k : width) (x : Z) : Z := match k with B8 => u8 x | B16 => u16 x | B32 => u32 x end.
Class SdBus (W : Type) := {
  sdb_rd : width -> Z -> W -> Z * W;
  sdb_wr : width -> Z -> Z -> W -> W;
  sdb_delay : Z -> W -> W }.
Class SdClient (W : Type) := { sd_evt : Z -> Z -> M (W * sd_state) unit }.
(** Fuel of the wait for the DMA address, and the board: whether the switch of
    the card socket reads 0 on a protected card. *)
Class SdConfig := { sd_fuel : nat; wp_inverted : bool }.

(** ** The divider of the card clock and the time out *)
Definition sdhc_div (clk base : Z) : Z * Z :=
  if clk >=? base then (0, base)
  else
    let div := match list_find (fun div => Z.shiftr base div <= clk) (seqZ 1 7) with Some (_, div) => div | None => 8 end in
    (Z.shiftl 1 (div - 1), Z.shiftr base div).

(** [for (count = 0; cycles && count < 14; count++) cycles >>= 1;] *)
Fixpoint tout_count (n : nat) (cycles count : Z) : Z :=
  match n with
  | O => count
  | S n => if truth cycles && (count <? 14) then tout_count n (Z.shiftr cycles 1) (count + 1) else count
  end.

(** ** The word that starts a command *)
Definition cmd_response (f : Z) : Z :=
  let k := Z.land f SDCMD_F_RMASK in
  if k =? SDCMD_F_R1 then Z.lor (Z.lor SDHC_CMD_RSP_48 SDHC_CMD_IDX) SDHC_CMD_CRC
  else if k =? SDCMD_F_R1B then Z.lor (Z.lor (Z.lor SDHC_CMD_RSP_BUSY SDHC_CMD_IDX) SDHC_CMD_CRC) SDHC_CMD_DAT
  else if k =? SDCMD_F_R2 then Z.lor SDHC_CMD_RSP_136 SDHC_CMD_CRC
  else if k =? SDCMD_F_R3 then SDHC_CMD_RSP_48
  else 0.

(** Commands 12 and 52 can abort, suspend or resume what is going on. *)
Definition cmd_type (cmd arg : Z) : Z :=
  if cmd =? 12 then SDHC_CMD_TYP_ABORT
  else if cmd =? 52 then
    if Z.land arg (Z.lor (Z.shiftl 1 31) (Z.shiftl 7 28)) =? Z.shiftl 1 31 then
      let reg := Z.land arg (Z.shiftl 0x1FFFF 9) in
      if reg =? Z.shiftl 6 9 then if truth (Z.land arg 7) then SDHC_CMD_TYP_ABORT else 0
      else if reg =? Z.shiftl 12 9 then if truth (Z.land arg 2) then SDHC_CMD_TYP_SUSPEND else 0
      else if reg =? Z.shiftl 13 9 then if truth (Z.land arg 7) then SDHC_CMD_TYP_RESUME else 0
      else 0
    else 0
  else 0.

Definition cmd_word (c : sd_cmd_t) : Z :=
  Z.lor (Z.lor (Z.shiftl (c_cmd c) 8) (cmd_response (c_flag c))) (cmd_type (c_cmd c) (c_arg c)).

(** The bits of the state register to wait for. *)
Definition cmd_inhibit (word f : Z) : Z :=
  if negb (Z.land word SDHC_CMD_TYP_MASK =? SDHC_CMD_TYP_ABORT) &&
     ((Z.land word SDHC_CMD_RSP_MASK =? SDHC_CMD_RSP_BUSY) || truth (Z.land f SDCMD_F_DAT))
  then Z.lor SDHC_STA_CMD_INHIBIT SDHC_STA_DAT_INHIBIT else SDHC_STA_CMD_INHIBIT.

(** The transfer mode; the variable [v] still holds the bits waited for. *)
Definition cmd_mode (v f : Z) : Z :=
  let v := if negb (truth (Z.land f SDCMD_F_WR)) then SDHC_MODE_RD else v in
  let v := if truth (Z.land f SDCMD_F_MULTI) then
      let v := Z.lor v (Z.lor SDHC_MODE_MULTI SDHC_MODE_COUNT) in
      if truth (Z.land f SDCMD_F_STOP) then Z.lor v SDHC_MODE_AUTOSTOP else v
    else v in
  if truth (Z.land f SDCMD_F_DMA) then Z.lor v SDHC_MODE_DMA else v.

Section Sdhc.
Context {W : Type} `{SdBus W}.
Notation G := (M (W * sd_state)).

Definition io_rd (k : width) (a : Z) : M W Z := fun w => let '(v, w') := sdb_rd k a w in Done (trunc k v) w'.
Definition io_wr (k : width) (a d : Z) : M W unit := modify (sdb_wr k a (trunc k d)).
Definition rd (k : width) (off : Z) : G Z := let! s := get_t in io (io_rd k (h_r (st_t s) + off)).
Definition wr (k : width) (off d : Z) : G unit := let! s := get_t in io (io_wr k (h_r (st_t s) + off) d).
Definition udelay (us : Z) : G unit := io (modify (sdb_delay us)).
Definition the_t : G sdhc_t := let! s := get_t in ret (st_t s).
Definition the_cmd (p : Z) : G sd_cmd_t := let! s := get_t in assert_some OutOfBounds (st_cmds s !! p).
Definition the_dat (p : Z) : G sd_dat_t := let! s := get_t in assert_some OutOfBounds (st_dats s !! p).
Definition upd_cmd (p : Z) (f : sd_cmd_t -> sd_cmd_t) : G unit := the_cmd p ;; upd_t (on_cmd p f).
Definition upd_dat (p : Z) (f : sd_dat_t -> sd_dat_t) : G unit := the_dat p ;; upd_t (on_dat p f).

(** [for (i = 0; i < n; i++) if (stop(read)) return i; return n;] *)
Fixpoint poll (n : nat) (i : Z) (read : G Z) (stop : Z -> bool) : G Z :=
  match n with
  | O => ret i
  | S n => let! v := read in if stop v then ret i else poll n (i + 1) read stop
  end.

Definition sdhc_rst (rst : Z) : G Z :=
  wr B8 sd_rst rst ;;
  let! i := poll 100 0 (rd B8 sd_rst) (fun v => v =? 0) in
  if i <? 100 then wr B8 sd_tout 14 ;; ret SDHC_RET_NONE else ret SDHC_RET_TOUT.

Definition sdhc_tout (ms : Z) : G Z :=
  let! t := the_t in
  let cycles := Z.shiftr (u32 (h_toutclk t * ms)) 13 in
  wr B8 sd_tout (tout_count 14 cycles 0) ;;
  ret 0.

Definition sdhc_ocr (pwr : Z) : Z :=
  Z.lor (Z.lor (if truth (Z.land pwr SDHC_PWRCAPS_V18) then Z.shiftl 3 (SD_OCR_V 17) else 0)
    (if truth (Z.land pwr SDHC_PWRCAPS_V30) then Z.shiftl 3 (SD_OCR_V 29) else 0))
    (if truth (Z.land pwr SDHC_PWRCAPS_V33) then Z.shiftl 3 (SD_OCR_V 32) else 0).

Definition sdhc_init : G Z :=
  let! t := the_t in
  if h_r t =? 0 then ret SDHC_RET_PARM
  else
    let! rt := sdhc_rst SDHC_RST_ALL in
    if truth rt then ret rt
    else
      let! caps := rd B8 sd_clkcaps in
      let clk := Z.land caps 0x3F in
      (if truth clk then upd_t (on_t (set_baseclk (clk * 10))) else ret tt) ;;
      let! caps := rd B8 sd_toutcaps in
      let clk := Z.land caps SDHC_TOUTCAPS_MASK in
      (if truth clk
       then upd_t (on_t (set_toutclk (if truth (Z.land caps SDHC_TOUTCAPS_MHZ) then clk * 1000 else clk)))
       else ret tt) ;;
      let! t := the_t in
      if negb (truth (h_baseclk t)) || negb (truth (h_toutclk t)) then ret SDHC_RET_PARM
      else
        let! pwr := rd B8 sd_pwrcaps in
        upd_t (on_t (set_ocr (sdhc_ocr pwr))) ;;
        let! pwr := rd B8 sd_fncaps in
        let! sta := rd B32 sd_sta in
        upd_t (on_t (set_fncaps pwr (truth (Z.land sta SDHC_STA_INS)))) ;;
        let ctlr := SDHC_CTL_REG (h_r t) in
        let! clk := io (io_rd B32 ctlr) in
        let clk := Z.lor clk 8 in
        io (io_wr B32 ctlr clk) ;;
        let! v := io (io_rd B32 ctlr) in
        (if truth (Z.land v 8)
         then io (io_wr B32 ctlr (Z.lor (Z.land clk 0xFFFF0000) 0x71)) ;; upd_t (on_t (set_ver 1))
         else upd_t (on_t (set_ver 0))) ;;
        wr B16 sd_istaen SDHC_IRQ_ALL ;;
        wr B16 sd_isigen SDHC_IRQ_ALL ;;
        wr B16 sd_estaen SDHC_ERR_ALL_MASK ;;
        wr B16 sd_esigen SDHC_ERR_ALL_MASK ;;
        ret SDHC_RET_NONE.

Definition sdhc_exit : G unit := sdhc_rst SDHC_RST_ALL ;; ret tt.

(** The divider, and the selection of the base clock by a third for controllers
    that have it. *)
Definition pick_div (t : sdhc_t) (clk : Z) : Z * option Z :=
  if truth (h_ver t) then
    let '(div, rclk) := sdhc_div clk (h_baseclk t) in
    let '(div3, rclk3) := sdhc_div clk (h_baseclk t / 3) in
    if rclk3 >? rclk then (div3, Some 2) else (div, Some 0)
  else (fst (sdhc_div clk (h_baseclk t / 2)), None).

Definition sdhc_set_clk (clk : Z) : G Z :=
  let! i := poll (Z.to_nat SDHC_INHIBIT_TOUT) 0 (rd B32 sd_sta)
    (fun v => Z.land v (Z.lor SDHC_STA_CMD_INHIBIT SDHC_STA_DAT_INHIBIT) =? 0) in
  if i >=? SDHC_INHIBIT_TOUT then ret SDHC_RET_BUSY
  else
    let! v := rd B8 sd_clk in
    wr B8 sd_clk (Z.land v (Z.lnot SDHC_CLK_ENA)) ;;
    if negb (truth clk) then ret SDHC_RET_NONE
    else
      let! t := the_t in
      let '(div, sel) := pick_div t clk in
      match sel with
      | Some sel =>
          let ctlr := SDHC_CTL_REG (h_r t) in
          let! v := io (io_rd B32 ctlr) in
          io (io_wr B32 ctlr (Z.lor (Z.land v (Z.lnot 3)) sel))
      | None => ret tt
      end ;;
      wr B8 sd_frqdiv div ;;
      wr B8 sd_clk SDHC_CLK_INT ;;
      let! i := poll (Z.to_nat 10000) 0 (rd B8 sd_clk) (fun v => truth (Z.land v SDHC_CLK_STABLE)) in
      if i >=? 10000 then ret SDHC_RET_TOUT
      else
        let! v := rd B8 sd_clk in
        wr B8 sd_clk (Z.lor v SDHC_CLK_ENA) ;;
        ret SDHC_RET_NONE.

(** [None] is [goto lp_err]. *)
Definition pwr_bits (pwr spwr : Z) : option Z :=
  if pwr =? -1 then
    Some (if truth (Z.land spwr SDHC_PWRCAPS_V33) then SDHC_PWR_V33
          else if truth (Z.land spwr SDHC_PWRCAPS_V30) then SDHC_PWR_V30 else SDHC_PWR_V18)
  else if truth (Z.land pwr (Z.shiftl 3 (SD_OCR_V 17))) then
    if negb (truth (Z.land spwr SDHC_PWRCAPS_V18)) then None else Some (Z.lor SDHC_PWR_V18 SDHC_PWR_ENA)
  else if truth (Z.land pwr (Z.shiftl 3 (SD_OCR_V 29))) then
    if negb (truth (Z.land spwr SDHC_PWRCAPS_V30)) then None else Some (Z.lor SDHC_PWR_V30 SDHC_PWR_ENA)
  else if truth (Z.land pwr (Z.shiftl 3 (SD_OCR_V 32))) then
    if negb (truth (Z.land spwr SDHC_PWRCAPS_V33)) then None else Some (Z.lor SDHC_PWR_V33 SDHC_PWR_ENA)
  else None.

Definition sdhc_set_pwr (pwr : Z) : G Z :=
  if negb (truth pwr) then wr B8 sd_pwr 0 ;; ret SDHC_RET_NONE
  else
    let! spwr := rd B8 sd_pwrcaps in
    match pwr_bits pwr spwr with
    | None => ret SDHC_RET_PARM
    | Some pwr => wr B8 sd_pwr 0 ;; wr B8 sd_pwr pwr ;; ret SDHC_RET_NONE
    end.

Definition sdhc_set_led (on : Z) : G unit :=
  let! v := rd B8 sd_host in
  if negb (Bool.eqb (negb (truth on)) (negb (truth (Z.land v SDHC_HOST_LED))))
  then wr B8 sd_host (Z.lxor v SDHC_HOST_LED) else ret tt.

Definition sdhc_set_width (wide : Z) : G unit :=
  let! v := rd B8 sd_host in
  if negb (Bool.eqb (negb (truth (Z.land v SDHC_HOST_WIDE))) (negb (truth wide))) then
    let! sta := rd B16 sd_istaen in
    wr B16 sd_istaen 0 ;;
    wr B8 sd_host (Z.lxor v SDHC_HOST_WIDE) ;;
    wr B16 sd_istaen sta
  else ret tt.

Definition sdhc_ioirq_ena (ena : Z) : G unit :=
  let! sta := rd B16 sd_istaen in
  if negb (Bool.eqb (negb (truth (Z.land sta SDHC_IRQ_IO))) (negb (truth ena))) then
    wr B16 sd_istaen (Z.lxor sta SDHC_IRQ_IO) ;;
    wr B16 sd_isigen (Z.lxor sta SDHC_IRQ_IO)
  else ret tt.

(** ** Starting a command *)
Definition fail_cmd (p rt : Z) : G Z := upd_cmd p (set_rt rt) ;; ret rt.

(** The registers of the transfer; [Some rt] when it cannot be started. *)
Definition prepare_data (v : Z) (c : sd_cmd_t) : G (option Z) :=
  let f := c_flag c in
  upd_dat (c_dat c) (set_actual 0) ;;
  let! d := the_dat (c_dat c) in
  if negb (truth (dat_count d)) || negb (truth (dat_blk d)) then ret (Some SDHC_RET_PARM)
  else
    (if truth (Z.land f SDCMD_F_MULTI) then wr B16 sd_count (dat_count d) else ret tt) ;;
    (if truth (Z.land f SDCMD_F_DMA) then wr B32 sd_dma (dat_buf d) else ret tt) ;;
    wr B16 sd_blk (Z.lor SDHC_BLK_ALIGN_512K (dat_blk d)) ;;
    wr B16 sd_mode (cmd_mode v f) ;;
    ret None.

Definition sdhc_cmd (p : Z) : G Z :=
  let! t := the_t in
  let! c := the_cmd p in
  if negb (h_fins t) then fail_cmd p SDHC_RET_REM
  else
    let f := c_flag c in
    let cmd := cmd_word c in
    let v := cmd_inhibit cmd f in
    let! i := poll (Z.to_nat SDHC_INHIBIT_TOUT) 0 (rd B32 sd_sta) (fun sta => Z.land v sta =? 0) in
    if i >=? SDHC_INHIBIT_TOUT then fail_cmd p SDHC_RET_BUSY
    else
      let! err := (if truth (Z.land f SDCMD_F_DAT) then prepare_data v c else ret None) in
      match err with
      | Some rt => fail_cmd p rt
      | None =>
          let cmd := if truth (Z.land f SDCMD_F_DAT) then Z.lor cmd SDHC_CMD_DAT else cmd in
          (if truth (Z.land cmd SDHC_CMD_DAT) || (Z.land cmd SDHC_CMD_RSP_MASK =? SDHC_CMD_RSP_BUSY)
           then sdhc_tout (if truth (c_tout c) then c_tout c else 1000) ;; ret tt else ret tt) ;;
          upd_cmd p (set_rt SDHC_RET_NONE) ;;
          wr B32 sd_arg (c_arg c) ;;
          upd_t (on_t (fun t => set_slots p (h_dat t) t)) ;;
          wr B16 sd_cmdreg cmd ;;
          ret SDHC_RET_NONE
      end.

Definition sdhc_abort : G unit :=
  sdhc_rst (Z.lor SDHC_RST_CMD SDHC_RST_DAT) ;;
  wr B32 sd_arg 0 ;;
  wr B32 sd_mode (Z.shiftl (Z.lor (Z.lor (Z.lor (Z.lor SDHC_C_ABORT SDHC_CMD_TYP_ABORT)
    SDHC_CMD_RSP_BUSY) SDHC_CMD_IDX) SDHC_CMD_CRC) 16).

(** ** Programmed transfer *)

(** The words of one block, from address [a] on. *)
Definition pio_block (write : bool) (a blen : Z) : G unit :=
  for_range 0 ((blen + 3) / 4) (fun i =>
    (if write then let! s := get_t in wr B32 sd_port (mem_word (st_mem s) (a + 4 * i))
     else let! x := rd B32 sd_port in upd_t (on_mem (put_word (a + 4 * i) x))) ;;
    ret (None : option unit)) ;;
  ret tt.

(** At most [n] blocks, the first at [a]; answers how many. *)
Fixpoint pio_blocks (n : nat) (write : bool) (a blen k : Z) : G Z :=
  match n with
  | O => ret k
  | S n =>
      let! sta := rd B32 sd_sta in
      if negb (truth (Z.land sta (if write then SDHC_STA_WRDY else SDHC_STA_RRDY))) then ret k
      else pio_block write a blen ;; pio_blocks n write (a + 4 * ((blen + 3) / 4)) blen (k + 1)
  end.

Definition sdhc_pio (c : sd_cmd_t) : G unit :=
  let! d := the_dat (c_dat c) in
  let blen := dat_blk d in
  let a := dat_buf d + blen * dat_actual d in
  let count := u16 (dat_count d - dat_actual d) in
  if negb (truth count) then ret tt
  else
    let! k := pio_blocks (Z.to_nat count) (truth (Z.land (c_flag c) SDCMD_F_WR)) a blen 0 in
    upd_dat (c_dat c) (fun d => set_actual (dat_actual d + k) d).

Context `{SdClient W} `{SdConfig}.

Definition evt (ev : Z) : G unit := let! t := the_t in sd_evt (h_ctx t) ev.
(** [t->cmd = p], [t->dat = p]. *)
Definition put_cmd (p : Z) : G unit := upd_t (on_t (fun t => set_slots p (h_dat t) t)).
Definition put_dat (p : Z) : G unit := upd_t (on_t (fun t => set_slots (h_cmd t) p t)).

(** ** Waiting for the DMA engine

    The loop has the last address [adr2] and the count [tout] of readings
    without progress. *)
Fixpoint dma_loop (n : nat) (p adr adr2 tout : Z) : G unit :=
  match n with
  | O => crash OutOfFuel
  | S n =>
      let! adr1 := rd B32 sd_dma in
      if adr1 =? adr then ret tt
      else if negb (adr1 =? adr2) then dma_loop n p adr adr1 0
      else if tout + 1 >? 200 then
        let! d := the_dat p in
        let! q := udiv (u32 (adr1 - dat_buf d)) (dat_blk d) in
        rd B32 sd_blk ;;
        upd_dat p (set_actual q)
      else udelay 5 ;; dma_loop n p adr adr2 (tout + 1)
  end.

Definition sdhc_dmawait (p : Z) : G unit :=
  let! d := the_dat p in
  let adr := u32 (dat_buf d + dat_actual d * dat_blk d) in
  let! adr2 := rd B32 sd_dma in
  if adr2 =? adr then ret tt else dma_loop sd_fuel p adr adr2 0.

(** ** The interrupt *)

(** Clear the FIFO and report the card. *)
Definition isr_card_event : G unit :=
  let! clk := rd B8 sd_clk in
  wr B8 sd_clk (Z.land clk (Z.lnot SDHC_CLK_ENA)) ;;
  wr B8 sd_clk (Z.lor clk SDHC_CLK_ENA) ;;
  sdhc_rst (Z.lor SDHC_RST_CMD SDHC_RST_DAT) ;;
  wr B8 sd_clk clk ;;
  let! psta := rd B32 sd_sta in
  if truth (Z.land psta SDHC_STA_INS) then
    let wp := truth (Z.land psta SDHC_STA_WP) in
    upd_t (on_t (set_card (if wp_inverted then negb wp else wp) true)) ;;
    evt SDHC_EVT_INS
  else
    upd_t (on_t (fun t => set_card (h_fwp t) false t)) ;;
    evt SDHC_EVT_REM.

(** A card came or went: the pending commands are answered. *)
Definition isr_card : G unit :=
  let! t := the_t in
  let d := h_dat t in
  (if truth d then upd_cmd d (set_rt SDHC_RET_REM) ;; put_dat 0 else ret tt) ;;
  let! t := the_t in
  let c := h_cmd t in
  (if truth c then upd_cmd c (set_rt SDHC_RET_REM) ;; put_cmd 0 else ret tt) ;;
  isr_card_event ;;
  (if truth d then evt d else ret tt) ;;
  (if truth c then evt c else ret tt).

(** [err & SDHC_ERR_RSP_MASK]; answers whether the interrupt is over. *)
Definition isr_rsp_err (err : Z) : G bool :=
  sdhc_rst SDHC_RST_CMD ;;
  let! t := the_t in
  let c := h_cmd t in
  if truth c then
    put_cmd 0 ;;
    let! cc := the_cmd c in
    if negb (truth (c_rt cc)) then
      upd_cmd c (set_rt (if Z.land err SDHC_ERR_RSP_MASK =? SDHC_ERR_RSP_TOUT
        then SDHC_RET_CMD_TOUT else SDHC_RET_CMD_LINE)) ;;
      if truth (Z.land (c_flag cc) SDCMD_F_DAT) then sdhc_abort ;; put_cmd c ;; ret true
      else evt c ;; ret false
    else evt c ;; ret false
  else
    let d := h_dat t in
    if truth d then
      let! cd := the_cmd d in
      if truth (c_rt cd) then put_dat 0 ;; evt d ;; ret false else ret false
    else ret false.

Definition dat_error (err : Z) : Z :=
  let e := Z.land err SDHC_ERR_DAT_MASK in
  if e =? SDHC_ERR_DAT_TOUT then SDHC_RET_DAT_TOUT
  else if e =? Z.lor SDHC_ERR_DAT_TOUT SDHC_ERR_DAT_CRC then SDHC_RET_DAT_OVR
  else SDHC_RET_DAT_LINE.

(** [err & SDHC_ERR_DAT_MASK]; answers whether there was a data command, whose
    completion bits are then dropped. *)
Definition isr_dat_err (err : Z) : G bool :=
  let! t := the_t in
  let c := h_dat t in
  if truth c then
    upd_cmd c (set_rt (dat_error err)) ;;
    let! cc := the_cmd c in
    (if negb (truth (Z.land (c_flag cc) SDCMD_F_MULTI)) then upd_dat (c_dat cc) (set_actual 0)
     else
       let! d := the_dat (c_dat cc) in
       let! n := rd B16 sd_count in
       upd_dat (c_dat cc) (set_actual (dat_count d - n))) ;;
    (if truth (Z.land (c_flag cc) SDCMD_F_DMA) then sdhc_dmawait (c_dat cc) else ret tt) ;;
    sdhc_rst (Z.lor SDHC_RST_CMD SDHC_RST_DAT) ;;
    put_dat 0 ;;
    evt c ;;
    ret true
  else
    sdhc_rst SDHC_RST_DAT ;;
    let! t := the_t in
    let c := h_cmd t in
    (if truth c then
       let! cc := the_cmd c in
       if truth (c_rt cc) then put_cmd 0 ;; evt c else ret tt
     else ret tt) ;;
    ret false.

(** The automatic stop failed: stop by hand. *)
Definition isr_a12 : G bool :=
  let! t := the_t in
  let c := h_dat t in
  if truth c then
    let! cc := the_cmd c in
    if negb (truth (c_rt cc)) then upd_cmd c (set_rt SDHC_RET_ABORT) ;; sdhc_abort ;; ret true else ret false
  else ret false.

Definition CMD_BITS : Z := SDHC_IRQ_CMD.
Definition DAT_BITS : Z := Z.lor (Z.lor SDHC_IRQ_DAT SDHC_IRQ_RD) SDHC_IRQ_WR.

(** Answers [None] when the interrupt is over, otherwise what is left of the
    status. *)
Definition isr_err (sta : Z) : G (option Z) :=
  let! err := rd B16 sd_esta in
  let! a12err := (if truth (Z.land err SDHC_ERR_A12) then rd B8 sd_a12err else ret 0) in
  wr B16 sd_esta err ;;
  let! r :=
    (if truth (Z.land err SDHC_ERR_RSP_MASK) then
       let! over := isr_rsp_err err in
       ret (if over then None else Some (Z.land sta (Z.lnot CMD_BITS)))
     else ret (Some sta)) in
  match r with
  | None => ret None
  | Some sta =>
      let! sta :=
        (if truth (Z.land err SDHC_ERR_DAT_MASK) then
           let! dat := isr_dat_err err in
           ret (if dat then Z.land sta (Z.lnot DAT_BITS) else sta)
         else ret sta) in
      if truth a12err then let! over := isr_a12 in ret (if over then None else Some sta)
      else ret (Some sta)
  end.

(** The long response, without its last byte, high byte first. *)
Definition rspmap : list Z := [11; 12; 13; 14; 7; 8; 9; 10; 3; 4; 5; 6; 0; 0; 1; 2].
Definition long_response (r0 r1 r2 r3 buf : Z) (m : Z -> Z) : Z -> Z :=
  let rsp i := byte_of (if i <? 4 then r0 else if i <? 8 then r1 else if i <? 12 then r2 else r3) (i mod 4) in
  foldl (fun m '(k, i) => upd m (buf + k) (rsp i)) m (zip (seqZ 0 16) rspmap).

(** The command is over; answers what is left of the status. *)
Definition isr_cmd (sta : Z) : G Z :=
  let! t := the_t in
  let c := h_cmd t in
  if negb (truth c) then
    let d := h_dat t in
    let! aborted := (if truth d then let! cd := the_cmd d in ret (truth (c_rt cd)) else ret false) in
    (if aborted then put_dat 0 ;; evt d else rd B16 sd_cmdreg ;; rd B32 sd_arg ;; ret tt) ;;
    ret sta
  else
    put_cmd 0 ;;
    let! cc := the_cmd c in
    if truth (c_rt cc) then evt c ;; ret sta
    else if Z.land (c_flag cc) SDCMD_F_RMASK =? SDCMD_F_R2 then
      let! d := the_dat (c_dat cc) in
      let! r0 := rd B32 (sd_rsp 0) in
      let! r1 := rd B32 (sd_rsp 1) in
      let! r2 := rd B32 (sd_rsp 2) in
      let! r3 := rd B32 (sd_rsp 3) in
      upd_t (on_mem (long_response r0 r1 r2 r3 (dat_buf d))) ;;
      evt c ;; ret sta
    else
      let! rsp := rd B32 (sd_rsp 0) in
      upd_cmd c (set_rsp rsp) ;;
      if truth (Z.land (c_flag cc) SDCMD_F_DAT) then
        put_dat c ;;
        if Z.land (c_flag cc) (Z.lor SDCMD_F_WR SDCMD_F_DMA) =? SDCMD_F_WR
        then sdhc_pio cc ;; ret (Z.land sta (Z.lnot SDHC_IRQ_WR)) else ret sta
      else evt c ;; ret sta.

(** Data arrived, was taken, or is all there. *)
Definition isr_dat (sta : Z) : G unit :=
  let! t := the_t in
  let c := h_dat t in
  (if truth (Z.land sta (Z.lor SDHC_IRQ_WR SDHC_IRQ_RD)) && truth c then
     let! cc := the_cmd c in
     if truth (Z.land (c_flag cc) SDCMD_F_DMA) then ret tt else sdhc_pio cc
   else ret tt) ;;
  if negb (truth (Z.land sta SDHC_IRQ_DAT)) then ret tt
  else if truth c then
    let! cc := the_cmd c in
    (if truth (Z.land (c_flag cc) SDCMD_F_DMA) then
       upd_dat (c_dat cc) (fun d => set_actual (dat_count d) d) ;;
       sdhc_dmawait (c_dat cc)
     else ret tt) ;;
    put_dat 0 ;;
    evt c
  else rd B16 sd_cmdreg ;; rd B32 sd_arg ;; ret tt.

Definition sdhc_isr : G Z :=
  let! sta := rd B16 sd_ista in
  wr B16 sd_ista sta ;;
  if negb (truth sta) then ret 0
  else if truth (Z.land sta (Z.lor SDHC_IRQ_INS SDHC_IRQ_REM)) then isr_card ;; ret 1
  else
    let! t := the_t in
    if negb (h_fins t) then ret 1
    else
      let! r := (if truth (Z.land sta SDHC_IRQ_ERR) then isr_err sta else ret (Some sta)) in
      match r with
      | None => ret 1
      | Some sta =>
          let! sta := (if truth (Z.land sta SDHC_IRQ_CMD) then isr_cmd sta else ret sta) in
          (if truth (Z.land sta SDHC_IRQ_DMA) then let! a := rd B32 sd_dma in wr B32 sd_dma a else ret tt) ;;
          isr_dat sta ;;
          (if truth (Z.land sta SDHC_IRQ_IO) then evt SDHC_EVT_IO else ret tt) ;;
          ret 1
      end.

Definition sdhc_flush : G unit :=
  sdhc_rst (Z.lor SDHC_RST_CMD SDHC_RST_DAT) ;;
  let! t := the_t in
  let d := h_dat t in
  (if truth d then upd_cmd d (set_rt SDHC_RET_REM) ;; put_dat 0 ;; evt d else ret tt) ;;
  let! t := the_t in
  let c := h_cmd t in
  (if truth c then upd_cmd c (set_rt SDHC_RET_REM) ;; put_cmd 0 ;; evt c else ret tt).
End Sdhc.
