(* ===== verification/MagusSdhcQuiet.v ===== *)
(** * What the SD host controller's operations leave alone

    The driver reaches the objects of its client through pointers: it changes
    results, counts and memory, never what a command asks for ([like]).  The
    accesses are followed with an observation of the world that registers have
    no part in ([Observed]): the notes of a client, the state of a host. *)

From Stdlib Require Import ZArith Lia Bool.
From stdpp Require Import base numbers list gmap.
From S2P Require Import Prelude CMonad DevIO MagusSdhc.

(** What the accesses to the controller do not touch. *)
Class Observed (W A : Type) `{SdBus W} := {
  obs : W -> A;
  obs_rd k a w : obs (snd (sdb_rd k a w)) = obs w;
  obs_wr k a d w : obs (sdb_wr k a d w) = obs w;
  obs_delay us w : obs (sdb_delay us w) = obs w }.

Class DmaEngine (W : Type) `{SdBus W} (r lim : Z) := {
  dma_pos : W -> Z;
  dma_range w : 0 <= dma_pos w <= lim;
  dma_rd w : u32 (fst (sdb_rd B32 (r + sd_dma) w)) = dma_pos w /\ dma_pos w <= dma_pos (snd (sdb_rd B32 (r + sd_dma) w));
  dma_delay us w : dma_pos w <= dma_pos (sdb_delay us w) }.

Definition pending (s : sd_state) : list Z :=
  (if h_cmd (st_t s) =? 0 then [] else [h_cmd (st_t s)]) ++ (if h_dat (st_t s) =? 0 then [] else [h_dat (st_t s)]).

(** A command whose data, when it has any, can be transferred. *)
Definition with_data (c : sd_cmd_t) : bool :=
  truth (Z.land (c_flag c) SDCMD_F_DAT) || (Z.land (c_flag c) SDCMD_F_RMASK =? SDCMD_F_R2).
Definition data_ok (s : sd_state) (c : sd_cmd_t) : Prop :=
  exists d, st_dats s !! c_dat c = Some d /\ (truth (Z.land (c_flag c) SDCMD_F_DAT) = true -> dat_blk d <> 0).
Definition cmd_ok (s : sd_state) (p : Z) : Prop :=
  SDHC_EVT_MAX < p /\ exists c, st_cmds s !! p = Some c /\ (with_data c = true -> data_ok s c).

Definition same_cmd (c c' : sd_cmd_t) : Prop := c_flag c' = c_flag c /\ c_dat c' = c_dat c /\ c_arg c' = c_arg c.
Definition same_dat (d d' : sd_dat_t) : Prop := dat_blk d' = dat_blk d /\ dat_buf d' = dat_buf d /\ dat_count d' = dat_count d /\
  (0 <= dat_actual d -> 0 <= dat_actual d').

(** The driver changes results, counts and memory, and nothing else of the
    client's. *)
Definition like (s s' : sd_state) : Prop :=
  h_r (st_t s') = h_r (st_t s) /\ h_cmd (st_t s') = h_cmd (st_t s) /\ h_dat (st_t s') = h_dat (st_t s) /\
  (forall p c, st_cmds s !! p = Some c -> exists c', st_cmds s' !! p = Some c' /\ same_cmd c c') /\
  (forall q d, st_dats s !! q = Some d -> exists d', st_dats s' !! q = Some d' /\ same_dat d d').

(** The same of what a command asks for, whatever is pending. *)
Definition same_heap (s s' : sd_state) : Prop :=
  (forall p c, st_cmds s !! p = Some c -> exists c', st_cmds s' !! p = Some c' /\ same_cmd c c') /\
  (forall q d, st_dats s !! q = Some d -> exists d', st_dats s' !! q = Some d' /\ same_dat d d').
Lemma like_heap s s' : like s s' -> same_heap s s'.
Proof. by intros (_ & _ & _ & H1 & H2). Qed.

#[global] Instance like_preorder : PreOrder like.
Proof.
  split.
  - intros s. unfold same_cmd, same_dat. split_and!; try done; intros; eexists; split_and!; done.
  - intros s1 s2 s3 (A1 & B1 & C1 & D1 & E1) (A2 & B2 & C2 & D2 & E2). split_and!; try congruence.
    + intros p c Hp. destruct (D1 p c Hp) as (c2 & H2 & F2 & G2 & J2). destruct (D2 p c2 H2) as (c3 & H3 & F3 & G3 & J3).
      exists c3. unfold same_cmd. split_and!; congruence.
    + intros q d Hq. destruct (E1 q d Hq) as (d2 & H2 & F2 & G2 & J2 & K2). destruct (E2 q d2 H2) as (d3 & H3 & F3 & G3 & J3 & K3).
      exists d3. unfold same_dat. split_and!; [congruence..|auto].
Qed.

Lemma like_data s s' c c' : like s s' -> data_ok s c -> c_dat c' = c_dat c -> c_flag c' = c_flag c -> data_ok s' c'.
Proof.
  intros (_ & _ & _ & _ & Hd) (d & Hq & Hb) Ec Ef. destruct (Hd _ d Hq) as (d' & Hq' & E & _).
  exists d'. rewrite Ec, Ef, E. by split.
Qed.
Lemma like_ok s s' p : like s s' -> cmd_ok s p -> cmd_ok s' p.
Proof.
  intros Hl (Hp & c & Hc & Hd). split; [done|]. pose proof Hl as (_ & _ & _ & Hcs & _).
  destruct (Hcs p c Hc) as (c' & Hc' & Ef & Ed & _). exists c'. split; [done|]. intros Hw.
  apply (like_data s s' c c'); [done| |done|done]. apply Hd. revert Hw. unfold with_data. by rewrite Ef.
Qed.
Lemma like_pending s s' : like s s' -> pending s' = pending s.
Proof. intros (_ & E1 & E2 & _). unfold pending. by rewrite E1, E2. Qed.

Lemma like_on_cmd s p f : (forall c, same_cmd c (f c)) -> like s (on_cmd p f s).
Proof.
  intros Hf. split_and!; try done; [|unfold same_dat; eauto 10]. intros q c Hq. cbn. destruct (decide (p = q)) as [->|Hne].
  - rewrite lookup_alter_eq, Hq. cbn. exists (f c). split; [done|]. apply Hf.
  - rewrite lookup_alter_ne by done. by exists c.
Qed.
Lemma like_on_dat s q f : (forall d, same_dat d (f d)) -> like s (on_dat q f s).
Proof.
  intros Hf. split_and!; try done; [unfold same_cmd; eauto 10|]. intros q' d Hq. cbn. destruct (decide (q = q')) as [->|Hne].
  - rewrite lookup_alter_eq, Hq. cbn. exists (f d). split; [done|]. apply Hf.
  - rewrite lookup_alter_ne by done. by exists d.
Qed.
Lemma like_on_mem s f : like s (on_mem f s).
Proof. unfold like, same_cmd, same_dat. split_and!; try done; eauto 10. Qed.
Lemma same_rt c rt : same_cmd c (set_rt rt c).
Proof. done. Qed.
Lemma same_actual a d : same_dat d (set_actual a d).
Proof. unfold same_dat. split_and!; [done..|]. intros _. apply u16_range. Qed.
#[export] Hint Resolve same_rt same_actual : core.

Section Quiet.
Context {W T : Type} {B : SdBus W} {O : Observed W T}.
Implicit Types (w : W) (s : sd_state) (x : W * sd_state).
Notation G := (M (W * sd_state)).

Lemma wp_the_t x (Q : sdhc_t -> W * sd_state -> Prop) : Q (st_t (snd x)) x -> wp the_t Q x.
Proof. by destruct x. Qed.

(** ** Operations that leave the state alone *)
Definition still {A} (m : G A) : Prop :=
  forall x, wp m (fun _ y => snd y = snd x /\ obs (A := T) (fst y) = obs (fst x)) x.

Lemma still_rd k off : still (rd k off).
Proof.
  intros [w s]. apply wp_bind, wp_get_t, wp_io. unfold wp, io_rd.
  pose proof (obs_rd k (h_r (st_t s) + off) w) as Hl. by destruct (sdb_rd _ _ _) as [v w'].
Qed.
Lemma still_wr k off d : still (wr k off d).
Proof. intros [w s]. apply wp_bind, wp_get_t, wp_io, wp_modify. split; [done|]. apply obs_wr. Qed.
Lemma still_delay us : still (udelay us).
Proof. intros [w s]. apply wp_io, wp_modify. split; [done|]. apply obs_delay. Qed.
Lemma still_ret {A} (a : A) : still (ret a).
Proof. intros x. by apply wp_ret. Qed.
Lemma still_the_t : still the_t.
Proof. intros x. by apply wp_ret. Qed.
Lemma still_bind {A D} (m : G A) (k : A -> G D) : still m -> (forall a, still (k a)) -> still (bind m k).
Proof.
  intros Hm Hk x. apply wp_bind. eapply wp_mono; [apply Hm|]. cbn beta. intros a y [E1 E2].
  eapply wp_mono; [apply (Hk a)|]. cbn beta. intros b z [F1 F2]. by rewrite F1, F2.
Qed.
Lemma still_if {A} (b : bool) (m1 m2 : G A) : still m1 -> still m2 -> still (if b then m1 else m2).
Proof. by destruct b. Qed.
Lemma still_poll n i read stop : still read -> still (poll n i read stop).
Proof.
  intros Hr. revert i. induction n as [|n IH]; intros i; cbn [poll]; [apply still_ret|].
  apply still_bind; [done|]. intros v. apply still_if; [apply still_ret|apply IH].
Qed.
Hint Resolve still_rd still_wr still_delay still_ret still_the_t still_bind still_if still_poll : still.
Lemma still_rst b : still (sdhc_rst b).
Proof. unfold sdhc_rst. auto 10 with still. Qed.
Hint Resolve still_rst : still.
Lemma still_abort : still sdhc_abort.
Proof. unfold sdhc_abort. auto 10 with still. Qed.
Hint Resolve still_abort : still.

(** Operations that change results, counts and memory only. *)
Definition calm {A} (m : G A) x : Prop :=
  wp m (fun _ y => like (snd x) (snd y) /\ obs (A := T) (fst y) = obs (fst x)) x.
Lemma still_calm {A} (m : G A) x : still m -> calm m x.
Proof. intros Hm. eapply wp_mono; [apply Hm|]. by intros a y [-> ->]. Qed.
Lemma calm_bind {A D} (m : G A) (k : A -> G D) x :
  wp m (fun a y => like (snd x) (snd y) /\ obs (A := T) (fst y) = obs (fst x) /\ calm (k a) y) x -> calm (bind m k) x.
Proof.
  intros Hm. apply wp_bind. eapply wp_mono; [exact Hm|]. cbn beta. intros a y (Hl & E & Hk).
  eapply wp_mono; [exact Hk|]. cbn beta. intros b z (Hl2 & E2). split; [by etrans|congruence].
Qed.
Lemma calm_still {A D} (m : G A) (k : A -> G D) x :
  still m -> (forall a y, like (snd x) (snd y) -> snd y = snd x -> calm (k a) y) -> calm (bind m k) x.
Proof.
  intros Hm Hk. apply calm_bind. eapply wp_mono; [apply Hm|]. cbn beta. intros a y [E1 E2].
  split_and!; [by rewrite E1|done|]. by apply Hk; rewrite E1.
Qed.

Lemma the_cmd_run p c x (Q : sd_cmd_t -> W * sd_state -> Prop) : st_cmds (snd x) !! p = Some c -> Q c x -> wp (the_cmd p) Q x.
Proof. destruct x as [w s]. intros Hp HQ. apply wp_bind, wp_get_t, wp_assert_some. by exists c. Qed.
Lemma the_dat_run q d x (Q : sd_dat_t -> W * sd_state -> Prop) : st_dats (snd x) !! q = Some d -> Q d x -> wp (the_dat q) Q x.
Proof. destruct x as [w s]. intros Hp HQ. apply wp_bind, wp_get_t, wp_assert_some. by exists d. Qed.
Lemma upd_cmd_run p f c x (Q : unit -> W * sd_state -> Prop) : st_cmds (snd x) !! p = Some c ->
  Q tt (fst x, on_cmd p f (snd x)) -> wp (upd_cmd p f) Q x.
Proof. intros Hp HQ. apply wp_bind, (the_cmd_run p c); [done|]. by apply wp_modify. Qed.
Lemma upd_dat_run q f d x (Q : unit -> W * sd_state -> Prop) : st_dats (snd x) !! q = Some d ->
  Q tt (fst x, on_dat q f (snd x)) -> wp (upd_dat q f) Q x.
Proof. intros Hp HQ. apply wp_bind, (the_dat_run q d); [done|]. by apply wp_modify. Qed.
Lemma calm_upd_dat q f d x : st_dats (snd x) !! q = Some d -> (forall d, same_dat d (f d)) -> calm (upd_dat q f) x.
Proof. intros Hq Hf. apply (upd_dat_run q f d x); [done|]. split; [by apply like_on_dat|done]. Qed.

(** ** Programmed transfer *)
Lemma calm_block wr a blen x : calm (pio_block wr a blen) x.
Proof.
  unfold pio_block. apply calm_bind. unfold for_range. generalize (Z.to_nat ((blen + 3) / 4 - 0)) as n. generalize 0 as i.
  intros i n. revert i x. induction n as [|n IH]; intros i x; cbn [forM].
  - apply wp_ret. split_and!; [done|done|]. apply still_calm, still_ret.
  - apply wp_bind, wp_bind. eapply (wp_mono _ (fun _ y => like (snd x) (snd y) /\ obs (A := T) (fst y) = obs (fst x))).
    { destruct wr.
      - apply calm_still; [intros y; by apply wp_ret|]. intros s y _ _. apply still_calm, still_wr.
      - apply calm_still; [apply still_rd|]. intros v [w s] _ _. apply wp_upd_t. split; [apply like_on_mem|done]. }
    intros ? y [Hl E]. apply wp_ret. eapply wp_mono; [apply (IH (i + 1) y)|]. cbn beta. intros ? z (Hl2 & E2 & Hc).
    split_and!; [by etrans|congruence|done].
Qed.
Lemma calm_blocks n wr a blen k x : calm (pio_blocks n wr a blen k) x.
Proof.
  revert a k x. induction n as [|n IH]; intros a k x; cbn [pio_blocks]; [apply still_calm, still_ret|].
  apply calm_still; [apply still_rd|]. intros sta y _ _. destruct (negb _); [apply still_calm, still_ret|].
  apply calm_bind. eapply wp_mono; [apply (calm_block wr a blen y)|]. cbn beta. intros ? z [Hl E]. split_and!; [done..|apply IH].
Qed.
Lemma calm_pio c x : data_ok (snd x) c -> calm (sdhc_pio c) x.
Proof.
  intros (d & Hd & _). apply calm_bind, (the_dat_run _ d); [done|]. split_and!; [done..|]. cbv zeta.
  destruct (negb _); [apply still_calm, still_ret|]. apply calm_bind. eapply wp_mono; [apply calm_blocks|].
  cbn beta. intros k y [Hl E]. split_and!; [done..|]. destruct Hl as (_ & _ & _ & _ & Hds).
  destruct (Hds _ d Hd) as (d' & Hd' & _). by apply (calm_upd_dat _ _ d').
Qed.

(** ** Taking a command *)

(** A refusal notes the result in the command and nothing else. *)
Definition taken p x (rt : Z) (y : W * sd_state) : Prop :=
  obs (A := T) (fst y) = obs (fst x) /\ h_r (st_t (snd y)) = h_r (st_t (snd x)) /\ (forall q, cmd_ok (snd x) q -> cmd_ok (snd y) q) /\
  h_dat (st_t (snd y)) = 0 /\ h_cmd (st_t (snd y)) = (if rt =? 0 then p else 0) /\ same_heap (snd x) (snd y) /\
  exists c, st_cmds (snd y) !! p = Some c /\ c_rt c = rt.

Lemma pending_nil s : pending s = [] -> h_cmd (st_t s) = 0 /\ h_dat (st_t s) = 0.
Proof.
  unfold pending. destruct (Z.eqb_spec (h_cmd (st_t s)) 0); [|discriminate].
  by destruct (Z.eqb_spec (h_dat (st_t s)) 0).
Qed.

Lemma refuse_run p rt x y : rt <> 0 -> obs (A := T) (fst y) = obs (fst x) -> like (snd x) (snd y) -> cmd_ok (snd x) p ->
  pending (snd x) = [] -> wp (fail_cmd p rt) (taken p x) y.
Proof.
  intros Hrt El Hl Hok Hp. destruct (like_ok _ _ p Hl Hok) as (_ & c & Hc & _).
  apply wp_bind, (upd_cmd_run p _ c); [done|]. apply wp_ret.
  assert (Hl2 : like (snd x) (on_cmd p (set_rt rt) (snd y))) by (etrans; [exact Hl|]; by apply like_on_cmd).
  destruct (pending_nil _ Hp) as [Ec Ed]. unfold taken. cbn [fst snd]. rewrite (proj2 (Z.eqb_neq _ _) Hrt).
  split_and!; [done|apply Hl2|intros q; by apply like_ok|by etrans; [apply Hl2|]|by etrans; [apply Hl2|]|by apply like_heap|].
  cbn. rewrite lookup_alter_eq, Hc. by eexists.
Qed.

Lemma prepare_run v c x : data_ok (snd x) c -> calm (prepare_data v c) x.
Proof.
  intros (d & Hd & Hb). apply calm_bind, (upd_dat_run _ _ d); [done|]. split_and!; [by apply like_on_dat|done|].
  apply calm_bind. eapply the_dat_run; [cbn; by rewrite lookup_alter_eq, Hd|]. split_and!; [done..|].
  destruct (_ || _); apply still_calm; auto 10 with still.
Qed.

Lemma sdhc_cmd_run p x : pending (snd x) = [] -> cmd_ok (snd x) p -> wp (sdhc_cmd p) (taken p x) x.
Proof.
  intros Hp Hok. pose proof Hok as (Hmax & c & Hc & Hdo). apply wp_bind, wp_the_t, wp_bind, (the_cmd_run _ c); [done|].
  destruct (negb _); [by apply refuse_run|]. cbv zeta. apply wp_bind. eapply wp_mono; [apply still_poll, still_rd|].
  cbn beta. intros i y [Ey El]. destruct (i >=? _); [apply refuse_run; by rewrite ?Ey|].
  apply wp_bind. eapply (wp_mono _ (fun err y => (forall rt, err = Some rt -> rt = SDHC_RET_PARM) /\ like (snd x) (snd y) /\ obs (A := T) (fst y) = obs (fst x))).
  { rewrite <- Ey, <- El. destruct (truth (Z.land (c_flag c) SDCMD_F_DAT)) eqn:Ef; [|by apply wp_ret].
    apply wp_and.
    - destruct Hdo as (d & Hd & _); [unfold with_data; by rewrite Ef|]. rewrite <- Ey in Hd. apply wp_bind, (upd_dat_run _ _ d); [done|].
      apply wp_bind. eapply the_dat_run; [cbn; by rewrite lookup_alter_eq, Hd|].
      destruct (_ || _); [apply wp_ret; by intros rt [= <-]|].
      do 4 (apply wp_bind; (eapply wp_mono; [first [apply still_if; [apply still_wr|apply still_ret]|apply still_wr]|]); intros ? ? _).
      by apply wp_ret.
    - eapply wp_mono; [apply prepare_run|done]. rewrite Ey. apply Hdo. unfold with_data. by rewrite Ef. }
  intros [rt|] z (Hrt & Hl & Elz).
  { assert (rt = SDHC_RET_PARM) as -> by by apply Hrt. by apply refuse_run. }
  apply wp_bind. eapply (wp_mono _ (fun _ u => snd u = snd z /\ obs (A := T) (fst u) = obs (fst z))).
  { assert (Hs : forall ms, still (sdhc_tout ms ;; ret tt)).
    { intros ms. apply still_bind; [|intros; apply still_ret]. unfold sdhc_tout. auto with still. }
    destruct (_ || _); [apply Hs|by apply wp_ret]. }
  intros ? u [Eu Elu]. destruct (like_ok _ _ p Hl Hok) as (_ & c' & Hc' & _).
  apply wp_bind, (upd_cmd_run p _ c'); [by rewrite Eu|]. set (s1 := on_cmd p (set_rt SDHC_RET_NONE) (snd u)).
  assert (Hl1 : like (snd x) s1) by (etrans; [exact Hl|]; unfold s1; rewrite Eu; by apply like_on_cmd).
  apply wp_bind. eapply wp_mono; [apply still_wr|]. cbn beta. intros ? v [Ev Elv]. cbn [fst snd] in *.
  apply wp_bind, wp_modify, wp_bind. eapply wp_mono; [apply still_wr|]. cbn beta. intros ? q [Eq Elq]. apply wp_ret. cbn [fst snd] in *.
  destruct (pending_nil _ Hp) as [Ec Ed]. unfold taken. rewrite Eq. cbn [Z.eqb]. split_and!; [congruence| | | |done| |].
  - cbn. rewrite Ev. apply Hl1.
  - intros b Hb. pose proof (like_ok _ _ b Hl1 Hb) as H1. rewrite <- Ev in H1. exact H1.
  - cbn. rewrite Ev. etrans; [apply Hl1|exact Ed].
  - pose proof (like_heap _ _ Hl1) as H1. rewrite <- Ev in H1. exact H1.
  - cbn. rewrite Ev. cbn. rewrite lookup_alter_eq, Eu, Hc'. by eexists.
Qed.

(** ** The wait for the DMA address ends *)
Section Dma.
Context {r lim : Z} {De : DmaEngine W r lim} {Cfg : SdConfig}.

Lemma dma_loop_calm n q adr adr2 tout d x : h_r (st_t (snd x)) = r -> st_dats (snd x) !! q = Some d -> dat_blk d <> 0 ->
  0 <= tout <= 200 -> adr2 <= dma_pos (fst x) -> (lim - adr2) * 202 + (200 - tout) < Z.of_nat n ->
  calm (dma_loop n q adr adr2 tout) x.
Proof.
  revert adr2 tout x. induction n as [|n IH]; intros adr2 tout [w s] Hr Hq Hb Ht Ha Hn; cbn [fst snd] in *.
  { pose proof (dma_range w). lia. }
  cbn [dma_loop]. apply calm_bind. apply wp_bind, wp_get_t, wp_io. unfold wp, io_rd. rewrite Hr.
  pose proof (dma_rd w) as [Hp Hmono]. pose proof (dma_range w) as Hrange. pose proof (obs_rd B32 (r + sd_dma) w) as Hl.
  destruct (sdb_rd B32 (r + sd_dma) w) as [v w1]. cbn [fst snd trunc] in *. rewrite Hp. split_and!; [done..|].
  destruct (Z.eqb_spec (dma_pos w) adr); [apply still_calm, still_ret|].
  destruct (Z.eqb_spec (dma_pos w) adr2) as [E2|Hne]; cbn [negb].
  - destruct (Z.gtb_spec (tout + 1) 200).
    + apply calm_bind, (the_dat_run q d); [done|]. split_and!; [done..|].
      apply calm_bind, wp_udiv; [done|]. split_and!; [done..|].
      apply calm_still; [apply still_rd|]. intros u y _ Ey. apply (calm_upd_dat q _ d); [by rewrite Ey|done].
    + apply calm_bind. apply wp_io, wp_modify. split_and!; [done|apply obs_delay|].
      pose proof (dma_delay 5 w1). apply IH; cbn [fst snd]; try done; lia.
  - apply IH; cbn [fst snd]; try done; lia.
Qed.

Hypothesis fuel_enough : (lim + 1) * 202 < Z.of_nat sd_fuel.

Lemma dmawait_calm q d x : h_r (st_t (snd x)) = r -> st_dats (snd x) !! q = Some d -> dat_blk d <> 0 -> calm (sdhc_dmawait q) x.
Proof.
  destruct x as [w s]. intros Hr Hq Hb. apply calm_bind, (the_dat_run q d); [done|]. split_and!; [done..|].
  apply calm_bind. apply wp_bind, wp_get_t, wp_io. unfold wp, io_rd. cbn [snd] in Hr. rewrite Hr.
  pose proof (dma_rd w) as [Hp Hmono]. pose proof (dma_range w) as Hrange. pose proof (obs_rd B32 (r + sd_dma) w) as Hl.
  destruct (sdb_rd B32 (r + sd_dma) w) as [v w1]. cbn [fst snd trunc] in *. rewrite Hp. split_and!; [done..|].
  destruct (_ =? _); [apply still_calm, still_ret|]. apply (dma_loop_calm _ q _ _ _ d); cbn [fst snd]; try done; lia.
Qed.

End Dma.
End Quiet.
#[export] Hint Resolve still_rd still_wr still_delay still_ret still_the_t still_bind still_if still_poll
  still_rst still_abort : still.
