(* ===== verification/MagusSdhcSpec.v ===== *)
(** * What the SD host controller driver does

    Every command the driver takes is answered exactly once, whatever the
    controller reports and in whatever order: by its completion, an error, the
    removal of the card or a flush.  The client ([Client]) may submit its next
    command when it is told an answer, and keeps an account of the commands the
    driver has; one that notes what it is told ([Noting]) is such a client.  Of
    the controller only that its DMA address moves forward and stops
    ([DmaEngine]). *)

From Stdlib Require Import ZArith Lia Bool.
From stdpp Require Import base numbers list gmap.
From S2P Require Import Prelude CMonad DevIO MagusSdhc MagusSdhcQuiet.

(** What the driver needs of its client.  Only the answer to a command may
    submit one, as the driver then has none.  [good] is what the client keeps
    of a command it submits, [kept] its account of those the driver has. *)
Class Client (W A : Type) `{SdBus W} `{SdClient W} := {
  #[global] client_obs :: Observed W A;
  good : A -> sd_state -> Z -> Prop;
  good_ok a s p : good a s p -> cmd_ok s p;
  good_heap a s s' p : same_heap s s' -> good a s p -> good a s' p;
  kept : A -> list Z -> Prop;
  event_law ctx ev w s : ev <= SDHC_EVT_MAX ->
    exists w', sd_evt ctx ev (w, s) = Done tt (w', s) /\ (forall p, good (obs w) s p -> good (obs w') s p) /\
      forall ps, kept (obs w) ps -> kept (obs w') ps;
  answer_law ctx ev w s : good (obs w) s ev -> pending s = [] -> kept (obs w) [ev] ->
    exists w' s', sd_evt ctx ev (w, s) = Done tt (w', s') /\ (forall p, good (obs w) s p -> good (obs w') s' p) /\
      kept (obs w') (pending s') /\ h_r (st_t s') = h_r (st_t s) /\ h_dat (st_t s') = 0 /\
      (pending s' = [] \/ exists p, pending s' = [p] /\ good (obs w') s' p) }.

Lemma heap_ok s s' p : same_heap s s' -> cmd_ok s p -> cmd_ok s' p.
Proof.
  intros [Hcs Hds] (Hp & c & Hc & Hd). split; [done|]. destruct (Hcs p c Hc) as (c' & Hc' & Ef & Ed & _). exists c'. split; [done|].
  unfold with_data, data_ok. rewrite Ef, Ed. intros Hw. destruct (Hd Hw) as (d & Hq & Hb).
  destruct (Hds _ d Hq) as (d' & Hq' & E & _). exists d'. by rewrite E.
Qed.

Section Spec.
Context {W A : Type} {B : SdBus W} {C : SdClient W} {Cl : Client W A} {Cfg : SdConfig}.
Context {r lim : Z} {De : DmaEngine W r lim}.
Implicit Types (w : W) (s : sd_state) (x : W * sd_state).
Notation G := (M (W * sd_state)).
Notation seen w := (obs (A := A) w).
Notation good_at x := (good (seen (fst x)) (snd x)).

(** The wait for the DMA address may take so many rounds. *)
Hypothesis fuel_enough : (lim + 1) * 202 < Z.of_nat sd_fuel.

(** ** The account of the commands

    [hand] are out of the slots and about to be answered; [known] are commands
    of the client, which stay good. *)
Definition account (known hand : list Z) x : Prop :=
  (h_r (st_t (snd x)) = r /\ Forall (good_at x) known) /\ (length (hand ++ pending (snd x)) <= 1)%nat /\
  Forall (good_at x) (hand ++ pending (snd x)) /\
  (h_dat (st_t (snd x)) <> 0 -> exists c, st_cmds (snd x) !! h_dat (st_t (snd x)) = Some c /\ truth (Z.land (c_flag c) SDCMD_F_DAT) = true) /\
  kept (seen (fst x)) (hand ++ pending (snd x)).

Lemma good_nz a s p : good a s p -> p <> 0.
Proof. intros [Hp _]%good_ok. unfold SDHC_EVT_MAX in Hp. lia. Qed.
Lemma heap_on_t s f : same_heap s (on_t f s).
Proof. unfold same_heap, same_cmd, same_dat. split; eauto 10. Qed.
Lemma good_keep x y ps : same_heap (snd x) (snd y) -> seen (fst y) = seen (fst x) -> Forall (good_at x) ps -> Forall (good_at y) ps.
Proof. intros Hh E Ha. rewrite E. eapply Forall_impl; [exact Ha|]. intros p. by apply good_heap. Qed.

Section Account.
Context (known : list Z).
Notation acc := (account known).

Lemma acc_like hand x y : acc hand x -> like (snd x) (snd y) -> seen (fst y) = seen (fst x) -> acc hand y.
Proof.
  intros ([Hr Hk] & Hlen & Hok & Hd & Hlog) Hl E. pose proof Hl as (Er & Ec & Ed & Hcs & _). pose proof (like_heap _ _ Hl) as Hh.
  pose proof (good_keep x y _ Hh E Hk) as Hk'. pose proof (good_keep x y _ Hh E Hok) as Hok'.
  unfold account. rewrite (like_pending _ _ Hl), E, Er, Ed in *. split_and!; try done.
  intros Hne. destruct (Hd Hne) as (c & Hc & Hf). destruct (Hcs _ c Hc) as (c' & Hc' & Ef & _). exists c'. by rewrite Ef.
Qed.
Lemma acc_calm {D} hand (m : G D) x : acc hand x -> calm (T := A) m x ->
  wp m (fun _ y => acc hand y /\ like (snd x) (snd y)) x.
Proof. intros Ha Hm. eapply wp_mono; [exact Hm|]. cbn beta. intros a y [Hl E]. split; [by eapply acc_like|done]. Qed.
Lemma acc_still {D} hand (m : G D) x : acc hand x -> still (T := A) m ->
  wp m (fun _ y => acc hand y /\ snd y = snd x) x.
Proof.
  intros Ha Hm. eapply wp_mono; [apply Hm|]. cbn beta. intros a y [E1 E2]. split; [|done].
  eapply acc_like; [exact Ha|by rewrite E1|done].
Qed.

(** A command in a slot is alone. *)
Lemma acc_cmd hand x : acc hand x -> h_cmd (st_t (snd x)) <> 0 -> hand = [] /\ h_dat (st_t (snd x)) = 0 /\ good_at x (h_cmd (st_t (snd x))).
Proof.
  intros (_ & Hlen & Hok & _). unfold pending in *. intros Hne. rewrite (proj2 (Z.eqb_neq _ _) Hne) in *.
  destruct hand; [|cbn in Hlen; rewrite !length_app in Hlen; cbn in Hlen; lia].
  destruct (Z.eqb_spec (h_dat (st_t (snd x))) 0); [|cbn in Hlen; lia]. split_and!; [done..|]. by inversion Hok.
Qed.
Lemma acc_dat hand x : acc hand x -> h_dat (st_t (snd x)) <> 0 ->
  hand = [] /\ h_cmd (st_t (snd x)) = 0 /\ good_at x (h_dat (st_t (snd x))) /\
  exists c, st_cmds (snd x) !! h_dat (st_t (snd x)) = Some c /\ truth (Z.land (c_flag c) SDCMD_F_DAT) = true /\
    exists d, st_dats (snd x) !! c_dat c = Some d /\ dat_blk d <> 0.
Proof.
  intros (_ & Hlen & Hok & Hd & _) Hne. destruct (Hd Hne) as (c & Hc & Hf). unfold pending in *.
  rewrite (proj2 (Z.eqb_neq _ _) Hne) in *.
  destruct hand; [|cbn in Hlen; rewrite !length_app in Hlen; cbn in Hlen; lia].
  destruct (Z.eqb_spec (h_cmd (st_t (snd x))) 0); [|cbn in Hlen; lia]. cbn in Hok. inversion Hok as [|? ? Hg]; subst.
  split_and!; [done..|]. exists c. split_and!; [done..|]. destruct (good_ok _ _ _ Hg) as (_ & c' & Hc' & Hdo).
  assert (c' = c) as -> by congruence. destruct Hdo as (d & Hq & Hb); [unfold with_data; by rewrite Hf|]. exists d. auto.
Qed.
Lemma acc_hand c hand x : acc (c :: hand) x -> hand = [] /\ h_cmd (st_t (snd x)) = 0 /\ h_dat (st_t (snd x)) = 0 /\ good_at x c.
Proof.
  intros (_ & Hlen & Hok & _). unfold pending in *. cbn in *. rewrite !length_app in Hlen.
  destruct (Z.eqb_spec (h_cmd (st_t (snd x))) 0), (Z.eqb_spec (h_dat (st_t (snd x))) 0); cbn in Hlen; try lia.
  destruct hand; [|cbn in Hlen; lia]. by inversion Hok.
Qed.

(** Out of a slot, and into one: the slots change and nothing else. *)
Lemma acc_slots hand hand' x f : acc hand x -> let y := (fst x, on_t f (snd x)) in
  h_r (f (st_t (snd x))) = h_r (st_t (snd x)) -> hand' ++ pending (snd y) = hand ++ pending (snd x) ->
  (h_dat (f (st_t (snd x))) <> 0 -> exists c, st_cmds (snd x) !! h_dat (f (st_t (snd x))) = Some c /\ truth (Z.land (c_flag c) SDCMD_F_DAT) = true) ->
  acc hand' y.
Proof.
  intros ([Hr Hk] & Hlen & Hok & _ & Hlog) y Er Ep Hd. unfold account. rewrite Ep. pose proof (good_keep x y known (heap_on_t _ f) eq_refl Hk). pose proof (good_keep x y _ (heap_on_t _ f) eq_refl Hok).
  split; [split; [cbn; congruence|done]|]. split; [done|]. by split_and!.
Qed.
Lemma take_cmd hand x (Q : unit -> W * sd_state -> Prop) : acc hand x -> h_cmd (st_t (snd x)) <> 0 ->
  (forall y, acc [h_cmd (st_t (snd x))] y -> st_cmds (snd y) = st_cmds (snd x) ->
     st_dats (snd y) = st_dats (snd x) -> Q tt y) -> wp (put_cmd 0) Q x.
Proof.
  intros Ha Hne HQ. destruct (acc_cmd _ _ Ha Hne) as (-> & Hd & _). destruct x as [w s]. cbn [fst snd] in *. apply wp_upd_t, HQ; [|done..].
  apply (acc_slots [] _ (w, s)); [done..| |]; cbn [fst snd on_t st_t set_slots h_dat]; [|by rewrite Hd].
  unfold pending. cbn. rewrite Hd, (proj2 (Z.eqb_neq _ _) Hne). done.
Qed.
Lemma take_dat hand x (Q : unit -> W * sd_state -> Prop) : acc hand x -> h_dat (st_t (snd x)) <> 0 ->
  (forall y, acc [h_dat (st_t (snd x))] y -> st_cmds (snd y) = st_cmds (snd x) ->
     st_dats (snd y) = st_dats (snd x) -> Q tt y) -> wp (put_dat 0) Q x.
Proof.
  intros Ha Hne HQ. destruct (acc_dat _ _ Ha Hne) as (-> & Hc & _). destruct x as [w s]. cbn [fst snd] in *. apply wp_upd_t, HQ; [|done..].
  apply (acc_slots [] _ (w, s)); [done..| |done]. cbn [fst snd]. unfold pending. cbn. by rewrite Hc, (proj2 (Z.eqb_neq _ _) Hne).
Qed.
Lemma give_cmd c hand x (Q : unit -> W * sd_state -> Prop) : acc (c :: hand) x -> (forall y, acc [] y -> Q tt y) -> wp (put_cmd c) Q x.
Proof.
  intros Ha HQ. destruct (acc_hand _ _ _ Ha) as (-> & Hc & Hd & Hok%good_nz). destruct x as [w s]. cbn [fst snd] in *. apply wp_upd_t, HQ.
  apply (acc_slots [c] _ (w, s)); [done..| |]; cbn [fst snd on_t st_t set_slots h_dat]; [|by rewrite Hd].
  unfold pending. cbn. by rewrite Hc, Hd, (proj2 (Z.eqb_neq _ _) Hok).
Qed.
Lemma give_dat c cc hand x (Q : unit -> W * sd_state -> Prop) : acc (c :: hand) x -> st_cmds (snd x) !! c = Some cc ->
  truth (Z.land (c_flag cc) SDCMD_F_DAT) = true ->
  (forall y, acc [] y -> st_cmds (snd y) = st_cmds (snd x) -> st_dats (snd y) = st_dats (snd x) -> Q tt y) -> wp (put_dat c) Q x.
Proof.
  intros Ha Hcc Hf HQ. destruct (acc_hand _ _ _ Ha) as (-> & Hc & Hd & Hok%good_nz). destruct x as [w s]. cbn [fst snd] in *. apply wp_upd_t, HQ; [|done..].
  apply (acc_slots [c] _ (w, s)); [done..| |]; cbn [fst snd on_t st_t set_slots h_dat]; [|by exists cc].
  unfold pending. cbn. by rewrite Hc, Hd, (proj2 (Z.eqb_neq _ _) Hok).
Qed.

(** Telling the client: an answer, or an event of the card. *)
Lemma answer_run c hand x (Q : unit -> W * sd_state -> Prop) : acc (c :: hand) x -> (forall y, acc [] y -> Q tt y) -> wp (evt c) Q x.
Proof.
  intros Ha HQ. destruct (acc_hand _ _ _ Ha) as (-> & Hc & Hd & Hg). destruct Ha as ([Hr Hk] & _ & _ & _ & HP).
  assert (Hp : pending (snd x) = []) by (unfold pending; by rewrite Hc, Hd). rewrite Hp in HP.
  destruct x as [w s]. cbn [fst snd] in *. unfold evt. apply wp_bind. apply wp_bind, wp_get_t, wp_ret.
  destruct (answer_law (h_ctx (st_t s)) c w s Hg Hp HP) as (w' & s' & Ee & Hgood & Hkept & Er & Ed & Hl).
  unfold wp. rewrite Ee. apply HQ. split; [split; [cbn; congruence|]|cbn [fst snd app]; split_and!].
  - eapply Forall_impl; [exact Hk|]. exact Hgood.
  - destruct Hl as [->|(p & -> & _)]; cbn; lia.
  - destruct Hl as [->|(p & -> & Hgp)]; [constructor|]. by constructor; [|constructor].
  - by rewrite Ed.
  - done.
Qed.
Lemma event_run ev hand x (Q : unit -> W * sd_state -> Prop) : acc hand x -> ev <= SDHC_EVT_MAX ->
  (forall y, acc hand y -> snd y = snd x -> Q tt y) -> wp (evt ev) Q x.
Proof.
  intros ((Hr & Hk) & Hlen & Hall & Hdd & HP) Hev HQ. destruct x as [w s]. cbn [fst snd] in *.
  unfold evt. apply wp_bind. apply wp_bind, wp_get_t, wp_ret. destruct (event_law (h_ctx (st_t s)) ev w s Hev) as (w' & Ee & Hgood & Hkept).
  unfold wp. rewrite Ee. apply HQ; [|done]. split; [split; [done|]|split_and!; [done| |done|by apply Hkept]]; (eapply Forall_impl; [eassumption|exact Hgood]).
Qed.

(** ** The parts of the interrupt *)
Lemma truth_nz d : truth d = negb (d =? 0).
Proof. done. Qed.
Lemma seq_still {E D} hand (m : G E) (k : E -> G D) (Q : D -> W * sd_state -> Prop) x : acc hand x -> still (T := A) m ->
  (forall a y, acc hand y -> snd y = snd x -> wp (k a) Q y) -> wp (bind m k) Q x.
Proof. intros Ha Hm Hk. apply wp_bind. eapply wp_mono; [by apply (acc_still hand)|]. cbn beta. intros a y [Hy Ey]. by apply Hk. Qed.
Lemma seq_calm {E D} hand (m : G E) (k : E -> G D) (Q : D -> W * sd_state -> Prop) x : acc hand x -> calm (T := A) m x ->
  (forall a y, acc hand y -> like (snd x) (snd y) -> wp (k a) Q y) -> wp (bind m k) Q x.
Proof. intros Ha Hm Hk. apply wp_bind. eapply wp_mono; [by apply (acc_calm hand)|]. cbn beta. intros a y [Hy Ey]. by apply Hk. Qed.
Lemma calm_upd_cmd p f c x : st_cmds (snd x) !! p = Some c -> (forall c, same_cmd c (f c)) -> calm (T := A) (upd_cmd p f) x.
Proof. intros Hp Hf. apply (upd_cmd_run p f c); [done|]. split; [by apply like_on_cmd|done]. Qed.
Lemma calm_card wp ins x : calm (T := A) (upd_t (on_t (set_card wp ins))) x.
Proof. destruct x as [w s]. apply wp_upd_t. split; [|done]. unfold like, same_cmd, same_dat. split_and!; try done; eauto 10. Qed.
Lemma calm_gone x : calm (T := A) (upd_t (on_t (fun t => set_card (h_fwp t) false t))) x.
Proof. destruct x as [w s]. apply wp_upd_t. split; [|done]. unfold like, same_cmd, same_dat. split_and!; try done; eauto 10. Qed.

Lemma card_event_run hand x : acc hand x -> wp isr_card_event (fun _ y => acc hand y) x.
Proof.
  intros Ha. unfold isr_card_event. do 6 (eapply (seq_still hand); [eassumption|auto with still|]; intros ? ? ? _).
  destruct (truth _); (eapply (seq_calm hand); [eassumption|apply calm_card || apply calm_gone|]; intros ? ? ? _);
    (eapply event_run; [eassumption|done|]); auto.
Qed.

Lemma isr_card_run x : acc [] x -> wp isr_card (fun _ y => acc [] y) x.
Proof.
  intros Ha. unfold isr_card. apply wp_bind, wp_the_t. rewrite truth_nz. destruct (Z.eqb_spec (h_dat (st_t (snd x))) 0) as [Ed|Hd].
  - rewrite Ed. apply wp_bind, wp_ret, wp_bind, wp_the_t. rewrite truth_nz.
    destruct (Z.eqb_spec (h_cmd (st_t (snd x))) 0) as [Ec|Hc].
    + rewrite Ec. apply wp_bind, wp_ret, wp_bind. eapply wp_mono; [by apply card_event_run|]. cbn beta. intros ? y Hy.
      apply wp_bind, wp_ret, wp_ret. done.
    + destruct (acc_cmd _ _ Ha Hc) as (_ & _ & (_ & c & Hcc & _)%good_ok). cbn [negb].
      apply wp_bind. eapply (seq_calm []); [done|by apply (calm_upd_cmd _ _ c)|]. intros ? y Hy Hl.
      assert (Eh : h_cmd (st_t (snd y)) = h_cmd (st_t (snd x))) by apply Hl.
      eapply take_cmd; [exact Hy|congruence|]. intros z Hz _ _. rewrite Eh in Hz.
      apply wp_bind. eapply wp_mono; [by apply card_event_run|]. cbn beta. intros ? y' Hy'.
      apply wp_bind, wp_ret. cbn [negb]. eapply answer_run; [exact Hy'|auto].
  - destruct (acc_dat _ _ Ha Hd) as (_ & Ec & _ & c & Hcc & _). cbn [negb].
    apply wp_bind. eapply (seq_calm []); [done|by apply (calm_upd_cmd _ _ c)|]. intros ? y Hy Hl.
    assert (Eh : h_dat (st_t (snd y)) = h_dat (st_t (snd x))) by apply Hl.
    eapply take_dat; [exact Hy|congruence|]. intros z Hz _ _. rewrite Eh in Hz.
    apply wp_bind, wp_the_t. destruct (acc_hand _ _ _ Hz) as (_ & Ec' & _). rewrite Ec'. apply wp_bind, wp_ret, wp_bind.
    eapply wp_mono; [by apply card_event_run|]. cbn beta. intros ? y' Hy'.
    cbn [negb]. apply wp_bind. eapply answer_run; [exact Hy'|]. intros z' Hz'.
    by apply wp_ret.
Qed.

Lemma hand_cmd c x : acc [c] x -> exists cc, st_cmds (snd x) !! c = Some cc /\ (with_data cc = true -> data_ok (snd x) cc).
Proof. intros Ha. destruct (acc_hand _ _ _ Ha) as (_ & _ & _ & Hg). apply (good_ok _ _ _ Hg). Qed.
(** A data command is pending: answer it. *)
Lemma finish_dat x (Q : unit -> W * sd_state -> Prop) : acc [] x -> h_dat (st_t (snd x)) <> 0 ->
  (forall y, acc [] y -> Q tt y) -> wp (put_dat 0 ;; evt (h_dat (st_t (snd x)))) Q x.
Proof.
  intros Ha Hd HQ. apply wp_bind. eapply take_dat; [exact Ha|done|]. intros y Hy _ _.
  eapply answer_run; [exact Hy|]. intros z Hz. by apply HQ.
Qed.

Lemma isr_rsp_err_run err x : acc [] x -> wp (isr_rsp_err err) (fun _ y => acc [] y) x.
Proof.
  intros Ha. eapply (seq_still []); [done|auto with still|]. intros ? y Hy _. clear x Ha. apply wp_bind, wp_the_t.
  cbv zeta. rewrite truth_nz. destruct (Z.eqb_spec (h_cmd (st_t (snd y))) 0) as [Ec|Hc]; cbn [negb].
  - cbv zeta. rewrite truth_nz. destruct (Z.eqb_spec (h_dat (st_t (snd y))) 0) as [Ed|Hd]; cbn [negb]; [by apply wp_ret|].
    destruct (acc_dat _ _ Hy Hd) as (_ & _ & _ & c & Hcc & _). apply wp_bind, (the_cmd_run _ c); [done|].
    destruct (truth (c_rt c)); [|by apply wp_ret].
    apply (proj1 (wp_assoc (put_dat 0) (fun _ => evt (h_dat (st_t (snd y)))) (fun _ => ret false) _ _)), wp_bind.
    apply finish_dat; [done..|]. intros z Hz. by apply wp_ret.
  - apply wp_bind. eapply take_cmd; [exact Hy|done|]. intros z Hz _ _. destruct (hand_cmd _ _ Hz) as (cc & Hcc & _).
    apply wp_bind, (the_cmd_run _ cc); [done|].
    assert (Hev : forall u, acc [h_cmd (st_t (snd y))] u -> wp (evt (h_cmd (st_t (snd y))) ;; ret false) (fun _ v => acc [] v) u).
    { intros u Hu. apply wp_bind. eapply answer_run; [exact Hu|]. intros v Hv. by apply wp_ret. }
    destruct (truth (c_rt cc)); cbn [negb]; [by apply Hev|].
    eapply seq_calm; [exact Hz|by apply (calm_upd_cmd _ _ cc)|]. intros ? u Hu _.
    destruct (truth _); [|by apply Hev]. eapply seq_still; [exact Hu|auto with still|]. intros ? v Hv _.
    apply wp_bind. eapply give_cmd; [exact Hv|]. intros ? ?. by apply wp_ret.
Qed.

Lemma count_run c q d x (Q : unit -> W * sd_state -> Prop) : acc [] x -> st_dats (snd x) !! q = Some d ->
  (forall y, acc [] y -> like (snd x) (snd y) -> Q tt y) ->
  wp (if negb (truth (Z.land (c_flag c) SDCMD_F_MULTI)) then upd_dat q (set_actual 0)
      else let! d := the_dat q in let! n := rd B16 sd_count in upd_dat q (set_actual (dat_count d - n))) Q x.
Proof.
  intros Ha Hq HQ. eapply (wp_mono _ (fun _ y => acc [] y /\ like (snd x) (snd y))); [|intros [] y [H1 H2]; by apply HQ].
  apply acc_calm; [done|]. destruct (negb _); [by apply (calm_upd_dat _ _ d)|].
  apply calm_bind, (the_dat_run _ d); [done|]. split_and!; [done..|].
  apply calm_still; [apply still_rd|]. intros n y _ Ey. apply (calm_upd_dat _ _ d); [by rewrite Ey|done].
Qed.

Lemma isr_dat_err_run err x : acc [] x -> wp (isr_dat_err err) (fun _ y => acc [] y) x.
Proof.
  intros Ha. apply wp_bind, wp_the_t. cbv zeta. rewrite truth_nz.
  destruct (Z.eqb_spec (h_dat (st_t (snd x))) 0) as [Ed|Hd]; cbn [negb].
  - eapply (seq_still []); [done|auto with still|]. intros ? y Hy _. apply wp_bind, wp_the_t. cbv zeta. rewrite truth_nz.
    destruct (Z.eqb_spec (h_cmd (st_t (snd y))) 0) as [Ec|Hc]; cbn [negb]; [by apply wp_bind, wp_ret, wp_ret|].
    destruct (acc_cmd _ _ Hy Hc) as (_ & _ & (_ & c & Hcc & _)%good_ok). apply wp_bind, wp_bind, (the_cmd_run _ c); [done|].
    destruct (truth (c_rt c)); [|by apply wp_ret, wp_ret].
    apply wp_bind. eapply take_cmd; [exact Hy|done|]. intros z Hz _ _. eapply answer_run; [exact Hz|]. intros u Hu. by apply wp_ret.
  - destruct (acc_dat _ _ Ha Hd) as (_ & _ & _ & c & Hcc & _).
    eapply seq_calm; [exact Ha|by apply (calm_upd_cmd _ _ c)|]. intros ? y Hy Hly.
    assert (Eh : h_dat (st_t (snd y)) = h_dat (st_t (snd x))) by apply Hly. rewrite <- Eh in *.
    destruct (acc_dat _ _ Hy Hd) as (_ & _ & _ & cc & Hcy & _ & d & Hq & Hb).
    apply wp_bind, (the_cmd_run _ cc); [done|]. apply wp_bind. eapply count_run; [exact Hy|exact Hq|]. intros z Hz Hlz.
    assert (Ez : h_dat (st_t (snd z)) = h_dat (st_t (snd y))) by apply Hlz.
    assert (Hq' : exists d', st_dats (snd z) !! c_dat cc = Some d' /\ same_dat d d') by (by apply Hlz).
    destruct Hq' as (d' & Hq' & Eb & _).
    eapply (seq_calm []); [exact Hz| |].
    { destruct (truth _); [|apply still_calm, still_ret]. apply (dmawait_calm fuel_enough _ d'); [apply Hz|done|congruence]. }
    intros ? u Hu Hlu. assert (Eu : h_dat (st_t (snd u)) = h_dat (st_t (snd y))) by (rewrite <- Ez; apply Hlu).
    eapply (seq_still []); [exact Hu|auto with still|]. intros ? v Hv Ev.
    rewrite <- Eu, <- Ev in *. apply (proj1 (wp_assoc (put_dat 0) (fun _ => evt (h_dat (st_t (snd v)))) (fun _ => ret true) _ _)), wp_bind.
    apply finish_dat; [done..|]. intros ? ?. by apply wp_ret.
Qed.

Lemma isr_a12_run x : acc [] x -> wp isr_a12 (fun _ y => acc [] y) x.
Proof.
  intros Ha. apply wp_bind, wp_the_t. cbv zeta. rewrite truth_nz.
  destruct (Z.eqb_spec (h_dat (st_t (snd x))) 0) as [Ed|Hd]; cbn [negb]; [by apply wp_ret|].
  destruct (acc_dat _ _ Ha Hd) as (_ & _ & _ & c & Hcc & _). apply wp_bind, (the_cmd_run _ c); [done|].
  destruct (negb _); [|by apply wp_ret]. eapply seq_calm; [exact Ha|by apply (calm_upd_cmd _ _ c)|]. intros ? y Hy _.
  eapply seq_still; [exact Hy|auto with still|]. intros ? z Hz _. by apply wp_ret.
Qed.

Lemma isr_err_run sta x : acc [] x -> wp (isr_err sta) (fun _ y => acc [] y) x.
Proof.
  intros Ha. eapply (seq_still []); [done|auto with still|]. intros err y Hy _.
  eapply (seq_still []); [done|auto with still|]. intros a12 z Hz _.
  eapply (seq_still []); [done|auto with still|]. intros ? u Hu _. clear x y z Ha Hy Hz.
  apply wp_bind. eapply (wp_mono _ (fun _ y => acc [] y)).
  { destruct (truth _); [|by apply wp_ret]. apply wp_bind. eapply wp_mono; [by apply isr_rsp_err_run|]. intros ? v Hv. by apply wp_ret. }
  intros [sta'|] v Hv; [|by apply wp_ret]. apply wp_bind. eapply (wp_mono _ (fun _ y => acc [] y)).
  { destruct (truth _); [|by apply wp_ret]. apply wp_bind. eapply wp_mono; [by apply isr_dat_err_run|]. intros ? y Hy. by apply wp_ret. }
  intros sta'' y Hy. destruct (truth a12); [|by apply wp_ret].
  apply wp_bind. eapply wp_mono; [by apply isr_a12_run|]. intros ? z Hz. by apply wp_ret.
Qed.

Lemma isr_cmd_run sta x : acc [] x -> wp (isr_cmd sta) (fun _ y => acc [] y) x.
Proof.
  intros Ha. apply wp_bind, wp_the_t. cbv zeta. rewrite truth_nz.
  destruct (Z.eqb_spec (h_cmd (st_t (snd x))) 0) as [Ec|Hc]; cbn [negb].
  - apply wp_bind. eapply (wp_mono _ (fun b y => y = x /\ (b = true -> h_dat (st_t (snd x)) <> 0))).
    { rewrite truth_nz. destruct (Z.eqb_spec (h_dat (st_t (snd x))) 0) as [Ed|Hd]; cbn [negb]; [by apply wp_ret|].
      destruct (acc_dat _ _ Ha Hd) as (_ & _ & _ & c & Hcc & _). apply wp_bind, (the_cmd_run _ c); [done|]. by apply wp_ret. }
    intros b y [-> Hb]. apply wp_bind. destruct b.
    + apply finish_dat; [done|by apply Hb|]. intros y Hy. by apply wp_ret.
    + eapply (seq_still []); [done|auto with still|]. intros ? y Hy _. eapply (seq_still []); [done|auto with still|].
      intros ? z Hz _. by apply wp_ret, wp_ret.
  - apply wp_bind. eapply take_cmd; [exact Ha|done|]. intros y Hy _ _. set (c := h_cmd (st_t (snd x))) in *. clearbody c. clear x Ha Hc.
    destruct (hand_cmd _ _ Hy) as (cc & Hcc & Hdo). apply wp_bind, (the_cmd_run _ cc); [done|].
    assert (Hev : forall u, acc [c] u -> wp (evt c ;; ret sta) (fun _ v => acc [] v) u).
    { intros u Hu. apply wp_bind. eapply answer_run; [exact Hu|]. intros v Hv. by apply wp_ret. }
    destruct (truth (c_rt cc)); [by apply Hev|]. destruct (_ =? SDCMD_F_R2) eqn:E2.
    + destruct (Hdo) as (d & Hd & _); [unfold with_data; rewrite E2; apply orb_true_r|].
      apply wp_bind, (the_dat_run _ d); [done|].
      do 4 (eapply (seq_still [c]); [eassumption|auto with still|]; intros ? ? ? _).
      eapply (seq_calm [c]); [eassumption| |intros ? u Hu _; by apply Hev].
      match goal with |- calm _ ?x => destruct x as [w s] end. apply wp_upd_t. split; [apply like_on_mem|done].
    + eapply (seq_still [c]); [exact Hy|auto with still|]. intros rsp z Hz Ez. rewrite <- Ez in *.
      eapply (seq_calm [c]); [exact Hz|by apply (calm_upd_cmd _ _ cc)|]. intros ? u Hu Hlu.
      destruct (truth (Z.land (c_flag cc) SDCMD_F_DAT)) eqn:Ef; [|by apply Hev].
      destruct (proj1 (proj2 (proj2 (proj2 Hlu))) c cc Hcc) as (cu & Hcu & Efu & _).
      apply wp_bind. eapply (give_dat c cu); [exact Hu|done|by rewrite Efu|]. intros v Hv Ecv Edv.
      destruct (_ =? SDCMD_F_WR); [|by apply wp_ret]. eapply (seq_calm []); [exact Hv| |intros ? ? ? _; by apply wp_ret].
      apply calm_pio. assert (Hdu : data_ok (snd u) cc).
      { apply (like_data (snd z) _ cc); [done| |done|done]. apply Hdo. unfold with_data. by rewrite Ef. }
      unfold data_ok in *. by rewrite Edv.
Qed.

Lemma isr_dat_run sta x : acc [] x -> wp (isr_dat sta) (fun _ y => acc [] y) x.
Proof.
  intros Ha. apply wp_bind, wp_the_t. cbv zeta. apply wp_bind.
  eapply (wp_mono _ (fun _ y => acc [] y /\ like (snd x) (snd y))).
  { apply acc_calm; [done|]. destruct (truth (Z.land sta (Z.lor SDHC_IRQ_WR SDHC_IRQ_RD))); [|apply still_calm, still_ret].
    cbn [andb]. rewrite truth_nz. destruct (Z.eqb_spec (h_dat (st_t (snd x))) 0) as [Ed|Hd]; cbn [negb]; [apply still_calm, still_ret|].
    destruct (acc_dat _ _ Ha Hd) as (_ & _ & _ & c & Hcc & _ & Hdo). apply calm_bind, (the_cmd_run _ c); [done|].
    split_and!; [done..|]. destruct (truth _); [apply still_calm, still_ret|]. destruct Hdo as (d & ? & ?). apply calm_pio. by exists d. }
  intros ? y [Hy Hl]. assert (Eh : h_dat (st_t (snd y)) = h_dat (st_t (snd x))) by apply Hl. rewrite <- Eh. clear Eh Hl Ha x.
  destruct (negb _); [by apply wp_ret|]. rewrite truth_nz.
  destruct (Z.eqb_spec (h_dat (st_t (snd y))) 0) as [Ed|Hd]; cbn [negb].
  { do 2 (eapply (seq_still []); [eassumption|auto with still|]; intros ? ? ? _). by apply wp_ret. }
  destruct (acc_dat _ _ Hy Hd) as (_ & _ & _ & c & Hcc & _ & d & Hq & Hb). apply wp_bind, (the_cmd_run _ c); [done|].
  eapply (seq_calm []); [exact Hy| |].
  { destruct (truth _); [|apply still_calm, still_ret]. apply calm_bind, (upd_dat_run _ _ d); [done|].
    split_and!; [by apply like_on_dat|done|]. apply (dmawait_calm fuel_enough _ (set_actual (dat_count d) d)); [apply Hy| |done].
    cbn. by rewrite lookup_alter_eq, Hq. }
  intros ? z Hz Hl. assert (Eh : h_dat (st_t (snd z)) = h_dat (st_t (snd y))) by apply Hl. rewrite <- Eh in *.
  apply finish_dat; [done..|]. auto.
Qed.

Lemma isr_run x : acc [] x -> wp sdhc_isr (fun _ y => acc [] y) x.
Proof.
  intros Ha. eapply (seq_still []); [done|auto with still|]. intros sta y Hy _.
  eapply (seq_still []); [done|auto with still|]. intros ? z Hz _. clear x y Ha Hy.
  destruct (negb _); [by apply wp_ret|]. destruct (truth (Z.land sta (Z.lor SDHC_IRQ_INS SDHC_IRQ_REM))).
  { apply wp_bind. eapply wp_mono; [by apply isr_card_run|]. intros ? y Hy. by apply wp_ret. }
  apply wp_bind, wp_the_t. destruct (negb _); [by apply wp_ret|]. apply wp_bind.
  eapply (wp_mono _ (fun _ y => acc [] y)); [destruct (truth _); [by apply isr_err_run|by apply wp_ret]|].
  intros [sta'|] y Hy; [|by apply wp_ret]. apply wp_bind.
  eapply (wp_mono _ (fun _ y => acc [] y)); [destruct (truth _); [by apply isr_cmd_run|by apply wp_ret]|].
  intros sta'' u Hu. eapply (seq_still []); [exact Hu|auto with still|]. intros ? v Hv _.
  apply wp_bind. eapply wp_mono; [by apply isr_dat_run|]. intros ? x Hx. apply wp_bind.
  destruct (truth _); [|by apply wp_ret, wp_ret]. eapply event_run; [exact Hx|done|]. intros ? ? _. by apply wp_ret.
Qed.

(** What a flush leaves pending was taken with its last answer. *)
Definition flushed (y : W * sd_state) : Prop := pending (snd y) = [] \/ exists c z, acc [c] z /\ evt c z = Done tt y.
Lemma answer_flushed c x : acc [c] x -> wp (evt c) (fun _ y => acc [] y /\ flushed y) x.
Proof.
  intros Ha. assert (H : wp (evt c) (fun _ y => acc [] y) x) by (eapply answer_run; [exact Ha|auto]).
  apply wp_run in H as ([] & y & E & Hy). unfold wp. rewrite E. split; [done|]. right. by exists c, x.
Qed.

Lemma flush_run x : acc [] x -> wp sdhc_flush (fun _ y => acc [] y /\ flushed y) x.
Proof.
  intros Ha. eapply (seq_still []); [done|auto with still|]. intros ? y Hy _. clear x Ha. apply wp_bind, wp_the_t. cbv zeta. apply wp_bind.
  eapply (wp_mono _ (fun _ z => acc [] z /\ (h_dat (st_t (snd z)) = 0 \/ flushed z))).
  { rewrite truth_nz. destruct (Z.eqb_spec (h_dat (st_t (snd y))) 0) as [Ed|Hd]; cbn [negb]; [apply wp_ret; auto|].
    destruct (acc_dat _ _ Hy Hd) as (_ & _ & _ & c & Hcc & _).
    eapply (seq_calm []); [exact Hy|by apply (calm_upd_cmd _ _ c)|]. intros ? z Hz Hl.
    assert (Eh : h_dat (st_t (snd z)) = h_dat (st_t (snd y))) by apply Hl. rewrite <- Eh in *.
    apply wp_bind. eapply take_dat; [exact Hz|done|]. intros u Hu _ _. eapply wp_mono; [by apply answer_flushed|].
    intros ? v [Hv Hf]. auto. }
  intros ? z [Hz Hf]. apply wp_bind, wp_the_t. cbv zeta. rewrite truth_nz.
  destruct (Z.eqb_spec (h_cmd (st_t (snd z))) 0) as [Ec|Hc]; cbn [negb].
  { apply wp_ret. split; [done|]. destruct Hf as [Ed|]; [|done]. left. unfold pending. by rewrite Ec, Ed. }
  destruct (acc_cmd _ _ Hz Hc) as (_ & _ & (_ & c & Hcc & _)%good_ok).
  eapply (seq_calm []); [exact Hz|by apply (calm_upd_cmd _ _ c)|]. intros ? u Hu Hl.
  assert (Eh : h_cmd (st_t (snd u)) = h_cmd (st_t (snd z))) by apply Hl. rewrite <- Eh in *.
  apply wp_bind. eapply take_cmd; [exact Hu|done|]. intros v Hv _ _. by apply answer_flushed.
Qed.
End Account.

End Spec.

(** ** A client that notes what it is told

    The event or the address of the command, and the commands the driver took
    from it meanwhile. *)
Notation notes := (list (Z * list Z)).
Class Noting (W A : Type) `{SdBus W} `{SdClient W} := {
  #[global] noting_obs :: Observed W (A * notes);
  fit : A -> sd_state -> Z -> Prop;
  fit_ok a s p : fit a s p -> cmd_ok s p;
  fit_heap a s s' p : same_heap s s' -> fit a s p -> fit a s' p;
  note_event ctx ev w s : ev <= SDHC_EVT_MAX ->
    exists w', sd_evt ctx ev (w, s) = Done tt (w', s) /\ obs w' = (fst (obs w), snd (obs w) ++ [(ev, [])]);
  note_answer ctx ev w s : fit (fst (obs w)) s ev -> pending s = [] ->
    exists w' s', sd_evt ctx ev (w, s) = Done tt (w', s') /\ snd (obs w') = snd (obs w) ++ [(ev, pending s')] /\
      (forall p, fit (fst (obs w)) s p -> fit (fst (obs w')) s' p) /\ h_r (st_t s') = h_r (st_t s) /\ h_dat (st_t s') = 0 /\
      (pending s' = [] \/ exists p, pending s' = [p] /\ fit (fst (obs w')) s' p) }.

(** The commands among what a client was told, and those taken meanwhile. *)
Definition answers (evs : notes) : list Z := filter (fun p => SDHC_EVT_MAX < p) (map fst evs).
Definition retaken (evs : notes) : list Z := evs ≫= snd.
Lemma answers_snoc evs ev l : answers (evs ++ [(ev, l)]) = answers evs ++ (if decide (SDHC_EVT_MAX < ev) then [ev] else []).
Proof. unfold answers. by rewrite map_app, filter_app. Qed.
Lemma retaken_snoc evs ev l : retaken (evs ++ [(ev, l)]) = retaken evs ++ l.
Proof. unfold retaken. by rewrite bind_app, bind_singleton. Qed.
Lemma answers_app l1 l2 : answers (l1 ++ l2) = answers l1 ++ answers l2.
Proof. unfold answers. by rewrite map_app, filter_app. Qed.

(** Its account: [p0] were with the driver when the notes were [l0], and those
    it was told of left in the order they were taken. *)
#[local] Instance noting_client {W A} `{Noting W A} (l0 : notes) (p0 : list Z) : Client W (A * notes).
Proof.
  refine {| client_obs := noting_obs; good a := fit (fst a);
    kept a ps := exists evs, snd a = l0 ++ evs /\ answers evs ++ ps = p0 ++ retaken evs |}.
  - intros a s p. apply fit_ok.
  - intros a s s' p. apply fit_heap.
  - intros ctx ev w s Hev. destruct (note_event ctx ev w s Hev) as (w' & E & El). exists w'. rewrite El. split_and!; [done..|].
    intros ps (evs & -> & HP). exists (evs ++ [(ev, [])]). cbn. rewrite <- app_assoc. split; [done|].
    by rewrite retaken_snoc, answers_snoc, decide_False, !app_nil_r by lia.
  - intros ctx ev w s Hg Hp (evs & E & HP). destruct (note_answer ctx ev w s Hg Hp) as (w' & s' & Ee & El & Hrest).
    exists w', s'. split_and!; [done|apply Hrest| |apply Hrest..]. exists (evs ++ [(ev, pending s')]). rewrite El, E, <- app_assoc. split; [done|].
    destruct (fit_ok _ _ _ Hg) as [Hmax _].
    by rewrite retaken_snoc, answers_snoc, decide_True, (app_assoc p0), <- HP, <- !app_assoc.
Defined.

(** ** Histories

    A client submits commands, one at a time as the card's block driver does:
    while one is pending it waits.  In between the controller interrupts, the
    client may flush, and it may submit when it is told the answer to its last
    command. *)
Section Histories.
Context {W A : Type} {B : SdBus W} {C : SdClient W} {N : Noting W A} {Cfg : SdConfig}.
Context {r lim : Z} {De : DmaEngine W r lim}.
Implicit Types (w : W) (s : sd_state) (x : W * sd_state).
Notation G := (M (W * sd_state)).
Notation sd_log w := (snd (obs (A := A * notes) w)).
Hypothesis fuel_enough : (lim + 1) * 202 < Z.of_nat sd_fuel.
Notation account l0 p0 := (account (Cl := noting_client l0 p0) (r := r)).

Inductive sd_op := Submit (p : Z) | Interrupt | Flush.
(** The commands taken while [m] ran. *)
Definition taking {D} (m : G D) : G (list Z) :=
  let! x := gets id in m ;; let! y := gets id in ret (retaken (drop (length (sd_log (fst x))) (sd_log (fst y)))).
Definition sd_step (o : sd_op) : G (list Z) :=
  match o with
  | Submit p =>
      let! s := get_t in
      match pending s with
      | [] => let! rt := sdhc_cmd p in ret (if rt =? 0 then [p] else [])
      | _ => ret []
      end
  | Interrupt => taking sdhc_isr
  | Flush => taking sdhc_flush
  end.
(** Answers the commands the driver took. *)
Fixpoint sd_history (h : list sd_op) : G (list Z) :=
  match h with [] => ret [] | o :: h => let! l := sd_step o in let! l' := sd_history h in ret (l ++ l') end.

Definition submits (h : list sd_op) : list Z := omap (fun o => match o with Submit p => Some p | _ => None end) h.

(** Between operations: at most one command is pending, it can be answered, and
    so can those the client has. *)
Definition ready (known : list Z) x : Prop := account (sd_log (fst x)) (pending (snd x)) known [] x.

(** What it took joins what was pending, and what it answered leaves. *)
Definition stepped (known : list Z) x (l : list Z) (y : W * sd_state) : Prop :=
  ready known y /\ exists evs, sd_log (fst y) = sd_log (fst x) ++ evs /\ answers evs ++ pending (snd y) = pending (snd x) ++ l.

Lemma account_ready known l0 p0 x : account l0 p0 known [] x -> ready known x.
Proof.
  intros (Hr & Hlen & Hok & Hd & _). split; [exact Hr|]. split_and!; [done..|]. exists []. by rewrite !app_nil_r.
Qed.
Lemma account_notes known l0 p0 x : account l0 p0 known [] x ->
  exists evs, sd_log (fst x) = l0 ++ evs /\ answers evs ++ pending (snd x) = p0 ++ retaken evs.
Proof. intros (_ & _ & _ & _ & H). exact H. Qed.
Lemma taking_run {D} known (m : G D) x :
  wp m (fun _ y => account (sd_log (fst x)) (pending (snd x)) known [] y) x -> wp (taking m) (stepped known x) x.
Proof.
  intros Hm. apply wp_bind, wp_gets, wp_bind. eapply wp_mono; [exact Hm|]. cbn beta. intros ? y Hy.
  apply wp_bind, wp_gets, wp_ret. split; [by eapply account_ready|].
  destruct (account_notes _ _ _ _ Hy) as (evs & El & HP). exists evs. split; [done|]. cbn [id]. by rewrite El, drop_app_length.
Qed.

Lemma taken_stepped known p x rt y : ready known x -> pending (snd x) = [] -> p ∈ known ->
  taken (T := A * notes) p x rt y -> stepped known x (if rt =? 0 then [p] else []) y.
Proof.
  intros ([Hr Hk] & _) Hp Hin (El & Hr' & _ & Hd' & Hc' & Hh & _).
  pose proof (good_keep (Cl := noting_client (sd_log (fst x)) (pending (snd x))) x y known Hh El Hk) as Hk'.
  assert (Hp' : pending (snd y) = if rt =? 0 then [p] else []).
  { unfold pending. rewrite Hc', Hd'. destruct (rt =? 0); [|done]. rewrite Forall_forall in Hk.
    by rewrite (proj2 (Z.eqb_neq p 0)) by apply (good_nz _ _ _ (Hk p Hin)). }
  split.
  - split; [split; [congruence|done]|]. rewrite Hp'. split_and!; [by destruct (rt =? 0); cbn; lia| |by rewrite Hd'|exists []; by rewrite !app_nil_r].
    destruct (rt =? 0); [|constructor]. constructor; [|constructor]. rewrite Forall_forall in Hk'. by apply Hk'.
  - exists []. by rewrite app_nil_r, Hp, Hp', El.
Qed.

Lemma step_run known o x : ready known x -> (forall p, o = Submit p -> p ∈ known) -> wp (sd_step o) (stepped known x) x.
Proof.
  intros Hx Ho. destruct o as [p| |]; cbn [sd_step].
  - destruct x as [w s]. apply wp_bind, wp_get_t. destruct (pending s) as [|q l] eqn:Ep.
    + apply wp_bind. eapply wp_mono; [apply sdhc_cmd_run; [done|]|].
      { destruct Hx as ([_ Hk] & _). rewrite Forall_forall in Hk. by eapply fit_ok, Hk, Ho. }
      intros rt y Hy. apply wp_ret. apply (taken_stepped known p (w, s)); auto.
    + apply wp_ret. split; [done|]. exists []. by rewrite !app_nil_r.
  - by apply taking_run, (isr_run fuel_enough known), Hx.
  - apply taking_run. eapply wp_mono; [apply (flush_run (Cl := noting_client (sd_log (fst x)) (pending (snd x))) (r := r) known), Hx|]. by intros ? y [Hy _].
Qed.

Lemma history_run known h x : ready known x -> submits h ⊆ known -> wp (sd_history h) (stepped known x) x.
Proof.
  revert x. induction h as [|o h IH]; intros x Hx Hs; cbn [sd_history].
  { apply wp_ret. split; [done|]. exists []. by rewrite !app_nil_r. }
  apply wp_bind. eapply wp_mono; [apply (step_run known); [done|]|].
  { intros p ->. apply Hs. cbn. set_solver. }
  cbn beta. intros l y [Hy (evs & El & Ea)]. apply wp_bind. eapply wp_mono; [apply IH; [done|]|].
  { intros p Hp. apply Hs. destruct o; cbn; set_solver. }
  intros l' z [Hz (evs' & El' & Ea')]. apply wp_ret. split; [done|].
  exists (evs ++ evs'). rewrite El', El, app_assoc. split; [done|].
  by rewrite answers_app, <- app_assoc, Ea', app_assoc, Ea, <- app_assoc.
Qed.

(** What a flush leaves pending is the last of what it took. *)
Lemma flushed_retaken known l0 p0 y evs : flushed (Cl := noting_client l0 p0) (r := r) known y ->
  sd_log (fst y) = l0 ++ evs -> retaken evs = [] -> pending (snd y) = [].
Proof.
  intros [|(c & [w s] & Hz & E)] El Hn; [done|]. destruct (acc_hand _ _ _ _ Hz) as (_ & Hc & Hd & Hg). cbn [fst snd] in Hc, Hd, Hg.
  destruct Hz as (_ & _ & _ & _ & evs0 & Ez & _). assert (Hp : pending s = []) by (unfold pending; by rewrite Hc, Hd).
  destruct (note_answer (h_ctx (st_t s)) c w s Hg Hp) as (w' & s' & Ee & Ew & _).
  unfold evt, bind, the_t, get_t, gets, ret in E. cbn in E, Ee. rewrite Ee in E. injection E as <-. cbn [fst snd] in *.
  change (sd_log w = l0 ++ evs0) in Ez. rewrite Ew, Ez, <- app_assoc in El. apply app_inv_head in El. subst evs.
  rewrite retaken_snoc in Hn. by apply app_eq_nil in Hn as [_ ->].
Qed.

(** C21. A client that has one command with the driver at a time is told of every
    command the driver took exactly once, and in the order they were taken:
    whatever the controller reports, in whatever order it interrupts, whatever
    the client submits in between and whether it submits when it is answered,
    the driver returns, and what was answered and what is still pending are, in
    this order, the commands taken.  A flush answers what is pending, and only
    a command the client submits meanwhile can be pending after it. *)
Theorem commands_answered h w s : h_r (st_t s) = r -> pending s = [] -> Forall (fit (fst (obs w)) s) (submits h) ->
  exists l w1 s1 evs, sd_history h (w, s) = Done l (w1, s1) /\ sd_log w1 = sd_log w ++ evs /\ answers evs ++ pending s1 = l /\
  exists w2 s2 evs2, sdhc_flush (w1, s1) = Done tt (w2, s2) /\ sd_log w2 = sd_log w1 ++ evs2 /\
    answers (evs ++ evs2) ++ pending s2 = l ++ retaken evs2 /\ (retaken evs2 = [] -> pending s2 = []).
Proof.
  intros Hr Hp Hok. assert (Hx : ready (submits h) (w, s)).
  { split; [done|]. cbn [fst snd]. rewrite Hp. split_and!; [cbn; lia|constructor| |exists []; by rewrite !app_nil_r].
    destruct (pending_nil _ Hp) as [_ Ed]. by rewrite Ed. }
  pose proof (history_run (submits h) h (w, s) Hx ltac:(done)) as Hh. apply wp_run in Hh as (l & [w1 s1] & E & Hy & evs & El & Ea).
  cbn [fst snd] in *. rewrite Hp in Ea. exists l, w1, s1, evs. split_and!; [done..|].
  pose proof (flush_run (Cl := noting_client (sd_log w1) (pending s1)) (r := r) (submits h) (w1, s1) Hy) as Hf. apply wp_run in Hf as ([] & [w2 s2] & E2 & Hy2 & Hp2).
  destruct (account_notes _ _ _ _ Hy2) as (evs2 & El2 & Ea2). cbn [fst snd] in *.
  exists w2, s2, evs2. split_and!; [done|done|by rewrite answers_app, <- app_assoc, Ea2, app_assoc, Ea|].
  exact (flushed_retaken _ _ _ _ evs2 Hp2 El2).
Qed.
End Histories.

(** ** Encodings *)

(** A write by the processor is started as a transfer by the DMA engine: for a
    command with data to write and without the DMA flag, the variable that
    becomes the transfer mode still holds the bits of the state register waited
    for, and these are the bits that switch on DMA and the block count. *)
Theorem pio_write_mode c : let f := c_flag c in
  truth (Z.land f SDCMD_F_DAT) = true -> truth (Z.land f SDCMD_F_WR) = true -> c_cmd c <> 12 -> c_cmd c <> 52 ->
  0 <= c_cmd c < 256 ->
  Z.land (cmd_mode (cmd_inhibit (cmd_word c) f) f) SDHC_MODE_DMA = SDHC_MODE_DMA /\
  Z.land (cmd_mode (cmd_inhibit (cmd_word c) f) f) SDHC_MODE_COUNT = SDHC_MODE_COUNT.
Proof.
  intros f Hd Hw Hc1 Hc2 Hc. assert (Hv : cmd_inhibit (cmd_word c) f = 3).
  { unfold cmd_inhibit, cmd_word, cmd_type. rewrite (proj2 (Z.eqb_neq _ _) Hc1), (proj2 (Z.eqb_neq _ _) Hc2), Z.lor_0_r, Hd, orb_true_r, andb_true_r.
    rewrite (proj2 (Z.eqb_neq _ _)); [done|]. intros E. assert (Hb : Z.testbit (Z.land (Z.lor (Z.shiftl (c_cmd c) 8) (cmd_response (c_flag c))) SDHC_CMD_TYP_MASK) 6 = true) by by rewrite E.
    revert Hb. rewrite Z.land_spec, Z.lor_spec, Z.shiftl_spec, (Z.testbit_neg_r _ (6 - 8)) by lia. cbn [orb].
    unfold cmd_response. repeat (match goal with |- context [if ?b then _ else _] => destruct b end); done. }
  rewrite Hv. unfold cmd_mode. rewrite Hw. cbn [negb].
  destruct (truth (Z.land f SDCMD_F_MULTI)), (truth (Z.land f SDCMD_F_STOP)), (truth (Z.land f SDCMD_F_DMA)); by compute.
Qed.

(** The divider of the card clock halves the base clock [k] times, at most
    eight: the first time the clock, rounded down to 100 kHz, is not above the
    request, or the slowest of all. *)
Lemma sdhc_div_correct clk base : let '(div, rclk) := sdhc_div clk base in
  exists k, 0 <= k <= 8 /\ rclk = Z.shiftr base k /\ div = (if k =? 0 then 0 else 2 ^ (k - 1)) /\
    (rclk <= clk \/ k = 8) /\ forall j, 0 <= j < k -> clk < Z.shiftr base j.
Proof.
  unfold sdhc_div. rewrite Z.geb_leb. destruct (Z.leb_spec base clk).
  { exists 0. rewrite Z.shiftr_0_r. split_and!; (done || lia || (left; lia)). }
  destruct (list_find _ _) as [[i k]|] eqn:Ef; cbn iota beta.
  - apply list_find_Some in Ef as (Hk & Hle & Hfirst). apply lookup_seqZ in Hk as [-> Hi]. exists (1 + Z.of_nat i).
    rewrite (proj2 (Z.eqb_neq _ 0)), Z.shiftl_1_l by lia. split_and!; try lia; try done.
    intros j Hj. destruct (Z.eq_dec j 0) as [->|]; [by rewrite Z.shiftr_0_r|].
    assert (seqZ 1 7 !! Z.to_nat (j - 1) = Some j) as Hl by (apply lookup_seqZ; lia).
    specialize (Hfirst _ _ Hl ltac:(lia)). cbn in Hfirst. lia.
  - exists 8. split_and!; try lia; try done. apply list_find_None in Ef. rewrite Forall_forall in Ef.
    intros j Hj. destruct (Z.eq_dec j 0) as [->|]; [by rewrite Z.shiftr_0_r|]. specialize (Ef j). rewrite elem_of_seqZ in Ef. lia.
Qed.

(** The time out is the shortest the controller has that is not below the
    request, or the longest. *)
Lemma tout_count_bound n c k : 0 <= c -> 0 <= k -> (14 - k <= Z.of_nat n) ->
  let m := tout_count n c k in k <= m <= Z.max k 14 /\ (m < 14 -> c < 2 ^ (m - k)) /\ (k < m -> 2 ^ (m - 1 - k) <= c).
Proof.
  revert c k. induction n as [|n IH]; intros c k Hc Hk Hn; cbn [tout_count]; cbv zeta.
  { split_and!; lia. }
  unfold truth. destruct (Z.eqb_spec c 0) as [->|Hne]; cbn [negb andb]; [split_and!; lia|].
  destruct (Z.ltb_spec k 14); [|split_and!; lia].
  pose proof (Z.shiftr_nonneg c 1) as Hs. specialize (IH (Z.shiftr c 1) (k + 1) ltac:(lia) ltac:(lia) ltac:(lia)). cbv zeta in IH.
  set (m := tout_count n (Z.shiftr c 1) (k + 1)) in *. destruct IH as (Hm & Hhi & Hlo).
  rewrite Z.shiftr_div_pow2 in Hhi, Hlo by lia. change (2 ^ 1) with 2 in *. clearbody m.
  assert (E : 2 ^ (m - k) = 2 * 2 ^ (m - (k + 1))) by (rewrite <- Z.pow_succ_r by lia; f_equal; lia).
  pose proof (Z.div_mod c 2 ltac:(lia)). pose proof (Z.mod_pos_bound c 2 ltac:(lia)).
  split_and!; [lia|lia| |].
  - intros Hlt. specialize (Hhi Hlt). lia.
  - intros _. destruct (Z.eq_dec m (k + 1)) as [->|]; [replace (k + 1 - 1 - k) with 0 by lia; cbn; lia|].
    specialize (Hlo ltac:(lia)). replace (m - 1 - k) with (Z.succ (m - 1 - (k + 1))) by lia. rewrite Z.pow_succ_r by lia. lia.
Qed.

(** The time-out register gets the shortest of the controller's times that is
    not below the request, in milliseconds of the time-out clock, or the longest. *)
Theorem sdhc_tout_correct {W} {B : SdBus W} ms (w : W) s : let cycles := u32 (h_toutclk (st_t s) * ms) in
  exists n, sdhc_tout ms (w, s) = Done 0 (sdb_wr B8 (h_r (st_t s) + sd_tout) n w, s) /\ 0 <= n <= 14 /\
    (n < 14 -> cycles < 2 ^ (13 + n)) /\ (0 < n -> 2 ^ (12 + n) <= cycles).
Proof.
  intros cycles. assert (Hc : in_u32 cycles) by apply u32_range. exists (tout_count 14 (Z.shiftr cycles 13) 0).
  pose proof (tout_count_bound 14 (Z.shiftr cycles 13) 0 ltac:(apply Z.shiftr_nonneg, Hc) ltac:(lia) ltac:(lia)) as (Hm & Hhi & Hlo).
  set (n := tout_count 14 (Z.shiftr cycles 13) 0) in *. split_and!; [|lia|lia| |].
  - unfold sdhc_tout, the_t, wr, bind, get_t, gets, ret, io, zoom, io_wr, modify. cbn [fst snd trunc]. fold cycles. fold n.
    by rewrite u8_id by (unfold in_u8; lia).
  - intros Hn. specialize (Hhi Hn). rewrite Z.sub_0_r, Z.shiftr_div_pow2 in Hhi by lia. rewrite Z.pow_add_r by lia.
    pose proof (Z.div_mod cycles (2 ^ 13) ltac:(lia)). pose proof (Z.mod_pos_bound cycles (2 ^ 13) ltac:(lia)). nia.
  - intros Hn. specialize (Hlo Hn). rewrite Z.sub_0_r, Z.shiftr_div_pow2 in Hlo by lia.
    replace (12 + n) with (13 + (n - 1)) by lia. rewrite Z.pow_add_r by lia.
    pose proof (Z.div_mod cycles (2 ^ 13) ltac:(lia)). pose proof (Z.mod_pos_bound cycles (2 ^ 13) ltac:(lia)). nia.
Qed.

(** The long response comes to the client as four words, the highest first,
    moved up by the byte the controller leaves out. *)
Lemma three_bytes x : byte_of x 0 + 2 ^ 8 * byte_of x 1 + 2 ^ 16 * byte_of x 2 = x mod 2 ^ 24.
Proof.
  unfold byte_of, u8. rewrite !Z.shiftr_div_pow2 by lia. change (2 ^ (8 * 0)) with 1. change (2 ^ (8 * 1)) with 256.
  change (2 ^ (8 * 2)) with 65536. change (2 ^ 8) with 256. change (2 ^ 16) with 65536. change (2 ^ 24) with 16777216.
  rewrite Z.div_1_r. Z.to_euclidean_division_equations. lia.
Qed.
Lemma top_byte x : in_u32 x -> byte_of x 3 = x / 2 ^ 24.
Proof.
  intros Hx. unfold byte_of. rewrite Z.shiftr_div_pow2 by lia. apply u8_id. unfold in_u8, in_u32 in *. change (2 ^ (8 * 3)) with (2 ^ 24).
  split; [apply Z.div_pos; lia|apply Z.div_lt_upper_bound; lia].
Qed.
Lemma foldl_upd_below (f : Z -> Z) buf l m k0 a : a < buf + k0 ->
  foldl (fun m '(k, i) => upd m (buf + k) (f i)) m (zip (seqZ k0 (Z.of_nat (length l))) l) a = m a.
Proof.
  revert m k0. induction l as [|x l IH]; intros m k0 Ha; [done|]. cbn [length]. rewrite seqZ_cons by lia.
  replace (Z.pred (Z.of_nat (S (length l)))) with (Z.of_nat (length l)) by lia. cbn. rewrite IH by lia. by rewrite upd_reg_ne by lia.
Qed.
Lemma foldl_upd_at (f : Z -> Z) buf l m k0 (j : nat) i : l !! j = Some i ->
  foldl (fun m '(k, i) => upd m (buf + k) (f i)) m (zip (seqZ k0 (Z.of_nat (length l))) l) (buf + (k0 + Z.of_nat j)) = f i.
Proof.
  revert m k0 j. induction l as [|x l IH]; intros m k0 j Hj; [done|]. cbn [length]. rewrite seqZ_cons by lia.
  replace (Z.pred (Z.of_nat (S (length l)))) with (Z.of_nat (length l)) by lia. cbn. destruct j as [|j].
  - injection Hj as ->. rewrite foldl_upd_below by lia. by rewrite Z.add_0_r, upd_reg_eq.
  - replace (k0 + Z.of_nat (S j)) with (Z.succ k0 + Z.of_nat j) by lia. by apply IH.
Qed.

Theorem long_response_words r0 r1 r2 r3 buf m : in_u32 r0 -> in_u32 r1 -> in_u32 r2 ->
  let m' := long_response r0 r1 r2 r3 buf m in
  mem_word m' buf = r3 mod 2 ^ 24 * 2 ^ 8 + r2 / 2 ^ 24 /\ mem_word m' (buf + 4) = r2 mod 2 ^ 24 * 2 ^ 8 + r1 / 2 ^ 24 /\
  mem_word m' (buf + 8) = r1 mod 2 ^ 24 * 2 ^ 8 + r0 / 2 ^ 24 /\ mem_word m' (buf + 12) = r0 mod 2 ^ 24 * 2 ^ 8 + r0 mod 2 ^ 8.
Proof.
  intros H0 H1 H2 m'. set (f i := byte_of (if i <? 4 then r0 else if i <? 8 then r1 else if i <? 12 then r2 else r3) (i mod 4)).
  assert (Hat : forall (j : nat) i a, rspmap !! j = Some i -> a = buf + (0 + Z.of_nat j) -> m' a = f i).
  { intros j i a Hj ->. exact (foldl_upd_at f buf rspmap m 0 j i Hj). }
  clearbody m'. rewrite <- (top_byte r0), <- (top_byte r1), <- (top_byte r2), <- !three_bytes by done.
  assert (E0 : r0 mod 2 ^ 8 = byte_of r0 0) by (unfold byte_of; by rewrite Z.shiftr_0_r). rewrite E0.
  unfold mem_word.
  rewrite (Hat 0%nat 11 buf), (Hat 1%nat 12 (buf + 1)), (Hat 2%nat 13 (buf + 2)), (Hat 3%nat 14 (buf + 3)),
    (Hat 4%nat 7 (buf + 4)), (Hat 5%nat 8 (buf + 4 + 1)), (Hat 6%nat 9 (buf + 4 + 2)), (Hat 7%nat 10 (buf + 4 + 3)),
    (Hat 8%nat 3 (buf + 8)), (Hat 9%nat 4 (buf + 8 + 1)), (Hat 10%nat 5 (buf + 8 + 2)), (Hat 11%nat 6 (buf + 8 + 3)),
    (Hat 12%nat 0 (buf + 12)), (Hat 13%nat 0 (buf + 12 + 1)), (Hat 14%nat 1 (buf + 12 + 2)), (Hat 15%nat 2 (buf + 12 + 3)) by (done || lia).
  unfold f. cbn -[byte_of Z.mul Z.add Z.pow]. change (0 mod 4) with 0.
  repeat match goal with |- context [Z.pos ?a mod 4] =>
    let v := eval compute in (Z.pos a mod 4) in change (Z.pos a mod 4) with v end.
  clear. split_and!; lia.
Qed.

(** The greatest voltage ([-1]) is chosen but not switched on: the power bit is
    in every other choice and not in this one. *)
Lemma max_power_off spwr v : pwr_bits (-1) spwr = Some v -> Z.land v SDHC_PWR_ENA = 0.
Proof.
  unfold pwr_bits. cbn [Z.eqb Pos.eqb].
  destruct (truth (Z.land spwr SDHC_PWRCAPS_V33)), (truth (Z.land spwr SDHC_PWRCAPS_V30)); by intros [= <-].
Qed.

(** ** The module at work

    A controller whose registers keep what is written, but for the DMA address,
    which stands still, and the reset, which is over at once.  The client notes
    what it is told, and when it is told the answer to command 16 it submits 32. *)
Record sdsim := SdSim { ss_mem : list (Z * Z); ss_log : list (Z * list Z) }.
Definition ss_tell (ev : Z) (l : list Z) (w : sdsim) : sdsim := SdSim (ss_mem w) (ss_log w ++ [(ev, l)]).
#[local] Instance ss_bus : SdBus sdsim := {|
  sdb_rd _ a w := (if a =? 256 + sd_dma then 0 else sim_peek (ss_mem w) a, w);
  sdb_wr _ a d w := if a =? 256 + sd_rst then w else SdSim ((a, d) :: ss_mem w) (ss_log w);
  sdb_delay _ w := w |}.
#[local] Instance ss_client : SdClient sdsim := {|
  sd_evt _ ev :=
    if ev =? 16 then let! rt := sdhc_cmd 32 in io (modify (ss_tell ev (if rt =? 0 then [32] else [])))
    else io (modify (ss_tell ev [])) |}.
#[local] Instance ss_config : SdConfig := {| sd_fuel := 300; wp_inverted := false |}.
#[local] Instance ss_observed : Observed sdsim (unit * notes).
Proof. refine {| obs w := (tt, ss_log w) |}; try done. intros k a d w. cbn. by destruct (_ =? _). Defined.
#[local] Instance ss_engine : DmaEngine sdsim 256 0.
Proof. refine {| dma_pos _ := 0 |}; (done || (intros; lia)). Defined.

Lemma ss_answer ctx ev w s : cmd_ok s 32 -> pending s = [] ->
  exists w' s', sd_evt ctx ev (w, s) = Done tt (w', s') /\ ss_log w' = ss_log w ++ [(ev, pending s')] /\ same_heap s s' /\
    h_r (st_t s') = h_r (st_t s) /\ h_dat (st_t s') = 0 /\ (pending s' = [] \/ pending s' = [32]).
Proof.
  intros H32 Hp. destruct (pending_nil _ Hp) as [_ Hd]. cbn [sd_evt ss_client]. destruct (ev =? 16).
  - pose proof (sdhc_cmd_run (T := unit * notes) 32 (w, s) Hp H32) as H.
    apply wp_run in H as (rt & [w1 s1] & E & El & Er & _ & Ed & Ec & Hh & _). cbn [fst snd] in *. injection El as El.
    exists (ss_tell ev (if rt =? 0 then [32] else []) w1), s1. assert (Ep : pending s1 = if rt =? 0 then [32] else []).
    { unfold pending. rewrite Ec, Ed. by destruct (rt =? 0). }
    rewrite Ep. refine (conj _ (conj _ (conj Hh (conj Er (conj Ed _))))); [unfold bind; by rewrite E|cbn; by rewrite El|destruct (rt =? 0); auto].
  - exists (ss_tell ev [] w), s. rewrite Hp.
    refine (conj _ (conj _ (conj _ (conj _ (conj Hd _))))); auto. unfold same_heap, same_cmd, same_dat. split; eauto 10.
Qed.
#[local] Instance ss_noting : Noting sdsim unit.
Proof.
  refine {| noting_obs := ss_observed; fit _ s p := cmd_ok s p /\ cmd_ok s 32 |}.
  - by intros a s p [].
  - intros a s s' p Hh []. split; by eapply heap_ok.
  - intros ctx ev w s Hev. exists (ss_tell ev [] w). cbn [sd_evt ss_client]. unfold SDHC_EVT_MAX in Hev.
    by rewrite (proj2 (Z.eqb_neq ev 16)) by lia.
  - intros ctx ev w s [_ H32] Hp. destruct (ss_answer ctx ev w s H32 Hp) as (w' & s' & E & El & Hh & Er & Ed & Hl).
    assert (Hg : forall p, cmd_ok s p /\ cmd_ok s 32 -> cmd_ok s' p /\ cmd_ok s' 32) by (intros p []; split; by eapply heap_ok).
    exists w', s'. split_and!; [done..|]. destruct Hl as [->| ->]; [by left|right; exists 32; split; [done|by apply Hg]].
Defined.

(** A read of one block by the processor, and a command without data; the
    controller reports the end of the command and of the data. *)
Definition ss_card : sdhc_t := Sdhc 256 0 500 50000 0 false false false 0 false true 0 0 0.
Definition ss_state : sd_state := SdState ss_card
  {[16 := SdCmd 0 0 0 0 0 0 13 0x01; 32 := SdCmd 0 0 0 0 64 0 17 0x21]} {[64 := SdDat 4096 1 512 0]} (fun _ => 0).
Definition ss_world (status : Z) : sdsim := SdSim [(256 + sd_ista, status)] [].

Lemma ss_ok16 : cmd_ok ss_state 16.
Proof. split; [done|]. eexists. split; [by vm_compute|]. by vm_compute. Qed.
Lemma ss_ok32 : cmd_ok ss_state 32.
Proof. split; [done|]. eexists. split; [by vm_compute|]. intros _. eexists. split; [by vm_compute|done]. Qed.

Lemma commands_answered_witness : exists l w1 s1 evs,
  sd_history [Submit 16; Interrupt; Submit 16; Interrupt; Submit 32] (ss_world 3, ss_state) = Done l (w1, s1) /\
  l = [16; 32; 32] /\ answers evs ++ pending s1 = l.
Proof.
  destruct (commands_answered (Cfg := ss_config) (r := 256) (lim := 0) ltac:(by vm_compute) [Submit 16; Interrupt; Submit 16; Interrupt; Submit 32]
    (ss_world 3) ss_state) as (l & w1 & s1 & evs & E & _ & Ha & _); [done|done| |].
  - repeat (apply Forall_cons_2; [split; exact ss_ok16 || exact ss_ok32|]). by apply Forall_nil_2.
  - exists l, w1, s1, evs. split; [exact E|]. split; [|exact Ha].
    assert (El : match sd_history [Submit 16; Interrupt; Submit 16; Interrupt; Submit 32] (ss_world 3, ss_state) with
      | Done l _ => l | Crash _ => [] end = [16; 32; 32]) by by vm_compute.
    rewrite E in El. exact El.
Defined.

Lemma pio_write_mode_witness : Z.land (cmd_mode (cmd_inhibit (cmd_word (SdCmd 0 0 0 0 64 0 24 0x31)) 0x31) 0x31) SDHC_MODE_DMA = SDHC_MODE_DMA.
Proof. apply (pio_write_mode (SdCmd 0 0 0 0 64 0 24 0x31)); by vm_compute. Defined.

Lemma long_response_words_witness :
  mem_word (long_response 0x33221100 0x77665544 0xBBAA9988 0x00FFEEDD 4096 (fun _ => 0)) 4096 = 0xFFEEDDBB.
Proof.
  destruct (long_response_words 0x33221100 0x77665544 0xBBAA9988 0x00FFEEDD 4096 (fun _ => 0)) as [E _]; [by vm_compute..|].
  etrans; [exact E|]. by vm_compute.
Defined.

