(* ===== verification/MagusSslsd.v ===== *)
(** * The SD card host driver

    [BSP/oss/sdhc/ssl_sd.c]: the requests of the kernel's MMC core carried out
    by the controller driver ([MagusSdhc]), built as its Makefile builds it
    ([SD_DMA] and [IO_MAP] are 1).  The controller has no scatter list: a
    request is a sequence of transfers, one for each entry of the list, and an
    entry is taken up again where a failed transfer stopped.  A request ends in
    the core's [mmc_request_done] ([drivers/mmc/core/core.c]), which hands a
    failed one that has retries left to the driver again, from inside the driver's
    own call.  The host lives in the world ([HostWorld]), so that [sslsd_evt] is
    the controller's client; what the rest of the kernel does is the parameter
    [MmcCore]. *)

From Stdlib Require Import ZArith Lia Bool.
From stdpp Require Import base numbers list gmap.
From S2P Require Import Prelude CMonad DevIO MagusSdhc.

Definition EIO : Z := 5.
Definition ENOMEM : Z := 12.
Definition EINVAL : Z := 22.
Definition EILSEQ : Z := 84.
Definition ETIMEDOUT : Z := 110.
Definition ENOMEDIUM : Z := 123.
Definition SSLSD_CARD_BLKADR : Z := 1.
Definition SSLSD_CARD_SDIO : Z := 2.

(** [mmc_resp_type], and the fields of the kernel's requests the driver reads. *)
Inductive mmc_rsp := MMC_RSP_R1 | MMC_RSP_R1B | MMC_RSP_R2 | MMC_RSP_R3 | MMC_RSP_OTHER.
#[global] Instance mmc_rsp_eq_dec : EqDecision mmc_rsp.
Proof. solve_decision. Defined.
Record scatterlist := Sg { sg_virt : Z; sg_dma_address : Z; sg_dma_len : Z }.
Record mmc_data := MmcData {
  md_stream : bool; md_write : bool; md_blocks : Z; md_blksz : Z;
  md_timeout_ns : Z; md_timeout_clks : Z; md_sg : list scatterlist }.
Record mmc_request := MmcRequest {
  mr_opcode : Z; mr_arg : Z; mr_resp_type : mmc_rsp; mr_resp : Z; mr_data : option mmc_data; mr_stop : bool; mr_retries : Z }.
(** The card: what [sslsd_card_type] answers, and the clock of [ios]. *)
Record mmc_host := MmcHost { mh_sdio : bool; mh_blockaddr : bool; mh_present : bool; mh_clock : Z }.

(** [sslsd_host], with what the driver and the core write to the request it was
    handed: the error, the first word of the response, the bytes transferred and
    the retries left.  [hs_sg] and [hs_sgn] are positions in the list. *)
Record sslsd_host := Host {
  hs_pcmd : mmc_request; hs_sg : Z; hs_sgn : Z; hs_sgc : Z; hs_sgofs : Z; hs_retry : Z;
  hs_error : Z; hs_resp0 : Z; hs_bytes : Z; hs_retries : Z; hs_mmc : mmc_host }.
Definition set_hs_error (e : Z) (h : sslsd_host) : sslsd_host :=
  Host (hs_pcmd h) (hs_sg h) (hs_sgn h) (hs_sgc h) (hs_sgofs h) (hs_retry h) e (hs_resp0 h) (hs_bytes h) (hs_retries h) (hs_mmc h).
Definition set_hs_resp0 (x : Z) (h : sslsd_host) : sslsd_host :=
  Host (hs_pcmd h) (hs_sg h) (hs_sgn h) (hs_sgc h) (hs_sgofs h) (hs_retry h) (hs_error h) x (hs_bytes h) (hs_retries h) (hs_mmc h).
Definition set_hs_bytes (x : Z) (h : sslsd_host) : sslsd_host :=
  Host (hs_pcmd h) (hs_sg h) (hs_sgn h) (hs_sgc h) (hs_sgofs h) (hs_retry h) (hs_error h) (hs_resp0 h) x (hs_retries h) (hs_mmc h).
Definition set_hs_retry (x : Z) (h : sslsd_host) : sslsd_host :=
  Host (hs_pcmd h) (hs_sg h) (hs_sgn h) (hs_sgc h) (hs_sgofs h) x (hs_error h) (hs_resp0 h) (hs_bytes h) (hs_retries h) (hs_mmc h).
Definition set_hs_sg (sg ofs : Z) (h : sslsd_host) : sslsd_host :=
  Host (hs_pcmd h) sg (hs_sgn h) (hs_sgc h) ofs (hs_retry h) (hs_error h) (hs_resp0 h) (hs_bytes h) (hs_retries h) (hs_mmc h).
Definition set_hs_list (n c : Z) (h : sslsd_host) : sslsd_host :=
  Host (hs_pcmd h) (hs_sg h) n c (hs_sgofs h) (hs_retry h) (hs_error h) (hs_resp0 h) (hs_bytes h) (hs_retries h) (hs_mmc h).
Definition set_hs_pcmd (q : mmc_request) (h : sslsd_host) : sslsd_host :=
  Host q (hs_sg h) (hs_sgn h) (hs_sgc h) (hs_sgofs h) (hs_retry h) (hs_error h) (hs_resp0 h) (hs_bytes h) (hs_retries h) (hs_mmc h).
(** [cmd->retries--; cmd->error = 0;] *)
Definition once_more (h : sslsd_host) : sslsd_host :=
  Host (hs_pcmd h) (hs_sg h) (hs_sgn h) (hs_sgc h) (hs_sgofs h) (hs_retry h) 0 (hs_resp0 h) (hs_bytes h) (u32 (hs_retries h - 1)) (hs_mmc h).
(** A request comes with its retries, no error and, zeroed by its maker, no
    response and nothing transferred. *)
Definition hand_over (q : mmc_request) (h : sslsd_host) : sslsd_host :=
  Host (hs_pcmd h) (hs_sg h) (hs_sgn h) (hs_sgc h) (hs_sgofs h) (hs_retry h) 0 0 0 (mr_retries q) (hs_mmc h).

Class HostWorld (W : Type) := { host_of : W -> sslsd_host; set_host : sslsd_host -> W -> W }.
(** The addresses of [host->tcmd] and [host->tdat]. *)
Class HostAddr := { TCMD : Z; TDAT : Z }.
Class MmcCore (W : Type) := {
  mrq_done : M W unit;
  mmc_detect_change : M W unit;
  mmc_signal_sdio_irq : M W unit;
  start_timer : Z -> M W unit;
  stop_timer : M W unit;
  dma_map_sg : Z -> Z -> bool -> M W Z;
  dma_unmap_sg : Z -> Z -> bool -> M W unit }.

Definition sslsd_card_type (m : mmc_host) : Z :=
  if negb (mh_present m) then 0
  else Z.lor (if mh_sdio m then SSLSD_CARD_SDIO else 0) (if mh_blockaddr m then SSLSD_CARD_BLKADR else 0).

Definition rt_error (rt : Z) : Z :=
  if (rt =? SDHC_RET_TOUT) || (rt =? SDHC_RET_CMD_TOUT) || (rt =? SDHC_RET_DAT_TOUT) then - ETIMEDOUT
  else if (rt =? SDHC_RET_DAT_LINE) || (rt =? SDHC_RET_CMD_LINE) then - EILSEQ
  else if rt =? SDHC_RET_REM then - ENOMEDIUM
  else - EIO.

Definition resp_flag (k : mmc_rsp) : Z :=
  match k with
  | MMC_RSP_R1 => SDCMD_F_R1 | MMC_RSP_R1B => SDCMD_F_R1B | MMC_RSP_R2 => SDCMD_F_R2 | MMC_RSP_R3 => SDCMD_F_R3 | MMC_RSP_OTHER => 0 end.

Definition data_flag (dma : bool) (d : mmc_data) : Z :=
  Z.lor (Z.lor (Z.lor SDCMD_F_DAT (if md_write d then SDCMD_F_WR else 0))
    (if md_blocks d >? 1 then SDCMD_F_MULTI else 0)) (if dma then SDCMD_F_DMA else 0).

(** ** A request, up to what becomes of it in the core

    [request_done] is the core's [mmc_request_done]. *)
Section Request.
Context {W : Type} `{SdBus W} `{HostWorld W} `{HostAddr} `{MmcCore W}.
Notation G := (M (W * sd_state)).

Definition the_host : G sslsd_host := io (gets host_of).
Definition upd_host (f : sslsd_host -> sslsd_host) : G unit := io (modify (fun w => set_host (f (host_of w)) w)).
Definition set_arg (a : Z) (c : sd_cmd_t) : sd_cmd_t :=
  SdCmd a (c_rsp c) (c_ctx c) (c_rt c) (c_dat c) (c_tout c) (c_cmd c) (c_flag c).
Context (request_done : mmc_request -> G unit).
(** [cmd->error = -e; mmc_request_done(...)] *)
Definition fail_request (q : mmc_request) (e : Z) : G unit := upd_host (set_hs_error (- e)) ;; request_done q.

(** The entry [sg] of the list, from the offset [ofs] on, as the next transfer. *)
Definition sslsd_map (p : Z) (sgs : list scatterlist) (sg ofs : Z) : G unit :=
  let! e := assert_some OutOfBounds (arr_get sgs sg) in
  let! c := the_cmd p in
  let! d := the_dat (c_dat c) in
  let buf := if truth (Z.land (c_flag c) SDCMD_F_DMA) then sg_dma_address e else sg_virt e in
  let! n := udiv (u32 (sg_dma_len e - ofs)) (dat_blk d) in
  upd_dat (c_dat c) (fun d => SdDat (u32 (buf + ofs)) (u16 n) (dat_blk d) (dat_actual d)).

(** What becomes of a request after a transfer. *)
Inductive next_t := NextDone | NextResume | NextEntry.
Definition next_step (card actual count sg sgn : Z) : next_t :=
  if truth (Z.land card SSLSD_CARD_SDIO) then NextDone
  else if actual <? count then NextResume
  else if sg <? sgn then NextEntry
  else NextDone.

(** [l_done], of a request with data. *)
Definition unmap (c : sd_cmd_t) : G unit :=
  let! h := the_host in
  if truth (Z.land (c_flag c) SDCMD_F_DMA)
  then io (dma_unmap_sg (hs_sg h) (hs_sgc h) (truth (Z.land (c_flag c) SDCMD_F_WR))) else ret tt.

(** [l_next]: answers whether the request goes on. *)
Definition resubmit (p : Z) (sgs : list scatterlist) (card actual len : Z) : G bool :=
  let! h := the_host in
  upd_cmd p (fun c => set_arg (u32 (c_arg c + (if truth (Z.land card SSLSD_CARD_BLKADR) then actual else len))) c) ;;
  sslsd_map p sgs (hs_sg h) (hs_sgofs h) ;;
  let! rt := sdhc_cmd p in
  ret (negb (truth rt)).

(** The data part of [sslsd_cmd_done]; answers whether the request goes on. *)
Definition data_done (p : Z) (m : mmc_data) : G bool :=
  let! h := the_host in
  let! c := the_cmd p in
  let! d := the_dat (c_dat c) in
  let card := sslsd_card_type (hs_mmc h) in
  let actual := dat_actual d in
  if negb (truth actual) && (negb (truth (hs_retry h)) || truth (Z.land card SSLSD_CARD_SDIO))
  then unmap c ;; ret false
  else
    (if negb (truth actual) then upd_host (set_hs_retry 0) else ret tt) ;;
    upd_cmd p (set_rt 0) ;;
    let len := s32 (actual * dat_blk d) in
    upd_host (fun h => set_hs_bytes (u32 (hs_bytes h + len)) h) ;;
    let! again :=
      match next_step card actual (dat_count d) (hs_sg h) (hs_sgn h) with
      | NextDone => ret false
      | NextResume =>
          upd_host (fun h => set_hs_sg (hs_sg h) (s32 (hs_sgofs h + len)) h) ;;
          resubmit p (md_sg m) card actual len
      | NextEntry =>
          upd_host (fun h => set_hs_retry 1 (set_hs_sg (hs_sg h + 1) 0 h)) ;;
          resubmit p (md_sg m) card actual len
      end in
    if again then ret true else (let! c := the_cmd p in unmap c) ;; ret false.

Definition cmd_done_k (p : Z) : G unit :=
  io stop_timer ;;
  let! h := the_host in
  let! c := the_cmd p in
  let! again :=
    (if decide (mr_resp_type (hs_pcmd h) = MMC_RSP_R2) then ret false
     else
       upd_host (set_hs_resp0 (c_rsp c)) ;;
       match mr_data (hs_pcmd h) with Some m => data_done p m | None => ret false end) in
  if again then ret tt
  else
    let! c := the_cmd p in
    (if truth (c_rt c) then upd_host (set_hs_error (rt_error (c_rt c))) else ret tt) ;;
    request_done (hs_pcmd h).

(** The command, before its data. *)
Definition start_cmd (q : mmc_request) : G unit :=
  upd_cmd TCMD (fun c => SdCmd (mr_arg q) (c_rsp c) (c_ctx c) (c_rt c) (if decide (mr_resp_type q = MMC_RSP_R2) then TDAT else 0)
    (c_tout c) (u8 (mr_opcode q)) (c_flag c)) ;;
  (if decide (mr_resp_type q = MMC_RSP_R2)
   then upd_dat TDAT (fun d => SdDat (mr_resp q) (dat_count d) (dat_blk d) (dat_actual d)) else ret tt) ;;
  upd_host (set_hs_pcmd q).

Definition set_cmd_flag (f : Z) (c : sd_cmd_t) : sd_cmd_t :=
  SdCmd (c_arg c) (c_rsp c) (c_ctx c) (c_rt c) (c_dat c) (c_tout c) (c_cmd c) (u8 f).
Definition set_cmd_data (tout : Z) (c : sd_cmd_t) : sd_cmd_t :=
  SdCmd (c_arg c) (c_rsp c) (c_ctx c) (c_rt c) TDAT (u16 tout) (c_cmd c) (c_flag c).

(** The data of a request; answers whether it can be started. *)
Definition start_data (q : mmc_request) (d : mmc_data) : G bool :=
  if md_stream d then fail_request q EINVAL ;; ret false
  else
    let! t := the_t in
    let! h := the_host in
    let flag := Z.lor (resp_flag (mr_resp_type q)) (data_flag (h_fdma t) d) in
    upd_dat TDAT (fun x => SdDat (dat_buf x) (dat_count x) (u16 (md_blksz d)) (dat_actual x)) ;;
    let! k := udiv (md_timeout_clks d) (mh_clock (hs_mmc h) / 1000) in
    upd_cmd TCMD (set_cmd_data (u32 (md_timeout_ns d + 1000000 - 1) / 1000000 + k)) ;;
    let n := Z.of_nat (length (md_sg d)) in
    upd_host (fun h => set_hs_list (n - 1) n (set_hs_sg 0 0 h)) ;;
    let! ok :=
      (if truth (Z.land flag SDCMD_F_DMA) then
         let! count := io (dma_map_sg 0 n (truth (Z.land flag SDCMD_F_WR))) in
         if count =? 0 then fail_request q ENOMEM ;; ret false
         else
           (if negb (count =? n)
            then upd_host (fun h => set_hs_list (hs_sgn h - (n - count)) (hs_sgc h - (n - count)) h) else ret tt) ;;
           ret true
       else ret true) in
    if negb ok then ret false
    else
      upd_cmd TCMD (set_cmd_flag (if mr_stop q then Z.lor flag SDCMD_F_STOP else flag)) ;;
      sslsd_map TCMD (md_sg d) 0 0 ;;
      upd_host (set_hs_retry 1) ;;
      ret true.

Definition request_k (q : mmc_request) : G unit :=
  let! t := the_t in
  if negb (h_fins t) then fail_request q ENOMEDIUM
  else
    start_cmd q ;;
    let! ok := match mr_data q with
      | Some d => start_data q d
      | None => upd_cmd TCMD (set_cmd_flag (resp_flag (mr_resp_type q))) ;; ret true end in
    if negb ok then ret tt
    else
      io (start_timer 2) ;;
      let! rt := sdhc_cmd TCMD in
      if truth rt then cmd_done_k TCMD else ret tt.
End Request.

(** ** The driver and the core *)
Section Sslsd.
Context {W : Type} `{SdBus W} `{HostWorld W} `{HostAddr} `{MmcCore W}.
Notation G := (M (W * sd_state)).

(** [mmc_request_done], with [n] the retries left at most: a request that failed
    goes back to [host->ops->request].  (The host is not an SPI host: the driver
    sets no [MMC_CAP_SPI].) *)
Fixpoint request_done_n (n : nat) (q : mmc_request) : G unit :=
  let! h := the_host in
  if truth (hs_error h) && truth (hs_retries h) then
    match n with
    | O => crash OutOfFuel
    | S n' => upd_host once_more ;; request_k (request_done_n n') q
    end
  else io mrq_done.
Definition mmc_request_done (q : mmc_request) : G unit :=
  let! h := the_host in request_done_n (Z.to_nat (hs_retries h)) q.

Definition sslsd_cmd_done (p : Z) : G unit := cmd_done_k mmc_request_done p.
Definition sslsd_request (q : mmc_request) : G unit := request_k mmc_request_done q.

(** The core hands a request to the driver. *)
Definition mmc_start_request (q : mmc_request) : G unit := upd_host (hand_over q) ;; sslsd_request q.

Definition sslsd_evt (ctx ev : Z) : G unit :=
  if ev >? SDHC_EVT_MAX then sslsd_cmd_done ev
  else if (ev =? SDHC_EVT_INS) || (ev =? SDHC_EVT_REM) then io mmc_detect_change
  else if ev =? SDHC_EVT_IO then io mmc_signal_sdio_irq
  else ret tt.

(** The client of the controller. *)
Definition sslsd_client : SdClient W := {| sd_evt := sslsd_evt |}.

(** [vdd] is the bit number of the voltage, 0 power for off. *)
Definition sslsd_set_ios (clock power vdd : Z) (wide : bool) : G unit :=
  sdhc_set_clk (if truth clock then clock / 100000 else 0) ;;
  sdhc_set_pwr (if truth power then Z.shiftl 1 vdd else 0) ;;
  sdhc_set_width (if wide then 1 else 0).
Definition sslsd_get_ro : G bool := let! t := the_t in ret (h_fwp t).
Definition sslsd_enable_sdio_irq (enable : Z) : G unit := sdhc_ioirq_ena enable.
Context `{SdConfig}.
Definition sslsd_irq : G Z := @sdhc_isr W _ sslsd_client _.
Definition sslsd_tout : G unit := @sdhc_flush W _ sslsd_client.
End Sslsd.
