(* ===== verification/MagusSslsdSpec.v ===== *)
(** * What the SD card host driver does

    A request of the MMC core reaches the controller as a sequence of
    transfers, and a failed one comes back from the core as often as it has
    retries.  Whatever the controller reports of each transfer, the request ends,
    it is answered once, and the transfers of an attempt carry its blocks in
    order, each between its place on the card and its place in memory; the answer
    says whether the last attempt carried all of them. *)

From Stdlib Require Import ZArith Lia Bool.
From stdpp Require Import base numbers list gmap.
From S2P Require Import Prelude CMonad DevIO MagusSdhc MagusSdhcQuiet MagusSslsd.

(** What the kernel's functions do to the driver's host (nothing) and to the
    number of requests answered.  [idle_at w = Some r] says that the controller at
    [r] is found idle whenever it is asked.  [dma_map_sg] is the platform's: it maps
    the whole list or nothing. *)
Class SslsdLaws (W : Type) `{SdBus W} `{HostWorld W} `{MmcCore W} := {
  dones : W -> nat;
  idle_at : W -> option Z;
  seen (w : W) : sslsd_host * nat * option Z := (host_of w, dones w, idle_at w);
  idle_law r w : idle_at w = Some r -> Z.land (u32 (fst (sdb_rd B32 (r + sd_sta) w))) 3 = 0;
  seen_rd k a w : seen (snd (sdb_rd k a w)) = seen w;
  seen_wr k a d w : seen (sdb_wr k a d w) = seen w;
  seen_delay us w : seen (sdb_delay us w) = seen w;
  seen_set h w : seen (set_host h w) = (h, dones w, idle_at w);
  done_law w : exists w', mrq_done w = Done tt w' /\ seen w' = (host_of w, S (dones w), idle_at w);
  start_law k w : exists w', start_timer k w = Done tt w' /\ seen w' = seen w;
  stop_law w : exists w', stop_timer w = Done tt w' /\ seen w' = seen w;
  map_law i n b w : exists k w', dma_map_sg i n b w = Done k w' /\ (k = 0 \/ k = n) /\ seen w' = seen w;
  unmap_law i n b w : exists w', dma_unmap_sg i n b w = Done tt w' /\ seen w' = seen w }.
#[global] Instance sslsd_observed {W} `{SslsdLaws W} : Observed W (sslsd_host * nat * option Z) :=
  {| obs := seen; obs_rd := seen_rd; obs_wr := seen_wr; obs_delay := seen_delay |}.

Lemma rt_error_nz rt : rt_error rt <> 0.
Proof. unfold rt_error. by repeat case_match. Qed.

(** ** The blocks of a request *)
Section Blocks.
Context (blk unit : Z).

(** Where [n] blocks are, on the card from [a] on and in memory from [b] on. *)
Definition blocks (a b n : Z) : list (Z * Z) := (fun i => (u32 (a + unit * i), u32 (b + blk * i))) <$> seqZ 0 n.
Definition blks_of (e : scatterlist) : Z := sg_dma_len e / blk.
Context (dma : bool).
Definition base (e : scatterlist) : Z := if dma then sg_dma_address e else sg_virt e.
(** The blocks of a list, and of what is left of one, [t] blocks into [e]. *)
Fixpoint plan (a : Z) (l : list scatterlist) : list (Z * Z) :=
  match l with [] => [] | e :: l => blocks a (base e) (blks_of e) ++ plan (a + unit * blks_of e) l end.
Definition rest (e : scatterlist) (l : list scatterlist) (t a : Z) : list (Z * Z) :=
  blocks a (base e + blk * t) (blks_of e - t) ++ plan (a + unit * (blks_of e - t)) l.

Lemma length_blocks a b n : length (blocks a b n) = Z.to_nat n.
Proof. unfold blocks. by rewrite length_fmap, length_seqZ. Qed.
Lemma blocks_app a b n m : 0 <= n -> 0 <= m -> blocks a b (n + m) = blocks a b n ++ blocks (a + unit * n) (b + blk * n) m.
Proof.
  intros Hn Hm. unfold blocks. rewrite seqZ_app, fmap_app by done. f_equal. replace (0 + n) with (n + 0) by lia.
  rewrite <- fmap_add_seqZ, <- list_fmap_compose. apply list_fmap_ext. intros i x _. cbn. do 2 f_equal; lia.
Qed.
Lemma u32_add_l x y : u32 (u32 x + y) = u32 (x + y).
Proof. unfold u32. by rewrite Zplus_mod_idemp_l. Qed.
Lemma u32_s32 x y : u32 (x + s32 y) = u32 (x + y).
Proof. unfold s32, u32. rewrite Z.add_sub_assoc, <- Zminus_mod_idemp_l, Zplus_mod_idemp_r, Zminus_mod_idemp_l. f_equal. lia. Qed.
Lemma blocks_u32 a b n : blocks (u32 a) (u32 b) n = blocks a b n.
Proof. apply list_fmap_ext. intros i x _. by rewrite !u32_add_l. Qed.

Lemma rest_within e l t a n : 0 <= n -> t + n <= blks_of e ->
  rest e l t a = blocks a (base e + blk * t) n ++ rest e l (t + n) (a + unit * n).
Proof.
  intros Hn Ht. unfold rest. replace (blks_of e - t) with (n + (blks_of e - (t + n))) by lia.
  rewrite blocks_app, <- app_assoc by lia. do 2 f_equal; [|f_equal; lia]. f_equal; lia.
Qed.
Lemma rest_next e e' l t a : rest e (e' :: l) t a = blocks a (base e + blk * t) (blks_of e - t) ++ rest e' l 0 (a + unit * (blks_of e - t)).
Proof. unfold rest. cbn [plan]. by rewrite Z.mul_0_r, Z.add_0_r, Z.sub_0_r. Qed.
Lemma rest_last e t a : rest e [] t a = blocks a (base e + blk * t) (blks_of e - t).
Proof. unfold rest. by rewrite app_nil_r. Qed.
Lemma rest_plan a e l : rest e l 0 a = plan a (e :: l).
Proof. unfold rest. cbn [plan]. by rewrite Z.mul_0_r, Z.add_0_r, Z.sub_0_r. Qed.
Lemma rest_length e l t a : t < blks_of e -> (0 < length (rest e l t a))%nat.
Proof. intros Ht. unfold rest. rewrite length_app, length_blocks. lia. Qed.
End Blocks.

(** ** What the controller reports

    The controller driver says of a transfer how many of its blocks were
    carried and with what result; its slots are then empty ([MagusSdhc]).
    [(arg, buf, n)] is a transfer of [n] blocks. *)
Section Runs.
Context {W : Type} `{SdBus W} `{HostWorld W} `{HostAddr} `{MmcCore W}.
Notation G := (M (W * sd_state)).

Definition report (a rt : Z) : G (Z * Z * Z) :=
  let! c := the_cmd TCMD in
  let! d := the_dat TDAT in
  let n := Z.max 0 (Z.min a (dat_count d)) in
  upd_dat TDAT (set_actual n) ;;
  upd_cmd TCMD (set_rt rt) ;;
  upd_t (on_t (set_slots 0 0)) ;;
  sslsd_evt 0 TCMD ;;
  ret (c_arg c, dat_buf d, n).
Fixpoint transfers (l : list (Z * Z)) : G (list (Z * Z * Z)) :=
  match l with
  | [] => ret []
  | (a, rt) :: l =>
      let! s := get_t in
      match pending s with
      | [] => ret []
      | _ => let! v := report a rt in let! vs := transfers l in ret (v :: vs)
      end
  end.
Definition carry (q : mmc_request) (l : list (Z * Z)) : G (list (Z * Z * Z)) := mmc_start_request q ;; transfers l.
End Runs.
Definition carried (blk unit : Z) (v : Z * Z * Z) : list (Z * Z) := blocks blk unit (fst (fst v)) (snd (fst v)) (snd v).

(** ** What taking a command leaves as it was

    Taking a command fills the slots, notes results in commands, and clears the
    count of its data. *)
Section Stable.
Context {W : Type} {B : SdBus W} (P : sd_state -> Prop).
Notation G := (M (W * sd_state)).
Context (P_slots : forall p s, P s -> P (on_t (fun t => set_slots p (h_dat t) t) s)) (P_cmd : forall p f s, P s -> P (on_cmd p f s))
  (P_zero : forall p s, P s -> P (on_dat p (set_actual 0) s)).
Definition pres {A} (m : G A) : Prop := forall x a y, m x = Done a y -> P (snd x) -> P (snd y).

Lemma pres_ret {A} (a : A) : pres (ret a).
Proof. by intros x b y [= <- <-]. Qed.
Lemma pres_bind {A D} (m : G A) (k : A -> G D) : pres m -> (forall a, pres (k a)) -> pres (bind m k).
Proof using. intros Hm Hk x b y E Hx. unfold bind in E. destruct (m x) as [a z|] eqn:Em; [|done]. eapply Hk; [exact E|]. by eapply Hm. Qed.
Lemma pres_if {A} (b : bool) (m1 m2 : G A) : pres m1 -> pres m2 -> pres (if b then m1 else m2).
Proof using. by destruct b. Qed.
Lemma pres_get : pres (get_t (W := W) (T := sd_state)).
Proof using. by intros x b y [= <- <-]. Qed.
Lemma pres_assert {A} e (o : option A) : pres (assert_some e o).
Proof using. intros x b y E. destruct o; by inversion E. Qed.
Lemma pres_io {A} (m : M W A) : pres (io m).
Proof using. intros [w s] b [w' s'] E. unfold io, zoom in E. cbn in E. destruct (m w); by inversion E. Qed.
Lemma pres_slots p : pres (upd_t (W := W) (on_t (fun t => set_slots p (h_dat t) t))).
Proof using P_slots. intros [w s] c y [= <- <-]. apply P_slots. Qed.
Lemma pres_on_cmd p f : pres (upd_t (W := W) (on_cmd p f)).
Proof using P_cmd. intros [w s] b y [= <- <-]. apply P_cmd. Qed.
Lemma pres_on_dat p : pres (upd_t (W := W) (on_dat p (set_actual 0))).
Proof using P_zero. intros [w s] b y [= <- <-]. apply P_zero. Qed.
Hint Resolve pres_ret pres_bind pres_if pres_get pres_assert pres_io pres_slots pres_on_cmd pres_on_dat : pres.
Lemma pres_poll n i read stop : pres read -> pres (poll n i read stop).
Proof using. intros Hr. revert i. induction n as [|n IH]; intros i; cbn [poll]; auto with pres. Qed.
Hint Resolve pres_poll : pres.
Lemma pres_rd k off : pres (rd k off).
Proof using. unfold rd. auto with pres. Qed.
Lemma pres_wr k off d : pres (wr k off d).
Proof using. unfold wr. auto with pres. Qed.
Lemma pres_the_t : pres the_t.
Proof using. unfold the_t. auto with pres. Qed.
Lemma pres_the_cmd p : pres (the_cmd p).
Proof using. unfold the_cmd. auto with pres. Qed.
Lemma pres_the_dat p : pres (the_dat p).
Proof using. unfold the_dat. auto with pres. Qed.
Hint Resolve pres_rd pres_wr pres_the_t pres_the_cmd pres_the_dat : pres.
Lemma pres_upd_cmd p f : pres (upd_cmd p f).
Proof using P_cmd. unfold upd_cmd. auto with pres. Qed.
Lemma pres_tout ms : pres (sdhc_tout ms).
Proof using. unfold sdhc_tout. auto with pres. Qed.
Hint Resolve pres_upd_cmd pres_tout : pres.
Lemma pres_fail p rt : pres (fail_cmd p rt).
Proof using P_cmd. unfold fail_cmd. auto with pres. Qed.
Lemma pres_prepare v c : pres (prepare_data v c).
Proof using P_zero.
  unfold prepare_data, upd_dat. apply pres_bind; [auto with pres|]. intros _. apply pres_bind; [auto with pres|].
  intros d. apply pres_if; auto 10 with pres.
Qed.
Hint Resolve pres_fail pres_prepare : pres.
Lemma pres_cmd p : pres (sdhc_cmd p).
Proof using All.
  apply pres_bind; [auto with pres|]. intros t. apply pres_bind; [auto with pres|]. intros c.
  apply pres_if; [auto with pres|]. cbv zeta. apply pres_bind; [apply pres_poll; auto with pres|]. intros i.
  apply pres_if; [auto with pres|]. apply pres_bind; [auto with pres|]. intros [rt|]; auto 10 with pres.
Qed.
End Stable.

(** So a command leaves no count that was not there, and the context but for
    the slots. *)
Definition unmoved (q : Z) (s : sd_state) : Prop := forall d, st_dats s !! q = Some d -> dat_actual d = 0.
Lemma unmoved_cmd {W} {B : SdBus W} q p (x : W * sd_state) rt y : sdhc_cmd p x = Done rt y -> unmoved q (snd x) -> unmoved q (snd y).
Proof.
  apply pres_cmd; try done. intros p' s Hs d. cbn. destruct (decide (p' = q)) as [->|].
  - rewrite lookup_alter_eq. destruct (st_dats s !! q); [|done]. by intros [= <-].
  - rewrite lookup_alter_ne by done. apply Hs.
Qed.
Lemma fdma_cmd {W} {B : SdBus W} p (x : W * sd_state) rt y : sdhc_cmd p x = Done rt y -> h_fdma (st_t (snd y)) = h_fdma (st_t (snd x)).
Proof. intros E. by apply (pres_cmd (fun s => h_fdma (st_t s) = h_fdma (st_t (snd x))) ltac:(done) ltac:(done) ltac:(done) p x rt y E). Qed.

Section Spec.
Context {W : Type} {B : SdBus W} {HW : HostWorld W} {Ad : HostAddr} {K : MmcCore W} {L : SslsdLaws W}.
Implicit Types (w : W) (s : sd_state) (x y : W * sd_state).
Notation G := (M (W * sd_state)).
Notation host x := (host_of (fst x)).

Lemma the_host_run x (Q : sslsd_host -> W * sd_state -> Prop) : Q (host x) x -> wp the_host Q x.
Proof. by destruct x. Qed.
(** A call of the kernel. *)
Lemma kernel_run {A} (m : M W A) a w x (Q : A -> W * sd_state -> Prop) :
  m (fst x) = Done a w -> Q a (w, snd x) -> wp (io m) Q x.
Proof. destruct x as [w0 s]. intros E HQ. apply wp_io. unfold wp. cbn in E. by rewrite E. Qed.
(** A step that leaves the driver's state alone. *)
Lemma pass_run {A D} (m1 : G A) (k : A -> G D) (Q : D -> W * sd_state -> Prop) x : still (T := sslsd_host * nat * option Z) m1 ->
  (forall a y, snd y = snd x -> wp (k a) Q y) -> wp (bind m1 k) Q x.
Proof. intros Hm Hk. apply wp_bind. eapply wp_mono; [apply Hm|]. cbn beta. intros a y [E _]. by apply Hk. Qed.

(** The driver's command and its data are there. *)
Definition counted s : Prop := exists d, st_dats s !! TDAT = Some d /\ 0 <= dat_actual d.
Definition cells s : Prop := is_Some (st_cmds s !! TCMD) /\ counted s.
Lemma counted_heap s s' : same_heap s s' -> counted s -> counted s'.
Proof. intros [_ Hds] (d & Hd & Ha). destruct (Hds _ d Hd) as (d' & Hd' & _ & _ & _ & Hk). exists d'. auto. Qed.
Lemma cells_heap s s' : same_heap s s' -> cells s -> cells s'.
Proof. intros Hh [[c Hc] Hd]. split; [|by eapply counted_heap]. destruct Hh as [Hcs _]. destruct (Hcs _ c Hc) as (c' & Hc' & _). by eexists. Qed.
Lemma cells_cmd p g s : cells s -> cells (on_cmd p g s).
Proof. intros [Hc Hd]. split; [cbn; by apply lookup_alter_is_Some|exact Hd]. Qed.
Lemma cells_dat p g s : (forall d, 0 <= dat_actual d -> 0 <= dat_actual (g d)) -> cells s -> cells (on_dat p g s).
Proof.
  intros Hg [Hc (d & Hd & Ha)]. split; [exact Hc|]. unfold counted. cbn. destruct (decide (p = TDAT)) as [->|].
  - rewrite lookup_alter_eq, Hd. eexists. split; [done|]. by apply Hg.
  - rewrite lookup_alter_ne by done. eauto.
Qed.
Lemma on_cmd_same c g s : st_cmds s !! TCMD = Some c -> st_cmds (on_cmd TCMD g s) !! TCMD = Some (g c).
Proof. intros Hc. cbn. by rewrite lookup_alter_eq, Hc. Qed.
Lemma on_dat_same d g s : st_dats s !! TDAT = Some d -> st_dats (on_dat TDAT g s) !! TDAT = Some (g d).
Proof. intros Hc. cbn. by rewrite lookup_alter_eq, Hc. Qed.

(** ** One attempt

    [j] are the retries left, [d0] the requests answered before; [rd] is what
    the driver calls at its end, and makes of the [n] blocks carried, all or
    not, what [Fin] says; [sound] says that the command can be
    submitted at its start. *)
Section Attempt.
Context (q : mmc_request) (m : mmc_data) (f blk : Z) (mmc : mmc_host) (r : Z) (fd : bool) (idl : option Z) (d0 j : nat) (sound : Prop).
Notation sgs := (md_sg m).
Notation dma := (truth (Z.land f SDCMD_F_DMA)).
Notation card := (sslsd_card_type mmc).
Notation unit := (if truth (Z.land card SSLSD_CARD_BLKADR) then 1 else blk).
Notation nblk := (blks_of blk).
Notation base := (base dma).
Notation rest := (rest blk unit dma).

(** What an attempt leaves as it is. *)
Definition steady x : Prop :=
  (hs_mmc (host x) = mmc /\ hs_retries (host x) = Z.of_nat j) /\ (dones (fst x) = d0 /\ idle_at (fst x) = idl) /\
  (h_r (st_t (snd x)) = r /\ h_fdma (st_t (snd x)) = fd) /\ cells (snd x).
Lemma steady_set h x : hs_mmc h = mmc -> hs_retries h = Z.of_nat j -> dones (fst x) = d0 /\ idle_at (fst x) = idl ->
  h_r (st_t (snd x)) = r /\ h_fdma (st_t (snd x)) = fd -> cells (snd x) -> steady (set_host h (fst x), snd x).
Proof.
  intros Hm Hr Hd Ht Hc. pose proof (seen_set h (fst x)) as Hs. unfold seen in Hs. injection Hs as E1 E2 E3.
  unfold steady. cbn [fst snd]. rewrite E1, E2, E3. exact (conj (conj Hm Hr) (conj Hd (conj Ht Hc))).
Qed.
Lemma steady_seen w x : steady x -> seen w = seen (fst x) -> steady (w, snd x).
Proof. unfold seen. intros (H1 & H2 & H3) [= E1 E2 E3]. unfold steady. cbn [fst snd]. by rewrite E1, E2, E3. Qed.
Lemma steady_state w s s' : steady (w, s) -> st_t s' = st_t s -> cells s' -> steady (w, s').
Proof. intros (H1 & H2 & H3 & _) E Hc. unfold steady. cbn [fst snd] in *. by rewrite E. Qed.
Lemma steady_cmd p g x : steady x -> steady (fst x, on_cmd p g (snd x)).
Proof. destruct x as [w s]. intros Hx. apply (steady_state w s); [done|done|]. apply cells_cmd, Hx. Qed.
Lemma steady_dat p g x : (forall d, 0 <= dat_actual d -> 0 <= dat_actual (g d)) -> steady x -> steady (fst x, on_dat p g (snd x)).
Proof. destruct x as [w s]. intros Hg Hx. apply (steady_state w s); [done|done|]. apply cells_dat, Hx. done. Qed.
Lemma upd_host_run g x (Q : Datatypes.unit -> W * sd_state -> Prop) : steady x ->
  hs_mmc (g (host x)) = hs_mmc (host x) -> hs_retries (g (host x)) = hs_retries (host x) ->
  (forall w, host_of w = g (host x) -> steady (w, snd x) -> Q tt (w, snd x)) -> wp (upd_host g) Q x.
Proof.
  destruct x as [w s]. intros (H1 & H2 & H3) Hm Hr HQ. apply wp_io, wp_modify. cbn [fst snd] in *.
  pose proof (seen_set (g (host_of w)) w) as Hs. unfold seen in Hs. injection Hs as E1 E2 E3. apply HQ; [done|].
  unfold steady. cbn [fst snd]. by rewrite E1, E2, E3, Hm, Hr.
Qed.
Lemma stop_run x (Q : Datatypes.unit -> W * sd_state -> Prop) : steady x ->
  (forall w, host_of w = host x -> steady (w, snd x) -> Q tt (w, snd x)) -> wp (io stop_timer) Q x.
Proof.
  intros Hx HQ. destruct (stop_law (fst x)) as (w & E & El). apply (kernel_run _ _ _ _ _ E), HQ; [|by apply steady_seen].
  unfold seen in El. by injection El.
Qed.
Lemma start_run k x (Q : Datatypes.unit -> W * sd_state -> Prop) : steady x ->
  (forall w, host_of w = host x -> steady (w, snd x) -> Q tt (w, snd x)) -> wp (io (start_timer k)) Q x.
Proof.
  intros Hx HQ. destruct (start_law k (fst x)) as (w & E & El). apply (kernel_run _ _ _ _ _ E), HQ; [|by apply steady_seen].
  unfold seen in El. by injection El.
Qed.
Lemma unmap_run c x (Q : Datatypes.unit -> W * sd_state -> Prop) : steady x ->
  (forall w, host_of w = host x -> steady (w, snd x) -> Q tt (w, snd x)) -> wp (unmap c) Q x.
Proof.
  intros Hx HQ. apply wp_bind, the_host_run. destruct (truth _).
  - destruct (unmap_law (hs_sg (host x)) (hs_sgc (host x)) (truth (Z.land (c_flag c) SDCMD_F_WR)) (fst x)) as (w & E & El).
    apply (kernel_run _ _ _ _ _ E), HQ; [|by apply steady_seen]. unfold seen in El. by injection El.
  - destruct x as [w s]. apply wp_ret. by apply HQ.
Qed.
(** A command is taken, or refused and noted why. *)
Definition cmd_taken x (rt : Z) y : Prop :=
  host y = host x /\ steady y /\ (forall p, cmd_ok (snd x) p -> cmd_ok (snd y) p) /\ same_heap (snd x) (snd y) /\
  pending (snd y) = (if rt =? 0 then [TCMD] else []) /\ h_dat (st_t (snd y)) = 0 /\
  (unmoved TDAT (snd x) -> unmoved TDAT (snd y)) /\ exists c, st_cmds (snd y) !! TCMD = Some c /\ c_rt c = rt.
Lemma take_run x (addr_ok : SDHC_EVT_MAX < TCMD) : steady x -> pending (snd x) = [] -> cmd_ok (snd x) TCMD -> wp (sdhc_cmd TCMD) (cmd_taken x) x.
Proof.
  intros Hx Hp Hok. pose proof (sdhc_cmd_run (T := sslsd_host * nat * option Z) TCMD x Hp Hok) as Hrun.
  apply wp_run in Hrun as (rt & y & E & Eo & Er & Hoks & Hd & Hc & Hh & Hcy). unfold wp. rewrite E.
  pose proof (fdma_cmd _ _ _ _ E) as Ef. pose proof (unmoved_cmd TDAT _ _ _ _ E) as Hun.
  assert (Eo' : seen (fst y) = seen (fst x)) by exact Eo. unfold seen in Eo'. injection Eo' as E1 E2 E3.
  assert (Hy : steady y).
  { destruct Hx as (H1 & H2 & H3 & Hcl). unfold steady. rewrite E1, E2, E3, Er, Ef. refine (conj H1 (conj H2 (conj H3 _))). by eapply cells_heap. }
  unfold cmd_taken. split_and!; try done. unfold pending. rewrite Hd, Hc. destruct (rt =? 0); [|done].
  by rewrite (proj2 (Z.eqb_neq TCMD 0)) by (unfold SDHC_EVT_MAX in *; lia).
Qed.

(** An entry the counter of the controller can hold. *)
Definition entry_ok (e : scatterlist) : Prop := 0 <= sg_dma_len e < 2 ^ 31 /\ 0 < nblk e < 2 ^ 16.
Context (blk_ok : 0 < blk) (addr_ok : SDHC_EVT_MAX < TCMD) (sgs_ok : Forall entry_ok sgs).
Context (data : mr_data q = Some m) (short : mr_resp_type q <> MMC_RSP_R2).

(** The command and its data as the next transfer, [t] blocks into [e]. *)
Definition asks (e : scatterlist) (t a : Z) s : Prop :=
  (exists c, st_cmds s !! TCMD = Some c /\ c_flag c = f /\ c_dat c = TDAT /\ c_arg c = u32 a) /\
  exists d, st_dats s !! TDAT = Some d /\ dat_blk d = blk /\ dat_buf d = u32 (base e + blk * t) /\ dat_count d = nblk e - t.
(** The host at [t] blocks into entry [k], [n] blocks carried. *)
Definition host_at (k : nat) (t retry n : Z) (h : sslsd_host) : Prop :=
  hs_pcmd h = q /\ hs_error h = 0 /\ hs_sg h = Z.of_nat k /\ hs_sgn h = Z.of_nat (length sgs) - 1 /\
  hs_sgofs h = blk * t /\ hs_retry h = retry /\ hs_bytes h = u32 (blk * n).
Definition serves (e : scatterlist) (l : list scatterlist) (t retry a n : Z) x : Prop :=
  steady x /\ exists k, drop k sgs = e :: l /\ 0 <= t < nblk e /\ 0 <= retry <= 1 /\ host_at k t retry n (host x) /\ asks e t a (snd x).
(** The attempt is over, [n] blocks carried. *)
Definition ended (n : Z) (ok : Prop) x : Prop :=
  steady x /\ pending (snd x) = [] /\ hs_bytes (host x) = u32 (blk * n) /\ (hs_error (host x) = 0 <-> ok) /\ (sound -> cmd_ok (snd x) TCMD).

Lemma asks_ok e t a s : asks e t a s -> cmd_ok s TCMD.
Proof.
  intros ((c & Hc & _ & Ed & _) & d & Hd & Eb & _). split; [done|]. exists c. split; [done|]. intros _. exists d. rewrite Ed. split; [done|lia].
Qed.
Lemma asks_same e t a s s' : asks e t a s -> same_heap s s' -> asks e t a s'.
Proof.
  intros ((c & Hc & Ef & Ed & Ea) & d & Hd & Eb & Ebuf & Ec) [H1 H2].
  destruct (H1 _ c Hc) as (c' & Hc' & F1 & F2 & F3). destruct (H2 _ d Hd) as (d' & Hd' & G1 & G2 & G3 & _).
  split; [exists c'|exists d']; split_and!; congruence.
Qed.
Lemma drop_entry k e l : drop k sgs = e :: l -> sgs !! k = Some e /\ entry_ok e.
Proof.
  intros Hd. assert (Hk : sgs !! k = Some e) by (rewrite <- (Nat.add_0_r k), <- lookup_drop, Hd; done). split; [done|].
  rewrite Forall_lookup in sgs_ok. by eapply sgs_ok.
Qed.
Lemma drop_next k e l : drop k sgs = e :: l -> drop (S k) sgs = l /\ (l = [] <-> Z.of_nat k = Z.of_nat (length sgs) - 1).
Proof.
  intros Hd. replace (S k) with (k + 1)%nat by lia. rewrite <- drop_drop, Hd. split; [done|].
  pose proof (f_equal length Hd) as El. rewrite length_drop in El. cbn in El. destruct l; cbn in *; split; (done || lia).
Qed.
(** Places in an entry are [int]s. *)
Lemma s32_ofs e t : entry_ok e -> 0 <= t <= nblk e -> s32 (blk * t) = blk * t.
Proof.
  intros [Hlen _] Ht. assert (0 <= blk * t < 2 ^ 31).
  { unfold blks_of in Ht. pose proof (Z.mul_div_le (sg_dma_len e) blk blk_ok). nia. }
  unfold s32. rewrite Z.mod_small; lia.
Qed.

(** The map of an entry. *)
Lemma map_run k e l t a c d x (Q : Datatypes.unit -> W * sd_state -> Prop) : steady x -> drop k sgs = e :: l -> 0 <= t < nblk e ->
  st_cmds (snd x) !! TCMD = Some c -> c_flag c = f -> c_dat c = TDAT -> c_arg c = u32 a ->
  st_dats (snd x) !! TDAT = Some d -> dat_blk d = blk ->
  (forall y, fst y = fst x -> asks e t a (snd y) -> st_t (snd y) = st_t (snd x) -> steady y ->
    (unmoved TDAT (snd x) -> unmoved TDAT (snd y)) -> Q tt y) ->
  wp (sslsd_map TCMD sgs (Z.of_nat k) (blk * t)) Q x.
Proof.
  intros Hx Hk Ht Hc Hf Hcd Ha Hd Hb HQ. destruct (drop_entry k e l Hk) as [Hl [Hlen Hn]].
  apply wp_bind, wp_assert_some. exists e. rewrite arr_get_nat. split; [done|].
  apply wp_bind, (the_cmd_run _ c); [done|]. rewrite Hcd. apply wp_bind, (the_dat_run _ d); [done|].
  assert (Hle : 0 <= sg_dma_len e - blk * t < 2 ^ 32).
  { unfold blks_of in *. pose proof (Z.mul_div_le (sg_dma_len e) blk blk_ok). nia. }
  rewrite (u32_id (sg_dma_len e - _)) by exact Hle. apply wp_bind, wp_udiv; [lia|]. rewrite Hb.
  assert (Ediv : (sg_dma_len e - blk * t) / blk = nblk e - t).
  { unfold blks_of. replace (sg_dma_len e - blk * t) with (sg_dma_len e + (- t) * blk) by lia. rewrite Z.div_add by lia. lia. }
  rewrite Ediv, Hf, (u16_id (nblk e - t)) by (unfold in_u16; lia). apply (upd_dat_run _ _ d); [done|]. apply HQ; [done| |done| |].
  - split; [by exists c|]. eexists. by split; [by apply on_dat_same|].
  - by apply steady_dat.
  - intros Hun d' Hd'. cbn in Hd'. rewrite lookup_alter_eq, Hd in Hd'. injection Hd' as <-. by apply (Hun d).
Qed.

Definition submitted e t a x (b : bool) (y : W * sd_state) : Prop :=
  host y = host x /\ steady y /\ asks e t a (snd y) /\ (exists c, st_cmds (snd y) !! TCMD = Some c /\ (b = false -> c_rt c <> 0)) /\
  pending (snd y) = (if b then [TCMD] else []) /\ h_dat (st_t (snd y)) = 0.
Lemma resubmit_run k e l t a v c d x : steady x -> drop k sgs = e :: l -> 0 <= t < nblk e ->
  hs_sg (host x) = Z.of_nat k -> hs_sgofs (host x) = blk * t ->
  st_cmds (snd x) !! TCMD = Some c -> c_flag c = f -> c_dat c = TDAT -> c_arg c = u32 a ->
  st_dats (snd x) !! TDAT = Some d -> dat_blk d = blk -> pending (snd x) = [] ->
  wp (resubmit TCMD sgs card v (s32 (v * blk))) (submitted e t (a + unit * v) x) x.
Proof.
  intros Hx Hk Ht Hsg Hofs Hc Hf Hcd Ha Hd Hb Hp. apply wp_bind, the_host_run, wp_bind, (upd_cmd_run _ _ c); [done|].
  rewrite Hsg, Hofs. apply wp_bind.
  eapply (map_run k e l t (a + unit * v)); [by apply steady_cmd|done|done|by apply on_cmd_same|done|done| |exact Hd|done|].
  - cbn. rewrite Ha, u32_add_l. destruct (truth (Z.land card SSLSD_CARD_BLKADR)); [by rewrite Z.mul_1_l|].
    by rewrite u32_s32, Z.mul_comm.
  - intros y Ey Hy Ety Hsy _. cbn [fst snd] in *. apply wp_bind.
    eapply wp_mono; [apply (take_run y addr_ok Hsy); [unfold pending; rewrite Ety; exact Hp|by eapply asks_ok]|].
    cbn beta. intros rt z (Ez & Hsz & _ & Hh & Hpz & Hdz & _ & c' & Hc' & Hrt). apply wp_ret. unfold submitted, truth.
    split_and!; [by rewrite Ez, Ey|done|by eapply asks_same|exists c'; split; [done|]|by rewrite Hpz; destruct (rt =? 0)|done].
    destruct (Z.eqb_spec rt 0); [done|]. by rewrite Hrt.
Qed.

Lemma tail_run (b : bool) y (Q : bool -> W * sd_state -> Prop) : steady y ->
  (b = true -> Q true y) -> (b = false -> forall w, host_of w = host y -> steady (w, snd y) -> Q false (w, snd y)) ->
  wp (if b then ret true else (let! c := the_cmd TCMD in unmap c) ;; ret false) Q y.
Proof.
  intros Hy H1 H2. destruct b; [by apply wp_ret, H1|]. pose proof Hy as (_ & _ & _ & [c Hc] & _).
  apply wp_bind, wp_bind, (the_cmd_run _ c); [done|]. apply unmap_run; [done|]. intros w Hw Hs. apply wp_ret. by apply H2.
Qed.

(** ** The answer to a transfer *)
Context (rd : mmc_request -> G Datatypes.unit) (Fin : Z -> Prop -> W * sd_state -> Prop)
  (rd_fin : forall n ok x, ended n ok x -> wp (rd q) (fun _ y => Fin n ok y) x).

(** The controller tells the count of blocks it carried, or an error. *)
Definition fits (e : scatterlist) (t v rt : Z) : Prop := truth (Z.land card SSLSD_CARD_SDIO) = false /\ v <= nblk e - t /\ (v = 0 -> rt <> 0).
(** What is known of a command the driver has from the controller back. *)
Definition gone_on (e : scatterlist) (l : list scatterlist) (t retry a n v rt : Z) x : Prop :=
  exists e' l' t' retry', serves e' l' t' retry' (a + unit * v) (n + v) x /\ pending (snd x) = [TCMD] /\ h_dat (st_t (snd x)) = 0 /\
    (fits e t v rt -> rest e l t a = blocks blk unit a (base e + blk * t) v ++ rest e' l' t' (a + unit * v) /\ (0 < v \/ retry' < retry)).
Definition all_carried (e : scatterlist) (l : list scatterlist) (t a v rt : Z) (ok : Prop) : Prop :=
  fits e t v rt -> (exists tl, rest e l t a = blocks blk unit a (base e + blk * t) v ++ tl) /\
    (ok <-> rest e l t a = blocks blk unit a (base e + blk * t) v).
Definition stopped (e : scatterlist) (l : list scatterlist) (t a n v rt : Z) x : Prop :=
  steady x /\ pending (snd x) = [] /\ hs_bytes (host x) = u32 (blk * (n + v)) /\ hs_error (host x) = 0 /\ cmd_ok (snd x) TCMD /\
  exists c, st_cmds (snd x) !! TCMD = Some c /\ all_carried e l t a v rt (c_rt c = 0).

(** The next transfer is asked for: the attempt goes on, or stops there. *)
Lemma go_run k e' l' t' retry' e l t retry a n v rt c d z : steady z -> drop k sgs = e' :: l' -> 0 <= t' < nblk e' -> 0 <= retry' <= 1 ->
  host_at k t' retry' (n + v) (host z) -> st_cmds (snd z) !! TCMD = Some c -> c_flag c = f -> c_dat c = TDAT -> c_arg c = u32 a ->
  st_dats (snd z) !! TDAT = Some d -> dat_blk d = blk -> pending (snd z) = [] ->
  (fits e t v rt -> rest e l t a = blocks blk unit a (base e + blk * t) v ++ rest e' l' t' (a + unit * v) /\ (0 < v \/ retry' < retry)) ->
  wp (resubmit TCMD sgs card v (s32 (v * blk))) (fun b => wp (if b then ret true else (let! c := the_cmd TCMD in unmap c) ;; ret false)
    (fun b y => if b then gone_on e l t retry a n v rt y else stopped e l t a n v rt y)) z.
Proof.
  intros Hz Hk Ht Hr Hh Hc Hf Hcd Ha Hd Hb Hp Hrest. pose proof Hh as (_ & He & Hsg & _ & Hofs & _ & Hby).
  eapply wp_mono; [by eapply (resubmit_run k e' l' t' a v c d)|]. cbn beta. intros b y (Ey & Hsy & Hy & (c' & Hc' & Hrt) & Hpy & Hdy).
  apply tail_run; [done| |]; intros ->.
  - exists e', l', t', retry'. split_and!; [|done|done|done]. split; [done|]. exists k. rewrite Ey. exact (conj Hk (conj Ht (conj Hr (conj Hh Hy)))).
  - intros w Ew Hsw. unfold stopped. cbn [fst snd]. rewrite Ew, Ey. split_and!; [done|done|done|done|by eapply asks_ok|].
    exists c'. split; [done|]. intros [Hall _]%Hrest. split; [by eexists|]. split; [intros E; by specialize (Hrt eq_refl)|]. intros E. exfalso. rewrite Hall in E.
    apply (f_equal length) in E. rewrite length_app in E. pose proof (rest_length blk unit dma e' l' t' (a + unit * v) ltac:(lia)). lia.
Qed.

Lemma data_done_run e l t retry a n v rt c d x : serves e l t retry a n x -> pending (snd x) = [] ->
  st_cmds (snd x) !! TCMD = Some c -> c_rt c = rt -> st_dats (snd x) !! TDAT = Some d -> dat_actual d = v -> 0 <= v ->
  wp (data_done TCMD m) (fun b y => if b then gone_on e l t retry a n v rt y else stopped e l t a n v rt y) x.
Proof.
  intros (Hx & k & Hk & Ht & Hr & Hh & Has) Hp Hc Hrt Hd Hv Hvr. pose proof (asks_ok _ _ _ _ Has) as Hok. pose proof Has as Has0.
  destruct Has as ((c' & Hc' & Hf & Hcd & Ha) & d' & Hd' & Hb & Hbuf & Hcnt).
  assert (c' = c) as -> by congruence. assert (d' = d) as -> by congruence. clear Hc' Hd'.
  destruct Hh as (Hq & He & Hsg & Hsgn & Hofs & Hre & Hby). destruct (drop_next k e l Hk) as [Hnext Hlast].
  destruct (drop_entry k e l Hk) as [_ Heok]. pose proof Hx as [[Hm _] _].
  apply wp_bind, the_host_run, wp_bind, (the_cmd_run _ c); [done|]. rewrite Hcd. apply wp_bind, (the_dat_run _ d); [done|].
  cbv zeta. rewrite Hv, Hre, Hm, Hsg, Hsgn, Hcnt.
  destruct (negb (truth v) && (negb (truth retry) || truth (Z.land card SSLSD_CARD_SDIO))) eqn:E0.
  { apply andb_true_iff in E0 as [E0 _]. unfold truth in E0. zbool. assert (v = 0) as -> by lia.
    apply wp_bind, unmap_run; [done|]. intros w Ew Hsw. apply wp_ret. unfold stopped. cbn [fst snd].
    rewrite Ew, Z.add_0_r. split_and!; [done..|]. exists c. split; [done|]. intros (_ & _ & Hv0). split; [by eexists|].
    pose proof (rest_length blk unit dma e l t a ltac:(lia)) as Hlen. split; [intros E; by specialize (Hv0 eq_refl); congruence|].
    intros E. rewrite E, length_blocks in Hlen. lia. }
  (* a transfer without a block uses the retry up *)
  set (retry' := if truth v then retry else 0).
  apply wp_bind. eapply (wp_mono _ (fun _ y => snd y = snd x /\ steady y /\ host_at k t retry' n (host y))).
  { unfold retry'. destruct (truth v); cbn [negb].
    - apply wp_ret. unfold host_at. by split_and!.
    - apply upd_host_run; [done..|]. intros w Ew Hsw. cbn [fst snd]. rewrite Ew. unfold host_at. by split_and!. }
  intros ? y (Ey & Hsy & Hhy).
  apply wp_bind, (upd_cmd_run _ _ c); [by rewrite Ey|]. apply wp_bind, upd_host_run; [by apply steady_cmd|done|done|]. rewrite Hb. cbn [fst snd].
  intros w Ew Hsw. apply wp_bind.
  assert (Hc2 : st_cmds (on_cmd TCMD (set_rt 0) (snd y)) !! TCMD = Some (set_rt 0 c)) by (apply on_cmd_same; by rewrite Ey).
  assert (Hd2 : st_dats (on_cmd TCMD (set_rt 0) (snd y)) !! TDAT = Some d) by by rewrite Ey.
  assert (Hp2 : pending (on_cmd TCMD (set_rt 0) (snd y)) = []) by by rewrite Ey.
  assert (Hok2 : cmd_ok (on_cmd TCMD (set_rt 0) (snd y)) TCMD) by (rewrite Ey; eapply asks_ok, asks_same; [exact Has0|apply like_heap, like_on_cmd; done]).
  revert Hc2 Hd2 Hp2 Hok2 Hsw. generalize (on_cmd TCMD (set_rt 0) (snd y)) as s. intros s Hc2 Hd2 Hp2 Hok2 Hsw.
  assert (Hlen : v <= nblk e - t -> s32 (v * blk) = blk * v) by (intros; rewrite Z.mul_comm; apply (s32_ofs e); [done|lia]).
  assert (Hw : host_at k t retry' (n + v) (host_of w)).
  { rewrite Ew. destruct Hhy as (? & ? & ? & ? & ? & ? & E). unfold host_at. cbn. split_and!; [done..|].
    rewrite E, u32_s32, u32_add_l. f_equal. lia. }
  assert (Hr' : 0 <= retry' <= 1) by (unfold retry'; destruct (truth v); lia).
  assert (Hprog : fits e t v rt -> v = 0 -> retry' < retry).
  { intros [Hblock _] Ev. unfold retry'. rewrite Hblock, Ev, orb_false_r in *. unfold truth in *. cbn [Z.eqb negb andb] in *.
    destruct (Z.eqb_spec retry 0); [done|lia]. }
  clear x y Ey Hsy Hhy Hq He Hsg Hsgn Hofs Hre Hby Hp Hc Hd Ew E0 Hx Hm Hok Has0. clearbody retry'.
  unfold next_step. destruct (truth (Z.land card SSLSD_CARD_SDIO)) eqn:Hblock; [|destruct (Z.ltb_spec v (nblk e - t)) as [Hlt|Hge]].
  - apply wp_ret. apply (tail_run false); [done|done|]. intros _ w' Ew Hsw'. destruct Hw as (? & ? & E & ? & ? & ? & ?).
    unfold stopped. cbn [fst snd] in *. rewrite Ew. split_and!; try done. exists (set_rt 0 c). split; [done|]. intros [Hno _]. congruence.
  - apply wp_bind, upd_host_run; [done..|]. cbn [fst snd]. intros w' Ew Hsw'.
    eapply (go_run k e l (t + v) retry' e l t retry a n v rt (set_rt 0 c) d); cbn [fst snd]; try done; [lia| |].
    + rewrite Ew. destruct Hw as (? & ? & ? & ? & Eo & ? & ?). unfold host_at. cbn. rewrite Eo, Hlen, <- Z.mul_add_distr_l by lia.
      rewrite (s32_ofs e) by (done || lia). by split_and!.
    + intros Hfits. rewrite <- rest_within by lia. split; [done|]. destruct (Z.eq_dec v 0); [right; auto|left; lia].
  - destruct (Z.ltb_spec (Z.of_nat k) (Z.of_nat (length sgs) - 1)) as [Hk1|Hk1].
    + destruct l as [|e' l']; [by apply proj1 in Hlast; specialize (Hlast eq_refl); lia|].
      apply wp_bind, upd_host_run; [done..|]. cbn [fst snd]. intros w' Ew Hsw'.
      destruct (drop_entry (S k) e' l' Hnext) as [_ [_ He']].
      eapply (go_run (S k) e' l' 0 1 e (e' :: l') t retry a n v rt (set_rt 0 c) d); cbn [fst snd]; try done; [lia| |].
      * rewrite Ew. destruct Hw as (? & ? & E & ? & ? & ? & ?). unfold host_at. cbn. rewrite E. split_and!; try done; lia.
      * intros (_ & Hle & _). assert (v = nblk e - t) as -> by lia. rewrite rest_next. split; [done|left; lia].
    + assert (l = []) as ->.
      { apply Hlast. destruct (drop_entry k e l Hk) as [Hkl _]. apply lookup_lt_Some in Hkl. lia. }
      apply wp_ret. apply (tail_run false); [done|done|]. intros _ w' Ew Hsw'. destruct Hw as (? & ? & E & ? & ? & ? & ?).
      unfold stopped. cbn [fst snd] in *. rewrite Ew. split_and!; try done. exists (set_rt 0 c). split; [done|].
      intros (_ & Hle & _). assert (v = nblk e - t) as -> by lia. rewrite rest_last. split; [by exists []; rewrite app_nil_r|done].
Qed.

(** The attempt ends; its error says what became of the command. *)
Lemma piece_end_run c n ok x : steady x -> pending (snd x) = [] -> hs_bytes (host x) = u32 (blk * n) ->
  hs_error (host x) = 0 -> st_cmds (snd x) !! TCMD = Some c -> cmd_ok (snd x) TCMD -> (c_rt c = 0 <-> ok) ->
  wp (let! c := the_cmd TCMD in (if truth (c_rt c) then upd_host (set_hs_error (rt_error (c_rt c))) else ret tt) ;; rd q)
    (fun _ y => Fin n ok y) x.
Proof.
  intros Hx Hp Hb He Hc Hcok Hok. apply wp_bind, (the_cmd_run _ c); [done|]. apply wp_bind.
  unfold truth. destruct (Z.eqb_spec (c_rt c) 0) as [E|E]; cbn [negb].
  - apply wp_ret, rd_fin. unfold ended. tauto.
  - apply upd_host_run; [done..|]. intros w Ew Hsw. apply rd_fin. unfold ended. cbn [fst snd]. rewrite Ew.
    pose proof (rt_error_nz (c_rt c)). cbn. tauto.
Qed.

Lemma cmd_done_run e l t retry a n v rt c d x : serves e l t retry a n x -> pending (snd x) = [] ->
  st_cmds (snd x) !! TCMD = Some c -> c_rt c = rt -> st_dats (snd x) !! TDAT = Some d -> dat_actual d = v -> 0 <= v ->
  wp (cmd_done_k rd TCMD) (fun _ y => gone_on e l t retry a n v rt y \/ exists ok, Fin (n + v) ok y /\ all_carried e l t a v rt ok) x.
Proof.
  intros (Hx & k & Hk & Ht & Hr & Hh & Has) Hp Hc Hrt Hd Hv Hvr. apply wp_bind, stop_run; [done|]. intros w Ew Hsw.
  apply wp_bind, the_host_run, wp_bind, (the_cmd_run _ c); [done|]. cbn [fst snd]. rewrite Ew, (proj1 Hh), data, decide_False by done.
  apply wp_bind, wp_bind, upd_host_run; [done..|]. cbn [fst snd]. intros w' Ew' Hsw'.
  eapply wp_mono; [eapply (data_done_run e l t retry a n v rt c d); cbn [fst snd]; try done|].
  { split; [done|]. exists k. refine (conj Hk (conj Ht (conj Hr (conj _ Has)))). cbn [fst]. rewrite Ew', Ew. exact Hh. }
  cbn beta. intros [|] y Hy; [apply wp_ret; by left|]. destruct Hy as (Hsy & Hpy & Hby & Hey & Hoky & cy & Hcy & Hall).
  eapply wp_mono; [by apply (piece_end_run cy (n + v) (c_rt cy = 0))|]. cbn beta. intros ? z Hz. right. by eexists.
Qed.

(** ** The start *)
Definition request_flag : Z :=
  let flag := Z.lor (resp_flag (mr_resp_type q)) (data_flag fd m) in u8 (if mr_stop q then Z.lor flag SDCMD_F_STOP else flag).
Lemma fail_run er n x : steady x -> pending (snd x) = [] -> hs_bytes (host x) = u32 (blk * n) -> er <> 0 ->
  (sound -> cmd_ok (snd x) TCMD) -> wp (fail_request rd q er) (fun _ y => Fin n False y) x.
Proof.
  intros Hx Hp Hb He Hok. apply wp_bind, upd_host_run; [done..|]. intros w Ew Hsw. apply rd_fin. unfold ended. cbn [fst snd]. rewrite Ew.
  refine (conj Hsw (conj Hp (conj Hb (conj _ Hok)))). cbn. split; [lia|done].
Qed.

Lemma inhibit_free word g v : Z.land v 3 = 0 -> Z.land (cmd_inhibit word g) v = 0.
Proof.
  intros Hv. unfold cmd_inhibit. rewrite Z.land_comm. destruct (_ && _); [exact Hv|].
  change SDHC_STA_CMD_INHIBIT with (Z.land 3 1). by rewrite Z.land_assoc, Hv.
Qed.
Lemma sdhc_cmd_free e t a x : steady x -> idl = Some r -> h_fins (st_t (snd x)) = true ->
  asks e t a (snd x) -> t < nblk e -> wp (sdhc_cmd TCMD) (fun rt _ => rt = 0) x.
Proof.
  intros ((_ & _) & (_ & Hidle) & (Hr & _) & _) Hi Hin ((c & Hc & Hf & Hcd & Ha) & d & Hd & Hb & Hbuf & Hcnt) Ht.
  apply wp_bind, wp_the_t, wp_bind, (the_cmd_run _ c); [done|].
  rewrite Hin. cbn [negb]. cbv zeta. apply wp_bind. change (Z.to_nat SDHC_INHIBIT_TOUT) with (S (Z.to_nat SDHC_INHIBIT_TOUT - 1)). cbn [poll].
  destruct x as [w s]. cbn [fst snd] in *. apply wp_bind, wp_bind, wp_get_t, wp_io. unfold wp, io_rd. rewrite Hr.
  assert (Hir : idle_at w = Some r) by congruence. pose proof (idle_law r w Hir) as Hrd. destruct (sdb_rd B32 (r + sd_sta) w) as [v w1]. cbn [fst trunc] in *.
  rewrite (inhibit_free _ _ _ Hrd). cbn [Z.eqb]. change (0 >=? SDHC_INHIBIT_TOUT) with false. cbn [ret].
  apply wp_bind. eapply (wp_mono _ (fun err y => err = None /\ exists c, st_cmds (snd y) !! TCMD = Some c)).
  - destruct (truth (Z.land (c_flag c) SDCMD_F_DAT)); [|apply wp_ret; eauto]. apply wp_bind. rewrite Hcd. apply (upd_dat_run _ _ d); [done|].
    apply wp_bind, (the_dat_run _ (set_actual 0 d)); [by apply on_dat_same|]. unfold truth. cbn [dat_count dat_blk set_actual].
    rewrite Hcnt, Hb, (proj2 (Z.eqb_neq (nblk e - t) 0)), (proj2 (Z.eqb_neq blk 0)) by lia. cbn [negb orb].
    do 4 (apply pass_run; [auto with still|]; intros ? ? ?). apply wp_ret. split; [done|]. exists c.
    repeat match goal with E : snd _ = _ |- _ => rewrite E; clear E end. done.
  - intros err y [-> [c' Hc']]. cbn beta iota. apply pass_run; [unfold sdhc_tout; auto 10 with still|]. intros ? z Ez.
    apply wp_bind, (upd_cmd_run _ _ c'); [by rewrite Ez|]. apply pass_run; [auto with still|]. intros ? u _.
    apply wp_bind. destruct u as [wu su]. apply wp_upd_t. apply pass_run; [auto with still|]. intros ? ? _. by apply wp_ret.
Qed.

(** The command as the request has it, its data aside. *)
Lemma start_cmd_run c x (Q : Datatypes.unit -> W * sd_state -> Prop) : steady x -> st_cmds (snd x) !! TCMD = Some c ->
  (forall y c', host y = set_hs_pcmd q (host x) -> steady y -> st_t (snd y) = st_t (snd x) ->
    st_dats (snd y) = st_dats (snd x) -> st_cmds (snd y) !! TCMD = Some c' -> c_arg c' = mr_arg q -> Q tt y) -> wp (start_cmd q) Q x.
Proof.
  intros Hx Hc HQ. apply wp_bind, (upd_cmd_run _ _ c); [done|]. rewrite decide_False by done. apply wp_bind, wp_ret.
  apply upd_host_run; [by apply steady_cmd|done..|]. intros w Ew Hsw. eapply HQ; [exact Ew|done|done|done|by apply on_cmd_same|done].
Qed.

(** The list is mapped for the DMA engine, when it is used, or the request fails. *)
Lemma map_list_run (b wt : bool) k n x (Q : bool -> W * sd_state -> Prop) : steady x -> pending (snd x) = [] -> hs_bytes (host x) = u32 (blk * n) ->
  (sound -> cmd_ok (snd x) TCMD) -> (forall w, host_of w = host x -> steady (w, snd x) -> Q true (w, snd x)) ->
  (forall y, Fin n False y -> Q false y) ->
  wp (if b then
        let! count := io (dma_map_sg 0 k wt) in
        if count =? 0 then fail_request rd q ENOMEM ;; ret false
        else
          (if negb (count =? k) then upd_host (fun h => set_hs_list (hs_sgn h - (k - count)) (hs_sgc h - (k - count)) h) else ret tt) ;;
          ret true
      else ret true) Q x.
Proof.
  intros Hx Hp Hb Hok H1 H2. destruct b; [|destruct x; apply wp_ret, H1; done]. destruct (map_law 0 k wt (fst x)) as (k' & w & E & Hk & El).
  pose proof (steady_seen w x Hx El) as Hsw. unfold seen in El. injection El as E1 _ _.
  apply wp_bind, (kernel_run _ _ _ _ _ E). destruct (Z.eqb_spec k' 0) as [->|Hne].
  - apply wp_bind. eapply wp_mono; [apply (fail_run _ n); cbn [fst snd]; [done|done|by rewrite E1|done|done]|]. cbn beta. intros ? y Hy. apply wp_ret. by apply H2.
  - destruct Hk as [ | -> ]; [done|]. rewrite Z.eqb_refl. apply wp_bind, wp_ret, wp_ret. by apply H1.
Qed.

Lemma start_data_run e l n c d x : steady x -> sgs = e :: l -> in_u32 (mr_arg q) -> mh_clock mmc / 1000 <> 0 -> blk = u16 (md_blksz m) ->
  f = request_flag -> hs_pcmd (host x) = q -> hs_error (host x) = 0 -> hs_bytes (host x) = u32 (blk * n) ->
  st_cmds (snd x) !! TCMD = Some c -> c_arg c = mr_arg q -> st_dats (snd x) !! TDAT = Some d -> pending (snd x) = [] -> (sound -> md_stream m = false) ->
  wp (start_data rd q m) (fun ok y => if ok then md_stream m = false /\ serves e l 0 1 (mr_arg q) n y /\ st_t (snd y) = st_t (snd x) /\
      (unmoved TDAT (snd x) -> unmoved TDAT (snd y)) else Fin n False y) x.
Proof.
  intros Hx Hsg Harg Hclk Hblk Hflag Hq He Hby Hc Ha Hd Hp Hsound. assert (Heok : entry_ok e) by (rewrite Hsg in sgs_ok; by inversion sgs_ok).
  unfold start_data. destruct (md_stream m).
  { apply wp_bind. eapply wp_mono; [by apply (fail_run _ n); try done; intros Hs; specialize (Hsound Hs)|]. intros ? y Hy. by apply wp_ret. }
  pose proof Hx as ((Hm & _) & _ & (_ & Hfd) & _).
  apply wp_bind, wp_the_t, wp_bind, the_host_run. cbv zeta. apply wp_bind, (upd_dat_run _ _ d); [done|].
  apply wp_bind. rewrite Hm. apply wp_udiv; [done|]. apply wp_bind, (upd_cmd_run _ _ c); [done|].
  apply wp_bind, upd_host_run; [apply (steady_cmd _ _ (_, _)), steady_dat; done|done|done|]. cbn [fst snd].
  intros w1 E1 Hs1. apply wp_bind.
  apply (map_list_run _ _ _ n); cbn [fst snd]; [done|done|by rewrite E1| | |intros y Hy; cbn [negb]; by apply wp_ret].
  { intros _. split; [done|]. eexists. split; [by apply on_cmd_same|]. intros _. eexists. split; [by apply on_dat_same|].
    intros _. cbn [dat_blk]. lia. }
  intros w2 E2 Hs2. apply wp_bind. eapply upd_cmd_run; [by apply on_cmd_same|]. cbn [negb fst snd].
  assert (Hmap : sslsd_map (W := W) TCMD sgs 0 0 = sslsd_map TCMD sgs (Z.of_nat 0) (blk * 0)) by by rewrite Z.mul_0_r. rewrite Hmap.
  apply wp_bind. eapply (map_run 0 e l 0 (mr_arg q)); [by apply (steady_cmd _ _ (_, _))|done|destruct Heok as [_ ?]; lia|apply on_cmd_same, on_cmd_same; exact Hc| |done| |apply on_dat_same; exact Hd|by symmetry|]; cbn [fst snd].
  + cbn. rewrite Hflag, Hfd. unfold request_flag. by destruct (mr_stop q).
  + cbn. by rewrite Ha, u32_id.
  + intros [w3 s3] Ew Has Et Hs3 Hun. cbn in Ew. subst w3. apply wp_bind, upd_host_run; [done..|]. cbn [fst snd] in *. intros w4 E4 Hs4. apply wp_ret.
    split; [done|]. split; [split; [done|]|split; [exact Et|]].
    * exists 0%nat. refine (conj Hsg (conj _ (conj _ (conj _ Has)))); [destruct Heok as [_ ?]; lia|lia|]. cbn [fst].
      rewrite E4, E2, E1. unfold host_at. cbn. rewrite Hby, Z.mul_0_r. by split_and!.
    * intros H0. apply Hun. intros d0' Hd0'. cbn in Hd0'. rewrite lookup_alter_eq, Hd in Hd0'. injection Hd0' as <-. by apply (H0 d).
Qed.

(** A start.  A command that is refused counts as a transfer with the count left
    in its data from an earlier one. *)
Definition taken_on (n : Z) (fresh : Prop) (y : W * sd_state) : Prop :=
  md_stream m = false /\ exists e l, sgs = e :: l /\
    (serves e l 0 1 (mr_arg q) n y /\ pending (snd y) = [TCMD] /\ h_dat (st_t (snd y)) = 0 \/
     exists v rt, 0 <= v /\ rt <> 0 /\ (fresh -> v = 0) /\
       (gone_on e l 0 1 (mr_arg q) n v rt y \/ exists ok, Fin (n + v) ok y /\ all_carried e l 0 (mr_arg q) v rt ok)).
Lemma request_run n x : sgs <> [] -> in_u32 (mr_arg q) -> mh_clock mmc / 1000 <> 0 -> blk = u16 (md_blksz m) -> f = request_flag ->
  steady x -> pending (snd x) = [] -> hs_error (host x) = 0 -> hs_bytes (host x) = u32 (blk * n) ->
  (sound -> cmd_ok (snd x) TCMD /\ md_stream m = false) ->
  wp (request_k rd q) (fun _ y => Fin n False y \/ taken_on n (idl = Some r \/ unmoved TDAT (snd x)) y) x.
Proof.
  intros Hne Harg Hclk Hblk Hflag Hx Hp He Hb Hsound. unfold request_k. apply wp_bind, wp_the_t.
  destruct (h_fins (st_t (snd x))) eqn:Hin; cbn [negb].
  2: { eapply wp_mono; [apply (fail_run _ n); try done; tauto|]. intros ? y. by left. }
  pose proof Hx as (_ & _ & _ & [c Hc] & (d & Hd & _)). apply wp_bind.
  apply (start_cmd_run c); [done|done|]. intros y c' Eh Hy Et Ed Hc' Ha'. rewrite data. apply wp_bind.
  assert (exists e l, sgs = e :: l) as (e & l & Esg) by (clear -Hne; destruct sgs; eauto; done).
  eapply wp_mono; [apply (start_data_run e l n c' d); try done; rewrite ?Eh, ?Ed; try done; [unfold pending; by rewrite Et|tauto]|].
  cbn beta. intros [|] z; cbn [negb]; [|intros Hz; apply wp_ret; by left].
  intros (Hst & (Hz & k & Hk & Ht & Hr & Hh & Has) & Ezt & Hun). apply wp_bind.
  apply start_run; [done|]. intros w Ew Hw. apply wp_bind.
  pose proof (take_run (w, snd z) addr_ok Hw ltac:(cbn [snd]; unfold pending; by rewrite Ezt, Et) (asks_ok _ _ _ _ Has)) as Hrun.
  apply wp_run in Hrun as (rt & u & E & Eu & Hu & _ & Hheap & Hpu & Hdu & Hunu & cu & Hcu & Ert). unfold wp at 1. rewrite E. cbn [fst snd] in *.
  assert (Hs : serves e l 0 1 (mr_arg q) n u).
  { split; [done|]. exists k. rewrite Eu, Ew. refine (conj Hk (conj Ht (conj Hr (conj Hh _)))). by eapply asks_same. }
  change (truth rt) with (negb (rt =? 0)). destruct (Z.eqb_spec rt 0) as [E0|Hrt]; cbn [negb].
  - apply wp_ret. right. split; [done|]. exists e, l. split; [done|]. left. exact (conj Hs (conj Hpu Hdu)).
  - pose proof Hu as (_ & _ & _ & _ & du & Hdd & Hpos).
    eapply wp_mono; [by apply (cmd_done_run e l 0 1 (mr_arg q) n (dat_actual du) rt cu du)|]. cbn beta. intros ? v Hv. right. split; [done|].
    exists e, l. split; [done|]. right. exists (dat_actual du), rt. refine (conj Hpos (conj Hrt (conj _ Hv))).
    intros [Hi|H0]; [exfalso|refine (Hunu (Hun _) du Hdd); intros d2; rewrite Ed; apply H0].
    pose proof (sdhc_cmd_free e 0 (mr_arg q) (w, snd z) Hw Hi ltac:(cbn [snd]; by rewrite Ezt, Et) Has ltac:(lia)) as Hz0.
    unfold wp in Hz0. by rewrite E in Hz0.
Qed.
End Attempt.

(** ** All attempts *)
Section Retries.
Context (q : mmc_request) (m : mmc_data) (blk : Z) (mmc : mmc_host) (r : Z) (fd : bool) (idl : option Z) (d0 : nat).
Notation sgs := (md_sg m).
Notation f := (request_flag q m fd).
Notation dma := (truth (Z.land f SDCMD_F_DMA)).
Notation unit := (if truth (Z.land (sslsd_card_type mmc) SSLSD_CARD_BLKADR) then 1 else blk).
Notation rest := (rest blk unit dma).
Notation steady := (steady mmc r fd idl d0).
Notation serves := (serves q m f blk mmc r fd idl d0).
Notation ended j := (ended blk mmc r fd idl d0 j False).
Notation all := (plan blk unit dma (mr_arg q) sgs).
Notation moved vs := (vs ≫= carried blk unit).
Context (blk_ok : 0 < blk) (addr_ok : SDHC_EVT_MAX < TCMD) (sgs_ok : Forall (entry_ok blk) sgs) (some : sgs <> []).
Context (data : mr_data q = Some m) (short : mr_resp_type q <> MMC_RSP_R2) (block : truth (Z.land (sslsd_card_type mmc) SSLSD_CARD_SDIO) = false).
Context (arg_ok : in_u32 (mr_arg q)) (clock_on : mh_clock mmc / 1000 <> 0) (blk_is : blk = u16 (md_blksz m)).

(** The request is answered, [n] blocks carried in all. *)
Definition closed (n : Z) x : Prop :=
  pending (snd x) = [] /\ dones (fst x) = S d0 /\ hs_bytes (host x) = u32 (blk * n).
Definition gave_up (n : Z) x : Prop := closed n x /\ hs_error (host x) <> 0 /\ hs_retries (host x) = 0.
(** It is given up, or an attempt has just begun. *)
Definition under_way (j : nat) (n : Z) x : Prop := gave_up n x \/
  exists j' e l t retry a, (j' <= j)%nat /\ serves j' e l t retry a n x /\ pending (snd x) = [TCMD] /\ rest e l t a = all.
(** What becomes of it after an attempt. *)
Definition outcome (j : nat) (n : Z) (ok : Prop) x : Prop :=
  ok /\ closed n x /\ hs_error (host x) = 0 \/ ~ ok /\ match j with O => gave_up n x | S j' => under_way j' n x end.

Lemma all_some : all <> [].
Proof.
  destruct sgs as [|e l]; [done|]. apply Forall_inv in sgs_ok as [_ Hn]. cbn [plan]. intros E.
  apply (f_equal length) in E. rewrite length_app, length_blocks in E. cbn in E. lia.
Qed.
Lemma under_way_le j j' n x : (j <= j')%nat -> under_way j n x -> under_way j' n x.
Proof. intros Hj [Hg|(j1 & e & l & t & retry & a & Hle & Hs)]; [by left|right]. exists j1, e, l, t, retry, a. split; [lia|done]. Qed.
Lemma failed_under_way j n ok x : ~ ok -> outcome j n ok x -> under_way j n x.
Proof. intros Hno [[? _]|[_ H]]; [done|]. destruct j; [by left|]. by eapply under_way_le; [|exact H]; lia. Qed.

(** The core's answer closes the request. *)
Lemma mrq_done_run j n ok x : ended j n ok x -> wp (io mrq_done) (fun _ y => closed n y /\ host y = host x) x.
Proof.
  intros ((_ & (Hd & _) & _) & Hp & Hb & _). destruct (done_law (fst x)) as (w & E & El). apply (kernel_run _ _ _ _ _ E).
  unfold seen in El. injection El as E1 E2 _. unfold closed. cbn [fst snd]. rewrite E1, E2, Hd. done.
Qed.

Lemma outcome_iff j n ok ok' x : (ok <-> ok') -> outcome j n ok x -> outcome j n ok' x.
Proof. unfold outcome. tauto. Qed.

Lemma begin_attempt j n rd x : (forall n ok x, ended j n ok x -> wp (rd q) (fun _ y => outcome j n ok y) x) ->
  steady j x -> pending (snd x) = [] -> hs_error (host x) = 0 -> hs_bytes (host x) = u32 (blk * n) -> idl = Some r \/ unmoved TDAT (snd x) ->
  wp (request_k rd q) (fun _ y => under_way j n y) x.
Proof.
  intros Hrd Hx Hp He Hb Hidle.
  eapply wp_mono; [by apply (request_run q m f blk mmc r fd idl d0 j False blk_ok addr_ok sgs_ok data short rd (outcome j) Hrd n x)|].
  cbn beta. intros ? y [Hy|(_ & e & l & Esg & Hy)]; [eapply failed_under_way; [|exact Hy]; tauto|].
  assert (Hall : rest e l 0 (mr_arg q) = all) by (rewrite Esg; apply rest_plan).
  assert (Hpos : 0 < blks_of blk e) by (rewrite Esg in sgs_ok; apply Forall_inv in sgs_ok as [_ ?]; lia).
  destruct Hy as [(Hs & Hpy & _)|(v & rt & _ & Hrt & Hv & Hy)]; [right; exists j, e, l, 0, 1, (mr_arg q); split_and!; [lia|done..]|].
  specialize (Hv Hidle) as ->. assert (Hfits : fits blk mmc e 0 0 rt) by (unfold fits; split_and!; [done|lia|done]).
  destruct Hy as [(e' & l' & t' & retry' & Hs & Hpy & _ & Hrest)|(ok & Hout & Hok)].
  - destruct (Hrest Hfits) as [Hr _]. right. exists j, e', l', t', retry', (mr_arg q + unit * 0). rewrite Z.add_0_r in Hs.
    split_and!; [done..|]. by rewrite <- Hall, Hr.
  - destruct (Hok Hfits) as [_ Hiff]. rewrite Z.add_0_r in Hout. eapply failed_under_way; [|exact Hout]. rewrite Hiff, Hall.
    change (blocks _ _ _ _ 0) with (@nil (Z * Z)). apply all_some.
Qed.

(** The core: an attempt that failed is followed by the next one. *)
Lemma done_run j n ok x : in_u32 (Z.of_nat j) -> idl = Some r \/ j = 0%nat -> ended j n ok x ->
  wp (request_done_n j q) (fun _ y => outcome j n ok y) x.
Proof.
  revert n ok x. induction j as [|j IH]; intros n ok x Hj Hidle Hx; cbn [request_done_n]; apply wp_bind, the_host_run;
    pose proof Hx as (((Hm & Hre) & (Hd & Hi) & Hct & Hcl) & Hp & Hb & Hok & _); rewrite Hre.
  - rewrite andb_false_r. eapply wp_mono; [by eapply mrq_done_run|]. cbn beta. intros ? y [Hy Ey]. unfold outcome, gave_up. rewrite Ey, Hre.
    destruct (Z.eq_dec (hs_error (host x)) 0) as [E|E]; [left; tauto|right; tauto].
  - rewrite (proj2 (negb_true_iff _) (proj2 (Z.eqb_neq (Z.of_nat (S j)) 0) ltac:(lia)) : truth (Z.of_nat (S j)) = true), andb_true_r.
    unfold truth. destruct (Z.eqb_spec (hs_error (host x)) 0) as [E|E]; cbn [negb].
    + eapply wp_mono; [by eapply mrq_done_run|]. cbn beta. intros ? y [Hy Ey]. unfold outcome. rewrite Ey. left. tauto.
    + destruct Hidle as [Hidle|]; [|lia]. apply wp_bind. destruct x as [w s]. apply wp_io, wp_modify. cbn [fst snd] in *.
      pose proof (seen_set (once_more (host_of w)) w) as Hs. unfold seen in Hs. injection Hs as E1 _ _.
      assert (Hst : steady j (set_host (once_more (host_of w)) w, s)).
      { apply (steady_set _ _ _ _ _ _ _ (w, s)); [exact Hm| |exact (conj Hd Hi)|exact Hct|exact Hcl]. cbn. rewrite Hre, u32_id; unfold in_u32 in *; lia. }
      eapply wp_mono; [apply (begin_attempt j n (request_done_n j) _)|]; [|exact Hst|exact Hp|cbn [fst]; by rewrite E1..|by left|].
      * intros n' ok' x' Hx'. apply IH; [unfold in_u32 in *; lia|by left|done].
      * cbn beta. intros ? y Hy. right. split; [tauto|done].
Qed.
Lemma core_done_run j n ok x : in_u32 (Z.of_nat j) -> idl = Some r \/ j = 0%nat -> ended j n ok x ->
  wp (mmc_request_done q) (fun _ y => outcome j n ok y) x.
Proof.
  intros Hj Hi Hx. apply wp_bind, the_host_run. pose proof Hx as (((_ & ->) & _) & _). rewrite Nat2Z.id. by apply done_run.
Qed.

(** What the controller reports, and the request goes on, ends or starts again. *)
Lemma report_run j e l t retry a n v rt x : in_u32 (Z.of_nat j) -> idl = Some r \/ j = 0%nat -> serves j e l t retry a n x -> (v <= 0 -> rt <> 0) ->
  wp (report v rt) (fun p y => exists k, 0 <= k /\ p = (u32 a, u32 (base dma e + blk * t), k) /\
    ((exists e' l' t' retry', serves j e' l' t' retry' (a + unit * k) (n + k) y /\ pending (snd y) = [TCMD] /\
        rest e l t a = blocks blk unit a (base dma e + blk * t) k ++ rest e' l' t' (a + unit * k) /\ (0 < k \/ retry' < retry)) \/
     outcome j (n + k) (rest e l t a = blocks blk unit a (base dma e + blk * t) k) y /\
     exists tl, rest e l t a = blocks blk unit a (base dma e + blk * t) k ++ tl)) x.
Proof.
  intros Hj Hidle (Hx & i & Hk & Ht & Hr & Hh & (c & Hc & Hf & Hcd & Ha) & d & Hd & Hb & Hbuf & Hcnt) Hv0.
  apply wp_bind, (the_cmd_run _ c); [done|]. apply wp_bind, (the_dat_run _ d); [done|]. cbv zeta.
  rewrite Ha, Hbuf, Hcnt. set (k := Z.max 0 (Z.min v (blks_of blk e - t))). assert (Hkr : 0 <= k <= blks_of blk e - t) by lia.
  destruct (drop_entry m blk sgs_ok i e l Hk) as [_ [_ Hne]]. assert (Hk0 : k = 0 -> rt <> 0) by (intros; apply Hv0; lia). clearbody k.
  apply wp_bind, (upd_dat_run _ _ d); [done|]. apply wp_bind, (upd_cmd_run _ _ c); [done|]. apply wp_bind.
  pose proof (steady_cmd _ _ _ _ _ _ TCMD (set_rt rt) _ (steady_dat mmc r fd idl d0 j TDAT (set_actual k) x ltac:(intros; apply u16_range) Hx)) as Hx2.
  destruct x as [w s]. cbn [fst snd] in *. apply wp_upd_t, wp_bind.
  unfold sslsd_evt, sslsd_cmd_done. rewrite Z.gtb_ltb, (proj2 (Z.ltb_lt _ _)) by done.
  eapply wp_mono; [eapply (cmd_done_run q m f blk mmc r fd idl d0 j False blk_ok addr_ok sgs_ok data short mmc_request_done (outcome j) _
    e l t retry a n k rt (set_rt rt c) (set_actual k d))|]; cbn [fst snd].
  - split; [exact Hx2|]. exists i. refine (conj Hk (conj Ht (conj Hr (conj Hh (conj _ _))))).
    + exists (set_rt rt c). split; [by apply on_cmd_same|done].
    + exists (set_actual k d). split; [cbn; by rewrite lookup_alter_eq, Hd|done].
  - done.
  - by apply on_cmd_same.
  - done.
  - cbn. by rewrite lookup_alter_eq, Hd.
  - cbn. apply u16_id. unfold in_u16. lia.
  - lia.
  - cbn beta. intros ? y Hy. apply wp_ret. exists k. split; [lia|]. split; [done|].
    assert (Hfits : fits blk mmc e t k rt) by (unfold fits; split_and!; [done|lia|done]).
    destruct Hy as [(e' & l' & t' & retry' & Hs & Hpy & _ & Hrest)|(ok & Hout & Hok)].
    + left. exists e', l', t', retry'. by refine (conj Hs (conj Hpy _)); apply Hrest.
    + right. destruct (Hok Hfits) as [Htl Hiff]. split; [by eapply outcome_iff|done].
  Unshelve. intros n' ok' x'. by apply core_done_run.
Qed.

(** The attempts of a request, by the blocks each carried: those before the last
    carried some of them from the first on but not all, and the error is that of
    the last one. *)
Fixpoint tried (whole M : list (Z * Z)) (later : list (list (Z * Z))) (err : Z) : Prop :=
  M `prefix_of` whole /\
  match later with [] => err = 0 <-> M = whole | M' :: later => M <> whole /\ tried whole M' later err end.
(** The request is over: [pre] was carried of it before the transfers [vs]. *)
Definition settled (j : nat) (n : Z) (pre : list (Z * Z)) (vs : list (Z * Z * Z)) x : Prop :=
  closed (n + Z.of_nat (length (moved vs))) x /\ (hs_error (host x) <> 0 -> hs_retries (host x) = 0) /\
  exists first later, vs = first ++ concat later /\ (length later <= j)%nat /\
    tried all (pre ++ moved first) ((fun vs => moved vs) <$> later) (hs_error (host x)).

Lemma carried_u32 a b k : carried blk unit (u32 a, u32 b, k) = blocks blk unit a b k.
Proof. apply blocks_u32. Qed.
Lemma idle_run reps x : pending (snd x) = [] -> wp (transfers reps) (fun vs y => vs = [] /\ y = x) x.
Proof. destruct x as [w s], reps as [|[v rt] reps]; cbn [transfers]; intros Hp; [by apply wp_ret|]. apply wp_bind, wp_get_t. cbn [snd] in Hp. rewrite Hp. by apply wp_ret. Qed.

Lemma settled_cons j n pre a b k vs x : 0 <= k -> settled j (n + k) (pre ++ blocks blk unit a b k) vs x -> settled j n pre ((u32 a, u32 b, k) :: vs) x.
Proof.
  intros Hk ((Hp & Hd & Hb) & He & first & later & -> & Hl & Ht). unfold settled, closed. rewrite bind_cons, carried_u32, length_app, length_blocks.
  split; [split_and!; [done|done|rewrite Hb; do 2 f_equal; lia]|]. split; [done|]. exists ((u32 a, u32 b, k) :: first), later.
  split; [done|]. split; [done|]. by rewrite bind_cons, carried_u32, app_assoc.
Qed.
(** An attempt without success, and those after it. *)
Lemma settled_again j j' n pre a b k vs x : 0 <= k -> (j' < j)%nat -> pre ++ blocks blk unit a b k `prefix_of` all -> pre ++ blocks blk unit a b k <> all ->
  settled j' (n + k) [] vs x -> settled j n pre ((u32 a, u32 b, k) :: vs) x.
Proof.
  intros Hk Hj Hpre Hne ((Hp & Hd & Hb) & He & first & later & -> & Hl & Ht). unfold settled, closed. rewrite bind_cons, carried_u32, length_app, length_blocks.
  split; [split_and!; [done|done|rewrite Hb; do 2 f_equal; lia]|]. split; [done|]. exists [(u32 a, u32 b, k)], (first :: later).
  split; [done|]. split; [cbn; lia|]. rewrite bind_cons, carried_u32. cbn [mbind list_bind]. rewrite app_nil_r. by cbn [fmap list_fmap tried].
Qed.
Lemma settled_closed j n pre a b k x : 0 <= k -> pre ++ blocks blk unit a b k `prefix_of` all -> closed (n + k) x ->
  (hs_error (host x) = 0 <-> pre ++ blocks blk unit a b k = all) -> (hs_error (host x) <> 0 -> hs_retries (host x) = 0) ->
  settled j n pre [(u32 a, u32 b, k)] x.
Proof.
  intros Hk Hpre Hc He Hr. unfold settled. rewrite bind_cons, carried_u32. cbn [mbind list_bind]. rewrite app_nil_r, length_blocks, Z2Nat.id by done.
  split; [done|]. split; [done|]. exists [(u32 a, u32 b, k)], []. split; [done|]. split; [cbn; lia|].
  rewrite bind_cons, carried_u32. cbn [mbind list_bind]. rewrite app_nil_r. by split.
Qed.

(** However many transfers it takes, the request ends. *)
Lemma transfers_run reps j e l t retry a n pre x : in_u32 (Z.of_nat j) -> idl = Some r \/ j = 0%nat ->
  serves j e l t retry a n x -> pending (snd x) = [TCMD] -> all = pre ++ rest e l t a ->
  Forall (fun '(v, rt) => v <= 0 -> rt <> 0) reps ->
  (2 * length (rest e l t a) + Z.to_nat retry + j * (2 * length all + 1) <= length reps)%nat ->
  wp (transfers reps) (settled j n pre) x.
Proof.
  revert j e l t retry a n pre x. induction reps as [|[v rt] reps IH]; intros j e l t retry a n pre x Hj Hi Hx Hp Hall Hreps Hlen.
  { destruct Hx as (_ & k & Hk & Ht & _). pose proof (rest_length blk unit dma e l t a ltac:(lia)). cbn [length] in Hlen. lia. }
  inversion Hreps as [|? ? Hv0 Hreps']; subst. cbn [transfers]. destruct x as [w s]. apply wp_bind, wp_get_t. cbn [fst snd] in *. rewrite Hp.
  apply wp_bind. eapply wp_mono; [by apply (report_run j e l t retry a n v rt)|]. cbn beta.
  intros p y (k & Hk0 & -> & Hy). apply wp_bind. cbn [length] in Hlen.
  pose proof Hx as (_ & _ & _ & Hte & Hr & _). pose proof (rest_length blk unit dma e l t a ltac:(lia)) as Hpos.
  destruct Hy as [(e' & l' & t' & retry' & Hs & Hp' & Hrest & Hprog)|[Hout (tl & Htl)]].
  - pose proof Hs as (_ & _ & _ & _ & Hr' & _).
    eapply wp_mono; [apply (IH j e' l' t' retry' (a + unit * k) (n + k) (pre ++ blocks blk unit a (base dma e + blk * t) k) y); try done|].
    + rewrite Hall, Hrest. apply app_assoc.
    + rewrite Hrest, length_app, length_blocks in Hlen. lia.
    + intros vs z Hz. apply wp_ret. by apply settled_cons.
  - assert (Hpre : pre ++ blocks blk unit a (base dma e + blk * t) k `prefix_of` all).
    { rewrite Hall, Htl. apply prefix_app. by exists tl. }
    assert (Hiff : pre ++ blocks blk unit a (base dma e + blk * t) k = all <-> rest e l t a = blocks blk unit a (base dma e + blk * t) k).
    { rewrite Hall. split; [intros E; symmetry; by apply (app_inv_head pre)|by intros ->]. }
    assert (Hgive : gave_up (n + k) y -> ~ (rest e l t a = blocks blk unit a (base dma e + blk * t) k) ->
      settled j n pre [(u32 a, u32 (base dma e + blk * t), k)] y).
    { intros (Hc & He & Hre) Hno. apply settled_closed; tauto. }
    destruct Hout as [(Hok & Hc & He)|[Hno Hout]].
    + eapply wp_mono; [apply idle_run, Hc|]. cbn beta. intros ? ? [-> ->]. apply wp_ret. apply settled_closed; tauto.
    + destruct j as [|j].
      { eapply wp_mono; [apply idle_run, Hout|]. cbn beta. intros ? ? [-> ->]. apply wp_ret. by apply Hgive. }
      destruct Hout as [Hg|(j' & e' & l' & t' & retry' & a' & Hle & Hs & Hp' & Hrest)].
      { eapply wp_mono; [apply idle_run, Hg|]. cbn beta. intros ? ? [-> ->]. apply wp_ret. by apply Hgive. }
      pose proof Hs as (_ & _ & _ & _ & Hr' & _).
      eapply wp_mono; [apply (IH j' e' l' t' retry' a' (n + k) [] y); try done|].
      * unfold in_u32 in *. lia.
      * destruct Hi as [Hi|]; [by left|done].
      * rewrite Hrest. set (N := length all) in *. clearbody N. nia.
      * intros vs z Hz. apply wp_ret. apply (settled_again (S j) j'); try done; [lia|tauto].
Qed.

(** A request and its transfers. *)
Lemma carry_run reps x : hs_mmc (host x) = mmc -> h_r (st_t (snd x)) = r -> h_fdma (st_t (snd x)) = fd -> idle_at (fst x) = idl -> dones (fst x) = d0 ->
  cells (snd x) -> pending (snd x) = [] -> in_u32 (mr_retries q) -> idl = Some r \/ mr_retries q = 0 /\ unmoved TDAT (snd x) ->
  Forall (fun '(v, rt) => v <= 0 -> rt <> 0) reps -> (S (Z.to_nat (mr_retries q)) * (2 * length all + 1) <= length reps)%nat ->
  wp (carry q reps) (settled (Z.to_nat (mr_retries q)) 0 []) x.
Proof.
  intros Hm Hr Hfd Hi Hd0 Hcl Hp Hre Hidle Hreps Hlen. set (j := Z.to_nat (mr_retries q)) in *.
  assert (Hj : in_u32 (Z.of_nat j)) by (unfold in_u32 in *; lia). assert (Hij : idl = Some r \/ j = 0%nat) by (destruct Hidle as [|[]]; [by left|right; lia]).
  apply wp_bind, wp_bind. destruct x as [w s]. apply wp_io, wp_modify. cbn [fst snd] in *.
  pose proof (seen_set (hand_over q (host_of w)) w) as Hs. unfold seen in Hs. injection Hs as E1 _ _.
  assert (Hst : steady j (set_host (hand_over q (host_of w)) w, s)).
  { apply (steady_set _ _ _ _ _ _ _ (w, s)); [exact Hm| |by split|by split|exact Hcl]. cbn. unfold in_u32 in *. lia. }
  eapply wp_mono; [apply (begin_attempt j 0 mmc_request_done _ ltac:(intros; by apply core_done_run) Hst Hp)|]; cbn [fst snd]; rewrite ?E1.
  - done.
  - cbn. by rewrite Z.mul_0_r.
  - destruct Hidle as [|[]]; auto.
  - cbn beta. intros ? y [Hg|(j' & e & l & t & retry & a & Hle & Hsv & Hp' & Hrest)].
    + eapply wp_mono; [apply idle_run, Hg|]. cbn beta. intros ? ? [-> ->]. destruct Hg as (Hc & He & Hr0). split; [exact Hc|]. split; [done|].
      exists [], []. split; [done|]. split; [cbn; lia|]. cbn. split; [apply prefix_nil|]. split; [done|]. intros Eall. by destruct (all_some (eq_sym Eall)).
    + pose proof Hsv as (_ & _ & _ & _ & Hr' & _).
      eapply wp_mono; [apply (transfers_run reps j' e l t retry a 0 [] y); try done|].
      * unfold in_u32 in *. lia.
      * destruct Hij; [by left|right; lia].
      * rewrite Hrest. set (N := length all) in *. clearbody N. nia.
      * intros vs z (Hc & He & first & later & Ev & Hl & Ht). split; [done|]. split; [done|]. exists first, later. split_and!; try done. lia.
Qed.
End Retries.
End Spec.

(** ** The contract of a request *)
Lemma flag_dma q m fdma : truth (Z.land (request_flag q m fdma) SDCMD_F_DMA) = fdma.
Proof.
  unfold request_flag, data_flag. destruct (mr_stop q), (mr_resp_type q), (md_write m), (md_blocks m >? 1), fdma; by vm_compute.
Qed.

(** A request for blocks of a memory card: its list has entries of at least one
    block and of no more than the controller counts, each shorter than 2 GB, and
    the clock is on. *)
Definition block_request (q : mmc_request) (m : mmc_data) (mmc : mmc_host) : Prop :=
  mr_data q = Some m /\ mr_resp_type q <> MMC_RSP_R2 /\ in_u32 (mr_arg q) /\ md_sg m <> [] /\ 0 < u16 (md_blksz m) /\
  Forall (entry_ok (u16 (md_blksz m))) (md_sg m) /\ mh_clock mmc / 1000 <> 0 /\
  truth (Z.land (sslsd_card_type mmc) SSLSD_CARD_SDIO) = false.
(** What a block of it counts in the argument, and where its blocks are. *)
Definition arg_unit (m : mmc_data) (mmc : mmc_host) : Z :=
  if truth (Z.land (sslsd_card_type mmc) SSLSD_CARD_BLKADR) then 1 else u16 (md_blksz m).
Definition request_blocks (q : mmc_request) (m : mmc_data) (mmc : mmc_host) (dma : bool) : list (Z * Z) :=
  plan (u16 (md_blksz m)) (arg_unit m mmc) dma (mr_arg q) (md_sg m).

(** C22. A request for blocks is answered exactly once, whatever the controller
    reports of its transfers, one result for each and an error for one without
    a block, and although the core hands it to the driver again, from inside the
    driver's call, after each attempt that fails with retries left: it ends in at
    most one attempt more than it has retries, of no more transfers than two for a
    block and one.  The transfers of an attempt carry blocks in order from the
    first on and each once, an entry taken up where the last transfer left it; an
    attempt before the last has not carried all, and there is no error exactly
    when the last one has.  An error means no retry is left.  The bytes are those
    of all attempts together.  The controller is idle whenever it is asked, or the
    request has no retries and no count is left from an earlier transfer. *)
Theorem request_correct {W} {B : SdBus W} {HW : HostWorld W} {Ad : HostAddr} {K : MmcCore W} {L : SslsdLaws W}
    (q : mmc_request) (m : mmc_data) reps (w : W) s c d :
  let mmc := hs_mmc (host_of w) in let all := request_blocks q m mmc (h_fdma (st_t s)) in
  let moved vs := vs ≫= carried (u16 (md_blksz m)) (arg_unit m mmc) in
  SDHC_EVT_MAX < TCMD -> block_request q m mmc -> st_cmds s !! TCMD = Some c -> st_dats s !! TDAT = Some d -> 0 <= dat_actual d ->
  pending s = [] -> in_u32 (mr_retries q) -> idle_at w = Some (h_r (st_t s)) \/ mr_retries q = 0 /\ dat_actual d = 0 ->
  Forall (fun '(n, rt) => n <= 0 -> rt <> 0) reps -> (S (Z.to_nat (mr_retries q)) * (2 * length all + 1) <= length reps)%nat ->
  exists vs w1 s1, carry q reps (w, s) = Done vs (w1, s1) /\ pending s1 = [] /\ dones w1 = S (dones w) /\
    hs_bytes (host_of w1) = u32 (u16 (md_blksz m) * Z.of_nat (length (moved vs))) /\
    (hs_error (host_of w1) <> 0 -> hs_retries (host_of w1) = 0) /\
    exists first later, vs = first ++ concat later /\ (length later <= Z.to_nat (mr_retries q))%nat /\
      tried all (moved first) (moved <$> later) (hs_error (host_of w1)).
Proof.
  intros mmc all moved Htc (Hdata & Hrsp & Harg & Hne & Hblk & Hok & Hclk & Hcard) Hc Hd Hd0 Hp Hre Hidle Hreps Hlen.
  pose proof (carry_run q m (u16 (md_blksz m)) mmc (h_r (st_t s)) (h_fdma (st_t s)) (idle_at w) (dones w) Hblk Htc Hok Hne Hdata Hrsp Hcard
    Harg Hclk eq_refl reps (w, s)) as Hrun.
  rewrite flag_dma in Hrun. specialize (Hrun eq_refl eq_refl eq_refl eq_refl eq_refl (conj (mk_is_Some _ _ Hc) (ex_intro _ d (conj Hd Hd0))) Hp Hre).
  apply wp_run in Hrun as (vs & [w1 s1] & E & ((Hp1 & Hd1 & Hb1) & He1 & Ht)).
  - rewrite flag_dma in Ht. exists vs, w1, s1. exact (conj E (conj Hp1 (conj Hd1 (conj Hb1 (conj He1 Ht))))).
  - destruct Hidle as [|[H0 Ha]]; [by left|right]. split; [done|]. intros d' Hd'. cbn in Hd'. congruence.
  - done.
  - exact Hlen.
Qed.

(** ** The driver at work

    A controller whose registers keep what is written, with a state register
    that says whether it is busy; the kernel counts the answers. *)
Record mmcsim := MmcSim { ms_host : sslsd_host; ms_dones : nat; ms_busy : bool }.
#[local] Instance ms_addr : HostAddr := {| TCMD := 16; TDAT := 32 |}.
#[local] Instance ms_bus : SdBus mmcsim := {|
  sdb_rd _ a w := (if (a =? 256 + sd_sta) && ms_busy w then 3 else 0, w); sdb_wr _ _ _ w := w; sdb_delay _ w := w |}.
#[local] Instance ms_world : HostWorld mmcsim := {| host_of := ms_host; set_host h w := MmcSim h (ms_dones w) (ms_busy w) |}.
#[local] Instance ms_core : MmcCore mmcsim := {|
  mrq_done := modify (fun w => MmcSim (ms_host w) (S (ms_dones w)) (ms_busy w));
  mmc_detect_change := ret tt; mmc_signal_sdio_irq := ret tt; start_timer _ := ret tt; stop_timer := ret tt;
  dma_map_sg _ n _ := ret n; dma_unmap_sg _ _ _ := ret tt |}.
#[local] Instance ms_laws : SslsdLaws mmcsim.
Proof.
  refine {| dones := ms_dones; idle_at w := if ms_busy w then None else Some 256 |}; try done; try by (intros; eexists).
  - intros r w. cbn. destruct (ms_busy w); [done|]. by rewrite andb_false_r.
  - intros i n b w. exists n, w. auto.
Defined.

(** A read of five blocks into two entries, with one retry; the card takes byte
    addresses. *)
Definition ms_data : mmc_data := MmcData false false 5 512 0 0 [Sg 0 8192 1024; Sg 0 16384 1536].
Definition ms_request : mmc_request := MmcRequest 18 4096 MMC_RSP_R1 0 (Some ms_data) true 1.
Definition ms_card : mmc_host := MmcHost false false true 25000000.
Definition ms_driver : sslsd_host := Host ms_request 0 0 0 0 0 0 0 0 0 ms_card.
Definition ms_state (left : Z) : sd_state := SdState (Sdhc 256 0 500 50000 0 false true false 0 false true 0 0 0)
  {[16 := SdCmd 0 0 0 0 0 0 0 0]} {[32 := SdDat 0 0 512 left]} (fun _ => 0).

(** The first transfer stops after a block and the next two have none; then the
    request comes again, and its second transfer stops after two blocks. *)
Definition ms_reports : list (Z * Z) := [(1, SDHC_RET_DAT_TOUT); (0, SDHC_RET_DAT_TOUT); (0, SDHC_RET_DAT_TOUT);
  (2, 0); (2, SDHC_RET_DAT_TOUT); (1, 0)] ++ replicate 16 (1, 0).

Lemma request_correct_witness : exists vs w1 s1,
  carry ms_request ms_reports (MmcSim ms_driver 0 false, ms_state 7) = Done vs (w1, s1) /\ dones w1 = 1%nat /\
  vs = [(4096, 8192, 1); (4608, 8704, 0); (4608, 8704, 0); (4096, 8192, 2); (5120, 16384, 2); (6144, 17408, 1)] /\
  hs_error (host_of w1) = 0 /\ hs_bytes (host_of w1) = 3072.
Proof.
  destruct (request_correct ms_request ms_data ms_reports (MmcSim ms_driver 0 false) (ms_state 7) (SdCmd 0 0 0 0 0 0 0 0) (SdDat 0 0 512 7))
    as (vs & w1 & s1 & E & _ & Hd & _); [by vm_compute|..|exists vs, w1, s1].
  - do 3 (split; [reflexivity || discriminate || by vm_compute|]). split; [discriminate|]. split; [reflexivity|].
    split; [|by split]. repeat (apply Forall_cons_2; [by vm_compute|]). by apply Forall_nil_2.
  - by vm_compute.
  - by vm_compute.
  - by vm_compute.
  - by vm_compute.
  - by vm_compute.
  - by left.
  - repeat (apply Forall_cons_2; [by vm_compute|]). by apply Forall_nil_2.
  - vm_compute. lia.
  - assert (Er : match carry ms_request ms_reports (MmcSim ms_driver 0 false, ms_state 7) with
      | Done l y => Some (l, hs_error (host_of (fst y)), hs_bytes (host_of (fst y))) | Crash _ => None end =
      Some ([(4096, 8192, 1); (4608, 8704, 0); (4608, 8704, 0); (4096, 8192, 2); (5120, 16384, 2); (6144, 17408, 1)], 0, 3072)) by by vm_compute.
    rewrite E in Er. injection Er as -> E1 E2. split; [exact E|]. split; [exact Hd|]. split; [reflexivity|]. split; [exact E1|exact E2].
Defined.

(** A count left from an earlier request is taken for blocks of this one when
    the controller is busy: here the request is answered with no error and all
    its bytes, and no transfer was started. *)
Example count_left_over :
  let q := MmcRequest 18 4096 MMC_RSP_R1 0 (Some (MmcData false false 2 512 0 0 [Sg 0 8192 1024])) true 0 in
  match mmc_start_request q (MmcSim ms_driver 0 true, ms_state 2) with
  | Done _ (w, s) => (dones w, hs_error (host_of w), hs_bytes (host_of w), pending s) | Crash _ => (0%nat, 0, 0, []) end =
  (1%nat, 0, 1024, []).
Proof. vm_compute. reflexivity. Qed.
