(* ===== verification/MagusSslsdStack.v ===== *)
(** * The two SD drivers together

    [ssl_sd.c] is a client of [sdhc.c]: [MagusSdhcSpec] says what the controller
    driver asks of its client, and here the card driver is shown to keep it.
    So the two, one calling the other from its interrupt, carry a request to
    its single answer, whatever the controller's registers read, also where the
    core hands a failed one to the card driver again inside its own call. *)

From Stdlib Require Import ZArith Lia Bool.
From stdpp Require Import base numbers list gmap.
From S2P Require Import Prelude CMonad DevIO MagusSdhc MagusSdhcQuiet MagusSdhcSpec MagusSslsd MagusSslsdSpec.

(** What the kernel does when a card comes or goes, or interrupts. *)
Class CardLaws (W : Type) `{SslsdLaws W} := {
  detect_law w : exists w', mmc_detect_change w = Done tt w' /\ seen w' = seen w;
  signal_law w : exists w', mmc_signal_sdio_irq w = Done tt w' /\ seen w' = seen w }.

(** ** A request the driver carries

    One without data, or with a list whose entries hold at least one block and no
    more than the controller counts, and with a clock to time it by. *)
Definition sane_data (q : mmc_request) (m : mmc_data) : Prop :=
  mr_resp_type q <> MMC_RSP_R2 /\ in_u32 (mr_arg q) /\ md_sg m <> [] /\ 0 < u16 (md_blksz m) /\ Forall (entry_ok (u16 (md_blksz m))) (md_sg m).
Definition sane (q : mmc_request) : Prop := match mr_data q with Some m => sane_data q m | None => True end.
Definition clocked (q : mmc_request) (h : mmc_host) : Prop := match mr_data q with Some _ => mh_clock h / 1000 <> 0 | None => True end.
Definition not_stream (q : mmc_request) : Prop := match mr_data q with Some m => md_stream m = false | None => True end.
Definition block_of (q : mmc_request) : Z := match mr_data q with Some m => u16 (md_blksz m) | None => 1 end.

Section Within.
Context `{HostAddr}.
(** The next transfer is within an entry of the list. *)
Definition within (q : mmc_request) (m : mmc_data) (h : sslsd_host) (s : sd_state) : Prop :=
  exists f k e l t retry a n, drop k (md_sg m) = e :: l /\ 0 <= t < blks_of (u16 (md_blksz m)) e /\ 0 <= retry <= 1 /\
    host_at q m (u16 (md_blksz m)) k t retry n h /\ asks f (u16 (md_blksz m)) e t a s.
(** The command is with the controller, and the host knows where it is. *)
Definition serving (q : mmc_request) (h : sslsd_host) (s : sd_state) : Prop :=
  (hs_pcmd h = q /\ cmd_ok s TCMD /\ cells s) /\ (in_u32 (hs_retries h) /\ not_stream q /\ clocked q (hs_mmc h)) /\
  match mr_data q with Some m => within q m h s | None => hs_error h = 0 /\ in_u32 (hs_bytes h) end.

(** The transfer of the command is inside one entry of the list. *)
Definition in_entry (m : mmc_data) (s : sd_state) : Prop :=
  exists c d e j, st_cmds s !! TCMD = Some c /\ c_dat c = TDAT /\ st_dats s !! TDAT = Some d /\ e ∈ md_sg m /\ 0 <= j /\
    dat_buf d = u32 (base (truth (Z.land (c_flag c) SDCMD_F_DMA)) e + j) /\ 0 < dat_count d /\
    j + dat_blk d * dat_count d <= sg_dma_len e.
Lemma within_entry q m h s : 0 < u16 (md_blksz m) -> within q m h s -> in_entry m s.
Proof.
  intros Hblk (f & k & e & l & t & _ & a & _ & Hk & Ht & _ & _ & ((c & Hc & Hf & Hcd & _) & d & Hd & Hb & Hbuf & Hcnt)).
  exists c, d, e, (u16 (md_blksz m) * t). rewrite Hb, Hcnt, Hf. split_and!; try done; try lia.
  - apply list_elem_of_lookup. exists k. by rewrite <- (Nat.add_0_r k), <- lookup_drop, Hk.
  - unfold blks_of in *. pose proof (Z.mul_div_le (sg_dma_len e) _ Hblk). nia.
Qed.

Lemma within_heap q m h s s' : same_heap s s' -> within q m h s -> within q m h s'.
Proof.
  intros Hh (f & k & e & l & t & retry & a & n & Hk & Ht & Hr & Hat & Has). exists f, k, e, l, t, retry, a, n.
  refine (conj Hk (conj Ht (conj Hr (conj Hat _)))). by eapply asks_same.
Qed.
Lemma serving_heap q h s s' : same_heap s s' -> serving q h s -> serving q h s'.
Proof.
  intros Hh ((Hq & Hok & Hcl) & Hs & Hm). split; [split_and!; [done|by eapply heap_ok|by eapply cells_heap]|]. split; [done|].
  destruct (mr_data q); [|done]. by eapply within_heap.
Qed.
End Within.

Section Stack.
Context {W : Type} {B : SdBus W} {HW : HostWorld W} {Ad : HostAddr} {K : MmcCore W} {L : SslsdLaws W} {CL : CardLaws W}.
Implicit Types (w : W) (s : sd_state) (x : W * sd_state).
Notation G := (M (W * sd_state)).
Notation host x := (host_of (fst x)).
Context (q : mmc_request) (sane_q : sane q) (addr_ok : SDHC_EVT_MAX < TCMD).
Notation blk := (block_of q).

(** The request was answered, [d0] others before it, or its command is with the
    controller; when [sound], the command can be submitted. *)
Definition answered (r : Z) (d0 : nat) (sound : Prop) x : Prop :=
  h_r (st_t (snd x)) = r /\ h_dat (st_t (snd x)) = 0 /\ (sound -> cmd_ok (snd x) TCMD) /\
  (pending (snd x) = [TCMD] /\ dones (fst x) = d0 /\ serving q (host x) (snd x) \/ pending (snd x) = [] /\ dones (fst x) = S d0).

Section Attempts.
Context (mmc : mmc_host) (r : Z) (fd : bool) (idl : option Z) (d0 : nat) (sound : Prop).
Notation steady := (steady mmc r fd idl d0).
Notation ended j := (ended blk mmc r fd idl d0 j sound).
Notation post := (fun _ y => answered r d0 sound y).
Context (clock : clocked q mmc) (unstreamed : sound -> not_stream q).

(** What is called at the end of an attempt. *)
Definition closes (j : nat) (rd : mmc_request -> G unit) : Prop := forall n ok x, ended j n ok x -> wp (rd q) post x.

Lemma serves_answered m f j e l t retry a n y : mr_data q = Some m -> md_stream m = false -> in_u32 (Z.of_nat j) ->
  serves q m f (u16 (md_blksz m)) mmc r fd idl d0 j e l t retry a n y -> pending (snd y) = [TCMD] -> h_dat (st_t (snd y)) = 0 ->
  answered r d0 sound y.
Proof.
  intros Hm Hst Hj (Hy & k & Hk & Ht & Hr & Hh & Has) Hp Hd. unfold sane in sane_q. rewrite Hm in sane_q.
  destruct sane_q as (_ & _ & _ & Hblk & _). pose proof (asks_ok _ _ Hblk addr_ok _ _ _ _ Has) as Hok.
  pose proof Hy as ((Em & Er) & (Ed & _) & (Eh & _) & Hcl). refine (conj Eh (conj Hd (conj (fun _ => Hok) (or_introl (conj Hp (conj Ed _)))))).
  unfold serving, clocked, not_stream in *. rewrite Hm, Em, Er in *. refine (conj (conj (proj1 Hh) (conj Hok Hcl)) (conj (conj Hj (conj Hst clock)) _)).
  exists f, k, e, l, t, retry, a, n. exact (conj Hk (conj Ht (conj Hr (conj Hh Has)))).
Qed.

(** The end of a command without data. *)
Lemma plain_done_run j rd x : closes j rd -> mr_data q = None -> steady j x -> pending (snd x) = [] -> hs_pcmd (host x) = q ->
  hs_error (host x) = 0 -> in_u32 (hs_bytes (host x)) -> cmd_ok (snd x) TCMD -> wp (cmd_done_k rd TCMD) post x.
Proof.
  intros Hrd Hm Hx Hp Hq He Hb Hok. pose proof Hx as (_ & _ & _ & [c Hc] & _).
  apply wp_bind, (stop_run mmc r fd idl d0 j); [done|]. intros w Ew Hw.
  apply wp_bind, the_host_run, wp_bind, (the_cmd_run _ c); [done|]. cbn [fst snd]. rewrite Ew, Hq, Hm. apply wp_bind.
  assert (Hend : forall w', host_of w' = host x \/ host_of w' = set_hs_resp0 (c_rsp c) (host x) -> steady j (w', snd x) ->
    wp (let! c := the_cmd TCMD in (if truth (c_rt c) then upd_host (set_hs_error (rt_error (c_rt c))) else ret tt) ;; rd q) post (w', snd x)).
  { intros w' Ew' Hw'. apply (piece_end_run q blk mmc r fd idl d0 j sound rd (fun _ _ => answered r d0 sound) Hrd c (hs_bytes (host x)) (c_rt c = 0));
      cbn [fst snd]; try done; destruct Ew' as [-> | ->]; try done; cbn; unfold block_of; by rewrite Hm, Z.mul_1_l, u32_id. }
  destruct (decide (mr_resp_type q = MMC_RSP_R2)); [apply wp_ret, Hend; auto|].
  apply wp_bind, (upd_host_run mmc r fd idl d0 j); [done..|]. intros w' Ew' Hw'. apply wp_ret, Hend; [right|done]. rewrite Ew'. cbn [fst]. by rewrite Ew.
Qed.

(** A start without data. *)
Lemma plain_cmd_run c d x (Q : unit -> W * sd_state -> Prop) j : steady j x -> st_cmds (snd x) !! TCMD = Some c -> st_dats (snd x) !! TDAT = Some d ->
  (forall y c' d', host y = set_hs_pcmd q (host x) -> steady j y -> st_t (snd y) = st_t (snd x) ->
    st_cmds (snd y) !! TCMD = Some c' -> c_dat c' = (if decide (mr_resp_type q = MMC_RSP_R2) then TDAT else 0) ->
    st_dats (snd y) !! TDAT = Some d' -> Q tt y) -> wp (start_cmd q) Q x.
Proof.
  intros Hx Hc Hd HQ. apply wp_bind, (upd_cmd_run _ _ c); [done|]. apply wp_bind.
  set (g := fun c => SdCmd (mr_arg q) (c_rsp c) (c_ctx c) (c_rt c) (if decide (mr_resp_type q = MMC_RSP_R2) then TDAT else 0)
    (c_tout c) (u8 (mr_opcode q)) (c_flag c)).
  eapply (wp_mono _ (fun _ y => host y = host x /\ steady j y /\ st_t (snd y) = st_t (snd x) /\
    (exists c', st_cmds (snd y) !! TCMD = Some c' /\ c_dat c' = if decide (mr_resp_type q = MMC_RSP_R2) then TDAT else 0) /\
    exists d', st_dats (snd y) !! TDAT = Some d')).
  - pose proof (on_cmd_same c g (snd x) Hc) as Hc'. pose proof (steady_cmd mmc r fd idl d0 j TCMD g x Hx) as Hx'.
    destruct (decide (mr_resp_type q = MMC_RSP_R2)) as [E|E].
    + apply (upd_dat_run _ _ d); [done|]. split_and!; [done|by apply (steady_dat mmc r fd idl d0 j TDAT _ (fst x, _))|done|by eexists|].
      eexists. by apply on_dat_same.
    + apply wp_ret. split_and!; [done|done|done|by eexists|by exists d].
  - intros ? y (Ew & Hy & Et & (c' & Hc' & Hcd) & d' & Hd'). apply (upd_host_run mmc r fd idl d0 j); [done..|]. intros w Hw Hsw.
    by apply (HQ _ c' d'); cbn [fst snd]; rewrite ?Hw, ?Ew.
Qed.
Lemma plain_begin_run j rd x : closes j rd -> mr_data q = None -> in_u32 (Z.of_nat j) -> steady j x -> pending (snd x) = [] ->
  hs_error (host x) = 0 -> in_u32 (hs_bytes (host x)) -> (sound -> cmd_ok (snd x) TCMD) -> wp (request_k rd q) post x.
Proof.
  intros Hrd Hm Hj Hx Hp He Hb Hok. unfold request_k. apply wp_bind, wp_the_t. destruct (h_fins _); cbn [negb].
  2: { apply (fail_run q blk mmc r fd idl d0 j sound rd (fun _ _ => answered r d0 sound) Hrd _ (hs_bytes (host x))); try done.
       unfold block_of. by rewrite Hm, Z.mul_1_l, u32_id. }
  pose proof Hx as (_ & _ & _ & [c Hc] & (d & Hd & _)). apply wp_bind.
  apply (plain_cmd_run c d _ _ j); [done..|]. intros y c' d' Eh Hy Et Hc' Hcd Hd'. rewrite Hm.
  apply wp_bind, wp_bind, (upd_cmd_run _ _ c'); [done|]. apply wp_ret. cbn [negb].
  set (s := on_cmd TCMD (set_cmd_flag (resp_flag (mr_resp_type q))) (snd y)).
  assert (Hoks : cmd_ok s TCMD).
  { split; [done|]. exists (set_cmd_flag (resp_flag (mr_resp_type q)) c'). split; [by apply on_cmd_same|].
    unfold with_data, data_ok. cbn [c_dat c_flag set_cmd_flag]. rewrite Hcd.
    destruct (mr_resp_type q); (intros Hf; vm_compute in Hf; discriminate Hf) || (intros _; exists d'; by split). }
  apply wp_bind, (start_run mmc r fd idl d0 j); [by apply steady_cmd|]. cbn [fst snd]. intros w Ew Hw. apply wp_bind.
  eapply wp_mono; [apply (take_run mmc r fd idl d0 j (w, s) addr_ok Hw); [unfold pending; cbn; by rewrite Et|done]|]. cbn beta.
  intros rt z (Ez & Hz & Hokz & _ & Hpz & Hdz & _). cbn [fst snd] in *. specialize (Hokz _ Hoks).
  change (truth rt) with (negb (rt =? 0)). rewrite Ew, Eh in Ez. destruct (rt =? 0); cbn [negb].
  - apply wp_ret. pose proof Hz as ((Em & Er) & (Ed & _) & (Ehr & _) & Hcl).
    refine (conj Ehr (conj Hdz (conj (fun _ => Hokz) (or_introl (conj Hpz (conj Ed _)))))).
    unfold serving, clocked, not_stream. rewrite Hm, Er, Ez. by split_and!.
  - apply (plain_done_run j rd z Hrd Hm Hz Hpz); rewrite ?Ez; try done.
Qed.

(** A start with data. *)
Lemma data_begin_run m j n rd x : closes j rd -> mr_data q = Some m -> in_u32 (Z.of_nat j) -> steady j x -> pending (snd x) = [] ->
  hs_error (host x) = 0 -> hs_bytes (host x) = u32 (blk * n) -> (sound -> cmd_ok (snd x) TCMD) -> wp (request_k rd q) post x.
Proof.
  intros Hrd Hm Hj Hx Hp He Hb Hok. pose proof sane_q as Hs. pose proof clock as Hclk. pose proof unstreamed as Hun.
  unfold closes, block_of, sane, clocked, not_stream in Hrd, Hb, Hs, Hclk, Hun. rewrite Hm in Hrd, Hb, Hs, Hclk, Hun. destruct Hs as (Hrsp & Harg & Hne & Hblk & Hsgs).
  eapply wp_mono; [apply (request_run q m (request_flag q m fd) (u16 (md_blksz m)) mmc r fd idl d0 j sound Hblk addr_ok Hsgs Hm Hrsp rd
    (fun _ _ => answered r d0 sound) Hrd n x); try done; tauto|].
  cbn beta. intros ? y [Hy|(Hst & e & l & _ & [(Hs & Hpy & Hdy)|(v & rt & _ & _ & _ & [(e' & l' & t' & retry' & Hs & Hpy & Hdy & _)|(ok & Hy & _)])])];
    [done|by eapply serves_answered|by eapply serves_answered|done].
Qed.

Lemma begin_run j n rd x : closes j rd -> in_u32 (Z.of_nat j) -> steady j x -> pending (snd x) = [] ->
  hs_error (host x) = 0 -> hs_bytes (host x) = u32 (blk * n) -> (sound -> cmd_ok (snd x) TCMD) -> wp (request_k rd q) post x.
Proof.
  intros Hrd Hj Hx Hp He Hb Hok. destruct (mr_data q) as [m|] eqn:Em; [by eapply data_begin_run|].
  apply (plain_begin_run j); try done. rewrite Hb. apply u32_range.
Qed.

(** The core's answer, or the next attempt. *)
Lemma done_closes j : in_u32 (Z.of_nat j) -> closes j (request_done_n j).
Proof.
  induction j as [|j IH]; intros Hj n ok x Hx; cbn [request_done_n]; apply wp_bind, the_host_run;
    pose proof Hx as (((Hm & Hre) & (Hd & Hi) & (Hr & Hf) & Hcl) & Hp & Hb & _ & Hok).
  all: assert (Hdone : wp (io mrq_done) post x) by (destruct (done_law (fst x)) as (w & E & El); apply (kernel_run _ _ _ _ _ E);
    unfold seen in El; injection El as E1 E2 _; destruct (pending_nil _ Hp) as [_ Hdat];
    refine (conj Hr (conj Hdat (conj Hok (or_intror (conj Hp _))))); cbn [fst]; congruence).
  - rewrite Hre, andb_false_r. exact Hdone.
  - destruct (_ && _); [|exact Hdone]. apply wp_bind. destruct x as [w s]. apply wp_io, wp_modify. cbn [fst snd] in *.
    pose proof (seen_set (once_more (host_of w)) w) as Hs. unfold seen in Hs. injection Hs as E1 _ _.
    assert (Hju : in_u32 (Z.of_nat j)) by (unfold in_u32 in *; lia).
    apply (begin_run j n); [by apply IH|done| |done|cbn [fst]; by rewrite E1..|done].
    apply (steady_set mmc r fd idl d0 j _ (w, s)); [exact Hm| |by split|by split|exact Hcl].
    cbn. rewrite Hre, u32_id; unfold in_u32 in *; lia.
Qed.
Lemma core_closes j : in_u32 (Z.of_nat j) -> closes j mmc_request_done.
Proof.
  intros Hj n ok x Hx. apply wp_bind, the_host_run. pose proof Hx as (((_ & ->) & _) & _). rewrite Nat2Z.id. by eapply done_closes.
Qed.
End Attempts.

(** The controller is done with the command: the request goes on, is answered, or
    starts again. *)
Lemma cmd_keeps x : serving q (host x) (snd x) -> pending (snd x) = [] ->
  wp (sslsd_cmd_done TCMD) (fun _ y => answered (h_r (st_t (snd x))) (dones (fst x)) True y) x.
Proof.
  intros ((Hq & Hok & Hcl) & (Hj & Hst & Hclk) & Hm) Hp.
  set (mmc := hs_mmc (host x)). set (r := h_r (st_t (snd x))). set (fd := h_fdma (st_t (snd x))). set (idl := idle_at (fst x)). set (d0 := dones (fst x)).
  set (j := Z.to_nat (hs_retries (host x))). assert (Ej : hs_retries (host x) = Z.of_nat j) by (unfold in_u32 in *; lia).
  assert (Hx : steady mmc r fd idl d0 j x) by exact (conj (conj eq_refl Ej) (conj (conj eq_refl eq_refl) (conj (conj eq_refl eq_refl) Hcl))).
  rewrite Ej in Hj. clearbody j. pose proof (core_closes mmc r fd idl d0 True Hclk (fun _ => Hst) j Hj) as Hrd. unfold sslsd_cmd_done.
  destruct (mr_data q) as [m|] eqn:Em; [|destruct Hm; by eapply plain_done_run].
  destruct Hm as (f & k & e & l & t & retry & a & n & Hk & Ht & Hr & Hh & Has).
  pose proof sane_q as Hs. pose proof Hst as Hnst. unfold closes, block_of, sane, not_stream in Hrd, Hs, Hnst. rewrite Em in Hrd, Hs, Hnst.
  destruct Hs as (Hrsp & _ & _ & Hblk & Hsgs).
  pose proof Has as ((c & Hc & _) & d & Hd & _). destruct Hcl as [_ (d' & Hd' & Hpos)]. assert (d' = d) as -> by congruence.
  eapply wp_mono; [apply (cmd_done_run q m f (u16 (md_blksz m)) mmc r fd idl d0 j True Hblk addr_ok Hsgs Em Hrsp mmc_request_done
    (fun _ _ => answered r d0 True) Hrd e l t retry a n (dat_actual d) (c_rt c) c d); try done|].
  { split; [done|]. exists k. exact (conj Hk (conj Ht (conj Hr (conj Hh Has)))). }
  cbn beta. intros ? y [(e' & l' & t' & retry' & Hs & Hpy & Hdy & _)|(ok & Hy & _)]; [by eapply (serves_answered mmc r fd idl d0 True)|done].
Qed.

(** The core hands a request over. *)
Lemma start_keeps x : clocked q (hs_mmc (host x)) -> in_u32 (mr_retries q) -> cells (snd x) -> pending (snd x) = [] ->
  wp (mmc_start_request q) (fun _ y => answered (h_r (st_t (snd x))) (dones (fst x)) False y) x.
Proof.
  intros Hclk Hre Hcl Hp. apply wp_bind. destruct x as [w s]. apply wp_io, wp_modify. cbn [fst snd] in *.
  pose proof (seen_set (hand_over q (host_of w)) w) as Hs. unfold seen in Hs. injection Hs as E1 _ _.
  set (j := Z.to_nat (mr_retries q)). assert (Hj : in_u32 (Z.of_nat j)) by (unfold in_u32 in *; lia).
  apply (begin_run (hs_mmc (host_of w)) (h_r (st_t s)) (h_fdma (st_t s)) (idle_at w) (dones w) False Hclk (fun F => match F with end) j 0);
    cbn [fst snd]; [by apply core_closes|done| |done|by rewrite E1|by rewrite E1, Z.mul_0_r|done].
  apply (steady_set (hs_mmc (host_of w)) (h_r (st_t s)) (h_fdma (st_t s)) (idle_at w) (dones w) j _ (w, s)); [done| |done|done|done].
  cbn. unfold in_u32 in *. lia.
Qed.

(** ** The card driver is a client of the controller's *)
#[local] Instance card_client : SdClient W := sslsd_client.
#[local] Instance card_driver (d0 : nat) : Client W (sslsd_host * nat * option Z).
Proof using sane_q addr_ok CL.
  refine {| client_obs := sslsd_observed;
    good a s p := p = TCMD /\ cmd_ok s TCMD /\ (snd (fst a) = d0 -> serving q (fst (fst a)) s);
    kept a ps := (snd (fst a) + length ps)%nat = S d0 |}.
  - by intros a s p [-> [Hok _]].
  - intros a s s' p Hh (-> & Hok & Hs). split_and!; [done|by eapply heap_ok|]. intros E. by eapply serving_heap; [|apply Hs].
  - intros ctx ev w s Hev. cbn [sd_evt card_client sslsd_client]. unfold sslsd_evt. rewrite Z.gtb_ltb, (proj2 (Z.ltb_ge _ _)) by done.
    destruct (_ || _); [|destruct (_ =? _); [|by exists w]].
    + destruct (detect_law w) as (w' & E & El). exists w'. unfold io, zoom. cbn [fst snd obs sslsd_observed]. rewrite E, El. auto.
    + destruct (signal_law w) as (w' & E & El). exists w'. unfold io, zoom. cbn [fst snd obs sslsd_observed]. rewrite E, El. auto.
  - intros ctx ev w s (-> & Hok & Hs) Hp Hk. cbn [sd_evt card_client sslsd_client length] in *. unfold sslsd_evt. rewrite Z.gtb_ltb, (proj2 (Z.ltb_lt _ _)) by done.
    cbn [obs sslsd_observed seen fst snd] in *. assert (E0 : dones w = d0) by lia.
    pose proof (cmd_keeps (w, s) (Hs E0) Hp) as H. apply wp_run in H as ([] & [w' s'] & E & Hr & Hd & Hoks & Hpd). cbn [fst snd] in *.
    assert (Hg : cmd_ok s' TCMD /\ (dones w' = d0 -> serving q (host_of w') s')).
    { split; [by apply Hoks|]. destruct Hpd as [(_ & _ & ?)|[_ ?]]; [done|lia]. }
    exists w', s'. split_and!; [done|by intros p [-> _]| |done|done|].
    + destruct Hpd as [(-> & -> & _)|[-> ->]]; cbn; lia.
    + destruct Hpd as [(-> & _)|[-> _]]; [right; by exists TCMD|by left].
Defined.

(** ** Interrupts and time-outs *)
Context {r lim : Z} {De : DmaEngine W r lim} {Cfg : SdConfig} (fuel_enough : (lim + 1) * 202 < Z.of_nat sd_fuel).

(** What wakes the drivers while a request is with them. *)
Inductive wake := Irq | Timeout.
Definition wake_step (o : wake) : G unit := match o with Irq => sslsd_irq ;; ret tt | Timeout => sslsd_tout end.
Fixpoint wakes (h : list wake) : G unit := match h with [] => ret tt | o :: h => wake_step o ;; wakes h end.

Notation acc d0 := (account (Cl := card_driver d0) (r := r) [] []).
Lemma answered_account d0 x : answered r d0 False x -> acc d0 x.
Proof.
  intros (Hr & Hd & _ & Hx). split; [split; [done|constructor]|].
  assert (Hk : (dones (fst x) + length (pending (snd x)))%nat = S d0) by (destruct Hx as [(-> & -> & _)|[-> ->]]; cbn; lia).
  cbn [app]. split_and!; [|  |done|exact Hk]; destruct Hx as [(-> & _ & Hs)|[-> _]]; cbn; try lia; [|constructor].
  constructor; [|constructor]. split; [done|]. split; [apply Hs|done].
Qed.
Lemma wakes_run d0 h x : acc d0 x -> wp (wakes h) (fun _ y => acc d0 y) x.
Proof.
  revert x. induction h as [|o h IH]; intros x Hx; cbn [wakes]; [by apply wp_ret|].
  apply wp_bind. eapply (wp_mono _ (fun _ y => acc d0 y)); [|intros ? y; apply IH].
  destruct o; cbn [wake_step].
  - apply wp_bind. eapply wp_mono; [by apply (isr_run (Cl := card_driver d0) fuel_enough [] x)|]. intros ? y Hy. by apply wp_ret.
  - eapply wp_mono; [by apply (flush_run (Cl := card_driver d0) (r := r) [] x)|]. by intros ? y [Hy _].
Qed.
End Stack.

(** C23. A request is answered exactly once, whatever the registers of the
    controller read, and however often and in whatever order it interrupts and
    the timer of the request runs out: the two drivers and the core, which hands a
    failed request with retries left to the card driver again inside the driver's
    own call, return from each of these, and at any time the request has been
    answered and no command is with the controller, or it has not and its one
    command is.  A transfer the controller is asked for is inside an entry of the
    request's list, also when the count it reports of the last one is not. *)
Theorem answered_once {W : Type} {B : SdBus W} {HW : HostWorld W} {Ad : HostAddr} {K : MmcCore W} {L : SslsdLaws W} {CL : CardLaws W}
    {Cfg : SdConfig} (lim : Z) (q : mmc_request) (h : list wake) (w : W) s c d {De : DmaEngine W (h_r (st_t s)) lim} :
  (lim + 1) * 202 < Z.of_nat sd_fuel -> SDHC_EVT_MAX < TCMD -> sane q -> clocked q (hs_mmc (host_of w)) -> in_u32 (mr_retries q) ->
  pending s = [] -> st_cmds s !! TCMD = Some c -> st_dats s !! TDAT = Some d -> 0 <= dat_actual d ->
  exists w1 s1, (mmc_start_request q ;; wakes h) (w, s) = Done tt (w1, s1) /\
    (pending s1 = [] /\ dones w1 = S (dones w) \/
     pending s1 = [TCMD] /\ dones w1 = dones w /\ forall m, mr_data q = Some m -> in_entry m s1).
Proof.
  intros Hfuel Htc Hq Hclk Hre Hp Hc Hd Hn.
  assert (Hcl : cells s) by exact (conj (mk_is_Some _ _ Hc) (ex_intro _ d (conj Hd Hn))).
  assert (Hrun : wp (mmc_start_request q ;; wakes h) (fun _ y => account (Cl := card_driver q Hq Htc (dones w)) (r := h_r (st_t s)) [] [] y) (w, s)).
  { apply wp_bind. eapply wp_mono; [by apply (start_keeps q Hq Htc (w, s))|]. cbn beta. intros ? y Hy.
    apply (wakes_run q Hq Htc Hfuel). by apply (answered_account q Hq Htc). }
  apply wp_run in Hrun as ([] & [w1 s1] & E & _ & Hlen & Hgood & _ & Hkept). exists w1, s1. split; [exact E|].
  change ((dones w1 + length (pending s1))%nat = S (dones w)) in Hkept. cbn [app fst snd] in *.
  destruct (pending s1) as [|p l]; [left; split; [done|cbn in Hkept; lia]|right].
  apply Forall_inv in Hgood as (-> & _ & Hs). destruct l; [|cbn in Hlen; lia]. cbn in Hkept. assert (Ed : dones w1 = dones w) by lia.
  split_and!; [done|done|]. destruct (Hs Ed) as (_ & _ & Hm).
  intros m Em. rewrite Em in Hm. eapply within_entry; [|exact Hm]. pose proof Hq as Hsane. unfold sane in Hsane. rewrite Em in Hsane. apply Hsane.
Qed.

(** ** The drivers at work

    A controller that always reports the end of the command and of the data and
    that a block can be read; the kernel counts the answers. *)
Record stacksim := StackSim { sk_host : sslsd_host; sk_dones : nat }.
#[local] Instance sk_addr : HostAddr := {| TCMD := 16; TDAT := 32 |}.
#[local] Instance sk_bus : SdBus stacksim := {|
  sdb_rd _ a w := (if a =? 256 + sd_ista then 0x23 else if a =? 256 + sd_sta then SDHC_STA_RRDY else 0, w);
  sdb_wr _ _ _ w := w; sdb_delay _ w := w |}.
#[local] Instance sk_world : HostWorld stacksim := {| host_of := sk_host; set_host h w := StackSim h (sk_dones w) |}.
#[local] Instance sk_core : MmcCore stacksim := {|
  mrq_done := modify (fun w => StackSim (sk_host w) (S (sk_dones w)));
  mmc_detect_change := ret tt; mmc_signal_sdio_irq := ret tt; start_timer _ := ret tt; stop_timer := ret tt;
  dma_map_sg _ n _ := ret n; dma_unmap_sg _ _ _ := ret tt |}.
#[local] Instance sk_laws : SslsdLaws stacksim.
Proof.
  refine {| dones := sk_dones; idle_at _ := None |}; try done; try by (intros; eexists). intros i n b w. exists n, w. auto.
Defined.
#[local] Instance sk_card_laws : CardLaws stacksim.
Proof. by split; intros; eexists. Defined.
#[local] Instance sk_engine : DmaEngine stacksim 256 0.
Proof. refine {| dma_pos _ := 0 |}; (done || (intros; lia)). Defined.
#[local] Instance sk_config : SdConfig := {| sd_fuel := 300; wp_inverted := false |}.

(** A read of five blocks of four bytes into two entries. *)
Definition sk_data : mmc_data := MmcData false false 5 4 0 0 [Sg 8192 0 8; Sg 16384 0 12].
Definition sk_request : mmc_request := MmcRequest 18 4096 MMC_RSP_R1 0 (Some sk_data) true 2.
Definition sk_driver : sslsd_host := Host sk_request 0 0 0 0 0 0 0 0 0 (MmcHost false false true 25000000).
Definition sk_state : sd_state := SdState (Sdhc 256 0 500 50000 0 false false false 0 false true 0 0 0)
  {[16 := SdCmd 0 0 0 0 0 0 0 0]} {[32 := SdDat 0 0 0 0]} (fun _ => 0).

Lemma answered_once_witness : exists w1 s1,
  (mmc_start_request sk_request ;; wakes [Irq; Irq; Timeout; Irq]) (StackSim sk_driver 0, sk_state) = Done tt (w1, s1) /\
  dones w1 = 1%nat /\ hs_bytes (host_of w1) = 20 /\ hs_error (host_of w1) = 0.
Proof.
  destruct (answered_once (De := sk_engine) 0 sk_request [Irq; Irq; Timeout; Irq] (StackSim sk_driver 0) sk_state
    (SdCmd 0 0 0 0 0 0 0 0) (SdDat 0 0 0 0)) as (w1 & s1 & E & Hend); [by vm_compute|by vm_compute| |by vm_compute|..|exists w1, s1].
  - split; [discriminate|]. split; [by vm_compute|]. split; [discriminate|]. split; [reflexivity|].
    repeat (apply Forall_cons_2; [by vm_compute|]). by apply Forall_nil_2.
  - by vm_compute.
  - by vm_compute.
  - by vm_compute.
  - by vm_compute.
  - by vm_compute.
  - assert (Er : match (mmc_start_request sk_request ;; wakes [Irq; Irq; Timeout; Irq]) (StackSim sk_driver 0, sk_state) with
      | Done _ y => Some (pending (snd y), hs_bytes (host_of (fst y)), hs_error (host_of (fst y))) | Crash _ => None end = Some ([], 20, 0)) by by vm_compute.
    rewrite E in Er. injection Er as Ep Eb Ee. cbn [fst snd] in *. split; [exact E|]. split; [|split; [exact Eb|exact Ee]].
    destruct Hend as [[_ Hd]|[Hp _]]; [exact Hd|]. rewrite Ep in Hp. discriminate.
Defined.
