(* ===== verification/MagusSslsdProbe.v ===== *)
(** * The SD card host driver comes and goes

    [sslsd_probe], [sslsd_remove], [sslsd_suspend], [sslsd_resume] and the power
    attribute of [BSP/oss/sdhc/ssl_sd.c], built as its Makefile builds it
    ([IO_MAP] and [SD_DMA] are 1), with the functions of [drivers/mmc/core/host.c]
    by which the host is made known to the MMC core.  The services of the rest of
    the kernel are the parameter [SdPlatform]; [SdLedger] states what they
    document about the resources a driver holds. *)

From Stdlib Require Import ZArith Lia Bool.
From stdpp Require Import base numbers list gmap.
From S2P Require Import Prelude CMonad DevIO MagusSdhc MagusSdhcQuiet MagusSslsd.

Definition ENXIO : Z := 6.
Definition EBUSY : Z := 16.
Definition ENODEV : Z := 19.
Definition NO_IRQ : Z := 0xFFFFFFFF.
Definition PM_EVENT_ON : Z := 0.
Definition PM_EVENT_SUSPEND : Z := 2.

(** A null pointer is 0. [platform_resources] answers the memory resource and
    the number of the interrupt, [kzalloc_host] an initialised device,
    [idr_get_new] an error and a number, [core_detach] is what [mmc_stop_host]
    does to the card. *)
Class SdPlatform (W : Type) := {
  platform_resources : M W (Z * Z);
  kzalloc_host : M W Z;
  put_device : Z -> M W unit;
  idr_pre_get : M W bool;
  idr_get_new : Z -> M W (Z * Z);
  idr_remove : Z -> M W unit;
  led_trigger_register : Z -> M W unit;
  led_trigger_unregister : Z -> M W unit;
  device_add : Z -> M W Z;
  device_del : Z -> M W unit;
  core_detect_change : M W unit;
  core_detach : M W unit;
  sd_ioremap : Z -> M W Z;
  sd_iounmap : Z -> M W unit;
  sd_request_irq : Z -> Z -> M W Z;
  sd_free_irq : Z -> Z -> M W unit;
  init_timer : M W unit;
  del_timer : M W unit;
  sysfs_create_group : M W Z;
  sysfs_remove_group : M W unit;
  sd_disable_irq : Z -> M W unit;
  sd_enable_irq : Z -> M W unit;
  mmc_suspend_host : Z -> M W Z;
  mmc_resume_host : Z -> M W Z }.

(** The variables of the module: [clk], [tout], [sd_clk] and [sdhc_irq]. *)
Record sslsd_vars := Vars { v_clk : Z; v_tout : Z; v_sd_clk : Z; v_irq : Z }.
(** What a probe leaves with the device: the host, its number, and what it
    promises the core of the controller. *)
Record sslsd_dev := Dev {
  sv_mmc : Z; sv_index : Z; sv_irq : Z; sv_f_min : Z; sv_f_max : Z; sv_ocr_avail : Z; sv_caps : Z; sv_max_blk_size : Z }.

Definition MMC_CAP_4_BIT_DATA : Z := 1.
Definition MMC_CAP_MULTIWRITE : Z := 2.
Definition MMC_CAP_SD_HIGHSPEED : Z := 8.
Definition MMC_CAP_SDIO_IRQ : Z := 16.

(** ** The host in the MMC core

    [host.c], and from [core.c] what it calls.  The core reaches the driver
    through [host->ops]; with the clock, the power and the width of a host that
    is switched off, [set_ios] is [sslsd_set_ios 0 0 0 false]. *)
Section MmcHost.
Context {W : Type} `{SdBus W} `{SdPlatform W}.
Notation G := (M (W * sd_state)).

Definition mmc_alloc_host : G Z := io kzalloc_host.
Definition mmc_free_host (p : Z) : G unit := io (put_device p).

Definition mmc_power_off : G unit := sslsd_set_ios 0 0 0 false.
Definition mmc_start_host : G unit := mmc_power_off ;; io core_detect_change.
Definition mmc_stop_host : G unit := io core_detach ;; mmc_power_off.

(** Answers the error and [host->index], which [mmc_alloc_host] set to 0. *)
Definition mmc_add_host (p : Z) : G (Z * Z) :=
  let! ok := io idr_pre_get in
  if negb ok then ret (- ENOMEM, 0)
  else
    let! r := io (idr_get_new p) in
    if truth (fst r) then ret (fst r, 0)
    else
      io (led_trigger_register p) ;;
      let! err := io (device_add p) in
      if truth err then ret (err, snd r)
      else mmc_start_host ;; ret (0, snd r).

Definition mmc_remove_host (p index : Z) : G unit :=
  mmc_stop_host ;;
  io (device_del p) ;;
  io (led_trigger_unregister p) ;;
  io (idr_remove index).
End MmcHost.

Section Probe.
Context {W : Type} `{SdBus W} `{SdPlatform W}.
Notation G := (M (W * sd_state)).

(** [host->hw], before and after the fields of the caller are set. *)
Definition zero_t (r : Z) : sdhc_t := Sdhc r 0 0 0 0 false false false 0 false false 0 0 0.
Definition set_clocks (host clk tout : Z) (t : sdhc_t) : sdhc_t :=
  Sdhc (h_r t) host (u16 (clk / 100000)) (tout / 1000) (h_ocr t) (h_fhspeed t) (h_fdma t) (h_fsuspend t) (h_maxblksz t)
    (h_fwp t) (h_fins t) (h_ver t) (h_cmd t) (h_dat t).
Definition sslsd_caps (mmc index irq sd_clk : Z) (t : sdhc_t) : sslsd_dev :=
  Dev mmc index irq 100000 (if h_fhspeed t then 50000000 else sd_clk) (h_ocr t)
    (Z.lor (Z.lor (Z.lor MMC_CAP_4_BIT_DATA MMC_CAP_MULTIWRITE) MMC_CAP_SDIO_IRQ) (if h_fhspeed t then MMC_CAP_SD_HIGHSPEED else 0))
    (Z.shiftl 1 (9 + h_maxblksz t)).

Definition unmap_regs : G unit := let! t := the_t in io (sd_iounmap (u32 (h_r t - 0x100))).

(** The answer of [mmc_add_host] is dropped. *)
Definition sslsd_probe (v : sslsd_vars) : G (Z * sslsd_vars * option sslsd_dev) :=
  let v := Vars (v_clk v) (v_tout v) (u32 (v_sd_clk v * 1000000)) (v_irq v) in
  let! rs := io platform_resources in
  let r := fst rs in
  let irq := snd rs in
  if (r =? 0) || (u32 irq =? NO_IRQ) then ret (- ENXIO, v, None)
  else
    let! mmc := mmc_alloc_host in
    if mmc =? 0 then ret (- ENOMEM, v, None)
    else
      let! base := io (sd_ioremap r) in
      upd_t (on_t (fun _ => zero_t (u32 base))) ;;
      if u32 base =? 0 then unmap_regs ;; mmc_free_host mmc ;; ret (- EBUSY, v, None)
      else
        upd_t (on_t (fun t => zero_t (u32 (h_r t + 0x100)))) ;;
        let clk := if negb (truth (v_clk v)) then 25000000 else v_clk v in
        let tout := if negb (truth (v_tout v)) then clk else v_tout v in
        let v := Vars clk tout (v_sd_clk v) (v_irq v) in
        upd_t (on_t (set_clocks mmc clk tout)) ;;
        let! rt := sdhc_init in
        if truth rt then mmc_free_host mmc ;; ret (- ENODEV, v, None)
        else
          let! t := the_t in
          let v := Vars (v_clk v) (v_tout v) (v_sd_clk v) irq in
          let! e := io (sd_request_irq irq mmc) in
          if truth e then sdhc_exit ;; unmap_regs ;; mmc_free_host mmc ;; ret (e, v, None)
          else
            io init_timer ;;
            let! added := mmc_add_host mmc in
            io sysfs_create_group ;;
            ret (0, v, Some (sslsd_caps mmc (snd added) irq (v_sd_clk v) t)).

Definition sslsd_remove (d : sslsd_dev) : G Z :=
  io del_timer ;;
  sdhc_exit ;;
  mmc_remove_host (sv_mmc d) (sv_index d) ;;
  io (sd_free_irq (sv_irq d) (sv_mmc d)) ;;
  unmap_regs ;;
  mmc_free_host (sv_mmc d) ;;
  io sysfs_remove_group ;;
  ret 0.

Definition sslsd_suspend (v : sslsd_vars) (d : sslsd_dev) : G Z :=
  io (sd_disable_irq (v_irq v)) ;; io (mmc_suspend_host (sv_mmc d)).
Definition sslsd_resume (v : sslsd_vars) (d : sslsd_dev) : G Z :=
  io (sd_enable_irq (v_irq v)) ;; io (mmc_resume_host (sv_mmc d)).

(** A write of the number [i] to the power attribute, in state [event]; answers
    the new state. *)
Definition sslsd_store (v : sslsd_vars) (d : sslsd_dev) (event i : Z) : G Z :=
  if i =? event then ret event
  else if i =? PM_EVENT_SUSPEND then sslsd_suspend v d ;; ret i
  else if i =? PM_EVENT_ON then sslsd_resume v d ;; ret i
  else ret 0.
End Probe.

(** ** The resources the driver holds *)
Inductive sd_res := SHost (p : Z) | SMap (v : Z) | SIrq (irq dev : Z) | SIdr (index : Z) | SDev (p : Z).
#[global] Instance sd_res_eq_dec : EqDecision sd_res.
Proof. solve_decision. Defined.

(** What was acquired is new; a release takes away what it names, if it is
    there; the registers and the other services hold nothing. *)
Class SdLedger (W : Type) `{SdBus W} `{SdPlatform W} := {
  sd_held : W -> list sd_res;
  sd_held_rd k a w : sd_held (snd (sdb_rd k a w)) = sd_held w;
  sd_held_wr k a d w : sd_held (sdb_wr k a d w) = sd_held w;
  sd_held_delay us w : sd_held (sdb_delay us w) = sd_held w;
  resources_held w : wp platform_resources (fun _ w' => sd_held w' = sd_held w) w;
  alloc_held w : wp kzalloc_host (fun p w' =>
    if p =? 0 then sd_held w' = sd_held w else sd_held w' = SHost p :: sd_held w /\ SHost p ∉ sd_held w) w;
  host_held p w : wp (put_device p) (fun _ w' => sd_held w' = filter (fun x => x <> SHost p) (sd_held w)) w;
  map_held r w : wp (sd_ioremap r) (fun v w' => in_u32 v /\
    if v =? 0 then sd_held w' = sd_held w else sd_held w' = SMap v :: sd_held w /\ SMap v ∉ sd_held w) w;
  unmap_held v w : wp (sd_iounmap v) (fun _ w' => sd_held w' = filter (fun x => x <> SMap v) (sd_held w)) w;
  req_held irq dev w : wp (sd_request_irq irq dev) (fun e w' =>
    if truth e then sd_held w' = sd_held w else sd_held w' = SIrq irq dev :: sd_held w /\ SIrq irq dev ∉ sd_held w) w;
  irq_free_held irq dev w : wp (sd_free_irq irq dev) (fun _ w' => sd_held w' = filter (fun x => x <> SIrq irq dev) (sd_held w)) w;
  pre_held w : wp idr_pre_get (fun _ w' => sd_held w' = sd_held w) w;
  get_held p w : wp (idr_get_new p) (fun r w' =>
    if truth (fst r) then sd_held w' = sd_held w else sd_held w' = SIdr (snd r) :: sd_held w /\ SIdr (snd r) ∉ sd_held w) w;
  idr_held n w : wp (idr_remove n) (fun _ w' => sd_held w' = filter (fun x => x <> SIdr n) (sd_held w)) w;
  dev_held p w : wp (device_add p) (fun e w' =>
    if truth e then sd_held w' = sd_held w else sd_held w' = SDev p :: sd_held w /\ SDev p ∉ sd_held w) w;
  del_held p w : wp (device_del p) (fun _ w' => sd_held w' = filter (fun x => x <> SDev p) (sd_held w)) w;
  core_held w : wp core_detect_change (fun _ w' => sd_held w' = sd_held w) w /\ wp core_detach (fun _ w' => sd_held w' = sd_held w) w;
  led_held p w : wp (led_trigger_register p) (fun _ w' => sd_held w' = sd_held w) w /\
    wp (led_trigger_unregister p) (fun _ w' => sd_held w' = sd_held w) w;
  timer_held w : wp init_timer (fun _ w' => sd_held w' = sd_held w) w /\ wp del_timer (fun _ w' => sd_held w' = sd_held w) w;
  sysfs_held w : wp sysfs_create_group (fun _ w' => sd_held w' = sd_held w) w /\
    wp sysfs_remove_group (fun _ w' => sd_held w' = sd_held w) w }.
#[global] Instance sd_ledger_observed {W} `{SdLedger W} : Observed W (list sd_res) :=
  {| obs := sd_held; obs_rd := sd_held_rd; obs_wr := sd_held_wr; obs_delay := sd_held_delay |}.

Section Ledger.
Context {W : Type} {B : SdBus W} {P : SdPlatform W} {L : SdLedger W}.
Implicit Types (w : W) (s : sd_state) (x : W * sd_state).
Notation G := (M (W * sd_state)).
Notation held x := (sd_held (fst x)).
Notation base x := (h_r (st_t (snd x))).

(** Operations that hold what they held, on the same registers. *)
Definition tame {A} (m : G A) : Prop := forall x, wp m (fun _ y => base y = base x /\ held y = held x) x.
Lemma tame_still {A} (m : G A) : still (T := list sd_res) m -> tame m.
Proof. intros Hm x. eapply wp_mono; [apply Hm|]. cbn beta. intros a y [-> E]. by split. Qed.
Lemma tame_bind {A D} (m : G A) (k : A -> G D) : tame m -> (forall a, tame (k a)) -> tame (bind m k).
Proof.
  intros Hm Hk x. apply wp_bind. eapply wp_mono; [apply Hm|]. cbn beta. intros a y [E1 E2].
  eapply wp_mono; [apply (Hk a)|]. cbn beta. intros b z [F1 F2]. split; congruence.
Qed.
Lemma tame_if {A} (b : bool) (m1 m2 : G A) : tame m1 -> tame m2 -> tame (if b then m1 else m2).
Proof. by destruct b. Qed.
Lemma tame_upd f : (forall t, h_r (f t) = h_r t) -> tame (upd_t (on_t f)).
Proof. intros Hf [w s]. apply wp_upd_t. split; [apply Hf|done]. Qed.
Lemma still_io_rd k a : still (T := list sd_res) (io (io_rd k a)).
Proof. intros [w s]. apply wp_io. unfold wp, io_rd. pose proof (sd_held_rd k a w) as Hl. by destruct (sdb_rd k a w). Qed.
Lemma still_io_wr k a d : still (T := list sd_res) (io (io_wr k a d)).
Proof. intros [w s]. apply wp_io, wp_modify. split; [done|]. apply sd_held_wr. Qed.
Hint Resolve still_io_rd still_io_wr : still.

Lemma init_tame : tame sdhc_init.
Proof.
  unfold sdhc_init. cbv zeta.
  repeat first [apply tame_still; solve [auto 10 with still]|apply tame_bind; [|intros ?]|apply tame_if|apply tame_upd; done].
Qed.
Lemma exit_tame : tame sdhc_exit.
Proof. apply tame_still. unfold sdhc_exit. auto 10 with still. Qed.

Lemma power_off_tame : tame mmc_power_off.
Proof.
  apply tame_still. unfold mmc_power_off, sslsd_set_ios, sdhc_set_clk, sdhc_set_pwr, sdhc_set_width.
  change (truth 0) with false. cbv iota. change (truth 0) with false. cbn [negb].
  repeat lazymatch goal with
  | |- still (poll _ _ _ _) => apply still_poll
  | |- still (bind _ _) => apply still_bind; [|intros ?]
  | |- still (if _ then _ else _) => apply still_if
  | |- still (ret _) => apply still_ret
  | |- still (rd _ _) => apply still_rd
  | |- still (wr _ _ _) => apply still_wr
  end.
Qed.

(** A call of the kernel. *)
Lemma call_run {A} (m : M W A) (R : A -> W -> Prop) x (Q : A -> W * sd_state -> Prop) :
  wp m R (fst x) -> (forall a w, R a w -> Q a (w, snd x)) -> wp (io m) Q x.
Proof. destruct x as [w s]. intros Hm HQ. apply wp_io. eapply wp_mono; [exact Hm|]. exact HQ. Qed.
Lemma free_unmap_run v l x (Q : unit -> W * sd_state -> Prop) : in_u32 v -> base x = u32 (v + 0x100) -> held x = SMap v :: l -> SMap v ∉ l ->
  (forall y, held y = l -> base y = base x -> Q tt y) -> wp unmap_regs Q x.
Proof.
  intros Hv Hb Hl Hn HQ. apply wp_bind, wp_the_t. rewrite Hb. assert (E : u32 (u32 (v + 0x100) - 0x100) = v).
  { unfold u32. rewrite Zminus_mod_idemp_l. replace (v + 0x100 - 0x100) with v by lia. by apply u32_id. }
  rewrite E. eapply call_run; [apply unmap_held|]. cbn beta. intros [] w Ew. rewrite Hl, release_head in Ew by done. by apply HQ.
Qed.
Lemma free_host_run p l x (Q : unit -> W * sd_state -> Prop) : held x = SHost p :: l -> SHost p ∉ l ->
  (forall y, held y = l -> Q tt y) -> wp (mmc_free_host p) Q x.
Proof.
  intros Hl Hn HQ. eapply call_run; [apply host_held|]. cbn beta. intros [] w Ew. rewrite Hl, release_head in Ew by done. by apply HQ.
Qed.
Lemma tame_run {A D} (m : G A) (k : A -> G D) (Q : D -> W * sd_state -> Prop) x : tame m ->
  (forall a y, base y = base x -> held y = held x -> wp (k a) Q y) -> wp (bind m k) Q x.
Proof. intros Hm Hk. apply wp_bind. eapply wp_mono; [apply Hm|]. cbn beta. intros a y [E1 E2]. by apply Hk. Qed.

Lemma add_run p l x : held x = l ->
  wp (mmc_add_host p) (fun r y => base y = base x /\
    if truth (fst r) then held y = l \/ held y = SIdr (snd r) :: l
    else held y = SDev p :: SIdr (snd r) :: l /\ SDev p ∉ SIdr (snd r) :: l /\ SIdr (snd r) ∉ l) x.
Proof.
  intros <-. apply wp_bind. eapply call_run; [apply pre_held|]. cbn beta. intros ok w1 E1.
  destruct (negb ok); [apply wp_ret; split; [done|by left]|].
  apply wp_bind. eapply call_run; [apply get_held|]. cbn beta. cbn [fst snd]. intros [e i] w2 E2. cbn [fst snd] in *.
  destruct (truth e) eqn:Ee; [apply wp_ret; cbn [fst snd]; rewrite Ee, E2; auto|]. destruct E2 as [E2 Hi]. rewrite E1 in *.
  apply wp_bind. eapply call_run; [apply led_held|]. cbn beta. cbn [fst snd]. intros [] w3 E3.
  apply wp_bind. eapply call_run; [apply dev_held|]. cbn beta. cbn [fst snd]. intros e4 w4 E4. rewrite E3, E2 in *.
  destruct (truth e4) eqn:Ee4; [apply wp_ret; cbn [fst snd]; rewrite Ee4; auto|]. destruct E4 as [E4 Hd].
  apply wp_bind, wp_bind. eapply wp_mono; [apply power_off_tame|]. cbn beta. cbn [fst snd]. intros [] y [Eb El].
  eapply call_run; [apply core_held|]. cbn beta. intros [] w5 E5. apply wp_ret. cbn. rewrite E5, El. done.
Qed.

Lemma remove_run d v l x : in_u32 v -> base x = u32 (v + 0x100) ->
  held x = SDev (sv_mmc d) :: SIdr (sv_index d) :: SIrq (sv_irq d) (sv_mmc d) :: SMap v :: SHost (sv_mmc d) :: l ->
  SDev (sv_mmc d) ∉ SIdr (sv_index d) :: SIrq (sv_irq d) (sv_mmc d) :: SMap v :: SHost (sv_mmc d) :: l ->
  SIdr (sv_index d) ∉ SIrq (sv_irq d) (sv_mmc d) :: SMap v :: SHost (sv_mmc d) :: l ->
  SIrq (sv_irq d) (sv_mmc d) ∉ SMap v :: SHost (sv_mmc d) :: l -> SMap v ∉ SHost (sv_mmc d) :: l -> SHost (sv_mmc d) ∉ l ->
  wp (sslsd_remove d) (fun a y => a = 0 /\ held y = l) x.
Proof.
  intros Hv Hb Hl Hd Hx Hi Hm Hh. apply wp_bind. eapply call_run; [apply timer_held|]. cbn beta. intros [] w1 E1.
  apply tame_run; [apply exit_tame|]. intros ? y Eb El. cbn [fst snd] in *. rewrite E1, Hl in El.
  apply wp_bind, wp_bind, wp_bind. eapply call_run; [apply core_held|]. cbn beta. intros [] w2 E2. rewrite El in E2.
  eapply wp_mono; [apply power_off_tame|]. cbn beta. cbn [fst snd]. intros [] y2 [Eb2 El2]. rewrite E2 in El2.
  apply wp_bind. eapply call_run; [apply del_held|]. cbn beta. intros [] w3 E3. rewrite El2, release_head in E3 by done.
  apply wp_bind. eapply call_run; [apply led_held|]. cbn beta. cbn [fst snd]. intros [] w4 E4. rewrite E3 in E4.
  eapply call_run; [apply idr_held|]. cbn beta. cbn [fst snd]. intros [] w5 E5. rewrite E4, release_head in E5 by done.
  apply wp_bind. eapply call_run; [apply irq_free_held|]. cbn beta. cbn [fst snd]. intros [] w6 E6. rewrite E5, release_head in E6 by done.
  apply wp_bind. eapply (free_unmap_run v); [done|cbn; congruence|exact E6|done|]. intros z Ez _.
  apply wp_bind. eapply free_host_run; [exact Ez|done|]. intros u Eu.
  apply wp_bind. eapply call_run; [apply sysfs_held|]. cbn beta. intros [] w7 E7. apply wp_ret. split; [done|]. cbn. congruence.
Qed.

(** What a successful probe holds of its own. *)
Definition own (d : sslsd_dev) (v : Z) (l : list sd_res) : list sd_res :=
  SIrq (sv_irq d) (sv_mmc d) :: SMap v :: SHost (sv_mmc d) :: l.
(** What a probe answers and leaves held. *)
Definition probed l (a : Z * sslsd_vars * option sslsd_dev) x : Prop :=
  let '(e, _, dev) := a in
  match dev with
  | None => e <> 0 /\ (held x = l \/ e = - ENODEV /\ exists v, held x = SMap v :: l)
  | Some d => e = 0 /\ exists v err x0 x1, mmc_add_host (sv_mmc d) x0 = Done (err, sv_index d) x1 /\
      if truth err then held x = own d v l \/ held x = SIdr (sv_index d) :: own d v l
      else held x = SDev (sv_mmc d) :: SIdr (sv_index d) :: own d v l /\ wp (sslsd_remove d) (fun a y => a = 0 /\ held y = l) x
  end.

(** The part of the probe behind the mapping. *)
Lemma sd_probe_run v l x : held x = l -> SMap 0xFFFFFF00 ∉ l -> wp (sslsd_probe v) (probed l) x.
Proof.
  intros Hl Htop. apply wp_bind. eapply call_run; [apply resources_held|]. cbn beta. intros [r irq] w1 E1. cbv zeta. cbn [fst snd].
  destruct ((r =? 0) || _); [apply wp_ret; cbn; rewrite E1; auto|].
  apply wp_bind. eapply call_run; [apply alloc_held|]. cbn beta. cbn [fst snd]. intros mmc w2 E2. destruct (mmc =? 0); [apply wp_ret; cbn; split; [done|left; congruence]|].
  destruct E2 as (E2 & Hh). rewrite E1, Hl in *. apply wp_bind. eapply call_run; [apply map_held|]. cbn beta. cbn [fst snd]. intros b w3 [Hb E3].
  apply wp_bind, wp_upd_t. rewrite (u32_id b) by done. destruct (Z.eqb_spec b 0) as [->|Hne].
  { (* no mapping: the address 0 less 0x100 is unmapped *)
    apply wp_bind, wp_bind, wp_the_t. cbn [snd st_t on_t h_r zero_t]. eapply call_run; [apply unmap_held|]. cbn beta. cbn [fst snd].
    intros [] w4 E4. change (u32 (0 - 0x100)) with 0xFFFFFF00 in E4. rewrite E3, E2, release_under, (release_none _ _ Htop) in E4 by discriminate.
    apply wp_bind. eapply free_host_run; [exact E4|done|]. intros y Ey. apply wp_ret. cbn. auto. }
  destruct E3 as [E3 Hm]. rewrite E2 in *. apply wp_bind, wp_upd_t, wp_bind, wp_upd_t.
  apply tame_run; [apply init_tame|]. intros rt y Eb El. cbn in Eb. cbn [fst] in El. rewrite E3 in El.
  destruct (truth rt).
  { apply wp_bind. eapply call_run; [apply host_held|]. cbn beta. intros [] w4 E4. apply wp_ret. cbn. split; [done|]. right. split; [done|].
    exists b. by rewrite E4, El, release_under, release_head by (done || discriminate). }
  apply wp_bind, wp_the_t, wp_bind. eapply call_run; [apply req_held|]. cbn beta. intros e w4 E4. destruct (truth e) eqn:Ee.
  - apply tame_run; [apply exit_tame|]. intros ? z Ebz Elz. cbn [fst snd] in *.
    apply wp_bind. eapply (free_unmap_run b); [done|congruence|by rewrite Elz, E4, El|done|]. intros u Eu _.
    apply wp_bind. eapply free_host_run; [exact Eu|done|]. intros q Eq. apply wp_ret. cbn. split; [by intros ->|by left].
  - destruct E4 as [E4 Hi]. rewrite El in *. apply wp_bind. eapply call_run; [apply timer_held|]. cbn beta. cbn [fst snd]. intros [] w5 E5.
    rewrite E4 in E5. apply wp_bind.
    pose proof (add_run mmc _ (w5, snd y) E5) as Ha. apply wp_run in Ha as ([err idx] & x1 & Ea & Hb1 & Hx1). unfold wp at 1. rewrite Ea.
    cbn [fst snd] in *. apply wp_bind. eapply call_run; [apply sysfs_held|]. cbn beta. cbn [fst snd]. intros ? w7 E7. apply wp_ret. cbn.
    split; [done|]. exists b, err, (w5, snd y), x1. split; [exact Ea|]. unfold own. cbn [sv_mmc sv_irq sv_index].
    destruct (truth err); [by rewrite E7|]. destruct Hx1 as (E6 & Hd & Hx). rewrite E7, E6. split; [done|].
    apply (remove_run _ b); cbn; try done; congruence.
Qed.

(** C39. A probe that answers 0 holds the host, the mapping of the registers and
    the interrupt; what it does not tell is whether [mmc_add_host], whose answer
    it drops, succeeded: if so it also holds the host's number and its device, and
    removal gives everything back; if not there is no device (and perhaps a
    number), and the probe has answered 0 all the same.  A probe that fails holds
    nothing, with one exception: when the controller does not come up the host is
    freed and the registers stay mapped.  (When the mapping fails it unmaps the
    top of the address space, 0x100 below null, which must not be somebody
    else's.) *)
Theorem sd_probe_resources v w s l : sd_held w = l -> SMap 0xFFFFFF00 ∉ l ->
  exists e v' dev x, sslsd_probe v (w, s) = Done (e, v', dev) x /\
  match dev with
  | None => e <> 0 /\ (held x = l \/ e = - ENODEV /\ exists a, held x = SMap a :: l)
  | Some d => e = 0 /\ exists a err x0 x1, mmc_add_host (sv_mmc d) x0 = Done (err, sv_index d) x1 /\
      if truth err then held x = own d a l \/ held x = SIdr (sv_index d) :: own d a l
      else held x = SDev (sv_mmc d) :: SIdr (sv_index d) :: own d a l /\
        exists y, sslsd_remove d x = Done 0 y /\ held y = l
  end.
Proof.
  intros Hl Ht. pose proof (sd_probe_run v l (w, s) Hl Ht) as H. apply wp_run in H as ([[e v'] dev] & x & E & H).
  exists e, v', dev, x. split; [done|]. destruct dev as [d|]; [|done].
  destruct H as (E0 & a & err & x0 & x1 & Ea & H). split; [done|]. exists a, err, x0, x1. split; [done|].
  destruct (truth err); [done|]. destruct H as [Hh Hr]. split; [done|]. apply wp_run in Hr as (r & y & E2 & -> & H2). by exists y.
Qed.
End Ledger.

(** ** The module at work

    A kernel that gives out numbers above those in use, and that may have no
    memory for the numbers of the core; a controller that reads as zero, or as one
    when it is dead. *)
Record psim := Psim { ps_res : list sd_res; ps_dead : bool; ps_nomem : bool }.
Definition sd_num (x : sd_res) : Z := match x with SHost p => p | SMap v => v | SIrq _ d => d | SIdr n => n | SDev p => p end.
Definition ps_fresh (w : psim) : Z := 4096 + foldr (fun x n => Z.max (sd_num x) n) 0 (ps_res w).
Lemma ps_fresh_new w x : sd_num x = ps_fresh w -> x ∉ ps_res w.
Proof.
  intros Hx Hin. assert (Hle : sd_num x <= foldr (fun x n => Z.max (sd_num x) n) 0 (ps_res w)).
  { clear Hx. induction Hin; cbn; lia. }
  unfold ps_fresh in Hx. lia.
Qed.
Lemma ps_fresh_pos w : 4096 <= ps_fresh w.
Proof. unfold ps_fresh. induction (ps_res w); cbn; lia. Qed.
#[local] Instance ps_bus : SdBus psim := {|
  sdb_rd _ _ w := (if ps_dead w then 1 else 0, w); sdb_wr _ _ _ w := w; sdb_delay _ w := w |}.
Definition ps_put (x : sd_res) : M psim unit := modify (fun w => Psim (filter (fun y => y <> x) (ps_res w)) (ps_dead w) (ps_nomem w)).
Definition ps_get (x : sd_res) : M psim unit := modify (fun w => Psim (x :: ps_res w) (ps_dead w) (ps_nomem w)).
Definition ps_once (x : sd_res) : M psim Z :=
  let! w := gets id in if decide (x ∈ ps_res w) then ret (-16) else ps_get x ;; ret 0.
#[local] Instance ps_platform : SdPlatform psim := {|
  platform_resources := ret (4096, 23);
  kzalloc_host := (let! p := gets ps_fresh in ps_get (SHost p) ;; ret p);
  put_device p := ps_put (SHost p);
  idr_pre_get := gets (fun w => negb (ps_nomem w));
  idr_get_new _ := (let! p := gets ps_fresh in ps_get (SIdr p) ;; ret (0, p));
  idr_remove n := ps_put (SIdr n);
  led_trigger_register _ := ret tt; led_trigger_unregister _ := ret tt;
  device_add p := ps_once (SDev p); device_del p := ps_put (SDev p);
  core_detect_change := ret tt; core_detach := ret tt;
  sd_ioremap _ := (let! p := gets ps_fresh in if p <? 2 ^ 32 then ps_get (SMap p) ;; ret p else ret 0);
  sd_iounmap v := ps_put (SMap v);
  sd_request_irq irq dev := ps_once (SIrq irq dev);
  sd_free_irq irq dev := ps_put (SIrq irq dev);
  init_timer := ret tt; del_timer := ret tt; sysfs_create_group := ret 0; sysfs_remove_group := ret tt;
  sd_disable_irq _ := ret tt; sd_enable_irq _ := ret tt; mmc_suspend_host _ := ret 0; mmc_resume_host _ := ret 0 |}.
Lemma ps_once_run x w : wp (ps_once x) (fun e w' =>
  if truth e then ps_res w' = ps_res w else ps_res w' = x :: ps_res w /\ x ∉ ps_res w) w.
Proof. apply wp_bind, wp_gets. unfold id. destruct (decide _); [by apply wp_ret|]. by apply wp_bind, wp_modify, wp_ret. Qed.
#[local] Instance ps_ledger : SdLedger psim.
Proof.
  refine {| sd_held := ps_res; req_held irq dev := ps_once_run (SIrq irq dev); dev_held p := ps_once_run (SDev p) |}; try done.
  - intros w. apply wp_bind, wp_gets, wp_bind, wp_modify, wp_ret. cbn -[ps_fresh]. pose proof (ps_fresh_pos w).
    rewrite (proj2 (Z.eqb_neq _ _)) by lia. split; [done|by apply ps_fresh_new].
  - intros r w. apply wp_bind, wp_gets. pose proof (ps_fresh_pos w). destruct (Z.ltb_spec (ps_fresh w) (2 ^ 32)).
    + apply wp_bind, wp_modify, wp_ret. cbn -[ps_fresh]. rewrite (proj2 (Z.eqb_neq _ _)) by lia.
      split; [unfold in_u32; lia|]. split; [done|]. by apply ps_fresh_new.
    + by apply wp_ret.
  - intros p w. apply wp_bind, wp_gets, wp_bind, wp_modify, wp_ret. cbn -[ps_fresh]. split; [done|by apply ps_fresh_new].
Defined.

Definition ps_vars : sslsd_vars := Vars 50000000 0 25 0.
Definition ps_state : sd_state := SdState (zero_t 0) ∅ ∅ (fun _ => 0).
Lemma sd_probe_resources_witness : exists v d x y, sslsd_probe ps_vars (Psim [] false false, ps_state) = Done (0, v, Some d) x /\
  ps_res (fst x) = [SDev 4096; SIdr 12288; SIrq 23 4096; SMap 8192; SHost 4096] /\ sslsd_remove d x = Done 0 y /\ ps_res (fst y) = [].
Proof.
  destruct (sd_probe_resources (L := ps_ledger) ps_vars (Psim [] false false) ps_state [] eq_refl ltac:(apply not_elem_of_nil)) as (e & v & dev & x & E & H).
  assert (Er : match sslsd_probe ps_vars (Psim [] false false, ps_state) with
    | Done (e, _, Some d) x => Some (e, d, ps_res (fst x)) | _ => None end =
    Some (0, Dev 4096 12288 23 100000 25000000 0 19 512, [SDev 4096; SIdr 12288; SIrq 23 4096; SMap 8192; SHost 4096])) by by vm_compute.
  rewrite E in Er. destruct dev as [d|]; [|discriminate Er]. injection Er as -> Ed Eh.
  destruct H as (_ & a & err & x0 & x1 & _ & H). destruct (truth err).
  - change (ps_res (fst x) = own d a [] \/ ps_res (fst x) = SIdr (sv_index d) :: own d a []) in H.
    rewrite Eh in H. exfalso. destruct H as [H|H]; discriminate H.
  - destruct H as (_ & y & E2 & Hy). exists v, d, x, y. split; [exact E|]. split; [exact Eh|]. split; [exact E2|exact Hy].
Defined.

(** The core has no memory for the number of the host: the probe answers 0, and
    there is no device. *)
Example sd_probe_unregistered : match sslsd_probe ps_vars (Psim [] false true, ps_state) with
  | Done (e, _, Some _) x => e = 0 /\ ps_res (fst x) = [SIrq 23 4096; SMap 8192; SHost 4096] | _ => False end.
Proof. by vm_compute. Qed.

(** The reset of the controller does not end: the registers stay mapped. *)
Example sd_probe_leaks : match sslsd_probe ps_vars (Psim [] true false, ps_state) with
  | Done (e, _, None) x => e = - ENODEV /\ ps_res (fst x) = [SMap 8192] | _ => False end.
Proof. by vm_compute. Qed.

(** A second probe multiplies the clock of the module once more. *)
Example probe_again_clock : match sslsd_probe ps_vars (Psim [] true false, ps_state) with
  | Done (_, v, _) x => match sslsd_probe v x with Done (_, v2, _) _ => (v_sd_clk v, v_sd_clk v2) | _ => (0, 0) end | _ => (0, 0) end =
  (25000000, 3290337280).
Proof. by vm_compute. Qed.
